(* ===== verification/_CoqProject ===== *)
-Q . S2P
Prelude.v
CLib.v
Kring.v
Pmm.v
Strbuf.v
Pipe.v
Paging.v
KHeap.v
Window.v
Socket.v
Keyboard.v
Mouse.v
Vfs.v
PhysMem.v
Loader.v
LoadContents.v
ArgBlock.v
Task.v
VfsProc.v
Syscall.v
SyscallSpec.v
SyscallGfx.v
Disk.v
Fat16.v
FatTable.v
FatFile.v
FatWrite.v
FatSpec.v
FatNames.v
FatMount.v
FatDir.v
FatVfs.v
AtaPio.v
Bytes.v
LibcString.v
LibcSort.v
LibcNum.v
LibcPrintf.v
LibcScanf.v
LibcMalloc.v
MallocKernel.v
Ld86.v
Ld86Link.v
Ld86Spec.v
Ld86Load.v
As86.v
As86Spec.v
As86Passes.v
As86Decode.v
Tty.v
TtySpec.v
Vga.v
VgaSpec.v
VgaDraw.v
Cpu.v
CpuSpec.v
Pci.v
Rtl8139.v
RtlSpec.v
Boot.v
