(* ===== verification/Prelude.v ===== *)
(** * mateOS: a verification development

    mateOS is a 32-bit x86 kernel with its own user programs.  This development
    models the kernel, the C code under [src/src/], and the C library, the assembler
    and the linker of the user land ([src/userland/libc.c], [as86.c], [ld86.c]) as executable
    definitions, and proves what the parts promise to one another and to user
    programs.

    ** The program and its parts

    A boot loader starts [kernel.c], which sets up the frame allocator, paging, the
    heap, the tasks, the file systems and the drivers.  User programs are ELF files
    read through the virtual file system and started as tasks with an address space
    each; they enter the kernel through interrupt 0x80 ([syscall.c]), which works on
    the tasks, address spaces, descriptors, pipes and windows.  Interrupts bring the
    timer (the scheduler), the keyboard, the mouse and the network card.  Text goes to a
    terminal with a scrollback, which the display driver sets aside while a program draws.
    User programs are linked with a C library, whose allocator takes memory with the call
    [SYS_SBRK]; an assembler and a linker run on the system itself and write the ELF files
    that the kernel loads.

    ** Which file models which part

    - [Prelude] (this file): machine integers, the state monad with undefined
      behaviour, arrays, strings, the shared tactics and hint databases.
    - [CLib]: [lib.c], the string and memory routines, [itoa], the formatter and the
      kernel log.
    - [Kring]: [utils/kring.c], the byte ring, and the interface [Fifo] that its
      clients use.
    - [Pmm]: [proc/pmm.c], the bitmap of physical frames.
    - [Strbuf]: [utils/strbuf.c], the bounded string buffer.
    - [Pipe]: [fs/pipe.c], named pipes over the byte ring.
    - [Paging]: [arch/i686/paging.c], page directories and tables in physical memory
      and the translation that the processor performs.
    - [KHeap]: the interface of the kernel heap ([kmalloc], [kfree]).
    - [Window]: [io/window.c], the windows of the desktop with their key queues, text
      and pixel buffers.
    - [Socket]: [net/net.c] from the socket table on: the calls on TCP sockets, the
      callbacks of the TCP stack and the clean-up at the end of a process.
    - [Keyboard], [Mouse]: [arch/i686/keyboard.c] and [mouse.c], the interrupt handlers.
    - [Vfs]: [fs/vfs.c], paths, descriptors and the dispatch to file systems, virtual
      files and pipes.
    - [PhysMem], [Loader]: the ELF loader of [syscall.c] and [proc/elf.c];
      [LoadContents]: the bytes that a loaded program sees.
    - [VfsProc]: [fs/vfs_proc.c], the reports and the kernel log under [/mos].
    - [ArgBlock], [Task]: [proc/task.c], the argument block of a new task, the task
      table and its ring, creation, scheduling, termination.
    - [Syscall]: [syscall.c], the dispatcher and every call; [SyscallSpec] and
      [SyscallGfx] prove its properties.
    - [Disk]: the interface [BlockDev] that the disk driver promises to the file
      system.  [AtaPio]: the driver [drivers/ata_pio.c] on the ports of an ATA drive,
      which is an instance of it.
    - [Fat16]: [fs/fat16.c], the FAT16 file system over a block device; its properties
      are proved in [FatTable] (the FAT and its cache), [FatFile] (chains and reading),
      [FatWrite] (writing), [FatMount] (mounting), [FatNames] (8.3 names) and stated in
      [FatSpec].  [FatDir] is about directories and lookup, [FatVfs] about paths and
      about a file of the volume seen through [Vfs].
    - [Bytes]: memory of the user programs as bytes.  [LibcString], [LibcSort],
      [LibcNum], [LibcPrintf], [LibcScanf]: [userland/libc.c], strings and memory,
      [qsort], the conversions of numbers, the formatter and the scanner.
    - [LibcMalloc]: [malloc], [calloc], [free] and [realloc] over the interface [Brk];
      [MallocKernel]: the same over the [SYS_SBRK] of [Syscall].
    - [Ld86]: the parsers of object files of [userland/ld86.c]; [Ld86Link]: symbols,
      archives, relocation, the command line and the ELF output; [Ld86Spec]: their
      properties; [Ld86Load]: the output of the linker, loaded by [Loader].
    - [As86]: the whole of [userland/as86.c].  [As86Spec]: the object file and what the
      linker reads from it; [As86Passes]: the two passes; [As86Decode]: the instructions
      against a decoder.
    - [Tty]: the text terminal ([arch/i686/legacytty.c], [io/console.c]); [TtySpec]: the
      document that it shows.
    - [Vga]: [arch/i686/vga.c] on the registers and the memory of the adapter;
      [VgaSpec]: the change of modes; [VgaDraw]: the figures.
    - [Cpu]: the descriptor tables, the interrupt controllers, the dispatch of
      interrupts and the timer ([gdt.c], [tss.c], [interrupts.c], [timer.c], [686init.c]);
      [CpuSpec]: what the processor does with them.
    - [Pci]: [arch/i686/pci.c], the configuration space and the scan of the bus.
    - [Rtl8139]: [drivers/rtl8139.c] on the registers of the card; [RtlSpec]: the card and
      its driver as two queues.
    - [Boot]: the command line ([kernel.c]), the memory map ([boot/multiboot.c]) and the
      identification of the processor ([arch/i686/util.c]).

    Definitions have the names of the source; a loop of a function is a definition
    of its own beside it.  A global variable or a static array is a field of the
    state record of its component ([pipes_t], [kern], [fs_t], ...), and a function is
    a state transformer in the monad [M] below: [None] is undefined behaviour (an
    access outside an array, a read of an uninitialised byte, signed overflow), so a
    theorem that a call returns [Some] also says that it performs no such access.
    Machine integers are [Z] with the conversions of C written out.  A call that
    yields the processor returns the point where it continues ([Blocked], the
    resumption of [Syscall]), and the scheduler is a function of the interrupted
    state: interleavings are sequences of such steps.

    ** What is proved

    - Memory: frames handed out are distinct and in RAM whatever the sequence of
      calls ([Pmm]); mapping and unmapping change the translation of exactly one page
      of one address space; creating and destroying address spaces takes and returns
      exactly their frames ([Paging]).
    - Rings, pipes and input: the byte ring refines a bounded queue; pipes deliver
      bytes in order and stay inside their tables under any sequence of calls; the
      keyboard handler queues what a reference decoder reads from the scancodes; the
      pointer stays on the screen.
    - Windows: any sequence of calls keeps the table in order with one heap block per
      window, and the id of a destroyed window is refused.
    - Files: path resolution is a normal form; any sequence of calls on a descriptor
      table keeps it and the pipes in order; reading a file into memory returns its
      contents.  For FAT16: mounting establishes the invariant of the volume, which
      includes that the cache of FAT sectors agrees with the device; allocation and
      release of clusters change exactly what they must; reading and writing an open
      file refine reading and splicing an array of bytes, leave the other files alone,
      and a write followed by a read returns the bytes; lookup finds the first live
      entry of a name; a file read by its path through the virtual file system gives
      the bytes of its chain.
    - The disk: sectors written through the ports are read back, and a write that
      fails has stored a prefix of its sectors.  The drive is modelled as the ATA
      standard describes the PIO protocol, with an arbitrary latency per command and
      sector; the driver over it has the contract on which FAT16 is verified.
    - Programs and tasks: the loader changes only the address space it loads and free
      frames; the argument block reads back as argc and argv; a created task is fresh
      and ready; the scheduler is a round robin with bounded waiting; ending a task
      releases what it held and wakes its waiters.
      A loaded program sees the bytes of its file, zeroes up to its size in memory, and
      starts at its entry point ([LoadContents]).
    - System calls: user buffers and strings are accepted only inside the user region;
      sbrk, wait and the ownership of the graphics mode behave as documented.  A file
      under [/mos], read in pieces, gives the pieces of its report ([VfsProc]).
    - Sockets: the calls of a process and the callbacks of the network leave the
      sockets of other processes alone, and a connection is a bounded queue of bytes.
    - The C library: blocks of the allocator are disjoint, as large as asked for and
      keep their bytes under any sequence of calls, over an abstract [Brk] and over the
      kernel, where they are backed by user memory; [qsort] sorts; the formatter agrees
      with a reference definition and the scanner reads its numbers back.
    - The linker: what it makes of an object file is well formed; symbols resolve as a
      reference definition says; the output holds the payloads with every relocation
      applied, and the kernel loads it at the address that it was linked for.
    - The assembler: the object that it writes is read back by the linker with the same
      sections, symbols and relocations; the second pass emits what the first has
      counted, for sources whose encodings do not depend on labels; the bytes of the
      moves, the arithmetic and the tests decode to the instruction that was written.
    - The terminal refines a document: after any output, page keys and changes of mode
      the screen shows the right 25 lines of it ([TtySpec]).
    - The display: leaving a graphics mode brings back every register, the palette and
      the planes of the text mode ([VgaSpec]); a line ends, stays within half a pixel of
      the ideal one and inside the screen ([VgaDraw]).
    - Interrupts: after the initialization, whatever the kernel then does, a program can
      enter it only by the vectors 0x80 and 0x81, on the kernel stack of its task, and
      has no port; a hardware interrupt is ended on the right controllers and its handler
      called once; the timer switches to the task of the round robin together with its
      kernel stack ([CpuSpec]).
    - Devices: the scan finds the functions on the bus ([Pci]); received and sent frames
      pass the card in order and unchanged, under any interleaving ([RtlSpec]).
    - Boot: the command line is read word by word and selects the first program, and the
      top of the memory is that of the map ([Boot]).

    Where the code departs from its comments or from what a call should do, a theorem
    or an example states what it does, and the manifest lists it as a finding.

    ** Interfaces

    Components that use another one through an interface are verified against a
    class: [Fifo] (the ring), [KHeap] (the heap), [BlockDev] (the disk), [Brk] (the
    program break), [Lwip] (the TCP stack, without laws), the record of operations of a
    file system, and the classes of the network and display calls in [Syscall].  Each has an instance, with which the examples and witnesses are
    evaluated.

    ** Fuel and bounds

    Loops of the source with a bound recurse on that bound.  Loops over linked data
    have fuel that is enough: the ring of tasks has at most [MAX_TASKS] members, the
    scan of a user string ends at the end of the user region, a read of [len] bytes
    visits at most [len / 512 + 3] clusters, and a chain of clusters without a cycle
    has at most 65525 members, and a close of a listener recurses at most once for each
    of the eight sockets.  The passes of the assembler recurse on the source text and its
    data directives on the counts that they give; a line has as many steps as its longer
    side; a packet takes at least eight bytes of the receive ring; waiting for the reset
    of the card takes fuel for the time of the reset.  The theorems show that the result
    is reached.  Where
    the source has no bound and the data may be cyclic (the chain of a directory on
    a damaged volume) running out of fuel is [None], the call that does not return.

    ** What is not modelled

    The assembly (entry of interrupts, context switch, boot code), of which the addresses
    and the order of the saved registers are parameters; the copying of the record of the
    boot loader and the sequence of initializers in [kernel_main]; the set-up of the PS/2
    controller and of the serial line; the set-up of the network interface, ping and the
    configuration calls of [net.c], which only drive the third-party lwip; the heap allocator
    ([liballoc], third-party); of the user land, the streams and the wrappers of system calls of
    [libc.c], the shell, the desktop and the other programs, among them third-party ones
    (Doom, the Tiny C compiler, SmallerC); messages to the console.  They are parameters where
    the modelled code calls them.  The hardware (the drive, the display adapter, the
    interrupt controllers, the PCI bus, the network card, the address translation and
    the entry through a gate) is modelled after its documentation in the files of the
    drivers, next to the code that works on it. *)

From stdpp Require Export prelude list gmap strings.
From Stdlib Require Export ZArith Lia Bool.

#[global] Open Scope Z_scope.
#[global] Set Default Goal Selector "!".

(** ** Machine integers

    A C integer is a [Z] in the range of its type; the conversions that C
    performs are written out with the functions below.  [u8], [u16] and [u32]
    are the unsigned conversions (reduction modulo 2^w), [s32] is the
    conversion of a 32-bit pattern to [int] (two's complement). *)

Definition u8 (x : Z) : Z := x mod 256.
Definition u16 (x : Z) : Z := x mod 65536.
Definition u32 (x : Z) : Z := x mod 4294967296.
Definition s32 (x : Z) : Z := (x + 2147483648) mod 4294967296 - 2147483648.

Definition is_u8 (x : Z) : Prop := 0 ≤ x < 256.
Definition is_u16 (x : Z) : Prop := 0 ≤ x < 65536.
Definition is_u32 (x : Z) : Prop := 0 ≤ x < 4294967296.
Definition is_s32 (x : Z) : Prop := -2147483648 ≤ x < 2147483648.

Ltac mlia := unfold u8, u16, u32, s32, is_u8, is_u16, is_u32, is_s32 in *;
             Z.div_mod_to_equations; lia.

Lemma u32_small x : is_u32 x → u32 x = x.
Proof. intros H. apply Z.mod_small, H. Qed.
Lemma u16_small x : is_u16 x → u16 x = x.
Proof. intros H. apply Z.mod_small, H. Qed.
Lemma u8_small x : is_u8 x → u8 x = x.
Proof. intros H. apply Z.mod_small, H. Qed.
Lemma s32_small x : is_s32 x → s32 x = x.
Proof. mlia. Qed.
Lemma u32_range x : is_u32 (u32 x).
Proof. apply Z.mod_pos_bound; lia. Qed.
Lemma u16_range x : is_u16 (u16 x).
Proof. apply Z.mod_pos_bound; lia. Qed.
Lemma u8_range x : is_u8 (u8 x).
Proof. apply Z.mod_pos_bound; lia. Qed.
Lemma s32_range x : is_s32 (s32 x).
Proof. mlia. Qed.
Lemma s32_u32 x : s32 (u32 x) = s32 x.
Proof. mlia. Qed.

Create HintDb cint discriminated.
#[export] Hint Resolve u8_range u16_range u32_range s32_range : cint.

(** ** State with undefined behaviour

    Stateful C code is a function from the state to [None] (the C program
    performs an access outside an object: undefined behaviour) or to the
    returned value and the new state. *)

Definition M (S A : Type) : Type := S → option (A * S).

#[global] Instance M_ret S : MRet (M S) := λ A a s, Some (a, s).
#[global] Instance M_bind S : MBind (M S) := λ A B f m s,
  match m s with None => None | Some (a, s') => f a s' end.

Definition ub {S A} : M S A := λ _, None.
Definition get {S} : M S S := λ s, Some (s, s).
Definition put {S} (s : S) : M S unit := λ _, Some (tt, s).
Definition modify {S} (f : S → S) : M S unit := λ s, Some (tt, f s).
Definition lift {S A} (o : option A) : M S A :=
  λ s, match o with None => None | Some a => Some (a, s) end.

Lemma M_bind_Some {S A B} (m : M S A) (f : A → M S B) s b s'' :
  (m ≫= f) s = Some (b, s'') ↔
  ∃ a s', m s = Some (a, s') ∧ f a s' = Some (b, s'').
Proof.
  unfold mbind, M_bind. destruct (m s) as [[a s']|]; naive_solver.
Qed.

(** ** Arrays

    [a !!! i] of C with an [int] or [uint32_t] index: reading or writing
    outside the array is undefined. *)

Definition zlookup {A} (l : list A) (i : Z) : option A :=
  if 0 <=? i then l !! Z.to_nat i else None.

Definition zupdate {A} (l : list A) (i : Z) (x : A) : option (list A) :=
  if (0 <=? i) && (i <? Z.of_nat (length l))
  then Some (<[Z.to_nat i := x]> l) else None.

Lemma zlookup_Some_range {A} (l : list A) i x :
  zlookup l i = Some x → 0 ≤ i < Z.of_nat (length l).
Proof.
  unfold zlookup. destruct (Z.leb_spec 0 i); [|done].
  intros ?%lookup_lt_Some. lia.
Qed.

Lemma zlookup_in_range {A} (l : list A) i :
  0 ≤ i < Z.of_nat (length l) → ∃ x, zlookup l i = Some x.
Proof.
  intros H. unfold zlookup. destruct (Z.leb_spec 0 i); [|lia].
  apply lookup_lt_is_Some. lia.
Qed.

Lemma zlookup_nonneg {A} (l : list A) i : 0 ≤ i → zlookup l i = l !! Z.to_nat i.
Proof. intros H. unfold zlookup. by rewrite (proj2 (Z.leb_le _ _)) by lia. Qed.

Lemma zlookup_nat {A} (l : list A) (n : nat) :
  zlookup l (Z.of_nat n) = l !! n.
Proof.
  unfold zlookup. destruct (Z.leb_spec 0 (Z.of_nat n)); [|lia].
  by rewrite Nat2Z.id.
Qed.

Lemma zupdate_Some {A} (l : list A) i x :
  0 ≤ i < Z.of_nat (length l) → zupdate l i x = Some (<[Z.to_nat i := x]> l).
Proof.
  intros H. unfold zupdate. case_match eqn:E; [done|].
  apply andb_false_iff in E. lia.
Qed.

Lemma zupdate_inv {A} (l l' : list A) i x :
  zupdate l i x = Some l' →
  0 ≤ i < Z.of_nat (length l) ∧ l' = <[Z.to_nat i := x]> l.
Proof.
  unfold zupdate. case_match eqn:E; [|done]. intros [= <-].
  apply andb_true_iff in E. split; [lia|done].
Qed.

Lemma zupdate_length {A} (l l' : list A) i x :
  zupdate l i x = Some l' → length l' = length l.
Proof. intros [_ ->]%zupdate_inv. apply length_insert. Qed.

(** ** C strings

    A C string is the list of its bytes before the terminating NUL.  [chr s i]
    is [s[i]], which is the NUL at the end of the string. *)

Definition str (s : string) : list Z :=
  (λ a, Z.of_nat (Ascii.nat_of_ascii a)) <$> String.list_ascii_of_string s.

Definition chr (s : list Z) (i : nat) : Z := default 0 (s !! i).

Definition cstring (s : list Z) : Prop := Forall (λ c, 1 ≤ c < 256) s.

#[global] Instance cstring_dec s : Decision (cstring s).
Proof. apply Forall_dec. intros c. apply _. Defined.

(** Decides a decidable proposition about closed terms by computation. *)
Ltac decided := apply (bool_decide_unpack _); vm_compute; exact I.

Definition str_eqb (s t : list Z) : bool := bool_decide (s = t).

Lemma str_eqb_eq s t : str_eqb s t = true ↔ s = t.
Proof. apply bool_decide_eq_true. Qed.

Lemma cstring_app s t : cstring s → cstring t → cstring (s ++ t).
Proof. apply Forall_app_2. Qed.
Lemma cstring_take n s : cstring s → cstring (take n s).
Proof. apply Forall_take. Qed.
Lemma cstring_drop n s : cstring s → cstring (drop n s).
Proof. apply Forall_drop. Qed.
#[export] Hint Resolve cstring_app cstring_take cstring_drop : cint.

(** ** First-match loops: [for (i = 0; i < N; i++) if (p(a[i])) return i;] *)

Fixpoint find_index {A} (p : A → bool) (l : list A) : option nat :=
  match l with
  | [] => None
  | x :: l => if p x then Some O else S <$> find_index p l
  end.

Lemma find_index_Some {A} (p : A → bool) l i :
  find_index p l = Some i ↔
  (∃ x, l !! i = Some x ∧ p x = true) ∧
  ∀ j y, (j < i)%nat → l !! j = Some y → p y = false.
Proof.
  revert i. induction l as [|x l IH]; intros i; simpl.
  { split; [done|]. intros [[x [Hx _]] _]. by rewrite lookup_nil in Hx. }
  destruct (p x) eqn:Hp.
  - split.
    + intros [= <-]. split; [eauto|]. intros; lia.
    + intros [_ H]. destruct i as [|i]; [done|].
      rewrite (H 0%nat x) in Hp; [done|lia|done].
  - rewrite fmap_Some. setoid_rewrite IH. split.
    + intros (k & ([y [Hy Hpy]] & H) & ->). split; [eauto|].
      intros [|j] z Hj Hz; simpl in *; [congruence|]. eapply H; [|done]. lia.
    + intros [[y [Hy Hpy]] H]. destruct i as [|i]; simpl in *; [congruence|].
      exists i. split; [|done]. split; [eauto|].
      intros j z Hj Hz. apply (H (S j) z); [lia|done].
Qed.

Lemma find_index_None {A} (p : A → bool) l :
  find_index p l = None ↔ ∀ i x, l !! i = Some x → p x = false.
Proof.
  induction l as [|x l IH]; simpl; [naive_solver|].
  destruct (p x) eqn:Hp.
  - split; [done|]. intros H. specialize (H 0%nat x eq_refl). congruence.
  - rewrite fmap_None, IH. split.
    + intros H [|i] y Hy; simpl in *; naive_solver.
    + intros H i y Hy. by apply (H (S i) y).
Qed.

Lemma find_index_lt {A} (p : A → bool) l i :
  find_index p l = Some i → (i < length l)%nat.
Proof.
  intros [[x [Hx _]] _]%find_index_Some. by eapply lookup_lt_Some.
Qed.

(** ** Automation *)

Create HintDb mateos discriminated.
#[export] Hint Resolve find_index_lt : mateos.

(** Splits every [if] and [match] of the goal and simplifies. *)
Ltac split_ifs :=
  repeat (case_match; simplify_eq/=; try done).

(** [lia] after evaluating the closed terms [Z.of_nat n]. *)
Ltac znat_in H :=
  match type of H with
  | context [Z.of_nat ?n] =>
    let v := eval vm_compute in (Z.of_nat n) in
    lazymatch v with Z0 => idtac | Zpos _ => idtac end; change (Z.of_nat n) with v in H
  end.
Ltac znat :=
  repeat match goal with
  | H : context [Z.of_nat _] |- _ => znat_in H
  | |- context [Z.of_nat ?n] =>
    let v := eval vm_compute in (Z.of_nat n) in
    lazymatch v with Z0 => idtac | Zpos _ => idtac end; change (Z.of_nat n) with v
  end.
Ltac znlia := znat; lia.

(** Inverts a hypothesis [(x ← m; k) s = Some r]. *)
Ltac inv_bind H :=
  let a := fresh "a" in let s := fresh "s" in
  let E := fresh "E" in
  apply M_bind_Some in H as (a & s & E & H).

(** Lists updated at a position, by cases on the position. *)
Lemma list_lookup_insert_cases {A} (l : list A) (i j : nat) (x y : A) :
  <[i := x]> l !! j = Some y →
  (i = j ∧ x = y ∧ (i < length l)%nat) ∨ (i ≠ j ∧ l !! j = Some y).
Proof.
  intros H. destruct (decide (i = j)) as [->|Hne].
  - left. assert (Hj : (j < length l)%nat).
    { apply lookup_lt_Some in H. by rewrite length_insert in H. }
    rewrite list_lookup_insert_eq in H by done. naive_solver.
  - right. by rewrite list_lookup_insert_ne in H.
Qed.

Lemma Forall_insert_list {A} (P : A → Prop) (l : list A) i x :
  Forall P l → P x → Forall P (<[i := x]> l).
Proof. intros ??. by apply Forall_insert. Qed.
#[export] Hint Resolve Forall_insert_list : mateos.

(** ** Copying into an array

    [splice a i l]: the array [a] with the elements of [l] stored from position
    [i] on, which is what the byte-copy loops of the kernel compute. *)

Definition splice {A} (a : list A) (i : nat) (l : list A) : list A :=
  take i a ++ l ++ drop (i + length l) a.

Lemma length_splice {A} (a l : list A) i :
  (i + length l ≤ length a)%nat → length (splice a i l) = length a.
Proof. intros H. unfold splice. rewrite !length_app, length_take, length_drop. lia. Qed.

Lemma splice_nil {A} (a : list A) i : splice a i [] = a.
Proof. unfold splice. simpl. rewrite Nat.add_0_r. apply take_drop. Qed.

Lemma splice_snoc {A} (a l : list A) i x :
  (i + length l < length a)%nat →
  <[(i + length l)%nat := x]> (splice a i l) = splice a i (l ++ [x]).
Proof.
  intros H. unfold splice. rewrite length_app. simpl.
  rewrite insert_app_r_alt by (rewrite length_take; lia).
  rewrite length_take, Nat.min_l by lia. f_equal.
  replace (i + length l - i)%nat with (length l + 0)%nat by lia.
  rewrite insert_app_r, <- app_assoc. f_equal.
  rewrite (drop_S a (default x (a !! (i + length l)%nat))).
  2: { destruct (lookup_lt_is_Some_2 a (i + length l)) as [y Hy]; [lia|]. by rewrite Hy. }
  simpl. f_equal. f_equal. lia.
Qed.

Lemma splice_cons {A} (a l : list A) i x :
  (i + S (length l) ≤ length a)%nat →
  splice (<[i := x]> a) (S i) l = splice a i (x :: l).
Proof.
  intros H. unfold splice. simpl. rewrite Nat.add_succ_r.
  rewrite drop_insert_lt by lia.
  rewrite (take_S_r _ _ x) by (apply list_lookup_insert_eq; lia).
  rewrite take_insert_ge by lia. by rewrite <- app_assoc.
Qed.

Lemma lookup_splice {A} (a l : list A) i j :
  (i + length l ≤ length a)%nat →
  splice a i l !! j =
    if decide (i ≤ j < i + length l)%nat then l !! (j - i)%nat else a !! j.
Proof.
  intros H. unfold splice. case_decide as Hj.
  - rewrite lookup_app_r by (rewrite length_take; lia).
    rewrite length_take, Nat.min_l by lia. apply lookup_app_l. lia.
  - destruct (decide (j < i)%nat).
    + rewrite lookup_app_l by (rewrite length_take; lia). by apply lookup_take_lt.
    + rewrite lookup_app_r by (rewrite length_take; lia).
      rewrite length_take, Nat.min_l by lia.
      rewrite lookup_app_r by lia. rewrite lookup_drop. f_equal. lia.
Qed.

Lemma take_splice_end {A} (a l : list A) i :
  (i + length l ≤ length a)%nat → take (length l) (drop i (splice a i l)) = l.
Proof.
  intros H. unfold splice. rewrite drop_app_ge by (rewrite length_take; lia).
  rewrite length_take, Nat.min_l, Nat.sub_diag by lia. rewrite drop_0, take_app_le by lia.
  by apply take_ge.
Qed.

Lemma splice_app_l {A} (a b l : list A) i :
  (i + length l ≤ length a)%nat → splice (a ++ b) i l = splice a i l ++ b.
Proof.
  intros H. unfold splice. rewrite take_app_le by lia. rewrite drop_app_le by lia. by rewrite <- !app_assoc.
Qed.

(** Two copies, one after the other. *)
Lemma splice_splice {A} (a l l' : list A) i :
  (i + length l + length l' ≤ length a)%nat → splice (splice a i l) (i + length l) l' = splice a i (l ++ l').
Proof.
  intros H. apply list_eq. intros j.
  rewrite (lookup_splice _ l') by (rewrite length_splice; lia).
  rewrite (lookup_splice _ l), (lookup_splice _ (l ++ l')) by (rewrite ?length_app; lia). rewrite length_app.
  repeat case_decide; try lia; try done.
  - rewrite lookup_app_r by lia. f_equal. lia.
  - by rewrite lookup_app_l by lia.
Qed.
