(* ===== verification/CLib.v ===== *)
(** * The kernel's C library ([src/src/lib.c])

    The string and memory routines that the kernel implements itself, the
    number printer [itoa], the formatter behind [printf]/[kprintf] and the ring
    of log lines read back through [/mos/kdebug].  A pointer is the list of the
    bytes of the object from the pointed-to byte on, or an offset into one
    memory where source and destination may overlap; reading or writing past
    the end of the object is [None]. *)

From S2P Require Import Prelude.

(** ** Strings and memory *)

Fixpoint strlen (s : list Z) : option Z :=
  match s with
  | [] => None
  | c :: s => if c =? 0 then Some 0 else n ← strlen s; Some (1 + n)
  end.

Fixpoint strcmp (s1 s2 : list Z) : option Z :=
  match s1, s2 with
  | a :: s1', b :: s2' =>
    if negb (a =? 0) && (a =? b) then strcmp s1' s2' else Some (a - b)
  | _, _ => None
  end.

Fixpoint strncmp (s1 s2 : list Z) (n : nat) : option Z :=
  match n with
  | O => Some 0
  | S n =>
    match s1, s2 with
    | a :: s1', b :: s2' =>
      if negb (a =? b) || (a =? 0) then Some (a - b) else strncmp s1' s2' n
    | _, _ => None
    end
  end.

Fixpoint memcmp (s1 s2 : list Z) (n : nat) : option Z :=
  match n with
  | O => Some 0
  | S n =>
    match s1, s2 with
    | a :: s1', b :: s2' => if negb (a =? b) then Some (a - b) else memcmp s1' s2' n
    | _, _ => None
    end
  end.

(** [memset], [memcpy] and [memmove] on one memory [m]: [d] and [s] are the
    offsets of the destination and of the source. *)
Fixpoint memset (m : list Z) (p : nat) (value : Z) (num : nat) : option (list Z) :=
  match num with
  | O => Some m
  | S num => m' ← zupdate m (Z.of_nat p) (u8 value); memset m' (S p) value num
  end.

Fixpoint memcpy (m : list Z) (d s num : nat) : option (list Z) :=
  match num with
  | O => Some m
  | S num => x ← m !! s; m' ← zupdate m (Z.of_nat d) x; memcpy m' (S d) (S s) num
  end.

(** [while (n--) *--d = *--s;] with [d] and [s] at the ends of the ranges. *)
Fixpoint memcpy_down (m : list Z) (d s num : nat) : option (list Z) :=
  match num with
  | O => Some m
  | S num => x ← m !! (s + num)%nat; m' ← zupdate m (Z.of_nat (d + num)) x;
             memcpy_down m' d s num
  end.

Definition memmove (m : list Z) (d s n : nat) : option (list Z) :=
  if (d <? s)%nat then memcpy m d s n else memcpy_down m d s n.

(** [strncpy]: the copied bytes, then zeroes up to [n]. *)
Fixpoint strncpy_pad (dest : list Z) (i n : nat) : option (list Z) :=
  match n with
  | O => Some dest
  | S n => d ← zupdate dest (Z.of_nat i) 0; strncpy_pad d (S i) n
  end.

Fixpoint strncpy_at (dest src : list Z) (i n : nat) : option (list Z) :=
  match n with
  | O => Some dest
  | S n' =>
    match src with
    | [] => None
    | c :: src => if c =? 0 then strncpy_pad dest i n
                  else d ← zupdate dest (Z.of_nat i) c; strncpy_at d src (S i) n'
    end
  end.

Definition strncpy (dest src : list Z) (n : nat) : option (list Z) := strncpy_at dest src 0 n.

(** ** [itoa] *)

Definition digit_char (rem : Z) : Z := if 9 <? rem then rem - 10 + 97 else rem + 48.

(** [while (unum != 0) ...]: the digits, least significant first, from position
    [i] on.  33 iterations are enough for a 32-bit number in any base from 2. *)
Fixpoint itoa_digits (fuel : nat) (unum base i : Z) (buf : list Z) : option (Z * list Z) :=
  match fuel with
  | O => None
  | S fuel =>
    if unum =? 0 then Some (i, buf) else
    buf' ← zupdate buf i (digit_char (unum mod base));
    itoa_digits fuel (unum / base) base (i + 1) buf'
  end.

(** [while (j < k) swap] *)
Fixpoint itoa_reverse (fuel : nat) (j k : Z) (buf : list Z) : option (list Z) :=
  match fuel with
  | O => None
  | S fuel =>
    if j <? k then
      a ← zlookup buf j; b ← zlookup buf k;
      buf1 ← zupdate buf j b; buf2 ← zupdate buf1 k a;
      itoa_reverse fuel (j + 1) (k - 1) buf2
    else Some buf
  end.

Definition itoa (num base : Z) (buf : list Z) : option (list Z) :=
  if num =? 0 then
    b1 ← zupdate buf 0 48; zupdate b1 1 0
  else
    let is_negative := (num <? 0) && (base =? 10) in
    let num := if is_negative then s32 (- num) else num in
    let unum := u32 num in
    '(i, b1) ← itoa_digits 33 unum base 0 buf;
    '(i, b2) ← (if is_negative then b ← zupdate b1 i 45; Some (i + 1, b)
                else Some (i, b1));
    b3 ← zupdate b2 i 0;
    itoa_reverse 33 0 (i - 1) b3.

(** ** Formatting

    The arguments of a format string, and the characters that [kvprintf] hands
    to its output function.  A format that consumes more arguments than there
    are, or one of another type, is undefined. *)

Inductive fmt_arg := AStr (s : option (list Z)) | AInt (n : Z).

(** The string that [itoa] leaves in a 32-byte buffer. *)
Fixpoint cstr_of (m : list Z) : list Z :=
  match m with [] => [] | c :: m => if c =? 0 then [] else c :: cstr_of m end.

Definition fmt_int (n base : Z) : option (list Z) :=
  cstr_of <$> itoa n base (replicate 32 0).

Fixpoint kvprintf (format : list Z) (args : list fmt_arg) : option (list Z) :=
  match format with
  | [] => Some []
  | [37] => None (* [format++] steps over the NUL *)
  | 37 :: c :: format =>
    if c =? 115 then
      match args with
      | AStr s :: args => rest ← kvprintf format args; Some (default [] s ++ rest)
      | _ => None
      end
    else if c =? 99 then
      match args with
      | AInt n :: args => rest ← kvprintf format args; Some (u8 n :: rest)
      | _ => None
      end
    else if (c =? 100) || (c =? 120) || (c =? 112) then
      match args with
      | AInt n :: args =>
        ds ← fmt_int n (if c =? 100 then 10 else 16);
        rest ← kvprintf format args; Some (ds ++ rest)
      | _ => None
      end
    else if c =? 37 then rest ← kvprintf format args; Some (37 :: rest)
    else rest ← kvprintf format args; Some (37 :: c :: rest)
  | c :: format => rest ← kvprintf format args; Some (c :: rest)
  end.

(** ** The kernel log *)

Definition KLOG_MAX_LINES : Z := 1024.
Definition KLOG_LINE_MAX : Z := 160.

Record klog_t : Type := mk_klog {
  klog_lines : list (list Z);
  klog_line_lens : list Z;
  klog_head : Z;
  klog_count : Z;
  klog_pending : list Z;
  klog_pending_len : Z
}.

Definition klog_boot : klog_t :=
  mk_klog (replicate 1024 (replicate 160 0)) (replicate 1024 0) 0 0 (replicate 160 0) 0.

Definition klog_commit_line : M klog_t unit := λ k,
  let slot := klog_head k in
  let plen := if KLOG_LINE_MAX <=? klog_pending_len k then KLOG_LINE_MAX - 1
              else klog_pending_len k in
  line ← zlookup (klog_lines k) slot;
  line' ← zupdate (splice line 0 (take (Z.to_nat plen) (klog_pending k))) plen 0;
  lines ← zupdate (klog_lines k) slot line';
  lens ← zupdate (klog_line_lens k) slot (u16 plen);
  Some (tt, mk_klog lines lens ((klog_head k + 1) mod KLOG_MAX_LINES)
              (if klog_count k <? KLOG_MAX_LINES then klog_count k + 1 else klog_count k)
              (klog_pending k) 0).

Definition klog_putc (c : Z) : M klog_t unit := λ k,
  if c =? 13 then Some (tt, k) else
  if c =? 10 then klog_commit_line k else
  if klog_pending_len k <? KLOG_LINE_MAX - 1 then
    p ← zupdate (klog_pending k) (klog_pending_len k) c;
    Some (tt, mk_klog (klog_lines k) (klog_line_lens k) (klog_head k) (klog_count k)
                p (klog_pending_len k + 1))
  else Some (tt, k).

Fixpoint klog_puts (cs : list Z) : M klog_t unit :=
  match cs with
  | [] => mret tt
  | c :: cs => klog_putc c;; klog_puts cs
  end.

(** [kprintf]: the log receives the formatted characters (the terminal, which
    receives the same ones, is not part of this state). *)
Definition kprintf (format : list Z) (args : list fmt_arg) : M klog_t unit := λ k,
  cs ← kvprintf format args; klog_puts cs k.

Definition klog_start (k : klog_t) : Z :=
  if klog_count k =? KLOG_MAX_LINES then klog_head k else 0.

Fixpoint snapshot_size_loop (n : nat) (i : Z) (k : klog_t) : option Z :=
  match n with
  | O => Some 0
  | S n => len ← zlookup (klog_line_lens k) (u32 (klog_start k + i) mod KLOG_MAX_LINES);
           rest ← snapshot_size_loop n (i + 1) k;
           Some (u32 (len + 1 + rest))
  end.

Definition klog_snapshot_size (k : klog_t) : option Z :=
  total ← snapshot_size_loop (Z.to_nat (klog_count k)) 0 k;
  Some (u32 (total + klog_pending_len k)).

(** [while (in < limit && copied < len)]: [room] is [len - copied]. *)
Fixpoint copy_line (fuel : nat) (get_at : Z → option Z) (pos limit room : Z) : option (list Z) :=
  match fuel with
  | O => Some []
  | S fuel =>
    if (pos <? limit) && (0 <? room) then
      b ← get_at pos;
      rest ← copy_line fuel get_at (pos + 1) limit (room - 1);
      Some (b :: rest)
    else Some []
  end.

(** The line loop of [klog_read_bytes]: the bytes copied, the position after
    the last line, and whether the function returned inside the loop.  [room]
    is the number of bytes still wanted. *)
Fixpoint read_lines (n : nat) (i : Z) (offset pos room : Z) (k : klog_t)
    : option (list Z * Z * bool) :=
  match n with
  | O => Some ([], pos, false)
  | S n =>
    let idx := u32 (klog_start k + i) mod KLOG_MAX_LINES in
    line_len ← zlookup (klog_line_lens k) idx;
    line ← zlookup (klog_lines k) idx;
    let chunk_len := u32 (line_len + 1) in
    if offset <? u32 (pos + chunk_len) then
      let in_ := if pos <? offset then u32 (offset - pos) else 0 in
      bs ← copy_line (Z.to_nat chunk_len)
             (λ p, if p <? line_len then zlookup line p else Some 10) in_ chunk_len room;
      let room' := room - Z.of_nat (length bs) in
      if room' <=? 0 then Some (bs, pos, true) else
      '(rest, pos', fin) ← read_lines n (i + 1) offset (u32 (pos + chunk_len)) room' k;
      Some (bs ++ rest, pos', fin)
    else read_lines n (i + 1) offset (u32 (pos + chunk_len)) room k
  end.

(** The bytes that [klog_read_bytes] stores in the buffer; it returns their
    number. *)
Definition klog_read_bytes (offset len : Z) (k : klog_t) : option (list Z) :=
  if len =? 0 then Some [] else
  '(bs, pos, fin) ← read_lines (Z.to_nat (klog_count k)) 0 offset 0 len k;
  if (fin : bool) then Some bs else
  let room := len - Z.of_nat (length bs) in
  if (0 <? klog_pending_len k) && (0 <? room) then
    if offset <? u32 (pos + klog_pending_len k) then
      let in_ := if pos <? offset then u32 (offset - pos) else 0 in
      tl ← copy_line (Z.to_nat (klog_pending_len k))
             (λ p, zlookup (klog_pending k) p) in_ (klog_pending_len k) room;
      Some (bs ++ tl)
    else Some bs
  else Some bs.

(** ** Strings and memory: properties *)

Lemma strlen_ok s rest : cstring s → strlen (s ++ 0 :: rest) = Some (Z.of_nat (length s)).
Proof.
  induction 1 as [|c s Hc Hs IH]; [done|]. cbn [strlen app].
  rewrite (proj2 (Z.eqb_neq _ _)) by lia. rewrite IH. simpl. f_equal. lia.
Qed.

(** On two NUL-terminated strings, [strcmp] stays inside both
    objects and returns 0 exactly when the strings are equal; this is what the
    name comparisons of the other components rely on. *)
Theorem strcmp_zero_iff_equal s t r1 r2 :
  cstring s → cstring t →
  ∃ d, strcmp (s ++ 0 :: r1) (t ++ 0 :: r2) = Some d ∧ (d = 0 ↔ s = t).
Proof.
  intros Hs. revert t. induction Hs as [|a s Ha Hs IH]; intros t Ht.
  - destruct Ht as [|b t Hb Ht]; simpl; eexists; (split; [done|]); [done|].
    split; [lia|done].
  - destruct Ht as [|b t Hb Ht]; simpl.
    + rewrite (proj2 (Z.eqb_neq a 0)) by lia. simpl. eexists. split; [done|].
      split; [lia|done].
    + rewrite (proj2 (Z.eqb_neq a 0)) by lia. simpl. destruct (Z.eqb_spec a b) as [->|Hne].
      * destruct (IH t Ht) as (d & -> & Hd). exists d. split; [done|]. rewrite Hd.
        split; [by intros ->|by intros [= ->]].
      * eexists. split; [done|]. split; [lia|congruence].
Qed.

Lemma strcmp_zero_iff_equal_witness :
  ∃ d, strcmp (str "fat" ++ [0; 9]) (str "fat16" ++ [0]) = Some d ∧
       (d = 0 ↔ str "fat" = str "fat16").
Proof.
  apply (strcmp_zero_iff_equal (str "fat") (str "fat16") [9] []);
    repeat constructor; done.
Defined.

Lemma memcpy_up m d s n :
  (d ≤ s ∨ s + n ≤ d)%nat → (d + n ≤ length m)%nat → (s + n ≤ length m)%nat →
  memcpy m d s n = Some (splice m d (take n (drop s m))).
Proof.
  revert m d s. induction n as [|n IH]; intros m d s Ho Hd Hs.
  { simpl. by rewrite take_0, splice_nil. }
  simpl. destruct (lookup_lt_is_Some_2 m s) as [x Hx]; [lia|]. rewrite Hx. simpl.
  rewrite zupdate_Some by lia. simpl. rewrite Nat2Z.id.
  rewrite IH by (rewrite ?length_insert; lia). f_equal.
  rewrite (drop_S m x s Hx). simpl. rewrite <- splice_cons.
  2: { rewrite length_take, length_drop. lia. }
  f_equal. apply list_eq. intros i. destruct (decide (i < n)%nat).
  - rewrite !lookup_take_lt, !lookup_drop by lia.
    rewrite list_lookup_insert_ne by lia. done.
  - by rewrite !lookup_take_ge by lia.
Qed.

Lemma memcpy_down_ok m d s n :
  (s ≤ d)%nat → (d + n ≤ length m)%nat → (s + n ≤ length m)%nat →
  memcpy_down m d s n = Some (splice m d (take n (drop s m))).
Proof.
  revert m. induction n as [|n IH]; intros m Ho Hd Hs.
  { simpl. by rewrite take_0, splice_nil. }
  simpl. destruct (lookup_lt_is_Some_2 m (s + n)) as [x Hx]; [lia|]. rewrite Hx. simpl.
  rewrite zupdate_Some by lia. simpl. rewrite Nat2Z.id.
  rewrite IH by (rewrite ?length_insert; lia). f_equal.
  apply list_eq. intros i. rewrite !lookup_splice;
    rewrite ?length_take, ?length_drop, ?length_insert; try lia.
  destruct (decide (i = d + n)%nat) as [->|Hi].
  - rewrite decide_False by lia. rewrite decide_True by lia.
    rewrite list_lookup_insert_eq by lia.
    replace (d + n - d)%nat with n by lia. rewrite lookup_take_lt, lookup_drop by lia. done.
  - destruct (decide (d ≤ i < d + n)%nat).
    + rewrite !decide_True by lia. rewrite !lookup_take_lt, !lookup_drop by lia.
      by rewrite list_lookup_insert_ne by lia.
    + rewrite !decide_False by lia. by rewrite list_lookup_insert_ne by lia.
Qed.

(** [memmove] copies the original bytes of the source range to
    the destination range, whatever the overlap of the two, and changes nothing
    else. *)
Theorem memmove_correct m d s n :
  (d + n ≤ length m)%nat → (s + n ≤ length m)%nat →
  memmove m d s n = Some (splice m d (take n (drop s m))).
Proof.
  intros Hd Hs. unfold memmove. destruct (Nat.ltb_spec d s).
  - apply memcpy_up; lia.
  - apply memcpy_down_ok; lia.
Qed.

Lemma memmove_correct_witness :
  memmove [1; 2; 3; 4; 5] 1 0 3 = Some [1; 1; 2; 3; 5] ∧
  memmove [1; 2; 3; 4; 5] 0 1 3 = Some [2; 3; 4; 4; 5].
Proof.
  split.
  - rewrite (memmove_correct [1; 2; 3; 4; 5] 1 0 3) by (simpl; lia). reflexivity.
  - rewrite (memmove_correct [1; 2; 3; 4; 5] 0 1 3) by (simpl; lia). reflexivity.
Defined.

(** ** [itoa]: properties *)

(** The digits of a number, least significant first. *)
Fixpoint le_digits (k : nat) (base u : Z) : list Z :=
  match k with
  | O => []
  | S k => if u =? 0 then [] else digit_char (u mod base) :: le_digits k base (u / base)
  end.

Definition digit_val (c : Z) : Z := if c <? 97 then c - 48 else c - 97 + 10.

(** Reading a numeral: most significant digit first, with a sign in base 10. *)
Definition parse_digits (base : Z) (s : list Z) : Z :=
  fold_left (λ acc c, acc * base + digit_val c) s 0.

Definition parse_int (base : Z) (s : list Z) : Z :=
  match s with
  | 45 :: s => - parse_digits base s
  | _ => parse_digits base s
  end.

Lemma digit_char_val r : 0 ≤ r < 16 → digit_val (digit_char r) = r ∧ 48 ≤ digit_char r < 103.
Proof.
  intros H. unfold digit_char, digit_val.
  destruct (Z.ltb_spec 9 r); [rewrite (proj2 (Z.ltb_ge _ _)) by lia; lia|].
  rewrite (proj2 (Z.ltb_lt _ _)) by lia. lia.
Qed.

Section digits.
Context (base : Z) (Hbase : 2 ≤ base ≤ 16).

Lemma le_digits_bound k u : 0 ≤ u → Forall (λ c, 48 ≤ c < 103) (le_digits k base u).
Proof using Hbase.
  revert u. induction k as [|k IH]; intros u Hu; simpl; [done|].
  case_match; [done|]. constructor.
  - apply digit_char_val. pose proof (Z.mod_pos_bound u base). lia.
  - apply IH, Z.div_pos; lia.
Qed.

Lemma le_digits_value k u :
  0 ≤ u < 2 ^ Z.of_nat k →
  fold_right (λ c acc, acc * base + digit_val c) 0 (le_digits k base u) = u.
Proof using Hbase.
  revert u. induction k as [|k IH]; intros u Hu; cbn [le_digits].
  { simpl in *. lia. }
  destruct (Z.eqb_spec u 0) as [->|Hne]; [done|]. cbn [fold_right].
  pose proof (Z.mod_pos_bound u base ltac:(lia)).
  rewrite IH, (proj1 (digit_char_val (u mod base) ltac:(lia))).
  - rewrite (Z.div_mod u base) at 3 by lia. lia.
  - rewrite Nat2Z.inj_succ, Z.pow_succ_r in Hu by lia.
    split; [apply Z.div_pos; lia|]. apply Z.div_lt_upper_bound; nia.
Qed.

Lemma le_digits_length m k u :
  0 ≤ u < base ^ Z.of_nat m → (length (le_digits k base u) ≤ m)%nat.
Proof using Hbase.
  revert k u. induction m as [|m IH]; intros k u Hu.
  { simpl in Hu. assert (u = 0) as -> by lia. by destruct k. }
  destruct k as [|k]; cbn [le_digits length]; [simpl; lia|].
  destruct (Z.eqb_spec u 0); simpl; [lia|]. apply le_n_S, IH.
  rewrite Nat2Z.inj_succ, Z.pow_succ_r in Hu by lia.
  split; [apply Z.div_pos; lia|]. apply Z.div_lt_upper_bound; nia.
Qed.

Lemma itoa_digits_ok k u i buf :
  0 ≤ u < 2 ^ Z.of_nat k → (i + length (le_digits k base u) ≤ length buf)%nat →
  itoa_digits (S k) u base (Z.of_nat i) buf =
    Some (Z.of_nat (i + length (le_digits k base u)), splice buf i (le_digits k base u)).
Proof using Hbase.
  revert u i buf. induction k as [|k IH]; intros u i buf Hu Hlen.
  { simpl in Hu. assert (u = 0) as -> by lia. simpl. rewrite Nat.add_0_r, splice_nil. done. }
  remember (S k) as f eqn:Ef. cbn [itoa_digits]. subst f. cbn [le_digits] in *.
  destruct (Z.eqb_spec u 0) as [->|Hne].
  { simpl. by rewrite Nat.add_0_r, splice_nil. }
  cbn [length] in Hlen. rewrite zupdate_Some by lia. cbn [mbind option_bind].
  rewrite Nat2Z.id. replace (Z.of_nat i + 1) with (Z.of_nat (S i)) by lia.
  rewrite IH.
  - rewrite splice_cons by lia. f_equal. f_equal. cbn [length]. lia.
  - rewrite Nat2Z.inj_succ, Z.pow_succ_r in Hu by lia.
    split; [apply Z.div_pos; lia|]. apply Z.div_lt_upper_bound; nia.
  - rewrite length_insert. lia.
Qed.
End digits.

Lemma itoa_reverse_ok fuel (pre l post : list Z) :
  (length l ≤ 2 * fuel)%nat →
  itoa_reverse (S fuel) (Z.of_nat (length pre)) (Z.of_nat (length pre + length l) - 1)
    (pre ++ l ++ post) = Some (pre ++ rev l ++ post).
Proof.
  revert pre l post. induction fuel as [|fuel IH]; intros pre l post Hf.
  { destruct l; [|simpl in Hf; lia]. cbn [itoa_reverse].
    rewrite (proj2 (Z.ltb_ge _ _)) by (simpl; lia). done. }
  destruct l as [|a l] using rev_ind; [|clear IHl].
  { cbn [itoa_reverse]. rewrite (proj2 (Z.ltb_ge _ _)) by (simpl; lia). done. }
  destruct l as [|b l].
  { cbn [itoa_reverse]. rewrite (proj2 (Z.ltb_ge _ _)) by (simpl; lia). done. }
  replace (pre ++ ((b :: l) ++ [a]) ++ post) with (pre ++ b :: (l ++ a :: post))
    by (simpl; by rewrite <- app_assoc).
  rewrite length_app in *. cbn [length] in *. remember (S fuel) as f eqn:Ef.
  cbn [itoa_reverse]. rewrite (proj2 (Z.ltb_lt _ _)) by lia.
  rewrite zlookup_nat, lookup_app_r, Nat.sub_diag by lia. cbn [lookup list_lookup app mbind option_bind].
  replace (Z.of_nat (length pre + (S (length l) + 1)) - 1) with
    (Z.of_nat (length pre + S (length l))) by lia.
  rewrite zlookup_nat.
  rewrite lookup_app_r by lia. replace (length pre + S (length l) - length pre)%nat with (S (length l)) by lia.
  change ((b :: l ++ a :: post) !! S (length l)) with ((l ++ a :: post) !! length l).
  rewrite list_lookup_middle by done. cbn [mbind option_bind].
  rewrite zupdate_Some by (rewrite length_app; simpl; lia). cbn [mbind option_bind].
  rewrite Nat2Z.id. rewrite insert_app_r_alt, Nat.sub_diag by lia. cbn [insert list_insert].
  rewrite zupdate_Some by (rewrite !length_app; simpl; rewrite length_app; simpl; lia).
  cbn [mbind option_bind]. rewrite Nat2Z.id.
  replace (<[(length pre + S (length l))%nat:=b]> (pre ++ a :: l ++ a :: post))
    with ((pre ++ [a]) ++ l ++ b :: post).
  2: { rewrite insert_app_r_alt by lia.
       replace (length pre + S (length l) - length pre)%nat with (S (length l)) by lia.
       change (<[S (length l):=b]> (a :: l ++ a :: post)) with
         (a :: <[length l:=b]> (l ++ a :: post)).
       rewrite insert_app_r_alt, Nat.sub_diag by lia. by rewrite <- app_assoc. }
  subst f. specialize (IH (pre ++ [a]) l (b :: post) ltac:(lia)).
  rewrite length_app in IH. cbn [length] in IH.
  replace (Z.of_nat (length pre) + 1) with (Z.of_nat (length pre + 1)) by lia.
  replace (Z.of_nat (length pre + S (length l)) - 1) with
    (Z.of_nat (length pre + 1 + length l) - 1) by lia.
  rewrite IH. f_equal. rewrite <- app_assoc. f_equal.
  simpl. rewrite rev_app_distr. simpl. by rewrite <- !app_assoc.
Qed.

(** What [itoa] leaves in the buffer for the digits [ds], least significant
    first. *)
Lemma itoa_finish (ds buf : list Z) (b2 : list Z) :
  b2 = splice buf 0 ds → (length ds < length buf)%nat → (length ds ≤ 64)%nat →
  (b3 ← zupdate b2 (Z.of_nat (length ds)) 0;
   itoa_reverse 33 0 (Z.of_nat (length ds) - 1) b3) =
  Some (rev ds ++ 0 :: drop (S (length ds)) buf).
Proof.
  intros -> Hlt H64. rewrite zupdate_Some by (rewrite length_splice; lia).
  cbn [mbind option_bind]. rewrite Nat2Z.id.
  change (<[length ds:=0]> (splice buf 0 ds)) with (<[(0 + length ds)%nat:=0]> (splice buf 0 ds)).
  rewrite splice_snoc by (simpl; lia). unfold splice. rewrite length_app. cbn [length app].
  rewrite take_0. cbn [app]. rewrite <- app_assoc. cbn [app].
  replace (0 + (length ds + 1))%nat with (S (length ds)) by lia.
  apply (itoa_reverse_ok 32 []). lia.
Qed.

Lemma parse_digits_rev base ds :
  parse_digits base (rev ds) = fold_right (λ c acc, acc * base + digit_val c) 0 ds.
Proof. unfold parse_digits. rewrite <- fold_left_rev_right, rev_involutive. done. Qed.

Lemma parse_int_digits base ds :
  Forall (λ c, 48 ≤ c < 103) ds → parse_int base ds = parse_digits base ds.
Proof.
  destruct 1 as [|c ds Hc Hds]; [done|]. unfold parse_int.
  assert (c ≠ 45) by lia. repeat (case_match; try done); lia.
Qed.

Lemma le_digits_cstring ds : Forall (λ c, 48 ≤ c < 103) ds → cstring ds.
Proof. intros H. eapply Forall_impl; [exact H|]. simpl. lia. Qed.

(** [itoa] of a number whose magnitude as printed is [u], printed with a minus
    sign when [neg]. *)
Lemma itoa_general num base neg u buf :
  base = 10 ∨ base = 16 → num ≠ 0 →
  neg = (num <? 0) && (base =? 10) → u = u32 (if neg then s32 (- num) else num) →
  (12 ≤ length buf)%nat →
  let s := (if neg then [45] else []) ++ rev (le_digits 32 base u) in
  (if base =? 10 then u < 10 ^ 10 else True) →
  itoa num base buf = Some (s ++ 0 :: drop (S (length s)) buf) ∧ (length s ≤ 11)%nat.
Proof.
  intros Hb Hnum Hneg Hu Hbuf s Hu10. subst s. unfold itoa.
  assert (Hbase : 2 ≤ base ≤ 16) by lia.
  assert (Hru : 0 ≤ u < 2 ^ Z.of_nat 32) by (rewrite Hu; apply u32_range).
  assert (Hlen : (length (le_digits 32 base u) ≤ 10)%nat).
  { apply le_digits_length; [done|]. destruct Hb as [-> | ->]; simpl in *; [lia|].
    change (16 ^ Z.of_nat 10) with (2 ^ 40). change (2 ^ Z.of_nat 32) with (2 ^ 32) in Hru. lia. }
  rewrite (proj2 (Z.eqb_neq num 0) Hnum). rewrite <- Hneg, <- Hu.
  change (itoa_digits 33 u base 0 buf) with (itoa_digits 33 u base (Z.of_nat 0) buf).
  rewrite (itoa_digits_ok base Hbase 32 u 0 buf) by (done || lia).
  cbn [mbind option_bind Nat.add]. remember (le_digits 32 base u) as ds eqn:Eds. clear Eds.
  destruct neg; cbn [app].
  - rewrite zupdate_Some by (rewrite length_splice; lia). cbn [mbind option_bind].
    rewrite Nat2Z.id. replace (<[length ds:=45]> (splice buf 0 ds)) with (splice buf 0 (ds ++ [45]))
      by (rewrite <- splice_snoc by (simpl; lia); done).
    replace (Z.of_nat (length ds) + 1) with (Z.of_nat (length (ds ++ [45])))
      by (rewrite length_app; simpl; lia).
    rewrite (itoa_finish (ds ++ [45]) buf) by (rewrite ?length_app; simpl; done || lia).
    rewrite rev_app_distr, length_app. cbn [rev app length].
    rewrite length_rev, Nat.add_1_r. split; [done|lia].
  - cbn [mbind option_bind]. rewrite (itoa_finish ds buf) by (done || lia). rewrite length_rev. split; [done|lia].
Qed.

(** In a buffer of at least 12 bytes (the callers have 32),
    [itoa] writes a NUL-terminated numeral that reads back as the number in
    base 10, [INT_MIN] included, and as its unsigned value in base 16, and it
    leaves the rest of the buffer as it was. *)
Theorem itoa_roundtrip num base buf :
  is_s32 num → base = 10 ∨ base = 16 → (12 ≤ length buf)%nat →
  ∃ s, itoa num base buf = Some (s ++ 0 :: drop (S (length s)) buf) ∧ cstring s ∧
       (length s ≤ 11)%nat ∧ parse_int base s = if base =? 10 then num else u32 num.
Proof.
  intros Hn Hb Hbuf. destruct (Z.eq_dec num 0) as [->|Hne].
  { destruct buf as [|b0 [|b1 buf]]; simpl in Hbuf; try lia.
    exists [48]. split_and!; [|repeat constructor; lia|simpl; lia|by destruct Hb as [-> | ->]].
    unfold itoa. cbn [Z.eqb]. rewrite zupdate_Some by (simpl; lia). cbn [mbind option_bind].
    by rewrite zupdate_Some by (simpl; lia). }
  set (neg := (num <? 0) && (base =? 10)).
  set (u := u32 (if neg then s32 (- num) else num)).
  assert (Hval : base = 10 → u = Z.abs num).
  { intros ->. unfold u, neg. simpl. destruct (Z.ltb_spec num 0); simpl;
      unfold is_s32 in *; mlia. }
  destruct (itoa_general num base neg u buf Hb Hne eq_refl eq_refl Hbuf) as [E Hlen].
  { destruct (Z.eqb_spec base 10) as [->|]; [|done]. rewrite Hval by done.
    unfold is_s32 in Hn. lia. }
  assert (Hdig : Forall (λ c, 48 ≤ c < 103) (le_digits 32 base u)).
  { apply le_digits_bound; [lia|]. apply (proj1 (u32_range _)). }
  apply Forall_rev in Hdig. eexists. split; [exact E|]. split_and!; [|done|].
  - apply cstring_app; [|by apply le_digits_cstring].
    destruct neg; repeat constructor; lia.
  - assert (Hp : parse_digits base (rev (le_digits 32 base u)) = u).
    { rewrite parse_digits_rev. apply le_digits_value; [lia|]. apply u32_range. }
    destruct neg eqn:En; cbn [app].
    + unfold neg in En. apply andb_true_iff in En as [En1 En2]. rewrite En2.
      unfold parse_int. rewrite Hp, Hval by lia. lia.
    + rewrite parse_int_digits, Hp by done. unfold neg in En.
      apply andb_false_iff in En. destruct (Z.eqb_spec base 10) as [->|]; [|done].
      rewrite Hval by done. lia.
Qed.

Lemma cstr_of_app s r : cstring s → cstr_of (s ++ 0 :: r) = s.
Proof.
  induction 1 as [|c s Hc Hs IH]; [done|]. simpl.
  rewrite (proj2 (Z.eqb_neq c 0)) by lia. by f_equal.
Qed.

Lemma itoa_roundtrip_witness :
  ∃ s, itoa (-2147483648) 10 (replicate 32 7) = Some (s ++ 0 :: drop (S (length s)) (replicate 32 7)) ∧
       s = str "-2147483648" ∧ parse_int 10 s = -2147483648.
Proof.
  destruct (itoa_roundtrip (-2147483648) 10 (replicate 32 7)) as (s & E & Hs & Hl & Hp);
    [done|by left|simpl; lia|].
  exists s. split_and!; [exact E| |exact Hp].
  assert (Hv : cstr_of <$> itoa (-2147483648) 10 (replicate 32 7) = Some (str "-2147483648"))
    by (vm_compute; reflexivity).
  rewrite E in Hv. cbn [fmap option_fmap option_map] in Hv.
  rewrite cstr_of_app in Hv by done. by injection Hv.
Defined.

(** ** The kernel log: properties *)

(** The log as text: every line that is kept, each with its newline, then the
    line being written. *)
Definition line_text (l : list Z) : list Z := l ++ [10].
Definition log_text (L : list (list Z)) (p : list Z) : list Z :=
  concat (line_text <$> L) ++ p.

(** What the log keeps of a stream of characters: the last 1024 lines, cut to
    159 characters, carriage returns dropped. *)
Definition log_putc (c : Z) (x : list (list Z) * list Z) : list (list Z) * list Z :=
  let '(L, p) := x in
  if c =? 13 then (L, p) else
  if c =? 10 then (drop (S (length L) - 1024) (L ++ [p]), []) else
  if (length p <? 159)%nat then (L, p ++ [c]) else (L, p).

Record klog_rep (k : klog_t) (L : list (list Z)) (p : list Z) : Prop := {
  kl_lines : length (klog_lines k) = 1024%nat;
  kl_width : Forall (λ l, length l = 160%nat) (klog_lines k);
  kl_lens : length (klog_line_lens k) = 1024%nat;
  kl_count : klog_count k = Z.of_nat (length L);
  kl_max : (length L ≤ 1024)%nat;
  kl_head : 0 ≤ klog_head k < 1024;
  kl_start : klog_count k < 1024 → klog_head k = klog_count k;
  kl_plen : klog_pending_len k = Z.of_nat (length p);
  kl_pmax : (length p ≤ 159)%nat;
  kl_pending : length (klog_pending k) = 160%nat;
  kl_ptext : take (length p) (klog_pending k) = p;
  kl_text i l : L !! i = Some l →
    (length l ≤ 159)%nat ∧
    zlookup (klog_line_lens k) ((klog_start k + Z.of_nat i) mod 1024) = Some (Z.of_nat (length l)) ∧
    ∃ a, zlookup (klog_lines k) ((klog_start k + Z.of_nat i) mod 1024) = Some a ∧
         take (length l) a = l
}.

Lemma copy_line_ok (g : Z → option Z) (chunk : list Z) fuel pos room :
  (∀ j, (j < length chunk)%nat → g (Z.of_nat j) = chunk !! j) →
  (length chunk - pos ≤ fuel)%nat → 0 ≤ room →
  copy_line fuel g (Z.of_nat pos) (Z.of_nat (length chunk)) room =
    Some (take (Z.to_nat room) (drop pos chunk)).
Proof.
  intros Hg. revert pos room. induction fuel as [|fuel IH]; intros pos room Hf Hr; simpl.
  { by rewrite drop_ge, take_nil by lia. }
  destruct (Z.ltb_spec (Z.of_nat pos) (Z.of_nat (length chunk))); simpl.
  2: { by rewrite drop_ge, take_nil by lia. }
  destruct (Z.ltb_spec 0 room); simpl.
  2: { replace (Z.to_nat room) with O by lia. by rewrite take_0. }
  destruct (lookup_lt_is_Some_2 chunk pos) as [b Hb]; [lia|].
  rewrite Hg, Hb by lia. simpl.
  replace (Z.of_nat pos + 1) with (Z.of_nat (S pos)) by lia. rewrite IH by lia. simpl.
  rewrite (drop_S _ _ _ Hb). replace (Z.to_nat room) with (S (Z.to_nat (room - 1))) by lia. done.
Qed.

Lemma line_text_length L : Forall (λ l, (length l ≤ 159)%nat) L →
  (length (concat (line_text <$> L)) ≤ 160 * length L)%nat.
Proof.
  induction 1 as [|l L Hl HL IH]; [done|]. cbn [fmap list_fmap concat].
  rewrite length_app. unfold line_text at 1. rewrite length_app. simpl in *. lia.
Qed.

Section read.
Context (k : klog_t) (L : list (list Z)) (p : list Z) (Hk : klog_rep k L p).

Lemma klog_short : Forall (λ l, (length l ≤ 159)%nat) L.
Proof using Hk.
  apply Forall_lookup. intros i l Hl. apply (kl_text k L p Hk i l Hl).
Qed.

(** The slot of the [i]-th kept line. *)
Lemma klog_slot i : (i < length L)%nat →
  u32 (klog_start k + Z.of_nat i) mod KLOG_MAX_LINES = (klog_start k + Z.of_nat i) mod 1024.
Proof using Hk.
  intros Hi. pose proof (kl_head k L p Hk). pose proof (kl_max k L p Hk).
  unfold KLOG_MAX_LINES. rewrite u32_small; [done|].
  unfold klog_start, is_u32. case_match; lia.
Qed.

Lemma snapshot_size_ok n i Ls :
  drop i L = Ls → length Ls = n →
  snapshot_size_loop n (Z.of_nat i) k = Some (Z.of_nat (length (concat (line_text <$> Ls)))).
Proof using Hk.
  revert i Ls. induction n as [|n IH]; intros i Ls HL Hn.
  { apply length_zero_iff_nil in Hn as ->. done. }
  destruct Ls as [|l Ls]; [done|]. simpl in Hn.
  assert (Hi : L !! i = Some l).
  { rewrite <- (Nat.add_0_r i), <- lookup_drop, HL. done. }
  pose proof (lookup_lt_Some _ _ _ Hi).
  assert (HL' : drop (S i) L = Ls) by (rewrite (drop_S _ _ _ Hi) in HL; congruence).
  pose proof klog_short as Hsh. rewrite <- (take_drop i L), HL in Hsh.
  apply Forall_app in Hsh as [_ Hsh]. pose proof (line_text_length _ Hsh) as Hb.
  pose proof (kl_max k L p Hk). destruct (kl_text k L p Hk i l Hi) as (_ & Hlen & _).
  cbn [snapshot_size_loop]. rewrite klog_slot, Hlen by done. cbn [mbind option_bind].
  replace (Z.of_nat i + 1) with (Z.of_nat (S i)) by lia.
  rewrite (IH (S i) Ls) by (done || lia). cbn [mbind option_bind].
  cbn [fmap list_fmap concat] in *. rewrite length_app in *.
  assert (length (line_text l) = S (length l)) by (unfold line_text; rewrite length_app; simpl; lia).
  assert (Hle : (length (l :: Ls) ≤ length L)%nat) by (rewrite <- HL, length_drop; lia).
  cbn [length] in *. rewrite u32_small; [f_equal; lia|]. unfold is_u32. lia.
Qed.

(** One line of the read loop: the bytes from the line's own text. *)
Lemma read_line_copy i l offset pos room line :
  L !! i = Some l → take (length l) line = l →
  0 ≤ pos → 0 ≤ room → is_u32 offset → offset < pos + Z.of_nat (length (line_text l)) →
  copy_line (Z.to_nat (Z.of_nat (length (line_text l))))
    (λ q, if q <? Z.of_nat (length l) then zlookup line q else Some 10)
    (if pos <? offset then u32 (offset - pos) else 0)
    (Z.of_nat (length (line_text l))) room =
  Some (take (Z.to_nat room) (drop (Z.to_nat (offset - pos)) (line_text l))).
Proof using Hk.
  intros Hi Hline Hpos Hroom Ho Hlt.
  replace (if pos <? offset then u32 (offset - pos) else 0)
    with (Z.of_nat (Z.to_nat (offset - pos))).
  2: { destruct (Z.ltb_spec pos offset); [|lia].
       rewrite u32_small; [lia|]. unfold is_u32 in *. lia. }
  apply copy_line_ok; [|lia|done]. intros j Hj. unfold line_text in *.
  rewrite length_app in Hj. simpl in Hj. destruct (Z.ltb_spec (Z.of_nat j) (Z.of_nat (length l))).
  - rewrite zlookup_nat, lookup_app_l by lia.
    rewrite <- (lookup_take_lt line (length l)) by lia. by rewrite Hline.
  - rewrite lookup_app_r by lia. replace (j - length l)%nat with O by lia. done.
Qed.
End read.

Section read_all.
Context (k : klog_t) (L : list (list Z)) (p : list Z) (Hk : klog_rep k L p).

Lemma read_lines_ok n i Ls offset pos room :
  drop i L = Ls → length Ls = n → 0 ≤ pos → 0 < room → is_u32 offset →
  pos + Z.of_nat (length (concat (line_text <$> Ls))) < 4294967296 →
  ∃ bs pos' fin, read_lines n (Z.of_nat i) offset pos room k = Some (bs, pos', fin) ∧
    bs = take (Z.to_nat room) (drop (Z.to_nat (offset - pos)) (concat (line_text <$> Ls))) ∧
    if (fin : bool) then Z.of_nat (length bs) = room
    else pos' = pos + Z.of_nat (length (concat (line_text <$> Ls))).
Proof using Hk.
  revert i Ls pos room. induction n as [|n IH]; intros i Ls pos room HL Hn Hpos Hroom Ho Hmax.
  { apply length_zero_iff_nil in Hn as ->. exists [], pos, false.
    simpl. rewrite drop_nil, take_nil. split_and!; [done|done|lia]. }
  destruct Ls as [|l Ls]; [done|]. simpl in Hn.
  assert (Hi : L !! i = Some l) by (rewrite <- (Nat.add_0_r i), <- lookup_drop, HL; done).
  assert (HL' : drop (S i) L = Ls) by (rewrite (drop_S _ _ _ Hi) in HL; congruence).
  destruct (kl_text k L p Hk i l Hi) as (Hl & Hlen & a & Ha & Hat).
  cbn [fmap list_fmap concat] in *. rewrite length_app in *.
  set (T := concat (line_text <$> Ls)) in *.
  assert (Hlt : length (line_text l) = S (length l)) by (unfold line_text; rewrite length_app; simpl; lia).
  cbn [read_lines]. rewrite (klog_slot k L p Hk) by (by eapply lookup_lt_Some).
  rewrite Hlen, Ha. cbn [mbind option_bind].
  rewrite (u32_small (Z.of_nat (length l) + 1)) by (unfold is_u32; lia).
  replace (Z.of_nat (length l) + 1) with (Z.of_nat (length (line_text l))) by lia.
  rewrite (u32_small (pos + _)) by (unfold is_u32; lia).
  replace (Z.of_nat i + 1) with (Z.of_nat (S i)) by lia.
  destruct (Z.ltb_spec offset (pos + Z.of_nat (length (line_text l)))) as [Hin|Hout].
  - rewrite (read_line_copy k L p Hk i l offset pos room a) by (done || lia).
    cbn [mbind option_bind].
    set (c := drop (Z.to_nat (offset - pos)) (line_text l)).
    rewrite drop_app_le by lia. fold c.
    destruct (Z.leb_spec (room - Z.of_nat (length (take (Z.to_nat room) c))) 0) as [Hd|Hd];
      rewrite length_take in Hd.
    + exists (take (Z.to_nat room) c), pos, true. split_and!; [done| |rewrite length_take; lia].
      rewrite take_app_le by lia. done.
    + rewrite take_ge by lia. destruct (IH (S i) Ls (pos + Z.of_nat (length (line_text l)))
        (room - Z.of_nat (length c))) as (bs & pos' & fin & -> & -> & Hfin);
        [done|lia|lia|lia|done|fold T; lia|].
      cbn [mbind option_bind]. eexists _, pos', fin. split; [done|].
      replace (Z.to_nat (offset - (pos + Z.of_nat (length (line_text l))))) with O in * by lia.
      rewrite drop_0 in *. fold T in Hfin |- *.
      split.
      * rewrite take_app_ge by lia. f_equal. f_equal. lia.
      * destruct fin; [rewrite length_app; lia|lia].
  - destruct (IH (S i) Ls (pos + Z.of_nat (length (line_text l))) room)
      as (bs & pos' & fin & -> & -> & Hfin); [done|lia|lia|lia|done|fold T; lia|].
    fold T in Hfin |- *. exists (take (Z.to_nat room)
      (drop (Z.to_nat (offset - (pos + Z.of_nat (length (line_text l))))) T)), pos', fin.
    split; [done|]. split; [|destruct fin; lia].
    rewrite drop_app_ge by lia. f_equal. f_equal. lia.
Qed.

Lemma klog_read_ok offset len :
  is_u32 offset → is_u32 len →
  klog_read_bytes offset len k =
    Some (take (Z.to_nat len) (drop (Z.to_nat offset) (log_text L p))).
Proof using Hk.
  intros Ho Hlen. unfold klog_read_bytes, log_text.
  destruct (Z.eqb_spec len 0) as [->|Hne]; [by rewrite take_0|].
  pose proof (line_text_length L (klog_short k L p Hk)).
  assert (0 < len ∧ 0 ≤ offset) by (unfold is_u32 in *; lia).
  pose proof (kl_max k L p Hk). pose proof (kl_pmax k L p Hk).
  destruct (read_lines_ok (length L) 0 L offset 0 len) as (bs & pos & fin & E & Hbs & Hfin);
    try done; try (unfold is_u32 in *; lia).
  rewrite (kl_count k L p Hk), Nat2Z.id.
  change (read_lines (length L) 0 offset 0 len k) with
    (read_lines (length L) (Z.of_nat 0) offset 0 len k).
  rewrite E. cbn [mbind option_bind]. rewrite Z.sub_0_r in Hbs. set (T := concat (line_text <$> L)) in *. destruct fin.
  { rewrite Hbs in Hfin |- *. rewrite length_take, length_drop in Hfin.
    rewrite drop_app_le by lia. rewrite take_app_le; [done|]. rewrite length_drop. lia. }
  subst pos. rewrite (kl_plen k L p Hk).
  assert (Hbl : length bs = (Z.to_nat len `min` (length T - Z.to_nat offset))%nat)
    by (rewrite Hbs, length_take, length_drop; lia).
  destruct (decide (Z.of_nat (length bs) < len)) as [Hr|Hr].
  2: { rewrite (proj2 (Z.ltb_ge 0 (len - Z.of_nat (length bs)))), andb_false_r by lia.
       rewrite Hbs. f_equal.
       rewrite drop_app_le by lia. symmetry. apply take_app_le. rewrite length_drop. lia. }
  rewrite (proj2 (Z.ltb_lt 0 (_ - _))), andb_true_r by lia.
  assert (Hbs' : bs = drop (Z.to_nat offset) T).
  { rewrite Hbs. apply take_ge. rewrite length_drop. lia. }
  destruct (Z.ltb_spec 0 (Z.of_nat (length p))).
  2: { destruct p; [|simpl in *; lia]. rewrite app_nil_r. by rewrite Hbs. }
  rewrite (u32_small (0 + _ + _)) by (unfold is_u32; lia).
  destruct (Z.ltb_spec offset (0 + Z.of_nat (length T) + Z.of_nat (length p))) as [Hi|Hi].
  - replace (if 0 + Z.of_nat (length T) <? offset then _ else 0)
      with (Z.of_nat (Z.to_nat offset - length T)).
    2: { destruct (Z.ltb_spec (0 + Z.of_nat (length T)) offset); [|lia].
         rewrite u32_small; [lia|]. unfold is_u32 in *. lia. }
    rewrite (copy_line_ok (λ q, zlookup (klog_pending k) q) p); [|..|lia|lia].
    2: { intros j Hj. rewrite zlookup_nat. rewrite <- (lookup_take_lt _ (length p)) by done.
         by rewrite (kl_ptext k L p Hk). }
    cbn [mbind option_bind]. f_equal. rewrite Hbs'. rewrite drop_app, take_app.
    rewrite (take_ge (drop _ T)) by (rewrite length_drop; lia). f_equal. f_equal.
    rewrite length_drop. lia.
  - rewrite Hbs'. f_equal. rewrite drop_app. rewrite (drop_ge T) by lia.
    rewrite (drop_ge p) by lia. simpl. by rewrite take_nil.
Qed.
End read_all.

Lemma klog_commit_rep k L p :
  klog_rep k L p →
  ∃ k', klog_commit_line k = Some (tt, k') ∧
        klog_rep k' (drop (S (length L) - 1024) (L ++ [p])) [].
Proof.
  intros Hk. pose proof (kl_head k L p Hk) as Hh. pose proof (kl_max k L p Hk) as Hm.
  pose proof (kl_pmax k L p Hk) as Hpm. pose proof (kl_count k L p Hk) as Hc.
  pose proof (kl_start k L p Hk) as Hs. pose proof (kl_lines k L p Hk) as Hll.
  pose proof (kl_lens k L p Hk) as Hln. pose proof (kl_pending k L p Hk) as Hpl.
  unfold klog_commit_line. rewrite (kl_plen k L p Hk).
  rewrite (proj2 (Z.leb_gt _ _)) by (unfold KLOG_LINE_MAX; lia).
  destruct (zlookup_in_range (klog_lines k) (klog_head k)) as [a Ha]; [lia|].
  rewrite Ha. cbn [mbind option_bind]. rewrite Nat2Z.id, (kl_ptext k L p Hk).
  assert (Hla : length a = 160%nat).
  { rewrite zlookup_nonneg in Ha by lia.
    exact (Forall_lookup_1 _ _ _ _ (kl_width k L p Hk) Ha). }
  rewrite (zupdate_Some (splice a 0 p)) by (rewrite length_splice; lia).
  cbn [mbind option_bind]. rewrite Nat2Z.id.
  rewrite (zupdate_Some (klog_lines k)) by lia. cbn [mbind option_bind].
  rewrite (zupdate_Some (klog_line_lens k)) by lia. cbn [mbind option_bind]. eexists. split; [done|].
  set (d := (S (length L) - 1024)%nat).
  assert (Hld : length (drop d (L ++ [p])) = (length L + 1 - d)%nat)
    by (rewrite length_drop, length_app; simpl; lia).
  set (k' := mk_klog _ _ _ _ _ _).
  assert (Hst : ∀ i, (klog_start k' + i) mod 1024 = (klog_start k + Z.of_nat d + i) mod 1024 ∧
                klog_head k = (klog_start k + Z.of_nat (length L)) mod 1024).
  { intros i. unfold klog_start, k', KLOG_MAX_LINES. simpl.
    destruct (Z.ltb_spec (klog_count k) 1024); destruct (Z.eqb_spec (klog_count k) 1024); try lia.
    - destruct (Z.eqb_spec (klog_count k + 1) 1024); unfold d; mlia.
    - unfold d. mlia. }
  split; simpl; rewrite ?length_insert; try done; try lia.
  - apply Forall_insert; [apply (kl_width k L p Hk)|]. rewrite length_insert, length_splice; lia.
  - rewrite Hld. unfold KLOG_MAX_LINES. case_match; lia.
  - unfold KLOG_MAX_LINES. mlia.
  - unfold KLOG_MAX_LINES. case_match; intros; mlia.
  - intros i l Hi. destruct (Hst (Z.of_nat i)) as [Ei Eh].
    rewrite lookup_drop in Hi. fold k'. rewrite Ei. rewrite <- Z.add_assoc, <- Nat2Z.inj_add.
    apply lookup_app_Some in Hi as [Hi|[Hge Hi]].
    + pose proof (lookup_lt_Some _ _ _ Hi). destruct (kl_text k L p Hk _ _ Hi) as (H1 & H2 & H3).
      split; [done|].
      assert (Hne : Z.to_nat (klog_head k) ≠ Z.to_nat ((klog_start k + Z.of_nat (d + i)) mod 1024)).
      { rewrite Eh. unfold d in *. mlia. }
      rewrite zlookup_nonneg in * by mlia. destruct H3 as (b & H3 & H4).
      rewrite zlookup_nonneg in * by mlia. unfold k'. simpl.
      rewrite !list_lookup_insert_ne by done. eauto.
    + apply list_lookup_singleton_Some in Hi as [Hi <-].
      replace (d + i)%nat with (length L) by lia. rewrite <- Eh. split; [lia|].
      rewrite !zlookup_nonneg by lia. unfold k'. simpl. rewrite !list_lookup_insert_eq by lia.
      split; [rewrite u16_small; [done|unfold is_u16; lia]|]. eexists. split; [done|].
      rewrite take_insert_ge by lia. unfold splice. rewrite take_0, app_nil_l.
      rewrite take_app_le by lia. by apply take_ge.
Qed.

Lemma klog_putc_rep k L p c :
  klog_rep k L p →
  ∃ k', klog_putc c k = Some (tt, k') ∧
        klog_rep k' (log_putc c (L, p)).1 (log_putc c (L, p)).2.
Proof.
  intros Hk. unfold klog_putc, log_putc.
  destruct (c =? 13); [by exists k|]. destruct (c =? 10); [by apply klog_commit_rep|].
  pose proof (kl_pmax k L p Hk). rewrite (kl_plen k L p Hk).
  destruct (Nat.ltb_spec (length p) 159).
  2: { rewrite (proj2 (Z.ltb_ge _ _)) by (unfold KLOG_LINE_MAX; lia). by exists k. }
  rewrite (proj2 (Z.ltb_lt _ _)) by (unfold KLOG_LINE_MAX; lia).
  pose proof (kl_pending k L p Hk). rewrite zupdate_Some by lia.
  cbn [mbind option_bind]. eexists. split; [done|].
  destruct Hk as [? ? ? ? ? ? ? ? ? ? Ht ?]. rewrite Nat2Z.id.
  split; simpl; rewrite ?length_insert, ?length_app; simpl; try done; try lia.
  rewrite Nat.add_1_r, (take_S_r _ _ c) by (apply list_lookup_insert_eq; lia).
  rewrite take_insert_ge by lia. by rewrite Ht.
Qed.

Definition log_puts (cs : list Z) (x : list (list Z) * list Z) : list (list Z) * list Z :=
  fold_left (λ x c, log_putc c x) cs x.

Lemma klog_boot_rep : klog_rep klog_boot [] [].
Proof.
  split; unfold klog_boot; cbn [klog_lines klog_line_lens klog_head klog_count
    klog_pending klog_pending_len length]; rewrite ?length_replicate; try done; try lia.
  apply Forall_replicate. by rewrite length_replicate.
Qed.

Lemma klog_puts_rep cs k L p :
  klog_rep k L p →
  ∃ k', klog_puts cs k = Some (tt, k') ∧
        klog_rep k' (log_puts cs (L, p)).1 (log_puts cs (L, p)).2.
Proof.
  revert k L p. induction cs as [|c cs IH]; intros k L p Hk; [by exists k|].
  cbn [klog_puts]. unfold mbind, M_bind.
  destruct (klog_putc_rep k L p c Hk) as (k1 & -> & Hk1).
  change (log_puts (c :: cs) (L, p)) with (log_puts cs (log_putc c (L, p))).
  destruct (log_putc c (L, p)) as [L1 p1]. by apply IH.
Qed.

(** Whatever characters have been logged since boot, the log
    never faults, a read of [len] bytes at [offset] returns exactly that slice
    of the kept text (the last 1024 lines, each cut to 159 characters and
    terminated, then the unfinished line), and [klog_snapshot_size] is the
    length of that text. *)
Theorem klog_read_is_slice cs offset len :
  is_u32 offset → is_u32 len →
  ∃ k, klog_puts cs klog_boot = Some (tt, k) ∧
    let '(L, p) := log_puts cs ([], []) in
    klog_read_bytes offset len k =
      Some (take (Z.to_nat len) (drop (Z.to_nat offset) (log_text L p))) ∧
    klog_snapshot_size k = Some (Z.of_nat (length (log_text L p))).
Proof.
  intros Ho Hl. destruct (klog_puts_rep cs klog_boot [] [] klog_boot_rep) as (k & E & Hk).
  exists k. split; [done|]. destruct (log_puts cs ([], [])) as [L p]. simpl in Hk.
  split; [by apply klog_read_ok|].
  unfold klog_snapshot_size. rewrite (kl_count k L p Hk), Nat2Z.id.
  pose proof (line_text_length L (klog_short k L p Hk)).
  pose proof (kl_max k L p Hk). pose proof (kl_pmax k L p Hk).
  change (snapshot_size_loop (length L) 0 k) with (snapshot_size_loop (length L) (Z.of_nat 0) k).
  rewrite (snapshot_size_ok k L p Hk (length L) 0 L eq_refl eq_refl).
  cbn [mbind option_bind]. unfold log_text. rewrite length_app, (kl_plen k L p Hk).
  rewrite u32_small; [f_equal; lia|]. unfold is_u32. lia.
Qed.

Lemma klog_read_is_slice_witness :
  ∃ k, klog_puts (str "ab" ++ [10] ++ str "cd" ++ [13] ++ str "e") klog_boot = Some (tt, k) ∧
       klog_read_bytes 1 4 k = Some ([98; 10; 99; 100]) ∧ klog_snapshot_size k = Some 6.
Proof.
  destruct (klog_read_is_slice (str "ab" ++ [10] ++ str "cd" ++ [13] ++ str "e") 1 4)
    as (k & E & H); [done|done|].
  exists k. split; [exact E|]. exact H.
Defined.
