(* ===== verification/Kring.v ===== *)
(** * The kernel byte ring ([src/src/utils/kring.c])

    The ring of [kring_u8_t] over a byte buffer, used by the pipes, the
    keyboard and the windows, and the interface ([Fifo]) the clients rely on:
    a FIFO queue that holds at most [capacity - 1] bytes.  [kring_rep r n q]
    relates a ring to the queue [q] it holds and to the number [n] of bytes it
    can hold; [kring_fifo] shows that push and pop implement the queue. *)

From S2P Require Import Prelude.

(** ** The code *)

(** [kring_u8_t]: [None] in [kr_buf] is the null buffer pointer of a ring in
    zeroed memory. *)
Record kring_u8_t : Type := mk_kring {
  kr_buf : option (list Z);
  kr_capacity : Z;
  kr_head : Z;
  kr_tail : Z
}.

Definition kring_zero : kring_u8_t := mk_kring None 0 0 0.

Definition kring_u8_init (storage : list Z) (capacity : Z) : kring_u8_t :=
  mk_kring (Some storage) capacity 0 0.

Definition kring_u8_reset (r : kring_u8_t) : kring_u8_t :=
  mk_kring (kr_buf r) (kr_capacity r) 0 0.

(** Returns 0, or -1 when there is no buffer or the ring is full. *)
Definition kring_u8_push (value : Z) : M kring_u8_t Z := λ r,
  match kr_buf r with
  | None => Some (-1, r)
  | Some b =>
    if kr_capacity r <? 2 then Some (-1, r) else
    let next := u32 (kr_head r + 1) mod kr_capacity r in
    if next =? kr_tail r then Some (-1, r) else
    b' ← zupdate b (kr_head r) value;
    Some (0, mk_kring (Some b') (kr_capacity r) next (kr_tail r))
  end.

(** [Some v] is the return value 0 with [*out = v]; [None] is -1, which leaves
    [*out] alone. *)
Definition kring_u8_pop : M kring_u8_t (option Z) := λ r,
  match kr_buf r with
  | None => Some (None, r)
  | Some b =>
    if kr_capacity r <? 2 then Some (None, r) else
    if kr_head r =? kr_tail r then Some (None, r) else
    v ← zlookup b (kr_tail r);
    Some (Some v, mk_kring (Some b) (kr_capacity r) (kr_head r)
                           (u32 (kr_tail r + 1) mod kr_capacity r))
  end.

Definition kring_u8_empty (r : kring_u8_t) : bool :=
  match kr_buf r with
  | None => true
  | Some _ => if kr_capacity r <? 2 then true else kr_head r =? kr_tail r
  end.

Definition kring_u8_used (r : kring_u8_t) : Z :=
  match kr_buf r with
  | None => 0
  | Some _ =>
    if kr_capacity r <? 2 then 0 else
    if kr_tail r <=? kr_head r then u32 (kr_head r - kr_tail r)
    else u32 (kr_capacity r - u32 (kr_tail r - kr_head r))
  end.

(** ** The queue interface

    What a byte queue promises to its clients: [rep r n q] says that [r] holds
    the bytes [q], oldest first, and can hold [n] bytes. *)

Class Fifo {R : Type} (rep : R → nat → list Z → Prop)
    (push : Z → M R Z) (pop : M R (option Z)) : Prop := {
  fifo_bound r n q : rep r n q → (length q ≤ n)%nat;
  fifo_push_ok r n q v : rep r n q → (length q < n)%nat →
    ∃ r', push v r = Some (0, r') ∧ rep r' n (q ++ [v]);
  fifo_push_full r n q v : rep r n q → length q = n → push v r = Some (-1, r);
  fifo_pop_ok r n v q : rep r n (v :: q) →
    ∃ r', pop r = Some (Some v, r') ∧ rep r' n q;
  fifo_pop_empty r n : rep r n [] → pop r = Some (None, r)
}.

(** The transfer loops that the clients of the ring run: push bytes until one
    is refused, pop bytes until none is left or [n] were taken. *)
Section transfer.
Context {R : Type} (push : Z → M R Z) (pop : M R (option Z)).

Fixpoint push_bytes (bs : list Z) : M R Z :=
  match bs with
  | [] => mret 0
  | b :: bs => rc ← push b;
               if rc <? 0 then mret 0 else n ← push_bytes bs; mret (1 + n)
  end.

Fixpoint pop_bytes (n : nat) : M R (list Z) :=
  match n with
  | O => mret []
  | S n => o ← pop;
           match o with
           | None => mret []
           | Some b => bs ← pop_bytes n; mret (b :: bs)
           end
  end.
End transfer.

Section fifo_transfer.
Context {R : Type} {rep : R → nat → list Z → Prop}
  {push : Z → M R Z} {pop : M R (option Z)} `{!Fifo rep push pop}.

Lemma push_bytes_spec bs r n q :
  rep r n q →
  ∃ r', push_bytes push bs r =
          Some (Z.of_nat (length bs `min` (n - length q)), r') ∧
        rep r' n (q ++ take (n - length q) bs).
Proof using Type*.
  revert r q. induction bs as [|b bs IH]; intros r q Hr; simpl.
  { exists r. rewrite take_nil, app_nil_r. done. }
  unfold mbind, M_bind. destruct (decide (length q < n)%nat) as [Hlt|Hge].
  - destruct (fifo_push_ok r n q b Hr Hlt) as (r1 & -> & Hr1). simpl.
    destruct (IH r1 (q ++ [b]) Hr1) as (r2 & -> & Hr2).
    exists r2. rewrite length_app in *. simpl in *.
    replace (n - length q)%nat with (S (n - (length q + 1))) by lia.
    simpl. rewrite <- app_assoc in Hr2. split; [|done].
    unfold mret, M_ret. f_equal. f_equal. lia.
  - pose proof (fifo_bound r n q Hr).
    rewrite (fifo_push_full r n q b Hr) by lia. simpl.
    exists r. replace (n - length q)%nat with O by lia.
    simpl. by rewrite app_nil_r.
Qed.

Lemma pop_bytes_spec k r n q :
  rep r n q →
  ∃ r', pop_bytes pop k r = Some (take k q, r') ∧ rep r' n (drop k q).
Proof using Type*.
  revert r q. induction k as [|k IH]; intros r q Hr; simpl; [by exists r|].
  unfold mbind, M_bind. destruct q as [|v q].
  - rewrite (fifo_pop_empty r n Hr). by exists r.
  - destruct (fifo_pop_ok r n v q Hr) as (r1 & -> & Hr1).
    destruct (IH r1 q Hr1) as (r2 & -> & Hr2). by exists r2.
Qed.
End fifo_transfer.

(** ** Representation *)

Definition kring_rep (r : kring_u8_t) (n : nat) (q : list Z) : Prop :=
  ∃ b, kr_buf r = Some b ∧ Z.of_nat (length b) = kr_capacity r ∧
    Z.of_nat n = kr_capacity r - 1 ∧
    2 ≤ kr_capacity r < 4294967296 ∧ 0 ≤ kr_tail r < kr_capacity r ∧
    (length q ≤ n)%nat ∧
    kr_head r = (kr_tail r + Z.of_nat (length q)) mod kr_capacity r ∧
    ∀ i x, q !! i = Some x →
      b !! Z.to_nat ((kr_tail r + Z.of_nat i) mod kr_capacity r) = Some x.

(** Two positions of a queue that fits in the ring have distinct slots. *)
Lemma ring_slot_inj c t i j :
  0 ≤ t < c → 0 ≤ i < c → 0 ≤ j < c →
  (t + i) mod c = (t + j) mod c → i = j.
Proof.
  intros Ht Hi Hj H. assert (Hc : 0 < c) by lia.
  assert (Hd : (i - j) mod c = 0).
  { replace (i - j) with ((t + i) - (t + j)) by lia.
    rewrite Zminus_mod, H, Z.sub_diag. apply Z.mod_0_l. lia. }
  apply Z.mod_divide in Hd; [|lia]. destruct Hd as [k Hk].
  assert (k = 0) by nia. lia.
Qed.

Lemma ring_slot_cases c t n :
  0 ≤ t < c → 0 ≤ n < c →
  (t + n < c ∧ (t + n) mod c = t + n) ∨ (c ≤ t + n ∧ (t + n) mod c = t + n - c).
Proof.
  intros. destruct (Z.ltb_spec (t + n) c).
  - left. split; [done|]. apply Z.mod_small. lia.
  - right. split; [done|].
    replace (t + n) with (t + n - c + 1 * c) by lia.
    rewrite Z_mod_plus_full. rewrite Z.mod_small by lia. lia.
Qed.

Lemma kring_u8_init_rep (storage : list Z) :
  (2 ≤ length storage)%nat → Z.of_nat (length storage) < 4294967296 →
  kring_rep (kring_u8_init storage (Z.of_nat (length storage)))
            (length storage - 1) [].
Proof.
  intros. exists storage. simpl.
  rewrite Z.mod_0_l by lia. split_and!; try lia; try done.
Qed.

Lemma kring_u8_reset_rep r n q : kring_rep r n q → kring_rep (kring_u8_reset r) n [].
Proof.
  intros (b & Hb & Hl & Hn & Hc & Ht & Hq & Hh & Hx).
  exists b. simpl. rewrite Z.mod_0_l by lia. split_and!; try lia; try done.
Qed.

Lemma kring_next c t n :
  0 ≤ t < c → 0 ≤ n → c < 4294967296 →
  u32 ((t + n) mod c + 1) mod c = (t + (n + 1)) mod c.
Proof.
  intros. pose proof (Z.mod_pos_bound (t + n) c). unfold u32.
  rewrite (Z.mod_small _ 4294967296) by lia.
  rewrite Zplus_mod_idemp_l. f_equal. lia.
Qed.

Lemma kring_push_ok r n q v :
  kring_rep r n q → (length q < n)%nat →
  ∃ r', kring_u8_push v r = Some (0, r') ∧ kring_rep r' n (q ++ [v]).
Proof.
  intros (b & Hb & Hl & Hn & Hc & Ht & Hq & Hh & Hx) Hlt.
  unfold kring_u8_push. rewrite Hb.
  rewrite (proj2 (Z.ltb_ge _ _)) by lia.
  rewrite Hh, kring_next by lia.
  assert (Hne : (kr_tail r + (Z.of_nat (length q) + 1)) mod kr_capacity r ≠ kr_tail r).
  { intros E. pose proof (ring_slot_inj (kr_capacity r) (kr_tail r)
      (Z.of_nat (length q) + 1) 0) as Hi.
    rewrite Z.add_0_r, (Z.mod_small (kr_tail r)) in Hi by lia.
    specialize (Hi ltac:(lia) ltac:(lia) ltac:(lia) E). lia. }
  rewrite (proj2 (Z.eqb_neq _ _) Hne).
  pose proof (Z.mod_pos_bound (kr_tail r + Z.of_nat (length q)) (kr_capacity r)
                ltac:(lia)) as Hpos.
  rewrite zupdate_Some by lia. simpl. eexists. split; [reflexivity|].
  exists (<[Z.to_nat ((kr_tail r + Z.of_nat (length q)) mod kr_capacity r):=v]> b).
  simpl. rewrite length_insert, length_app. simpl.
  split_and!; try done; try lia.
  intros i x [Hi|[? Hi]]%lookup_app_Some.
  - pose proof (lookup_lt_Some _ _ _ Hi) as Hlti.
    rewrite list_lookup_insert_ne; [by apply Hx|].
    intros E. apply Z2Nat.inj in E; try lia;
      [|apply Z.mod_pos_bound; lia].
    apply ring_slot_inj in E; lia.
  - apply list_lookup_singleton_Some in Hi as [Hi <-].
    replace i with (length q) by lia.
    apply list_lookup_insert_eq. lia.
Qed.

Lemma kring_push_full r n q v :
  kring_rep r n q → length q = n → kring_u8_push v r = Some (-1, r).
Proof.
  intros (b & Hb & Hl & Hn & Hc & Ht & Hq & Hh & Hx) Hlen.
  unfold kring_u8_push. rewrite Hb.
  rewrite (proj2 (Z.ltb_ge _ _)) by lia.
  rewrite Hh, kring_next by lia.
  replace (Z.of_nat (length q) + 1) with (1 * kr_capacity r) by lia.
  rewrite Z_mod_plus_full, Z.mod_small by lia.
  by rewrite Z.eqb_refl.
Qed.

Lemma kring_pop_ok r n v q :
  kring_rep r n (v :: q) →
  ∃ r', kring_u8_pop r = Some (Some v, r') ∧ kring_rep r' n q.
Proof.
  intros (b & Hb & Hl & Hn & Hc & Ht & Hq & Hh & Hx). simpl in *.
  unfold kring_u8_pop. rewrite Hb.
  rewrite (proj2 (Z.ltb_ge _ _)) by lia.
  assert (Hne : kr_head r ≠ kr_tail r).
  { rewrite Hh. destruct (ring_slot_cases (kr_capacity r) (kr_tail r)
      (Z.of_nat (S (length q)))) as [[_ ->]|[_ ->]]; lia. }
  rewrite (proj2 (Z.eqb_neq _ _) Hne).
  pose proof (Hx 0%nat v eq_refl) as Hv.
  rewrite Z.add_0_r, Z.mod_small in Hv by lia.
  unfold zlookup. rewrite (proj2 (Z.leb_le _ _)) by lia.
  rewrite Hv. simpl. eexists. split; [reflexivity|].
  assert (Hnx : u32 (kr_tail r + 1) mod kr_capacity r = (kr_tail r + 1) mod kr_capacity r).
  { by rewrite u32_small by (unfold is_u32; lia). }
  eexists. simpl. rewrite Hnx. split_and!; try done; try lia.
  - apply Z.mod_pos_bound. lia.
  - apply Z.mod_pos_bound. lia.
  - rewrite Hh, Zplus_mod_idemp_l. f_equal. lia.
  - intros i x Hi. specialize (Hx (S i) x Hi).
    rewrite Zplus_mod_idemp_l.
    replace (kr_tail r + 1 + Z.of_nat i) with (kr_tail r + Z.of_nat (S i)) by lia.
    done.
Qed.

Lemma kring_rep_empty_heads r n : kring_rep r n [] → kr_head r = kr_tail r.
Proof.
  intros (b & Hb & Hl & Hn & Hc & Ht & Hq & Hh & Hx). simpl in *.
  rewrite Hh, Z.add_0_r. apply Z.mod_small. lia.
Qed.

Lemma kring_pop_empty r n : kring_rep r n [] → kring_u8_pop r = Some (None, r).
Proof.
  intros Hr. pose proof (kring_rep_empty_heads r n Hr) as Heq.
  destruct Hr as (b & Hb & _ & _ & Hc & _).
  unfold kring_u8_pop. rewrite Hb, Heq, Z.eqb_refl.
  by rewrite (proj2 (Z.ltb_ge _ _)) by lia.
Qed.

#[export] Instance kring_fifo : Fifo kring_rep kring_u8_push kring_u8_pop.
Proof.
  split.
  - intros r n q (b & ?). naive_solver.
  - apply kring_push_ok.
  - apply kring_push_full.
  - apply kring_pop_ok.
  - apply kring_pop_empty.
Qed.

Lemma kring_u8_used_spec r n q : kring_rep r n q → kring_u8_used r = Z.of_nat (length q).
Proof.
  intros (b & Hb & Hl & Hn & Hc & Ht & Hq & Hh & Hx).
  unfold kring_u8_used. rewrite Hb.
  rewrite (proj2 (Z.ltb_ge _ _)) by lia.
  destruct (ring_slot_cases (kr_capacity r) (kr_tail r) (Z.of_nat (length q)))
    as [[? E]|[? E]]; try lia; rewrite Hh, E.
  - rewrite (proj2 (Z.leb_le _ _)) by lia. rewrite u32_small; unfold is_u32; lia.
  - rewrite (proj2 (Z.leb_gt _ _)) by lia.
    rewrite (u32_small (kr_tail r - _)) by (unfold is_u32; lia).
    rewrite u32_small; unfold is_u32; lia.
Qed.

Lemma kring_u8_empty_spec r n q : kring_rep r n q → kring_u8_empty r = bool_decide (q = []).
Proof.
  intros Hr. pose proof Hr as (b & Hb & Hl & Hn & Hc & Ht & Hq & Hh & Hx).
  unfold kring_u8_empty. rewrite Hb.
  rewrite (proj2 (Z.ltb_ge _ _)) by lia.
  destruct q as [|v q].
  - rewrite (kring_rep_empty_heads r n Hr). by rewrite Z.eqb_refl.
  - rewrite bool_decide_eq_false_2 by done. apply Z.eqb_neq. rewrite Hh.
    destruct (ring_slot_cases (kr_capacity r) (kr_tail r)
      (Z.of_nat (length (v :: q)))) as [[_ ->]|[_ ->]]; simpl in *; lia.
Qed.

#[export] Hint Resolve kring_u8_reset_rep kring_u8_init_rep : mateos.

(** ** Refinement of the queue by the ring

    Sequences of calls, with what each returns, on the ring and on the abstract
    bounded queue. *)

Inductive kring_call :=
  | CPush (v : Z) | CPop | CReset | CUsed | CEmpty.

Inductive kring_ret :=
  | RPush (rc : Z) | RPop (v : option Z) | RReset | RUsed (n : Z) | REmpty (b : bool).

Definition kring_do (c : kring_call) : M kring_u8_t kring_ret :=
  match c with
  | CPush v => rc ← kring_u8_push v; mret (RPush rc)
  | CPop => v ← kring_u8_pop; mret (RPop v)
  | CReset => modify kring_u8_reset;; mret RReset
  | CUsed => r ← get; mret (RUsed (kring_u8_used r))
  | CEmpty => r ← get; mret (REmpty (kring_u8_empty r))
  end.

Definition queue_do (n : nat) (c : kring_call) (q : list Z) : kring_ret * list Z :=
  match c with
  | CPush v => if decide (length q < n)%nat then (RPush 0, q ++ [v]) else (RPush (-1), q)
  | CPop => (RPop (head q), tail q)
  | CReset => (RReset, [])
  | CUsed => (RUsed (Z.of_nat (length q)), q)
  | CEmpty => (REmpty (bool_decide (q = [])), q)
  end.

Fixpoint kring_run (cs : list kring_call) : M kring_u8_t (list kring_ret) :=
  match cs with
  | [] => mret []
  | c :: cs => r ← kring_do c; rs ← kring_run cs; mret (r :: rs)
  end.

Fixpoint queue_run (n : nat) (cs : list kring_call) (q : list Z) : list kring_ret :=
  match cs with
  | [] => []
  | c :: cs => let '(r, q') := queue_do n c q in r :: queue_run n cs q'
  end.

Lemma kring_do_refines c r n q :
  kring_rep r n q →
  ∃ r', kring_do c r = Some ((queue_do n c q).1, r') ∧ kring_rep r' n (queue_do n c q).2.
Proof.
  intros Hr. destruct c; simpl; unfold mbind, M_bind.
  - case_decide.
    + destruct (fifo_push_ok r n q v Hr) as (r' & -> & Hr'); [done|]. by exists r'.
    + pose proof (fifo_bound r n q Hr).
      rewrite (fifo_push_full r n q v Hr) by lia. by exists r.
  - destruct q as [|v q].
    + rewrite (fifo_pop_empty r n Hr). by exists r.
    + destruct (fifo_pop_ok r n v q Hr) as (r' & -> & Hr'). by exists r'.
  - exists (kring_u8_reset r). split; [done|]. by eapply kring_u8_reset_rep.
  - exists r. unfold get. by rewrite (kring_u8_used_spec r n q Hr).
  - exists r. unfold get. by rewrite (kring_u8_empty_spec r n q Hr).
Qed.

(** C20 (refinement): on any storage of at least two bytes, every sequence of
    push, pop, reset, used and empty calls on a freshly initialised ring returns
    what the bounded FIFO queue of [capacity - 1] bytes returns, and never
    accesses memory outside the storage. *)
Theorem kring_refines_queue (storage : list Z) (cs : list kring_call) :
  (2 ≤ length storage)%nat → Z.of_nat (length storage) < 4294967296 →
  ∃ r', kring_run cs (kring_u8_init storage (Z.of_nat (length storage))) =
        Some (queue_run (length storage - 1) cs [], r').
Proof.
  intros H2 Hmax. pose proof (kring_u8_init_rep storage H2 Hmax) as Hr.
  revert Hr. generalize (@nil Z) as q, (kring_u8_init storage (Z.of_nat (length storage))) as r.
  induction cs as [|c cs IH]; intros q r Hr; simpl; [by exists r|].
  unfold mbind, M_bind.
  destruct (kring_do_refines c r _ q Hr) as (r1 & -> & Hr1).
  destruct (queue_do _ c q) as [x q1]. simpl in *.
  destruct (IH q1 r1 Hr1) as (r2 & ->). by exists r2.
Qed.

Lemma kring_refines_queue_witness :
  ∃ r', kring_run [CPush 65; CPush 66; CPush 67; CPop; CUsed; CPush 68; CEmpty]
          (kring_u8_init [0; 0; 0] 3) =
        Some ([RPush 0; RPush 0; RPush (-1); RPop (Some 65); RUsed 1; RPush 0; REmpty false], r').
Proof.
  destruct (kring_refines_queue [0; 0; 0]
    [CPush 65; CPush 66; CPush 67; CPop; CUsed; CPush 68; CEmpty]) as [r' H];
    [simpl; lia|simpl; lia|]. exists r'. exact H.
Defined.
