(* ===== verification/Pmm.v ===== *)
(** * The physical frame allocator ([src/src/proc/pmm.c])

    The allocator keeps one bit per 4KB frame.  The state is the bitmap with
    the two globals that [pmm_init] computes from the size of the RAM.  The
    specification is the set of used frames: [frame_used s i] says that frame
    [i] is used, and every operation is described by what it does to this set
    ([alloc_spec], [free_spec]). *)

From S2P Require Import Prelude.

(** ** The code *)

Definition PMM_START : Z := 0x800000.
Definition PMM_MAX_END : Z := 0x40000000.
Definition PMM_FRAME_SIZE : Z := 0x1000.
Definition PMM_MAX_FRAME_COUNT : Z := (PMM_MAX_END - PMM_START) / PMM_FRAME_SIZE.

Record pmm_t : Type := mk_pmm {
  PMM_END : Z;
  PMM_FRAME_COUNT : Z;
  frame_bitmap : list Z
}.

Definition pmm_boot : pmm_t :=
  mk_pmm 0x2000000 6144 (replicate (Z.to_nat (PMM_MAX_FRAME_COUNT / 8)) 0).

Definition frame_index (physical_addr : Z) : Z :=
  u32 (physical_addr - PMM_START) / PMM_FRAME_SIZE.

Definition frame_addr (index : Z) : Z :=
  u32 (PMM_START + index * PMM_FRAME_SIZE).

Definition bitmap_test (index : Z) : M pmm_t bool := λ s,
  b ← zlookup (frame_bitmap s) (index / 8);
  Some (negb (Z.land b (Z.shiftl 1 (index mod 8)) =? 0), s).

Definition bitmap_update (index : Z) (f : Z → Z) : M pmm_t unit := λ s,
  b ← zlookup (frame_bitmap s) (index / 8);
  m ← zupdate (frame_bitmap s) (index / 8) (u8 (f b));
  Some (tt, mk_pmm (PMM_END s) (PMM_FRAME_COUNT s) m).

Definition bitmap_set (index : Z) : M pmm_t unit :=
  bitmap_update index (λ b, Z.lor b (Z.shiftl 1 (index mod 8))).

Definition bitmap_clear (index : Z) : M pmm_t unit :=
  bitmap_update index (λ b, Z.land b (Z.lnot (Z.shiftl 1 (index mod 8)))).

(** [x & ~(PMM_FRAME_SIZE - 1u)] *)
Definition frame_mask (x : Z) : Z :=
  Z.land x (u32 (Z.lnot (PMM_FRAME_SIZE - 1))).

Definition pmm_init (ram_top : Z) : M pmm_t unit := λ s,
  let ram_top := if ram_top <? PMM_START + PMM_FRAME_SIZE
                 then PMM_START + PMM_FRAME_SIZE else ram_top in
  let ram_top := if PMM_MAX_END <? ram_top then PMM_MAX_END else ram_top in
  let ram_top := frame_mask ram_top in
  Some (tt, mk_pmm ram_top ((ram_top - PMM_START) / PMM_FRAME_SIZE)
                   (replicate (length (frame_bitmap s)) 0)).

(** The loop of [pmm_reserve_region]: [n] frames from address [addr]. *)
Fixpoint reserve_frames (n : nat) (addr : Z) : M pmm_t unit :=
  match n with
  | O => mret tt
  | S n => bitmap_set (frame_index addr);; reserve_frames n (addr + PMM_FRAME_SIZE)
  end.

Definition pmm_reserve_region (start_addr size_bytes : Z) : M pmm_t unit :=
  s ← get;
  if size_bytes =? 0 then mret tt else
  let end_addr := u32 (start_addr + size_bytes) in
  let end_addr := if end_addr <? start_addr then 0xFFFFFFFF else end_addr in
  if (end_addr <=? PMM_START) || (PMM_END s <=? start_addr) then mret tt else
  let start_addr := if start_addr <? PMM_START then PMM_START else start_addr in
  let end_addr := if PMM_END s <? end_addr then PMM_END s else end_addr in
  let first := frame_mask start_addr in
  let last := frame_mask (u32 (end_addr + PMM_FRAME_SIZE - 1)) in
  reserve_frames (Z.to_nat ((last - first) / PMM_FRAME_SIZE)) first.

(** Frames [i], ..., [i + n - 1] are tried in turn. *)
Fixpoint alloc_scan (n : nat) (i : Z) : M pmm_t Z :=
  match n with
  | O => mret 0
  | S n => t ← bitmap_test i;
           if negb t then (bitmap_set i;; mret (frame_addr i))
           else alloc_scan n (i + 1)
  end.

Definition pmm_alloc_frame : M pmm_t Z :=
  s ← get; alloc_scan (Z.to_nat (PMM_FRAME_COUNT s)) 0.

Definition pmm_free_frame (physical_addr : Z) : M pmm_t unit :=
  s ← get;
  if (physical_addr <? PMM_START) || (PMM_END s <=? physical_addr) then mret tt else
  if negb (Z.land physical_addr (PMM_FRAME_SIZE - 1) =? 0) then mret tt else
  let idx := frame_index physical_addr in
  t ← bitmap_test idx;
  if negb t then mret tt (* double free: logged and ignored *)
  else bitmap_clear idx.

(** [for (j = 0; j < count; j++) if (bitmap_test(i + j)) break;] and whether
    [j == count] after it. *)
Fixpoint run_free (count : nat) (i : Z) : M pmm_t bool :=
  match count with
  | O => mret true
  | S count => t ← bitmap_test (u32 i);
               if (t : bool) then mret false else run_free count (i + 1)
  end.

Fixpoint run_set (count : nat) (i : Z) : M pmm_t unit :=
  match count with
  | O => mret tt
  | S count => bitmap_set (u32 i);; run_set count (i + 1)
  end.

Fixpoint alloc_run_scan (n : nat) (count : nat) (i : Z) : M pmm_t Z :=
  match n with
  | O => mret 0
  | S n => t ← run_free count i;
           if (t : bool) then (run_set count i;; mret (frame_addr i))
           else alloc_run_scan n count (i + 1)
  end.

(** The bound [i <= PMM_FRAME_COUNT - count] of the search is an unsigned
    subtraction. *)
Definition pmm_alloc_frames (count : Z) : M pmm_t Z :=
  s ← get;
  if count =? 0 then mret 0 else
  alloc_run_scan (Z.to_nat (u32 (PMM_FRAME_COUNT s - count) + 1)) (Z.to_nat count) 0.

Fixpoint free_frames_loop (n : nat) (physical_addr i : Z) : M pmm_t unit :=
  match n with
  | O => mret tt
  | S n => pmm_free_frame (u32 (physical_addr + i * PMM_FRAME_SIZE));;
           free_frames_loop n physical_addr (i + 1)
  end.

Definition pmm_free_frames (physical_addr count : Z) : M pmm_t unit :=
  free_frames_loop (Z.to_nat count) physical_addr 0.

Fixpoint count_used (n : nat) (i : Z) : M pmm_t Z :=
  match n with
  | O => mret 0
  | S n => t ← bitmap_test i;
           c ← count_used n (i + 1);
           mret (if (t : bool) then 1 + c else c)
  end.

(** The three out-parameters of [pmm_get_stats]: total, used, free. *)
Definition pmm_get_stats : M pmm_t (Z * Z * Z) :=
  s ← get;
  used ← count_used (Z.to_nat (PMM_FRAME_COUNT s)) 0;
  mret (PMM_FRAME_COUNT s, used, u32 (PMM_FRAME_COUNT s - used)).

(** ** The set of used frames *)

Definition frame_used (s : pmm_t) (i : Z) : bool :=
  match bitmap_test i s with Some (t, _) => t | None => true end.

Record pmm_wf (s : pmm_t) : Prop := {
  wf_len : Z.of_nat (length (frame_bitmap s)) = PMM_MAX_FRAME_COUNT / 8;
  wf_bytes : Forall is_u8 (frame_bitmap s);
  wf_count : 1 ≤ PMM_FRAME_COUNT s ≤ PMM_MAX_FRAME_COUNT;
  wf_end : PMM_END s = PMM_START + PMM_FRAME_COUNT s * PMM_FRAME_SIZE
}.

(** [s'] is [s] with the frames of [P] turned used (or free). *)
Definition same_range (s s' : pmm_t) : Prop :=
  PMM_END s' = PMM_END s ∧ PMM_FRAME_COUNT s' = PMM_FRAME_COUNT s.

Definition marks (P : Z → Prop) (v : bool) (s s' : pmm_t) : Prop :=
  same_range s s' ∧
  ∀ j, 0 ≤ j < PMM_MAX_FRAME_COUNT →
    (P j → frame_used s' j = v) ∧ (¬ P j → frame_used s' j = frame_used s j).

(** ** Bits of the bitmap *)

Ltac pmm_lia :=
  unfold same_range, is_u32 in *;
  change PMM_MAX_FRAME_COUNT with 260096 in *;
  change (260096 / 8) with 32512 in *;
  unfold PMM_MAX_END, PMM_START, PMM_FRAME_SIZE in *;
  Z.div_mod_to_equations; lia.

Lemma mask_testbit b k : 0 ≤ k → negb (Z.land b (Z.shiftl 1 k) =? 0) = Z.testbit b k.
Proof.
  intros Hk. destruct (Z.testbit b k) eqn:Hb.
  - apply negb_true_iff, Z.eqb_neq. intros E.
    assert (H : Z.testbit (Z.land b (Z.shiftl 1 k)) k = false) by (by rewrite E, Z.bits_0).
    by rewrite Z.land_spec, Hb, Z.shiftl_spec, Z.sub_diag in H.
  - apply negb_false_iff, Z.eqb_eq, Z.bits_inj'. intros n Hn.
    rewrite Z.land_spec, Z.shiftl_spec, Z.bits_0 by lia.
    destruct (decide (n = k)) as [->|]; [by rewrite Hb|].
    destruct (Z.ltb_spec n k).
    + rewrite (Z.testbit_neg_r 1) by lia. apply andb_false_r.
    + rewrite (Z.bits_above_log2 1) by (simpl; lia). apply andb_false_r.
Qed.

Lemma shiftl1_testbit k n : 0 ≤ k → 0 ≤ n → Z.testbit (Z.shiftl 1 k) n = bool_decide (n = k).
Proof.
  intros Hk Hn. rewrite Z.shiftl_spec by done. case_bool_decide as H.
  - subst. by rewrite Z.sub_diag.
  - destruct (Z.ltb_spec n k); [by rewrite Z.testbit_neg_r by lia|].
    by rewrite (Z.bits_above_log2 1) by (simpl; lia).
Qed.

Lemma bitmap_test_ok s i :
  pmm_wf s → 0 ≤ i < PMM_MAX_FRAME_COUNT →
  ∃ b, zlookup (frame_bitmap s) (i / 8) = Some b ∧
       bitmap_test i s = Some (Z.testbit b (i mod 8), s).
Proof.
  intros Hwf Hi. pose proof (wf_len s Hwf).
  destruct (zlookup_in_range (frame_bitmap s) (i / 8)) as [b Hb]; [pmm_lia|].
  exists b. split; [done|]. unfold bitmap_test. rewrite Hb. simpl.
  rewrite mask_testbit; [done|]. mlia.
Qed.

Lemma bitmap_test_used s i :
  pmm_wf s → 0 ≤ i < PMM_MAX_FRAME_COUNT → bitmap_test i s = Some (frame_used s i, s).
Proof.
  intros Hwf Hi. destruct (bitmap_test_ok s i Hwf Hi) as (b & _ & Ht).
  unfold frame_used. by rewrite Ht.
Qed.

Lemma bitmap_update_ok s i f v :
  pmm_wf s → 0 ≤ i < PMM_MAX_FRAME_COUNT →
  (∀ b m, 0 ≤ m < 8 → Z.testbit (f b) m =
     if bool_decide (m = i mod 8) then v else Z.testbit b m) →
  ∃ s', bitmap_update i f s = Some (tt, s') ∧ pmm_wf s' ∧ marks (λ j, j = i) v s s'.
Proof.
  intros Hwf Hi Hf. pose proof (wf_len s Hwf) as Hlen.
  destruct (bitmap_test_ok s i Hwf Hi) as (b & Hb & _).
  unfold bitmap_update. rewrite Hb. simpl.
  rewrite zupdate_Some by pmm_lia. simpl. eexists. split; [done|].
  assert (Hwf' : pmm_wf (mk_pmm (PMM_END s) (PMM_FRAME_COUNT s)
                  (<[Z.to_nat (i / 8) := u8 (f b)]> (frame_bitmap s)))).
  { split; simpl.
    - by rewrite length_insert.
    - apply Forall_insert; [apply wf_bytes, Hwf|apply u8_range].
    - apply wf_count, Hwf.
    - apply wf_end, Hwf. }
  split; [done|]. split; [done|]. intros j Hj.
  destruct (bitmap_test_ok s j Hwf Hj) as (bj & Hbj & Htj).
  destruct (bitmap_test_ok _ j Hwf' Hj) as (bj' & Hbj' & Htj').
  unfold frame_used. rewrite Htj, Htj'. clear Htj Htj'.
  rewrite zlookup_nonneg in Hb by mlia. rewrite zlookup_nonneg in Hbj by mlia.
  rewrite zlookup_nonneg in Hbj' by mlia. simpl in Hbj'. destruct (decide (i / 8 = j / 8)) as [E|E].
  - rewrite E in *. rewrite list_lookup_insert_eq in Hbj' by (apply lookup_lt_Some in Hb; done).
    simplify_eq. unfold u8. change 256 with (2 ^ 8).
    rewrite Z.mod_pow2_bits_low by mlia. rewrite Hf by mlia.
    case_bool_decide; split; intros; try done; mlia.
  - rewrite list_lookup_insert_ne in Hbj' by mlia. simplify_eq.
    split; intros; [subst; done|done].
Qed.

Lemma bitmap_set_ok s i :
  pmm_wf s → 0 ≤ i < PMM_MAX_FRAME_COUNT →
  ∃ s', bitmap_set i s = Some (tt, s') ∧ pmm_wf s' ∧ marks (λ j, j = i) true s s'.
Proof.
  intros Hwf Hi. apply bitmap_update_ok; [done..|]. intros b m Hm.
  rewrite Z.lor_spec, shiftl1_testbit by mlia.
  case_bool_decide; [apply orb_true_r|apply orb_false_r].
Qed.

Lemma bitmap_clear_ok s i :
  pmm_wf s → 0 ≤ i < PMM_MAX_FRAME_COUNT →
  ∃ s', bitmap_clear i s = Some (tt, s') ∧ pmm_wf s' ∧ marks (λ j, j = i) false s s'.
Proof.
  intros Hwf Hi. apply bitmap_update_ok; [done..|]. intros b m Hm.
  rewrite Z.land_spec, Z.lnot_spec, shiftl1_testbit by mlia.
  case_bool_decide; [apply andb_false_r|apply andb_true_r].
Qed.

Lemma frame_index_addr i : 0 ≤ i < PMM_MAX_FRAME_COUNT → frame_index (frame_addr i) = i.
Proof.
  intros Hi. unfold frame_index, frame_addr.
  rewrite (u32_small (PMM_START + _)) by (unfold is_u32; pmm_lia).
  rewrite u32_small by (unfold is_u32; pmm_lia). pmm_lia.
Qed.

Lemma frame_addr_eq i : 0 ≤ i < PMM_MAX_FRAME_COUNT →
  frame_addr i = PMM_START + i * PMM_FRAME_SIZE.
Proof. intros Hi. apply u32_small. unfold is_u32. pmm_lia. Qed.

Lemma frame_mask_eq x : is_u32 x → frame_mask x = x - x mod PMM_FRAME_SIZE.
Proof.
  intros Hx. unfold frame_mask. change (u32 (Z.lnot (PMM_FRAME_SIZE - 1))) with 4294963200.
  assert (E : Z.land x 4294963200 = Z.shiftl (Z.shiftr x 12) 12).
  { apply Z.bits_inj'. intros n Hn. rewrite Z.land_spec.
    destruct (Z.ltb_spec n 12) as [Hl|Hl].
    - rewrite Z.shiftl_spec_low by lia.
      change 4294963200 with (Z.shiftl 1048575 12).
      by rewrite Z.shiftl_spec_low, andb_false_r by lia.
    - rewrite Z.shiftl_spec, Z.shiftr_spec by lia.
      replace (n - 12 + 12) with n by lia.
      destruct (Z.ltb_spec n 32) as [Hm|Hm].
      + change 4294963200 with (Z.shiftl (Z.ones 20) 12).
        rewrite Z.shiftl_spec, Z.ones_spec_low by lia. apply andb_true_r.
      + destruct (decide (x = 0)) as [->|]; [by rewrite Z.bits_0|].
        rewrite (Z.bits_above_log2 x); [done|unfold is_u32 in Hx; lia|].
        apply Z.log2_lt_pow2; [unfold is_u32 in Hx; lia|].
        apply Z.lt_le_trans with (2 ^ 32); [apply Hx|]. apply Z.pow_le_mono_r; lia. }
  rewrite E, Z.shiftl_mul_pow2, Z.shiftr_div_pow2 by lia.
  unfold PMM_FRAME_SIZE. change (2 ^ 12) with 4096. mlia.
Qed.

(** ** What the operations do to the set of used frames *)

Definition frame_at (k : Z) : Z := PMM_START + k * PMM_FRAME_SIZE.

(** The frames [i], ..., [i + n - 1] are free. *)
Definition run_is_free (s : pmm_t) (n i : Z) : Prop :=
  ∀ j, i ≤ j < i + n → frame_used s j = false.

(** Allocation of [n] contiguous frames: the lowest free run below the end of
    the RAM, or 0 when there is none. *)
Definition alloc_spec (n : Z) (s : pmm_t) (r : Z) (s' : pmm_t) : Prop :=
  (r = 0 ∧ s' = s ∧
     ∀ i, 0 ≤ i → i + n ≤ PMM_FRAME_COUNT s → ¬ run_is_free s n i) ∨
  (∃ k, 0 ≤ k ∧ k + n ≤ PMM_FRAME_COUNT s ∧ r = frame_at k ∧
     run_is_free s n k ∧ (∀ i, 0 ≤ i < k → ¬ run_is_free s n i) ∧
     marks (λ j, k ≤ j < k + n) true s s').

(** Freeing the frames whose address satisfies [A]. *)
Definition free_spec (A : Z → Prop) (s s' : pmm_t) : Prop :=
  marks (λ j, j < PMM_FRAME_COUNT s ∧ A (frame_at j)) false s s'.

Lemma marks_refl P v s :
  (∀ j, 0 ≤ j < PMM_MAX_FRAME_COUNT → P j → frame_used s j = v) → marks P v s s.
Proof. intros H. split; [by split|]. intros j Hj. split; [by apply H|done]. Qed.

Lemma marks_trans P Q v s s1 s2 :
  marks P v s s1 → marks Q v s1 s2 → marks (λ j, P j ∨ Q j) v s s2.
Proof.
  intros [[E1 E2] H1] [[E3 E4] H2]. split; [split; congruence|].
  intros j Hj. destruct (H1 j Hj) as [H1a H1b], (H2 j Hj) as [H2a H2b].
  split.
  - intros [HP|HQ]; [|by apply H2a].
    destruct (decide (frame_used s2 j = v)) as [|Hne]; [done|].
    rewrite H2b by naive_solver. by apply H1a.
  - intros Hn. rewrite H2b, H1b by naive_solver. done.
Qed.

Lemma marks_iff P Q v s s' :
  (∀ j, 0 ≤ j < PMM_MAX_FRAME_COUNT → (P j ↔ Q j)) → marks P v s s' → marks Q v s s'.
Proof.
  intros H [E Hm]. split; [done|]. intros j Hj. destruct (Hm j Hj), (H j Hj).
  split; naive_solver.
Qed.

Lemma marks_count P v s s' : marks P v s s' → PMM_FRAME_COUNT s' = PMM_FRAME_COUNT s.
Proof. by intros [[_ ?] _]. Qed.

Lemma run_free_ok n i s :
  pmm_wf s → 0 ≤ i → i + Z.of_nat n ≤ PMM_MAX_FRAME_COUNT →
  ∃ b, run_free n i s = Some (b, s) ∧ (b = true ↔ run_is_free s (Z.of_nat n) i).
Proof.
  intros Hwf. revert i. induction n as [|n IH]; intros i Hi Hin; simpl.
  { exists true. split; [done|]. split; [intros _ j Hj; lia|done]. }
  unfold mbind, M_bind. rewrite u32_small by pmm_lia.
  rewrite bitmap_test_used by (done || pmm_lia).
  destruct (frame_used s i) eqn:E.
  - exists false. split; [done|]. split; [done|].
    intros H. rewrite H in E by lia. done.
  - destruct (IH (i + 1)) as (b & Hb & Hiff); [lia|lia|].
    exists b. split; [done|]. rewrite Hiff. split; intros H j Hj.
    + destruct (decide (j = i)) as [->|]; [done|]. apply H. lia.
    + apply H. lia.
Qed.

Lemma run_set_ok n i s :
  pmm_wf s → 0 ≤ i → i + Z.of_nat n ≤ PMM_MAX_FRAME_COUNT →
  ∃ s', run_set n i s = Some (tt, s') ∧ pmm_wf s' ∧
        marks (λ j, i ≤ j < i + Z.of_nat n) true s s'.
Proof.
  revert i s. induction n as [|n IH]; intros i s Hwf Hi Hin; simpl.
  { exists s. split; [done|]. split; [done|]. apply marks_refl. lia. }
  unfold mbind, M_bind. rewrite u32_small by pmm_lia.
  destruct (bitmap_set_ok s i) as (s1 & -> & Hwf1 & Hm1); [done|pmm_lia|].
  destruct (IH (i + 1) s1) as (s2 & -> & Hwf2 & Hm2); [done|lia|lia|].
  exists s2. split; [done|]. split; [done|].
  eapply marks_iff; [|by eapply marks_trans]. simpl. lia.
Qed.

Lemma alloc_run_scan_ok m n i s :
  pmm_wf s → 1 ≤ Z.of_nat n → 0 ≤ i →
  i + Z.of_nat m + Z.of_nat n = PMM_FRAME_COUNT s + 1 →
  (∀ j, 0 ≤ j < i → ¬ run_is_free s (Z.of_nat n) j) →
  ∃ r s', alloc_run_scan m n i s = Some (r, s') ∧ pmm_wf s' ∧
          alloc_spec (Z.of_nat n) s r s'.
Proof.
  intros Hwf Hn. pose proof (wf_count s Hwf) as Hc.
  revert i. induction m as [|m IH]; intros i Hi Heq Hlow; simpl.
  { exists 0, s. split; [done|]. split; [done|]. left. split_and!; try done.
    intros j Hj Hjn. apply Hlow. lia. }
  unfold mbind, M_bind.
  destruct (run_free_ok n i s) as (b & -> & Hb); [done|lia|lia|]. destruct b.
  - destruct (run_set_ok n i s) as (s' & -> & Hwf' & Hm); [done|lia|lia|].
    exists (frame_addr i), s'. split; [done|]. split; [done|]. right. exists i.
    rewrite frame_addr_eq by pmm_lia. split_and!; try done; [lia|by apply Hb].
  - apply IH; [lia|lia|]. intros j Hj.
    destruct (decide (j = i)) as [->|]; [|apply Hlow; lia].
    intros Hf. apply Hb in Hf. done.
Qed.

Lemma alloc_frames_ok count s :
  pmm_wf s → 1 ≤ count ≤ PMM_FRAME_COUNT s →
  ∃ r s', pmm_alloc_frames count s = Some (r, s') ∧ pmm_wf s' ∧ alloc_spec count s r s'.
Proof.
  intros Hwf Hc. pose proof (wf_count s Hwf).
  unfold pmm_alloc_frames, mbind, M_bind, get.
  rewrite (proj2 (Z.eqb_neq _ _)) by lia. rewrite u32_small by pmm_lia.
  destruct (alloc_run_scan_ok (Z.to_nat (PMM_FRAME_COUNT s - count + 1))
              (Z.to_nat count) 0 s) as (r & s' & Hr & Hs'); try done; try lia.
  rewrite Z2Nat.id in Hs' by lia. eauto.
Qed.

(** Scanning single frames is scanning runs of length one. *)
Lemma alloc_scan_run n i s :
  pmm_wf s → 0 ≤ i → i + Z.of_nat n ≤ PMM_MAX_FRAME_COUNT →
  alloc_scan n i s = alloc_run_scan n 1 i s.
Proof.
  intros Hwf. revert i. induction n as [|n IH]; intros i Hi Hin; [done|].
  simpl. unfold mbind, M_bind, mret, M_ret.
  rewrite u32_small, bitmap_test_used by (done || pmm_lia).
  destruct (frame_used s i); simpl; [apply IH; lia|].
  by destruct (bitmap_set i s) as [[[] s']|].
Qed.

Lemma alloc_frame_ok s :
  pmm_wf s →
  ∃ r s', pmm_alloc_frame s = Some (r, s') ∧ pmm_wf s' ∧ alloc_spec 1 s r s'.
Proof.
  intros Hwf. pose proof (wf_count s Hwf).
  unfold pmm_alloc_frame, mbind, M_bind, get.
  rewrite alloc_scan_run by (done || lia).
  apply (alloc_run_scan_ok _ 1); try done; lia.
Qed.

Lemma free_frame_ok a s :
  pmm_wf s → is_u32 a →
  ∃ s', pmm_free_frame a s = Some (tt, s') ∧ pmm_wf s' ∧ free_spec (λ x, x = a) s s'.
Proof.
  intros Hwf Ha. pose proof (wf_count s Hwf). pose proof (wf_end s Hwf).
  unfold pmm_free_frame, mbind, M_bind, get.
  destruct (Z.ltb_spec a PMM_START); simpl.
  { exists s. split_and!; try done. apply marks_refl. unfold frame_at. pmm_lia. }
  destruct (Z.leb_spec (PMM_END s) a); simpl.
  { exists s. split_and!; try done. apply marks_refl. unfold frame_at. pmm_lia. }
  change (PMM_FRAME_SIZE - 1) with (Z.ones 12). rewrite Z.land_ones by lia.
  destruct (Z.eqb_spec (a mod 2 ^ 12) 0); simpl.
  2: { exists s. split_and!; try done. apply marks_refl. intros j Hj [_ <-].
       unfold frame_at in *. pmm_lia. }
  set (k := frame_index a).
  assert (Hk : a = frame_at k ∧ 0 ≤ k < PMM_FRAME_COUNT s).
  { unfold k, frame_index, frame_at. rewrite u32_small by pmm_lia. pmm_lia. }
  destruct Hk as [Hak Hk]. rewrite bitmap_test_used by (done || pmm_lia).
  destruct (frame_used s k) eqn:E; simpl.
  - destruct (bitmap_clear_ok s k) as (s' & -> & Hwf' & Hm); [done|pmm_lia|].
    exists s'. split_and!; try done. eapply marks_iff; [|done].
    intros j Hj. simpl. unfold frame_at in *. pmm_lia.
  - exists s. split_and!; try done. apply marks_refl. intros j Hj [_ Hja].
    replace j with k; [done|]. unfold frame_at in *. pmm_lia.
Qed.

Lemma free_frames_loop_ok n a i s :
  pmm_wf s → 0 ≤ i →
  ∃ s', free_frames_loop n a i s = Some (tt, s') ∧ pmm_wf s' ∧
        free_spec (λ x, ∃ m, i ≤ m < i + Z.of_nat n ∧
                             x = u32 (a + m * PMM_FRAME_SIZE)) s s'.
Proof.
  revert i s. induction n as [|n IH]; intros i s Hwf Hi; simpl.
  { exists s. split_and!; try done. apply marks_refl. intros j Hj (_ & m & ? & _). lia. }
  unfold mbind, M_bind.
  destruct (free_frame_ok (u32 (a + i * PMM_FRAME_SIZE)) s) as (s1 & -> & Hwf1 & Hm1);
    [done|apply u32_range|].
  destruct (IH (i + 1) s1) as (s2 & -> & Hwf2 & Hm2); [done|lia|].
  exists s2. split_and!; try done. unfold free_spec in *.
  rewrite (marks_count _ _ _ _ Hm1) in Hm2.
  eapply marks_iff; [|by eapply marks_trans]. intros j Hj. simpl. split.
  - intros [(? & E)|(? & m & ? & E)]; (split; [done|]); [exists i|exists m]; (split; [lia|done]).
  - intros (? & m & ? & E). destruct (decide (m = i)) as [->|]; [by left|].
    right. split; [done|]. exists m. split; [lia|done].
Qed.

Lemma reserve_frames_ok n k s :
  pmm_wf s → 0 ≤ k → k + Z.of_nat n ≤ PMM_MAX_FRAME_COUNT →
  ∃ s', reserve_frames n (frame_at k) s = Some (tt, s') ∧ pmm_wf s' ∧
        marks (λ j, k ≤ j < k + Z.of_nat n) true s s'.
Proof.
  revert k s. induction n as [|n IH]; intros k s Hwf Hk Hkn; simpl.
  { exists s. split_and!; try done. apply marks_refl. lia. }
  unfold mbind, M_bind.
  assert (Hf : frame_index (frame_at k) = k).
  { unfold frame_index, frame_at. rewrite u32_small by pmm_lia. pmm_lia. }
  rewrite Hf. destruct (bitmap_set_ok s k) as (s1 & -> & Hwf1 & Hm1); [done|pmm_lia|].
  replace (frame_at k + PMM_FRAME_SIZE) with (frame_at (k + 1)) by (unfold frame_at; lia).
  destruct (IH (k + 1) s1) as (s2 & -> & Hwf2 & Hm2); [done|lia|lia|].
  exists s2. split_and!; try done.
  eapply marks_iff; [|by eapply marks_trans]. simpl. lia.
Qed.

(** Frame [j] shares a byte with [start, start + size). *)
Definition frame_overlaps (start size j : Z) : Prop :=
  frame_at j < start + size ∧ start < frame_at j + PMM_FRAME_SIZE.

Lemma reserve_region_ok start size s :
  pmm_wf s → is_u32 start → is_u32 size → 0 < size →
  ∃ s', pmm_reserve_region start size s = Some (tt, s') ∧ pmm_wf s' ∧
        marks (λ j, j < PMM_FRAME_COUNT s ∧ frame_overlaps start size j) true s s'.
Proof.
  intros Hwf Hs Hz Hpos. pose proof (wf_count s Hwf). pose proof (wf_end s Hwf) as He.
  unfold pmm_reserve_region, mbind, M_bind, get.
  rewrite (proj2 (Z.eqb_neq size 0)) by lia.
  set (e := if u32 (start + size) <? start then _ else _).
  assert (Hend : e = start + size ∧ e < 4294967296 ∨
                 e = 4294967295 ∧ 4294967296 ≤ start + size).
  { unfold e. destruct (Z.ltb_spec (start + size) 4294967296).
    - rewrite u32_small by pmm_lia. destruct (Z.ltb_spec (start + size) start); pmm_lia.
    - destruct (Z.ltb_spec (u32 (start + size)) start); [pmm_lia|].
      exfalso. unfold is_u32 in *. mlia. }
  clearbody e. destruct (Z.leb_spec e PMM_START); simpl.
  { exists s. split_and!; try done. apply marks_refl. unfold frame_overlaps, frame_at. pmm_lia. }
  destruct (Z.leb_spec (PMM_END s) start); simpl.
  { exists s. split_and!; try done. apply marks_refl. unfold frame_overlaps, frame_at. pmm_lia. }
  set (st := if start <? PMM_START then PMM_START else start).
  set (en := if PMM_END s <? e then PMM_END s else e).
  assert (Hst : st = Z.max start PMM_START) by (unfold st; destruct (Z.ltb_spec start PMM_START); lia).
  assert (Hen : en = Z.min e (PMM_END s)) by (unfold en; destruct (Z.ltb_spec (PMM_END s) e); lia).
  clearbody st en. rewrite !frame_mask_eq by mlia.
  rewrite (u32_small (en + _ - 1)) by pmm_lia.
  set (k := (st - PMM_START) / PMM_FRAME_SIZE).
  replace (st - st mod PMM_FRAME_SIZE) with (frame_at k) by (unfold frame_at, k; pmm_lia).
  set (n := Z.to_nat _).
  assert (Hn : Z.of_nat n = (en - PMM_START + PMM_FRAME_SIZE - 1) / PMM_FRAME_SIZE - k).
  { unfold n, frame_at, k. pmm_lia. }
  clearbody n. destruct (reserve_frames_ok n k s) as (s' & -> & Hwf' & Hm);
    [done|unfold k; pmm_lia|unfold k in *; pmm_lia|].
  exists s'. split_and!; try done. eapply marks_iff; [|done].
  intros j Hj. simpl. unfold frame_overlaps, frame_at, k in *. pmm_lia.
Qed.

Lemma pmm_init_ok ram_top s :
  Z.of_nat (length (frame_bitmap s)) = PMM_MAX_FRAME_COUNT / 8 → is_u32 ram_top →
  ∃ s', pmm_init ram_top s = Some (tt, s') ∧ pmm_wf s' ∧
        (∀ j, 0 ≤ j < PMM_MAX_FRAME_COUNT → frame_used s' j = false) ∧
        PMM_END s' ≤ Z.max ram_top (PMM_START + PMM_FRAME_SIZE).
Proof.
  intros Hlen Hr. unfold pmm_init. eexists. split; [done|].
  set (t := if PMM_MAX_END <? _ then _ else _).
  assert (Ht : PMM_START + PMM_FRAME_SIZE ≤ t ≤ PMM_MAX_END ∧
               t ≤ Z.max ram_top (PMM_START + PMM_FRAME_SIZE)).
  { unfold t. destruct (Z.ltb_spec ram_top (PMM_START + PMM_FRAME_SIZE)).
    { change (PMM_MAX_END <? PMM_START + PMM_FRAME_SIZE) with false. pmm_lia. }
    destruct (Z.ltb_spec PMM_MAX_END ram_top); pmm_lia. }
  clearbody t. rewrite frame_mask_eq by pmm_lia.
  split; [|split].
  - split; simpl.
    + by rewrite length_replicate.
    + apply Forall_replicate. done.
    + pmm_lia.
    + pmm_lia.
  - intros j Hj. unfold frame_used, bitmap_test. simpl.
    rewrite zlookup_nonneg by pmm_lia. rewrite lookup_replicate_2 by pmm_lia. done.
  - simpl. pmm_lia.
Qed.

Lemma count_used_ok n i s :
  pmm_wf s → 0 ≤ i → i + Z.of_nat n ≤ PMM_MAX_FRAME_COUNT →
  count_used n i s =
    Some (Z.of_nat (length (filter (λ j, frame_used s j = true) (seqZ i (Z.of_nat n)))), s).
Proof.
  intros Hwf. revert i. induction n as [|n IH]; intros i Hi Hin; [done|].
  cbn [count_used]. unfold mbind, M_bind. rewrite bitmap_test_used by (done || pmm_lia).
  rewrite IH by lia. rewrite (seqZ_cons i) by lia.
  replace (Z.pred (Z.of_nat (S n))) with (Z.of_nat n) by lia.
  replace (Z.succ i) with (i + 1) by lia.
  rewrite filter_cons. unfold mret, M_ret.
  case_decide as E; [rewrite E|apply not_true_is_false in E; rewrite E];
    simpl; repeat f_equal; lia.
Qed.

Lemma marks_fresh_used P s s' j :
  marks P true s s' → 0 ≤ j < PMM_MAX_FRAME_COUNT →
  frame_used s j = true → frame_used s' j = true.
Proof.
  intros [_ H] Hj Hu. destruct (H j Hj) as [H1 H2].
  destruct (decide (frame_used s' j = true)) as [|Hn]; [done|].
  rewrite <- Hu. apply H2. intros HP. by apply Hn, H1.
Qed.

(** ** Ownership of the frames

    The traffic of the kernel on the allocator: allocations that succeed add
    their frames to the frames in use by the callers, frees return frames that
    a caller holds, regions are reserved. *)

Definition run_frames (r count : Z) : list Z :=
  (λ m, r + m * PMM_FRAME_SIZE) <$> seqZ 0 count.

Inductive pmm_step : pmm_t * list Z → pmm_t * list Z → Prop :=
  | step_alloc s o r s' :
      pmm_alloc_frame s = Some (r, s') →
      pmm_step (s, o) (s', if r =? 0 then o else r :: o)
  | step_alloc_run s o count r s' :
      1 ≤ count ≤ PMM_FRAME_COUNT s → pmm_alloc_frames count s = Some (r, s') →
      pmm_step (s, o) (s', if r =? 0 then o else run_frames r count ++ o)
  | step_free s o1 a o2 s' :
      pmm_free_frame a s = Some (tt, s') →
      pmm_step (s, o1 ++ a :: o2) (s', o1 ++ o2)
  | step_reserve s o start size s' :
      is_u32 start → is_u32 size →
      pmm_reserve_region start size s = Some (tt, s') → pmm_step (s, o) (s', o).

(** The frames held by the callers are distinct, inside the RAM, and marked
    used. *)
Definition owned_inv (x : pmm_t * list Z) : Prop :=
  pmm_wf x.1 ∧ NoDup x.2 ∧
  Forall (λ a, ∃ k, 0 ≤ k < PMM_FRAME_COUNT x.1 ∧ a = frame_at k ∧
                    frame_used x.1 k = true) x.2.

Lemma elem_of_run_frames r count a :
  a ∈ run_frames r count ↔ ∃ m, 0 ≤ m < count ∧ a = r + m * PMM_FRAME_SIZE.
Proof.
  unfold run_frames. rewrite list_elem_of_fmap. setoid_rewrite elem_of_seqZ.
  split; intros (m & ? & ?); exists m; (split; [lia|lia]) || (split; [done|lia]).
Qed.

Lemma owned_alloc count s o r s' :
  1 ≤ count → owned_inv (s, o) → pmm_wf s' → alloc_spec count s r s' →
  owned_inv (s', if r =? 0 then o else run_frames r count ++ o).
Proof.
  intros Hc (Hwf & Hnd & Hall) Hwf' [(-> & -> & _)|(k & Hk & Hkn & -> & Hfree & _ & Hm)];
    [done|]. simpl in *.
  rewrite (proj2 (Z.eqb_neq _ _)) by (unfold frame_at; pmm_lia).
  pose proof (marks_count _ _ _ _ Hm) as HFC. pose proof (wf_count s Hwf).
  rewrite Forall_forall in Hall. split; [done|]. simpl. split.
  - apply NoDup_app. split_and!; [| |done].
    + unfold run_frames. apply NoDup_fmap_2_strong; [|apply NoDup_seqZ].
      intros x y _ _. pmm_lia.
    + intros a (m & Hm0 & ->)%elem_of_run_frames Ho.
      destruct (Hall _ Ho) as (j & Hj & E & Hu). unfold frame_at in E.
      assert (j = k + m) as -> by pmm_lia. rewrite Hfree in Hu by lia. done.
  - apply Forall_app. split; apply Forall_forall.
    + intros a (m & Hm0 & ->)%elem_of_run_frames. exists (k + m).
      split; [lia|]. split; [unfold frame_at; lia|].
      apply (proj1 (proj2 Hm (k + m) ltac:(lia))). lia.
    + intros a Ha. destruct (Hall _ Ha) as (j & Hj & -> & Hu).
      exists j. split; [lia|]. split; [done|].
      eapply marks_fresh_used; [done|lia|done].
Qed.

Lemma owned_free s o1 a o2 s' :
  owned_inv (s, o1 ++ a :: o2) → pmm_wf s' → free_spec (λ x, x = a) s s' →
  owned_inv (s', o1 ++ o2).
Proof.
  intros (Hwf & Hnd & Hall) Hwf' Hm. simpl in *.
  pose proof (marks_count _ _ _ _ Hm) as HFC. pose proof (wf_count s Hwf).
  assert (Hperm : o1 ++ a :: o2 ≡ₚ a :: (o1 ++ o2)) by (symmetry; apply Permutation_middle).
  rewrite Hperm in Hnd, Hall. apply NoDup_cons in Hnd as [Hna Hnd].
  split; [done|]. split; [done|]. simpl. apply Forall_forall. intros b Hb.
  rewrite Forall_forall in Hall.
  destruct (Hall b) as (j & Hj & -> & Hu); [by right|].
  exists j. rewrite HFC. split; [done|]. split; [done|].
  rewrite (proj2 (proj2 Hm j ltac:(lia))); [done|].
  intros [_ E]. apply Hna. by rewrite <- E.
Qed.

Lemma pmm_boot_len : Z.of_nat (length (frame_bitmap pmm_boot)) = PMM_MAX_FRAME_COUNT / 8.
Proof.
  unfold pmm_boot, frame_bitmap. rewrite length_replicate.
  apply Z2Nat.id. vm_compute. discriminate.
Qed.

Lemma pmm_boot_wf : pmm_wf pmm_boot.
Proof.
  split; [exact pmm_boot_len| |done|reflexivity].
  unfold pmm_boot, frame_bitmap. apply Forall_replicate. done.
Qed.

(** ** Properties *)



(** Allocating a run of [count] frames and freeing it gives back
    a bitmap with exactly the frames used before the allocation, whatever the
    state of the bitmap. *)
Theorem pmm_alloc_free_roundtrip s count r s1 :
  pmm_wf s → 1 ≤ count ≤ PMM_FRAME_COUNT s →
  pmm_alloc_frames count s = Some (r, s1) → r ≠ 0 →
  ∃ s2, pmm_free_frames r count s1 = Some (tt, s2) ∧
        ∀ j, 0 ≤ j < PMM_MAX_FRAME_COUNT → frame_used s2 j = frame_used s j.
Proof.
  intros Hwf Hc E Hr. pose proof (wf_count s Hwf).
  destruct (alloc_frames_ok count s Hwf Hc) as (r2 & s2 & E2 & Hw2 & Ha).
  rewrite E in E2. simplify_eq.
  destruct Ha as [[? _]|(k & Hk & Hkn & -> & Hfree & _ & Hm)]; [done|].
  destruct (free_frames_loop_ok (Z.to_nat count) (frame_at k) 0 s2 Hw2) as (s3 & E3 & _ & Hf); [lia|].
  exists s3. split; [done|]. intros j Hj.
  destruct Hf as [_ Hf]. destruct (Hf j Hj) as [Hf1 Hf2].
  destruct Hm as [[_ HFC] Hm]. destruct (Hm j Hj) as [Hm1 Hm2].
  destruct (decide (k ≤ j < k + count)) as [Hin|Hout].
  - rewrite Hf1; [by rewrite Hfree|]. split; [lia|]. exists (j - k).
    rewrite u32_small by (unfold frame_at; pmm_lia). split; [lia|unfold frame_at; lia].
  - rewrite Hf2, Hm2 by done || (intros (_ & m & Hm' & E'); apply Hout;
      rewrite u32_small in E' by (unfold frame_at; pmm_lia); unfold frame_at in E'; pmm_lia).
    done.
Qed.

Lemma pmm_alloc_free_roundtrip_witness :
  ∃ s1 s2, pmm_alloc_frames 3 pmm_boot = Some (frame_at 0, s1) ∧
           pmm_free_frames (frame_at 0) 3 s1 = Some (tt, s2) ∧ frame_used s2 2 = false.
Proof.
  assert (H : fst <$> pmm_alloc_frames 3 pmm_boot = Some (frame_at 0))
    by (vm_compute; reflexivity).
  destruct (pmm_alloc_frames 3 pmm_boot) as [[r s1]|] eqn:E; [|done].
  injection H as ->.
  destruct (pmm_alloc_free_roundtrip pmm_boot 3 (frame_at 0) s1) as (s2 & E2 & H2);
    [exact pmm_boot_wf|done|done|done|].
  exists s1, s2. split_and!; [done|done|]. rewrite H2 by done. reflexivity.
Defined.

(** Once a region has been reserved, no run that the allocator
    hands out shares a byte with it, even when the region's end overflows 32
    bits. *)
Theorem pmm_reserved_not_allocated s start size s1 count r s2 :
  pmm_wf s → is_u32 start → is_u32 size → 0 < size →
  pmm_reserve_region start size s = Some (tt, s1) →
  1 ≤ count ≤ PMM_FRAME_COUNT s →
  pmm_alloc_frames count s1 = Some (r, s2) → r ≠ 0 →
  r + count * PMM_FRAME_SIZE ≤ start ∨ start + size ≤ r.
Proof.
  intros Hwf Hst Hsz Hpos E Hc E2 Hr. pose proof (wf_count s Hwf).
  destruct (reserve_region_ok start size s Hwf Hst Hsz Hpos) as (x & Ex & Hw1 & [[_ HFC] Hm]).
  rewrite E in Ex. simplify_eq.
  destruct (alloc_frames_ok count x Hw1) as (r' & s' & E' & _ & Ha); [by rewrite HFC|].
  rewrite E2 in E'. simplify_eq.
  destruct Ha as [[? _]|(k & Hk & Hkn & -> & Hfree & _ & _)]; [done|].
  destruct (decide (frame_at k + count * PMM_FRAME_SIZE ≤ start)) as [|H1]; [by left|].
  destruct (decide (start + size ≤ frame_at k)) as [|H2]; [by right|]. exfalso.
  set (j := Z.max k ((start - PMM_START) / PMM_FRAME_SIZE)).
  assert (Hj : k ≤ j < k + count ∧ frame_overlaps start size j).
  { unfold frame_overlaps, frame_at, j in *. pmm_lia. }
  destruct Hj as [Hj Ho]. specialize (Hfree j Hj).
  rewrite (proj1 (Hm j ltac:(lia))) in Hfree; [done|]. split; [lia|done].
Qed.

Lemma pmm_reserved_not_allocated_witness :
  ∃ s1 s2, pmm_reserve_region 0x800000 0x1001 pmm_boot = Some (tt, s1) ∧
    pmm_alloc_frames 1 s1 = Some (frame_at 2, s2) ∧ 0x800000 + 0x1001 ≤ frame_at 2.
Proof.
  assert (H : fst <$> (pmm_reserve_region 0x800000 0x1001;; pmm_alloc_frames 1) pmm_boot =
              Some (frame_at 2)) by (vm_compute; reflexivity).
  unfold mbind, M_bind in H.
  destruct (pmm_reserve_region 0x800000 0x1001 pmm_boot) as [[[] s1]|] eqn:E; [|done].
  destruct (pmm_alloc_frames 1 s1) as [[r s2]|] eqn:E2; [|done]. injection H as ->.
  exists s1, s2. split_and!; [done|done|].
  destruct (pmm_reserved_not_allocated pmm_boot 0x800000 0x1001 s1 1 (frame_at 2) s2);
    [exact pmm_boot_wf|done|done|done|done|done|done|done|by vm_compute in H|done].
Defined.

(** [pmm_get_stats] reports the number of frames, the number of
    used frames and the number of free frames of the RAM, and changes nothing. *)
Theorem pmm_get_stats_correct s :
  pmm_wf s →
  let frames := seqZ 0 (PMM_FRAME_COUNT s) in
  pmm_get_stats s =
    Some (Z.of_nat (length frames),
          Z.of_nat (length (filter (λ j, frame_used s j = true) frames)),
          Z.of_nat (length (filter (λ j, frame_used s j = false) frames)), s).
Proof.
  intros Hwf frames. pose proof (wf_count s Hwf).
  unfold pmm_get_stats, mbind, M_bind, get.
  rewrite count_used_ok by (done || lia). unfold mret, M_ret. rewrite Z2Nat.id by lia.
  fold frames. assert (Hlen : Z.of_nat (length frames) = PMM_FRAME_COUNT s).
  { unfold frames. rewrite length_seqZ. lia. }
  assert (Hsum : ∀ l : list Z, length l = (length (filter (λ j, frame_used s j = true) l) +
                       length (filter (λ j, frame_used s j = false) l))%nat).
  { intros l. induction l as [|j l IHl]; [done|].
    rewrite !filter_cons. destruct (frame_used s j); simpl; lia. }
  specialize (Hsum frames). rewrite Hlen. rewrite u32_small by pmm_lia.
  repeat f_equal. lia.
Qed.

Lemma pmm_get_stats_correct_witness :
  let frames := seqZ 0 (PMM_FRAME_COUNT pmm_boot) in
  pmm_get_stats pmm_boot =
    Some (Z.of_nat (length frames),
          Z.of_nat (length (filter (λ j, frame_used pmm_boot j = true) frames)),
          Z.of_nat (length (filter (λ j, frame_used pmm_boot j = false) frames)), pmm_boot) ∧
  fst <$> pmm_get_stats pmm_boot = Some (6144, 0, 6144).
Proof.
  split; [exact (pmm_get_stats_correct pmm_boot pmm_boot_wf)|vm_compute; reflexivity].
Defined.

(** A request for more frames than the RAM has is not refused: the
    bound of the search wraps around, and on a fresh bitmap [pmm_alloc_frames]
    returns the start of the RAM for a run that extends past its end. *)
Theorem pmm_alloc_frames_overcommit ram_top s0 s count :
  Z.of_nat (length (frame_bitmap s0)) = PMM_MAX_FRAME_COUNT / 8 → is_u32 ram_top →
  pmm_init ram_top s0 = Some (tt, s) →
  PMM_FRAME_COUNT s < count ≤ PMM_MAX_FRAME_COUNT →
  ∃ s', pmm_alloc_frames count s = Some (PMM_START, s') ∧
        PMM_END s < PMM_START + count * PMM_FRAME_SIZE.
Proof.
  intros Hlen Hr E Hc.
  destruct (pmm_init_ok ram_top s0 Hlen Hr) as (x & Ex & Hwf & Hfree & _).
  rewrite E in Ex. simplify_eq. pose proof (wf_count x Hwf). pose proof (wf_end x Hwf).
  unfold pmm_alloc_frames, mbind, M_bind, get. rewrite (proj2 (Z.eqb_neq _ _)) by lia.
  destruct (Z.to_nat (u32 (PMM_FRAME_COUNT x - count) + 1)) as [|n] eqn:En.
  { pose proof (u32_range (PMM_FRAME_COUNT x - count)). unfold is_u32 in *. lia. }
  simpl. unfold mbind, M_bind.
  destruct (run_free_ok (Z.to_nat count) 0 x) as (b & -> & Hb); [done|lia|lia|].
  assert (b = true) as ->. { apply Hb. intros j Hj. apply Hfree. lia. }
  destruct (run_set_ok (Z.to_nat count) 0 x) as (s' & -> & _); [done|lia|lia|].
  exists s'. split; [|pmm_lia]. reflexivity.
Qed.

Lemma pmm_alloc_frames_overcommit_witness :
  ∃ s s', pmm_init 0x2000000 pmm_boot = Some (tt, s) ∧
          pmm_alloc_frames 6145 s = Some (PMM_START, s').
Proof.
  assert (H : (λ x, PMM_FRAME_COUNT x.2) <$> pmm_init 0x2000000 pmm_boot = Some 6144)
    by (vm_compute; reflexivity).
  destruct (pmm_init 0x2000000 pmm_boot) as [[[] s]|] eqn:E; [|done].
  injection H as H. exists s.
  destruct (pmm_alloc_frames_overcommit 0x2000000 pmm_boot s 6145) as (s' & E' & _);
    [exact pmm_boot_len|done|done|rewrite H; done|].
  exists s'. done.
Defined.
