(* ===== verification/Strbuf.v ===== *)
(** * Bounded string building ([src/src/utils/strbuf.c])

    The appenders that the [/mos] files are generated with.  The state is the
    destination buffer with the current length; [cap] is the capacity that the
    caller passes, and the buffer has at least [cap] bytes. *)

From S2P Require Import Prelude CLib.

(** ** The code *)

Abbreviation strbuf := (list Z * Z)%type.

Definition strbuf_append_char (cap c : Z) : M strbuf Z := λ '(dst, len),
  if cap <=? len then Some (-1, (dst, len)) else
  dst' ← zupdate dst len c;
  Some (0, (dst', u32 (len + 1))).

Fixpoint strbuf_append_cstr (cap : Z) (s : list Z) : M strbuf Z :=
  match s with
  | [] => mret 0
  | c :: s => rc ← strbuf_append_char cap c;
              if rc <? 0 then mret (-1) else strbuf_append_cstr cap s
  end.

(** [while (v > 0 && t < 16) tmp[t++] = '0' + v % 10, v /= 10;] *)
Fixpoint dec_tmp (fuel : nat) (v : Z) : list Z :=
  match fuel with
  | O => []
  | S fuel => if 0 <? v then (48 + v mod 10) :: dec_tmp fuel (v / 10) else []
  end.

(** The digits of [tmp] are appended from the last one down, which is
    [strbuf_append_cstr] of the reversed list. *)
Definition strbuf_append_dec_u32 (cap v : Z) : M strbuf Z :=
  if v =? 0 then strbuf_append_char cap 48 else
  strbuf_append_cstr cap (rev (dec_tmp 16 v)).

Fixpoint hex_loop (shifts : list Z) (v : Z) (started : bool) (cap : Z) : M strbuf (Z * bool) :=
  match shifts with
  | [] => mret (0, started)
  | shift :: shifts =>
    let nib := Z.land (Z.shiftr v shift) 15 in
    if negb started && (nib =? 0) && (0 <? shift) then hex_loop shifts v started cap
    else
      let c := if nib <? 10 then 48 + nib else 97 + (nib - 10) in
      rc ← strbuf_append_char cap c;
      if rc <? 0 then mret (-1, true) else hex_loop shifts v true cap
  end.

Definition strbuf_append_hex_u32 (cap v : Z) : M strbuf Z :=
  rc ← strbuf_append_cstr cap (str "0x");
  if rc <? 0 then mret (-1) else
  '(rc, started) ← hex_loop [28; 24; 20; 16; 12; 8; 4; 0] v false cap;
  if rc <? 0 then mret (-1) else
  if negb started then
    rc ← strbuf_append_char cap 48;
    (if rc <? 0 then mret (-1) else mret 0)
  else mret 0.

(** ** Appending text

    [append_spec cap l b rc b']: the characters of [l] that fit below [cap] were
    appended; the result is 0 when all of them did. *)

Definition append_spec (cap : Z) (l : list Z) (b : strbuf) (rc : Z) (b' : strbuf) : Prop :=
  let n := (length l `min` Z.to_nat (cap - b.2))%nat in
  rc = (if decide (n = length l) then 0 else -1) ∧
  b' = (splice b.1 (Z.to_nat b.2) (take n l), b.2 + Z.of_nat n).

Lemma append_cstr_ok cap l dst len :
  0 ≤ len ≤ cap → cap ≤ Z.of_nat (length dst) → cap < 4294967296 →
  ∃ rc b', strbuf_append_cstr cap l (dst, len) = Some (rc, b') ∧
           append_spec cap l (dst, len) rc b'.
Proof.
  revert dst len. induction l as [|c l IH]; intros dst len Hl Hd Hc.
  { exists 0, (dst, len). split; [done|]. unfold append_spec. simpl.
    rewrite splice_nil, Z.add_0_r. done. }
  cbn [strbuf_append_cstr]. unfold mbind, M_bind. unfold strbuf_append_char.
  destruct (Z.leb_spec cap len).
  { exists (-1), (dst, len). split; [done|]. unfold append_spec. simpl.
    replace (Z.to_nat (cap - len)) with O by lia. simpl.
    rewrite splice_nil, Z.add_0_r. done. }
  rewrite zupdate_Some by lia. cbn [option_bind].
  rewrite u32_small by (unfold is_u32; lia). simpl.
  destruct (IH (<[Z.to_nat len:=c]> dst) (len + 1)) as (rc & b' & -> & Hrc & ->);
    rewrite ?length_insert; try lia.
  eexists _, _. split; [done|]. unfold append_spec. simpl in *.
  replace (Z.to_nat (cap - len)) with (S (Z.to_nat (cap - (len + 1)))) by lia.
  simpl. set (n := (length l `min` Z.to_nat (cap - (len + 1)))%nat) in *.
  split.
  - rewrite Hrc. repeat case_decide; lia.
  - replace (Z.to_nat (len + 1)) with (S (Z.to_nat len)) by lia.
    rewrite splice_cons by (rewrite length_take; lia). f_equal. lia.
Qed.

(** The text of a number in base 16 as the kernel prints it. *)
Definition hex_text (v : Z) : list Z :=
  str "0x" ++ (if v =? 0 then [48] else rev (le_digits 32 16 v)).
Definition dec_text (v : Z) : list Z :=
  if v =? 0 then [48] else rev (le_digits 32 10 v).

Lemma dec_tmp_digits k v : 0 ≤ v → dec_tmp k v = le_digits k 10 v.
Proof.
  revert v. induction k as [|k IH]; intros v Hv; [done|]. cbn [dec_tmp le_digits].
  destruct (Z.eqb_spec v 0) as [->|]; [done|].
  rewrite (proj2 (Z.ltb_lt _ _)) by lia. rewrite IH by (apply Z.div_pos; lia).
  f_equal. unfold digit_char. pose proof (Z.mod_pos_bound v 10).
  rewrite (proj2 (Z.ltb_ge _ _)) by lia. lia.
Qed.

Lemma le_digits_enough base j k v :
  2 ≤ base ≤ 16 → 0 ≤ v < base ^ Z.of_nat j → (j ≤ k)%nat →
  le_digits k base v = le_digits j base v.
Proof.
  intros Hb. revert k v. induction j as [|j IH]; intros k v Hv Hjk.
  { simpl in Hv. assert (v = 0) as -> by lia. by destruct k. }
  destruct k as [|k]; [lia|]. cbn [le_digits]. destruct (Z.eqb_spec v 0); [done|].
  f_equal. apply IH; [|lia].
  rewrite Nat2Z.inj_succ, Z.pow_succ_r in Hv by lia.
  split; [apply Z.div_pos; lia|]. apply Z.div_lt_upper_bound; nia.
Qed.

Lemma append_dec_cstr cap v b :
  is_u32 v → strbuf_append_dec_u32 cap v b = strbuf_append_cstr cap (dec_text v) b.
Proof.
  intros Hv. unfold strbuf_append_dec_u32, dec_text, is_u32 in *.
  destruct (Z.eqb_spec v 0).
  - cbn [strbuf_append_cstr]. unfold mbind, M_bind, mret, M_ret. destruct b as [dst len].
    unfold strbuf_append_char. case_match; [done|]. by destruct (zupdate dst len 48).
  - rewrite dec_tmp_digits by lia.
    rewrite (le_digits_enough 10 10 16), (le_digits_enough 10 10 32) by lia. done.
Qed.

(** The nibble loop, started, prints all remaining nibbles. *)
Fixpoint nibbles (n : nat) (v : Z) : list Z :=
  match n with
  | O => []
  | S n => digit_char (Z.shiftr v (4 * Z.of_nat n) mod 16) :: nibbles n v
  end.

Fixpoint shifts_from (n : nat) : list Z :=
  match n with O => [] | S n => 4 * Z.of_nat n :: shifts_from n end.

Lemma nib_char v s :
  (let nib := Z.land (Z.shiftr v s) 15 in if nib <? 10 then 48 + nib else 97 + (nib - 10)) =
  digit_char (Z.shiftr v s mod 16).
Proof.
  simpl. change 15 with (Z.ones 4). rewrite Z.land_ones by lia. change (2 ^ 4) with 16.
  unfold digit_char. pose proof (Z.mod_pos_bound (Z.shiftr v s) 16).
  destruct (Z.ltb_spec (Z.shiftr v s mod 16) 10);
    destruct (Z.ltb_spec 9 (Z.shiftr v s mod 16)); lia.
Qed.

Definition after_cstr (m : M strbuf Z) : M strbuf (Z * bool) := rc ← m; mret (rc, true).

Lemma append_char_rc cap c b rc b' :
  strbuf_append_char cap c b = Some (rc, b') → rc = 0 ∨ rc = -1.
Proof.
  unfold strbuf_append_char. destruct b as [dst len]. case_match; [naive_solver|].
  destruct (zupdate dst len c); simpl; naive_solver.
Qed.

Lemma hex_loop_started n v cap b :
  hex_loop (shifts_from n) v true cap b = after_cstr (strbuf_append_cstr cap (nibbles n v)) b.
Proof.
  revert b. induction n as [|n IH]; intros b; [done|].
  cbn [shifts_from hex_loop nibbles strbuf_append_cstr negb andb].
  rewrite nib_char. unfold after_cstr, mbind, M_bind in *.
  destruct (strbuf_append_char cap _ b) as [[rc b']|] eqn:E; [|done].
  apply append_char_rc in E as [-> | ->]; simpl; [apply IH|done].
Qed.

Lemma nibbles_snoc n v :
  nibbles (S n) v = nibbles n (v / 16) ++ [digit_char (v mod 16)].
Proof.
  induction n as [|n IH]; [simpl; by rewrite Z.shiftr_0_r|].
  change (nibbles (S (S n)) v) with
    (digit_char (Z.shiftr v (4 * Z.of_nat (S n)) mod 16) :: nibbles (S n) v).
  rewrite IH. cbn [nibbles app]. f_equal. f_equal. f_equal.
  replace (v / 16) with (Z.shiftr v 4) by (by rewrite Z.shiftr_div_pow2).
  rewrite Z.shiftr_shiftr by lia. f_equal. lia.
Qed.

Lemma nibbles_digits n v :
  16 ^ Z.of_nat n ≤ v < 16 ^ Z.of_nat (S n) → nibbles (S n) v = rev (le_digits (S n) 16 v).
Proof.
  revert v. induction n as [|n IH]; intros v Hv; rewrite nibbles_snoc.
  - simpl in *. rewrite (proj2 (Z.eqb_neq _ _)) by lia. done.
  - assert (Hp : 0 < 16 ^ Z.of_nat n) by (apply Z.pow_pos_nonneg; lia).
    rewrite !Nat2Z.inj_succ, !Z.pow_succ_r in Hv by lia.
    remember (S n) as m eqn:Em. cbn [le_digits].
    rewrite (proj2 (Z.eqb_neq _ _)) by lia. cbn [rev]. subst m. f_equal. apply IH.
    rewrite Nat2Z.inj_succ, Z.pow_succ_r by lia.
    split; [apply Z.div_le_lower_bound; lia|apply Z.div_lt_upper_bound; lia].
Qed.

Lemma hex_loop_fresh n v cap b :
  (n < 8)%nat → 0 ≤ v < 16 ^ Z.of_nat (S n) →
  hex_loop (shifts_from (S n)) v false cap b =
    after_cstr (strbuf_append_cstr cap (if v =? 0 then [48] else rev (le_digits 32 16 v))) b.
Proof.
  revert v b. induction n as [|n IH]; intros v b Hn Hv.
  - cbn [shifts_from hex_loop]. rewrite andb_false_r, nib_char.
    simpl in Hv. cbn [Z.of_nat Z.mul]. rewrite Z.shiftr_0_r, Z.mod_small by lia.
    replace (if v =? 0 then [48] else rev (le_digits 32 16 v)) with [digit_char v].
    2: { destruct (Z.eqb_spec v 0) as [->|]; [done|].
         rewrite (le_digits_enough 16 1) by (simpl; lia). cbn [le_digits].
         rewrite (proj2 (Z.eqb_neq _ _)) by lia. by rewrite Z.mod_small by lia. }
    cbn [strbuf_append_cstr]. unfold after_cstr, mbind, M_bind, mret, M_ret.
    destruct (strbuf_append_char cap (digit_char v) b) as [[rc b']|] eqn:E; [|done].
    apply append_char_rc in E as [-> | ->]; done.
  - assert (Hp : 0 < 16 ^ Z.of_nat (S n)) by (apply Z.pow_pos_nonneg; lia).
    assert (Hsh : Z.shiftr v (4 * Z.of_nat (S n)) = v / 16 ^ Z.of_nat (S n)).
    { rewrite Z.shiftr_div_pow2, Z.pow_mul_r by lia. done. }
    assert (Hnib : Z.land (Z.shiftr v (4 * Z.of_nat (S n))) 15 = v / 16 ^ Z.of_nat (S n)).
    { change 15 with (Z.ones 4). rewrite Z.land_ones, Hsh by lia. apply Z.mod_small.
      split; [apply Z.div_pos; lia|]. apply Z.div_lt_upper_bound; [lia|].
      rewrite (Nat2Z.inj_succ (S n)), Z.pow_succ_r in Hv by lia. lia. }
    destruct (decide (v < 16 ^ Z.of_nat (S n))) as [Hlt|Hge].
    + rewrite <- IH by lia. remember (S n) as m eqn:Em. cbn [shifts_from hex_loop].
      rewrite Hnib, Z.div_small by lia.
      rewrite (proj2 (Z.ltb_lt 0 (4 * _))) by lia. done.
    + assert (v / 16 ^ Z.of_nat (S n) ≠ 0).
      { assert (1 ≤ v / 16 ^ Z.of_nat (S n)) by (apply Z.div_le_lower_bound; lia). lia. }
      rewrite (proj2 (Z.eqb_neq v 0)) by lia.
      rewrite (le_digits_enough 16 (S (S n))) by lia.
      rewrite <- nibbles_digits by lia.
      remember (S n) as m eqn:Em. cbn [shifts_from hex_loop].
      rewrite (proj2 (Z.eqb_neq (Z.land _ _) 0)) by (rewrite Hnib; lia).
      cbn [negb andb]. rewrite nib_char. cbn [nibbles strbuf_append_cstr].
      pose proof (λ b, hex_loop_started m v cap b) as Hst.
      unfold after_cstr, mbind, M_bind in *.
      destruct (strbuf_append_char cap _ b) as [[rc b']|] eqn:E; [|done].
      apply append_char_rc in E as [-> | ->]; simpl; [apply Hst|done].
Qed.

Lemma append_cstr_app cap l1 l2 b :
  strbuf_append_cstr cap (l1 ++ l2) b =
  (rc ← strbuf_append_cstr cap l1; if rc <? 0 then mret (-1) else strbuf_append_cstr cap l2) b.
Proof.
  revert b. induction l1 as [|c l1 IH]; intros b; [done|]. cbn [app strbuf_append_cstr].
  unfold mbind, M_bind in *.
  destruct (strbuf_append_char cap c b) as [[rc b']|]; [|done]. by destruct (rc <? 0).
Qed.

Lemma append_cstr_rc cap l b rc b' :
  strbuf_append_cstr cap l b = Some (rc, b') → rc = 0 ∨ rc = -1.
Proof.
  revert b. induction l as [|c l IH]; intros b; [simpl; unfold mret, M_ret; naive_solver|].
  cbn [strbuf_append_cstr]. unfold mbind, M_bind.
  destruct (strbuf_append_char cap c b) as [[rc1 b1]|]; [|done].
  destruct (rc1 <? 0); [unfold mret, M_ret; naive_solver|apply IH].
Qed.

Lemma append_hex_cstr cap v b :
  is_u32 v → strbuf_append_hex_u32 cap v b = strbuf_append_cstr cap (hex_text v) b.
Proof.
  intros Hv. unfold strbuf_append_hex_u32, hex_text. rewrite append_cstr_app.
  unfold mbind, M_bind at 1. unfold mbind, M_bind.
  destruct (strbuf_append_cstr cap (str "0x") b) as [[rc b1]|]; [|done].
  destruct (rc <? 0); [done|].
  pose proof (hex_loop_fresh 7 v cap b1 ltac:(lia) Hv) as E.
  change (shifts_from 8) with [28; 24; 20; 16; 12; 8; 4; 0] in E. rewrite E.
  unfold after_cstr, mbind, M_bind.
  destruct (strbuf_append_cstr cap _ b1) as [[rc2 b2]|] eqn:E2; [|done].
  apply append_cstr_rc in E2 as [-> | ->]; done.
Qed.

(** ** Properties *)

(** For every 32-bit value, the decimal and the hexadecimal
    appender append, as far as the capacity allows and never beyond it, a
    numeral that reads back as the value; they return 0 when it fits and -1
    otherwise. *)
Theorem strbuf_numbers_roundtrip cap dst len v :
  is_u32 v → 0 ≤ len ≤ cap → cap ≤ Z.of_nat (length dst) → cap < 4294967296 →
  (∃ rc b', strbuf_append_dec_u32 cap v (dst, len) = Some (rc, b') ∧
            append_spec cap (dec_text v) (dst, len) rc b' ∧
            parse_digits 10 (dec_text v) = v) ∧
  (∃ rc b', strbuf_append_hex_u32 cap v (dst, len) = Some (rc, b') ∧
            append_spec cap (hex_text v) (dst, len) rc b' ∧
            parse_digits 16 (drop 2 (hex_text v)) = v).
Proof.
  intros Hv Hl Hd Hc. rewrite append_dec_cstr, append_hex_cstr by done.
  assert (Hp : ∀ base, 2 ≤ base ≤ 16 →
            parse_digits base (if v =? 0 then [48] else rev (le_digits 32 base v)) = v).
  { intros base Hb. destruct (Z.eqb_spec v 0) as [->|]; [done|].
    rewrite parse_digits_rev. by apply le_digits_value. }
  split.
  - destruct (append_cstr_ok cap (dec_text v) dst len Hl Hd Hc) as (rc & b' & -> & H).
    exists rc, b'. split; [done|]. split; [done|]. apply Hp. lia.
  - destruct (append_cstr_ok cap (hex_text v) dst len Hl Hd Hc) as (rc & b' & -> & H).
    exists rc, b'. split; [done|]. split; [done|]. apply Hp. lia.
Qed.

Lemma strbuf_numbers_roundtrip_witness :
  ∃ b', strbuf_append_hex_u32 8 0xC0DE (replicate 8 0, 1) = Some (0, b') ∧
        append_spec 8 (str "0xc0de") (replicate 8 0, 1) 0 b'.
Proof.
  destruct (strbuf_numbers_roundtrip 8 (replicate 8 0) 1 0xC0DE) as [_ (rc & b' & E & H & _)];
    [done|lia|simpl; lia|lia|].
  assert (rc = 0) as -> by (destruct H as [-> _]; reflexivity).
  exists b'. split; [exact E|exact H].
Defined.
