(* ===== verification/Pipe.v ===== *)
(** * Named pipes ([src/src/fs/pipe.c])

    Eight named pipes, each with a 512-byte ring, and the table of 32 open pipe
    descriptors.  Reading an empty pipe and writing a full one block by
    yielding in a loop; the loop is modelled up to the yield ([Blocked]), and
    [blocking] describes the whole call, with the steps that the other tasks
    make at each yield. *)

From S2P Require Import Prelude Kring.

(** ** The code *)

Definition PIPE_MAX : nat := 8.
Definition PIPE_BUF_SIZE : Z := 512.
Definition PIPE_NAME_MAX : nat := 32.
Definition PIPE_FD_MAX : nat := 32.

Definition O_RDONLY : Z := 0.
Definition O_WRONLY : Z := 1.
Definition O_RDWR : Z := 2.

Definition VFS_FILE : Z := 0.
Definition VFS_DIR : Z := 1.

(** [pipe_slot_t]; [name] is the string in the name array, and the storage of
    the ring is in the ring. *)
Record pipe_slot_t : Type := mk_pipe {
  pipe_in_use : bool;
  pipe_name : list Z;
  pipe_ring : kring_u8_t
}.

Record pipe_fd_t : Type := mk_pipe_fd {
  pfd_in_use : bool;
  pfd_pipe_idx : nat;
  pfd_writable : bool
}.

Record pipes_t : Type := mk_pipes {
  pipes : list pipe_slot_t;
  pipe_fds : list pipe_fd_t
}.

Definition pipes_boot : pipes_t :=
  mk_pipes (replicate PIPE_MAX (mk_pipe false [] kring_zero))
           (replicate PIPE_FD_MAX (mk_pipe_fd false 0 false)).

Definition set_pipe (i : nat) (p : pipe_slot_t) (s : pipes_t) : pipes_t :=
  mk_pipes (<[i := p]> (pipes s)) (pipe_fds s).
Definition set_pipe_fd (i : nat) (f : pipe_fd_t) (s : pipes_t) : pipes_t :=
  mk_pipes (pipes s) (<[i := f]> (pipe_fds s)).

(** [if (path[0] == '/') path++] *)
Definition skip_slash (p : list Z) : list Z :=
  match p with c :: p' => if c =? 47 then p' else p | [] => [] end.

(** The suffix of [p] after the four characters [pipe]. *)
Definition after_pipe (p : list Z) : option (list Z) :=
  if (chr p 0 =? 112) && (chr p 1 =? 105) && (chr p 2 =? 112) && (chr p 3 =? 101)
  then Some (drop 4 p) else None.

Definition pipe_bare_name (path : list Z) : option (list Z) :=
  rest ← after_pipe (skip_slash path); Some (skip_slash rest).

Definition pipe_find_by_name (name : list Z) (s : pipes_t) : option nat :=
  if chr name 0 =? 0 then None else
  find_index (λ p, pipe_in_use p && str_eqb (pipe_name p) name) (pipes s).

Definition pipe_alloc_fd (pipe_idx : nat) (writable : bool) : M pipes_t Z := λ s,
  match find_index (λ f, negb (pfd_in_use f)) (pipe_fds s) with
  | Some i => Some (Z.of_nat i, set_pipe_fd i (mk_pipe_fd true pipe_idx writable) s)
  | None => Some (-1, s)
  end.

Definition pipe_init : M pipes_t unit := λ s,
  Some (tt, mk_pipes
    ((λ p, mk_pipe false (pipe_name p)
             (kring_u8_init (default (replicate (Z.to_nat PIPE_BUF_SIZE) 0) (kr_buf (pipe_ring p)))
                            PIPE_BUF_SIZE)) <$> pipes s)
    ((λ f, mk_pipe_fd false (pfd_pipe_idx f) (pfd_writable f)) <$> pipe_fds s)).

Definition pipe_create (name : list Z) : M pipes_t Z := λ s,
  if chr name 0 =? 0 then Some (-1, s) else
  match pipe_find_by_name name s with
  | Some _ => Some (-1, s)
  | None =>
    match find_index (λ p, negb (pipe_in_use p)) (pipes s) with
    | Some i =>
      p ← pipes s !! i;
      Some (0, set_pipe i (mk_pipe true (take (PIPE_NAME_MAX - 1) name)
                                   (kring_u8_reset (pipe_ring p))) s)
    | None => Some (-1, s)
    end
  end.

Definition pipe_destroy (name : list Z) : M pipes_t Z := λ s,
  match pipe_find_by_name name s with
  | None => Some (-1, s)
  | Some idx =>
    p ← pipes s !! idx;
    Some (0, set_pipe idx (mk_pipe false [] (kring_u8_reset (pipe_ring p))) s)
  end.

Definition pipe_open (path : list Z) (flags : Z) : M pipes_t Z := λ s,
  match pipe_bare_name path with
  | None => Some (-1, s)
  | Some name =>
    if chr name 0 =? 0 then Some (-1, s) else
    match pipe_find_by_name name s with
    | None => Some (-1, s)
    | Some idx =>
      let access := Z.land flags 3 in
      if negb (access =? O_RDONLY) && negb (access =? O_WRONLY) then Some (-1, s)
      else pipe_alloc_fd idx (access =? O_WRONLY) s
    end
  end.

(** The outcome of a transfer loop: the value returned with the bytes moved, or
    the call yields with nothing moved yet. *)
Inductive io_outcome :=
  | Returned (rc : Z) (data : list Z)
  | Blocked.

Definition ring_op {A} (idx : nat) (m : M kring_u8_t A) : M pipes_t A := λ s,
  p ← pipes s !! idx;
  '(a, r) ← m (pipe_ring p);
  Some (a, set_pipe idx (mk_pipe (pipe_in_use p) (pipe_name p) r) s).

(** The loop of [pipe_read] with [got] bytes read and [n] more wanted. *)
Fixpoint pipe_read_loop (n : nat) (idx : nat) (got : list Z) : M pipes_t io_outcome :=
  match n with
  | O => mret (Returned (s32 (Z.of_nat (length got))) got)
  | S n =>
    s ← get; p ← lift (pipes s !! idx);
    if negb (pipe_in_use p) then
      mret (Returned (if (0 <? length got)%nat then s32 (Z.of_nat (length got)) else -1) got)
    else
      o ← ring_op idx kring_u8_pop;
      match o with
      | Some b => pipe_read_loop n idx (got ++ [b])
      | None => if (0 <? length got)%nat
                then mret (Returned (s32 (Z.of_nat (length got))) got)
                else mret Blocked
      end
  end.

(** The loop of [pipe_write]: [sent] bytes written, [rest] to write. *)
Fixpoint pipe_write_loop (rest : list Z) (idx : nat) (sent : list Z) : M pipes_t io_outcome :=
  match rest with
  | [] => mret (Returned (s32 (Z.of_nat (length sent))) sent)
  | b :: rest =>
    s ← get; p ← lift (pipes s !! idx);
    if negb (pipe_in_use p) then
      mret (Returned (if (0 <? length sent)%nat then s32 (Z.of_nat (length sent)) else -1) sent)
    else
      rc ← ring_op idx (kring_u8_push b);
      if rc =? 0 then pipe_write_loop rest idx (sent ++ [b])
      else if (0 <? length sent)%nat then mret (Returned (s32 (Z.of_nat (length sent))) sent)
      else mret Blocked
  end.

(** The checks at the start of [pipe_read] and [pipe_write]: the pipe of a
    descriptor opened in the given direction. *)
Definition pipe_handle (handle : Z) (writable : bool) (s : pipes_t) : option nat :=
  if (handle <? 0) || (Z.of_nat PIPE_FD_MAX <=? handle) then None else
  f ← pipe_fds s !! Z.to_nat handle;
  if pfd_in_use f && Bool.eqb (pfd_writable f) writable then Some (pfd_pipe_idx f) else None.

Definition pipe_read (handle len : Z) : M pipes_t io_outcome := λ s,
  match pipe_handle handle false s with
  | None => Some (Returned (-1) [], s)
  | Some idx => pipe_read_loop (Z.to_nat len) idx [] s
  end.

Definition pipe_write (handle : Z) (buf : list Z) : M pipes_t io_outcome := λ s,
  match pipe_handle handle true s with
  | None => Some (Returned (-1) [], s)
  | Some idx => pipe_write_loop buf idx [] s
  end.

Definition pipe_close (handle : Z) : M pipes_t Z := λ s,
  if (handle <? 0) || (Z.of_nat PIPE_FD_MAX <=? handle) then Some (-1, s) else
  f ← pipe_fds s !! Z.to_nat handle;
  if negb (pfd_in_use f) then Some (-1, s) else
  Some (0, set_pipe_fd (Z.to_nat handle)
             (mk_pipe_fd false (pfd_pipe_idx f) (pfd_writable f)) s).

(** [Some (size, type)] is the return value 0 with the stat buffer filled. *)
Definition pipe_stat (path : list Z) (s : pipes_t) : option (Z * Z) :=
  name ← pipe_bare_name path;
  if chr name 0 =? 0 then Some (0, VFS_DIR) else
  idx ← pipe_find_by_name name s;
  p ← pipes s !! idx;
  Some (kring_u8_used (pipe_ring p), VFS_FILE).

(** The string stored in the buffer of [size] bytes and the value returned. *)
Fixpoint pipe_readdir_loop (l : list pipe_slot_t) (skip : nat) (size : Z) : Z * list Z :=
  match l with
  | [] => (0, [])
  | p :: l =>
    if negb (pipe_in_use p) then pipe_readdir_loop l skip size else
    match skip with
    | O => let name := take (Z.to_nat (u32 (size - 1))) (pipe_name p) in
           (Z.of_nat (length name) + 1, name)
    | S skip => pipe_readdir_loop l skip size
    end
  end.

Definition pipe_readdir (index size : Z) (s : pipes_t) : Z * list Z :=
  if (size =? 0) || (index <? 0) then (0, [])
  else pipe_readdir_loop (pipes s) (Z.to_nat index) size.

Definition pipe_is_pipe_path (path : list Z) : bool :=
  match after_pipe (skip_slash path) with
  | Some rest => (chr rest 0 =? 0) || (chr rest 0 =? 47)
  | None => false
  end.

(** ** Invariant *)

Definition slot_wf (p : pipe_slot_t) : Prop :=
  (∃ q, kring_rep (pipe_ring p) 511 q) ∧ cstring (pipe_name p) ∧
  (length (pipe_name p) < PIPE_NAME_MAX)%nat.

Record pipes_wf (s : pipes_t) : Prop := {
  pw_pipes : length (pipes s) = PIPE_MAX;
  pw_fds : length (pipe_fds s) = PIPE_FD_MAX;
  pw_slots : Forall slot_wf (pipes s);
  pw_idx : Forall (λ f, pfd_in_use f = true → (pfd_pipe_idx f < PIPE_MAX)%nat) (pipe_fds s)
}.

(** Pipe [idx] exists and holds the bytes [q], oldest first. *)
Definition pipe_holds (s : pipes_t) (idx : nat) (q : list Z) : Prop :=
  ∃ p, pipes s !! idx = Some p ∧ pipe_in_use p = true ∧ kring_rep (pipe_ring p) 511 q.

(** [s'] is [s] where pipe [idx] holds [q] and nothing else changed. *)
Definition pipe_upd (idx : nat) (q : list Z) (s s' : pipes_t) : Prop :=
  pipe_fds s' = pipe_fds s ∧ length (pipes s') = length (pipes s) ∧
  pipe_holds s' idx q ∧
  (∀ j p, pipes s !! j = Some p → ∃ p', pipes s' !! j = Some p' ∧
     pipe_in_use p' = pipe_in_use p ∧ pipe_name p' = pipe_name p ∧
     (j ≠ idx → p' = p)).

Lemma pipe_upd_refl idx q s : pipe_holds s idx q → pipe_upd idx q s s.
Proof. intros H. split_and!; try done. intros j p Hj. eauto. Qed.

Lemma pipe_upd_trans idx q q' s s1 s2 :
  pipe_upd idx q s s1 → pipe_upd idx q' s1 s2 → pipe_upd idx q' s s2.
Proof.
  intros (E1 & L1 & _ & H1) (E2 & L2 & Hh & H2). split_and!; try congruence; try done.
  intros j p Hj. destruct (H1 j p Hj) as (p1 & Hp1 & ? & ? & Hne1).
  destruct (H2 j p1 Hp1) as (p2 & Hp2 & ? & ? & Hne2). exists p2.
  split_and!; [done|congruence|congruence|]. intros Hne.
  rewrite Hne2, Hne1 by done. done.
Qed.

Lemma pipe_upd_wf idx q s s' : pipes_wf s → pipe_upd idx q s s' → pipes_wf s'.
Proof.
  intros [Hp Hf Hs Hi] (E & L & (px & Hx & Hu & Hr) & H). split; [congruence|by rewrite E| |by rewrite E].
  apply Forall_lookup. intros j p' Hj.
  destruct (lookup_lt_is_Some_2 (pipes s) j) as [p Hpj].
  { rewrite <- L. by eapply lookup_lt_Some. }
  destruct (H j p Hpj) as (p1 & Hp1 & Hiu & Hn & Hne). simplify_eq.
  pose proof (Forall_lookup_1 _ _ _ _ Hs Hpj) as (Hq & Hc & Hl).
  destruct (decide (j = idx)) as [->|Hd]; [|rewrite Hne by done; done].
  simplify_eq. split; [by exists q|]. by rewrite Hn.
Qed.

Lemma ring_op_upd {A} idx (m : M kring_u8_t A) s p a r q :
  pipes s !! idx = Some p → pipe_in_use p = true →
  m (pipe_ring p) = Some (a, r) → kring_rep r 511 q →
  ∃ s', ring_op idx m s = Some (a, s') ∧ pipe_upd idx q s s'.
Proof.
  intros Hp Hu Hm Hr. unfold ring_op. rewrite Hp. cbn [mbind option_bind]. rewrite Hm.
  cbn [mbind option_bind]. eexists. split; [done|].
  pose proof (lookup_lt_Some _ _ _ Hp). unfold set_pipe.
  split_and!; simpl; [done|by rewrite length_insert|..].
  - eexists. simpl. rewrite list_lookup_insert_eq by done. split_and!; done.
  - intros j pj Hj. destruct (decide (j = idx)) as [->|Hne].
    + simplify_eq. rewrite list_lookup_insert_eq by done. eexists. split_and!; done.
    + rewrite list_lookup_insert_ne by done. eauto.
Qed.

(** ** The transfer loops *)

Lemma read_loop_ok n idx got s q :
  pipe_holds s idx q → (got = [] → q ≠ [] ∨ n = O) →
  Z.of_nat (length got + n) < 2147483648 →
  ∃ s', pipe_read_loop n idx got s =
          Some (Returned (Z.of_nat (length (got ++ take n q))) (got ++ take n q), s') ∧
        pipe_upd idx (drop n q) s s'.
Proof.
  revert got s q. induction n as [|n IH]; intros got s q Hh Hg Hlen.
  { exists s. rewrite take_0, app_nil_r, drop_0. split; [|by apply pipe_upd_refl].
    simpl. rewrite s32_small; [done|]. unfold is_s32. lia. }
  pose proof Hh as (p & Hp & Hu & Hr). cbn [pipe_read_loop].
  unfold mbind, M_bind, get, lift. rewrite Hp, Hu. cbn [negb]. destruct q as [|b q].
  - rewrite drop_nil, take_nil, app_nil_r.
    destruct (ring_op_upd idx kring_u8_pop s p None (pipe_ring p) []) as (s' & E & H); try done.
    { exact (kring_pop_empty _ _ Hr). }
    rewrite E. exists s'. split; [|done].
    assert (Hgot : got ≠ []) by (intros ->; destruct (Hg eq_refl); [done|lia]).
    destruct (Nat.ltb_spec 0 (length got)); [|destruct got; [done|simpl in *; lia]].
    rewrite s32_small; [done|]. unfold is_s32. lia.
  - destruct (kring_pop_ok _ _ _ _ Hr) as (r' & E & Hr').
    destruct (ring_op_upd idx kring_u8_pop s p (Some b) r' q) as (s' & E1 & H); try done.
    rewrite E1. destruct (IH (got ++ [b]) s' q) as (s2 & E2 & H2).
    + apply H.
    + intros Hn. by apply app_eq_nil in Hn as [_ ?].
    + rewrite length_app. simpl. lia.
    + rewrite E2. exists s2. rewrite <- app_assoc. split; [done|]. by eapply pipe_upd_trans.
Qed.

Lemma read_loop_blocks n idx s :
  pipe_holds s idx [] → (0 < n)%nat →
  ∃ s', pipe_read_loop n idx [] s = Some (Blocked, s') ∧ pipe_upd idx [] s s'.
Proof.
  intros (p & Hp & Hu & Hr) Hn. destruct n as [|n]; [lia|]. cbn [pipe_read_loop].
  unfold mbind, M_bind, get, lift. rewrite Hp, Hu. cbn [negb].
  destruct (ring_op_upd idx kring_u8_pop s p None (pipe_ring p) []) as (s' & E & H); try done.
  { exact (kring_pop_empty _ _ Hr). }
  rewrite E. by exists s'.
Qed.

Lemma write_loop_ok rest idx sent s q :
  pipe_holds s idx q → (sent = [] → (length q < 511)%nat ∨ rest = []) →
  Z.of_nat (length sent + length rest) < 2147483648 →
  let k := (511 - length q)%nat in
  ∃ s', pipe_write_loop rest idx sent s =
          Some (Returned (Z.of_nat (length (sent ++ take k rest))) (sent ++ take k rest), s') ∧
        pipe_upd idx (q ++ take k rest) s s'.
Proof.
  revert sent s q. induction rest as [|b rest IH]; intros sent s q Hh Hg Hlen k.
  { exists s. rewrite take_nil, !app_nil_r. split; [|by apply pipe_upd_refl].
    simpl. rewrite s32_small; [done|]. unfold is_s32. simpl in *. lia. }
  pose proof Hh as (p & Hp & Hu & Hr). cbn [pipe_write_loop].
  unfold mbind, M_bind, get, lift. rewrite Hp, Hu. cbn [negb].
  pose proof (fifo_bound _ _ _ Hr) as Hb.
  destruct (decide (length q < 511)%nat) as [Hlt|Hge].
  - destruct (kring_push_ok _ _ _ b Hr Hlt) as (r' & E & Hr').
    destruct (ring_op_upd idx (kring_u8_push b) s p 0 r' (q ++ [b])) as (s' & E1 & H); try done.
    rewrite E1. cbn [Z.eqb]. destruct (IH (sent ++ [b]) s' (q ++ [b])) as (s2 & E2 & H2).
    + apply H.
    + intros Hn. by apply app_eq_nil in Hn as [_ ?].
    + rewrite length_app. simpl in *. lia.
    + assert (Hqb : length (q ++ [b]) = (length q + 1)%nat) by (rewrite length_app; done).
      rewrite Hqb in E2, H2. subst k.
      replace (511 - length q)%nat with (S (511 - (length q + 1))) by lia.
      cbn [take]. exists s2. rewrite <- !app_assoc in E2, H2. cbn [app] in E2, H2. split; [exact E2|].
      by eapply pipe_upd_trans.
  - destruct (ring_op_upd idx (kring_u8_push b) s p (-1) (pipe_ring p) q) as (s' & E & H); try done.
    { apply (kring_push_full _ 511 q); [done|lia]. }
    rewrite E. cbn [Z.eqb]. exists s'. subst k. replace (511 - length q)%nat with O by lia.
    rewrite take_0, !app_nil_r. split; [|done].
    assert (Hgot : sent ≠ []).
    { intros ->. destruct (Hg eq_refl) as [?|?]; [lia|done]. }
    destruct (Nat.ltb_spec 0 (length sent)); [|destruct sent; [done|simpl in *; lia]].
    rewrite s32_small; [done|]. unfold is_s32. lia.
Qed.

Lemma write_loop_blocks rest idx s q :
  pipe_holds s idx q → length q = 511%nat → rest ≠ [] →
  ∃ s', pipe_write_loop rest idx [] s = Some (Blocked, s') ∧ pipe_upd idx q s s'.
Proof.
  intros (p & Hp & Hu & Hr) Hq Hn. destruct rest as [|b rest]; [done|].
  cbn [pipe_write_loop]. unfold mbind, M_bind, get, lift. rewrite Hp, Hu. cbn [negb].
  destruct (ring_op_upd idx (kring_u8_push b) s p (-1) (pipe_ring p) q) as (s' & E & H); try done.
  { by apply (kring_push_full _ 511 q). }
  rewrite E. by exists s'.
Qed.

(** ** Every operation is defined and keeps the invariant *)

Lemma pipes_boot_init : ∃ s, pipe_init pipes_boot = Some (tt, s) ∧ pipes_wf s.
Proof.
  eexists. split; [reflexivity|]. split; [done|done| |].
  - apply Forall_fmap, Forall_replicate. split; [|split; [constructor|simpl; unfold PIPE_NAME_MAX; lia]].
    exists []. simpl. exact (kring_u8_init_rep (replicate 512 0) ltac:(rewrite length_replicate; lia)
                                ltac:(rewrite length_replicate; lia)).
  - apply Forall_fmap, Forall_replicate. done.
Qed.

Lemma set_pipe_wf s i p : pipes_wf s → slot_wf p → pipes_wf (set_pipe i p s).
Proof.
  intros [Hp Hf Hs Hi] H. split; simpl; [by rewrite length_insert|done| |done].
  by apply Forall_insert_list.
Qed.

Lemma set_pipe_fd_wf s i f :
  pipes_wf s → (pfd_in_use f = true → (pfd_pipe_idx f < PIPE_MAX)%nat) →
  pipes_wf (set_pipe_fd i f s).
Proof.
  intros [Hp Hf Hs Hi] H. split; simpl; [done|by rewrite length_insert|done|].
  by apply Forall_insert_list.
Qed.

Lemma slot_lookup s idx : pipes_wf s → (idx < PIPE_MAX)%nat →
  ∃ p q, pipes s !! idx = Some p ∧ slot_wf p ∧ kring_rep (pipe_ring p) 511 q.
Proof.
  intros Hwf Hi. destruct (lookup_lt_is_Some_2 (pipes s) idx) as [p Hp]; [by rewrite (pw_pipes _ Hwf)|].
  pose proof (Forall_lookup_1 _ _ _ _ (pw_slots _ Hwf) Hp) as Hs. destruct Hs as [[q Hq] ?] eqn:?.
  exists p, q. done.
Qed.

Lemma reset_slot_wf p b name :
  slot_wf p → cstring name → (length name < PIPE_NAME_MAX)%nat →
  slot_wf (mk_pipe b name (kring_u8_reset (pipe_ring p))).
Proof.
  intros ([q Hq] & _) ??. split_and!; try done. exists []. by eapply kring_u8_reset_rep.
Qed.

Lemma pipe_find_lt s name idx : pipes_wf s → pipe_find_by_name name s = Some idx → (idx < PIPE_MAX)%nat.
Proof.
  intros Hwf. unfold pipe_find_by_name. case_match; [done|]. intros Hi%find_index_lt.
  by rewrite (pw_pipes _ Hwf) in Hi.
Qed.

Lemma pipe_create_wf name s : pipes_wf s → cstring name →
  ∃ rc s', pipe_create name s = Some (rc, s') ∧ pipes_wf s'.
Proof.
  intros Hwf Hn. unfold pipe_create. case_match; [eauto|]. case_match; [eauto|].
  destruct (find_index _ _) as [i|] eqn:E; [|eauto].
  apply find_index_lt in E. rewrite (pw_pipes _ Hwf) in E.
  destruct (slot_lookup s i Hwf E) as (p & q & -> & Hs & Hr). cbn [mbind option_bind].
  eexists _, _. split; [done|]. apply set_pipe_wf; [done|].
  apply reset_slot_wf; [done|auto with cint|]. rewrite length_take. unfold PIPE_NAME_MAX. lia.
Qed.

Lemma pipe_destroy_wf name s : pipes_wf s →
  ∃ rc s', pipe_destroy name s = Some (rc, s') ∧ pipes_wf s'.
Proof.
  intros Hwf. unfold pipe_destroy. destruct (pipe_find_by_name name s) as [i|] eqn:E; [|eauto].
  apply pipe_find_lt in E; [|done].
  destruct (slot_lookup s i Hwf E) as (p & q & -> & Hs & Hr). cbn [mbind option_bind].
  eexists _, _. split; [done|]. apply set_pipe_wf; [done|].
  apply reset_slot_wf; [done|constructor|]. simpl. unfold PIPE_NAME_MAX. lia.
Qed.

Lemma pipe_open_wf path flags s : pipes_wf s →
  ∃ rc s', pipe_open path flags s = Some (rc, s') ∧ pipes_wf s'.
Proof.
  intros Hwf. unfold pipe_open. case_match; [|eauto]. case_match; [eauto|].
  destruct (pipe_find_by_name _ s) as [i|] eqn:E; [|eauto]. apply pipe_find_lt in E; [|done].
  case_match; [eauto|]. unfold pipe_alloc_fd. case_match; [|eauto].
  eexists _, _. split; [done|]. by apply set_pipe_fd_wf.
Qed.

Lemma fd_lookup s h : pipes_wf s → (h <? 0) || (Z.of_nat PIPE_FD_MAX <=? h) = false →
  ∃ f, pipe_fds s !! Z.to_nat h = Some f ∧ (pfd_in_use f = true → (pfd_pipe_idx f < PIPE_MAX)%nat).
Proof.
  intros Hwf H. apply orb_false_iff in H as [H1 H2].
  destruct (lookup_lt_is_Some_2 (pipe_fds s) (Z.to_nat h)) as [f Hf]; [rewrite (pw_fds _ Hwf); lia|].
  exists f. split; [done|]. exact (Forall_lookup_1 _ _ _ _ (pw_idx _ Hwf) Hf).
Qed.

Lemma pipe_close_wf h s : pipes_wf s → ∃ rc s', pipe_close h s = Some (rc, s') ∧ pipes_wf s'.
Proof.
  intros Hwf. unfold pipe_close. case_match eqn:E; [eauto|].
  destruct (fd_lookup s h Hwf E) as (f & -> & Hf). cbn [mbind option_bind].
  case_match; [eauto|]. eexists _, _. split; [done|]. by apply set_pipe_fd_wf.
Qed.

Lemma pipe_handle_lt h w s idx : pipes_wf s → pipe_handle h w s = Some idx → (idx < PIPE_MAX)%nat.
Proof.
  intros Hwf. unfold pipe_handle. case_match eqn:E; [done|].
  destruct (fd_lookup s h Hwf E) as (f & -> & Hf). cbn [mbind option_bind].
  case_match eqn:E1; [|done]. intros [= <-]. apply Hf. by apply andb_true_iff in E1 as [??].
Qed.

(** On a pipe that was destroyed the loops return at once. *)
Lemma read_loop_dead n idx s p :
  pipes s !! idx = Some p → pipe_in_use p = false →
  pipe_read_loop (S n) idx [] s = Some (Returned (-1) [], s).
Proof. intros Hp Hu. simpl. unfold mbind, M_bind, get, lift. by rewrite Hp, Hu. Qed.

Lemma write_loop_dead b bs idx s p :
  pipes s !! idx = Some p → pipe_in_use p = false →
  pipe_write_loop (b :: bs) idx [] s = Some (Returned (-1) [], s).
Proof. intros Hp Hu. simpl. unfold mbind, M_bind, get, lift. by rewrite Hp, Hu. Qed.

(** What a transfer may return: a value of at least -1, and a byte count equal
    to the number of bytes moved. *)
Definition io_ok (len : Z) (o : io_outcome) : Prop :=
  match o with
  | Blocked => 0 < len
  | Returned rc d => rc = Z.of_nat (length d) ∧ rc ≤ len ∧ (0 < len → 0 < rc) ∨ rc = -1 ∧ d = []
  end.

Lemma pipe_read_wf h len s : pipes_wf s → 0 ≤ len < 2147483648 →
  ∃ o s', pipe_read h len s = Some (o, s') ∧ pipes_wf s' ∧ io_ok len o.
Proof.
  intros Hwf Hlen. unfold pipe_read. destruct (pipe_handle h false s) as [idx|] eqn:E.
  2: { eexists _, _. split; [done|]. split; [done|]. by right. }
  apply pipe_handle_lt in E; [|done].
  destruct (slot_lookup s idx Hwf E) as (p & q & Hp & Hs & Hr).
  destruct (Z.to_nat len) as [|n] eqn:En.
  { eexists _, _. split; [done|]. split; [done|]. left. change (s32 (Z.of_nat (length (@nil Z)))) with 0. simpl in *. lia. }
  destruct (pipe_in_use p) eqn:Hu.
  - assert (Hh : pipe_holds s idx q) by (exists p; done).
    destruct q as [|b q].
    + destruct (read_loop_blocks (S n) idx s Hh) as (s' & -> & H); [lia|].
      eexists _, _. split; [done|]. split; [by eapply pipe_upd_wf|]. simpl. lia.
    + destruct (read_loop_ok (S n) idx [] s (b :: q) Hh) as (s' & -> & H); [by left|simpl; lia|].
      eexists _, _. split; [done|]. split; [by eapply pipe_upd_wf|]. left.
      cbn [app]. rewrite length_take. cbn [length]. lia.
  - rewrite (read_loop_dead n idx s p) by done.
    eexists _, _. split; [done|]. split; [done|]. by right.
Qed.

Lemma pipe_write_wf h buf s : pipes_wf s → Z.of_nat (length buf) < 2147483648 →
  ∃ o s', pipe_write h buf s = Some (o, s') ∧ pipes_wf s' ∧ io_ok (Z.of_nat (length buf)) o.
Proof.
  intros Hwf Hlen. unfold pipe_write. destruct (pipe_handle h true s) as [idx|] eqn:E.
  2: { eexists _, _. split; [done|]. split; [done|]. by right. }
  apply pipe_handle_lt in E; [|done].
  destruct (slot_lookup s idx Hwf E) as (p & q & Hp & Hs & Hr).
  destruct buf as [|b bs].
  { eexists _, _. split; [done|]. split; [done|]. left. change (s32 (Z.of_nat (length (@nil Z)))) with 0. simpl in *. lia. }
  pose proof (fifo_bound _ _ _ Hr) as Hb. destruct (pipe_in_use p) eqn:Hu.
  - assert (Hh : pipe_holds s idx q) by (exists p; done).
    destruct (decide (length q = 511%nat)) as [Hq|Hq].
    + destruct (write_loop_blocks (b :: bs) idx s q Hh Hq) as (s' & -> & H); [done|].
      eexists _, _. split; [done|]. split; [by eapply pipe_upd_wf|]. simpl. lia.
    + destruct (write_loop_ok (b :: bs) idx [] s q Hh) as (s' & -> & H); [left; lia|simpl in *; lia|].
      eexists _, _. split; [done|]. split; [by eapply pipe_upd_wf|]. left.
      cbn [app]. rewrite length_take. cbn [length] in *. lia.
  - rewrite (write_loop_dead b bs idx s p) by done.
    eexists _, _. split; [done|]. split; [done|]. by right.
Qed.

(** ** Sequences of calls *)

Inductive pipe_call :=
  | PCreate (name : list Z) | PDestroy (name : list Z)
  | POpen (path : list Z) (flags : Z) | PClose (handle : Z)
  | PRead (handle len : Z) | PWrite (handle : Z) (buf : list Z).

Definition call_ok (c : pipe_call) : Prop :=
  match c with
  | PCreate name => cstring name
  | PRead _ len => 0 ≤ len < 2147483648
  | PWrite _ buf => Z.of_nat (length buf) < 2147483648
  | _ => True
  end.

(** One call, its result forgotten (a blocked transfer leaves the state it
    yields in). *)
Definition pipe_run (c : pipe_call) (s : pipes_t) : option pipes_t :=
  match c with
  | PCreate name => snd <$> pipe_create name s
  | PDestroy name => snd <$> pipe_destroy name s
  | POpen path flags => snd <$> pipe_open path flags s
  | PClose h => snd <$> pipe_close h s
  | PRead h len => snd <$> pipe_read h len s
  | PWrite h buf => snd <$> pipe_write h buf s
  end.

Fixpoint pipe_runs (cs : list pipe_call) (s : pipes_t) : option pipes_t :=
  match cs with
  | [] => Some s
  | c :: cs => s' ← pipe_run c s; pipe_runs cs s'
  end.

Lemma pipe_run_wf c s : pipes_wf s → call_ok c → ∃ s', pipe_run c s = Some s' ∧ pipes_wf s'.
Proof.
  intros Hwf Hc. destruct c; simpl in *.
  - destruct (pipe_create_wf name s) as (? & s' & -> & ?); eauto.
  - destruct (pipe_destroy_wf name s) as (? & s' & -> & ?); eauto.
  - destruct (pipe_open_wf path flags s) as (? & s' & -> & ?); eauto.
  - destruct (pipe_close_wf handle s) as (? & s' & -> & ?); eauto.
  - destruct (pipe_read_wf handle len s) as (? & s' & -> & ? & _); eauto.
  - destruct (pipe_write_wf handle buf s) as (? & s' & -> & ? & _); eauto.
Qed.

(** From the state [pipe_init] leaves, no sequence of pipe calls
    with any handles, names, paths and flags accesses memory outside the pipe
    and descriptor tables or a ring buffer; the tables stay well formed; and a
    read or write at the end of it returns -1, a positive byte count of at most
    the length asked for (0 only for length 0), or blocks. *)
Theorem pipe_calls_safe (cs : list pipe_call) (h len : Z) (buf : list Z) (s0 : pipes_t)
  (Hinit : pipe_init pipes_boot = Some (tt, s0))
  (Hcs : Forall call_ok cs) (Hlen : 0 ≤ len < 2147483648)
  (Hbuf : Z.of_nat (length buf) < 2147483648) :
  ∃ s, pipe_runs cs s0 = Some s ∧ pipes_wf s ∧
    (∃ o s', pipe_read h len s = Some (o, s') ∧ io_ok len o) ∧
    (∃ o s', pipe_write h buf s = Some (o, s') ∧ io_ok (Z.of_nat (length buf)) o).
Proof.
  assert (Hwf : pipes_wf s0) by (destruct pipes_boot_init as (s & E & H); congruence).
  clear Hinit. revert s0 Hwf. induction Hcs as [|c cs Hc Hcs IH]; intros s0 Hwf; simpl.
  - exists s0. split_and!; [done..| |].
    + destruct (pipe_read_wf h len s0) as (o & s' & ? & ? & ?); eauto.
    + destruct (pipe_write_wf h buf s0) as (o & s' & ? & ? & ?); eauto.
  - destruct (pipe_run_wf c s0 Hwf Hc) as (s1 & -> & Hwf1). cbn [mbind option_bind]. by apply IH.
Qed.

Lemma pipe_calls_safe_witness :
  ∃ s0 s, pipe_init pipes_boot = Some (tt, s0) ∧
    pipe_runs [PCreate (str "log"); POpen (str "/pipe/log") 1; PWrite 0 [7; 8]] s0 = Some s ∧ pipes_wf s.
Proof.
  destruct (pipe_init pipes_boot) as [[[] s0]|] eqn:E; [|discriminate E].
  exists s0.
  destruct (pipe_calls_safe
    [PCreate (str "log"); POpen (str "/pipe/log") 1; PWrite 0 [7; 8]] 0 4 [9] s0 E) as (s & H1 & H2 & _).
  - apply Forall_cons_2; [change (cstring (str "log")); decided|].
    apply Forall_cons_2; [exact I|]. apply Forall_cons_2; [simpl; lia|apply Forall_nil_2].
  - lia.
  - simpl; lia.
  - exists s. split; [reflexivity|]. split; [exact H1|exact H2].
Defined.

(** With a writer descriptor and a reader descriptor open on the
    same pipe, which holds the bytes [q], writing [buf] takes as many of its
    bytes as fit in the 511-byte capacity and reading then returns the oldest
    bytes: all of [q] and the bytes written, in order; a write to a full pipe
    and a read from an empty one block without changing its contents. *)
Theorem pipe_write_read_fifo (s : pipes_t) (w r : Z) (idx : nat) (q buf : list Z) (n : nat)
  (Hw : pipe_handle w true s = Some idx) (Hr : pipe_handle r false s = Some idx)
  (Hq : pipe_holds s idx q) (Hbuf : buf ≠ []) (Hlen : Z.of_nat (length buf) < 2147483648)
  (Hn : 0 < Z.of_nat n < 2147483648) :
  let fit := take (511 - length q) buf in
  let out := take n (q ++ fit) in
  ∃ s1, pipe_holds s1 idx (q ++ fit) ∧
    pipe_write w buf s = Some (if decide (length q = 511%nat) then Blocked
                               else Returned (Z.of_nat (length fit)) fit, s1) ∧
    ∃ s2, pipe_holds s2 idx (drop n (q ++ fit)) ∧
      pipe_read r (Z.of_nat n) s1 = Some (Returned (Z.of_nat (length out)) out, s2) ∧
      (q ++ fit = out →
       ∃ s3, pipe_read r (Z.of_nat n) s2 = Some (Blocked, s3) ∧ pipe_holds s3 idx []).
Proof.
  intros fit out.
  pose proof Hq as (p & Hp & Hu & Hrep). pose proof (fifo_bound _ _ _ Hrep) as Hb.
  assert (Hws : ∃ s1, pipe_upd idx (q ++ fit) s s1 ∧
    pipe_write w buf s = Some (if decide (length q = 511%nat) then Blocked
                               else Returned (Z.of_nat (length fit)) fit, s1)).
  { unfold pipe_write. rewrite Hw. case_decide as Hd.
    - destruct (write_loop_blocks buf idx s q Hq Hd Hbuf) as (s1 & E & H).
      exists s1. subst fit. replace (511 - length q)%nat with O by lia.
      rewrite take_0, app_nil_r. done.
    - destruct (write_loop_ok buf idx [] s q Hq) as (s1 & E & H); [left; lia|simpl; lia|].
      exists s1. done. }
  destruct Hws as (s1 & Hu1 & E1). exists s1.
  assert (Hh1 : pipe_holds s1 idx (q ++ fit)) by apply Hu1. split; [done|]. split; [done|].
  assert (Hne : q ++ fit ≠ []).
  { subst fit. destruct q; [|done]. destruct buf; done. }
  assert (Hr1 : pipe_handle r false s1 = Some idx).
  { unfold pipe_handle in *. destruct Hu1 as (-> & _). done. }
  assert (Hread : ∃ s2, pipe_upd idx (drop n (q ++ fit)) s1 s2 ∧
    pipe_read r (Z.of_nat n) s1 = Some (Returned (Z.of_nat (length out)) out, s2)).
  { unfold pipe_read. rewrite Hr1, Nat2Z.id.
    destruct (read_loop_ok n idx [] s1 (q ++ fit) Hh1) as (s2 & E & H); [by left|simpl; lia|].
    by exists s2. }
  destruct Hread as (s2 & Hu2 & E2). exists s2.
  split; [apply Hu2|]. split; [done|]. intros Hall.
  unfold pipe_read. replace (pipe_handle r false s2) with (Some idx).
  2: { rewrite <- Hr1. unfold pipe_handle. destruct Hu2 as (-> & _). done. }
  rewrite Nat2Z.id. destruct (read_loop_blocks n idx s2) as (s3 & E3 & H3); [|lia|].
  - replace (@nil Z) with (drop n (q ++ fit)); [apply Hu2|].
    apply drop_ge. rewrite Hall. subst out. rewrite length_take. lia.
  - exists s3. split; [done|]. apply H3.
Qed.

Lemma pipe_write_read_fifo_witness :
  ∃ s s1 s2, pipe_handle 0 true s = Some O ∧
    pipe_write 0 [10; 20; 30] s = Some (Returned 3 [10; 20; 30], s1) ∧
    pipe_read 1 2 s1 = Some (Returned 2 [10; 20], s2).
Proof.
  destruct (s0 ← snd <$> pipe_init pipes_boot;
            pipe_runs [PCreate (str "log"); POpen (str "/pipe/log") 1;
                       POpen (str "pipe/log") 0] s0) as [s|] eqn:E; [|discriminate E].
  assert (Hw : pipe_handle 0 true s = Some O) by (vm_compute in E; injection E as <-; reflexivity).
  assert (Hr : pipe_handle 1 false s = Some O) by (vm_compute in E; injection E as <-; reflexivity).
  assert (Hq : pipe_holds s 0 []).
  { vm_compute in E. injection E as <-. eexists. split; [reflexivity|]. split; [reflexivity|].
    exact (kring_u8_init_rep (replicate 512 0) ltac:(rewrite length_replicate; lia)
             ltac:(rewrite length_replicate; lia)). }
  destruct (pipe_write_read_fifo s 0 1 0 [] [10; 20; 30] 2 Hw Hr Hq) as (s1 & _ & E1 & s2 & _ & E2 & _).
  - discriminate.
  - simpl. lia.
  - lia.
  - exists s, s1, s2. split; [exact Hw|]. split; [exact E1|exact E2].
Defined.

(** ** Creation, lookup and destruction *)

Lemma find_index_insert_new {A} (p : A → bool) (l : list A) i x :
  find_index p l = None → (i < length l)%nat → p x = true → find_index p (<[i := x]> l) = Some i.
Proof.
  intros Hnone Hi Hx. apply find_index_Some. split.
  - exists x. by rewrite list_lookup_insert_eq.
  - intros j y Hj Hy. rewrite list_lookup_insert_ne in Hy by lia.
    by eapply (proj1 (find_index_None p l)).
Qed.

Lemma find_index_insert_none {A} (p : A → bool) (l : list A) i x :
  find_index p l = None → p x = false → find_index p (<[i := x]> l) = None.
Proof.
  intros Hnone Hx. apply find_index_None. intros j y Hy.
  apply list_lookup_insert_cases in Hy as [(_ & <- & _)|(_ & Hy)]; [done|].
  by eapply (proj1 (find_index_None p l)).
Qed.

(** The state [pipe_create] leaves when it returns 0. *)
Lemma pipe_create_0 name s s' :
  pipe_create name s = Some (0, s') →
  chr name 0 ≠ 0 ∧ pipe_find_by_name name s = None ∧
  ∃ i p, find_index (λ p, negb (pipe_in_use p)) (pipes s) = Some i ∧ pipes s !! i = Some p ∧
    s' = set_pipe i (mk_pipe true (take (PIPE_NAME_MAX - 1) name) (kring_u8_reset (pipe_ring p))) s.
Proof.
  unfold pipe_create. destruct (Z.eqb_spec (chr name 0) 0); [done|].
  destruct (pipe_find_by_name name s); [done|]. destruct (find_index _ _) as [i|] eqn:E; [|done].
  destruct (pipes s !! i) as [p|] eqn:Hp; [|done]. cbn [mbind option_bind]. intros [= <-].
  split_and!; [done..|]. exists i, p. done.
Qed.

(** The lookup of a name just created finds it exactly when the name fits. *)
Lemma pipe_find_created name s s' :
  pipe_create name s = Some (0, s') →
  pipe_find_by_name name s' =
    if decide (length name < PIPE_NAME_MAX)%nat
    then find_index (λ p, negb (pipe_in_use p)) (pipes s) else None.
Proof.
  intros (Hc & Hn & i & p & Hi & Hp & ->)%pipe_create_0.
  unfold pipe_find_by_name in *. rewrite (proj2 (Z.eqb_neq _ _) Hc) in *.
  unfold set_pipe. cbn [pipes]. case_decide as Hl.
  - rewrite Hi. apply find_index_insert_new; [done|by eapply lookup_lt_Some|].
    cbn [pipe_in_use pipe_name andb]. apply str_eqb_eq, take_ge. unfold PIPE_NAME_MAX in *. lia.
  - apply find_index_insert_none; [done|]. cbn [pipe_in_use pipe_name andb].
    apply bool_decide_eq_false. intros E%(f_equal length). rewrite length_take in E.
    unfold PIPE_NAME_MAX in *. lia.
Qed.

Lemma pipe_bare_name_slash name :
  chr name 0 ≠ 47 → pipe_bare_name (str "/pipe/" ++ name) = Some name.
Proof.
  intros H. unfold pipe_bare_name. simpl. unfold after_pipe. simpl. reflexivity.
Qed.

(** A pipe that was created with a name of at most 31
    characters, for which [pipe_create] returned 0, can be opened for reading
    or writing under [/pipe/<name>] whenever a descriptor is free, and the
    descriptor refers to the new, empty pipe; a second creation of the name
    fails.  With a longer name, creation also returns 0, but the pipe can be
    neither opened nor destroyed under that name, and creating it again is not
    detected as a duplicate. *)
Theorem pipe_create_then_open (s s' : pipes_t) (name : list Z) (flags : Z) (i : nat)
  (Hwf : pipes_wf s)
  (Hcreate : pipe_create name s = Some (0, s'))
  (Hflags : Z.land flags 3 = O_RDONLY ∨ Z.land flags 3 = O_WRONLY)
  (Hfree : find_index (λ f, negb (pfd_in_use f)) (pipe_fds s) = Some i) :
  if decide (length name < PIPE_NAME_MAX)%nat then
    pipe_create name s' = Some (-1, s') ∧
    ∃ s'' idx, pipe_open (str "/pipe/" ++ name) flags s' = Some (Z.of_nat i, s'') ∧
      pipe_handle (Z.of_nat i) (Z.land flags 3 =? O_WRONLY) s'' = Some idx ∧
      pipe_holds s'' idx []
  else
    pipe_open (str "/pipe/" ++ name) flags s' = Some (-1, s') ∧
    pipe_destroy name s' = Some (-1, s') ∧
    (∀ j, find_index (λ p, negb (pipe_in_use p)) (pipes s') = Some j →
     ∃ s'', pipe_create name s' = Some (0, s'')).
Proof.
  pose proof (pipe_find_created _ _ _ Hcreate) as Hf.
  apply pipe_create_0 in Hcreate as (Hc & Hn & k & p & Hk & Hp & ->).
  pose proof (find_index_lt _ _ _ Hfree) as Hilt.
  pose proof (lookup_lt_Some _ _ _ Hp) as Hklt.
  set (s' := set_pipe k _ s) in *.
  assert (Hbare : pipe_bare_name (str "/pipe/" ++ name) = Some name).
  { unfold pipe_bare_name. reflexivity. }
  case_decide as Hl; rewrite ?Hk in Hf.
  - split. { unfold pipe_create. by rewrite (proj2 (Z.eqb_neq _ _) Hc), Hf. }
    unfold pipe_open. rewrite Hbare, (proj2 (Z.eqb_neq _ _) Hc), Hf.
    replace (negb (Z.land flags 3 =? O_RDONLY) && negb (Z.land flags 3 =? O_WRONLY)) with false
      by (destruct Hflags as [-> | ->]; done).
    unfold pipe_alloc_fd. change (pipe_fds s') with (pipe_fds s). rewrite Hfree.
    eexists _, k. split; [done|]. split.
    + unfold pipe_handle. rewrite (pw_fds _ Hwf) in Hilt.
      rewrite (proj2 (Z.ltb_ge _ _)), (proj2 (Z.leb_gt _ _)) by lia. cbn [orb].
      unfold set_pipe_fd. cbn [pipe_fds]. change (pipe_fds s') with (pipe_fds s).
      rewrite Nat2Z.id, list_lookup_insert_eq by (rewrite (pw_fds _ Hwf); lia).
      cbn [mbind option_bind pfd_in_use pfd_writable pfd_pipe_idx andb]. by rewrite eqb_reflx.
    + exists (mk_pipe true (take (PIPE_NAME_MAX - 1) name) (kring_u8_reset (pipe_ring p))).
      unfold set_pipe_fd, s', set_pipe. cbn [pipes]. rewrite list_lookup_insert_eq by done.
      split_and!; [done..|]. destruct (Forall_lookup_1 _ _ _ _ (pw_slots _ Hwf) Hp) as [[q Hq] _].
      by eapply kring_u8_reset_rep.
  - split_and!.
    + unfold pipe_open. by rewrite Hbare, (proj2 (Z.eqb_neq _ _) Hc), Hf.
    + unfold pipe_destroy. by rewrite Hf.
    + intros j Hj. unfold pipe_create. rewrite (proj2 (Z.eqb_neq _ _) Hc), Hf, Hj.
      pose proof (find_index_lt _ _ _ Hj) as Hjl.
      destruct (lookup_lt_is_Some_2 _ _ Hjl) as [pj ->]. cbn [mbind option_bind]. eauto.
Qed.

Lemma pipe_create_then_open_witness :
  ∃ s s' s'' idx, pipes_wf s ∧ pipe_create (str "log") s = Some (0, s') ∧
    pipe_open (str "/pipe/log") 0 s' = Some (0, s'') ∧ pipe_handle 0 false s'' = Some idx.
Proof.
  destruct pipes_boot_init as (s & Es & Hwf).
  destruct (pipe_create (str "log") s) as [[rc s']|] eqn:E.
  2: { injection Es as <-. discriminate E. }
  assert (rc = 0) as -> by (injection Es as <-; injection E as <- _; reflexivity).
  pose proof (pipe_create_then_open s s' (str "log") 0 0 Hwf E (or_introl eq_refl)) as H.
  rewrite decide_True in H by (simpl; unfold PIPE_NAME_MAX; lia).
  destruct H as (_ & s'' & idx & H1 & H2 & _).
  - injection Es as <-. reflexivity.
  - exists s, s', s'', idx. split; [exact Hwf|]. split; [exact E|]. split; [exact H1|exact H2].
Defined.

(** A reader that was blocked on a pipe gets -1 on its next turn when
    the pipe was destroyed and its slot is still free; but when another pipe was
    created in the meantime in the slot that became free, the reader stays
    blocked, on the new pipe, and its descriptor reads the new pipe's bytes. *)
Theorem pipe_destroy_wakes_reader (s s1 : pipes_t) (r : Z) (len : Z) (idx : nat) (name : list Z)
  (Hwf : pipes_wf s) (Hr : pipe_handle r false s = Some idx)
  (Hname : pipe_find_by_name name s = Some idx)
  (Hlen : 0 < len < 2147483648)
  (Hdestroy : pipe_destroy name s = Some (0, s1)) :
  pipe_read r len s1 = Some (Returned (-1) [], s1) ∧
  ∀ name2 s2, pipe_create name2 s1 = Some (0, s2) →
    (∀ j p, (j < idx)%nat → pipes s !! j = Some p → pipe_in_use p = true) →
    ∃ s3, pipe_read r len s2 = Some (Blocked, s3) ∧ pipe_holds s2 idx [].
Proof.
  pose proof (pipe_find_lt _ _ _ Hwf Hname) as Hi.
  destruct (slot_lookup s idx Hwf Hi) as (p & q & Hp & Hs & Hq).
  unfold pipe_destroy in Hdestroy. rewrite Hname, Hp in Hdestroy. cbn [mbind option_bind] in Hdestroy.
  injection Hdestroy as <-. pose proof (lookup_lt_Some _ _ _ Hp) as Hlt.
  assert (Hn : Z.to_nat len = S (Z.to_nat len - 1)) by lia.
  split.
  - unfold pipe_read. change (pipe_handle r false (set_pipe idx _ s)) with (pipe_handle r false s).
    rewrite Hr, Hn.
    erewrite read_loop_dead; [done| |].
    + unfold set_pipe. cbn [pipes]. by apply list_lookup_insert_eq.
    + done.
  - intros name2 s2 Hc Hfull.
    apply pipe_create_0 in Hc as (_ & _ & k & pk & Hk & Hpk & ->).
    assert (k = idx) as ->.
    { apply find_index_Some in Hk as [[y [Hy Hyu]] Hbefore]. unfold set_pipe in *. cbn [pipes] in *.
      destruct (lt_eq_lt_dec k idx) as [[Hlt'| ->]|Hgt]; [|done|].
      - rewrite list_lookup_insert_ne in Hy by lia. by rewrite (Hfull k y) in Hyu.
      - specialize (Hbefore idx _ Hgt (list_lookup_insert_eq _ _ _ Hlt)). done. }
    unfold set_pipe in Hpk. cbn [pipes] in Hpk. rewrite list_lookup_insert_eq in Hpk by done.
    injection Hpk as <-. cbn [pipe_ring].
    assert (Hh : pipe_holds (set_pipe idx (mk_pipe true (take (PIPE_NAME_MAX - 1) name2)
                    (kring_u8_reset (kring_u8_reset (pipe_ring p))))
                    (set_pipe idx (mk_pipe false [] (kring_u8_reset (pipe_ring p))) s)) idx []).
    { eexists. unfold set_pipe. cbn [pipes].
      rewrite list_lookup_insert_eq by (by rewrite length_insert).
      split; [done|]. split; [done|]. by eapply kring_u8_reset_rep, kring_u8_reset_rep. }
    unfold pipe_read. change (pipe_handle r false (set_pipe idx _ _)) with (pipe_handle r false s).
    rewrite Hr. destruct (read_loop_blocks (Z.to_nat len) idx _ Hh) as (s3 & E3 & _); [lia|].
    exists s3. split; [exact E3|exact Hh].
Qed.

(** A state with the pipe [log] open for writing (0) and for reading (1). *)
Definition log_calls : list pipe_call :=
  [PCreate (str "log"); POpen (str "/pipe/log") 1; POpen (str "pipe/log") 0].

Lemma log_state : ∃ s, (s0 ← snd <$> pipe_init pipes_boot; pipe_runs log_calls s0) = Some s ∧ pipes_wf s.
Proof.
  destruct pipes_boot_init as (s0 & -> & Hwf0). cbn [fmap option_fmap option_map snd mbind option_bind].
  destruct (pipe_run_wf (PCreate (str "log")) s0 Hwf0) as (s1 & E1 & Hwf1); [cbn [call_ok]; decided|].
  destruct (pipe_run_wf (POpen (str "/pipe/log") 1) s1 Hwf1 I) as (s2 & E2 & Hwf2).
  destruct (pipe_run_wf (POpen (str "pipe/log") 0) s2 Hwf2 I) as (s3 & E3 & Hwf3).
  exists s3. unfold log_calls. cbn [pipe_runs]. rewrite E1. cbn [mbind option_bind].
  rewrite E2. cbn [mbind option_bind]. rewrite E3. done.
Qed.

Lemma pipe_destroy_wakes_reader_witness :
  ∃ s s1, pipe_handle 1 false s = Some O ∧ pipe_destroy (str "log") s = Some (0, s1) ∧
    pipe_read 1 4 s1 = Some (Returned (-1) [], s1).
Proof.
  destruct log_state as (s & Es & Hwf). unfold log_calls in Es.
  assert (Hh : pipe_handle 1 false s = Some O) by (vm_compute in Es; injection Es as <-; reflexivity).
  assert (Hf : pipe_find_by_name (str "log") s = Some O)
    by (vm_compute in Es; injection Es as <-; reflexivity).
  assert (Hd : fst <$> pipe_destroy (str "log") s = Some 0)
    by (vm_compute in Es; injection Es as <-; reflexivity).
  destruct (pipe_destroy (str "log") s) as [[rc s1]|] eqn:E; [|discriminate Hd].
  injection Hd as ->. exists s, s1. split; [exact Hh|]. split; [exact E|].
  apply (pipe_destroy_wakes_reader s s1 1 4 0 (str "log") Hwf Hh Hf); [lia|exact E].
Defined.
