(* ===== verification/Paging.v ===== *)
(** * Address spaces ([src/src/arch/i686/paging.c])

    Page directories and page tables live in physical memory, which is a
    function from the address of a 32-bit word to its value; the kernel reaches
    it through the higher-half window, in which the virtual address
    [p + 0xC0000000] is the physical address [p].  [translate] is what the
    memory management unit computes from the tables (two levels, 4KB pages; no
    TLB: the code invalidates each entry it changes), and the theorems describe
    every operation by its effect on [translate] and on the set of free
    frames. *)

From S2P Require Import Prelude Pmm.

(** ** The code *)

Definition PAGE_PRESENT : Z := 1.
Definition PAGE_WRITE : Z := 2.
Definition PAGE_USER : Z := 4.

Definition KERNEL_VIRTUAL_BASE : Z := 0xC0000000.
Definition KVIRT_TO_PHYS (v : Z) : Z := u32 (v - KERNEL_VIRTUAL_BASE).
Definition PHYS_TO_KVIRT (p : Z) : Z := u32 (p + KERNEL_VIRTUAL_BASE).

Definition NUM_PAGE_TABLES : Z := 256.
Definition VBE_MAX_DIR_ENTRIES : Z := 4.
Definition HIGHER_HALF_PDE_START : Z := 768.

(** The globals of the file, the frame allocator, the physical memory and the
    control register; [None] in a pointer is [NULL]. *)
Record paging_t : Type := mk_paging {
  pg_pmm : pmm_t;
  pg_mem : Z → Z;
  current_page_dir : option Z;
  current_page_tables : option Z;
  vbe_dir_indices : list Z;
  vbe_dir_count : Z;
  pg_cr3 : Z
}.

Definition with_pmm (p : pmm_t) (s : paging_t) : paging_t :=
  mk_paging p (pg_mem s) (current_page_dir s) (current_page_tables s)
            (vbe_dir_indices s) (vbe_dir_count s) (pg_cr3 s).
Definition with_mem (m : Z → Z) (s : paging_t) : paging_t :=
  mk_paging (pg_pmm s) m (current_page_dir s) (current_page_tables s)
            (vbe_dir_indices s) (vbe_dir_count s) (pg_cr3 s).
Definition with_vbe (l : list Z) (n : Z) (s : paging_t) : paging_t :=
  mk_paging (pg_pmm s) (pg_mem s) (current_page_dir s) (current_page_tables s) l n (pg_cr3 s).

Definition on_pmm {A} (m : M pmm_t A) : M paging_t A := λ s,
  match m (pg_pmm s) with
  | None => None
  | Some (a, p) => Some (a, with_pmm p s)
  end.

(** Accesses through a higher-half pointer: one word, and the [memset] to 0 of
    a page. *)
Definition mem_set (m : Z → Z) (a v : Z) : Z → Z := λ x, if x =? a then v else m x.
Definition mem_zero_page (m : Z → Z) (a : Z) : Z → Z :=
  λ x, if (a <=? x) && (x <? a + 4096) then 0 else m x.

Definition kread (va : Z) : M paging_t Z := λ s, Some (pg_mem s (KVIRT_TO_PHYS va), s).
Definition kwrite (va v : Z) : M paging_t unit := λ s,
  Some (tt, with_mem (mem_set (pg_mem s) (KVIRT_TO_PHYS va) v) s).
Definition kzero_page (va : Z) : M paging_t unit := λ s,
  Some (tt, with_mem (mem_zero_page (pg_mem s) (KVIRT_TO_PHYS va)) s).

(** [&page_dir->tables[i]], and [&pt->pages[i]] *)
Definition word_at (p i : Z) : Z := u32 (p + 4 * i).

(** [x & ~0xFFF] *)
Definition page_frame (x : Z) : Z := frame_mask x.

Definition dir_idx (virtual_addr : Z) : Z := Z.shiftr virtual_addr 22.
Definition table_idx (virtual_addr : Z) : Z := Z.land (Z.shiftr virtual_addr 12) 0x3FF.

(** [e & f] as a condition. *)
Definition has (e f : Z) : bool := negb (Z.land e f =? 0).

(** The part of [paging_map_page] that gets or creates the page table of a
    directory entry; [false] is the early return. *)
Definition get_table (page_dir di : Z) : M paging_t bool :=
  pde ← kread (word_at page_dir di);
  if has pde PAGE_PRESENT then mret true else
  pt_phys ← on_pmm pmm_alloc_frame;
  if pt_phys =? 0 then mret false else
  kzero_page (PHYS_TO_KVIRT pt_phys);;
  kwrite (word_at page_dir di)
         (Z.lor (Z.lor (Z.lor pt_phys PAGE_PRESENT) PAGE_WRITE) PAGE_USER);;
  mret true.

(** Returns 0, or -1 when no frame is left for a page table. *)
Definition paging_map_page (page_dir virtual_addr physical_addr flags : Z) : M paging_t Z :=
  let di := dir_idx virtual_addr in
  let ti := table_idx virtual_addr in
  ok ← get_table page_dir di;
  if negb ok then mret (-1) else
  pde ← kread (word_at page_dir di);
  let pt := PHYS_TO_KVIRT (page_frame pde) in
  kwrite (word_at pt ti) (Z.lor (page_frame physical_addr) flags);;
  mret 0.

Definition paging_unmap_page (page_dir virtual_addr : Z) : M paging_t unit :=
  let di := dir_idx virtual_addr in
  let ti := table_idx virtual_addr in
  pde ← kread (word_at page_dir di);
  if negb (has pde PAGE_PRESENT) then mret tt else
  kwrite (word_at (PHYS_TO_KVIRT (page_frame pde)) ti) 0.

(** The page table number [t] of [init_paging]: entries [i], ..., [i + n - 1]. *)
Fixpoint fill_table (n : nat) (pt t i : Z) : M paging_t unit :=
  match n with
  | O => mret tt
  | S n => kwrite (word_at pt i)
                  (Z.lor (Z.lor (u32 (t * 0x400000 + i * 0x1000)) PAGE_PRESENT) PAGE_WRITE);;
           fill_table n pt t (i + 1)
  end.

(** The loop of [init_paging] over the page tables; [false] is the return on a
    misaligned table. *)
Fixpoint init_tables (n : nat) (page_dir page_tables t : Z) : M paging_t bool :=
  match n with
  | O => mret true
  | S n =>
    let pt := u32 (page_tables + 4096 * t) in
    let pt_phys := KVIRT_TO_PHYS pt in
    if negb (Z.land pt_phys 0xFFF =? 0) then mret false else
    kzero_page pt;;
    fill_table 1024 pt t 0;;
    kwrite (word_at page_dir (HIGHER_HALF_PDE_START + t))
           (Z.lor (Z.lor (Z.lor pt_phys PAGE_PRESENT) PAGE_WRITE) PAGE_USER);;
    init_tables n page_dir page_tables (t + 1)
  end.

Definition set_cr3 (v : Z) : M paging_t unit := modify (λ s,
  mk_paging (pg_pmm s) (pg_mem s) (current_page_dir s) (current_page_tables s)
            (vbe_dir_indices s) (vbe_dir_count s) v).

Definition init_paging (page_dir page_tables : Z) : M paging_t unit :=
  modify (λ s, mk_paging (pg_pmm s) (pg_mem s) (Some page_dir) (Some page_tables)
                         (vbe_dir_indices s) (vbe_dir_count s) (pg_cr3 s));;
  let pd_phys := KVIRT_TO_PHYS page_dir in
  if negb (Z.land pd_phys 0xFFF =? 0) then mret tt else
  kzero_page page_dir;;
  ok ← init_tables (Z.to_nat NUM_PAGE_TABLES) page_dir page_tables 0;
  if negb ok then mret tt else
  set_cr3 pd_phys.

Definition paging_switch (page_dir : Z) : M paging_t unit := set_cr3 (KVIRT_TO_PHYS page_dir).

(** [idx] is among the first [vbe_dir_count] recorded indices. *)
Definition vbe_recorded (idx : Z) (s : paging_t) : bool :=
  existsb (Z.eqb idx) (take (Z.to_nat (vbe_dir_count s)) (vbe_dir_indices s)).

Definition vbe_track (idx : Z) : M paging_t unit := λ s,
  if negb (vbe_recorded idx s) && (vbe_dir_count s <? VBE_MAX_DIR_ENTRIES) then
    l ← zupdate (vbe_dir_indices s) (vbe_dir_count s) idx;
    Some (tt, with_vbe l (vbe_dir_count s + 1) s)
  else Some (tt, s).

(** The loop of [paging_map_vbe]: [n] pages from [addr]; the result of
    [paging_map_page] is ignored. *)
Fixpoint map_vbe_loop (n : nat) (page_dir addr : Z) : M paging_t unit :=
  match n with
  | O => mret tt
  | S n =>
    paging_map_page page_dir addr addr (Z.lor (Z.lor PAGE_PRESENT PAGE_WRITE) PAGE_USER);;
    vbe_track (dir_idx addr);;
    map_vbe_loop n page_dir (addr + 0x1000)
  end.

Definition paging_map_vbe (phys_addr size : Z) : M paging_t unit :=
  s ← get;
  match current_page_dir s with
  | None => mret tt
  | Some page_dir =>
    if (phys_addr =? 0) || (size =? 0) then mret tt else
    let start := page_frame phys_addr in
    let end_ := page_frame (u32 (u32 (phys_addr + size) + 0xFFF)) in
    put (with_vbe (vbe_dir_indices s) 0 s);;
    map_vbe_loop (Z.to_nat ((end_ - start) / 0x1000)) page_dir start
  end.

(** [new_dir->tables[idx] = current_page_dir->tables[idx]] for each of [l]. *)
Fixpoint copy_entries (l : list Z) (new_dir from : Z) : M paging_t unit :=
  match l with
  | [] => mret tt
  | idx :: l => e ← kread (word_at from idx);
                kwrite (word_at new_dir idx) e;;
                copy_entries l new_dir from
  end.

(** [None] is a null pointer; the kernel page directory is read through
    [current_page_dir], which must be set. *)
Definition paging_create_address_space : M paging_t (option Z) :=
  pd_phys ← on_pmm pmm_alloc_frame;
  if pd_phys =? 0 then mret None else
  let new_dir := PHYS_TO_KVIRT pd_phys in
  kzero_page new_dir;;
  s ← get;
  kdir ← lift (current_page_dir s);
  copy_entries ((λ i, HIGHER_HALF_PDE_START + i) <$> seqZ 0 NUM_PAGE_TABLES) new_dir kdir;;
  copy_entries (take (Z.to_nat (vbe_dir_count s)) (vbe_dir_indices s)) new_dir kdir;;
  mret (Some new_dir).

(** The frames of the page table at [pt], entries [j] to [j + n - 1]. *)
Fixpoint free_table_frames (n : nat) (pt j : Z) : M paging_t unit :=
  match n with
  | O => mret tt
  | S n =>
    e ← kread (word_at pt j);
    s ← get;
    let frame := page_frame e in
    (if has e PAGE_PRESENT && (PMM_START <=? frame) && (frame <? PMM_END (pg_pmm s))
     then on_pmm (pmm_free_frame frame) else mret tt);;
    free_table_frames n pt (j + 1)
  end.

Fixpoint free_tables (n : nat) (page_dir i : Z) : M paging_t unit :=
  match n with
  | O => mret tt
  | S n =>
    pde ← kread (word_at page_dir i);
    s ← get;
    (if negb (has pde PAGE_PRESENT) || vbe_recorded i s then mret tt else
     let pt_phys := page_frame pde in
     free_table_frames 1024 (PHYS_TO_KVIRT pt_phys) 0;;
     on_pmm (pmm_free_frame pt_phys));;
    free_tables n page_dir (i + 1)
  end.

Definition paging_destroy_address_space (page_dir : option Z) : M paging_t unit :=
  s ← get;
  match page_dir with
  | None => mret tt
  | Some d =>
    if bool_decide (current_page_dir s = Some d) then mret tt else
    free_tables (Z.to_nat HIGHER_HALF_PDE_START) d 0;;
    on_pmm (pmm_free_frame (KVIRT_TO_PHYS d))
  end.

(** ** What the processor computes *)

(** The physical address of [va] under the directory at physical address [d],
    with the access bits (present, writable, user) of the two entries
    combined. *)
Definition translate (m : Z → Z) (d va : Z) : option (Z * Z) :=
  let pde := m (d + 4 * (va / 4194304)) in
  if negb (has pde PAGE_PRESENT) then None else
  let pte := m (page_frame pde + 4 * (va / 4096 mod 1024)) in
  if negb (has pte PAGE_PRESENT) then None else
  Some (page_frame pte + va mod 4096, Z.land (Z.land pde pte) 7).

(** ** Page arithmetic *)

Ltac pg_lia :=
  unfold KERNEL_VIRTUAL_BASE, HIGHER_HALF_PDE_START, NUM_PAGE_TABLES in *;
  Z.div_mod_to_equations; lia.

Lemma page_frame_eq x : is_u32 x → page_frame x = x - x mod 4096.
Proof. apply frame_mask_eq. Qed.

Lemma land_aligned_low x f : x mod 4096 = 0 → 0 ≤ f < 4096 → Z.land x f = 0.
Proof.
  intros Hx Hf. apply Z.bits_inj'. intros n Hn. rewrite Z.land_spec, Z.bits_0.
  destruct (Z.ltb_spec n 12) as [Hl|Hl].
  - replace x with (Z.shiftl (x / 4096) 12) by (rewrite Z.shiftl_mul_pow2 by lia; change (2 ^ 12) with 4096; mlia).
    by rewrite Z.shiftl_spec_low.
  - destruct (decide (f = 0)) as [->|]; [by rewrite Z.bits_0, andb_false_r|].
    rewrite (Z.bits_above_log2 f); [apply andb_false_r|lia|].
    apply Z.log2_lt_pow2; [lia|]. apply Z.lt_le_trans with (2 ^ 12); [apply Hf|].
    apply Z.pow_le_mono_r; lia.
Qed.

Lemma lor_page x f : x mod 4096 = 0 → 0 ≤ f < 4096 → Z.lor x f = x + f.
Proof.
  intros Hx Hf. rewrite <- Z.lxor_lor by (by apply land_aligned_low).
  symmetry. apply Z.add_nocarry_lxor. by apply land_aligned_low.
Qed.

Lemma page_frame_entry x f :
  is_u32 x → x mod 4096 = 0 → 0 ≤ f < 4096 → page_frame (Z.lor x f) = x.
Proof.
  intros Hx Ha Hf. rewrite lor_page by done. rewrite page_frame_eq by mlia.
  rewrite <- (Z.mod_unique_pos (x + f) 4096 (x / 4096) f) by mlia. lia.
Qed.

Lemma entry_u32 x f : is_u32 x → x mod 4096 = 0 → 0 ≤ f < 4096 → is_u32 (Z.lor x f).
Proof. intros Hx Ha Hf. rewrite lor_page by done. mlia. Qed.

Lemma entry_bits x f g :
  x mod 4096 = 0 → 0 ≤ f < 4096 → 0 ≤ g < 4096 → Z.land (Z.lor x f) g = Z.land f g.
Proof. intros. rewrite Z.land_lor_distr_l, land_aligned_low by done. done. Qed.

Lemma page_frame_aligned x : is_u32 x → page_frame x mod 4096 = 0 ∧ is_u32 (page_frame x).
Proof. intros H. rewrite page_frame_eq by done. mlia. Qed.

Lemma kv_page d : 0 ≤ d < 1073741824 → KVIRT_TO_PHYS (PHYS_TO_KVIRT d) = d.
Proof. unfold KVIRT_TO_PHYS, PHYS_TO_KVIRT, KERNEL_VIRTUAL_BASE. mlia. Qed.

Lemma kv_word d i :
  d mod 4096 = 0 → 0 ≤ d < 1073741824 → 0 ≤ i < 1024 →
  KVIRT_TO_PHYS (word_at (PHYS_TO_KVIRT d) i) = d + 4 * i.
Proof. unfold KVIRT_TO_PHYS, word_at, PHYS_TO_KVIRT, KERNEL_VIRTUAL_BASE. mlia. Qed.

Lemma dir_idx_eq va : dir_idx va = va / 4194304.
Proof. unfold dir_idx. by rewrite Z.shiftr_div_pow2. Qed.
Lemma table_idx_eq va : table_idx va = va / 4096 mod 1024.
Proof.
  unfold table_idx. rewrite Z.shiftr_div_pow2 by lia. change 0x3FF with (Z.ones 10).
  by rewrite Z.land_ones.
Qed.

Lemma idx_range va : is_u32 va → 0 ≤ va / 4194304 < 1024 ∧ 0 ≤ va / 4096 mod 1024 < 1024.
Proof. mlia. Qed.

(** Two addresses are on the same page when both indices agree. *)
Lemma same_page_idx va vb :
  is_u32 va → is_u32 vb →
  va / 4194304 = vb / 4194304 → va / 4096 mod 1024 = vb / 4096 mod 1024 → va / 4096 = vb / 4096.
Proof. mlia. Qed.

(** ** Address spaces *)

(** The frame at physical address [a] is free in the allocator. *)
Definition addr_free (p : pmm_t) (a : Z) : Prop :=
  ∃ k, 0 ≤ k < PMM_FRAME_COUNT p ∧ a = frame_at k ∧ frame_used p k = false.

Record paging_wf (s : paging_t) : Prop := {
  pg_pmm_wf : pmm_wf (pg_pmm s);
  pg_mem_u32 : ∀ a, is_u32 (pg_mem s a)
}.

(** A frame that may hold a directory or table: it is in the window of the
    kernel and not free. *)
Definition table_frame (s : paging_t) (t : Z) : Prop :=
  t mod 4096 = 0 ∧ 0 ≤ t < 1073741824 ∧ ¬ addr_free (pg_pmm s) t.

Definition pde_present (m : Z → Z) (d i : Z) : Prop := has (m (d + 4 * i)) PAGE_PRESENT = true.
Definition table_of (m : Z → Z) (d i : Z) : Z := page_frame (m (d + 4 * i)).

(** A page directory at [d]: its present entries grant all accesses and point
    to distinct tables, none of which is the directory. *)
Record as_wf (s : paging_t) (d : Z) : Prop := {
  as_dir : table_frame s d;
  as_tables i : 0 ≤ i < 1024 → pde_present (pg_mem s) d i →
    table_frame s (table_of (pg_mem s) d i) ∧ table_of (pg_mem s) d i ≠ d ∧
    Z.land (pg_mem s (d + 4 * i)) 7 = 7;
  as_distinct i j : 0 ≤ i < 1024 → 0 ≤ j < 1024 → i ≠ j →
    pde_present (pg_mem s) d i → pde_present (pg_mem s) d j →
    table_of (pg_mem s) d i ≠ table_of (pg_mem s) d j
}.

(** The allocator hands out a frame that was free and then is not. *)
Lemma alloc_frame_addr p : pmm_wf p →
  ∃ r p', pmm_alloc_frame p = Some (r, p') ∧ pmm_wf p' ∧
    (r = 0 ∧ p' = p ∧ (∀ a, ¬ addr_free p a) ∨
     r ≠ 0 ∧ r mod 4096 = 0 ∧ 8388608 ≤ r < 1073741824 ∧ addr_free p r ∧
     (∀ a, addr_free p' a ↔ addr_free p a ∧ a ≠ r)).
Proof.
  intros Hwf. destruct (alloc_frame_ok p Hwf) as (r & p' & E & Hwf' & Ha).
  pose proof (wf_count _ Hwf) as Hc. exists r, p'. split; [done|]. split; [done|].
  destruct Ha as [(-> & -> & Hnone)|(k & Hk & Hkn & -> & Hfree & _ & Hm)].
  - left. split_and!; try done. intros a (k & Hk & -> & Hu). apply (Hnone k); [lia|lia|].
    intros j Hj. by replace j with k by lia.
  - right. split_and!; try (unfold frame_at; pmm_lia).
    + exists k. split_and!; [lia..|done|]. apply Hfree. lia.
    + intros a. pose proof (marks_count _ _ _ _ Hm) as HFC. destruct Hm as [_ Hm].
      split.
      * intros (j & Hj & -> & Hu). destruct (Hm j) as [H1 H2]; [lia|].
        destruct (decide (k ≤ j < k + 1)) as [Hin|Hout]; [by rewrite H1 in Hu|].
        split; [exists j; rewrite <- H2 by done; split_and!; try done; lia|].
        unfold frame_at. pmm_lia.
      * intros ((j & Hj & -> & Hu) & Hne). exists j. destruct (Hm j) as [H1 H2]; [lia|].
        assert (j ≠ k) by congruence. rewrite H2 by lia. split_and!; try done; lia.
Qed.

Lemma free_frame_addr p a : pmm_wf p → is_u32 a →
  ∃ p', pmm_free_frame a p = Some (tt, p') ∧ pmm_wf p' ∧ PMM_END p' = PMM_END p ∧
    PMM_FRAME_COUNT p' = PMM_FRAME_COUNT p ∧
    (∀ x, addr_free p' x ↔ addr_free p x ∨ x = a ∧ ∃ k, 0 ≤ k < PMM_FRAME_COUNT p ∧ a = frame_at k).
Proof.
  intros Hwf Hu. destruct (free_frame_ok a p Hwf Hu) as (p' & E & Hwf' & Hm).
  pose proof (wf_count _ Hwf) as Hc. pose proof (wf_count _ Hwf') as Hc'.
  exists p'. split; [done|]. split; [done|].
  destruct Hm as [[He HFC] Hm]. split; [done|]. split; [done|]. intros x. split.
  - intros (j & Hj & -> & Hju). destruct (Hm j) as [H1 H2]; [lia|].
    destruct (decide (frame_at j = a)) as [<-|Hne].
    + right. split; [done|]. exists j. split; [lia|done].
    + left. exists j. rewrite <- H2 by naive_solver. split_and!; try done; lia.
  - intros [(j & Hj & -> & Hju)|(-> & k & Hk & ->)].
    + exists j. destruct (Hm j) as [H1 H2]; [lia|]. split_and!; [lia..|done|].
      destruct (decide (frame_at j = a)) as [Heq|Hne]; [apply H1; split; [lia|done]|].
      rewrite H2; [done|]. naive_solver.
    + exists k. destruct (Hm k) as [H1 H2]; [lia|]. split_and!; [lia..|done|]. apply H1. split; [lia|done].
Qed.

(** ** Framing *)

Lemma page_words_disjoint a b i j :
  a mod 4096 = 0 → b mod 4096 = 0 → a ≠ b → 0 ≤ i < 1024 → 0 ≤ j < 1024 →
  a + 4 * i ≠ b + 4 * j ∧ ¬ (b ≤ a + 4 * i < b + 4096).
Proof. pg_lia. Qed.

(** A directory is unaffected when neither its page nor its tables change. *)
Lemma translate_frame m m' d va :
  is_u32 va →
  (∀ i, 0 ≤ i < 1024 → m' (d + 4 * i) = m (d + 4 * i)) →
  (∀ i j, 0 ≤ i < 1024 → 0 ≤ j < 1024 → pde_present m d i →
     m' (table_of m d i + 4 * j) = m (table_of m d i + 4 * j)) →
  translate m' d va = translate m d va.
Proof.
  intros Hva Hd Ht. destruct (idx_range va Hva) as [Hi Hj]. unfold translate.
  rewrite (Hd _ Hi). destruct (has _ _) eqn:E; [|done]. cbn [negb].
  fold (table_of m d (va / 4194304)). by rewrite (Ht _ _ Hi Hj E).
Qed.

Lemma as_frame s s' d :
  as_wf s d →
  (∀ i, 0 ≤ i < 1024 → pg_mem s' (d + 4 * i) = pg_mem s (d + 4 * i)) →
  (∀ a, addr_free (pg_pmm s') a → addr_free (pg_pmm s) a) →
  as_wf s' d.
Proof.
  intros [(Ha & Hr & Hf) Ht Hdist] Hm Hfree. split.
  - split; [done|split; [done|naive_solver]].
  - intros i Hi. unfold pde_present, table_of. rewrite (Hm i Hi). intros Hp.
    destruct (Ht i Hi Hp) as ((?&?&?)&?&?).
    split; [split; [done|split; [done|naive_solver]]|]. done.
  - intros i j Hi Hj. unfold pde_present, table_of. rewrite (Hm i Hi), (Hm j Hj). by apply Hdist.
Qed.

(** The effect of creating the page table of entry [i]: the frame [r]. *)
Definition new_table (d i r : Z) (s s' : paging_t) : Prop :=
  r mod 4096 = 0 ∧ 8388608 ≤ r < 1073741824 ∧ addr_free (pg_pmm s) r ∧
  (∀ a, addr_free (pg_pmm s') a ↔ addr_free (pg_pmm s) a ∧ a ≠ r) ∧
  (∀ a, pg_mem s' a = if a =? d + 4 * i then r + 7
                      else if (r <=? a) && (a <? r + 4096) then 0 else pg_mem s a).

Definition same_globals (s s' : paging_t) : Prop :=
  current_page_dir s' = current_page_dir s ∧ current_page_tables s' = current_page_tables s ∧
  vbe_dir_indices s' = vbe_dir_indices s ∧ vbe_dir_count s' = vbe_dir_count s ∧
  pg_cr3 s' = pg_cr3 s.

Lemma get_table_ok s d i :
  paging_wf s → table_frame s d → 0 ≤ i < 1024 →
  ∃ ok s', get_table (PHYS_TO_KVIRT d) i s = Some (ok, s') ∧ paging_wf s' ∧ same_globals s s' ∧
    (ok = true ∧ s' = s ∧ pde_present (pg_mem s) d i ∨
     ok = false ∧ s' = s ∧ (∀ a, ¬ addr_free (pg_pmm s) a) ∨
     ok = true ∧ ¬ pde_present (pg_mem s) d i ∧ ∃ r, new_table d i r s s').
Proof.
  intros Hwf (Hda & Hdr & Hdf) Hi. unfold get_table, kread, mbind, M_bind.
  rewrite kv_word by done. destruct (has (pg_mem s (d + 4 * i)) PAGE_PRESENT) eqn:Hp.
  { exists true, s. split_and!; try done. by left. }
  unfold on_pmm. destruct (alloc_frame_addr _ (pg_pmm_wf _ Hwf)) as (r & p' & -> & Hwf' & Hcase).
  destruct Hcase as [(-> & -> & Hnone)|(Hr0 & Hra & Hrr & Hrf & Hfree)].
  - exists false, s. split; [by destruct s|]. split_and!; try done. right. left. done.
  - rewrite (proj2 (Z.eqb_neq _ _) Hr0). unfold kzero_page, kwrite, mret, M_ret.
    eexists true, _. split; [reflexivity|].
    rewrite kv_word, kv_page by (done || lia).
    assert (E7 : Z.lor (Z.lor (Z.lor r PAGE_PRESENT) PAGE_WRITE) PAGE_USER = r + 7).
    { rewrite <- !Z.lor_assoc. apply lor_page; [done|]. done. }
    rewrite E7. split; [split; [done|]|split; [done|]].
    + intros a. cbn [pg_mem with_mem with_pmm]. unfold mem_set, mem_zero_page.
      repeat case_match; try mlia. apply (pg_mem_u32 _ Hwf).
    + right. right. split_and!; [done|unfold pde_present; by rewrite Hp|]. exists r.
      split_and!; try done; lia.
Qed.

Lemma new_table_present d i r s s' :
  new_table d i r s s' → pde_present (pg_mem s') d i ∧ table_of (pg_mem s') d i = r ∧
    Z.land (pg_mem s' (d + 4 * i)) 7 = 7.
Proof.
  intros (Ha & Hr & _ & _ & Hm). unfold pde_present, table_of, has.
  rewrite Hm, Z.eqb_refl, <- lor_page by done.
  rewrite page_frame_entry by (done || mlia). rewrite !entry_bits by done. done.
Qed.

Lemma new_table_other d i r s s' j :
  new_table d i r s s' → table_frame s d → 0 ≤ i < 1024 → 0 ≤ j < 1024 → j ≠ i →
  pg_mem s' (d + 4 * j) = pg_mem s (d + 4 * j).
Proof.
  intros (Ha & Hr & Hf & _ & Hm) (Hda & _ & Hdf) Hi Hj Hne. rewrite Hm.
  rewrite (proj2 (Z.eqb_neq _ _)) by lia.
  destruct (page_words_disjoint d r j 0) as [_ H]; try done; [congruence|].
  destruct (Z.leb_spec r (d + 4 * j)), (Z.ltb_spec (d + 4 * j) (r + 4096)); simpl; lia || done.
Qed.

(** Memory of the other frames in use is unchanged. *)
Lemma new_table_frame d i r s s' t j :
  new_table d i r s s' → d mod 4096 = 0 → 0 ≤ i < 1024 → table_frame s t → t ≠ d → 0 ≤ j < 1024 →
  pg_mem s' (t + 4 * j) = pg_mem s (t + 4 * j).
Proof.
  intros (Ha & Hr & Hf & _ & Hm) Hda Hi (Hta & _ & Htf) Hne Hj. rewrite Hm.
  destruct (page_words_disjoint t d j i) as [H1 _]; try done.
  destruct (page_words_disjoint t r j 0) as [_ H2]; try done; [congruence|].
  rewrite (proj2 (Z.eqb_neq _ _)) by done.
  destruct (Z.leb_spec r (t + 4 * j)), (Z.ltb_spec (t + 4 * j) (r + 4096)); simpl; lia || done.
Qed.

Lemma new_table_as_wf d i r s s' :
  as_wf s d → 0 ≤ i < 1024 → ¬ pde_present (pg_mem s) d i → new_table d i r s s' → as_wf s' d.
Proof.
  intros Has Hi Hnp Hn. pose proof Hn as (Hra & Hrr & Hrf & Hfree & _).
  pose proof (new_table_present _ _ _ _ _ Hn) as (Hp & Ht & H7).
  pose proof (as_dir _ _ Has) as Hd.
  assert (Hkeep : ∀ t, table_frame s t → table_frame s' t).
  { intros t (? & ? & Hf). split; [done|split; [done|]]. rewrite Hfree. naive_solver. }
  assert (Hold : ∀ j, 0 ≤ j < 1024 → j ≠ i → pde_present (pg_mem s') d j →
    pde_present (pg_mem s) d j ∧ table_of (pg_mem s') d j = table_of (pg_mem s) d j ∧
    pg_mem s' (d + 4 * j) = pg_mem s (d + 4 * j)).
  { intros j Hj Hne. pose proof (new_table_other _ _ _ _ _ j Hn Hd Hi Hj Hne) as E.
    unfold pde_present, table_of. by rewrite E. }
  split; [by apply Hkeep| |].
  - intros j Hj Hpj. destruct (decide (j = i)) as [->|Hne].
    + rewrite Ht. split_and!; [split; [done|split; [lia|]]| |done].
      * rewrite Hfree. naive_solver.
      * intros ->. by apply Hd.
    + destruct (Hold j Hj Hne Hpj) as (Hpo & -> & ->). destruct (as_tables _ _ Has j Hj Hpo) as (?&?&?).
      split_and!; auto.
  - assert (Hr : ∀ j, 0 ≤ j < 1024 → j ≠ i → pde_present (pg_mem s') d j →
               table_of (pg_mem s') d j ≠ r).
    { intros j Hj Hne Hpj. destruct (Hold j Hj Hne Hpj) as (Hpo & -> & _).
      destruct (as_tables _ _ Has j Hj Hpo) as ((_&_&Hf)&_). intros E. apply Hf. by rewrite E. }
    intros j k Hj Hk Hne Hpj Hpk. destruct (decide (j = i)) as [->|Hji].
    { rewrite Ht. apply not_eq_sym. by apply Hr; auto. }
    destruct (decide (k = i)) as [->|Hki]; [rewrite Ht; by apply Hr|].
    destruct (Hold j Hj Hji Hpj) as (Hoj & -> & _). destruct (Hold k Hk Hki Hpk) as (Hok & -> & _).
    by apply (as_distinct _ _ Has).
Qed.

Lemma new_table_translate d i r s s' va :
  as_wf s d → 0 ≤ i < 1024 → ¬ pde_present (pg_mem s) d i → new_table d i r s s' → is_u32 va →
  translate (pg_mem s') d va = translate (pg_mem s) d va.
Proof.
  intros Has Hi Hnp Hn Hva. destruct (idx_range va Hva) as [Hj Hk].
  pose proof (as_dir _ _ Has) as Hd. unfold translate.
  destruct (decide (va / 4194304 = i)) as [->|Hne].
  - pose proof (new_table_present _ _ _ _ _ Hn) as (Hp & Ht & _).
    unfold pde_present in Hnp, Hp. apply not_true_is_false in Hnp. rewrite Hnp, Hp. cbn [negb].
    unfold table_of in Ht. rewrite Ht. destruct Hn as (Hra & Hrr & Hrf & _ & Hm).
    assert (E : pg_mem s' (r + 4 * (va / 4096 mod 1024)) = 0); [|by rewrite E].
    rewrite Hm. destruct (page_words_disjoint r d (va / 4096 mod 1024) i) as [H1 _]; try done.
    { apply Hd. } { intros ->. by apply Hd. }
    rewrite (proj2 (Z.eqb_neq _ _) H1), (proj2 (Z.leb_le _ _)), (proj2 (Z.ltb_lt _ _)) by lia. done.
  - rewrite (new_table_other _ _ _ _ _ _ Hn Hd Hi Hj Hne).
    destruct (has _ _) eqn:E; [|done]. cbn [negb].
    destruct (as_tables _ _ Has _ Hj E) as (Htf & Hnd & _). unfold table_of in *.
    rewrite (new_table_frame _ _ _ _ _ _ _ Hn (proj1 Hd) Hi Htf Hnd Hk). done.
Qed.

(** ** Changing one page table entry *)

Definition set_pte (t j v : Z) (s : paging_t) : paging_t :=
  with_mem (mem_set (pg_mem s) (t + 4 * j) v) s.

Lemma set_pte_frame t j v s p k :
  t mod 4096 = 0 → p mod 4096 = 0 → p ≠ t → 0 ≤ j < 1024 → 0 ≤ k < 1024 →
  pg_mem (set_pte t j v s) (p + 4 * k) = pg_mem s (p + 4 * k).
Proof.
  intros Ht Hp Hne Hj Hk. unfold set_pte, with_mem, mem_set. cbn [pg_mem].
  destruct (page_words_disjoint p t k j) as [H _]; try done. by rewrite (proj2 (Z.eqb_neq _ _) H).
Qed.

Lemma set_pte_as_wf d i j v s :
  as_wf s d → 0 ≤ i < 1024 → 0 ≤ j < 1024 → pde_present (pg_mem s) d i →
  as_wf (set_pte (table_of (pg_mem s) d i) j v s) d.
Proof.
  intros Has Hi Hj Hp. destruct (as_tables _ _ Has i Hi Hp) as ((Hta&_)&Hnd&_).
  pose proof (as_dir _ _ Has) as (Hda & _). apply (as_frame s); [done| |done].
  intros k Hk. by apply set_pte_frame.
Qed.

Lemma set_pte_wf t j v s : paging_wf s → is_u32 v → paging_wf (set_pte t j v s).
Proof.
  intros [Hp Hm] Hv. split; [done|]. intros a. unfold set_pte, with_mem, mem_set. cbn [pg_mem].
  case_match; [done|apply Hm].
Qed.

(** What the entry [v] maps the address [va] to. *)
Definition pte_maps (v va : Z) : option (Z * Z) :=
  if has v PAGE_PRESENT then Some (page_frame v + va mod 4096, Z.land v 7) else None.

Lemma land7_pde x v : Z.land x 7 = 7 → Z.land (Z.land x v) 7 = Z.land v 7.
Proof. intros H. rewrite <- Z.land_assoc, (Z.land_comm v), Z.land_assoc, H. done. Qed.

Lemma set_pte_translate d i j v s va :
  as_wf s d → 0 ≤ i < 1024 → 0 ≤ j < 1024 → pde_present (pg_mem s) d i → is_u32 va →
  translate (pg_mem (set_pte (table_of (pg_mem s) d i) j v s)) d va =
  if decide (va / 4194304 = i ∧ va / 4096 mod 1024 = j) then pte_maps v va
  else translate (pg_mem s) d va.
Proof.
  intros Has Hi Hj Hp Hva. destruct (idx_range va Hva) as [Hvi Hvj].
  destruct (as_tables _ _ Has i Hi Hp) as ((Hta&_)&Hnd&H7). pose proof (as_dir _ _ Has) as (Hda & _).
  unfold translate at 1. rewrite set_pte_frame by done. case_decide as Hc.
  - destruct Hc as [-> ->]. unfold pde_present in Hp. rewrite Hp. cbn [negb].
    fold (table_of (pg_mem s) d i).
    replace (pg_mem _ (table_of (pg_mem s) d i + 4 * j)) with v
      by (unfold set_pte, with_mem, mem_set; cbn [pg_mem]; by rewrite Z.eqb_refl).
    unfold pte_maps. rewrite land7_pde by done. by destruct (has v PAGE_PRESENT).
  - unfold translate. destruct (has (pg_mem s (d + _)) PAGE_PRESENT) eqn:E; [|done]. cbn [negb].
    fold (table_of (pg_mem s) d (va / 4194304)).
    replace (pg_mem (set_pte (table_of (pg_mem s) d i) j v s) (table_of (pg_mem s) d (va / 4194304) + 4 * (va / 4096 mod 1024)))
      with (pg_mem s (table_of (pg_mem s) d (va / 4194304) + 4 * (va / 4096 mod 1024))); [done|].
    destruct (decide (va / 4194304 = i)) as [Heq|Hne].
    + rewrite Heq. unfold set_pte, with_mem, mem_set. cbn [pg_mem].
      rewrite (proj2 (Z.eqb_neq _ _)); [done|]. naive_solver lia.
    + symmetry. apply set_pte_frame; try done.
      * by apply (as_tables _ _ Has _ Hvi E).
      * by apply (as_distinct _ _ Has).
Qed.

(** The directory [d2] shares neither its page nor a table with what a change
    of entry [i] of [d] touches. *)
Definition apart (m : Z → Z) (d i d2 : Z) : Prop :=
  d2 ≠ d ∧ (pde_present m d i → table_of m d i ≠ d2) ∧
  ∀ j, 0 ≤ j < 1024 → pde_present m d2 j →
    table_of m d2 j ≠ d ∧ (pde_present m d i → table_of m d2 j ≠ table_of m d i).

Lemma set_pte_apart d i d2 j v s :
  as_wf s d → as_wf s d2 → 0 ≤ i < 1024 → 0 ≤ j < 1024 → pde_present (pg_mem s) d i →
  apart (pg_mem s) d i d2 →
  let s' := set_pte (table_of (pg_mem s) d i) j v s in
  as_wf s' d2 ∧ ∀ va, is_u32 va → translate (pg_mem s') d2 va = translate (pg_mem s) d2 va.
Proof.
  intros Has Has2 Hi Hj Hp (Hne & Htd & Hta) s'. specialize (Htd Hp).
  destruct (as_tables _ _ Has i Hi Hp) as ((Hal&_)&_&_). pose proof (as_dir _ _ Has2) as (Hda & _).
  split.
  - apply (as_frame s); [done| |done]. intros k Hk. by apply set_pte_frame.
  - intros va Hva. apply translate_frame; [done| |].
    + intros k Hk. by apply set_pte_frame.
    + intros k l Hk Hl Hpk. destruct (as_tables _ _ Has2 k Hk Hpk) as ((Hal2&_)&_&_).
      apply set_pte_frame; try done. by apply Hta.
Qed.

Lemma new_table_apart d i r s s' d2 :
  as_wf s d → as_wf s d2 → 0 ≤ i < 1024 → ¬ pde_present (pg_mem s) d i →
  apart (pg_mem s) d i d2 → new_table d i r s s' →
  as_wf s' d2 ∧ apart (pg_mem s') d i d2 ∧
  ∀ va, is_u32 va → translate (pg_mem s') d2 va = translate (pg_mem s) d2 va.
Proof.
  intros Has Has2 Hi Hnp (Hne & Htd & Hta) Hn. pose proof Hn as (Hra & Hrr & Hrf & Hfree & _).
  pose proof (as_dir _ _ Has) as Hd. pose proof (as_dir _ _ Has2) as Hd2.
  assert (Hdir : ∀ k, 0 ≤ k < 1024 → pg_mem s' (d2 + 4 * k) = pg_mem s (d2 + 4 * k)).
  { intros k Hk. by apply (new_table_frame d i r); [|apply Hd| | | |]. }
  pose proof (new_table_present _ _ _ _ _ Hn) as (_ & Ht & _). split_and!.
  - apply (as_frame s); [done|done|]. intros a. rewrite Hfree. naive_solver.
  - split; [done|]. split; [intros _; rewrite Ht; intros ->; by apply Hd2|].
    intros j Hj. unfold pde_present, table_of. rewrite (Hdir j Hj). intros Hpj.
    destruct (Hta j Hj Hpj) as [H1 _]. split; [done|]. intros _.
    unfold table_of in Ht. rewrite Ht. intros E.
    destruct (as_tables _ _ Has2 j Hj Hpj) as ((_&_&Hf)&_). apply Hf. unfold table_of. by rewrite E.
  - intros va Hva. apply translate_frame; [done|done|]. intros k l Hk Hl Hpk.
    destruct (as_tables _ _ Has2 k Hk Hpk) as (Htf&_&_).
    apply (new_table_frame d i r); try done; [apply Hd|]. by apply Hta.
Qed.

(** The effect on the rest of the system of an operation on entry [i] of [d]. *)
Definition others_kept (d i : Z) (s s' : paging_t) : Prop :=
  (∀ a, addr_free (pg_pmm s') a → addr_free (pg_pmm s) a) ∧
  ∀ d2, as_wf s d2 → apart (pg_mem s) d i d2 →
    as_wf s' d2 ∧ ∀ va, is_u32 va → translate (pg_mem s') d2 va = translate (pg_mem s) d2 va.

Lemma map_page_ok s d va pa flags :
  paging_wf s → as_wf s d → is_u32 va → is_u32 pa → 0 ≤ flags < 4096 →
  ∃ rc s', paging_map_page (PHYS_TO_KVIRT d) va pa flags s = Some (rc, s') ∧
    paging_wf s' ∧ as_wf s' d ∧ same_globals s s' ∧ others_kept d (va / 4194304) s s' ∧
    (rc = -1 ∧ s' = s ∧ (∀ a, ¬ addr_free (pg_pmm s) a) ∨
     rc = 0 ∧ ∀ va', is_u32 va' → translate (pg_mem s') d va' =
       if decide (va' / 4096 = va / 4096) then pte_maps (Z.lor (page_frame pa) flags) va'
       else translate (pg_mem s) d va').
Proof.
  intros Hwf Has Hva Hpa Hfl. destruct (idx_range va Hva) as [Hi Hj].
  pose proof (as_dir _ _ Has) as (Hda & Hdr & _).
  destruct (page_frame_aligned pa Hpa) as [Hpal Hpau].
  unfold paging_map_page. rewrite dir_idx_eq, table_idx_eq. unfold mbind, M_bind, kread, kwrite, mret, M_ret.
  destruct (get_table_ok s d (va / 4194304) Hwf (as_dir _ _ Has) Hi)
    as (ok & s1 & -> & Hwf1 & Hg1 & Hcase).
  assert (Hmid : ok = false ∧ s1 = s ∧ (∀ a, ¬ addr_free (pg_pmm s) a) ∨
    ok = true ∧ as_wf s1 d ∧ pde_present (pg_mem s1) d (va / 4194304) ∧
    (∀ a, addr_free (pg_pmm s1) a → addr_free (pg_pmm s) a) ∧
    (∀ va', is_u32 va' → translate (pg_mem s1) d va' = translate (pg_mem s) d va') ∧
    ∀ d2, as_wf s d2 → apart (pg_mem s) d (va / 4194304) d2 →
      as_wf s1 d2 ∧ apart (pg_mem s1) d (va / 4194304) d2 ∧
      ∀ va', is_u32 va' → translate (pg_mem s1) d2 va' = translate (pg_mem s) d2 va').
  { destruct Hcase as [(-> & -> & Hp)|[?|(-> & Hnp & r & Hn)]]; [right|by left|right].
    - do 5 (split; [done|]). done.
    - split; [done|]. split; [exact (new_table_as_wf _ _ _ _ _ Has Hi Hnp Hn)|]. split; [apply (new_table_present _ _ _ _ _ Hn)|].
      split; [|split].
      + destruct Hn as (_&_&_&Hfree&_). naive_solver.
      + intros va' Hva'. exact (new_table_translate _ _ _ _ _ _ Has Hi Hnp Hn Hva').
      + intros d2 Has2 Hap. exact (new_table_apart _ _ _ _ _ _ Has Has2 Hi Hnp Hap Hn). }
  clear Hcase. destruct Hmid as [(-> & -> & Hnone)|(-> & Has1 & Hp1 & Hfr & Htr & Hoth)]; cbn [negb].
  { exists (-1), s. do 4 (split; [done|]). split; [split; done|by left]. }
  rewrite (kv_word d) by done. fold (table_of (pg_mem s1) d (va / 4194304)).
  destruct (as_tables _ _ Has1 _ Hi Hp1) as ((Hta&Htr1&_)&_&_).
  rewrite kv_word by done.
  exists 0, (set_pte (table_of (pg_mem s1) d (va / 4194304)) (va / 4096 mod 1024)
               (Z.lor (page_frame pa) flags) s1).
  split; [done|]. split; [apply set_pte_wf; [done|by apply entry_u32]|].
  split; [by apply set_pte_as_wf|]. split; [exact Hg1|]. split; [split; [exact Hfr|]|].
  - intros d2 Has2 Hap. destruct (Hoth d2 Has2 Hap) as (Has2' & Hap' & Htr2).
    destruct (set_pte_apart d _ d2 (va / 4096 mod 1024) (Z.lor (page_frame pa) flags) s1
                Has1 Has2' Hi Hj Hp1 Hap') as [H1 H2].
    split; [done|]. intros va' Hva'. by rewrite H2, Htr2.
  - right. split; [done|]. intros va' Hva'. rewrite set_pte_translate, Htr by done.
    destruct (decide (va' / 4096 = va / 4096)) as [E|E].
    + rewrite decide_True; [done|]. split; [mlia|by rewrite E].
    + rewrite decide_False; [done|]. intros [E1 E2]. apply E. by apply same_page_idx.
Qed.

Lemma unmap_page_ok s d va :
  paging_wf s → as_wf s d → is_u32 va →
  ∃ s', paging_unmap_page (PHYS_TO_KVIRT d) va s = Some (tt, s') ∧
    paging_wf s' ∧ as_wf s' d ∧ same_globals s s' ∧ others_kept d (va / 4194304) s s' ∧
    pg_pmm s' = pg_pmm s ∧
    ∀ va', is_u32 va' → translate (pg_mem s') d va' =
       if decide (va' / 4096 = va / 4096) then None else translate (pg_mem s) d va'.
Proof.
  intros Hwf Has Hva. destruct (idx_range va Hva) as [Hi Hj].
  pose proof (as_dir _ _ Has) as (Hda & Hdr & _).
  unfold paging_unmap_page. rewrite dir_idx_eq, table_idx_eq. unfold mbind, M_bind, kread, kwrite, mret, M_ret.
  rewrite kv_word by done. destruct (has (pg_mem s (d + _)) PAGE_PRESENT) eqn:Hp; cbn [negb].
  - fold (table_of (pg_mem s) d (va / 4194304)).
    destruct (as_tables _ _ Has _ Hi Hp) as ((Hta&Htr&_)&_&_). rewrite kv_word by done.
    exists (set_pte (table_of (pg_mem s) d (va / 4194304)) (va / 4096 mod 1024) 0 s).
    split; [done|]. split; [by apply set_pte_wf|]. split; [by apply set_pte_as_wf|].
    split; [done|]. split; [|split; [done|]].
    + split; [done|]. intros d2 Has2 Hap. by apply set_pte_apart.
    + intros va' Hva'. rewrite set_pte_translate by done. destruct (decide (va' / 4096 = va / 4096)) as [E|E].
      * rewrite decide_True; [done|]. split; [mlia|by rewrite E].
      * rewrite decide_False; [done|]. intros [E1 E2]. apply E. by apply same_page_idx.
  - exists s. do 4 (split; [done|]). split; [split; done|].
    split; [done|]. intros va' Hva'. case_decide as E; [|done]. unfold translate.
    replace (va' / 4194304) with (va / 4194304) by mlia. by rewrite Hp.
Qed.

(** ** The kernel map of [init_paging] *)

(** Memory after [n] entries of a table from entry [i] on are filled. *)
Lemma fill_table_ok n p t i s :
  p mod 4096 = 0 → 0 ≤ p < 1073741824 → 0 ≤ t < 256 → 0 ≤ i → i + Z.of_nat n ≤ 1024 →
  ∃ m', fill_table n (PHYS_TO_KVIRT p) t i s = Some (tt, with_mem m' s) ∧
    ∀ a, m' a = if decide (p + 4 * i ≤ a < p + 4 * (i + Z.of_nat n) ∧ (a - p) mod 4 = 0)
                then t * 4194304 + (a - p) / 4 * 4096 + 3 else pg_mem s a.
Proof.
  intros Hp Hpr Ht. revert i s. induction n as [|n IH]; intros i s Hi Hn.
  { exists (pg_mem s). split; [by destruct s|]. intros a. rewrite decide_False by lia. done. }
  cbn [fill_table]. unfold mbind, M_bind at 1, kwrite. rewrite kv_word by lia.
  destruct (IH (i + 1) (with_mem (mem_set (pg_mem s) (p + 4 * i)
    (Z.lor (Z.lor (u32 (t * 4194304 + i * 4096)) PAGE_PRESENT) PAGE_WRITE)) s)) as (m' & E & Hm);
    [lia..|].
  exists m'. split; [exact E|]. intros a. rewrite Hm. cbn [pg_mem with_mem]. unfold mem_set.
  rewrite u32_small by mlia.
  assert (E3 : Z.lor (Z.lor (t * 4194304 + i * 4096) PAGE_PRESENT) PAGE_WRITE = t * 4194304 + i * 4096 + 3).
  { rewrite <- Z.lor_assoc. apply lor_page; [mlia|done]. }
  rewrite E3. destruct (Z.eqb_spec a (p + 4 * i)) as [->|Hne].
  - rewrite decide_False by lia. replace (p + 4 * i - p) with (i * 4) by lia.
    rewrite decide_True by (split; [lia|by rewrite Z.mod_mul]).
    rewrite Z.div_mul by lia. lia.
  - destruct (decide (p + 4 * (i + 1) ≤ a < p + 4 * (i + 1 + Z.of_nat n) ∧ (a - p) mod 4 = 0)) as [H|H];
      [rewrite decide_True by lia; done|]. rewrite decide_False; [done|].
    intros [H1 H2]. apply H. split; [|done]. mlia.
Qed.

(** Memory after the tables [t0], ..., [t0 + n - 1] are set up. *)
Definition init_mem (d T t0 n : Z) (m : Z → Z) (a : Z) : Z :=
  if decide (T + 4096 * t0 ≤ a < T + 4096 * (t0 + n)) then
    if decide ((a - T) mod 4 = 0) then (a - T) / 4 * 4096 + 3 else 0
  else if decide (d + 4 * (768 + t0) ≤ a < d + 4 * (768 + t0 + n) ∧ (a - d) mod 4 = 0)
  then T + 4096 * ((a - d) / 4 - 768) + 7 else m a.

Lemma init_tables_ok n d T t0 s :
  d mod 4096 = 0 → T mod 4096 = 0 → 0 ≤ d < 1073741824 → 0 ≤ T → T + 1048576 ≤ 1073741824 →
  d + 4096 ≤ T ∨ T + 1048576 ≤ d → 0 ≤ t0 → t0 + Z.of_nat n ≤ 256 →
  ∃ m', init_tables n (PHYS_TO_KVIRT d) (PHYS_TO_KVIRT T) t0 s = Some (true, with_mem m' s) ∧
    ∀ a, m' a = init_mem d T t0 (Z.of_nat n) (pg_mem s) a.
Proof.
  intros Hd HT Hdr HTr HTr2 Hdis. revert t0 s. induction n as [|n IH]; intros t0 s Ht Hn.
  { exists (pg_mem s). split; [by destruct s|]. intros a. unfold init_mem.
    rewrite !decide_False by lia. done. }
  set (p := T + 4096 * t0).
  assert (Hp : u32 (PHYS_TO_KVIRT T + 4096 * t0) = PHYS_TO_KVIRT p).
  { unfold PHYS_TO_KVIRT, p. pose proof HTr2. unfold KERNEL_VIRTUAL_BASE. mlia. }
  assert (Hpa : p mod 4096 = 0) by (unfold p; mlia).
  cbn [init_tables]. rewrite Hp, kv_page by (unfold p; lia).
  change 0xFFF with (Z.ones 12). rewrite Z.land_ones by lia. change (2 ^ 12) with 4096.
  rewrite Hpa. cbn [Z.eqb negb]. unfold mbind, M_bind, kzero_page. rewrite kv_page by (unfold p; lia).
  destruct (fill_table_ok 1024 p t0 0 (with_mem (mem_zero_page (pg_mem s) p) s))
    as (m1 & -> & Hm1); [done|unfold p; lia|lia|lia|lia|].
  unfold kwrite. unfold HIGHER_HALF_PDE_START. rewrite (kv_word d) by (done || lia).
  assert (E7 : Z.lor (Z.lor (Z.lor p PAGE_PRESENT) PAGE_WRITE) PAGE_USER = p + 7).
  { rewrite <- !Z.lor_assoc. by apply lor_page. }
  rewrite E7. edestruct (IH (t0 + 1)) as (m' & E & Hm); [lia..|]. exists m'.
  split; [exact E|]. clear E IH. intros a. rewrite Hm. unfold init_mem. cbn [pg_mem with_mem].
  unfold mem_set. rewrite Hm1. cbn [pg_mem with_mem]. unfold mem_zero_page.
  fold p. replace (T + 4096 * (t0 + 1)) with (p + 4096) by (unfold p; lia).
  replace (T + 4096 * (t0 + 1 + Z.of_nat n)) with (p + 4096 * (1 + Z.of_nat n)) by (unfold p; lia).
  replace (T + 4096 * (t0 + Z.of_nat (S n))) with (p + 4096 * (1 + Z.of_nat n)) by (unfold p; lia).
  assert (Hdiv : (a - T) mod 4 = (a - p) mod 4) by (unfold p; mlia).
  destruct (decide (p + 4096 ≤ a < p + 4096 * (1 + Z.of_nat n))).
  { rewrite (decide_True (P := p ≤ a < _)) by lia. done. }
  destruct (decide (p ≤ a < p + 4096 * (1 + Z.of_nat n))).
  - rewrite (decide_False (P := d + _ ≤ a < _ ∧ _)) by (unfold p in *; lia).
    rewrite (proj2 (Z.eqb_neq _ _)) by (unfold p in *; lia). rewrite Hdiv.
    destruct (decide ((a - p) mod 4 = 0)).
    + rewrite decide_True by lia. unfold p. mlia.
    + rewrite decide_False by lia. rewrite (proj2 (Z.leb_le _ _)), (proj2 (Z.ltb_lt _ _)) by lia. done.
  - replace (Z.of_nat (S n)) with (1 + Z.of_nat n) by lia.
    destruct (decide (d + 4 * (768 + (t0 + 1)) ≤ a < d + 4 * (768 + (t0 + 1) + Z.of_nat n) ∧ (a - d) mod 4 = 0)).
    { rewrite decide_True by lia. done. }
    destruct (Z.eqb_spec a (d + 4 * (768 + t0))) as [->|].
    + rewrite decide_True by mlia. unfold p. mlia.
    + rewrite (decide_False (P := d + _ ≤ a < _ ∧ _)) by mlia. rewrite decide_False by lia.
      destruct (Z.leb_spec p a), (Z.ltb_spec a (p + 4096)); simpl; lia || done.
Qed.

(** Where the kernel puts its directory and tables: page aligned, below the
    frames of the allocator, and not overlapping. *)
Definition boot_layout (d T : Z) : Prop :=
  d mod 4096 = 0 ∧ T mod 4096 = 0 ∧ 0 ≤ d < PMM_START ∧ 0 ≤ T ∧ T + 1048576 ≤ PMM_START ∧
  (d + 4096 ≤ T ∨ T + 1048576 ≤ d).

Lemma below_pmm_not_free p a : pmm_wf p → a < PMM_START → ¬ addr_free p a.
Proof. intros Hwf Ha (k & Hk & -> & _). unfold frame_at, PMM_FRAME_SIZE in *. lia. Qed.

(** The window of the kernel: [p + 0xC0000000] is physical address [p], for the
    kernel only, and nothing else is mapped. *)
Definition kernel_window (m : Z → Z) (d : Z) : Prop :=
  ∀ va, is_u32 va → translate m d va =
    if va <? KERNEL_VIRTUAL_BASE then None else Some (va - KERNEL_VIRTUAL_BASE, Z.lor PAGE_PRESENT PAGE_WRITE).

Definition page_words_other (d T a : Z) : Prop := ¬ (d ≤ a < d + 4096) ∧ ¬ (T ≤ a < T + 1048576).

Lemma init_paging_ok d T s :
  paging_wf s → boot_layout d T →
  ∃ s', init_paging (PHYS_TO_KVIRT d) (PHYS_TO_KVIRT T) s = Some (tt, s') ∧
    paging_wf s' ∧ as_wf s' d ∧ pg_pmm s' = pg_pmm s ∧
    current_page_dir s' = Some (PHYS_TO_KVIRT d) ∧ pg_cr3 s' = d ∧
    vbe_dir_indices s' = vbe_dir_indices s ∧ vbe_dir_count s' = vbe_dir_count s ∧
    (∀ i, 768 ≤ i < 1024 → pde_present (pg_mem s') d i) ∧
    kernel_window (pg_mem s') d ∧ (∀ a, page_words_other d T a → pg_mem s' a = pg_mem s a).
Proof.
  intros Hwf (Hd & HT & Hdr & HTr & HTr2 & Hdis). unfold PMM_START in *.
  unfold init_paging, mbind, M_bind, modify.
  rewrite kv_page by lia. change 0xFFF with (Z.ones 12). rewrite Z.land_ones by lia.
  change (2 ^ 12) with 4096. rewrite Hd. cbn [Z.eqb negb]. unfold kzero_page. rewrite kv_page by lia.
  match goal with |- context [init_tables _ _ _ _ ?s0] => set (s1 := s0) end.
  destruct (init_tables_ok (Z.to_nat NUM_PAGE_TABLES) d T 0 s1) as (m' & -> & Hm);
    [done|done|lia|lia|lia|lia|lia|unfold NUM_PAGE_TABLES; lia|].
  cbn [negb]. eexists. split; [reflexivity|]. cbn [pg_mem pg_pmm with_mem].
  change (Z.of_nat (Z.to_nat NUM_PAGE_TABLES)) with 256 in Hm.
  assert (Hm1 : pg_mem s1 = mem_zero_page (pg_mem s) d) by done. rewrite Hm1 in Hm.
  assert (Hpde : ∀ i, 0 ≤ i < 1024 →
    m' (d + 4 * i) = if decide (768 ≤ i) then T + 4096 * (i - 768) + 7 else 0).
  { intros i Hi. rewrite Hm. unfold init_mem. rewrite decide_False by lia.
    replace (d + 4 * i - d) with (i * 4) by lia. rewrite Z.div_mul, Z.mod_mul by lia.
    case_decide; [rewrite decide_True by lia; lia|]. rewrite decide_False by lia.
    unfold mem_zero_page. rewrite (proj2 (Z.leb_le _ _)), (proj2 (Z.ltb_lt _ _)) by lia. done. }
  assert (Hpte : ∀ t j, 0 ≤ t < 256 → 0 ≤ j < 1024 →
    m' (T + 4096 * t + 4 * j) = t * 4194304 + j * 4096 + 3).
  { intros t j Ht Hj. rewrite Hm. unfold init_mem. rewrite decide_True by lia.
    replace (T + 4096 * t + 4 * j - T) with ((1024 * t + j) * 4) by lia.
    rewrite Z.div_mul, Z.mod_mul by lia. rewrite decide_True by done. lia. }
  assert (Hpres : ∀ i, 0 ≤ i < 1024 → pde_present m' d i ↔ 768 ≤ i).
  { intros i Hi. unfold pde_present, has. rewrite Hpde by done. case_decide; [|naive_solver].
    rewrite <- lor_page by mlia. rewrite entry_bits by (done || mlia). naive_solver. }
  assert (Htab : ∀ i, 768 ≤ i < 1024 → table_of m' d i = T + 4096 * (i - 768)).
  { intros i Hi. unfold table_of. rewrite Hpde, decide_True by lia. rewrite <- lor_page by mlia.
    apply page_frame_entry; mlia. }
  assert (Hnf : ∀ a, a < 8388608 → ¬ addr_free (pg_pmm s) a).
  { intros a Ha. apply below_pmm_not_free; [apply (pg_pmm_wf _ Hwf)|done]. }
  split; [split|split; [split|]]; cbn [pg_mem pg_pmm].
  - apply (pg_pmm_wf _ Hwf).
  - intros a. rewrite Hm. unfold init_mem, mem_zero_page. repeat case_match; try mlia. apply (pg_mem_u32 _ Hwf).
  - split; [done|split; [lia|apply Hnf; lia]].
  - intros i Hi Hp%Hpres; [|done]. rewrite Htab by lia. split; [split; [mlia|split; [lia|apply Hnf; lia]]|].
    split; [lia|]. rewrite Hpde, decide_True by lia. rewrite <- lor_page by mlia. rewrite entry_bits by (done || mlia). done.
  - intros i j Hi Hj Hne Hpi%Hpres Hpj%Hpres; [|done..]. rewrite !Htab by lia. lia.
  - split_and!; try done; [intros i Hi; apply Hpres; lia|..].
    + intros va Hva. destruct (idx_range va Hva) as [Hvi Hvj]. unfold translate.
      assert (Hhas : has (m' (d + 4 * (va / 4194304))) PAGE_PRESENT = negb (va <? KERNEL_VIRTUAL_BASE)).
      { apply eq_true_iff_eq. rewrite negb_true_iff. fold (pde_present m' d (va / 4194304)).
        rewrite Hpres, Z.ltb_ge by done. unfold KERNEL_VIRTUAL_BASE. mlia. }
      rewrite Hhas, negb_involutive. destruct (Z.ltb_spec va KERNEL_VIRTUAL_BASE) as [|Hge]; [done|].
      unfold KERNEL_VIRTUAL_BASE in Hge.
      fold (table_of m' d (va / 4194304)). rewrite Htab by mlia.
      rewrite Hpde, decide_True by mlia. rewrite Hpte by mlia.
      set (f := (va / 4194304 - 768) * 4194304 + va / 4096 mod 1024 * 4096).
      assert (Hf : f mod 4096 = 0 ∧ is_u32 f ∧ f + va mod 4096 = va - 3221225472) by (unfold f; mlia).
      destruct Hf as (Hf1 & Hf2 & Hf3). rewrite <- (lor_page f 3) by done.
      unfold has. rewrite entry_bits by done. cbn [Z.land Pos.land Z.eqb negb].
      rewrite page_frame_entry by done. rewrite Hf3. unfold KERNEL_VIRTUAL_BASE.
      change (PAGE_PRESENT) with 1.
      rewrite <- lor_page by mlia. rewrite <- Z.land_assoc, (entry_bits f) by done.
      change (Z.land 3 7) with 3. rewrite entry_bits by (done || mlia). done.
    + intros a [H1 H2]. rewrite Hm. unfold init_mem. rewrite decide_False by lia.
      rewrite decide_False by lia. unfold mem_zero_page.
      destruct (Z.leb_spec d a), (Z.ltb_spec a (d + 4096)); simpl; lia || done.
Qed.

(** ** Creating an address space *)

Lemma copy_entries_ok l r k s :
  r mod 4096 = 0 → k mod 4096 = 0 → 0 ≤ r < 1073741824 → 0 ≤ k < 1073741824 → r ≠ k →
  Forall (λ i, 0 ≤ i < 1024) l →
  ∃ m', copy_entries l (PHYS_TO_KVIRT r) (PHYS_TO_KVIRT k) s = Some (tt, with_mem m' s) ∧
    (∀ i, 0 ≤ i < 1024 →
       m' (r + 4 * i) = if decide (i ∈ l) then pg_mem s (k + 4 * i) else pg_mem s (r + 4 * i)) ∧
    (∀ a, ¬ (r ≤ a < r + 4096) → m' a = pg_mem s a) ∧
    ((∀ a, is_u32 (pg_mem s a)) → ∀ a, is_u32 (m' a)).
Proof.
  intros Hr Hk Hrr Hkr Hne Hl. revert s. induction Hl as [|x l Hx Hl IH]; intros s.
  { exists (pg_mem s). split; [by destruct s|]. split; [|done]. intros i Hi.
    rewrite decide_False by apply not_elem_of_nil. done. }
  cbn [copy_entries]. unfold mbind, M_bind, kread, kwrite. rewrite !kv_word by done.
  edestruct IH as (m' & E & Hm1 & Hm2 & Hm3). exists m'. split; [exact E|].
  assert (Hkeep : ∀ i, 0 ≤ i < 1024 →
    mem_set (pg_mem s) (r + 4 * x) (pg_mem s (k + 4 * x)) (k + 4 * i) = pg_mem s (k + 4 * i)).
  { intros i Hi. unfold mem_set. destruct (page_words_disjoint k r i x) as [H _]; try done.
    by rewrite (proj2 (Z.eqb_neq _ _) H). }
  cbn [pg_mem with_mem] in Hm1, Hm2, Hm3. split; [|split].
  - intros i Hi. rewrite Hm1, Hkeep by done. unfold mem_set.
    destruct (decide (i = x)) as [->|Hix].
    + rewrite Z.eqb_refl, (decide_True (P := x ∈ x :: l)) by (by left). by case_decide.
    + rewrite (proj2 (Z.eqb_neq _ _)) by lia.
      destruct (decide (i ∈ l)); [rewrite decide_True by (by right); done|].
      rewrite decide_False by (by apply not_elem_of_cons). done.
  - intros a Ha. rewrite Hm2 by done. unfold mem_set. by rewrite (proj2 (Z.eqb_neq _ _)) by lia.
  - intros Hu. apply Hm3. intros a. unfold mem_set. by case_match.
Qed.

(** The recorded framebuffer entries are directory indices. *)
Definition vbe_wf (s : paging_t) : Prop :=
  0 ≤ vbe_dir_count s ≤ 4 ∧ length (vbe_dir_indices s) = 4%nat ∧
  Forall (λ i, 0 ≤ i < 1024) (take (Z.to_nat (vbe_dir_count s)) (vbe_dir_indices s)).

Definition shared_entry (s : paging_t) (i : Z) : Prop :=
  768 ≤ i ∨ i ∈ take (Z.to_nat (vbe_dir_count s)) (vbe_dir_indices s).

#[global] Instance shared_entry_dec s i : Decision (shared_entry s i).
Proof. apply or_dec; apply _. Defined.

Lemma create_address_space_ok s k :
  paging_wf s → vbe_wf s → as_wf s k → current_page_dir s = Some (PHYS_TO_KVIRT k) →
  ∃ o s', paging_create_address_space s = Some (o, s') ∧ paging_wf s' ∧ same_globals s s' ∧
    (o = None ∧ s' = s ∧ (∀ a, ¬ addr_free (pg_pmm s) a) ∨
     ∃ r, o = Some (PHYS_TO_KVIRT r) ∧ addr_free (pg_pmm s) r ∧
       (∀ a, addr_free (pg_pmm s') a ↔ addr_free (pg_pmm s) a ∧ a ≠ r) ∧
       (∀ a, ¬ (r ≤ a < r + 4096) → pg_mem s' a = pg_mem s a) ∧
       (∀ i, 0 ≤ i < 1024 → pg_mem s' (r + 4 * i) =
          if decide (shared_entry s i) then pg_mem s (k + 4 * i) else 0) ∧ as_wf s' r).
Proof.
  intros Hwf (Hvc & Hvl & Hvf) Has Hcur. unfold paging_create_address_space, mbind, M_bind, on_pmm, get, lift.
  destruct (alloc_frame_addr _ (pg_pmm_wf _ Hwf)) as (r & p' & -> & Hwf' & Hcase).
  destruct Hcase as [(-> & -> & Hnone)|(Hr0 & Hra & Hrr & Hrf & Hfree)].
  { exists None, s. split; [by destruct s|]. do 2 (split; [done|]). by left. }
  rewrite (proj2 (Z.eqb_neq _ _) Hr0). unfold kzero_page. rewrite kv_page by lia.
  cbn [current_page_dir with_mem with_pmm]. rewrite Hcur.
  pose proof (as_dir _ _ Has) as (Hka & Hkr & Hkf). assert (Hne : r ≠ k) by congruence.
  set (s1 := with_mem _ _).
  destruct (copy_entries_ok ((λ i, HIGHER_HALF_PDE_START + i) <$> seqZ 0 NUM_PAGE_TABLES) r k s1)
    as (m1 & -> & Hd1 & Ho1 & Hu1); [done|done|lia|done|done|..].
  { apply Forall_fmap, Forall_forall. intros i Hi%elem_of_seqZ. simpl. pg_lia. }
  change (vbe_dir_count s1) with (vbe_dir_count s). change (vbe_dir_indices s1) with (vbe_dir_indices s).
  destruct (copy_entries_ok (take (Z.to_nat (vbe_dir_count s)) (vbe_dir_indices s)) r k (with_mem m1 s1))
    as (m2 & -> & Hd2 & Ho2 & Hu2); [done|done|lia|done|done|done|].
  eexists _, _. split; [reflexivity|].
  assert (Hout : ∀ a, ¬ (r ≤ a < r + 4096) → m2 a = pg_mem s a).
  { intros a Ha. rewrite Ho2 by done. cbn [pg_mem with_mem]. rewrite Ho1 by done. unfold s1.
    cbn [pg_mem with_mem with_pmm]. unfold mem_zero_page.
    destruct (Z.leb_spec r a), (Z.ltb_spec a (r + 4096)); simpl; lia || done. }
  assert (Hin : ∀ i, 0 ≤ i < 1024 → m2 (r + 4 * i) = if decide (shared_entry s i) then pg_mem s (k + 4 * i) else 0).
  { intros i Hi. destruct (page_words_disjoint k r i 0) as [_ Hki]; try done.
    assert (Hs1k : pg_mem s1 (k + 4 * i) = pg_mem s (k + 4 * i)).
    { unfold s1. cbn [pg_mem with_mem with_pmm]. unfold mem_zero_page.
      destruct (Z.leb_spec r (k + 4 * i)), (Z.ltb_spec (k + 4 * i) (r + 4096)); simpl; lia || done. }
    assert (Hs1r : pg_mem s1 (r + 4 * i) = 0).
    { unfold s1. cbn [pg_mem with_mem with_pmm]. unfold mem_zero_page.
      rewrite (proj2 (Z.leb_le _ _)), (proj2 (Z.ltb_lt _ _)) by lia. done. }
    rewrite Hd2 by done. cbn [pg_mem with_mem]. rewrite (Ho1 (k + 4 * i)) by done.
    rewrite Hd1 by done. rewrite Hs1k, Hs1r.
    assert (Hhigh : i ∈ (λ i, HIGHER_HALF_PDE_START + i) <$> seqZ 0 NUM_PAGE_TABLES ↔ 768 ≤ i).
    { rewrite list_elem_of_fmap. setoid_rewrite elem_of_seqZ. split.
      - intros (j & -> & ?). pg_lia.
      - intros. exists (i - 768). pg_lia. }
    unfold shared_entry. repeat case_decide; tauto. }
  split; [split; [done|]|split; [done|right]].
  - apply Hu2, Hu1. intros a. unfold s1, mem_zero_page. cbn [pg_mem with_mem with_pmm].
    case_match; [done|apply (pg_mem_u32 _ Hwf)].
  - exists r. do 3 (split; [done|]). split; [exact Hout|]. split; [exact Hin|].
    assert (Hsub : ∀ i, 0 ≤ i < 1024 → pde_present m2 r i →
      pde_present (pg_mem s) k i ∧ m2 (r + 4 * i) = pg_mem s (k + 4 * i)).
    { intros i Hi. unfold pde_present. rewrite Hin by done. by case_decide. }
    split; cbn [pg_mem with_mem].
    + split; [done|split; [lia|]]. intros Hx. by apply Hfree in Hx as [_ ?].
    + intros i Hi Hp. destruct (Hsub i Hi Hp) as [Hpk E]. unfold table_of. rewrite E.
      destruct (as_tables _ _ Has i Hi Hpk) as ((?&?&Hf)&_&?). unfold table_of in *.
      split; [split; [done|split; [done|]]|split; [|done]].
      * intros Hx. by apply Hfree in Hx as [? _].
      * intros E'. apply Hf. by rewrite E'.
    + intros i j Hi Hj Hij Hpi Hpj. destruct (Hsub i Hi Hpi) as [Hki Ei], (Hsub j Hj Hpj) as [Hkj Ej].
      unfold table_of. rewrite Ei, Ej. by apply (as_distinct _ _ Has).
Qed.

(** ** Destroying an address space *)

(** [a] is the address of a frame that the allocator manages. *)
Definition in_pmm (p : pmm_t) (a : Z) : Prop := ∃ k, 0 ≤ k < PMM_FRAME_COUNT p ∧ a = frame_at k.

(** [s'] is [s] where the managed frames of [A] were freed. *)
Definition freed (A : Z → Prop) (s s' : paging_t) : Prop :=
  paging_wf s' ∧ pg_mem s' = pg_mem s ∧ same_globals s s' ∧
  PMM_FRAME_COUNT (pg_pmm s') = PMM_FRAME_COUNT (pg_pmm s) ∧
  ∀ a, addr_free (pg_pmm s') a ↔ addr_free (pg_pmm s) a ∨ A a ∧ in_pmm (pg_pmm s) a.

Lemma freed_none A s : paging_wf s → (∀ a, A a → ¬ in_pmm (pg_pmm s) a) → freed A s s.
Proof. intros Hwf H. do 4 (split; [done|]). intros a. naive_solver. Qed.

Lemma freed_trans A B s s1 s2 : freed A s s1 → freed B s1 s2 → freed (λ a, A a ∨ B a) s s2.
Proof.
  intros (_ & E1 & G1 & C1 & H1) (W2 & E2 & G2 & C2 & H2). split; [done|]. split; [congruence|].
  split; [unfold same_globals in *; intuition congruence|]. split; [congruence|].
  intros a. rewrite H2, H1. unfold in_pmm. rewrite C1. tauto.
Qed.

Lemma freed_iff A B s s' : (∀ a, in_pmm (pg_pmm s) a → (A a ↔ B a)) → freed A s s' → freed B s s'.
Proof.
  intros HAB (W & E & G & C & H). do 4 (split; [done|]). intros a. rewrite H.
  specialize (HAB a). tauto.
Qed.

Lemma on_pmm_free_ok a s : paging_wf s → is_u32 a →
  ∃ s', on_pmm (pmm_free_frame a) s = Some (tt, s') ∧ freed (λ x, x = a) s s'.
Proof.
  intros Hwf Ha. unfold on_pmm.
  destruct (free_frame_addr (pg_pmm s) a (pg_pmm_wf _ Hwf) Ha) as (p' & -> & Hwf' & _ & HC & H).
  eexists. split; [reflexivity|]. split; [split; [done|apply (pg_mem_u32 _ Hwf)]|].
  do 3 (split; [done|]). intros x. cbn [pg_pmm with_pmm]. rewrite H. unfold in_pmm.
  split; [intros [?|(-> & ?)]; auto|intros [?|(-> & ?)]; auto].
Qed.

Lemma in_pmm_range p f : pmm_wf p → f mod 4096 = 0 →
  (in_pmm p f ↔ PMM_START ≤ f < PMM_END p).
Proof.
  intros Hwf Hf. pose proof (wf_end _ Hwf). pose proof (wf_count _ Hwf). unfold in_pmm, frame_at. split.
  - intros (k & Hk & ->). pmm_lia.
  - intros H1. exists ((f - PMM_START) / PMM_FRAME_SIZE). pmm_lia.
Qed.

Definition pte_frame (m : Z → Z) (t lo hi a : Z) : Prop :=
  ∃ j, lo ≤ j < hi ∧ has (m (t + 4 * j)) PAGE_PRESENT = true ∧ a = page_frame (m (t + 4 * j)).

Lemma free_table_frames_ok n t j s :
  paging_wf s → t mod 4096 = 0 → 0 ≤ t < 1073741824 → 0 ≤ j → j + Z.of_nat n ≤ 1024 →
  ∃ s', free_table_frames n (PHYS_TO_KVIRT t) j s = Some (tt, s') ∧
        freed (pte_frame (pg_mem s) t j (j + Z.of_nat n)) s s'.
Proof.
  intros Hwf Ht Htr. revert j s Hwf. induction n as [|n IH]; intros j s Hwf Hj Hn.
  { exists s. split; [done|]. apply freed_none; [done|]. intros a (k & Hk & _). lia. }
  cbn [free_table_frames]. unfold mbind, M_bind, kread, get. rewrite kv_word by lia.
  set (e := pg_mem s (t + 4 * j)). pose proof (pg_mem_u32 _ Hwf (t + 4 * j)) as He. fold e in He.
  destruct (page_frame_aligned e He) as [Hal Hu].
  match goal with |- context [(if ?b then on_pmm _ else _) s] => set (c := b) end.
  assert (Hstep : ∃ s1, (if c then on_pmm (pmm_free_frame (page_frame e)) else mret tt) s = Some (tt, s1) ∧
    freed (pte_frame (pg_mem s) t j (j + 1)) s s1).
  { destruct c eqn:Hc.
    - apply andb_true_iff in Hc as [[Hp _]%andb_true_iff _].
      destruct (on_pmm_free_ok (page_frame e) s Hwf Hu) as (s1 & E & H). exists s1. split; [done|].
      eapply freed_iff; [|done]. intros a _. simpl. split.
      + intros ->. exists j. split; [lia|done].
      + intros (k & Hk & _ & ->). by replace k with j by lia.
    - exists s. split; [done|]. apply freed_none; [done|]. intros a (k & Hk & Hp & ->) Hin.
      replace k with j in * by lia. fold e in Hp, Hin. apply in_pmm_range in Hin; [|apply (pg_pmm_wf _ Hwf)|done].
      unfold c in Hc. rewrite Hp in Hc. apply andb_false_iff in Hc as [Hc|Hc]; lia. }
  destruct Hstep as (s1 & -> & Hf1). destruct (IH (j + 1) s1) as (s2 & E & Hf2); [apply Hf1|lia|lia|].
  exists s2. split; [exact E|]. eapply freed_iff; [|exact (freed_trans _ _ _ _ _ Hf1 Hf2)].
  destruct Hf1 as (_ & -> & _). intros a _. simpl. unfold pte_frame. split.
  - intros [(k & ? & ?)|(k & ? & ?)]; exists k; (split; [lia|done]).
  - intros (k & ? & ?). destruct (decide (k = j)); [left|right]; exists k; (split; [lia|done]).
Qed.

Lemma vbe_recorded_spec i s :
  vbe_recorded i s = true ↔ i ∈ take (Z.to_nat (vbe_dir_count s)) (vbe_dir_indices s).
Proof.
  unfold vbe_recorded. rewrite existsb_exists. split.
  - intros (x & Hx & ->%Z.eqb_eq). by apply list_elem_of_In.
  - intros Hx. exists i. split; [by apply list_elem_of_In|apply Z.eqb_refl].
Qed.

(** The frames below the entries [lo], ..., [hi - 1] of the directory [d]: the
    tables of the entries that are not shared and what they map. *)
Definition user_frame (s : paging_t) (d lo hi a : Z) : Prop :=
  ∃ i, lo ≤ i < hi ∧ pde_present (pg_mem s) d i ∧ vbe_recorded i s = false ∧
    (a = table_of (pg_mem s) d i ∨ pte_frame (pg_mem s) (table_of (pg_mem s) d i) 0 1024 a).

Lemma freed_globals A s s' d lo hi a :
  freed A s s' → (user_frame s' d lo hi a ↔ user_frame s d lo hi a).
Proof.
  intros (_ & Em & (_ & _ & E1 & E2 & _) & _). unfold user_frame, vbe_recorded. by rewrite Em, E1, E2.
Qed.

Lemma free_tables_ok n d i s :
  paging_wf s → as_wf s d → 0 ≤ i → i + Z.of_nat n ≤ 1024 →
  ∃ s', free_tables n (PHYS_TO_KVIRT d) i s = Some (tt, s') ∧
        freed (user_frame s d i (i + Z.of_nat n)) s s'.
Proof.
  intros Hwf0 Has. pose proof (as_dir _ _ Has) as (Hda & Hdr & _).
  assert (Htab : ∀ j, 0 ≤ j < 1024 → pde_present (pg_mem s) d j →
    table_of (pg_mem s) d j mod 4096 = 0 ∧ 0 ≤ table_of (pg_mem s) d j < 1073741824).
  { intros j Hj Hp. destruct (as_tables _ _ Has j Hj Hp) as ((?&?&_)&_). done. }
  clear Has. revert i s Hwf0 Htab. induction n as [|n IH]; intros i s Hwf Htab Hi Hn.
  { exists s. split; [done|]. apply freed_none; [done|]. intros a (k & Hk & _). lia. }
  cbn [free_tables]. unfold mbind, M_bind, kread, get. rewrite kv_word by lia.
  fold (table_of (pg_mem s) d i).
  match goal with |- context [match (if ?b then ?x else ?y) s with _ => _ end] => set (c := b); set (body := y) end.
  assert (Hstep : ∃ s1, (if c then (mret tt : M paging_t unit) else body) s = Some (tt, s1) ∧ freed (user_frame s d i (i + 1)) s s1).
  { destruct c eqn:Hc.
    - exists s. split; [done|]. apply freed_none; [done|].
      intros a (k & Hk & Hp & Hv & _) _. replace k with i in * by lia. unfold c, pde_present in *.
      by rewrite Hp, Hv in Hc.
    - apply orb_false_iff in Hc as [Hp%negb_false_iff Hv].
      destruct (Htab i ltac:(lia) Hp) as [Hta Htr].
      destruct (free_table_frames_ok 1024 (table_of (pg_mem s) d i) 0 s) as (s1 & E1 & Hf1); [done..|lia|lia|].
      destruct (on_pmm_free_ok (table_of (pg_mem s) d i) s1) as (s2 & E2 & Hf2); [apply Hf1|mlia|].
      exists s2. unfold body. rewrite E1. split; [exact E2|].
      eapply freed_iff; [|exact (freed_trans _ _ _ _ _ Hf1 Hf2)]. intros a _. simpl.
      unfold user_frame. split.
      + intros H. exists i. split; [lia|]. do 2 (split; [done|]). tauto.
      + intros (k & Hk & _ & _ & H). replace k with i in H by lia. tauto. }
  destruct Hstep as (s1 & -> & Hf1). pose proof Hf1 as (Hwf1 & Em & _).
  destruct (IH (i + 1) s1 Hwf1) as (s2 & E & Hf2); [by rewrite Em|lia|lia|].
  exists s2. split; [exact E|]. eapply freed_iff; [|exact (freed_trans _ _ _ _ _ Hf1 Hf2)].
  intros a _. cbv beta. rewrite (freed_globals _ _ _ _ _ _ _ Hf1). unfold user_frame. split.
  - intros [(k & ? & ?)|(k & ? & ?)]; exists k; (split; [lia|done]).
  - intros (k & ? & ?). destruct (decide (k = i)); [left|right]; exists k; (split; [lia|done]).
Qed.

Lemma destroy_address_space_ok s d :
  paging_wf s → as_wf s d → current_page_dir s ≠ Some (PHYS_TO_KVIRT d) →
  ∃ s', paging_destroy_address_space (Some (PHYS_TO_KVIRT d)) s = Some (tt, s') ∧
        freed (λ a, user_frame s d 0 768 a ∨ a = d) s s'.
Proof.
  intros Hwf Has Hcur. unfold paging_destroy_address_space, mbind, M_bind, get.
  rewrite bool_decide_eq_false_2 by done. pose proof (as_dir _ _ Has) as (Hda & Hdr & _).
  destruct (free_tables_ok (Z.to_nat HIGHER_HALF_PDE_START) d 0 s Hwf Has) as (s1 & -> & Hf1);
    [lia|unfold HIGHER_HALF_PDE_START; lia|].
  rewrite kv_page by lia. destruct (on_pmm_free_ok d s1) as (s2 & E2 & Hf2); [apply Hf1|mlia|].
  exists s2. split; [exact E2|]. exact (freed_trans _ _ _ _ _ Hf1 Hf2).
Qed.

(** ** The framebuffer *)

Lemma vbe_track_ok i s : vbe_wf s → 0 ≤ i < 1024 →
  ∃ s', vbe_track i s = Some (tt, s') ∧ vbe_wf s' ∧ pg_mem s' = pg_mem s ∧ pg_pmm s' = pg_pmm s ∧
    current_page_dir s' = current_page_dir s.
Proof.
  intros (Hc & Hl & Hf) Hi. unfold vbe_track. case_match eqn:E; [|by exists s].
  apply andb_true_iff in E as [_ E]. unfold VBE_MAX_DIR_ENTRIES in E.
  rewrite zupdate_Some by lia. cbn [mbind option_bind]. eexists. split; [done|].
  split; [|done]. unfold vbe_wf, with_vbe. cbn [vbe_dir_count vbe_dir_indices].
  split; [lia|]. split; [by rewrite length_insert|].
  replace (Z.to_nat (vbe_dir_count s + 1)) with (S (Z.to_nat (vbe_dir_count s))) by lia.
  rewrite (take_S_r _ _ i) by (apply list_lookup_insert_eq; lia).
  rewrite take_insert_ge by lia. apply Forall_app_2; [done|]. by apply Forall_singleton.
Qed.

Lemma as_wf_eq s s' d : pg_mem s' = pg_mem s → pg_pmm s' = pg_pmm s → as_wf s d → as_wf s' d.
Proof.
  intros Em Ep H. apply (as_frame s); [done| |]; intros; [by rewrite Em|by rewrite <- Ep].
Qed.

(** With the table in place, mapping a page is one store. *)
Lemma map_page_present s d va pa flags :
  as_wf s d → is_u32 va → pde_present (pg_mem s) d (va / 4194304) →
  paging_map_page (PHYS_TO_KVIRT d) va pa flags s =
  Some (0, set_pte (table_of (pg_mem s) d (va / 4194304)) (va / 4096 mod 1024)
                   (Z.lor (page_frame pa) flags) s).
Proof.
  intros Has Hva Hp. destruct (idx_range va Hva) as [Hi Hj].
  pose proof (as_dir _ _ Has) as (Hda & Hdr & _).
  destruct (as_tables _ _ Has _ Hi Hp) as ((Hta&Htr&_)&_&_). unfold pde_present, table_of in *.
  unfold paging_map_page, get_table, mbind, M_bind, kread, kwrite, mret, M_ret.
  rewrite dir_idx_eq, table_idx_eq, (kv_word d), Hp by done. cbn [negb].
  rewrite ?(kv_word d) by done. by rewrite kv_word.
Qed.

Lemma map_vbe_loop_ok n k addr s :
  paging_wf s → vbe_wf s → as_wf s k → addr mod 4096 = 0 → 3221225472 ≤ addr →
  addr + 4096 * Z.of_nat n ≤ 4294967296 → (∀ i, 768 ≤ i < 1024 → pde_present (pg_mem s) k i) →
  ∃ s', map_vbe_loop n (PHYS_TO_KVIRT k) addr s = Some (tt, s') ∧
    paging_wf s' ∧ vbe_wf s' ∧ as_wf s' k ∧ current_page_dir s' = current_page_dir s ∧
    ∀ va, is_u32 va → translate (pg_mem s') k va =
      if decide (addr ≤ va < addr + 4096 * Z.of_nat n) then Some (va, 7)
      else translate (pg_mem s) k va.
Proof.
  revert addr s. induction n as [|n IH]; intros addr s Hwf Hv Has Ha Hlo Hhi Hpr.
  { exists s. do 5 (split; [done|]). intros va Hva. by rewrite decide_False by lia. }
  cbn [map_vbe_loop]. unfold mbind, M_bind.
  change (Z.lor (Z.lor PAGE_PRESENT PAGE_WRITE) PAGE_USER) with 7.
  destruct (map_page_ok s k addr addr 7 Hwf Has) as (rc & s1 & E1 & Hwf1 & Has1 & Hg & _ & Hcase);
    [mlia|mlia|lia|].
  pose proof (Hpr (addr / 4194304) ltac:(mlia)) as Hp0.
  pose proof (map_page_present s k addr addr 7 Has ltac:(mlia) Hp0) as E1'.
  rewrite E1 in E1'. injection E1' as -> Es1.
  assert (Hpre : ∀ i, 768 ≤ i < 1024 → pde_present (pg_mem s1) k i).
  { intros i Hi. pose proof (as_dir _ _ Has) as (Hka & _).
    destruct (as_tables _ _ Has (addr / 4194304) ltac:(mlia) Hp0) as ((Hta&_)&Hnd&_).
    unfold pde_present. rewrite Es1, set_pte_frame by (done || mlia). by apply Hpr. }
  destruct Hcase as [(Hrc1 & _)|[_ Htr]]; [lia|]. rewrite E1.
  assert (Hv1 : vbe_wf s1).
  { destruct Hg as (_ & _ & E2 & E3 & _). unfold vbe_wf. by rewrite E2, E3. }
  destruct (vbe_track_ok (dir_idx addr) s1 Hv1) as (s2 & -> & Hv2 & Em & Ep & Ec); [rewrite dir_idx_eq; mlia|].
  destruct (IH (addr + 4096) s2) as (s3 & E3 & ? & ? & ? & Ec3 & Htr3); try mlia.
  { split; [rewrite Ep; apply (pg_pmm_wf _ Hwf1)|rewrite Em; apply (pg_mem_u32 _ Hwf1)]. }
  { done. } { by apply (as_wf_eq s1). } { rewrite Em. done. }
  exists s3. split; [exact E3|]. do 3 (split; [done|]). split; [rewrite Ec3, Ec; apply Hg|].
  intros va Hva. rewrite Htr3, Em, Htr by done.
  destruct (decide (addr + 4096 ≤ va < addr + 4096 + 4096 * Z.of_nat n)).
  { by rewrite decide_True by lia. }
  destruct (decide (va / 4096 = addr / 4096)).
  - rewrite decide_True by mlia. unfold pte_maps, has.
    assert (page_frame addr = addr) as -> by (rewrite page_frame_eq by mlia; lia).
    rewrite !entry_bits, page_frame_entry by (done || mlia).
    cbn [Z.land Pos.land Z.eqb negb]. f_equal. f_equal. mlia.
  - rewrite decide_False by mlia. done.
Qed.

(** ** Properties *)

Definition paging_boot : paging_t := mk_paging pmm_boot (λ _, 0) None None [0; 0; 0; 0] 0 0.

Lemma paging_boot_wf : paging_wf paging_boot.
Proof. split; [exact pmm_boot_wf|]. intros a. done. Qed.

Lemma boot_layout_example : boot_layout 0x300000 0x400000.
Proof. split; [done|]. split; [done|]. split; [done|]. split; [done|]. split; [done|]. left. done. Qed.

(** [init_paging] loads a directory under which, for every 32-bit
    virtual address, the kernel window maps [p + 0xC0000000] to physical [p]
    (readable and writable, never from user mode) and everything below
    0xC0000000 is unmapped; no memory outside the directory and the tables is
    written. *)
Theorem init_paging_kernel_window (d T : Z) (s : paging_t)
  (Hwf : paging_wf s) (Hlayout : boot_layout d T) :
  ∃ s', init_paging (PHYS_TO_KVIRT d) (PHYS_TO_KVIRT T) s = Some (tt, s') ∧ pg_cr3 s' = d ∧
    (∀ va, is_u32 va → translate (pg_mem s') (pg_cr3 s') va =
       if va <? KERNEL_VIRTUAL_BASE then None else Some (KVIRT_TO_PHYS va, 3)) ∧
    ∀ a, page_words_other d T a → pg_mem s' a = pg_mem s a.
Proof.
  destruct (init_paging_ok d T s Hwf Hlayout) as (s' & E & _ & _ & _ & _ & Hcr & _ & _ & _ & Hw & Ho).
  exists s'. split; [done|]. split; [done|]. split; [|done]. intros va Hva. rewrite Hcr, (Hw va Hva).
  destruct (Z.ltb_spec va KERNEL_VIRTUAL_BASE) as [|Hge]; [done|].
  unfold KVIRT_TO_PHYS. rewrite u32_small; [done|]. unfold KERNEL_VIRTUAL_BASE, is_u32 in *. lia.
Qed.

Lemma init_paging_kernel_window_witness :
  ∃ s', init_paging 0xC0300000 0xC0400000 paging_boot = Some (tt, s') ∧
    translate (pg_mem s') (pg_cr3 s') 0xC0123456 = Some (0x123456, 3) ∧
    translate (pg_mem s') (pg_cr3 s') 0x400000 = None.
Proof.
  destruct (init_paging_kernel_window 0x300000 0x400000 paging_boot paging_boot_wf boot_layout_example)
    as (s' & E & _ & H & _).
  exists s'. split; [exact E|]. split.
  - rewrite (H 0xC0123456) by (unfold is_u32; lia). reflexivity.
  - rewrite (H 0x400000) by (unfold is_u32; lia). reflexivity.
Defined.

(** C18 (functional): mapping a page either fails with -1, when a page table is
    needed and no frame is free, and changes nothing; or it succeeds and the
    processor then translates every address of that page to the given frame
    with the given access bits, every other address of the address space as
    before, and every address of any other address space that does not share
    the touched table as before.  Both address spaces stay well formed. *)
Theorem paging_map_page_correct (s : paging_t) (d va pa flags : Z)
  (Hwf : paging_wf s) (Has : as_wf s d) (Hva : is_u32 va) (Hpa : is_u32 pa)
  (Hflags : 0 ≤ flags < 4096) (Hpresent : has flags PAGE_PRESENT = true) :
  ∃ rc s', paging_map_page (PHYS_TO_KVIRT d) va pa flags s = Some (rc, s') ∧
    paging_wf s' ∧ as_wf s' d ∧
    (rc = -1 ∧ s' = s ∧ (∀ a, ¬ addr_free (pg_pmm s) a) ∨
     rc = 0 ∧ ∀ va', is_u32 va' → translate (pg_mem s') d va' =
       if decide (va' / 4096 = va / 4096)
       then Some (pa - pa mod 4096 + va' mod 4096, Z.land flags 7)
       else translate (pg_mem s) d va') ∧
    ∀ d2, as_wf s d2 → apart (pg_mem s) d (va / 4194304) d2 →
      as_wf s' d2 ∧ ∀ va', is_u32 va' → translate (pg_mem s') d2 va' = translate (pg_mem s) d2 va'.
Proof.
  destruct (map_page_ok s d va pa flags Hwf Has Hva Hpa Hflags)
    as (rc & s' & E & Hwf' & Has' & _ & (_ & Hoth) & Hcase).
  exists rc, s'. do 3 (split; [done|]). split; [|done].
  destruct Hcase as [?|[-> Htr]]; [by left|right]. split; [done|]. intros va' Hva'.
  rewrite Htr by done. case_decide; [|done]. destruct (page_frame_aligned pa Hpa).
  unfold pte_maps, has in *. rewrite !entry_bits, page_frame_entry by done.
  rewrite Hpresent. by rewrite page_frame_eq.
Qed.

Lemma paging_map_page_correct_witness :
  ∃ s rc s', paging_map_page 0xC0300000 0xE0000000 0x900000 7 s = Some (rc, s') ∧ as_wf s' 0x300000.
Proof.
  destruct (init_paging_ok 0x300000 0x400000 paging_boot paging_boot_wf boot_layout_example)
    as (s & _ & Hwf & Has & _).
  destruct (paging_map_page_correct s 0x300000 0xE0000000 0x900000 7 Hwf Has)
    as (rc & s' & E & _ & Has' & _); [done|done|lia|done|].
  exists s, rc, s'. split; [exact E|exact Has'].
Defined.

(** Unmapping a page makes exactly the addresses of that page
    fault, without touching the allocator; after mapping a page that was not
    mapped, unmapping it restores the translation of every address. *)
Theorem paging_unmap_page_correct (s : paging_t) (d va : Z)
  (Hwf : paging_wf s) (Has : as_wf s d) (Hva : is_u32 va) :
  (∃ s', paging_unmap_page (PHYS_TO_KVIRT d) va s = Some (tt, s') ∧ pg_pmm s' = pg_pmm s ∧ as_wf s' d ∧
    ∀ va', is_u32 va' → translate (pg_mem s') d va' =
      if decide (va' / 4096 = va / 4096) then None else translate (pg_mem s) d va') ∧
  ∀ pa flags s1, is_u32 pa → 0 ≤ flags < 4096 → translate (pg_mem s) d va = None →
    paging_map_page (PHYS_TO_KVIRT d) va pa flags s = Some (0, s1) →
    ∃ s2, paging_unmap_page (PHYS_TO_KVIRT d) va s1 = Some (tt, s2) ∧
      ∀ va', is_u32 va' → translate (pg_mem s2) d va' = translate (pg_mem s) d va'.
Proof.
  split.
  - destruct (unmap_page_ok s d va Hwf Has Hva) as (s' & E & _ & Has' & _ & _ & Ep & H). eauto.
  - intros pa flags s1 Hpa Hfl Hnone E1.
    destruct (map_page_ok s d va pa flags Hwf Has Hva Hpa Hfl)
      as (rc & s1' & E & Hwf1 & Has1 & _ & _ & Hcase).
    rewrite E1 in E. injection E as <- <-. destruct Hcase as [(? & _)|[_ Htr]]; [lia|].
    destruct (unmap_page_ok s1 d va Hwf1 Has1 Hva) as (s2 & E2 & _ & _ & _ & _ & _ & H).
    exists s2. split; [done|]. intros va' Hva'. rewrite H, Htr by done.
    case_decide as Epg; [|done]. rewrite <- Hnone. unfold translate.
    assert (va' / 4194304 = va / 4194304) as -> by mlia. rewrite Epg.
    destruct (has (pg_mem s (d + 4 * (va / 4194304))) PAGE_PRESENT) eqn:Hp1; [|done]. cbn [negb].
    destruct (has (pg_mem s (page_frame _ + _)) PAGE_PRESENT) eqn:Hp2; [|done]. exfalso.
    revert Hnone. unfold translate. by rewrite Hp1, Hp2.
Qed.

Lemma paging_unmap_page_correct_witness :
  ∃ s s', paging_unmap_page 0xC0300000 0xE0000123 s = Some (tt, s') ∧
    translate (pg_mem s') 0x300000 0xE0000FFF = None.
Proof.
  destruct (init_paging_ok 0x300000 0x400000 paging_boot paging_boot_wf boot_layout_example)
    as (s & _ & Hwf & Has & _).
  destruct (paging_unmap_page_correct s 0x300000 0xE0000123 Hwf Has) as ((s' & E & _ & _ & H) & _); [done|].
  exists s, s'. split; [exact E|]. rewrite (H 0xE0000FFF) by done. reflexivity.
Defined.

(** The booted kernel of the examples. *)
Lemma booted : ∃ s, paging_wf s ∧ vbe_wf s ∧ as_wf s 0x300000 ∧
  current_page_dir s = Some (PHYS_TO_KVIRT 0x300000) ∧
  (∀ i, 768 ≤ i < 1024 → pde_present (pg_mem s) 0x300000 i) ∧ kernel_window (pg_mem s) 0x300000 ∧
  addr_free (pg_pmm s) (frame_at 0).
Proof.
  destruct (init_paging_ok 0x300000 0x400000 paging_boot paging_boot_wf boot_layout_example)
    as (s & _ & Hwf & Has & Ep & Hc & _ & Ev & En & Hp & Hw & _).
  exists s. split; [done|]. split; [|split; [done|]].
  - unfold vbe_wf. rewrite Ev, En. simpl. split; [lia|]. split; [done|constructor].
  - do 3 (split; [done|]). exists 0. rewrite Ep. split; [simpl; lia|]. split; [done|].
    vm_compute. reflexivity.
Qed.

(** A new address space consists of a fresh frame; it shares the
    kernel half and the framebuffer entries with the kernel's directory, maps
    nothing else, and creating it changes neither the kernel's translations nor
    those of any existing address space.  When no frame is free it is refused and
    nothing changes. *)
Theorem paging_create_address_space_correct (s : paging_t) (k : Z)
  (Hwf : paging_wf s) (Hvbe : vbe_wf s) (Hk : as_wf s k)
  (Hcur : current_page_dir s = Some (PHYS_TO_KVIRT k)) :
  ∃ o s', paging_create_address_space s = Some (o, s') ∧
    (o = None ∧ s' = s ∧ (∀ a, ¬ addr_free (pg_pmm s) a) ∨
     ∃ r, o = Some (PHYS_TO_KVIRT r) ∧ addr_free (pg_pmm s) r ∧ as_wf s' r ∧
       (∀ a, addr_free (pg_pmm s') a ↔ addr_free (pg_pmm s) a ∧ a ≠ r) ∧
       (∀ va, is_u32 va → translate (pg_mem s') r va =
          if decide (shared_entry s (va / 4194304)) then translate (pg_mem s) k va else None) ∧
       (∀ d2 va, as_wf s d2 → is_u32 va → translate (pg_mem s') d2 va = translate (pg_mem s) d2 va)).
Proof.
  destruct (create_address_space_ok s k Hwf Hvbe Hk Hcur) as (o & s' & E & _ & _ & Hcase).
  exists o, s'. split; [done|]. destruct Hcase as [?|(r & -> & Hrf & Hfree & Hout & Hin & Has)]; [by left|right].
  exists r. do 4 (split; [done|]). pose proof (as_dir _ _ Has) as (Hra & _).
  assert (Hkeep : ∀ t j, table_frame s t → 0 ≤ j < 1024 → pg_mem s' (t + 4 * j) = pg_mem s (t + 4 * j)).
  { intros t j (Hta & _ & Htf) Hj. apply Hout.
    apply (page_words_disjoint t r j 0); [done|done|congruence|done|lia]. }
  split.
  - intros va Hva. destruct (idx_range va Hva) as [Hi Hj]. unfold translate. rewrite Hin by done.
    case_decide; [|done]. destruct (has _ _) eqn:Hp; [|done]. cbn [negb].
    destruct (as_tables _ _ Hk _ Hi Hp) as (Htf & _). unfold table_of in Htf. by rewrite Hkeep.
  - intros d2 va Has2 Hva. apply translate_frame; [done| |].
    + intros i Hi. apply Hkeep; [apply (as_dir _ _ Has2)|done].
    + intros i j Hi Hj Hp. apply Hkeep; [by apply (as_tables _ _ Has2)|done].
Qed.

Lemma paging_create_address_space_correct_witness :
  ∃ s o s', paging_create_address_space s = Some (o, s') ∧ o ≠ None.
Proof.
  destruct booted as (s & Hwf & Hv & Has & Hc & _ & _ & Hf).
  destruct (paging_create_address_space_correct s 0x300000 Hwf Hv Has Hc) as (o & s' & E & H).
  exists s, o, s'. split; [exact E|]. destruct H as [(_ & _ & H)|(r & -> & _)]; [|discriminate].
  exfalso. exact (H _ Hf).
Defined.

(** Destroying an address space frees exactly its directory, its
    page tables and the frames they map in the user half (entries 0 to 767 that
    are not recorded as framebuffer entries), as far as the allocator manages
    them: afterwards a frame is free if and only if it was free or is one of
    those.  No memory is written, and the directory of the kernel is never
    destroyed. *)
Theorem paging_destroy_address_space_correct (s : paging_t) (d : Z)
  (Hwf : paging_wf s) (Has : as_wf s d) :
  (∃ s', paging_destroy_address_space (Some (PHYS_TO_KVIRT d)) s = Some (tt, s') ∧
     pg_mem s' = pg_mem s ∧
     (current_page_dir s ≠ Some (PHYS_TO_KVIRT d) →
      ∀ a, addr_free (pg_pmm s') a ↔
           addr_free (pg_pmm s) a ∨ in_pmm (pg_pmm s) a ∧ (a = d ∨ user_frame s d 0 768 a)) ∧
     (current_page_dir s = Some (PHYS_TO_KVIRT d) → s' = s)) ∧
  paging_destroy_address_space None s = Some (tt, s).
Proof.
  split; [|done]. destruct (decide (current_page_dir s = Some (PHYS_TO_KVIRT d))) as [Hc|Hc].
  - exists s. split; [|done]. unfold paging_destroy_address_space, mbind, M_bind, get.
    by rewrite bool_decide_eq_true_2.
  - destruct (destroy_address_space_ok s d Hwf Has Hc) as (s' & E & _ & Em & _ & _ & H).
    exists s'. do 2 (split; [done|]). split; [|done]. intros _ a. rewrite H. tauto.
Qed.

Lemma paging_destroy_address_space_correct_witness :
  ∃ s r s' s'', paging_create_address_space s = Some (Some (PHYS_TO_KVIRT r), s') ∧
    paging_destroy_address_space (Some (PHYS_TO_KVIRT r)) s' = Some (tt, s'').
Proof.
  destruct booted as (s & Hwf & Hv & Has & Hc & _ & _ & Hf).
  destruct (create_address_space_ok s 0x300000 Hwf Hv Has Hc) as (o & s' & E & Hwf' & _ & H).
  destruct H as [(_ & _ & H)|(r & -> & _ & _ & _ & _ & Hasr)]; [exfalso; exact (H _ Hf)|].
  destruct (paging_destroy_address_space_correct s' r Hwf' Hasr) as ((s'' & E' & _) & _).
  exists s, r, s', s''. split; [exact E|exact E'].
Defined.

(** Mapping a framebuffer whose physical address is in the last
    gigabyte replaces part of the kernel window: the virtual address by which
    the kernel reaches the physical address [va - 0xC0000000] then reaches the
    framebuffer, from user mode too, so a frame of the allocator at that
    physical address is no longer reachable through [PHYS_TO_KVIRT]. *)
Theorem paging_map_vbe_shadows_window (s : paging_t) (k phys_addr size : Z)
  (Hwf : paging_wf s) (Hvbe : vbe_wf s) (Has : as_wf s k)
  (Hcur : current_page_dir s = Some (PHYS_TO_KVIRT k))
  (Htables : ∀ i, 768 ≤ i < 1024 → pde_present (pg_mem s) k i)
  (Hphys : 0xC0000000 ≤ phys_addr) (Hsize : 0 < size)
  (Hend : phys_addr + size + 0xFFF < 4294967296) :
  ∃ s', paging_map_vbe phys_addr size s = Some (tt, s') ∧
    (∀ va, is_u32 va → translate (pg_mem s') k va =
       if decide (phys_addr / 4096 ≤ va / 4096 ≤ (phys_addr + size - 1) / 4096) then Some (va, 7)
       else translate (pg_mem s) k va) ∧
    ∀ p, phys_addr - 0xC0000000 ≤ p < phys_addr - 0xC0000000 + size →
      translate (pg_mem s') k (PHYS_TO_KVIRT p) = Some (p + 0xC0000000, 7).
Proof.
  unfold paging_map_vbe, mbind, M_bind, get, put. rewrite Hcur.
  rewrite (proj2 (Z.eqb_neq _ _)), (proj2 (Z.eqb_neq _ _)) by lia. cbn [orb].
  rewrite (u32_small (phys_addr + size)), (u32_small (phys_addr + size + _)) by mlia.
  rewrite !page_frame_eq by mlia.
  set (start := phys_addr - phys_addr mod 4096).
  set (fin := phys_addr + size + 4095 - (phys_addr + size + 4095) mod 4096).
  assert (Hal : start mod 4096 = 0 ∧ 3221225472 ≤ start ∧ fin mod 4096 = 0 ∧ start < fin ≤ 4294967296)
    by (unfold start, fin; mlia).
  destruct (map_vbe_loop_ok (Z.to_nat ((fin - start) / 4096)) k start
             (with_vbe (vbe_dir_indices s) 0 s)) as (s' & E & _ & _ & _ & _ & Htr); try mlia.
  { split; [apply (pg_pmm_wf _ Hwf)|apply (pg_mem_u32 _ Hwf)]. }
  { destruct Hvbe as (? & ? & ?). split; [simpl; lia|]. split; [done|constructor]. }
  { by apply (as_wf_eq s). } { done. }
  exists s'. split; [exact E|].
  assert (Hall : ∀ va, is_u32 va → translate (pg_mem s') k va =
       if decide (phys_addr / 4096 ≤ va / 4096 ≤ (phys_addr + size - 1) / 4096) then Some (va, 7)
       else translate (pg_mem s) k va).
  { intros va Hva. rewrite (Htr va Hva). cbn [pg_mem with_vbe].
    assert (Heq : start ≤ va < start + 4096 * Z.of_nat (Z.to_nat ((fin - start) / 4096)) ↔
                  phys_addr / 4096 ≤ va / 4096 ≤ (phys_addr + size - 1) / 4096).
    { replace (4096 * Z.of_nat (Z.to_nat ((fin - start) / 4096))) with (fin - start) by mlia.
      unfold start, fin. mlia. }
    destruct (decide (phys_addr / 4096 ≤ va / 4096 ≤ (phys_addr + size - 1) / 4096)) as [Hd|Hd].
    - by rewrite decide_True by (by apply Heq).
    - rewrite decide_False; [done|]. intros Hx. by apply Hd, Heq. }
  split; [exact Hall|]. intros p Hp.
  assert (PHYS_TO_KVIRT p = p + 0xC0000000) as -> by (apply u32_small; mlia).
  rewrite Hall by mlia. rewrite decide_True by mlia. done.
Qed.

Lemma paging_map_vbe_shadows_window_witness :
  ∃ s s', paging_map_vbe 0xFD000000 0x300000 s = Some (tt, s') ∧
    translate (pg_mem s) 0x300000 0xFD001234 = Some (0x3D001234, 3) ∧
    translate (pg_mem s') 0x300000 0xFD001234 = Some (0xFD001234, 7).
Proof.
  destruct booted as (s & Hwf & Hv & Has & Hc & Hp & Hw & _).
  destruct (paging_map_vbe_shadows_window s 0x300000 0xFD000000 0x300000 Hwf Hv Has Hc Hp)
    as (s' & E & H & _); [lia|lia|lia|].
  exists s, s'. split; [exact E|]. split.
  - rewrite (Hw 0xFD001234) by (unfold is_u32; lia). reflexivity.
  - rewrite (H 0xFD001234) by (unfold is_u32; lia). reflexivity.
Defined.
