(* ===== verification/KHeap.v ===== *)
(** * The kernel heap as its clients see it

    [kmalloc] and [kfree] are used by the windows, the tasks, the file system
    and the program loader.  [KHeap] states what those clients rely on: an
    allocation returns a block inside the heap region that is not in use, a
    release makes exactly that block available again.  The clients are verified
    against this interface; [set_heap] is an instance with which the examples
    are evaluated: blocks are taken in ascending order, at most [n] of them are
    in use at a time. *)

From S2P Require Import Prelude.

(** The heap region ([src/src/memlayout.h]). *)
Definition KERNEL_HEAP_START : Z := 0xC0500000.
Definition KERNEL_HEAP_END : Z := 0xC0700000.

Class KHeap (H : Type) := {
  (** [None] is a null pointer. *)
  kmalloc : Z → H → option Z * H;
  kfree : Z → H → H;
  (** The blocks in use. *)
  live : H → gset Z;
  kmalloc_Some h h' size p : kmalloc size h = (Some p, h') → p ∉ live h ∧ live h' = {[p]} ∪ live h;
  kmalloc_None h h' size : kmalloc size h = (None, h') → live h' = live h;
  kmalloc_range h h' size p : kmalloc size h = (Some p, h') →
    KERNEL_HEAP_START ≤ p ∧ p + size ≤ KERNEL_HEAP_END ∧ p mod 4 = 0;
  kfree_live h p : live (kfree p h) = live h ∖ {[p]}
}.

(** A block that is allocated and released. *)
Lemma kmalloc_kfree_live {H} `{!KHeap H} size (h h' : H) p : kmalloc size h = (Some p, h') → live (kfree p h') = live h.
Proof. intros [Hp Hl]%kmalloc_Some. rewrite kfree_live, Hl. set_solver. Qed.

(** ** An instance for examples *)

Definition set_heap (n : nat) : Type := Z * gset Z.
Definition heap0 (n : nat) : set_heap n := (KERNEL_HEAP_START, ∅).

Definition heap_fits (n : nat) (sz : Z) (h : set_heap n) : bool :=
  (size h.2 <? n)%nat && bool_decide (h.1 ∉ h.2) && (KERNEL_HEAP_START <=? h.1) &&
  (h.1 + sz <=? KERNEL_HEAP_END) && (h.1 mod 4 =? 0).

#[global] Program Instance set_heap_kheap n : KHeap (set_heap n) := {|
  kmalloc sz h :=
    if heap_fits n sz h then (Some h.1, (h.1 + 16 * (Z.max sz 1 / 16 + 1), {[h.1]} ∪ h.2)) else (None, h);
  kfree p h := (h.1, h.2 ∖ {[p]});
  live h := h.2
|}.
Next Obligation.
  simpl. intros n h h' sz p. destruct (heap_fits n sz h) eqn:E; [|done]. intros [= <- <-]. split; [|done].
  unfold heap_fits in E. repeat (apply andb_true_iff in E as [E ?]). by apply bool_decide_eq_true in H2.
Qed.
Next Obligation. simpl. intros n h h' sz. case_match; [done|]. by intros [= <-]. Qed.
Next Obligation.
  simpl. intros n h h' sz p. destruct (heap_fits n sz h) eqn:E; [|done]. intros [= <- <-].
  unfold heap_fits in E. repeat (apply andb_true_iff in E as [E ?]). lia.
Qed.
Next Obligation. done. Qed.

(** A heap of a single block, which is handed out again after its release. *)
Definition slot_heap : Type := gset Z.

#[global] Program Instance slot_heap_kheap : KHeap slot_heap := {|
  kmalloc sz h :=
    if (sz <=? KERNEL_HEAP_END - KERNEL_HEAP_START) && bool_decide (KERNEL_HEAP_START ∉ (h : gset Z))
    then (Some KERNEL_HEAP_START, ({[KERNEL_HEAP_START]} ∪ h : gset Z)) else (None, h);
  kfree p h := (h : gset Z) ∖ {[p]};
  live h := h
|}.
Next Obligation.
  simpl. intros h h' sz p. destruct (_ && _) eqn:E; [|done]. intros [= <- <-]. apply andb_true_iff in E as [_ E].
  apply bool_decide_eq_true in E. done.
Qed.
Next Obligation. simpl. intros h h' sz. case_match; [done|]. by intros [= <-]. Qed.
Next Obligation.
  simpl. intros h h' sz p. destruct (_ && _) eqn:E; [|done]. intros [= <- <-]. apply andb_true_iff in E as [E _].
  apply Z.leb_le in E. unfold KERNEL_HEAP_START, KERNEL_HEAP_END in *. repeat split; lia.
Qed.
Next Obligation. done. Qed.
