(* ===== verification/Window.v ===== *)
(** * Windows ([src/src/io/window.c], [src/src/utils/slot_table.c])

    Eight window slots.  A window identifier holds the slot and the generation
    of the slot, which is increased at every creation, so that the identifier of
    a window that was destroyed does not name a later window of the slot.  The
    pixel buffer is a block of the kernel heap, through the interface of
    [KHeap]; its contents are in the window.  Interrupts are disabled around
    every operation, which makes each of them one step. *)

From S2P Require Import Prelude Kring KHeap.

(** ** The code *)

(** [slot_table_find_free_by_flag] and [slot_table_set_flag_by_index] on the
    flags of the items of a table. *)
Definition slot_table_find_free_by_flag (flags : list Z) : Z :=
  match find_index (λ f, f =? 0) flags with Some i => Z.of_nat i | None => -1 end.

Definition slot_table_set_flag_by_index (flags : list Z) (idx value : Z) : option (list Z) :=
  zupdate flags idx value.

Definition MAX_WINDOWS : nat := 8.
Definition WIN_TITLE_MAX : nat := 32.
Definition WIN_KEY_BUF_SIZE : Z := 16.
Definition WIN_TEXT_BUF_SIZE : Z := 2048.
Definition WIN_MAX_WIDTH : Z := 800.
Definition WIN_MAX_HEIGHT : Z := 500.

Definition WIN_MAKE_ID (slot gen : Z) : Z := Z.lor (Z.shiftl gen 8) slot.
Definition WIN_SLOT (wid : Z) : Z := Z.land wid 0xFF.
Definition WIN_GEN (wid : Z) : Z := Z.land (Z.shiftr wid 8) 0xFFFF.

(** [win_buffer] is the pointer and [win_pixels] the bytes it points to;
    [win_title] is the string in the title array. *)
Record kernel_window_t : Type := mk_win {
  win_active : Z;
  win_generation : Z;
  win_owner_pid : Z;
  win_w : Z;
  win_h : Z;
  win_title : list Z;
  win_buffer : option Z;
  win_pixels : list Z;
  win_buf_size : Z;
  win_key_ring : kring_u8_t;
  win_text_ring : kring_u8_t
}.

Definition win_zero : kernel_window_t := mk_win 0 0 0 0 0 [] None [] 0 kring_zero kring_zero.

(** [memset(win, 0, sizeof(kernel_window_t)); win->generation = gen] *)
Definition win_cleared (win : kernel_window_t) : kernel_window_t :=
  mk_win 0 (win_generation win) 0 0 0 [] None [] 0 kring_zero kring_zero.

Record win_info_t : Type := mk_win_info {
  wi_window_id : Z; wi_owner_pid : Z; wi_w : Z; wi_h : Z; wi_title : list Z
}.

Record win_state (H : Type) : Type := mk_wins { windows : list kernel_window_t; win_heap : H }.
Arguments mk_wins {H}.
Arguments windows {H}.
Arguments win_heap {H}.

Section window.
Context {H : Type} `{!KHeap H}.

Definition set_win (i : nat) (w : kernel_window_t) (s : win_state H) : win_state H :=
  mk_wins (<[i := w]> (windows s)) (win_heap s).

(** The slot and the window of a valid identifier. *)
Definition win_get (wid : Z) (s : win_state H) : option (nat * kernel_window_t) :=
  let slot := WIN_SLOT wid in
  if (slot <? 0) || (Z.of_nat MAX_WINDOWS <=? slot) then None else
  win ← windows s !! Z.to_nat slot;
  if win_active win =? 0 then None else
  if negb (win_generation win =? WIN_GEN wid) then None else
  Some (Z.to_nat slot, win).

Definition window_init : M (win_state H) unit := λ s,
  Some (tt, mk_wins (replicate MAX_WINDOWS win_zero) (win_heap s)).

(** The storage arrays of the rings of a window that is not active. *)
Definition ring_storage (n : Z) (r : kring_u8_t) : list Z :=
  default (replicate (Z.to_nat n) 0) (kr_buf r).

Definition window_create (pid w h : Z) (title : option (list Z)) : M (win_state H) Z := λ s,
  if (w <=? 0) || (WIN_MAX_WIDTH <? w) || (h <=? 0) || (WIN_MAX_HEIGHT <? h) then Some (-1, s) else
  let slot := slot_table_find_free_by_flag (win_active <$> windows s) in
  if slot <? 0 then Some (-1, s) else
  let buf_size := u32 (w * h) in
  match kmalloc buf_size (win_heap s) with
  | (None, heap) => Some (-1, mk_wins (windows s) heap)
  | (Some buf, heap) =>
    win ← windows s !! Z.to_nat slot;
    let gen := u16 (win_generation win + 1) in
    let win' := mk_win 1 gen pid w h (default [] (take (WIN_TITLE_MAX - 1) <$> title))
                  (Some buf) (replicate (Z.to_nat buf_size) 0) buf_size
                  (kring_u8_init (ring_storage WIN_KEY_BUF_SIZE (win_key_ring win)) WIN_KEY_BUF_SIZE)
                  (kring_u8_init (ring_storage WIN_TEXT_BUF_SIZE (win_text_ring win)) WIN_TEXT_BUF_SIZE) in
    Some (WIN_MAKE_ID slot gen, mk_wins (<[Z.to_nat slot := win']> (windows s)) heap)
  end.

(** [if (win->buffer) kfree(win->buffer)] *)
Definition win_release (win : kernel_window_t) (h : H) : H :=
  match win_buffer win with Some p => kfree p h | None => h end.

Definition window_destroy (wid pid : Z) : M (win_state H) Z := λ s,
  match win_get wid s with
  | None => Some (-1, s)
  | Some (i, win) =>
    if negb (win_owner_pid win =? pid) then Some (-1, s) else
    Some (0, mk_wins (<[i := win_cleared win]> (windows s)) (win_release win (win_heap s)))
  end.

(** [data = None] is a null pointer; otherwise it points to [len] bytes. *)
Definition window_write (wid pid : Z) (data : option (list Z)) (len : Z) : M (win_state H) Z := λ s,
  match win_get wid s with
  | None => Some (-1, s)
  | Some (i, win) =>
    if negb (win_owner_pid win =? pid) then Some (-1, s) else
    match data with
    | None => Some (-1, s)
    | Some data =>
      if len =? 0 then Some (-1, s) else
      let to_copy := if len <? win_buf_size win then len else win_buf_size win in
      if (Z.of_nat (length data) <? to_copy) || (Z.of_nat (length (win_pixels win)) <? to_copy)
      then None (* memcpy outside an object *)
      else Some (s32 to_copy, set_win i
        (mk_win (win_active win) (win_generation win) (win_owner_pid win) (win_w win) (win_h win)
                (win_title win) (win_buffer win)
                (splice (win_pixels win) 0 (take (Z.to_nat to_copy) data))
                (win_buf_size win) (win_key_ring win) (win_text_ring win)) s)
    end
  end.

(** The return value and the bytes copied; [dest = false] is a null pointer. *)
Definition window_read (wid : Z) (dest : bool) (len : Z) (s : win_state H) : option (Z * list Z) :=
  match win_get wid s with
  | None => Some (-1, [])
  | Some (_, win) =>
    if negb dest || (len =? 0) then Some (-1, []) else
    let to_copy := if len <? win_buf_size win then len else win_buf_size win in
    if Z.of_nat (length (win_pixels win)) <? to_copy then None
    else Some (s32 to_copy, take (Z.to_nat to_copy) (win_pixels win))
  end.

(** An operation on a ring of the window in slot [i]. *)
Definition with_key_ring (win : kernel_window_t) (r : kring_u8_t) : kernel_window_t :=
  mk_win (win_active win) (win_generation win) (win_owner_pid win) (win_w win) (win_h win)
         (win_title win) (win_buffer win) (win_pixels win) (win_buf_size win) r (win_text_ring win).
Definition with_text_ring (win : kernel_window_t) (r : kring_u8_t) : kernel_window_t :=
  mk_win (win_active win) (win_generation win) (win_owner_pid win) (win_w win) (win_h win)
         (win_title win) (win_buffer win) (win_pixels win) (win_buf_size win) (win_key_ring win) r.

Definition window_getkey (wid pid : Z) : M (win_state H) Z := λ s,
  match win_get wid s with
  | None => Some (-1, s)
  | Some (i, win) =>
    if negb (win_owner_pid win =? pid) then Some (-1, s) else
    '(o, r) ← kring_u8_pop (win_key_ring win);
    match o with
    | None => Some (0, set_win i (with_key_ring win r) s)
    | Some key => Some (key, set_win i (with_key_ring win r) s)
    end
  end.

Definition window_sendkey (wid key : Z) : M (win_state H) Z := λ s,
  match win_get wid s with
  | None => Some (-1, s)
  | Some (i, win) =>
    '(rc, r) ← kring_u8_push (u8 key) (win_key_ring win);
    if rc <? 0 then Some (-1, set_win i (with_key_ring win r) s)
    else Some (0, set_win i (with_key_ring win r) s)
  end.

(** The loop of [window_list] from slot [i] on, with [count] entries stored. *)
Fixpoint window_list_loop (ws : list kernel_window_t) (i count max_count : Z) : list win_info_t :=
  match ws with
  | [] => []
  | win :: ws =>
    if negb (count <? max_count) then [] else
    if win_active win =? 0 then window_list_loop ws (i + 1) count max_count else
    mk_win_info (WIN_MAKE_ID i (win_generation win)) (win_owner_pid win) (win_w win) (win_h win)
                (win_title win) :: window_list_loop ws (i + 1) (count + 1) max_count
  end.

(** The entries stored; their number is returned. *)
Definition window_list (out : bool) (max_count : Z) (s : win_state H) : list win_info_t :=
  if negb out || (max_count <=? 0) then [] else
  window_list_loop (windows s) 0 0 max_count.

Fixpoint cleanup_loop (pid : Z) (ws : list kernel_window_t) (h : H) : list kernel_window_t * H :=
  match ws with
  | [] => ([], h)
  | win :: ws =>
    if negb (win_active win =? 0) && (win_owner_pid win =? pid) then
      let '(ws', h') := cleanup_loop pid ws (win_release win h) in (win_cleared win :: ws', h')
    else let '(ws', h') := cleanup_loop pid ws h in (win :: ws', h')
  end.

Definition window_cleanup_pid (pid : Z) : M (win_state H) unit := λ s,
  let '(ws, h) := cleanup_loop pid (windows s) (win_heap s) in Some (tt, mk_wins ws h).

(** [data = None] is a null pointer; otherwise it points to [len] bytes. *)
Definition window_append_text (wid : Z) (data : option (list Z)) (len : Z) : M (win_state H) Z := λ s,
  match data with
  | None => Some (-1, s)
  | Some data =>
    if len <=? 0 then Some (-1, s) else
    match win_get wid s with
    | None => Some (-1, s)
    | Some (i, win) =>
      if Z.of_nat (length data) <? len then None else
      '(written, r) ← push_bytes kring_u8_push (take (Z.to_nat len) data) (win_text_ring win);
      Some (written, set_win i (with_text_ring win r) s)
    end
  end.

Definition window_read_text (wid pid : Z) (dest : bool) (max_len : Z) : M (win_state H) (Z * list Z) := λ s,
  if negb dest || (max_len <=? 0) then Some ((0, []), s) else
  match win_get wid s with
  | None => Some ((-1, []), s)
  | Some (i, win) =>
    if negb (win_owner_pid win =? pid) then Some ((-1, []), s) else
    '(bytes, r) ← pop_bytes kring_u8_pop (Z.to_nat max_len) (win_text_ring win);
    Some ((Z.of_nat (length bytes), bytes), set_win i (with_text_ring win r) s)
  end.

(** ** Invariant *)

(** An inactive window owns nothing; an active one has a pixel buffer of its
    size and two working rings. *)
Definition win_ok (w : kernel_window_t) : Prop :=
  is_u16 (win_generation w) ∧
  (win_active w = 0 ∧ win_buffer w = None ∧ win_key_ring w = kring_zero ∧ win_text_ring w = kring_zero ∨
   win_active w = 1 ∧ win_buffer w ≠ None ∧
   1 ≤ win_w w ≤ WIN_MAX_WIDTH ∧ 1 ≤ win_h w ≤ WIN_MAX_HEIGHT ∧
   win_buf_size w = win_w w * win_h w ∧ Z.of_nat (length (win_pixels w)) = win_buf_size w ∧
   (∃ q, kring_rep (win_key_ring w) 15 q) ∧ ∃ q, kring_rep (win_text_ring w) 2047 q).

(** The blocks of the heap that the windows hold. *)
Definition win_bufs (ws : list kernel_window_t) : gset Z := list_to_set (omap win_buffer ws).

(** [base] is what the rest of the kernel has allocated. *)
Record win_inv (base : gset Z) (s : win_state H) : Prop := {
  wi_len : length (windows s) = MAX_WINDOWS;
  wi_ok : Forall win_ok (windows s);
  wi_nodup : NoDup (omap win_buffer (windows s));
  wi_live : live (win_heap s) = base ∪ win_bufs (windows s);
  wi_disj : base ## win_bufs (windows s)
}.

Lemma win_split (ws : list kernel_window_t) i w :
  ws !! i = Some w →
  ∃ l1 l2, ws = l1 ++ w :: l2 ∧ length l1 = i ∧ ∀ w', <[i := w']> ws = l1 ++ w' :: l2.
Proof.
  intros Hi. exists (take i ws), (drop (S i) ws). pose proof (lookup_lt_Some _ _ _ Hi).
  split; [by rewrite take_drop_middle|]. split; [rewrite length_take; lia|].
  intros w'. by apply insert_take_drop.
Qed.

(** Changing a window but not its buffer. *)
Lemma win_inv_same base s i w w' :
  win_inv base s → windows s !! i = Some w → win_ok w' → win_buffer w' = win_buffer w →
  win_inv base (set_win i w' s).
Proof using Type*.
  intros [Hl Ho Hn Hv Hd] Hi Hw' Hb. destruct (win_split _ _ _ Hi) as (l1 & l2 & E & _ & Hins).
  assert (Homap : omap win_buffer (<[i := w']> (windows s)) = omap win_buffer (windows s)).
  { rewrite Hins, E, !omap_app. cbn [omap list_omap]. by rewrite Hb. }
  split; unfold set_win, win_bufs; cbn [windows win_heap]; rewrite ?Homap; try done.
  - by rewrite length_insert.
  - by apply Forall_insert_list.
Qed.

Lemma win_cleared_ok w : win_ok w → win_ok (win_cleared w).
Proof. intros [Hg _]. split; [done|]. by left. Qed.

(** Destroying a window gives its buffer back. *)
Lemma win_inv_clear base s i w :
  win_inv base s → windows s !! i = Some w →
  win_inv base (mk_wins (<[i := win_cleared w]> (windows s)) (win_release w (win_heap s))).
Proof using Type*.
  intros [Hl Ho Hn Hv Hd] Hi. destruct (win_split _ _ _ Hi) as (l1 & l2 & E & _ & Hins).
  pose proof (Forall_lookup_1 _ _ _ _ Ho Hi) as Hw.
  set (o := omap win_buffer l1). set (o' := omap win_buffer l2).
  assert (H1 : omap win_buffer (windows s) = o ++ (option_list (win_buffer w)) ++ o').
  { rewrite E, omap_app. cbn [omap list_omap]. by destruct (win_buffer w). }
  assert (H2 : omap win_buffer (<[i := win_cleared w]> (windows s)) = o ++ o').
  { rewrite Hins, omap_app. done. }
  unfold win_bufs in *. rewrite H1 in *. unfold win_release.
  split; unfold win_bufs; cbn [windows win_heap]; rewrite ?H2.
  - by rewrite length_insert.
  - apply Forall_insert_list; [done|by apply win_cleared_ok].
  - apply NoDup_app in Hn as (? & ? & [? [? ?]]%NoDup_app). apply NoDup_app. split_and!; try done. set_solver.
  - destruct (win_buffer w) as [p|]; [|done]. rewrite kfree_live, Hv. cbn [option_list app] in *.
    apply NoDup_app in Hn as (? & ? & [? ?]%NoDup_cons). set_solver.
  - destruct (win_buffer w); set_solver.
Qed.

(** Creating a window in an inactive slot. *)
Lemma win_inv_new base s i w w' p h :
  win_inv base s → windows s !! i = Some w → win_buffer w = None →
  win_ok w' → win_buffer w' = Some p → p ∉ live (win_heap s) → live h = {[p]} ∪ live (win_heap s) →
  win_inv base (mk_wins (<[i := w']> (windows s)) h).
Proof using Type*.
  intros [Hl Ho Hn Hv Hd] Hi Hb Hw' Hb' Hp Hh. destruct (win_split _ _ _ Hi) as (l1 & l2 & E & _ & Hins).
  assert (H1 : omap win_buffer (windows s) = omap win_buffer l1 ++ omap win_buffer l2).
  { rewrite E, omap_app. cbn [omap list_omap]. by rewrite Hb. }
  assert (H2 : omap win_buffer (<[i := w']> (windows s)) = omap win_buffer l1 ++ p :: omap win_buffer l2).
  { rewrite Hins, omap_app. cbn [omap list_omap]. by rewrite Hb'. }
  unfold win_bufs in *. rewrite H1 in *. split; unfold win_bufs; cbn [windows win_heap]; rewrite ?H2.
  - by rewrite length_insert.
  - by apply Forall_insert_list.
  - rewrite <- Permutation_middle. apply NoDup_cons. split; [|done]. set_solver.
  - rewrite Hh, Hv. set_solver.
  - set_solver.
Qed.

(** ** The identifiers *)

Lemma win_id_slot slot gen : 0 ≤ slot < 256 → 0 ≤ gen → WIN_MAKE_ID slot gen = gen * 256 + slot.
Proof.
  intros Hs Hg. unfold WIN_MAKE_ID. rewrite Z.shiftl_mul_pow2 by lia. change (2 ^ 8) with 256.
  assert (Hz : Z.land (gen * 256) slot = 0).
  { apply Z.bits_inj'. intros n Hn. rewrite Z.land_spec, Z.bits_0. change 256 with (2 ^ 8).
    destruct (Z.ltb_spec n 8); [by rewrite Z.mul_pow2_bits_low|].
    destruct (decide (slot = 0)) as [->|]; [by rewrite Z.bits_0, andb_false_r|].
    rewrite (Z.bits_above_log2 slot); [apply andb_false_r|lia|].
    apply Z.log2_lt_pow2; [lia|]. apply Z.lt_le_trans with (2 ^ 8); [lia|]. apply Z.pow_le_mono_r; lia. }
  rewrite <- Z.lxor_lor by done. by rewrite <- Z.add_nocarry_lxor.
Qed.

Lemma win_decode wid : WIN_SLOT wid = wid mod 256 ∧ WIN_GEN wid = wid / 256 mod 65536.
Proof.
  unfold WIN_SLOT, WIN_GEN. change 0xFF with (Z.ones 8). change 0xFFFF with (Z.ones 16).
  rewrite !Z.land_ones, Z.shiftr_div_pow2 by lia. done.
Qed.

Lemma win_id_decode slot gen : 0 ≤ slot < 256 → is_u16 gen →
  WIN_SLOT (WIN_MAKE_ID slot gen) = slot ∧ WIN_GEN (WIN_MAKE_ID slot gen) = gen.
Proof.
  intros Hs Hg. destruct (win_decode (WIN_MAKE_ID slot gen)) as [-> ->].
  unfold is_u16 in Hg. rewrite win_id_slot by lia. mlia.
Qed.

Lemma win_get_Some wid s i w :
  win_get wid s = Some (i, w) →
  windows s !! i = Some w ∧ (i < MAX_WINDOWS)%nat ∧ WIN_SLOT wid = Z.of_nat i ∧
  win_active w ≠ 0 ∧ win_generation w = WIN_GEN wid.
Proof using Type*.
  unfold win_get. destruct (orb _ _) eqn:Hr; [done|]. apply orb_false_iff in Hr as [H1 H2].
  destruct (windows s !! Z.to_nat (WIN_SLOT wid)) as [w'|] eqn:E; [|done]. cbn [mbind option_bind].
  destruct (Z.eqb_spec (win_active w') 0); [done|]. destruct (Z.eqb_spec (win_generation w') (WIN_GEN wid)); [|done].
  cbn [negb]. intros [= <- <-]. split_and!; try done; lia.
Qed.

Lemma win_get_lookup wid s i w :
  windows s !! i = Some w → (i < MAX_WINDOWS)%nat → WIN_SLOT wid = Z.of_nat i →
  win_get wid s = if (win_active w =? 0) || negb (win_generation w =? WIN_GEN wid) then None else Some (i, w).
Proof using Type*.
  intros Hi Hlt Hs. unfold win_get. rewrite Hs. unfold MAX_WINDOWS in *.
  rewrite (proj2 (Z.ltb_ge _ _)), (proj2 (Z.leb_gt _ _)), Nat2Z.id, Hi by lia. cbn [orb mbind option_bind].
  by destruct (win_active w =? 0), (win_generation w =? WIN_GEN wid).
Qed.

(** ** How a slot may change: [n] creations at most *)

Definition evol (n : Z) (w w' : kernel_window_t) : Prop :=
  ∃ c, 0 ≤ c ≤ n ∧ win_generation w' = u16 (win_generation w + c) ∧
       (c = 0 → win_active w = 0 → win_active w' = 0).

Lemma evol_touch w w' :
  is_u16 (win_generation w) → win_generation w' = win_generation w → (win_active w = 0 → win_active w' = 0) →
  evol 0 w w'.
Proof using Type*. intros Hu Hg Ha. exists 0. split; [lia|]. rewrite Z.add_0_r, u16_small by done. done. Qed.

Lemma evol_refl n w : 0 ≤ n → is_u16 (win_generation w) → evol n w w.
Proof using Type*. intros Hn Hu. exists 0. rewrite Z.add_0_r, u16_small by done. split; [lia|done]. Qed.

Lemma evol_trans n m w w1 w2 : evol n w w1 → evol m w1 w2 → evol (n + m) w w2.
Proof using Type*.
  intros (c & Hc & Hg & Ha) (c' & Hc' & Hg' & Ha'). exists (c + c'). split; [lia|]. split.
  - rewrite Hg', Hg. unfold u16. rewrite Zplus_mod_idemp_l. f_equal. lia.
  - intros H0 Hw. apply Ha'; [lia|]. apply Ha; [lia|done].
Qed.

Lemma Forall2_evol_insert n (ws : list kernel_window_t) i w w' :
  0 ≤ n → Forall win_ok ws → ws !! i = Some w → evol n w w' → Forall2 (evol n) ws (<[i := w']> ws).
Proof using Type*.
  intros Hn Ho Hi He. destruct (win_split _ _ _ Hi) as (l1 & l2 & -> & _ & ->).
  apply Forall_app in Ho as [Ho1 Ho2]. apply Forall_cons in Ho2 as [_ Ho2].
  apply Forall2_app; [|constructor; [done|]]; apply Forall_Forall2_diag; (eapply Forall_impl; [done|]);
    intros x [Hx _]; by apply evol_refl.
Qed.

Lemma Forall2_evol_refl n (ws : list kernel_window_t) : 0 ≤ n → Forall win_ok ws → Forall2 (evol n) ws ws.
Proof using Type*.
  intros Hn Ho. apply Forall_Forall2_diag. eapply Forall_impl; [done|]. intros x [Hx _]. by apply evol_refl.
Qed.

(** ** The operations *)

(** A defined operation that keeps the invariant, with [n] creations. *)
Definition win_op_ok {A} (base : gset Z) (n : Z) (s : win_state H) (r : option (A * win_state H)) : Prop :=
  ∃ a s', r = Some (a, s') ∧ win_inv base s' ∧ Forall2 (evol n) (windows s) (windows s').

Lemma win_op_same {A} base n s (a : A) : 0 ≤ n → win_inv base s → win_op_ok base n s (Some (a, s)).
Proof using Type*.
  intros Hn Hi. exists a, s. split; [done|]. split; [done|]. apply Forall2_evol_refl; [done|apply Hi].
Qed.

(** An update of a valid window that keeps its generation and buffer. *)
Lemma win_op_update {A} base s wid i w w' (a : A) :
  win_inv base s → win_get wid s = Some (i, w) → win_ok w' →
  win_buffer w' = win_buffer w → win_generation w' = win_generation w → win_active w' = win_active w →
  win_op_ok base 0 s (Some (a, set_win i w' s)).
Proof using Type*.
  intros Hi (Hl & _ & _ & _ & _)%win_get_Some Hw' Hb Hg Ha. eexists _, _. split; [done|].
  split; [by eapply win_inv_same|]. eapply Forall2_evol_insert; [lia|apply Hi|done|].
  pose proof (Forall_lookup_1 _ _ _ _ (wi_ok _ _ Hi) Hl) as [Hu _]. apply evol_touch; [done|done|congruence].
Qed.

Lemma win_get_ok base s wid i w :
  win_inv base s → win_get wid s = Some (i, w) →
  windows s !! i = Some w ∧ is_u16 (win_generation w) ∧ win_active w = 1 ∧ win_buffer w ≠ None ∧
  win_buf_size w = win_w w * win_h w ∧ Z.of_nat (length (win_pixels w)) = win_buf_size w ∧
  0 < win_buf_size w ≤ 400000 ∧ win_ok w ∧
  (∃ q, kring_rep (win_key_ring w) 15 q) ∧ ∃ q, kring_rep (win_text_ring w) 2047 q.
Proof using Type*.
  intros Hi (Hl & _ & _ & Ha & _)%win_get_Some.
  pose proof (Forall_lookup_1 _ _ _ _ (wi_ok _ _ Hi) Hl) as Hok. pose proof Hok as [Hg [[? _]|H1]]; [done|].
  destruct H1 as (? & ? & Hw & Hh & Hs & Hp & Hk & Ht). unfold WIN_MAX_WIDTH, WIN_MAX_HEIGHT in *.
  split_and!; try done; nia.
Qed.

Lemma window_create_ok base pid w h title s :
  win_inv base s → win_op_ok base 1 s (window_create pid w h title s).
Proof using Type*.
  intros Hi. unfold window_create. case_match eqn:Hr; [by apply win_op_same|].
  rewrite !orb_false_iff in Hr. destruct Hr as [[[Hw1 Hw2] Hh1] Hh2].
  unfold slot_table_find_free_by_flag. destruct (find_index _ _) as [i|] eqn:Hf; [|by apply win_op_same].
  rewrite (proj2 (Z.ltb_ge _ _)), Nat2Z.id by lia.
  apply find_index_Some in Hf as [[f [Hf Hz]] _]. apply Z.eqb_eq in Hz as ->.
  rewrite list_lookup_fmap in Hf. destruct (windows s !! i) as [win|] eqn:Hl; [|done].
  injection Hf as Ha.
  pose proof (Forall_lookup_1 _ _ _ _ (wi_ok _ _ Hi) Hl) as [Hg Hcase].
  destruct Hcase as [(_ & Hb & Hk & Ht)|[? _]]; [|lia].
  unfold WIN_MAX_WIDTH, WIN_MAX_HEIGHT in *.
  assert (Hsz : u32 (w * h) = w * h) by (apply u32_small; unfold is_u32; nia). rewrite Hsz.
  destruct (kmalloc (w * h) (win_heap s)) as [[p|] heap] eqn:Hm; cbn [mbind option_bind].
  - apply kmalloc_Some in Hm as [Hp Hlive]. eexists _, _. split; [done|]. rewrite Hk, Ht. split.
    + eapply win_inv_new; [done|done|done| |reflexivity|done|done].
      split; [cbn; apply u16_range|right]. cbn [win_active win_buffer win_w win_h win_buf_size win_pixels win_key_ring win_text_ring].
      rewrite length_replicate. unfold WIN_MAX_WIDTH, WIN_MAX_HEIGHT. split_and!; try done; try nia.
      * exists []. exact (kring_u8_init_rep (replicate 16 0) ltac:(rewrite length_replicate; lia) ltac:(rewrite length_replicate; lia)).
      * exists []. unfold ring_storage. cbn [kr_buf kring_zero default].
        pose proof (kring_u8_init_rep (replicate 2048 0)) as Hr. rewrite length_replicate in Hr.
        apply Hr; lia.
    + eapply Forall2_evol_insert; [lia|apply Hi|done|]. exists 1. split; [lia|]. split; [done|]. lia.
  - apply kmalloc_None in Hm. eexists _, _. split; [done|]. split.
    + destruct Hi as [? ? ? Hv ?]. split; try done. by cbn [win_heap windows]; rewrite Hm.
    + apply Forall2_evol_refl; [lia|apply Hi].
Qed.

Lemma window_destroy_ok base wid pid s :
  win_inv base s → win_op_ok base 0 s (window_destroy wid pid s).
Proof using Type*.
  intros Hi. unfold window_destroy. destruct (win_get wid s) as [[i w]|] eqn:Hg; [|by apply win_op_same].
  case_match; [by apply win_op_same|].
  destruct (win_get_ok _ _ _ _ _ Hi Hg) as (Hl & Hu & _). eexists _, _. split; [done|].
  split; [by apply win_inv_clear|]. eapply Forall2_evol_insert; [lia|apply Hi|done|]. by apply evol_touch.
Qed.

Lemma window_write_ok base wid pid data len s :
  win_inv base s → 0 ≤ len → (∀ d, data = Some d → len ≤ Z.of_nat (length d)) →
  win_op_ok base 0 s (window_write wid pid data len s).
Proof using Type*.
  intros Hi Hlen Hd. unfold window_write. destruct (win_get wid s) as [[i w]|] eqn:Hg; [|by apply win_op_same].
  case_match; [by apply win_op_same|]. destruct data as [d|]; [|by apply win_op_same].
  case_match; [by apply win_op_same|]. specialize (Hd d eq_refl).
  destruct (win_get_ok _ _ _ _ _ Hi Hg) as (Hl & Hu & Ha & Hb & Hsz & Hpx & Hpos & Hok & Hk & Ht).
  match goal with |- context [Z.of_nat (length d) <? ?t] => set (to_copy := t) end.
  assert (Htc : 0 ≤ to_copy ≤ len ∧ to_copy ≤ win_buf_size w) by (unfold to_copy; case_match; lia).
  rewrite (proj2 (Z.ltb_ge _ _)), (proj2 (Z.ltb_ge _ _)) by lia. cbn [orb].
  eapply win_op_update; [done|done| |done..]. split; [done|right].
  destruct Hok as [_ [[? _]|(_ & _ & ? & ? & _)]]; [lia|].
  cbn [win_active win_buffer win_w win_h win_buf_size win_pixels win_key_ring win_text_ring].
  rewrite length_splice by (rewrite length_take; lia). split_and!; done || lia.
Qed.

(** A window with another state of its rings. *)
Lemma with_key_ring_ok w r q : win_ok w → win_active w = 1 → kring_rep r 15 q → win_ok (with_key_ring w r).
Proof using Type*.
  intros [Hu [[? _]|(? & ? & ? & ? & ? & ? & ? & ?)]] Ha Hr; [lia|]. split; [done|right].
  do 6 (split; [done|]). split; [by exists q|done].
Qed.
Lemma with_text_ring_ok w r q : win_ok w → win_active w = 1 → kring_rep r 2047 q → win_ok (with_text_ring w r).
Proof using Type*.
  intros [Hu [[? _]|(? & ? & ? & ? & ? & ? & ? & ?)]] Ha Hr; [lia|]. split; [done|right].
  do 7 (split; [done|]). by exists q.
Qed.

Lemma window_getkey_ok base wid pid s : win_inv base s → win_op_ok base 0 s (window_getkey wid pid s).
Proof using Type*.
  intros Hi. unfold window_getkey. destruct (win_get wid s) as [[i w]|] eqn:Hg; [|by apply win_op_same].
  case_match; [by apply win_op_same|].
  destruct (win_get_ok _ _ _ _ _ Hi Hg) as (Hl & Hu & Ha & _ & _ & _ & _ & Hok & (q & Hq) & _).
  destruct q as [|b q].
  - rewrite (kring_pop_empty _ _ Hq). cbn [mbind option_bind].
    eapply win_op_update; [done|done|by eapply with_key_ring_ok|done..].
  - destruct (kring_pop_ok _ _ _ _ Hq) as (r & -> & Hr). cbn [mbind option_bind].
    eapply win_op_update; [done|done|by eapply with_key_ring_ok|done..].
Qed.

Lemma window_sendkey_ok base wid key s : win_inv base s → win_op_ok base 0 s (window_sendkey wid key s).
Proof using Type*.
  intros Hi. unfold window_sendkey. destruct (win_get wid s) as [[i w]|] eqn:Hg; [|by apply win_op_same].
  destruct (win_get_ok _ _ _ _ _ Hi Hg) as (Hl & Hu & Ha & _ & _ & _ & _ & Hok & (q & Hq) & _).
  pose proof (fifo_bound _ _ _ Hq). destruct (decide (length q = 15%nat)) as [Hf|Hf].
  - rewrite (kring_push_full _ _ _ _ Hq Hf). cbn [mbind option_bind Z.ltb Z.compare].
    eapply win_op_update; [done|done|by eapply with_key_ring_ok|done..].
  - destruct (kring_push_ok _ _ _ (u8 key) Hq) as (r & -> & Hr); [lia|]. cbn [mbind option_bind Z.ltb Z.compare].
    eapply win_op_update; [done|done|by eapply with_key_ring_ok|done..].
Qed.

Lemma window_append_text_ok base wid data len s :
  win_inv base s → (∀ d, data = Some d → len ≤ Z.of_nat (length d)) →
  win_op_ok base 0 s (window_append_text wid data len s).
Proof using Type*.
  intros Hi Hd. unfold window_append_text. destruct data as [d|]; [|by apply win_op_same].
  specialize (Hd d eq_refl). case_match; [by apply win_op_same|].
  destruct (win_get wid s) as [[i w]|] eqn:Hg; [|by apply win_op_same].
  rewrite (proj2 (Z.ltb_ge _ _)) by lia.
  destruct (win_get_ok _ _ _ _ _ Hi Hg) as (Hl & Hu & Ha & _ & _ & _ & _ & Hok & _ & (q & Hq)).
  destruct (push_bytes_spec (take (Z.to_nat len) d) (win_text_ring w) 2047 q Hq) as (r & -> & Hr).
  cbn [mbind option_bind]. eapply win_op_update; [done|done|by eapply with_text_ring_ok|done..].
Qed.

Lemma window_read_text_ok base wid pid dest max_len s :
  win_inv base s → win_op_ok base 0 s (window_read_text wid pid dest max_len s).
Proof using Type*.
  intros Hi. unfold window_read_text. case_match; [by apply win_op_same|].
  destruct (win_get wid s) as [[i w]|] eqn:Hg; [|by apply win_op_same]. case_match; [by apply win_op_same|].
  destruct (win_get_ok _ _ _ _ _ Hi Hg) as (Hl & Hu & Ha & _ & _ & _ & _ & Hok & _ & (q & Hq)).
  destruct (pop_bytes_spec (Z.to_nat max_len) (win_text_ring w) 2047 q Hq) as (r & -> & Hr).
  cbn [mbind option_bind]. eapply win_op_update; [done|done|by eapply with_text_ring_ok|done..].
Qed.

Lemma cleanup_loop_spec pid ws h base :
  Forall win_ok ws → NoDup (omap win_buffer ws) → live h = base ∪ win_bufs ws → base ## win_bufs ws →
  let '(ws', h') := cleanup_loop pid ws h in
  ws' = (λ w, if negb (win_active w =? 0) && (win_owner_pid w =? pid) then win_cleared w else w) <$> ws ∧
  NoDup (omap win_buffer ws') ∧ live h' = base ∪ win_bufs ws' ∧ base ## win_bufs ws' ∧
  win_bufs ws' ⊆ win_bufs ws.
Proof using Type*.
  revert h base. induction ws as [|w ws IH]; intros h base Ho Hn Hv Hd; [done|].
  apply Forall_cons in Ho as [Hw Ho]. cbn [cleanup_loop]. unfold win_bufs in *. cbn [omap list_omap] in *.
  destruct (negb _ && _) eqn:Hc.
  - specialize (IH (win_release w h) base Ho). destruct (cleanup_loop pid ws (win_release w h)) as [ws' h'].
    destruct IH as (-> & Hn' & Hv' & Hd' & Hs).
    + destruct (win_buffer w); [by apply NoDup_cons in Hn as [_ ?]|done].
    + unfold win_release. destruct (win_buffer w) as [p|]; [|done]. rewrite kfree_live, Hv.
      apply NoDup_cons in Hn as [? _]. set_solver.
    + destruct (win_buffer w); set_solver.
    + cbn [fmap list_fmap]. rewrite Hc. cbn [omap list_omap win_buffer win_cleared].
      split_and!; try done. destruct (win_buffer w); set_solver.
  - specialize (IH h (base ∪ list_to_set (option_list (win_buffer w))) Ho).
    destruct (cleanup_loop pid ws h) as [ws' h']. destruct IH as (-> & Hn' & Hv' & Hd' & Hs).
    + destruct (win_buffer w); [by apply NoDup_cons in Hn as [_ ?]|done].
    + rewrite Hv. destruct (win_buffer w); set_solver.
    + destruct (win_buffer w) as [p|]; [apply NoDup_cons in Hn as [? _]|]; set_solver.
    + cbn [fmap list_fmap]. rewrite Hc. cbn [omap list_omap].
      split; [done|]. destruct (win_buffer w) as [p|]; [|set_solver].
      cbn [option_list] in *. apply NoDup_cons in Hn as [? _]. split_and!; [|set_solver..].
      apply NoDup_cons. split; [set_solver|done].
Qed.

Lemma window_cleanup_ok base pid s : win_inv base s →
  ∃ s', window_cleanup_pid pid s = Some (tt, s') ∧ win_inv base s' ∧
    Forall2 (evol 0) (windows s) (windows s') ∧
    windows s' = (λ w, if negb (win_active w =? 0) && (win_owner_pid w =? pid) then win_cleared w else w)
                   <$> windows s.
Proof using Type*.
  intros [Hl Ho Hn Hv Hd]. unfold window_cleanup_pid.
  pose proof (cleanup_loop_spec pid _ _ base Ho Hn Hv Hd) as Hc.
  destruct (cleanup_loop pid (windows s) (win_heap s)) as [ws' h']. destruct Hc as (-> & ? & ? & ? & _).
  eexists. split; [done|]. cbn [windows]. split_and!; [split; try done| |done].
  - cbn [windows]. by rewrite length_fmap.
  - apply Forall_fmap. eapply Forall_impl; [done|]. intros w Hw. simpl. case_match; [by apply win_cleared_ok|done].
  - apply Forall2_fmap_r, Forall_Forall2_diag. eapply Forall_impl; [done|]. intros w [Hu _].
    unfold compose. case_match; apply evol_touch; done.
Qed.

(** ** Sequences of calls *)

Inductive win_call :=
  | WCreate (pid w h : Z) (title : option (list Z)) | WDestroy (wid pid : Z)
  | WWrite (wid pid : Z) (data : option (list Z)) (len : Z) | WGetkey (wid pid : Z)
  | WSendkey (wid key : Z) | WCleanup (pid : Z)
  | WAppend (wid : Z) (data : option (list Z)) (len : Z)
  | WReadText (wid pid : Z) (dest : bool) (max_len : Z).

(** The pointers passed point to as many bytes as the length says. *)
Definition win_call_ok (c : win_call) : Prop :=
  match c with
  | WWrite _ _ data len => 0 ≤ len ∧ ∀ d, data = Some d → len ≤ Z.of_nat (length d)
  | WAppend _ data len => ∀ d, data = Some d → len ≤ Z.of_nat (length d)
  | _ => True
  end.

Definition win_run (c : win_call) (s : win_state H) : option (win_state H) :=
  match c with
  | WCreate pid w h title => snd <$> window_create pid w h title s
  | WDestroy wid pid => snd <$> window_destroy wid pid s
  | WWrite wid pid data len => snd <$> window_write wid pid data len s
  | WGetkey wid pid => snd <$> window_getkey wid pid s
  | WSendkey wid key => snd <$> window_sendkey wid key s
  | WCleanup pid => snd <$> window_cleanup_pid pid s
  | WAppend wid data len => snd <$> window_append_text wid data len s
  | WReadText wid pid dest max_len => snd <$> window_read_text wid pid dest max_len s
  end.

Fixpoint win_runs (cs : list win_call) (s : win_state H) : option (win_state H) :=
  match cs with [] => Some s | c :: cs => s' ← win_run c s; win_runs cs s' end.

(** The number of creations in a sequence of calls. *)
Definition is_create (c : win_call) : bool := match c with WCreate _ _ _ _ => true | _ => false end.
Definition creations (cs : list win_call) : Z := Z.of_nat (length (List.filter is_create cs)).

Lemma win_run_ok base c s : win_inv base s → win_call_ok c →
  ∃ s', win_run c s = Some s' ∧ win_inv base s' ∧
        Forall2 (evol (if is_create c then 1 else 0)) (windows s) (windows s').
Proof using Type*.
  intros Hi Hc. destruct c; cbn [win_run is_create win_call_ok] in *.
  - destruct (window_create_ok base pid w h title s Hi) as (? & s' & -> & ? & ?); eauto.
  - destruct (window_destroy_ok base wid pid s Hi) as (? & s' & -> & ? & ?); eauto.
  - destruct Hc as [Hl Hc].
    destruct (window_write_ok base wid pid data len s Hi Hl Hc) as (? & s' & -> & ? & ?); eauto.
  - destruct (window_getkey_ok base wid pid s Hi) as (? & s' & -> & ? & ?); eauto.
  - destruct (window_sendkey_ok base wid key s Hi) as (? & s' & -> & ? & ?); eauto.
  - destruct (window_cleanup_ok base pid s Hi) as (s' & -> & ? & ? & _); eauto.
  - destruct (window_append_text_ok base wid data len s Hi Hc) as (? & s' & -> & ? & ?); eauto.
  - destruct (window_read_text_ok base wid pid dest max_len s Hi) as (? & s' & -> & ? & ?); eauto.
Qed.

Lemma win_runs_ok base cs s : win_inv base s → Forall win_call_ok cs →
  ∃ s', win_runs cs s = Some s' ∧ win_inv base s' ∧
        Forall2 (evol (creations cs)) (windows s) (windows s').
Proof using Type*.
  intros Hi Hcs. revert s Hi. induction Hcs as [|c cs Hc Hcs IH]; intros s Hi; cbn [win_runs].
  - exists s. split; [done|]. split; [done|]. apply Forall2_evol_refl; [done|apply Hi].
  - destruct (win_run_ok base c s Hi Hc) as (s1 & -> & Hi1 & He1). cbn [mbind option_bind].
    destruct (IH s1 Hi1) as (s2 & -> & Hi2 & He2). exists s2. split; [done|]. split; [done|].
    eapply Forall2_trans; [|exact He1|exact He2]. intros w w1 w2 H1 H2.
    replace (creations (c :: cs)) with ((if is_create c then 1 else 0) + creations cs).
    2: { unfold creations. cbn [List.filter]. destruct (is_create c); cbn [length]; lia. }
    by eapply evol_trans.
Qed.

(** The heap as [window_init] finds it. *)
Lemma window_init_inv s : ∃ s', window_init s = Some (tt, s') ∧ win_inv (live (win_heap s)) s'.
Proof using Type*.
  assert (Hnil : omap win_buffer (replicate MAX_WINDOWS win_zero) = []) by done.
  eexists. split; [reflexivity|]. split; [done|..].
  - apply Forall_replicate. split; [done|]. by left.
  - constructor.
  - unfold win_bufs. cbn [windows win_heap]. rewrite Hnil. set_solver.
  - unfold win_bufs. cbn [windows win_heap]. rewrite Hnil. set_solver.
Qed.

(** ** Properties *)


(** The identifier of a window that was destroyed is refused by every
    operation as long as fewer than 65536 windows were created since: whatever
    the other calls do, it never names another window. *)
Theorem window_stale_id_refused (base : gset Z) (s s1 : win_state H) (wid pid : Z) (cs : list win_call)
  (Hinv : win_inv base s) (Hdestroy : window_destroy wid pid s = Some (0, s1))
  (Hcs : Forall win_call_ok cs) (Hfew : creations cs < 65536) :
  ∃ s2, win_runs cs s1 = Some s2 ∧ win_get wid s2 = None ∧
    window_destroy wid pid s2 = Some (-1, s2) ∧
    (∀ key, window_sendkey wid key s2 = Some (-1, s2)) ∧
    (∀ dest len, window_read wid dest len s2 = Some (-1, [])) ∧
    (∀ data len, window_write wid pid data len s2 = Some (-1, s2)).
Proof using Type*.
  destruct (window_destroy_ok base wid pid s Hinv) as (? & s1' & E & Hi1 & _).
  rewrite Hdestroy in E. injection E as <- <-.
  unfold window_destroy in Hdestroy. destruct (win_get wid s) as [[i w]|] eqn:Hg; [|done].
  case_match; [done|]. injection Hdestroy as Hs1.
  destruct (win_get_Some _ _ _ _ Hg) as (Hl & Hi & Hslot & Ha & Hgen).
  pose proof (lookup_lt_Some _ _ _ Hl) as Hlt.
  assert (Hl1 : windows s1 !! i = Some (win_cleared w)).
  { rewrite <- Hs1. cbn [windows]. by apply list_lookup_insert_eq. }
  destruct (win_runs_ok base cs s1 Hi1 Hcs) as (s2 & E2 & Hi2 & He).
  destruct (Forall2_lookup_l _ _ _ _ _ He Hl1) as (w2 & Hl2 & c & Hc & Hg2 & Ha2).
  exists s2. split; [done|].
  assert (Hnone : win_get wid s2 = None).
  { rewrite (win_get_lookup wid s2 i w2 Hl2 Hi Hslot).
    destruct (Z.eqb_spec (win_active w2) 0) as [|Hact]; [done|].
    destruct (Z.eqb_spec (win_generation w2) (WIN_GEN wid)) as [Heq|]; [|done]. exfalso.
    assert (Hc0 : c = 0).
    { cbn [win_generation win_cleared] in Hg2. rewrite Heq, Hgen in Hg2.
      destruct (win_decode wid) as [_ Hd]. unfold u16 in Hg2. rewrite Hd in Hg2. mlia. }
    apply Hact, Ha2; done. }
  split; [done|]. unfold window_destroy, window_sendkey, window_read, window_write. rewrite Hnone. done.
Qed.

(** Text appended to a window comes out of it in order: after
    appending [data] to a window that holds the text [q], the owner reads the
    oldest bytes of [q ++ data], of which at most 2047 are kept, and other
    processes are refused. *)
Theorem window_text_fifo (base : gset Z) (s : win_state H) (wid pid : Z) (i : nat) (w : kernel_window_t)
  (q data : list Z) (n : Z)
  (Hinv : win_inv base s) (Hget : win_get wid s = Some (i, w)) (Hq : kring_rep (win_text_ring w) 2047 q)
  (Hdata : data ≠ []) (Hn : 0 < n) :
  ∃ s1, window_append_text wid (Some data) (Z.of_nat (length data)) s =
          Some (Z.of_nat (length data `min` (2047 - length q)), s1) ∧
    let text := q ++ take (2047 - length q) data in
    (∃ s2, window_read_text wid (win_owner_pid w) true n s1 =
             Some ((Z.of_nat (length (take (Z.to_nat n) text)), take (Z.to_nat n) text), s2)) ∧
    (pid ≠ win_owner_pid w → window_read_text wid pid true n s1 = Some ((-1, []), s1)).
Proof using Type*.
  destruct (win_get_Some _ _ _ _ Hget) as (Hl & Hi & Hslot & Ha & Hgen).
  pose proof (lookup_lt_Some _ _ _ Hl) as Hlt.
  unfold window_append_text. rewrite (proj2 (Z.leb_gt _ _)) by (destruct data; [done|simpl; lia]).
  rewrite Hget, Z.ltb_irrefl, Nat2Z.id, take_ge by lia.
  destruct (push_bytes_spec data (win_text_ring w) 2047 q Hq) as (r & -> & Hr).
  cbn [mbind option_bind]. eexists. split; [done|].
  set (s1 := set_win i (with_text_ring w r) s).
  assert (Hget1 : win_get wid s1 = Some (i, with_text_ring w r)).
  { rewrite (win_get_lookup wid s1 i (with_text_ring w r)); try done.
    - cbn [win_active win_generation with_text_ring].
      rewrite (proj2 (Z.eqb_neq _ _) Ha), Hgen, Z.eqb_refl. done.
    - unfold s1, set_win. cbn [windows]. by apply list_lookup_insert_eq. }
  unfold window_read_text. rewrite Hget1, (proj2 (Z.leb_gt _ _)) by done. cbn [negb orb win_owner_pid with_text_ring].
  split.
  - rewrite Z.eqb_refl. cbn [negb win_text_ring with_text_ring].
    destruct (pop_bytes_spec (Z.to_nat n) r 2047 _ Hr) as (r' & -> & _). cbn [mbind option_bind]. eauto.
  - intros Hp. by rewrite (proj2 (Z.eqb_neq _ _)) by done.
Qed.
End window.

(** ** Examples *)

Definition wins_boot : win_state (set_heap 64) :=
  mk_wins (replicate MAX_WINDOWS win_zero) (heap0 64).


(** A system with one window of process 5, whose identifier is 256. *)
Lemma one_window : ∃ s w, win_run (WCreate 5 4 2 (Some (str "term"))) wins_boot = Some s ∧ win_inv ∅ s ∧
  win_get 256 s = Some (O, w) ∧ win_owner_pid w = 5 ∧ kring_rep (win_text_ring w) 2047 [].
Proof.
  destruct (window_init_inv wins_boot) as (s0 & E0 & Hi0). injection E0 as <-.
  eexists _, _. split; [reflexivity|]. split.
  - destruct (win_run_ok (H := set_heap 64) ∅ (WCreate 5 4 2 (Some (str "term"))) wins_boot Hi0 I) as (s & E & Hi & _).
    injection E as <-. exact Hi.
  - split; [reflexivity|]. split; [reflexivity|]. cbn [win_text_ring].
    pose proof (kring_u8_init_rep (replicate 2048 0)) as Hr. rewrite length_replicate in Hr. apply Hr; lia.
Qed.

Lemma window_stale_id_refused_witness :
  ∃ s s1 s2, window_destroy (H := set_heap 64) 256 5 s = Some (0, s1) ∧
    win_runs [WCreate 5 4 2 None] s1 = Some s2 ∧ win_get 256 s2 = None.
Proof.
  destruct one_window as (s & w & _ & Hi & Hg & Hp & _).
  destruct (window_destroy (H := set_heap 64) 256 5 s) as [[rc s1]|] eqn:E.
  2: { exfalso. unfold window_destroy in E. rewrite Hg, Hp in E. discriminate E. }
  assert (rc = 0) as -> by (unfold window_destroy in E; rewrite Hg, Hp in E; by injection E).
  destruct (window_stale_id_refused ∅ s s1 256 5 [WCreate 5 4 2 None] Hi E) as (s2 & E2 & H & _).
  - apply Forall_cons_2; [exact I|apply Forall_nil_2].
  - reflexivity.
  - exists s, s1, s2. split; [exact E|]. split; [exact E2|exact H].
Defined.

Lemma window_text_fifo_witness :
  ∃ s s1 s2, window_append_text (H := set_heap 64) 256 (Some [104; 105]) 2 s = Some (2, s1) ∧
    window_read_text 256 5 true 10 s1 = Some ((2, [104; 105]), s2).
Proof.
  destruct one_window as (s & w & _ & Hi & Hg & Hp & Hq).
  destruct (window_text_fifo ∅ s 256 7 0 w [] [104; 105] 10 Hi Hg Hq) as (s1 & E1 & (s2 & E2) & _).
  - discriminate.
  - reflexivity.
  - rewrite Hp in E2. exists s, s1, s2. split; [exact E1|exact E2].
Defined.
