(* ===== verification/Socket.v ===== *)
(** * TCP sockets ([src/src/net/net.c], from the socket table on)

    The table of sockets of the system calls, over the third-party TCP stack lwip,
    which is the class [Lwip]: its functions, and for the registered callbacks the
    events that it raises while the network is polled.  The callbacks get the socket
    that was registered with [tcp_arg], by its number. *)

From S2P Require Import Prelude Kring KHeap Window.

(** ** The TCP stack *)

(** The state of lwip is [N]; a [pcb] is its number.  [tcp_arg], [tcp_recv],
    [tcp_err] and [tcp_accept] register the socket and the callbacks, or clear them. *)
Class Lwip (N : Type) := {
  tcp_new : N → option Z * N;
  ip_set_option : Z → Z → N → N;
  tcp_bind : Z → Z → N → Z * N;
  tcp_listen : Z → N → option Z * N;
  tcp_close : Z → N → Z * N;
  tcp_abort : Z → N → N;
  tcp_sndbuf : Z → N → Z;
  tcp_write : Z → list Z → N → Z * N;
  tcp_output : Z → N → N;
  tcp_recved : Z → Z → N → N;
  tcp_arg : Z → option Z → N → N;
  tcp_recv : Z → bool → N → N;
  tcp_err : Z → bool → N → N;
  tcp_accept : Z → bool → N → N
}.

Definition ERR_OK : Z := 0.
Definition ERR_ABRT : Z := -13.
Definition SOF_REUSEADDR : Z := 4.

(** ** The socket table *)

Definition MAX_SOCKETS : nat := 8.
Definition SOCK_RX_BUF : Z := 4096.
Definition SOCK_UNUSED : Z := 0.
Definition SOCK_LISTEN : Z := 1.
Definition SOCK_STREAM : Z := 2.

Record ksocket_t := mk_sock {
  s_in_use : Z;
  s_type : Z;
  s_pcb : option Z;
  s_owner_pid : Z;
  s_accepted_fd : Z;
  s_rx_ring : kring_u8_t;
  s_rx_closed : bool;
  s_err : bool
}.

Definition sock_zero : ksocket_t := mk_sock 0 SOCK_UNUSED None 0 0 kring_zero false false.

Definition with_in_use (v : Z) (s : ksocket_t) : ksocket_t := mk_sock v (s_type s) (s_pcb s) (s_owner_pid s) (s_accepted_fd s) (s_rx_ring s) (s_rx_closed s) (s_err s).
Definition with_pcb (v : option Z) (s : ksocket_t) : ksocket_t := mk_sock (s_in_use s) (s_type s) v (s_owner_pid s) (s_accepted_fd s) (s_rx_ring s) (s_rx_closed s) (s_err s).
Definition with_accepted (v : Z) (s : ksocket_t) : ksocket_t := mk_sock (s_in_use s) (s_type s) (s_pcb s) (s_owner_pid s) v (s_rx_ring s) (s_rx_closed s) (s_err s).
Definition with_ring (v : kring_u8_t) (s : ksocket_t) : ksocket_t := mk_sock (s_in_use s) (s_type s) (s_pcb s) (s_owner_pid s) (s_accepted_fd s) v (s_rx_closed s) (s_err s).
Definition with_closed (v : bool) (s : ksocket_t) : ksocket_t := mk_sock (s_in_use s) (s_type s) (s_pcb s) (s_owner_pid s) (s_accepted_fd s) (s_rx_ring s) v (s_err s).
Definition with_err (v : bool) (s : ksocket_t) : ksocket_t := mk_sock (s_in_use s) (s_type s) (s_pcb s) (s_owner_pid s) (s_accepted_fd s) (s_rx_ring s) (s_rx_closed s) v.
Definition with_conn (ty : Z) (pcb : option Z) (owner : Z) (s : ksocket_t) : ksocket_t :=
  mk_sock (s_in_use s) ty pcb owner (s_accepted_fd s) (s_rx_ring s) (s_rx_closed s) (s_err s).

Section sockets.
Context {N : Type} `{!Lwip N}.

Record net_t := mk_net { n_sockets : list ksocket_t; n_lwip : N; lwip_ready : bool }.

Definition net_boot (l : N) : net_t := mk_net (replicate MAX_SOCKETS sock_zero) l true.

Definition sock (fd : Z) : M net_t ksocket_t := λ n, s ← zlookup (n_sockets n) fd; Some (s, n).
Definition upd_sock (fd : Z) (f : ksocket_t → ksocket_t) : M net_t unit := λ n,
  s ← zlookup (n_sockets n) fd; l ← zupdate (n_sockets n) fd (f s); Some (tt, mk_net l (n_lwip n) (lwip_ready n)).

Definition with_lwip (l : N) (n : net_t) : net_t := mk_net (n_sockets n) l (lwip_ready n).
Definition call {A} (f : N → A * N) : M net_t A := λ n, let '(a, l) := f (n_lwip n) in Some (a, with_lwip l n).
Definition run (f : N → N) : M net_t unit := λ n, Some (tt, with_lwip (f (n_lwip n)) n).

Definition alloc_socket : M net_t Z :=
  n ← get;
  let fd := slot_table_find_free_by_flag (s_in_use <$> n_sockets n) in
  if fd <? 0 then mret (-1) else
  upd_sock fd (λ _, mk_sock 1 SOCK_UNUSED None 0 (-1) (kring_u8_init (replicate (Z.to_nat SOCK_RX_BUF) 0) SOCK_RX_BUF) false false);;
  mret fd.

Definition rx_buf_used (s : ksocket_t) : Z := s32 (kring_u8_used (s_rx_ring s)).

(** ** Callbacks *)

(** [p] is the bytes of the chain of buffers, [None] the end of the stream; the
    loops stop at the first byte that the ring refuses. *)
Definition sock_recv_cb (fd tpcb : Z) (p : option (list Z)) : M net_t Z :=
  match p with
  | None => upd_sock fd (with_closed true);; mret ERR_OK
  | Some data =>
    s ← sock fd;
    '(k, ring) ← lift (push_bytes kring_u8_push data (s_rx_ring s));
    upd_sock fd (with_ring ring);;
    let total_pushed := u16 k in
    (if 0 <? total_pushed then run (tcp_recved tpcb total_pushed) else mret tt);;
    mret ERR_OK
  end.

Definition sock_err_cb (fd : Z) : M net_t unit := upd_sock fd (λ s, with_pcb None (with_err true s)).

Definition sock_accept_cb (lfd newpcb : Z) : M net_t Z :=
  ls ← sock lfd;
  if 0 <=? s_accepted_fd ls then run (tcp_abort newpcb);; mret ERR_ABRT else
  fd ← alloc_socket;
  if fd <? 0 then run (tcp_abort newpcb);; mret ERR_ABRT else
  ls ← sock lfd;
  upd_sock fd (with_conn SOCK_STREAM (Some newpcb) (s_owner_pid ls));;
  run (tcp_arg newpcb (Some fd));; run (tcp_recv newpcb true);; run (tcp_err newpcb true);;
  upd_sock lfd (with_accepted fd);;
  mret ERR_OK.

(** ** Calls *)

(** [pid] is [socket_current_pid()]. *)
Definition net_sock_listen (pid port : Z) : M net_t Z :=
  n ← get;
  if negb (lwip_ready n) then mret (-1) else
  fd ← alloc_socket;
  if fd <? 0 then mret (-1) else
  o ← call tcp_new;
  match o with
  | None => upd_sock fd (with_in_use 0);; mret (-1)
  | Some pcb =>
    run (ip_set_option pcb SOF_REUSEADDR);;
    e ← call (tcp_bind pcb port);
    if negb (e =? ERR_OK) then call (tcp_close pcb);; upd_sock fd (with_in_use 0);; mret (-1) else
    o ← call (tcp_listen pcb);
    match o with
    | None => call (tcp_close pcb);; upd_sock fd (with_in_use 0);; mret (-1)
    | Some lpcb =>
      upd_sock fd (with_conn SOCK_LISTEN (Some lpcb) pid);;
      run (tcp_arg lpcb (Some fd));; run (tcp_accept lpcb true);;
      mret fd
    end
  end.

Definition bad_fd (fd : Z) : bool := (fd <? 0) || (Z.of_nat MAX_SOCKETS <=? fd).

Definition net_sock_accept (pid fd : Z) : M net_t Z :=
  if bad_fd fd then mret (-1) else
  s ← sock fd;
  if (s_in_use s =? 0) || negb (s_type s =? SOCK_LISTEN) then mret (-1) else
  if negb (s_owner_pid s =? pid) then mret (-1) else
  if 0 <=? s_accepted_fd s then upd_sock fd (with_accepted (-1));; mret (s_accepted_fd s) else mret (-1).

Definition net_sock_send (pid fd : Z) (buf : list Z) : M net_t Z :=
  if bad_fd fd then mret (-1) else
  s ← sock fd;
  match s_pcb s with
  | None => mret (-1)
  | Some pcb =>
    if (s_in_use s =? 0) || negb (s_type s =? SOCK_STREAM) then mret (-1) else
    if negb (s_owner_pid s =? pid) then mret (-1) else
    n ← get;
    let sndbuf := u16 (tcp_sndbuf pcb (n_lwip n)) in
    if sndbuf =? 0 then mret 0 else
    let len := Z.of_nat (length buf) in
    let len := if sndbuf <? len then sndbuf else len in
    e ← call (tcp_write pcb (take (Z.to_nat (u16 len)) buf));
    if negb (e =? ERR_OK) then mret (-1) else
    run (tcp_output pcb);; mret (s32 len)
  end.

(** The returned value with the bytes stored. *)
Definition net_sock_recv (pid fd len : Z) : M net_t (Z * list Z) :=
  if bad_fd fd then mret (-1, []) else
  s ← sock fd;
  if (s_in_use s =? 0) || negb (s_type s =? SOCK_STREAM) then mret (-1, []) else
  if negb (s_owner_pid s =? pid) then mret (-1, []) else
  let avail := rx_buf_used s in
  if avail =? 0 then mret (if s_rx_closed s || s_err s || bool_decide (s_pcb s = None) then 0 else -1, []) else
  let avail := if len <? u32 avail then s32 len else avail in
  '(bs, ring) ← lift (pop_bytes kring_u8_pop (Z.to_nat avail) (s_rx_ring s));
  upd_sock fd (with_ring ring);;
  mret (Z.of_nat (length bs), bs).

(** A call for a listener closes its pending connection first; each call in the
    recursion has cleared an [accepted_fd], so [MAX_SOCKETS] and one calls are enough. *)
Fixpoint net_sock_close_internal (fuel : nat) (fd caller_pid : Z) (force_owner : bool) : M net_t Z :=
  match fuel with
  | O => ub
  | S fuel =>
    if bad_fd fd then mret (-1) else
    s ← sock fd;
    if s_in_use s =? 0 then mret (-1) else
    if negb force_owner && negb (s_owner_pid s =? caller_pid) then mret (-1) else
    (if (s_type s =? SOCK_LISTEN) && (0 <=? s_accepted_fd s) then
       upd_sock fd (with_accepted (-1));; _ ← net_sock_close_internal fuel (s_accepted_fd s) caller_pid force_owner; mret tt
     else mret tt);;
    s ← sock fd;
    match s_pcb s with
    | None => mret tt
    | Some pcb =>
      (if s_type s =? SOCK_STREAM then run (tcp_arg pcb None);; run (tcp_recv pcb false);; run (tcp_err pcb false)
       else if s_type s =? SOCK_LISTEN then run (tcp_arg pcb None);; run (tcp_accept pcb false) else mret tt);;
      e ← call (tcp_close pcb);
      (if negb (e =? ERR_OK) then run (tcp_abort pcb) else mret tt);;
      upd_sock fd (with_pcb None)
    end;;
    upd_sock fd (λ s, mk_sock 0 SOCK_UNUSED (s_pcb s) 0 (-1) (kring_u8_reset (s_rx_ring s)) false false);;
    mret 0
  end.

Definition CLOSE_FUEL : nat := S MAX_SOCKETS.

Definition net_sock_close (pid fd : Z) : M net_t Z := net_sock_close_internal CLOSE_FUEL fd pid false.

Fixpoint close_all (fds : list Z) (pid : Z) : M net_t unit :=
  match fds with
  | [] => mret tt
  | i :: fds =>
    s ← sock i;
    (if negb (s_in_use s =? 0) && (s_owner_pid s =? pid) then _ ← net_sock_close_internal CLOSE_FUEL i pid true; mret tt else mret tt);;
    close_all fds pid
  end.

Definition net_sock_close_all_for_pid (pid : Z) : M net_t unit := close_all (seqZ 0 (Z.of_nat MAX_SOCKETS)) pid.

End sockets.
Arguments net_t N : clear implicits.

(** ** Well-formed tables *)

Definition RX_ROOM : nat := 4095.

Definition sock_wf (s : ksocket_t) : Prop :=
  (s_in_use s = 0 ∨ s_in_use s = 1) ∧ (s_in_use s = 1 → ∃ q, kring_rep (s_rx_ring s) RX_ROOM q).

(** What a call of process [pid] may change: the free sockets and its own. *)
Definition touchable (pid : Z) (l : list ksocket_t) (fd : Z) : Prop :=
  ∀ s, zlookup l fd = Some s → s_in_use s = 0 ∨ s_owner_pid s = pid.

Definition sockets_kept (pid : Z) (l l' : list ksocket_t) : Prop :=
  ∀ i s, l !! i = Some s → s_in_use s ≠ 0 → s_owner_pid s ≠ pid → l' !! i = Some s.

Lemma sockets_kept_refl pid l : sockets_kept pid l l.
Proof. by intros i s Hi _ _. Qed.
Lemma sockets_kept_trans pid l1 l2 l3 : sockets_kept pid l1 l2 → sockets_kept pid l2 l3 → sockets_kept pid l1 l3.
Proof. intros H1 H2 i s Hi Hu Ho. apply H2; [by apply H1|done|done]. Qed.

Lemma sockets_kept_update pid l l' fd s : sockets_kept pid l l' → touchable pid l fd → sockets_kept pid l (<[Z.to_nat fd := s]> l') ∨ fd < 0.
Proof.
  intros H Ht. destruct (decide (fd < 0)); [by right|left]. intros i s' Hi Hu Ho. destruct (decide (i = Z.to_nat fd)) as [->|Hne].
  - destruct (Ht s'); [by rewrite zlookup_nonneg by lia|done|done].
  - rewrite list_lookup_insert_ne by done. by apply H.
Qed.

Section proofs.
Context {N : Type} `{!Lwip N}.
Implicit Types n : net_t N.

Definition net_wf n : Prop := length (n_sockets n) = MAX_SOCKETS ∧ Forall sock_wf (n_sockets n).

Lemma net_boot_wf l : net_wf (net_boot l).
Proof. split; [done|]. apply Forall_replicate. split; [by left|done]. Qed.

Lemma net_sock_at n fd : net_wf n → 0 ≤ fd < 8 → ∃ s, sock fd n = Some (s, n) ∧ zlookup (n_sockets n) fd = Some s ∧ sock_wf s.
Proof.
  intros [Hl Hw] Hfd. destruct (zlookup_in_range (n_sockets n) fd) as [s Hs]; [rewrite Hl; unfold MAX_SOCKETS; lia|].
  exists s. split; [unfold sock; by rewrite Hs|]. split; [done|]. rewrite zlookup_nonneg in Hs by lia. by eapply (Forall_lookup_1 sock_wf).
Qed.

(** An update of a socket that the call may change, counted from the table [l0]. *)
Lemma upd_sock_ok pid l0 n fd f : net_wf n → sockets_kept pid l0 (n_sockets n) → touchable pid l0 fd → 0 ≤ fd < 8 →
  (∀ s, zlookup (n_sockets n) fd = Some s → sock_wf s → sock_wf (f s)) →
  ∃ n' s, upd_sock fd f n = Some (tt, n') ∧ net_wf n' ∧ sockets_kept pid l0 (n_sockets n') ∧
    zlookup (n_sockets n) fd = Some s ∧ n_sockets n' = <[Z.to_nat fd := f s]> (n_sockets n) ∧ lwip_ready n' = lwip_ready n.
Proof.
  intros Hw Hk Ht Hfd Hf. destruct (net_sock_at n fd Hw Hfd) as (s & _ & Hs & Hsw). destruct Hw as [Hl Hw].
  unfold upd_sock. rewrite Hs. cbn [mbind option_bind]. rewrite zupdate_Some by (rewrite Hl; unfold MAX_SOCKETS; lia). cbn [mbind option_bind].
  eexists _, s. split; [done|]. cbn [n_sockets lwip_ready]. split; [|split; [|done]].
  - split; cbn [n_sockets]; [by rewrite length_insert|]. apply Forall_insert; [done|by apply Hf].
  - destruct (sockets_kept_update pid l0 (n_sockets n) fd (f s) Hk Ht); [done|lia].
Qed.

Lemma with_lwip_wf n l : net_wf n → net_wf (with_lwip l n).
Proof. done. Qed.

(** ** Allocation *)

Definition fresh_sock : ksocket_t :=
  mk_sock 1 SOCK_UNUSED None 0 (-1) (kring_u8_init (replicate (Z.to_nat SOCK_RX_BUF) 0) SOCK_RX_BUF) false false.

Lemma fresh_sock_wf : sock_wf fresh_sock.
Proof. split; [by right|]. intros _. exists []. apply (kring_u8_init_rep (replicate 4096 0)); rewrite length_replicate; lia. Qed.

Lemma alloc_socket_ok pid n : net_wf n →
  (alloc_socket n = Some (-1, n)) ∨
  ∃ fd n', alloc_socket n = Some (fd, n') ∧ 0 ≤ fd < 8 ∧ net_wf n' ∧ sockets_kept pid (n_sockets n) (n_sockets n') ∧
    touchable pid (n_sockets n) fd ∧ zlookup (n_sockets n') fd = Some fresh_sock ∧ lwip_ready n' = lwip_ready n.
Proof.
  intros Hw. unfold alloc_socket, mbind, M_bind, get. unfold slot_table_find_free_by_flag.
  destruct (find_index _ _) as [i|] eqn:Hi; [|by left]. right.
  apply find_index_Some in Hi as [(x & Hx & Hz) _]. rewrite list_lookup_fmap in Hx. destruct (n_sockets n !! i) as [s|] eqn:Hs; [|done].
  injection Hx as <-. apply Z.eqb_eq in Hz. pose proof (lookup_lt_Some _ _ _ Hs) as Hlt. rewrite (proj1 Hw) in Hlt. unfold MAX_SOCKETS in Hlt.
  rewrite (proj2 (Z.ltb_ge _ _)) by lia. assert (Ht : touchable pid (n_sockets n) (Z.of_nat i)).
  { intros s' Hs'. rewrite zlookup_nat, Hs in Hs'. injection Hs' as <-. by left. }
  destruct (upd_sock_ok pid (n_sockets n) n (Z.of_nat i) (λ _, fresh_sock) Hw (sockets_kept_refl _ _) Ht) as (n' & s' & E & Hw' & Hk & _ & Hn & Hr);
    [lia|intros; apply fresh_sock_wf|]. fold fresh_sock. rewrite E. exists (Z.of_nat i), n'.
  split; [done|]. split; [lia|]. split; [done|]. split; [done|]. split; [done|]. split; [|done].
  rewrite zlookup_nat, Hn, Nat2Z.id. apply list_lookup_insert_eq. rewrite (proj1 Hw). unfold MAX_SOCKETS. lia.
Qed.

(** ** Calls change only free sockets and those of the caller *)

Definition safe {A} (pid : Z) (l0 : list ksocket_t) (r : option (A * net_t N)) : Prop :=
  ∃ a n', r = Some (a, n') ∧ net_wf n' ∧ sockets_kept pid l0 (n_sockets n').

Lemma safe_ret {A} pid l0 n (a : A) : net_wf n → sockets_kept pid l0 (n_sockets n) → safe pid l0 (Some (a, n)).
Proof. intros H1 H2. by exists a, n. Qed.

Lemma safe_bind {A B} pid l0 (m : M (net_t N) A) (f : A → M (net_t N) B) n : safe pid l0 (m n) →
  (∀ a n', net_wf n' → sockets_kept pid l0 (n_sockets n') → safe pid l0 (f a n')) → safe pid l0 ((m ≫= f) n).
Proof. intros (a & n' & E & Hw & Hk) Hf. unfold mbind, M_bind. rewrite E. by apply Hf. Qed.

Lemma bind_some {A B} (m : M (net_t N) A) (f : A → M (net_t N) B) n a n' : m n = Some (a, n') → (m ≫= f) n = f a n'.
Proof. intros E. unfold mbind, M_bind. by rewrite E. Qed.

Lemma safe_upd pid l0 n fd f : net_wf n → sockets_kept pid l0 (n_sockets n) → touchable pid l0 fd → 0 ≤ fd < 8 →
  (∀ s, zlookup (n_sockets n) fd = Some s → sock_wf s → sock_wf (f s)) → safe pid l0 (upd_sock fd f n).
Proof. intros Hw Hk Ht Hfd Hf. destruct (upd_sock_ok pid l0 n fd f Hw Hk Ht Hfd Hf) as (n' & s & E & H1 & H2 & _). rewrite E. by exists tt, n'. Qed.

Lemma safe_call {A} pid l0 n (f : N → A * N) : net_wf n → sockets_kept pid l0 (n_sockets n) → safe pid l0 (call f n).
Proof. intros Hw Hk. unfold call. destruct (f (n_lwip n)) as [a l]. by exists a, (with_lwip l n). Qed.

Lemma safe_run pid l0 n (f : N → N) : net_wf n → sockets_kept pid l0 (n_sockets n) → safe pid l0 (run f n).
Proof. intros Hw Hk. by exists tt, (with_lwip (f (n_lwip n)) n). Qed.

Lemma safe_mret {A} pid l0 n (a : A) : net_wf n → sockets_kept pid l0 (n_sockets n) → safe pid l0 ((mret a : M (net_t N) A) n).
Proof. apply safe_ret. Qed.

Ltac safe_step :=
  first
  [ apply safe_mret; done
  | apply safe_run; done
  | apply safe_call; done
  | apply safe_upd; done
  | apply safe_upd; [done|done|done|done|]
  | apply safe_bind; [first [apply safe_run; done | apply safe_call; done | apply safe_mret; done | apply safe_upd; [done|done|done|done|]] | intros ????]
  | match goal with
    | |- safe _ _ ((if ?b then _ else _) _) => destruct b
    | |- safe _ _ (match ?o with Some _ => _ | None => _ end _) => destruct o
    | |- safe _ _ (((if ?b then _ else _) ≫= _) _) => destruct b
    end ].

Lemma sock_wf_free ty pcb o a r c e : sock_wf (mk_sock 0 ty pcb o a r c e).
Proof. split; [by left|done]. Qed.

Lemma net_sock_listen_safe pid port n : net_wf n → safe pid (n_sockets n) (net_sock_listen pid port n).
Proof.
  intros Hw. pose proof (sockets_kept_refl pid (n_sockets n)) as Hk0. unfold net_sock_listen. rewrite (bind_some get _ n n n eq_refl). safe_step; [safe_step|].
  destruct (alloc_socket_ok pid n Hw) as [E|(fd & n1 & E & Hfd & Hw1 & Hk1 & Ht & _)]; rewrite (bind_some _ _ _ _ _ E).
  { change (-1 <? 0) with true. cbv iota. by apply safe_ret. }
  rewrite (proj2 (Z.ltb_ge _ _)) by lia. repeat safe_step; intros s Hs Hsw; first [apply sock_wf_free | apply Hsw].
Qed.

Lemma bad_fd_range fd : bad_fd fd = false → 0 ≤ fd < 8.
Proof. unfold bad_fd, MAX_SOCKETS. rewrite orb_false_iff, Z.ltb_ge, Z.leb_gt. lia. Qed.

Lemma owned_touchable pid n fd s : zlookup (n_sockets n) fd = Some s → s_owner_pid s = pid → touchable pid (n_sockets n) fd.
Proof. intros Hs Ho s' Hs'. rewrite Hs in Hs'. injection Hs' as <-. by right. Qed.

Lemma net_sock_accept_safe pid fd n : net_wf n → safe pid (n_sockets n) (net_sock_accept pid fd n).
Proof.
  intros Hw. pose proof (sockets_kept_refl pid (n_sockets n)) as Hk0. unfold net_sock_accept. destruct (bad_fd fd) eqn:Hb; [by apply safe_ret|]. apply bad_fd_range in Hb.
  destruct (net_sock_at n fd Hw Hb) as (s & E & Hs & Hsw). rewrite (bind_some _ _ _ _ _ E). safe_step; [safe_step|].
  destruct (Z.eqb_spec (s_owner_pid s) pid) as [Ho|]; cbn [negb]; [|by apply safe_ret].
  pose proof (owned_touchable pid n fd s Hs Ho). repeat safe_step. intros s' _ Hsw'. apply Hsw'.
Qed.

Lemma net_sock_send_safe pid fd buf n : net_wf n → safe pid (n_sockets n) (net_sock_send pid fd buf n).
Proof.
  intros Hw. pose proof (sockets_kept_refl pid (n_sockets n)) as Hk0. unfold net_sock_send. destruct (bad_fd fd) eqn:Hb; [by apply safe_ret|]. apply bad_fd_range in Hb.
  destruct (net_sock_at n fd Hw Hb) as (s & E & Hs & Hsw). rewrite (bind_some _ _ _ _ _ E). safe_step; [|safe_step].
  safe_step; [safe_step|]. safe_step; [safe_step|]. rewrite (bind_some get _ n n n eq_refl). repeat safe_step.
Qed.

Lemma net_sock_recv_safe pid fd len n : net_wf n → safe pid (n_sockets n) (net_sock_recv pid fd len n).
Proof.
  intros Hw. pose proof (sockets_kept_refl pid (n_sockets n)) as Hk0. unfold net_sock_recv. destruct (bad_fd fd) eqn:Hb; [by apply safe_ret|]. apply bad_fd_range in Hb.
  destruct (net_sock_at n fd Hw Hb) as (s & E & Hs & Hsw). rewrite (bind_some _ _ _ _ _ E).
  destruct ((s_in_use s =? 0) || _) eqn:Hu; [by apply safe_ret|]. destruct (Z.eqb_spec (s_owner_pid s) pid) as [Ho|]; cbn [negb]; [|by apply safe_ret].
  apply orb_false_iff in Hu as [Hu _]. apply Z.eqb_neq in Hu. destruct Hsw as [[?|Hin] Hq]; [done|]. destruct (Hq Hin) as [q Hr].
  safe_step; [safe_step|]. destruct (pop_bytes_spec (Z.to_nat (if len <? u32 (rx_buf_used s) then s32 len else rx_buf_used s)) (s_rx_ring s) RX_ROOM q Hr) as (r' & Ep & Hr').
  rewrite Ep, (bind_some (lift (Some (_, r'))) _ n _ n eq_refl).
  pose proof (owned_touchable pid n fd s Hs Ho). repeat safe_step. intros s' _ [Hs1 _]. split; [done|]. intros _. by eexists.
Qed.

(** ** Closing *)

(** Closing only takes sockets out of use. *)
Definition shrinks (l l' : list ksocket_t) : Prop :=
  ∀ i s', l' !! i = Some s' → s_in_use s' ≠ 0 → ∃ s, l !! i = Some s ∧ s_in_use s ≠ 0 ∧ s_owner_pid s' = s_owner_pid s ∧ s_type s' = s_type s ∧
    (s_accepted_fd s' = s_accepted_fd s ∨ s_accepted_fd s' = -1).

(** The pending connection of a listener of [pid], if it is in use, is of [pid] too. *)
Definition linked (pid : Z) (l : list ksocket_t) : Prop :=
  ∀ i s t, l !! i = Some s → s_in_use s ≠ 0 → s_owner_pid s = pid → s_type s = SOCK_LISTEN → 0 ≤ s_accepted_fd s →
    zlookup l (s_accepted_fd s) = Some t → s_in_use t ≠ 0 → s_owner_pid t = pid.

Definition pending (l : list ksocket_t) : nat := length (filter (λ s, 0 ≤ s_accepted_fd s) l).

Lemma shrinks_refl l : shrinks l l.
Proof. intros i s Hs Hu. exists s. repeat split; try done. by left. Qed.
Lemma shrinks_trans l1 l2 l3 : shrinks l1 l2 → shrinks l2 l3 → shrinks l1 l3.
Proof.
  intros H1 H2 i s' Hs Hu. destruct (H2 i s' Hs Hu) as (s & Hs2 & Hu2 & Ho & Ht & Ha). destruct (H1 i s Hs2 Hu2) as (s0 & Hs0 & Hu0 & Ho0 & Ht0 & Ha0).
  exists s0. repeat split; try done; [congruence|congruence|]. destruct Ha as [->| ->]; [done|by right].
Qed.

Lemma linked_shrinks pid l l' : linked pid l → shrinks l l' → linked pid l'.
Proof.
  intros HL HS i s' t' Hs' Hu' Ho' Ht' Ha' Hz Htu. destruct (HS i s' Hs' Hu') as (s & Hs & Hu & Ho & Ht & Ha).
  destruct Ha as [Ha|Ha]; [|lia]. rewrite zlookup_nonneg in Hz by lia. destruct (HS _ t' Hz Htu) as (t & Ht0 & Htu0 & Hto & _).
  rewrite Hto. apply (HL i s t); try done; [congruence|congruence|lia|]. rewrite zlookup_nonneg by lia. by rewrite <- Ha.
Qed.

Lemma shrinks_update l fd s s' : l !! fd = Some s →
  (s_in_use s' ≠ 0 → s_in_use s ≠ 0 ∧ s_owner_pid s' = s_owner_pid s ∧ s_type s' = s_type s ∧ (s_accepted_fd s' = s_accepted_fd s ∨ s_accepted_fd s' = -1)) →
  shrinks l (<[fd := s']> l).
Proof.
  intros Hs Hf i x Hx Hu. destruct (decide (i = fd)) as [->|Hne].
  - rewrite list_lookup_insert_eq in Hx by (by eapply lookup_lt_Some). injection Hx as <-. exists s. by split; [|apply Hf].
  - rewrite list_lookup_insert_ne in Hx by done. by apply shrinks_refl.
Qed.

Lemma pending_update l fd s s' : l !! fd = Some s → ¬ 0 ≤ s_accepted_fd s' →
  (pending (<[fd := s']> l) ≤ pending l)%nat ∧ (0 ≤ s_accepted_fd s → (pending (<[fd := s']> l) < pending l)%nat).
Proof.
  intros Hs Hn. pose proof (take_drop_middle l fd s Hs) as E. rewrite <- E at 2 4. unfold pending.
  rewrite insert_take_drop by (by eapply lookup_lt_Some). rewrite !filter_app, !filter_cons, !length_app.
  rewrite (decide_False (P := 0 ≤ s_accepted_fd s')) by done. case_decide; cbn [length]; lia.
Qed.

Lemma pending_le l : (pending l ≤ length l)%nat.
Proof. apply length_filter. Qed.

(** The end of a close: the connection is released and the slot freed. *)
Definition finish_close (fd : Z) : M (net_t N) Z :=
  s ← sock fd;
  match s_pcb s with
  | None => mret tt
  | Some pcb =>
    (if s_type s =? SOCK_STREAM then run (tcp_arg pcb None);; run (tcp_recv pcb false);; run (tcp_err pcb false)
     else if s_type s =? SOCK_LISTEN then run (tcp_arg pcb None);; run (tcp_accept pcb false) else mret tt);;
    e ← call (tcp_close pcb);
    (if negb (e =? ERR_OK) then run (tcp_abort pcb) else mret tt);;
    upd_sock fd (with_pcb None)
  end;;
  upd_sock fd (λ s, mk_sock 0 SOCK_UNUSED (s_pcb s) 0 (-1) (kring_u8_reset (s_rx_ring s)) false false);;
  mret 0.

Definition freed_sock (s : ksocket_t) : ksocket_t := mk_sock 0 SOCK_UNUSED None 0 (-1) (kring_u8_reset (s_rx_ring s)) false false.

(** A step that only changes the state of lwip. *)
Definition quiet {A} (m : M (net_t N) A) : Prop := ∀ n, ∃ a l, m n = Some (a, with_lwip l n).

Lemma quiet_ret {A} (a : A) : quiet (mret a).
Proof. intros n. exists a, (n_lwip n). by destruct n. Qed.
Lemma quiet_run f : quiet (run f).
Proof. intros n. by eexists tt, _. Qed.
Lemma quiet_call {A} (f : N → A * N) : quiet (call f).
Proof. intros n. unfold call. destruct (f (n_lwip n)) as [a l]. by exists a, l. Qed.
Lemma quiet_bind {A B} (m : M (net_t N) A) (f : A → M (net_t N) B) : quiet m → (∀ a, quiet (f a)) → quiet (m ≫= f).
Proof. intros Hm Hf n. destruct (Hm n) as (a & l & E). rewrite (bind_some _ _ _ _ _ E). by destruct (Hf a (with_lwip l n)) as (b & l' & ->); eexists b, l'. Qed.
Lemma quiet_then {A B} (m : M (net_t N) A) (f : A → M (net_t N) B) n : quiet m → ∃ a l, (m ≫= f) n = f a (with_lwip l n).
Proof. intros Hm. destruct (Hm n) as (a & l & E). exists a, l. by apply bind_some. Qed.

Ltac quiet := repeat first [apply quiet_ret | apply quiet_run | apply quiet_call | apply quiet_bind; [|intros ?] | case_match].

Ltac skip_quiet := match goal with |- context [(?m ≫= ?f) ?n] => destruct (quiet_then m f n) as (? & ? & ->); [quiet|] end.

Lemma upd_sock_at n fd f s : net_wf n → 0 ≤ fd < 8 → zlookup (n_sockets n) fd = Some s →
  upd_sock fd f n = Some (tt, mk_net (<[Z.to_nat fd := f s]> (n_sockets n)) (n_lwip n) (lwip_ready n)).
Proof. intros [Hl _] Hfd Hs. unfold upd_sock. rewrite Hs. cbn [mbind option_bind]. rewrite zupdate_Some by (rewrite Hl; unfold MAX_SOCKETS; lia). done. Qed.

Lemma set_sock_wf n fd s (l : N) : net_wf n → sock_wf s → net_wf (mk_net (<[Z.to_nat fd := s]> (n_sockets n)) l (lwip_ready n)).
Proof. intros [Hl Hw] Hs. split; cbn [n_sockets]; [by rewrite length_insert|]. by apply Forall_insert. Qed.

Lemma zlookup_set n fd s (l : N) : net_wf n → 0 ≤ fd < 8 → zlookup (n_sockets (mk_net (<[Z.to_nat fd := s]> (n_sockets n)) l (lwip_ready n))) fd = Some s.
Proof. intros [Hl _] Hfd. cbn [n_sockets]. rewrite zlookup_nonneg by lia. apply list_lookup_insert_eq. rewrite Hl. unfold MAX_SOCKETS. lia. Qed.

Lemma finish_close_ok n fd s : net_wf n → 0 ≤ fd < 8 → zlookup (n_sockets n) fd = Some s →
  ∃ n', finish_close fd n = Some (0, n') ∧ n_sockets n' = <[Z.to_nat fd := freed_sock s]> (n_sockets n) ∧ net_wf n'.
Proof.
  intros Hw Hfd Hs. pose proof (net_sock_at n fd Hw Hfd) as (s' & E & Hs' & Hsw). rewrite Hs in Hs'. injection Hs' as <-.
  unfold finish_close. rewrite (bind_some _ _ _ _ _ E).
  assert (Hend : ∀ n1, net_wf n1 → zlookup (n_sockets n1) fd = Some (with_pcb None s) → <[Z.to_nat fd := freed_sock s]> (n_sockets n1) = <[Z.to_nat fd := freed_sock s]> (n_sockets n) →
    ∃ n', (upd_sock fd (λ s, mk_sock 0 SOCK_UNUSED (s_pcb s) 0 (-1) (kring_u8_reset (s_rx_ring s)) false false);; mret 0) n1 = Some (0, n') ∧
      n_sockets n' = <[Z.to_nat fd := freed_sock s]> (n_sockets n) ∧ net_wf n').
  { intros n1 Hw1 H1 Ei. erewrite bind_some by (by apply upd_sock_at). eexists. split; [done|]. split; [done|]. apply set_sock_wf; [done|apply sock_wf_free]. }
  destruct (s_pcb s) as [pcb|] eqn:Hp.
  - set (k := upd_sock fd (λ s0, mk_sock 0 _ _ _ _ _ _ _) ;; mret 0).
    match goal with |- context [(?m ≫= (λ _, k)) n] => set (m1 := m) end.
    assert (Hm : ∃ l, m1 n = Some (tt, mk_net (<[Z.to_nat fd := with_pcb None s]> (n_sockets n)) l (lwip_ready n))).
    { unfold m1. do 3 skip_quiet. eexists. rewrite (upd_sock_at _ fd (with_pcb None) s); done. }
    destruct Hm as [l Hm]. rewrite (bind_some _ _ _ _ _ Hm). unfold k. apply Hend.
    + apply set_sock_wf; [done|]. apply Hsw.
    + by apply zlookup_set.
    + cbn [n_sockets]. by rewrite list_insert_insert_eq.
  - rewrite (bind_some (mret tt) _ n tt n eq_refl). apply Hend; [done| |done]. rewrite Hs. f_equal. destruct s; cbn in *. by subst.
Qed.

Lemma zlookup_nat_fd (l : list ksocket_t) fd s : 0 ≤ fd → zlookup l fd = Some s → l !! Z.to_nat fd = Some s.
Proof. intros H. by rewrite zlookup_nonneg by lia. Qed.

(** The result of a close that keeps the sockets of the others. *)
Definition closes (pid : Z) n (r : option (Z * net_t N)) : Prop :=
  ∃ v n', r = Some (v, n') ∧ net_wf n' ∧ sockets_kept pid (n_sockets n) (n_sockets n') ∧ shrinks (n_sockets n) (n_sockets n') ∧
    (pending (n_sockets n') ≤ pending (n_sockets n))%nat.

Lemma closes_ret pid n v : net_wf n → closes pid n (Some (v, n)).
Proof. intros Hw. exists v, n. split; [done|]. split; [done|]. split; [apply sockets_kept_refl|]. split; [apply shrinks_refl|done]. Qed.

Lemma closes_ret_tt pid n : net_wf n → ∃ n1, (mret tt : M (net_t N) unit) n = Some (tt, n1) ∧ net_wf n1 ∧ sockets_kept pid (n_sockets n) (n_sockets n1) ∧
  shrinks (n_sockets n) (n_sockets n1) ∧ (pending (n_sockets n1) ≤ pending (n_sockets n))%nat.
Proof. intros Hw. exists n. split; [done|]. split; [done|]. split; [apply sockets_kept_refl|]. split; [apply shrinks_refl|done]. Qed.

(** A step from [n] to [n1], followed by [finish_close]. *)
Lemma closes_finish pid n n1 fd s : net_wf n1 → 0 ≤ fd < 8 → zlookup (n_sockets n) fd = Some s → s_owner_pid s = pid →
  sockets_kept pid (n_sockets n) (n_sockets n1) → shrinks (n_sockets n) (n_sockets n1) → (pending (n_sockets n1) ≤ pending (n_sockets n))%nat →
  ∃ n', finish_close fd n1 = Some (0, n') ∧ net_wf n' ∧ sockets_kept pid (n_sockets n) (n_sockets n') ∧ shrinks (n_sockets n) (n_sockets n') ∧
    (pending (n_sockets n') ≤ pending (n_sockets n))%nat ∧ ∃ t, zlookup (n_sockets n') fd = Some t ∧ s_in_use t = 0.
Proof.
  intros Hw1 Hfd Hs Ho Hk Hsh Hp. destruct (net_sock_at n1 fd Hw1 Hfd) as (s1 & _ & Hs1 & _).
  destruct (finish_close_ok n1 fd s1 Hw1 Hfd Hs1) as (n' & E & Hn' & Hw'). pose proof (zlookup_nat_fd _ _ _ (proj1 Hfd) Hs1) as Hl1.
  exists n'. rewrite Hn'. split; [done|]. split; [done|]. split; [|split; [|split]].
  - by destruct (sockets_kept_update pid (n_sockets n) (n_sockets n1) fd (freed_sock s1) Hk (owned_touchable pid n fd s Hs Ho)) as [?|?]; [|lia].
  - eapply shrinks_trans; [done|]. eapply shrinks_update; [done|]. done.
  - destruct (pending_update (n_sockets n1) (Z.to_nat fd) s1 (freed_sock s1) Hl1) as [H _]; [cbn; lia|lia].
  - exists (freed_sock s1). split; [|done]. rewrite zlookup_nonneg by lia. apply list_lookup_insert_eq. rewrite (proj1 Hw1). unfold MAX_SOCKETS. lia.
Qed.

(** The caller may close [fd]: the call checks it, or it is forced with links intact. *)
Definition may_close (pid : Z) (force : bool) (l : list ksocket_t) (fd : Z) : Prop :=
  force = true → linked pid l ∧ ∀ s, zlookup l fd = Some s → s_in_use s ≠ 0 → s_owner_pid s = pid.

(** The listener forgets its pending connection. *)
Lemma forget_child pid n fd s : net_wf n → 0 ≤ fd < 8 → zlookup (n_sockets n) fd = Some s → s_owner_pid s = pid → 0 ≤ s_accepted_fd s → s_in_use s ≠ 0 →
  ∃ n1, upd_sock fd (with_accepted (-1)) n = Some (tt, n1) ∧ net_wf n1 ∧ sockets_kept pid (n_sockets n) (n_sockets n1) ∧ shrinks (n_sockets n) (n_sockets n1) ∧
    (pending (n_sockets n1) < pending (n_sockets n))%nat.
Proof.
  intros Hw Hfd Hs Ho Ha Hu. destruct (net_sock_at n fd Hw Hfd) as (s' & _ & Hs' & Hsw). rewrite Hs in Hs'. injection Hs' as <-.
  pose proof (zlookup_nat_fd _ _ _ (proj1 Hfd) Hs) as Hl. rewrite (upd_sock_at n fd _ s Hw Hfd Hs). eexists. split; [done|]. cbn [n_sockets].
  split; [by apply set_sock_wf|]. split; [|split].
  - by destruct (sockets_kept_update pid (n_sockets n) (n_sockets n) fd (with_accepted (-1) s) (sockets_kept_refl _ _) (owned_touchable pid n fd s Hs Ho)); [|lia].
  - apply (shrinks_update _ _ s); [done|]. intros _. split; [done|]. split; [done|]. split; [done|]. by right.
  - apply (pending_update _ _ s); [done|cbn; lia|done].
Qed.

(** The child of a listener of [pid] may be closed after it was forgotten. *)
Lemma may_close_child pid force n n1 fd s : may_close pid force (n_sockets n) fd → 0 ≤ fd → zlookup (n_sockets n) fd = Some s → s_in_use s ≠ 0 → s_owner_pid s = pid →
  s_type s = SOCK_LISTEN → 0 ≤ s_accepted_fd s → shrinks (n_sockets n) (n_sockets n1) → may_close pid force (n_sockets n1) (s_accepted_fd s).
Proof.
  intros Hm Hfd Hs Hu Ho Ht Ha Hsh Hf. destruct (Hm Hf) as [HL _]. split; [by eapply linked_shrinks|]. intros t1 Ht1 Hu1.
  destruct (Hsh _ t1 (zlookup_nat_fd _ _ _ Ha Ht1) Hu1) as (t & Htl & Htu & Hto & _). rewrite Hto.
  apply (HL (Z.to_nat fd) s t); try done; [by apply zlookup_nat_fd|]. by rewrite zlookup_nonneg by lia.
Qed.

Lemma close_ok pid force : ∀ fuel fd n, net_wf n → (pending (n_sockets n) < fuel)%nat → may_close pid force (n_sockets n) fd →
  closes pid n (net_sock_close_internal fuel fd pid force n) ∧
  (∀ s, zlookup (n_sockets n) fd = Some s → 0 ≤ fd < 8 → s_owner_pid s = pid →
     ∃ v n' t, net_sock_close_internal fuel fd pid force n = Some (v, n') ∧ zlookup (n_sockets n') fd = Some t ∧ s_in_use t = 0).
Proof.
  induction fuel as [|fuel IH]; intros fd n Hw Hp Hm; [lia|]. cbn [net_sock_close_internal].
  destruct (bad_fd fd) eqn:Hb; [split; [by apply closes_ret|]; intros s _ Hfd; exfalso; unfold bad_fd, MAX_SOCKETS in Hb; rewrite orb_true_iff, Z.ltb_lt, Z.leb_le in Hb; lia|].
  apply bad_fd_range in Hb. destruct (net_sock_at n fd Hw Hb) as (s & E & Hs & Hsw). rewrite (bind_some _ _ _ _ _ E).
  destruct (Z.eqb_spec (s_in_use s) 0) as [Hu|Hu].
  { split; [by apply closes_ret|]. intros s' Hs' _ _. rewrite Hs in Hs'. injection Hs' as <-. by eexists _, n, s. }
  destruct (negb force && negb (s_owner_pid s =? pid)) eqn:Hf.
  { split; [by apply closes_ret|]. intros s' Hs' _ Ho. rewrite Hs in Hs'. injection Hs' as <-. by rewrite Ho, Z.eqb_refl, andb_false_r in Hf. }
  assert (Ho : s_owner_pid s = pid).
  { destruct force; [by apply Hm|]. cbn in Hf. apply negb_false_iff, Z.eqb_eq in Hf. done. }
  fold (finish_close fd).
  match goal with |- context [(?m ≫= ?f) n] => set (child := m); change (m ≫= f) with (m ≫= λ _, finish_close fd) end.
  assert (Hc : ∃ n1, child n = Some (tt, n1) ∧ net_wf n1 ∧ sockets_kept pid (n_sockets n) (n_sockets n1) ∧ shrinks (n_sockets n) (n_sockets n1) ∧
    (pending (n_sockets n1) ≤ pending (n_sockets n))%nat).
  { unfold child. destruct (s_type s =? SOCK_LISTEN) eqn:Ht; cbn [andb]; [|by eapply closes_ret_tt]. destruct (Z.leb_spec 0 (s_accepted_fd s)) as [Ha|]; [|by eapply closes_ret_tt].
    apply Z.eqb_eq in Ht. destruct (forget_child pid n fd s Hw Hb Hs Ho Ha Hu) as (n1 & E1 & Hw1 & Hk1 & Hsh1 & Hp1). rewrite (bind_some _ _ _ _ _ E1).
    destruct (IH (s_accepted_fd s) n1 Hw1) as [(v & n2 & E2 & Hw2 & Hk2 & Hsh2 & Hp2) _]; [lia|exact (may_close_child pid force n n1 fd s Hm (proj1 Hb) Hs Hu Ho Ht Ha Hsh1)|].
    rewrite (bind_some _ _ _ _ _ E2). exists n2. split; [done|]. split; [done|]. split; [by eapply sockets_kept_trans|]. split; [by eapply shrinks_trans|lia]. }
  destruct Hc as (n1 & E1 & Hw1 & Hk1 & Hsh1 & Hp1). rewrite (bind_some _ _ _ _ _ E1).
  destruct (closes_finish pid n n1 fd s Hw1 Hb Hs Ho Hk1 Hsh1 Hp1) as (n' & E2 & Hw2 & Hk2 & Hsh2 & Hp2 & t & Ht & Htu).
  split; [by exists 0, n'|]. intros _ _ _ _. by exists 0, n', t.
Qed.

Lemma pending_fuel n : net_wf n → (pending (n_sockets n) < CLOSE_FUEL)%nat.
Proof. intros [Hl _]. pose proof (pending_le (n_sockets n)) as H. rewrite Hl in H. unfold CLOSE_FUEL. lia. Qed.

Lemma net_sock_close_safe pid fd n : net_wf n → safe pid (n_sockets n) (net_sock_close pid fd n).
Proof.
  intros Hw. destruct (close_ok pid false CLOSE_FUEL fd n Hw (pending_fuel n Hw)) as [(v & n' & E & Hw' & Hk & _) _]; [done|]. by exists v, n'.
Qed.

(** ** Callbacks *)

Lemma sock_recv_cb_safe fd tpcb p s n : net_wf n → 0 ≤ fd < 8 → zlookup (n_sockets n) fd = Some s → s_in_use s ≠ 0 →
  safe (s_owner_pid s) (n_sockets n) (sock_recv_cb fd tpcb p n).
Proof.
  intros Hw Hfd Hs Hu. pose proof (sockets_kept_refl (s_owner_pid s) (n_sockets n)) as Hk0. pose proof (owned_touchable _ n fd s Hs eq_refl) as Ht.
  unfold sock_recv_cb. destruct p as [data|]; [|repeat safe_step; intros s' _ Hs'; apply Hs'].
  destruct (net_sock_at n fd Hw Hfd) as (s' & E & Hs' & Hsw). rewrite Hs in Hs'. injection Hs' as <-. rewrite (bind_some _ _ _ _ _ E).
  destruct Hsw as [[?|Hin] Hq]; [done|]. destruct (Hq Hin) as [q Hr]. destruct (push_bytes_spec data (s_rx_ring s) RX_ROOM q Hr) as (r' & Ep & Hr').
  rewrite Ep, (bind_some (lift (Some (_, r'))) _ n _ n eq_refl). repeat safe_step. intros s' _ [Hs1 _]. split; [done|]. intros _. by eexists.
Qed.

Lemma sock_err_cb_safe fd s n : net_wf n → 0 ≤ fd < 8 → zlookup (n_sockets n) fd = Some s → safe (s_owner_pid s) (n_sockets n) (sock_err_cb fd n).
Proof.
  intros Hw Hfd Hs. pose proof (sockets_kept_refl (s_owner_pid s) (n_sockets n)). pose proof (owned_touchable _ n fd s Hs eq_refl).
  by apply safe_upd.
Qed.

Lemma sock_accept_cb_safe lfd newpcb s n : net_wf n → 0 ≤ lfd < 8 → zlookup (n_sockets n) lfd = Some s →
  safe (s_owner_pid s) (n_sockets n) (sock_accept_cb lfd newpcb n).
Proof.
  intros Hw Hfd Hs. pose proof (sockets_kept_refl (s_owner_pid s) (n_sockets n)) as Hk0. pose proof (owned_touchable _ n lfd s Hs eq_refl) as Ht.
  destruct (net_sock_at n lfd Hw Hfd) as (s' & E & Hs' & _). rewrite Hs in Hs'. injection Hs' as <-. unfold sock_accept_cb. rewrite (bind_some _ _ _ _ _ E).
  safe_step; [repeat safe_step|]. destruct (alloc_socket_ok (s_owner_pid s) n Hw) as [E1|(fd & n1 & E1 & Hfd1 & Hw1 & Hk1 & Ht1 & _)]; rewrite (bind_some _ _ _ _ _ E1).
  { change (-1 <? 0) with true. cbv iota. repeat safe_step. }
  rewrite (proj2 (Z.ltb_ge _ _)) by lia. destruct (net_sock_at n1 lfd Hw1 Hfd) as (s1 & E2 & _). rewrite (bind_some _ _ _ _ _ E2).
  repeat safe_step; intros s' _ Hs'; apply Hs'.
Qed.

(** ** Exit *)

Lemma close_all_ok pid : ∀ fds n, Forall (λ i, 0 ≤ i < 8) fds → net_wf n → linked pid (n_sockets n) →
  ∃ n', close_all fds pid n = Some (tt, n') ∧ net_wf n' ∧ sockets_kept pid (n_sockets n) (n_sockets n') ∧ shrinks (n_sockets n) (n_sockets n') ∧
    ∀ i t, i ∈ fds → zlookup (n_sockets n') i = Some t → s_in_use t ≠ 0 → s_owner_pid t ≠ pid.
Proof.
  induction fds as [|i fds IH]; intros n Hr Hw HL; cbn [close_all].
  { exists n. split; [done|]. split; [done|]. split; [apply sockets_kept_refl|]. split; [apply shrinks_refl|]. intros i t Hi. by apply elem_of_nil in Hi. }
  apply Forall_cons in Hr as [Hi Hr]. destruct (net_sock_at n i Hw Hi) as (s & E & Hs & _). rewrite (bind_some _ _ _ _ _ E).
  assert (Hstep : ∃ n1, (if negb (s_in_use s =? 0) && (s_owner_pid s =? pid) then _ ← net_sock_close_internal CLOSE_FUEL i pid true; mret tt else mret tt) n = Some (tt, n1) ∧
    net_wf n1 ∧ sockets_kept pid (n_sockets n) (n_sockets n1) ∧ shrinks (n_sockets n) (n_sockets n1) ∧
    ∀ t, zlookup (n_sockets n1) i = Some t → s_in_use t ≠ 0 → s_owner_pid t ≠ pid).
  { destruct (Z.eqb_spec (s_in_use s) 0) as [Hu|Hu], (Z.eqb_spec (s_owner_pid s) pid) as [Ho|Ho]; cbn [negb andb].
    2, 4: exists n; split; [done|]; split; [done|]; split; [apply sockets_kept_refl|]; split; [apply shrinks_refl|]; intros t Ht Htu; rewrite Hs in Ht; congruence.
    - exists n. split; [done|]. split; [done|]. split; [apply sockets_kept_refl|]. split; [apply shrinks_refl|]. intros t Ht Htu. rewrite Hs in Ht. congruence.
    - destruct (close_ok pid true CLOSE_FUEL i n Hw (pending_fuel n Hw)) as [(v & n1 & E1 & Hw1 & Hk1 & Hsh1 & _) Hcl].
      { intros _. split; [done|]. intros s' Hs' _. rewrite Hs in Hs'. by injection Hs' as <-. }
      destruct (Hcl s Hs Hi Ho) as (v' & n1' & t & E1' & Ht & Htu). rewrite E1 in E1'. injection E1' as <- <-.
      exists n1. rewrite (bind_some _ _ _ _ _ E1). split; [done|]. split; [done|]. split; [done|]. split; [done|]. intros t' Ht' Hu'. rewrite Ht in Ht'. congruence. }
  destruct Hstep as (n1 & E1 & Hw1 & Hk1 & Hsh1 & Hc1). rewrite (bind_some _ _ _ _ _ E1).
  destruct (IH n1 Hr Hw1) as (n2 & E2 & Hw2 & Hk2 & Hsh2 & Hc2); [by eapply linked_shrinks|]. exists n2. split; [done|]. split; [done|].
  split; [by eapply sockets_kept_trans|]. split; [by eapply shrinks_trans|]. intros j t Hj Ht Htu. apply elem_of_cons in Hj as [->|Hj]; [|by eapply Hc2].
  destruct (Hsh2 _ t (zlookup_nat_fd _ _ _ (proj1 Hi) Ht) Htu) as (t1 & Ht1 & Htu1 & -> & _). apply (Hc1 t1); [|done]. by rewrite zlookup_nonneg by lia.
Qed.

(** Ending the process [pid] closes its sockets and keeps those of the others, when
    the pending connections of its listeners are its own; without that, a forced close
    reaches sockets of other processes ([exit_closes_foreign_socket]). *)
Lemma net_sock_close_all_for_pid_correct pid n : net_wf n → linked pid (n_sockets n) →
  ∃ n', net_sock_close_all_for_pid pid n = Some (tt, n') ∧ net_wf n' ∧ sockets_kept pid (n_sockets n) (n_sockets n') ∧
    Forall (λ s, s_in_use s = 0 ∨ s_owner_pid s ≠ pid) (n_sockets n').
Proof.
  intros Hw HL. destruct (close_all_ok pid (seqZ 0 (Z.of_nat MAX_SOCKETS)) n) as (n' & E & Hw' & Hk & _ & Hc); [|done|done|].
  { apply Forall_forall. intros i Hi. apply elem_of_seqZ in Hi. unfold MAX_SOCKETS in Hi. lia. }
  exists n'. split; [done|]. split; [done|]. split; [done|]. apply Forall_lookup. intros i s Hs. destruct (decide (s_in_use s = 0)) as [|Hu]; [by left|right].
  apply (Hc (Z.of_nat i)); [|by rewrite zlookup_nat|done]. apply elem_of_seqZ. pose proof (lookup_lt_Some _ _ _ Hs) as Hlt. rewrite (proj1 Hw') in Hlt. lia.
Qed.

(** ** The actions on the table *)

(** The calls of a process and the callbacks of the network. *)
Inductive action :=
  | Listen (pid port : Z)
  | Accept (pid fd : Z)
  | Send (pid fd : Z) (buf : list Z)
  | Recv (pid fd len : Z)
  | Close (pid fd : Z)
  | Received (fd tpcb : Z) (p : option (list Z))
  | Failed (fd : Z)
  | Connected (lfd newpcb : Z).

Definition act (a : action) : M (net_t N) unit :=
  match a with
  | Listen pid port => _ ← net_sock_listen pid port; mret tt
  | Accept pid fd => _ ← net_sock_accept pid fd; mret tt
  | Send pid fd buf => _ ← net_sock_send pid fd buf; mret tt
  | Recv pid fd len => _ ← net_sock_recv pid fd len; mret tt
  | Close pid fd => _ ← net_sock_close pid fd; mret tt
  | Received fd tpcb p => _ ← sock_recv_cb fd tpcb p; mret tt
  | Failed fd => sock_err_cb fd
  | Connected lfd newpcb => _ ← sock_accept_cb lfd newpcb; mret tt
  end.

(** The process on whose behalf the action is: the caller, or the owner of the socket
    in use that the callback was registered with. *)
Definition actor (n : net_t N) (a : action) (pid : Z) : Prop :=
  match a with
  | Listen p _ | Accept p _ | Send p _ _ | Recv p _ _ | Close p _ => p = pid
  | Received fd _ _ | Failed fd | Connected fd _ => 0 ≤ fd < 8 ∧ ∃ s, zlookup (n_sockets n) fd = Some s ∧ s_in_use s ≠ 0 ∧ s_owner_pid s = pid
  end.

Lemma safe_unit {A} pid l0 (m : M (net_t N) A) n : safe pid l0 (m n) → safe pid l0 ((_ ← m; mret tt) n).
Proof. intros H. apply safe_bind; [done|]. intros a n' Hw Hk. by apply safe_ret. Qed.

(** C31 (safety): Every call of a process on its sockets and every callback of the
    network returns, keeps the table and its buffers well formed, and leaves the sockets
    in use of all other processes as they are. *)
Theorem socket_calls_isolated n a pid : net_wf n → actor n a pid →
  ∃ n', act a n = Some (tt, n') ∧ net_wf n' ∧
    ∀ i s, n_sockets n !! i = Some s → s_in_use s ≠ 0 → s_owner_pid s ≠ pid → n_sockets n' !! i = Some s.
Proof.
  intros Hw Ha. assert (H : safe pid (n_sockets n) (act a n)); [|by destruct H as ([] & n' & H); exists n'].
  destruct a; cbn [act actor] in *; try (subst pid; apply safe_unit).
  - by apply net_sock_listen_safe.
  - by apply net_sock_accept_safe.
  - by apply net_sock_send_safe.
  - by apply net_sock_recv_safe.
  - by apply net_sock_close_safe.
  - destruct Ha as (Hfd & s & Hs & Hu & <-). apply safe_unit. by apply sock_recv_cb_safe.
  - destruct Ha as (Hfd & s & Hs & Hu & <-). by apply sock_err_cb_safe.
  - destruct Ha as (Hfd & s & Hs & Hu & <-). apply safe_unit. by apply sock_accept_cb_safe.
Qed.

(** ** The bytes of a connection *)

(** [fd] is a connection of [pid] with the received bytes [q] not yet read. *)
Definition stream (n : net_t N) (fd pid : Z) (q : list Z) : Prop :=
  ∃ s, zlookup (n_sockets n) fd = Some s ∧ s_in_use s = 1 ∧ s_type s = SOCK_STREAM ∧ s_owner_pid s = pid ∧ kring_rep (s_rx_ring s) RX_ROOM q.

Lemma stream_set_ring n fd pid q s r l : net_wf n → 0 ≤ fd < 8 → zlookup (n_sockets n) fd = Some s → s_in_use s = 1 → s_type s = SOCK_STREAM → s_owner_pid s = pid →
  kring_rep r RX_ROOM q → let n' := mk_net (<[Z.to_nat fd := with_ring r s]> (n_sockets n)) l (lwip_ready n) in net_wf n' ∧ stream n' fd pid q.
Proof.
  intros Hw Hfd Hs Hu Ht Ho Hr. split.
  - apply set_sock_wf; [done|]. split; [by right|]. intros _. by exists q.
  - exists (with_ring r s). split; [|done]. by apply zlookup_set.
Qed.

Lemma sock_recv_cb_stream n fd pid q tpcb data : net_wf n → 0 ≤ fd < 8 → stream n fd pid q →
  let k := (length data `min` (RX_ROOM - length q))%nat in
  ∃ n', sock_recv_cb fd tpcb (Some data) n = Some (ERR_OK, n') ∧ net_wf n' ∧ stream n' fd pid (q ++ take k data) ∧
    n_lwip n' = if (k =? 0)%nat then n_lwip n else tcp_recved tpcb (Z.of_nat k) (n_lwip n).
Proof.
  intros Hw Hfd (s & Hs & Hu & Ht & Ho & Hr) k. unfold sock_recv_cb. destruct (net_sock_at n fd Hw Hfd) as (s' & E & Hs' & _). rewrite Hs in Hs'. injection Hs' as <-.
  rewrite (bind_some _ _ _ _ _ E). destruct (push_bytes_spec data (s_rx_ring s) RX_ROOM q Hr) as (r' & -> & Hr').
  rewrite (bind_some (lift (Some (_, r'))) _ n _ n eq_refl). cbv beta zeta. fold k in Hr' |- *.
  rewrite (bind_some _ _ _ _ _ (upd_sock_at n fd (with_ring r') s Hw Hfd Hs)).
  assert (Hk : (k ≤ RX_ROOM)%nat) by lia. unfold RX_ROOM in Hk. assert (Hu16 : u16 (Z.of_nat k) = Z.of_nat k) by (apply u16_small; unfold is_u16; lia).
  rewrite Hu16. assert (Htake : take k data = take (RX_ROOM - length q) data).
  { unfold k. rewrite <- take_take. apply take_ge. rewrite length_take. lia. }
  rewrite Htake. destruct (Nat.eqb_spec k 0) as [Ek|Ek]; [rewrite (proj2 (Z.ltb_ge _ _)) by lia|rewrite (proj2 (Z.ltb_lt _ _)) by lia].
  - eexists. split; [done|]. by destruct (stream_set_ring n fd pid _ s r' (n_lwip n) Hw Hfd Hs Hu Ht Ho Hr') as [? ?].
  - eexists. split; [done|]. by destruct (stream_set_ring n fd pid _ s r' (tcp_recved tpcb (Z.of_nat k) (n_lwip n)) Hw Hfd Hs Hu Ht Ho Hr') as [? ?].
Qed.

Lemma net_sock_recv_stream n fd pid q len : net_wf n → 0 ≤ fd < 8 → stream n fd pid q → 0 ≤ len → q ≠ [] →
  let k := Z.to_nat (len `min` Z.of_nat (length q)) in
  ∃ n', net_sock_recv pid fd len n = Some ((Z.of_nat k, take k q), n') ∧ net_wf n' ∧ stream n' fd pid (drop k q) ∧ n_lwip n' = n_lwip n.
Proof.
  intros Hw Hfd (s & Hs & Hu & Ht & Ho & Hr) Hlen Hq k. pose proof (fifo_bound (s_rx_ring s) RX_ROOM q Hr) as Hb. unfold RX_ROOM in Hb.
  assert (Hq' : (0 < length q)%nat) by (destruct q; [done|cbn; lia]). unfold net_sock_recv.
  assert (Hbf : bad_fd fd = false) by (unfold bad_fd, MAX_SOCKETS; apply orb_false_iff; rewrite Z.ltb_ge, Z.leb_gt; lia). rewrite Hbf.
  destruct (net_sock_at n fd Hw Hfd) as (s' & E & Hs' & _). rewrite Hs in Hs'. injection Hs' as <-. rewrite (bind_some _ _ _ _ _ E).
  rewrite Hu, Ht, Ho. change ((1 =? 0) || negb (SOCK_STREAM =? SOCK_STREAM)) with false. rewrite Z.eqb_refl. cbn [negb]. unfold rx_buf_used.
  rewrite (kring_u8_used_spec _ _ _ Hr), (s32_small (Z.of_nat (length q))), (proj2 (Z.eqb_neq (Z.of_nat (length q)) 0)), u32_small by (unfold is_s32, is_u32; lia).
  assert (Hk : Z.to_nat (if len <? Z.of_nat (length q) then s32 len else Z.of_nat (length q)) = k).
  { unfold k. destruct (Z.ltb_spec len (Z.of_nat (length q))); [rewrite s32_small by (unfold is_s32; lia)|]; f_equal; lia. }
  cbv iota zeta. rewrite Hk. destruct (pop_bytes_spec k (s_rx_ring s) RX_ROOM q Hr) as (r' & -> & Hr'). rewrite (bind_some (lift (Some (_, r'))) _ n _ n eq_refl). cbv beta zeta.
  rewrite (bind_some _ _ _ _ _ (upd_sock_at n fd (with_ring r') s Hw Hfd Hs)).
  eexists. split; [unfold mret, M_ret; rewrite length_take, Nat.min_l by lia; done|].
  by destruct (stream_set_ring n fd pid _ s r' (n_lwip n) Hw Hfd Hs Hu Ht Ho Hr') as [? ?].
Qed.

(** A connection is a bounded queue of bytes: what the network
    delivers is stored behind the bytes that wait, as far as there is room for 4095, and
    exactly the stored bytes are reported as consumed to the TCP stack; a call to receive
    takes the oldest bytes, as many as there are and asked for. *)
Theorem socket_stream_fifo n fd pid q tpcb data len : net_wf n → 0 ≤ fd < 8 → stream n fd pid q → 0 ≤ len →
  let k := (length data `min` (4095 - length q))%nat in
  let q' := q ++ take k data in
  let m := Z.to_nat (len `min` Z.of_nat (length q')) in
  ∃ n', sock_recv_cb fd tpcb (Some data) n = Some (ERR_OK, n') ∧ net_wf n' ∧ stream n' fd pid q' ∧
    n_lwip n' = (if (k =? 0)%nat then n_lwip n else tcp_recved tpcb (Z.of_nat k) (n_lwip n)) ∧
    (q' ≠ [] → ∃ n2, net_sock_recv pid fd len n' = Some ((Z.of_nat m, take m q'), n2) ∧ net_wf n2 ∧ stream n2 fd pid (drop m q') ∧ n_lwip n2 = n_lwip n').
Proof.
  intros Hw Hfd Hst Hlen k q' m. destruct (sock_recv_cb_stream n fd pid q tpcb data Hw Hfd Hst) as (n' & E & Hw' & Hst' & Hl).
  exists n'. split; [done|]. split; [done|]. split; [done|]. split; [done|]. intros Hq. by apply net_sock_recv_stream.
Qed.

End proofs.

(** ** Examples *)

(** A stack that gives out numbers and accepts everything; it keeps the next number and
    the count of the bytes reported as consumed. *)
#[local] Instance demo_lwip : Lwip (Z * Z) := {
  tcp_new l := (Some (fst l), (fst l + 1, snd l));
  ip_set_option _ _ l := l;
  tcp_bind _ _ l := (0, l);
  tcp_listen pcb l := (Some pcb, l);
  tcp_close _ l := (0, l);
  tcp_abort _ l := l;
  tcp_sndbuf _ _ := 1000;
  tcp_write _ _ l := (0, l);
  tcp_output _ l := l;
  tcp_recved _ k l := (fst l, snd l + k);
  tcp_arg _ _ l := l;
  tcp_recv _ _ l := l;
  tcp_err _ _ l := l;
  tcp_accept _ _ l := l
}.

Definition run_all (l : list action) : M (net_t (Z * Z)) unit := foldr (λ a k, act a;; k) (mret tt) l.

(** Process 7 listens and a connection comes in, on descriptor 1. *)
Definition connected : net_t (Z * Z) := (from_option snd (net_boot (1, 0)) (run_all [Listen 7 80; Connected 0 9] (net_boot (1, 0)))).

Lemma connected_sockets : n_sockets connected =
  with_accepted 1 (with_conn SOCK_LISTEN (Some 1) 7 fresh_sock) :: with_conn SOCK_STREAM (Some 9) 7 fresh_sock :: replicate 6 sock_zero.
Proof. vm_compute. reflexivity. Qed.

Lemma connected_wf : net_wf connected.
Proof.
  split; rewrite connected_sockets; [done|]. do 2 (apply Forall_cons_2; [apply fresh_sock_wf|]). apply Forall_replicate. split; [by left|done].
Qed.

(** The calls of process 8, and a delivery to the connection of process 7. *)
Lemma socket_calls_isolated_witness :
  (∃ n', act (Close 8 1) connected = Some (tt, n') ∧ n_sockets n' !! 1%nat = n_sockets connected !! 1%nat) ∧
  (∃ n', act (Received 1 9 (Some [1; 2; 3])) connected = Some (tt, n') ∧ net_wf n').
Proof.
  split.
  - destruct (socket_calls_isolated connected (Close 8 1) 8 connected_wf eq_refl) as (n' & E & _ & Hk). exists n'. split; [done|].
    rewrite connected_sockets. apply Hk; [by rewrite connected_sockets|done|done].
  - destruct (socket_calls_isolated connected (Received 1 9 (Some [1; 2; 3])) 7 connected_wf) as (n' & E & Hw & _); [|by exists n'].
    split; [lia|]. exists (with_conn SOCK_STREAM (Some 9) 7 fresh_sock). split; [by rewrite connected_sockets|done].
Defined.

Lemma socket_stream_fifo_witness : ∃ n1 n2, sock_recv_cb 1 9 (Some [1; 2; 3]) connected = Some (ERR_OK, n1) ∧ snd (n_lwip n1) = 3 ∧
  net_sock_recv 7 1 2 n1 = Some ((2, [1; 2]), n2) ∧ stream n2 1 7 [3].
Proof.
  destruct (socket_stream_fifo connected 1 7 [] 9 [1; 2; 3] 2 connected_wf) as (n1 & E1 & _ & _ & Hl & H2); [lia| |lia|].
  - exists (with_conn SOCK_STREAM (Some 9) 7 fresh_sock). split; [by rewrite connected_sockets|]. split; [done|]. split; [done|]. split; [done|].
    apply (kring_u8_init_rep (replicate 4096 0)); rewrite length_replicate; lia.
  - destruct H2 as (n2 & E2 & _ & Hs & _); [done|]. exists n1, n2. split; [done|]. split; [by rewrite Hl|]. split; [done|]. done.
Defined.

(** Descriptor 1 of a pending connection, closed before it is accepted, stays noted in
    the listener.  Process 8 gets the slot for a listener of its own; when process 7
    ends, the forced close of its listener takes the socket of process 8 with it. *)
Example exit_closes_foreign_socket :
  ('(_, n1) ← run_all [Close 7 1; Listen 8 81] connected; s1 ← zlookup (n_sockets n1) 1;
   '(_, n2) ← net_sock_close_all_for_pid 7 n1; s2 ← zlookup (n_sockets n2) 1;
   Some (s_in_use s1, s_owner_pid s1, s_in_use s2)) = Some (1, 8, 0).
Proof. vm_compute. reflexivity. Qed.

(** A delivery that does not fit is cut, and the callback still returns [ERR_OK], with
    which the stack counts all of it as taken: the next delivery follows the gap. *)
Example delivery_cut :
  ('(e1, n1) ← sock_recv_cb 1 9 (Some (seqZ 0 5000)) connected; '((k, _), n2) ← net_sock_recv 7 1 4095 n1;
   '(e2, n3) ← sock_recv_cb 1 9 (Some [5000]) n2; '(r, _) ← net_sock_recv 7 1 10 n3;
   Some (e1, snd (n_lwip n1), k, e2, r)) = Some (ERR_OK, 4095, 4095, ERR_OK, (1, [5000])).
Proof. vm_compute. reflexivity. Qed.
