(* ===== verification/Keyboard.v ===== *)
(** * The keyboard ([src/src/io/keyboard.c])

    The interrupt handler translates scancodes, tracking the modifier keys, and
    puts the keys into a ring that [keyboard_buffer_pop] reads while the ring is
    enabled; otherwise they go to the kernel console.  What the handler passes
    to the terminal and the console is its output ([kb_event]). *)

From S2P Require Import Prelude Kring.

(** ** The code *)

Definition KEY_BUFFER_SIZE : Z := 32.
Definition KEY_LEFT : Z := 0x80.
Definition KEY_RIGHT : Z := 0x81.
Definition KEY_UP : Z := 0x82.
Definition KEY_DOWN : Z := 0x83.
Definition KEY_HOME : Z := 0x84.
Definition KEY_END : Z := 0x85.
Definition LSHIFT_SCAN : Z := 0x2A.
Definition RSHIFT_SCAN : Z := 0x36.
Definition LCTRL_SCAN : Z := 0x1D.

Definition kb_map : list Z :=
  [0; 0] ++ str "1234567890" ++
  str "-=" ++ [8; 9] ++ str "qwertyui" ++
  str "op[]" ++ [10; 0] ++ str "asdfgh" ++
  str "jkl;'`" ++ [0; 92] ++ str "zxcv" ++
  str "bnm,./" ++ [0; 42; 0; 32].

(** [34] is the double quote. *)
Definition kb_map_shift : list Z :=
  [0; 0] ++ str "!@#$%^&*()" ++
  str "_+" ++ [8; 9] ++ str "QWERTYUI" ++
  str "OP{}" ++ [10; 0] ++ str "ASDFGH" ++
  str "JKL:" ++ [34; 126] ++ [0; 124] ++ str "ZXCV" ++
  str "BNM<>?" ++ [0; 42; 0; 32].

Record kb_t : Type := mk_kb {
  kb_extended : bool;
  shift_held : bool;
  ctrl_held : bool;
  key_buffer : kring_u8_t;
  kb_enabled : Z
}.

Definition kb_boot : kb_t := mk_kb false false false kring_zero 0.

Definition set_shift (b : bool) (k : kb_t) : kb_t :=
  mk_kb (kb_extended k) b (ctrl_held k) (key_buffer k) (kb_enabled k).
Definition set_ctrl (b : bool) (k : kb_t) : kb_t :=
  mk_kb (kb_extended k) (shift_held k) b (key_buffer k) (kb_enabled k).
Definition set_extended (b : bool) (k : kb_t) : kb_t :=
  mk_kb b (shift_held k) (ctrl_held k) (key_buffer k) (kb_enabled k).
Definition set_ring (r : kring_u8_t) (k : kb_t) : kb_t :=
  mk_kb (kb_extended k) (shift_held k) (ctrl_held k) r (kb_enabled k).

(** The key of a scancode, or 0. *)
Definition keyboard_translate (scancode : Z) : M kb_t Z := λ k,
  if (scancode =? LSHIFT_SCAN) || (scancode =? RSHIFT_SCAN) then Some (0, set_shift true k) else
  if (scancode =? Z.lor LSHIFT_SCAN 0x80) || (scancode =? Z.lor RSHIFT_SCAN 0x80)
  then Some (0, set_shift false k) else
  if scancode =? LCTRL_SCAN then Some (0, set_ctrl true k) else
  if scancode =? Z.lor LCTRL_SCAN 0x80 then Some (0, set_ctrl false k) else
  if negb (Z.land scancode 0x80 =? 0) then Some (0, k) else
  if Z.of_nat (length kb_map) <=? scancode then Some (0, k) else
  m ← zlookup (if shift_held k then kb_map_shift else kb_map) scancode;
  let c := Z.land m 0x7F in
  if c =? 0 then Some (0, k) else
  if ctrl_held k && (97 <=? c) && (c <=? 122) then Some (u8 (c - 97 + 1), k) else
  Some (c, k).

Definition keyboard_buffer_init : M kb_t unit := λ k,
  Some (tt, set_ring (kring_u8_init (default (replicate (Z.to_nat KEY_BUFFER_SIZE) 0) (kr_buf (key_buffer k)))
                                    KEY_BUFFER_SIZE) k).

Definition keyboard_buffer_enable (enable : Z) : M kb_t unit := λ k,
  Some (tt, mk_kb (kb_extended k) (shift_held k) (ctrl_held k)
              (if enable =? 0 then key_buffer k else kring_u8_reset (key_buffer k)) enable).

Definition keyboard_buffer_push (key : Z) : M kb_t Z := λ k,
  if kb_enabled k =? 0 then Some (-1, k) else
  '(rc, r) ← kring_u8_push key (key_buffer k); Some (rc, set_ring r k).

Definition keyboard_buffer_pop : M kb_t Z := λ k,
  '(o, r) ← kring_u8_pop (key_buffer k); Some (default 0 o, set_ring r k).

Definition keyboard_buffer_empty (k : kb_t) : bool := kring_u8_empty (key_buffer k).

(** What the handler does outside this file. *)
Inductive kb_event := ScrollUp | ScrollDown | ConsoleKey (c : Z).

Definition extended_key (scancode : Z) : Z :=
  if scancode =? 0x4B then KEY_LEFT else if scancode =? 0x4D then KEY_RIGHT else
  if scancode =? 0x48 then KEY_UP else if scancode =? 0x50 then KEY_DOWN else
  if scancode =? 0x47 then KEY_HOME else if scancode =? 0x4F then KEY_END else 0.

(** [scancode] is the byte read from the keyboard port. *)
Definition keyboard_irq_handler (scancode : Z) : M kb_t (list kb_event) :=
  k ← get;
  if scancode =? 0xE0 then (modify (set_extended true);; mret []) else
  if kb_extended k then
    modify (set_extended false);;
    if negb (Z.land scancode 0x80 =? 0) then mret [] else
    if scancode =? 0x49 then mret [ScrollUp] else
    if scancode =? 0x51 then mret [ScrollDown] else
    if kb_enabled k =? 0 then mret [] else
    let key := extended_key scancode in
    if key =? 0 then mret [] else (keyboard_buffer_push key;; mret [])
  else if negb (kb_enabled k =? 0) then
    c ← keyboard_translate scancode;
    if c =? 0 then mret [] else (keyboard_buffer_push c;; mret [])
  else
    c ← keyboard_translate scancode;
    if c =? 0 then mret [] else mret [ConsoleKey c].

(** ** Decoding a stream of scancodes

    The keyboard's part of the state, and the key of each scancode. *)

Record kb_mods : Type := mk_mods { m_ext : bool; m_shift : bool; m_ctrl : bool }.

Definition plain_key (shift ctrl : bool) (sc : Z) : option Z :=
  m ← (if shift then kb_map_shift else kb_map) !! Z.to_nat sc;
  if m =? 0 then None else
  Some (if ctrl && (97 <=? m) && (m <=? 122) then m - 96 else m).

Inductive mod_key := Shift | Ctrl | NoMod.
Definition mod_of (sc : Z) : mod_key :=
  if (sc =? LSHIFT_SCAN) || (sc =? RSHIFT_SCAN) then Shift
  else if sc =? LCTRL_SCAN then Ctrl else NoMod.

(** A scancode below 128 is a press, above it is the release of the key 128
    lower; 0xE0 announces an extended key. *)
Definition decode1 (m : kb_mods) (sc : Z) : kb_mods * option Z :=
  if sc =? 0xE0 then (mk_mods true (m_shift m) (m_ctrl m), None) else
  if m_ext m then
    (mk_mods false (m_shift m) (m_ctrl m),
     if (sc <? 128) && negb (extended_key sc =? 0) then Some (extended_key sc) else None)
  else
    let press := sc <? 128 in
    match mod_of (if press then sc else sc - 128) with
    | Shift => (mk_mods false press (m_ctrl m), None)
    | Ctrl => (mk_mods false (m_shift m) press, None)
    | NoMod => (m, if press then plain_key (m_shift m) (m_ctrl m) sc else None)
    end.

Fixpoint decode (m : kb_mods) (scs : list Z) : kb_mods * list Z :=
  match scs with
  | [] => (m, [])
  | sc :: scs => let '(m1, o) := decode1 m sc in
                 let '(m2, ks) := decode m1 scs in (m2, option_list o ++ ks)
  end.

Definition mods_of (k : kb_t) : kb_mods := mk_mods (kb_extended k) (shift_held k) (ctrl_held k).

(** ** The handler implements the decoder *)

Lemma byte_cases (P : Z → Prop) : Forall P (seqZ 0 256) → ∀ sc, is_u8 sc → P sc.
Proof. rewrite Forall_forall. intros H sc Hsc. apply H, elem_of_seqZ. unfold is_u8 in Hsc. lia. Qed.

(** The table of all translations. *)
Lemma translate_decode sc ext sh ct r en :
  is_u8 sc → sc ≠ 0xE0 →
  let '(m, o) := decode1 (mk_mods false sh ct) sc in
  keyboard_translate sc (mk_kb ext sh ct r en) =
    Some (default 0 o, mk_kb ext (m_shift m) (m_ctrl m) r en) ∧ m_ext m = false.
Proof.
  intros Hsc Hne. revert sc Hsc Hne sh ct. refine (byte_cases _ _).
  let l := eval vm_compute in (seqZ 0 256) in change (seqZ 0 256) with l.
  repeat (apply Forall_cons_2; [intros Hne [] []; try (exfalso; apply Hne; reflexivity); vm_compute; done|]).
  apply Forall_nil_2.
Qed.

(** Every key is a byte other than 0. *)
Lemma decode1_key m sc :
  is_u8 sc → ∀ c, (decode1 m sc).2 = Some c → 1 ≤ c < 256.
Proof.
  intros Hsc. destruct m as [ext sh ct]. revert sc Hsc ext sh ct. refine (byte_cases _ _).
  let l := eval vm_compute in (seqZ 0 256) in change (seqZ 0 256) with l.
  repeat (apply Forall_cons_2; [intros [] [] [] c H; vm_compute in H; first [discriminate H|injection H as <-; lia]|]).
  apply Forall_nil_2.
Qed.

Lemma high_bit sc : is_u8 sc → negb (Z.land sc 0x80 =? 0) = negb (sc <? 128).
Proof.
  revert sc. refine (byte_cases _ _). let l := eval vm_compute in (seqZ 0 256) in change (seqZ 0 256) with l.
  repeat (apply Forall_cons_2; [reflexivity|]). apply Forall_nil_2.
Qed.

(** The ring after a key arrives: a full ring drops it. *)
Definition queue_key (q : list Z) (o : option Z) : list Z := take 31 (q ++ option_list o).

Definition kb_rep (k : kb_t) (q : list Z) : Prop := kring_rep (key_buffer k) 31 q ∧ kb_enabled k ≠ 0.

Lemma push_queue k q c : kb_rep k q → is_u8 c →
  ∃ rc k', keyboard_buffer_push c k = Some (rc, k') ∧ kb_rep k' (queue_key q (Some c)) ∧ mods_of k' = mods_of k.
Proof.
  intros [Hr He] Hc. unfold keyboard_buffer_push. rewrite (proj2 (Z.eqb_neq _ _) He).
  pose proof (fifo_bound _ _ _ Hr) as Hb. unfold queue_key. cbn [option_list].
  destruct (decide (length q < 31)%nat).
  - destruct (kring_push_ok _ _ _ c Hr) as (r & -> & Hr'); [done|]. cbn [mbind option_bind].
    eexists _, _. split; [done|]. split; [|done]. rewrite take_ge by (rewrite length_app; simpl; lia). done.
  - rewrite (kring_push_full _ _ _ c Hr) by lia. cbn [mbind option_bind].
    eexists _, _. split; [done|]. split; [|done]. rewrite take_app_le, take_ge by lia. done.
Qed.

Lemma queue_none k q : kb_rep k q → queue_key q None = q.
Proof.
  intros [Hr _]. pose proof (fifo_bound _ _ _ Hr). unfold queue_key. cbn [option_list].
  rewrite app_nil_r. by apply take_ge.
Qed.

Lemma irq_step k q sc : kb_rep k q → is_u8 sc →
  ∃ evs k', keyboard_irq_handler sc k = Some (evs, k') ∧
    mods_of k' = (decode1 (mods_of k) sc).1 ∧ kb_rep k' (queue_key q (decode1 (mods_of k) sc).2) ∧
    ∀ c, ConsoleKey c ∉ evs.
Proof.
  intros Hk Hsc. pose proof Hk as [Hr He]. destruct k as [ext sh ct r en]. cbn [kb_enabled key_buffer] in *.
  unfold keyboard_irq_handler, mbind, M_bind, get, modify, mret, M_ret.
  destruct (Z.eqb_spec sc 0xE0) as [->|Hne].
  { eexists _, _. split; [done|]. split; [done|]. split; [|set_solver]. cbn. by rewrite (queue_none _ _ Hk). }
  cbn [kb_extended kb_enabled]. destruct ext.
  - rewrite high_bit by done. unfold decode1. cbn [mods_of m_ext kb_extended].
    rewrite (proj2 (Z.eqb_neq _ _) Hne). cbn [m_shift m_ctrl shift_held ctrl_held fst snd].
    assert (Hk' : kb_rep (mk_kb false sh ct r en) q) by done.
    assert (Hq : kb_rep (mk_kb false sh ct r en) (queue_key q None)) by (by rewrite (queue_none _ _ Hk')).
    destruct (Z.ltb_spec sc 128) as [Hp|Hp]; cbn [negb andb].
    2: { eexists _, _. split; [done|]. split; [done|]. split; [exact Hq|set_solver]. }
    destruct (Z.eqb_spec sc 0x49) as [->|H1].
    { eexists _, _. split; [done|]. split; [done|]. split; [exact Hq|set_solver]. }
    destruct (Z.eqb_spec sc 0x51) as [->|H2].
    { eexists _, _. split; [done|]. split; [done|]. split; [exact Hq|set_solver]. }
    rewrite (proj2 (Z.eqb_neq _ _) He). destruct (Z.eqb_spec (extended_key sc) 0) as [Hz|Hz]; cbn [negb].
    { eexists _, _. split; [done|]. split; [done|]. split; [exact Hq|set_solver]. }
    destruct (push_queue _ q (extended_key sc) Hk') as (rc & k' & E & Hk2 & Hm).
    { unfold extended_key in *. unfold KEY_LEFT, KEY_RIGHT, KEY_UP, KEY_DOWN, KEY_HOME, KEY_END, is_u8 in *.
      repeat case_match; lia. }
    unfold set_extended. cbn [shift_held ctrl_held key_buffer kb_enabled]. rewrite E.
    eexists _, _. split; [done|]. split; [done|]. split; [done|set_solver].
  - rewrite (proj2 (Z.eqb_neq _ _) He). cbn [negb].
    pose proof (translate_decode sc false sh ct r en Hsc Hne) as Ht.
    pose proof (decode1_key (mk_mods false sh ct) sc Hsc) as Hc.
    change (mods_of (mk_kb false sh ct r en)) with (mk_mods false sh ct).
    destruct (decode1 (mk_mods false sh ct) sc) as [[ext' sh' ct'] o]. destruct Ht as [Ht Hext].
    cbn [m_ext m_shift m_ctrl fst snd] in *. subst ext'. rewrite Ht.
    assert (Hk' : kb_rep (mk_kb false sh' ct' r en) q) by done.
    destruct o as [c|]; cbn [default from_option id].
    + specialize (Hc c eq_refl). rewrite (proj2 (Z.eqb_neq c 0)) by lia.
      destruct (push_queue _ q c Hk') as (rc & k' & E & Hk2 & Hm); [unfold is_u8; lia|]. rewrite E.
      eexists _, _. split; [done|]. split; [done|]. split; [done|set_solver].
    + eexists _, _. split; [done|]. split; [done|]. split; [by rewrite (queue_none _ _ Hk')|set_solver].
Qed.

(** A sequence of interrupts. *)
Fixpoint keyboard_irqs (scs : list Z) : M kb_t (list kb_event) :=
  match scs with
  | [] => mret []
  | sc :: scs => e ← keyboard_irq_handler sc; es ← keyboard_irqs scs; mret (e ++ es)
  end.

Lemma irqs_ok scs k q : kb_rep k q → Forall is_u8 scs →
  ∃ evs k', keyboard_irqs scs k = Some (evs, k') ∧ mods_of k' = (decode (mods_of k) scs).1 ∧
    kb_rep k' (take 31 (q ++ (decode (mods_of k) scs).2)) ∧
    Forall (λ c, 1 ≤ c < 256) (decode (mods_of k) scs).2 ∧ (∀ c, ConsoleKey c ∉ evs).
Proof.
  intros Hk Hs. revert k q Hk. induction Hs as [|sc scs Hsc Hs IH]; intros k q Hk.
  { eexists _, k. split; [done|]. split; [done|]. cbn. rewrite app_nil_r.
    pose proof (fifo_bound _ _ _ (proj1 Hk)). rewrite take_ge by done.
    split; [done|]. split; [apply Forall_nil_2|set_solver]. }
  destruct (irq_step k q sc Hk Hsc) as (e & k1 & E1 & Hm1 & Hk1 & Hn1).
  destruct (IH k1 _ Hk1) as (es & k2 & E2 & Hm2 & Hk2 & Hn2 & Hn3).
  cbn [keyboard_irqs decode]. unfold mbind, M_bind. rewrite E1, E2. eexists _, _. split; [done|].
  rewrite Hm1 in Hm2, Hk2, Hn2. pose proof (decode1_key (mods_of k) sc Hsc) as Hc.
  destruct (decode1 (mods_of k) sc) as [m1 o]. cbn [fst snd] in *.
  destruct (decode m1 scs) as [m2 ks]. cbn [fst snd] in *. split; [done|]. split_and!.
  - destruct Hk2 as [Hk2 ?]. split; [|done]. unfold queue_key in Hk2.
    replace (take 31 (q ++ option_list o ++ ks)) with (take 31 (take 31 (q ++ option_list o) ++ ks)); [done|].
    rewrite app_assoc. destruct (decide (length (q ++ option_list o) ≤ 31)%nat).
    + by rewrite (take_ge (q ++ option_list o)) by done.
    + rewrite (take_app_le (q ++ option_list o)) by lia. rewrite take_app_le by (rewrite length_take; lia).
      by rewrite take_take.
  - apply Forall_app_2; [|done]. destruct o; [|apply Forall_nil_2]. apply Forall_singleton. by apply Hc.
  - set_solver.
Qed.

(** [n] reads of the buffer. *)
Fixpoint keyboard_pops (n : nat) : M kb_t (list Z) :=
  match n with O => mret [] | S n => c ← keyboard_buffer_pop; cs ← keyboard_pops n; mret (c :: cs) end.

Lemma pops_ok n k q : kb_rep k q →
  ∃ k', keyboard_pops n k = Some (take n q ++ replicate (n - length q) 0, k').
Proof.
  revert k q. induction n as [|n IH]; intros k q Hk; [by exists k|].
  cbn [keyboard_pops]. unfold mbind, M_bind, keyboard_buffer_pop. destruct q as [|b q].
  - rewrite (kring_pop_empty _ _ (proj1 Hk)). cbn [mbind option_bind default from_option id].
    destruct (IH (set_ring (key_buffer k) k) []) as (k' & ->); [done|]. exists k'.
    cbn [length take app replicate]. rewrite Nat.sub_0_r, take_nil. cbn [app replicate]. done.
  - destruct (kring_pop_ok _ _ _ _ (proj1 Hk)) as (r & -> & Hr). cbn [mbind option_bind default from_option id].
    destruct (IH (set_ring r k) q) as (k' & ->); [split; [done|apply Hk]|]. by exists k'.
Qed.

(** C32 (functional): while the key buffer is enabled, the keys a program reads
    after any sequence of keyboard interrupts are those of the scancodes decoded
    with the shift and control keys that are held at each of them, in order and
    up to the 31 keys the buffer holds; none of them is 0, so the 0 that reading
    an empty buffer returns is never a key; and no key reaches the console. *)
Theorem keyboard_stream_decoded (k : kb_t) (q scs : list Z) (n : nat)
  (Hrep : kb_rep k q) (Hscs : Forall is_u8 scs) :
  ∃ evs k' k'', keyboard_irqs scs k = Some (evs, k') ∧ (∀ c, ConsoleKey c ∉ evs) ∧
    let keys := take 31 (q ++ (decode (mods_of k) scs).2) in
    Forall (λ c, c ≠ 0) (decode (mods_of k) scs).2 ∧
    mods_of k' = (decode (mods_of k) scs).1 ∧
    keyboard_pops n k' = Some (take n keys ++ replicate (n - length keys) 0, k'').
Proof.
  destruct (irqs_ok scs k q Hrep Hscs) as (evs & k' & E & Hm & Hk' & Hnz & Hc).
  destruct (pops_ok n k' _ Hk') as (k'' & E'). exists evs, k', k''. split; [done|]. split; [done|].
  split; [|done]. eapply Forall_impl; [done|]. intros c ?. cbv beta in *. lia.
Qed.

(** Shift down, [a], shift up, [a], control and [c], and the left arrow. *)
Lemma keyboard_stream_decoded_witness :
  ∃ k evs k' k'', kb_rep k [] ∧
    keyboard_irqs [0x2A; 0x1E; 0xAA; 0x1E; 0x1D; 0x2E; 0xE0; 0x4B] k = Some (evs, k') ∧
    keyboard_pops 5 k' = Some ([65; 97; 3; 0x80; 0], k'').
Proof.
  set (k := mk_kb false false false (kring_u8_init (replicate 32 0) 32) 1).
  assert (Hk : kb_rep k []).
  { split; [|discriminate]. pose proof (kring_u8_init_rep (replicate 32 0)) as Hr.
    rewrite length_replicate in Hr. apply Hr; lia. }
  destruct (keyboard_stream_decoded k [] [0x2A; 0x1E; 0xAA; 0x1E; 0x1D; 0x2E; 0xE0; 0x4B] 5 Hk)
    as (evs & k' & k'' & E & _ & _ & _ & E').
  - repeat (apply Forall_cons_2; [unfold is_u8; lia|]). apply Forall_nil_2.
  - exists k, evs, k', k''. split; [exact Hk|]. split; [exact E|exact E'].
Defined.
