(* ===== verification/Mouse.v ===== *)
(** * The PS/2 mouse ([src/src/arch/i686/mouse.c])

    The interrupt handler assembles three-byte packets and moves the pointer,
    which stays inside the bounds.  Signed arithmetic that would overflow is
    undefined behaviour ([None]).  The port protocol of [mouse_init] is not
    modelled. *)

From S2P Require Import Prelude.

(** ** The code *)

Record mouse_t : Type := mk_mouse {
  mouse_x : Z; mouse_y : Z; mouse_buttons : Z;
  max_x : Z; max_y : Z;
  packet : list Z; packet_cycle : Z
}.

Definition mouse_boot : mouse_t := mk_mouse 0 0 0 1024 768 [0; 0; 0] 0.

Record mouse_state_t : Type := mk_mouse_state { ms_x : Z; ms_y : Z; ms_buttons : Z }.

Definition mouse_get_state (m : mouse_t) : mouse_state_t :=
  mk_mouse_state (mouse_x m) (mouse_y m) (mouse_buttons m).

Definition mouse_set_bounds (w h : Z) : M mouse_t unit := λ m,
  let mx := if 0 <? w then w else 1024 in
  let my := if 0 <? h then h else 768 in
  let x := if mx <=? mouse_x m then mx - 1 else mouse_x m in
  let y := if my <=? mouse_y m then my - 1 else mouse_y m in
  Some (tt, mk_mouse x y (mouse_buttons m) mx my (packet m) (packet_cycle m)).

(** Addition of two [int]s. *)
Definition int_add (a b : Z) : option Z :=
  if (-2147483648 <=? a + b) && (a + b <=? 2147483647) then Some (a + b) else None.

(** [if (v < 0) v = 0; if (v >= max) v = max - 1;] *)
Definition clamp (v max : Z) : Z :=
  let v := if v <? 0 then 0 else v in if max <=? v then max - 1 else v.

(** [data] is the byte read from the data port. *)
Definition mouse_irq_handler (data : Z) : M mouse_t unit := λ m,
  p ← zupdate (packet m) (packet_cycle m) data;
  let cycle := packet_cycle m + 1 in
  if cycle =? 1 then
    Some (tt, mk_mouse (mouse_x m) (mouse_y m) (mouse_buttons m) (max_x m) (max_y m) p
                (if Z.land data 0x08 =? 0 then 0 else cycle))
  else if cycle <? 3 then
    Some (tt, mk_mouse (mouse_x m) (mouse_y m) (mouse_buttons m) (max_x m) (max_y m) p cycle)
  else
    flags ← zlookup p 0; p1 ← zlookup p 1; p2 ← zlookup p 2;
    let buttons := Z.land flags 0x07 in
    let dx := if Z.land flags 0x10 =? 0 then p1 else s32 (Z.lor p1 0xFFFFFF00) in
    let dy := if Z.land flags 0x20 =? 0 then p2 else s32 (Z.lor p2 0xFFFFFF00) in
    if negb (Z.land flags 0xC0 =? 0) then
      Some (tt, mk_mouse (mouse_x m) (mouse_y m) buttons (max_x m) (max_y m) p 0)
    else
      x ← int_add (mouse_x m) dx;
      y ← int_add (mouse_y m) (- dy);
      Some (tt, mk_mouse (clamp x (max_x m)) (clamp y (max_y m)) buttons (max_x m) (max_y m) p 0).

(** ** Invariant *)

Definition SCREEN_MAX : Z := 0x40000000.

Record mouse_wf (m : mouse_t) : Prop := {
  mw_bounds : 1 ≤ max_x m ≤ SCREEN_MAX ∧ 1 ≤ max_y m ≤ SCREEN_MAX;
  mw_pos : 0 ≤ mouse_x m < max_x m ∧ 0 ≤ mouse_y m < max_y m;
  mw_buttons : 0 ≤ mouse_buttons m < 8;
  mw_packet : length (packet m) = 3%nat ∧ Forall is_u8 (packet m);
  mw_cycle : 0 ≤ packet_cycle m ≤ 2
}.

(** The value of a nine-bit two's complement delta. *)
Definition delta (sign : bool) (b : Z) : Z := if sign then b - 256 else b.

Lemma sign_extend b : is_u8 b → s32 (Z.lor b 0xFFFFFF00) = b - 256.
Proof.
  intros Hb. assert (E : Z.lor b 0xFFFFFF00 = b + 0xFFFFFF00).
  { assert (Hz : Z.land b 0xFFFFFF00 = 0).
    { change 0xFFFFFF00 with (Z.shiftl (Z.ones 24) 8). apply Z.bits_inj'. intros n Hn.
      rewrite Z.land_spec, Z.bits_0. destruct (Z.ltb_spec n 8); [by rewrite Z.shiftl_spec_low, andb_false_r|].
      destruct (decide (b = 0)) as [->|]; [by rewrite Z.bits_0|].
      rewrite (Z.bits_above_log2 b); [done|unfold is_u8 in Hb; lia|].
      apply Z.log2_lt_pow2; [unfold is_u8 in Hb; lia|].
      apply Z.lt_le_trans with (2 ^ 8); [apply Hb|]. apply Z.pow_le_mono_r; lia. }
    rewrite <- Z.lxor_lor by done. by rewrite <- Z.add_nocarry_lxor. }
  rewrite E. mlia.
Qed.

Lemma land7_range x : 0 ≤ Z.land x 7 < 8.
Proof. change 7 with (Z.ones 3). rewrite Z.land_ones by lia. mlia. Qed.

Lemma int_add_ok a b : 0 ≤ a < SCREEN_MAX → -256 ≤ b ≤ 256 → int_add a b = Some (a + b).
Proof.
  intros Ha Hb. unfold int_add, SCREEN_MAX in *.
  by rewrite (proj2 (Z.leb_le _ _)), (proj2 (Z.leb_le _ _)) by lia.
Qed.

Lemma clamp_range v mx : 1 ≤ mx → 0 ≤ clamp v mx < mx.
Proof. intros H. unfold clamp. repeat case_match; lia. Qed.

Lemma mouse_irq_ok m data : mouse_wf m → is_u8 data →
  ∃ m', mouse_irq_handler data m = Some (tt, m') ∧ mouse_wf m' ∧
    max_x m' = max_x m ∧ max_y m' = max_y m.
Proof.
  intros [Hb Hp Hbt [Hl Hf] Hc] Hd. unfold mouse_irq_handler.
  rewrite (zupdate_Some (packet m) (packet_cycle m) data) by (rewrite Hl; lia). cbn [mbind option_bind].
  set (p := <[_ := _]> _).
  assert (Hp3 : length p = 3%nat ∧ Forall is_u8 p)
    by (unfold p; rewrite length_insert; split; [done|by apply Forall_insert_list]).
  destruct (Z.eqb_spec (packet_cycle m + 1) 1).
  { eexists. split; [done|]. split; [|done]. split; try done; cbn. case_match; lia. }
  destruct (Z.ltb_spec (packet_cycle m + 1) 3).
  { eexists. split; [done|]. split; [|done]. split; try done; cbn. lia. }
  destruct Hp3 as [H3 Hfp].
  destruct (zlookup_in_range p 0) as (flags & Hf0); [lia|].
  destruct (zlookup_in_range p 1) as (p1 & Hf1); [lia|].
  destruct (zlookup_in_range p 2) as (p2 & Hf2); [lia|].
  rewrite Hf0, Hf1, Hf2. cbn [mbind option_bind].
  assert (H1 : is_u8 p1) by (rewrite zlookup_nonneg in Hf1 by lia; by eapply Forall_lookup_1 in Hf1).
  assert (H2 : is_u8 p2) by (rewrite zlookup_nonneg in Hf2 by lia; by eapply Forall_lookup_1 in Hf2).
  case_match.
  { eexists. split; [done|]. split; [|done]. split; try done; cbn; first [apply land7_range|lia]. }
  rewrite int_add_ok; [|unfold SCREEN_MAX in *; lia|case_match; rewrite ?sign_extend by done; unfold is_u8 in *; lia].
  cbn [mbind option_bind].
  rewrite int_add_ok; [|unfold SCREEN_MAX in *; lia|case_match; rewrite ?sign_extend by done; unfold is_u8 in *; lia].
  cbn [mbind option_bind]. eexists. split; [done|]. split; [|done].
  split; try done; cbn [mouse_x mouse_y mouse_buttons max_x max_y packet_cycle packet].
  - split; apply clamp_range; lia.
  - apply land7_range.
Qed.

Lemma mouse_set_bounds_ok m w h : mouse_wf m → w ≤ SCREEN_MAX → h ≤ SCREEN_MAX →
  ∃ m', mouse_set_bounds w h m = Some (tt, m') ∧ mouse_wf m' ∧
    max_x m' = (if 0 <? w then w else 1024) ∧ max_y m' = (if 0 <? h then h else 768).
Proof.
  intros [Hb Hp Hbt Hpk Hc] Hw Hh. unfold mouse_set_bounds. eexists. split; [done|].
  split; [|done]. unfold SCREEN_MAX in *. split; try done; cbn; unfold SCREEN_MAX; split; repeat case_match; lia.
Qed.

Inductive mouse_call := MIrq (data : Z) | MBounds (w h : Z).
Definition mouse_call_ok (c : mouse_call) : Prop :=
  match c with MIrq data => is_u8 data | MBounds w h => w ≤ SCREEN_MAX ∧ h ≤ SCREEN_MAX end.
Definition mouse_run (c : mouse_call) : M mouse_t unit :=
  match c with MIrq data => mouse_irq_handler data | MBounds w h => mouse_set_bounds w h end.
Fixpoint mouse_runs (cs : list mouse_call) : M mouse_t unit :=
  match cs with [] => mret tt | c :: cs => mouse_run c;; mouse_runs cs end.

Lemma mouse_runs_ok cs m : mouse_wf m → Forall mouse_call_ok cs →
  ∃ m', mouse_runs cs m = Some (tt, m') ∧ mouse_wf m'.
Proof.
  intros Hm Hcs. revert m Hm. induction Hcs as [|c cs Hc Hcs IH]; intros m Hm; [by exists m|].
  cbn [mouse_runs]. unfold mbind, M_bind. destruct c as [data|w h]; cbn [mouse_run mouse_call_ok] in *.
  - destruct (mouse_irq_ok m data Hm Hc) as (m1 & -> & Hm1 & _). by apply IH.
  - destruct Hc as [Hw Hh]. destruct (mouse_set_bounds_ok m w h Hm Hw Hh) as (m1 & -> & Hm1 & _). by apply IH.
Qed.

(** The three bytes of a packet. *)
Lemma irq_first x y bt mx my q0 q1 q2 d : Z.land d 0x08 ≠ 0 →
  mouse_irq_handler d (mk_mouse x y bt mx my [q0; q1; q2] 0) =
  Some (tt, mk_mouse x y bt mx my [d; q1; q2] 1).
Proof. intros H. unfold mouse_irq_handler. cbn. by rewrite (proj2 (Z.eqb_neq _ _) H). Qed.

Lemma irq_second x y bt mx my q0 q1 q2 d :
  mouse_irq_handler d (mk_mouse x y bt mx my [q0; q1; q2] 1) =
  Some (tt, mk_mouse x y bt mx my [q0; d; q2] 2).
Proof. reflexivity. Qed.

Lemma irq_third x y bt mx my q0 q1 q2 d : Z.land q0 0xC0 = 0 →
  mouse_irq_handler d (mk_mouse x y bt mx my [q0; q1; q2] 2) =
  (x' ← int_add x (if Z.land q0 0x10 =? 0 then q1 else s32 (Z.lor q1 0xFFFFFF00));
   y' ← int_add y (- (if Z.land q0 0x20 =? 0 then d else s32 (Z.lor d 0xFFFFFF00)));
   Some (tt, mk_mouse (clamp x' mx) (clamp y' my) (Z.land q0 7) mx my [q0; q1; d] 0)).
Proof.
  intros H. unfold mouse_irq_handler.
  change (zupdate _ _ _) with (Some [q0; q1; d]). cbn [mbind option_bind packet_cycle].
  change (2 + 1 =? 1) with false. change (2 + 1 <? 3) with false.
  change (zlookup [q0; q1; d] 0) with (Some q0). change (zlookup [q0; q1; d] 1) with (Some q1).
  change (zlookup [q0; q1; d] 2) with (Some d). cbn [mbind option_bind]. by rewrite H.
Qed.

(** C40 (invariant): after any sequence of mouse interrupts and changes of the
    bounds the packet index is in range, no signed addition overflows and the
    pointer is inside the screen; and from a packet boundary a packet with the
    synchronisation bit and no overflow bits moves the pointer by its nine-bit
    deltas, up being positive, clamped to the screen, and reports its buttons. *)
Theorem mouse_position_tracked (cs : list mouse_call) (flags b1 b2 : Z)
  (Hcs : Forall mouse_call_ok cs) (Hflags : is_u8 flags) (H1 : is_u8 b1) (H2 : is_u8 b2) :
  ∃ m, mouse_runs cs mouse_boot = Some (tt, m) ∧
    0 ≤ mouse_x m < max_x m ∧ 0 ≤ mouse_y m < max_y m ∧ 0 ≤ packet_cycle m < 3 ∧
    (packet_cycle m = 0 → Z.land flags 0x08 ≠ 0 → Z.land flags 0xC0 = 0 →
     ∃ m', mouse_runs [MIrq flags; MIrq b1; MIrq b2] m = Some (tt, m') ∧
       mouse_get_state m' =
         mk_mouse_state
           (Z.max 0 (Z.min (max_x m - 1) (mouse_x m + delta (negb (Z.land flags 0x10 =? 0)) b1)))
           (Z.max 0 (Z.min (max_y m - 1) (mouse_y m - delta (negb (Z.land flags 0x20 =? 0)) b2)))
           (Z.land flags 7)).
Proof.
  assert (Hboot : mouse_wf mouse_boot).
  { split; cbn; unfold SCREEN_MAX; try lia. split; [done|]. repeat (apply Forall_cons_2; [done|]). apply Forall_nil_2. }
  destruct (mouse_runs_ok cs mouse_boot Hboot Hcs) as (m & -> & [Hb Hp Hbt [Hl Hf] Hc]).
  exists m. split; [done|]. split; [lia|]. split; [lia|]. split; [lia|]. intros Hcy Hsync Hov.
  destruct m as [x y bt mx my p cy]. cbn [mouse_x mouse_y mouse_buttons max_x max_y packet packet_cycle] in *.
  subst cy. destruct p as [|q0 [|q1 [|q2 [|]]]]; try done.
  cbn [mouse_runs mouse_run]. unfold mbind, M_bind.
  rewrite irq_first, irq_second, irq_third by done. unfold mret, M_ret.
  assert (Hd : ∀ (c : bool) b, is_u8 b → (if c then b else s32 (Z.lor b 0xFFFFFF00)) = delta (negb c) b ∧
                                -256 ≤ delta (negb c) b < 256).
  { intros [] b Hb'; unfold delta; cbn [negb]; [unfold is_u8 in *; lia|].
    rewrite sign_extend by done. unfold is_u8 in *; lia. }
  destruct (Hd (Z.land flags 16 =? 0) b1 H1) as [-> Hx]. destruct (Hd (Z.land flags 32 =? 0) b2 H2) as [-> Hy].
  rewrite int_add_ok by (unfold SCREEN_MAX in *; lia). cbn [mbind option_bind].
  rewrite int_add_ok by (unfold SCREEN_MAX in *; lia). cbn [mbind option_bind].
  eexists. split; [done|]. unfold mouse_get_state. cbn [mouse_x mouse_y mouse_buttons].
  f_equal; unfold clamp; repeat case_match; lia.
Qed.

Lemma mouse_position_tracked_witness :
  ∃ m m', mouse_runs [MBounds 640 480] mouse_boot = Some (tt, m) ∧
    mouse_runs [MIrq 0x29; MIrq 5; MIrq 0xF0] m = Some (tt, m') ∧
    mouse_get_state m' = mk_mouse_state 5 16 1.
Proof.
  destruct (mouse_position_tracked [MBounds 640 480] 0x29 5 0xF0) as (m & E & _ & _ & _ & H).
  - apply Forall_cons_2; [split; unfold SCREEN_MAX; lia|apply Forall_nil_2].
  - unfold is_u8; lia.
  - unfold is_u8; lia.
  - unfold is_u8; lia.
  - destruct H as (m' & E' & Hs); [by injection E as <-|discriminate|reflexivity|].
    exists m, m'. split; [exact E|]. split; [exact E'|]. rewrite Hs. injection E as <-. reflexivity.
Defined.
