(* ===== verification/Vfs.v ===== *)
(** * The virtual file system ([src/src/fs/vfs.c])

    The layer dispatches on the path and on the file system identifier stored in
    a descriptor: registered file systems (non-negative identifiers), the
    virtual files of the kernel and the named pipes.  A file system is a record
    of operations on the state [K] of the rest of the kernel ([None] in a field
    is a null function pointer); a virtual file reads that state.  A descriptor
    table is passed to each operation with the state of the layer.  Paths are
    non-null strings. *)

From S2P Require Import Prelude Kring Pipe KHeap.

(** ** Data *)

Definition VFS_MAX_FDS_PER_TASK : nat := 16.
Definition VFS_PATH_MAX : nat := 64.
Definition VFS_MAX_FILESYSTEMS : Z := 4.
Definition VFS_MAX_VIRTUAL_FILES : Z := 16.
Definition VFS_VIRT_BASE_ID : Z := -1000.
Definition VFS_PIPE_BASE_ID : Z := -2000.
Definition SEEK_SET : Z := 0.
Definition SEEK_CUR : Z := 1.
Definition SEEK_END : Z := 2.

Record vfs_stat_t : Type := mk_stat { st_size : Z; st_type : Z }.

(** Reading returns the bytes stored with the return value; stat and readdir
    return the buffer they filled. *)
Record vfs_fs_ops_t (K : Type) : Type := mk_fs_ops {
  fs_name : list Z;
  fs_open : option (list Z → Z → M K Z);
  fs_read : option (Z → Z → M K (Z * list Z));
  fs_write : option (Z → list Z → M K Z);
  fs_close : option (Z → M K Z);
  fs_seek : option (Z → Z → Z → M K Z);
  fs_stat : option (list Z → M K (Z * vfs_stat_t));
  fs_readdir : option (list Z → Z → Z → M K (Z * list Z));
  fs_unlink : option (list Z → M K Z);
  fs_mkdir : option (list Z → M K Z);
  fs_rmdir : option (list Z → M K Z);
  fs_rename : option (list Z → list Z → M K Z);
  fs_ftruncate : option (Z → Z → M K Z)
}.
Arguments mk_fs_ops {K}.
Arguments fs_name {K}.
Arguments fs_open {K}.
Arguments fs_read {K}.
Arguments fs_write {K}.
Arguments fs_close {K}.
Arguments fs_seek {K}.
Arguments fs_stat {K}.
Arguments fs_readdir {K}.
Arguments fs_unlink {K}.
Arguments fs_mkdir {K}.
Arguments fs_rmdir {K}.
Arguments fs_rename {K}.
Arguments fs_ftruncate {K}.

Record vfs_virtual_file_t (K : Type) : Type := mk_vfile {
  vf_name : list Z;
  vf_size_fn : M K Z;
  vf_read_fn : Z → Z → M K (Z * list Z)
}.
Arguments mk_vfile {K}.
Arguments vf_name {K}.
Arguments vf_size_fn {K}.
Arguments vf_read_fn {K}.

Record vfs_fd_t : Type := mk_fd {
  fd_in_use : bool;
  fd_fs_id : Z;
  fd_fs_handle : Z;
  fd_open_flags : Z;
  fd_debug_path : list Z
}.

Definition fd_zero : vfs_fd_t := mk_fd false 0 0 0 [].
Definition fdt_zero : list vfs_fd_t := replicate VFS_MAX_FDS_PER_TASK fd_zero.

(** The globals of the file, the pipes and the rest of the kernel. *)
Record vfs_t (K : Type) : Type := mk_vfs {
  filesystems : list (vfs_fs_ops_t K);
  virtual_files : list (vfs_virtual_file_t K);
  vfs_pipes : pipes_t;
  vfs_kernel : K
}.
Arguments mk_vfs {K}.
Arguments filesystems {K}.
Arguments virtual_files {K}.
Arguments vfs_pipes {K}.
Arguments vfs_kernel {K}.

(** ** Paths *)

(** Characters of a string up to the room left: [for (; s[i] && len < 63; i++)]. *)
Definition append_max (tmp s : list Z) : list Z := tmp ++ take (VFS_PATH_MAX - 1 - length tmp) s.

(** The [tmp] array of [vfs_resolve_path] before it is split. *)
Definition join_path (cwd : option (list Z)) (rel : list Z) : list Z :=
  if chr rel 0 =? 47 then append_max [] rel else
  let tmp := match cwd with Some cwd => append_max [] cwd | None => [] end in
  let tmp := if bool_decide (tmp = []) || negb (default 0 (last tmp) =? 47)
             then (if (length tmp <? VFS_PATH_MAX - 1)%nat then tmp ++ [47] else tmp) else tmp in
  append_max tmp rel.

(** The components between slashes, [cur] being the one that is open. *)
Fixpoint components (p cur : list Z) : list (list Z) :=
  match p with
  | [] => if bool_decide (cur = []) then [] else [cur]
  | c :: p =>
    if c =? 47 then (if bool_decide (cur = []) then components p [] else cur :: components p [])
    else components p (cur ++ [c])
  end.

Definition DOT : list Z := [46].
Definition DOTDOT : list Z := [46; 46].

(** One component pushed on the stack of at most [16] parts. *)
Definition push_part (parts : list (list Z)) (c : list Z) : list (list Z) :=
  if bool_decide (c = DOT) then parts else
  if bool_decide (c = DOTDOT) then take (length parts - 1) parts else
  if (length parts <? 16)%nat then parts ++ [c] else parts.

Fixpoint rebuild (parts : list (list Z)) (first : bool) (out : list Z) : list Z :=
  match parts with
  | [] => out
  | c :: parts =>
    if (length out <? VFS_PATH_MAX - 1)%nat then
      let out := if first then out else out ++ [47] in
      rebuild parts false (append_max out c)
    else out
  end.

Definition vfs_resolve_path (cwd : option (list Z)) (rel : list Z) : list Z :=
  rebuild (foldl push_part [] (components (join_path cwd rel) [])) true [47].

Definition vfs_copy_path (src : list Z) : list Z := take (VFS_PATH_MAX - 1) src.

Definition vfs_path_matches_virtual (path name : list Z) : bool :=
  str_eqb path name || ((chr path 0 =? 47) && str_eqb (drop 1 path) name).

Definition vfs_is_mos_dir (path : list Z) : bool :=
  str_eqb path (str "/mos") || str_eqb path (str "/mos/") || str_eqb path (str "mos").
Definition vfs_is_pipe_dir (path : list Z) : bool :=
  str_eqb path (str "/pipe") || str_eqb path (str "/pipe/") || str_eqb path (str "pipe").

(** ** Identifiers *)

Definition vfs_virtual_fs_id_from_index (index : Z) : Z := VFS_VIRT_BASE_ID - index.
Definition vfs_pipe_fs_id_from_handle (handle : Z) : Z := VFS_PIPE_BASE_ID - handle.

Definition vfs_pipe_handle_from_fs_id (fs_id : Z) : Z :=
  let h := VFS_PIPE_BASE_ID - fs_id in
  if (h <? 0) || (Z.of_nat PIPE_FD_MAX <=? h) then -1 else
  if VFS_PIPE_BASE_ID <? fs_id then -1 else h.

Section vfs.
Context {K : Type}.

Definition vfs_virtual_index_from_fs_id (fs_id : Z) (s : vfs_t K) : Z :=
  let index := VFS_VIRT_BASE_ID - fs_id in
  if (index <? 0) || (Z.of_nat (length (virtual_files s)) <=? index) then -1 else index.

Definition vfs_find_virtual_file (path : list Z) (s : vfs_t K) : option nat :=
  find_index (λ f, vfs_path_matches_virtual path (vf_name f)) (virtual_files s).

(** ** Lifting *)

(** The state of an operation on a descriptor table. *)
Definition vst : Type := vfs_t K * list vfs_fd_t.

Definition on_kernel {A} (m : M K A) : M (vfs_t K) A := λ s,
  match m (vfs_kernel s) with
  | None => None
  | Some (a, k) => Some (a, mk_vfs (filesystems s) (virtual_files s) (vfs_pipes s) k)
  end.

Definition on_pipes {A} (m : M pipes_t A) : M (vfs_t K) A := λ s,
  match m (vfs_pipes s) with
  | None => None
  | Some (a, p) => Some (a, mk_vfs (filesystems s) (virtual_files s) p (vfs_kernel s))
  end.

Definition on_vfs {A} (m : M (vfs_t K) A) : M vst A := λ '(s, t),
  match m s with None => None | Some (a, s') => Some (a, (s', t)) end.

Definition set_fd (fd : nat) (f : vfs_fd_t) : M vst unit := λ '(s, t), Some (tt, (s, <[fd := f]> t)).

(** ** Registration *)

(** The table [filesystems] has room for four; the list holds the first
    [fs_count]. *)
Definition vfs_register_fs (ops : vfs_fs_ops_t K) : M (vfs_t K) Z := λ s,
  if VFS_MAX_FILESYSTEMS <=? Z.of_nat (length (filesystems s)) then Some (-1, s) else
  Some (Z.of_nat (length (filesystems s)),
        mk_vfs (filesystems s ++ [ops]) (virtual_files s) (vfs_pipes s) (vfs_kernel s)).

Definition vfs_register_virtual_file (f : vfs_virtual_file_t K) : M (vfs_t K) Z := λ s,
  if VFS_MAX_VIRTUAL_FILES <=? Z.of_nat (length (virtual_files s)) then Some (-1, s) else
  Some (0, mk_vfs (filesystems s) (virtual_files s ++ [f]) (vfs_pipes s) (vfs_kernel s)).

Definition vfs_get_registered_fs_count (s : vfs_t K) : Z := Z.of_nat (length (filesystems s)).
Definition vfs_get_registered_fs_name (idx : Z) (s : vfs_t K) : list Z :=
  default (str "(null)") (fs_name <$> zlookup (filesystems s) idx).
Definition vfs_get_virtual_file_count (s : vfs_t K) : Z := Z.of_nat (length (virtual_files s)).
Definition vfs_get_virtual_file_name (idx : Z) (s : vfs_t K) : list Z :=
  default (str "(null)") (vf_name <$> zlookup (virtual_files s) idx).

Fixpoint register_all (l : list (vfs_virtual_file_t K)) : M (vfs_t K) unit :=
  match l with [] => mret tt | f :: l => vfs_register_virtual_file f;; register_all l end.

(** [proc_files] are the files that [vfs_proc_register_files] registers. *)
Definition vfs_init (proc_files : list (vfs_virtual_file_t K)) : M (vfs_t K) unit :=
  modify (λ s, mk_vfs [] [] (vfs_pipes s) (vfs_kernel s));;
  on_pipes pipe_init;;
  register_all proc_files.

(** ** Descriptors *)

(** The file systems from number [fs] on are tried in turn. *)
Fixpoint open_loop (l : list (vfs_fs_ops_t K)) (fs : Z) (path : list Z) (flags : Z)
    : M (vfs_t K) (option (Z * Z)) :=
  match l with
  | [] => mret None
  | ops :: l =>
    match fs_open ops with
    | None => open_loop l (fs + 1) path flags
    | Some op => handle ← on_kernel (op path flags);
                 if 0 <=? handle then mret (Some (fs, handle)) else open_loop l (fs + 1) path flags
    end
  end.

Definition vfs_open (path : list Z) (flags : Z) : M vst Z :=
  '(s, t) ← get;
  match find_index (λ f, negb (fd_in_use f)) t with
  | None => mret (-2)
  | Some fd =>
    if pipe_is_pipe_path path then
      ph ← on_vfs (on_pipes (pipe_open path flags));
      if ph <? 0 then mret (-1) else
      set_fd fd (mk_fd true (vfs_pipe_fs_id_from_handle ph) ph flags (vfs_copy_path path));;
      mret (Z.of_nat fd)
    else match vfs_find_virtual_file path s with
    | Some vfi =>
      if negb (Z.land flags 3 =? O_RDONLY) then mret (-3) else
      set_fd fd (mk_fd true (vfs_virtual_fs_id_from_index (Z.of_nat vfi)) 0 flags (vfs_copy_path path));;
      mret (Z.of_nat fd)
    | None =>
      o ← on_vfs (open_loop (filesystems s) 0 path flags);
      match o with
      | Some (fs, handle) =>
        set_fd fd (mk_fd true fs handle flags (vfs_copy_path path));; mret (Z.of_nat fd)
      | None => mret (-1)
      end
    end
  end.

(** The checks that start every operation on a descriptor. *)
Definition get_fd (fd : Z) (t : list vfs_fd_t) : option vfs_fd_t :=
  if (fd <? 0) || (Z.of_nat VFS_MAX_FDS_PER_TASK <=? fd) then None else
  f ← t !! Z.to_nat fd; if fd_in_use f then Some f else None.

Definition with_handle (f : vfs_fd_t) (h : Z) : vfs_fd_t :=
  mk_fd (fd_in_use f) (fd_fs_id f) h (fd_open_flags f) (fd_debug_path f).

Definition is_console_id (fs : Z) : bool := (fs <? 0) && (VFS_VIRT_BASE_ID <? fs).

Definition vfs_read (fd len : Z) : M vst io_outcome :=
  '(s, t) ← get;
  match get_fd fd t with
  | None => mret (Returned (-1) [])
  | Some f =>
    if Z.land (fd_open_flags f) 3 =? O_WRONLY then mret (Returned (-1) []) else
    let fs := fd_fs_id f in
    if is_console_id fs then mret (Returned (-1) []) else
    let ph := vfs_pipe_handle_from_fs_id fs in
    if 0 <=? ph then on_vfs (on_pipes (pipe_read ph len)) else
    let vfi := vfs_virtual_index_from_fs_id fs s in
    if 0 <=? vfi then
      vf ← lift (zlookup (virtual_files s) vfi);
      '(n, data) ← on_vfs (on_kernel (vf_read_fn vf (u32 (fd_fs_handle f)) len));
      (if 0 <? n then set_fd (Z.to_nat fd) (with_handle f (fd_fs_handle f + n)) else mret tt);;
      mret (Returned n data)
    else
      ops ← lift (zlookup (filesystems s) fs);
      match fs_read ops with
      | None => mret (Returned (-1) [])
      | Some op => '(rc, data) ← on_vfs (on_kernel (op (fd_fs_handle f) len)); mret (Returned rc data)
      end
  end.

Definition vfs_write (fd : Z) (buf : list Z) : M vst io_outcome :=
  '(s, t) ← get;
  match get_fd fd t with
  | None => mret (Returned (-1) [])
  | Some f =>
    if Z.land (fd_open_flags f) 3 =? O_RDONLY then mret (Returned (-1) []) else
    let fs := fd_fs_id f in
    if is_console_id fs then mret (Returned (-1) []) else
    let ph := vfs_pipe_handle_from_fs_id fs in
    if 0 <=? ph then on_vfs (on_pipes (pipe_write ph buf)) else
    if 0 <=? vfs_virtual_index_from_fs_id fs s then mret (Returned (-1) []) else
    ops ← lift (zlookup (filesystems s) fs);
    match fs_write ops with
    | None => mret (Returned (-2) [])
    | Some op => rc ← on_vfs (on_kernel (op (fd_fs_handle f) buf)); mret (Returned rc [])
    end
  end.

Definition vfs_close (fd : Z) : M vst Z :=
  '(s, t) ← get;
  match get_fd fd t with
  | None => mret (-1)
  | Some f =>
    let fs := fd_fs_id f in
    let ph := vfs_pipe_handle_from_fs_id fs in
    ret ← (if 0 <=? ph then on_vfs (on_pipes (pipe_close ph))
           else if vfs_virtual_index_from_fs_id fs s <? 0 then
             if 0 <=? fs then
               ops ← lift (zlookup (filesystems s) fs);
               match fs_close ops with
               | Some op => on_vfs (on_kernel (op (fd_fs_handle f)))
               | None => mret 0
               end
             else mret 0
           else mret 0);
    set_fd (Z.to_nat fd) fd_zero;;
    mret ret
  end.

Definition vfs_seek (fd offset whence : Z) : M vst Z :=
  '(s, t) ← get;
  match get_fd fd t with
  | None => mret (-1)
  | Some f =>
    let fs := fd_fs_id f in
    if is_console_id fs then mret (-1) else
    let vfi := vfs_virtual_index_from_fs_id fs s in
    if 0 <=? vfi then
      vf ← lift (zlookup (virtual_files s) vfi);
      size ← on_vfs (on_kernel (vf_size_fn vf));
      let size := s32 size in
      let pos := if whence =? SEEK_SET then Some offset
                 else if whence =? SEEK_CUR then Some (s32 (fd_fs_handle f + offset))
                 else if whence =? SEEK_END then Some (s32 (size + offset)) else None in
      match pos with
      | None => mret (-1)
      | Some pos =>
        let pos := if pos <? 0 then 0 else pos in
        let pos := if size <? pos then size else pos in
        set_fd (Z.to_nat fd) (with_handle f pos);; mret pos
      end
    else
      ops ← lift (zlookup (filesystems s) fs);
      match fs_seek ops with
      | None => mret (-1)
      | Some op => on_vfs (on_kernel (op (fd_fs_handle f) offset whence))
      end
  end.

Definition vfs_ftruncate (fd length : Z) : M vst Z :=
  '(s, t) ← get;
  match get_fd fd t with
  | None => mret (-1)
  | Some f =>
    if Z.land (fd_open_flags f) 3 =? O_RDONLY then mret (-1) else
    let fs := fd_fs_id f in
    if fs <? 0 then mret (-1) else
    if 0 <=? vfs_virtual_index_from_fs_id fs s then mret (-1) else
    ops ← lift (zlookup (filesystems s) fs);
    match fs_ftruncate ops with
    | None => mret (-1)
    | Some op => on_vfs (on_kernel (op (fd_fs_handle f) length))
    end
  end.

(** Descriptors [i], ..., [i + n - 1]. *)
Fixpoint close_loop (n i : nat) : M vst unit :=
  match n with
  | O => mret tt
  | S n =>
    '(_, t) ← get;
    f ← lift (t !! i);
    (if fd_in_use f then (vfs_close (Z.of_nat i);; mret tt) else mret tt);;
    close_loop n (S i)
  end.

Definition vfs_close_all : M vst unit := close_loop VFS_MAX_FDS_PER_TASK 0.

(** ** Paths *)

(** [for (fs...) if (filesystems[fs]->op && op(...) == 0) return 0; return -1] *)
Fixpoint first_success (l : list (option (M K Z))) : M (vfs_t K) Z :=
  match l with
  | [] => mret (-1)
  | None :: l => first_success l
  | Some op :: l => rc ← on_kernel op; if rc =? 0 then mret 0 else first_success l
  end.

Fixpoint stat_loop (l : list (vfs_fs_ops_t K)) (path : list Z) : M (vfs_t K) (option vfs_stat_t) :=
  match l with
  | [] => mret None
  | ops :: l =>
    match fs_stat ops with
    | None => stat_loop l path
    | Some op => '(rc, st) ← on_kernel (op path); if rc =? 0 then mret (Some st) else stat_loop l path
    end
  end.

(** [None] is the return value -1. *)
Definition vfs_stat (path : list Z) : M (vfs_t K) (option vfs_stat_t) :=
  s ← get;
  if str_eqb path (str "/") then mret (Some (mk_stat 0 VFS_DIR)) else
  if vfs_is_mos_dir path then mret (Some (mk_stat 0 VFS_DIR)) else
  if pipe_is_pipe_path path
  then mret ((λ '(sz, ty), mk_stat sz ty) <$> pipe_stat path (vfs_pipes s)) else
  match vfs_find_virtual_file path s with
  | Some i => vf ← lift (virtual_files s !! i);
              size ← on_kernel (vf_size_fn vf);
              mret (Some (mk_stat size VFS_FILE))
  | None => stat_loop (filesystems s) path
  end.

(** A name stored in the buffer, cut to its size, and the return value. *)
Definition put_name (name : list Z) (size : Z) : Z * list Z :=
  let n := if size <=? Z.of_nat (length name) then size - 1 else Z.of_nat (length name) in
  (n + 1, take (Z.to_nat n) name).

(** One file system: [inl] is a result to return, [inr] the entries left to skip. *)
Fixpoint readdir_loop (op : list Z → Z → Z → M K (Z * list Z)) (path : list Z) (size : Z)
    (remaining : nat) (local : Z) : M (vfs_t K) (Z * list Z + nat) :=
  '(ret, buf) ← on_kernel (op path local size);
  if ret <=? 0 then mret (inr remaining) else
  match remaining with
  | O => mret (inl (ret, buf))
  | S remaining => readdir_loop op path size remaining (local + 1)
  end.

Fixpoint readdir_fs (l : list (vfs_fs_ops_t K)) (path : list Z) (size : Z) (remaining : nat)
    : M (vfs_t K) (Z * list Z) :=
  match l with
  | [] => mret (0, [])
  | ops :: l =>
    match fs_readdir ops with
    | None => readdir_fs l path size remaining
    | Some op => r ← readdir_loop op path size remaining 0;
                 match r with
                 | inl res => mret res
                 | inr remaining => readdir_fs l path size remaining
                 end
    end
  end.

Definition strip_mos (name : list Z) : list Z :=
  if (chr name 0 =? 109) && (chr name 1 =? 111) && (chr name 2 =? 115) && (chr name 3 =? 47)
  then drop 4 name else name.

Definition vfs_readdir (path : list Z) (index size : Z) : M (vfs_t K) (Z * list Z) :=
  s ← get;
  if (size =? 0) || (index <? 0) then mret (0, []) else
  if vfs_is_mos_dir path then
    if index <? Z.of_nat (length (virtual_files s)) then
      vf ← lift (zlookup (virtual_files s) index);
      mret (put_name (strip_mos (vf_name vf)) size)
    else mret (0, [])
  else if vfs_is_pipe_dir path then mret (pipe_readdir index size (vfs_pipes s))
  else if str_eqb path (str "/") || str_eqb path [] then
    if index =? 0 then mret (put_name (str "mos") size) else
    if index =? 1 then mret (put_name (str "pipe") size) else
    readdir_fs (filesystems s) path size (Z.to_nat (index - 2))
  else readdir_fs (filesystems s) path size (Z.to_nat index).

Definition vfs_unlink (path : list Z) : M (vfs_t K) Z :=
  s ← get;
  match vfs_find_virtual_file path s with
  | Some _ => mret (-1)
  | None => first_success ((λ o, (λ op, op path) <$> fs_unlink o) <$> filesystems s)
  end.

Definition vfs_mkdir (path : list Z) : M (vfs_t K) Z :=
  s ← get; first_success ((λ o, (λ op, op path) <$> fs_mkdir o) <$> filesystems s).
Definition vfs_rmdir (path : list Z) : M (vfs_t K) Z :=
  s ← get; first_success ((λ o, (λ op, op path) <$> fs_rmdir o) <$> filesystems s).

Definition vfs_rename (oldpath newpath : list Z) : M (vfs_t K) Z :=
  s ← get;
  match vfs_find_virtual_file oldpath s, vfs_find_virtual_file newpath s with
  | None, None => first_success ((λ o, (λ op, op oldpath newpath) <$> fs_rename o) <$> filesystems s)
  | _, _ => mret (-1)
  end.
End vfs.
Arguments vst K : clear implicits.

(** ** Normalisation of paths *)

(** A component: not empty and without a slash. *)
Definition is_part (c : list Z) : Prop := c ≠ [] ∧ 47 ∉ c.
Definition is_name (c : list Z) : Prop := is_part c ∧ c ≠ DOT ∧ c ≠ DOTDOT.

(** The path with the given components. *)
Definition path_of (parts : list (list Z)) : list Z :=
  match parts with [] => [47] | _ => mjoin ((λ c, 47 :: c) <$> parts) end.

(** The usual meaning of [.] and [..]. *)
Definition push_name (parts : list (list Z)) (c : list Z) : list (list Z) :=
  if bool_decide (c = DOT) then parts else
  if bool_decide (c = DOTDOT) then take (length parts - 1) parts else parts ++ [c].
Definition normalise (cs : list (list Z)) : list (list Z) := foldl push_name [] cs.

Fixpoint weight (parts : list (list Z)) : nat :=
  match parts with [] => 0 | c :: parts => S (length c) + weight parts end.

Lemma weight_app l k : weight (l ++ k) = (weight l + weight k)%nat.
Proof. induction l as [|c l IH]; cbn [app weight]; [done|]. rewrite IH. lia. Qed.

Lemma weight_take n l : (weight (take n l) ≤ weight l)%nat.
Proof. rewrite <- (take_drop n l) at 2. rewrite weight_app. lia. Qed.

Lemma components_part p cur : 47 ∉ cur → Forall is_part (components p cur).
Proof.
  revert cur. induction p as [|c p IH]; intros cur Hc; cbn [components].
  - case_bool_decide; [apply Forall_nil_2|]. by apply Forall_singleton.
  - destruct (Z.eqb_spec c 47) as [->|Hne].
    + case_bool_decide; [apply IH; set_solver|]. apply Forall_cons_2; [done|]. apply IH. set_solver.
    + apply IH. set_solver.
Qed.

Lemma components_weight p cur : (weight (components p cur) ≤ length p + length cur + 1)%nat.
Proof.
  revert cur. induction p as [|c p IH]; intros cur; cbn [components].
  - case_bool_decide as H; simpl; lia.
  - case_match.
    + case_bool_decide.
      * specialize (IH []). simpl in *. lia.
      * specialize (IH []). simpl in *. lia.
    + specialize (IH (cur ++ [c])). rewrite length_app in IH. simpl in *. lia.
Qed.

Lemma components_app c p cur : 47 ∉ c → components (c ++ p) cur = components p (cur ++ c).
Proof.
  revert cur. induction c as [|x c IH]; intros cur Hc; [by rewrite app_nil_r|].
  cbn [app components]. rewrite (proj2 (Z.eqb_neq _ _)) by set_solver.
  rewrite IH by set_solver. by rewrite <- app_assoc.
Qed.

Lemma components_mjoin parts cur :
  Forall is_part parts → cur ≠ [] →
  components (mjoin ((λ c, 47 :: c) <$> parts)) cur = cur :: parts.
Proof.
  intros Hp. revert cur. induction Hp as [|c parts [Hne Hns] Hp IH]; intros cur Hc; cbn.
  - by rewrite bool_decide_eq_false_2.
  - rewrite bool_decide_eq_false_2 by done. f_equal. by rewrite components_app, IH.
Qed.

Lemma components_path_of parts : Forall is_part parts → components (path_of parts) [] = parts.
Proof.
  intros Hp. destruct Hp as [|c parts [Hne Hns] Hp]; [done|]. cbn.
  by rewrite components_app, components_mjoin.
Qed.

Lemma normalise_from cs acc :
  Forall is_part cs → Forall is_name acc →
  Forall is_name (foldl push_name acc cs) ∧
  (weight (foldl push_name acc cs) ≤ weight acc + weight cs)%nat ∧
  (length (foldl push_name acc cs) ≤ length acc + length cs)%nat.
Proof.
  intros Hcs. revert acc. induction Hcs as [|c cs Hc Hcs IH]; intros acc Ha; [cbn; split; [done|lia]|].
  cbn [foldl]. assert (Hp : Forall is_name (push_name acc c) ∧
    (weight (push_name acc c) ≤ weight acc + S (length c))%nat ∧ (length (push_name acc c) ≤ S (length acc))%nat).
  { unfold push_name. case_bool_decide; [split; [done|lia]|]. case_bool_decide.
    - split; [by apply Forall_take|]. pose proof (weight_take (length acc - 1) acc). rewrite length_take. lia.
    - split; [apply Forall_app_2; [done|by apply Forall_singleton]|]. rewrite weight_app, length_app.
      simpl. lia. }
  destruct Hp as (H1 & H2 & H3). destruct (IH _ H1) as (? & ? & ?). split; [done|].
  simpl in *. lia.
Qed.

(** Sixteen components never overflow the stack of the code. *)
Lemma push_part_name cs acc :
  (length acc + length cs ≤ 16)%nat → foldl push_part acc cs = foldl push_name acc cs.
Proof.
  revert acc. induction cs as [|c cs IH]; intros acc H; [done|]. cbn [foldl length] in *.
  assert (E : push_part acc c = push_name acc c ∧ (length (push_name acc c) ≤ S (length acc))%nat).
  { unfold push_part, push_name. case_bool_decide; [split; [done|lia]|].
    case_bool_decide; [rewrite length_take; split; [done|lia]|].
    rewrite (proj2 (Nat.ltb_lt _ _)) by lia. rewrite length_app. simpl. split; [done|lia]. }
  destruct E as [-> Hl]. apply IH. lia.
Qed.

Lemma normalise_names cs : Forall is_name cs → ∀ acc, foldl push_name acc cs = acc ++ cs.
Proof.
  induction 1 as [|c cs (_ & H1 & H2) Hcs IH]; intros acc; cbn [foldl]; [by rewrite app_nil_r|].
  unfold push_name at 2. rewrite !bool_decide_eq_false_2 by done. by rewrite IH, <- app_assoc.
Qed.

Lemma rebuild_false parts out :
  (length out + weight parts ≤ 63)%nat → rebuild parts false out = out ++ mjoin ((λ c, 47 :: c) <$> parts).
Proof.
  revert out. induction parts as [|c parts IH]; intros out H; cbn [rebuild fmap list_fmap].
  { by rewrite app_nil_r. }
  cbn [weight] in H.
  rewrite (proj2 (Nat.ltb_lt _ _)) by (unfold VFS_PATH_MAX; simpl in *; lia).
  unfold append_max. rewrite length_app. unfold VFS_PATH_MAX. simpl in H. cbn [length].
  rewrite take_ge by (simpl; lia).
  rewrite IH by (rewrite !length_app; simpl; lia). cbn. by rewrite <- !app_assoc.
Qed.

Lemma rebuild_path parts : (weight parts ≤ 63)%nat → rebuild parts true [47] = path_of parts.
Proof.
  destruct parts as [|c parts]; [done|]. intros H. cbn [rebuild].
  cbn [weight] in H.
  change (length [47] <? VFS_PATH_MAX - 1)%nat with true. cbn iota.
  unfold append_max, VFS_PATH_MAX. rewrite take_ge by (cbn [length]; lia). rewrite rebuild_false by (rewrite length_app; simpl; lia). done.
Qed.

(** The path before normalisation, of any length. *)
Definition full_join (cwd rel : list Z) : list Z :=
  if chr rel 0 =? 47 then rel else
  cwd ++ (if bool_decide (cwd = []) || negb (default 0 (last cwd) =? 47) then [47] else []) ++ rel.

Lemma append_max_fit tmp s : (length tmp + length s ≤ 63)%nat → append_max tmp s = tmp ++ s.
Proof. intros H. unfold append_max, VFS_PATH_MAX. by rewrite take_ge by lia. Qed.

Lemma join_path_full cwd rel :
  (length (full_join cwd rel) ≤ 63)%nat → join_path (Some cwd) rel = full_join cwd rel.
Proof.
  unfold join_path, full_join. case_match; intros H0.
  - by apply append_max_fit.
  - rewrite !length_app in H0. rewrite (append_max_fit [] cwd) by (simpl; lia). cbn [app].
    destruct (bool_decide (cwd = []) || negb (default 0 (last cwd) =? 47)).
    + rewrite (proj2 (Nat.ltb_lt _ _)) by (unfold VFS_PATH_MAX; simpl in *; lia).
      rewrite append_max_fit by (rewrite length_app; simpl in *; lia). by rewrite <- app_assoc.
    + simpl in *. apply append_max_fit. lia.
Qed.

Lemma resolve_names parts cwd :
  Forall is_name parts → (length parts ≤ 16)%nat → (weight parts ≤ 63)%nat →
  vfs_resolve_path cwd (path_of parts) = path_of parts.
Proof.
  intros Hn Hl Hw. assert (Hp : Forall is_part parts) by (eapply Forall_impl; [done|]; by intros c [? _]).
  assert (Hlen : (length (path_of parts) ≤ 63)%nat).
  { destruct parts as [|c parts]; [simpl; lia|]. unfold path_of. clear -Hw.
    assert (H : ∀ l : list (list Z), length (mjoin ((λ c, 47 :: c) <$> l)) = weight l).
    { induction l as [|x l IH]; [done|]. cbn. rewrite length_app. by rewrite <- IH. }
    by rewrite H. }
  unfold vfs_resolve_path. assert (Hj : join_path cwd (path_of parts) = path_of parts).
  { unfold join_path. replace (chr (path_of parts) 0) with 47 by (by destruct parts).
    cbn [Z.eqb Pos.eqb]. by rewrite append_max_fit. }
  rewrite Hj, components_path_of by done.
  rewrite push_part_name by (simpl; lia). rewrite normalise_names by done. by apply rebuild_path.
Qed.

(** C21 (functional): for an absolute current directory, when the joined path has
    at most 63 characters and at most 16 components, [vfs_resolve_path] computes
    the normal form of the path: its components after [.] and [..] are resolved
    (never above the root), each of them a name without slashes that is neither
    [.] nor [..]; the result fits the buffer, and resolving it again, in any
    directory, returns it unchanged. *)
Theorem vfs_resolve_path_correct (cwd rel : list Z)
  (Habs : cwd = [] ∨ chr cwd 0 = 47)
  (Hlen : (length (full_join cwd rel) ≤ 63)%nat)
  (Hdepth : (length (components (full_join cwd rel) []) ≤ 16)%nat) :
  let parts := normalise (components (full_join cwd rel) []) in
  vfs_resolve_path (Some cwd) rel = path_of parts ∧
  Forall is_name parts ∧ components (path_of parts) [] = parts ∧
  (weight parts ≤ 63)%nat ∧
  ∀ cwd', vfs_resolve_path cwd' (path_of parts) = path_of parts.
Proof.
  intros parts. set (j := full_join cwd rel) in *.
  assert (Hpart : Forall is_part (components j [])) by (apply components_part; set_solver).
  destruct (normalise_from (components j []) [] Hpart) as (Hn & Hw & Hl); [apply Forall_nil_2|].
  fold (normalise (components j [])) in Hn, Hw, Hl. fold parts in Hn, Hw, Hl. cbn [weight length] in Hw, Hl.
  assert (Hwj : (weight (components j []) ≤ 63)%nat).
  { assert (Hj : ∃ j', j = 47 :: j').
    { unfold j, full_join. destruct (Z.eqb_spec (chr rel 0) 47) as [E|E].
      - destruct rel as [|c rel]; [done|]. cbn in E. subst c. eauto.
      - destruct Habs as [->|E']; [cbn; eauto|]. destruct cwd as [|c cwd]; [done|]. cbn in E'. subst c. cbn; eauto. }
    destruct Hj as (j' & Hj). rewrite Hj in *. cbn [components Z.eqb Pos.eqb].
    rewrite bool_decide_eq_true_2 by done. pose proof (components_weight j' []). cbn in *. lia. }
  assert (Hp : Forall is_part parts) by (eapply Forall_impl; [exact Hn|]; by intros c [? _]).
  split_and!.
  - unfold vfs_resolve_path. rewrite join_path_full by done. fold j.
    rewrite push_part_name by (simpl; lia). apply rebuild_path. fold (normalise (components j [])). fold parts. lia.
  - done.
  - by apply components_path_of.
  - lia.
  - intros cwd'. apply resolve_names; [done|lia|lia].
Qed.

Lemma vfs_resolve_path_correct_witness :
  vfs_resolve_path (Some (str "/home/a")) (str "../b/./c") = str "/home/b/c".
Proof.
  destruct (vfs_resolve_path_correct (str "/home/a") (str "../b/./c")) as (E & _).
  - right. reflexivity.
  - vm_compute. lia.
  - vm_compute. lia.
  - rewrite E. reflexivity.
Defined.

(** Beyond sixteen components [vfs_resolve_path] drops what does not
    fit and lets a following [..] remove a component that was kept: of
    [/1/2/3/4/5/6/7/8/9/a/b/c/d/e/f/g/h/..] the last part [g] is lost. *)
Theorem vfs_resolve_path_deep :
  vfs_resolve_path None (str "/1/2/3/4/5/6/7/8/9/a/b/c/d/e/f/g/h/..") =
    str "/1/2/3/4/5/6/7/8/9/a/b/c/d/e/f" ∧
  path_of (normalise (components (str "/1/2/3/4/5/6/7/8/9/a/b/c/d/e/f/g/h/..") [])) =
    str "/1/2/3/4/5/6/7/8/9/a/b/c/d/e/f/g".
Proof. split; vm_compute; reflexivity. Qed.

(** ** Descriptors: identifiers and invariant *)

(** What a descriptor in use refers to. *)
Inductive fd_target := ToFs (i : nat) | ToVirtual (i : nat) | ToPipe (h : nat) | ToConsole.

Definition target_id (x : fd_target) : Z → Prop :=
  match x with
  | ToFs i => λ id, id = Z.of_nat i ∧ Z.of_nat i < VFS_MAX_FILESYSTEMS
  | ToVirtual i => λ id, id = vfs_virtual_fs_id_from_index (Z.of_nat i) ∧ Z.of_nat i < VFS_MAX_VIRTUAL_FILES
  | ToPipe h => λ id, id = vfs_pipe_fs_id_from_handle (Z.of_nat h) ∧ (h < PIPE_FD_MAX)%nat
  | ToConsole => λ id, -1000 < id < 0
  end.

Section vfs_proofs.
Context {K : Type}.
Implicit Types (s : vfs_t K) (t : list vfs_fd_t).

Record ops_total (o : vfs_fs_ops_t K) : Prop := {
  ot_open op p f k : fs_open o = Some op → is_Some (op p f k);
  ot_read op h n k : fs_read o = Some op → is_Some (op h n k);
  ot_write op h b k : fs_write o = Some op → is_Some (op h b k);
  ot_close op h k : fs_close o = Some op → is_Some (op h k);
  ot_seek op h f w k : fs_seek o = Some op → is_Some (op h f w k);
  ot_stat op p k : fs_stat o = Some op → is_Some (op p k);
  ot_ftruncate op h n k : fs_ftruncate o = Some op → is_Some (op h n k)
}.

Definition vfile_total (f : vfs_virtual_file_t K) : Prop :=
  (∀ k, is_Some (vf_size_fn f k)) ∧ ∀ off len k, is_Some (vf_read_fn f off len k).

Record vfs_wf s : Prop := {
  vw_fs : Z.of_nat (length (filesystems s)) ≤ VFS_MAX_FILESYSTEMS;
  vw_virt : Z.of_nat (length (virtual_files s)) ≤ VFS_MAX_VIRTUAL_FILES;
  vw_pipes : pipes_wf (vfs_pipes s);
  vw_total : Forall ops_total (filesystems s);
  vw_vtotal : Forall vfile_total (virtual_files s)
}.

(** The target exists. *)
Definition target_ok s (x : fd_target) : Prop :=
  match x with
  | ToFs i => (i < length (filesystems s))%nat
  | ToVirtual i => (i < length (virtual_files s))%nat
  | _ => True
  end.

Definition fd_ok s (f : vfs_fd_t) : Prop :=
  fd_in_use f = true → ∃ x, target_id x (fd_fs_id f) ∧ target_ok s x.

Definition fdt_wf s t : Prop := length t = VFS_MAX_FDS_PER_TASK ∧ Forall (fd_ok s) t.

(** The decoding of an identifier recovers the target. *)
Lemma target_decode s x id :
  vfs_wf s → target_id x id → target_ok s x →
  is_console_id id = (match x with ToConsole => true | _ => false end) ∧
  vfs_pipe_handle_from_fs_id id = (match x with ToPipe h => Z.of_nat h | _ => -1 end) ∧
  vfs_virtual_index_from_fs_id id s = (match x with ToVirtual i => Z.of_nat i | _ => -1 end) ∧
  (match x with ToFs i => zlookup (filesystems s) id = filesystems s !! i | _ => zlookup (filesystems s) id = None end).
Proof.
  intros Hwf Hid Hok. pose proof (vw_fs s Hwf). pose proof (vw_virt s Hwf).
  unfold is_console_id, vfs_pipe_handle_from_fs_id, vfs_virtual_index_from_fs_id,
    vfs_virtual_fs_id_from_index, vfs_pipe_fs_id_from_handle, zlookup,
    VFS_VIRT_BASE_ID, VFS_PIPE_BASE_ID, PIPE_FD_MAX, VFS_MAX_FILESYSTEMS, VFS_MAX_VIRTUAL_FILES in *.
  change (Z.of_nat 32) with 32.
  destruct x as [i|i|h|]; cbn [target_id target_ok] in *;
    unfold vfs_virtual_fs_id_from_index, vfs_pipe_fs_id_from_handle,
      VFS_VIRT_BASE_ID, VFS_PIPE_BASE_ID, PIPE_FD_MAX, VFS_MAX_FILESYSTEMS, VFS_MAX_VIRTUAL_FILES in *.
  - destruct Hid as [-> ?]. split_and!; repeat case_match; try lia. by rewrite Nat2Z.id.
  - destruct Hid as [-> ?]. split_and!; repeat case_match; try lia; try done.
  - destruct Hid as [-> ?]. split_and!; repeat case_match; try lia; try done.
  - split_and!; repeat case_match; try lia; try done.
Qed.

(** ** Every operation is defined and keeps the tables *)

Definition same_tables s s' : Prop :=
  filesystems s' = filesystems s ∧ virtual_files s' = virtual_files s.

Lemma fd_ok_same s s' f : same_tables s s' → fd_ok s f → fd_ok s' f.
Proof.
  intros [E1 E2] H Hu. destruct (H Hu) as (x & Hx & Hok). exists x. split; [done|].
  destruct x; cbn in *; rewrite ?E1, ?E2; done.
Qed.

Lemma fdt_same s s' t : same_tables s s' → fdt_wf s t → fdt_wf s' t.
Proof. intros Hs [Hl Hf]. split; [done|]. eapply Forall_impl; [done|]. intros f. by apply fd_ok_same. Qed.

Lemma fdt_set s t fd f : fdt_wf s t → fd_ok s f → fdt_wf s (<[fd := f]> t).
Proof. intros [Hl Hf] H. split; [by rewrite length_insert|]. by apply Forall_insert_list. Qed.

(** An operation on a table: defined, with well-formed results. *)
Definition vop_ok {A} s t (r : option (A * vst K)) : Prop :=
  ∃ a s' t', r = Some (a, (s', t')) ∧ vfs_wf s' ∧ same_tables s s' ∧ fdt_wf s' t'.

Lemma vop_same {A} s t (a : A) : vfs_wf s → fdt_wf s t → vop_ok s t (Some (a, (s, t))).
Proof. intros Hs Ht. exists a, s, t. split; [done|]. split; [done|]. split; [done|done]. Qed.

Lemma on_kernel_ok {A} s (m : M K A) :
  vfs_wf s → (∀ k, is_Some (m k)) →
  ∃ a s', on_kernel m s = Some (a, s') ∧ vfs_wf s' ∧ same_tables s s' ∧ vfs_pipes s' = vfs_pipes s.
Proof.
  intros [? ? ? ? ?] Hm. unfold on_kernel. destruct (Hm (vfs_kernel s)) as [[a k] ->].
  eexists _, _. split; [done|]. done.
Qed.

Lemma on_pipes_ok {A} s (m : M pipes_t A) :
  vfs_wf s → (∃ a p', m (vfs_pipes s) = Some (a, p') ∧ pipes_wf p') →
  ∃ a s', on_pipes m s = Some (a, s') ∧ vfs_wf s' ∧ same_tables s s' ∧
    ∃ p', m (vfs_pipes s) = Some (a, p').
Proof.
  intros [? ? ? ? ?] (a & p' & Hm & Hp). unfold on_pipes. rewrite Hm. eexists _, _. split; [done|].
  split; [done|]. split; [done|]. eauto.
Qed.

Lemma pipe_open_range path flags p rc p' :
  pipes_wf p → pipe_open path flags p = Some (rc, p') → rc = -1 ∨ 0 ≤ rc < Z.of_nat PIPE_FD_MAX.
Proof.
  intros Hp. unfold pipe_open, pipe_alloc_fd.
  repeat (case_match; [try (by intros [= <- <-]; left)|]); try (by intros [= <- <-]; left).
  all: repeat case_match; intros [= <- <-]; try (by left).
  all: right; match goal with H : find_index _ _ = Some _ |- _ => apply find_index_lt in H; rewrite (pw_fds _ Hp) in H end; lia.
Qed.

Lemma open_loop_ok l fs path flags s :
  vfs_wf s → Forall ops_total l → 0 ≤ fs → fs + Z.of_nat (length l) = Z.of_nat (length (filesystems s)) →
  ∃ o s', open_loop l fs path flags s = Some (o, s') ∧ vfs_wf s' ∧ same_tables s s' ∧
    ∀ id h, o = Some (id, h) → 0 ≤ id < Z.of_nat (length (filesystems s)).
Proof.
  intros Hwf Hl. revert fs s Hwf. induction Hl as [|ops l Ho Hl IH]; intros fs s Hwf Hfs Hsum; cbn [open_loop].
  { exists None, s. split; [done|]. split; [done|]. split; [done|]. done. }
  destruct (fs_open ops) as [op|] eqn:Eop.
  - unfold mbind, M_bind. destruct (on_kernel_ok s (op path flags) Hwf) as (h & s1 & -> & Hw1 & Hs1 & _).
    { intros k. by eapply ot_open. }
    destruct (Z.leb_spec 0 h).
    + eexists _, _. split; [done|]. split; [done|]. split; [done|]. intros ? ? [= <- <-]. cbn in Hsum. lia.
    + destruct (IH (fs + 1) s1 Hw1) as (o & s2 & E & Hw2 & Hs2 & Hr); [lia|cbn in Hsum; rewrite (proj1 Hs1); lia|].
      exists o, s2. split; [done|]. split; [done|]. destruct Hs1 as [E1 E2], Hs2 as [E3 E4].
      split; [split; congruence|]. rewrite <- E1. done.
  - apply IH; [done|lia|cbn in Hsum; lia].
Qed.

Lemma vfs_open_ok path flags s t : vfs_wf s → fdt_wf s t → vop_ok s t (vfs_open path flags (s, t)).
Proof.
  intros Hwf Ht. unfold vfs_open, mbind, M_bind, get, mret, M_ret, on_vfs, set_fd.
  destruct (find_index _ t) as [fd|] eqn:Hfd; [|by apply vop_same].
  destruct (pipe_is_pipe_path path).
  - destruct (on_pipes_ok s (pipe_open path flags) Hwf) as (ph & s1 & -> & Hw1 & Hs1 & p' & Hp').
    { destruct (pipe_open_wf path flags (vfs_pipes s) (vw_pipes s Hwf)) as (? & ? & ? & ?); eauto. }
    destruct (Z.ltb_spec ph 0).
    { eexists _, _, _. split; [done|]. split; [done|]. split; [done|]. by eapply fdt_same. }
    eexists _, _, _. split; [done|]. split; [done|]. split; [done|].
    apply fdt_set; [by eapply fdt_same|]. intros _. exists (ToPipe (Z.to_nat ph)). cbn [fd_fs_id target_id].
    apply (pipe_open_range _ _ _ _ _ (vw_pipes s Hwf)) in Hp'. unfold PIPE_FD_MAX in *.
    split; [|done]. split; [|lia]. by rewrite Z2Nat.id by lia.
  - destruct (vfs_find_virtual_file path s) as [vfi|] eqn:Hv.
    + case_match; [by apply vop_same|]. eexists _, _, _. split; [done|]. split; [done|]. split; [done|].
      apply fdt_set; [done|]. intros _. exists (ToVirtual vfi). apply find_index_lt in Hv.
      pose proof (vw_virt s Hwf). cbn [fd_fs_id target_id target_ok]. split; [split; [done|lia]|done].
    + destruct (open_loop_ok (filesystems s) 0 path flags s Hwf (vw_total s Hwf)) as (o & s1 & -> & Hw1 & Hs1 & Hr); [lia|lia|].
      destruct o as [[id h]|].
      * eexists _, _, _. split; [done|]. split; [done|]. split; [done|].
        apply fdt_set; [by eapply fdt_same|]. intros _. exists (ToFs (Z.to_nat id)).
        specialize (Hr id h eq_refl). pose proof (vw_fs s Hwf). cbn [fd_fs_id target_id target_ok].
        rewrite (proj1 Hs1). rewrite Z2Nat.id by lia. split; [split; [done|lia]|lia].
      * eexists _, _, _. split; [done|]. split; [done|]. split; [done|]. by eapply fdt_same.
Qed.

Lemma get_fd_ok s t fd f : fdt_wf s t → get_fd fd t = Some f →
  fd_in_use f = true ∧ t !! Z.to_nat fd = Some f ∧ 0 ≤ fd < 16 ∧
  ∃ x, target_id x (fd_fs_id f) ∧ target_ok s x.
Proof.
  intros [Hl Hf] H. unfold get_fd in H. destruct (orb _ _) eqn:Hr; [done|]. apply orb_false_iff in Hr as [? ?].
  destruct (t !! Z.to_nat fd) as [f'|] eqn:E; [|done]. cbn [mbind option_bind] in H.
  destruct (fd_in_use f') eqn:Hu; [|done]. injection H as <-. unfold VFS_MAX_FDS_PER_TASK in *.
  split; [done|]. split; [done|]. split; [znlia|]. by apply (Forall_lookup_1 _ _ _ _ Hf E).
Qed.

Lemma fd_ok_handle s f h : fd_ok s f → fd_ok s (with_handle f h).
Proof. intros H Hu. by apply H. Qed.

Lemma fs_at s i : vfs_wf s → (i < length (filesystems s))%nat →
  ∃ o, filesystems s !! i = Some o ∧ ops_total o.
Proof.
  intros Hwf Hi. destruct (lookup_lt_is_Some_2 _ _ Hi) as [o Ho]. exists o. split; [done|].
  by apply (Forall_lookup_1 _ _ _ _ (vw_total s Hwf) Ho).
Qed.

Lemma vfile_at s i : vfs_wf s → (i < length (virtual_files s))%nat →
  ∃ f, zlookup (virtual_files s) (Z.of_nat i) = Some f ∧ vfile_total f.
Proof.
  intros Hwf Hi. destruct (lookup_lt_is_Some_2 _ _ Hi) as [f Hf]. exists f. rewrite zlookup_nat. split; [done|].
  by apply (Forall_lookup_1 _ _ _ _ (vw_vtotal s Hwf) Hf).
Qed.

(** After an operation on the kernel or the pipes. *)
Lemma vop_vfs {A} s t (a : A) s' : vfs_wf s' → same_tables s s' → fdt_wf s t → vop_ok s t (Some (a, (s', t))).
Proof. intros Hw Hs Ht. exists a, s', t. do 3 (split; [done|]). by eapply fdt_same. Qed.

(** Case analysis on the target of a descriptor. *)
Ltac fd_cases s Hwf x Hx Hok :=
  destruct (target_decode s x _ Hwf Hx Hok) as (-> & -> & -> & Hlook);
  destruct x as [i|i|h|]; cbn [target_ok] in *.

Lemma vfs_read_ok fd len s t : vfs_wf s → fdt_wf s t → 0 ≤ len < 2147483648 →
  vop_ok s t (vfs_read fd len (s, t)).
Proof.
  intros Hwf Ht Hlen. unfold vfs_read, mbind, M_bind, get, mret, M_ret, on_vfs, lift, set_fd.
  destruct (get_fd fd t) as [f|] eqn:Hg; [|by apply vop_same].
  destruct (get_fd_ok s t fd f Ht Hg) as (Hu & Hl & Hr & x & Hx & Hok).
  case_match; [by apply vop_same|]. fd_cases s Hwf x Hx Hok.
  - cbn [Z.leb Z.compare]. rewrite Hlook. destruct (fs_at s i Hwf Hok) as (o & -> & Ho).
    destruct (fs_read o) as [op|] eqn:Eop; [|by apply vop_same].
    destruct (on_kernel_ok s (op (fd_fs_handle f) len) Hwf) as ([rc d] & s1 & -> & Hw1 & Hs1 & _).
    { intros k. by eapply ot_read. } by apply vop_vfs.
  - cbn [Z.leb Z.compare]. rewrite (proj2 (Z.leb_le _ _)) by lia. destruct (vfile_at s i Hwf Hok) as (vf & -> & Hv).
    destruct (on_kernel_ok s (vf_read_fn vf (u32 (fd_fs_handle f)) len) Hwf) as ([n d] & s1 & -> & Hw1 & Hs1 & _); [apply Hv|].
    destruct (0 <? n); [|by apply vop_vfs]. eexists _, _, _. do 3 (split; [done|]).
    apply fdt_set; [by eapply fdt_same|]. apply fd_ok_handle. eapply fd_ok_same; [done|].
    by apply (Forall_lookup_1 _ _ _ _ (proj2 Ht) Hl).
  - rewrite (proj2 (Z.leb_le _ _)) by lia.
    destruct (on_pipes_ok s (pipe_read (Z.of_nat h) len) Hwf) as (a & s1 & -> & Hw1 & Hs1 & _).
    { destruct (pipe_read_wf (Z.of_nat h) len (vfs_pipes s) (vw_pipes s Hwf) Hlen) as (? & ? & ? & ? & ?); eauto. }
    by apply vop_vfs.
  - by apply vop_same.
Qed.

Lemma vfs_write_ok fd buf s t : vfs_wf s → fdt_wf s t → Z.of_nat (length buf) < 2147483648 →
  vop_ok s t (vfs_write fd buf (s, t)).
Proof.
  intros Hwf Ht Hlen. unfold vfs_write, mbind, M_bind, get, mret, M_ret, on_vfs, lift.
  destruct (get_fd fd t) as [f|] eqn:Hg; [|by apply vop_same].
  destruct (get_fd_ok s t fd f Ht Hg) as (Hu & Hl & Hr & x & Hx & Hok).
  case_match; [by apply vop_same|]. fd_cases s Hwf x Hx Hok.
  - cbn [Z.leb Z.compare]. rewrite Hlook. destruct (fs_at s i Hwf Hok) as (o & -> & Ho).
    destruct (fs_write o) as [op|] eqn:Eop; [|by apply vop_same].
    destruct (on_kernel_ok s (op (fd_fs_handle f) buf) Hwf) as (rc & s1 & -> & Hw1 & Hs1 & _).
    { intros k. by eapply ot_write. } by apply vop_vfs.
  - cbn [Z.leb Z.compare]. rewrite (proj2 (Z.leb_le _ _)) by lia. by apply vop_same.
  - rewrite (proj2 (Z.leb_le _ _)) by lia.
    destruct (on_pipes_ok s (pipe_write (Z.of_nat h) buf) Hwf) as (a & s1 & -> & Hw1 & Hs1 & _).
    { destruct (pipe_write_wf (Z.of_nat h) buf (vfs_pipes s) (vw_pipes s Hwf) Hlen) as (? & ? & ? & ? & ?); eauto. }
    by apply vop_vfs.
  - by apply vop_same.
Qed.

Lemma fd_zero_ok s : fd_ok s fd_zero.
Proof. done. Qed.

(** The pipe descriptor [h] is free. *)
Definition pipe_free s (h : nat) : Prop :=
  ∀ p, pipe_fds (vfs_pipes s) !! h = Some p → pfd_in_use p = false.

Lemma pipe_close_frees h p rc p' :
  pipe_close (Z.of_nat h) p = Some (rc, p') → (h < PIPE_FD_MAX)%nat →
  (∀ f, pipe_fds p' !! h = Some f → pfd_in_use f = false) ∧
  ∀ j f', pipe_fds p' !! j = Some f' → pfd_in_use f' = true → pipe_fds p !! j = Some f'.
Proof.
  unfold pipe_close. intros E Hh.
  rewrite (proj2 (Z.ltb_ge _ _)), (proj2 (Z.leb_gt _ _)), Nat2Z.id in E by lia. cbn [orb] in E.
  destruct (pipe_fds p !! h) as [f|] eqn:Ef; [|done]. cbn [mbind option_bind] in E.
  destruct (pfd_in_use f) eqn:Hu; cbn [negb] in E; injection E as _ <-.
  - unfold set_pipe_fd. cbn [pipe_fds]. rewrite list_lookup_insert_eq by (by eapply lookup_lt_Some).
    split; [by intros ? [= <-]|]. intros j f' Hj Hf'.
    apply list_lookup_insert_cases in Hj as [(_ & <- & _)|(_ & Hj)]; [done|done].
  - split; [|done]. intros f'. rewrite Ef. by intros [= <-].
Qed.

(** Closing a descriptor frees its entry, and its pipe descriptor if it has one;
    no pipe descriptor becomes used. *)
Record close_post (fd : Z) s t s' t' : Prop := {
  cp_wf : vfs_wf s';
  cp_tables : same_tables s s';
  cp_fdt : fdt_wf s' t';
  cp_entry : get_fd fd t ≠ None → t' = <[Z.to_nat fd := fd_zero]> t;
  cp_none : get_fd fd t = None → s' = s ∧ t' = t;
  cp_keep h : pipe_free s h → pipe_free s' h;
  cp_pipe f h : get_fd fd t = Some f → (h < PIPE_FD_MAX)%nat →
    fd_fs_id f = vfs_pipe_fs_id_from_handle (Z.of_nat h) → pipe_free s' h
}.

Lemma vfs_close_ok fd s t : vfs_wf s → fdt_wf s t →
  ∃ rc s' t', vfs_close fd (s, t) = Some (rc, (s', t')) ∧ close_post fd s t s' t' ∧
    (get_fd fd t = None → rc = -1).
Proof.
  intros Hwf Ht. unfold vfs_close, mbind, M_bind, get, mret, M_ret, on_vfs, lift, set_fd.
  destruct (get_fd fd t) as [f|] eqn:Hg.
  2: { eexists _, _, _. split; [done|]. split; [|done]. split; try done. intros f h. by rewrite Hg. }
  destruct (get_fd_ok s t fd f Ht Hg) as (Hu & Hl & Hr & x & Hx & Hok).
  destruct (target_decode s x _ Hwf Hx Hok) as (Hcon & Hph & Hvi & Hlook). rewrite Hph, Hvi.
  assert (Hfin : ∀ (rc : Z) s', vfs_wf s' → same_tables s s' → (∀ h, pipe_free s h → pipe_free s' h) →
    (∀ h, x = ToPipe h → pipe_free s' h) →
    ∃ rc' s'' t', Some (rc, (s', <[Z.to_nat fd := fd_zero]> t)) = Some (rc', (s'', t')) ∧
      close_post fd s t s'' t' ∧ (Some f = None → rc' = -1)).
  { intros rc s' Hw Hs Hkeep Hpipe. eexists _, _, _. split; [done|]. split; [|done]. split; try done.
    - apply fdt_set; [by eapply fdt_same|apply fd_zero_ok].
    - by rewrite Hg.
    - intros f' h Hg' Hh Hid. rewrite Hg in Hg'. injection Hg' as <-. rewrite Hid in Hph.
      unfold vfs_pipe_fs_id_from_handle, vfs_pipe_handle_from_fs_id, VFS_PIPE_BASE_ID, PIPE_FD_MAX in *.
      change (Z.of_nat 32) with 32 in *.
      destruct x as [i|i|h'|]; [repeat case_match; lia|repeat case_match; lia| |repeat case_match; lia].
      assert (h = h') as -> by (repeat case_match; lia). by apply Hpipe. }
  destruct x as [i|i|h|]; cbn [target_ok target_id] in *.
  - cbn [Z.leb Z.ltb Z.compare]. destruct Hx as [Hx _]. rewrite Hlook, (proj2 (Z.leb_le _ _)) by lia.
    destruct (fs_at s i Hwf Hok) as (o & -> & Ho). destruct (fs_close o) as [op|] eqn:Eop; [|by apply Hfin].
    destruct (on_kernel_ok s (op (fd_fs_handle f)) Hwf) as (rc & s1 & -> & Hw1 & Hs1 & Ep).
    { intros k. by eapply ot_close. } apply Hfin; try done. intros h. unfold pipe_free. by rewrite Ep.
  - cbn [Z.leb Z.compare]. rewrite (proj2 (Z.ltb_ge _ _)) by lia. by apply Hfin.
  - rewrite (proj2 (Z.leb_le _ _)) by lia.
    destruct (pipe_close_wf (Z.of_nat h) (vfs_pipes s) (vw_pipes s Hwf)) as (rc & p' & E & Hp').
    unfold on_pipes. rewrite E. destruct (pipe_close_frees h _ _ _ E (proj2 Hx)) as [Hfree Hmono].
    apply Hfin; try done.
    + destruct Hwf. done.
    + intros j Hj p0 Hp0. cbn [vfs_pipes] in Hp0. destruct (pfd_in_use p0) eqn:Hu0; [|done].
      specialize (Hmono j p0 Hp0 Hu0). by rewrite (Hj _ Hmono) in Hu0.
    + intros h' [= <-] p0 Hp0. by apply Hfree.
  - cbn [Z.leb Z.ltb Z.compare]. rewrite (proj2 (Z.leb_gt _ _)) by lia. by apply Hfin.
Qed.

Lemma close_loop_S n i s t f : t !! i = Some f →
  close_loop (S n) i (s, t) =
  match (if fd_in_use f then
           match vfs_close (Z.of_nat i) (s, t) with Some (_, st) => Some (tt, st) | None => None end
         else Some (tt, (s, t))) with
  | Some (_, st) => close_loop n (S i) st
  | None => None
  end.
Proof.
  intros Hf. cbn [close_loop]. unfold mbind, M_bind, get, lift, mret, M_ret. rewrite Hf.
  destruct (fd_in_use f); [|done]. by destruct (vfs_close (Z.of_nat i) (s, t)) as [[? ?]|].
Qed.

(** Descriptors [i] and up are closed. *)
Lemma close_loop_ok n i s t : vfs_wf s → fdt_wf s t → (i + n = 16)%nat →
  ∃ s' t', close_loop n i (s, t) = Some (tt, (s', t')) ∧ vfs_wf s' ∧ same_tables s s' ∧ fdt_wf s' t' ∧
    (∀ j, (j < i)%nat → t' !! j = t !! j) ∧
    (∀ j f, (i ≤ j)%nat → t' !! j = Some f → fd_in_use f = false) ∧
    (∀ h, pipe_free s h → pipe_free s' h) ∧
    (∀ j f h, (i ≤ j)%nat → t !! j = Some f → fd_in_use f = true → (h < PIPE_FD_MAX)%nat →
       fd_fs_id f = vfs_pipe_fs_id_from_handle (Z.of_nat h) → pipe_free s' h).
Proof.
  revert i s t. induction n as [|n IH]; intros i s t Hwf Ht Hin.
  { exists s, t. do 5 (split; [done|]). pose proof (proj1 Ht) as Hl.
    split; [|split; [done|]]; intros j f; [|intros h]; intros Hj Hf%lookup_lt_Some; unfold VFS_MAX_FDS_PER_TASK in *; lia. }
  pose proof (proj1 Ht) as Hl. unfold VFS_MAX_FDS_PER_TASK in Hl.
  destruct (lookup_lt_is_Some_2 t i) as [f Hf]; [lia|]. rewrite (close_loop_S n i s t f Hf).
  assert (Hg : get_fd (Z.of_nat i) t = if fd_in_use f then Some f else None).
  { unfold get_fd, VFS_MAX_FDS_PER_TASK. change (Z.of_nat 16) with 16.
    rewrite (proj2 (Z.ltb_ge _ _)), (proj2 (Z.leb_gt _ _)), Nat2Z.id, Hf by lia. done. }
  assert (Hstep : ∃ s1 t1, (if fd_in_use f then
      match vfs_close (Z.of_nat i) (s, t) with Some (_, st) => Some (tt, st) | None => None end
      else Some (tt, (s, t))) = Some (tt, (s1, t1)) ∧ vfs_wf s1 ∧ same_tables s s1 ∧ fdt_wf s1 t1 ∧
      t1 = (if fd_in_use f then <[i := fd_zero]> t else t) ∧ (∀ h, pipe_free s h → pipe_free s1 h) ∧
      (∀ h, fd_in_use f = true → (h < PIPE_FD_MAX)%nat →
        fd_fs_id f = vfs_pipe_fs_id_from_handle (Z.of_nat h) → pipe_free s1 h)).
  { destruct (fd_in_use f) eqn:Hu; [|by exists s, t].
    destruct (vfs_close_ok (Z.of_nat i) s t Hwf Ht) as (rc & s1 & t1 & -> & Hp & _).
    exists s1, t1. split; [done|]. destruct Hp as [? ? ? He ? ? Hpipe]. do 3 (split; [done|]).
    rewrite Hg in He. rewrite Nat2Z.id in He. split; [by apply He|]. split; [done|].
    intros h _ Hh Hid. by apply (Hpipe f h). }
  destruct Hstep as (s1 & t1 & Hs1eq & Hw1 & Hs1 & Ht1 & Et1 & Hk1 & Hp1).
  rewrite Hs1eq. destruct (IH (S i) s1 t1 Hw1 Ht1) as (s2 & t2 & E2 & Hw2 & Hs2 & Ht2 & Hlow & Hhi & Hk2 & Hp2); [lia|].
  exists s2, t2. split; [exact E2|]. split; [done|]. destruct Hs1 as [Ea Eb], Hs2 as [Ec Ed].
  split; [split; congruence|]. split; [done|].
  assert (Hne : ∀ j, j ≠ i → t1 !! j = t !! j).
  { intros j Hj. rewrite Et1. destruct (fd_in_use f); [|done]. by rewrite list_lookup_insert_ne. }
  split_and!.
  - intros j Hj. rewrite Hlow by lia. apply Hne. lia.
  - intros j g Hj Hgj. destruct (decide (j = i)) as [->|Hji]; [|apply (Hhi j g); [lia|done]].
    rewrite Hlow, Et1 in Hgj by lia. destruct (fd_in_use f) eqn:Hu; [|congruence].
    rewrite list_lookup_insert_eq in Hgj by lia. by injection Hgj as <-.
  - intros h Hh. by apply Hk2, Hk1.
  - intros j g h Hj Hgj Hu Hh Hid. destruct (decide (j = i)) as [->|Hji].
    + rewrite Hf in Hgj. injection Hgj as <-. by apply Hk2, (Hp1 h).
    + apply (Hp2 j g h); try done; [lia|]. by rewrite Hne.
Qed.

(** A seek on a descriptor that is not a pipe. *)
Lemma vfs_seek_ok fd offset whence s t : vfs_wf s → fdt_wf s t →
  (∀ f, get_fd fd t = Some f → vfs_pipe_handle_from_fs_id (fd_fs_id f) < 0) →
  vop_ok s t (vfs_seek fd offset whence (s, t)).
Proof.
  intros Hwf Ht Hnp. unfold vfs_seek, mbind, M_bind, get, mret, M_ret, on_vfs, lift, set_fd.
  destruct (get_fd fd t) as [f|] eqn:Hg; [|by apply vop_same]. specialize (Hnp f eq_refl).
  destruct (get_fd_ok s t fd f Ht Hg) as (Hu & Hl & Hr & x & Hx & Hok).
  destruct (target_decode s x _ Hwf Hx Hok) as (-> & Hph & -> & Hlook). rewrite Hph in Hnp.
  destruct x as [i|i|h|]; cbn [target_ok target_id] in *.
  - cbn [Z.leb Z.compare]. rewrite Hlook. destruct (fs_at s i Hwf Hok) as (o & -> & Ho).
    destruct (fs_seek o) as [op|] eqn:Eop; [|by apply vop_same].
    destruct (on_kernel_ok s (op (fd_fs_handle f) offset whence) Hwf) as (rc & s1 & -> & Hw1 & Hs1 & _).
    { intros k. by eapply ot_seek. } by apply vop_vfs.
  - rewrite (proj2 (Z.leb_le _ _)) by lia. destruct (vfile_at s i Hwf Hok) as (vf & -> & Hv).
    destruct (on_kernel_ok s (vf_size_fn vf) Hwf) as (n & s1 & -> & Hw1 & Hs1 & _); [apply Hv|].
    match goal with |- context [match ?p with Some _ => _ | None => _ end] => destruct p as [pos|] end;
      [|by apply vop_vfs].
    eexists _, _, _. do 3 (split; [done|]).
    apply fdt_set; [by eapply fdt_same|]. apply fd_ok_handle. eapply fd_ok_same; [done|].
    by apply (Forall_lookup_1 _ _ _ _ (proj2 Ht) Hl).
  - lia.
  - by apply vop_same.
Qed.

Lemma vfs_ftruncate_ok fd len s t : vfs_wf s → fdt_wf s t → vop_ok s t (vfs_ftruncate fd len (s, t)).
Proof.
  intros Hwf Ht. unfold vfs_ftruncate, mbind, M_bind, get, mret, M_ret, on_vfs, lift.
  destruct (get_fd fd t) as [f|] eqn:Hg; [|by apply vop_same].
  destruct (get_fd_ok s t fd f Ht Hg) as (Hu & Hl & Hr & x & Hx & Hok).
  case_match; [by apply vop_same|]. destruct (Z.ltb_spec (fd_fs_id f) 0); [by apply vop_same|].
  destruct (target_decode s x _ Hwf Hx Hok) as (_ & _ & -> & Hlook).
  destruct x as [i|i|h|]; cbn [target_ok target_id] in *.
  - cbn [Z.leb Z.compare]. rewrite Hlook. destruct (fs_at s i Hwf Hok) as (o & -> & Ho).
    destruct (fs_ftruncate o) as [op|] eqn:Eop; [|by apply vop_same].
    destruct (on_kernel_ok s (op (fd_fs_handle f) len) Hwf) as (rc & s1 & -> & Hw1 & Hs1 & _).
    { intros k. by eapply ot_ftruncate. } by apply vop_vfs.
  - rewrite (proj2 (Z.leb_le _ _)) by lia. by apply vop_same.
  - unfold vfs_pipe_fs_id_from_handle, VFS_PIPE_BASE_ID in Hx. lia.
  - lia.
Qed.

(** ** Sequences of calls on a table *)

Inductive vfs_call :=
  | VOpen (path : list Z) (flags : Z) | VRead (fd len : Z) | VWrite (fd : Z) (buf : list Z)
  | VClose (fd : Z) | VFtruncate (fd len : Z) | VSeek (fd offset whence : Z) | VCloseAll.

Definition vfs_call_ok (c : vfs_call) : Prop :=
  match c with
  | VRead _ len => 0 ≤ len < 2147483648
  | VWrite _ buf => Z.of_nat (length buf) < 2147483648
  | _ => True
  end.

Definition vfs_run (c : vfs_call) (st : vst K) : option (vst K) :=
  match c with
  | VOpen path flags => snd <$> vfs_open path flags st
  | VRead fd len => snd <$> vfs_read fd len st
  | VWrite fd buf => snd <$> vfs_write fd buf st
  | VClose fd => snd <$> vfs_close fd st
  | VFtruncate fd len => snd <$> vfs_ftruncate fd len st
  | VSeek fd offset whence => snd <$> vfs_seek fd offset whence st
  | VCloseAll => snd <$> vfs_close_all st
  end.

(** The descriptor [fd] is one of a pipe. *)
Definition is_pipe_fd (fd : Z) t : bool :=
  match get_fd fd t with Some f => 0 <=? vfs_pipe_handle_from_fs_id (fd_fs_id f) | None => false end.

(** A run in which no pipe is sought. *)
Inductive vfs_runs : vst K → list vfs_call → vst K → Prop :=
  | vruns_nil st : vfs_runs st [] st
  | vruns_cons st c st1 cs st2 :
      (∀ fd off w, c = VSeek fd off w → is_pipe_fd fd (snd st) = false) →
      vfs_run c st = Some st1 → vfs_runs st1 cs st2 → vfs_runs st (c :: cs) st2.

Lemma vfs_run_ok c s t : vfs_wf s → fdt_wf s t → vfs_call_ok c →
  (∀ fd off w, c = VSeek fd off w → is_pipe_fd fd t = false) →
  ∃ s' t', vfs_run c (s, t) = Some (s', t') ∧ vfs_wf s' ∧ same_tables s s' ∧ fdt_wf s' t'.
Proof.
  intros Hwf Ht Hc Hs. destruct c; cbn [vfs_run vfs_call_ok] in *.
  - destruct (vfs_open_ok path flags s t Hwf Ht) as (? & s' & t' & -> & ?); eauto.
  - destruct (vfs_read_ok fd len s t Hwf Ht Hc) as (? & s' & t' & -> & ?); eauto.
  - destruct (vfs_write_ok fd buf s t Hwf Ht Hc) as (? & s' & t' & -> & ?); eauto.
  - destruct (vfs_close_ok fd s t Hwf Ht) as (? & s' & t' & -> & [] & _). by exists s', t'.
  - destruct (vfs_ftruncate_ok fd len s t Hwf Ht) as (? & s' & t' & -> & ?); eauto.
  - destruct (vfs_seek_ok fd offset whence s t Hwf Ht) as (? & s' & t' & -> & ?); [|eauto].
    intros f Hg. specialize (Hs fd offset whence eq_refl). unfold is_pipe_fd in Hs. rewrite Hg in Hs. lia.
  - unfold vfs_close_all. destruct (close_loop_ok 16 0 s t Hwf Ht) as (s' & t' & E & ? & ? & ? & _); [lia|].
    unfold VFS_MAX_FDS_PER_TASK. rewrite E. by exists s', t'.
Qed.


(** Closing all descriptors of a table, as a terminating task
    does, leaves no descriptor in use and releases every pipe descriptor that
    the table held, without disturbing pipe descriptors that were free. *)
Theorem vfs_close_all_releases s t (Hwf : vfs_wf s) (Ht : fdt_wf s t) :
  ∃ s' t', vfs_close_all (s, t) = Some (tt, (s', t')) ∧ vfs_wf s' ∧
    Forall (λ f, fd_in_use f = false) t' ∧
    (∀ f h, f ∈ t → fd_in_use f = true → (h < PIPE_FD_MAX)%nat →
       fd_fs_id f = vfs_pipe_fs_id_from_handle (Z.of_nat h) → pipe_free s' h) ∧
    (∀ h, pipe_free s h → pipe_free s' h).
Proof.
  destruct (close_loop_ok 16 0 s t Hwf Ht) as (s' & t' & E & Hw & _ & _ & _ & Hall & Hkeep & Hpipe); [lia|].
  exists s', t'. split; [exact E|]. split; [done|]. split_and!.
  - apply Forall_lookup. intros j f Hj. apply (Hall j f); [lia|done].
  - intros f h [j Hj]%list_elem_of_lookup Hu Hh Hid. by apply (Hpipe j f h); [lia|..].
  - done.
Qed.

(** All the file systems of [l] refuse to open [path]; the state they leave. *)
Fixpoint all_refuse (l : list (vfs_fs_ops_t K)) (path : list Z) (flags : Z) (k : K) : option K :=
  match l with
  | [] => Some k
  | o :: l =>
    match fs_open o with
    | None => all_refuse l path flags k
    | Some op => '(rc, k') ← op path flags k; if rc <? 0 then all_refuse l path flags k' else None
    end
  end.

(** A path that is neither a pipe nor a virtual file is opened by
    the first registered file system that accepts it, in the lowest free
    descriptor; after that, reading and writing the descriptor call that file
    system with the handle it returned, except that reading a write-only and
    writing a read-only descriptor are refused without calling it. *)
Theorem vfs_open_dispatches s t (path : list Z) (flags : Z) (l1 l2 : list (vfs_fs_ops_t K)) (fd : nat)
    (ops : vfs_fs_ops_t K) (op : list Z → Z → M K Z) (h : Z) (k0 k1 : K) (len : Z) (buf : list Z)
  (Hwf : vfs_wf s) (Ht : fdt_wf s t)
  (Hplain : pipe_is_pipe_path path = false) (Hvirt : vfs_find_virtual_file path s = None)
  (Hfree : find_index (λ f, negb (fd_in_use f)) t = Some fd)
  (Hops : filesystems s = l1 ++ ops :: l2) (Hfirst : all_refuse l1 path flags (vfs_kernel s) = Some k0)
  (Hop : fs_open ops = Some op) (Hopen : op path flags k0 = Some (h, k1)) (Hh : 0 ≤ h) :
  ∃ s1 t1, vfs_open path flags (s, t) = Some (Z.of_nat fd, (s1, t1)) ∧ vfs_kernel s1 = k1 ∧
    vfs_read (Z.of_nat fd) len (s1, t1) =
      (if Z.land flags 3 =? O_WRONLY then Some (Returned (-1) [], (s1, t1)) else
       match fs_read ops with
       | None => Some (Returned (-1) [], (s1, t1))
       | Some rd => on_vfs ('(rc, d) ← on_kernel (rd h len); mret (Returned rc d)) (s1, t1)
       end) ∧
    vfs_write (Z.of_nat fd) buf (s1, t1) =
      (if Z.land flags 3 =? O_RDONLY then Some (Returned (-1) [], (s1, t1)) else
       match fs_write ops with
       | None => Some (Returned (-2) [], (s1, t1))
       | Some wr => on_vfs (rc ← on_kernel (wr h buf); mret (Returned rc [])) (s1, t1)
       end).
Proof.
  assert (Hloop : ∀ l n s0, all_refuse l path flags (vfs_kernel s0) = Some k0 →
    open_loop (l ++ ops :: l2) n path flags s0 =
    Some (Some (n + Z.of_nat (length l), h), mk_vfs (filesystems s0) (virtual_files s0) (vfs_pipes s0) k1)).
  { induction l as [|o l IH]; intros n s0 Hr; cbn [open_loop app all_refuse] in *.
    - injection Hr as Hr. rewrite Hop. unfold mbind, M_bind, on_kernel. rewrite Hr, Hopen.
      rewrite (proj2 (Z.leb_le _ _)) by lia. cbn [length]. by rewrite Z.add_0_r.
    - destruct (fs_open o) as [op'|].
      + unfold mbind, M_bind, on_kernel. destruct (op' path flags (vfs_kernel s0)) as [[rc k']|]; [|done].
        cbn [mbind option_bind] in Hr. destruct (Z.ltb_spec rc 0); [|done].
        rewrite (proj2 (Z.leb_gt _ _)) by lia. rewrite IH by done. do 4 f_equal. cbn [length]. lia.
      + rewrite IH by done. do 4 f_equal. cbn [length]. lia. }
  pose proof (find_index_lt _ _ _ Hfree) as Hlt. pose proof (proj1 Ht) as Hl16. unfold VFS_MAX_FDS_PER_TASK in Hl16.
  set (i := length l1). assert (Hi : filesystems s !! i = Some ops) by (rewrite Hops; by apply list_lookup_middle).
  pose proof (lookup_lt_Some _ _ _ Hi) as Hilt. pose proof (vw_fs s Hwf) as H4. unfold VFS_MAX_FILESYSTEMS in H4.
  set (s1 := mk_vfs (filesystems s) (virtual_files s) (vfs_pipes s) k1).
  set (f := mk_fd true (Z.of_nat i) h flags (vfs_copy_path path)).
  exists s1, (<[fd := f]> t). split.
  { unfold vfs_open, mbind, M_bind, get, on_vfs, set_fd. rewrite Hfree, Hplain, Hvirt.
    rewrite Hops, (Hloop l1 0 s Hfirst). done. }
  split; [done|].
  assert (Hg : get_fd (Z.of_nat fd) (<[fd := f]> t) = Some f).
  { unfold get_fd, VFS_MAX_FDS_PER_TASK. change (Z.of_nat 16) with 16.
    rewrite (proj2 (Z.ltb_ge _ _)), (proj2 (Z.leb_gt _ _)), Nat2Z.id, list_lookup_insert_eq by lia. done. }
  assert (Hw1 : vfs_wf s1) by (destruct Hwf; done).
  destruct (target_decode s1 (ToFs i) (fd_fs_id f) Hw1) as (Hcon & Hph & Hvi & Hlook);
    [split; [done|unfold VFS_MAX_FILESYSTEMS; lia]|done|].
  cbn [filesystems s1] in Hlook. rewrite Hi in Hlook.
  split; unfold vfs_read, vfs_write, mbind, M_bind, get, lift, on_vfs, mret, M_ret; rewrite Hg, Hcon, Hph, Hvi;
    cbn [fd_open_flags f Z.leb Z.compare]; destruct (_ =? _); try done; cbn [fd_fs_id f filesystems s1] in *;
    rewrite Hlook; cbn [fd_fs_handle f].
  - destruct (fs_read ops) as [rd|]; [|done]. destruct (on_kernel (rd h len) s1) as [[[? ?] ?]|]; done.
  - destruct (fs_write ops) as [wr|]; [|done]. destruct (on_kernel (wr h buf) s1) as [[? ?]|]; done.
Qed.
End vfs_proofs.

(** ** Reading a whole file *)

(** The return value -1; 0 with the block, its bytes and the size; or the call
    waits for a pipe. *)
Inductive rf_result := RFail | ROk (buf : Z) (data : list Z) (size : Z) | RBlocked.

Section read_file.
Context {K H : Type} `{!KHeap H}.

(** The loop of [vfs_read_file]: [None] when a read blocks.  Every iteration
    that goes on reads at least one byte, so [size] iterations are enough. *)
Fixpoint read_file_loop (fuel : nat) (fd size total : Z) (data : list Z)
    : M (vst K) (option (Z * list Z)) :=
  match fuel with
  | O => mret (Some (total, data))
  | S fuel =>
    if total <? size then
      o ← vfs_read fd (size - total);
      match o with
      | Blocked => mret None
      | Returned n d => if n <=? 0 then mret (Some (total, data))
                        else read_file_loop fuel fd size (u32 (total + n)) (data ++ d)
      end
    else mret (Some (total, data))
  end.

Definition vfs_read_file (path : list Z) : M (vfs_t K * H) rf_result := λ '(s, hp),
  match vfs_stat path s with
  | None => None
  | Some (None, s) => Some (RFail, (s, hp))
  | Some (Some st, s) =>
    if st_size st =? 0 then Some (RFail, (s, hp)) else
    match kmalloc (st_size st) hp with
    | (None, hp) => Some (RFail, (s, hp))
    | (Some buf, hp) =>
      '(fd, (s, t)) ← vfs_open path O_RDONLY (s, fdt_zero);
      if fd <? 0 then Some (RFail, (s, kfree buf hp)) else
      '(r, (s, t)) ← read_file_loop (Z.to_nat (st_size st)) fd (st_size st) 0 [] (s, t);
      match r with
      | None => Some (RBlocked, (s, hp))
      | Some (total, data) =>
        '(_, (s, t)) ← vfs_close fd (s, t);
        if total =? 0 then Some (RFail, (s, kfree buf hp))
        else Some (ROk buf data total, (s, hp))
      end
    end
  end.

(** A file system that serves a file with the given contents: [I] holds of the
    states in which the file is not open, [P h p] of those in which handle [h]
    is at position [p].  A read may return fewer bytes than asked for. *)
Record serves (ops : vfs_fs_ops_t K) (path content : list Z)
    (I : K → Prop) (P : Z → Z → K → Prop) : Prop := {
  sv_stat : ∃ st, fs_stat ops = Some st ∧ ∀ k, I k →
    ∃ k', st path k = Some ((0, mk_stat (Z.of_nat (length content)) VFS_FILE), k') ∧ I k';
  sv_open : ∃ op, fs_open ops = Some op ∧ ∀ k, I k →
    ∃ h k', op path O_RDONLY k = Some (h, k') ∧ 0 ≤ h ∧ P h 0 k';
  sv_read : ∃ rd, fs_read ops = Some rd ∧ ∀ h p n k, P h p k → 0 < n →
    ∃ m k', rd h n k = Some ((m, take (Z.to_nat m) (drop (Z.to_nat p) content)), k') ∧
      0 ≤ m ≤ n ∧ p + m ≤ Z.of_nat (length content) ∧ (p < Z.of_nat (length content) → 0 < m) ∧ P h (p + m) k';
  sv_close cl h p k : fs_close ops = Some cl → P h p k → is_Some (cl h k)
}.

Section served.
Context (ops : vfs_fs_ops_t K) (path content : list Z) (I : K → Prop) (P : Z → Z → K → Prop).
Context (Hserves : serves ops path content I P).

(** The only descriptor of the temporary table. *)
Definition rf_fd (h : Z) : vfs_fd_t := mk_fd true 0 h O_RDONLY (vfs_copy_path path).
Definition rf_table (h : Z) : list vfs_fd_t := rf_fd h :: replicate 15 fd_zero.

Lemma rf_read_eq (s : vfs_t K) h n :
  filesystems s = [ops] →
  vfs_read 0 n (s, rf_table h) =
    match fs_read ops with
    | None => Some (Returned (-1) [], (s, rf_table h))
    | Some op => on_vfs ('(rc, d) ← on_kernel (op h n); mret (Returned rc d)) (s, rf_table h)
    end.
Proof using Type.
  intros Hfs. unfold vfs_read, mbind, M_bind, get, lift, on_vfs, mret, M_ret.
  change (get_fd 0 (rf_table h)) with (Some (rf_fd h)). cbn [fd_open_flags rf_fd fd_fs_id fd_fs_handle].
  change (Z.land O_RDONLY 3 =? O_WRONLY) with false. change (is_console_id 0) with false.
  change (vfs_pipe_handle_from_fs_id 0) with (-1). cbn [Z.leb Z.compare].
  change (vfs_virtual_index_from_fs_id 0 s) with (-1).
  cbn [Z.leb Z.compare]. rewrite Hfs. change (zlookup [ops] 0) with (Some ops). cbn iota beta.
  destruct (fs_read ops) as [op|]; [|done]. by destruct (on_kernel (op h n) s) as [[[? ?] ?]|].
Qed.

Lemma rf_loop_ok fuel h p (s : vfs_t K) :
  filesystems s = [ops] → P h p (vfs_kernel s) → 0 ≤ p ≤ Z.of_nat (length content) →
  Z.of_nat (length content) < 2147483648 → Z.of_nat (length content) - p ≤ Z.of_nat fuel →
  ∃ k', read_file_loop fuel 0 (Z.of_nat (length content)) p (take (Z.to_nat p) content) (s, rf_table h) =
    Some (Some (Z.of_nat (length content), content),
          (mk_vfs (filesystems s) (virtual_files s) (vfs_pipes s) k', rf_table h)) ∧
    P h (Z.of_nat (length content)) k'.
Proof using Hserves.
  intros Hfs HP Hp Hlen Hfuel. revert p s Hfs HP Hp Hfuel. induction fuel as [|fuel IH]; intros p s Hfs HP Hp Hfuel.
  { assert (p = Z.of_nat (length content)) as -> by lia. exists (vfs_kernel s). cbn [read_file_loop].
    rewrite Nat2Z.id, take_ge by lia. split; [by destruct s|done]. }
  cbn [read_file_loop]. destruct (Z.ltb_spec p (Z.of_nat (length content))) as [Hlt|Hge].
  2: { assert (p = Z.of_nat (length content)) as -> by lia. exists (vfs_kernel s).
       rewrite Nat2Z.id, take_ge by lia. split; [by destruct s|done]. }
  unfold mbind, M_bind. rewrite rf_read_eq by done.
  destruct (sv_read _ _ _ _ _ Hserves) as (rd & -> & Hrd).
  destruct (Hrd h p (Z.of_nat (length content) - p) (vfs_kernel s) HP) as (m & k' & E & Hm & Hpm & Hpos & HP'); [lia|].
  unfold on_vfs, mbind, M_bind, on_kernel. rewrite E. cbn [mret M_ret]. unfold mret, M_ret.
  specialize (Hpos Hlt). rewrite (proj2 (Z.leb_gt _ _)) by lia. rewrite u32_small by (unfold is_u32; lia).
  replace (take (Z.to_nat p) content ++ take (Z.to_nat m) (drop (Z.to_nat p) content))
    with (take (Z.to_nat (p + m)) content).
  2: { rewrite Z2Nat.inj_add by lia. by rewrite take_take_drop. }
  destruct (IH (p + m) (mk_vfs (filesystems s) (virtual_files s) (vfs_pipes s) k')) as (k2 & E2 & HP2); try done; try lia.
  exists k2. split; [exact E2|done].
Qed.
End served.

Lemma vfs_read_file_ok (s : vfs_t K) (hp : H) (ops : vfs_fs_ops_t K) (path content : list Z)
    (I : K → Prop) (P : Z → Z → K → Prop)
  (Hserves : serves ops path content I P) (Hfs : filesystems s = [ops]) (HI : I (vfs_kernel s))
  (Hplain : pipe_is_pipe_path path = false) (Hvirt : vfs_find_virtual_file path s = None)
  (Hmos : vfs_is_mos_dir path = false) (Hroot : path ≠ [47])
  (Hlen : 0 < Z.of_nat (length content) < 2147483648) :
  ∃ r s' hp', vfs_read_file path (s, hp) = Some (r, (s', hp')) ∧
    (r = RFail ∧ live hp' = live hp ∨
     ∃ buf, r = ROk buf content (Z.of_nat (length content)) ∧ buf ∉ live hp ∧ live hp' = {[buf]} ∪ live hp).
Proof using Type*.
  unfold vfs_read_file, vfs_stat, mbind, M_bind, get, mret, M_ret.
  replace (str_eqb path (str "/")) with false by (symmetry; by apply bool_decide_eq_false).
  rewrite Hmos, Hplain, Hvirt, Hfs. cbn [stat_loop].
  destruct (sv_stat _ _ _ _ _ Hserves) as (st & -> & Hst).
  destruct (Hst _ HI) as (k1 & E1 & HI1). unfold mbind, M_bind, on_kernel, mret, M_ret. rewrite E1. cbn [Z.eqb st_size].
  rewrite (proj2 (Z.eqb_neq _ _)) by lia.
  destruct (kmalloc _ hp) as [[buf|] hp'] eqn:Em.
  2: { apply kmalloc_None in Em. eexists _, _, _. split; [done|]. by left. }
  apply kmalloc_Some in Em as [Hfresh Hlive].
  set (s1 := mk_vfs _ _ _ k1). assert (Hfs1 : filesystems s1 = [ops]) by exact Hfs.
  destruct (sv_open _ _ _ _ _ Hserves) as (op & Eop & Hop). destruct (Hop k1 HI1) as (h & k2 & E2 & Hh & HP).
  assert (Hopen : vfs_open path O_RDONLY (s1, fdt_zero) =
    Some (0, (mk_vfs (filesystems s1) (virtual_files s1) (vfs_pipes s1) k2, rf_table path h))).
  { unfold vfs_open, mbind, M_bind, get, on_vfs, mret, M_ret, set_fd.
    change (find_index _ fdt_zero) with (Some O). rewrite Hplain.
    change (vfs_find_virtual_file path s1) with (vfs_find_virtual_file path s). rewrite Hvirt, Hfs1.
    cbn [open_loop]. rewrite Eop. unfold mbind, M_bind, on_kernel. cbn [vfs_kernel s1]. rewrite E2.
    rewrite (proj2 (Z.leb_le _ _)) by lia. unfold mret, M_ret. by rewrite Hfs1. }
  rewrite Hopen. cbn [mbind option_bind Z.ltb Z.compare].
  destruct (rf_loop_ok ops path content I P Hserves (Z.to_nat (Z.of_nat (length content))) h 0
              (mk_vfs (filesystems s1) (virtual_files s1) (vfs_pipes s1) k2)) as (k3 & E3 & HP3); try done; try lia.
  change (take (Z.to_nat 0) content) with (@nil Z) in E3. cbn [filesystems virtual_files vfs_pipes] in E3. rewrite E3. cbn [mbind option_bind].
  assert (Hclose : ∃ rc s' t', vfs_close 0 (mk_vfs (filesystems s1) (virtual_files s1) (vfs_pipes s1) k3, rf_table path h) =
            Some (rc, (s', t'))).
  { unfold vfs_close, mbind, M_bind, get, on_vfs, mret, M_ret, set_fd, lift.
    change (get_fd 0 (rf_table path h)) with (Some (rf_fd path h)). cbn [fd_fs_id rf_fd fd_fs_handle].
    change (vfs_pipe_handle_from_fs_id 0) with (-1). change (vfs_virtual_index_from_fs_id 0 _) with (-1).
    cbn [Z.leb Z.ltb Z.compare filesystems]. rewrite Hfs1. change (zlookup [ops] 0) with (Some ops). cbn iota beta.
    destruct (fs_close ops) as [cl|] eqn:Ecl; [|eauto]. unfold on_kernel. cbn [vfs_kernel].
    destruct (sv_close _ _ _ _ _ Hserves cl h _ k3 Ecl HP3) as [[rc k4] ->]. eauto. }
  destruct Hclose as (rc & s' & t' & ->). cbn [mbind option_bind].
  rewrite (proj2 (Z.eqb_neq _ _)) by lia. eexists _, _, _. split; [done|]. right. eauto.
Qed.

(** For a file that its file system serves in chunks of any size,
    [vfs_read_file] returns exactly the contents of the file in a fresh heap
    block, whatever the sizes of the chunks; when the heap has no room it fails
    and allocates nothing.  The descriptor it opened is closed. *)
Theorem vfs_read_file_correct (s : vfs_t K) (hp : H) (ops : vfs_fs_ops_t K) (path content : list Z)
    (I : K → Prop) (P : Z → Z → K → Prop)
  (Hserves : serves ops path content I P) (Hfs : filesystems s = [ops]) (HI : I (vfs_kernel s))
  (Hplain : pipe_is_pipe_path path = false) (Hvirt : vfs_find_virtual_file path s = None)
  (Hmos : vfs_is_mos_dir path = false) (Hroot : path ≠ [47])
  (Hlen : 0 < Z.of_nat (length content) < 2147483648) :
  ∃ r s' hp', vfs_read_file path (s, hp) = Some (r, (s', hp')) ∧
    (r = RFail ∧ live hp' = live hp ∨
     ∃ buf, r = ROk buf content (Z.of_nat (length content)) ∧ buf ∉ live hp ∧ live hp' = {[buf]} ∪ live hp).
Proof using Type*. by eapply vfs_read_file_ok. Qed.
End read_file.

(** ** Examples

    A file system with the file [/f], of three bytes, read two at a time; the
    state is the position of the handle. *)

Definition demo_content : list Z := [10; 20; 30].
Definition demo_ops : vfs_fs_ops_t Z := mk_fs_ops (str "demo")
  (Some (λ p f k, if str_eqb p (str "/f") then Some (0, 0) else Some (-1, k)))
  (Some (λ h n k, let m := Z.min n (Z.min 2 (3 - k)) in
                  Some ((m, take (Z.to_nat m) (drop (Z.to_nat k) demo_content)), k + m)))
  None None None
  (Some (λ p k, Some ((if str_eqb p (str "/f") then 0 else -1, mk_stat 3 VFS_FILE), k)))
  None None None None None None.

Definition demo_vfs : vfs_t Z :=
  mk_vfs [demo_ops] [] (default pipes_boot (snd <$> pipe_init pipes_boot)) 0.

Lemma demo_vfs_wf : vfs_wf demo_vfs.
Proof.
  destruct pipes_boot_init as (p & E & Hp). split.
  - done.
  - done.
  - unfold demo_vfs. cbn [vfs_pipes]. rewrite E. exact Hp.
  - apply Forall_singleton. split; intros *; cbn; intros [= <-]; try done; repeat case_match; eauto.
  - apply Forall_nil_2.
Qed.

Lemma fdt_zero_wf : fdt_wf demo_vfs fdt_zero.
Proof. split; [done|]. apply Forall_replicate. done. Qed.

Lemma demo_serves : serves demo_ops (str "/f") demo_content (λ k, k = 0) (λ h p k, k = p ∧ 0 ≤ p ≤ 3).
Proof.
  split.
  - eexists. split; [reflexivity|]. intros k ->. exists 0. done.
  - eexists. split; [reflexivity|]. intros k ->. exists 0, 0. split; [done|lia].
  - eexists. split; [reflexivity|]. intros h p n k [-> Hp] Hn. cbn [length demo_content].
    exists (Z.min n (Z.min 2 (3 - p))), (p + Z.min n (Z.min 2 (3 - p))). split; [done|]. lia.
  - done.
Qed.


Lemma vfs_close_all_releases_witness :
  ∃ st, vfs_close_all (demo_vfs, fdt_zero) = Some (tt, st) ∧ Forall (λ f, fd_in_use f = false) (snd st).
Proof.
  destruct (vfs_close_all_releases demo_vfs fdt_zero demo_vfs_wf fdt_zero_wf) as (s' & t' & E & _ & H & _).
  exists (s', t'). split; [exact E|exact H].
Defined.

Lemma vfs_open_dispatches_witness :
  ∃ s1 t1, vfs_open (str "/f") 0 (demo_vfs, fdt_zero) = Some (0, (s1, t1)) ∧
    vfs_write 0 [1] (s1, t1) = Some (Returned (-1) [], (s1, t1)).
Proof.
  destruct (vfs_open_dispatches demo_vfs fdt_zero (str "/f") 0 [] [] 0 demo_ops
              (λ p f k, if str_eqb p (str "/f") then Some (0, 0) else Some (-1, k)) 0 0 0 2 [1]
              demo_vfs_wf fdt_zero_wf) as (s1 & t1 & E & _ & _ & Hw); try reflexivity.
  exists s1, t1. split; [exact E|]. exact Hw.
Defined.

Lemma vfs_read_file_correct_witness :
  ∃ r st, vfs_read_file (H := set_heap 8) (str "/f") (demo_vfs, heap0 8) = Some (r, st) ∧
    (r = RFail ∨ ∃ buf, r = ROk buf [10; 20; 30] 3).
Proof.
  destruct (vfs_read_file_correct (H := set_heap 8) demo_vfs (heap0 8) demo_ops (str "/f") demo_content
              (λ k, k = 0) (λ h p k, k = p ∧ 0 ≤ p ≤ 3) demo_serves) as (r & s' & hp' & E & Hr); try reflexivity.
  - discriminate.
  - cbn. lia.
  - exists r, (s', hp'). split; [exact E|].
    destruct Hr as [[-> _]|(buf & -> & _)]; [left; reflexivity|right; exists buf; reflexivity].
Defined.
