(* ===== verification/PhysMem.v ===== *)
(** * Bytes of the physical memory

    The physical memory of [Paging] is word addressed, as the page tables use
    it.  The loader, the argument block of a new process and the system calls
    read and write bytes: byte [a] is the byte [a mod 4] of the little-endian
    word at the aligned address below [a]. *)

From S2P Require Import Prelude Pmm Paging.

(** ** Accesses *)

Definition word_base (a : Z) : Z := a - a mod 4.

Definition load8 (m : Z → Z) (a : Z) : Z := m (word_base a) / 256 ^ (a mod 4) mod 256.

Definition store8 (m : Z → Z) (a v : Z) : Z → Z :=
  mem_set m (word_base a) (m (word_base a) + (v - load8 m a) * 256 ^ (a mod 4)).

Fixpoint store_bytes (m : Z → Z) (a : Z) (l : list Z) : Z → Z :=
  match l with [] => m | b :: l => store_bytes (store8 m a b) (a + 1) l end.

Definition load_bytes (m : Z → Z) (a : Z) (n : nat) : list Z :=
  (λ i, load8 m (a + Z.of_nat i)) <$> seq 0 n.

(** [memcpy] of [n] bytes, from the first byte to the last. *)
Fixpoint copy_bytes (m : Z → Z) (dst src : Z) (n : nat) : Z → Z :=
  match n with
  | O => m
  | S n => copy_bytes (store8 m dst (load8 m src)) (dst + 1) (src + 1) n
  end.

(** The same through a pointer into the kernel window. *)
Definition kload8 (va : Z) : M paging_t Z := λ s, Some (load8 (pg_mem s) (KVIRT_TO_PHYS va), s).
Definition kload16 (va : Z) : M paging_t Z :=
  b0 ← kload8 va; b1 ← kload8 (va + 1); mret (b0 + 256 * b1).
Definition kload32 (va : Z) : M paging_t Z :=
  h0 ← kload16 va; h1 ← kload16 (va + 2); mret (h0 + 65536 * h1).
Definition kstore_bytes (va : Z) (l : list Z) : M paging_t unit :=
  modify (λ s, with_mem (store_bytes (pg_mem s) (KVIRT_TO_PHYS va) (u8 <$> l)) s).
Definition kmemcpy (dst src : Z) (n : Z) : M paging_t unit :=
  modify (λ s, with_mem (copy_bytes (pg_mem s) (KVIRT_TO_PHYS dst) (KVIRT_TO_PHYS src) (Z.to_nat n)) s).

(** ** Bytes and words *)

Lemma word_base_mod a : word_base a mod 4 = 0.
Proof. unfold word_base. mlia. Qed.

Lemma mod4_cases a : a mod 4 = 0 ∨ a mod 4 = 1 ∨ a mod 4 = 2 ∨ a mod 4 = 3.
Proof. mlia. Qed.

Lemma load8_u8 m a : is_u8 (load8 m a).
Proof. apply Z.mod_pos_bound. lia. Qed.

(** A word is made of its four bytes. *)
Lemma word_bytes m w : w mod 4 = 0 → is_u32 (m w) →
  m w = load8 m w + 256 * load8 m (w + 1) + 65536 * load8 m (w + 2) + 16777216 * load8 m (w + 3).
Proof.
  intros Hw Hu. unfold load8, word_base.
  replace ((w + 1) mod 4) with 1 by mlia. replace ((w + 2) mod 4) with 2 by mlia.
  replace ((w + 3) mod 4) with 3 by mlia. rewrite Hw.
  replace (w + 1 - 1) with w by lia. replace (w + 2 - 2) with w by lia.
  replace (w + 3 - 3) with w by lia. rewrite Z.sub_0_r.
  change (256 ^ 0) with 1. change (256 ^ 1) with 256. change (256 ^ 2) with 65536.
  change (256 ^ 3) with 16777216. mlia.
Qed.

Lemma pow256_cases a : 256 ^ (a mod 4) = 1 ∧ a mod 4 = 0 ∨ 256 ^ (a mod 4) = 256 ∧ a mod 4 = 1 ∨
  256 ^ (a mod 4) = 65536 ∧ a mod 4 = 2 ∨ 256 ^ (a mod 4) = 16777216 ∧ a mod 4 = 3.
Proof. destruct (mod4_cases a) as [-> | [-> | [-> | ->]]]; naive_solver. Qed.

Lemma store8_word_u32 x v p : is_u32 x → is_u8 v → p = 1 ∨ p = 256 ∨ p = 65536 ∨ p = 16777216 →
  is_u32 (x + (v - x / p mod 256) * p).
Proof. intros Hx Hv [-> | [-> | [-> | ->]]]; mlia. Qed.

Lemma store8_u32 m a v : (∀ x, is_u32 (m x)) → is_u8 v → ∀ x, is_u32 (store8 m a v x).
Proof.
  intros Hm Hv x. unfold store8, mem_set. case_match; [|done]. unfold load8.
  apply store8_word_u32; [done|done|]. destruct (pow256_cases a) as [[-> _] | [[-> _] | [[-> _] | [-> _]]]]; tauto.
Qed.

Lemma byte_of_update x v p q : is_u32 x → is_u8 v →
  p = 1 ∨ p = 256 ∨ p = 65536 ∨ p = 16777216 → q = 1 ∨ q = 256 ∨ q = 65536 ∨ q = 16777216 →
  (x + (v - x / p mod 256) * p) / q mod 256 = if p =? q then v else x / q mod 256.
Proof. intros Hx Hv [-> | [-> | [-> | ->]]] [-> | [-> | [-> | ->]]]; simpl; mlia. Qed.

Lemma load8_store8 m a v b : (∀ x, is_u32 (m x)) → is_u8 v →
  load8 (store8 m a v) b = if decide (b = a) then v else load8 m b.
Proof.
  intros Hm Hv. unfold load8 at 1. unfold store8, mem_set.
  destruct (Z.eqb_spec (word_base b) (word_base a)) as [E|E].
  - unfold load8 at 1. rewrite byte_of_update; [|done|done|destruct (pow256_cases a); naive_solver|destruct (pow256_cases b); naive_solver].
    unfold word_base in E. case_decide as Hab.
    + subst b. by rewrite Z.eqb_refl.
    + rewrite (proj2 (Z.eqb_neq _ _)); [unfold load8, word_base; by rewrite E|].
      destruct (pow256_cases a) as [[-> ?] | [[-> ?] | [[-> ?] | [-> ?]]]],
               (pow256_cases b) as [[-> ?] | [[-> ?] | [[-> ?] | [-> ?]]]]; lia.
  - case_decide as Hab; [by subst b|]. done.
Qed.

Lemma store8_other m a v x : x ≠ word_base a → store8 m a v x = m x.
Proof. intros H. unfold store8, mem_set. by rewrite (proj2 (Z.eqb_neq _ _) H). Qed.

(** ** Runs of bytes *)

Lemma store_bytes_u32 l : ∀ m a, (∀ x, is_u32 (m x)) → Forall is_u8 l →
  ∀ x, is_u32 (store_bytes m a l x).
Proof.
  induction l as [|b l IH]; intros m a Hm Hl x; [done|]. inversion_clear Hl. simpl.
  apply IH; [|done]. by apply store8_u32.
Qed.

(** Only the words that contain a byte of the run change. *)
Lemma store_bytes_other l : ∀ m a x, ¬ (word_base a ≤ x < a + Z.of_nat (length l)) →
  store_bytes m a l x = m x.
Proof.
  induction l as [|b l IH]; intros m a x Hx; [done|]. simpl in *.
  rewrite IH; [|unfold word_base in *; mlia]. apply store8_other. unfold word_base in *. mlia.
Qed.

Lemma load8_store_bytes l : ∀ m a b, (∀ x, is_u32 (m x)) → Forall is_u8 l →
  load8 (store_bytes m a l) b =
    if decide (a ≤ b < a + Z.of_nat (length l)) then default 0 (l !! Z.to_nat (b - a)) else load8 m b.
Proof.
  induction l as [|v l IH]; intros m a b Hm Hl; simpl.
  { rewrite decide_False by lia. done. }
  inversion_clear Hl. rewrite IH by (done || by apply store8_u32).
  repeat case_decide; try lia.
  - replace (Z.to_nat (b - a)) with (S (Z.to_nat (b - (a + 1)))) by lia. done.
  - rewrite load8_store8 by done. replace b with a by lia. rewrite decide_True by done.
    by rewrite Z.sub_diag.
  - rewrite load8_store8 by done. by rewrite decide_False by lia.
Qed.

Lemma length_load_bytes m a n : length (load_bytes m a n) = n.
Proof. unfold load_bytes. by rewrite length_fmap, length_seq. Qed.

Lemma load_bytes_cons m a n : load_bytes m a (S n) = load8 m a :: load_bytes m (a + 1) n.
Proof.
  unfold load_bytes. simpl. rewrite Z.add_0_r. f_equal. rewrite <- seq_shift, <- list_fmap_compose.
  apply list_fmap_ext. intros i x Hx. simpl. f_equal. lia.
Qed.

Lemma load_bytes_ext m m' a b n :
  (∀ i, 0 ≤ i < Z.of_nat n → load8 m (a + i) = load8 m' (b + i)) → load_bytes m a n = load_bytes m' b n.
Proof.
  revert a b. induction n as [|n IH]; intros a b H; [done|]. rewrite !load_bytes_cons. f_equal.
  - specialize (H 0). rewrite !Z.add_0_r in H. apply H. lia.
  - apply IH. intros i Hi. rewrite <- !Z.add_assoc. apply H. lia.
Qed.

Lemma Forall_load_bytes m a n : Forall is_u8 (load_bytes m a n).
Proof. unfold load_bytes. apply Forall_fmap, Forall_true. intros. apply load8_u8. Qed.

(** Reading back what was stored. *)
Lemma load_store_bytes m a l : (∀ x, is_u32 (m x)) → Forall is_u8 l →
  load_bytes (store_bytes m a l) a (length l) = l.
Proof.
  intros Hm Hl. apply list_eq. intros i. unfold load_bytes. rewrite list_lookup_fmap.
  destruct (decide (i < length l)%nat) as [Hi|Hi].
  - rewrite lookup_seq_lt by done. simpl. rewrite load8_store_bytes by done.
    rewrite decide_True by lia. replace (Z.to_nat _) with i by lia.
    destruct (lookup_lt_is_Some_2 l i Hi) as [x ->]. done.
  - rewrite (proj2 (lookup_ge_None l i)) by lia. rewrite lookup_seq_ge by lia. done.
Qed.

(** A copy between runs that do not overlap stores what the source holds. *)
Lemma copy_bytes_store n : ∀ m dst src, (∀ x, is_u32 (m x)) →
  src + Z.of_nat n ≤ dst ∨ dst + Z.of_nat n ≤ src →
  copy_bytes m dst src n = store_bytes m dst (load_bytes m src n).
Proof.
  induction n as [|n IH]; intros m dst src Hm Hd; [done|]. rewrite load_bytes_cons. simpl.
  rewrite IH; [|apply store8_u32; [done|apply load8_u8]|lia]. f_equal.
  apply load_bytes_ext. intros i Hi. rewrite load8_store8 by (done || apply load8_u8).
  rewrite decide_False by lia. done.
Qed.

(** Whatever the runs, only the words that contain a byte of the destination
    change. *)
Lemma copy_bytes_ok n : ∀ m dst src, (∀ x, is_u32 (m x)) →
  (∀ x, is_u32 (copy_bytes m dst src n x)) ∧
  ∀ x, ¬ (word_base dst ≤ x < dst + Z.of_nat n) → copy_bytes m dst src n x = m x.
Proof.
  induction n as [|n IH]; intros m dst src Hm; [done|]. simpl.
  destruct (IH (store8 m dst (load8 m src)) (dst + 1) (src + 1)) as [H1 H2].
  { apply store8_u32; [done|apply load8_u8]. }
  split; [done|]. intros x Hx. rewrite H2 by (unfold word_base in *; mlia).
  apply store8_other. unfold word_base in *. mlia.
Qed.
