(* ===== verification/Loader.v ===== *)
(** * The program loader ([src/src/proc/elf.c], [load_elf_into] of [src/src/syscall.c])

    An ELF file is read into frames that are released at the end, its header is
    checked, and every loadable segment and the user stack are mapped into a
    page directory.  The state is the file layer with the address spaces. *)

From S2P Require Import Prelude Pmm Paging PhysMem Pipe Vfs.

(** ** The memory layout ([src/src/memlayout.h]) *)

Definition USER_REGION_START : Z := 0x00400000.
Definition USER_REGION_END : Z := 0xC0000000.
Definition USER_STACK_TOP_PAGE_VADDR : Z := 0xBFFFF000.
Definition USER_STACK_PAGES : Z := 16.
Definition USER_STACK_BASE_VADDR : Z := USER_STACK_TOP_PAGE_VADDR - (USER_STACK_PAGES - 1) * 0x1000.
Definition USER_STACK_GUARD_VADDR : Z := USER_STACK_BASE_VADDR - 0x1000.

(** ** ELF headers *)

Definition ET_EXEC : Z := 2.
Definition EM_386 : Z := 3.
Definition PT_LOAD : Z := 1.
Definition PHDR_SIZE : Z := 32.

(** The fields that the kernel uses. *)
Record elf32_ehdr_t : Type := mk_ehdr {
  e_ident : list Z; e_type : Z; e_machine : Z; e_entry : Z; e_phoff : Z; e_phnum : Z
}.

Record elf32_phdr_t : Type := mk_phdr {
  p_type : Z; p_offset : Z; p_vaddr : Z; p_filesz : Z; p_memsz : Z
}.

(** The headers at an address, by the offsets of the packed structures. *)
Definition read_ehdr (elf : Z) : M paging_t elf32_ehdr_t :=
  b0 ← kload8 elf; b1 ← kload8 (elf + 1); b2 ← kload8 (elf + 2); b3 ← kload8 (elf + 3);
  b4 ← kload8 (elf + 4); b5 ← kload8 (elf + 5); b6 ← kload8 (elf + 6);
  type ← kload16 (elf + 16); machine ← kload16 (elf + 18);
  entry ← kload32 (elf + 24); phoff ← kload32 (elf + 28); phnum ← kload16 (elf + 44);
  mret (mk_ehdr [b0; b1; b2; b3; b4; b5; b6] type machine entry phoff phnum).

Definition read_phdr (phdr : Z) : M paging_t elf32_phdr_t :=
  type ← kload32 phdr; offset ← kload32 (phdr + 4); vaddr ← kload32 (phdr + 8);
  filesz ← kload32 (phdr + 16); memsz ← kload32 (phdr + 20);
  mret (mk_phdr type offset vaddr filesz memsz).

Definition elf_validate (hdr : elf32_ehdr_t) : bool :=
  match e_ident hdr with
  | [m0; m1; m2; m3; class; data; version] =>
    if negb (m0 =? 0x7F) || negb (m1 =? 69) || negb (m2 =? 76) || negb (m3 =? 70) then false else
    if negb (class =? 1) then false else
    if negb (data =? 1) then false else
    if negb (version =? 1) then false else
    if negb (e_machine hdr =? EM_386) then false else
    negb (negb (e_type hdr =? ET_EXEC))
  | _ => false
  end.

(** ** Mapping *)

Definition PAGE_UWP : Z := Z.lor (Z.lor PAGE_PRESENT PAGE_WRITE) PAGE_USER.

(** A zeroed frame is mapped at a user address; [None] is the error return. *)
Definition map_fresh (page_dir vaddr : Z) : M paging_t (option Z) :=
  phys ← on_pmm pmm_alloc_frame;
  if phys =? 0 then mret None else
  kzero_page (PHYS_TO_KVIRT phys);;
  rc ← paging_map_page page_dir vaddr phys PAGE_UWP;
  if rc <? 0 then mret None else mret (Some phys).

(** The frame of a page that a previous segment mapped, or 0. *)
Definition mapped_user_frame (page_dir page_vaddr : Z) : M paging_t Z :=
  pde ← kread (word_at page_dir (dir_idx page_vaddr));
  if has pde PAGE_PRESENT then
    pte ← kread (word_at (PHYS_TO_KVIRT (page_frame pde)) (table_idx page_vaddr));
    mret (if has pte PAGE_PRESENT && has pte PAGE_USER then page_frame pte else 0)
  else mret 0.

(** One page of a segment whose data starts at [src]. *)
Definition load_page (page_dir src vaddr filesz page_vaddr : Z) : M paging_t bool :=
  phys ← mapped_user_frame page_dir page_vaddr;
  o ← (if phys =? 0 then map_fresh page_dir page_vaddr else mret (Some phys));
  match o with
  | None => mret false
  | Some phys =>
    let copy_start := if vaddr <? page_vaddr then page_vaddr else vaddr in
    let file_end := u32 (vaddr + filesz) in
    let page_end := u32 (page_vaddr + 0x1000) in
    let copy_end := if page_end <? file_end then page_end else file_end in
    (if copy_start <? copy_end then
       kmemcpy (u32 (PHYS_TO_KVIRT phys + (copy_start - page_vaddr)))
               (u32 (src + (copy_start - vaddr))) (copy_end - copy_start)
     else mret tt);;
    mret true
  end.

(** [n] pages from [page_vaddr] on. *)
Fixpoint load_pages (n : nat) (page_dir src vaddr filesz page_vaddr : Z) : M paging_t bool :=
  match n with
  | O => mret true
  | S n => ok ← load_page page_dir src vaddr filesz page_vaddr;
           if (ok : bool) then load_pages n page_dir src vaddr filesz (page_vaddr + 0x1000) else mret false
  end.

(** The checks of one program header, and its segment: the new [user_end], or
    [None] for the error return.  The page loop runs from [seg_start] to
    [seg_end], both multiples of the page size. *)
Definition load_segment (page_dir elf size user_end : Z) (ph : elf32_phdr_t) : M paging_t (option Z) :=
  if negb (p_type ph =? PT_LOAD) then mret (Some user_end) else
  let vaddr := p_vaddr ph in
  let memsz := p_memsz ph in
  let filesz := p_filesz ph in
  let offset := p_offset ph in
  if (size <? offset) || (size - offset <? filesz) then mret None else
  if (vaddr <? USER_REGION_START) || (u32 (vaddr + memsz) <? vaddr) ||
     (USER_STACK_BASE_VADDR <? u32 (vaddr + memsz)) then mret None else
  let seg_start := page_frame vaddr in
  let seg_end := page_frame (u32 (vaddr + memsz + 0xFFF)) in
  let user_end := if user_end <? seg_end then seg_end else user_end in
  ok ← load_pages (Z.to_nat ((seg_end - seg_start) / 0x1000)) page_dir
                  (u32 (elf + offset)) vaddr filesz seg_start;
  mret (if (ok : bool) then Some user_end else None).

(** Program headers [i], ..., [i + n - 1] of the table at [phdr]. *)
Fixpoint load_segments (n : nat) (page_dir elf size phdr i user_end : Z) : M paging_t (option Z) :=
  match n with
  | O => mret (Some user_end)
  | S n =>
    ph ← read_phdr (u32 (phdr + i * PHDR_SIZE));
    o ← load_segment page_dir elf size user_end ph;
    match o with
    | None => mret None
    | Some user_end => load_segments n page_dir elf size phdr (i + 1) user_end
    end
  end.

(** Stack pages [i], ..., [i + n - 1]; the result is the frame of the last. *)
Fixpoint map_stack (n : nat) (page_dir i top : Z) : M paging_t (option Z) :=
  match n with
  | O => mret (Some top)
  | S n =>
    o ← map_fresh page_dir (USER_STACK_BASE_VADDR + i * 0x1000);
    match o with
    | None => mret None
    | Some phys => map_stack n page_dir (i + 1) (if i =? USER_STACK_PAGES - 1 then phys else top)
    end
  end.

(** What follows the reading of the file: the image of [size] bytes is at [elf].
    [Some (entry, stack, end)] is the return of the entry point with the two
    out-parameters. *)
Definition load_image (page_dir elf size : Z) : M paging_t (option (Z * Z * Z)) :=
  hdr ← read_ehdr elf;
  if negb (elf_validate hdr) then mret None else
  let ph_end := u32 (e_phoff hdr + e_phnum hdr * PHDR_SIZE) in
  if (size <=? e_phoff hdr) || (size <? ph_end) || (ph_end <? e_phoff hdr) then mret None else
  o ← load_segments (Z.to_nat (e_phnum hdr)) page_dir elf size (u32 (elf + e_phoff hdr)) 0 USER_REGION_START;
  match o with
  | None => mret None
  | Some user_end =>
    o ← map_stack (Z.to_nat USER_STACK_PAGES) page_dir 0 0;
    match o with
    | None => mret None
    | Some stack_phys => hdr ← read_ehdr elf; mret (Some (e_entry hdr, stack_phys, user_end))
    end
  end.

(** ** Reading the file *)

(** The value returned with the out-parameters, if they were written; or the
    call waits for a pipe. *)
Inductive load_outcome :=
  | LReturned (entry : Z) (outs : option (Z * Z))
  | LBlocked.

Section loader.
Context {K : Type}.

Definition lst : Type := vfs_t K * paging_t.

Definition l_vfs {A} (m : M (vfs_t K) A) : M lst A := λ '(v, p),
  match m v with None => None | Some (a, v') => Some (a, (v', p)) end.
Definition l_paging {A} (m : M paging_t A) : M lst A := λ '(v, p),
  match m p with None => None | Some (a, p') => Some (a, (v, p')) end.

(** The bytes read are stored from [data + total] on.  Every iteration that goes
    on reads at least one byte, so [size] iterations are enough. *)
Fixpoint load_read_loop (fuel : nat) (t : list vfs_fd_t) (fd data size total : Z)
    : M lst (option Z * list vfs_fd_t) :=
  match fuel with
  | O => mret (Some total, t)
  | S fuel =>
    if total <? size then
      '(v, p) ← get;
      match vfs_read fd (size - total) (v, t) with
      | None => ub
      | Some (Blocked, (v', t')) => put (v', p);; mret (None, t')
      | Some (Returned n d, (v', t')) =>
        put (v', p);;
        if n <=? 0 then mret (Some total, t') else
        l_paging (kstore_bytes (u32 (data + total)) d);;
        load_read_loop fuel t' fd data size (u32 (total + n))
      end
    else mret (Some total, t)
  end.

Definition load_elf_into (page_dir : Z) (filename : list Z) : M lst load_outcome :=
  o ← l_vfs (vfs_stat filename);
  match o with
  | None => mret (LReturned 0 None)
  | Some st =>
    if st_size st =? 0 then mret (LReturned 0 None) else
    let size := st_size st in
    let count := u32 (size + 0xFFF) / 0x1000 in
    base ← l_paging (on_pmm (pmm_alloc_frames count));
    if base =? 0 then mret (LReturned 0 None) else
    let data := PHYS_TO_KVIRT base in
    '(v, p) ← get;
    match vfs_open filename O_RDONLY (v, fdt_zero) with
    | None => ub
    | Some (fd, (v, t)) =>
      put (v, p);;
      if fd <? 0 then l_paging (on_pmm (pmm_free_frames base count));; mret (LReturned 0 None) else
      '(total, t) ← load_read_loop (Z.to_nat size) t fd data size 0;
      match total with
      | None => mret LBlocked
      | Some total =>
        '(v, p) ← get;
        match vfs_close fd (v, t) with
        | None => ub
        | Some (_, (v, _)) =>
          put (v, p);;
          if total <? size then l_paging (on_pmm (pmm_free_frames base count));; mret (LReturned 0 None) else
          r ← l_paging (load_image page_dir data size);
          l_paging (on_pmm (pmm_free_frames base count));;
          match r with
          | None => mret (LReturned 0 None)
          | Some (entry, stack_phys, user_end) => mret (LReturned entry (Some (stack_phys, user_end)))
          end
        end
      end
    end
  end.

End loader.
Arguments lst : clear implicits.

(** ** Confinement

    Loading a program, whatever its file contains, changes only the address
    space that it is loaded into: the frames that were free, and those that the
    address space owns. *)

Definition page_of (x : Z) : Z := x - x mod 4096.

Definition user_va (va : Z) : Prop := USER_REGION_START ≤ va < USER_REGION_END.

(** The pages of the user region belong to the allocator and are not used for
    page tables. *)
Record space_ok (s : paging_t) (d : Z) : Prop := {
  so_as : as_wf s d;
  so_user va p fl : user_va va → translate (pg_mem s) d va = Some (p, fl) → has fl PAGE_USER = true →
    in_pmm (pg_pmm s) (page_of p) ∧ ¬ addr_free (pg_pmm s) (page_of p) ∧ page_of p ≠ d ∧
    ∀ k, 0 ≤ k < 1024 → pde_present (pg_mem s) d k → page_of p ≠ table_of (pg_mem s) d k
}.

(** The frames of an address space: its directory, the tables of its user half
    and its user pages. *)
Definition owned (s : paging_t) (d f : Z) : Prop :=
  f = d ∨ (∃ k, 1 ≤ k < 768 ∧ pde_present (pg_mem s) d k ∧ f = table_of (pg_mem s) d k) ∨
  ∃ va p fl, user_va va ∧ translate (pg_mem s) d va = Some (p, fl) ∧ has fl PAGE_USER = true ∧ f = page_of p.

Record confined (d : Z) (s s' : paging_t) : Prop := {
  cf_wf : paging_wf s';
  cf_space : space_ok s' d;
  cf_globals : same_globals s s';
  cf_range : same_range (pg_pmm s) (pg_pmm s');
  cf_free a : addr_free (pg_pmm s') a → addr_free (pg_pmm s) a;
  cf_mem x : ¬ addr_free (pg_pmm s) (page_of x) → ¬ owned s d (page_of x) → pg_mem s' x = pg_mem s x;
  cf_owned f : owned s' d f → owned s d f ∨ addr_free (pg_pmm s) f;
  cf_kernel va : is_u32 va → ¬ user_va va → translate (pg_mem s') d va = translate (pg_mem s) d va;
  cf_user va p fl : user_va va → translate (pg_mem s') d va = Some (p, fl) →
    translate (pg_mem s) d va = Some (p, fl) ∨ addr_free (pg_pmm s) (page_of p) ∧ fl = 7;
  cf_tables k : 0 ≤ k < 1024 → pde_present (pg_mem s') d k →
    pde_present (pg_mem s) d k ∧ table_of (pg_mem s') d k = table_of (pg_mem s) d k ∨
    addr_free (pg_pmm s) (table_of (pg_mem s') d k)
}.

Lemma user_va_u32 va : user_va va → is_u32 va.
Proof. unfold user_va, USER_REGION_START, USER_REGION_END, is_u32. lia. Qed.
#[export] Hint Resolve user_va_u32 : cint.

Lemma same_globals_refl s : same_globals s s.
Proof. done. Qed.
Lemma same_globals_trans s1 s2 s3 : same_globals s1 s2 → same_globals s2 s3 → same_globals s1 s3.
Proof. unfold same_globals. intros (?&?&?&?&?) (?&?&?&?&?). do 4 (split; [congruence|]). congruence. Qed.

Lemma confined_refl d s : paging_wf s → space_ok s d → confined d s s.
Proof. intros ??. split; auto; done. Qed.

Lemma confined_trans d s1 s2 s3 : confined d s1 s2 → confined d s2 s3 → confined d s1 s3.
Proof.
  intros H1 H2. split.
  - apply H2.
  - apply H2.
  - eapply same_globals_trans; [apply H1|apply H2].
  - destruct (cf_range _ _ _ H1), (cf_range _ _ _ H2). split; congruence.
  - intros a Ha. by apply (cf_free _ _ _ H1), (cf_free _ _ _ H2).
  - intros x Hf Ho. rewrite (cf_mem _ _ _ H2).
    + by apply (cf_mem _ _ _ H1).
    + intros Hx. by apply Hf, (cf_free _ _ _ H1).
    + intros Hx. destruct (cf_owned _ _ _ H1 _ Hx); done.
  - intros f Hf. destruct (cf_owned _ _ _ H2 _ Hf) as [Hx|Hx].
    + by apply (cf_owned _ _ _ H1).
    + right. by apply (cf_free _ _ _ H1).
  - intros va Hva Hn. rewrite (cf_kernel _ _ _ H2) by done. by apply (cf_kernel _ _ _ H1).
  - intros va p fl Hva Ht. destruct (cf_user _ _ _ H2 va p fl Hva Ht) as [Hx|[Hx ->]].
    + by apply (cf_user _ _ _ H1).
    + right. split; [|done]. by apply (cf_free _ _ _ H1).
  - intros k Hk Hp. destruct (cf_tables _ _ _ H2 k Hk Hp) as [[Hp2 ->]|Hx].
    + by apply (cf_tables _ _ _ H1).
    + right. by apply (cf_free _ _ _ H1).
Qed.

Lemma page_of_word t j : t mod 4096 = 0 → 0 ≤ j < 1024 → page_of (t + 4 * j) = t.
Proof. unfold page_of. intros. pg_lia. Qed.
Lemma page_of_add t j : t mod 4096 = 0 → 0 ≤ j < 4096 → page_of (t + j) = t.
Proof. unfold page_of. intros. pg_lia. Qed.

Lemma addr_free_aligned p a : pmm_wf p → addr_free p a → a mod 4096 = 0 ∧ 8388608 ≤ a < 1073741824.
Proof.
  intros Hp (k & Hk & -> & _). pose proof (wf_count _ Hp). unfold frame_at. pmm_lia.
Qed.

Lemma in_pmm_aligned p a : pmm_wf p → in_pmm p a → a mod 4096 = 0 ∧ 8388608 ≤ a < 1073741824.
Proof.
  intros Hp (k & Hk & ->). pose proof (wf_count _ Hp). unfold frame_at. pmm_lia.
Qed.

Lemma addr_free_in_pmm p a : addr_free p a → in_pmm p a.
Proof. intros (k & Hk & -> & _). by exists k. Qed.

Lemma in_pmm_same p p' a : same_range p p' → in_pmm p a → in_pmm p' a.
Proof. intros [_ E] (k & Hk & ->). exists k. by rewrite E. Qed.

(** The frames of a directory and of its tables are not free. *)
Lemma as_dir_used s d : as_wf s d → ¬ addr_free (pg_pmm s) d.
Proof. intros H. apply (as_dir _ _ H). Qed.

(** Memory that is not of a directory and its tables may change. *)
Lemma as_mem_kept s s' d :
  as_wf s d → (∀ a, addr_free (pg_pmm s') a → addr_free (pg_pmm s) a) →
  (∀ x, page_of x = d ∨ (∃ k, 0 ≤ k < 1024 ∧ pde_present (pg_mem s) d k ∧ page_of x = table_of (pg_mem s) d k) →
     pg_mem s' x = pg_mem s x) →
  as_wf s' d ∧ (∀ k, 0 ≤ k < 1024 → pg_mem s' (d + 4 * k) = pg_mem s (d + 4 * k)) ∧
  ∀ va, is_u32 va → translate (pg_mem s') d va = translate (pg_mem s) d va.
Proof.
  intros Has Hfree Hmem. pose proof (as_dir _ _ Has) as (Hda & _).
  assert (Hd : ∀ k, 0 ≤ k < 1024 → pg_mem s' (d + 4 * k) = pg_mem s (d + 4 * k)).
  { intros k Hk. apply Hmem. left. by apply page_of_word. }
  split; [by apply (as_frame s)|]. split; [done|]. intros va Hva. apply translate_frame; [done|done|].
  intros i j Hi Hj Hp. apply Hmem. right. exists i. do 2 (split; [done|]).
  apply page_of_word; [|done]. by destruct (as_tables _ _ Has i Hi Hp) as ((?&_)&_).
Qed.


Lemma alloc_frame_range p r p' : pmm_wf p → pmm_alloc_frame p = Some (r, p') → same_range p p'.
Proof.
  intros Hwf E. destruct (alloc_frame_ok p Hwf) as (r1 & p1 & E1 & _ & Ha). simplify_eq.
  destruct Ha as [(_ & -> & _)|(k & _ & _ & _ & _ & _ & [H _])]; done.
Qed.

Lemma get_table_range s d i ok s' : paging_wf s → get_table d i s = Some (ok, s') →
  same_range (pg_pmm s) (pg_pmm s').
Proof.
  intros Hwf. unfold get_table, mbind, M_bind, kread, on_pmm, kzero_page, kwrite, mret, M_ret.
  case_match; [by intros [= _ <-]|].
  destruct (pmm_alloc_frame (pg_pmm s)) as [[r p']|] eqn:E; [|done].
  apply alloc_frame_range in E; [|apply Hwf]. case_match; intros [= _ <-]; done.
Qed.

(** What mapping a page does to the memory: the table entry, and the directory
    entry and a fresh frame when there was no table. *)
Lemma map_page_mem s d va pa flags rc s' :
  paging_wf s → as_wf s d → is_u32 va →
  paging_map_page (PHYS_TO_KVIRT d) va pa flags s = Some (rc, s') →
  same_range (pg_pmm s) (pg_pmm s') ∧
  (∀ x, ¬ addr_free (pg_pmm s) (page_of x) → page_of x ≠ d →
     (pde_present (pg_mem s) d (va / 4194304) → page_of x ≠ table_of (pg_mem s) d (va / 4194304)) →
     pg_mem s' x = pg_mem s x) ∧
  ∀ k, 0 ≤ k < 1024 → pde_present (pg_mem s') d k →
    pde_present (pg_mem s) d k ∧ table_of (pg_mem s') d k = table_of (pg_mem s) d k ∨
    k = va / 4194304 ∧ addr_free (pg_pmm s) (table_of (pg_mem s') d k).
Proof.
  intros Hwf Has Hva. destruct (idx_range va Hva) as [Hi Hj]. set (i := va / 4194304) in *.
  pose proof (as_dir _ _ Has) as (Hda & Hdr & _).
  unfold paging_map_page. rewrite dir_idx_eq, table_idx_eq. fold i.
  unfold mbind, M_bind, kread, kwrite, mret, M_ret.
  destruct (get_table_ok s d i Hwf (as_dir _ _ Has) Hi) as (ok & s1 & E1 & Hwf1 & Hg1 & Hcase).
  pose proof (get_table_range _ _ _ _ _ Hwf E1) as Hrange. rewrite E1.
  destruct ok; cbn [negb]; [|intros [= <- <-]; destruct Hcase as [(?&_)|[(_&->&_)|(?&_)]]; [done| |done];
    split; [done|]; split; [done|by left]].
  rewrite (kv_word d i) by done. fold (table_of (pg_mem s1) d i). intros [= _ <-].
  assert (Has1 : as_wf s1 d ∧ pde_present (pg_mem s1) d i).
  { destruct Hcase as [(_ & -> & Hp)|[(?&_)|(_ & Hnp & r & Hn)]]; [done|done|].
    split; [exact (new_table_as_wf _ _ _ _ _ Has Hi Hnp Hn)|by apply (new_table_present _ _ _ _ _ Hn)]. }
  destruct Has1 as [Has1 Hp1]. destruct (as_tables _ _ Has1 i Hi Hp1) as ((Hta & Htr & _) & Htd & _).
  rewrite kv_word by done. set (j := va / 4096 mod 1024) in *. cbn [pg_mem with_mem pg_pmm].
  split; [done|]. split.
  - intros x Hf Hxd Hxt. unfold mem_set.
    assert (Hx : page_of x ≠ table_of (pg_mem s1) d i ∧ pg_mem s1 x = pg_mem s x).
    { destruct Hcase as [(_ & -> & Hp)|[(?&_)|(_ & Hnp & r & Hn)]]; [by auto|done|].
      pose proof (new_table_present _ _ _ _ _ Hn) as (_ & -> & _). destruct Hn as (Hra & _ & Hrf & _ & Hm).
      split; [congruence|]. rewrite Hm. destruct (Z.eqb_spec x (d + 4 * i)) as [->|_].
      { by rewrite page_of_word in Hxd. }
      destruct (Z.leb_spec r x), (Z.ltb_spec x (r + 4096)); simpl; try done.
      exfalso. apply Hf. replace (page_of x) with r; [done|]. unfold page_of. pg_lia. }
    destruct Hx as [Hx1 <-]. destruct (Z.eqb_spec x (table_of (pg_mem s1) d i + 4 * j)) as [->|]; [|done].
    by rewrite page_of_word in Hx1.
  - intros k Hk. pose proof (set_pte_frame (table_of (pg_mem s1) d i) j (Z.lor (page_frame pa) flags) s1 d k
      Hta Hda (not_eq_sym Htd) Hj Hk) as E. unfold set_pte in E. cbn [pg_mem with_mem] in E.
    unfold pde_present, table_of. cbn [pg_mem with_mem]. fold (table_of (pg_mem s1) d i). rewrite E.
    destruct Hcase as [(_ & -> & Hp)|[(?&_)|(_ & Hnp & r & Hn)]]; [by left|done|].
    destruct (decide (k = i)) as [->|Hne].
    + intros _. right. split; [done|]. pose proof (new_table_present _ _ _ _ _ Hn) as (_ & Ht & _).
      unfold table_of in Ht. rewrite Ht. by destruct Hn as (_ & _ & ? & _).
    + rewrite (new_table_other _ _ _ _ _ k Hn) by (done || apply (as_dir _ _ Has)). by left.
Qed.

Lemma user_va_page va va' : va' / 4096 = va / 4096 → user_va va → is_u32 va' → user_va va'.
Proof. unfold user_va, USER_REGION_START, USER_REGION_END. intros. mlia. Qed.

Lemma user_va_idx va : user_va va → 1 ≤ va / 4194304 < 768.
Proof. unfold user_va, USER_REGION_START, USER_REGION_END. intros. pg_lia. Qed.

(** Frames may be taken from the allocator, and free frames and user pages of
    the address space may be written. *)
Lemma confined_write d s p' m :
  paging_wf s → space_ok s d → pmm_wf p' → same_range (pg_pmm s) p' → (∀ x, is_u32 (m x)) →
  (∀ a, addr_free p' a → addr_free (pg_pmm s) a) →
  (∀ x, m x ≠ pg_mem s x → addr_free (pg_pmm s) (page_of x) ∨
     ∃ va p fl, user_va va ∧ translate (pg_mem s) d va = Some (p, fl) ∧ has fl PAGE_USER = true ∧
                page_of x = page_of p) →
  confined d s (with_mem m (with_pmm p' s)) ∧
  (∀ va, is_u32 va → translate m d va = translate (pg_mem s) d va) ∧
  (∀ k, 0 ≤ k < 1024 → m (d + 4 * k) = pg_mem s (d + 4 * k)).
Proof.
  intros Hwf Hsp Hp' Hr Hm Hfree Hch. set (s' := with_mem m _). pose proof (so_as _ _ Hsp) as Has.
  assert (Hsame : ∀ x, ¬ addr_free (pg_pmm s) (page_of x) → ¬ owned s d (page_of x) ∨
    page_of x = d ∨ (∃ k, 0 ≤ k < 1024 ∧ pde_present (pg_mem s) d k ∧ page_of x = table_of (pg_mem s) d k) →
    m x = pg_mem s x).
  { intros x Hx Hc. destruct (decide (m x = pg_mem s x)) as [|Hne]; [done|]. exfalso.
    destruct (Hch x Hne) as [?|(va & p & fl & Hva & Ht & Hu & E)]; [done|].
    destruct (so_user _ _ Hsp va p fl Hva Ht Hu) as (_ & _ & Hnd & Hnt).
    destruct Hc as [Ho|[Ed|(k & Hk & Hp & Ek)]]; [|congruence|apply (Hnt k Hk Hp); congruence].
    apply Ho. right. right. by exists va, p, fl. }
  destruct (as_mem_kept s s' d Has Hfree) as (Has' & Hdir & Htr).
  { intros x Hx. apply Hsame; [|by right]. destruct Hx as [->|(k & Hk & Hp & ->)]; [by apply as_dir_used|].
    by apply (as_tables _ _ Has k Hk Hp). }
  change (pg_mem s') with m in *.
  assert (Hpde : ∀ k, 0 ≤ k < 1024 → (pde_present m d k ↔ pde_present (pg_mem s) d k) ∧
                 table_of m d k = table_of (pg_mem s) d k).
  { intros k Hk. unfold pde_present, table_of. by rewrite Hdir. }
  assert (Htru : ∀ va, user_va va → translate (pg_mem s') d va = translate (pg_mem s) d va).
  { intros va Hva. apply Htr. eauto with cint. }
  split; [|done]. split; try done.
  - split; [done|]. intros va p fl Hva Ht Hu. rewrite Htru in Ht by done.
    destruct (so_user _ _ Hsp va p fl Hva Ht Hu) as (H1 & H2 & H3 & H4).
    split; [by eapply in_pmm_same|]. split; [intros Hx; by apply H2, Hfree|]. split; [done|].
    intros k Hk Hp. destruct (Hpde k Hk) as [Hq E]. change (page_of p ≠ table_of m d k). rewrite E.
    apply H4; [done|by apply Hq].
  - intros x Hx Ho. apply Hsame; [done|by left].
  - intros f [Hf|[(k & Hk & Hp & ->)|(va & p & fl & Hva & Ht & Hu & ->)]]; left.
    + by left.
    + right. left. exists k. destruct (Hpde k ltac:(lia)) as [Hq E]. split; [done|]. split; [by apply Hq|done].
    + right. right. exists va, p, fl. rewrite Htru in Ht; done.
  - intros va Hva _. by apply Htr.
  - intros va p fl Hva Ht. rewrite Htru in Ht by done. by left.
  - intros k Hk Hp. left. destruct (Hpde k Hk) as [Hq E]. split; [by apply Hq|done].
Qed.


Lemma pte_maps_uwp f va : f mod 4096 = 0 → is_u32 f →
  pte_maps (Z.lor (page_frame f) PAGE_UWP) va = Some (f + va mod 4096, 7).
Proof.
  intros Hf Hu. rewrite (page_frame_eq f Hu), Hf, Z.sub_0_r. unfold pte_maps, has.
  rewrite !entry_bits by done. rewrite page_frame_entry by done. done.
Qed.

(** A frame [f] that was free in [s] and has been taken in [s2] is mapped. *)
Lemma confined_map d s s2 va f s' :
  space_ok s d → confined d s s2 →
  (∀ va, is_u32 va → translate (pg_mem s2) d va = translate (pg_mem s) d va) →
  (∀ k, 0 ≤ k < 1024 → pg_mem s2 (d + 4 * k) = pg_mem s (d + 4 * k)) →
  user_va va → addr_free (pg_pmm s) f → ¬ addr_free (pg_pmm s2) f →
  paging_map_page (PHYS_TO_KVIRT d) va f PAGE_UWP s2 = Some (0, s') →
  confined d s s' ∧
  (∀ va', is_u32 va' → translate (pg_mem s') d va' =
     if decide (va' / 4096 = va / 4096) then Some (f + va' mod 4096, 7) else translate (pg_mem s) d va') ∧
  (∀ x, page_of x = f → pg_mem s' x = pg_mem s2 x).
Proof.
  intros Hsp HC Htr2 Hdir2 Hva Hff Hnf Hmap. pose proof (cf_wf _ _ _ HC) as Hwf2.
  pose proof (so_as _ _ (cf_space _ _ _ HC)) as Has2. pose proof (so_as _ _ Hsp) as Has.
  assert (Hrf : f mod 4096 = 0 ∧ 8388608 ≤ f < 1073741824).
  { destruct Hff as (k & Hk & -> & _). pose proof (wf_count _ (pg_pmm_wf _ Hwf2)).
    destruct (cf_range _ _ _ HC) as [_ E]. unfold frame_at. pmm_lia. }
  destruct Hrf as [Hfa Hfr]. assert (Hfu : is_u32 f) by mlia.
  destruct (map_page_ok s2 d va f PAGE_UWP Hwf2 Has2 (user_va_u32 _ Hva) Hfu)
    as (rc & s1 & E & Hwf' & Has' & Hg & [Hfree' _] & Hcase); [done|].
  rewrite Hmap in E. injection E as <- <-.
  destruct Hcase as [(? & _)|[_ Htr]]; [done|].
  assert (Htr' : ∀ va', is_u32 va' → translate (pg_mem s') d va' =
     if decide (va' / 4096 = va / 4096) then Some (f + va' mod 4096, 7) else translate (pg_mem s) d va').
  { intros va' Hva'. rewrite Htr by done. case_decide; [by apply pte_maps_uwp|by apply Htr2]. }
  clear Htr. destruct (map_page_mem s2 d va f PAGE_UWP 0 s' Hwf2 Has2 (user_va_u32 _ Hva) Hmap) as (Hrange & Hmem & Htab).
  assert (Hpde : ∀ k, 0 ≤ k < 1024 → (pde_present (pg_mem s2) d k ↔ pde_present (pg_mem s) d k) ∧
                 table_of (pg_mem s2) d k = table_of (pg_mem s) d k).
  { intros k Hk. unfold pde_present, table_of. by rewrite Hdir2. }
  assert (Htab' : ∀ k, 0 ≤ k < 1024 → pde_present (pg_mem s') d k →
    pde_present (pg_mem s) d k ∧ table_of (pg_mem s') d k = table_of (pg_mem s) d k ∨
    addr_free (pg_pmm s2) (table_of (pg_mem s') d k)).
  { intros k Hk Hp. destruct (Hpde k Hk) as [Hq E].
    destruct (Htab k Hk Hp) as [[H1 H2]|[-> H]]; [left|by right]. split; [by apply Hq|congruence]. }
  assert (Hold : ∀ g, ¬ addr_free (pg_pmm s) g → (∀ k, 0 ≤ k < 1024 → pde_present (pg_mem s) d k → g ≠ table_of (pg_mem s) d k) →
    ∀ k, 0 ≤ k < 1024 → pde_present (pg_mem s') d k → g ≠ table_of (pg_mem s') d k).
  { intros g Hg1 Hg2 k Hk Hp. destruct (Htab' k Hk Hp) as [[H1 ->]|H]; [by apply Hg2|].
    intros ->. by apply Hg1, (cf_free _ _ _ HC). }
  assert (Hft : ∀ k, 0 ≤ k < 1024 → pde_present (pg_mem s') d k → f ≠ table_of (pg_mem s') d k).
  { intros k Hk Hp. destruct (Htab' k Hk Hp) as [[H1 ->]|H].
    - destruct (as_tables _ _ Has k Hk H1) as ((_ & _ & Ht) & _). intros E. apply Ht. by rewrite <- E.
    - intros E. apply Hnf. by rewrite E. }
  assert (Hfd : f ≠ d). { intros ->. by apply (as_dir_used _ _ Has). }
  assert (Hrr : same_range (pg_pmm s) (pg_pmm s')).
  { destruct (cf_range _ _ _ HC), Hrange. split; congruence. }
  assert (Hfree : ∀ a, addr_free (pg_pmm s') a → addr_free (pg_pmm s) a).
  { intros a Ha. by apply (cf_free _ _ _ HC), Hfree'. }
  split; [|split; [done|]].
  - split; try done.
    + split; [done|]. intros va1 p fl Hva1 Ht Hu. rewrite Htr' in Ht by eauto with cint. case_decide.
      * injection Ht as <- <-. rewrite page_of_add by mlia.
        split; [by apply (in_pmm_same (pg_pmm s)), addr_free_in_pmm|].
        split; [intros Hx; by apply Hnf, Hfree'|]. done.
      * destruct (so_user _ _ Hsp va1 p fl Hva1 Ht Hu) as (H1 & H2 & H3 & H4).
        split; [by eapply in_pmm_same|]. split; [intros Hx; by apply H2, Hfree|]. split; [done|]. by apply Hold.
    + eapply same_globals_trans; [apply (cf_globals _ _ _ HC)|done].
    + intros x Hx Ho. rewrite Hmem.
      * by apply (cf_mem _ _ _ HC).
      * intros Hf. by apply Hx, (cf_free _ _ _ HC).
      * intros Hd. apply Ho. by left.
      * pose proof (user_va_idx _ Hva) as Hk. destruct (Hpde (va / 4194304) ltac:(lia)) as [Hq ->].
        intros Hp Ht. apply Ho. right. left. exists (va / 4194304). split; [done|]. split; [by apply Hq|done].
    + intros g [Hg1|[(k & Hk & Hp & ->)|(va1 & p & fl & Hva1 & Ht & Hu & ->)]].
      * left. by left.
      * destruct (Htab' k ltac:(lia) Hp) as [[H1 H2]|H].
        -- left. right. left. by exists k.
        -- right. by apply (cf_free _ _ _ HC).
      * rewrite Htr' in Ht by eauto with cint. case_decide.
        -- injection Ht as <- <-. right. by rewrite page_of_add by mlia.
        -- left. right. right. by exists va1, p, fl.
    + intros va1 Hva1 Hn. rewrite Htr' by done. case_decide as Hc; [|done].
      exfalso. by apply Hn, (user_va_page va).
    + intros va1 p fl Hva1 Ht. rewrite Htr' in Ht by eauto with cint. case_decide; [|by left].
      injection Ht as <- <-. right. by rewrite page_of_add by mlia.
    + intros k Hk Hp. destruct (Htab' k Hk Hp) as [H|H]; [by left|right]. by apply (cf_free _ _ _ HC).
  - intros x Hx. apply Hmem; rewrite Hx; [done..|]. intros Hp.
    pose proof (user_va_idx _ Hva) as Hk. destruct (Hpde (va / 4194304) ltac:(lia)) as [Hq E]. rewrite E.
    destruct (as_tables _ _ Has (va / 4194304) ltac:(lia) (proj1 Hq Hp)) as ((_ & _ & Ht) & _).
    intros E1. apply Ht. by rewrite <- E1.
Qed.

Lemma map_fresh_ok d s va :
  paging_wf s → space_ok s d → user_va va →
  ∃ o s', map_fresh (PHYS_TO_KVIRT d) va s = Some (o, s') ∧ confined d s s' ∧
    ∀ f, o = Some f → addr_free (pg_pmm s) f ∧
      (∀ va', is_u32 va' → translate (pg_mem s') d va' =
         if decide (va' / 4096 = va / 4096) then Some (f + va' mod 4096, 7) else translate (pg_mem s) d va') ∧
      ∀ x, page_of x = f → pg_mem s' x = 0.
Proof.
  intros Hwf Hsp Hva. unfold map_fresh, mbind, M_bind, on_pmm, kzero_page, mret, M_ret.
  destruct (alloc_frame_addr _ (pg_pmm_wf _ Hwf)) as (f & p' & E & Hwf' & Hcase). rewrite E.
  pose proof (alloc_frame_range _ _ _ (pg_pmm_wf _ Hwf) E) as Hrange.
  destruct Hcase as [(-> & -> & _)|(Hf0 & Hfa & Hfr & Hff & Hfree)].
  { eexists None, _. split; [reflexivity|]. split; [|done]. destruct s. by apply confined_refl. }
  rewrite (proj2 (Z.eqb_neq _ _) Hf0). rewrite kv_page by lia.
  destruct (confined_write d s p' (mem_zero_page (pg_mem s) f)) as (HC & Htr2 & Hdir2); try done.
  - intros x. unfold mem_zero_page. case_match; [done|apply (pg_mem_u32 _ Hwf)].
  - intros a Ha. by apply Hfree.
  - intros x Hx. left. unfold mem_zero_page in Hx.
    destruct (Z.leb_spec f x), (Z.ltb_spec x (f + 4096)); simpl in Hx; try done.
    replace (page_of x) with f; [done|]. unfold page_of. mlia.
  - set (s2 := with_mem _ _) in *. change (with_mem _ (with_pmm p' s)) with s2.
    destruct (map_page_ok s2 d va f PAGE_UWP (cf_wf _ _ _ HC) (so_as _ _ (cf_space _ _ _ HC)) (user_va_u32 _ Hva))
      as (rc & s' & Em & _ & _ & _ & _ & Hrc); [mlia|done|].
    rewrite Em. destruct Hrc as [(-> & -> & _)|[-> _]]; simpl.
    { by exists None, s2. }
    exists (Some f), s'. split; [done|].
    assert (Hnf : ¬ addr_free (pg_pmm s2) f). { intros Hx. by apply Hfree in Hx as [_ ?]. }
    destruct (confined_map d s s2 va f s' Hsp HC Htr2 Hdir2 Hva Hff Hnf Em) as (HC' & Htr & Hz).
    split; [done|]. intros f' [= <-]. split; [done|]. split; [done|].
    intros x Hx. rewrite Hz by done. unfold s2, mem_zero_page. cbn [pg_mem with_mem].
    unfold page_of in Hx. rewrite (proj2 (Z.leb_le f x)), (proj2 (Z.ltb_lt x (f + 4096))) by mlia. done.
Qed.

Lemma mapped_user_frame_ok d s va :
  paging_wf s → as_wf s d → is_u32 va → va mod 4096 = 0 →
  ∃ f, mapped_user_frame (PHYS_TO_KVIRT d) va s = Some (f, s) ∧
    (f = 0 ∨ ∃ fl, translate (pg_mem s) d va = Some (f, fl) ∧ has fl PAGE_USER = true).
Proof.
  intros Hwf Has Hva Hal. destruct (idx_range va Hva) as [Hi Hj]. pose proof (as_dir _ _ Has) as (Hda & Hdr & _).
  unfold mapped_user_frame, mbind, M_bind, kread, mret, M_ret. rewrite dir_idx_eq, table_idx_eq, kv_word by done.
  unfold translate. destruct (has (pg_mem s (d + _)) PAGE_PRESENT) eqn:Hp; [|exists 0; by eauto].
  destruct (as_tables _ _ Has _ Hi Hp) as ((Hta & Htr & _) & _ & H7). unfold table_of in *.
  rewrite kv_word by done. set (pte := pg_mem s (page_frame _ + _)). cbn [negb].
  destruct (has pte PAGE_PRESENT) eqn:Hp1; cbn [andb]; [|exists 0; by eauto].
  destruct (has pte PAGE_USER) eqn:Hu; [|exists 0; by eauto].
  exists (page_frame pte). split; [done|]. right. eexists. rewrite Hal, Z.add_0_r. split; [done|].
  rewrite land7_pde by done. unfold has in *. by rewrite <- Z.land_assoc.
Qed.

(** Copying within one page. *)
Lemma copy_in_page m f dst src n : (∀ x, is_u32 (m x)) → f mod 4096 = 0 →
  f ≤ dst → dst + n ≤ f + 4096 → 0 ≤ n →
  (∀ x, is_u32 (copy_bytes m dst src (Z.to_nat n) x)) ∧
  ∀ x, page_of x ≠ f → copy_bytes m dst src (Z.to_nat n) x = m x.
Proof.
  intros Hm Hf H1 H2 Hn. destruct (copy_bytes_ok (Z.to_nat n) m dst src Hm) as [Hu Ho]. split; [done|].
  intros x Hx. apply Ho. unfold word_base, page_of in *. rewrite Z2Nat.id by done. intros H. apply Hx. pg_lia.
Qed.

Lemma kv_add p o : 0 ≤ p → 0 ≤ o → p + o < 1073741824 → KVIRT_TO_PHYS (u32 (PHYS_TO_KVIRT p + o)) = p + o.
Proof. unfold KVIRT_TO_PHYS, PHYS_TO_KVIRT, KERNEL_VIRTUAL_BASE. intros. mlia. Qed.

Lemma load_page_ok d s src vaddr filesz va :
  paging_wf s → space_ok s d → user_va va → va mod 4096 = 0 → is_u32 vaddr → vaddr < va + 4096 →
  ∃ ok s', load_page (PHYS_TO_KVIRT d) src vaddr filesz va s = Some (ok, s') ∧ confined d s s'.
Proof.
  intros Hwf Hsp Hva Hal Hvu Hlt. pose proof (user_va_u32 _ Hva) as Hvau. unfold load_page, mbind, M_bind.
  destruct (mapped_user_frame_ok d s va Hwf (so_as _ _ Hsp) Hvau Hal) as (f & -> & Hf).
  assert (Hstep : ∃ o s1, (if f =? 0 then map_fresh (PHYS_TO_KVIRT d) va else mret (Some f)) s = Some (o, s1) ∧
    confined d s s1 ∧ ∀ g, o = Some g → ∃ fl, translate (pg_mem s1) d va = Some (g, fl) ∧ has fl PAGE_USER = true).
  { destruct (Z.eqb_spec f 0) as [->|Hne].
    - destruct (map_fresh_ok d s va Hwf Hsp Hva) as (o & s1 & E & HC & Hg). exists o, s1.
      do 2 (split; [done|]). intros g ->. destruct (Hg g eq_refl) as (_ & Ht & _). exists 7.
      rewrite Ht, decide_True, Hal, Z.add_0_r by done. done.
    - exists (Some f), s. split; [done|]. split; [by apply confined_refl|].
      intros g [= <-]. destruct Hf as [?|Hf]; done. }
  destruct Hstep as (o & s1 & -> & HC & Hg). destruct o as [g|]; [|by exists false, s1].
  destruct (Hg g eq_refl) as (fl & Ht & Hu). clear Hg Hf f.
  set (cs := if vaddr <? va then va else vaddr). set (pe := u32 (va + 0x1000)).
  set (ce := if pe <? u32 (vaddr + filesz) then pe else u32 (vaddr + filesz)).
  assert (Hpe : pe = va + 4096).
  { unfold pe. apply u32_small. unfold user_va, USER_REGION_END, is_u32 in *. lia. }
  assert (Hcs : va ≤ cs < va + 4096). { unfold cs. destruct (Z.ltb_spec vaddr va); lia. }
  assert (Hce : ce ≤ va + 4096). { unfold ce. destruct (Z.ltb_spec pe (u32 (vaddr + filesz))); lia. }
  destruct (Z.ltb_spec cs ce) as [Hlt1|]; [|by exists true, s1].
  eexists true, _. split; [reflexivity|]. eapply confined_trans; [exact HC|].
  destruct (so_user _ _ (cf_space _ _ _ HC) va g fl Hva Ht Hu) as (Hin & _).
  destruct (in_pmm_aligned _ _ (pg_pmm_wf _ (cf_wf _ _ _ HC)) Hin) as [Hga Hgr].
  assert (Egp : page_of g = g).
  { unfold translate in Ht. repeat case_match; try done. injection Ht as <- _. rewrite Hal, Z.add_0_r.
    unfold page_of. rewrite (proj1 (page_frame_aligned _ (pg_mem_u32 _ (cf_wf _ _ _ HC) _))). lia. }
  rewrite Egp in *.
  assert (Edst : KVIRT_TO_PHYS (u32 (PHYS_TO_KVIRT g + (cs - va))) = g + (cs - va)).
  { apply kv_add; [lia|lia|mlia]. }
  rewrite Edst. destruct (copy_in_page (pg_mem s1) g (g + (cs - va)) (KVIRT_TO_PHYS (u32 (src + (cs - vaddr)))) (ce - cs))
    as [H1 H2]; [apply (cf_wf _ _ _ HC)|done|lia|lia|lia|].
  set (m := copy_bytes _ _ _ _) in *.
  apply (confined_write d s1 (pg_pmm s1) m (cf_wf _ _ _ HC) (cf_space _ _ _ HC)); try done.
  - apply (pg_pmm_wf _ (cf_wf _ _ _ HC)).
  - intros x Hx. right. exists va, g, fl. do 3 (split; [done|]). rewrite Egp.
    destruct (decide (page_of x = g)); [done|]. by rewrite H2 in Hx.
Qed.

Lemma load_pages_ok d src vaddr filesz n : ∀ s va,
  paging_wf s → space_ok s d → USER_REGION_START ≤ va → va + Z.of_nat n * 4096 ≤ USER_REGION_END →
  va mod 4096 = 0 → is_u32 vaddr → vaddr < va + 4096 →
  ∃ ok s', load_pages n (PHYS_TO_KVIRT d) src vaddr filesz va s = Some (ok, s') ∧ confined d s s'.
Proof.
  induction n as [|n IH]; intros s va Hwf Hsp Hlo Hhi Hal Hvu Hlt.
  { exists true, s. split; [done|]. by apply confined_refl. }
  cbn [load_pages]. unfold mbind, M_bind.
  destruct (load_page_ok d s src vaddr filesz va) as (ok & s1 & -> & HC); try done.
  { unfold user_va. lia. }
  destruct ok; [|by exists false, s1].
  destruct (IH s1 (va + 4096)) as (ok & s2 & E & HC2); try done; try apply HC; try lia.
  { mlia. }
  exists ok, s2. split; [done|]. by eapply confined_trans.
Qed.

Definition user_end_ok (e : Z) : Prop := USER_REGION_START ≤ e ≤ USER_STACK_BASE_VADDR ∧ e mod 4096 = 0.

Ltac layout_lia :=
  unfold user_end_ok, user_va, USER_STACK_BASE_VADDR, USER_STACK_TOP_PAGE_VADDR, USER_STACK_PAGES,
    USER_REGION_START, USER_REGION_END, u32, is_u32 in *;
  Z.div_mod_to_equations; lia.

Lemma load_segment_ok d s elf size user_end ph :
  paging_wf s → space_ok s d → is_u32 (p_vaddr ph) → user_end_ok user_end →
  ∃ o s', load_segment (PHYS_TO_KVIRT d) elf size user_end ph s = Some (o, s') ∧ confined d s s' ∧
          ∀ e, o = Some e → user_end_ok e.
Proof.
  intros Hwf Hsp Hvu Hue. unfold load_segment, mret, M_ret.
  case_match. { eexists _, s. split; [done|]. split; [by apply confined_refl|]. by intros e [= <-]. }
  case_match. { eexists _, s. split; [done|]. split; [by apply confined_refl|done]. }
  destruct ((p_vaddr ph <? _) || _ || _) eqn:Hc.
  { eexists _, s. split; [done|]. split; [by apply confined_refl|done]. }
  apply orb_false_iff in Hc as [[H1%Z.ltb_ge H2%Z.ltb_ge]%orb_false_iff H3%Z.ltb_ge].
  set (e := page_frame (u32 (p_vaddr ph + p_memsz ph + 0xFFF))). set (b := page_frame (p_vaddr ph)).
  assert (Hb : b = p_vaddr ph - p_vaddr ph mod 4096) by (by apply page_frame_eq).
  assert (He : e = u32 (p_vaddr ph + p_memsz ph + 0xFFF) - u32 (p_vaddr ph + p_memsz ph + 0xFFF) mod 4096).
  { apply page_frame_eq, u32_range. }
  assert (Heb : e mod 4096 = 0 ∧ e ≤ USER_STACK_BASE_VADDR) by layout_lia.
  unfold mbind, M_bind.
  destruct (load_pages_ok d (u32 (elf + p_offset ph)) (p_vaddr ph) (p_filesz ph)
              (Z.to_nat ((e - b) / 0x1000)) s b) as (ok & s1 & -> & HC); try done; try layout_lia.
  eexists _, s1. split; [done|]. split; [done|]. intros e' He'. destruct ok; [|done].
  injection He' as <-. destruct (Z.ltb_spec user_end e); [|done]. layout_lia.
Qed.

Lemma kload32_u32 va s : ∃ v, kload32 va s = Some (v, s) ∧ is_u32 v.
Proof.
  eexists. split; [done|].
  pose proof (load8_u8 (pg_mem s) (KVIRT_TO_PHYS va)). pose proof (load8_u8 (pg_mem s) (KVIRT_TO_PHYS (va + 1))).
  pose proof (load8_u8 (pg_mem s) (KVIRT_TO_PHYS (va + 2))). pose proof (load8_u8 (pg_mem s) (KVIRT_TO_PHYS (va + 2 + 1))).
  unfold is_u8, is_u32 in *. lia.
Qed.

Lemma read_phdr_ok va s : ∃ ph, read_phdr va s = Some (ph, s) ∧ is_u32 (p_vaddr ph).
Proof.
  unfold read_phdr, mbind, M_bind. destruct (kload32_u32 va s) as (v0 & -> & _).
  destruct (kload32_u32 (va + 4) s) as (v1 & -> & _). destruct (kload32_u32 (va + 8) s) as (v2 & -> & Hv).
  destruct (kload32_u32 (va + 16) s) as (v3 & -> & _). destruct (kload32_u32 (va + 20) s) as (v4 & -> & _).
  by eexists.
Qed.

Lemma read_ehdr_ok va s : ∃ h, read_ehdr va s = Some (h, s) ∧ is_u32 (e_entry h).
Proof.
  destruct (kload32_u32 (va + 24) s) as (v & E & Hv). eexists. split; [done|]. cbn [e_entry].
  unfold kload32, kload16, mbind, M_bind, kload8, mret, M_ret in E. by injection E as ->.
Qed.

Lemma load_segments_ok d elf size phdr n : ∀ s i user_end,
  paging_wf s → space_ok s d → user_end_ok user_end →
  ∃ o s', load_segments n (PHYS_TO_KVIRT d) elf size phdr i user_end s = Some (o, s') ∧ confined d s s' ∧
          ∀ e, o = Some e → user_end_ok e.
Proof.
  induction n as [|n IH]; intros s i user_end Hwf Hsp Hue.
  { exists (Some user_end), s. split; [done|]. split; [by apply confined_refl|]. by intros e [= <-]. }
  cbn [load_segments]. unfold mbind, M_bind. destruct (read_phdr_ok (u32 (phdr + i * PHDR_SIZE)) s) as (ph & -> & Hph).
  destruct (load_segment_ok d s elf size user_end ph Hwf Hsp Hph Hue) as (o & s1 & -> & HC & Ho).
  destruct o as [e|]; [|by exists None, s1].
  destruct (IH s1 (i + 1) e (cf_wf _ _ _ HC) (cf_space _ _ _ HC) (Ho e eq_refl)) as (o & s2 & -> & HC2 & Ho2).
  exists o, s2. split; [done|]. split; [by eapply confined_trans|done].
Qed.

Lemma map_stack_ok d n : ∀ s i top,
  paging_wf s → space_ok s d → 0 ≤ i → i + Z.of_nat n = 16 →
  ∃ o s', map_stack n (PHYS_TO_KVIRT d) i top s = Some (o, s') ∧ confined d s s' ∧
    ∀ f, o = Some f →
      (∀ va, is_u32 va → va / 4096 < USER_STACK_BASE_VADDR / 4096 + i → translate (pg_mem s') d va = translate (pg_mem s) d va) ∧
      (∀ va, is_u32 va → USER_STACK_BASE_VADDR / 4096 + i ≤ va / 4096 < USER_REGION_END / 4096 →
         ∃ g, translate (pg_mem s') d va = Some (g + va mod 4096, 7) ∧ addr_free (pg_pmm s) g) ∧
      ((0 < n)%nat → translate (pg_mem s') d USER_STACK_TOP_PAGE_VADDR = Some (f, 7) ∧ addr_free (pg_pmm s) f ∧
         ∀ x, page_of x = f → pg_mem s' x = 0).
Proof.
  induction n as [|n IH]; intros s i top Hwf Hsp Hi Hn.
  { exists (Some top), s. split; [done|]. split; [by apply confined_refl|]. intros f [= <-].
    split; [done|]. split; [intros va Hva H; layout_lia|lia]. }
  cbn [map_stack]. unfold mbind, M_bind. set (va0 := USER_STACK_BASE_VADDR + i * 0x1000).
  assert (Hva0 : user_va va0 ∧ va0 / 4096 = USER_STACK_BASE_VADDR / 4096 + i) by (unfold va0; layout_lia).
  destruct Hva0 as [Hva0 Hpg0].
  destruct (map_fresh_ok d s va0 Hwf Hsp Hva0) as (o & s1 & -> & HC & Hf).
  destruct o as [f|]; [|by exists None, s1]. destruct (Hf f eq_refl) as (Hff & Htr & Hz). clear Hf.
  set (top' := if i =? USER_STACK_PAGES - 1 then f else top).
  destruct (IH s1 (i + 1) top' (cf_wf _ _ _ HC) (cf_space _ _ _ HC)) as (o & s2 & E & HC2 & Hg); [lia|lia|].
  exists o, s2. split; [exact E|]. split; [by eapply confined_trans|]. intros g ->.
  destruct (Hg g eq_refl) as (H1 & H2 & H3). split; [|split].
  - intros va Hva Hlt. rewrite H1, Htr by (done || lia). rewrite decide_False by lia. done.
  - intros va Hva Hr. destruct (decide (va / 4096 = va0 / 4096)) as [Heq|Hne].
    + exists f. rewrite H1 by (done || lia). rewrite Htr, decide_True by done. done.
    + destruct (H2 va Hva) as (g' & ? & ?); [lia|]. exists g'. split; [done|]. by apply (cf_free _ _ _ HC).
  - intros _. destruct n as [|n].
    + injection E as <- <-. assert (Ei : i = 15) by lia. unfold top'. rewrite Ei. simpl.
      rewrite Htr, decide_True by (unfold va0; layout_lia).
      change (USER_STACK_TOP_PAGE_VADDR mod 4096) with 0. by rewrite Z.add_0_r.
    + destruct H3 as (? & ? & ?); [lia|]. split; [done|]. split; [|done]. by apply (cf_free _ _ _ HC).
Qed.

(** The result of loading an image. *)
Record loaded (d : Z) (s s' : paging_t) (entry stack_phys user_end : Z) : Prop := {
  ld_entry : is_u32 entry;
  ld_end : user_end_ok user_end;
  ld_stack va : is_u32 va → USER_STACK_BASE_VADDR ≤ va < USER_REGION_END →
    ∃ g, translate (pg_mem s') d va = Some (g + va mod 4096, 7) ∧ addr_free (pg_pmm s) g;
  ld_top : translate (pg_mem s') d USER_STACK_TOP_PAGE_VADDR = Some (stack_phys, 7);
  ld_fresh : addr_free (pg_pmm s) stack_phys;
  ld_zero x : page_of x = stack_phys → pg_mem s' x = 0
}.

Lemma load_image_ok d elf size s :
  paging_wf s → space_ok s d →
  ∃ r s', load_image (PHYS_TO_KVIRT d) elf size s = Some (r, s') ∧ confined d s s' ∧
    ∀ entry stack_phys user_end, r = Some (entry, stack_phys, user_end) → loaded d s s' entry stack_phys user_end.
Proof.
  intros Hwf Hsp. unfold load_image, mbind, M_bind. destruct (read_ehdr_ok elf s) as (h & -> & _).
  case_match; [exists None, s; split; [done|]; split; [by apply confined_refl|done]|].
  case_match; [exists None, s; split; [done|]; split; [by apply confined_refl|done]|].
  destruct (load_segments_ok d elf size (u32 (elf + e_phoff h)) (Z.to_nat (e_phnum h)) s 0 USER_REGION_START)
    as (o & s1 & -> & HC & Ho); [done|done|layout_lia|].
  destruct o as [e|]; [|by exists None, s1].
  destruct (map_stack_ok d (Z.to_nat USER_STACK_PAGES) s1 0 0 (cf_wf _ _ _ HC) (cf_space _ _ _ HC))
    as (o & s2 & -> & HC2 & Hs); [done|done|].
  assert (HC' : confined d s s2) by (by eapply confined_trans).
  destruct o as [f|]; [|by exists None, s2].
  destruct (read_ehdr_ok elf s2) as (h2 & -> & Hent). eexists _, s2. split; [done|]. split; [done|].
  intros ? ? ? [= <- <- <-]. destruct (Hs f eq_refl) as (_ & H2 & H3).
  destruct H3 as (? & ? & ?); [unfold USER_STACK_PAGES; lia|]. split; try done.
  - by apply Ho.
  - intros va Hva Hr. destruct (H2 va Hva) as (g & ? & ?); [layout_lia|]. exists g. split; [done|].
    by apply (cf_free _ _ _ HC).
  - by apply (cf_free _ _ _ HC).
Qed.

(** ** The whole loader *)

(** Frames that were taken and are not of the address space are given back. *)
Lemma confined_release d s s1 s3 s4 (A : Z → Prop) :
  confined d s s1 → confined d s1 s3 → freed A s3 s4 →
  (∀ a, A a → addr_free (pg_pmm s) a ∧ ¬ addr_free (pg_pmm s1) a ∧ ¬ owned s1 d a ∧
     ∀ k, 0 ≤ k < 1024 → pde_present (pg_mem s1) d k → a ≠ table_of (pg_mem s1) d k) →
  confined d s s4.
Proof.
  intros H1 H3 (Hwf & Em & Hg & HC & Hfree) HA. pose proof (confined_trans _ _ _ _ H1 H3) as H13.
  assert (Hnew : ∀ f, ¬ A f → addr_free (pg_pmm s4) f → addr_free (pg_pmm s3) f).
  { intros f Hf Hx. apply Hfree in Hx as [?|[? _]]; done. }
  assert (Hown : ∀ f, owned s3 d f → ¬ A f).
  { intros f Ho Ha. destruct (HA f Ha) as (_ & Hn & Hno & _). by destruct (cf_owned _ _ _ H3 f Ho). }
  assert (Htab : ∀ k, 0 ≤ k < 1024 → pde_present (pg_mem s3) d k → ¬ A (table_of (pg_mem s3) d k)).
  { intros k Hk Hp Ha. destruct (HA _ Ha) as (_ & Hn & _ & Ht).
    destruct (cf_tables _ _ _ H3 k Hk Hp) as [[Hp1 E]|?]; [|done]. by apply (Ht k Hk Hp1). }
  pose proof (cf_space _ _ _ H3) as Hsp. pose proof (so_as _ _ Hsp) as Has.
  assert (Hrange : same_range (pg_pmm s) (pg_pmm s4)).
  { destruct (cf_range _ _ _ H13) as [E1 E2]. pose proof (wf_end _ (pg_pmm_wf _ Hwf)).
    pose proof (wf_end _ (pg_pmm_wf _ (cf_wf _ _ _ H13))). split; [|congruence].
    rewrite <- E1. congruence. }
  split; try done.
  - split.
    + split.
      * destruct (as_dir _ _ Has) as (? & ? & Hn). split; [done|]. split; [done|].
        intros Hx. apply Hn, Hnew; [|done]. apply Hown. by left.
      * rewrite Em. intros k Hk Hp. destruct (as_tables _ _ Has k Hk Hp) as ((? & ? & Hn) & ? & ?).
        split; [|done]. split; [done|]. split; [done|]. intros Hx. apply Hn, Hnew; [|done]. by apply Htab.
      * rewrite Em. apply (as_distinct _ _ Has).
    + rewrite Em. intros va p fl Hva Ht Hu. destruct (so_user _ _ Hsp va p fl Hva Ht Hu) as (Hi & Hn & ? & ?).
      split; [destruct Hi as (k & Hk & ->); exists k; by rewrite HC|]. split; [|done].
      intros Hx. apply Hn, Hnew; [|done]. apply Hown. right. right. by exists va, p, fl.
  - eapply same_globals_trans; [apply (cf_globals _ _ _ H13)|done].
  - intros a Ha. apply Hfree in Ha as [Ha|[Ha _]]; [by apply (cf_free _ _ _ H13)|by apply HA].
  - intros x Hx Ho. rewrite Em. by apply (cf_mem _ _ _ H13).
  - intros f Hf. apply (cf_owned _ _ _ H13). unfold owned in *. by rewrite Em in Hf.
  - rewrite Em. apply (cf_kernel _ _ _ H13).
  - rewrite Em. apply (cf_user _ _ _ H13).
  - rewrite Em. apply (cf_tables _ _ _ H13).
Qed.

(** The frames of a run. *)
Definition in_run (base count a : Z) : Prop := ∃ m, 0 ≤ m < count ∧ a = base + m * 4096.

Lemma alloc_run_addr s count : paging_wf s → 1 ≤ count ≤ PMM_FRAME_COUNT (pg_pmm s) →
  ∃ base p', pmm_alloc_frames count (pg_pmm s) = Some (base, p') ∧
    (base = 0 ∧ p' = pg_pmm s ∨
     base ≠ 0 ∧ base mod 4096 = 0 ∧ 8388608 ≤ base ∧ base + count * 4096 ≤ 1073741824 ∧
     pmm_wf p' ∧ same_range (pg_pmm s) p' ∧
     (∀ a, in_run base count a → addr_free (pg_pmm s) a) ∧
     (∀ a, addr_free p' a ↔ addr_free (pg_pmm s) a ∧ ¬ in_run base count a)).
Proof.
  intros Hwf Hc. destruct (alloc_frames_ok count (pg_pmm s) (pg_pmm_wf _ Hwf) Hc) as (r & p' & E & Hwf' & Ha).
  exists r, p'. split; [done|]. pose proof (wf_count _ (pg_pmm_wf _ Hwf)) as Hm.
  destruct Ha as [(-> & -> & _)|(k & Hk & Hkn & -> & Hrun & _ & Hr & Hmk)]; [by left|right].
  unfold frame_at in *. unfold in_run. split; [pmm_lia|]. split; [pmm_lia|]. split; [pmm_lia|]. split; [pmm_lia|].
  split; [done|]. split; [done|]. split.
  - intros a (m & Hmr & ->). exists (k + m). split; [lia|]. split; [unfold frame_at; pmm_lia|]. apply Hrun. lia.
  - intros a. split.
    + intros (j & Hj & -> & Hu). destruct Hr as [_ E2]. destruct (Hmk j) as [M1 M2]; [lia|].
      destruct (decide (k ≤ j < k + count)) as [Hin|Hout]; [by rewrite M1 in Hu|].
      split; [exists j; rewrite <- M2 by done; split; [lia|done]|].
      intros (m & Hmr & Em). unfold frame_at in Em. pmm_lia.
    + intros ((j & Hj & -> & Hu) & Hn). destruct Hr as [_ E2]. exists j. split; [lia|]. split; [done|].
      destruct (Hmk j) as [M1 M2]; [lia|]. rewrite M2; [done|]. intros Hin. apply Hn. exists (j - k).
      unfold frame_at. split; [lia|]. pmm_lia.
Qed.

Lemma free_run_addr s base count : paging_wf s → 0 ≤ count → 0 ≤ base → base + count * 4096 ≤ 1073741824 →
  ∃ s', on_pmm (pmm_free_frames base count) s = Some (tt, s') ∧ freed (in_run base count) s s'.
Proof.
  intros Hwf Hc Hb Hbc. unfold on_pmm, pmm_free_frames.
  destruct (free_frames_loop_ok (Z.to_nat count) base 0 (pg_pmm s) (pg_pmm_wf _ Hwf)) as (p' & -> & Hwf' & Hr & Hm); [lia|].
  eexists. split; [done|]. split; [split; [done|apply (pg_mem_u32 _ Hwf)]|]. do 2 (split; [done|]).
  destruct Hr as [_ E]. split; [done|]. cbn [pg_pmm with_pmm]. pose proof (wf_count _ (pg_pmm_wf _ Hwf)) as Hw.
  assert (Hin : ∀ j, 0 ≤ j < PMM_MAX_FRAME_COUNT → in_run base count (frame_at j) ↔
    ∃ m, 0 ≤ m < 0 + Z.of_nat (Z.to_nat count) ∧ frame_at j = u32 (base + m * PMM_FRAME_SIZE)).
  { intros j Hj. unfold in_run, frame_at. split; intros (m & Hmr & Em); exists m; (split; [lia|]);
      unfold u32 in *; pmm_lia. }
  intros a. split.
  - intros (j & Hj & -> & Hu). destruct (Hm j) as [M1 M2]; [lia|].
    destruct (frame_used (pg_pmm s) j) eqn:Euj; [right|left; exists j; split; [lia|done]].
    split; [|exists j; split; [lia|done]]. apply Hin; [lia|].
    destruct (decide (Exists (λ m, frame_at j = u32 (base + m * PMM_FRAME_SIZE)) (seqZ 0 count))) as [Hx|Hx].
    + apply Exists_exists in Hx as (m & Hmq%elem_of_seqZ & Em). exists m. split; [lia|done].
    + rewrite M2 in Hu; [done|]. intros [_ (m & Hmr & Em)]. apply Hx, Exists_exists. exists m.
      split; [apply elem_of_seqZ; lia|done].
  - intros [(j & Hj & -> & Hu)|[Hx (j & Hj & ->)]]; exists j; (split; [lia|]); (split; [done|]);
      destruct (Hm j) as [M1 M2]; try lia.
    + destruct (decide (Exists (λ m, frame_at j = u32 (base + m * PMM_FRAME_SIZE)) (seqZ 0 count))) as [Hx|Hx].
      * apply Exists_exists in Hx as (m & Hmq%elem_of_seqZ & Em). apply M1. split; [lia|]. exists m. split; [lia|done].
      * rewrite M2; [done|]. intros [_ (m & Hmr & Em)]. apply Hx, Exists_exists. exists m.
        split; [apply elem_of_seqZ; lia|done].
    + apply M1. split; [lia|]. apply Hin; [lia|done].
Qed.

Section loader_proofs.
Context {K : Type}.
Implicit Types (v : vfs_t K) (t : list vfs_fd_t).

(** A read that succeeds stores at most as many bytes as asked for. *)
Definition reads_bounded v : Prop :=
  Forall (λ o, ∀ op h len k n d k', fs_read o = Some op → op h len k = Some ((n, d), k') → 0 < n →
                 Z.of_nat (length d) ≤ len) (filesystems v) ∧
  Forall (λ f, ∀ off len k n d k', vf_read_fn f off len k = Some ((n, d), k') → 0 < n →
                 Z.of_nat (length d) ≤ len) (virtual_files v).

Lemma reads_bounded_same v v' : same_tables v v' → reads_bounded v → reads_bounded v'.
Proof. intros [E1 E2]. unfold reads_bounded. by rewrite E1, E2. Qed.

Lemma vfs_read_bounded fd len v t n d v' t' :
  vfs_wf v → fdt_wf v t → reads_bounded v → 0 ≤ len < 2147483648 →
  vfs_read fd len (v, t) = Some (Returned n d, (v', t')) → 0 < n → Z.of_nat (length d) ≤ len.
Proof.
  intros Hwf Ht [Hb1 Hb2] Hlen. unfold vfs_read, mbind, M_bind, get, mret, M_ret, on_vfs, lift, set_fd.
  destruct (get_fd fd t) as [f|] eqn:Hg; [|intros [= <- <- _ _]; lia].
  destruct (get_fd_ok v t fd f Ht Hg) as (Hu & Hl & Hr & x & Hx & Hok).
  case_match; [intros [= <- <- _ _]; lia|].
  destruct (target_decode v x _ Hwf Hx Hok) as (-> & -> & -> & Hlook).
  destruct x as [i|i|h|]; cbn [target_ok] in *.
  - cbn [Z.leb Z.compare]. rewrite Hlook. destruct (filesystems v !! i) as [o|] eqn:Eo; [|done].
    destruct (fs_read o) as [op|] eqn:Eop; [|intros [= <- <- _ _]; lia].
    unfold on_kernel. destruct (op (fd_fs_handle f) len (vfs_kernel v)) as [[[rc dd] k']|] eqn:E; [|done].
    intros [= <- <- _ _] Hn. by apply (Forall_lookup_1 _ _ _ _ Hb1 Eo op (fd_fs_handle f) len (vfs_kernel v) rc dd k').
  - cbn [Z.leb Z.compare]. rewrite (proj2 (Z.leb_le _ _)) by lia. rewrite zlookup_nat.
    destruct (virtual_files v !! i) as [vf|] eqn:Ef; [|done].
    unfold on_kernel. destruct (vf_read_fn vf _ len (vfs_kernel v)) as [[[rc dd] k']|] eqn:E; [|done].
    intros Heq Hn. assert (rc = n ∧ dd = d) as [-> ->] by (destruct (0 <? rc); by simplify_eq).
    by apply (Forall_lookup_1 _ _ _ _ Hb2 Ef _ _ _ _ _ _ E).
  - rewrite (proj2 (Z.leb_le _ _)) by lia. unfold on_pipes.
    destruct (pipe_read_wf (Z.of_nat h) len (vfs_pipes v) (vw_pipes v Hwf) Hlen) as (o & p' & -> & _ & Hio).
    intros [= -> _ _] Hn. cbn in Hio. lia.
  - intros [= <- <- _ _]. lia.
Qed.

Lemma store_in_run m base count off l : (∀ x, is_u32 (m x)) → base mod 4096 = 0 → 0 ≤ off →
  off + Z.of_nat (length l) ≤ count * 4096 → Forall is_u8 l →
  (∀ x, is_u32 (store_bytes m (base + off) l x)) ∧
  ∀ x, ¬ in_run base count (page_of x) → store_bytes m (base + off) l x = m x.
Proof.
  intros Hm Hb Ho Hl Hu. split; [by apply store_bytes_u32|]. intros x Hx. apply store_bytes_other.
  intros Hr. apply Hx. exists ((x - base) / 4096). unfold page_of, word_base in *. pg_lia.
Qed.

Lemma load_read_loop_ok fuel fd base count size : ∀ t total v p,
  vfs_wf v → fdt_wf v t → reads_bounded v → paging_wf p → base mod 4096 = 0 → 0 ≤ base →
  base + count * 4096 ≤ 1073741824 → size ≤ count * 4096 → size < 2147483648 → 0 ≤ total →
  ∃ r t' v' m, load_read_loop fuel t fd (PHYS_TO_KVIRT base) size total (v, p) = Some ((r, t'), (v', with_mem m p)) ∧
    vfs_wf v' ∧ same_tables v v' ∧ fdt_wf v' t' ∧ (∀ x, is_u32 (m x)) ∧
    ∀ x, ¬ in_run base count (page_of x) → m x = pg_mem p x.
Proof.
  induction fuel as [|fuel IH]; intros t total v p Hwf Ht Hrb Hp Hba Hb0 Hbc Hsz Hsz2 Htot.
  { exists (Some total), t, v, (pg_mem p). split; [by destruct p|]. do 3 (split; [done|]).
    split; [apply (pg_mem_u32 _ Hp)|done]. }
  cbn [load_read_loop]. destruct (Z.ltb_spec total size) as [Hlt|].
  2: { exists (Some total), t, v, (pg_mem p). split; [by destruct p|]. do 3 (split; [done|]).
       split; [apply (pg_mem_u32 _ Hp)|done]. }
  unfold mbind, M_bind, get. destruct (vfs_read_ok fd (size - total) v t Hwf Ht) as (o & v1 & t1 & E & Hw1 & Hs1 & Ht1); [lia|].
  rewrite E. destruct o as [n d|]; unfold put.
  2: { eexists None, t1, v1, (pg_mem p). split; [by destruct p|]. do 3 (split; [done|]).
       split; [apply (pg_mem_u32 _ Hp)|done]. }
  destruct (Z.leb_spec n 0) as [Hn|Hn].
  { exists (Some total), t1, v1, (pg_mem p). split; [by destruct p|]. do 3 (split; [done|]).
    split; [apply (pg_mem_u32 _ Hp)|done]. }
  pose proof (vfs_read_bounded fd (size - total) v t n d v1 t1 Hwf Ht Hrb ltac:(lia) E Hn) as Hd.
  unfold l_paging, kstore_bytes, modify.
  assert (Ea : KVIRT_TO_PHYS (u32 (PHYS_TO_KVIRT base + total)) = base + total).
  { apply kv_add; lia. }
  rewrite Ea. destruct (store_in_run (pg_mem p) base count total (u8 <$> d) (pg_mem_u32 _ Hp) Hba Htot) as [Hu Ho].
  { rewrite length_fmap. lia. }
  { apply Forall_fmap, Forall_true. intros. apply u8_range. }
  set (m1 := store_bytes _ _ _) in *.
  destruct (IH t1 (u32 (total + n)) v1 (with_mem m1 p)) as (r & t' & v' & m & E2 & Hw' & Hs' & Ht' & Hu' & Ho');
    try done.
  { by eapply reads_bounded_same. } { split; [apply Hp|done]. } { apply u32_range. }
  exists r, t', v', m. split; [exact E2|]. split; [done|].
  split; [destruct Hs1, Hs'; split; congruence|]. split; [done|]. split; [done|].
  intros x Hx. rewrite Ho' by done. by apply Ho.
Qed.

Lemma stat_loop_total l path : ∀ v, vfs_wf v → Forall ops_total l →
  ∃ o v', stat_loop l path v = Some (o, v') ∧ vfs_wf v' ∧ same_tables v v'.
Proof.
  induction l as [|ops l IH]; intros v Hwf Hl; [by exists None, v|]. inversion_clear Hl. cbn [stat_loop].
  destruct (fs_stat ops) as [op|] eqn:E; [|by apply IH].
  unfold mbind, M_bind. destruct (on_kernel_ok v (op path) Hwf) as ([rc st] & v1 & -> & Hw1 & Hs1 & _).
  { intros k. by eapply ot_stat. }
  destruct (rc =? 0); [by exists (Some st), v1|].
  destruct (IH v1 Hw1) as (o & v2 & E2 & Hw2 & Hs2); [done|]. exists o, v2. split; [done|]. split; [done|].
  destruct Hs1, Hs2. split; congruence.
Qed.

Lemma vfs_stat_total path v : vfs_wf v →
  ∃ o v', vfs_stat path v = Some (o, v') ∧ vfs_wf v' ∧ same_tables v v'.
Proof.
  intros Hwf. unfold vfs_stat, mbind, M_bind, get, mret, M_ret, lift.
  repeat (case_match; [by eexists _, v|]).
  destruct (vfs_find_virtual_file path v) as [i|] eqn:Ei; [|apply stat_loop_total; [done|apply Hwf]].
  apply find_index_lt in Ei. destruct (lookup_lt_is_Some_2 _ _ Ei) as [vf Hv]. rewrite Hv.
  destruct (on_kernel_ok v (vf_size_fn vf) Hwf) as (sz & v1 & -> & Hw1 & Hs1 & _).
  { apply (Forall_lookup_1 _ _ _ _ (vw_vtotal v Hwf) Hv). }
  by eexists _, v1.
Qed.

Lemma fdt_zero_ok v : fdt_wf v fdt_zero.
Proof. split; [done|]. apply Forall_replicate, fd_zero_ok. Qed.

Lemma loaded_mono d s s2 s3 s4 entry sp ue :
  loaded d s2 s3 entry sp ue → (∀ a, addr_free (pg_pmm s2) a → addr_free (pg_pmm s) a) → pg_mem s4 = pg_mem s3 →
  loaded d s s4 entry sp ue.
Proof.
  intros [H0 H1 H2 H3 H4 H5] Hf Em. split; rewrite ?Em; auto.
  intros va Hva Hr. destruct (H2 va Hva Hr) as (g & ? & ?). exists g. auto.
Qed.

(** Reading the image into a run of frames. *)
Lemma run_confined d s p' m base count :
  paging_wf s → space_ok s d → pmm_wf p' → same_range (pg_pmm s) p' → (∀ x, is_u32 (m x)) →
  (∀ a, in_run base count a → addr_free (pg_pmm s) a) →
  (∀ a, addr_free p' a ↔ addr_free (pg_pmm s) a ∧ ¬ in_run base count a) →
  (∀ x, ¬ in_run base count (page_of x) → m x = pg_mem s x) →
  let s1 := with_mem m (with_pmm p' s) in
  confined d s s1 ∧ ∀ a, in_run base count a →
    addr_free (pg_pmm s) a ∧ ¬ addr_free (pg_pmm s1) a ∧ ¬ owned s1 d a ∧
    ∀ k, 0 ≤ k < 1024 → pde_present (pg_mem s1) d k → a ≠ table_of (pg_mem s1) d k.
Proof.
  intros Hwf Hsp Hp' Hr Hm Hrun Hfree Hmem s1.
  destruct (confined_write d s p' m Hwf Hsp Hp' Hr Hm) as (HC & Htr & Hdir).
  { intros a Ha. by apply Hfree. }
  { intros x Hx. left. apply Hrun.
    assert (Hdec : Decision (in_run base count (page_of x))).
    { destruct (decide (Exists (λ m, page_of x = base + m * 4096) (seqZ 0 count))) as [H|H].
      - left. apply Exists_exists in H as (j & Hj%elem_of_seqZ & E). exists j. split; [lia|done].
      - right. intros (j & Hj & E). apply H, Exists_exists. exists j. split; [apply elem_of_seqZ; lia|done]. }
    destruct Hdec; [done|]. by rewrite Hmem in Hx. }
  split; [done|]. intros a Ha. pose proof (Hrun a Ha) as Hf. split; [done|]. pose proof (so_as _ _ Hsp) as Has.
  split; [intros Hx; by apply Hfree in Hx as [_ ?]|].
  assert (Ht : ∀ k, 0 ≤ k < 1024 → pde_present (pg_mem s1) d k → a ≠ table_of (pg_mem s1) d k).
  { intros k Hk. unfold pde_present, table_of, s1. cbn [pg_mem with_mem]. rewrite Hdir by done. intros Hp E.
    destruct (as_tables _ _ Has k Hk Hp) as ((_ & _ & Hn) & _). apply Hn. unfold table_of. by rewrite <- E. }
  split; [|done]. intros [->|[(k & Hk & Hp & ->)|(va & p & fl & Hva & Htv & Hu & ->)]].
  - by apply (as_dir_used _ _ Has).
  - by apply (Ht k ltac:(lia) Hp).
  - unfold s1 in Htv. cbn [pg_mem with_mem] in Htv. rewrite Htr in Htv by eauto with cint.
    by destruct (so_user _ _ Hsp va p fl Hva Htv Hu) as (_ & ? & _).
Qed.

Definition load_size_ok (filename : list Z) v (s : paging_t) : Prop :=
  ∀ st v', vfs_stat filename v = Some (Some st, v') → 0 ≤ st_size st ≤ 4096 * PMM_FRAME_COUNT (pg_pmm s).

Lemma load_elf_into_ok v s d filename :
  vfs_wf v → reads_bounded v → load_size_ok filename v s → paging_wf s → space_ok s d →
  ∃ r v' s', load_elf_into (PHYS_TO_KVIRT d) filename (v, s) = Some (r, (v', s')) ∧
    vfs_wf v' ∧ same_tables v v' ∧ confined d s s' ∧
    match r with
    | LReturned entry (Some (sp, ue)) => loaded d s s' entry sp ue
    | LReturned entry None => entry = 0
    | LBlocked => True
    end.
Proof.
  intros Hv Hb Hsize Hwf Hsp. unfold load_elf_into, mbind, M_bind, l_vfs, get, put, mret, M_ret.
  destruct (vfs_stat_total filename v Hv) as (o & v1 & Est & Hv1 & Hs1). rewrite Est.
  assert (Hrefl : confined d s s) by (by apply confined_refl).
  destruct o as [st|]; [|by eexists _, v1, s].
  destruct (Z.eqb_spec (st_size st) 0) as [|Hne]; [by eexists _, v1, s|].
  specialize (Hsize st v1 Est). pose proof (wf_count _ (pg_pmm_wf _ Hwf)) as Hcnt.
  set (size := st_size st) in *. set (count := u32 (size + 0xFFF) / 0x1000).
  assert (Hcount : 1 ≤ count ≤ PMM_FRAME_COUNT (pg_pmm s) ∧ size ≤ count * 4096 ∧ size < 2147483648).
  { unfold count. rewrite u32_small by pmm_lia. pmm_lia. }
  destruct Hcount as (Hc1 & Hc2 & Hc3). unfold l_paging at 1. unfold on_pmm at 1.
  destruct (alloc_run_addr s count Hwf Hc1) as (base & p' & -> & Hcase).
  destruct Hcase as [(-> & ->)|(Hb0 & Hba & Hbl & Hbh & Hp' & Hrange & Hrun & Hfree)].
  { eexists _, v1, _. split; [done|]. split; [done|]. split; [done|]. split; [by destruct s|done]. }
  rewrite (proj2 (Z.eqb_neq _ _) Hb0). set (s1 := with_pmm p' s).
  assert (Hwf1 : paging_wf s1). { split; [done|apply (pg_mem_u32 _ Hwf)]. }
  destruct (run_confined d s p' (pg_mem s) base count) as [HC1 HA1]; try done.
  { apply (pg_mem_u32 _ Hwf). }
  change (with_mem (pg_mem s) (with_pmm p' s)) with s1 in *.
  (* The error returns after the allocation. *)
  assert (Hrel : ∀ m s3, (∀ x, is_u32 (m x)) → (∀ x, ¬ in_run base count (page_of x) → m x = pg_mem s x) →
    confined d (with_mem m s1) s3 →
    ∃ s4, on_pmm (pmm_free_frames base count) s3 = Some (tt, s4) ∧ confined d s s4 ∧ pg_mem s4 = pg_mem s3).
  { intros m s3 Hm Hm2 HC3. destruct (run_confined d s p' m base count) as [HC2 HA2]; try done.
    destruct (free_run_addr s3 base count (cf_wf _ _ _ HC3)) as (s4 & E4 & Hf4); [lia|lia|lia|].
    exists s4. split; [done|]. split; [by eapply confined_release|apply Hf4]. }
  assert (Hrefl1 : ∀ m, (∀ x, is_u32 (m x)) → (∀ x, ¬ in_run base count (page_of x) → m x = pg_mem s x) →
    confined d (with_mem m s1) (with_mem m s1)).
  { intros m Hm Hm2. destruct (run_confined d s p' m base count) as [HC2 _]; try done.
    apply confined_refl; [apply HC2|apply HC2]. }
  destruct (vfs_open_ok filename O_RDONLY v1 fdt_zero Hv1 (fdt_zero_ok v1)) as (fd & v2 & t2 & -> & Hv2 & Hs2 & Ht2).
  assert (Hs12 : same_tables v v2). { destruct Hs1, Hs2. split; congruence. }
  destruct (Z.ltb_spec fd 0).
  { destruct (Hrel (pg_mem s) s1) as (s4 & E4 & HC4 & _); [apply (pg_mem_u32 _ Hwf)|done| |].
    - apply confined_refl; [done|apply HC1].
    - unfold l_paging. rewrite E4. by eexists _, v2, s4. }
  destruct (load_read_loop_ok (Z.to_nat size) fd base count size t2 0 v2 s1)
    as (rt & t3 & v3 & m & -> & Hv3 & Hs3 & Ht3 & Hm & Hm2); try done; try lia.
  { eapply reads_bounded_same; [|exact Hb]. done. }
  change (pg_mem s1) with (pg_mem s) in Hm2.
  assert (Hs13 : same_tables v v3). { destruct Hs12, Hs3. split; congruence. }
  destruct rt as [total|].
  2: { eexists LBlocked, v3, _. split; [done|]. split; [done|]. split; [done|]. split; [|done].
       by destruct (run_confined d s p' m base count) as [HC2 _]. }
  destruct (vfs_close_ok fd v3 t3 Hv3 Ht3) as (rc & v4 & t4 & -> & [Hv4 Hs4 _ _ _ _ _] & _).
  assert (Hs14 : same_tables v v4). { destruct Hs13, Hs4. split; congruence. }
  destruct (Z.ltb_spec total size).
  { destruct (Hrel m (with_mem m s1) Hm Hm2 (Hrefl1 m Hm Hm2)) as (s4 & E4 & HC4 & _).
    unfold l_paging. rewrite E4. by eexists _, v4, s4. }
  destruct (run_confined d s p' m base count) as [HC2 _]; try done.
  destruct (load_image_ok d (PHYS_TO_KVIRT base) size (with_mem m s1) (cf_wf _ _ _ HC2) (cf_space _ _ _ HC2))
    as (r & s3 & E3 & HC3 & Hld).
  unfold l_paging. rewrite E3. destruct (Hrel m s3 Hm Hm2 HC3) as (s4 & E4 & HC4 & Em4). rewrite E4.
  destruct r as [[[entry sp] ue]|]; eexists _, v4, s4; (split; [done|]); (split; [done|]); (split; [done|]); (split; [done|]); [|done].
  eapply loaded_mono; [by apply (Hld entry)| |done]. apply HC2.
Qed.

End loader_proofs.

(** ** The theorem *)

Definition vbe_outside (s : paging_t) : Prop :=
  ∀ i, i ∈ take (Z.to_nat (vbe_dir_count s)) (vbe_dir_indices s) → ¬ (1 ≤ i < 768).

(** A new address space has no user pages. *)
Lemma new_space_ok s s' r k :
  vbe_outside s → as_wf s' r →
  (∀ i, 0 ≤ i < 1024 → pg_mem s' (r + 4 * i) = if decide (shared_entry s i) then pg_mem s (k + 4 * i) else 0) →
  space_ok s' r ∧ ∀ va, user_va va → translate (pg_mem s') r va = None.
Proof.
  intros Hvbe Has Hin.
  assert (Hnone : ∀ va, user_va va → translate (pg_mem s') r va = None).
  { intros va Hva. pose proof (user_va_idx _ Hva) as Hi. unfold translate. rewrite Hin by lia.
    rewrite decide_False; [done|]. intros [?|Hx]; [lia|]. by apply (Hvbe _ Hx). }
  split; [|done]. split; [done|]. intros va p fl Hva Ht. by rewrite Hnone in Ht.
Qed.


(** ** Example: a program of one segment *)

Definition le16 (x : Z) : list Z := [x mod 256; x / 256].
Definition le32 (x : Z) : list Z := [x mod 256; x / 256 mod 256; x / 65536 mod 256; x / 16777216].

Definition demo_elf : list Z :=
  [0x7F; 69; 76; 70; 1; 1; 1] ++ replicate 9 0 ++ le16 2 ++ le16 3 ++ le32 1 ++ le32 0x400054 ++
  le32 52 ++ le32 0 ++ le32 0 ++ le16 52 ++ le16 32 ++ le16 1 ++ le16 0 ++ le16 0 ++ le16 0 ++
  le32 1 ++ le32 0 ++ le32 0x400000 ++ le32 0 ++ le32 88 ++ le32 0x1000 ++ le32 5 ++ le32 0x1000 ++
  [0xEB; 0xFE; 0x90; 0x90].

(** A file system with one file; the state is the position of the handle. *)
Definition one_file_ops (path content : list Z) : vfs_fs_ops_t Z := mk_fs_ops (str "ram")
  (Some (λ p f k, if str_eqb p path then Some (0, 0) else Some (-1, k)))
  (Some (λ h n k, let d := take (Z.to_nat n) (drop (Z.to_nat k) content) in
                  Some ((Z.of_nat (length d), d), k + Z.of_nat (length d))))
  None None None
  (Some (λ p k, Some ((if str_eqb p path then 0 else -1, mk_stat (Z.of_nat (length content)) VFS_FILE), k)))
  None None None None None None.

Definition elf_vfs : vfs_t Z :=
  mk_vfs [one_file_ops (str "/bin/demo.elf") demo_elf] [] (default pipes_boot (snd <$> pipe_init pipes_boot)) 0.

Lemma elf_vfs_wf : vfs_wf elf_vfs.
Proof.
  destruct pipes_boot_init as (p & E & Hp). split; try done.
  - unfold elf_vfs. cbn [vfs_pipes]. rewrite E. exact Hp.
  - apply Forall_singleton. split; intros *; cbn; intros [= <-]; try done; repeat case_match; eauto.
Qed.

Lemma elf_vfs_bounded : reads_bounded elf_vfs.
Proof.
  split; [|done]. apply Forall_singleton. intros op h len k n d k'. cbn. intros [= <-]. intros [= <- <- _] Hn.
  rewrite length_take in *. lia.
Qed.

(** An address space at physical address 0x300000 with nothing mapped. *)
Lemma empty_space_ok : space_ok paging_boot 0x300000.
Proof.
  assert (Hn : ∀ k, ¬ pde_present (pg_mem paging_boot) 0x300000 k) by done.
  split; [split|].
  - split; [done|]. split; [lia|]. intros (k & Hk & E & _). revert E. unfold frame_at, PMM_START, PMM_FRAME_SIZE. lia.
  - intros i _ Hp. by apply Hn in Hp.
  - intros i j _ _ _ Hp. by apply Hn in Hp.
  - done.
Qed.

Definition load_summary (r : option (load_outcome * lst Z)) : option (Z * option (Z * Z)) :=
  match r with Some (LReturned e o, _) => Some (e, o) | _ => None end.

Lemma demo_loads : load_summary (load_elf_into (PHYS_TO_KVIRT 0x300000) (str "/bin/demo.elf") (elf_vfs, paging_boot)) =
  Some (0x400054, Some (0x813000, 0x401000)).
Proof. vm_compute. reflexivity. Qed.

