(* ===== verification/LoadContents.v ===== *)
(** * What the program loader puts into memory ([src/src/proc/elf.c])

    [Loader] shows that loading a program is confined to its address space.  Here
    are the contents: the bytes of a loadable segment as user code reads them, the
    zeroes after the end of the file's part, and that loading fails only when no
    frame is left. *)

From S2P Require Import Prelude Pmm Paging PhysMem Loader.

(** What a user access to [va] reads. *)
Definition user_byte (s : paging_t) (d va : Z) : option Z :=
  match translate (pg_mem s) d va with
  | Some (p, fl) => if has fl PAGE_USER then Some (load8 (pg_mem s) p) else None
  | None => None
  end.

Definition exhausted (s : paging_t) : Prop := ∀ a, ¬ addr_free (pg_pmm s) a.

(** A frame in use that is neither the directory nor one of its tables. *)
Definition data_page (s : paging_t) (d f : Z) : Prop :=
  ¬ addr_free (pg_pmm s) f ∧ f ≠ d ∧ ∀ k, 0 ≤ k < 1024 → pde_present (pg_mem s) d k → f ≠ table_of (pg_mem s) d k.

Definition data_kept (d : Z) (s s' : paging_t) : Prop := ∀ x, data_page s d (page_of x) → pg_mem s' x = pg_mem s x.

Lemma data_page_confined d s s' f : confined d s s' → data_page s d f → data_page s' d f.
Proof.
  intros HC (H1 & H2 & H3). split; [intros Hx; by apply H1, (cf_free _ _ _ HC)|]. split; [done|]. intros k Hk Hp.
  destruct (cf_tables _ _ _ HC k Hk Hp) as [[Hp' ->]|Hx]; [by apply H3|]. by intros ->.
Qed.

Lemma data_kept_trans d s1 s2 s3 : confined d s1 s2 → data_kept d s1 s2 → data_kept d s2 s3 → data_kept d s1 s3.
Proof. intros HC H1 H2 x Hx. rewrite H2 by (by eapply data_page_confined). by apply H1. Qed.

Lemma page_of_word_base a : page_of (word_base a) = page_of a.
Proof. unfold page_of, word_base. pg_lia. Qed.

Lemma load8_kept m m' a : (∀ x, page_of x = page_of a → m' x = m x) → load8 m' a = load8 m a.
Proof. intros H. unfold load8. rewrite H; [done|]. apply page_of_word_base. Qed.

(** ** Mapping a page *)

Lemma map_fresh_data d s va o s' : paging_wf s → space_ok s d → user_va va →
  map_fresh (PHYS_TO_KVIRT d) va s = Some (o, s') → data_kept d s s' ∧ (o = None → exhausted s').
Proof.
  intros Hwf Hsp Hva. unfold map_fresh, mbind, M_bind, on_pmm, kzero_page, mret, M_ret.
  destruct (alloc_frame_addr _ (pg_pmm_wf _ Hwf)) as (f & p' & E & Hwf' & Hcase). rewrite E.
  pose proof (alloc_frame_range _ _ _ (pg_pmm_wf _ Hwf) E) as Hrange.
  destruct Hcase as [(-> & -> & Hnone)|(Hf0 & Hfa & Hfr & Hff & Hfree)].
  { cbn. intros [= <- <-]. split; [done|]. intros _. exact Hnone. }
  rewrite (proj2 (Z.eqb_neq _ _) Hf0). rewrite kv_page by lia.
  assert (Hz : ∀ x, page_of x ≠ f → mem_zero_page (pg_mem s) f x = pg_mem s x).
  { intros x Hx. unfold mem_zero_page. destruct (Z.leb_spec f x), (Z.ltb_spec x (f + 4096)); simpl; try done.
    exfalso. apply Hx. unfold page_of. mlia. }
  destruct (confined_write d s p' (mem_zero_page (pg_mem s) f)) as (HC & Htr2 & Hdir2); try done.
  { intros x. unfold mem_zero_page. case_match; [done|apply (pg_mem_u32 _ Hwf)]. }
  { intros a Ha. by apply Hfree. }
  { intros x Hx. left. destruct (decide (page_of x = f)) as [Hx'|Hn]; [by rewrite Hx'|]. by rewrite Hz in Hx. }
  set (s2 := with_mem _ _) in *. change (with_mem _ (with_pmm p' s)) with s2.
  assert (H12 : data_kept d s s2). { intros x (Hx & _). apply Hz. intros Hx'. by rewrite Hx' in Hx. }
  destruct (map_page_ok s2 d va f PAGE_UWP (cf_wf _ _ _ HC) (so_as _ _ (cf_space _ _ _ HC)) (user_va_u32 _ Hva))
    as (rc & s3 & Em & _ & _ & _ & _ & Hrc); [mlia|done|].
  rewrite Em. destruct Hrc as [(-> & -> & Hno)|[-> _]]; cbn; intros [= <- <-]; (split; [|done]); [done|].
  eapply data_kept_trans; [exact HC|exact H12|]. intros x (Hx1 & Hx2 & Hx3).
  apply (map_page_mem s2 d va f PAGE_UWP 0 s3 (cf_wf _ _ _ HC) (so_as _ _ (cf_space _ _ _ HC)) (user_va_u32 _ Hva) Em); [done|done|].
  apply Hx3. pose proof (user_va_idx _ Hva). lia.
Qed.

(** ** A page of a segment *)

(** The data of the segment is at [src], in frames that are in use and are not of
    the address space. *)
Definition source_ok (s : paging_t) (d src filesz P : Z) : Prop :=
  ∀ k, 0 ≤ k < filesz → KVIRT_TO_PHYS (u32 (src + k)) = P + k ∧ ¬ addr_free (pg_pmm s) (page_of (P + k)) ∧ ¬ owned s d (page_of (P + k)).

Lemma source_ok_confined d s s' src filesz P : confined d s s' → source_ok s d src filesz P → source_ok s' d src filesz P.
Proof.
  intros HC H k Hk. destruct (H k Hk) as (H1 & H2 & H3). split; [done|]. split; [intros Hx; by apply H2, (cf_free _ _ _ HC)|].
  intros Hx. by destruct (cf_owned _ _ _ HC _ Hx).
Qed.

Lemma source_byte d s s' src filesz P k : confined d s s' → source_ok s d src filesz P → 0 ≤ k < filesz →
  load8 (pg_mem s') (P + k) = load8 (pg_mem s) (P + k).
Proof. intros HC H Hk. destruct (H k Hk) as (_ & H2 & H3). apply load8_kept. intros x Hx. apply (cf_mem _ _ _ HC); by rewrite Hx. Qed.

(** The byte of the segment for address [va]. *)
Definition seg_byte (s : paging_t) (vaddr filesz P va : Z) : Z :=
  if decide (vaddr ≤ va < vaddr + filesz) then load8 (pg_mem s) (P + (va - vaddr)) else 0.

Lemma run_apart A n g : 0 < n → (∀ k, 0 ≤ k < n → page_of (A + k) ≠ g) → g mod 4096 = 0 → A + n ≤ g ∨ g + 4096 ≤ A.
Proof.
  intros Hn H Hg. destruct (decide (A + n ≤ g)) as [|H1]; [by left|]. destruct (decide (g + 4096 ≤ A)) as [|H2]; [by right|]. exfalso.
  apply (H (Z.max A g - A)); [lia|]. unfold page_of. pg_lia.
Qed.

Record page_loaded (d vaddr filesz P va : Z) (s s' : paging_t) (ok : bool) : Prop := {
  pl_confined : confined d s s';
  pl_kept : data_kept d s s';
  pl_fail : ok = false → exhausted s';
  pl_page : ok = true → ∃ g,
    (∀ va', is_u32 va' → translate (pg_mem s') d va' =
       if decide (va' / 4096 = va / 4096) then Some (g + va' mod 4096, 7) else translate (pg_mem s) d va') ∧
    (∀ va', va' / 4096 = va / 4096 → load8 (pg_mem s') (g + va' mod 4096) = seg_byte s vaddr filesz P va')
}.

(** The copy into a zeroed frame. *)
Lemma page_copy m g src va cs ce a : (∀ x, is_u32 (m x)) → g mod 4096 = 0 → va ≤ cs → cs < ce → ce ≤ va + 4096 →
  (∀ x, page_of x = g → m x = 0) → src + (ce - cs) ≤ g ∨ g + 4096 ≤ src → 0 ≤ a < 4096 →
  load8 (copy_bytes m (g + (cs - va)) src (Z.to_nat (ce - cs))) (g + a) =
    if decide (cs ≤ va + a < ce) then load8 m (src + (va + a - cs)) else 0.
Proof.
  intros Hm Hg H1 H2 H3 Hz Hd Ha. rewrite copy_bytes_store; [|done|rewrite Z2Nat.id by lia; lia].
  rewrite load8_store_bytes by (done || apply Forall_load_bytes). rewrite length_load_bytes, Z2Nat.id by lia.
  destruct (decide (cs ≤ va + a < ce)) as [Hin|Hout].
  - rewrite decide_True by lia. unfold load_bytes. rewrite list_lookup_fmap, lookup_seq_lt by lia. cbn. f_equal. lia.
  - rewrite decide_False by lia. unfold load8. rewrite Hz; [done|]. rewrite page_of_word_base. by apply page_of_add.
Qed.

Lemma load_page_contents d s src vaddr filesz P va :
  paging_wf s → space_ok s d → user_va va → va mod 4096 = 0 → is_u32 vaddr → vaddr < va + 4096 → 0 ≤ filesz → is_u32 (vaddr + filesz) →
  translate (pg_mem s) d va = None → source_ok s d src filesz P →
  ∃ ok s', load_page (PHYS_TO_KVIRT d) src vaddr filesz va s = Some (ok, s') ∧ page_loaded d vaddr filesz P va s s' ok.
Proof.
  intros Hwf Hsp Hva Hal Hvu Hlt Hf0 Hfu Hnone Hsrc. pose proof (user_va_u32 _ Hva) as Hvau.
  destruct (load_page_ok d s src vaddr filesz va Hwf Hsp Hva Hal Hvu Hlt) as (ok & s' & E & HC). exists ok, s'. split; [exact E|].
  unfold load_page, mbind, M_bind in E.
  destruct (mapped_user_frame_ok d s va Hwf (so_as _ _ Hsp) Hvau Hal) as (f & Ef & Hf). rewrite Ef in E.
  destruct Hf as [->|(fl & Hf & _)]; [|by rewrite Hf in Hnone]. cbn [Z.eqb] in E.
  destruct (map_fresh_ok d s va Hwf Hsp Hva) as (o & s1 & E1 & HC1 & Hg). rewrite E1 in E.
  destruct (map_fresh_data d s va o s1 Hwf Hsp Hva E1) as [Hk1 Hx1].
  destruct o as [g|]; [|injection E as <- <-; split; [done|done|intros _; by apply Hx1|done]].
  destruct (Hg g eq_refl) as (Hgf & Htr & Hz). clear Hg. destruct (addr_free_aligned _ _ (pg_pmm_wf _ Hwf) Hgf) as [Hga Hgr].
  rewrite (u32_small (vaddr + filesz)) in E by done. rewrite (u32_small (va + 0x1000)) in E by layout_lia.
  set (cs := if vaddr <? va then va else vaddr) in E.
  set (ce := if va + 0x1000 <? vaddr + filesz then va + 0x1000 else vaddr + filesz) in E.
  assert (Hcs : cs = Z.max va vaddr) by (unfold cs; destruct (Z.ltb_spec vaddr va); lia).
  assert (Hce : ce = Z.min (va + 4096) (vaddr + filesz)) by (unfold ce; destruct (Z.ltb_spec (va + 0x1000) (vaddr + filesz)); lia).
  assert (Hcover : ∀ va', va' / 4096 = va / 4096 → (vaddr ≤ va' < vaddr + filesz ↔ cs ≤ va + va' mod 4096 < ce) ∧ va + va' mod 4096 = va').
  { intros va' Hp. assert (va + va' mod 4096 = va') by mlia. split; [|done]. mlia. }
  destruct (Z.ltb_spec cs ce) as [Hc|Hc]; cbn in E; injection E as <- <-.
  - assert (Esrc : ∀ k, 0 ≤ k < ce - cs → KVIRT_TO_PHYS (u32 (src + (cs - vaddr))) = P + (cs - vaddr) ∧ page_of (P + (cs - vaddr) + k) ≠ g).
    { intros k Hk. split; [apply Hsrc; lia|]. destruct (Hsrc (cs - vaddr + k)) as (_ & H & _); [lia|]. intros Eg. apply H.
      rewrite Z.add_assoc, Eg. done. }
    assert (Edst : KVIRT_TO_PHYS (u32 (PHYS_TO_KVIRT g + (cs - va))) = g + (cs - va)) by (apply kv_add; lia || mlia).
    destruct (Esrc 0 ltac:(lia)) as [Es _]. rewrite Edst, Es in *.
    pose proof (pg_mem_u32 _ (cf_wf _ _ _ HC1)) as Hm1.
    destruct (copy_in_page (pg_mem s1) g (g + (cs - va)) (P + (cs - vaddr)) (ce - cs) Hm1 Hga) as [_ Hother]; [lia..|].
    assert (Hap : P + (cs - vaddr) + (ce - cs) ≤ g ∨ g + 4096 ≤ P + (cs - vaddr)).
    { apply run_apart; [lia| |done]. intros k Hk. by apply Esrc. }
    set (m := copy_bytes _ _ _ _) in *. split; [done| |done|].
    + intros x Hx. cbn [pg_mem with_mem]. rewrite Hother; [by apply Hk1|]. destruct Hx as (Hx & _). intros Eg. by rewrite Eg in Hx.
    + intros _. exists g. split.
      * intros va' Hva'. rewrite <- Htr by done. cbn [pg_mem with_mem].
        assert (HC2 : ∀ va, is_u32 va → translate m d va = translate (pg_mem s1) d va); [|by apply HC2].
        apply (confined_write d s1 (pg_pmm s1) m (cf_wf _ _ _ HC1) (cf_space _ _ _ HC1)); try done.
        -- apply (pg_pmm_wf _ (cf_wf _ _ _ HC1)).
        -- apply (pg_mem_u32 _ (cf_wf _ _ _ HC)).
        -- intros x Hx. right. exists va, g, 7. split; [done|]. rewrite Htr, decide_True, Hal, Z.add_0_r by done. do 2 (split; [done|]).
           assert (page_of g = g) as -> by (unfold page_of; lia). destruct (decide (page_of x = g)); [done|]. by rewrite Hother in Hx.
      * intros va' Hp. destruct (Hcover va' Hp) as [Hiff Hva']. cbn [pg_mem with_mem]. unfold m.
        rewrite (page_copy _ g _ va) by (done || lia || apply Z.mod_pos_bound; lia). unfold seg_byte.
        destruct (decide (cs ≤ va + va' mod 4096 < ce)) as [Hin|Hout]; [rewrite decide_True by (by apply Hiff)|by rewrite decide_False by (by rewrite Hiff)].
        rewrite Hva'. replace (P + (cs - vaddr) + (va' - cs)) with (P + (va' - vaddr)) by lia.
        apply (source_byte d s s1 src filesz P); [done|done|]. apply Hiff in Hin. lia.
  - split; [done|done|done|]. intros _. exists g. split; [done|]. intros va' Hp. destruct (Hcover va' Hp) as [Hiff Hva'].
    unfold seg_byte. rewrite decide_False by (rewrite Hiff; lia). unfold load8. rewrite Hz; [done|]. rewrite page_of_word_base.
    apply page_of_add; [done|]. apply Z.mod_pos_bound. lia.
Qed.

(** ** Segments *)

Lemma user_byte_kept d s s' va : space_ok s d → data_kept d s s' → user_va va →
  translate (pg_mem s') d va = translate (pg_mem s) d va → user_byte s' d va = user_byte s d va.
Proof.
  intros Hsp Hk Hva Ht. unfold user_byte. rewrite Ht. destruct (translate (pg_mem s) d va) as [[p fl]|] eqn:E; [|done].
  destruct (has fl PAGE_USER) eqn:Hu; [|done]. f_equal. apply load8_kept. intros x Hx. apply Hk. rewrite Hx.
  destruct (so_user _ _ Hsp va p fl Hva E Hu) as (_ & H). exact H.
Qed.

Lemma seg_byte_kept d s s' src vaddr filesz P va : confined d s s' → source_ok s d src filesz P →
  seg_byte s' vaddr filesz P va = seg_byte s vaddr filesz P va.
Proof. intros HC Hs. unfold seg_byte. case_decide; [|done]. apply (source_byte d s s' src filesz P); [done|done|lia]. Qed.

Record pages_loaded (d vaddr filesz P lo hi : Z) (s s' : paging_t) (ok : bool) : Prop := {
  ps_confined : confined d s s';
  ps_kept : data_kept d s s';
  ps_fail : ok = false → exhausted s';
  ps_other : ok = true → ∀ va, is_u32 va → ¬ (lo ≤ va < hi) → translate (pg_mem s') d va = translate (pg_mem s) d va;
  ps_byte : ok = true → ∀ va, lo ≤ va < hi → user_byte s' d va = Some (seg_byte s vaddr filesz P va)
}.

Lemma load_pages_contents d src vaddr filesz P n : ∀ s va,
  paging_wf s → space_ok s d → USER_REGION_START ≤ va → va + Z.of_nat n * 4096 ≤ USER_REGION_END →
  va mod 4096 = 0 → is_u32 vaddr → vaddr < va + 4096 → 0 ≤ filesz → is_u32 (vaddr + filesz) →
  (∀ va', va ≤ va' < va + Z.of_nat n * 4096 → translate (pg_mem s) d va' = None) → source_ok s d src filesz P →
  ∃ ok s', load_pages n (PHYS_TO_KVIRT d) src vaddr filesz va s = Some (ok, s') ∧
    pages_loaded d vaddr filesz P va (va + Z.of_nat n * 4096) s s' ok.
Proof.
  induction n as [|n IH]; intros s va Hwf Hsp Hlo Hhi Hal Hvu Hlt Hf0 Hfu Hnone Hsrc.
  { exists true, s. split; [done|]. split; [by apply confined_refl|done|done|done|lia]. }
  cbn [load_pages]. unfold mbind, M_bind.
  destruct (load_page_contents d s src vaddr filesz P va) as (ok & s1 & -> & [HC Hk Hfail Hok]); try done.
  { unfold user_va. lia. }
  { apply Hnone. lia. }
  destruct ok; [|exists false, s1; split; [done|]; split; [done|done|intros _; by apply Hfail|done|done]].
  destruct (Hok eq_refl) as (g & Htr & Hby). clear Hfail Hok. replace (va + 0x1000) with (va + 4096) by lia.
  destruct (IH s1 (va + 4096)) as (ok & s2 & -> & [HC2 Hk2 Hfail2 Hother2 Hbyte2]); try apply HC; try done; try lia.
  { mlia. }
  { intros va' Hr. rewrite Htr, decide_False by layout_lia. apply Hnone. lia. }
  { by apply (source_ok_confined d s). }
  exists ok, s2. split; [done|]. split; [by eapply confined_trans|by eapply data_kept_trans|done|..]; intros ->.
  - intros va' Hva' Hr. rewrite Hother2 by (done || lia). rewrite Htr, decide_False by (done || mlia). done.
  - intros va' Hr. assert (Hva' : user_va va') by layout_lia. destruct (decide (va' < va + 4096)) as [Hin|Hout].
    + assert (Hp : va' / 4096 = va / 4096) by mlia.
      rewrite (user_byte_kept d s1 s2 va'); [|apply HC|done|done|apply Hother2; [done|by apply user_va_u32|lia]].
      unfold user_byte. rewrite Htr, decide_True by (done || by apply user_va_u32). cbn. f_equal. by apply Hby.
    + rewrite Hbyte2 by lia. f_equal. by apply (seg_byte_kept d s s1 src).
Qed.

(** ** The stack *)

Lemma map_stack_data d n : ∀ s i top o s', paging_wf s → space_ok s d → 0 ≤ i → i + Z.of_nat n = 16 →
  map_stack n (PHYS_TO_KVIRT d) i top s = Some (o, s') → data_kept d s s' ∧ (o = None → exhausted s').
Proof.
  induction n as [|n IH]; intros s i top o s' Hwf Hsp Hi Hn; [intros [= <- <-]; done|].
  cbn [map_stack]. unfold mbind, M_bind. assert (Hva : user_va (USER_STACK_BASE_VADDR + i * 0x1000)) by layout_lia.
  destruct (map_fresh_ok d s _ Hwf Hsp Hva) as (o1 & s1 & E1 & HC1 & _). rewrite E1.
  destruct (map_fresh_data d s _ o1 s1 Hwf Hsp Hva E1) as [Hk1 Hx1]. destruct o1 as [f|]; [|intros [= <- <-]; split; [done|]; intros _; by apply Hx1].
  intros E. apply IH in E as [Hk2 Hx2]; [|apply HC1|apply HC1|lia|lia].
  split; [|done]. by eapply data_kept_trans.
Qed.

(** ** The whole image *)

Lemma kvirt_u32 x : KVIRT_TO_PHYS (u32 x) = KVIRT_TO_PHYS x.
Proof. unfold KVIRT_TO_PHYS. mlia. Qed.

(** The file is at [elf], from physical address [P] on. *)
Lemma file_load8 s d elf size P k : source_ok s d elf size P → 0 ≤ k < size → KVIRT_TO_PHYS (elf + k) = P + k.
Proof. intros H Hk. rewrite <- kvirt_u32. by apply H. Qed.

(** The headers in the file [l]. *)
Definition fbyte (l : list Z) (k : Z) : Z := default 0 (zlookup l k).
Definition fword16 (l : list Z) (k : Z) : Z := fbyte l k + 256 * fbyte l (k + 1).
Definition fword32 (l : list Z) (k : Z) : Z := fword16 l k + 65536 * fword16 l (k + 2).

Definition file_ehdr (l : list Z) : elf32_ehdr_t :=
  mk_ehdr [fbyte l 0; fbyte l 1; fbyte l 2; fbyte l 3; fbyte l 4; fbyte l 5; fbyte l 6]
    (fword16 l 16) (fword16 l 18) (fword32 l 24) (fword32 l 28) (fword16 l 44).
Definition file_phdr (l : list Z) (k : Z) : elf32_phdr_t :=
  mk_phdr (fword32 l k) (fword32 l (k + 4)) (fword32 l (k + 8)) (fword32 l (k + 16)) (fword32 l (k + 20)).

Definition segment (l : list Z) : elf32_phdr_t := file_phdr l (e_phoff (file_ehdr l)).

(** The file [l] is at [elf], from physical address [P] on, in frames that are in use
    and are not of the address space. *)
Record file_at (s : paging_t) (d elf P : Z) (l : list Z) : Prop := {
  fa_source : source_ok s d elf (Z.of_nat (length l)) P;
  fa_byte k : 0 ≤ k < Z.of_nat (length l) → load8 (pg_mem s) (P + k) = fbyte l k
}.

Lemma file_kload s d elf P l k : file_at s d elf P l → 0 ≤ k < Z.of_nat (length l) → load8 (pg_mem s) (KVIRT_TO_PHYS (elf + k)) = fbyte l k.
Proof. intros [H1 H2] Hk. rewrite (file_load8 s d elf (Z.of_nat (length l)) P) by done. by apply H2. Qed.

Lemma file_at_confined d s s' elf P l : confined d s s' → file_at s d elf P l → file_at s' d elf P l.
Proof.
  intros HC [H1 H2]. split; [by apply (source_ok_confined d s)|]. intros k Hk. rewrite <- H2 by done. by apply (source_byte d s s' elf (Z.of_nat (length l))).
Qed.

Lemma read_ehdr_file s d elf P l : file_at s d elf P l → 52 ≤ Z.of_nat (length l) → read_ehdr elf s = Some (file_ehdr l, s).
Proof.
  intros Hf Hz. unfold read_ehdr, kload32, kload16, kload8, mbind, M_bind, mret, M_ret, file_ehdr, fword32, fword16.
  rewrite <- !Z.add_assoc. cbn [Z.add Pos.add Pos.succ].
  replace (KVIRT_TO_PHYS elf) with (KVIRT_TO_PHYS (elf + 0)) by (by rewrite Z.add_0_r). by rewrite !(file_kload s d elf P l) by (done || lia).
Qed.

Lemma read_phdr_file s d elf P l k : file_at s d elf P l → 0 ≤ k → k + PHDR_SIZE ≤ Z.of_nat (length l) →
  read_phdr (u32 (elf + k)) s = Some (file_phdr l k, s).
Proof.
  intros Hf Hk Hz. unfold PHDR_SIZE in Hz. unfold read_phdr, kload32, kload16, kload8, mbind, M_bind, mret, M_ret, file_phdr, fword32, fword16.
  assert (Hw : ∀ j, 0 ≤ j < 32 → load8 (pg_mem s) (KVIRT_TO_PHYS (u32 (elf + k) + j)) = fbyte l (k + j)).
  { intros j Hj. rewrite <- (file_kload s d elf P l) by (done || lia). f_equal. unfold KVIRT_TO_PHYS. mlia. }
  rewrite <- !Z.add_assoc. cbn [Z.add Pos.add Pos.succ].
  replace (KVIRT_TO_PHYS (u32 (elf + k))) with (KVIRT_TO_PHYS (u32 (elf + k) + 0)) by (by rewrite Z.add_0_r).
  rewrite !Hw by lia. by rewrite Z.add_0_r.
Qed.

(** A program of one loadable segment that passes the checks of the loader. *)
Record program (l : list Z) : Prop := {
  pr_valid : elf_validate (file_ehdr l) = true;
  pr_num : e_phnum (file_ehdr l) = 1;
  pr_off : 0 ≤ e_phoff (file_ehdr l) ∧ e_phoff (file_ehdr l) + PHDR_SIZE ≤ Z.of_nat (length l);
  pr_size : 52 ≤ Z.of_nat (length l) < 4294967296;
  pr_load : p_type (segment l) = PT_LOAD;
  pr_file : 0 ≤ p_offset (segment l) ∧ 0 ≤ p_filesz (segment l) ≤ p_memsz (segment l) ∧ p_offset (segment l) + p_filesz (segment l) ≤ Z.of_nat (length l);
  pr_user : USER_REGION_START ≤ p_vaddr (segment l) ∧ p_vaddr (segment l) + p_memsz (segment l) ≤ USER_STACK_BASE_VADDR
}.

(** The contents of the program's memory, by the offset from the start. *)
Definition program_byte (l : list Z) (k : Z) : Z := if decide (k < p_filesz (segment l)) then fbyte l (p_offset (segment l) + k) else 0.

Lemma source_ok_sub s d elf size P off n : source_ok s d elf size P → 0 ≤ off → off + n ≤ size → source_ok s d (u32 (elf + off)) n (P + off).
Proof.
  intros H Ho Hn k Hk. destruct (H (off + k)) as (H1 & H2 & H3); [lia|]. rewrite <- Z.add_assoc. split; [|done].
  rewrite <- H1. f_equal. mlia.
Qed.

Lemma load_segment_contents d s elf size P ue ph : paging_wf s → space_ok s d → source_ok s d elf size P →
  p_type ph = PT_LOAD → 0 ≤ p_offset ph ∧ 0 ≤ p_filesz ph ≤ p_memsz ph ∧ p_offset ph + p_filesz ph ≤ size →
  USER_REGION_START ≤ p_vaddr ph ∧ p_vaddr ph + p_memsz ph ≤ USER_STACK_BASE_VADDR →
  (∀ va, user_va va → va < USER_STACK_BASE_VADDR → translate (pg_mem s) d va = None) →
  ∃ o s', load_segment (PHYS_TO_KVIRT d) elf size ue ph s = Some (o, s') ∧ confined d s s' ∧ data_kept d s s' ∧
    (o = None → exhausted s') ∧
    (o ≠ None → ∀ k, 0 ≤ k < p_memsz ph → user_byte s' d (p_vaddr ph + k) =
       Some (if decide (k < p_filesz ph) then load8 (pg_mem s) (P + p_offset ph + k) else 0)).
Proof.
  intros Hwf Hsp Hsrc Hty Hfile Huser Hnone. unfold load_segment. rewrite Hty. cbn [negb Z.eqb Pos.eqb PT_LOAD].
  assert (Hvm : u32 (p_vaddr ph + p_memsz ph) = p_vaddr ph + p_memsz ph) by (apply u32_small; layout_lia).
  assert (Hve : u32 (p_vaddr ph + p_memsz ph + 0xFFF) = p_vaddr ph + p_memsz ph + 0xFFF) by (apply u32_small; layout_lia).
  rewrite Hvm, Hve. rewrite !(proj2 (Z.ltb_ge _ _)) by lia. cbn [orb]. unfold mbind, M_bind.
  rewrite !page_frame_eq by layout_lia. set (b := p_vaddr ph - p_vaddr ph mod 4096). set (e := p_vaddr ph + p_memsz ph + 0xFFF - (p_vaddr ph + p_memsz ph + 0xFFF) mod 4096).
  assert (Hbe : b mod 4096 = 0 ∧ e mod 4096 = 0 ∧ b ≤ p_vaddr ph < b + 4096 ∧ p_vaddr ph + p_memsz ph ≤ e ∧ e ≤ USER_STACK_BASE_VADDR ∧ USER_REGION_START ≤ b ∧ b ≤ e).
  { unfold b, e. layout_lia. }
  destruct Hbe as (Hb & He & Hb2 & He2 & He3 & Hb3 & Hbe).
  assert (Hn : b + Z.of_nat (Z.to_nat ((e - b) / 0x1000)) * 4096 = e) by mlia.
  destruct (load_pages_contents d (u32 (elf + p_offset ph)) (p_vaddr ph) (p_filesz ph) (P + p_offset ph)
    (Z.to_nat ((e - b) / 0x1000)) s b) as (ok & s1 & -> & [HC Hk Hfail Hother Hby]); try done; rewrite ?Hn; try lia; try layout_lia.
  { intros va Hr. apply Hnone; layout_lia. }
  { apply (source_ok_sub s d elf size P); [done|lia|lia]. }
  rewrite Hn in *. eexists _, s1. split; [done|]. split; [done|]. split; [done|].
  destruct ok; [|split; [intros _; by apply Hfail|done]]. split; [done|].
  intros _ k Hkr. rewrite Hby by (done || lia). f_equal. unfold seg_byte.
  repeat case_decide; try lia; try done; do 2 f_equal; lia.
Qed.

Lemma load_image_program s d elf P l :
  paging_wf s → space_ok s d → file_at s d elf P l → program l →
  (∀ va, user_va va → va < USER_STACK_BASE_VADDR → translate (pg_mem s) d va = None) →
  ∃ r s', load_image (PHYS_TO_KVIRT d) elf (Z.of_nat (length l)) s = Some (r, s') ∧ confined d s s' ∧
    match r with
    | None => exhausted s'
    | Some (entry, _, _) =>
      entry = e_entry (file_ehdr l) ∧
      ∀ k, 0 ≤ k < p_memsz (segment l) → user_byte s' d (p_vaddr (segment l) + k) = Some (program_byte l k)
    end.
Proof.
  intros Hwf Hsp Hat [Hv Hn Ho Hz Hl Hf Hu] Hnone. unfold load_image, mbind, M_bind.
  rewrite (read_ehdr_file s d elf P l), Hv by (done || lia). cbn [negb]. set (h := file_ehdr l) in *. rewrite Hn.
  assert (Hpe : u32 (e_phoff h + 1 * PHDR_SIZE) = e_phoff h + PHDR_SIZE) by (unfold PHDR_SIZE in *; apply u32_small; mlia).
  rewrite Hpe, (proj2 (Z.leb_gt _ _)), !(proj2 (Z.ltb_ge _ _)) by (unfold PHDR_SIZE in *; lia). cbn [orb].
  change (Z.to_nat 1) with 1%nat. cbn [load_segments]. unfold mbind, M_bind.
  rewrite Z.mul_0_l, Z.add_0_r, (u32_small (u32 _)), (read_phdr_file s d elf P l) by (done || lia || apply u32_range). change (file_phdr l (e_phoff h)) with (segment l).
  destruct (load_segment_contents d s elf (Z.of_nat (length l)) P USER_REGION_START (segment l)) as (o & s1 & -> & HC & Hk & Hfail & Hby); try done; [apply Hat|].
  destruct o as [ue|]; [|exists None, s1; split; [done|]; split; [done|by apply Hfail]]. cbn [load_segments mret M_ret].
  destruct (map_stack_ok d (Z.to_nat USER_STACK_PAGES) s1 0 0 (cf_wf _ _ _ HC) (cf_space _ _ _ HC)) as (o & s2 & E2 & HC2 & Hs2); [done|done|].
  destruct (map_stack_data d _ s1 0 0 o s2 (cf_wf _ _ _ HC) (cf_space _ _ _ HC) (Z.le_refl 0) (eq_refl : 0 + Z.of_nat (Z.to_nat USER_STACK_PAGES) = 16) E2) as [Hk2 Hx2]. rewrite E2.
  pose proof (confined_trans d s s1 s2 HC HC2) as HC'.
  destruct o as [f|]; [|exists None, s2; split; [done|]; split; [done|by apply Hx2]].
  rewrite (read_ehdr_file s2 d elf P l) by (by apply (file_at_confined d s) || lia). eexists _, s2. split; [done|]. split; [done|]. split; [done|].
  intros k Hkr. transitivity (user_byte s1 d (p_vaddr (segment l) + k)).
  - apply user_byte_kept; [apply HC|done|layout_lia|]. apply (Hs2 f eq_refl); layout_lia.
  - rewrite Hby by done. f_equal. unfold program_byte. case_decide; [|done]. rewrite <- Z.add_assoc. apply Hat. lia.
Qed.


(** C3 (functional): what the loader makes of a program of one loadable segment, in
    an address space with no user pages below the stack.  Either the call fails and
    then no physical frame is left, or it returns the entry point of the header, the
    sixteen stack pages are mapped and the top one, which is returned, is zero, and
    user code reads, at every address of the segment, the byte of the file, and zero
    from the end of the file's part to the end of the segment. *)
Theorem load_image_contents s d elf P l :
  paging_wf s → space_ok s d → file_at s d elf P l → program l →
  (∀ va, user_va va → va < USER_STACK_BASE_VADDR → translate (pg_mem s) d va = None) →
  ∃ r s', load_image (PHYS_TO_KVIRT d) elf (Z.of_nat (length l)) s = Some (r, s') ∧ confined d s s' ∧
    match r with
    | None => exhausted s'
    | Some (entry, sp, ue) =>
      entry = e_entry (file_ehdr l) ∧ loaded d s s' entry sp ue ∧
      ∀ k, 0 ≤ k < p_memsz (segment l) → user_byte s' d (p_vaddr (segment l) + k) = Some (program_byte l k)
    end.
Proof.
  intros Hwf Hsp Hat Hp Hnone. destruct (load_image_program s d elf P l Hwf Hsp Hat Hp Hnone) as (r & s' & E & HC & Hr).
  destruct (load_image_ok d elf (Z.of_nat (length l)) s Hwf Hsp) as (r' & s'' & E' & _ & Hl). rewrite E in E'. injection E' as <- <-.
  exists r, s'. split; [done|]. split; [done|]. destruct r as [[[entry sp] ue]|]; [|done]. destruct Hr as [H1 H2].
  split; [done|]. split; [by apply Hl|done].
Qed.

(** ** Example: a file in memory *)

(** The file [l] at physical address 0x500000, and an address space at 0x300000 with
    nothing mapped. *)
Definition staged (l : list Z) : paging_t := with_mem (store_bytes (pg_mem paging_boot) 0x500000 l) paging_boot.

Section staged.
Context (l : list Z) (Hl : Forall is_u8 l) (Hsz : Z.of_nat (length l) ≤ 0x200000).

Lemma staged_dir k : 0 ≤ k < 1024 → pg_mem (staged l) (0x300000 + 4 * k) = 0.
Proof. intros Hk. unfold staged. cbn [pg_mem with_mem]. rewrite store_bytes_other; [done|]. change (word_base 0x500000) with 0x500000. lia. Qed.

Lemma staged_wf : paging_wf (staged l).
Proof. split; [exact pmm_boot_wf|]. apply store_bytes_u32; [|done]. intros x. done. Qed.

Lemma staged_unmapped va : is_u32 va → translate (pg_mem (staged l)) 0x300000 va = None.
Proof. intros Hva. unfold translate. rewrite staged_dir by mlia. done. Qed.

Lemma boot_low_used a : a < 8388608 → ¬ addr_free pmm_boot a.
Proof. intros Ha (k & Hk & -> & _). revert Ha. unfold frame_at, PMM_START, PMM_FRAME_SIZE. lia. Qed.

Lemma staged_space : space_ok (staged l) 0x300000.
Proof.
  assert (Hn : ∀ k, 0 ≤ k < 1024 → ¬ pde_present (pg_mem (staged l)) 0x300000 k).
  { intros k Hk. unfold pde_present. by rewrite staged_dir. }
  split; [split|].
  - split; [done|]. split; [lia|]. by apply boot_low_used.
  - intros i Hi Hp. by apply Hn in Hp.
  - intros i j Hi _ _ Hp. by apply Hn in Hp.
  - intros va p fl Hva Ht. by rewrite staged_unmapped in Ht by (by apply user_va_u32).
Qed.

Lemma staged_source : source_ok (staged l) 0x300000 (PHYS_TO_KVIRT 0x500000) (Z.of_nat (length l)) 0x500000.
Proof.
  intros k Hk. split; [apply kv_add; lia|]. assert (Hp : 0x500000 ≤ page_of (0x500000 + k) < 8388608) by (unfold page_of; mlia).
  split; [apply boot_low_used; lia|]. intros [E|[(j & Hj & Hx & _)|(va & p & fl & Hva & Ht & _)]].
  - lia.
  - unfold pde_present in Hx. by rewrite staged_dir in Hx by lia.
  - by rewrite staged_unmapped in Ht by (by apply user_va_u32).
Qed.

Lemma staged_file : file_at (staged l) 0x300000 (PHYS_TO_KVIRT 0x500000) 0x500000 l.
Proof.
  split; [apply staged_source|]. intros k Hk. unfold staged. cbn [pg_mem with_mem]. rewrite load8_store_bytes by done.
  rewrite decide_True by lia. replace (0x500000 + k - 0x500000) with k by lia. unfold fbyte. by rewrite zlookup_nonneg by lia.
Qed.

End staged.

Lemma demo_bytes : Forall is_u8 demo_elf.
Proof. decided. Qed.

Lemma demo_program : program demo_elf.
Proof. split; vm_compute; intuition discriminate. Qed.

Lemma load_image_contents_witness : ∃ r s',
  load_image (PHYS_TO_KVIRT 0x300000) (PHYS_TO_KVIRT 0x500000) 88 (staged demo_elf) = Some (r, s') ∧
  match r with
  | None => exhausted s'
  | Some (entry, _, _) => entry = 0x400054 ∧ user_byte s' 0x300000 0x400054 = Some 0xEB ∧ user_byte s' 0x300000 0x400FFF = Some 0
  end.
Proof.
  destruct (load_image_contents (staged demo_elf) 0x300000 (PHYS_TO_KVIRT 0x500000) 0x500000 demo_elf) as (r & s' & E & _ & H).
  - apply staged_wf, demo_bytes.
  - apply staged_space.
  - apply staged_file; [exact demo_bytes|vm_compute; discriminate].
  - exact demo_program.
  - intros va Hva _. by apply staged_unmapped, user_va_u32.
  - exists r, s'. split; [exact E|]. destruct r as [[[entry sp] ue]|]; [|exact H]. destruct H as (-> & _ & H). split; [reflexivity|].
    split; [apply (H 0x54)|apply (H 0xFFF)]; vm_compute; intuition discriminate.
Defined.
