(* ===== verification/ArgBlock.v ===== *)
(** * Initial stacks ([src/src/proc/task.c])

    The words that a new task finds on its stacks: the frame from which the
    first context switch resumes it, and the argument block that
    [task_create_user_elf] writes to the top page of the user stack.  The
    theorem is that a program started on that stack finds its arguments. *)

From S2P Require Import Prelude Pmm Paging PhysMem Loader.

(** ** The code *)

(** [*(--sp) = w] for every word [w] of the list. *)
Fixpoint push_words (sp : Z) (l : list Z) : M paging_t Z :=
  match l with
  | [] => mret sp
  | w :: l => kwrite (u32 (sp - 4)) w;; push_words (u32 (sp - 4)) l
  end.

(** Step 1 of the argument block: the strings, from the last to the first, are
    copied below [str_off].  The result is the new [str_off] and the entries of
    [str_vaddrs] in the order in which they are written; [None] is an entry that
    is left uninitialised by the [break]. *)
Fixpoint copy_args (page str_off : Z) (args : list (list Z)) : M paging_t (Z * list (option Z)) :=
  match args with
  | [] => mret (str_off, [])
  | a :: args =>
    let slen := Z.of_nat (length a) + 1 in
    if str_off <? u32 (slen + 64) then mret (str_off, replicate (S (length args)) None) else
    let str_off := str_off - slen in
    kstore_bytes (u32 (page + str_off)) (a ++ [0]);;
    '(off, vs) ← copy_args page str_off args;
    mret (off, Some (u32 (USER_STACK_TOP_PAGE_VADDR + str_off)) :: vs)
  end.

(** Reading an uninitialised entry of [str_vaddrs] is undefined. *)
Fixpoint init_entries (l : list (option Z)) : option (list Z) :=
  match l with
  | [] => Some []
  | o :: l => x ← o; l' ← init_entries l; Some (x :: l')
  end.

(** [argv] are the [argc] strings; the result is [user_esp]. *)
Definition place_args (stack_phys : Z) (argv : list (list Z)) : M paging_t Z :=
  let page := PHYS_TO_KVIRT stack_phys in
  let args := take 16 argv in
  '(str_off, vs) ← copy_args page 0x1000 (reverse args);
  let str_off := Z.land str_off (u32 (Z.lnot 3)) in
  vs ← lift (init_entries vs);
  sp ← push_words (u32 (page + str_off)) [0];
  sp ← push_words sp vs;
  let argv_vaddr := u32 (USER_STACK_TOP_PAGE_VADDR + (sp - page)) in
  sp ← push_words sp [argv_vaddr; Z.of_nat (length args); 0];
  mret (u32 (USER_STACK_TOP_PAGE_VADDR + (sp - page))).

(** ** Pushing words *)

Definition pushed (Q : Z) (l : list Z) (m m' : Z → Z) : Prop :=
  (∀ k w, l !! k = Some w → m' (Q - 4 * Z.of_nat (S k)) = w) ∧
  ∀ x, ¬ (Q - 4 * Z.of_nat (length l) ≤ x < Q ∧ (Q - x) mod 4 = 0) → m' x = m x.

Lemma push_words_ok l : ∀ Q s, 4 * Z.of_nat (length l) ≤ Q ≤ 1073741824 →
  ∃ m, push_words (PHYS_TO_KVIRT Q) l s = Some (PHYS_TO_KVIRT (Q - 4 * Z.of_nat (length l)), with_mem m s) ∧
       pushed Q l (pg_mem s) m.
Proof.
  induction l as [|w l IH]; intros Q s HQ.
  { exists (pg_mem s). cbn. rewrite Z.sub_0_r. split; [by destruct s|]. split; [by intros [|k]|done]. }
  cbn [push_words length] in *. unfold mbind, M_bind, kwrite.
  assert (E1 : u32 (PHYS_TO_KVIRT Q - 4) = PHYS_TO_KVIRT (Q - 4)).
  { unfold PHYS_TO_KVIRT, KERNEL_VIRTUAL_BASE. mlia. }
  rewrite E1, kv_page by lia. set (s1 := with_mem _ s).
  destruct (IH (Q - 4) s1) as (m & E & H1 & H2); [lia|].
  exists m. split; [rewrite E; do 2 f_equal; f_equal; lia|]. split.
  - intros [|k] w' Hk; cbn in Hk.
    + injection Hk as <-. rewrite H2 by lia. unfold s1. cbn [pg_mem with_mem]. unfold mem_set.
      by rewrite (proj2 (Z.eqb_eq _ _)) by lia.
    + rewrite <- (H1 k w' Hk). f_equal. lia.
  - intros x Hx. cbn [length] in Hx.
    assert (Hx1 : x ≠ Q - 4). { intros ->. apply Hx. split; [lia|]. mlia. }
    rewrite H2.
    + unfold s1. cbn [pg_mem with_mem]. unfold mem_set. by rewrite (proj2 (Z.eqb_neq _ _)) by lia.
    + intros [H3 H4]. apply Hx. split; [lia|]. mlia.
Qed.

Lemma pushed_u32 Q l m m' : pushed Q l m m' → (∀ x, is_u32 (m x)) → Forall is_u32 l → ∀ x, is_u32 (m' x).
Proof.
  intros [H1 H2] Hm Hl x.
  destruct (decide (Q - 4 * Z.of_nat (length l) ≤ x < Q ∧ (Q - x) mod 4 = 0)) as [[Hx Hx4]|Hx].
  - assert (Hj : (Z.to_nat ((Q - x) / 4 - 1) < length l)%nat) by mlia.
    destruct (lookup_lt_is_Some_2 _ _ Hj) as [w Hw]. pose proof (H1 _ _ Hw) as E.
    replace (Q - 4 * Z.of_nat (S (Z.to_nat ((Q - x) / 4 - 1)))) with x in E by mlia. rewrite E.
    by apply (Forall_lookup_1 _ _ _ _ Hl Hw).
  - rewrite H2 by done. apply Hm.
Qed.

(** Bytes above the words that are written are unchanged. *)
Lemma pushed_load8 Q l m m' a : pushed Q l m m' → Q mod 4 = 0 → Q ≤ a → load8 m' a = load8 m a.
Proof.
  intros [_ H] HQ Ha. unfold load8. rewrite H; [done|]. unfold word_base. mlia.
Qed.

Lemma pushed_load_bytes Q l m m' a n : pushed Q l m m' → Q mod 4 = 0 → Q ≤ a → load_bytes m' a n = load_bytes m a n.
Proof. intros H HQ Ha. apply load_bytes_ext. intros i Hi. apply (pushed_load8 Q l); [done|done|lia]. Qed.

(** ** The strings *)

(** The offsets of the strings in the page, and the offset below them. *)
Fixpoint arg_offsets (off : Z) (args : list (list Z)) : list Z :=
  match args with
  | [] => []
  | a :: args => let off := off - (Z.of_nat (length a) + 1) in off :: arg_offsets off args
  end.

Definition args_size (args : list (list Z)) : Z := foldr (λ a n, Z.of_nat (length a) + 1 + n) 0 args.

Lemma args_size_cons a args : args_size (a :: args) = Z.of_nat (length a) + 1 + args_size args.
Proof. done. Qed.

Lemma args_size_nonneg args : 0 ≤ args_size args.
Proof. induction args; simpl; lia. Qed.

Lemma args_size_app l1 l2 : args_size (l1 ++ l2) = args_size l1 + args_size l2.
Proof. induction l1; simpl; lia. Qed.

Lemma args_size_reverse l : args_size (reverse l) = args_size l.
Proof. induction l as [|a l IH]; [done|]. rewrite reverse_cons, args_size_app, IH. simpl. lia. Qed.

Lemma length_arg_offsets args : ∀ off, length (arg_offsets off args) = length args.
Proof. induction args as [|a args IH]; intros off; [done|]. cbn. by rewrite IH. Qed.

Lemma arg_offsets_range args : ∀ off k o a, arg_offsets off args !! k = Some o → args !! k = Some a →
  off - args_size args ≤ o ∧ o + Z.of_nat (length a) + 1 ≤ off.
Proof.
  induction args as [|b args IH]; intros off [|k] o a Ho Ha; try done; rewrite args_size_cons; cbn in Ho, Ha.
  - simplify_eq. pose proof (args_size_nonneg args). lia.
  - destruct (IH _ _ _ _ Ho Ha). lia.
Qed.

Lemma copy_args_ok P args : ∀ off s, paging_wf s → P mod 4096 = 0 → 0 ≤ P < 1073741824 → off ≤ 4096 →
  64 ≤ off - args_size args → Forall (Forall is_u8) args →
  ∃ m, copy_args (PHYS_TO_KVIRT P) off args s =
         Some ((off - args_size args, Some <$> ((λ o, USER_STACK_TOP_PAGE_VADDR + o) <$> arg_offsets off args)), with_mem m s) ∧
    (∀ x, is_u32 (m x)) ∧
    (∀ k o a, arg_offsets off args !! k = Some o → args !! k = Some a →
       load_bytes m (P + o) (S (length a)) = a ++ [0]) ∧
    (∀ x, ¬ (word_base (P + (off - args_size args)) ≤ x < P + off) → m x = pg_mem s x) ∧
    (∀ b, ¬ (P + (off - args_size args) ≤ b < P + off) → load8 m b = load8 (pg_mem s) b).
Proof.
  induction args as [|a args IH]; intros off s Hwf HPa HP Hoff Hlow Hu8.
  { exists (pg_mem s). cbn [args_size foldr arg_offsets fmap list_fmap copy_args]. rewrite Z.sub_0_r.
    split; [by destruct s|]. split; [apply (pg_mem_u32 _ Hwf)|]. done. }
  inversion_clear Hu8. rewrite args_size_cons in *. cbn [copy_args arg_offsets].
  assert (HP' : P + 4096 ≤ 1073741824) by mlia.
  pose proof (args_size_nonneg args) as Hnn. set (o := off - (Z.of_nat (length a) + 1)) in *.
  rewrite u32_small by (unfold is_u32; lia). rewrite (proj2 (Z.ltb_ge _ _)) by lia.
  unfold mbind, M_bind, kstore_bytes, modify. rewrite kv_add by lia. rewrite fmap_app.
  assert (Ea : u8 <$> a = a).
  { apply list_eq. intros i. rewrite list_lookup_fmap. destruct (a !! i) as [x|] eqn:Ex; [|done]. simpl. f_equal.
    apply u8_small. by apply (Forall_lookup_1 _ _ _ _ H Ex). }
  rewrite Ea. change (u8 <$> [0]) with [0].
  assert (Ha8 : Forall is_u8 (a ++ [0])). { apply Forall_app; split; [done|]. by apply Forall_singleton. }
  set (s1 := with_mem _ s).
  assert (Hwf1 : paging_wf s1). { split; [apply Hwf|]. apply store_bytes_u32; [apply (pg_mem_u32 _ Hwf)|done]. }
  destruct (IH o s1 Hwf1 HPa HP) as (m & -> & Hmu & Hstr & Hout & Hby); [lia|lia|done|].
  exists m. unfold mret, M_ret.
  replace (off - (Z.of_nat (length a) + 1 + args_size args)) with (o - args_size args) by lia.
  split; [do 3 f_equal; cbn; f_equal; rewrite u32_small; [done|unfold USER_STACK_TOP_PAGE_VADDR, is_u32; lia]|].
  split; [done|]. split; [|split].
  - intros [|k] o' a' Ho Ha; cbn in Ho, Ha.
    + assert (o' = o ∧ a' = a) as [-> ->] by (split; congruence).
      replace (S (length a)) with (length (a ++ [0])) by (rewrite length_app; simpl; lia).
      rewrite <- (load_store_bytes (pg_mem s) (P + o) (a ++ [0])) at 2 by (done || apply (pg_mem_u32 _ Hwf)).
      apply load_bytes_ext. intros i Hi. apply Hby. lia.
    + by eapply Hstr.
  - intros x Hx. rewrite Hout by (unfold word_base in *; mlia). unfold s1. cbn [pg_mem with_mem].
    apply store_bytes_other. rewrite length_app. simpl. unfold word_base in *. mlia.
  - intros b Hb. rewrite Hby by lia. unfold s1. cbn [pg_mem with_mem].
    rewrite load8_store_bytes by (done || apply (pg_mem_u32 _ Hwf)). rewrite length_app. simpl.
    rewrite decide_False by lia. done.
Qed.

Lemma init_entries_Some l : init_entries (Some <$> l) = Some l.
Proof. induction l as [|x l IH]; [done|]. cbn. by rewrite IH. Qed.

(** ** The block *)

Lemma align4 x : is_u32 x → Z.land x (u32 (Z.lnot 3)) = x - x mod 4.
Proof.
  intros Hx. change (u32 (Z.lnot 3)) with (Z.lxor (Z.ones 32) 3).
  assert (E : Z.land x (Z.lxor (Z.ones 32) 3) = Z.ldiff x (Z.ones 2)).
  { apply Z.bits_inj'. intros n Hn. rewrite Z.land_spec, Z.lxor_spec, Z.ldiff_spec.
    change 3 with (Z.ones 2). destruct (Z.ltb_spec n 32) as [Hm|Hm].
    - by rewrite (Z.ones_spec_low 32) by lia.
    - destruct (decide (x = 0)) as [->|]; [by rewrite Z.bits_0|].
      rewrite (Z.bits_above_log2 x); [done|unfold is_u32 in Hx; lia|].
      apply Z.log2_lt_pow2; [unfold is_u32 in Hx; lia|].
      apply Z.lt_le_trans with (2 ^ 32); [apply Hx|]. apply Z.pow_le_mono_r; lia. }
  rewrite E, Z.ldiff_ones_r, Z.shiftl_mul_pow2, Z.shiftr_div_pow2 by lia. change (2 ^ 2) with 4. mlia.
Qed.

(** What a program whose stack pointer is at offset [eo] of the stack page at
    physical address [P] finds: a return address, [argc], [argv], the array that
    [argv] points to with its null pointer, and the strings. *)
Definition arg_block (m : Z → Z) (P eo : Z) (args : list (list Z)) : Prop :=
  let argc := Z.of_nat (length args) in
  0 ≤ eo ∧ eo + 16 + 4 * argc ≤ 4096 ∧ eo mod 4 = 0 ∧ m (P + eo) = 0 ∧ m (P + eo + 4) = argc ∧
  m (P + eo + 8) = USER_STACK_TOP_PAGE_VADDR + (eo + 12) ∧
  m (P + eo + 12 + 4 * argc) = 0 ∧
  ∀ i a, args !! i = Some a → ∃ o, m (P + eo + 12 + 4 * Z.of_nat i) = USER_STACK_TOP_PAGE_VADDR + o ∧
    eo + 16 + 4 * argc ≤ o ∧ o + Z.of_nat (length a) < 4096 ∧
    load_bytes m (P + o) (S (length a)) = a ++ [0].

Lemma place_args_ok P argv s :
  paging_wf s → P mod 4096 = 0 → 0 ≤ P < 1073741824 →
  let args := take 16 argv in
  args_size args + 83 ≤ 4096 → Forall (Forall is_u8) args →
  ∃ eo m, place_args P argv s = Some (USER_STACK_TOP_PAGE_VADDR + eo, with_mem m s) ∧
    arg_block m P eo args ∧ (∀ x, page_of x ≠ P → m x = pg_mem s x) ∧ ∀ x, is_u32 (m x).
Proof.
  intros Hwf HPa HP args Hsz Hu8. assert (HP' : P + 4096 ≤ 1073741824) by mlia.
  assert (Hn : (length args ≤ 16)%nat). { unfold args. rewrite length_take. lia. }
  pose proof (args_size_nonneg args) as Hnn. unfold place_args. fold args. unfold mbind, M_bind.
  destruct (copy_args_ok P (reverse args) 4096 s Hwf HPa HP) as (m0 & -> & Hm0 & Hstr & Hout & _);
    [lia|rewrite args_size_reverse; lia|by apply Forall_reverse|].
  rewrite args_size_reverse in *. set (off1 := 4096 - args_size args) in *.
  unfold lift. rewrite init_entries_Some. rewrite align4 by (unfold is_u32; lia).
  set (off2 := off1 - off1 mod 4). assert (Hoff2 : off2 mod 4 = 0 ∧ off1 - 3 ≤ off2 ≤ off1) by (unfold off2; mlia).
  set (vs := (λ o, USER_STACK_TOP_PAGE_VADDR + o) <$> arg_offsets 4096 (reverse args)).
  assert (Hvs : length vs = length args).
  { unfold vs. by rewrite length_fmap, length_arg_offsets, length_reverse. }
  assert (Epage : u32 (PHYS_TO_KVIRT P + off2) = PHYS_TO_KVIRT (P + off2)).
  { unfold PHYS_TO_KVIRT, KERNEL_VIRTUAL_BASE. mlia. }
  rewrite Epage.
  destruct (push_words_ok [0] (P + off2) (with_mem m0 s)) as (m1 & -> & H1); [simpl; lia|].
  destruct (push_words_ok vs (P + off2 - 4 * Z.of_nat (length [0])) (with_mem m1 (with_mem m0 s))) as (m2 & -> & H2);
    [simpl length; lia|].
  set (Q2 := P + off2 - 4 * Z.of_nat (length [0]) - 4 * Z.of_nat (length vs)).
  assert (HQ2 : Q2 = P + (off2 - 4 - 4 * Z.of_nat (length args))). { unfold Q2. simpl length. lia. }
  assert (Edif : ∀ e, 0 ≤ e < 4096 → u32 (USER_STACK_TOP_PAGE_VADDR + (PHYS_TO_KVIRT (P + e) - PHYS_TO_KVIRT P)) =
                 USER_STACK_TOP_PAGE_VADDR + e).
  { intros e He. unfold PHYS_TO_KVIRT, KERNEL_VIRTUAL_BASE, USER_STACK_TOP_PAGE_VADDR. mlia. }
  rewrite HQ2, Edif by lia. set (eo := off2 - 4 - 4 * Z.of_nat (length args) - 12).
  set (fin := [_; _; _]).
  destruct (push_words_ok fin (P + (off2 - 4 - 4 * Z.of_nat (length args))) (with_mem m2 (with_mem m1 (with_mem m0 s)))) as (m3 & -> & H3);
    [simpl length; lia|].
  replace (P + (off2 - 4 - 4 * Z.of_nat (length args)) - 4 * Z.of_nat (length fin)) with (P + eo)
    by (unfold eo, fin; simpl length; lia).
  unfold mret, M_ret. rewrite Edif by lia. exists eo, m3. split; [done|].
  cbn [pg_mem with_mem] in H1, H2, H3. simpl length in H1, H2, H3.
  change (Z.of_nat 1) with 1 in *. set (n := length args) in *.
  assert (Heo : 0 ≤ eo ∧ eo mod 4 = 0) by (unfold eo; mlia). split; [|split].
  - unfold arg_block. fold n. cbv zeta.
    split; [apply Heo|]. split; [unfold eo; lia|]. split; [apply Heo|]. split; [|split; [|split; [|split]]].
    + rewrite <- (proj1 H3 2%nat 0 eq_refl). f_equal. unfold eo. lia.
    + rewrite <- (proj1 H3 1%nat _ eq_refl). f_equal. unfold eo. lia.
    + replace (eo + 12) with (off2 - 4 - 4 * Z.of_nat n) by (unfold eo; lia).
      etransitivity; [|exact (proj1 H3 0%nat _ eq_refl)]. f_equal. unfold eo. lia.
    + rewrite (proj2 H3) by (unfold eo; simpl; lia). rewrite (proj2 H2) by (unfold eo; fold n; lia).
      etransitivity; [|exact (proj1 H1 0%nat 0 eq_refl)]. f_equal. unfold eo. lia.
    + intros i a Hi. pose proof (lookup_lt_Some _ _ _ Hi) as Hin. fold n in Hin.
      assert (Hrev : reverse args !! (n - S i)%nat = Some a).
      { rewrite reverse_lookup by (fold n; lia). rewrite <- Hi. f_equal. fold n. lia. }
      destruct (lookup_lt_is_Some_2 (arg_offsets 4096 (reverse args)) (n - S i)) as [o Ho].
      { rewrite length_arg_offsets, length_reverse. fold n. lia. }
      destruct (arg_offsets_range _ _ _ _ _ Ho Hrev) as [Hlo Hhi]. rewrite args_size_reverse in Hlo. fold off1 in Hlo.
      exists o. split; [|split; [unfold eo; fold n; lia|split; [lia|]]].
      * rewrite (proj2 H3) by (unfold eo; simpl; fold n; lia).
        rewrite <- (proj1 H2 (n - S i)%nat (USER_STACK_TOP_PAGE_VADDR + o)).
        -- f_equal. unfold eo. fold n. lia.
        -- unfold vs. by rewrite list_lookup_fmap, Ho.
      * rewrite (pushed_load_bytes _ _ _ _ _ _ H3) by mlia. rewrite (pushed_load_bytes _ _ _ _ _ _ H2) by mlia.
        rewrite (pushed_load_bytes _ _ _ _ _ _ H1) by mlia. by apply (Hstr (n - S i)%nat).
  - intros x Hx. assert (Hxp : ¬ (P ≤ x < P + 4096)). { intros Hr. apply Hx. unfold page_of. mlia. }
    rewrite (proj2 H3) by (simpl; unfold eo in Heo; lia). rewrite (proj2 H2) by (unfold eo in Heo; lia).
    rewrite (proj2 H1) by (simpl; unfold eo in Heo; lia). apply Hout. unfold word_base. mlia.
  - apply (pushed_u32 _ _ _ _ H3); [apply (pushed_u32 _ _ _ _ H2); [apply (pushed_u32 _ _ _ _ H1); [done|]|]|].
    + by apply Forall_singleton.
    + apply Forall_fmap, Forall_lookup. intros j o Ho. cbn.
      destruct (lookup_lt_is_Some_2 (reverse args) j) as [a Ha].
      { apply lookup_lt_Some in Ho. by rewrite length_arg_offsets in Ho. }
      destruct (arg_offsets_range _ _ _ _ _ Ho Ha). rewrite args_size_reverse in *.
      unfold USER_STACK_TOP_PAGE_VADDR, is_u32. lia.
    + unfold fin. repeat (apply Forall_cons; split; [unfold USER_STACK_TOP_PAGE_VADDR, is_u32; lia|]). by apply Forall_nil.
Qed.

(** A program started with the stack pointer that [place_args]
    returns finds its arguments: above a dummy return address it reads [argc],
    and [argv], which points to [argc] pointers followed by a null pointer; each
    points to a copy of the argument with its terminating NUL.  The stack
    pointer is word aligned, everything lies in the stack page, and no other
    page is written.  At most 16 arguments are passed on. *)
Theorem place_args_roundtrip (P : Z) (argv : list (list Z)) (s : paging_t)
  (Hwf : paging_wf s) (HPa : P mod 4096 = 0) (HP : 0 ≤ P < 1073741824)
  (Hsize : args_size (take 16 argv) + 83 ≤ 4096) (Hstr : Forall cstring argv) :
  ∃ eo s', place_args P argv s = Some (USER_STACK_TOP_PAGE_VADDR + eo, s') ∧
    arg_block (pg_mem s') P eo (take 16 argv) ∧ pg_pmm s' = pg_pmm s ∧
    ∀ x, page_of x ≠ P → pg_mem s' x = pg_mem s x.
Proof.
  destruct (place_args_ok P argv s Hwf HPa HP Hsize) as (eo & m & E & Hb & Ho & _).
  - apply Forall_take. eapply Forall_impl; [exact Hstr|]. intros a Ha.
    eapply Forall_impl; [exact Ha|]. unfold is_u8. simpl. lia.
  - by exists eo, (with_mem m s).
Qed.

Lemma place_args_roundtrip_witness :
  ∃ eo s', place_args 0x900000 [str "ls"; str "-l"; str "/bin"] paging_boot = Some (USER_STACK_TOP_PAGE_VADDR + eo, s') ∧
    pg_mem s' (0x900000 + eo + 4) = 3.
Proof.
  destruct (place_args_roundtrip 0x900000 [str "ls"; str "-l"; str "/bin"] paging_boot) as (eo & s' & E & Hb & _).
  - exact paging_boot_wf.
  - reflexivity.
  - lia.
  - vm_compute. discriminate.
  - repeat constructor; vm_compute; discriminate.
  - exists eo, s'. split; [exact E|]. destruct Hb as (_ & _ & _ & _ & H & _). exact H.
Defined.

(** The 64 bytes that the copy loop keeps free are too few for 16 arguments:
    when the strings fill the page up to them, the words at the four addresses
    below the page are overwritten. *)
Example place_args_overflow :
  (λ r, (fst r, pg_mem (snd r) (0x900000 - 16), pg_mem (snd r) (0x900000 - 12))) <$>
    place_args 0x900000 (replicate 15 [] ++ [replicate 4016 97])
      (with_mem (λ _, 7) paging_boot) = Some (USER_STACK_TOP_PAGE_VADDR - 16, 0, 16).
Proof. vm_compute. reflexivity. Qed.
