(* ===== verification/Task.v ===== *)
(** * Tasks ([src/src/proc/task.c])

    Sixteen task slots; the slots that have been used form a circular list, from
    which the scheduler picks the next ready task.  The state is the whole
    kernel as the tasks use it: the slots with the other globals of the file,
    the address spaces, the files, the windows (with the kernel heap) and the
    network, which is a parameter.  A function that yields in a loop is
    modelled up to the yield, which is a call of [schedule]. *)

From S2P Require Import Prelude Kring KHeap Pmm Paging PhysMem Pipe Vfs Window Loader ArgBlock.

(** ** Data *)

Definition MAX_TASKS : nat := 16.
Definition TASK_NAME_MAX : nat := 32.
Definition TASK_STACK_SIZE : Z := 8192.

Definition ARCH_EFLAGS_DEFAULT : Z := 0x202.
Definition KERNEL_CODE_SEG : Z := 0x08.
Definition KERNEL_DATA_SEG : Z := 0x10.
Definition USER_CODE_SEL : Z := 0x1B.
Definition USER_DATA_SEL : Z := 0x23.

Inductive task_state_t := TASK_READY | TASK_RUNNING | TASK_BLOCKED | TASK_TERMINATED.

#[global] Instance task_state_eq_dec : EqDecision task_state_t.
Proof. solve_decision. Defined.

(** [next] is the index of the slot that the pointer points to; [fd_table] is
    the block of the table with its contents. *)
Record task_t : Type := mk_task {
  t_id : Z;
  t_parent_id : Z;
  t_name : list Z;
  t_state : task_state_t;
  t_stack : option Z;
  t_stack_top : option Z;
  t_entry : option Z;
  t_next : option nat;
  t_is_kernel : bool;
  t_kernel_stack : option Z;
  t_kernel_stack_top : Z;
  t_exit_code : Z;
  t_waiting_for : Z;
  t_runtime_ticks : Z;
  t_detached : Z;
  t_start_ticks : Z;
  t_page_dir : option Z;
  t_user_brk_min : Z;
  t_user_brk : Z;
  t_stdout_wid : Z;
  t_fd_table : option (Z * list vfs_fd_t);
  t_cwd : list Z
}.

(** Assignments to one field. *)
Definition set_state (x : task_state_t) (t : task_t) : task_t :=
  mk_task (t_id t) (t_parent_id t) (t_name t) x (t_stack t) (t_stack_top t) (t_entry t) (t_next t)
    (t_is_kernel t) (t_kernel_stack t) (t_kernel_stack_top t) (t_exit_code t) (t_waiting_for t)
    (t_runtime_ticks t) (t_detached t) (t_start_ticks t) (t_page_dir t) (t_user_brk_min t)
    (t_user_brk t) (t_stdout_wid t) (t_fd_table t) (t_cwd t).
Definition set_stack (x : option Z) (t : task_t) : task_t :=
  mk_task (t_id t) (t_parent_id t) (t_name t) (t_state t) x (t_stack_top t) (t_entry t) (t_next t)
    (t_is_kernel t) (t_kernel_stack t) (t_kernel_stack_top t) (t_exit_code t) (t_waiting_for t)
    (t_runtime_ticks t) (t_detached t) (t_start_ticks t) (t_page_dir t) (t_user_brk_min t)
    (t_user_brk t) (t_stdout_wid t) (t_fd_table t) (t_cwd t).
Definition set_stack_top (x : option Z) (t : task_t) : task_t :=
  mk_task (t_id t) (t_parent_id t) (t_name t) (t_state t) (t_stack t) x (t_entry t) (t_next t)
    (t_is_kernel t) (t_kernel_stack t) (t_kernel_stack_top t) (t_exit_code t) (t_waiting_for t)
    (t_runtime_ticks t) (t_detached t) (t_start_ticks t) (t_page_dir t) (t_user_brk_min t)
    (t_user_brk t) (t_stdout_wid t) (t_fd_table t) (t_cwd t).
Definition set_next (x : option nat) (t : task_t) : task_t :=
  mk_task (t_id t) (t_parent_id t) (t_name t) (t_state t) (t_stack t) (t_stack_top t) (t_entry t) x
    (t_is_kernel t) (t_kernel_stack t) (t_kernel_stack_top t) (t_exit_code t) (t_waiting_for t)
    (t_runtime_ticks t) (t_detached t) (t_start_ticks t) (t_page_dir t) (t_user_brk_min t)
    (t_user_brk t) (t_stdout_wid t) (t_fd_table t) (t_cwd t).
Definition set_kernel_stack (x : option Z) (t : task_t) : task_t :=
  mk_task (t_id t) (t_parent_id t) (t_name t) (t_state t) (t_stack t) (t_stack_top t) (t_entry t)
    (t_next t) (t_is_kernel t) x (t_kernel_stack_top t) (t_exit_code t) (t_waiting_for t)
    (t_runtime_ticks t) (t_detached t) (t_start_ticks t) (t_page_dir t) (t_user_brk_min t)
    (t_user_brk t) (t_stdout_wid t) (t_fd_table t) (t_cwd t).
Definition set_exit_code (x : Z) (t : task_t) : task_t :=
  mk_task (t_id t) (t_parent_id t) (t_name t) (t_state t) (t_stack t) (t_stack_top t) (t_entry t)
    (t_next t) (t_is_kernel t) (t_kernel_stack t) (t_kernel_stack_top t) x (t_waiting_for t)
    (t_runtime_ticks t) (t_detached t) (t_start_ticks t) (t_page_dir t) (t_user_brk_min t)
    (t_user_brk t) (t_stdout_wid t) (t_fd_table t) (t_cwd t).
Definition set_waiting_for (x : Z) (t : task_t) : task_t :=
  mk_task (t_id t) (t_parent_id t) (t_name t) (t_state t) (t_stack t) (t_stack_top t) (t_entry t)
    (t_next t) (t_is_kernel t) (t_kernel_stack t) (t_kernel_stack_top t) (t_exit_code t) x
    (t_runtime_ticks t) (t_detached t) (t_start_ticks t) (t_page_dir t) (t_user_brk_min t)
    (t_user_brk t) (t_stdout_wid t) (t_fd_table t) (t_cwd t).
Definition set_runtime_ticks (x : Z) (t : task_t) : task_t :=
  mk_task (t_id t) (t_parent_id t) (t_name t) (t_state t) (t_stack t) (t_stack_top t) (t_entry t)
    (t_next t) (t_is_kernel t) (t_kernel_stack t) (t_kernel_stack_top t) (t_exit_code t)
    (t_waiting_for t) x (t_detached t) (t_start_ticks t) (t_page_dir t) (t_user_brk_min t)
    (t_user_brk t) (t_stdout_wid t) (t_fd_table t) (t_cwd t).
Definition set_detached (x : Z) (t : task_t) : task_t :=
  mk_task (t_id t) (t_parent_id t) (t_name t) (t_state t) (t_stack t) (t_stack_top t) (t_entry t)
    (t_next t) (t_is_kernel t) (t_kernel_stack t) (t_kernel_stack_top t) (t_exit_code t)
    (t_waiting_for t) (t_runtime_ticks t) x (t_start_ticks t) (t_page_dir t) (t_user_brk_min t)
    (t_user_brk t) (t_stdout_wid t) (t_fd_table t) (t_cwd t).
Definition set_page_dir (x : option Z) (t : task_t) : task_t :=
  mk_task (t_id t) (t_parent_id t) (t_name t) (t_state t) (t_stack t) (t_stack_top t) (t_entry t)
    (t_next t) (t_is_kernel t) (t_kernel_stack t) (t_kernel_stack_top t) (t_exit_code t)
    (t_waiting_for t) (t_runtime_ticks t) (t_detached t) (t_start_ticks t) x (t_user_brk_min t)
    (t_user_brk t) (t_stdout_wid t) (t_fd_table t) (t_cwd t).
Definition set_stdout_wid (x : Z) (t : task_t) : task_t :=
  mk_task (t_id t) (t_parent_id t) (t_name t) (t_state t) (t_stack t) (t_stack_top t) (t_entry t)
    (t_next t) (t_is_kernel t) (t_kernel_stack t) (t_kernel_stack_top t) (t_exit_code t)
    (t_waiting_for t) (t_runtime_ticks t) (t_detached t) (t_start_ticks t) (t_page_dir t)
    (t_user_brk_min t) (t_user_brk t) x (t_fd_table t) (t_cwd t).
Definition set_fd_table (x : option (Z * list vfs_fd_t)) (t : task_t) : task_t :=
  mk_task (t_id t) (t_parent_id t) (t_name t) (t_state t) (t_stack t) (t_stack_top t) (t_entry t)
    (t_next t) (t_is_kernel t) (t_kernel_stack t) (t_kernel_stack_top t) (t_exit_code t)
    (t_waiting_for t) (t_runtime_ticks t) (t_detached t) (t_start_ticks t) (t_page_dir t)
    (t_user_brk_min t) (t_user_brk t) (t_stdout_wid t) x (t_cwd t).
Definition set_cwd (x : list Z) (t : task_t) : task_t :=
  mk_task (t_id t) (t_parent_id t) (t_name t) (t_state t) (t_stack t) (t_stack_top t) (t_entry t)
    (t_next t) (t_is_kernel t) (t_kernel_stack t) (t_kernel_stack_top t) (t_exit_code t)
    (t_waiting_for t) (t_runtime_ticks t) (t_detached t) (t_start_ticks t) (t_page_dir t)
    (t_user_brk_min t) (t_user_brk t) (t_stdout_wid t) (t_fd_table t) x.
Definition set_brk (lo brk : Z) (t : task_t) : task_t :=
  mk_task (t_id t) (t_parent_id t) (t_name t) (t_state t) (t_stack t) (t_stack_top t) (t_entry t)
    (t_next t) (t_is_kernel t) (t_kernel_stack t) (t_kernel_stack_top t) (t_exit_code t)
    (t_waiting_for t) (t_runtime_ticks t) (t_detached t) (t_start_ticks t) (t_page_dir t) lo brk
    (t_stdout_wid t) (t_fd_table t) (t_cwd t).

(** [task->state == st] *)
Definition in_state (st : task_state_t) (t : task_t) : bool := bool_decide (t_state t = st).

Definition task_zero : task_t :=
  mk_task 0 0 [] TASK_READY None None None None false None 0 0 0 0 0 0 None 0 0 0 None [].

(** What the tasks use of the network. *)
Class NetSockets (N : Type) := {
  net_sock_close_all_for_pid : Z → N → N
}.

Record kern (K H N : Type) : Type := mk_kern {
  k_tasks : list task_t;
  k_current : option nat;
  k_head : option nat;
  k_next_id : Z;
  k_enabled : bool;
  k_paging : paging_t;
  k_vfs : vfs_t K;
  k_wins : win_state H;
  k_net : N;
  k_ticks : Z;
  k_esp0 : Z
}.
Arguments mk_kern {K H N}.
Arguments k_tasks {K H N}.
Arguments k_current {K H N}.
Arguments k_head {K H N}.
Arguments k_next_id {K H N}.
Arguments k_enabled {K H N}.
Arguments k_paging {K H N}.
Arguments k_vfs {K H N}.
Arguments k_wins {K H N}.
Arguments k_net {K H N}.
Arguments k_ticks {K H N}.
Arguments k_esp0 {K H N}.

Section task.
Context {K H N : Type} `{!KHeap H} `{!NetSockets N}.
(** The address of [task_entry_wrapper]. *)
Context (task_entry_wrapper : Z).

Notation KS := (kern K H N).

(** ** Access to the parts of the state *)

Definition with_tasks (l : list task_t) (k : KS) : KS :=
  mk_kern l (k_current k) (k_head k) (k_next_id k) (k_enabled k) (k_paging k) (k_vfs k) (k_wins k)
          (k_net k) (k_ticks k) (k_esp0 k).
Definition with_current (c : option nat) (k : KS) : KS :=
  mk_kern (k_tasks k) c (k_head k) (k_next_id k) (k_enabled k) (k_paging k) (k_vfs k) (k_wins k)
          (k_net k) (k_ticks k) (k_esp0 k).
Definition with_head (h : option nat) (k : KS) : KS :=
  mk_kern (k_tasks k) (k_current k) h (k_next_id k) (k_enabled k) (k_paging k) (k_vfs k) (k_wins k)
          (k_net k) (k_ticks k) (k_esp0 k).
Definition with_next_id (i : Z) (k : KS) : KS :=
  mk_kern (k_tasks k) (k_current k) (k_head k) i (k_enabled k) (k_paging k) (k_vfs k) (k_wins k)
          (k_net k) (k_ticks k) (k_esp0 k).
Definition with_enabled (b : bool) (k : KS) : KS :=
  mk_kern (k_tasks k) (k_current k) (k_head k) (k_next_id k) b (k_paging k) (k_vfs k) (k_wins k)
          (k_net k) (k_ticks k) (k_esp0 k).
Definition with_paging (p : paging_t) (k : KS) : KS :=
  mk_kern (k_tasks k) (k_current k) (k_head k) (k_next_id k) (k_enabled k) p (k_vfs k) (k_wins k)
          (k_net k) (k_ticks k) (k_esp0 k).
Definition with_vfs (v : vfs_t K) (k : KS) : KS :=
  mk_kern (k_tasks k) (k_current k) (k_head k) (k_next_id k) (k_enabled k) (k_paging k) v (k_wins k)
          (k_net k) (k_ticks k) (k_esp0 k).
Definition with_wins (w : win_state H) (k : KS) : KS :=
  mk_kern (k_tasks k) (k_current k) (k_head k) (k_next_id k) (k_enabled k) (k_paging k) (k_vfs k) w
          (k_net k) (k_ticks k) (k_esp0 k).
Definition with_net (n : N) (k : KS) : KS :=
  mk_kern (k_tasks k) (k_current k) (k_head k) (k_next_id k) (k_enabled k) (k_paging k) (k_vfs k) (k_wins k)
          n (k_ticks k) (k_esp0 k).
Definition with_esp0 (e : Z) (k : KS) : KS :=
  mk_kern (k_tasks k) (k_current k) (k_head k) (k_next_id k) (k_enabled k) (k_paging k) (k_vfs k) (k_wins k)
          (k_net k) (k_ticks k) e.

Definition on_paging {A} (m : M paging_t A) : M KS A := λ k,
  match m (k_paging k) with None => None | Some (a, p) => Some (a, with_paging p k) end.
Definition on_files {A} (m : M (vfs_t K) A) : M KS A := λ k,
  match m (k_vfs k) with None => None | Some (a, v) => Some (a, with_vfs v k) end.
Definition on_wins {A} (m : M (win_state H) A) : M KS A := λ k,
  match m (k_wins k) with None => None | Some (a, w) => Some (a, with_wins w k) end.
Definition on_loader {A} (m : M (lst K) A) : M KS A := λ k,
  match m (k_vfs k, k_paging k) with
  | None => None
  | Some (a, (v, p)) => Some (a, with_vfs v (with_paging p k))
  end.

Definition k_malloc (size : Z) : M KS (option Z) := λ k,
  let '(r, h) := kmalloc size (win_heap (k_wins k)) in
  Some (r, with_wins (mk_wins (windows (k_wins k)) h) k).
Definition k_free (p : Z) : M KS unit := λ k,
  Some (tt, with_wins (mk_wins (windows (k_wins k)) (kfree p (win_heap (k_wins k)))) k).

Definition get_task (i : nat) : M KS task_t := λ k, t ← k_tasks k !! i; Some (t, k).
Definition upd_task (i : nat) (f : task_t → task_t) : M KS unit := λ k,
  t ← k_tasks k !! i; Some (tt, with_tasks (<[i := f t]> (k_tasks k)) k).

(** ** Creation *)

Definition idle_task : task_t :=
  mk_task 0 0 (str "kernel") TASK_RUNNING None None None (Some 0%nat) true None 0 0 0 0 0 0 None 0 0 0 None (str "/").

Definition task_init : M KS unit := λ k,
  Some (tt, with_head (Some 0%nat) (with_current (Some 0%nat)
    (with_tasks (idle_task :: replicate (MAX_TASKS - 1) task_zero) k))).

Definition task_current (k : KS) : option task_t := i ← k_current k; k_tasks k !! i.

(** The search for a slot, with whether the slot was used before; the kernel
    stack that a terminated task left is freed. *)
Definition find_slot : M KS (option (nat * bool)) :=
  k ← get;
  match find_index (λ t, in_state TASK_TERMINATED t || (t_id t =? 0)) (drop 1 (k_tasks k)) with
  | None => mret None
  | Some j =>
    let i := S j in
    t ← get_task i;
    if in_state TASK_TERMINATED t then
      match t_kernel_stack t with
      | Some p => k_free p;; upd_task i (set_kernel_stack None)
      | None => mret tt
      end;;
      mret (Some (i, true))
    else mret (Some (i, false))
  end.

(** [task->name] *)
Definition task_name (name : list Z) : list Z := take (TASK_NAME_MAX - 1) name.

(** The end of both creation functions: a slot that was not used before is
    inserted after the current task. *)
Definition link_task (i : nat) (reusing : bool) : M KS unit :=
  if reusing then mret tt else
  k ← get;
  match k_head k with
  | None => upd_task i (set_next (Some i));; modify (with_head (Some i))
  | Some _ =>
    c ← lift (k_current k);
    ct ← get_task c;
    upd_task i (set_next (t_next ct));;
    upd_task c (set_next (Some i))
  end.

(** The stack of a new kernel task, in the order in which it is pushed. *)
Definition kernel_frame : list Z :=
  [ARCH_EFLAGS_DEFAULT; KERNEL_CODE_SEG; task_entry_wrapper; 0; 0; 0; 0; 0; 0; 0; 0;
   KERNEL_DATA_SEG; KERNEL_DATA_SEG; KERNEL_DATA_SEG; KERNEL_DATA_SEG].

Definition task_create (name : list Z) (entry : Z) : M KS (option nat) :=
  o ← find_slot;
  match o with
  | None => mret None
  | Some (i, reusing) =>
    stack ← k_malloc TASK_STACK_SIZE;
    match stack with
    | None => mret None
    | Some stack =>
      k ← get;
      t ← get_task i;
      modify (with_next_id (u32 (k_next_id k + 1)));;
      sp ← on_paging (push_words (u32 (stack + TASK_STACK_SIZE)) kernel_frame);
      upd_task i (λ t, mk_task (k_next_id k) (default 0 (t_id <$> task_current k)) (task_name name) TASK_READY
        (Some stack) (Some sp) (Some entry) (t_next t) true None 0 (t_exit_code t) (t_waiting_for t)
        0 0 (k_ticks k) None 0 0 (-1) (t_fd_table t) (str "/"));;
      link_task i reusing;;
      mret (Some i)
    end
  end.

(** The stack from which a new user task is resumed. *)
Definition user_frame_words (user_esp elf_entry : Z) : list Z :=
  [USER_DATA_SEL; user_esp; ARCH_EFLAGS_DEFAULT; USER_CODE_SEL; elf_entry; 0; 0; 0; 0; 0; 0; 0; 0;
   USER_DATA_SEL; USER_DATA_SEL; USER_DATA_SEL; USER_DATA_SEL].

(** The new descriptor table: the three console descriptors. *)
Definition console_fd (i : Z) : vfs_fd_t := mk_fd true (-1) i (if i =? 0 then O_RDONLY else O_WRONLY) [].
Definition new_fd_table : list vfs_fd_t :=
  [console_fd 0; console_fd 1; console_fd 2] ++ replicate (VFS_MAX_FDS_PER_TASK - 3) fd_zero.

(** [sizeof(vfs_fd_table_t)] *)
Definition FD_TABLE_SIZE : Z := 1280.

(** The new task, a null pointer, or the loader waits for a pipe. *)
Inductive create_result := CTask (i : nat) | CNull | CBlocked.

(** The part of [task_create_user_elf] after the loader. *)
Definition finish_user_task (i : nat) (reusing : bool) (filename : list Z) (page_dir entry stack_phys user_end : Z)
    (argv : list (list Z)) : M KS create_result :=
  user_esp ← on_paging (place_args stack_phys argv);
  kernel_stack ← k_malloc TASK_STACK_SIZE;
  match kernel_stack with
  | None => on_paging (paging_destroy_address_space (Some page_dir));; mret CNull
  | Some kernel_stack =>
    k ← get;
    let parent := task_current k in
    modify (with_next_id (u32 (k_next_id k + 1)));;
    let top := u32 (kernel_stack + TASK_STACK_SIZE) in
    sp ← on_paging (push_words top (user_frame_words user_esp entry));
    let cwd := match parent with
               | Some p => if chr (t_cwd p) 0 =? 0 then str "/" else t_cwd p
               | None => str "/"
               end in
    upd_task i (λ t, mk_task (k_next_id k) (default 0 (t_id <$> parent)) (task_name filename) TASK_READY
      None (Some sp) None (t_next t) false (Some kernel_stack) top (t_exit_code t) (t_waiting_for t)
      0 0 (k_ticks k) (Some page_dir) user_end user_end (-1) (t_fd_table t) cwd);;
    fdt ← k_malloc FD_TABLE_SIZE;
    match fdt with
    | None =>
      upd_task i (set_fd_table None);;
      k_free kernel_stack;;
      on_paging (paging_destroy_address_space (Some page_dir));;
      upd_task i (set_state TASK_TERMINATED);;
      mret CNull
    | Some p =>
      upd_task i (set_fd_table (Some (p, new_fd_table)));;
      link_task i reusing;;
      mret (CTask i)
    end
  end.

(** [argv = []] stands for a null [argv] or [argc <= 0]. *)
Definition task_create_user_elf (filename : list Z) (argv : list (list Z)) : M KS create_result :=
  let argv := match argv with [] => [filename] | _ => argv end in
  o ← find_slot;
  match o with
  | None => mret CNull
  | Some (i, reusing) =>
    d ← on_paging paging_create_address_space;
    match d with
    | None => mret CNull
    | Some page_dir =>
      r ← on_loader (load_elf_into page_dir filename);
      match r with
      | LBlocked => mret CBlocked
      | LReturned entry outs =>
        if entry =? 0 then on_paging (paging_destroy_address_space (Some page_dir));; mret CNull else
        '(stack_phys, user_end) ← lift outs;
        finish_user_task i reusing filename page_dir entry stack_phys user_end argv
      end
    end
  end.

(** ** The scheduler *)

(** The loop of [schedule] from [next] on; the list has at most [MAX_TASKS]
    elements, which bounds the number of iterations. *)
Fixpoint find_ready (fuel : nat) (l : list task_t) (next start : nat) : option nat :=
  match fuel with
  | O => None
  | S fuel =>
    t ← l !! next;
    if in_state TASK_READY t then Some next else
    next ← t_next t;
    if bool_decide (next = start) then Some next else find_ready fuel l next start
  end.

Definition paging_switch_kernel : M KS unit :=
  k ← get; d ← lift (current_page_dir (k_paging k)); on_paging (paging_switch d).

Definition schedule (current_esp : Z) (is_hw_tick : bool) : M KS (option Z) :=
  k ← get;
  match k_current k with
  | None => mret (Some current_esp)
  | Some c =>
    if negb (k_enabled k) then mret (Some current_esp) else
    ct ← get_task c;
    (if is_hw_tick && in_state TASK_RUNNING ct
     then upd_task c (set_runtime_ticks (u32 (t_runtime_ticks ct + 1))) else mret tt);;
    upd_task c (set_stack_top (Some current_esp));;
    (if in_state TASK_RUNNING ct then upd_task c (set_state TASK_READY) else mret tt);;
    k ← get;
    start ← lift (t_next ct);
    next ← lift (find_ready (S MAX_TASKS) (k_tasks k) start start);
    nt ← get_task next;
    let next := if in_state TASK_READY nt then next else 0%nat in
    modify (with_current (Some next));;
    upd_task next (set_state TASK_RUNNING);;
    nt ← get_task next;
    (if negb (t_is_kernel nt) && negb (t_kernel_stack_top nt =? 0)
     then modify (with_esp0 (t_kernel_stack_top nt)) else mret tt);;
    match t_page_dir nt with
    | Some d => on_paging (paging_switch d)
    | None => paging_switch_kernel
    end;;
    mret (t_stack_top nt)
  end.

(** ** Termination *)

(** A task that is blocked waiting for task [id] is made ready. *)
Definition wake (id : Z) (t : task_t) : task_t :=
  if in_state TASK_BLOCKED t && (t_waiting_for t =? id)
  then set_waiting_for 0 (set_state TASK_READY t) else t.

Definition wake_waiters (id : Z) : M KS unit := modify (λ k, with_tasks (wake id <$> k_tasks k) k).

(** The parts of [task_terminate] for the task [t] in slot [i]: its descriptors
    are closed and the table is freed; its address space is destroyed, from the
    kernel's address space, and that of the caller is restored. *)
Definition close_task_files (i : nat) (t : task_t) : M KS unit :=
  match t_fd_table t with
  | Some (p, fds) =>
    k ← get;
    match vfs_close_all (k_vfs k, fds) with
    | None => ub
    | Some (_, (v, _)) => modify (with_vfs v)
    end;;
    k_free p;;
    upd_task i (set_fd_table None)
  | None => mret tt
  end.

Definition free_task_space (i : nat) (t : task_t) : M KS unit :=
  k ← get;
  let saved_dir := ct ← task_current k; t_page_dir ct in
  paging_switch_kernel;;
  match t_page_dir t with
  | Some d => on_paging (paging_destroy_address_space (Some d));; upd_task i (set_page_dir None)
  | None => mret tt
  end;;
  match saved_dir with
  | Some d => if bool_decide (k_current k = Some i) then mret tt else on_paging (paging_switch d)
  | None => mret tt
  end.

Definition task_terminate (i : nat) (code : Z) : M KS unit :=
  t ← get_task i;
  if (t_id t =? 0) || in_state TASK_TERMINATED t then mret tt else
  upd_task i (λ t, set_exit_code code (set_state TASK_TERMINATED t));;
  wake_waiters (t_id t);;
  on_wins (window_cleanup_pid (t_id t));;
  modify (λ k, with_net (net_sock_close_all_for_pid (t_id t) (k_net k)) k);;
  close_task_files i t;;
  free_task_space i t;;
  upd_task i (set_stack None).

(** The effect before the endless loop of yields. *)
Definition task_exit_with_code (code : Z) : M KS unit :=
  k ← get;
  match k_current k with
  | None => mret tt
  | Some c => t ← get_task c; if t_id t =? 0 then mret tt else task_terminate c code
  end.

Definition task_exit : M KS unit := task_exit_with_code 0.

Definition task_get_by_id (id : Z) (k : KS) : option nat := find_index (λ t, t_id t =? id) (k_tasks k).

Definition task_get_by_index (idx : Z) (k : KS) : option task_t :=
  if (idx <? 0) || (Z.of_nat MAX_TASKS <=? idx) then None else k_tasks k !! Z.to_nat idx.

(** [None] when the call does not return: the task killed itself. *)
Definition task_kill (task_id code : Z) : M KS (option Z) :=
  k ← get;
  match task_get_by_id task_id k with
  | None => mret (Some (-1))
  | Some i =>
    t ← get_task i;
    if (t_id t =? 0) || t_is_kernel t then mret (Some (-1)) else
    if in_state TASK_TERMINATED t then mret (Some (-2)) else
    if bool_decide (k_current k = Some i) then task_exit_with_code code;; mret None
    else task_terminate i code;; mret (Some 0)
  end.

(** ** Queries *)

Record taskinfo_entry_t : Type := mk_taskinfo {
  ti_id : Z; ti_parent_id : Z; ti_ring : Z; ti_state : task_state_t; ti_runtime_ticks : Z;
  ti_start_ticks : Z; ti_name : list Z
}.

Fixpoint list_info_loop (l : list task_t) (i : nat) (count max : Z) : list taskinfo_entry_t :=
  match l with
  | [] => []
  | t :: l =>
    if negb (count <? max) then [] else
    if (t_id t =? 0) && negb (i =? 0)%nat then list_info_loop l (S i) count max else
    if in_state TASK_TERMINATED t then list_info_loop l (S i) count max else
    mk_taskinfo (t_id t) (t_parent_id t) (if t_is_kernel t then 0 else 3) (t_state t) (t_runtime_ticks t)
                (t_start_ticks t) (take (TASK_NAME_MAX - 1) (t_name t)) :: list_info_loop l (S i) (count + 1) max
  end.

(** The entries stored; their number is returned. *)
Definition task_list_info (max : Z) (k : KS) : list taskinfo_entry_t :=
  list_info_loop (k_tasks k) 0 0 max.

Definition task_is_enabled (k : KS) : bool := k_enabled k.
Definition task_enable : M KS unit := modify (with_enabled true).

End task.

(** ** The circular list *)

(** Following [next] from [i] visits [p] and then arrives at [j]. *)
Fixpoint chain (l : list task_t) (i : nat) (p : list nat) (j : nat) : Prop :=
  match p with
  | [] => ∃ t, l !! i = Some t ∧ t_next t = Some j
  | x :: p => (∃ t, l !! i = Some t ∧ t_next t = Some x) ∧ chain l x p j
  end.

(** The list, starting at slot [c]. *)
Definition ring (l : list task_t) (c : nat) (rest : list nat) : Prop :=
  chain l c rest c ∧ NoDup (c :: rest).

Definition ready_at (l : list task_t) (i : nat) : bool :=
  match l !! i with Some t => in_state TASK_READY t | None => false end.

(** The lists [l] and [l'] have the same links. *)
Definition same_links (l l' : list task_t) : Prop := t_next <$> l' = t_next <$> l.

Lemma same_links_lookup l l' i t : same_links l l' → l !! i = Some t → ∃ t', l' !! i = Some t' ∧ t_next t' = t_next t.
Proof.
  intros E Hi. assert (H : (t_next <$> l') !! i = Some (t_next t)). { by rewrite E, list_lookup_fmap, Hi. }
  rewrite list_lookup_fmap in H. destruct (l' !! i) as [t'|]; [|done]. injection H as H. by exists t'.
Qed.

Lemma chain_same l l' p : same_links l l' → ∀ i j, chain l i p j → chain l' i p j.
Proof.
  intros Hs. induction p as [|x p IH]; intros i j; cbn.
  - intros (t & Hi & Hn). destruct (same_links_lookup _ _ _ _ Hs Hi) as (t' & ? & E). exists t'. by rewrite E.
  - intros [(t & Hi & Hn) Hc]. split; [|by apply IH].
    destruct (same_links_lookup _ _ _ _ Hs Hi) as (t' & ? & E). exists t'. by rewrite E.
Qed.

Lemma ring_same l l' c rest : same_links l l' → ring l c rest → ring l' c rest.
Proof. intros Hs [Hc Hn]. split; [by eapply chain_same|done]. Qed.

Lemma same_links_insert l i t t' : l !! i = Some t → t_next t' = t_next t → same_links l (<[i := t']> l).
Proof.
  intros Hi E. unfold same_links. rewrite list_fmap_insert, E. apply list_insert_id.
  by rewrite list_lookup_fmap, Hi.
Qed.

Lemma same_links_trans l1 l2 l3 : same_links l1 l2 → same_links l2 l3 → same_links l1 l3.
Proof. unfold same_links. congruence. Qed.

Lemma chain_app l p q i x j : chain l i (p ++ x :: q) j ↔ chain l i p x ∧ chain l x q j.
Proof.
  revert i. induction p as [|y p IH]; intros i; cbn; [done|]. rewrite IH. tauto.
Qed.

(** The list seen from another of its members. *)
Lemma ring_rotate l c p x q : ring l c (p ++ x :: q) → ring l x (q ++ c :: p).
Proof.
  intros [Hc Hn]. split.
  - apply chain_app in Hc as [H1 H2]. by apply chain_app.
  - eapply NoDup_Permutation_proper; [|exact Hn].
    change (c :: p ++ x :: q) with ((c :: p) ++ x :: q). rewrite (Permutation_app_comm (c :: p)). done.
Qed.

Lemma chain_next l i p j : chain l i p j → ∃ t x, l !! i = Some t ∧ t_next t = Some x ∧ (p ++ [j]) !! 0%nat = Some x.
Proof. destruct p as [|x p]; cbn; [intros (t & ? & ?); eauto|intros [(t & ? & ?) _]; eauto]. Qed.

(** The search finds the first ready member of a path, or comes back to its
    start. *)
Lemma find_ready_ok l start p : ∀ fuel next, chain l next p start → NoDup (next :: p) → start ∉ p →
  (length p < fuel)%nat →
  find_ready fuel l next start = Some
    (match find_index (ready_at l) (next :: p) with
     | Some k => default start ((next :: p) !! k)
     | None => start
     end).
Proof.
  induction p as [|x p IH]; intros [|fuel] next Hc Hnd Hs Hf; try (simpl in Hf; lia); cbn [find_ready].
  - destruct Hc as (t & Hi & Hn). rewrite Hi. cbn. unfold ready_at at 1. rewrite Hi.
    destruct (in_state TASK_READY t); [done|]. rewrite Hn. cbn. by rewrite bool_decide_eq_true_2.
  - destruct Hc as [(t & Hi & Hn) Hc]. rewrite Hi. cbn [mbind option_bind].
    cbn [find_index]. unfold ready_at at 1. rewrite Hi. destruct (in_state TASK_READY t); [done|].
    rewrite Hn. cbn [mbind option_bind]. rewrite bool_decide_eq_false_2 by set_solver.
    rewrite IH; [|done|by inversion Hnd|set_solver|simpl in Hf; lia].
    change (if ready_at l x then Some 0%nat else S <$> find_index (ready_at l) p) with (find_index (ready_at l) (x :: p)).
    by destruct (find_index (ready_at l) (x :: p)) as [k|].
Qed.

Lemma chain_lt l p : ∀ i j x, chain l i p j → x ∈ i :: p → (x < length l)%nat.
Proof.
  induction p as [|y p IH]; intros i j x; cbn.
  - intros (t & Hi & _) ->%list_elem_of_singleton. by apply lookup_lt_Some in Hi.
  - intros [(t & Hi & _) Hc] [->|Hx]%elem_of_cons; [by apply lookup_lt_Some in Hi|]. by eapply IH.
Qed.

Lemma ring_length l c rest : ring l c rest → (length (c :: rest) ≤ length l)%nat.
Proof.
  intros [Hc Hn]. rewrite <- (length_seq (length l) 0). apply submseteq_length, NoDup_submseteq; [done|].
  intros x Hx. apply elem_of_seq. split; [lia|]. simpl. by apply (chain_lt _ _ _ _ _ Hc).
Qed.

(** The slots in the order in which the scheduler looks at them. *)
Lemma find_ready_ring l c rest : ring l c rest →
  ∃ start t, l !! c = Some t ∧ t_next t = Some start ∧
    find_ready (S (length l)) l start start = Some
      (match find_index (ready_at l) (rest ++ [c]) with
       | Some j => default start ((rest ++ [c]) !! j)
       | None => start
       end) ∧ (∃ x, l !! start = Some x) ∧ start ∈ rest ++ [c].
Proof.
  intros Hr. pose proof (ring_length _ _ _ Hr) as Hlen.
  destruct (chain_next _ _ _ _ (proj1 Hr)) as (t & start & Hi & Hn & Hs). exists start, t. split; [done|]. split; [done|].
  assert (Hst : ∃ p, rest ++ [c] = start :: p).
  { destruct (rest ++ [c]) as [|y p]; [done|]. injection Hs as ->. by exists p. }
  destruct Hst as [p Hp].
  assert (Hr' : chain l start p start ∧ NoDup (start :: p)).
  { destruct rest as [|y rest].
    - injection Hp as <- <-. split; [exact (proj1 Hr)|exact (proj2 Hr)].
    - injection Hp as -> <-. exact (ring_rotate l c [] start rest Hr). }
  destruct Hr' as [Hc Hnd]. rewrite Hp. split; [|split].
  - apply find_ready_ok; [done|done|by inversion Hnd|].
    assert (length (rest ++ [c]) = S (length p)) by (by rewrite Hp). rewrite length_app in *. simpl in *. lia.
  - assert (start < length l)%nat as [x Hx]%lookup_lt_is_Some_2; [|by exists x].
    apply (chain_lt _ _ _ _ _ Hc). apply list_elem_of_here.
  - apply list_elem_of_here.
Qed.

Lemma find_index_lookup {A} (p : A → bool) l j : find_index p l = Some j → ∃ x, l !! j = Some x ∧ p x = true.
Proof. intros [H _]%find_index_Some. done. Qed.

(** What [schedule] does to the interrupted task. *)
Definition preempted (esp : Z) (tick : bool) (t : task_t) : task_t :=
  let t1 := if tick && in_state TASK_RUNNING t then set_runtime_ticks (u32 (t_runtime_ticks t + 1)) t else t in
  let t2 := set_stack_top (Some esp) t1 in
  if in_state TASK_RUNNING t then set_state TASK_READY t2 else t2.

(** The slot that is chosen: the first ready one after [c], or 0. *)
Definition chosen (l : list task_t) (c : nat) (rest : list nat) : nat :=
  match find_index (ready_at l) (rest ++ [c]) with
  | Some j => default 0%nat ((rest ++ [c]) !! j)
  | None => 0%nat
  end.

Section task_proofs.
Context {K H N : Type} `{!KHeap H} `{!NetSockets N}.
Notation KS := (kern K H N).

(** The scheduler's own state. *)
Record sched_wf (k : KS) (c : nat) (rest : list nat) : Prop := {
  sw_tasks : length (k_tasks k) = MAX_TASKS;
  sw_current : k_current k = Some c;
  sw_ring : ring (k_tasks k) c rest;
  sw_idle : 0%nat ∈ c :: rest;
  sw_dir : ∃ d, current_page_dir (k_paging k) = Some d
}.

Definition task_dir (k : KS) (t : task_t) : option Z :=
  match t_page_dir t with Some d => Some d | None => current_page_dir (k_paging k) end.

Lemma schedule_ok (k : KS) c rest esp tick ct :
  sched_wf k c rest → k_enabled k = true → k_tasks k !! c = Some ct →
  let l1 := <[c := preempted esp tick ct]> (k_tasks k) in
  let nx := chosen l1 c rest in
  ∃ nt d k', l1 !! nx = Some nt ∧ task_dir k nt = Some d ∧
    schedule esp tick k = Some (t_stack_top nt, k') ∧
    k' = with_paging (mk_paging (pg_pmm (k_paging k)) (pg_mem (k_paging k)) (current_page_dir (k_paging k))
           (current_page_tables (k_paging k)) (vbe_dir_indices (k_paging k)) (vbe_dir_count (k_paging k)) (KVIRT_TO_PHYS d))
         (with_esp0 (if negb (t_is_kernel nt) && negb (t_kernel_stack_top nt =? 0) then t_kernel_stack_top nt else k_esp0 k)
         (with_current (Some nx) (with_tasks (<[nx := set_state TASK_RUNNING nt]> l1) k))).
Proof.
  intros [Hlen Hcur Hring Hidle [kd Hkd]] Hen Hct l1 nx.
  assert (Hs1 : same_links (k_tasks k) l1).
  { apply (same_links_insert _ _ ct); [done|]. unfold preempted. repeat case_match; done. }
  assert (Hr1 : ring l1 c rest) by (by apply (ring_same (k_tasks k))).
  assert (Hl1 : length l1 = MAX_TASKS) by (unfold l1; by rewrite length_insert).
  destruct (find_ready_ring l1 c rest Hr1) as (start & t1 & Hc1 & Hn1 & Hfind & (st & Hst) & _).
  assert (Hct1 : t1 = preempted esp tick ct).
  { unfold l1 in Hc1. rewrite list_lookup_insert_eq in Hc1 by (by eapply lookup_lt_Some). by injection Hc1. }
  assert (Hnext : t_next ct = Some start).
  { rewrite <- Hn1, Hct1. unfold preempted. repeat case_match; done. }
  unfold schedule, mbind, M_bind, get. rewrite Hcur, Hen. cbn [negb]. unfold get_task. rewrite Hct. cbn [mbind option_bind].
  (* The updates of the interrupted task. *)
  set (m1 := (if tick && in_state TASK_RUNNING ct then upd_task c (set_runtime_ticks (u32 (t_runtime_ticks ct + 1))) else mret tt)).
  assert (Hm1 : ∃ u, m1 k = Some (u, with_tasks (<[c := if tick && in_state TASK_RUNNING ct then set_runtime_ticks (u32 (t_runtime_ticks ct + 1)) ct else ct]> (k_tasks k)) k)).
  { unfold m1. destruct (tick && in_state TASK_RUNNING ct).
    - unfold upd_task. rewrite Hct. by exists tt.
    - exists tt. unfold mret, M_ret. rewrite list_insert_id by done. by destruct k. }
  destruct Hm1 as [u1 ->]. unfold upd_task at 1. cbn [k_tasks with_tasks].
  assert (Hcl : (c < length (k_tasks k))%nat) by (by eapply lookup_lt_Some).
  rewrite list_lookup_insert_eq by done. cbn [mbind option_bind]. rewrite list_insert_insert_eq.
  set (t2 := set_stack_top _ _).
  match goal with |- context [(if in_state TASK_RUNNING ct then ?a else ?b) ?s] => set (m2 := (if in_state TASK_RUNNING ct then a else b)) end.
  assert (Hm2 : ∃ u, m2 (with_tasks (<[c := t2]> (k_tasks k)) (with_tasks (<[c := if tick && in_state TASK_RUNNING ct then set_runtime_ticks (u32 (t_runtime_ticks ct + 1)) ct else ct]> (k_tasks k)) k)) =
    Some (u, with_tasks l1 k)).
  { unfold m2, l1, preempted. fold t2. destruct (in_state TASK_RUNNING ct).
    - unfold upd_task. cbn [k_tasks with_tasks]. rewrite list_lookup_insert_eq by done. cbn [mbind option_bind].
      rewrite list_insert_insert_eq. by exists tt.
    - by exists tt. }
  destruct Hm2 as [u2 ->]. rewrite Hnext. unfold lift. cbn [k_tasks with_tasks].
  rewrite <- Hl1, Hfind.
  (* The chosen task. *)
  set (r := match find_index (ready_at l1) (rest ++ [c]) with Some j => default start ((rest ++ [c]) !! j) | None => start end).
  assert (Hch : ∃ rt, l1 !! r = Some rt ∧ (if in_state TASK_READY rt then r else 0%nat) = nx).
  { unfold r, nx, chosen. destruct (find_index (ready_at l1) (rest ++ [c])) as [j|] eqn:Ej.
    - destruct (find_index_lookup _ _ _ Ej) as (x & Hx & Hrx). rewrite Hx. cbn [default]. unfold ready_at in Hrx.
      destruct (l1 !! x) as [xt|] eqn:Ex; [|done]. exists xt. rewrite Hrx. done.
    - exists st. split; [done|]. destruct (in_state TASK_READY st) eqn:Es; [|done]. exfalso.
      destruct (find_ready_ring l1 c rest Hr1) as (start' & t1' & Hc1' & Hn1' & _ & _ & Hin).
      assert (start' = start) as -> by congruence. apply list_elem_of_lookup in Hin as [j Hj].
      pose proof (proj1 (find_index_None _ _) Ej j start Hj) as Hf. unfold ready_at in Hf. rewrite Hst in Hf. congruence. }
  destruct Hch as (rt & Hrt & Hnx). cbn [k_tasks with_tasks]. rewrite Hrt. cbn [mbind option_bind]. rewrite Hnx. unfold modify.
  assert (Hnl : ∃ nt, l1 !! nx = Some nt).
  { rewrite <- Hnx. destruct (in_state TASK_READY rt); [by exists rt|].
    apply lookup_lt_is_Some_2. rewrite Hl1. unfold MAX_TASKS. lia. }
  destruct Hnl as [nt Hnt]. unfold upd_task. cbn [k_tasks with_tasks with_current]. rewrite Hnt. cbn [mbind option_bind].
  assert (Hnxl : (nx < length l1)%nat) by (by eapply lookup_lt_Some).
  cbn [k_tasks with_tasks with_current]. rewrite list_lookup_insert_eq by done. cbn [mbind option_bind].
  cbn [t_is_kernel t_kernel_stack_top t_page_dir t_stack_top set_state].
  assert (Hd : ∃ d, task_dir k nt = Some d). { unfold task_dir. destruct (t_page_dir nt); eauto. }
  destruct Hd as [d Hd].
  set (k1 := with_tasks _ (with_current _ _)).
  exists nt, d. eexists. split; [done|]. split; [done|]. split; [|reflexivity].
  unfold task_dir in Hd. destruct (negb (t_is_kernel nt) && _), (t_page_dir nt) as [d'|] eqn:Ed.
  - by injection Hd as ->.
  - unfold paging_switch_kernel, mbind, M_bind, get, lift. subst k1. cbn. rewrite Hd. cbn. by rewrite Hd.
  - by injection Hd as ->.
  - unfold paging_switch_kernel, mbind, M_bind, get, lift. subst k1. cbn. rewrite Hd. cbn. by rewrite Hd.
Qed.

Lemma preempted_next esp tick t : t_next (preempted esp tick t) = t_next t.
Proof. unfold preempted. repeat case_match; done. Qed.


Lemma chosen_split l c rest : 0%nat ∈ c :: rest →
  chosen l c rest = c ∨ ∃ p q, rest = p ++ chosen l c rest :: q.
Proof.
  intros H0. assert (Hin : chosen l c rest ∈ rest ++ [c]).
  { unfold chosen. destruct (find_index _ _) as [j|] eqn:E; [|set_solver].
    destruct (find_index_lookup _ _ _ E) as (x & Hx & _). rewrite Hx. by eapply list_elem_of_lookup_2. }
  apply elem_of_app in Hin as [Hin| ->%list_elem_of_singleton]; [right|by left].
  by apply list_elem_of_split in Hin.
Qed.

(** The list as seen from the chosen slot. *)
Lemma schedule_wf (k k' : KS) c rest esp tick r :
  sched_wf k c rest → k_enabled k = true → schedule esp tick k = Some (r, k') →
  ∃ ct nt, k_tasks k !! c = Some ct ∧
    let l1 := <[c := preempted esp tick ct]> (k_tasks k) in
    let nx := chosen l1 c rest in
    l1 !! nx = Some nt ∧ r = t_stack_top nt ∧
    k_tasks k' = <[nx := set_state TASK_RUNNING nt]> l1 ∧ k_enabled k' = true ∧
    task_dir k nt = task_dir k' nt ∧ Some (pg_cr3 (k_paging k')) = KVIRT_TO_PHYS <$> task_dir k nt ∧
    (nx = c ∧ sched_wf k' nx rest ∨ ∃ p q, rest = p ++ nx :: q ∧ sched_wf k' nx (q ++ c :: p)).
Proof.
  intros Hwf Hen E. pose proof Hwf as [Hlen Hcur Hring Hidle Hdir].
  destruct (chain_next _ _ _ _ (proj1 Hring)) as (ct & _ & Hct & _). exists ct.
  destruct (schedule_ok k c rest esp tick ct Hwf Hen Hct) as (nt & d & k1 & Hnt & Hd & E1 & Hk).
  rewrite E in E1. injection E1 as -> <-. exists nt. split; [done|]. cbv zeta.
  set (l1 := <[c := preempted esp tick ct]> (k_tasks k)) in *. set (nx := chosen l1 c rest) in *.
  split; [done|]. split; [done|]. rewrite Hk. cbn [k_tasks k_enabled k_paging with_paging with_esp0 with_current with_tasks pg_cr3].
  split; [done|]. split; [done|]. split; [by unfold task_dir|]. split; [by rewrite Hd|].
  assert (Hs : same_links (k_tasks k) (<[nx := set_state TASK_RUNNING nt]> l1)).
  { eapply same_links_trans; [apply (same_links_insert _ c ct); [done|by rewrite preempted_next]|].
    apply (same_links_insert _ _ nt); [done|]. done. }
  assert (Hnew : ∀ rest', ring (k_tasks k) nx rest' → 0%nat ∈ nx :: rest' →
    sched_wf (with_paging (mk_paging (pg_pmm (k_paging k)) (pg_mem (k_paging k)) (current_page_dir (k_paging k))
           (current_page_tables (k_paging k)) (vbe_dir_indices (k_paging k)) (vbe_dir_count (k_paging k)) (KVIRT_TO_PHYS d))
         (with_esp0 (if negb (t_is_kernel nt) && negb (t_kernel_stack_top nt =? 0) then t_kernel_stack_top nt else k_esp0 k)
         (with_current (Some nx) (with_tasks (<[nx := set_state TASK_RUNNING nt]> l1) k)))) nx rest').
  { intros rest' Hr H0. split.
    - cbn. unfold l1. by rewrite !length_insert.
    - done.
    - cbn [k_tasks with_paging with_esp0 with_current with_tasks]. by eapply ring_same.
    - done.
    - exact Hdir. }
  pose proof (chosen_split l1 c rest Hidle) as Hsp. change (chosen l1 c rest) with nx in Hsp.
  destruct Hsp as [Hc|(p & q & Hpq)].
  - left. split; [done|]. apply Hnew; rewrite Hc; done.
  - right. exists p, q. split; [done|]. apply Hnew; [by apply ring_rotate; rewrite <- Hpq|].
    rewrite Hpq in Hidle. set_solver.
Qed.

(** ** Waiting for the processor *)

(** What happens between two calls of the scheduler while task [i] is ready:
    anything that leaves the list and the current task alone. *)
Definition env_step (i : nat) (k k' : KS) : Prop :=
  k_current k' = k_current k ∧ k_enabled k' = k_enabled k ∧ same_links (k_tasks k) (k_tasks k') ∧
  current_page_dir (k_paging k') = current_page_dir (k_paging k) ∧ ready_at (k_tasks k') i = true.

(** [n] calls of the scheduler, none of which chooses [i]. *)
Inductive waits (i : nat) : nat → KS → KS → Prop :=
  | waits_nil k : waits i 0 k k
  | waits_env n k k1 k2 : env_step i k k1 → waits i n k1 k2 → waits i n k k2
  | waits_sched n k k1 k2 esp tick r :
      schedule esp tick k = Some (r, k1) → k_current k1 ≠ Some i → waits i n k1 k2 → waits i (S n) k k2.

Lemma env_step_wf i (k k' : KS) c rest : sched_wf k c rest → env_step i k k' → sched_wf k' c rest.
Proof.
  intros [Hlen Hcur Hring Hidle [d Hd]] (E1 & E2 & E3 & E4 & _). split.
  - rewrite <- Hlen, <- (length_fmap t_next (k_tasks k')), E3. apply length_fmap.
  - congruence.
  - by eapply ring_same.
  - done.
  - exists d. congruence.
Qed.

Lemma ready_insert_ne l c i t : c ≠ i → ready_at (<[c := t]> l) i = ready_at l i.
Proof. intros Hne. unfold ready_at. by rewrite list_lookup_insert_ne. Qed.

Lemma waits_bound i n (k k' : KS) : waits i n k k' → ∀ c rest j,
  sched_wf k c rest → k_enabled k = true → rest !! j = Some i → ready_at (k_tasks k) i = true → (n ≤ j)%nat.
Proof.
  induction 1 as [k|n k k1 k2 He Hw IH|n k k1 k2 esp tick r Hs Hn Hw IH]; intros c rest j Hwf Hen Hj Hr.
  - lia.
  - pose proof He as (_ & Een & _ & _ & Hr1). apply (IH c rest j); [by eapply env_step_wf|congruence|done|done].
  - destruct (schedule_wf k k1 c rest esp tick r Hwf Hen Hs) as (ct & nt & Hct & Hnt & _ & Etasks & Hen1 & _ & _ & Hcase).
    set (l1 := <[c := preempted esp tick ct]> (k_tasks k)) in *. set (nx := chosen l1 c rest) in *.
    assert (Hci : c ≠ i).
    { pose proof (sw_ring _ _ _ Hwf) as [_ Hnd]. apply NoDup_cons in Hnd as [Hnd _]. intros ->. apply Hnd. by eapply list_elem_of_lookup_2. }
    assert (Hr1 : ready_at l1 i = true). { unfold l1. by rewrite ready_insert_ne. }
    assert (Hnx : nx ≠ i).
    { intros E. apply Hn. rewrite <- E. destruct Hcase as [[_ Hw']|(p & q & _ & Hw')]; apply (sw_current _ _ _ Hw'). }
    assert (Hr2 : ready_at (k_tasks k1) i = true). { rewrite Etasks. by rewrite ready_insert_ne. }
    (* The chosen slot comes before [i]. *)
    assert (Hm : ∃ m, rest !! m = Some nx ∧ (m < j)%nat).
    { unfold nx, chosen in *. destruct (find_index (ready_at l1) (rest ++ [c])) as [m|] eqn:Em.
      - destruct (find_index_lookup _ _ _ Em) as (x & Hx & Hrx). rewrite Hx in *. cbn [default] in *.
        apply find_index_Some in Em as [_ Hmin].
        assert (Hij : (rest ++ [c]) !! j = Some i). { apply lookup_app_l_Some. done. }
        destruct (decide (j < m)%nat) as [Hlt|Hge]; [by rewrite (Hmin j i Hlt Hij) in Hr1|].
        assert (m ≠ j) by (intros ->; apply Hnx; unfold id; congruence). exists m. split; [|lia].
        rewrite lookup_app_l in Hx; [exact Hx|]. apply lookup_lt_Some in Hj. lia.
      - pose proof (proj1 (find_index_None _ _) Em j i) as Hf. rewrite Hf in Hr1; [done|]. apply lookup_app_l_Some. done. }
    destruct Hm as (m & Hm & Hlt).
    destruct Hcase as [[Enc Hw']|(p & q & Hpq & Hw')].
    { exfalso. pose proof (sw_ring _ _ _ Hwf) as [_ Hnd]. apply NoDup_cons in Hnd as [Hnd _]. apply Hnd.
      rewrite <- Enc. by eapply list_elem_of_lookup_2. }
    assert (Em : m = length p).
    { pose proof (sw_ring _ _ _ Hwf) as [_ Hnd]. apply NoDup_cons in Hnd as [_ Hnd].
      apply (NoDup_lookup rest m (length p) nx Hnd Hm). rewrite Hpq. by apply list_lookup_middle. }
    assert (Hj' : (q ++ c :: p) !! (j - S m)%nat = Some i).
    { rewrite Hpq in Hj. rewrite lookup_app_r in Hj by lia. replace (j - length p)%nat with (S (j - S m)) in Hj by lia.
      cbn in Hj. by apply lookup_app_l_Some. }
    pose proof (IH nx (q ++ c :: p) (j - S m)%nat Hw' Hen1 Hj' Hr2). lia.
Qed.

(** ** Termination *)

Lemma upd_task_eq (k : KS) i f t : k_tasks k !! i = Some t →
  upd_task i f k = Some (tt, with_tasks (<[i := f t]> (k_tasks k)) k).
Proof. intros Hi. unfold upd_task. by rewrite Hi. Qed.

(** What terminating the task [t] in slot [i] relies on; [base] are the heap
    blocks that are not of windows. *)
Record term_pre (k : KS) (base : gset Z) (i : nat) (t : task_t) : Prop := {
  tp_task : k_tasks k !! i = Some t;
  tp_wins : win_inv base (k_wins k);
  tp_vfs : vfs_wf (k_vfs k);
  tp_fds p fds : t_fd_table t = Some (p, fds) → fdt_wf (k_vfs k) fds ∧ p ∈ base;
  tp_paging : paging_wf (k_paging k);
  tp_kernel : ∃ kd, current_page_dir (k_paging k) = Some kd ∧ t_page_dir t ≠ Some kd;
  tp_dir d : t_page_dir t = Some d → ∃ dp, d = PHYS_TO_KVIRT dp ∧ as_wf (k_paging k) dp
}.

(** The slot afterwards. *)
Record ended (code : Z) (t t' : task_t) : Prop := {
  en_state : t_state t' = TASK_TERMINATED;
  en_code : t_exit_code t' = code;
  en_fds : t_fd_table t' = None;
  en_dir : t_page_dir t' = None;
  en_id : t_id t' = t_id t;
  en_next : t_next t' = t_next t;
  en_detached : t_detached t' = t_detached t;
  en_kstack : t_kernel_stack t' = t_kernel_stack t
}.

(** The fields of the kernel that are not touched. *)
Definition same_sched (k k' : KS) : Prop :=
  k_current k' = k_current k ∧ k_head k' = k_head k ∧ k_next_id k' = k_next_id k ∧
  k_enabled k' = k_enabled k ∧ k_ticks k' = k_ticks k ∧ k_esp0 k' = k_esp0 k.

Definition fd_block (t : task_t) : gset Z := match t_fd_table t with Some (p, _) => {[p]} | None => ∅ end.

Lemma close_files_ok (k : KS) base i t t1 :
  k_tasks k !! i = Some t1 → t_fd_table t1 = t_fd_table t → win_inv base (k_wins k) → vfs_wf (k_vfs k) →
  (∀ p fds, t_fd_table t = Some (p, fds) → fdt_wf (k_vfs k) fds ∧ p ∈ base) →
  ∃ k' v' w', close_task_files i t k = Some (tt, k') ∧
    k' = with_tasks (<[i := set_fd_table None t1]> (k_tasks k)) (with_wins w' (with_vfs v' k)) ∧
    vfs_wf v' ∧ windows w' = windows (k_wins k) ∧ win_inv (base ∖ fd_block t) w' ∧
    (∀ h, pipe_free (k_vfs k) h → pipe_free v' h) ∧
    (∀ p fds f h, t_fd_table t = Some (p, fds) → f ∈ fds → fd_in_use f = true → (h < PIPE_FD_MAX)%nat →
       fd_fs_id f = vfs_pipe_fs_id_from_handle (Z.of_nat h) → pipe_free v' h).
Proof.
  intros Hi Ef Hw Hv Hfds. unfold close_task_files, fd_block. destruct (t_fd_table t) as [[p fds]|].
  - destruct (Hfds p fds eq_refl) as [Hft Hpb]. unfold mbind, M_bind, get, vfs_close_all.
    destruct (close_loop_ok 16 0 (k_vfs k) fds Hv Hft) as (v' & t' & E & Hv' & _ & _ & _ & _ & Hk & Hp); [lia|].
    unfold VFS_MAX_FDS_PER_TASK. rewrite E. unfold modify, k_free. cbn [k_wins with_vfs].
    unfold upd_task. cbn [k_tasks with_wins with_vfs]. rewrite Hi. eexists _, v', _. split; [done|]. split; [reflexivity|].
    split; [done|]. split; [done|]. split; [|split; [done|]].
    + destruct Hw as [H1 H2 H3 H4 H5]. split; try done; cbn [windows win_heap].
      * rewrite kfree_live, H4. set_solver.
      * set_solver.
    + intros p0 fds0 f h [= <- <-] [j Hj]%list_elem_of_lookup Hu Hh Hid. by apply (Hp j f h); [lia|..].
  - eexists _, (k_vfs k), (k_wins k). split; [done|]. split.
    + assert (E : set_fd_table None t1 = t1). { destruct t1. cbn in *. by subst. }
      rewrite E, list_insert_id by done. by destruct k.
    + split; [done|]. split; [done|]. rewrite difference_empty_L. done.
Qed.

(** The address space that is active when [task_terminate] returns. *)
Definition restored_dir (k : KS) (i : nat) : option Z :=
  match ct ← task_current k; t_page_dir ct with
  | Some d => if bool_decide (k_current k = Some i) then current_page_dir (k_paging k) else Some d
  | None => current_page_dir (k_paging k)
  end.

(** The frames of the task's address space. *)
Definition space_frame (p : paging_t) (t : task_t) (a : Z) : Prop :=
  ∃ d, t_page_dir t = Some d ∧ (user_frame p (KVIRT_TO_PHYS d) 0 768 a ∨ a = KVIRT_TO_PHYS d).

(** The address space [d] is active. *)
Definition switched (d : Z) (p : paging_t) : paging_t :=
  mk_paging (pg_pmm p) (pg_mem p) (current_page_dir p) (current_page_tables p) (vbe_dir_indices p)
            (vbe_dir_count p) (KVIRT_TO_PHYS d).

Lemma switch_eq (k : KS) d : on_paging (paging_switch d) k = Some (tt, with_paging (switched d (k_paging k)) k).
Proof. done. Qed.

Lemma switch_kernel_eq (k : KS) d : current_page_dir (k_paging k) = Some d →
  paging_switch_kernel k = Some (tt, with_paging (switched d (k_paging k)) k).
Proof. intros E. unfold paging_switch_kernel, mbind, M_bind, get, lift. by rewrite E. Qed.

Lemma switched_wf d p : paging_wf p → paging_wf (switched d p).
Proof. intros [H1 H2]. by split. Qed.

Lemma free_space_ok (k : KS) i t t1 kd :
  k_tasks k !! i = Some t1 → t_page_dir t1 = t_page_dir t → paging_wf (k_paging k) →
  current_page_dir (k_paging k) = Some kd → t_page_dir t ≠ Some kd →
  (∀ d, t_page_dir t = Some d → ∃ dp, d = PHYS_TO_KVIRT dp ∧ as_wf (k_paging k) dp) →
  ∃ k' p', free_task_space i t k = Some (tt, k') ∧
    k' = with_tasks (<[i := set_page_dir None t1]> (k_tasks k)) (with_paging p' k) ∧
    paging_wf p' ∧ pg_mem p' = pg_mem (k_paging k) ∧ current_page_dir p' = Some kd ∧
    Some (pg_cr3 p') = KVIRT_TO_PHYS <$> restored_dir k i ∧
    ∀ a, addr_free (pg_pmm p') a ↔
         addr_free (pg_pmm (k_paging k)) a ∨ in_pmm (pg_pmm (k_paging k)) a ∧ space_frame (k_paging k) t a.
Proof.
  intros Hi Ed Hwf Hkd Hne Hdir. unfold free_task_space, mbind, M_bind, get. rewrite (switch_kernel_eq k kd Hkd).
  set (p1 := switched kd (k_paging k)).
  assert (Hmid : ∃ k2 p2, match t_page_dir t with
      | Some d => λ k, match on_paging (paging_destroy_address_space (Some d)) k with
                       | Some (_, k) => upd_task i (set_page_dir None) k | None => None end
      | None => (mret tt : M KS unit) end (with_paging p1 k) = Some (tt, k2) ∧
    k2 = with_tasks (<[i := set_page_dir None t1]> (k_tasks k)) (with_paging p2 k) ∧
    paging_wf p2 ∧ pg_mem p2 = pg_mem p1 ∧ same_globals p1 p2 ∧
    ∀ a, addr_free (pg_pmm p2) a ↔ addr_free (pg_pmm p1) a ∨ in_pmm (pg_pmm p1) a ∧ space_frame (k_paging k) t a).
  { destruct (t_page_dir t) as [d|] eqn:Et.
    - destruct (Hdir d eq_refl) as (dp & -> & Has).
      destruct (destroy_address_space_ok p1 dp) as (p2 & E2 & Hwf2 & Em & Hg & HC & Hf).
      { by apply switched_wf. } { by destruct Has as [H1 H2 H3]; split. } { cbn. rewrite Hkd. congruence. }
      unfold on_paging. cbn [k_paging with_paging]. rewrite E2. unfold upd_task. cbn [k_tasks with_paging]. rewrite Hi.
      eexists _, p2. split; [done|]. split; [done|]. split; [done|]. split; [done|]. split; [done|].
      assert (Hdr : KVIRT_TO_PHYS (PHYS_TO_KVIRT dp) = dp). { destruct Has as [(_ & Hr & _) _ _]. by apply kv_page. }
      intros a. rewrite Hf. unfold space_frame. rewrite Et. split.
      + intros [?|[Hu Hin]]; [by left|right]. split; [done|]. exists (PHYS_TO_KVIRT dp). by rewrite Hdr.
      + intros [?|[Hin (d' & E' & Ha)]]; [by left|right]. injection E' as <-. by rewrite Hdr in Ha.
    - eexists _, p1. split; [done|]. split.
      + assert (E : set_page_dir None t1 = t1). { destruct t1. cbn in *. by subst. }
        rewrite E, list_insert_id by done. done.
      + split; [by apply switched_wf|]. split; [done|]. split; [done|]. intros a. unfold space_frame. rewrite Et.
        split; [by left|]. intros [?|(_ & d & ? & _)]; done. }
  destruct Hmid as (k2 & p2 & E2 & -> & Hwf2 & Em & (G1 & _ & _ & _ & G5) & Hf).
  match goal with |- context [match ?m (with_paging p1 k) with _ => _ end] => replace (m (with_paging p1 k)) with
    (Some (tt, with_tasks (<[i := set_page_dir None t1]> (k_tasks k)) (with_paging p2 k))) end.
  unfold restored_dir, mbind. set (sd := option_bind _ _ _ (task_current k)).
  destruct sd as [d|]; [destruct (bool_decide (k_current k = Some i))|].
  - eexists _, p2. split; [done|]. split; [done|]. split; [done|]. split; [done|]. split; [by rewrite G1|].
    split; [by rewrite G5, Hkd|done].
  - eexists _, (switched d p2). split; [done|]. split; [done|]. split; [by apply switched_wf|]. split; [done|].
    split; [cbn; by rewrite G1|]. done.
  - eexists _, p2. split; [done|]. split; [done|]. split; [done|]. split; [done|]. split; [by rewrite G1|].
    split; [by rewrite G5, Hkd|done].
Qed.

Lemma wake_fields id t : t_next (wake id t) = t_next t ∧ t_id (wake id t) = t_id t ∧
  t_page_dir (wake id t) = t_page_dir t.
Proof. unfold wake. by case_match. Qed.

Lemma terminate_ok (k : KS) base i t code :
  term_pre k base i t → t_id t ≠ 0 → t_state t ≠ TASK_TERMINATED →
  ∃ k' t', task_terminate i code k = Some (tt, k') ∧ same_sched k k' ∧
    k_tasks k' = <[i := t']> (wake (t_id t) <$> k_tasks k) ∧ ended code t t' ∧
    win_inv (base ∖ fd_block t) (k_wins k') ∧
    windows (k_wins k') = (λ w, if negb (win_active w =? 0) && (win_owner_pid w =? t_id t) then win_cleared w else w)
                            <$> windows (k_wins k) ∧
    k_net k' = net_sock_close_all_for_pid (t_id t) (k_net k) ∧
    vfs_wf (k_vfs k') ∧
    (∀ h, pipe_free (k_vfs k) h → pipe_free (k_vfs k') h) ∧
    (∀ p fds f h, t_fd_table t = Some (p, fds) → f ∈ fds → fd_in_use f = true → (h < PIPE_FD_MAX)%nat →
       fd_fs_id f = vfs_pipe_fs_id_from_handle (Z.of_nat h) → pipe_free (k_vfs k') h) ∧
    paging_wf (k_paging k') ∧ pg_mem (k_paging k') = pg_mem (k_paging k) ∧
    Some (pg_cr3 (k_paging k')) = KVIRT_TO_PHYS <$> restored_dir k i ∧
    ∀ a, addr_free (pg_pmm (k_paging k')) a ↔
         addr_free (pg_pmm (k_paging k)) a ∨ in_pmm (pg_pmm (k_paging k)) a ∧ space_frame (k_paging k) t a.
Proof.
  intros [Hi Hw Hv Hfds Hp (kd & Hkd & Hne) Hdir] Hid Hst.
  unfold task_terminate, mbind, M_bind, get_task. rewrite Hi. cbn [mbind option_bind].
  rewrite (proj2 (Z.eqb_neq _ _) Hid). unfold in_state at 1. rewrite bool_decide_eq_false_2 by done. cbn [orb].
  rewrite (upd_task_eq k i _ t Hi). set (t1 := set_exit_code code (set_state TASK_TERMINATED t)).
  unfold wake_waiters, modify. cbn [k_tasks with_tasks].
  set (l2 := wake (t_id t) <$> <[i := t1]> (k_tasks k)).
  assert (Hil : (i < length (k_tasks k))%nat) by (by eapply lookup_lt_Some).
  assert (Hl2 : l2 = <[i := t1]> (wake (t_id t) <$> k_tasks k)). { unfold l2. by rewrite list_fmap_insert. }
  assert (Hi2 : l2 !! i = Some t1). { rewrite Hl2. apply list_lookup_insert_eq. by rewrite length_fmap. }
  unfold on_wins. cbn [k_wins with_tasks].
  destruct (window_cleanup_ok base (t_id t) (k_wins k) Hw) as (w1 & -> & Hw1 & _ & Ew1).
  set (k4 := with_net _ _).
  destruct (close_files_ok k4 base i t t1) as (k5 & v' & w' & E5 & Hk5 & Hv' & Ew' & Hw' & Hkeep & Hpipe); [done|done|done|done|done|].
  rewrite E5.
  assert (Ht5 : k_tasks k5 !! i = Some (set_fd_table None t1)).
  { rewrite Hk5. cbn [k_tasks with_tasks]. apply list_lookup_insert_eq. unfold k4. cbn. rewrite Hl2, length_insert. by rewrite length_fmap. }
  assert (Ecur : (ct ← task_current k5; t_page_dir ct) = (ct ← task_current k; t_page_dir ct)).
  { unfold task_current. rewrite Hk5. cbn. destruct (k_current k) as [c|]; [|done]. cbn.
    rewrite Hl2, list_insert_insert_eq. destruct (decide (c = i)) as [->|Hci].
    - rewrite list_lookup_insert_eq by (by rewrite length_fmap). by rewrite Hi.
    - rewrite list_lookup_insert_ne by done. rewrite list_lookup_fmap. destruct (k_tasks k !! c) as [ct|]; [|done].
      cbn. by destruct (wake_fields (t_id t) ct) as (_ & _ & ->). }
  destruct (free_space_ok k5 i t (set_fd_table None t1) kd) as (k6 & p' & E6 & Hk6 & Hwf' & Em & _ & Ecr & Hfree); try done.
  { by rewrite Hk5. } { by rewrite Hk5. } { by rewrite Hk5. }
  assert (Erest : restored_dir k5 i = restored_dir k i). { unfold restored_dir. rewrite Ecur. by rewrite Hk5. }
  rewrite Erest in Ecr. clear Ecur Erest.
  rewrite E6. unfold upd_task. rewrite Hk6. cbn [k_tasks with_tasks].
  rewrite list_lookup_insert_eq by (by eapply lookup_lt_Some). cbn [mbind option_bind].
  eexists _, (set_stack None (set_page_dir None (set_fd_table None t1))). split; [done|].
  rewrite list_insert_insert_eq. rewrite Hk5 in *. cbn in *.
  split; [done|]. split; [rewrite Hl2; by rewrite !list_insert_insert_eq|]. split; [done|].
  split; [done|]. split; [congruence|]. split; [done|]. split; [done|]. split; [done|]. split; [done|].
  split; [done|]. split; [done|]. split; [exact Ecr|done].
Qed.

(** ** Creation *)

Lemma chain_insert_other l a t p : ∀ i j, chain l i p j → a ∉ i :: p → chain (<[a := t]> l) i p j.
Proof.
  induction p as [|x p IH]; intros i j; cbn.
  - intros (ti & Hi & Hn) Ha. exists ti. by rewrite list_lookup_insert_ne by set_solver.
  - intros [(ti & Hi & Hn) Hc] Ha. split; [exists ti; by rewrite list_lookup_insert_ne by set_solver|].
    apply IH; [done|set_solver].
Qed.

(** Inserting a slot after the current one. *)
Lemma ring_insert l c rest i ti ct : ring l c rest → i ∉ c :: rest → l !! i = Some ti → l !! c = Some ct →
  ring (<[c := set_next (Some i) ct]> (<[i := set_next (t_next ct) ti]> l)) c (i :: rest).
Proof.
  intros [Hc Hn] Hni Hi Hct. split.
  2: { apply NoDup_cons in Hn as [H1 H2]. repeat (apply NoDup_cons; split); [set_solver..|done]. }
  assert (Hcl : (c < length l)%nat) by (by eapply lookup_lt_Some).
  assert (Hil : (i < length l)%nat) by (by eapply lookup_lt_Some).
  assert (Hne : c ≠ i) by set_solver. cbn [chain]. split.
  - eexists. rewrite list_lookup_insert_eq by (by rewrite length_insert). done.
  - destruct rest as [|x q]; cbn [chain] in *.
    + destruct Hc as (t & Ht & Hnx). exists (set_next (t_next ct) ti).
      rewrite list_lookup_insert_ne by done. rewrite list_lookup_insert_eq by done. split; [done|]. cbn. congruence.
    + destruct Hc as [(t & Ht & Hnx) Hq]. split.
      * exists (set_next (t_next ct) ti).
        rewrite list_lookup_insert_ne by done. rewrite list_lookup_insert_eq by done. split; [done|]. cbn. congruence.
      * apply NoDup_cons in Hn as [Hn1 _]. apply chain_insert_other; [|done]. apply chain_insert_other; [done|set_solver].
Qed.

(** The slots outside the list have never been used. *)
Record slots_wf (k : KS) (c : nat) (rest : list nat) : Prop := {
  sl_sched : sched_wf k c rest;
  sl_used i t : k_tasks k !! i = Some t → i ∉ c :: rest → t_id t = 0 ∧ t_state t ≠ TASK_TERMINATED;
  sl_ids i t : k_tasks k !! i = Some t → i ∈ c :: rest → i ≠ 0%nat → t_id t ≠ 0;
  sl_current t : k_tasks k !! c = Some t → t_state t ≠ TASK_TERMINATED
}.

(** The slot found, and whether it is on the list. *)
Lemma find_slot_ok (k : KS) c rest : slots_wf k c rest →
  ∃ o k1, find_slot k = Some (o, k1) ∧ same_sched k k1 ∧ k_paging k1 = k_paging k ∧ k_vfs k1 = k_vfs k ∧
    k_net k1 = k_net k ∧ windows (k_wins k1) = windows (k_wins k) ∧
    match o with
    | None => k1 = k ∧ ∀ i t, k_tasks k !! i = Some t → i ≠ 0%nat → t_id t ≠ 0 ∧ t_state t ≠ TASK_TERMINATED
    | Some (i, reusing) =>
      ∃ t, k_tasks k !! i = Some t ∧ (1 ≤ i < 16)%nat ∧ i ≠ c ∧
        live (win_heap (k_wins k1)) = live (win_heap (k_wins k)) ∖
          (if reusing then match t_kernel_stack t with Some p => {[p]} | None => ∅ end else ∅) ∧
        k_tasks k1 = <[i := if reusing then set_kernel_stack None t else t]> (k_tasks k) ∧
        (reusing = true ∧ i ∈ c :: rest ∧ t_state t = TASK_TERMINATED ∨ reusing = false ∧ i ∉ c :: rest)
    end.
Proof.
  intros [Hs Hused Hids Hcur]. pose proof (sw_tasks _ _ _ Hs) as Hlen. unfold find_slot, mbind, M_bind, get.
  destruct (find_index _ (drop 1 (k_tasks k))) as [j|] eqn:Ej.
  2: { exists None, k. split; [done|]. do 5 (split; [done|]). split; [done|]. intros i t Hi Hi0.
       pose proof (proj1 (find_index_None _ _) Ej (i - 1)%nat t) as Hf. rewrite lookup_drop in Hf.
       replace (1 + (i - 1))%nat with i in Hf by lia. specialize (Hf Hi). apply orb_false_iff in Hf as [H1 H2].
       split; [by apply Z.eqb_neq|]. unfold in_state in H1. by apply bool_decide_eq_false in H1. }
  destruct (find_index_lookup _ _ _ Ej) as (t & Ht & Hp). rewrite lookup_drop in Ht. cbn [Nat.add] in Ht.
  assert (Hj : (S j < 16)%nat). { apply lookup_lt_Some in Ht. unfold MAX_TASKS in Hlen. lia. }
  unfold get_task. rewrite Ht. cbn [mbind option_bind].
  destruct (in_state TASK_TERMINATED t) eqn:Est.
  - assert (Hst : t_state t = TASK_TERMINATED) by (unfold in_state in Est; by apply bool_decide_eq_true in Est).
    assert (Hin : S j ∈ c :: rest).
    { destruct (decide (S j ∈ c :: rest)) as [|Hn]; [done|]. by destruct (Hused _ _ Ht Hn). }
    assert (Hjc : S j ≠ c). { intros E. apply (Hcur t); [by rewrite <- E|done]. }
    destruct (t_kernel_stack t) as [p|] eqn:Ek.
    + unfold k_free, upd_task. cbn [k_tasks with_wins k_wins windows win_heap]. rewrite Ht. cbn [mbind option_bind].
      eexists (Some (S j, true)), _. split; [done|]. do 5 (split; [done|]). exists t. rewrite Ek. split; [done|]. split; [lia|].
      split; [done|]. split; [cbn; apply kfree_live|]. split; [done|]. by left.
    + exists (Some (S j, true)), k. split; [done|]. do 5 (split; [done|]). exists t. rewrite Ek. split; [done|]. split; [lia|].
      split; [done|]. split; [by rewrite difference_empty_L|]. split; [|by left].
      assert (E : set_kernel_stack None t = t). { destruct t. cbn in *. by subst. }
      by rewrite E, list_insert_id.
  - apply orb_true_iff in Hp as [?|Hid%Z.eqb_eq]; [done|].
    exists (Some (S j, false)), k. split; [done|]. do 5 (split; [done|]). exists t. split; [done|]. split; [lia|].
    assert (Hn : S j ∉ c :: rest). { intros Hin. by apply (Hids _ _ Ht Hin). }
    split; [set_solver|]. split; [by rewrite difference_empty_L|]. split; [by rewrite list_insert_id|]. by right.
Qed.

(** An address space is unaffected by writes to other pages. *)
Lemma space_kept s s' d : space_ok s d → same_range (pg_pmm s) (pg_pmm s') →
  (∀ a, addr_free (pg_pmm s') a → addr_free (pg_pmm s) a) →
  (∀ x, page_of x = d ∨ (∃ k, 0 ≤ k < 1024 ∧ pde_present (pg_mem s) d k ∧ page_of x = table_of (pg_mem s) d k) →
     pg_mem s' x = pg_mem s x) →
  space_ok s' d ∧ ∀ va, is_u32 va → translate (pg_mem s') d va = translate (pg_mem s) d va.
Proof.
  intros Hsp Hr Hf Hm. destruct (as_mem_kept s s' d (so_as _ _ Hsp) Hf Hm) as (Has & Hdir & Htr).
  split; [|done]. split; [done|]. intros va p fl Hva Ht Hu. rewrite Htr in Ht by eauto with cint.
  destruct (so_user _ _ Hsp va p fl Hva Ht Hu) as (H1 & H2 & H3 & H4).
  split; [by eapply in_pmm_same|]. split; [auto|]. split; [done|].
  intros k Hk. unfold pde_present, table_of. rewrite Hdir by done. by apply H4.
Qed.

(** The physical addresses of the kernel heap. *)
Definition heap_phys (x : Z) : Prop := 0x500000 ≤ x < 0x700000.

(** The directory and its tables are not in the kernel heap. *)
Definition heap_apart (p : paging_t) (d : Z) : Prop :=
  ¬ heap_phys d ∧ ∀ k, 0 ≤ k < 1024 → pde_present (pg_mem p) d k → ¬ heap_phys (table_of (pg_mem p) d k).

Lemma heap_page x : heap_phys x → heap_phys (page_of x).
Proof. unfold heap_phys, page_of. mlia. Qed.

Lemma heap_write_space p m d : space_ok p d → heap_apart p d → (∀ x, ¬ heap_phys x → m x = pg_mem p x) →
  space_ok (with_mem m p) d ∧ (∀ va, is_u32 va → translate m d va = translate (pg_mem p) d va).
Proof.
  intros Hsp [Hd Ht] Hm. apply (space_kept p (with_mem m p) d Hsp); [done|done|]. intros x Hx. apply Hm.
  intros Hh%heap_page. destruct Hx as [E|(k & Hk & Hp & E)]; rewrite E in Hh; [done|]. by apply (Ht k).
Qed.

(** Pushing words on a stack of the heap. *)
Lemma kstack_push (k : KS) p l : KERNEL_HEAP_START ≤ p → p + TASK_STACK_SIZE ≤ KERNEL_HEAP_END →
  Forall is_u32 l → Z.of_nat (length l) ≤ 2048 → paging_wf (k_paging k) →
  let T := p + TASK_STACK_SIZE - KERNEL_VIRTUAL_BASE in
  ∃ m, on_paging (push_words (u32 (p + TASK_STACK_SIZE)) l) k =
         Some (PHYS_TO_KVIRT (T - 4 * Z.of_nat (length l)), with_paging (with_mem m (k_paging k)) k) ∧
    pushed T l (pg_mem (k_paging k)) m ∧ (∀ x, ¬ heap_phys x → m x = pg_mem (k_paging k) x) ∧
    paging_wf (with_mem m (k_paging k)).
Proof.
  intros Hp1 Hp2 Hl Hlen Hwf T. unfold KERNEL_HEAP_START, KERNEL_HEAP_END, TASK_STACK_SIZE in *.
  assert (ET : u32 (p + 8192) = PHYS_TO_KVIRT T).
  { unfold T, PHYS_TO_KVIRT, KERNEL_VIRTUAL_BASE. f_equal. lia. }
  assert (HT : 0x500000 + 8192 ≤ T ≤ 0x700000) by (unfold T, KERNEL_VIRTUAL_BASE; lia).
  destruct (push_words_ok l T (k_paging k)) as (m & E & Hm); [lia|]. exists m. unfold on_paging. rewrite ET, E.
  split; [done|]. split; [done|].
  assert (Hout : ∀ x, ¬ heap_phys x → m x = pg_mem (k_paging k) x).
  { intros x Hx. apply Hm. unfold heap_phys in Hx. lia. }
  split; [done|]. split; [apply Hwf|]. apply (pushed_u32 _ _ _ _ Hm); [apply (pg_mem_u32 _ Hwf)|done].
Qed.

(** A user task that is ready to run: it is resumed in user mode at the entry
    point, with the stack pointer at its arguments. *)
Record started (k : KS) (id ppid : Z) (filename : list Z) (args : list (list Z)) (r entry : Z) (t : task_t) : Prop := {
  st_state : t_state t = TASK_READY;
  st_id : t_id t = id;
  st_ppid : t_parent_id t = ppid;
  st_name : t_name t = task_name filename;
  st_user : t_is_kernel t = false;
  st_dir : t_page_dir t = Some (PHYS_TO_KVIRT r);
  st_brk : user_end_ok (t_user_brk t) ∧ t_user_brk_min t = t_user_brk t;
  st_fds : ∃ p, t_fd_table t = Some (p, new_fd_table);
  st_space : space_ok (k_paging k) r;
  st_stack : ∃ sp eo T,
    translate (pg_mem (k_paging k)) r USER_STACK_TOP_PAGE_VADDR = Some (sp, 7) ∧
    arg_block (pg_mem (k_paging k)) sp eo args ∧
    t_kernel_stack_top t = PHYS_TO_KVIRT T ∧ t_stack_top t = Some (PHYS_TO_KVIRT (T - 68)) ∧
    ∀ j w, user_frame_words (USER_STACK_TOP_PAGE_VADDR + eo) entry !! j = Some w →
           pg_mem (k_paging k) (T - 4 * Z.of_nat (S j)) = w
}.

Lemma arg_block_kept m m' P eo args : P mod 4096 = 0 → arg_block m P eo args →
  (∀ x, page_of x = P → m' x = m x) → arg_block m' P eo args.
Proof.
  intros HP (H1 & H2 & H3 & H4 & H5 & H6 & H7 & H8) Hm.
  assert (Hin : ∀ o, 0 ≤ o < 4096 → m' (P + o) = m (P + o)). { intros o Ho. apply Hm. by apply page_of_add. }
  unfold arg_block. split; [done|]. split; [done|]. split; [done|].
  split; [rewrite Hin by lia; done|]. split; [rewrite <- Z.add_assoc, Hin, Z.add_assoc by lia; done|].
  split; [rewrite <- Z.add_assoc, Hin, Z.add_assoc by lia; done|].
  split; [rewrite <- !Z.add_assoc, Hin, !Z.add_assoc by lia; done|].
  intros i a Hi. destruct (H8 i a Hi) as (o & Ho1 & Ho2 & Ho3 & Ho4). exists o.
  pose proof (lookup_lt_Some _ _ _ Hi). split; [rewrite <- !Z.add_assoc, Hin, !Z.add_assoc by lia; done|].
  do 2 (split; [done|]). rewrite <- Ho4. apply load_bytes_ext. intros j Hj. unfold load8. f_equal. f_equal.
  apply Hm. unfold word_base, page_of. pg_lia.
Qed.

Lemma frame_words_u32 esp entry : is_u32 esp → is_u32 entry → Forall is_u32 (user_frame_words esp entry).
Proof. intros ??. unfold user_frame_words. repeat (apply Forall_cons; split; [done|]). by apply Forall_nil. Qed.

Lemma link_ok (k : KS) c rest i reusing ti :
  sched_wf k c rest → k_head k ≠ None → k_tasks k !! i = Some ti → i ≠ c →
  (reusing = true ∧ i ∈ c :: rest ∨ reusing = false ∧ i ∉ c :: rest) →
  ∃ l' n, link_task i reusing k = Some (tt, with_tasks l' k) ∧ l' !! i = Some (set_next n ti) ∧
    sched_wf (with_tasks l' k) c (if reusing then rest else i :: rest) ∧
    ∀ j, j ≠ i → t_state <$> (l' !! j) = t_state <$> (k_tasks k !! j).
Proof.
  intros Hs Hh Hi Hic [[-> Hin]|[-> Hin]].
  - exists (k_tasks k), (t_next ti). split; [by destruct k|]. split; [by destruct ti|]. split; [by destruct k|done].
  - unfold link_task, mbind, M_bind, get, lift. destruct (k_head k) as [hd|]; [|done].
    destruct (chain_next _ _ _ _ (proj1 (sw_ring _ _ _ Hs))) as (ct & nx & Hc & Hn & _).
    rewrite (sw_current _ _ _ Hs). unfold get_task. rewrite Hc. cbn [mbind option_bind].
    rewrite (upd_task_eq k i _ ti Hi). unfold upd_task. cbn [k_tasks with_tasks].
    rewrite list_lookup_insert_ne by done. rewrite Hc. cbn [mbind option_bind].
    eexists _, (t_next ct). split; [done|]. split; [|split].
    + rewrite list_lookup_insert_ne by done. apply list_lookup_insert_eq. by eapply lookup_lt_Some.
    + destruct Hs as [H1 H2 H3 H4 H5]. split; try done.
      * cbn. by rewrite !length_insert.
      * cbn [k_tasks with_tasks]. by apply ring_insert.
      * set_solver.
    + intros j Hj. destruct (decide (j = c)) as [->|Hjc].
      * rewrite list_lookup_insert_eq by (rewrite length_insert; by eapply lookup_lt_Some). by rewrite Hc.
      * by rewrite !list_lookup_insert_ne by done.
Qed.

Lemma finish_ok (k : KS) c rest i reusing t0 filename r entry sp ue argv :
  sched_wf k c rest → k_head k ≠ None → k_tasks k !! i = Some t0 → i ≠ c →
  (reusing = true ∧ i ∈ c :: rest ∨ reusing = false ∧ i ∉ c :: rest) →
  paging_wf (k_paging k) → space_ok (k_paging k) r → heap_apart (k_paging k) r →
  current_page_dir (k_paging k) ≠ Some (PHYS_TO_KVIRT r) →
  translate (pg_mem (k_paging k)) r USER_STACK_TOP_PAGE_VADDR = Some (sp, 7) →
  user_end_ok ue → is_u32 entry → args_size (take 16 argv) + 83 ≤ 4096 → Forall (Forall is_u8) (take 16 argv) →
  ∃ res k', finish_user_task i reusing filename (PHYS_TO_KVIRT r) entry sp ue argv k = Some (res, k') ∧
    (res = CNull ∨ res = CTask i ∧ ∃ t, k_tasks k' !! i = Some t ∧
       started k' (k_next_id k) (default 0 (t_id <$> task_current k)) filename (take 16 argv) r entry t ∧
       sched_wf k' c (if reusing then rest else i :: rest) ∧
       (∀ j, j ≠ i → t_state <$> (k_tasks k' !! j) = t_state <$> (k_tasks k !! j)) ∧
       (∀ x, ¬ heap_phys x → page_of x ≠ sp → pg_mem (k_paging k') x = pg_mem (k_paging k) x)).
Proof.
  intros Hs Hhead Hi Hic Hre Hwf Hsp Hap Hcd Htop Hue Hen Hsz Hu8.
  (* The stack frame. *)
  assert (Hspr : in_pmm (pg_pmm (k_paging k)) sp ∧ sp mod 4096 = 0 ∧ 8388608 ≤ sp < 1073741824 ∧ ¬ heap_phys sp ∧
    sp ≠ r ∧ ∀ j, 0 ≤ j < 1024 → pde_present (pg_mem (k_paging k)) r j → sp ≠ table_of (pg_mem (k_paging k)) r j).
  { destruct (so_user _ _ Hsp USER_STACK_TOP_PAGE_VADDR sp 7) as (Hin & _ & Hr & Ht); [layout_lia|done|done|].
    assert (Ep : page_of sp = sp).
    { unfold translate in Htop. repeat case_match; try done. injection Htop as <- _.
      change (USER_STACK_TOP_PAGE_VADDR mod 4096) with 0. rewrite Z.add_0_r. unfold page_of.
      rewrite (proj1 (page_frame_aligned _ (pg_mem_u32 _ Hwf _))). lia. }
    rewrite Ep in *. destruct (in_pmm_aligned _ _ (pg_pmm_wf _ Hwf) Hin) as [? ?].
    split; [done|]. split; [done|]. split; [done|]. split; [unfold heap_phys; lia|]. done. }
  destruct Hspr as (Hspi & Hspa & Hspr & Hsph & Hspd & Hspt).
  unfold finish_user_task, mbind, M_bind. unfold on_paging at 1.
  destruct (place_args_ok sp argv (k_paging k) Hwf Hspa ltac:(lia) Hsz Hu8) as (eo & m1 & -> & Hblock & Hm1 & Hu1).
  set (p1 := with_mem m1 (k_paging k)).
  assert (Hp1 : space_ok p1 r ∧ ∀ va, is_u32 va → translate m1 r va = translate (pg_mem (k_paging k)) r va).
  { apply (space_kept (k_paging k) p1 r Hsp); [done|done|]. intros x Hx. apply Hm1.
    destruct Hx as [->|(j & Hj & Hp & ->)]; [done|]. apply not_eq_sym. by apply Hspt. }
  destruct Hp1 as [Hsp1 Htr1]. assert (Hwf1 : paging_wf p1) by (split; [apply Hwf|done]).
  assert (Hap1 : heap_apart p1 r).
  { destruct Hap as [Ha1 Ha2]. split; [done|]. intros j Hj.
    assert (E : pg_mem p1 (r + 4 * j) = pg_mem (k_paging k) (r + 4 * j)).
    { apply Hm1. destruct (as_dir _ _ (so_as _ _ Hsp)) as (Hra & _). by rewrite page_of_word. }
    unfold pde_present, table_of. rewrite E. by apply Ha2. }
  assert (Hdestroy : ∀ k2 : KS, space_ok (k_paging k2) r → paging_wf (k_paging k2) →
    current_page_dir (k_paging k2) = current_page_dir (k_paging k) →
    ∃ k3, on_paging (paging_destroy_address_space (Some (PHYS_TO_KVIRT r))) k2 = Some (tt, k3) ∧ k_tasks k3 = k_tasks k2).
  { intros k2 Hsp2 Hwf2 E2. destruct (destroy_address_space_ok (k_paging k2) r Hwf2 (so_as _ _ Hsp2)) as (p' & E' & _); [congruence|].
    unfold on_paging. rewrite E'. by eexists. }
  (* The kernel stack. *)
  unfold k_malloc at 1. cbn [k_wins with_paging].
  destruct (kmalloc TASK_STACK_SIZE (win_heap (k_wins k))) as [[ks|] h1] eqn:Em1.
  2: { destruct (Hdestroy (with_wins (mk_wins (windows (k_wins k)) h1) (with_paging p1 k))) as (k3 & E3 & _); [done|done|done|].
       rewrite E3. eexists CNull, k3. split; [done|]. by left. }
  destruct (kmalloc_range _ _ _ _ Em1) as (Hks1 & Hks2 & _). unfold get, modify.
  set (k2 := with_next_id _ _).
  destruct (kstack_push k2 ks (user_frame_words (USER_STACK_TOP_PAGE_VADDR + eo) entry)) as (m2 & E2 & Hpush & Hm2 & Hwf2); [done|done| |done|done|].
  { apply frame_words_u32; [|done]. destruct Hblock as (? & ? & _). unfold USER_STACK_TOP_PAGE_VADDR, is_u32. lia. }
  rewrite E2. clear E2. set (p2 := with_mem m2 (k_paging k2)). set (T := ks + TASK_STACK_SIZE - KERNEL_VIRTUAL_BASE) in *.
  destruct (heap_write_space p1 m2 r Hsp1 Hap1 Hm2) as [Hsp2 Htr2].
  set (t1 := λ t, mk_task _ _ _ _ _ _ _ _ _ _ _ _ _ _ _ _ _ _ _ _ _ _).
  assert (Hil : (i < length (k_tasks k))%nat) by (by eapply lookup_lt_Some).
  rewrite (upd_task_eq (with_paging p2 k2) i t1 t0 Hi). set (k3 := with_tasks _ (with_paging p2 k2)).
  assert (Hi3 : k_tasks k3 !! i = Some (t1 t0)) by (by apply list_lookup_insert_eq).
  unfold k_malloc. change (k_wins k3) with (mk_wins (windows (k_wins k)) h1). cbn [windows win_heap].
  destruct (kmalloc FD_TABLE_SIZE h1) as [[fp|] h2] eqn:Em2.
  - (* The descriptor table. *)
    set (k4 := with_wins _ k3). rewrite (upd_task_eq k4 i _ (t1 t0) Hi3). set (k5 := with_tasks _ k4).
    set (t3 := set_fd_table (Some (fp, new_fd_table)) (t1 t0)).
    assert (E5 : k_tasks k5 = <[i := t3]> (k_tasks k)).
    { unfold k5, k4, k3. cbn. by rewrite list_insert_insert_eq. }
    assert (Hi5 : k_tasks k5 !! i = Some t3). { rewrite E5. by apply list_lookup_insert_eq. }
    assert (Hs5 : sched_wf k5 c rest).
    { destruct Hs as [H1 H2 H3 H4 H5]. split; try done.
      - rewrite E5. by rewrite length_insert.
      - rewrite E5. eapply ring_same; [|done]. by apply (same_links_insert _ _ t0). }
    destruct (link_ok k5 c rest i reusing t3 Hs5 Hhead Hi5 Hic Hre) as (l' & n & El & Hl' & Hsl & Hst).
    rewrite El. eexists _, _. split; [done|]. right. split; [done|].
    exists (set_next n t3). split; [done|]. split; [|split; [done|split]].
    + split; try done.
      * by exists fp.
      * exists sp, eo, T. cbn [k_paging with_tasks]. split; [|split; [|split; [|split]]].
        -- change (k_paging k5) with p2. rewrite Htr2, Htr1 by layout_lia. done.
        -- apply (arg_block_kept m1); [done|done|]. intros x Hx. apply Hm2. intros Hh%heap_page. by rewrite Hx in Hh.
        -- cbn. unfold T, PHYS_TO_KVIRT, KERNEL_VIRTUAL_BASE. f_equal. lia.
        -- done.
        -- apply (proj1 Hpush).
    + intros j Hj. cbn [k_tasks with_tasks]. rewrite (Hst j Hj), E5. by rewrite list_lookup_insert_ne.
    + intros x Hx1 Hx2. change (m2 x = pg_mem (k_paging k) x). rewrite Hm2 by done. by apply Hm1.
  - (* No table: the slot is given up. *)
    set (k4 := with_wins _ k3). rewrite (upd_task_eq k4 i _ (t1 t0) Hi3). unfold k_free. set (k5 := with_wins _ (with_tasks _ k4)).
    destruct (Hdestroy k5) as (k6 & E6 & Et6); [done|done|done|]. rewrite E6. unfold upd_task. rewrite Et6.
    assert (E5 : k_tasks k5 !! i = Some (set_fd_table None (t1 t0))).
    { unfold k5. cbn. apply list_lookup_insert_eq. by rewrite length_insert. }
    rewrite E5. eexists CNull, _. split; [done|]. by left.
Qed.

(** What creating a user task relies on. *)
Record spawn_pre (k : KS) (c : nat) (rest : list nat) (kp : Z) (filename : list Z) (argv : list (list Z)) : Prop := {
  sp_slots : slots_wf k c rest;
  sp_head : k_head k ≠ None;
  sp_paging : paging_wf (k_paging k);
  sp_vbe : vbe_wf (k_paging k);
  sp_vbe_out : vbe_outside (k_paging k);
  sp_kdir : as_wf (k_paging k) kp;
  sp_cur : current_page_dir (k_paging k) = Some (PHYS_TO_KVIRT kp);
  sp_heap : heap_apart (k_paging k) kp;
  sp_vfs : vfs_wf (k_vfs k);
  sp_reads : reads_bounded (k_vfs k);
  sp_size : load_size_ok filename (k_vfs k) (k_paging k);
  sp_args : args_size (take 16 argv) + 83 ≤ 4096;
  sp_bytes : Forall (Forall is_u8) (take 16 argv)
}.

(** The arguments passed when none are given. *)
Definition spawn_args (filename : list Z) (argv : list (list Z)) : list (list Z) :=
  match argv with [] => [filename] | _ => argv end.

Lemma load_size_range (filename : list Z) (v : vfs_t K) p p' : same_range (pg_pmm p) (pg_pmm p') →
  load_size_ok filename v p → load_size_ok filename v p'.
Proof. intros [_ E] Hs st v' Es. rewrite E. by eapply Hs. Qed.

Lemma copy_entries_pmm l a b : ∀ s u s', copy_entries l a b s = Some (u, s') → pg_pmm s' = pg_pmm s.
Proof.
  induction l as [|x l IH]; intros s u s'; cbn [copy_entries]; [by intros [= _ <-]|].
  unfold mbind, M_bind, kread, kwrite. intros E. by apply IH in E.
Qed.

Lemma create_space_range s o s' : paging_wf s → paging_create_address_space s = Some (o, s') →
  same_range (pg_pmm s) (pg_pmm s').
Proof.
  intros Hwf. unfold paging_create_address_space, mbind, M_bind, on_pmm, get, lift, kzero_page, mret, M_ret.
  destruct (pmm_alloc_frame (pg_pmm s)) as [[r p']|] eqn:E; [|done].
  apply alloc_frame_range in E; [|apply Hwf]. case_match; [by intros [= _ <-]|]. cbn [current_page_dir with_mem with_pmm].
  destruct (current_page_dir s) as [d|]; [|done].
  destruct (copy_entries _ _ d _) as [[u s1]|] eqn:E1; [|done].
  destruct (copy_entries _ _ d s1) as [[u2 s2]|] eqn:E2; [|done].
  intros [= _ <-]. apply copy_entries_pmm in E1, E2. rewrite E2, E1. done.
Qed.

Lemma spawn_ok (k : KS) c rest kp filename argv :
  spawn_pre k c rest kp filename (spawn_args filename argv) →
  ∃ res k', task_create_user_elf filename argv k = Some (res, k') ∧
    ∀ i, res = CTask i → ∃ t r entry rest', k_tasks k' !! i = Some t ∧ (1 ≤ i < 16)%nat ∧ entry ≠ 0 ∧
      addr_free (pg_pmm (k_paging k)) r ∧
      started k' (k_next_id k) (default 0 (t_id <$> task_current k)) filename (take 16 (spawn_args filename argv)) r entry t ∧
      sched_wf k' c rest' ∧ i ∈ rest' ∧ (rest' = rest ∨ rest' = i :: rest) ∧
      (∀ j, j ≠ i → t_state <$> (k_tasks k' !! j) = t_state <$> (k_tasks k !! j)) ∧
      (∀ x, ¬ heap_phys x → ¬ addr_free (pg_pmm (k_paging k)) (page_of x) → pg_mem (k_paging k') x = pg_mem (k_paging k) x).
Proof.
  intros [Hsl Hhead Hwf Hvbe Hvout Hkd Hcur Hheap Hv Hrb Hsize Hargs Hbytes].
  unfold task_create_user_elf. fold (spawn_args filename argv). set (av := spawn_args filename argv) in *.
  unfold mbind, M_bind.
  destruct (find_slot_ok k c rest Hsl) as (o & k1 & E1 & Hss & Ep1 & Ev1 & _ & _ & Ho). rewrite E1.
  destruct o as [[i reusing]|]; [|by exists CNull, k1].
  destruct Ho as (t0 & Hi & Hir & Hic & _ & Ht1 & Hre).
  unfold on_paging at 1. rewrite Ep1.
  destruct (create_address_space_ok (k_paging k) kp Hwf Hvbe Hkd Hcur) as (od & p1 & Ec & Hwf1 & Hg1 & Hcase). rewrite Ec.
  destruct Hcase as [(-> & -> & _)|(r & -> & Hrf & Hfree1 & Hout1 & Hin1 & Has1)]; [by eexists CNull, _|].
  destruct (new_space_ok (k_paging k) p1 r kp Hvout Has1 Hin1) as [Hsp1 Hnone1].
  unfold on_loader. cbn [k_vfs k_paging with_paging]. rewrite Ev1.
  pose proof (create_space_range _ _ _ Hwf Ec) as Hr1.
  destruct (load_elf_into_ok (k_vfs k) p1 r filename Hv Hrb (load_size_range _ _ _ _ Hr1 Hsize) Hwf1 Hsp1)
    as (res & v2 & p2 & El & _ & _ & HC & Hld). rewrite El.
  destruct res as [entry outs|]; [|by eexists CBlocked, _].
  assert (Hkr : current_page_dir p2 = Some (PHYS_TO_KVIRT kp) ∧ Some (PHYS_TO_KVIRT kp) ≠ Some (PHYS_TO_KVIRT r)).
  { destruct Hg1 as (G1 & _). destruct (cf_globals _ _ _ HC) as (G2 & _). split; [congruence|]. intros [= E].
    destruct (as_dir _ _ Hkd) as (_ & Hkr & Hkf). destruct (addr_free_aligned _ _ (pg_pmm_wf _ Hwf) Hrf) as [_ Hrr].
    assert (kp = r) as ->; [|done]. apply (f_equal KVIRT_TO_PHYS) in E. by rewrite !kv_page in E by lia. }
  destruct Hkr as [Ecur2 Hne2].
  destruct (Z.eqb_spec entry 0) as [->|Hne].
  { unfold on_paging. cbn [k_paging with_vfs with_paging].
    destruct (destroy_address_space_ok p2 r (cf_wf _ _ _ HC) (so_as _ _ (cf_space _ _ _ HC))) as (p3 & E3 & _); [congruence|].
    rewrite E3. by eexists CNull, _. }
  destruct outs as [[sp ue]|]; [|done]. destruct Hld as [Hent Hue _ Htop Hfresh _].
  unfold lift. set (k2 := with_vfs v2 _).
  assert (Hi1 : k_tasks k1 !! i = Some (if reusing then set_kernel_stack None t0 else t0)).
  { rewrite Ht1. apply list_lookup_insert_eq. by eapply lookup_lt_Some. }
  destruct Hss as (S1 & S2 & S3 & S4 & S5 & S6). pose proof (sl_sched _ _ _ Hsl) as [Q1 Q2 Q3 Q4 [Q5 Q5']].
  assert (Hsame1 : same_links (k_tasks k) (k_tasks k1)).
  { rewrite Ht1. apply (same_links_insert _ _ t0); [done|]. by destruct reusing. }
  assert (Hs2 : sched_wf k2 c rest).
  { split; cbn.
    - rewrite Ht1, length_insert. done.
    - congruence.
    - by eapply ring_same.
    - done.
    - by exists (PHYS_TO_KVIRT kp). }
  assert (Hap2 : heap_apart p2 r).
  { destruct (addr_free_aligned _ _ (pg_pmm_wf _ Hwf) Hrf) as [_ Hrr]. split; [unfold heap_phys; lia|].
    intros j Hj Hp. destruct (cf_tables _ _ _ HC j Hj Hp) as [[Hp1 E]|Hf].
    - rewrite E. unfold pde_present, table_of in *. rewrite Hin1 in * by done. case_decide; [|done]. by apply Hheap.
    - apply Hfree1 in Hf as [Hf _]. destruct (addr_free_aligned _ _ (pg_pmm_wf _ Hwf) Hf) as [_ ?]. unfold heap_phys. lia. }
  assert (Hre2 : reusing = true ∧ i ∈ c :: rest ∨ reusing = false ∧ i ∉ c :: rest) by (destruct Hre as [(?&?&_)|?]; auto).
  destruct (finish_ok k2 c rest i reusing (if reusing then set_kernel_stack None t0 else t0) filename r entry sp ue av Hs2) as (res & k' & Ef & Hres); try done.
  { cbn. congruence. } { apply (cf_wf _ _ _ HC). } { apply (cf_space _ _ _ HC). } { cbn. congruence. }
  rewrite Ef. exists res, k'. split; [done|]. intros i' Ei. destruct Hres as [Hn|(E' & t & Ht & Hst & Hsw & Hoth & Hmem)]; [congruence|].
  assert (i' = i) as -> by congruence.
  exists t, r, entry, (if reusing then rest else i :: rest). split; [done|]. split; [done|]. split; [done|]. split; [done|].
  assert (Etc : t_id <$> task_current k2 = t_id <$> task_current k).
  { unfold task_current. cbn. rewrite S1, Q2. cbn. rewrite Ht1. rewrite list_lookup_insert_ne by done. done. }
  split; [by rewrite <- Etc, <- S3|]. split; [done|].
  split; [destruct reusing; [|set_solver]; destruct Hre2 as [[_ ?]|[? _]]; [set_solver|done]|].
  split; [destruct reusing; auto|]. split.
  - intros j Hj. rewrite Hoth by done. cbn. rewrite Ht1. by rewrite list_lookup_insert_ne.
  - intros x Hx1 Hx2. rewrite Hmem; [|done|].
    + cbn. rewrite (cf_mem _ _ _ HC).
      * apply Hout1. intros Hxr. apply Hx2. replace (page_of x) with r; [done|].
        destruct (addr_free_aligned _ _ (pg_pmm_wf _ Hwf) Hrf) as [? _]. unfold page_of. mlia.
      * intros Hf. apply Hfree1 in Hf as [? _]. done.
      * intros [E|[(j & Hj & Hp & _)|(va & q & fl & Hva & Htv & _)]].
        -- apply Hx2. by rewrite E.
        -- unfold pde_present in Hp. rewrite Hin1 in Hp by lia. rewrite decide_False in Hp; [done|].
           intros [?|Hvx]; [lia|]. by apply (Hvout _ Hvx).
        -- by rewrite Hnone1 in Htv.
    + intros E. apply Hx2. rewrite E. by apply Hfree1 in Hfresh as [? _].
Qed.

(** ** The theorems *)

(** C4 (functional): a call of the scheduler runs the next ready task of the
    circular list after the current one, the current one itself coming last and
    counting as ready if it was running; when none is ready it runs the kernel
    task.  The chosen task becomes running and is resumed from its saved stack
    pointer in its own address space (the kernel's for a kernel task), the
    interrupted one is left ready with its stack pointer saved, no other slot
    changes, the list keeps its members, and if only the current task was running
    then only the chosen one is. *)
Theorem schedule_round_robin (k : KS) (c : nat) (rest : list nat) (esp : Z) (tick : bool)
  (Hwf : sched_wf k c rest) (Hen : k_enabled k = true) :
  ∃ nx ct nt r k', k_tasks k !! c = Some ct ∧ schedule esp tick k = Some (r, k') ∧
    let l1 := <[c := preempted esp tick ct]> (k_tasks k) in
    match find_index (ready_at l1) (rest ++ [c]) with
    | Some j => (rest ++ [c]) !! j = Some nx
    | None => nx = 0%nat
    end ∧
    l1 !! nx = Some nt ∧ k_tasks k' = <[nx := set_state TASK_RUNNING nt]> l1 ∧ k_current k' = Some nx ∧
    r = t_stack_top nt ∧ Some (pg_cr3 (k_paging k')) = KVIRT_TO_PHYS <$> task_dir k nt ∧
    (∃ rest', sched_wf k' nx rest' ∧ nx :: rest' ≡ₚ c :: rest) ∧
    ((∀ i t, k_tasks k !! i = Some t → t_state t = TASK_RUNNING → i = c) →
     ∀ i t, k_tasks k' !! i = Some t → t_state t = TASK_RUNNING → i = nx).
Proof.
  destruct (chain_next _ _ _ _ (proj1 (sw_ring _ _ _ Hwf))) as (ct & _ & Hct & _).
  destruct (schedule_ok k c rest esp tick ct Hwf Hen Hct) as (nt0 & d0 & k' & _ & _ & E & _).
  destruct (schedule_wf k k' c rest esp tick _ Hwf Hen E) as (ct' & nt & Hct' & Hnt & Er & Et & _ & _ & Ecr & Hcase).
  assert (ct' = ct) as -> by congruence. cbv zeta in *.
  set (l1 := <[c := preempted esp tick ct]> (k_tasks k)) in *.
  exists (chosen l1 c rest), ct, nt, (t_stack_top nt0), k'. split; [done|]. split; [done|].
  cbv zeta. fold l1. split.
  { unfold chosen. destruct (find_index (ready_at l1) (rest ++ [c])) as [j|] eqn:Ej; [|done].
    by destruct (find_index_lookup _ _ _ Ej) as (x & -> & _). }
  split; [done|]. split; [done|]. set (nx := chosen l1 c rest) in *.
  split; [destruct Hcase as [[_ Hw]|(p & q & _ & Hw)]; apply (sw_current _ _ _ Hw)|].
  split; [done|]. split; [done|]. split.
  - destruct Hcase as [[Enx Hw]|(p & q & Epq & Hw)].
    + exists rest. split; [done|]. by rewrite Enx.
    + exists (q ++ c :: p). split; [done|]. rewrite Epq. change (nx :: q ++ c :: p) with ((nx :: q) ++ c :: p).
      change (c :: p ++ nx :: q) with ((c :: p) ++ nx :: q). by rewrite (Permutation_app_comm (nx :: q)).
  - intros Hone i t Hi Hrun. destruct (decide (i = nx)) as [|Hne]; [done|exfalso].
    rewrite Et, list_lookup_insert_ne in Hi by done. destruct (decide (i = c)) as [->|Hic].
    + unfold l1 in Hi. rewrite list_lookup_insert_eq in Hi by (by eapply lookup_lt_Some). injection Hi as <-.
      unfold preempted in Hrun. destruct (in_state TASK_RUNNING ct) eqn:Es; [done|].
      unfold in_state in Es. apply bool_decide_eq_false in Es. apply Es. revert Hrun. by repeat case_match.
    + unfold l1 in Hi. rewrite list_lookup_insert_ne in Hi by done. by apply Hic, (Hone i t).
Qed.



End task_proofs.

(** ** Examples *)

#[global] Instance no_sockets : NetSockets unit := {| net_sock_close_all_for_pid _ n := n |}.

(** An empty kernel directory at physical address 0x300000. *)
Definition demo_paging : paging_t :=
  mk_paging pmm_boot (λ _, 0) (Some (PHYS_TO_KVIRT 0x300000)) None [0; 0; 0; 0] 0 0.

Definition kern_with (n : nat) (tasks : list task_t) (heap : set_heap n) : kern Z (set_heap n) unit :=
  mk_kern tasks (Some 0%nat) (Some 0%nat) 1 true demo_paging elf_vfs
          (mk_wins (replicate MAX_WINDOWS win_zero) heap) tt 5 0.

Definition demo_kern : kern Z (set_heap 8) unit :=
  kern_with 8 (idle_task :: replicate 15 task_zero) (heap0 8).

Lemma demo_paging_wf : paging_wf demo_paging.
Proof. destruct paging_boot_wf as [H1 H2]. by split. Qed.

Lemma demo_space : space_ok demo_paging 0x300000.
Proof. destruct empty_space_ok as [[H1 H2 H3] H4]. by split; [split|]. Qed.

Lemma demo_wins_inv n (h : set_heap n) base : live h = base → win_inv base (mk_wins (replicate MAX_WINDOWS win_zero) h).
Proof.
  intros E. destruct (window_init_inv (mk_wins (replicate MAX_WINDOWS win_zero) h)) as (s & Es & Hs).
  injection Es as <-. cbn [win_heap] in Hs. by rewrite E in Hs.
Qed.

(** Two tasks: the kernel and a ready user task. *)
Definition demo_user : task_t :=
  mk_task 7 0 (str "demo") TASK_READY None (Some 0xC0500100) None (Some 0%nat) false (Some 0xC0500000) 0xC0502000
    0 0 0 0 0 (Some (PHYS_TO_KVIRT 0x310000)) 0x401000 0x401000 (-1) (Some (0xC0503000, new_fd_table)) (str "/").

Definition two_tasks : kern Z (set_heap 8) unit :=
  kern_with 8 (set_next (Some 1%nat) idle_task :: demo_user :: replicate 14 task_zero) (0xC0504000, {[0xC0503000]}).

Lemma two_tasks_wf : sched_wf two_tasks 0 [1%nat].
Proof.
  split.
  - reflexivity.
  - reflexivity.
  - split; [|decided]. cbn. split; [eexists; split; reflexivity|]. eexists. split; reflexivity.
  - decided.
  - by eexists.
Qed.

Lemma schedule_round_robin_witness :
  ∃ r k', schedule 0xC0600000 true two_tasks = Some (r, k') ∧ k_current k' = Some 1%nat.
Proof.
  destruct (schedule_round_robin two_tasks 0 [1%nat] 0xC0600000 true two_tasks_wf eq_refl)
    as (nx & ct & nt & r & k' & Hct & E & Hnx & _ & _ & Hcur & _).
  exists r, k'. split; [exact E|]. rewrite Hcur. f_equal. cbv in Hct. injection Hct as <-. cbv in Hnx. by injection Hnx.
Defined.


Lemma new_fd_table_wf : fdt_wf elf_vfs new_fd_table.
Proof.
  split; [reflexivity|]. unfold new_fd_table. apply Forall_app. split.
  - repeat apply Forall_cons_2; [..|apply Forall_nil_2]; intros _; exists ToConsole; done.
  - apply Forall_replicate, fd_zero_ok.
Qed.

Lemma two_tasks_pre : term_pre two_tasks {[0xC0503000]} 1 demo_user.
Proof.
  split.
  - reflexivity.
  - by apply (demo_wins_inv 8 (0xC0504000, {[0xC0503000]})).
  - exact elf_vfs_wf.
  - intros p fds [= <- <-]. split; [exact new_fd_table_wf|set_solver].
  - exact demo_paging_wf.
  - eexists. split; [reflexivity|]. vm_compute. discriminate.
  - intros d [= <-]. exists 0x310000. split; [done|].
    assert (Hn : ∀ k, ¬ pde_present (pg_mem demo_paging) 0x310000 k) by done. split.
    + split; [done|]. split; [lia|]. intros (k & Hk & E & _). revert E. unfold frame_at, PMM_START, PMM_FRAME_SIZE. lia.
    + intros i _ Hp. by apply Hn in Hp.
    + intros i j _ _ _ Hp. by apply Hn in Hp.
Qed.


Lemma demo_spawn_pre : spawn_pre demo_kern 0 [] 0x300000 (str "/bin/demo.elf") [str "/bin/demo.elf"].
Proof.
  split.
  - split.
    + split; [reflexivity|reflexivity| |set_solver|by eexists].
      split; [by eexists|]. apply NoDup_singleton.
    + intros i t Hi Hn. destruct i as [|i]; [set_solver|]. cbn in Hi.
      assert (t = task_zero) as ->; [|done].
      assert (Hr : replicate 15 task_zero !! i = Some t) by exact Hi. by apply lookup_replicate in Hr as [-> _].
    + intros i t Hi ->%list_elem_of_singleton. done.
    + by intros t [= <-].
  - done.
  - exact demo_paging_wf.
  - split; [done|]. split; [done|]. apply Forall_nil_2.
  - intros i Hi. cbn in Hi. set_solver.
  - apply demo_space.
  - done.
  - split; [unfold heap_phys; lia|]. by intros k _.
  - exact elf_vfs_wf.
  - exact elf_vfs_bounded.
  - intros st v' E. vm_compute in E. injection E as <- _. split; [done|]. vm_compute. discriminate.
  - vm_compute. discriminate.
  - repeat constructor; vm_compute; discriminate.
Qed.

Definition created (r : option (create_result * kern Z (set_heap 8) unit)) : option nat :=
  match r with Some (CTask i, _) => Some i | _ => None end.

Lemma demo_spawn_succeeds : created (task_create_user_elf (str "/bin/demo.elf") [] demo_kern) = Some 1%nat.
Proof. vm_compute. reflexivity. Qed.


(** When the descriptor table cannot be allocated, the slot is marked terminated
    although it was never put on the list; the next task created in it is ready
    but not on the list, so it never runs. *)
Definition orphan_run : option (list (option nat * bool)) :=
  let k0 := kern_with 2 (idle_task :: replicate 15 task_zero) (0xC0504000, {[0xC0503000]}) in
  '(r1, k1) ← task_create_user_elf (str "/bin/demo.elf") [] k0;
  '(_, k2) ← k_free 0xC0503000 k1;
  '(r2, k3) ← task_create_user_elf (str "/bin/demo.elf") [] k2;
  match r1, r2 with
  | CNull, CTask 1 => Some ((λ t, (t_next t, in_state TASK_READY t)) <$> take 2 (k_tasks k3))
  | _, _ => None
  end.

Example orphan_never_runs : orphan_run = Some [(Some 0%nat, false); (None, true)].
Proof. vm_compute. reflexivity. Qed.
