(* ===== verification/VfsProc.v ===== *)
(** * The files under [/mos] ([src/src/fs/vfs_proc.c], [src/src/liballoc/liballoc_hooks.c])

    Reports on the state of the kernel, generated into one shared buffer when they
    are read or measured.  A generator is the list of its appends; [kview] is the
    state of the components that it reads and, for the processor, the interrupt
    controller, the PCI bus, the clock and the network, what they report. *)

From S2P Require Import Prelude CLib Strbuf KHeap Pmm Paging Window Pipe Vfs Loader Task.

(** ** What the reports are about *)

Record cpu_info_t := mk_cpu { vendor : list Z; max_leaf : Z; family : Z; model : Z; stepping : Z; feature_ecx : Z; feature_edx : Z }.
Record irq_info_t := mk_irq { irq_no : Z; irq_vec : Z; irq_masked : bool; irq_has_handler : bool; handler_addr : Z; handler_name : option (list Z) }.
Record pci_device_t := mk_pci { pci_bus : Z; pci_device : Z; pci_function : Z; vendor_id : Z; device_id : Z; class_code : Z; subclass : Z; irq_line : Z }.
Record net_info := mk_netinfo { net_ip : Z; net_mask : Z; net_gw : Z; net_rx : Z; net_tx : Z }.

Record kview := mk_view {
  kv_log : klog_t;
  kv_pmm : pmm_t;
  kv_heap_current : Z;
  kv_cpu : cpu_info_t;
  kv_irqs : list irq_info_t;
  kv_pci : list pci_device_t;
  kv_ticks : Z;
  kv_uptime : Z;
  kv_windows : list kernel_window_t;
  kv_fs_names : list (list Z);
  kv_vf_names : list (list Z);
  kv_tasks : list task_t;
  kv_net : net_info
}.

(** ** Appends *)

Inductive item :=
  | C (s : list Z)    (** [append_cstr] *)
  | D (v : Z)         (** [append_dec_u32] *)
  | X (v : Z).        (** [append_hex_u32] *)

Definition append (cap : Z) (i : item) : M strbuf Z :=
  match i with C s => strbuf_append_cstr cap s | D v => strbuf_append_dec_u32 cap v | X v => strbuf_append_hex_u32 cap v end.

Fixpoint appends (cap : Z) (l : list item) : M strbuf unit :=
  match l with [] => mret tt | i :: l => append cap i;; appends cap l end.

(** A literal, after or before a newline. *)
Definition L (s : string) : item := C (str s).
Definition NL (s : string) : item := C (10 :: str s).
Definition LN (s : string) : item := C (str s ++ [10]).

(** ** The generators *)

(** The page hooks of the kernel heap: [liballoc_heap_info]. *)
Definition liballoc_heap_info (k : kview) : Z * Z * Z := (KERNEL_HEAP_START, KERNEL_HEAP_END, kv_heap_current k).

Definition heap_sizes (k : kview) : Z * Z * Z :=
  let '(hstart, hend, hcur) := liballoc_heap_info k in
  let htotal := u32 (hend - hstart) in
  let hused := if hstart <? hcur then u32 (hcur - hstart) else 0 in
  let hfree := if hused <? htotal then u32 (htotal - hused) else 0 in
  (hused, hfree, htotal).

Definition vgen_meminfo (k : kview) : option (list item) :=
  '(total, used, free_frames, _) ← pmm_get_stats (kv_pmm k);
  let '(hstart, hend, hcur) := liballoc_heap_info k in
  let '(hused, hfree, htotal) := heap_sizes k in
  Some [L "kernel_vbase="; X KERNEL_VIRTUAL_BASE; NL "";
        L "RAM: "; D (PMM_END (kv_pmm k) / (1024 * 1024)); L " MB detected (PMM range "; X PMM_START; L "-"; X (PMM_END (kv_pmm k)); LN ")";
        L "PMM: total="; D total; L " used="; D used; L " free="; D free_frames; LN " frames (4KB each)";
        L "PMM: "; D (u32 (free_frames * 4)); L " KB free / "; D (u32 (total * 4)); LN " KB total";
        L "User VA: "; X USER_REGION_START; L "-"; X USER_REGION_END; L " (~"; D ((USER_REGION_END - USER_REGION_START) / (1024 * 1024)); LN " MB)";
        L "Heap: start="; X hstart; L " end="; X hend; L " cur="; X hcur; NL "Heap: used="; D hused; L " bytes free="; D hfree;
        L " bytes total="; D htotal; LN " bytes"].

Definition vgen_cpuinfo (k : kview) : option (list item) :=
  let info := kv_cpu k in
  Some [L "CPU vendor: "; C (vendor info); NL "CPUID max leaf: "; X (max_leaf info); NL "Family: "; D (family info);
        L "  Model: "; D (model info); L "  Stepping: "; D (stepping info); NL "Feature ECX: "; X (feature_ecx info);
        NL "Feature EDX: "; X (feature_edx info); NL ""].

Definition yes_no (b : bool) : item := if b then L "yes" else L "no".

Definition irq_line_items (i : irq_info_t) : list item :=
  [D (irq_no i); L "    "; X (irq_vec i); L "   "; yes_no (irq_masked i); L "      "; yes_no (irq_has_handler i); L "      ";
   (if handler_addr i =? 0 then L "-" else X (handler_addr i)); L "    ";
   (match handler_name i with Some (c :: s) => C (c :: s) | _ => L "-" end); NL ""].

Definition vgen_lsirq (k : kview) : option (list item) :=
  Some (LN "IRQ  Vec  Masked  Handler  Addr        Name" :: concat (irq_line_items <$> take 16 (kv_irqs k))).

Definition PCI_MAX_DEVICES : nat := 32.

Definition pci_line_items (d : pci_device_t) : list item :=
  [L "  "; D (pci_bus d); L ":"; D (pci_device d); L "."; D (pci_function d); L " vendor="; X (vendor_id d); L " device="; X (device_id d);
   L " class="; X (class_code d); L "."; X (subclass d)] ++
  (if negb (irq_line d =? 0) && negb (irq_line d =? 0xFF) then [L " irq="; D (irq_line d)] else []) ++ [NL ""].

Definition vgen_pci (k : kview) : option (list item) :=
  let devs := take PCI_MAX_DEVICES (kv_pci k) in
  Some ([L "PCI devices ("; D (Z.of_nat (length devs)); LN "):"] ++ concat (pci_line_items <$> devs)).

Definition vgen_uptime (k : kview) : option (list item) :=
  let total := kv_uptime k in
  Some [L "ticks: "; D (kv_ticks k); NL "seconds: "; D total; NL "pretty: "; D (total / 86400); L "d "; D (total mod 86400 / 3600); L "h ";
        D (total mod 3600 / 60); L "m "; D (total mod 60); LN "s"].

Definition win_line_items (w : win_info_t) : list item :=
  [D (u32 (wi_window_id w)); L "   "; D (wi_owner_pid w); L "   "; D (u32 (wi_w w)); L "   "; D (u32 (wi_h w)); L "   "; C (wi_title w); NL ""].

Definition vgen_windows (k : kview) : option (list item) :=
  let info := window_list_loop (kv_windows k) 0 0 (Z.of_nat MAX_WINDOWS) in
  Some ([L "windows: "; D (Z.of_nat (length info)); C (10 :: str "ID   PID   W    H    TITLE" ++ [10])] ++ concat (win_line_items <$> info)).

Fixpoint fs_lines (i : Z) (names : list (list Z)) : list item :=
  match names with [] => [] | n :: names => [L "  fs"; D i; L ": "; C n; NL ""] ++ fs_lines (i + 1) names end.

Definition vgen_vfs (k : kview) : option (list item) :=
  Some ([L "filesystems: "; D (Z.of_nat (length (kv_fs_names k))); NL ""] ++ fs_lines 0 (kv_fs_names k) ++
        [L "virtual files: "; D (Z.of_nat (length (kv_vf_names k))); NL ""] ++ concat ((λ n, [L "  /"; C n; NL ""]) <$> kv_vf_names k)).

Definition vgen_heap (k : kview) : option (list item) :=
  let '(hstart, hend, hcur) := liballoc_heap_info k in
  let '(hused, hfree, htotal) := heap_sizes k in
  Some [L "heap.start: "; X hstart; NL "heap.end: "; X hend; NL "heap.cur: "; X hcur; NL "heap.used_bytes: "; D hused;
        NL "heap.free_bytes: "; D hfree; NL "heap.total_bytes: "; D htotal; NL ""].

Definition append_ip_be (ip : Z) : list item :=
  [D (Z.land (Z.shiftr ip 24) 0xFF); L "."; D (Z.land (Z.shiftr ip 16) 0xFF); L "."; D (Z.land (Z.shiftr ip 8) 0xFF); L "."; D (Z.land ip 0xFF)].

Definition task_state_name (st : task_state_t) : item :=
  match st with TASK_READY => L "ready" | TASK_RUNNING => L "running" | TASK_BLOCKED => L "blocked" | TASK_TERMINATED => L "terminated" end.

Definition cpu_percent (now : Z) (t : taskinfo_entry_t) : Z :=
  let age := if ti_start_ticks t <? now then u32 (now - ti_start_ticks t) else 0 in
  let pct := if 0 <? age then u32 (ti_runtime_ticks t * 100) / age else 0 in
  if 100 <? pct then 100 else pct.

Definition task_line_items (now : Z) (t : taskinfo_entry_t) : list item :=
  [D (ti_id t); L "    "; D (ti_parent_id t); L "    "; D (ti_ring t); L "    "; task_state_name (ti_state t); L "    ";
   D (cpu_percent now t); L "    "; D (ti_start_ticks t / 100); L "    "; C (ti_name t); NL ""].

Definition vgen_tasks (k : kview) : option (list item) :=
  Some (LN "PID  PPID  RING  STATE       CPU%  START(s)  NAME" ::
        concat (task_line_items (kv_ticks k) <$> list_info_loop (kv_tasks k) 0 0 32)).

Definition vgen_net (k : kview) : option (list item) :=
  let n := kv_net k in
  Some ([L "ip   "] ++ append_ip_be (net_ip n) ++ [NL "mask "] ++ append_ip_be (net_mask n) ++ [NL "gw   "] ++ append_ip_be (net_gw n) ++
        [NL "rxpk "; D (net_rx n); NL "txpk "; D (net_tx n); NL ""]).

Definition KERNEL_VERSION_ABI : Z := 2.
Definition KERNEL_VERSION_STR : string := "0.3.0".
Definition KERNEL_VERSION_GIT : string := "d5deda1-dirty".
Definition KERNEL_BUILD_DATE_UTC : string := "2026-03-20T01:54:03Z".
Definition KERNEL_VERSION_FULL : string := "0.3.0-gd5deda1-dirty".

Definition vgen_version (k : kview) : option (list item) :=
  Some [L "version: "; L KERNEL_VERSION_STR; NL "git: "; L KERNEL_VERSION_GIT; NL "abi: "; D KERNEL_VERSION_ABI;
        NL "built_utc: "; L KERNEL_BUILD_DATE_UTC; NL "full: "; L KERNEL_VERSION_FULL; NL ""].

(** ** Files *)

Definition VGEN_SIZE : Z := 4096.

(** The view and the shared buffer [vgen_buf]. *)
Record proc_t := mk_proc { pr_view : kview; pr_buf : list Z }.

Abbreviation vgen_fn := (kview → option (list item)).

(** [gen(vgen_buf, sizeof(vgen_buf))]. *)
Definition generate (gen : vgen_fn) : M proc_t Z := λ p,
  items ← gen (pr_view p);
  '(_, (buf, len)) ← appends VGEN_SIZE items (pr_buf p, 0);
  Some (len, mk_proc (pr_view p) buf).

Definition vfile_read_from_generated (gen : vgen_fn) (offset len : Z) : M proc_t (Z * list Z) :=
  if len =? 0 then mret (0, []) else
  total ← generate gen;
  if total <=? offset then mret (0, []) else
  let remaining := u32 (total - offset) in
  let len := if remaining <? len then remaining else len in
  p ← get;
  if Z.of_nat (length (pr_buf p)) <? offset + len then ub else
  mret (s32 len, take (Z.to_nat len) (drop (Z.to_nat offset) (pr_buf p))).

Definition vfile_size_from_generated (gen : vgen_fn) : M proc_t Z := generate gen.

Definition vfile_kdebug_size : M proc_t Z := λ p, n ← klog_snapshot_size (kv_log (pr_view p)); Some (n, p).
Definition vfile_kdebug_read (offset len : Z) : M proc_t (Z * list Z) := λ p,
  l ← klog_read_bytes offset len (kv_log (pr_view p)); Some ((Z.of_nat (length l), l), p).

Definition generated (name : string) (gen : vgen_fn) : vfs_virtual_file_t proc_t :=
  mk_vfile (str name) (vfile_size_from_generated gen) (vfile_read_from_generated gen).

(** The generated files, in the order of their registration after the log. *)
Definition generators : list (string * vgen_fn) :=
  [("mos/kmem", vgen_meminfo); ("mos/kcpu", vgen_cpuinfo); ("mos/kirq", vgen_lsirq); ("mos/kpci", vgen_pci); ("mos/kuptime", vgen_uptime);
   ("mos/kwin", vgen_windows); ("mos/kvfs", vgen_vfs); ("mos/kheap", vgen_heap); ("mos/ktasks", vgen_tasks); ("mos/knet", vgen_net);
   ("mos/kver", vgen_version)]%string.

Definition vfs_proc_files : list (vfs_virtual_file_t proc_t) :=
  mk_vfile (str "mos/kdebug") vfile_kdebug_size vfile_kdebug_read :: ((λ '(n, g), generated n g) <$> generators).

Definition vfs_proc_register_files : M (vfs_t proc_t) unit := register_all vfs_proc_files.

(** ** What a list of appends leaves in the buffer *)

Definition item_text (i : item) : list Z := match i with C s => s | D v => dec_text v | X v => hex_text v end.
Definition text_of (l : list item) : list Z := concat (item_text <$> l).

Definition item_ok (i : item) : Prop := match i with C _ => True | D v | X v => is_u32 v end.

Lemma append_text cap i b : item_ok i → append cap i b = strbuf_append_cstr cap (item_text i) b.
Proof. destruct i; intros H; [done|by apply append_dec_cstr|by apply append_hex_cstr]. Qed.

Lemma appends_ok cap l dst len : Forall item_ok l → 0 ≤ len ≤ cap → cap ≤ Z.of_nat (length dst) → cap < 4294967296 →
  appends cap l (dst, len) =
    Some (tt, (splice dst (Z.to_nat len) (take (Z.to_nat (cap - len)) (text_of l)), Z.min cap (len + Z.of_nat (length (text_of l))))).
Proof.
  intros Hl. revert dst len. induction Hl as [|i l Hi Hl IH]; intros dst len H1 H2 H3; cbn [appends].
  { unfold text_of. cbn. rewrite take_nil, splice_nil. unfold mret, M_ret. do 3 f_equal. lia. }
  unfold mbind, M_bind. rewrite append_text by done. destruct (append_cstr_ok cap (item_text i) dst len H1 H2 H3) as (rc & b' & -> & _ & ->).
  cbn [fst snd]. set (n := (length (item_text i) `min` Z.to_nat (cap - len))%nat).
  assert (Hn : length (take n (item_text i)) = n) by (rewrite length_take; unfold n; lia).
  rewrite IH; [|lia|rewrite length_splice; [done|rewrite Hn; lia]|done].
  replace (Z.to_nat (len + Z.of_nat n)) with (Z.to_nat len + length (take n (item_text i)))%nat by (rewrite Hn; lia).
  change (text_of (i :: l)) with (item_text i ++ text_of l). rewrite length_app.
  rewrite splice_splice by (rewrite Hn, length_take; lia). do 2 f_equal. f_equal; [|lia]. f_equal. unfold n.
  destruct (decide (Z.of_nat (length (item_text i)) ≤ cap - len)).
  - rewrite Nat.min_l, take_ge by lia. rewrite take_app_ge by lia. f_equal. f_equal. lia.
  - rewrite Nat.min_r by lia. rewrite (take_app_le (item_text i)) by lia.
    replace (Z.to_nat (cap - (len + Z.of_nat (Z.to_nat (cap - len))))) with O by lia. by rewrite take_0, app_nil_r.
Qed.

(** A report is cut to the size of the buffer. *)
Definition report (l : list item) : list Z := take (Z.to_nat VGEN_SIZE) (text_of l).

Definition proc_ok (v : kview) (p : proc_t) : Prop := pr_view p = v ∧ length (pr_buf p) = Z.to_nat VGEN_SIZE.

Lemma generate_ok gen v p items : proc_ok v p → gen v = Some items → Forall item_ok items →
  ∃ p', generate gen p = Some (Z.of_nat (length (report items)), p') ∧ proc_ok v p' ∧ ∃ rest, pr_buf p' = report items ++ rest.
Proof.
  intros [<- Hb] Hg Hi. unfold generate. rewrite Hg. cbn [mbind option_bind].
  rewrite appends_ok; [|done|unfold VGEN_SIZE; lia|rewrite Hb; unfold VGEN_SIZE; lia|unfold VGEN_SIZE; lia]. cbn [mbind option_bind].
  change (Z.to_nat (VGEN_SIZE - 0)) with (Z.to_nat VGEN_SIZE). fold (report items). rewrite Z.add_0_l.
  assert (Hlen : length (report items) = (Z.to_nat VGEN_SIZE `min` length (text_of items))%nat) by apply length_take.
  eexists. split; [do 2 f_equal; rewrite Hlen; unfold VGEN_SIZE; lia|]. split; [split; [done|]|].
  - cbn [pr_buf]. rewrite length_splice; [done|]. cbn. lia.
  - exists (drop (length (report items)) (pr_buf p)). done.
Qed.

(** ** Files that read as a text *)

Definition slice_of (T : list Z) (off len : Z) : list Z := take (Z.to_nat len) (drop (Z.to_nat off) T).

Definition reads_as (f : vfs_virtual_file_t proc_t) (I : proc_t → Prop) (T : list Z) : Prop :=
  ∀ p off len, I p → is_u32 off → 0 < len < 2147483648 →
    ∃ p', vf_read_fn f off len p = Some ((Z.of_nat (length (slice_of T off len)), slice_of T off len), p') ∧ I p'.

Lemma generated_reads v n gen items : gen v = Some items → Forall item_ok items → reads_as (generated n gen) (proc_ok v) (report items).
Proof.
  intros Hg Hi p off len Hp Ho Hlen. cbn [vf_read_fn generated]. unfold vfile_read_from_generated. rewrite (proj2 (Z.eqb_neq _ _)) by lia.
  unfold mbind, M_bind. destruct (generate_ok gen v p items Hp Hg Hi) as (p' & -> & Hp' & rest & Hr).
  assert (HL : (length (report items) ≤ 4096)%nat) by (unfold report; rewrite length_take; unfold VGEN_SIZE; lia).
  destruct (Z.leb_spec (Z.of_nat (length (report items))) off) as [Hend|Hin].
  { exists p'. unfold slice_of. rewrite drop_ge, take_nil by lia. done. }
  unfold get. rewrite u32_small by mlia.
  set (n' := if Z.of_nat (length (report items)) - off <? len then Z.of_nat (length (report items)) - off else len).
  assert (Hn : n' = Z.min (Z.of_nat (length (report items)) - off) len) by (unfold n'; destruct (Z.ltb_spec (Z.of_nat (length (report items)) - off) len); lia).
  assert (Hs : slice_of (report items) off len = take (Z.to_nat n') (drop (Z.to_nat off) (pr_buf p'))).
  { unfold slice_of. rewrite Hr. rewrite drop_app_le by mlia. rewrite take_app_le by (rewrite length_drop; mlia).
    rewrite Hn. destruct (decide (Z.of_nat (length (report items)) - off ≤ len)).
    - rewrite !take_ge by (rewrite length_drop; mlia). done.
    - f_equal. lia. }
  rewrite Hs. destruct Hp' as [Hv Hb]. rewrite (proj2 (Z.ltb_ge _ _)) by (rewrite Hb; unfold VGEN_SIZE; lia).
  exists p'. split; [|done]. unfold mret, M_ret. do 2 f_equal. f_equal. rewrite length_take, length_drop, Hb. unfold VGEN_SIZE. mlia.
Qed.

(** ** The generators fit the appends *)

Definition irq_ok (i : irq_info_t) : Prop := is_u32 (irq_no i) ∧ is_u32 (irq_vec i) ∧ is_u32 (handler_addr i).
Definition pci_ok (d : pci_device_t) : Prop :=
  is_u32 (pci_bus d) ∧ is_u32 (pci_device d) ∧ is_u32 (pci_function d) ∧ is_u32 (vendor_id d) ∧ is_u32 (device_id d) ∧
  is_u32 (class_code d) ∧ is_u32 (subclass d) ∧ is_u32 (irq_line d).
Definition task_ok (t : task_t) : Prop := is_u32 (t_id t) ∧ is_u32 (t_parent_id t) ∧ is_u32 (t_start_ticks t).

(** The fields of the view have their widths. *)
Record view_ok (v : kview) : Prop := {
  vo_pmm : pmm_wf (kv_pmm v);
  vo_heap : is_u32 (kv_heap_current v);
  vo_cpu : let c := kv_cpu v in is_u32 (max_leaf c) ∧ is_u32 (family c) ∧ is_u32 (model c) ∧ is_u32 (stepping c) ∧ is_u32 (feature_ecx c) ∧ is_u32 (feature_edx c);
  vo_irqs : Forall irq_ok (kv_irqs v);
  vo_pci : Forall pci_ok (kv_pci v);
  vo_clock : is_u32 (kv_ticks v) ∧ is_u32 (kv_uptime v);
  vo_windows : Forall (λ w, is_u32 (win_owner_pid w)) (kv_windows v);
  vo_fs : is_u32 (Z.of_nat (length (kv_fs_names v)));
  vo_vf : is_u32 (Z.of_nat (length (kv_vf_names v)));
  vo_tasks : Forall task_ok (kv_tasks v);
  vo_net : is_u32 (net_rx (kv_net v)) ∧ is_u32 (net_tx (kv_net v))
}.

Lemma Forall_concat_fmap {A B} (P : B → Prop) (f : A → list B) (l : list A) : (∀ x, x ∈ l → Forall P (f x)) → Forall P (concat (f <$> l)).
Proof. intros H. apply Forall_concat, Forall_fmap, Forall_forall. done. Qed.

Ltac items := repeat (apply Forall_cons; split); try apply Forall_nil; cbn [item_ok L NL LN]; try exact I; try assumption.

Lemma land_u32 x : is_u32 (Z.land x 0xFF).
Proof. change 0xFF with (Z.ones 8). rewrite Z.land_ones by lia. mlia. Qed.

Lemma ip_items ip : Forall item_ok (append_ip_be ip).
Proof. unfold append_ip_be. items; apply land_u32. Qed.

Lemma heap_sizes_ok v : let '(a, b, c) := heap_sizes v in is_u32 a ∧ is_u32 b ∧ is_u32 c.
Proof. unfold heap_sizes, liballoc_heap_info. repeat case_match; split_and?; apply u32_range || done. Qed.

Lemma meminfo_items v : view_ok v → ∃ items, vgen_meminfo v = Some items ∧ Forall item_ok items.
Proof.
  intros H. pose proof (vo_pmm v H) as Hp. unfold vgen_meminfo. rewrite (pmm_get_stats_correct _ Hp). cbn [mbind option_bind].
  pose proof (wf_count _ Hp) as Hc. pose proof (wf_end _ Hp) as He. change PMM_MAX_FRAME_COUNT with 260096 in Hc. change PMM_START with 8388608 in *. change PMM_FRAME_SIZE with 4096 in He.
  set (fr := seqZ 0 (PMM_FRAME_COUNT (kv_pmm v))). assert (Hl : Z.of_nat (length fr) ≤ 260096) by (unfold fr; rewrite length_seqZ; lia).
  assert (Hf : ∀ P `{!∀ x, Decision (P x)}, is_u32 (Z.of_nat (length (filter P fr)))).
  { intros P ?. pose proof (length_filter P fr). unfold is_u32. lia. }
  pose proof (heap_sizes_ok v) as Hh. destruct (heap_sizes v) as [[hu hf] ht]. cbn [liballoc_heap_info]. eexists. split; [done|].
  destruct Hh as (? & ? & ?). items; try apply Hf; try apply u32_range; try apply (vo_heap v H); unfold is_u32, PMM_START; try done; try lia.
  Z.div_mod_to_equations; lia.
Qed.

Lemma irq_items i : irq_ok i → Forall item_ok (irq_line_items i).
Proof.
  intros (H1 & H2 & H3). unfold irq_line_items, yes_no. items; repeat case_match; done.
Qed.

Lemma pci_items d : pci_ok d → Forall item_ok (pci_line_items d).
Proof. intros (? & ? & ? & ? & ? & ? & ? & ?). unfold pci_line_items. items. apply Forall_app. split; [case_match; items; done|items; done]. Qed.

Lemma window_list_ok ws i n max : Forall (λ w, is_u32 (win_owner_pid w)) ws → 0 ≤ n ≤ max →
  Forall (λ w, is_u32 (wi_owner_pid w)) (window_list_loop ws i n max) ∧ Z.of_nat (length (window_list_loop ws i n max)) ≤ max - n.
Proof.
  intros H. revert i n. induction H as [|w ws Hw Hws IH]; intros i n Hn; cbn [window_list_loop]; [split; [constructor|cbn; lia]|].
  destruct (Z.ltb_spec n max); cbn [negb]; [|split; [constructor|cbn; lia]]. case_match; [apply IH; lia|].
  destruct (IH (i + 1) (n + 1)) as [H1 H2]; [lia|]. split; [by constructor|]. cbn [length]. lia.
Qed.

Lemma win_items w : is_u32 (wi_owner_pid w) → Forall item_ok (win_line_items w).
Proof. intros H. unfold win_line_items. items; try apply u32_range. Qed.

Lemma fs_items i names : 0 ≤ i → is_u32 (i + Z.of_nat (length names)) → Forall item_ok (fs_lines i names).
Proof.
  revert i. induction names as [|n names IH]; intros i Hi Hl; cbn [fs_lines]; [constructor|]. cbn [length] in Hl.
  apply Forall_app. split; [items; mlia|]. apply IH; mlia.
Qed.

Lemma cpu_percent_u32 now t : is_u32 (cpu_percent now t).
Proof.
  unfold cpu_percent. set (age := if ti_start_ticks t <? now then _ else _). destruct (Z.ltb_spec 0 age) as [Ha|Ha]; [|done].
  destruct (Z.ltb_spec 100 (u32 (ti_runtime_ticks t * 100) / age)); [done|].
  pose proof (u32_range (ti_runtime_ticks t * 100)). split; [apply Z.div_pos; mlia|lia].
Qed.

Lemma task_items now t : is_u32 (ti_id t) → is_u32 (ti_parent_id t) → is_u32 (ti_ring t) → is_u32 (ti_start_ticks t) → Forall item_ok (task_line_items now t).
Proof.
  intros H1 H2 H3 H4. unfold task_line_items. items; try apply cpu_percent_u32; [by destruct (ti_state t)|mlia].
Qed.

Lemma list_info_ok l i n max : Forall task_ok l →
  Forall (λ t, is_u32 (ti_id t) ∧ is_u32 (ti_parent_id t) ∧ is_u32 (ti_ring t) ∧ is_u32 (ti_start_ticks t)) (list_info_loop l i n max).
Proof.
  intros H. revert i n. induction H as [|t l (H1 & H2 & H3) Hl IH]; intros i n; cbn [list_info_loop]; [constructor|].
  case_match; [constructor|]. case_match; [apply IH|]. case_match; [apply IH|]. constructor; [|apply IH]. cbn. repeat split; try apply H1; try apply H2; try apply H3; case_match; lia.
Qed.

(** Every generator returns appends whose numbers have their width. *)
Lemma generators_items v n g : view_ok v → (n, g) ∈ generators → ∃ items, g v = Some items ∧ Forall item_ok items.
Proof.
  intros H. unfold generators. intros Hin. repeat (apply elem_of_cons in Hin as [[= -> ->]|Hin]); [..|by apply not_elem_of_nil in Hin].
  - by apply meminfo_items.
  - destruct (vo_cpu v H) as (? & ? & ? & ? & ? & ?). eexists. split; [done|]. items.
  - eexists. split; [done|]. items. apply Forall_concat_fmap. intros i Hi. apply irq_items.
    apply (Forall_forall irq_ok (take 16 (kv_irqs v))); [by apply Forall_take, vo_irqs|done].
  - eexists. split; [done|]. items; [rewrite length_take; unfold PCI_MAX_DEVICES; mlia|]. apply Forall_concat_fmap. intros d Hd. apply pci_items.
    apply (Forall_forall pci_ok (take PCI_MAX_DEVICES (kv_pci v))); [by apply Forall_take, vo_pci|done].
  - destruct (vo_clock v H). eexists. split; [done|]. items; mlia.
  - destruct (window_list_ok (kv_windows v) 0 0 (Z.of_nat MAX_WINDOWS) (vo_windows v H)) as [Hw Hl]; [lia|]. eexists. split; [done|].
    items; [unfold MAX_WINDOWS in *; mlia|]. apply Forall_concat_fmap. intros w Hwi. apply win_items. by apply (proj1 (Forall_forall _ _) Hw).
  - eexists. split; [done|]. items; [apply (vo_fs v H)|]. apply Forall_app. split; [apply fs_items; [lia|apply (vo_fs v H)]|].
    items; [apply (vo_vf v H)|]. apply Forall_concat_fmap. intros x _. items.
  - unfold vgen_heap. pose proof (heap_sizes_ok v) as Hh. destruct (heap_sizes v) as [[hu hf] ht]. destruct Hh as (? & ? & ?).
    eexists. split; [done|]. pose proof (vo_heap v H). items; done.
  - eexists. split; [done|]. items. apply Forall_concat_fmap. intros t Ht.
    pose proof (proj1 (Forall_forall _ _) (list_info_ok (kv_tasks v) 0 0 32 (vo_tasks v H)) t Ht) as (? & ? & ? & ?). by apply task_items.
  - destruct (vo_net v H). eexists. split; [done|]. cbn [app]. repeat (apply Forall_cons; split; [done|]).
    pose proof (ip_items (net_ip (kv_net v))). pose proof (ip_items (net_mask (kv_net v))). pose proof (ip_items (net_gw (kv_net v))).
    repeat (apply Forall_app; split; [done|]; apply Forall_cons; split; [done|]). items.
  - eexists. split; [done|]. items; done.
Qed.

(** ** Reading through the file layer *)

(** The contents of the files under [/mos]: the log, and the reports. *)
Inductive contents_of (v : kview) : vfs_virtual_file_t proc_t → list Z → Prop :=
  | contents_log f L p : vfs_proc_files !! 0%nat = Some f → klog_rep (kv_log v) L p → contents_of v f (log_text L p)
  | contents_report n g items : (n, g) ∈ generators → g v = Some items → contents_of v (generated n g) (report items).

Lemma contents_reads v f T : view_ok v → contents_of v f T → reads_as f (proc_ok v) T.
Proof.
  intros Hv [f' L p Hf Hk|n g items Hin Hg].
  - cbn in Hf. injection Hf as <-. intros q off len [Hq Hb] Ho Hl. cbn [vf_read_fn]. unfold vfile_kdebug_read. rewrite Hq.
    rewrite (klog_read_ok _ _ _ Hk) by (done || mlia). cbn. exists q. by split.
  - destruct (generators_items v n g Hv Hin) as (items' & Hg' & Hi). rewrite Hg in Hg'. injection Hg' as <-. by apply generated_reads.
Qed.

Lemma contents_file v f T : contents_of v f T → ∃ i, vfs_proc_files !! i = Some f.
Proof.
  intros [f' L p Hf _|n g items Hin _]; [by exists O|]. apply list_elem_of_lookup in Hin as [i Hi]. exists (S i).
  change (vfs_proc_files !! S i) with (((λ '(n, g), generated n g) <$> generators) !! i). by rewrite list_lookup_fmap, Hi.
Qed.

Lemma contents_short v f T : contents_of v f T → (length T < Z.to_nat 2147483648)%nat.
Proof.
  intros [f' L p _ Hk|n g items _ _]; [|unfold report; rewrite length_take; unfold VGEN_SIZE; lia].
  pose proof (line_text_length L (klog_short _ L p Hk)). pose proof (kl_max _ L p Hk). pose proof (kl_pmax _ L p Hk).
  unfold log_text. rewrite length_app. lia.
Qed.

Lemma proc_names i f : vfs_proc_files !! i = Some f →
  pipe_is_pipe_path (47 :: vf_name f) = false ∧ find_index (λ g, vfs_path_matches_virtual (47 :: vf_name f) (vf_name g)) vfs_proc_files = Some i.
Proof. intros H. do 12 (destruct i as [|i]; [injection H as <-; vm_compute; done|]). discriminate H. Qed.

(** Reads of the given sizes, one after the other. *)
Fixpoint read_seq (fd : Z) (lens : list Z) : M (@vst proc_t) (list (list Z)) :=
  match lens with
  | [] => mret []
  | n :: lens =>
    r ← vfs_read fd n;
    match r with Returned _ data => l ← read_seq fd lens; mret (data :: l) | _ => ub end
  end.

Fixpoint chunks (lens : list Z) (T : list Z) : list (list Z) :=
  match lens with [] => [] | n :: lens => take (Z.to_nat n) T :: chunks lens (drop (Z.to_nat n) T) end.

Section reading.
Context (v : kview) (f : vfs_virtual_file_t proc_t) (T : list Z) (i : nat) (fd : nat).
Context (Hf : vfs_proc_files !! i = Some f) (HT : reads_as f (proc_ok v) T) (HTl : (length T < Z.to_nat 2147483648)%nat) (Hfd : (fd < VFS_MAX_FDS_PER_TASK)%nat).

Definition mos_fd (pos : Z) : vfs_fd_t := mk_fd true (vfs_virtual_fs_id_from_index (Z.of_nat i)) pos O_RDONLY (vfs_copy_path (47 :: vf_name f)).

Lemma vfs_read_mos s t pos len : virtual_files s = vfs_proc_files → proc_ok v (vfs_kernel s) → t !! fd = Some (mos_fd pos) →
  0 ≤ pos ≤ Z.of_nat (length T) → 0 < len < 2147483648 →
  ∃ s' n, vfs_read (Z.of_nat fd) len (s, t) = Some (Returned n (slice_of T pos len), (s', <[fd := mos_fd (pos + Z.of_nat (length (slice_of T pos len)))]> t)) ∧
    virtual_files s' = vfs_proc_files ∧ proc_ok v (vfs_kernel s').
Proof using Hf HT HTl Hfd.
  intros Hvf Hp Ht Hpos Hlen. unfold vfs_read, mbind, M_bind, get. unfold get_fd. rewrite Nat2Z.id.
  pose proof (lookup_lt_Some _ _ _ Hf) as Hi. change (length vfs_proc_files) with 12%nat in Hi.
  rewrite (proj2 (Z.ltb_ge _ _)), (proj2 (Z.leb_gt _ _)) by lia. cbn [orb]. rewrite Ht. cbn [mbind option_bind fd_in_use mos_fd fd_open_flags fd_fs_id].
  change (Z.land O_RDONLY 3 =? O_WRONLY) with false. cbv iota.
  assert (E1 : is_console_id (vfs_virtual_fs_id_from_index (Z.of_nat i)) = false).
  { unfold is_console_id, vfs_virtual_fs_id_from_index, VFS_VIRT_BASE_ID. apply andb_false_iff. right. apply Z.ltb_ge. lia. }
  assert (E2 : vfs_pipe_handle_from_fs_id (vfs_virtual_fs_id_from_index (Z.of_nat i)) = -1).
  { unfold vfs_pipe_handle_from_fs_id, vfs_virtual_fs_id_from_index, VFS_VIRT_BASE_ID, VFS_PIPE_BASE_ID.
    rewrite (proj2 (Z.ltb_lt _ 0)) by lia. done. }
  assert (E3 : vfs_virtual_index_from_fs_id (vfs_virtual_fs_id_from_index (Z.of_nat i)) s = Z.of_nat i).
  { unfold vfs_virtual_index_from_fs_id, vfs_virtual_fs_id_from_index. rewrite Hvf. change (length vfs_proc_files) with 12%nat.
    replace (VFS_VIRT_BASE_ID - (VFS_VIRT_BASE_ID - Z.of_nat i)) with (Z.of_nat i) by lia.
    rewrite (proj2 (Z.ltb_ge _ _)), (proj2 (Z.leb_gt _ _)) by lia. done. }
  rewrite E1, E2, E3. change (0 <=? -1) with false. rewrite (proj2 (Z.leb_le 0 _)) by lia. cbv iota.
  rewrite Hvf, zlookup_nat, Hf. unfold lift, on_vfs, on_kernel. change (fd_fs_handle (mos_fd pos)) with pos.
  rewrite (u32_small pos) by (unfold is_u32; lia). destruct (HT (vfs_kernel s) pos len Hp) as (p' & -> & Hp'); [mlia|done|].
  set (sl := slice_of T pos len). destruct (Z.ltb_spec 0 (Z.of_nat (length sl))) as [Hn|Hn].
  - eexists _, _. split; [reflexivity|]. done.
  - assert (length sl = O) as -> by lia. eexists _, _. rewrite Z.add_0_r. rewrite list_insert_id by done. split; [reflexivity|]. done.
Qed.

Lemma read_seq_mos lens : ∀ s t pos, virtual_files s = vfs_proc_files → proc_ok v (vfs_kernel s) → t !! fd = Some (mos_fd pos) →
  0 ≤ pos ≤ Z.of_nat (length T) → Forall (λ n, 0 < n < 2147483648) lens →
  ∃ s' t', read_seq (Z.of_nat fd) lens (s, t) = Some (chunks lens (drop (Z.to_nat pos) T), (s', t')) ∧ proc_ok v (vfs_kernel s').
Proof using Hf HT HTl Hfd.
  induction lens as [|n lens IH]; intros s t pos Hvf Hp Ht Hpos Hl; cbn [read_seq chunks].
  { by exists s, t. }
  apply Forall_cons in Hl as [Hn Hl]. unfold mbind, M_bind. destruct (vfs_read_mos s t pos n Hvf Hp Ht Hpos Hn) as (s1 & m & -> & Hvf1 & Hp1).
  set (sl := slice_of T pos n) in *. assert (Hsl : length sl = (Z.to_nat n `min` (length T - Z.to_nat pos))%nat).
  { unfold sl, slice_of. rewrite length_take, length_drop. done. }
  destruct (IH s1 (<[fd := mos_fd (pos + Z.of_nat (length sl))]> t) (pos + Z.of_nat (length sl))) as (s2 & t2 & -> & Hp2); try done.
  - apply list_lookup_insert_eq. by eapply lookup_lt_Some.
  - lia.
  - exists s2, t2. split; [|done]. unfold mret, M_ret. do 2 f_equal. f_equal. f_equal. rewrite drop_drop.
    destruct (decide (Z.of_nat (length T) ≤ pos + n)).
    + rewrite !drop_ge by lia. done.
    + f_equal. lia.
Qed.

End reading.

(** C28 (functional): the files under [/mos], read through the file layer.  When the
    kernel's files are registered, opening one and reading it in pieces of any sizes
    gives the pieces of its contents: the kept text of the kernel log, and for the
    others the report on the state of the kernel, cut to the 4096 bytes of the
    buffer; reading past the end gives nothing. *)
Theorem mos_files_read v f T s t fd lens :
  view_ok v → contents_of v f T →
  virtual_files s = vfs_proc_files → proc_ok v (vfs_kernel s) →
  find_index (λ f, negb (fd_in_use f)) t = Some fd → (fd < VFS_MAX_FDS_PER_TASK)%nat → Forall (λ n, 0 < n < 2147483648) lens →
  ∃ s' t', (fd' ← vfs_open (47 :: vf_name f) O_RDONLY; read_seq fd' lens) (s, t) = Some (chunks lens T, (s', t')) ∧ proc_ok v (vfs_kernel s').
Proof.
  intros Hv HT Hvf Hp Hfree Hfd Hl. destruct (contents_file v f T HT) as [i Hf]. pose proof (contents_short v f T HT) as HTl. apply (contents_reads v f T Hv) in HT.
  destruct (proc_names i f Hf) as [Hpipe Hfind]. unfold mbind, M_bind. unfold vfs_open, mbind, M_bind, get. rewrite Hfree, Hpipe.
  unfold vfs_find_virtual_file. rewrite Hvf, Hfind. change (negb (Z.land O_RDONLY 3 =? O_RDONLY)) with false. cbv iota. unfold set_fd, mret, M_ret.
  destruct (read_seq_mos v f T i fd Hf HT HTl Hfd lens s (<[fd := mos_fd f i 0]> t) 0) as (s' & t' & E & Hp'); try done; [|lia|].
  - apply list_lookup_insert_eq. by eapply find_index_lt.
  - exists s', t'. split; [exact E|done].
Qed.

(** ** Examples *)

Definition demo_view : kview :=
  mk_view klog_boot pmm_boot 0xC0500000 (mk_cpu (str "GenuineIntel") 13 6 1 2 0 0) [] [] 9006150 90061 [] [str "fat16"] [] [] (mk_netinfo 0 0 0 0 0).

Definition demo_vfs : vfs_t proc_t :=
  mk_vfs [] vfs_proc_files (default pipes_boot (snd <$> pipe_init pipes_boot)) (mk_proc demo_view (replicate 4096 0)).

Definition uptime_text : list Z := str "ticks: 9006150" ++ [10] ++ str "seconds: 90061" ++ [10] ++ str "pretty: 1d 1h 1m 1s" ++ [10].

Lemma demo_view_ok : view_ok demo_view.
Proof. split; [exact pmm_boot_wf|..]; cbn; try apply Forall_nil; try done; unfold is_u32; lia. Qed.

Lemma mos_files_read_witness : ∃ s' t',
  (fd' ← vfs_open (str "/mos/kuptime") O_RDONLY; read_seq fd' [7; 1000; 5]) (demo_vfs, fdt_zero) =
    Some ([str "ticks: "; drop 7 uptime_text; []], (s', t')).
Proof.
  destruct (mos_files_read demo_view (generated "mos/kuptime" vgen_uptime) uptime_text demo_vfs fdt_zero 0 [7; 1000; 5]) as (s' & t' & E & _).
  - exact demo_view_ok.
  - refine (eq_rect _ (contents_of demo_view (generated "mos/kuptime" vgen_uptime)) (contents_report demo_view "mos/kuptime" vgen_uptime _ _ eq_refl) _ _);
      [apply list_elem_of_lookup; by exists 4%nat|vm_compute; reflexivity].
  - reflexivity.
  - split; reflexivity.
  - reflexivity.
  - unfold VFS_MAX_FDS_PER_TASK. lia.
  - repeat constructor; lia.
  - exists s', t'. exact E.
Defined.

(** The percentage is computed modulo 2^32: a task that ran all the time since boot
    is reported with 0 percent after 42949673 ticks. *)
Example cpu_percent_wraps :
  cpu_percent 42949672 (mk_taskinfo 1 0 0 TASK_RUNNING 42949671 1 []) = 100 ∧
  cpu_percent 42949674 (mk_taskinfo 1 0 0 TASK_RUNNING 42949673 1 []) = 0.
Proof. vm_compute. done. Qed.
