(* ===== verification/Syscall.v ===== *)
(** * System calls ([src/src/syscall.c])

    The dispatcher with everything it calls.  The state adds to the tasks the
    keyboard, the mouse, the graphics mode with the display hardware (a
    parameter), the output of programs to the console, the codes written to the
    debug port and the frame to which the interrupt returns; the diagnostic
    messages of the kernel are left out.  User memory is read and written through the address space that is
    active; an access to an address that is not mapped is undefined here (in
    the machine it faults).  A call that yields returns [SYield] with the point
    at which it continues, [sys_resume]. *)

From S2P Require Import Prelude CLib Kring KHeap Pmm Paging PhysMem Pipe Vfs Window Keyboard Mouse Loader ArgBlock Task.

(** ** Data *)

Definition VGA_MODE13H_FB_START : Z := 0xA0000.
Definition VGA_MODE13H_FB_END : Z := 0xB0000.
Definition WIN_INFO_SIZE : Z := 48.
Definition TASKINFO_SIZE : Z := 56.
Definition STAT_SIZE : Z := 8.

(** The numbers of the calls. *)
Definition SYS_WRITE : Z := 1.
Definition SYS_EXIT : Z := 2.
Definition SYS_YIELD : Z := 3.
Definition SYS_EXEC : Z := 4.
Definition SYS_GFX_INIT : Z := 5.
Definition SYS_GFX_EXIT : Z := 6.
Definition SYS_GETKEY : Z := 7.
Definition SYS_SPAWN : Z := 8.
Definition SYS_WAIT : Z := 9.
Definition SYS_READDIR : Z := 10.
Definition SYS_GETPID : Z := 11.
Definition SYS_TASKINFO : Z := 12.
Definition SYS_SHUTDOWN : Z := 13.
Definition SYS_WIN_CREATE : Z := 14.
Definition SYS_WIN_DESTROY : Z := 15.
Definition SYS_WIN_WRITE : Z := 16.
Definition SYS_WIN_READ : Z := 17.
Definition SYS_WIN_GETKEY : Z := 18.
Definition SYS_WIN_SENDKEY : Z := 19.
Definition SYS_WIN_LIST : Z := 20.
Definition SYS_GFX_INFO : Z := 21.
Definition SYS_TASKLIST : Z := 22.
Definition SYS_WAIT_NB : Z := 23.
Definition SYS_PING : Z := 24.
Definition SYS_NETCFG : Z := 25.
Definition SYS_NETGET : Z := 26.
Definition SYS_SLEEPMS : Z := 27.
Definition SYS_SOCK_LISTEN : Z := 28.
Definition SYS_SOCK_ACCEPT : Z := 29.
Definition SYS_SOCK_SEND : Z := 30.
Definition SYS_SOCK_RECV : Z := 31.
Definition SYS_SOCK_CLOSE : Z := 32.
Definition SYS_WIN_READ_TEXT : Z := 33.
Definition SYS_WIN_SET_STDOUT : Z := 34.
Definition SYS_GETMOUSE : Z := 35.
Definition SYS_OPEN : Z := 36.
Definition SYS_FREAD : Z := 37.
Definition SYS_FWRITE : Z := 38.
Definition SYS_CLOSE : Z := 39.
Definition SYS_SEEK : Z := 40.
Definition SYS_STAT : Z := 41.
Definition SYS_DETACH : Z := 42.
Definition SYS_UNLINK : Z := 43.
Definition SYS_KILL : Z := 44.
Definition SYS_GETTICKS : Z := 45.
Definition SYS_MKDIR : Z := 46.
Definition SYS_CHDIR : Z := 47.
Definition SYS_GETCWD : Z := 48.
Definition SYS_RMDIR : Z := 49.
Definition SYS_NETSTATS : Z := 50.
Definition SYS_SBRK : Z := 51.
Definition SYS_DEBUG_EXIT : Z := 52.
Definition SYS_RENAME : Z := 53.
Definition SYS_FTRUNCATE : Z := 54.
Definition SYS_PIPE_CREATE : Z := 55.
Definition SYS_PIPE_DESTROY : Z := 56.

(** The network and the display, as the system calls use them. *)
Class NetOps (N : Type) := {
  net_ping : Z → Z → N → Z * N;
  net_set_config : Z → Z → Z → N → N;
  net_get_config : N → Z * Z * Z;
  net_get_stats : N → Z * Z;
  net_sock_listen : Z → N → Z * N;
  net_sock_accept : Z → N → Z * N;
  net_sock_send : Z → list Z → N → Z * N;
  net_sock_recv : Z → Z → N → (Z * list Z) * N;
  net_sock_close : Z → N → Z * N
}.

Class VgaOps (V : Type) := {
  vga_bga_available : V → bool;
  (** The address of the framebuffer, or 0. *)
  vga_enter_bga_mode : Z → Z → Z → V → Z * V;
  vga_exit_bga_mode : V → V;
  vga_enter_mode13h : V → V;
  vga_enter_text_mode : V → V
}.

Record gfx_t : Type := mk_gfx {
  user_gfx_active : bool;
  user_gfx_bga : bool;
  bga_fb_addr : Z;
  bga_width : Z;
  bga_height : Z;
  bga_bpp : Z;
  gfx_owner_pid : Z
}.

Record iret_frame_t : Type := mk_iret { f_eip : Z; f_cs : Z; f_eflags : Z; f_esp : Z; f_ss : Z }.

Record sys (K H N V : Type) : Type := mk_sys {
  s_kern : kern K H N;
  s_kb : kb_t;
  s_mouse : mouse_t;
  s_gfx : gfx_t;
  s_vga : V;
  s_console : list Z;
  s_debug : list Z;
  s_frame : iret_frame_t
}.
Arguments mk_sys {K H N V}.
Arguments s_kern {K H N V}.
Arguments s_kb {K H N V}.
Arguments s_mouse {K H N V}.
Arguments s_gfx {K H N V}.
Arguments s_vga {K H N V}.
Arguments s_console {K H N V}.
Arguments s_debug {K H N V}.
Arguments s_frame {K H N V}.

(** Where a call that yielded continues. *)
Inductive resume_t :=
  | ResYield
  | ResWait (child : nat)
  | ResSleep (start ticks : Z)
  | ResRead (fd ptr len : Z)
  | ResWrite (fd : Z) (buf : list Z).

(** How a system call ends: the value in [eax]; it yields; the task is over; the
    machine is switched off; or the loader waits for a pipe. *)
Inductive sys_result := SRet (v : Z) | SYield (r : resume_t) | SExit | SHalt | SBlocked.

(** Up to 2^n steps. *)
Fixpoint loop2 {A B} (n : nat) (step : A → A + B) (a : A) : A + B :=
  match n with
  | O => step a
  | S n => match loop2 n step a with inl a => loop2 n step a | inr b => inr b end
  end.

(** [(uint32_t)-1] *)
Definition ERR : Z := 0xFFFFFFFF.

(** ** User pointers *)

Definition validate_user_ptr (ptr size : Z) : bool :=
  if ptr =? 0 then false else
  if ptr <? USER_REGION_START then false else
  if USER_REGION_END - USER_REGION_START <? size then false else
  if u32 (ptr + size) <? ptr then false else
  if USER_REGION_END <? u32 (ptr + size) then false else true.

(** A byte of the active address space. *)
Definition user_byte (p : paging_t) (va : Z) : option Z :=
  '(pa, _) ← translate (pg_mem p) (pg_cr3 p) va; Some (load8 (pg_mem p) pa).

(** One iteration of the scan for a NUL; [None] is a fault. *)
Definition scan_step (p : paging_t) (ptr max_len i : Z) : Z + option bool :=
  if i <? max_len then
    match user_byte p (ptr + i) with
    | None => inr None
    | Some b => if b =? 0 then inr (Some true) else inl (i + 1)
    end
  else inr (Some false).

Definition validate_user_string (p : paging_t) (ptr : Z) : option bool :=
  if ptr =? 0 then Some false else
  if (ptr <? USER_REGION_START) || (USER_REGION_END <=? ptr) then Some false else
  match loop2 32 (scan_step p ptr (USER_REGION_END - ptr)) 0 with inl _ => None | inr r => r end.

(** The string at an address, as [strlen] and the copy loops find it. *)
Definition string_step (p : paging_t) (ptr : Z) (acc : list Z) : list Z + option (list Z) :=
  match user_byte p (u32 (ptr + Z.of_nat (length acc))) with
  | None => inr None
  | Some b => if b =? 0 then inr (Some (reverse acc)) else inl (b :: acc)
  end.

Definition user_string (p : paging_t) (ptr : Z) : option (list Z) :=
  match loop2 32 (string_step p ptr) [] with inl _ => None | inr r => r end.

Section syscall.
Context {K H N V : Type} `{!KHeap H} `{!NetSockets N} `{!NetOps N} `{!VgaOps V}.
Notation SS := (sys K H N V).

(** ** Access to the parts of the state *)

Definition with_kern (k : kern K H N) (s : SS) : SS :=
  mk_sys k (s_kb s) (s_mouse s) (s_gfx s) (s_vga s) (s_console s) (s_debug s) (s_frame s).
Definition with_kb (b : kb_t) (s : SS) : SS :=
  mk_sys (s_kern s) b (s_mouse s) (s_gfx s) (s_vga s) (s_console s) (s_debug s) (s_frame s).
Definition with_mouse (m : mouse_t) (s : SS) : SS :=
  mk_sys (s_kern s) (s_kb s) m (s_gfx s) (s_vga s) (s_console s) (s_debug s) (s_frame s).
Definition with_gfx (g : gfx_t) (s : SS) : SS :=
  mk_sys (s_kern s) (s_kb s) (s_mouse s) g (s_vga s) (s_console s) (s_debug s) (s_frame s).
Definition with_vga (v : V) (s : SS) : SS :=
  mk_sys (s_kern s) (s_kb s) (s_mouse s) (s_gfx s) v (s_console s) (s_debug s) (s_frame s).
Definition with_console (c : list Z) (s : SS) : SS :=
  mk_sys (s_kern s) (s_kb s) (s_mouse s) (s_gfx s) (s_vga s) c (s_debug s) (s_frame s).
Definition with_debug (d : list Z) (s : SS) : SS :=
  mk_sys (s_kern s) (s_kb s) (s_mouse s) (s_gfx s) (s_vga s) (s_console s) d (s_frame s).
Definition with_frame (f : iret_frame_t) (s : SS) : SS :=
  mk_sys (s_kern s) (s_kb s) (s_mouse s) (s_gfx s) (s_vga s) (s_console s) (s_debug s) f.

Definition on_kern {A} (m : M (kern K H N) A) : M SS A := λ s,
  match m (s_kern s) with None => None | Some (a, k) => Some (a, with_kern k s) end.
Definition on_kb {A} (m : M kb_t A) : M SS A := λ s,
  match m (s_kb s) with None => None | Some (a, b) => Some (a, with_kb b s) end.
Definition on_mouse {A} (m : M mouse_t A) : M SS A := λ s,
  match m (s_mouse s) with None => None | Some (a, b) => Some (a, with_mouse b s) end.
Definition on_net {A} (f : N → A * N) : M SS A := λ s,
  let '(a, n) := f (k_net (s_kern s)) in Some (a, with_kern (with_net n (s_kern s)) s).

Definition s_paging (s : SS) : paging_t := k_paging (s_kern s).
Definition s_current (s : SS) : option task_t := task_current (s_kern s).

(** The current task is changed. *)
Definition upd_current (f : task_t → task_t) : M SS unit := λ s,
  match k_current (s_kern s) with
  | None => None
  | Some c => on_kern (upd_task c f) s
  end.

(** An operation on files with the descriptor table of the current task, which
    is stored back. *)
Definition with_fds {A} (m : M (vst K) A) (fds : list vfs_fd_t) (p : Z) : M SS A := λ s,
  match m (k_vfs (s_kern s), fds) with
  | None => None
  | Some (a, (v, fds')) =>
    let s := with_kern (with_vfs v (s_kern s)) s in
    match upd_current (set_fd_table (Some (p, fds'))) s with
    | None => None
    | Some (_, s) => Some (a, s)
    end
  end.

(** The bytes at a user address. *)
Fixpoint uload (n : nat) (va : Z) : M SS (list Z) :=
  match n with
  | O => mret []
  | S n => s ← get; b ← lift (user_byte (s_paging s) (u32 va)); l ← uload n (va + 1); mret (b :: l)
  end.

Definition uload32 (va : Z) : M SS Z :=
  l ← uload 4 va;
  match l with [b0; b1; b2; b3] => mret (b0 + 256 * b1 + 65536 * b2 + 16777216 * b3) | _ => ub end.

Fixpoint ustore (va : Z) (l : list Z) : M SS unit :=
  match l with
  | [] => mret tt
  | b :: l =>
    s ← get;
    '(pa, _) ← lift (translate (pg_mem (s_paging s)) (pg_cr3 (s_paging s)) (u32 va));
    on_kern (on_paging (modify (λ p, with_mem (store8 (pg_mem p) pa (u8 b)) p)));;
    ustore (va + 1) l
  end.

Definition ubytes32 (x : Z) : list Z := le32 (u32 x).

Definition ustring (ptr : Z) : M SS (list Z) := s ← get; lift (user_string (s_paging s) ptr).

(** The string argument that the dispatcher validates; [None] is the return of
    -1. *)
Definition string_arg (ptr : Z) : M SS (option (list Z)) :=
  s ← get;
  ok ← lift (validate_user_string (s_paging s) ptr);
  if (ok : bool) then str ← ustring ptr; mret (Some str) else mret None.

Definition ret (v : Z) : M SS sys_result := mret (SRet (u32 v)).
Definition fail : M SS sys_result := mret (SRet ERR).

(** [if (!cur) return -1;] *)
Definition with_current_task (f : task_t → M SS sys_result) : M SS sys_result :=
  s ← get; match s_current s with None => fail | Some t => f t end.

(** ** Output, exit, time *)

Definition sys_do_write (fd : Z) (buf : option (list Z)) (len : Z) : M SS Z :=
  match buf with
  | None => mret (-1)
  | Some data =>
    if len =? 0 then mret (-1) else
    s ← get;
    let wid := match s_current s with Some t => t_stdout_wid t | None => -1 end in
    if (fd =? 1) && (0 <=? wid) then on_kern (on_wins (window_append_text wid (Some data) (s32 len)))
    else modify (λ s, with_console (s_console s ++ data) s);; mret (s32 len)
  end.

Definition gfx_off (bpp : Z) (g : gfx_t) : gfx_t :=
  mk_gfx false false (bga_fb_addr g) (bga_width g) (bga_height g) bpp 0.

(** The display leaves the graphics mode. *)
Definition leave_gfx (g : gfx_t) : M SS unit :=
  on_kb (keyboard_buffer_enable 0);;
  modify (λ s, with_vga (if user_gfx_bga g then vga_exit_bga_mode (s_vga s) else vga_enter_text_mode (s_vga s)) s).

Definition sys_do_exit (code : Z) : M SS sys_result :=
  s ← get;
  let g := s_gfx s in
  (if user_gfx_active g && bool_decide (t_id <$> s_current s = Some (gfx_owner_pid g))
   then leave_gfx g;; modify (with_gfx (gfx_off (bga_bpp g) g)) else mret tt);;
  on_kern (task_exit_with_code code);;
  mret SExit.

Definition sys_do_sleepms (ms : Z) : M SS sys_result :=
  s ← get;
  let ticks := u32 (ms + 9) / 10 in
  let ticks := if ticks =? 0 then 1 else ticks in
  mret (SYield (ResSleep (k_ticks (s_kern s)) ticks)).

(** ** Programs *)

(** [kfilename] *)
Definition kernel_name (filename : list Z) : list Z := take (VFS_PATH_MAX - 1) filename.

Definition sys_do_exec (filename : list Z) : M SS sys_result :=
  with_current_task (λ t,
    if t_is_kernel t then fail else
    match t_page_dir t with
    | None => fail
    | Some dir =>
      on_kern paging_switch_kernel;;
      r ← on_kern (on_loader (load_elf_into dir (kernel_name filename)));
      match r with
      | LBlocked => mret SBlocked
      | LReturned entry outs =>
        on_kern (on_paging (paging_switch dir));;
        if entry =? 0 then fail else
        '(_, user_end) ← lift outs;
        upd_current (set_brk user_end user_end);;
        on_kern (on_paging (paging_switch dir));;
        modify (with_frame (mk_iret entry USER_CODE_SEL ARCH_EFLAGS_DEFAULT
                             (USER_STACK_TOP_PAGE_VADDR + 0x1000) USER_DATA_SEL));;
        ret 0
      end
    end).

(** The argument strings, which are copied to a buffer of 512 bytes. *)
Fixpoint copy_argv (n : nat) (argv i off : Z) : M SS (list (list Z)) :=
  match n with
  | O => mret []
  | S n =>
    p ← uload32 (u32 (argv + 4 * i));
    if p =? 0 then mret [] else
    a ← ustring p;
    let slen := Z.of_nat (length a) + 1 in
    if 512 <? off + slen then mret [] else
    rest ← copy_argv n argv (i + 1) (off + slen);
    mret (a :: rest)
  end.

Definition sys_do_spawn (filename : list Z) (argv argc : Z) : M SS sys_result :=
  kargv ← (if negb (argv =? 0) && (0 <? argc) then copy_argv (Z.to_nat (Z.min argc 16)) argv 0 0 else mret []);
  s ← get;
  let parent := s_current s in
  restore_dir ← lift (match parent ≫= t_page_dir with
                      | Some d => Some d
                      | None => current_page_dir (s_paging s)
                      end);
  on_kern paging_switch_kernel;;
  r ← on_kern (task_create_user_elf (kernel_name filename) kargv);
  match r with
  | CBlocked => mret SBlocked
  | CNull => on_kern (on_paging (paging_switch restore_dir));; fail
  | CTask i =>
    on_kern (on_paging (paging_switch restore_dir));;
    match parent with
    | Some p => if 0 <=? t_stdout_wid p then on_kern (upd_task i (set_stdout_wid (t_stdout_wid p))) else mret tt
    | None => mret tt
    end;;
    s ← get;
    (if task_is_enabled (s_kern s) then mret tt else on_kern task_enable);;
    t ← on_kern (get_task i);
    ret (t_id t)
  end.

(** ** Graphics *)

(** [n] pages from [addr] on are mapped to themselves. *)
Fixpoint map_identity (n : nat) (dir addr : Z) : M paging_t unit :=
  match n with
  | O => mret tt
  | S n => paging_map_page dir addr addr PAGE_UWP;; map_identity n dir (addr + 0x1000)
  end.

(** The framebuffer is mapped into the kernel's directory and the caller's. *)
Definition map_framebuffer (fb size start end_ : Z) : M SS unit :=
  on_kern (on_paging (paging_map_vbe fb size));;
  s ← get;
  match s_current s ≫= t_page_dir with
  | Some dir => on_kern (on_paging (map_identity (Z.to_nat ((end_ - start) / 0x1000)) dir start));;
                on_kern (on_paging (paging_switch dir))
  | None => mret tt
  end.

Definition enter_gfx (bga : bool) (fb w h bpp : Z) : M SS unit :=
  on_kb keyboard_buffer_init;;
  on_kb (keyboard_buffer_enable 1);;
  modify (λ s, with_gfx (mk_gfx true bga fb w h bpp (default 0 (t_id <$> s_current s))) s).

Definition sys_do_gfx_init : M SS Z :=
  s ← get;
  let g := s_gfx s in
  if user_gfx_active g then mret (if user_gfx_bga g then bga_fb_addr g else VGA_MODE13H_FB_START) else
  lfb ← (if vga_bga_available (s_vga s) then
           let '(lfb, v) := vga_enter_bga_mode 1024 768 16 (s_vga s) in modify (with_vga v);; mret lfb
         else mret 0);
  if negb (lfb =? 0) then
    let fb_size := 1024 * 768 * 2 in
    map_framebuffer lfb fb_size (page_frame lfb) (page_frame (u32 (lfb + fb_size + 0xFFF)));;
    enter_gfx true lfb 1024 768 16;;
    on_mouse (mouse_set_bounds 1024 768);;
    mret lfb
  else
    modify (λ s, with_vga (vga_enter_mode13h (s_vga s)) s);;
    map_framebuffer VGA_MODE13H_FB_START (VGA_MODE13H_FB_END - VGA_MODE13H_FB_START)
                    VGA_MODE13H_FB_START VGA_MODE13H_FB_END;;
    enter_gfx false (bga_fb_addr g) (bga_width g) (bga_height g) 8;;
    on_mouse (mouse_set_bounds 320 200);;
    mret VGA_MODE13H_FB_START.

Definition sys_do_gfx_exit : M SS unit :=
  s ← get;
  let g := s_gfx s in
  if negb (user_gfx_active g) then mret tt else
  if negb (bool_decide (t_id <$> s_current s = Some (gfx_owner_pid g))) then mret tt else
  leave_gfx g;; modify (with_gfx (gfx_off 0 g)).

Definition sys_do_gfx_info (s : SS) : Z :=
  let g := s_gfx s in
  if user_gfx_bga g && negb (bga_width g =? 0) && negb (bga_height g =? 0) then
    Z.lor (Z.lor (Z.shiftl (Z.land (bga_bpp g) 0xFF) 24) (Z.shiftl (Z.land (bga_width g) 0xFFF) 12))
          (Z.land (bga_height g) 0xFFF)
  else Z.lor (Z.lor (Z.shiftl 8 24) (Z.shiftl 320 12)) 200.

Definition sys_do_getkey : M SS Z := on_kb keyboard_buffer_pop.

(** ** Waiting *)

Definition sys_do_detach : M SS sys_result :=
  with_current_task (λ t, upd_current (set_detached 1);; on_kern (wake_waiters (t_id t));; ret 0).

Definition sys_do_wait (task_id : Z) : M SS sys_result :=
  s ← get;
  match task_get_by_id task_id (s_kern s) with
  | None => fail
  | Some i =>
    child ← on_kern (get_task i);
    if negb (t_detached child =? 0) then ret (-3) else
    if in_state TASK_TERMINATED child then ret (t_exit_code child) else
    upd_current (λ t, set_state TASK_BLOCKED (set_waiting_for task_id t));;
    mret (SYield (ResWait i))
  end.

Definition sys_do_wait_nb (task_id : Z) (s : SS) : option Z :=
  match task_get_by_id task_id (s_kern s) with
  | None => Some (-2)
  | Some i =>
    child ← k_tasks (s_kern s) !! i;
    if negb (t_detached child =? 0) then Some (-3) else
    if in_state TASK_TERMINATED child then Some (t_exit_code child) else Some (-1)
  end.

(** After the yield of [sys_do_wait]. *)
Definition wait_resume (i : nat) : M SS sys_result :=
  upd_current (set_waiting_for 0);;
  child ← on_kern (get_task i);
  if negb (t_detached child =? 0) then ret (-3) else ret (t_exit_code child).

(** ** Memory *)

(** One page of the heap; [false] is the error return. *)
Definition sbrk_page (dir va : Z) : M paging_t bool :=
  phys ← on_pmm pmm_alloc_frame;
  if phys =? 0 then mret false else
  kzero_page (PHYS_TO_KVIRT phys);;
  rc ← paging_map_page dir va phys PAGE_UWP;
  if rc <? 0 then on_pmm (pmm_free_frame phys);; mret false else mret true.

Fixpoint sbrk_pages (n : nat) (dir va : Z) : M paging_t bool :=
  match n with
  | O => mret true
  | S n => ok ← sbrk_page dir va; if negb ok then mret false else sbrk_pages n dir (va + 0x1000)
  end.

Definition sys_do_sbrk (increment : Z) : M SS Z :=
  s ← get;
  match s_current s with
  | None => mret ERR
  | Some t =>
    if t_is_kernel t then mret ERR else
    match t_page_dir t with
    | None => mret ERR
    | Some dir =>
      let old_brk := if t_user_brk t <? t_user_brk_min t then t_user_brk_min t else t_user_brk t in
      if increment <? 0 then mret ERR else
      let new_brk := if 0 <? increment then u32 (old_brk + increment) else old_brk in
      if (0 <? increment) && (new_brk <? old_brk) then mret ERR else
      if new_brk <? t_user_brk_min t then mret ERR else
      if USER_STACK_BASE_VADDR <=? new_brk then mret ERR else
      let map_start := page_frame (u32 (old_brk + 0xFFF)) in
      let map_end := page_frame (u32 (new_brk + 0xFFF)) in
      ok ← on_kern (on_paging (sbrk_pages (Z.to_nat ((map_end - map_start) / 0x1000)) dir map_start));
      if negb ok then mret ERR else
      upd_current (set_brk (t_user_brk_min t) new_brk);;
      mret old_brk
    end
  end.

(** ** Queries *)

Definition sys_do_getpid (s : SS) : Z := match s_current s with Some t => t_id t | None => -1 end.

Definition sys_do_getticks (s : SS) : Z := k_ticks (s_kern s).

Definition sys_do_debug_exit (code : Z) : M SS Z :=
  modify (λ s, with_debug (s_debug s ++ [Z.land code 0xFF]) s);; mret 0.

Definition sys_do_kill (task_id : Z) : M SS sys_result :=
  r ← on_kern (task_kill task_id (-9));
  match r with None => mret SExit | Some v => ret v end.

Definition state_str (st : task_state_t) : list Z :=
  match st with
  | TASK_READY => str "ready    "
  | TASK_RUNNING => str "running  "
  | TASK_BLOCKED => str "blocked  "
  | TASK_TERMINATED => str "terminated"
  end.

(** The lines that [task_list] prints for the slots from [i] on. *)
Fixpoint task_lines (l : list task_t) (i : nat) (current : option nat) : option (list Z) :=
  match l with
  | [] => Some []
  | t :: l =>
    rest ← task_lines l (S i) current;
    if negb (t_id t =? 0) || (i =? 0)%nat then
      if in_state TASK_TERMINATED t && negb (i =? 0)%nat then Some rest else
      line ← kvprintf (str "  %d   %s  %d     %s%s" ++ [10])
               [AInt (s32 (t_id t)); AStr (Some (state_str (t_state t)));
                AInt (if t_is_kernel t then 0 else 3); AStr (Some (t_name t));
                AStr (Some (if bool_decide (current = Some i) then str " *" else []))];
      Some (line ++ rest)
    else Some rest
  end.

Definition task_list : M SS unit :=
  s ← get;
  lines ← lift (task_lines (k_tasks (s_kern s)) 0 (k_current (s_kern s)));
  let head := str "Task List:" ++ [10] ++ str "  ID  State      Ring  Name" ++ [10] ++
              str "  --  ---------  ----  ----" ++ [10] in
  modify (λ s, with_console (s_console s ++ head ++ lines) s).

(** ** The cases of the dispatcher: console and programs *)

Definition case_write (ebx ecx edx : Z) : M SS sys_result :=
  if (0 <? edx) && negb (validate_user_ptr ecx edx) then fail else
  data ← (if ecx =? 0 then mret None else l ← uload (Z.to_nat edx) ecx; mret (Some l));
  v ← sys_do_write (s32 ebx) data edx; ret v.

Definition case_exec (ebx : Z) : M SS sys_result :=
  name ← string_arg ebx;
  match name with None => fail | Some f => sys_do_exec f end.

Definition case_spawn (ebx ecx edx : Z) : M SS sys_result :=
  name ← string_arg ebx;
  match name with
  | None => fail
  | Some f =>
    if negb (ecx =? 0) && (0 <? edx) && negb (validate_user_ptr ecx (u32 (edx * 4))) then fail
    else sys_do_spawn f ecx (s32 edx)
  end.

Definition case_shutdown : M SS sys_result :=
  modify (λ s, with_console (s_console s ++ str "Shutting down..." ++ [10]) s);; mret SHalt.

Definition taskinfo_bytes (e : taskinfo_entry_t) : list Z :=
  ubytes32 (ti_id e) ++ ubytes32 (ti_parent_id e) ++ ubytes32 (ti_ring e) ++
  ubytes32 (match ti_state e with
            | TASK_READY => 0 | TASK_RUNNING => 1 | TASK_BLOCKED => 2 | TASK_TERMINATED => 3
            end) ++
  ubytes32 (ti_runtime_ticks e) ++ ubytes32 (ti_start_ticks e) ++ ti_name e ++ [0].

(** Entry number [i] of [l] is stored at [va + size * i]. *)
Fixpoint store_entries (size va : Z) (l : list (list Z)) : M SS unit :=
  match l with
  | [] => mret tt
  | e :: l => ustore va e;; store_entries size (va + size) l
  end.

Definition case_tasklist (ebx ecx : Z) : M SS sys_result :=
  if (0 <? ecx) && negb (validate_user_ptr ebx (u32 (ecx * TASKINFO_SIZE))) then fail else
  s ← get;
  let l := task_list_info (s32 ecx) (s_kern s) in
  store_entries TASKINFO_SIZE ebx (taskinfo_bytes <$> l);;
  ret (Z.of_nat (length l)).

(** ** Windows *)

(** [cur ? f(cur->id) : -1] *)
Definition by_pid (f : Z → M SS Z) : M SS sys_result :=
  with_current_task (λ t, v ← f (t_id t); ret v).

Definition case_win_create (ebx ecx : Z) : M SS sys_result :=
  title ← (if ecx =? 0 then mret (Some None) else o ← string_arg ecx; mret (Some <$> o));
  match title with
  | None => fail
  | Some title => by_pid (λ pid, on_kern (on_wins (window_create pid (Z.shiftr ebx 16) (Z.land ebx 0xFFFF) title)))
  end.

Definition case_win_destroy (ebx : Z) : M SS sys_result :=
  by_pid (λ pid, on_kern (on_wins (window_destroy (s32 ebx) pid))).

(** The bytes that are mapped, [n] at most. *)
Fixpoint uprefix (n : nat) (va : Z) (s : SS) : list Z :=
  match n with
  | O => []
  | S n => match user_byte (s_paging s) (u32 va) with None => [] | Some b => b :: uprefix n (va + 1) s end
  end.

Definition case_win_write (ebx ecx edx : Z) : M SS sys_result :=
  if negb (validate_user_ptr ecx edx) then fail else
  by_pid (λ pid, s ← get;
    on_kern (on_wins (window_write (s32 ebx) pid (Some (uprefix (Z.to_nat edx) ecx s)) edx))).

Definition case_win_read (ebx ecx edx : Z) : M SS sys_result :=
  if negb (validate_user_ptr ecx edx) then fail else
  s ← get;
  '(rc, data) ← lift (window_read (s32 ebx) true edx (k_wins (s_kern s)));
  ustore ecx data;; ret rc.

Definition case_win_getkey (ebx : Z) : M SS sys_result :=
  by_pid (λ pid, on_kern (on_wins (window_getkey (s32 ebx) pid))).

Definition case_win_sendkey (ebx ecx : Z) : M SS sys_result :=
  v ← on_kern (on_wins (window_sendkey (s32 ebx) (u8 ecx))); ret v.

Definition win_info_bytes (w : win_info_t) : list Z :=
  ubytes32 (wi_window_id w) ++ ubytes32 (wi_owner_pid w) ++ ubytes32 (wi_w w) ++ ubytes32 (wi_h w) ++
  take WIN_TITLE_MAX (wi_title w ++ replicate WIN_TITLE_MAX 0).

Definition case_win_list (ebx ecx : Z) : M SS sys_result :=
  if (0 <? ecx) && negb (validate_user_ptr ebx (u32 (ecx * WIN_INFO_SIZE))) then fail else
  s ← get;
  let l := window_list (negb (ebx =? 0)) (s32 ecx) (k_wins (s_kern s)) in
  store_entries WIN_INFO_SIZE ebx (win_info_bytes <$> l);;
  ret (Z.of_nat (length l)).

Definition case_win_read_text (ebx ecx edx : Z) : M SS sys_result :=
  if (0 <? edx) && negb (validate_user_ptr ecx edx) then fail else
  with_current_task (λ t,
    '(rc, data) ← on_kern (on_wins (window_read_text (s32 ebx) (t_id t) (negb (ecx =? 0)) (s32 edx)));
    ustore ecx data;; ret rc).

Definition case_win_set_stdout (ebx : Z) : M SS sys_result :=
  with_current_task (λ _, upd_current (set_stdout_wid (s32 ebx));; ret 0).

Definition case_getmouse (ebx ecx edx : Z) : M SS sys_result :=
  if negb (ebx =? 0) && negb (validate_user_ptr ebx 4) then fail else
  if negb (ecx =? 0) && negb (validate_user_ptr ecx 4) then fail else
  if negb (edx =? 0) && negb (validate_user_ptr edx 1) then fail else
  s ← get;
  let ms := mouse_get_state (s_mouse s) in
  (if ebx =? 0 then mret tt else ustore ebx (ubytes32 (ms_x ms)));;
  (if ecx =? 0 then mret tt else ustore ecx (ubytes32 (ms_y ms)));;
  (if edx =? 0 then mret tt else ustore edx [ms_buttons ms]);;
  ret 0.

(** ** The network *)

Definition case_netget (ebx ecx edx : Z) : M SS sys_result :=
  if negb (validate_user_ptr ebx 4) || negb (validate_user_ptr ecx 4) || negb (validate_user_ptr edx 4)
  then fail else
  s ← get;
  let '(ip, mask, gw) := net_get_config (k_net (s_kern s)) in
  ustore ebx (ubytes32 ip);; ustore ecx (ubytes32 mask);; ustore edx (ubytes32 gw);; ret 0.

Definition case_netstats (ebx ecx : Z) : M SS sys_result :=
  if negb (validate_user_ptr ebx 4) || negb (validate_user_ptr ecx 4) then fail else
  s ← get;
  let '(rx, tx) := net_get_stats (k_net (s_kern s)) in
  ustore ebx (ubytes32 rx);; ustore ecx (ubytes32 tx);; ret 0.

Definition case_sock_send (ebx ecx edx : Z) : M SS sys_result :=
  if negb (validate_user_ptr ecx edx) then fail else
  data ← uload (Z.to_nat edx) ecx;
  v ← on_net (net_sock_send (s32 ebx) data); ret v.

Definition case_sock_recv (ebx ecx edx : Z) : M SS sys_result :=
  if negb (validate_user_ptr ecx edx) then fail else
  '(rc, data) ← on_net (net_sock_recv (s32 ebx) edx);
  ustore ecx data;; ret rc.

(** ** Files *)

(** [task ? task->cwd : "/"] *)
Definition task_cwd (s : SS) : option (list Z) :=
  Some (match s_current s with Some t => t_cwd t | None => str "/" end).

(** A path argument, resolved against the working directory. *)
Definition path_arg (ptr : Z) : M SS (option (list Z)) :=
  o ← string_arg ptr; s ← get; mret (vfs_resolve_path (task_cwd s) <$> o).

(** [if (!cur || !cur->fd_table) return -1;] *)
Definition with_table (f : Z → list vfs_fd_t → M SS sys_result) : M SS sys_result :=
  with_current_task (λ t, match t_fd_table t with None => fail | Some (p, fds) => f p fds end).

Definition sys_do_readdir (path : option (list Z)) (index buf : Z) : M SS sys_result :=
  s ← get;
  let resolved :=
    match path with
    | Some (c :: p) => vfs_resolve_path (task_cwd s) (c :: p)
    | _ => match t_cwd <$> s_current s with Some (c :: w) => c :: w | _ => str "/" end
    end in
  '(rc, name) ← on_kern (on_files (vfs_readdir resolved (s32 index) 32));
  (if 0 <? rc then ustore buf (name ++ [0]) else mret tt);;
  ret rc.

Definition case_readdir (ebx ecx edx : Z) : M SS sys_result :=
  path ← (if ebx =? 0 then mret (Some None) else o ← string_arg ebx; mret (Some <$> o));
  match path with
  | None => fail
  | Some path => if negb (validate_user_ptr edx 32) then fail else sys_do_readdir path ecx edx
  end.

Definition case_open (ebx ecx : Z) : M SS sys_result :=
  path ← path_arg ebx;
  match path with
  | None => fail
  | Some path => with_table (λ p fds, v ← with_fds (vfs_open path (s32 ecx)) fds p; ret v)
  end.

(** [vfs_read] and the bytes it stores; a pipe without data yields. *)
Definition do_fread (fd ptr len : Z) : M SS sys_result :=
  with_table (λ p fds,
    r ← with_fds (vfs_read fd len) fds p;
    match r with
    | Returned rc data => ustore ptr data;; ret rc
    | Blocked => mret (SYield (ResRead fd ptr len))
    end).

Definition case_fread (ebx ecx edx : Z) : M SS sys_result :=
  if negb (validate_user_ptr ecx edx) then fail else do_fread (s32 ebx) ecx edx.

Definition is_console_fd (fd : Z) (fds : list vfs_fd_t) : bool :=
  match get_fd fd fds with Some f => fd_fs_id f =? -1 | None => false end.

Definition do_fwrite (fd : Z) (buf : list Z) : M SS sys_result :=
  with_table (λ p fds,
    r ← with_fds (vfs_write fd buf) fds p;
    match r with Returned rc _ => ret rc | Blocked => mret (SYield (ResWrite fd buf)) end).

Definition case_fwrite (ebx ecx edx : Z) : M SS sys_result :=
  if negb (validate_user_ptr ecx edx) then fail else
  with_table (λ _ fds,
    data ← uload (Z.to_nat edx) ecx;
    if is_console_fd (s32 ebx) fds then v ← sys_do_write (s32 ebx) (Some data) edx; ret v
    else do_fwrite (s32 ebx) data).

Definition case_close (ebx : Z) : M SS sys_result :=
  with_table (λ p fds, v ← with_fds (vfs_close (s32 ebx)) fds p; ret v).

Definition case_seek (ebx ecx edx : Z) : M SS sys_result :=
  with_table (λ p fds, v ← with_fds (vfs_seek (s32 ebx) (s32 ecx) (s32 edx)) fds p; ret v).

Definition case_ftruncate (ebx ecx : Z) : M SS sys_result :=
  with_table (λ p fds, v ← with_fds (vfs_ftruncate (s32 ebx) ecx) fds p; ret v).

Definition case_stat (ebx ecx : Z) : M SS sys_result :=
  path ← path_arg ebx;
  match path with
  | None => fail
  | Some path =>
    if negb (validate_user_ptr ecx STAT_SIZE) then fail else
    st ← on_kern (on_files (vfs_stat path));
    match st with
    | None => fail
    | Some st => ustore ecx (ubytes32 (st_size st) ++ ubytes32 (st_type st));; ret 0
    end
  end.

(** The calls with one path argument. *)
Definition on_path (ebx : Z) (f : list Z → M (vfs_t K) Z) : M SS sys_result :=
  path ← path_arg ebx;
  match path with None => fail | Some path => v ← on_kern (on_files (f path)); ret v end.

Definition case_unlink (ebx : Z) : M SS sys_result := on_path ebx vfs_unlink.
Definition case_mkdir (ebx : Z) : M SS sys_result := on_path ebx vfs_mkdir.
Definition case_rmdir (ebx : Z) : M SS sys_result := on_path ebx vfs_rmdir.

Definition case_rename (ebx ecx : Z) : M SS sys_result :=
  o ← path_arg ebx;
  match o with
  | None => fail
  | Some old =>
    n ← path_arg ecx;
    match n with None => fail | Some new => v ← on_kern (on_files (vfs_rename old new)); ret v end
  end.

Definition case_chdir (ebx : Z) : M SS sys_result :=
  path ← path_arg ebx;
  match path with
  | None => fail
  | Some path =>
    with_current_task (λ _,
      st ← on_kern (on_files (vfs_stat path));
      match st with
      | None => fail
      | Some st => if negb (st_type st =? VFS_DIR) then fail
                   else upd_current (set_cwd (take (VFS_PATH_MAX - 1) path));; ret 0
      end)
  end.

Definition case_getcwd (ebx ecx : Z) : M SS sys_result :=
  if negb (validate_user_ptr ebx ecx) then fail else
  with_current_task (λ t,
    if ecx <? Z.of_nat (length (t_cwd t)) + 1 then fail
    else ustore ebx (t_cwd t ++ [0]);; ret 0).

Definition case_pipe_create (ebx : Z) : M SS sys_result :=
  name ← string_arg ebx;
  match name with None => fail | Some n => v ← on_kern (on_files (on_pipes (pipe_create n))); ret v end.

Definition case_pipe_destroy (ebx : Z) : M SS sys_result :=
  name ← string_arg ebx;
  match name with None => fail | Some n => v ← on_kern (on_files (on_pipes (pipe_destroy n))); ret v end.

(** ** The dispatcher *)

Definition query (f : SS → Z) : M SS sys_result := s ← get; ret (f s).

Definition syscall_handler (eax ebx ecx edx : Z) : M SS sys_result :=
  if eax =? SYS_WRITE then case_write ebx ecx edx else
  if eax =? SYS_EXIT then sys_do_exit (s32 ebx) else
  if eax =? SYS_YIELD then mret (SYield ResYield) else
  if eax =? SYS_EXEC then case_exec ebx else
  if eax =? SYS_GFX_INIT then (v ← sys_do_gfx_init; ret v) else
  if eax =? SYS_GFX_EXIT then (sys_do_gfx_exit;; ret 0) else
  if eax =? SYS_GETKEY then (v ← sys_do_getkey; ret v) else
  if eax =? SYS_SPAWN then case_spawn ebx ecx edx else
  if eax =? SYS_WAIT then sys_do_wait ebx else
  if eax =? SYS_READDIR then case_readdir ebx ecx edx else
  if eax =? SYS_GETPID then query sys_do_getpid else
  if eax =? SYS_TASKINFO then (task_list;; ret 0) else
  if eax =? SYS_SHUTDOWN then case_shutdown else
  if eax =? SYS_WIN_CREATE then case_win_create ebx ecx else
  if eax =? SYS_WIN_DESTROY then case_win_destroy ebx else
  if eax =? SYS_WIN_WRITE then case_win_write ebx ecx edx else
  if eax =? SYS_WIN_READ then case_win_read ebx ecx edx else
  if eax =? SYS_WIN_GETKEY then case_win_getkey ebx else
  if eax =? SYS_WIN_SENDKEY then case_win_sendkey ebx ecx else
  if eax =? SYS_WIN_LIST then case_win_list ebx ecx else
  if eax =? SYS_GFX_INFO then query sys_do_gfx_info else
  if eax =? SYS_TASKLIST then case_tasklist ebx ecx else
  if eax =? SYS_WAIT_NB then (s ← get; v ← lift (sys_do_wait_nb ebx s); ret v) else
  if eax =? SYS_PING then (v ← on_net (net_ping ebx ecx); ret v) else
  if eax =? SYS_NETCFG then (on_net (λ n, (tt, net_set_config ebx ecx edx n));; ret 0) else
  if eax =? SYS_NETGET then case_netget ebx ecx edx else
  if eax =? SYS_NETSTATS then case_netstats ebx ecx else
  if eax =? SYS_SLEEPMS then sys_do_sleepms ebx else
  if eax =? SYS_SOCK_LISTEN then (v ← on_net (net_sock_listen (u16 ebx)); ret v) else
  if eax =? SYS_SOCK_ACCEPT then (v ← on_net (net_sock_accept (s32 ebx)); ret v) else
  if eax =? SYS_SOCK_SEND then case_sock_send ebx ecx edx else
  if eax =? SYS_SOCK_RECV then case_sock_recv ebx ecx edx else
  if eax =? SYS_SOCK_CLOSE then (v ← on_net (net_sock_close (s32 ebx)); ret v) else
  if eax =? SYS_WIN_READ_TEXT then case_win_read_text ebx ecx edx else
  if eax =? SYS_WIN_SET_STDOUT then case_win_set_stdout ebx else
  if eax =? SYS_GETMOUSE then case_getmouse ebx ecx edx else
  if eax =? SYS_OPEN then case_open ebx ecx else
  if eax =? SYS_FREAD then case_fread ebx ecx edx else
  if eax =? SYS_FWRITE then case_fwrite ebx ecx edx else
  if eax =? SYS_CLOSE then case_close ebx else
  if eax =? SYS_SEEK then case_seek ebx ecx edx else
  if eax =? SYS_STAT then case_stat ebx ecx else
  if eax =? SYS_DETACH then sys_do_detach else
  if eax =? SYS_UNLINK then case_unlink ebx else
  if eax =? SYS_KILL then sys_do_kill ebx else
  if eax =? SYS_GETTICKS then query sys_do_getticks else
  if eax =? SYS_SBRK then (v ← sys_do_sbrk (s32 ebx); ret v) else
  if eax =? SYS_DEBUG_EXIT then (v ← sys_do_debug_exit ebx; ret v) else
  if eax =? SYS_MKDIR then case_mkdir ebx else
  if eax =? SYS_CHDIR then case_chdir ebx else
  if eax =? SYS_RMDIR then case_rmdir ebx else
  if eax =? SYS_RENAME then case_rename ebx ecx else
  if eax =? SYS_FTRUNCATE then case_ftruncate ebx ecx else
  if eax =? SYS_GETCWD then case_getcwd ebx ecx else
  if eax =? SYS_PIPE_CREATE then case_pipe_create ebx else
  if eax =? SYS_PIPE_DESTROY then case_pipe_destroy ebx else
  fail.

(** A call that yielded continues. *)
Definition sys_resume (r : resume_t) : M SS sys_result :=
  match r with
  | ResYield => ret 0
  | ResWait i => wait_resume i
  | ResSleep start ticks =>
    s ← get;
    if u32 (k_ticks (s_kern s) - start) <? ticks then mret (SYield (ResSleep start ticks)) else ret 0
  | ResRead fd ptr len => do_fread fd ptr len
  | ResWrite fd buf => do_fwrite fd buf
  end.
End syscall.
