(* ===== verification/SyscallSpec.v ===== *)
(** * What the system calls guarantee

    The theorems about [Syscall.v]: user pointers and strings, the program
    break, waiting and exit, graphics ownership. *)

From S2P Require Import Prelude Kring KHeap Pmm Paging PhysMem Pipe Vfs Window Keyboard Mouse Loader ArgBlock Task Syscall.

(** ** The program break *)

(** The contents of the frames that are in use, the page tables apart. *)
Definition pages_kept (d : Z) (s s' : paging_t) : Prop :=
  ∀ x, ¬ addr_free (pg_pmm s) (page_of x) → page_of x ≠ d →
    (∀ k, 0 ≤ k < 1024 → pde_present (pg_mem s) d k → page_of x ≠ table_of (pg_mem s) d k) →
    pg_mem s' x = pg_mem s x.

Lemma pages_kept_trans d s1 s2 s3 :
  confined d s1 s2 → pages_kept d s1 s2 → pages_kept d s2 s3 → pages_kept d s1 s3.
Proof.
  intros HC H1 H2 x Hf Hd Ht. rewrite H2; [by apply H1| |done|].
  - intros Hx. by apply Hf, (cf_free _ _ _ HC).
  - intros k Hk Hp. destruct (cf_tables _ _ _ HC k Hk Hp) as [[Hp1 ->]|Hx]; [by apply Ht|].
    intros E. apply Hf. by rewrite E.
Qed.

(** A page that is mapped for the user is among the kept ones. *)
Lemma user_page_kept d s s' va p fl x :
  space_ok s d → pages_kept d s s' → user_va va → translate (pg_mem s) d va = Some (p, fl) →
  has fl PAGE_USER = true → page_of x = page_of p → pg_mem s' x = pg_mem s x.
Proof.
  intros Hsp Hk Hva Ht Hu E. destruct (so_user _ _ Hsp va p fl Hva Ht Hu) as (_ & H2 & H3 & H4).
  apply Hk; rewrite E; auto.
Qed.

Lemma zero_page_at m f x : f mod 4096 = 0 → mem_zero_page m f x = if decide (page_of x = f) then 0 else m x.
Proof.
  intros Hf. unfold mem_zero_page. destruct (Z.leb_spec f x), (Z.ltb_spec x (f + 4096)); simpl; case_decide as E; try done;
    exfalso; (apply E || revert E); unfold page_of; mlia.
Qed.

Lemma sbrk_page_ok d s va :
  paging_wf s → space_ok s d → user_va va →
  ∃ ok s', sbrk_page (PHYS_TO_KVIRT d) va s = Some (ok, s') ∧ confined d s s' ∧ pages_kept d s s' ∧
    (∀ va', is_u32 va' → va' / 4096 ≠ va / 4096 → translate (pg_mem s') d va' = translate (pg_mem s) d va') ∧
    (ok = true → ∃ f, addr_free (pg_pmm s) f ∧ (∀ x, page_of x = f → pg_mem s' x = 0) ∧
       ∀ va', is_u32 va' → va' / 4096 = va / 4096 → translate (pg_mem s') d va' = Some (f + va' mod 4096, 7)).
Proof.
  intros Hwf Hsp Hva. unfold sbrk_page, mbind, M_bind, on_pmm, kzero_page, mret, M_ret.
  destruct (alloc_frame_addr _ (pg_pmm_wf _ Hwf)) as (f & p' & E & Hwf' & Hcase). rewrite E.
  pose proof (alloc_frame_range _ _ _ (pg_pmm_wf _ Hwf) E) as Hrange.
  destruct Hcase as [(-> & -> & _)|(Hf0 & Hfa & Hfr & Hff & Hfree)].
  { eexists false, _. split; [reflexivity|]. destruct s. split; [by apply confined_refl|done]. }
  rewrite (proj2 (Z.eqb_neq _ _) Hf0). rewrite kv_page by lia.
  assert (Hfu : is_u32 f) by mlia.
  (* Any allocator that has no frame free but those of [s] goes with the zeroed frame. *)
  assert (Hw : ∀ q, pmm_wf q → same_range (pg_pmm s) q → (∀ a, addr_free q a → addr_free (pg_pmm s) a) →
    confined d s (with_mem (mem_zero_page (pg_mem s) f) (with_pmm q s)) ∧
    (∀ va, is_u32 va → translate (mem_zero_page (pg_mem s) f) d va = translate (pg_mem s) d va) ∧
    (∀ k, 0 ≤ k < 1024 → mem_zero_page (pg_mem s) f (d + 4 * k) = pg_mem s (d + 4 * k))).
  { intros q Hq1 Hq2 Hq3. apply confined_write; try done; intros x; rewrite zero_page_at by done; case_decide; try done.
    - apply (pg_mem_u32 _ Hwf).
    - intros _. left. by subst. }
  destruct (Hw p' Hwf' Hrange) as (HC & Htr2 & Hdir2); [intros a Ha; by apply Hfree|].
  set (s2 := with_mem _ (with_pmm p' s)) in *.
  destruct (map_page_ok s2 d va f PAGE_UWP (cf_wf _ _ _ HC) (so_as _ _ (cf_space _ _ _ HC)) (user_va_u32 _ Hva))
    as (rc & s' & Em & _ & _ & _ & _ & Hrc); [done|done|].
  change (with_mem (mem_zero_page (pg_mem (with_pmm p' s)) f) (with_pmm p' s)) with s2. rewrite Em.
  assert (Hk2 : pages_kept d s s2).
  { intros x Hx _ _. unfold s2. cbn [pg_mem with_mem]. rewrite zero_page_at, decide_False; [done| |done].
    intros Ex. apply Hx. by rewrite Ex. }
  destruct Hrc as [(-> & -> & _)|[-> _]]; simpl.
  - destruct (free_frame_addr p' f Hwf' Hfu) as (q & Eq & Hwq & E1 & E2 & Hq). rewrite Eq. simpl.
    exists false. eexists. split; [done|]. destruct (Hw q Hwq) as (HC' & Htr' & _).
    { destruct Hrange. split; congruence. }
    { intros a Ha. apply Hq in Ha as [Ha|[-> _]]; [by apply Hfree|done]. }
    split; [exact HC'|]. split; [exact Hk2|]. split; [|done]. intros va' Hva' _. by apply Htr'.
  - exists true, s'. split; [done|].
    assert (Hnf : ¬ addr_free (pg_pmm s2) f). { intros Hx. by apply Hfree in Hx as [_ ?]. }
    destruct (confined_map d s s2 va f s' Hsp HC Htr2 Hdir2 Hva Hff Hnf Em) as (HC' & Htr & Hz).
    split; [done|]. split; [|split].
    + apply (pages_kept_trans d s s2 s'); [done|done|]. intros x Hx Hxd Hxt.
      destruct (map_page_mem s2 d va f PAGE_UWP 0 s' (cf_wf _ _ _ HC) (so_as _ _ (cf_space _ _ _ HC)) (user_va_u32 _ Hva) Em)
        as (_ & Hmem & _). apply Hmem; [done|done|]. intros Hp. apply Hxt; [|done].
      pose proof (user_va_idx _ Hva). lia.
    + intros va' Hva' Hne. by rewrite Htr, decide_False.
    + intros _. exists f. split; [done|]. split.
      * intros x Hx. rewrite Hz by done. unfold s2. cbn [pg_mem with_mem]. rewrite zero_page_at by done. by rewrite decide_True.
      * intros va' Hva' Heq. by rewrite Htr, decide_True.
Qed.

(** The pages [va], ..., [va + size - 1] are mapped to frames that were free in
    [s] and hold zeros. *)
Definition fresh_pages (d lo hi : Z) (s s' : paging_t) : Prop :=
  ∀ va, lo ≤ va < hi → ∃ g, translate (pg_mem s') d va = Some (g + va mod 4096, 7) ∧
    addr_free (pg_pmm s) g ∧ ∀ x, page_of x = g → pg_mem s' x = 0.

Lemma sbrk_pages_ok d n : ∀ s va,
  paging_wf s → space_ok s d → va mod 4096 = 0 → USER_REGION_START ≤ va →
  va + 4096 * Z.of_nat n ≤ USER_REGION_END →
  ∃ ok s', sbrk_pages n (PHYS_TO_KVIRT d) va s = Some (ok, s') ∧ confined d s s' ∧ pages_kept d s s' ∧
    (∀ va', is_u32 va' → ¬ va ≤ va' < va + 4096 * Z.of_nat n →
       translate (pg_mem s') d va' = translate (pg_mem s) d va') ∧
    (ok = true → fresh_pages d va (va + 4096 * Z.of_nat n) s s').
Proof.
  induction n as [|n IH]; intros s va Hwf Hsp Hal Hlo Hhi.
  { exists true, s. split; [done|]. split; [by apply confined_refl|]. split; [done|]. split; [done|].
    intros _ va' Hva'. lia. }
  assert (Hva : user_va va) by (unfold user_va; lia).
  assert (Hv32 : is_u32 va) by eauto with cint.
  cbn [sbrk_pages]. unfold mbind, M_bind, mret, M_ret.
  destruct (sbrk_page_ok d s va Hwf Hsp Hva) as (ok & s1 & -> & HC1 & Hk1 & Hout1 & Hok1).
  destruct ok; cbn [negb].
  2: { exists false, s1. split; [done|]. split; [done|]. split; [done|]. split; [|done].
       intros va' Hva' Hn. apply Hout1; [done|]. mlia. }
  destruct (IH s1 (va + 4096)) as (ok & s' & E & HC2 & Hk2 & Hout2 & Hok2);
    [apply HC1|apply HC1|mlia|lia|lia|].
  change 0x1000 with 4096. exists ok, s'. split; [done|]. split; [by eapply confined_trans|].
  split; [by apply (pages_kept_trans d s s1 s')|]. split.
  { intros va' Hva' Hn. rewrite Hout2 by (done || lia). apply Hout1; [done|]. mlia. }
  intros Hok va' Hva'. assert (Hu' : user_va va') by (unfold user_va; lia).
  assert (Hv' : is_u32 va') by eauto with cint.
  destruct (decide (va' / 4096 = va / 4096)) as [Heq|Hne].
  - destruct (Hok1 eq_refl) as (f & Hff & Hz & Htr). exists f.
    assert (Ht1 : translate (pg_mem s1) d va' = Some (f + va' mod 4096, 7)) by auto.
    split; [rewrite Hout2; [done|done|mlia]|]. split; [done|]. intros x Hx.
    rewrite (user_page_kept d s1 s' va' _ 7 x (cf_space _ _ _ HC1) Hk2 Hu' Ht1); [by apply Hz|done|].
    destruct (addr_free_aligned _ _ (pg_pmm_wf _ Hwf) Hff). by rewrite page_of_add by mlia.
  - destruct (Hok2 Hok va') as (g & Ht & Hg & Hz); [mlia|].
    exists g. split; [done|]. split; [|done]. by apply (cf_free _ _ _ HC1).
Qed.

Lemma page_round x : is_u32 x → x + 4095 < 4294967296 → page_frame (u32 (x + 0xFFF)) = (x + 4095) / 4096 * 4096.
Proof. intros H1 H2. rewrite u32_small by mlia. rewrite page_frame_eq by mlia. mlia. Qed.

(** [x] rounded up to a page. *)
Definition page_up (x : Z) : Z := (x + 4095) / 4096 * 4096.

(** ** User memory *)

(** The mappings of the user region are for the user, and no byte is mapped
    twice. *)
Record user_space (p : paging_t) (d : Z) : Prop := {
  us_wf : paging_wf p;
  us_ok : space_ok p d;
  us_cr3 : pg_cr3 p = d;
  us_user va pa fl : user_va va → translate (pg_mem p) d va = Some (pa, fl) → has fl PAGE_USER = true;
  us_inj va va' pa fl fl' : user_va va → user_va va' → translate (pg_mem p) d va = Some (pa, fl) →
    translate (pg_mem p) d va' = Some (pa, fl') → va = va'
}.

Definition mapped (p : paging_t) (lo hi : Z) : Prop :=
  ∀ va, lo ≤ va < hi → is_Some (translate (pg_mem p) (pg_cr3 p) va).

Lemma word_base_page a : page_of (word_base a) = page_of a.
Proof. unfold page_of, word_base. mlia. Qed.

(** The same address space after a change of the memory in user pages. *)
Record same_space (p p' : paging_t) (d : Z) : Prop := {
  ss_space : user_space p' d;
  ss_confined : confined d p p';
  ss_pmm : pg_pmm p' = pg_pmm p;
  ss_translate va : is_u32 va → translate (pg_mem p') d va = translate (pg_mem p) d va
}.

Lemma same_space_refl p d : user_space p d → same_space p p d.
Proof. intros Hp. split; [done|by apply confined_refl; apply Hp|done..]. Qed.

Lemma same_space_trans p1 p2 p3 d : same_space p1 p2 d → same_space p2 p3 d → same_space p1 p3 d.
Proof.
  intros [A1 A2 A3 A4] [B1 B2 B3 B4]. split; [done|by eapply confined_trans|congruence|].
  intros va Hva. by rewrite B4, A4.
Qed.

Lemma same_space_mapped p p' d lo hi : same_space p p' d → user_space p d → 0 ≤ lo → hi ≤ 4294967296 →
  mapped p lo hi → mapped p' lo hi.
Proof.
  intros [A1 _ _ A4] Hp Hlo Hhi Hm va Hva. rewrite (us_cr3 _ _ A1), A4 by mlia.
  rewrite <- (us_cr3 _ _ Hp). by apply Hm.
Qed.

Lemma store_byte_ok p d va b pa fl :
  user_space p d → user_va va → is_u8 b → translate (pg_mem p) d va = Some (pa, fl) →
  let p' := with_mem (store8 (pg_mem p) pa b) p in
  same_space p p' d ∧
  ∀ va', user_va va' → user_byte p' va' = if decide (va' = va) then Some b else user_byte p va'.
Proof.
  intros Hp Hva Hb Ht p'. destruct Hp as [Hwf Hsp Hcr Hus Hinj].
  destruct (confined_write d p (pg_pmm p) (store8 (pg_mem p) pa b) Hwf Hsp) as (HC & Htr & _); try done.
  { apply Hwf. } { intros x. apply store8_u32; [apply Hwf|done]. }
  { intros x Hx. right. exists va, pa, fl. split; [done|]. split; [done|]. split; [by eapply Hus|].
    destruct (decide (x = word_base pa)) as [->|Hne]; [by rewrite word_base_page|]. by rewrite store8_other in Hx. }
  assert (Ep : with_mem (store8 (pg_mem p) pa b) (with_pmm (pg_pmm p) p) = p') by (by destruct p).
  rewrite Ep in HC. split.
  - split; [|done..]. split; [apply HC|apply HC|done|..].
    + intros va1 pa1 fl1 Hva1. cbn [p' pg_mem with_mem]. rewrite Htr by eauto with cint. by apply Hus.
    + intros va1 va2 pa1 fl1 fl2 H1 H2. cbn [p' pg_mem with_mem]. rewrite !Htr by eauto with cint. by apply Hinj.
  - intros va' Hva'. unfold user_byte. cbn [p' pg_mem with_mem pg_cr3]. rewrite Hcr, Htr by eauto with cint.
    destruct (translate (pg_mem p) d va') as [[pa' fl']|] eqn:Ht'; cbn.
    2: { case_decide; [|done]. congruence. }
    rewrite load8_store8 by (apply Hwf || done). case_decide as E1; case_decide as E2; subst; try done.
    + exfalso. apply E2. by eapply Hinj.
    + exfalso. apply E1. congruence.
Qed.

(** ** User strings *)

(** [k] steps of a loop. *)
Fixpoint stepn {A B} (k : nat) (step : A → A + B) (a : A) : A + B :=
  match k with
  | O => inl a
  | S k => match step a with inl a => stepn k step a | inr b => inr b end
  end.

Lemma stepn_add {A B} (step : A → A + B) k k' : ∀ a,
  stepn (k + k') step a = match stepn k step a with inl a => stepn k' step a | inr b => inr b end.
Proof. induction k as [|k IH]; intros a; cbn; [done|]. destruct (step a); [apply IH|done]. Qed.

Lemma loop2_stepn {A B} (step : A → A + B) n : ∀ a, loop2 n step a = stepn (2 ^ n) step a.
Proof.
  induction n as [|n IH]; intros a; [cbn; by destruct (step a)|].
  rewrite Nat.pow_succ_r'. replace (2 * 2 ^ n)%nat with (2 ^ n + 2 ^ n)%nat by lia. rewrite stepn_add.
  cbn [loop2]. rewrite IH. destruct (stepn (2 ^ n) step a); [apply IH|done].
Qed.

(** A loop that ends within 2^32 steps. *)
Lemma loop2_ends {A B} (step : A → A + B) a k r :
  stepn k step a = inr r → Z.of_nat k ≤ 4294967296 → loop2 32 step a = inr r.
Proof.
  intros E Hk. rewrite loop2_stepn.
  assert (Hle : (k ≤ 2 ^ 32)%nat).
  { apply Nat2Z.inj_le. rewrite Nat2Z.inj_pow. exact Hk. }
  replace (2 ^ 32)%nat with (k + (2 ^ 32 - k))%nat by lia. rewrite stepn_add. by rewrite E.
Qed.

(** The NUL-terminated string [str] is at [ptr]. *)
Definition string_at (p : paging_t) (ptr : Z) (str : list Z) : Prop :=
  cstring str ∧ ∀ i b, (str ++ [0]) !! i = Some b → user_byte p (ptr + Z.of_nat i) = Some b.

Lemma string_at_char p ptr str i : string_at p ptr str → (i < length str)%nat →
  ∃ b, str !! i = Some b ∧ b ≠ 0 ∧ user_byte p (ptr + Z.of_nat i) = Some b.
Proof.
  intros [Hc Hs] Hi. destruct (lookup_lt_is_Some_2 str i Hi) as [b Hb]. exists b. split; [done|].
  split; [|apply Hs; by rewrite lookup_app_l].
  pose proof (Forall_lookup_1 _ _ _ _ Hc Hb). simpl in *. lia.
Qed.

Lemma string_at_end p ptr str : string_at p ptr str → user_byte p (ptr + Z.of_nat (length str)) = Some 0.
Proof. intros [_ Hs]. apply Hs. rewrite lookup_app_r by lia. by rewrite Nat.sub_diag. Qed.

(** The scan passes over bytes that are not zero. *)
Lemma scan_passes p ptr max n : (∀ i, 0 ≤ i < Z.of_nat n → ∃ b, user_byte p (ptr + i) = Some b ∧ b ≠ 0) →
  Z.of_nat n ≤ max → stepn n (scan_step p ptr max) 0 = inl (Z.of_nat n).
Proof.
  induction n as [|n IH]; intros Hb Hm; [done|]. rewrite <- Nat.add_1_r, stepn_add.
  rewrite IH; [|intros; apply Hb; lia|lia]. cbn [stepn]. unfold scan_step.
  destruct (Hb (Z.of_nat n)) as (b & -> & Hne); [lia|]. rewrite (proj2 (Z.ltb_lt _ _)) by lia.
  rewrite (proj2 (Z.eqb_neq _ _) Hne). f_equal. lia.
Qed.

Lemma validate_string_ok p ptr str : string_at p ptr str → USER_REGION_START ≤ ptr →
  ptr + Z.of_nat (length str) < USER_REGION_END → validate_user_string p ptr = Some true.
Proof.
  intros Hs Hlo Hhi. unfold validate_user_string. unfold USER_REGION_START in *.
  rewrite (proj2 (Z.eqb_neq _ _)), (proj2 (Z.ltb_ge _ _)), (proj2 (Z.leb_gt _ _)) by lia. cbn [orb].
  rewrite (loop2_ends _ 0 (length str + 1) (Some true)); [done| |unfold USER_REGION_END in *; lia].
  rewrite stepn_add, scan_passes; [|intros i Hi|lia].
  - cbn [stepn]. unfold scan_step. rewrite (proj2 (Z.ltb_lt _ _)) by lia. by rewrite (string_at_end p ptr str Hs).
  - destruct (string_at_char p ptr str (Z.to_nat i) Hs) as (b & _ & Hne & Hb); [lia|].
    exists b. split; [|done]. rewrite <- Hb. f_equal. lia.
Qed.

Lemma validate_string_none p ptr : is_u32 ptr → ¬ user_va ptr → validate_user_string p ptr = Some false.
Proof.
  unfold user_va, validate_user_string. intros Hu Hn. case_match; [done|].
  destruct (Z.ltb_spec ptr USER_REGION_START), (Z.leb_spec USER_REGION_END ptr); cbn [orb]; try done. lia.
Qed.

Lemma validate_string_open p ptr : user_va ptr →
  (∀ va, ptr ≤ va < USER_REGION_END → ∃ b, user_byte p va = Some b ∧ b ≠ 0) →
  validate_user_string p ptr = Some false.
Proof.
  unfold user_va. intros Hu Hb. unfold validate_user_string. unfold USER_REGION_START, USER_REGION_END in *.
  rewrite (proj2 (Z.eqb_neq _ _)), (proj2 (Z.ltb_ge _ _)), (proj2 (Z.leb_gt _ _)) by lia. cbn [orb].
  set (n := Z.to_nat (0xC0000000 - ptr)).
  rewrite (loop2_ends _ 0 (n + 1) (Some false)); [done| |lia].
  rewrite stepn_add, scan_passes; [|intros i Hi; apply Hb; lia|lia].
  cbn [stepn]. unfold scan_step. by rewrite (proj2 (Z.ltb_ge _ _)) by lia.
Qed.

Lemma string_collects p ptr str n : string_at p ptr str → 0 ≤ ptr → ptr + Z.of_nat (length str) < 4294967296 →
  (n ≤ length str)%nat → stepn n (string_step p ptr) [] = inl (reverse (take n str)).
Proof.
  intros Hs H0 H1. induction n as [|n IH]; intros Hn; [done|]. rewrite <- Nat.add_1_r, stepn_add, IH by lia.
  cbn [stepn]. unfold string_step. rewrite length_reverse, length_take, Nat.min_l by lia. rewrite u32_small by mlia.
  destruct (string_at_char p ptr str n Hs) as (b & Hb & Hne & ->); [lia|].
  rewrite (proj2 (Z.eqb_neq _ _) Hne). rewrite Nat.add_1_r, (take_S_r str n b Hb). by rewrite reverse_snoc.
Qed.

Lemma user_string_ok p ptr str : string_at p ptr str → 0 ≤ ptr → ptr + Z.of_nat (length str) < 4294967296 →
  user_string p ptr = Some str.
Proof.
  intros Hs H0 H1. unfold user_string. rewrite (loop2_ends _ [] (length str + 1) (Some str)); [done| |lia].
  rewrite stepn_add, (string_collects p ptr str) by (done || lia). rewrite firstn_all. cbn [stepn]. unfold string_step.
  rewrite length_reverse, u32_small by mlia. rewrite (string_at_end p ptr str Hs). cbn. by rewrite reverse_involutive.
Qed.

Section spec.
Context {K H N V : Type} `{!KHeap H} `{!NetSockets N} `{!NetOps N} `{!VgaOps V}.
Notation SS := (sys K H N V).

(** The current task [t], in slot [c], runs in the address space [d]. *)
Record user_task (s : SS) (c : nat) (t : task_t) (d : Z) : Prop := {
  ut_current : k_current (s_kern s) = Some c;
  ut_task : k_tasks (s_kern s) !! c = Some t;
  ut_user : t_is_kernel t = false;
  ut_dir : t_page_dir t = Some (PHYS_TO_KVIRT d);
  ut_wf : paging_wf (s_paging s);
  ut_space : space_ok (s_paging s) d;
  ut_cr3 : pg_cr3 (s_paging s) = d
}.

(** The break of a task whose program ends at [t_user_brk_min]. *)
Definition current_brk (t : task_t) : Z := Z.max (t_user_brk_min t) (t_user_brk t).

Lemma sbrk_ok (s : SS) c t d inc :
  user_task s c t d → user_va (t_user_brk_min t) → user_va (t_user_brk t) → 0 ≤ inc < 2147483648 →
  let old := current_brk t in
  let new := old + inc in
  ∃ v s', sys_do_sbrk inc s = Some (v, s') ∧ confined d (s_paging s) (s_paging s') ∧
    pages_kept d (s_paging s) (s_paging s') ∧
    (USER_STACK_BASE_VADDR ≤ new → v = ERR ∧ s' = s) ∧
    (∀ va, is_u32 va → ¬ page_up old ≤ va < page_up new →
       translate (pg_mem (s_paging s')) d va = translate (pg_mem (s_paging s)) d va) ∧
    (v = ERR ∧ s' = with_kern (with_paging (s_paging s') (s_kern s)) s ∨
     v = old ∧ new < USER_STACK_BASE_VADDR ∧
     s' = with_kern (with_tasks (<[c := set_brk (t_user_brk_min t) new t]> (k_tasks (s_kern s)))
                      (with_paging (s_paging s') (s_kern s))) s ∧
     fresh_pages d (page_up old) (page_up new) (s_paging s) (s_paging s')).
Proof.
  intros [Hc Ht Hk Hd Hwf Hsp _] Hmin Hbrk Hinc old new.
  unfold user_va, USER_REGION_START, USER_REGION_END in Hmin, Hbrk.
  assert (Hold : 0x400000 ≤ old < 0xC0000000) by (unfold old, current_brk; lia).
  assert (Hstop : USER_STACK_BASE_VADDR = 0xBFFF0000) by done.
  unfold sys_do_sbrk, mbind, M_bind, get, s_current, task_current. rewrite Hc. cbn [mbind option_bind]. rewrite Ht, Hk, Hd.
  replace (if t_user_brk t <? t_user_brk_min t then t_user_brk_min t else t_user_brk t) with old
    by (unfold old, current_brk; case_match; lia).
  rewrite (proj2 (Z.ltb_ge inc 0)) by lia.
  replace (if 0 <? inc then u32 (old + inc) else old) with (u32 new).
  2: { unfold new. destruct (Z.ltb_spec 0 inc); [done|]. replace (old + inc) with old by lia. rewrite u32_small; [done|mlia]. }
  assert (Hfail : ∃ v s', (mret ERR : M SS Z) s = Some (v, s') ∧ confined d (s_paging s) (s_paging s') ∧
    pages_kept d (s_paging s) (s_paging s') ∧ v = ERR ∧ s' = s).
  { exists ERR, s. split; [done|]. split; [by apply confined_refl|]. done. }
  assert (Hself : s = with_kern (with_paging (s_paging s) (s_kern s)) s) by (by destruct s as [[]]).
  destruct (Z.leb_spec USER_STACK_BASE_VADDR new) as [Hbig|Hsmall].
  { assert (Hr : ∃ v s', (mret ERR : M SS Z) s = Some (v, s') ∧ confined d (s_paging s) (s_paging s') ∧
      pages_kept d (s_paging s) (s_paging s') ∧ (USER_STACK_BASE_VADDR ≤ new → v = ERR ∧ s' = s) ∧
      v = ERR ∧ s' = with_kern (with_paging (s_paging s') (s_kern s)) s).
    { destruct Hfail as (v & s' & E & HC & Hp & -> & ->). exists ERR, s. done. }
    assert (Hcase : ((0 <? inc) && (u32 new <? old)) || (u32 new <? t_user_brk_min t) ||
                    (USER_STACK_BASE_VADDR <=? u32 new) = true).
    { destruct (Z.leb_spec 4294967296 new).
      - apply orb_true_iff. left. apply orb_true_iff. left. apply andb_true_iff.
        split; [apply Z.ltb_lt; lia|]. apply Z.ltb_lt. unfold u32. mlia.
      - rewrite u32_small by mlia. apply orb_true_iff. right. apply Z.leb_le. lia. }
    destruct Hr as (v & s' & E & H1 & H2 & H3 & H4). exists v, s'.
    destruct (H3 Hbig) as [Ev Es]. split; [|split; [done|split; [done|split; [done|split; [by rewrite Es|by left]]]]].
    destruct ((0 <? inc) && (u32 new <? old)); [done|]. destruct (u32 new <? t_user_brk_min t); [done|].
    cbn [orb] in Hcase. by rewrite Hcase. }
  assert (Hn32 : is_u32 new) by mlia.
  rewrite (u32_small new) by done.
  rewrite (proj2 (Z.ltb_ge new old)), andb_false_r by lia.
  assert (Hmo : t_user_brk_min t ≤ new) by (unfold new, old, current_brk; lia).
  rewrite (proj2 (Z.ltb_ge new _)) by lia. rewrite (proj2 (Z.leb_gt _ _) Hsmall).
  rewrite !page_round by mlia. fold (page_up old) (page_up new).
  set (n := Z.to_nat _).
  assert (Hn : page_up old + 4096 * Z.of_nat n = page_up new).
  { unfold n. rewrite Z2Nat.id; unfold page_up in *; mlia. }
  unfold on_kern, on_paging. fold (s_paging s).
  destruct (sbrk_pages_ok d n (s_paging s) (page_up old) Hwf Hsp) as (ok & p' & -> & HC & Hkept & Hout & Hok).
  { unfold page_up. mlia. } { unfold page_up, USER_REGION_START. mlia. } { rewrite Hn. unfold page_up, USER_REGION_END. mlia. }
  rewrite Hn in *. destruct ok; cbn [negb].
  - unfold upd_current, on_kern, upd_task. cbn. rewrite Hc. cbn. rewrite Ht. cbn.
    eexists old, _. split; [reflexivity|]. split; [done|]. split; [done|]. split; [lia|]. split; [done|]. right.
    split; [done|]. split; [done|]. split; [done|]. by apply Hok.
  - eexists ERR, _. split; [reflexivity|]. split; [done|]. split; [done|]. split; [lia|]. split; [done|]. left. done.
Qed.

Lemma ustore_ok d l : ∀ (s : SS) va,
  user_space (s_paging s) d → Forall is_u8 l → USER_REGION_START ≤ va →
  va + Z.of_nat (length l) ≤ USER_REGION_END → mapped (s_paging s) va (va + Z.of_nat (length l)) →
  ∃ p', ustore va l s = Some (tt, with_kern (with_paging p' (s_kern s)) s) ∧ same_space (s_paging s) p' d ∧
    ∀ va', user_va va' → user_byte p' va' =
      if decide (va ≤ va' < va + Z.of_nat (length l)) then l !! Z.to_nat (va' - va) else user_byte (s_paging s) va'.
Proof.
  induction l as [|b l IH]; intros s va Hs Hl Hlo Hhi Hm.
  { exists (s_paging s). split; [by destruct s as [[]]|]. split; [by apply same_space_refl|].
    intros va' _. rewrite decide_False; [done|]. cbn. lia. }
  cbn [length] in *. apply Forall_cons in Hl as [Hb Hl].
  assert (Hva : user_va va) by (unfold user_va; lia). cbn [ustore]. unfold mbind, M_bind, get, lift.
  rewrite (u32_small va) by eauto with cint.
  destruct (Hm va) as [[pa fl] Ht]; [lia|]. rewrite Ht. rewrite (us_cr3 _ _ Hs) in Ht.
  destruct (store_byte_ok _ d va b pa fl Hs Hva Hb Ht) as [Hss Hby].
  unfold on_kern, on_paging, modify. rewrite u8_small by done. fold (s_paging s).
  set (p1 := with_mem _ (s_paging s)) in *. set (s1 := with_kern _ s).
  assert (Hm1 : mapped (s_paging s1) (va + 1) (va + 1 + Z.of_nat (length l))).
  { apply (same_space_mapped (s_paging s) p1 d); [done|done|..];
      unfold USER_REGION_START, USER_REGION_END in *; [lia|lia|]. intros v Hv. apply Hm. lia. }
  destruct (IH s1 (va + 1)) as (p' & E & Hss' & Hby'); [apply Hss|done|lia|lia|done|].
  exists p'. split; [exact E|]. split; [by eapply same_space_trans|].
  intros va' Hva'. rewrite Hby' by done. destruct (decide (va' = va)) as [->|Hne].
  - rewrite decide_False by lia. rewrite decide_True by lia. change (s_paging s1) with p1.
    rewrite Hby by done. rewrite decide_True by done. by rewrite Z.sub_diag.
  - destruct (decide (va + 1 ≤ va' < va + 1 + Z.of_nat (length l))).
    + rewrite decide_True by lia. replace (Z.to_nat (va' - va)) with (S (Z.to_nat (va' - (va + 1)))) by lia. done.
    + rewrite decide_False by lia. change (s_paging s1) with p1. rewrite Hby by done. by rewrite decide_False.
Qed.

Lemma uload_ok n : ∀ (s : SS) va l, USER_REGION_START ≤ va → va + Z.of_nat n ≤ USER_REGION_END →
  length l = n → (∀ i b, l !! i = Some b → user_byte (s_paging s) (va + Z.of_nat i) = Some b) →
  uload n va s = Some (l, s).
Proof.
  unfold USER_REGION_START, USER_REGION_END. induction n as [|n IH]; intros s va l Hlo Hhi Hn Hl.
  { by destruct l. }
  destruct l as [|b l]; [done|]. cbn [uload]. unfold mbind, M_bind, get, lift. rewrite u32_small by mlia.
  pose proof (Hl 0%nat b eq_refl) as Hb. rewrite Z.add_0_r in Hb. rewrite Hb.
  rewrite (IH s (va + 1) l); [done|lia|lia|by injection Hn|].
  intros i x Hi. rewrite <- (Hl (S i) x Hi). f_equal. lia.
Qed.

Lemma validate_range ptr size : is_u32 ptr → is_u32 size →
  validate_user_ptr ptr size = true ↔ USER_REGION_START ≤ ptr ∧ ptr + size ≤ USER_REGION_END.
Proof.
  unfold validate_user_ptr, USER_REGION_START, USER_REGION_END. intros Hp Hs.
  destruct (Z.eqb_spec ptr 0); [split; [done|lia]|]. destruct (Z.ltb_spec ptr 0x400000); [split; [done|lia]|].
  destruct (Z.ltb_spec (0xC0000000 - 0x400000) size); [split; [done|lia]|].
  destruct (Z.leb_spec 4294967296 (ptr + size)).
  { replace (u32 (ptr + size)) with (ptr + size - 4294967296) by mlia.
    rewrite (proj2 (Z.ltb_lt _ _)) by mlia. split; [done|lia]. }
  rewrite u32_small by mlia. rewrite (proj2 (Z.ltb_ge _ _)) by mlia.
  destruct (Z.ltb_spec 0xC0000000 (ptr + size)); split; try done; lia.
Qed.

(** C5 (safety): [validate_user_ptr] accepts exactly the buffers inside the user
    region, and a store through an accepted buffer whose pages are mapped
    succeeds, changes the bytes of the buffer and no other byte of the user
    region, leaves the page tables, the allocator and all memory that is not of
    the task's user pages alone, and reads back as written. *)
Theorem user_buffer_confined (s : SS) (d ptr size : Z) (l : list Z) :
  user_space (s_paging s) d → is_u32 ptr → is_u32 size → Forall is_u8 l →
  (validate_user_ptr ptr size = true ↔ USER_REGION_START ≤ ptr ∧ ptr + size ≤ USER_REGION_END) ∧
  (validate_user_ptr ptr size = true → Z.of_nat (length l) ≤ size →
   mapped (s_paging s) ptr (ptr + Z.of_nat (length l)) →
   ∃ s', ustore ptr l s = Some (tt, s') ∧ s' = with_kern (with_paging (s_paging s') (s_kern s)) s ∧
     same_space (s_paging s) (s_paging s') d ∧
     (∀ va, user_va va → user_byte (s_paging s') va =
        if decide (ptr ≤ va < ptr + Z.of_nat (length l)) then l !! Z.to_nat (va - ptr)
        else user_byte (s_paging s) va) ∧
     uload (length l) ptr s' = Some (l, s')).
Proof.
  intros Hs Hp Hz Hl. pose proof (validate_range ptr size Hp Hz) as Hv. split; [done|].
  intros [Hlo Hhi]%Hv Hlen Hm.
  destruct (ustore_ok d l s ptr Hs Hl Hlo) as (p' & E & Hss & Hby); [lia|done|].
  eexists. split; [exact E|]. split; [done|]. split; [done|]. split; [done|].
  apply uload_ok; [done|lia|done|]. intros i b Hi.
  pose proof (lookup_lt_Some _ _ _ Hi). cbn [s_paging with_kern s_kern k_paging with_paging].
  rewrite Hby by (unfold user_va; lia). rewrite decide_True by lia. rewrite <- Hi. f_equal. lia.
Qed.

(** C27 (functional): a string argument is the NUL-terminated string at the
    address when it lies inside the user region; an address outside the region
    is refused, and so is a string that runs to the end of the region.  The scan
    ends in every case, and the state does not change. *)
Theorem string_arg_correct (s : SS) (ptr : Z) (str : list Z) :
  is_u32 ptr →
  (string_at (s_paging s) ptr str → USER_REGION_START ≤ ptr →
   ptr + Z.of_nat (length str) < USER_REGION_END → string_arg ptr s = Some (Some str, s)) ∧
  (¬ user_va ptr → string_arg ptr s = Some (None, s)) ∧
  (user_va ptr → (∀ va, ptr ≤ va < USER_REGION_END → ∃ b, user_byte (s_paging s) va = Some b ∧ b ≠ 0) →
   string_arg ptr s = Some (None, s)).
Proof.
  intros Hp. unfold string_arg, ustring, mbind, M_bind, get, lift, mret, M_ret. split; [|split].
  - intros Hs Hlo Hhi. rewrite (validate_string_ok _ ptr str Hs Hlo Hhi).
    unfold USER_REGION_START, USER_REGION_END in *. rewrite (user_string_ok _ ptr str Hs) by lia. done.
  - intros Hn. by rewrite validate_string_none.
  - intros Hu Hb. by rewrite validate_string_open.
Qed.


(** ** Waiting for a child *)

Lemma handler_wait (s : SS) id ecx edx : syscall_handler SYS_WAIT id ecx edx s = sys_do_wait id s.
Proof. done. Qed.

(** The waiter is marked blocked and yields. *)
Lemma wait_blocks (s : SS) c i t ct id :
  k_current (s_kern s) = Some c → k_tasks (s_kern s) !! c = Some ct →
  task_get_by_id id (s_kern s) = Some i → k_tasks (s_kern s) !! i = Some t →
  t_detached t = 0 → t_state t ≠ TASK_TERMINATED →
  sys_do_wait id s = Some (SYield (ResWait i),
    with_kern (with_tasks (<[c := set_state TASK_BLOCKED (set_waiting_for id ct)]> (k_tasks (s_kern s))) (s_kern s)) s).
Proof.
  intros Hc Hct Hid Hi Hd Hst. unfold sys_do_wait, mbind, M_bind, get. rewrite Hid.
  unfold on_kern at 1, get_task. rewrite Hi. cbn [mbind option_bind]. rewrite Hd. cbn [Z.eqb negb].
  unfold in_state. rewrite bool_decide_eq_false_2 by done.
  unfold upd_current. cbn [s_kern with_kern]. rewrite Hc. unfold on_kern, upd_task. cbn [s_kern with_kern]. by rewrite Hct.
Qed.

Lemma wait_resume_eq (s : SS) c i t ct :
  k_current (s_kern s) = Some c → k_tasks (s_kern s) !! c = Some ct → c ≠ i →
  k_tasks (s_kern s) !! i = Some t → t_detached t = 0 →
  ∃ s', wait_resume i s = Some (SRet (u32 (t_exit_code t)), s').
Proof.
  intros Hc Hct Hci Hi Hd. unfold wait_resume, mbind, M_bind, upd_current. rewrite Hc.
  unfold on_kern at 1, upd_task. rewrite Hct. cbn [mbind option_bind]. unfold on_kern, get_task. cbn.
  rewrite list_lookup_insert_ne by done. rewrite Hi. cbn [mbind option_bind]. rewrite Hd. by eexists.
Qed.

End spec.

(** The size check of [SYS_WIN_LIST] and [SYS_TASKLIST] multiplies
    the number of entries modulo 2^32.  With 0x10000000 windows, or 0x20000000
    tasks, the product is 0, so that the first address of the kernel is accepted
    as the buffer and the list is stored there. *)
Theorem list_size_wraps {K H N V : Type} `{!KHeap H} `{!NetSockets N} `{!NetOps N} `{!VgaOps V} (s : sys K H N V) (edx : Z) :
  syscall_handler SYS_WIN_LIST 0xC0000000 0x10000000 edx s =
    (let l := window_list true 0x10000000 (k_wins (s_kern s)) in
     store_entries WIN_INFO_SIZE 0xC0000000 (win_info_bytes <$> l);; ret (Z.of_nat (length l))) s ∧
  syscall_handler SYS_TASKLIST 0xC0000000 0x20000000 edx s =
    (let l := task_list_info 0x20000000 (s_kern s) in
     store_entries TASKINFO_SIZE 0xC0000000 (taskinfo_bytes <$> l);; ret (Z.of_nat (length l))) s.
Proof. split; reflexivity. Qed.

(** ** Examples *)

#[global] Instance no_net : NetOps unit := {|
  net_ping _ _ n := (-1, n); net_set_config _ _ _ n := n; net_get_config _ := (0, 0, 0);
  net_get_stats _ := (0, 0); net_sock_listen _ n := (-1, n); net_sock_accept _ n := (-1, n);
  net_sock_send _ _ n := (-1, n); net_sock_recv _ _ n := ((-1, []), n); net_sock_close _ n := (-1, n) |}.
#[global] Instance no_vga : VgaOps unit := {|
  vga_bga_available _ := false; vga_enter_bga_mode _ _ _ v := (0, v); vga_exit_bga_mode v := v;
  vga_enter_mode13h v := v; vga_enter_text_mode v := v |}.

(** A directory at 0x310000 with one user page, at 0x401000, in the first frame
    of the allocator, and the first page of the kernel at 0xC0000000. *)
Definition demo_mem (x : Z) : Z :=
  if x =? 0x310004 then 0x311007 else if x =? 0x310C00 then 0x312007 else
  if x =? 0x311004 then 0x800007 else if x =? 0x312000 then 0x000003 else 0.

Definition demo_pmm : pmm_t := match pmm_alloc_frame pmm_boot with Some (_, p) => p | None => pmm_boot end.

Definition user_paging : paging_t :=
  mk_paging demo_pmm demo_mem (Some (PHYS_TO_KVIRT 0x300000)) None [0; 0; 0; 0] 0 0x310000.

Definition demo_task : task_t :=
  set_brk 0x402000 0x402000 (set_state TASK_RUNNING demo_user).

Definition demo_window : kernel_window_t :=
  mk_win 1 0 7 4 4 (str "w") None [] 0 kring_zero kring_zero.

Definition demo_sys : sys Z (set_heap 8) unit unit :=
  mk_sys (mk_kern (set_next (Some 1%nat) idle_task :: demo_task :: replicate 14 task_zero) (Some 1%nat) (Some 0%nat) 8 true
            user_paging elf_vfs (mk_wins (demo_window :: replicate 7 win_zero) (0xC0504000, {[0xC0503000]})) tt 5 0)
         kb_boot mouse_boot (mk_gfx false false 0 0 0 0 0) tt [] [] (mk_iret 0 0 0 0 0).

Lemma demo_pmm_ok : pmm_wf demo_pmm ∧ in_pmm demo_pmm 0x800000 ∧ ∀ a, addr_free demo_pmm a → 0x800000 < a.
Proof.
  destruct (alloc_frame_addr pmm_boot (pg_pmm_wf _ paging_boot_wf)) as (r & p & E & Hwf & Hc).
  pose proof (alloc_frame_range _ _ _ (pg_pmm_wf _ paging_boot_wf) E) as Hr.
  assert (Er : fst <$> pmm_alloc_frame pmm_boot = Some 0x800000) by (vm_compute; reflexivity).
  rewrite E in Er. injection Er as ->. unfold demo_pmm. rewrite E.
  destruct Hc as [(? & _)|(_ & _ & _ & Hf & Hfree)]; [done|]. split; [done|].
  split; [by apply (in_pmm_same pmm_boot), addr_free_in_pmm|].
  intros a Ha. apply Hfree in Ha as [(k & Hk & -> & _) Hne]. revert Hne. unfold frame_at, PMM_START, PMM_FRAME_SIZE. lia.
Qed.

Lemma demo_pde k : 0 ≤ k < 1024 → demo_mem (0x310000 + 4 * k) =
  if k =? 1 then 0x311007 else if k =? 768 then 0x312007 else 0.
Proof. intros Hk. unfold demo_mem. repeat case_match; lia. Qed.

Lemma demo_translate va : user_va va →
  translate demo_mem 0x310000 va = if va / 4096 =? 1025 then Some (0x800000 + va mod 4096, 7) else None.
Proof.
  unfold user_va, USER_REGION_START, USER_REGION_END. intros Hva. unfold translate. rewrite demo_pde by mlia.
  destruct (Z.eqb_spec (va / 4194304) 1) as [E|E].
  2: { destruct (Z.eqb_spec (va / 4194304) 768); [mlia|]. cbn. destruct (Z.eqb_spec (va / 4096) 1025); [mlia|done]. }
  cbn [negb has]. change (has 0x311007 PAGE_PRESENT) with true. cbn [negb].
  change (page_frame 0x311007) with 0x311000. unfold demo_mem.
  destruct (Z.eqb_spec (va / 4096) 1025) as [E2|E2].
  - replace (va / 4096 mod 1024) with 1 by mlia. reflexivity.
  - rewrite !(proj2 (Z.eqb_neq (0x311000 + _) _)) by mlia. reflexivity.
Qed.

Lemma demo_user_space : user_space user_paging 0x310000.
Proof.
  destruct demo_pmm_ok as (Hwf & Hin & Hfree).
  assert (Hnf : ∀ a, a ≤ 0x800000 → ¬ addr_free demo_pmm a) by (intros a Ha Hx; apply Hfree in Hx; lia).
  assert (Htab : ∀ k, 0 ≤ k < 1024 → pde_present demo_mem 0x310000 k →
    k = 1 ∧ table_of demo_mem 0x310000 k = 0x311000 ∨ k = 768 ∧ table_of demo_mem 0x310000 k = 0x312000).
  { intros k Hk. unfold pde_present, table_of. rewrite demo_pde by done.
    destruct (Z.eqb_spec k 1); [by left|]. destruct (Z.eqb_spec k 768); [by right|]. done. }
  split; cbn [user_paging pg_mem pg_pmm pg_cr3].
  - split; [done|]. intros a. cbn. unfold demo_mem. repeat case_match; done.
  - split.
    + split.
      * split; [done|]. split; [lia|]. apply Hnf. lia.
      * intros k Hk Hp. cbn in *. destruct (Htab k Hk Hp) as [[-> ->]|[-> ->]].
        -- split; [split; [done|]; split; [lia|apply Hnf; lia]|]. done.
        -- split; [split; [done|]; split; [lia|apply Hnf; lia]|]. done.
      * intros i j Hi Hj Hne Hpi Hpj. cbn in *.
        destruct (Htab i Hi Hpi) as [[-> ->]|[-> ->]], (Htab j Hj Hpj) as [[-> ->]|[-> ->]]; done.
    + intros va p fl Hva Ht _. cbn in *. rewrite demo_translate in Ht by done. case_match; [|done].
      injection Ht as <- <-. rewrite page_of_add by mlia. split; [done|]. split; [apply Hnf; lia|]. split; [done|].
      intros k Hk Hp. destruct (Htab k Hk Hp) as [[-> ->]|[-> ->]]; done.
  - reflexivity.
  - intros va pa fl Hva. rewrite demo_translate by done. case_match; [|done]. by intros [= _ <-].
  - intros va va' pa fl fl' Hva Hva'. rewrite !demo_translate by done.
    destruct (Z.eqb_spec (va / 4096) 1025), (Z.eqb_spec (va' / 4096) 1025); try done.
    intros [= <- _] [= E _]. mlia.
Qed.

Lemma user_buffer_confined_witness :
  validate_user_ptr 0x401ffe 2 = true ∧
  ∃ s', ustore 0x401ffe [7; 9] demo_sys = Some (tt, s') ∧ uload 2 0x401ffe s' = Some ([7; 9], s').
Proof.
  destruct (user_buffer_confined demo_sys 0x310000 0x401ffe 2 [7; 9] demo_user_space) as [Hv H]; [mlia|mlia|repeat (constructor; [mlia|]); constructor|].
  assert (Hval : validate_user_ptr 0x401ffe 2 = true) by (vm_compute; reflexivity).
  split; [exact Hval|]. destruct (H Hval) as (s' & E & _ & _ & _ & E2); [done| |by exists s'].
  intros va Hva. change (is_Some (translate demo_mem 0x310000 va)). cbn [length Z.of_nat] in Hva. rewrite demo_translate by (unfold user_va, USER_REGION_START, USER_REGION_END; lia).
  replace (va / 4096) with 1025 by mlia. by eexists.
Defined.

Lemma string_arg_correct_witness :
  string_at (s_paging demo_sys) 0x401000 [] ∧ string_arg 0x401000 demo_sys = Some (Some [], demo_sys).
Proof.
  assert (Hs : string_at (s_paging demo_sys) 0x401000 []).
  { split; [constructor|]. intros [|i] b Hb; [|done]. injection Hb as <-. vm_compute. reflexivity. }
  split; [exact Hs|]. apply (string_arg_correct demo_sys 0x401000 []); [done|exact Hs|vm_compute; discriminate|reflexivity].
Defined.

Lemma demo_user_task : user_task demo_sys 1 demo_task 0x310000.
Proof. split; try reflexivity; apply demo_user_space. Qed.


(** The call stores at the first address of the kernel: the word at physical
    address 0, before and after. *)
Example win_list_overwrites_kernel :
  (λ '(r, s'), (r, pg_mem (s_paging s') 0, pg_mem (s_paging s') 4)) <$>
    syscall_handler SYS_WIN_LIST 0xC0000000 0x10000000 0 demo_sys = Some (SRet 1, 0, 7) ∧
  pg_mem (s_paging demo_sys) 4 = 0.
Proof. split; vm_compute; reflexivity. Qed.

(** The kernel task waits for the task with id 7, which then is killed. *)
Definition wait_sys : sys Z (set_heap 8) unit unit :=
  mk_sys two_tasks kb_boot mouse_boot (mk_gfx false false 0 0 0 0 0) tt [] [] (mk_iret 0 0 0 0 0).

Definition waiting_kern : kern Z (set_heap 8) unit :=
  with_tasks (<[0%nat := set_state TASK_BLOCKED (set_waiting_for 7 (set_next (Some 1%nat) idle_task))]> (k_tasks two_tasks)) two_tasks.

Lemma waiting_pre : term_pre waiting_kern {[0xC0503000]} 1 demo_user.
Proof. destruct two_tasks_pre. by split. Qed.

Lemma waiting_task s1 bt : syscall_handler SYS_WAIT 7 0 0 wait_sys = Some (SYield (ResWait 1), s1) →
  k_tasks (s_kern s1) !! 0%nat = Some bt → k_tasks waiting_kern !! 0%nat = Some bt.
Proof.
  intros E <-. rewrite handler_wait, (wait_blocks wait_sys 0 1 demo_user (set_next (Some 1%nat) idle_task)) in E by done.
  by injection E as <-.
Qed.

