(* ===== verification/SyscallGfx.v ===== *)
(** * Who may leave the graphics mode

    A frame theorem for the whole dispatcher of [Syscall.v]: a call by a task
    that does not own the graphics mode changes neither the mode nor the
    display. *)

From S2P Require Import Prelude Kring KHeap Paging Pipe Vfs Window Keyboard Mouse Loader Task Syscall SyscallSpec.

Create HintDb keeps_db.

Section gfx.
Context {K H N V : Type} `{!KHeap H} `{!NetSockets N} `{!NetOps N} `{!VgaOps V}.
Notation SS := (sys K H N V).

(** An operation that does not touch the graphics mode and the display. *)
Definition keeps_gfx {A} (m : M SS A) : Prop :=
  ∀ s a s', m s = Some (a, s') → s_gfx s' = s_gfx s ∧ s_vga s' = s_vga s.

Lemma keeps_ret {A} (a : A) : keeps_gfx (mret a).
Proof. intros s b s' [= _ <-]. done. Qed.
Lemma keeps_get : keeps_gfx get.
Proof. intros s b s' [= _ <-]. done. Qed.
Lemma keeps_lift {A} (o : option A) : keeps_gfx (lift o).
Proof. intros s b s'. unfold lift. destruct o; [|done]. intros [= _ <-]. done. Qed.
Lemma keeps_ub {A} : keeps_gfx (ub : M SS A).
Proof. done. Qed.
Lemma keeps_bind {A B} (m : M SS A) (f : A → M SS B) :
  keeps_gfx m → (∀ a, keeps_gfx (f a)) → keeps_gfx (m ≫= f).
Proof.
  intros Hm Hf s b s'. unfold mbind, M_bind. destruct (m s) as [[a s1]|] eqn:E; [|done]. intros E2.
  destruct (Hm _ _ _ E) as [H1 H2], (Hf a _ _ _ E2) as [H3 H4]. split; congruence.
Qed.
Lemma keeps_kern {A} (m : M (kern K H N) A) : keeps_gfx (on_kern m).
Proof. intros s b s'. unfold on_kern. destruct (m (s_kern s)) as [[a k]|]; [|done]. intros [= _ <-]. done. Qed.
Lemma keeps_kb {A} (m : M kb_t A) : keeps_gfx (on_kb m).
Proof. intros s b s'. unfold on_kb. destruct (m (s_kb s)) as [[a k]|]; [|done]. intros [= _ <-]. done. Qed.
Lemma keeps_mouse {A} (m : M mouse_t A) : keeps_gfx (on_mouse m).
Proof. intros s b s'. unfold on_mouse. destruct (m (s_mouse s)) as [[a k]|]; [|done]. intros [= _ <-]. done. Qed.
Lemma keeps_net {A} (f : N → A * N) : keeps_gfx (on_net f).
Proof. intros s b s'. unfold on_net. destruct (f _) as [a n]. intros [= _ <-]. done. Qed.
Lemma keeps_console f : keeps_gfx (modify (λ s : SS, with_console (f s) s)).
Proof. intros s b s' [= _ <-]. done. Qed.
Lemma keeps_debug f : keeps_gfx (modify (λ s : SS, with_debug (f s) s)).
Proof. intros s b s' [= _ <-]. done. Qed.
Lemma keeps_frame f : keeps_gfx (modify (with_frame f) : M SS unit).
Proof. intros s b s' [= _ <-]. done. Qed.
Lemma keeps_upd_current f : keeps_gfx (upd_current f : M SS unit).
Proof. intros s b s'. unfold upd_current. destruct (k_current _); [|done]. apply keeps_kern. Qed.
Lemma keeps_with_fds {A} (m : M (vst K) A) fds p : keeps_gfx (with_fds m fds p).
Proof.
  intros s b s'. unfold with_fds. destruct (m _) as [[a [v f]]|]; [|done].
  destruct (upd_current _ _) as [[u s1]|] eqn:E; [|done]. intros [= _ <-].
  apply keeps_upd_current in E as [H1 H2]. done.
Qed.

End gfx.

#[export] Hint Resolve keeps_ret keeps_get keeps_lift keeps_ub keeps_kern keeps_kb keeps_mouse keeps_net
  keeps_console keeps_debug keeps_frame keeps_upd_current keeps_with_fds : keeps_db.

(** A composition of operations that keep the display keeps it. *)
Ltac keeps :=
  repeat (cbv beta iota; first
    [ solve [eauto 2 with keeps_db nocore] | apply keeps_bind; [|intros ?] | case_match ]).

Section dispatch.
Context {K H N V : Type} `{!KHeap H} `{!NetSockets N} `{!NetOps N} `{!VgaOps V}.
Notation SS := (sys K H N V).

Lemma keeps_sret v : keeps_gfx (ret v : M SS sys_result).
Proof. apply keeps_ret. Qed.
Lemma keeps_fail : keeps_gfx (fail : M SS sys_result).
Proof. apply keeps_ret. Qed.
#[local] Hint Resolve keeps_sret keeps_fail : keeps_db.

Lemma keeps_task (f : task_t → M SS sys_result) : (∀ t, keeps_gfx (f t)) → keeps_gfx (with_current_task f).
Proof. intros Hf. unfold with_current_task. keeps. Qed.

Lemma keeps_table (f : Z → list vfs_fd_t → M SS sys_result) : (∀ p l, keeps_gfx (f p l)) → keeps_gfx (with_table f).
Proof. intros Hf. apply keeps_task. intros t. keeps. Qed.

Lemma keeps_by_pid (f : Z → M SS Z) : (∀ p, keeps_gfx (f p)) → keeps_gfx (by_pid f).
Proof. intros Hf. apply keeps_task. intros t. keeps. Qed.

Lemma keeps_uload n : ∀ va, keeps_gfx (uload n va : M SS (list Z)).
Proof. induction n as [|n IH]; intros va; cbn [uload]; keeps. Qed.

Lemma keeps_ustore l : ∀ va, keeps_gfx (ustore va l : M SS unit).
Proof. induction l as [|b l IH]; intros va; cbn [ustore]; keeps. Qed.
#[local] Hint Resolve keeps_uload keeps_ustore : keeps_db.

Lemma keeps_entries size l : ∀ va, keeps_gfx (store_entries size va l : M SS unit).
Proof. induction l as [|e l IH]; intros va; cbn [store_entries]; keeps. Qed.

Lemma keeps_string ptr : keeps_gfx (string_arg ptr : M SS _).
Proof. unfold string_arg, ustring. keeps. Qed.
#[local] Hint Resolve keeps_entries keeps_string : keeps_db.

Lemma keeps_path ptr : keeps_gfx (path_arg ptr : M SS _).
Proof. unfold path_arg. keeps. Qed.

Lemma keeps_write fd buf len : keeps_gfx (sys_do_write fd buf len : M SS Z).
Proof. unfold sys_do_write. keeps. Qed.
#[local] Hint Resolve keeps_path keeps_write : keeps_db.

Lemma keeps_argv n : ∀ argv i off, keeps_gfx (copy_argv n argv i off : M SS _).
Proof. induction n as [|n IH]; intros argv i off; cbn [copy_argv]; unfold uload32, ustring; keeps. Qed.
#[local] Hint Resolve keeps_argv : keeps_db.

Lemma keeps_on_path ebx f : keeps_gfx (on_path ebx f : M SS sys_result).
Proof. unfold on_path. keeps. Qed.
#[local] Hint Resolve keeps_on_path : keeps_db.

Lemma keeps_exec f : keeps_gfx (sys_do_exec f : M SS sys_result).
Proof. apply keeps_task. intros t. keeps. Qed.

Lemma keeps_spawn f argv argc : keeps_gfx (sys_do_spawn f argv argc : M SS sys_result).
Proof. unfold sys_do_spawn. keeps. Qed.

Lemma keeps_fread fd ptr len : keeps_gfx (do_fread fd ptr len : M SS sys_result).
Proof. apply keeps_table. intros p l. keeps. Qed.

Lemma keeps_fwrite fd buf : keeps_gfx (do_fwrite fd buf : M SS sys_result).
Proof. apply keeps_table. intros p l. keeps. Qed.
#[local] Hint Resolve keeps_exec keeps_spawn keeps_fread keeps_fwrite : keeps_db.

(** The calls other than the three that test the owner. *)
Lemma keeps_handler eax ebx ecx edx :
  eax ≠ SYS_EXIT → eax ≠ SYS_GFX_INIT → eax ≠ SYS_GFX_EXIT →
  keeps_gfx (syscall_handler eax ebx ecx edx : M SS sys_result).
Proof.
  intros H1 H2 H3. unfold syscall_handler.
  rewrite (proj2 (Z.eqb_neq _ _) H1), (proj2 (Z.eqb_neq _ _) H2), (proj2 (Z.eqb_neq _ _) H3).
  repeat (match goal with |- keeps_gfx (if ?b then _ else _) => destruct b end; [|]).
  all: try solve [eauto 2 with keeps_db nocore].
  all: try (apply keeps_task || apply keeps_table || apply keeps_by_pid; intros; solve [keeps]).
  all: try solve [unfold query, case_write, case_exec, case_spawn, sys_do_getkey, sys_do_wait, case_readdir, sys_do_readdir, task_list,
      case_shutdown, case_tasklist, sys_do_sleepms, sys_do_sbrk, sys_do_debug_exit, sys_do_kill, case_stat, case_rename,
      case_pipe_create, case_pipe_destroy, case_netget, case_netstats, case_sock_send, case_sock_recv,
      case_win_read, case_win_sendkey, case_win_list, case_getmouse; keeps].
  all: unfold case_win_write, case_win_read_text, case_fread, case_fwrite, case_getcwd; case_match; [solve [keeps]|].
  all: try (apply keeps_task || apply keeps_table || apply keeps_by_pid; intros); keeps.
Qed.

(** While another task owns the graphics mode. *)
Definition other_owner (s : SS) : Prop :=
  user_gfx_active (s_gfx s) = true ∧ t_id <$> s_current s ≠ Some (gfx_owner_pid (s_gfx s)).

Lemma keeps_init (s s' : SS) v : user_gfx_active (s_gfx s) = true → sys_do_gfx_init s = Some (v, s') → s' = s.
Proof. unfold sys_do_gfx_init, mbind, M_bind, get, mret, M_ret. intros ->. by intros [= _ <-]. Qed.

Lemma keeps_exit (s s' : SS) : other_owner s → sys_do_gfx_exit s = Some (tt, s') → s' = s.
Proof.
  intros [Ha Ho]. unfold sys_do_gfx_exit, mbind, M_bind, get, mret, M_ret. rewrite Ha. cbn [negb].
  rewrite bool_decide_eq_false_2 by done. cbn [negb]. by intros [= <-].
Qed.

Lemma keeps_task_exit (s s' : SS) code r : other_owner s → sys_do_exit code s = Some (r, s') →
  s_gfx s' = s_gfx s ∧ s_vga s' = s_vga s.
Proof.
  intros [Ha Ho]. unfold sys_do_exit. unfold mbind at 1, M_bind at 1, get. rewrite Ha, bool_decide_eq_false_2 by done.
  cbn [andb]. apply keeps_bind; [apply keeps_ret|]. intros ?. keeps.
Qed.

(** C26 (invariant): while the graphics mode is active, no system call of a task
    that does not own it, and no continuation of such a call, changes the mode,
    its owner or the display.  Killing the owner is such a call, so the display
    then stays in graphics mode for a task that no longer exists. *)
Theorem gfx_owner_only (s s' : SS) (eax ebx ecx edx : Z) (r : sys_result) :
  other_owner s →
  (syscall_handler eax ebx ecx edx s = Some (r, s') ∨ ∃ p, sys_resume p s = Some (r, s')) →
  s_gfx s' = s_gfx s ∧ s_vga s' = s_vga s.
Proof.
  intros Ho [E|[p E]].
  - destruct (decide (eax = SYS_EXIT)) as [->|H1]; [by apply (keeps_task_exit s s' (s32 ebx) r)|].
    destruct (decide (eax = SYS_GFX_INIT)) as [->|H2].
    { change (syscall_handler SYS_GFX_INIT ebx ecx edx) with (v ← sys_do_gfx_init; ret v : M SS sys_result) in E.
      unfold mbind, M_bind in E. destruct (sys_do_gfx_init s) as [[v s1]|] eqn:E1; [|done].
      apply keeps_init in E1 as ->; [|apply Ho]. by apply keeps_sret in E. }
    destruct (decide (eax = SYS_GFX_EXIT)) as [->|H3]; [|by apply (keeps_handler eax ebx ecx edx) in E].
    change (syscall_handler SYS_GFX_EXIT ebx ecx edx) with (sys_do_gfx_exit;; ret 0 : M SS sys_result) in E.
    unfold mbind, M_bind in E. destruct (sys_do_gfx_exit s) as [[[] s1]|] eqn:E1; [|done].
    apply keeps_exit in E1 as ->; [|done]. by apply keeps_sret in E.
  - revert E. assert (Hk : keeps_gfx (sys_resume p : M SS sys_result)); [|by apply Hk].
    unfold sys_resume, wait_resume. keeps.
Qed.
End dispatch.

(** A task that does not own the mode kills the owner: the mode stays active. *)
Definition gfx_sys : sys Z (set_heap 8) unit unit :=
  mk_sys two_tasks kb_boot mouse_boot (mk_gfx true true 0xFD000000 1024 768 16 7) tt [] [] (mk_iret 0 0 0 0 0).

Lemma gfx_owner_only_witness :
  ∃ s', syscall_handler SYS_KILL 7 0 0 gfx_sys = Some (SRet 0, s') ∧ user_gfx_active (s_gfx s') = true.
Proof.
  assert (Ho : other_owner gfx_sys) by (split; [reflexivity|discriminate]).
  destruct (syscall_handler SYS_KILL 7 0 0 gfx_sys) as [[r s']|] eqn:E; [|vm_compute in E; discriminate].
  destruct (gfx_owner_only gfx_sys s' SYS_KILL 7 0 0 r Ho (or_introl E)) as [Hg _].
  exists s'. split; [|rewrite Hg; reflexivity]. f_equal. f_equal.
  assert (Er : fst <$> syscall_handler SYS_KILL 7 0 0 gfx_sys = Some (SRet 0)) by (vm_compute; reflexivity).
  rewrite E in Er. by injection Er.
Defined.
