(* ===== verification/Disk.v ===== *)
(** * The block device

    What [src/src/drivers/ata_pio.c] promises to the file system: sectors of 512
    bytes that are read and written by number.  A command may fail; a failed
    write has stored its sector or not, and nothing else.  [healthy] devices
    answer every command on their sectors. *)

From S2P Require Import Prelude.

(** The sectors [lba], ..., [lba + n - 1], one after the other. *)
Fixpoint sectors_at (f : Z → list Z) (lba : Z) (n : nat) : list Z :=
  match n with O => [] | S n => f lba ++ sectors_at f (lba + 1) n end.

Class BlockDev (D : Type) := {
  (** The return value. *)
  ata_pio_init : D → Z * D;
  (** [None] is the return of -1; otherwise the bytes stored. *)
  ata_pio_read : Z → Z → D → option (list Z) * D;
  (** One sector; 0 or -1 is returned. *)
  ata_pio_write : Z → list Z → D → Z * D;
  (** The contents, the number of sectors, and that no command fails. *)
  sector : D → Z → list Z;
  disk_size : D → Z;
  healthy : D → Prop;
  sector_length d lba : length (sector d lba) = 512%nat;
  sector_bytes d lba : Forall is_u8 (sector d lba);
  disk_read_Some lba n d l d' : ata_pio_read lba n d = (Some l, d') →
    l = sectors_at (sector d) lba (Z.to_nat n);
  disk_read_keeps lba n d o d' x : ata_pio_read lba n d = (o, d') → sector d' x = sector d x;
  disk_write_ok lba l d d' x : ata_pio_write lba l d = (0, d') → length l = 512%nat → Forall is_u8 l →
    sector d' x = if decide (x = lba) then l else sector d x;
  disk_write_other lba l d rc d' x : ata_pio_write lba l d = (rc, d') → x ≠ lba → sector d' x = sector d x;
  disk_write_rc lba l d rc d' : ata_pio_write lba l d = (rc, d') → rc = 0 ∨ rc = -1;
  disk_read_size lba n d o d' : ata_pio_read lba n d = (o, d') → disk_size d' = disk_size d;
  disk_write_size lba l d rc d' : ata_pio_write lba l d = (rc, d') → disk_size d' = disk_size d;
  disk_init_keeps d rc d' x : ata_pio_init d = (rc, d') → sector d' x = sector d x;
  disk_init_size d rc d' : ata_pio_init d = (rc, d') → disk_size d' = disk_size d;
  (** A drive is there: the initialisation succeeds. *)
  attached : D → Prop;
  attached_init d : attached d → ∃ d', ata_pio_init d = (0, d') ∧ healthy d';
  healthy_after_read lba n d o d' : ata_pio_read lba n d = (o, d') → healthy d → healthy d';
  healthy_read lba n d : healthy d → 0 ≤ lba → 1 ≤ n < 256 → lba + n ≤ disk_size d →
    ∃ l d', ata_pio_read lba n d = (Some l, d') ∧ healthy d';
  healthy_write lba l d : healthy d → 0 ≤ lba < disk_size d → length l = 512%nat →
    ∃ d', ata_pio_write lba l d = (0, d') ∧ healthy d'
}.

(** ** A device in memory *)

Definition ZERO_SECTOR : list Z := replicate 512 0.

(** [n] sectors; those that were never written are zero. *)
Definition mem_disk (n : Z) : Type := gmap Z (list Z).

Definition mem_sector (m : gmap Z (list Z)) (lba : Z) : list Z :=
  match m !! lba with
  | Some l => if decide (length l = 512%nat ∧ Forall is_u8 l) then l else ZERO_SECTOR
  | None => ZERO_SECTOR
  end.

Definition mem_write (lba : Z) (l : list Z) (m : gmap Z (list Z)) : gmap Z (list Z) := <[lba := l]> m.

Lemma mem_sector_write lba l m x : length l = 512%nat → Forall is_u8 l →
  mem_sector (mem_write lba l m) x = if decide (x = lba) then l else mem_sector m x.
Proof.
  intros Hl Hb. unfold mem_sector, mem_write. case_decide as E.
  - subst. by rewrite lookup_insert_eq, decide_True.
  - by rewrite lookup_insert_ne.
Qed.

#[global] Program Instance mem_disk_dev (n : Z) : BlockDev (mem_disk n) := {|
  ata_pio_init d := (0, d);
  ata_pio_read lba c d :=
    (if (0 <=? lba) && (1 <=? c) && (lba + c <=? n) then Some (sectors_at (mem_sector d) lba (Z.to_nat c)) else None, d);
  ata_pio_write lba l d := if (0 <=? lba) && (lba <? n) then (0, mem_write lba l d) else (-1, d);
  sector := mem_sector;
  disk_size _ := n;
  healthy _ := True;
  attached _ := True
|}.
Next Obligation. cbv beta. intros n d lba. unfold mem_sector. repeat case_match; [naive_solver|done..]. Qed.
Next Obligation.
  cbv beta. intros n d lba. unfold mem_sector. repeat case_match; [naive_solver|apply Forall_replicate; split; lia..].
Qed.
Next Obligation. cbv beta. intros n lba c d l d'. case_match; [|done]. by intros [= <- _]. Qed.
Next Obligation. cbv beta. intros n lba c d o d' x. by intros [= _ <-]. Qed.
Next Obligation.
  cbv beta. intros n lba l d d' x. case_match; [|done]. intros [= <-] Hl Hb. by apply mem_sector_write.
Qed.
Next Obligation.
  cbv beta. intros n lba l d rc d' x. case_match; intros [= _ <-] Hx; [|done].
  unfold mem_sector, mem_write. by rewrite lookup_insert_ne.
Qed.
Next Obligation. cbv beta. intros n lba l d rc d'. case_match; intros [= <- _]; auto. Qed.
Next Obligation. done. Qed.
Next Obligation. done. Qed.
Next Obligation. cbv beta. intros n d rc d' x. by intros [= _ <-]. Qed.
Next Obligation. done. Qed.
Next Obligation. cbv beta. intros n d _. by exists d. Qed.
Next Obligation. done. Qed.
Next Obligation.
  cbv beta. intros n lba c d _ H1 H2 H3. rewrite (proj2 (Z.leb_le 0 lba)), (proj2 (Z.leb_le 1 c)), (proj2 (Z.leb_le _ n)) by lia.
  by eexists _, _.
Qed.
Next Obligation.
  cbv beta. intros n lba l d _ H1 H2. rewrite (proj2 (Z.leb_le 0 lba)), (proj2 (Z.ltb_lt lba n)) by lia. by eexists.
Qed.

(** ** Lemmas for the clients *)

Lemma sectors_at_length f lba n : (∀ x, length (f x) = 512%nat) → length (sectors_at f lba n) = (512 * n)%nat.
Proof. intros Hf. revert lba. induction n as [|n IH]; intros lba; simpl; [done|]. rewrite length_app, Hf, IH. lia. Qed.

Lemma sectors_at_ext f g lba n : (∀ x, lba ≤ x < lba + Z.of_nat n → f x = g x) → sectors_at f lba n = sectors_at g lba n.
Proof.
  revert lba. induction n as [|n IH]; intros lba H; simpl; [done|]. rewrite H by lia. f_equal. apply IH.
  intros x Hx. apply H. lia.
Qed.

Lemma sectors_at_drop f lba n k : (∀ x, length (f x) = 512%nat) → (k < n)%nat →
  take 512 (drop (512 * k) (sectors_at f lba n)) = f (lba + Z.of_nat k).
Proof.
  intros Hf. revert lba k. induction n as [|n IH]; intros lba k Hk; [lia|]. simpl sectors_at. destruct k as [|k].
  - rewrite Nat.mul_0_r, drop_0, Z.add_0_r. rewrite take_app_le by (rewrite Hf; lia). apply take_ge. by rewrite Hf.
  - rewrite drop_app_ge by (rewrite Hf; lia). rewrite Hf. replace (512 * S k - 512)%nat with (512 * k)%nat by lia.
    rewrite IH by lia. f_equal. lia.
Qed.

Lemma sectors_at_lookup f lba n i : (∀ x, length (f x) = 512%nat) → (i < 512 * n)%nat →
  sectors_at f lba n !! i = f (lba + Z.of_nat i / 512) !! (i mod 512)%nat.
Proof.
  intros Hf. revert lba i. induction n as [|n IH]; intros lba i Hi; [lia|]. cbn [sectors_at].
  destruct (decide (i < 512)%nat) as [Hlt|Hge].
  - rewrite lookup_app_l by (rewrite Hf; lia). rewrite Z.div_small, Z.add_0_r, Nat.mod_small by lia. done.
  - rewrite lookup_app_r by (rewrite Hf; lia). rewrite Hf, IH by lia.
    replace (Z.of_nat i) with (Z.of_nat (i - 512) + 1 * 512) by lia. rewrite Z.div_add by lia. f_equal.
    + replace i with (i - 512 + 1 * 512)%nat at 2 by lia. by rewrite Nat.Div0.mod_add.
    + f_equal. lia.
Qed.
