(* ===== verification/Fat16.v ===== *)
(** * The FAT16 file system ([src/src/fs/fat16.c])

    The file system over a block device.  Sectors are lists of 512 bytes, a
    directory entry is the list of its 32 bytes, read and written at the offsets
    of the packed structures of the source.  The state holds the mounted volume,
    the open files, the cache of FAT sectors, the cache of directory names, the
    device and the kernel heap (the buffers of 4096 bytes).

    The array in which a long name is collected is not initialised: its elements
    are [option Z], and reading an element that was never stored is undefined.
    Loops over a cluster chain that the source does not bound have fuel for all
    65536 clusters; a chain that is longer has a cycle, and the call does not
    return ([None]). *)

From S2P Require Import Prelude CLib KHeap Pipe Vfs Disk.

(** ** Data *)

Definition FAT16_SECTOR_SIZE : Z := 512.
Definition FAT16_MAX_OPEN : nat := 16.
Definition FAT16_MAX_PATH : nat := 64.
Definition FAT16_ATTR_VOLUMEID : Z := 0x08.
Definition FAT16_ATTR_DIR : Z := 0x10.
Definition FAT16_ATTR_ARCHIVE : Z := 0x20.
Definition FAT16_ATTR_LFN : Z := 0x0F.
Definition FAT16_EOC : Z := 0xFFFF.
Definition O_CREAT : Z := 4.
Definition O_TRUNC : Z := 8.
Definition O_APPEND : Z := 0x10.
Definition FAT_CACHE_SIZE : nat := 8.
Definition RDCACHE_MAX : nat := 256.
Definition RDCACHE_NAME : nat := 64.

Record fat16_state_t : Type := mk_fat {
  mounted : bool;
  part_lba : Z;
  fat_start_lba : Z;
  root_start_lba : Z;
  data_start_lba : Z;
  root_dir_sectors : Z;
  total_sectors : Z;
  sectors_per_fat : Z;
  fat_count : Z;
  bytes_per_sector : Z;
  sectors_per_cluster : Z;
  root_entry_count : Z;
  cluster_count : Z
}.

Definition fat_zero : fat16_state_t := mk_fat false 0 0 0 0 0 0 0 0 0 0 0 0.

Record fat16_open_t : Type := mk_open {
  o_in_use : bool;
  o_flags : Z;
  o_first_cluster : Z;
  o_size : Z;
  o_pos : Z;
  o_attr : Z;
  o_dirent_lba : Z;
  o_dirent_off : Z
}.

Definition open_zero : fat16_open_t := mk_open false 0 0 0 0 0 0 0.

Definition set_o_cluster (c : Z) (f : fat16_open_t) : fat16_open_t :=
  mk_open (o_in_use f) (o_flags f) c (o_size f) (o_pos f) (o_attr f) (o_dirent_lba f) (o_dirent_off f).
Definition set_o_size (n : Z) (f : fat16_open_t) : fat16_open_t :=
  mk_open (o_in_use f) (o_flags f) (o_first_cluster f) n (o_pos f) (o_attr f) (o_dirent_lba f) (o_dirent_off f).
Definition set_o_pos (n : Z) (f : fat16_open_t) : fat16_open_t :=
  mk_open (o_in_use f) (o_flags f) (o_first_cluster f) (o_size f) n (o_attr f) (o_dirent_lba f) (o_dirent_off f).
Definition set_o_dirent (lba off : Z) (f : fat16_open_t) : fat16_open_t :=
  mk_open (o_in_use f) (o_flags f) (o_first_cluster f) (o_size f) (o_pos f) (o_attr f) lba off.

Record rdcache_t : Type := mk_rdcache { rd_path : list Z; rd_names : list (list Z); rd_valid : bool }.

Record fs_t (D H : Type) : Type := mk_fs {
  g_fat : fat16_state_t;
  g_open : list fat16_open_t;
  fat_cache : list (Z * list Z);
  fat_cache_next : nat;
  rdcache : rdcache_t;
  fs_disk : D;
  fs_heap : H
}.
Arguments mk_fs {D H}.
Arguments g_fat {D H}.
Arguments g_open {D H}.
Arguments fat_cache {D H}.
Arguments fat_cache_next {D H}.
Arguments rdcache {D H}.
Arguments fs_disk {D H}.
Arguments fs_heap {D H}.

(** ** Bytes, words and directory entries *)

Definition byte_at (l : list Z) (i : nat) : Z := default 0 (l !! i).
Definition read_u16 (l : list Z) (i : nat) : Z := byte_at l i + 256 * byte_at l (i + 1).
Definition read_u32 (l : list Z) (i : nat) : Z := read_u16 l i + 65536 * read_u16 l (i + 2).
Definition write_u16 (l : list Z) (i : nat) (v : Z) : list Z := splice l i [Z.land v 0xFF; Z.shiftr v 8].
Definition write_u32 (l : list Z) (i : nat) (v : Z) : list Z :=
  write_u16 (write_u16 l i (v mod 65536)) (i + 2) (v / 65536).

(** The fields of [fat16_dirent_t]. *)
Definition de_at (sec : list Z) (off : Z) : list Z := take 32 (drop (Z.to_nat off) sec).
Definition de_name (de : list Z) : list Z := take 11 de.
Definition de_attr (de : list Z) : Z := byte_at de 11.
Definition de_cluster (de : list Z) : Z := read_u16 de 26.
Definition de_size (de : list Z) : Z := read_u32 de 28.
Definition set_de_name (n : list Z) (de : list Z) : list Z := splice de 0 n.
Definition set_de_attr (a : Z) (de : list Z) : list Z := splice de 11 [a].
Definition set_de_cluster (c : Z) (de : list Z) : list Z := write_u16 de 26 c.
Definition set_de_size (n : Z) (de : list Z) : list Z := write_u32 de 28 n.

(** The entry at [off] is changed. *)
Definition upd_de (sec : list Z) (off : Z) (f : list Z → list Z) : list Z :=
  splice sec (Z.to_nat off) (f (de_at sec off)).

Definition DE_ZERO : list Z := replicate 32 0.

(** ** Names *)

Definition is_fat16_part_type (type : Z) : bool := (type =? 0x04) || (type =? 0x06) || (type =? 0x0E).

Definition upper_ascii (c : Z) : Z := if (97 <=? c) && (c <=? 122) then c - 32 else c.

Definition is_83_char (c : Z) : bool :=
  if (65 <=? c) && (c <=? 90) then true else
  if (48 <=? c) && (c <=? 57) then true else
  if (c =? 95) || (c =? 36) || (c =? 126) || (c =? 45) || (c =? 33) then true else false.

Fixpoint lfn_checksum_loop (l : list Z) (sum : Z) : Z :=
  match l with
  | [] => sum
  | b :: l => lfn_checksum_loop l (u8 ((if Z.land sum 1 =? 0 then 0 else 0x80) + Z.shiftr sum 1 + b))
  end.
Definition lfn_checksum (name83 : list Z) : Z := lfn_checksum_loop (take 11 name83) 0.

(** The characters taken from the UTF-16 field. *)
Fixpoint lfn_extract_chars (src : list Z) : list Z :=
  match src with
  | lo :: hi :: src =>
    if (lo =? 0xFF) && (hi =? 0xFF) then [] else
    if (lo =? 0) && (hi =? 0) then [] else lo :: lfn_extract_chars src
  | _ => []
  end.

(** The extension of the name: what follows the last dot. *)
Fixpoint last_dot (s : list Z) : option (list Z * list Z) :=
  match s with
  | [] => None
  | c :: s =>
    match last_dot s with
    | Some (b, e) => Some (c :: b, e)
    | None => if c =? 46 then Some ([], s) else None
    end
  end.

Fixpoint alias_base (s : list Z) (n : nat) : list Z :=
  match s, n with
  | [], _ | _, O => []
  | c :: s, S n' =>
    let c := upper_ascii c in
    if is_83_char c then c :: alias_base s n'
    else if negb (c =? 32) then 95 :: alias_base s n' else alias_base s n
  end.

Fixpoint alias_ext (s : list Z) (n : nat) : list Z :=
  match s, n with
  | [], _ | _, O => []
  | c :: s, S n' => let c := upper_ascii c in if is_83_char c then c :: alias_ext s n' else alias_ext s n
  end.

Definition pad_right (n : nat) (s : list Z) : list Z := take n (s ++ replicate n 32).

Definition fat16_make_short_alias (longname : list Z) (suffix_num : Z) : list Z :=
  let '(base, ext) := match last_dot longname with Some p => p | None => (longname, []) end in
  pad_right 8 (alias_base base 6 ++ [126; 48 + suffix_num]) ++ pad_right 3 (alias_ext ext 3).

(** The entry with sequence number [seq] of [lfn_count]. *)
Definition lfn_char (longname : list Z) (i : nat) : list Z :=
  if (i <? length longname)%nat then [chr longname i; 0]
  else if (i =? length longname)%nat then [0; 0] else [0xFF; 0xFF].

Definition lfn_field (longname : list Z) (start n : nat) : list Z :=
  concat (lfn_char longname <$> seq start n).

Definition lfn_entry (lfn_count seq : nat) (longname : list Z) (checksum : Z) : list Z :=
  let start := ((seq - 1) * 13)%nat in
  let seq_num := Z.of_nat seq in
  let seq_num := if (seq =? lfn_count)%nat then Z.lor seq_num 0x40 else seq_num in
  [u8 seq_num] ++ lfn_field longname start 5 ++ [FAT16_ATTR_LFN; 0; checksum] ++
  lfn_field longname (start + 5) 6 ++ [0; 0] ++ lfn_field longname (start + 11) 2.

(** The entries of sequence numbers [seq], ..., 1 are stored: number [i] at
    [start_off + (i - 1) * 32]. *)
Fixpoint lfn_write_entries (sec : list Z) (start_off : Z) (lfn_count seq : nat) (longname : list Z) (checksum : Z) : list Z :=
  match seq with
  | O => sec
  | S n =>
    lfn_write_entries (splice sec (Z.to_nat start_off + n * 32) (lfn_entry lfn_count seq longname checksum))
                      start_off lfn_count n longname checksum
  end.

Definition until_space (l : list Z) : list Z := take (match find_index (Z.eqb 32) l with Some i => i | None => length l end) l.

Definition fat16_dirent_name_to_string (de : list Z) : list Z :=
  let base := take 8 de in
  let ext := take 3 (drop 8 de) in
  until_space base ++ (if forallb (Z.eqb 32) ext then [] else 46 :: until_space ext).

(** The characters before the dot, or after it, as 8.3 characters. *)
Fixpoint to_83_chars (s : list Z) (stop : bool) : option (list Z * list Z) :=
  match s with
  | [] => Some ([], [])
  | c :: s' =>
    if stop && (c =? 46) then Some ([], s) else
    let u := upper_ascii c in
    if negb (is_83_char u) then None else '(l, r) ← to_83_chars s' stop; Some (u :: l, r)
  end.

(** [None] is the return of -1. *)
Definition fat16_name_to_83 (s : list Z) : option (list Z) :=
  '(base, rest) ← to_83_chars s true;
  if (8 <? length base)%nat || (length base =? 0)%nat then None else
  match rest with
  | [] => Some (pad_right 8 base ++ pad_right 3 [])
  | _ :: rest =>
    '(ext, _) ← to_83_chars rest false;
    if (3 <? length ext)%nat then None else Some (pad_right 8 base ++ pad_right 3 ext)
  end.

Section fat16.
Context {D H : Type} `{!BlockDev D} `{!KHeap H}.
Notation FS := (fs_t D H).

(** ** Access to the state *)

Definition with_fat (g : fat16_state_t) (s : FS) : FS :=
  mk_fs g (g_open s) (fat_cache s) (fat_cache_next s) (rdcache s) (fs_disk s) (fs_heap s).
Definition with_open (l : list fat16_open_t) (s : FS) : FS :=
  mk_fs (g_fat s) l (fat_cache s) (fat_cache_next s) (rdcache s) (fs_disk s) (fs_heap s).
Definition with_cache (l : list (Z * list Z)) (n : nat) (s : FS) : FS :=
  mk_fs (g_fat s) (g_open s) l n (rdcache s) (fs_disk s) (fs_heap s).
Definition with_rdcache (r : rdcache_t) (s : FS) : FS :=
  mk_fs (g_fat s) (g_open s) (fat_cache s) (fat_cache_next s) r (fs_disk s) (fs_heap s).
Definition with_disk (d : D) (s : FS) : FS :=
  mk_fs (g_fat s) (g_open s) (fat_cache s) (fat_cache_next s) (rdcache s) d (fs_heap s).
Definition with_heap (h : H) (s : FS) : FS :=
  mk_fs (g_fat s) (g_open s) (fat_cache s) (fat_cache_next s) (rdcache s) (fs_disk s) h.

Definition upd_open (h : nat) (f : fat16_open_t → fat16_open_t) : M FS unit := λ s,
  o ← g_open s !! h; Some (tt, with_open (<[h := f o]> (g_open s)) s).
Definition get_open (h : nat) : M FS fat16_open_t := λ s, o ← g_open s !! h; Some (o, s).

Definition ata_read (lba n : Z) : M FS (option (list Z)) := λ s,
  let '(o, d) := ata_pio_read lba n (fs_disk s) in Some (o, with_disk d s).
Definition ata_read_sector (lba : Z) : M FS (option (list Z)) := ata_read lba 1.
Definition ata_write_sector (lba : Z) (l : list Z) : M FS Z := λ s,
  let '(rc, d) := ata_pio_write lba l (fs_disk s) in Some (rc, with_disk d s).

(** The buffer of 4096 bytes of the functions that read in bulk. *)
Definition bulk_alloc : M FS (option Z) := λ s,
  let '(p, h) := kmalloc 4096 (fs_heap s) in Some (p, with_heap h s).
Definition bulk_free (p : Z) : M FS unit := modify (λ s, with_heap (kfree p (fs_heap s)) s).

(** ** The FAT *)

Definition fat_cache_invalidate : M FS unit :=
  modify (λ s, with_cache ((λ '(_, data), (0, data)) <$> fat_cache s) 0 s).

Definition fat_cache_get (lba : Z) : M FS (option (list Z)) :=
  s ← get;
  match find_index (λ e, e.1 =? lba) (fat_cache s) with
  | Some i => e ← lift (fat_cache s !! i); mret (Some e.2)
  | None =>
    let slot := fat_cache_next s in
    modify (with_cache (fat_cache s) ((slot + 1) mod FAT_CACHE_SIZE));;
    o ← ata_read_sector lba;
    match o with
    | None => mret None
    | Some sec => modify (λ s, with_cache (<[slot := (lba, sec)]> (fat_cache s)) (fat_cache_next s) s);; mret (Some sec)
    end
  end.

Definition fat_cache_evict (lba : Z) : M FS unit :=
  modify (λ s, with_cache ((λ '(l, data), (if l =? lba then 0 else l, data)) <$> fat_cache s) (fat_cache_next s) s).

Definition cluster_to_lba (g : fat16_state_t) (cluster : Z) : Z :=
  u32 (data_start_lba g + u32 (cluster - 2) * sectors_per_cluster g).

Definition fat16_get_entry (cluster : Z) : M FS Z :=
  s ← get;
  let fat_offset := cluster * 2 in
  let fat_sec := u32 (fat_start_lba (g_fat s) + fat_offset / FAT16_SECTOR_SIZE) in
  let ent_off := fat_offset mod FAT16_SECTOR_SIZE in
  o ← fat_cache_get fat_sec;
  match o with
  | None => mret FAT16_EOC
  | Some sec => mret (read_u16 sec (Z.to_nat ent_off))
  end.

(** The copies of the FAT from number [fat_i] on. *)
Fixpoint set_entry_loop (n : nat) (fat_i fat_rel_sec ent_off value : Z) : M FS Z :=
  match n with
  | O => mret 0
  | S n =>
    s ← get;
    let fat_sec := u32 (fat_start_lba (g_fat s) + fat_i * sectors_per_fat (g_fat s) + fat_rel_sec) in
    o ← ata_read_sector fat_sec;
    match o with
    | None => mret (-1)
    | Some sec =>
      rc ← ata_write_sector fat_sec (write_u16 sec (Z.to_nat ent_off) value);
      if rc <? 0 then mret (-1) else
      fat_cache_evict fat_sec;; set_entry_loop n (fat_i + 1) fat_rel_sec ent_off value
    end
  end.

Definition fat16_set_entry (cluster value : Z) : M FS Z :=
  s ← get;
  let fat_offset := cluster * 2 in
  set_entry_loop (Z.to_nat (fat_count (g_fat s))) 0 (fat_offset / FAT16_SECTOR_SIZE) (fat_offset mod FAT16_SECTOR_SIZE) value.

Fixpoint zero_sectors (n : nat) (lba : Z) : M FS Z :=
  match n with
  | O => mret 0
  | S n => rc ← ata_write_sector lba ZERO_SECTOR; if rc <? 0 then mret (-1) else zero_sectors n (u32 (lba + 1))
  end.

(** [None] is the return of -1. *)
Fixpoint alloc_loop (n : nat) (c : Z) : M FS (option Z) :=
  match n with
  | O => mret None
  | S n =>
    v ← fat16_get_entry c;
    if v =? 0 then
      rc ← fat16_set_entry c FAT16_EOC;
      if rc <? 0 then mret None else
      s ← get;
      rc ← zero_sectors (Z.to_nat (sectors_per_cluster (g_fat s))) (cluster_to_lba (g_fat s) c);
      if rc <? 0 then mret None else mret (Some c)
    else alloc_loop n (c + 1)
  end.

Definition fat16_alloc_cluster : M FS (option Z) :=
  s ← get; alloc_loop (Z.to_nat (cluster_count (g_fat s))) 2.

(** A cluster number inside a chain. *)
Definition in_chain (c : Z) : bool := (2 <=? c) && (c <? 0xFFF8).

Fixpoint free_loop (n : nat) (c : Z) : M FS Z :=
  match n with
  | O => mret 0
  | S n =>
    if negb (in_chain c) then mret 0 else
    next ← fat16_get_entry c;
    rc ← fat16_set_entry c 0;
    if rc <? 0 then mret (-1) else
    if next =? c then mret 0 else free_loop n next
  end.

Definition fat16_free_chain (first : Z) : M FS Z :=
  s ← get; free_loop (Z.to_nat (cluster_count (g_fat s) + 2)) first.

Fixpoint ensure_loop (n : nat) (c : Z) : M FS (option Z) :=
  match n with
  | O => mret (Some c)
  | S n =>
    next ← fat16_get_entry c;
    if (0xFFF8 <=? next) || (next <? 2) then
      o ← fat16_alloc_cluster;
      match o with
      | None => mret None
      | Some m =>
        rc ← fat16_set_entry c m;
        if rc <? 0 then mret None else
        rc ← fat16_set_entry m FAT16_EOC;
        if rc <? 0 then mret None else ensure_loop n m
      end
    else ensure_loop n next
  end.

Definition fat16_ensure_cluster_for_index (h : nat) (idx : Z) : M FS (option Z) :=
  f ← get_open h;
  if o_first_cluster f <? 2 then
    o ← fat16_alloc_cluster;
    match o with
    | None => mret None
    | Some n => upd_open h (set_o_cluster n);; ensure_loop (Z.to_nat idx) n
    end
  else ensure_loop (Z.to_nat idx) (o_first_cluster f).

(** ** Directories *)

(** The state of a scan: the free slot (address 0 when there is none), the long
    name being collected and its number of entries. *)
Record scan_t : Type := mk_scan { sc_free_lba : Z; sc_free_off : Z; sc_lfn : list (option Z); sc_seq : Z }.

Definition lfn_buf0 : list (option Z) := Some 0 :: replicate (RDCACHE_NAME - 1) None.

Fixpoint store_chunk (buf : list (option Z)) (i : Z) (chunk : list Z) : option (list (option Z)) :=
  match chunk with
  | [] => Some buf
  | c :: chunk =>
    if i <? Z.of_nat RDCACHE_NAME - 1 then buf ← zupdate buf i (Some c); store_chunk buf (i + 1) chunk
    else Some buf
  end.

Definition lfn_accumulate (de : list Z) (buf : list (option Z)) (pseq : Z) : option (list (option Z) * Z) :=
  let b := byte_at de 0 in
  let seq := Z.land b 0x3F in
  let last := negb (Z.land b 0x40 =? 0) in
  let pseq := if last then seq else pseq in
  buf ← (if last then zupdate buf 0 (Some 0) else Some buf);
  let chunk := lfn_extract_chars (take 10 (drop 1 de)) ++ lfn_extract_chars (take 12 (drop 14 de)) ++
               lfn_extract_chars (take 4 (drop 28 de)) in
  buf ← store_chunk buf ((seq - 1) * 13) chunk;
  let total := pseq * 13 in
  buf ← zupdate buf (if total <? Z.of_nat RDCACHE_NAME then total else Z.of_nat RDCACHE_NAME - 1) (Some 0);
  Some (buf, pseq).

Definition lfn_reset (st : scan_t) : scan_t :=
  mk_scan (sc_free_lba st) (sc_free_off st) (<[0%nat := Some 0]> (sc_lfn st)) 0.

Definition lfn_nonempty (buf : list (option Z)) : option bool :=
  x ← buf !! 0%nat; c ← x; Some (negb (c =? 0)).

(** [strcmp(pending_lfn, longname) == 0] *)
Fixpoint lfn_equal (buf : list (option Z)) (s : list Z) : option bool :=
  match buf with
  | [] => None
  | x :: buf =>
    c ← x;
    match s with
    | [] => Some (c =? 0)
    | d :: s => if (c =? d) && negb (c =? 0) then lfn_equal buf s else Some false
    end
  end.

(** The string in the buffer. *)
Fixpoint lfn_string (buf : list (option Z)) : option (list Z) :=
  match buf with
  | [] => None
  | x :: buf => c ← x; if c =? 0 then Some [] else s ← lfn_string buf; Some (c :: s)
  end.

Inductive scan_res := Found (de : list Z) (lba off : Z) | EndOfDir | KeepScanning.

Definition note_free (lba off : Z) (st : scan_t) : scan_t :=
  if sc_free_lba st =? 0 then mk_scan lba off (sc_lfn st) (sc_seq st) else st.

(** The entries of the sector from [off] on. *)
Fixpoint scan_entries (n : nat) (sec : list Z) (lba off : Z) (name83 : list Z) (longname : option (list Z)) (st : scan_t)
    : option (scan_res * scan_t) :=
  match n with
  | O => Some (KeepScanning, st)
  | S n =>
    let de := de_at sec off in
    let next := scan_entries n sec lba (off + 32) name83 longname in
    if byte_at de 0 =? 0 then Some (EndOfDir, note_free lba off st) else
    if byte_at de 0 =? 0xE5 then next (note_free lba off (lfn_reset st)) else
    if de_attr de =? FAT16_ATTR_LFN then
      '(buf, seq) ← lfn_accumulate de (sc_lfn st) (sc_seq st);
      next (mk_scan (sc_free_lba st) (sc_free_off st) buf seq)
    else if negb (Z.land (de_attr de) FAT16_ATTR_VOLUMEID =? 0) then next (lfn_reset st) else
    matched ← (if bool_decide (de_name de = name83) then Some true else
               match longname with
               | None => Some false
               | Some s => ne ← lfn_nonempty (sc_lfn st); if (ne : bool) then lfn_equal (sc_lfn st) s else Some false
               end);
    if (matched : bool) then Some (Found de lba off, lfn_reset st) else next (lfn_reset st)
  end.

Definition fat16_scan_dir_sector (sec : list Z) (lba : Z) (name83 : list Z) (longname : option (list Z)) (st : scan_t)
    : option (scan_res * scan_t) :=
  scan_entries 16 sec lba 0 name83 longname st.

(** The sectors of a buffer, the first of which is sector [lba]. *)
Fixpoint scan_sectors (n : nat) (bulk : list Z) (lba : Z) (name83 : list Z) (longname : option (list Z)) (st : scan_t)
    : option (scan_res * scan_t) :=
  match n with
  | O => Some (KeepScanning, st)
  | S n =>
    '(r, st) ← fat16_scan_dir_sector (take 512 bulk) lba name83 longname st;
    match r with
    | KeepScanning => scan_sectors n (drop 512 bulk) (u32 (lba + 1)) name83 longname st
    | _ => Some (r, st)
    end
  end.

(** One sector at a time. *)
Fixpoint scan_singly (n : nat) (lba : Z) (name83 : list Z) (longname : option (list Z)) (st : scan_t)
    : M FS (scan_res * scan_t) :=
  match n with
  | O => mret (KeepScanning, st)
  | S n =>
    o ← ata_read_sector lba;
    match o with
    | None => mret (EndOfDir, st)
    | Some sec =>
      '(r, st) ← lift (fat16_scan_dir_sector sec lba name83 longname st);
      match r with
      | KeepScanning => scan_singly n (u32 (lba + 1)) name83 longname st
      | _ => mret (r, st)
      end
    end
  end.

(** The fixed region of the root directory, in batches of eight sectors. *)
Fixpoint lookup_root (fuel : nat) (s : Z) (name83 : list Z) (longname : option (list Z)) (st : scan_t)
    : M FS (scan_res * scan_t) :=
  match fuel with
  | O => ub
  | S fuel =>
    fs ← get;
    let g := g_fat fs in
    if root_dir_sectors g <=? s then mret (KeepScanning, st) else
    let batch := Z.min (root_dir_sectors g - s) 8 in
    let base_lba := u32 (root_start_lba g + s) in
    o ← ata_read base_lba batch;
    match o with
    | None => mret (EndOfDir, st)
    | Some bulk =>
      '(r, st) ← lift (scan_sectors (Z.to_nat batch) bulk base_lba name83 longname st);
      match r with
      | KeepScanning => lookup_root fuel (s + batch) name83 longname st
      | _ => mret (r, st)
      end
    end
  end.

(** A cluster of a directory: in one transfer, or by sectors when it is larger than
    the buffer. *)
Definition scan_cluster (spc base_lba : Z) (name83 : list Z) (longname : option (list Z)) (st : scan_t)
    : M FS (scan_res * scan_t) :=
  if spc <=? 8 then
    o ← ata_read base_lba spc;
    match o with
    | None => mret (EndOfDir, st)
    | Some bulk => lift (scan_sectors (Z.to_nat spc) bulk base_lba name83 longname st)
    end
  else scan_singly (Z.to_nat spc) base_lba name83 longname st.

(** The cluster chain of a directory. *)
Definition CHAIN_FUEL : nat := Z.to_nat 65537.

Fixpoint lookup_chain (fuel : nat) (cl : Z) (name83 : list Z) (longname : option (list Z)) (st : scan_t)
    : M FS (scan_res * scan_t) :=
  match fuel with
  | O => ub
  | S fuel =>
    if negb (in_chain cl) then mret (KeepScanning, st) else
    fs ← get;
    let g := g_fat fs in
    let base_lba := cluster_to_lba g cl in
    let spc := sectors_per_cluster g in
    '(r, st) ← scan_cluster spc base_lba name83 longname st;
    match r with
    | KeepScanning => next ← fat16_get_entry cl; lookup_chain fuel next name83 longname st
    | _ => mret (r, st)
    end
  end.

(** The entry found, if any, and the first free slot. *)
Definition fat16_lookup_in_dir (dir : Z) (name83 : list Z) (longname : option (list Z))
    : M FS (option (list Z * Z * Z) * (Z * Z)) :=
  s ← get;
  if negb (mounted (g_fat s)) then mret (None, (0, 0)) else
  b ← bulk_alloc;
  match b with
  | None => mret (None, (0, 0))
  | Some p =>
    let st := mk_scan 0 0 lfn_buf0 0 in
    '(r, st) ← (if dir =? 0 then lookup_root (S (Z.to_nat (root_dir_sectors (g_fat s)))) 0 name83 longname st
                else lookup_chain CHAIN_FUEL dir name83 longname st);
    bulk_free p;;
    mret (match r with Found de lba off => Some (de, lba, off) | _ => None end, (sc_free_lba st, sc_free_off st))
  end.

(** ** Paths *)

Fixpoint skip_slashes (p : list Z) : list Z :=
  match p with c :: p' => if c =? 47 then skip_slashes p' else p | [] => [] end.

(** The component at the start of a path and the rest. *)
Fixpoint first_component (p : list Z) : list Z * list Z :=
  match p with
  | [] => ([], [])
  | c :: p' => if c =? 47 then ([], p) else let '(a, r) := first_component p' in (c :: a, r)
  end.

(** What [fat16_resolve_path] leaves in its output arguments; [r_parent] and
    [r_name83] are [None] when they are not stored to. *)
Record resolved_t : Type := mk_res {
  r_rc : Z;
  r_parent : option Z;
  r_name83 : option (list Z);
  r_entry : option (list Z * Z * Z);
  r_free_lba : Z;
  r_free_off : Z
}.

Definition unresolved (rc : Z) : resolved_t := mk_res rc None None None 0 0.

(** From the directory [cur_dir] on; [path] does not start with a slash. *)
Fixpoint resolve_loop (fuel : nat) (path : list Z) (cur_dir : Z) : M FS resolved_t :=
  match fuel with
  | O => ub
  | S fuel =>
    let '(comp, end_) := first_component path in
    if (RDCACHE_NAME <=? length comp)%nat then mret (unresolved (-1)) else
    let c83_ok := fat16_name_to_83 comp in
    let c83 := default (replicate 11 0) c83_ok in
    let rest := skip_slashes end_ in
    match rest with
    | [] =>
      '(e, (free_lba, free_off)) ← fat16_lookup_in_dir cur_dir c83 (Some comp);
      mret (mk_res (match e with Some _ => 0 | None => -1 end) (Some cur_dir)
                   (Some (default (replicate 11 32) c83_ok)) e free_lba free_off)
    | _ =>
      '(e, _) ← fat16_lookup_in_dir cur_dir c83 (Some comp);
      match e with
      | None => mret (unresolved (-1))
      | Some (de, _, _) =>
        if Z.land (de_attr de) FAT16_ATTR_DIR =? 0 then mret (unresolved (-1))
        else resolve_loop fuel rest (de_cluster de)
      end
    end
  end.

Definition fat16_resolve_path (path : list Z) : M FS resolved_t :=
  s ← get;
  if negb (mounted (g_fat s)) then mret (unresolved (-1)) else
  match skip_slashes path with
  | [] => mret (unresolved (-2))
  | p => resolve_loop (S (length p)) p 0
  end.

(** [None] is the return of -1. *)
Definition fat16_resolve_dir (path : list Z) : M FS (option Z) :=
  s ← get;
  if negb (mounted (g_fat s)) then mret None else
  match skip_slashes path with
  | [] => mret (Some 0)
  | _ =>
    r ← fat16_resolve_path path;
    if r_rc r =? -2 then mret (Some 0) else
    match r_entry r with
    | Some (de, _, _) =>
      if (r_rc r <? 0) || (Z.land (de_attr de) FAT16_ATTR_DIR =? 0) then mret None else mret (Some (de_cluster de))
    | None => mret None
    end
  end.

(** ** Files *)

(** A sector is read, changed and written back; -1 when either fails. *)
Definition rmw_sector (lba : Z) (f : list Z → list Z) : M FS Z :=
  o ← ata_read_sector lba;
  match o with None => mret (-1) | Some sec => ata_write_sector lba (f sec) end.

Definition fat16_update_dirent (h : nat) : M FS Z :=
  f ← get_open h;
  if o_dirent_lba f =? 0 then mret (-1) else
  rc ← rmw_sector (o_dirent_lba f) (λ sec, upd_de sec (o_dirent_off f) (λ de,
         set_de_attr (o_attr f) (set_de_size (o_size f) (set_de_cluster (o_first_cluster f) de))));
  mret (if rc <? 0 then -1 else 0).

(** The first [skip] links of a chain are followed; [None] is the return of 0. *)
Fixpoint skip_clusters (n : nat) (cl : Z) : M FS (option Z) :=
  match n with
  | O => mret (Some cl)
  | S n =>
    next ← fat16_get_entry cl;
    if (0xFFF8 <=? next) || (next =? FAT16_EOC) || (next <? 2) then mret None else skip_clusters n next
  end.

(** The sectors of a cluster from number [s] on, one at a time: the bytes
    appended, and whether a read failed. *)
Fixpoint read_singly (n : nat) (s lba in_cluster len : Z) (out : list Z) : M FS (list Z * bool) :=
  match n with
  | O => mret (out, false)
  | S n =>
    let done := Z.of_nat (length out) in
    if negb (done <? len) then mret (out, false) else
    let sector_off := s * FAT16_SECTOR_SIZE in
    if sector_off + FAT16_SECTOR_SIZE <=? in_cluster then read_singly n (s + 1) lba in_cluster len out else
    o ← ata_read_sector (u32 (lba + s));
    match o with
    | None => mret (out, true)
    | Some sec =>
      let start := if sector_off <? in_cluster then in_cluster - sector_off else 0 in
      let avail := FAT16_SECTOR_SIZE - start in
      let need := len - done in
      let n_take := if avail <? need then avail else need in
      read_singly n (s + 1) lba in_cluster len (out ++ take (Z.to_nat n_take) (drop (Z.to_nat start) sec))
    end
  end.

(** The bytes of one cluster: in one transfer with a buffer, or by sectors. *)
Definition read_cluster (can_bulk : bool) (spc lba in_cluster len : Z) (out : list Z) : M FS (list Z * bool) :=
  let done := Z.of_nat (length out) in
  let cluster_size := spc * FAT16_SECTOR_SIZE in
  if can_bulk && (in_cluster =? 0) && (cluster_size <=? len - done) then
    o ← ata_read lba spc;
    match o with None => mret (out, true) | Some bytes => mret (out ++ bytes, false) end
  else if can_bulk then
    o ← ata_read lba spc;
    match o with
    | None => mret (out, true)
    | Some bytes =>
      let avail := cluster_size - in_cluster in
      let need := len - done in
      let n_take := if avail <? need then avail else need in
      mret (out ++ take (Z.to_nat n_take) (drop (Z.to_nat in_cluster) bytes), false)
    end
  else read_singly (Z.to_nat spc) 0 lba in_cluster len out.

(** The clusters from [cl] on; [out] are the bytes read so far. *)
Fixpoint read_loop (fuel : nat) (can_bulk : bool) (cl in_cluster len : Z) (out : list Z) : M FS (list Z) :=
  match fuel with
  | O => ub
  | S fuel =>
    if negb (Z.of_nat (length out) <? len) || negb (in_chain cl) then mret out else
    s ← get;
    '(out, stop) ← read_cluster can_bulk (sectors_per_cluster (g_fat s)) (cluster_to_lba (g_fat s) cl) in_cluster len out;
    if (stop : bool) then mret out else
    next ← fat16_get_entry cl;
    read_loop fuel can_bulk next 0 len out
  end.

Definition fat16_read_file (first_cluster pos len : Z) : M FS (list Z) :=
  if (len =? 0) || (first_cluster <? 2) then mret [] else
  s ← get;
  let spc := sectors_per_cluster (g_fat s) in
  let cluster_size := spc * FAT16_SECTOR_SIZE in
  cl ← skip_clusters (Z.to_nat (pos / cluster_size)) first_cluster;
  match cl with
  | None => mret []
  | Some cl =>
    b ← (if spc <=? 8 then bulk_alloc else mret None);
    out ← read_loop (Z.to_nat (len / FAT16_SECTOR_SIZE + 3)) (match b with Some _ => true | None => false end)
                    cl (pos mod cluster_size) len [];
    match b with Some p => bulk_free p | None => mret tt end;;
    mret out
  end.

(** ** The operations of the file system: files *)

Definition rdcache_invalidate : M FS unit :=
  modify (λ s, with_rdcache (mk_rdcache (rd_path (rdcache s)) (rd_names (rdcache s)) false) s).

(** What follows the last slash. *)
Fixpoint last_component (p cur : list Z) : list Z :=
  match p with [] => cur | c :: p => if c =? 47 then last_component p p else last_component p cur end.

(** The first alias from number [suffix] on that is not in use; [None] after
    nine. *)
Fixpoint find_alias (n : nat) (suffix : Z) (dir : Z) (fname : list Z) : M FS (option (list Z)) :=
  match n with
  | O => mret None
  | S n =>
    let name := fat16_make_short_alias fname suffix in
    '(e, _) ← fat16_lookup_in_dir dir name None;
    match e with None => mret (Some name) | Some _ => find_alias n (suffix + 1) dir fname end
  end.

Definition lfn_count_for (fname : list Z) : nat := ((length fname + 12) / 13)%nat.

(** The short entry [de] named [name83], with its long name before it where both
    fit in the sector: the new sector and the offset of the short entry. *)
Definition put_entry (sec : list Z) (off : Z) (fname name83 de : list Z) : list Z * Z :=
  let n := lfn_count_for fname in
  if off + (Z.of_nat n + 1) * 32 <=? FAT16_SECTOR_SIZE then
    let short_off := off + Z.of_nat n * 32 in
    let sec := lfn_write_entries sec off n n fname (lfn_checksum name83) in
    (splice sec (Z.to_nat short_off) (set_de_name name83 de), short_off)
  else (splice sec (Z.to_nat off) (set_de_name name83 de), off).

(** A new file: its entry and where it is; [None] is the return of -1. *)
Definition create_entry (path : list Z) (r : resolved_t) : M FS (option (list Z * Z * Z)) :=
  rdcache_invalidate;;
  let fname := last_component path path in
  let fresh := set_de_attr FAT16_ATTR_ARCHIVE DE_ZERO in
  let free_lba := r_free_lba r in
  let free_off := r_free_off r in
  match fat16_name_to_83 fname with
  | None =>
    parent ← lift (r_parent r);
    a ← find_alias 9 1 parent fname;
    match a with
    | None => mret None
    | Some name83 =>
      o ← ata_read_sector free_lba;
      match o with
      | None => mret None
      | Some sec =>
        let '(sec, off) := put_entry sec free_off fname name83 fresh in
        rc ← ata_write_sector free_lba sec;
        if rc <? 0 then mret None else mret (Some (de_at sec off, free_lba, off))
      end
    end
  | Some name83 =>
    o ← ata_read_sector free_lba;
    match o with
    | None => mret None
    | Some sec =>
      let sec := splice sec (Z.to_nat free_off) (set_de_name name83 fresh) in
      rc ← ata_write_sector free_lba sec;
      if rc <? 0 then mret None else mret (Some (de_at sec free_off, free_lba, free_off))
    end
  end.

(** The file is cut to length 0; [None] is the return of -1. *)
Definition truncate_entry (de : list Z) (lba off : Z) : M FS (option (list Z)) :=
  rc ← (if 2 <=? de_cluster de then fat16_free_chain (de_cluster de) else mret 0);
  if rc <? 0 then mret None else
  rc ← rmw_sector lba (λ sec, upd_de sec off (λ de, set_de_size 0 (set_de_cluster 0 de)));
  if rc <? 0 then mret None else mret (Some (set_de_size 0 (set_de_cluster 0 de))).

Definition fat16_vfs_open (path : list Z) (flags : Z) : M FS Z :=
  s ← get;
  if negb (mounted (g_fat s)) then mret (-1) else
  let access := Z.land flags 3 in
  if negb ((access =? O_RDONLY) || (access =? O_WRONLY) || (access =? O_RDWR)) then mret (-1) else
  r ← fat16_resolve_path path;
  if r_rc r =? -2 then mret (-1) else
  e ← (match r_entry r with
       | Some e => mret (Some e)
       | None =>
         if Z.land flags O_CREAT =? 0 then mret None else
         if r_free_lba r =? 0 then mret None else create_entry path r
       end);
  match e with
  | None => mret (-1)
  | Some (de, lba, off) =>
    if negb (Z.land (de_attr de) FAT16_ATTR_DIR =? 0) then mret (-1) else
    o ← (if negb (Z.land flags O_TRUNC =? 0) && negb (access =? O_RDONLY) then truncate_entry de lba off
         else mret (Some de));
    match o with
    | None => mret (-1)
    | Some de =>
      s ← get;
      match find_index (λ f, negb (o_in_use f)) (g_open s) with
      | None => mret (-1)
      | Some h =>
        modify (with_open (<[h := mk_open true flags (de_cluster de) (de_size de) 0 (de_attr de) lba off]> (g_open s)));;
        mret (Z.of_nat h)
      end
    end
  end.

(** The checks of the calls that take a handle. *)
Definition open_handle (handle : Z) (s : FS) : option nat :=
  if (handle <? 0) || (Z.of_nat FAT16_MAX_OPEN <=? handle) then None else
  f ← g_open s !! Z.to_nat handle; if o_in_use f then Some (Z.to_nat handle) else None.

Definition fat16_vfs_read (handle len : Z) : M FS (Z * list Z) :=
  s ← get;
  if negb (mounted (g_fat s)) then mret (-1, []) else
  match open_handle handle s with
  | None => mret (-1, [])
  | Some h =>
    f ← get_open h;
    if Z.land (o_flags f) 3 =? O_WRONLY then mret (-1, []) else
    if o_size f <=? o_pos f then mret (0, []) else
    let remain := o_size f - o_pos f in
    let len := if remain <? len then remain else len in
    out ← fat16_read_file (o_first_cluster f) (o_pos f) len;
    let n := Z.of_nat (length out) in
    (if 0 <? n then upd_open h (set_o_pos (u32 (o_pos f + n))) else mret tt);;
    mret (s32 n, out)
  end.

(** The rest of the buffer is written at [pos + done]; the number of bytes
    written. *)
Fixpoint write_loop (fuel : nat) (h : nat) (pos done : Z) (buf : list Z) : M FS Z :=
  match fuel with
  | O => ub
  | S fuel =>
    match buf with
    | [] => mret done
    | _ =>
      s ← get;
      let cluster_size := sectors_per_cluster (g_fat s) * FAT16_SECTOR_SIZE in
      let abs_pos := u32 (pos + done) in
      o ← fat16_ensure_cluster_for_index h (abs_pos / cluster_size);
      match o with
      | None => mret done
      | Some cl =>
        let in_cl := abs_pos mod cluster_size in
        let sec_off := in_cl mod FAT16_SECTOR_SIZE in
        let lba := u32 (cluster_to_lba (g_fat s) cl + in_cl / FAT16_SECTOR_SIZE) in
        o ← ata_read_sector lba;
        match o with
        | None => mret done
        | Some sec =>
          let space := FAT16_SECTOR_SIZE - sec_off in
          let need := Z.of_nat (length buf) in
          let n_take := Z.to_nat (if space <? need then space else need) in
          rc ← ata_write_sector lba (splice sec (Z.to_nat sec_off) (take n_take buf));
          if rc <? 0 then mret done
          else write_loop fuel h pos (done + Z.of_nat n_take) (drop n_take buf)
        end
      end
    end
  end.

Definition fat16_vfs_write (handle : Z) (buf : list Z) : M FS Z :=
  s ← get;
  if negb (mounted (g_fat s)) then mret (-1) else
  match open_handle handle s with
  | None => mret (-1)
  | Some h =>
    f ← get_open h;
    if Z.land (o_flags f) 3 =? O_RDONLY then mret (-1) else
    if (length buf =? 0)%nat then mret 0 else
    (if Z.land (o_flags f) O_APPEND =? 0 then mret tt else upd_open h (set_o_pos (o_size f)));;
    f ← get_open h;
    done ← write_loop (length buf + 1) h (o_pos f) 0 buf;
    f ← get_open h;
    let pos := u32 (o_pos f + done) in
    upd_open h (λ f, set_o_size (if o_size f <? pos then pos else o_size f) (set_o_pos pos f));;
    (if 0 <? done then fat16_update_dirent h;; mret tt else mret tt);;
    mret (s32 done)
  end.

Definition fat16_vfs_close (handle : Z) : M FS Z :=
  s ← get;
  match open_handle handle s with
  | None => mret (-1)
  | Some h => upd_open h (λ _, open_zero);; mret 0
  end.

Definition fat16_vfs_seek (handle offset whence : Z) : M FS Z :=
  s ← get;
  match open_handle handle s with
  | None => mret (-1)
  | Some h =>
    f ← get_open h;
    let base := if whence =? SEEK_SET then Some 0 else if whence =? SEEK_CUR then Some (s32 (o_pos f))
                else if whence =? SEEK_END then Some (s32 (o_size f)) else None in
    match base with
    | None => mret (-1)
    | Some b =>
      if negb (bool_decide (is_s32 (b + offset))) then ub else
      let pos := Z.max (b + offset) 0 in
      let pos := if o_size f <? pos then s32 (o_size f) else pos in
      upd_open h (set_o_pos (u32 pos));; mret pos
    end
  end.

Definition fat16_vfs_stat (path : list Z) : M FS (Z * vfs_stat_t) :=
  s ← get;
  let none := mk_stat 0 0 in
  if negb (mounted (g_fat s)) then mret (-1, none) else
  match skip_slashes path with
  | [] => mret (0, mk_stat 0 VFS_DIR)
  | _ =>
    r ← fat16_resolve_path path;
    if r_rc r =? -2 then mret (0, mk_stat 0 VFS_DIR) else
    match r_entry r with
    | None => mret (-1, none)
    | Some (de, _, _) =>
      mret (0, mk_stat (de_size de) (if Z.land (de_attr de) FAT16_ATTR_DIR =? 0 then VFS_FILE else VFS_DIR))
    end
  end.

(** ** Directory listing *)

(** The names collected, the long name being collected, and whether the end of
    the directory was reached. *)
Record fill_t : Type := mk_fill { fl_names : list (list Z); fl_lfn : list (option Z); fl_seq : Z }.

Definition fill_reset (f : fill_t) : fill_t := mk_fill (fl_names f) (<[0%nat := Some 0]> (fl_lfn f)) 0.

(** [RDCACHE_ADD] *)
Definition rdcache_add (de : list Z) (f : fill_t) : option fill_t :=
  names ← (if (length (fl_names f) <? RDCACHE_MAX)%nat then
             ne ← lfn_nonempty (fl_lfn f);
             name ← (if (ne : bool) then lfn_string (fl_lfn f) else Some (fat16_dirent_name_to_string de));
             Some (fl_names f ++ [name])
           else Some (fl_names f));
  Some (fill_reset (mk_fill names (fl_lfn f) (fl_seq f))).

(** ["."] and [".."] *)
Definition is_dot_entry (de : list Z) : bool :=
  (byte_at de 0 =? 46) && ((byte_at de 1 =? 32) || (byte_at de 1 =? 46) && (byte_at de 2 =? 32)).

(** The entries of a sector; [true] is the end of the directory. *)
Fixpoint fill_entries (n : nat) (sec : list Z) (off : Z) (is_subdir : bool) (f : fill_t) : option (fill_t * bool) :=
  match n with
  | O => Some (f, false)
  | S n =>
    let de := de_at sec off in
    let next := fill_entries n sec (off + 32) is_subdir in
    if byte_at de 0 =? 0 then Some (f, true) else
    if byte_at de 0 =? 0xE5 then next (fill_reset f) else
    if de_attr de =? FAT16_ATTR_LFN then
      '(buf, seq) ← lfn_accumulate de (fl_lfn f) (fl_seq f);
      next (mk_fill (fl_names f) buf seq)
    else if negb (Z.land (de_attr de) FAT16_ATTR_VOLUMEID =? 0) then next (fill_reset f) else
    if is_subdir && is_dot_entry de then next (mk_fill (fl_names f) (<[0%nat := Some 0]> (fl_lfn f)) (fl_seq f)) else
    f ← rdcache_add de f; next f
  end.

Fixpoint fill_sectors (n : nat) (bulk : list Z) (is_subdir : bool) (f : fill_t) : option (fill_t * bool) :=
  match n with
  | O => Some (f, false)
  | S n =>
    '(f, e) ← fill_entries 16 (take 512 bulk) 0 is_subdir f;
    if (e : bool) then Some (f, true) else fill_sectors n (drop 512 bulk) is_subdir f
  end.

Fixpoint fill_singly (n : nat) (lba : Z) (f : fill_t) : M FS (fill_t * bool) :=
  match n with
  | O => mret (f, false)
  | S n =>
    o ← ata_read_sector lba;
    match o with
    | None => mret (f, true)
    | Some sec =>
      '(f, e) ← lift (fill_entries 16 sec 0 true f);
      if (e : bool) then mret (f, true) else fill_singly n (u32 (lba + 1)) f
    end
  end.

Fixpoint fill_root (fuel : nat) (s : Z) (f : fill_t) : M FS fill_t :=
  match fuel with
  | O => ub
  | S fuel =>
    fs ← get;
    let g := g_fat fs in
    if (root_dir_sectors g <=? s) || (RDCACHE_MAX <=? length (fl_names f))%nat then mret f else
    let batch := Z.min (root_dir_sectors g - s) 8 in
    o ← ata_read (u32 (root_start_lba g + s)) batch;
    match o with
    | None => mret f
    | Some bulk =>
      '(f, e) ← lift (fill_sectors (Z.to_nat batch) bulk false f);
      if (e : bool) then mret f else fill_root fuel (s + batch) f
    end
  end.

Fixpoint fill_chain (fuel : nat) (cl : Z) (f : fill_t) : M FS fill_t :=
  match fuel with
  | O => ub
  | S fuel =>
    if negb (in_chain cl) || (RDCACHE_MAX <=? length (fl_names f))%nat then mret f else
    fs ← get;
    let g := g_fat fs in
    let spc := sectors_per_cluster g in
    let base_lba := cluster_to_lba g cl in
    '(f, e) ← (if spc <=? 8 then
                 o ← ata_read base_lba spc;
                 match o with
                 | None => mret (f, true)
                 | Some bulk => lift (fill_sectors (Z.to_nat spc) bulk true f)
                 end
               else fill_singly (Z.to_nat spc) base_lba f);
    if (e : bool) then mret f else next ← fat16_get_entry cl; fill_chain fuel next f
  end.

Definition fat16_readdir_fill_cache (path : list Z) (dir : Z) : M FS unit :=
  let rpath := take (FAT16_MAX_PATH - 1) path in
  modify (with_rdcache (mk_rdcache rpath [] false));;
  b ← bulk_alloc;
  match b with
  | None => mret tt
  | Some p =>
    s ← get;
    let f := mk_fill [] lfn_buf0 0 in
    f ← (if dir =? 0 then fill_root (S (Z.to_nat (root_dir_sectors (g_fat s)))) 0 f else fill_chain CHAIN_FUEL dir f);
    bulk_free p;;
    modify (with_rdcache (mk_rdcache rpath (fl_names f) true))
  end.

Definition rdcache_hit (path : list Z) (s : FS) : bool := rd_valid (rdcache s) && str_eqb path (rd_path (rdcache s)).

(** The return value and the string stored. *)
Definition fat16_vfs_readdir (path : list Z) (index size : Z) : M FS (Z * list Z) :=
  s ← get;
  if negb (mounted (g_fat s)) || (size =? 0) || (index <? 0) then mret (0, []) else
  ok ← (if rdcache_hit path s then mret true else
        d ← fat16_resolve_dir path;
        match d with None => mret false | Some dir => fat16_readdir_fill_cache path dir;; mret true end);
  if negb ok then mret (0, []) else
  s ← get;
  match rd_names (rdcache s) !! Z.to_nat index with
  | None => mret (0, [])
  | Some name =>
    let n := if size <=? Z.of_nat (length name) then size - 1 else Z.of_nat (length name) in
    mret (n + 1, take (Z.to_nat n) name)
  end.

(** ** The operations that change directories *)

(** The first byte of the entry becomes 0xE5. *)
Definition delete_entry (lba off : Z) : M FS Z := rmw_sector lba (λ sec, upd_de sec off (λ de, <[0%nat := 0xE5]> de)).

Definition fat16_vfs_unlink (path : list Z) : M FS Z :=
  s ← get;
  if negb (mounted (g_fat s)) then mret (-1) else
  rdcache_invalidate;;
  r ← fat16_resolve_path path;
  match r_entry r with
  | None => mret (-1)
  | Some (de, lba, off) =>
    if negb (Z.land (de_attr de) FAT16_ATTR_DIR =? 0) then mret (-1) else
    rc ← (if 2 <=? de_cluster de then fat16_free_chain (de_cluster de) else mret 0);
    if rc <? 0 then mret (-1) else
    rc ← delete_entry lba off;
    mret (if rc <? 0 then -1 else 0)
  end.

(** A directory entry with the given name and cluster. *)
Definition dir_entry (name : list Z) (cluster : Z) : list Z :=
  set_de_cluster cluster (set_de_attr FAT16_ATTR_DIR (set_de_name name DE_ZERO)).

Definition fat16_vfs_mkdir (path : list Z) : M FS Z :=
  s ← get;
  if negb (mounted (g_fat s)) then mret (-1) else
  rdcache_invalidate;;
  r ← fat16_resolve_path path;
  if (r_rc r =? 0) || (r_rc r =? -2) || (r_free_lba r =? 0) then mret (-1) else
  o ← fat16_alloc_cluster;
  match o with
  | None => mret (-1)
  | Some new_cl =>
    parent ← lift (r_parent r);
    name83 ← lift (r_name83 r);
    s ← get;
    let sec := splice (splice ZERO_SECTOR 0 (dir_entry (pad_right 11 [46]) new_cl)) 32
                      (dir_entry (pad_right 11 [46; 46]) parent) in
    rc ← ata_write_sector (cluster_to_lba (g_fat s) new_cl) sec;
    if rc <? 0 then mret (-1) else
    rc ← rmw_sector (r_free_lba r) (λ sec, splice sec (Z.to_nat (r_free_off r)) (dir_entry name83 new_cl));
    mret (if rc <? 0 then -1 else 0)
  end.

(** The entries of a sector of a directory that is to be removed: [Some true]
    is an entry in use, [Some false] the end. *)
Fixpoint check_entries (n : nat) (sec : list Z) (off : Z) : option bool :=
  match n with
  | O => None
  | S n =>
    let de := de_at sec off in
    if byte_at de 0 =? 0 then Some false else
    if byte_at de 0 =? 0xE5 then check_entries n sec (off + 32) else
    if de_attr de =? FAT16_ATTR_LFN then check_entries n sec (off + 32) else
    if is_dot_entry de then check_entries n sec (off + 32) else Some true
  end.

Inductive check_res := CErr | CDone (has_entries : bool) | CMore.

Fixpoint check_sectors (n : nat) (lba : Z) : M FS check_res :=
  match n with
  | O => mret CMore
  | S n =>
    o ← ata_read_sector lba;
    match o with
    | None => mret CErr
    | Some sec => match check_entries 16 sec 0 with
                  | Some b => mret (CDone b)
                  | None => check_sectors n (u32 (lba + 1))
                  end
    end
  end.

Fixpoint check_chain (fuel : nat) (cl : Z) : M FS check_res :=
  match fuel with
  | O => ub
  | S fuel =>
    if negb (in_chain cl) then mret (CDone false) else
    s ← get;
    r ← check_sectors (Z.to_nat (sectors_per_cluster (g_fat s))) (cluster_to_lba (g_fat s) cl);
    match r with
    | CMore => next ← fat16_get_entry cl; check_chain fuel next
    | _ => mret r
    end
  end.

Definition fat16_vfs_rmdir (path : list Z) : M FS Z :=
  s ← get;
  if negb (mounted (g_fat s)) then mret (-1) else
  rdcache_invalidate;;
  r ← fat16_resolve_path path;
  match r_entry r with
  | None => mret (-1)
  | Some (de, lba, off) =>
    if Z.land (de_attr de) FAT16_ATTR_DIR =? 0 then mret (-1) else
    if de_cluster de <? 2 then mret (-1) else
    c ← check_chain CHAIN_FUEL (de_cluster de);
    match c with
    | CDone false =>
      rc ← fat16_free_chain (de_cluster de);
      if rc <? 0 then mret (-1) else
      rc ← delete_entry lba off;
      mret (if rc <? 0 then -1 else 0)
    | _ => mret (-1)
    end
  end.

(** The long-name entries that end at [off] in the sector, marked deleted. *)
Fixpoint delete_lfn_loop (n : nat) (sec : list Z) (off : Z) : list Z :=
  match n with
  | O => sec
  | S n =>
    if off <? 0 then sec else
    let e := de_at sec off in
    if (de_attr e =? FAT16_ATTR_LFN) && negb (byte_at e 0 =? 0xE5)
    then delete_lfn_loop n (upd_de sec off (λ de, <[0%nat := 0xE5]> de)) (off - 32) else sec
  end.

Definition fat16_delete_preceding_lfn (de_lba de_off : Z) : M FS unit :=
  o ← ata_read_sector de_lba;
  match o with
  | None => mret tt
  | Some sec =>
    let sec' := delete_lfn_loop 16 sec (de_off - 32) in
    if bool_decide (sec' = sec) then mret tt else ata_write_sector de_lba sec';; mret tt
  end.

(** The file at the target of a rename is removed; [false] is the return of
    -1. *)
Definition remove_target (de : list Z) (lba off : Z) : M FS bool :=
  (if 2 <=? de_cluster de then fat16_free_chain (de_cluster de);; mret tt else mret tt);;
  rc ← delete_entry lba off;
  if rc <? 0 then mret false else fat16_delete_preceding_lfn lba off;; mret true.

Definition fat16_vfs_rename (oldpath newpath : list Z) : M FS Z :=
  s ← get;
  if negb (mounted (g_fat s)) then mret (-1) else
  rdcache_invalidate;;
  r ← fat16_resolve_path oldpath;
  match r_entry r with
  | None => mret (-1)
  | Some (old_de, old_lba, old_off) =>
    old_parent ← lift (r_parent r);
    n ← fat16_resolve_path newpath;
    let new_fname := last_component newpath newpath in
    if match r_entry n with
       | Some (de, _, _) => negb (Z.land (de_attr de) FAT16_ATTR_DIR =? 0)
       | None => false
       end then mret (-1) else
    ok ← match r_entry n with Some (de, lba, off) => remove_target de lba off | None => mret true end;
    if negb ok then mret (-1) else
    let '(free_lba, free_off) := match r_entry n with
                                 | Some (_, lba, off) => (lba, off)
                                 | None => (r_free_lba n, r_free_off n)
                                 end in
    (* [new_parent] is not initialised when the parent was not found. *)
    new_parent ← lift (r_parent n);
    let name83 := fat16_name_to_83 new_fname in
    a ← match name83 with Some nm => mret (Some nm) | None => find_alias 9 1 new_parent new_fname end;
    match a with
    | None => mret (-1)
    | Some actual =>
      if (old_parent =? new_parent) && bool_decide (is_Some name83) then
        fat16_delete_preceding_lfn old_lba old_off;;
        rmw_sector old_lba (λ sec, upd_de sec old_off (set_de_name actual))
      else if free_lba =? 0 then mret (-1) else
      rc ← rmw_sector free_lba (λ sec,
             match name83 with
             | None => (put_entry sec free_off new_fname actual old_de).1
             | Some _ => splice sec (Z.to_nat free_off) (set_de_name actual old_de)
             end);
      if rc <? 0 then mret (-1) else
      fat16_delete_preceding_lfn old_lba old_off;;
      rc ← delete_entry old_lba old_off;
      if rc <? 0 then mret (-1) else
      modify (λ s, with_open ((λ f, if o_in_use f && (o_dirent_lba f =? old_lba) && (o_dirent_off f =? old_off)
                                    then set_o_dirent free_lba free_off f else f) <$> g_open s) s);;
      mret 0
    end
  end.

(** ** Truncation *)

(** At most [n] links are followed, up to the end of the chain. *)
Fixpoint walk_chain (n : nat) (cl : Z) : M FS Z :=
  match n with
  | O => mret cl
  | S n =>
    next ← fat16_get_entry cl;
    if (0xFFF8 <=? next) || (next <? 2) then mret cl else walk_chain n next
  end.

(** The bytes from [pos] to [zero_end] are cleared, sector by sector; [lba] is
    the first sector of the cluster. *)
Fixpoint zero_range (fuel : nat) (lba pos zero_end : Z) : M FS unit :=
  match fuel with
  | O => ub
  | S fuel =>
    if zero_end <=? pos then mret tt else
    let sec := pos / FAT16_SECTOR_SIZE in
    let boff := pos mod FAT16_SECTOR_SIZE in
    let sec_end := u32 ((sec + 1) * FAT16_SECTOR_SIZE) in
    let bend := if zero_end <? sec_end then zero_end mod FAT16_SECTOR_SIZE else FAT16_SECTOR_SIZE in
    let bend := if bend =? 0 then FAT16_SECTOR_SIZE else bend in
    o ← ata_read_sector (u32 (lba + sec));
    match o with
    | None => mret tt
    | Some buf =>
      ata_write_sector (u32 (lba + sec)) (splice buf (Z.to_nat boff) (replicate (Z.to_nat (bend - boff)) 0));; mret tt
    end;;
    zero_range fuel lba sec_end zero_end
  end.

(** The file is cut; [false] is the return of -1. *)
Definition shrink_file (h : nat) (f : fat16_open_t) (length_ cluster_size : Z) : M FS bool :=
  if length_ =? 0 then
    if 2 <=? o_first_cluster f then
      rc ← fat16_free_chain (o_first_cluster f);
      if rc <? 0 then mret false else upd_open h (set_o_cluster 0);; mret true
    else mret true
  else
    cl ← walk_chain (Z.to_nat ((length_ - 1) / cluster_size)) (o_first_cluster f);
    next ← fat16_get_entry cl;
    rc ← fat16_set_entry cl FAT16_EOC;
    if rc <? 0 then mret false else
    (if in_chain next then fat16_free_chain next;; mret tt else mret tt);;
    mret true.

Definition grow_file (h : nat) (old_size length_ cluster_size : Z) : M FS bool :=
  let need := u32 (length_ + cluster_size - 1) / cluster_size in
  let need := if need =? 0 then 1 else need in
  o ← fat16_ensure_cluster_for_index h (need - 1);
  match o with
  | None => mret false
  | Some _ =>
    upd_open h (set_o_size length_);;
    (if (0 <? old_size) && (old_size <? length_) then
       let old_cl_idx := (old_size - 1) / cluster_size in
       let cl_end := u32 ((old_cl_idx + 1) * cluster_size) in
       let zero_end := if cl_end <? length_ then cl_end else length_ in
       if old_size <? zero_end then
         f ← get_open h;
         zcl ← walk_chain (Z.to_nat old_cl_idx) (o_first_cluster f);
         s ← get;
         zero_range (Z.to_nat ((zero_end - old_size) / FAT16_SECTOR_SIZE + 3)) (cluster_to_lba (g_fat s) zcl) old_size zero_end
       else mret tt
     else mret tt);;
    mret true
  end.

Definition fat16_vfs_ftruncate (handle length_ : Z) : M FS Z :=
  s ← get;
  match open_handle handle s with
  | None => mret (-1)
  | Some h =>
    f ← get_open h;
    if length_ =? o_size f then mret 0 else
    let cluster_size := sectors_per_cluster (g_fat s) * FAT16_SECTOR_SIZE in
    ok ← (if length_ <? o_size f then
            ok ← shrink_file h f length_ cluster_size;
            (if (ok : bool) then upd_open h (λ f, set_o_pos (if length_ <? o_pos f then length_ else o_pos f) (set_o_size length_ f))
             else mret tt);;
            mret ok
          else grow_file h (o_size f) length_ cluster_size);
    if negb ok then mret (-1) else
    rc ← fat16_update_dirent h;
    mret (if rc <? 0 then -1 else 0)
  end.

Definition fat16_ops : vfs_fs_ops_t FS := mk_fs_ops (str "fat16")
  (Some fat16_vfs_open) (Some fat16_vfs_read) (Some fat16_vfs_write) (Some fat16_vfs_close) (Some fat16_vfs_seek)
  (Some fat16_vfs_stat) (Some fat16_vfs_readdir) (Some fat16_vfs_unlink) (Some fat16_vfs_mkdir) (Some fat16_vfs_rmdir)
  (Some fat16_vfs_rename) (Some fat16_vfs_ftruncate).

(** ** Mounting *)

(** The volume described by a boot sector, at [part_lba]; [None] is the return of
    -1. *)
Definition parse_bpb (sec : list Z) (part_lba : Z) : option fat16_state_t :=
  let bps := read_u16 sec 11 in
  let spc := byte_at sec 13 in
  let reserved := read_u16 sec 14 in
  let fats := byte_at sec 16 in
  let roots := read_u16 sec 17 in
  let spf := read_u16 sec 22 in
  if negb (bps =? FAT16_SECTOR_SIZE) || (spc =? 0) || (fats =? 0) || (roots =? 0) || (spf =? 0) then None else
  let total := if read_u16 sec 19 =? 0 then read_u32 sec 32 else read_u16 sec 19 in
  if total =? 0 then None else
  let root_secs := (roots * 32 + (FAT16_SECTOR_SIZE - 1)) / FAT16_SECTOR_SIZE in
  let data_secs := u32 (total - (reserved + fats * spf + root_secs)) in
  let clusters := data_secs / spc in
  if (clusters <? 4085) || (65525 <=? clusters) then None else
  let fat_start := u32 (part_lba + reserved) in
  let root_start := u32 (fat_start + fats * spf) in
  Some (mk_fat true part_lba fat_start root_start (u32 (root_start + root_secs)) root_secs total spf fats bps spc roots clusters).

Definition fat16_try_mount_at (part_lba : Z) : M FS Z :=
  o ← ata_read_sector part_lba;
  match o with
  | None => mret (-1)
  | Some sec =>
    match parse_bpb sec part_lba with
    | None => mret (-1)
    | Some g => modify (λ s, with_open (replicate FAT16_MAX_OPEN open_zero) (with_fat g s));; mret 0
    end
  end.

(** The partitions of the boot record from number [i] on. *)
Fixpoint try_partitions (n i : nat) (mbr : list Z) : M FS bool :=
  match n with
  | O => mret false
  | S n =>
    let e := drop (446 + 16 * i) mbr in
    if is_fat16_part_type (byte_at e 4) && (0 <? read_u32 e 12) then
      rc ← fat16_try_mount_at (read_u32 e 8);
      if rc =? 0 then mret true else try_partitions n (S i) mbr
    else try_partitions n (S i) mbr
  end.

Definition fat16_init : M FS Z :=
  modify (λ s, with_open (replicate FAT16_MAX_OPEN open_zero) (with_fat fat_zero s));;
  fat_cache_invalidate;;
  s ← get;
  let '(rc, d) := ata_pio_init (fs_disk s) in
  modify (with_disk d);;
  if rc <? 0 then mret (-1) else
  o ← ata_read_sector 0;
  ok ← match o with
       | Some mbr => if (byte_at mbr 510 =? 0x55) && (byte_at mbr 511 =? 0xAA) then try_partitions 4 0 mbr else mret false
       | None => mret false
       end;
  if (ok : bool) then mret 0 else
  rc ← fat16_try_mount_at 0;
  mret (if rc =? 0 then 0 else -1).
End fat16.
