(* ===== verification/FatTable.v ===== *)
(** * The file allocation table and its cache

    What [fat16_get_entry], [fat16_set_entry], [fat16_alloc_cluster] and
    [fat16_free_chain] of [src/src/fs/fat16.c] do to the volume, over any device
    that keeps the contract of [Disk.BlockDev].  The volume is seen as its table
    ([fat_entry]: the entry of a cluster in one copy of the FAT) and its other
    sectors; [vol_ok] is the invariant: the areas of the volume lie one after the
    other on a device that answers, and every sector of the cache holds what the
    device holds. *)

From S2P Require Import Prelude CLib KHeap Pipe Vfs Disk Fat16.

(** ** Words in sectors *)

Lemma byte_at_splice l i v j : (i + length v ≤ length l)%nat →
  byte_at (splice l i v) j = if decide (i ≤ j < i + length v)%nat then byte_at v (j - i) else byte_at l j.
Proof. intros Hl. unfold byte_at. rewrite lookup_splice by done. by case_decide. Qed.

Lemma length_write_u16 l i v : (i + 2 ≤ length l)%nat → length (write_u16 l i v) = length l.
Proof. intros Hl. by apply length_splice. Qed.

Lemma write_u16_bytes l i v : is_u16 v → Forall is_u8 l → Forall is_u8 (write_u16 l i v).
Proof.
  intros Hv Hl. unfold write_u16, splice. repeat apply Forall_app_2.
  - by apply Forall_take.
  - repeat constructor; change 255 with (Z.ones 8); rewrite ?Z.land_ones, ?Z.shiftr_div_pow2 by lia; mlia.
  - by apply Forall_drop.
Qed.

Lemma read_write_u16 l i v j : is_u16 v → (i + 2 ≤ length l)%nat → (j = i ∨ j + 2 ≤ i ∨ i + 2 ≤ j)%nat →
  read_u16 (write_u16 l i v) j = if decide (j = i) then v else read_u16 l j.
Proof.
  intros Hv Hl Hj. unfold read_u16, write_u16. rewrite !byte_at_splice by done. simpl length.
  destruct (decide (j = i)) as [->|E].
  - rewrite !decide_True by lia. rewrite Nat.sub_diag. replace (i + 1 - i)%nat with 1%nat by lia.
    change (byte_at _ 0) with (Z.land v 255). change (byte_at _ 1) with (Z.shiftr v 8).
    change 255 with (Z.ones 8). rewrite Z.land_ones, Z.shiftr_div_pow2 by lia. mlia.
  - by rewrite !decide_False by lia.
Qed.

Lemma read_u16_range l i : Forall is_u8 l → is_u16 (read_u16 l i).
Proof.
  intros Hl. unfold read_u16, byte_at.
  assert (Hb : ∀ j, is_u8 (default 0 (l !! j))).
  { intros j. destruct (l !! j) as [b|] eqn:E; [|simpl; mlia]. by eapply Forall_lookup_1. }
  pose proof (Hb i). pose proof (Hb (i + 1)%nat). mlia.
Qed.

Section fat_table.
Context {D H : Type} `{!BlockDev D} `{!KHeap H}.
Notation FS := (fs_t D H).
Implicit Types (s : FS) (g : fat16_state_t).

(** ** The volume *)

(** The areas of a mounted volume on a device of [n] sectors: the copies of the
    FAT, each with room for an entry per cluster, then the data area. *)
Record geometry (g : fat16_state_t) (n : Z) : Prop := {
  geo_fat : 1 ≤ fat_start_lba g;
  geo_count : 1 ≤ fat_count g;
  geo_spf : 1 ≤ sectors_per_fat g;
  geo_spc : 1 ≤ sectors_per_cluster g < 256;
  geo_clusters : 0 ≤ cluster_count g < 65525;
  geo_room : (cluster_count g + 2) * 2 ≤ sectors_per_fat g * 512;
  geo_data : fat_start_lba g + fat_count g * sectors_per_fat g ≤ data_start_lba g;
  geo_end : data_start_lba g + cluster_count g * sectors_per_cluster g ≤ n;
  geo_size : n ≤ 4294967296
}.

Definition is_cluster (g : fat16_state_t) (c : Z) : Prop := 2 ≤ c < cluster_count g + 2.

Definition fat_lba (g : fat16_state_t) (i c : Z) : Z := fat_start_lba g + i * sectors_per_fat g + c * 2 / 512.

Definition fat_entry (s : FS) (i c : Z) : Z :=
  read_u16 (sector (fs_disk s) (fat_lba (g_fat s) i c)) (Z.to_nat (c * 2 mod 512)).

Definition in_fat (g : fat16_state_t) (x : Z) : Prop :=
  fat_start_lba g ≤ x < fat_start_lba g + fat_count g * sectors_per_fat g.

(** The first sector of a cluster, its sectors and its bytes. *)
Definition cluster_lba (g : fat16_state_t) (c : Z) : Z := data_start_lba g + (c - 2) * sectors_per_cluster g.
Definition in_cluster (g : fat16_state_t) (c x : Z) : Prop :=
  cluster_lba g c ≤ x < cluster_lba g c + sectors_per_cluster g.
Definition cluster_data (s : FS) (c : Z) : list Z :=
  sectors_at (sector (fs_disk s)) (cluster_lba (g_fat s) c) (Z.to_nat (sectors_per_cluster (g_fat s))).

(** Every slot of the cache is empty or holds a sector of the first FAT. *)
Record coherent (s : FS) : Prop := {
  coh_length : length (fat_cache s) = FAT_CACHE_SIZE;
  coh_next : (fat_cache_next s < FAT_CACHE_SIZE)%nat;
  coh_slot i lba data : fat_cache s !! i = Some (lba, data) → lba ≠ 0 →
    (∃ k, 0 ≤ k < sectors_per_fat (g_fat s) ∧ lba = fat_start_lba (g_fat s) + k) ∧ data = sector (fs_disk s) lba
}.

Record vol_ok (s : FS) : Prop := {
  ok_geometry : geometry (g_fat s) (disk_size (fs_disk s));
  ok_healthy : healthy (fs_disk s);
  ok_coherent : coherent s
}.

(** What the FAT layer leaves alone: the volume, the open files, the directory
    cache and the heap, and the sectors outside the FAT but for those of [P]. *)
Record fat_step (P : Z → Prop) (s s' : FS) : Prop := {
  st_ok : vol_ok s';
  st_fat : g_fat s' = g_fat s;
  st_open : g_open s' = g_open s;
  st_rdcache : rdcache s' = rdcache s;
  st_heap : fs_heap s' = fs_heap s;
  st_size : disk_size (fs_disk s') = disk_size (fs_disk s);
  st_sector x : ¬ in_fat (g_fat s) x → ¬ P x → sector (fs_disk s') x = sector (fs_disk s) x
}.

(** Nothing is written. *)
Record fat_quiet (s s' : FS) : Prop := {
  q_step : fat_step (λ _, False) s s';
  q_sector x : sector (fs_disk s') x = sector (fs_disk s) x
}.

Lemma fat_step_trans (P Q : Z → Prop) s1 s2 s3 :
  fat_step P s1 s2 → fat_step Q s2 s3 → fat_step (λ x, P x ∨ Q x) s1 s3.
Proof.
  intros [] []. split; try congruence. intros x Hx HP. rewrite st_sector1; [naive_solver|congruence|naive_solver].
Qed.

Lemma fat_step_weaken (P Q : Z → Prop) s s' : (∀ x, P x → Q x) → fat_step P s s' → fat_step Q s s'.
Proof. intros HPQ []. split; try done. naive_solver. Qed.

Lemma fat_quiet_refl s : vol_ok s → fat_quiet s s.
Proof. intros Hs. split; [by split|done]. Qed.

Lemma fat_quiet_trans s1 s2 s3 : fat_quiet s1 s2 → fat_quiet s2 s3 → fat_quiet s1 s3.
Proof.
  intros [Q1 E1] [Q2 E2]. split; [|congruence]. eapply fat_step_weaken, (fat_step_trans _ _ _ _ _ Q1 Q2). naive_solver.
Qed.

Lemma fat_quiet_step s s' : fat_quiet s s' → fat_step (λ _, False) s s'.
Proof. by intros []. Qed.

Lemma fat_quiet_entry s s' i c : fat_quiet s s' → fat_entry s' i c = fat_entry s i c.
Proof. intros [[] E]. unfold fat_entry. by rewrite E, st_fat0. Qed.

Lemma fat_quiet_cluster s s' c : fat_quiet s s' → cluster_data s' c = cluster_data s c.
Proof. intros [[] E]. unfold cluster_data. rewrite st_fat0. by apply sectors_at_ext. Qed.

Lemma fat_step_cluster P s s' c : vol_ok s → is_cluster (g_fat s) c → fat_step P s s' →
  (∀ x, in_cluster (g_fat s) c x → ¬ P x) → cluster_data s' c = cluster_data s c.
Proof.
  intros [[] _ _] Hc [] HP. unfold cluster_data. rewrite st_fat0. apply sectors_at_ext. intros x Hx.
  unfold is_cluster, in_cluster, in_fat, cluster_lba in *. apply st_sector0.
  - nia.
  - apply HP. lia.
Qed.

Lemma cluster_to_lba_eq g n c : geometry g n → is_cluster g c → cluster_to_lba g c = cluster_lba g c.
Proof.
  intros [] Hc. unfold cluster_to_lba, cluster_lba, is_cluster in *. rewrite (u32_small (c - 2)) by mlia.
  apply u32_small. unfold is_u32. nia.
Qed.

(** ** The device *)

Definition in_fat0 (g : fat16_state_t) (x : Z) : Prop := fat_start_lba g ≤ x < fat_start_lba g + sectors_per_fat g.

Lemma vol_ok_disk s d : vol_ok s → healthy d → disk_size d = disk_size (fs_disk s) →
  (∀ x, in_fat0 (g_fat s) x → sector d x = sector (fs_disk s) x) → vol_ok (with_disk d s).
Proof.
  intros [Hg _ [Hl Hn Hs]] Hh Hz Hd. split; [by simpl; rewrite Hz|done|]. split; [done..|]. simpl. intros i lba data Hi H0.
  destruct (Hs i lba data Hi H0) as [Hk ->]. split; [done|]. symmetry. apply Hd. unfold in_fat0. naive_solver lia.
Qed.

Lemma fat_step_disk P s d : vol_ok s → healthy d → disk_size d = disk_size (fs_disk s) →
  (∀ x, in_fat0 (g_fat s) x → sector d x = sector (fs_disk s) x) →
  (∀ x, ¬ in_fat (g_fat s) x → ¬ P x → sector d x = sector (fs_disk s) x) → fat_step P s (with_disk d s).
Proof. intros. split; try done. by apply vol_ok_disk. Qed.

Lemma ata_read_ok s lba n : vol_ok s → 0 ≤ lba → 1 ≤ n < 256 → lba + n ≤ disk_size (fs_disk s) →
  ∃ d, ata_read lba n s = Some (Some (sectors_at (sector (fs_disk s)) lba (Z.to_nat n)), with_disk d s) ∧
       fat_quiet s (with_disk d s).
Proof.
  intros Hs Hl Hn Hlt. destruct (healthy_read lba n _ (ok_healthy _ Hs) Hl Hn Hlt) as (l & d & E & Hd).
  exists d. unfold ata_read. rewrite E. split; [by rewrite (disk_read_Some _ _ _ _ _ E)|].
  assert (K : ∀ x, sector d x = sector (fs_disk s) x) by (intros x; by apply (disk_read_keeps _ _ _ _ _ _ E)).
  split; [|done]. apply fat_step_disk; try done. apply (disk_read_size _ _ _ _ _ E).
Qed.

Lemma ata_read_sector_ok s lba : vol_ok s → 0 ≤ lba < disk_size (fs_disk s) →
  ∃ d, ata_read_sector lba s = Some (Some (sector (fs_disk s) lba), with_disk d s) ∧ fat_quiet s (with_disk d s).
Proof.
  intros Hs Hl. destruct (ata_read_ok s lba 1) as (d & E & Q); [done|lia..|]. exists d. split; [|done].
  unfold ata_read_sector. rewrite E. simpl. by rewrite app_nil_r.
Qed.

Lemma ata_write_sector_ok s lba l : vol_ok s → 0 ≤ lba < disk_size (fs_disk s) → ¬ in_fat (g_fat s) lba →
  length l = 512%nat → Forall is_u8 l →
  ∃ d, ata_write_sector lba l s = Some (0, with_disk d s) ∧ fat_step (λ x, x = lba) s (with_disk d s) ∧
       (∀ x, sector d x = if decide (x = lba) then l else sector (fs_disk s) x).
Proof.
  intros Hs Hl Hf Hlen Hb. destruct (healthy_write lba l _ (ok_healthy _ Hs) Hl Hlen) as (d & E & Hd).
  exists d. unfold ata_write_sector. rewrite E. split; [done|].
  assert (K := λ x, disk_write_ok _ _ _ _ x E Hlen Hb).
  split; [|done]. apply fat_step_disk; try done.
  - apply (disk_write_size _ _ _ _ _ E).
  - intros x Hx. rewrite K, decide_False; [done|]. intros ->. apply Hf. destruct (ok_geometry _ Hs).
    unfold in_fat, in_fat0 in *. nia.
  - intros x _ Hx. by rewrite K, decide_False.
Qed.

(** ** The cache *)

Lemma vol_ok_cache s l n : vol_ok s → coherent (with_cache l n s) → vol_ok (with_cache l n s).
Proof. intros [] Hc. by split. Qed.

Lemma fat_quiet_cache s l n : vol_ok s → coherent (with_cache l n s) → fat_quiet s (with_cache l n s).
Proof. intros Hs Hc. split; [|done]. split; try done. by apply vol_ok_cache. Qed.

Lemma coherent_store s slot n lba : coherent s → (n < FAT_CACHE_SIZE)%nat → in_fat0 (g_fat s) lba →
  coherent (with_cache (<[slot := (lba, sector (fs_disk s) lba)]> (fat_cache s)) n s).
Proof.
  intros [Hl Hn Hs] Hlt Hf. split; simpl; [by rewrite length_insert|done|]. intros i lba' data Hi H0.
  apply list_lookup_insert_cases in Hi as [(-> & [= <- <-] & _)|(_ & Hi)]; [|by eapply Hs].
  split; [|done]. exists (lba - fat_start_lba (g_fat s)). unfold in_fat0 in Hf. lia.
Qed.

Lemma fat_cache_get_ok s lba : vol_ok s → in_fat0 (g_fat s) lba →
  ∃ s', fat_cache_get lba s = Some (Some (sector (fs_disk s) lba), s') ∧ fat_quiet s s'.
Proof.
  intros Hs Hf. assert (Hg := ok_geometry _ Hs). assert (Hc := ok_coherent _ Hs).
  assert (Hn : ((fat_cache_next s + 1) mod FAT_CACHE_SIZE < FAT_CACHE_SIZE)%nat) by (apply Nat.mod_upper_bound; done).
  unfold fat_cache_get, mbind, M_bind, get. destruct (find_index _ _) as [i|] eqn:F.
  - apply find_index_Some in F as [([l data] & Hi & Hl) _]. simpl in Hl. apply Z.eqb_eq in Hl as ->.
    rewrite Hi. simpl. exists s. split; [|by apply fat_quiet_refl].
    destruct (coh_slot _ Hc _ _ _ Hi) as [_ ->]; [|done]. destruct Hg. unfold in_fat0 in Hf. lia.
  - unfold modify at 1. set (s1 := with_cache _ _ s).
    assert (Q1 : fat_quiet s s1) by (apply fat_quiet_cache; [done|]; destruct Hc; by split).
    destruct (ata_read_sector_ok s1 lba) as (d & E & Q2); [apply Q1| |].
    { destruct Hg. unfold in_fat0 in Hf. simpl. nia. }
    rewrite E. simpl. eexists. split; [done|]. eapply fat_quiet_trans; [exact Q1|].
    eapply fat_quiet_trans; [exact Q2|]. apply fat_quiet_cache; [apply Q2|].
    assert (Hsec := q_sector _ _ Q2 lba). change (sector (fs_disk s1) lba) with (sector (fs_disk s) lba) in *.
    rewrite <- Hsec. apply (coherent_store (with_disk d s1)); [apply Q2|done|done].
Qed.

(** ** The entries *)

Definition is_entry (g : fat16_state_t) (c : Z) : Prop := 0 ≤ c < cluster_count g + 2.

Lemma is_cluster_entry g c : is_cluster g c → is_entry g c.
Proof. unfold is_cluster, is_entry. lia. Qed.

Lemma fat_lba_small g n i c : geometry g n → 0 ≤ i < fat_count g → is_entry g c →
  0 ≤ c * 2 / 512 < sectors_per_fat g ∧ in_fat g (fat_lba g i c) ∧ is_u32 (fat_lba g i c) ∧ fat_lba g i c < n.
Proof.
  intros [] Hi Hc. unfold in_fat, fat_lba, is_entry, is_u32 in *.
  assert (0 ≤ c * 2 / 512 < sectors_per_fat g) by (Z.div_mod_to_equations; lia). nia.
Qed.

Lemma fat16_get_entry_ok s c : vol_ok s → is_entry (g_fat s) c →
  ∃ s', fat16_get_entry c s = Some (fat_entry s 0 c, s') ∧ fat_quiet s s'.
Proof.
  intros Hs Hc. assert (Hg := ok_geometry _ Hs).
  destruct (fat_lba_small _ _ 0 c Hg) as (H1 & H2 & H3 & H4); [destruct Hg; lia|done|].
  unfold fat16_get_entry, mbind, M_bind, get, FAT16_SECTOR_SIZE.
  replace (u32 _) with (fat_lba (g_fat s) 0 c).
  2: { unfold fat_lba in *. rewrite Z.mul_0_l, Z.add_0_r in *. by rewrite u32_small. }
  destruct (fat_cache_get_ok s (fat_lba (g_fat s) 0 c)) as (s' & E & Q); [done| |].
  { unfold in_fat0, fat_lba. lia. }
  rewrite E. by exists s'.
Qed.

(** A sector of the FAT is written and dropped from the cache. *)
Lemma fat_write_ok s lba l : vol_ok s → in_fat (g_fat s) lba → length l = 512%nat → Forall is_u8 l →
  ∃ d s', ata_write_sector lba l s = Some (0, with_disk d s) ∧ fat_cache_evict lba (with_disk d s) = Some (tt, s') ∧
    fat_step (λ _, False) s s' ∧ (∀ x, sector (fs_disk s') x = if decide (x = lba) then l else sector (fs_disk s) x).
Proof.
  intros Hs Hf Hlen Hb. assert (Hg := ok_geometry _ Hs). assert (Hl : 0 ≤ lba < disk_size (fs_disk s)).
  { destruct Hg. unfold in_fat in Hf. nia. }
  destruct (healthy_write lba l _ (ok_healthy _ Hs) Hl Hlen) as (d & E & Hd).
  assert (K := λ x, disk_write_ok _ _ _ _ x E Hlen Hb). assert (Z := disk_write_size _ _ _ _ _ E).
  eexists d, _. unfold ata_write_sector. rewrite E. split; [done|]. split; [done|]. split; [|done].
  split; try done.
  - split; [simpl; by rewrite Z|done|]. destruct (ok_coherent _ Hs) as [C1 C2 C3].
    split; simpl; [by rewrite length_fmap|done|]. intros i x data Hi Hx.
    apply list_lookup_fmap_Some in Hi as ([y data'] & [= -> ->] & Hi).
    destruct (y =? lba) eqn:Ey; [done|]. destruct (C3 _ _ _ Hi Hx) as [Hk ->]. split; [done|].
    by rewrite K, decide_False by lia.
  - intros x Hx _. simpl. rewrite K, decide_False; [done|]. by intros ->.
Qed.

(** The entry [c'] of copy [j] in the sector of the entry [c] of copy [i]. *)
Lemma fat_lba_inj g n i c j c' : geometry g n → is_entry g c → is_entry g c' →
  fat_lba g j c' = fat_lba g i c → j = i ∧ c' * 2 / 512 = c * 2 / 512.
Proof.
  intros [] Hc Hc' E. unfold fat_lba, is_entry in *.
  assert (0 ≤ c * 2 / 512 < sectors_per_fat g) by (Z.div_mod_to_equations; lia).
  assert (0 ≤ c' * 2 / 512 < sectors_per_fat g) by (Z.div_mod_to_equations; lia).
  assert (j = i) by nia. subst. lia.
Qed.

Lemma fat_entry_write s s' i c v : vol_ok s → g_fat s' = g_fat s → is_entry (g_fat s) c → is_u16 v →
  (∀ x, sector (fs_disk s') x = if decide (x = fat_lba (g_fat s) i c)
     then write_u16 (sector (fs_disk s) (fat_lba (g_fat s) i c)) (Z.to_nat (c * 2 mod 512)) v else sector (fs_disk s) x) →
  ∀ j c', is_entry (g_fat s) c' → fat_entry s' j c' = if decide (c' = c ∧ j = i) then v else fat_entry s j c'.
Proof.
  intros Hs Hf Hc Hv K j c' Hc'. unfold fat_entry. rewrite Hf, K. destruct (decide (fat_lba _ j c' = _)) as [E|E].
  - destruct (fat_lba_inj _ _ i c j c' (ok_geometry _ Hs) Hc Hc' E) as [-> Hq].
    unfold is_entry in *. rewrite read_write_u16; [|done|rewrite sector_length; mlia|mlia].
    destruct (decide (c' = c)) as [->|Hne].
    + by rewrite !decide_True.
    + rewrite !decide_False by (try naive_solver; mlia). by rewrite E.
  - rewrite decide_False; [done|]. by intros [-> ->].
Qed.

Lemma entry_off_room c : (Z.to_nat (c * 2 mod 512) + 2 ≤ 512)%nat.
Proof. mlia. Qed.

Lemma set_entry_loop_ok n i s c v : vol_ok s → is_entry (g_fat s) c → is_u16 v → 0 ≤ i →
  i + Z.of_nat n = fat_count (g_fat s) →
  ∃ s', set_entry_loop n i (c * 2 / 512) (c * 2 mod 512) v s = Some (0, s') ∧ fat_step (λ _, False) s s' ∧
    ∀ j c', is_entry (g_fat s) c' →
      fat_entry s' j c' = if decide (c' = c ∧ i ≤ j < fat_count (g_fat s)) then v else fat_entry s j c'.
Proof.
  revert i s. induction n as [|n IH]; intros i s Hs Hc Hv Hi Hn.
  { exists s. split; [done|]. split; [by apply fat_quiet_step, fat_quiet_refl|].
    intros j c' _. by rewrite decide_False by lia. }
  assert (Hg := ok_geometry _ Hs). destruct (fat_lba_small _ _ i c Hg) as (L1 & L2 & L3 & L4); [lia|done|].
  assert (El : u32 (fat_start_lba (g_fat s) + i * sectors_per_fat (g_fat s) + c * 2 / 512) = fat_lba (g_fat s) i c)
    by by apply u32_small.
  cbn [set_entry_loop]. unfold mbind, M_bind, get. rewrite El.
  destruct (ata_read_sector_ok s (fat_lba (g_fat s) i c)) as (d & E1 & Q1); [done|unfold is_u32 in *; lia|].
  rewrite E1. set (s1 := with_disk d s) in *.
  edestruct (fat_write_ok s1 (fat_lba (g_fat s) i c)) as (d2 & s2 & E2 & E3 & St2 & K2);
    [apply Q1|done|rewrite length_write_u16; rewrite sector_length; [done|apply entry_off_room]|apply write_u16_bytes, sector_bytes; done|].
  rewrite E2. change (0 <? 0) with false. cbv beta iota. rewrite E3. assert (Hf2 : g_fat s2 = g_fat s) by apply St2.
  destruct (IH (i + 1) s2) as (s3 & E4 & St3 & K3); [apply St2|by rewrite Hf2|done|lia|rewrite Hf2; lia|].
  exists s3. split; [done|]. split.
  { eapply fat_step_weaken, (fat_step_trans _ _ _ _ _ (fat_quiet_step _ _ Q1)), (fat_step_trans _ _ _ _ _ St2 St3).
    naive_solver. }
  intros j c' Hc'. rewrite K3, Hf2 by by rewrite Hf2.
  rewrite (fat_entry_write s s2 i c v); try done.
  - repeat case_decide; try done; naive_solver lia.
  - intros x. rewrite K2. destruct Q1 as [_ Q1]. by rewrite !Q1.
Qed.

Lemma fat16_set_entry_ok s c v : vol_ok s → is_entry (g_fat s) c → is_u16 v →
  ∃ s', fat16_set_entry c v s = Some (0, s') ∧ fat_step (λ _, False) s s' ∧
    ∀ j c', 0 ≤ j < fat_count (g_fat s) → is_entry (g_fat s) c' →
      fat_entry s' j c' = if decide (c' = c) then v else fat_entry s j c'.
Proof.
  intros Hs Hc Hv. assert (Hg := ok_geometry _ Hs).
  destruct (set_entry_loop_ok (Z.to_nat (fat_count (g_fat s))) 0 s c v) as (s' & E & St & K); [done..|destruct Hg; lia|].
  exists s'. split; [done|]. split; [done|]. intros j c' Hj Hc'. rewrite K by done.
  repeat case_decide; try done; naive_solver lia.
Qed.

(** ** Allocation *)

Lemma zero_sectors_ok n lba s : vol_ok s → fat_start_lba (g_fat s) + fat_count (g_fat s) * sectors_per_fat (g_fat s) ≤ lba →
  lba + Z.of_nat n ≤ disk_size (fs_disk s) →
  ∃ s', zero_sectors n lba s = Some (0, s') ∧ fat_step (λ x, lba ≤ x < lba + Z.of_nat n) s s' ∧
    (∀ x, sector (fs_disk s') x = if decide (lba ≤ x < lba + Z.of_nat n) then ZERO_SECTOR else sector (fs_disk s) x).
Proof.
  revert lba s. induction n as [|n IH]; intros lba s Hs Hf Hn.
  { exists s. split; [done|]. split.
    - eapply fat_step_weaken, fat_quiet_step, fat_quiet_refl; done.
    - intros x. by rewrite decide_False by lia. }
  assert (Hg := ok_geometry _ Hs). assert (0 ≤ lba) by (destruct Hg; nia).
  simpl. unfold mbind, M_bind.
  destruct (ata_write_sector_ok s lba ZERO_SECTOR) as (d & E & St & K); [done|lia|unfold in_fat; lia|done| |].
  { by apply Forall_replicate. }
  rewrite E. simpl. destruct n as [|n].
  { exists (with_disk d s). split; [done|]. split.
    - eapply fat_step_weaken; [|exact St]. simpl. lia.
    - intros x. simpl. rewrite K. repeat case_decide; try done; lia. }
  rewrite u32_small by (destruct Hg; unfold is_u32; lia).
  destruct (IH (lba + 1) (with_disk d s)) as (s' & E' & St' & K'); [apply St|simpl; lia|rewrite (st_size _ _ _ St); lia|].
  exists s'. split; [done|]. split.
  - eapply fat_step_weaken, (fat_step_trans _ _ _ _ _ St St'). simpl. lia.
  - intros x. rewrite K'. simpl fs_disk. rewrite K. repeat case_decide; try done; lia.
Qed.

Lemma zero_cluster f lba n : (∀ x, lba ≤ x < lba + Z.of_nat n → f x = ZERO_SECTOR) →
  sectors_at f lba n = replicate (512 * n) 0.
Proof.
  revert lba. induction n as [|n IH]; intros lba Hz; [done|]. cbn [sectors_at]. rewrite Hz by lia.
  rewrite IH by (intros x Hx; apply Hz; lia).
  unfold ZERO_SECTOR. rewrite <- replicate_add. f_equal. lia.
Qed.

(** A free cluster is taken. *)
Lemma take_cluster_ok s c : vol_ok s → is_cluster (g_fat s) c →
  ∃ s1 s2, fat16_set_entry c FAT16_EOC s = Some (0, s1) ∧
    zero_sectors (Z.to_nat (sectors_per_cluster (g_fat s1))) (cluster_to_lba (g_fat s1) c) s1 = Some (0, s2) ∧
    fat_step (in_cluster (g_fat s) c) s s2 ∧
    (∀ j c', 0 ≤ j < fat_count (g_fat s) → is_entry (g_fat s) c' →
       fat_entry s2 j c' = if decide (c' = c) then FAT16_EOC else fat_entry s j c') ∧
    cluster_data s2 c = replicate (512 * Z.to_nat (sectors_per_cluster (g_fat s))) 0.
Proof.
  intros Hs Hc. assert (Hg := ok_geometry _ Hs).
  destruct (fat16_set_entry_ok s c FAT16_EOC) as (s1 & E1 & St1 & K1); [done|by apply is_cluster_entry|done|].
  assert (F1 : g_fat s1 = g_fat s) by apply St1.
  destruct (zero_sectors_ok (Z.to_nat (sectors_per_cluster (g_fat s))) (cluster_lba (g_fat s) c) s1) as (s2 & E2 & St2 & K2).
  { apply St1. }
  { rewrite F1. unfold cluster_lba, is_cluster in *. destruct Hg. nia. }
  { rewrite (st_size _ _ _ St1). unfold cluster_lba, is_cluster in *. destruct Hg. nia. }
  rewrite <- (cluster_to_lba_eq _ _ _ Hg Hc) in E2. exists s1, s2. rewrite F1. split; [done|]. split; [done|].
  assert (F2 : g_fat s2 = g_fat s) by (rewrite <- F1; apply St2).
  split; [|split].
  - eapply fat_step_weaken, (fat_step_trans _ _ _ _ _ St1 St2). unfold in_cluster. destruct Hg. intros x. simpl. lia.
  - intros j c' Hj Hc'. rewrite <- K1 by done. unfold fat_entry. rewrite F1, F2, K2, decide_False; [done|].
    destruct (fat_lba_small _ _ j c' Hg Hj Hc') as (_ & Hin & _). unfold in_fat, cluster_lba, is_cluster in *. destruct Hg. nia.
  - unfold cluster_data. rewrite F2. apply zero_cluster. intros x Hx. by rewrite K2, decide_True.
Qed.

(** The free cluster [m] is marked as the end of a chain in every copy of the
    FAT, its bytes are zero, and nothing else is changed. *)
Record allocated (s s' : FS) (m : Z) : Prop := {
  al_cluster : is_cluster (g_fat s) m;
  al_free : fat_entry s 0 m = 0;
  al_step : fat_step (in_cluster (g_fat s) m) s s';
  al_entry j c : 0 ≤ j < fat_count (g_fat s) → is_entry (g_fat s) c →
    fat_entry s' j c = if decide (c = m) then FAT16_EOC else fat_entry s j c;
  al_data : cluster_data s' m = replicate (512 * Z.to_nat (sectors_per_cluster (g_fat s))) 0
}.

Lemma allocated_quiet s s1 s' m : fat_quiet s s1 → allocated s1 s' m → allocated s s' m.
Proof.
  intros Q [A1 A2 A3 A4 A5]. assert (F : g_fat s1 = g_fat s) by apply Q.
  assert (Hent : ∀ j c', fat_entry s1 j c' = fat_entry s j c') by (intros; by apply fat_quiet_entry).
  rewrite F in *. split; [done|by rewrite <- Hent| |intros j c' Hj Hc'; by rewrite A4, Hent by done|done].
  eapply fat_step_weaken, (fat_step_trans _ _ _ _ _ (fat_quiet_step _ _ Q) A3). naive_solver.
Qed.

Lemma alloc_loop_ok n c s : vol_ok s → 2 ≤ c → c + Z.of_nat n = cluster_count (g_fat s) + 2 →
  ∃ o s', alloc_loop n c s = Some (o, s') ∧
  match o with
  | None => fat_quiet s s' ∧ ∀ c', c ≤ c' < cluster_count (g_fat s) + 2 → fat_entry s 0 c' ≠ 0
  | Some m => c ≤ m ∧ (∀ c', c ≤ c' < m → fat_entry s 0 c' ≠ 0) ∧ allocated s s' m
  end.
Proof.
  revert c s. induction n as [|n IH]; intros c s Hs Hc Hn.
  { exists None, s. split; [done|]. split; [by apply fat_quiet_refl|]. intros; lia. }
  assert (Hcl : is_cluster (g_fat s) c) by (unfold is_cluster; lia).
  destruct (fat16_get_entry_ok s c) as (s1 & E1 & Q1); [done|by apply is_cluster_entry|].
  assert (F1 : g_fat s1 = g_fat s) by apply Q1. cbn [alloc_loop]. unfold mbind, M_bind, get. rewrite E1.
  assert (Hent : ∀ j c', fat_entry s1 j c' = fat_entry s j c') by (intros; by apply fat_quiet_entry).
  destruct (fat_entry s 0 c =? 0) eqn:Ez.
  - destruct (take_cluster_ok s1 c) as (s2 & s3 & E2 & E3 & St & K & Z); [apply Q1|by rewrite F1|].
    rewrite E2. change (0 <? 0) with false. cbv beta iota. rewrite E3.
    exists (Some c), s3. split; [done|]. split; [lia|]. split; [lia|].
    apply (allocated_quiet _ _ _ _ Q1). split; [by rewrite F1|rewrite Hent; lia|done..].
  - destruct (IH (c + 1) s1) as (o & s2 & E2 & K); [apply Q1|lia|rewrite F1; lia|]. rewrite F1 in K.
    assert (Hstep : ∀ c', (c + 1 ≤ c' → fat_entry s1 0 c' ≠ 0) → c ≤ c' → fat_entry s 0 c' ≠ 0).
    { intros c' K' Hc'. destruct (decide (c' = c)) as [->|]; [lia|]. rewrite <- Hent. apply K'. lia. }
    exists o, s2. split; [done|]. destruct o as [m|].
    + destruct K as (K1 & K2 & K3). split; [lia|]. split; [|by eapply allocated_quiet].
      intros c' Hc'. apply Hstep; [|lia]. intros ?. apply K2. lia.
    + destruct K as [K1 K2]. split; [by eapply fat_quiet_trans|].
      intros c' Hc'. apply Hstep; [|lia]. intros ?. apply K2. lia.
Qed.

Lemma fat16_alloc_cluster_ok s : vol_ok s →
  ∃ o s', fat16_alloc_cluster s = Some (o, s') ∧
  match o with
  | None => fat_quiet s s' ∧ ∀ c, is_cluster (g_fat s) c → fat_entry s 0 c ≠ 0
  | Some m => (∀ c, 2 ≤ c < m → fat_entry s 0 c ≠ 0) ∧ allocated s s' m
  end.
Proof.
  intros Hs. destruct (alloc_loop_ok (Z.to_nat (cluster_count (g_fat s))) 2 s) as (o & s' & E & K);
    [done|lia|destruct (ok_geometry _ Hs); lia|].
  exists o, s'. split; [done|]. destruct o; naive_solver.
Qed.

(** ** Chains *)

(** The clusters of the chain that starts at [c], in a table: none is marked free. *)
Inductive chain (g : fat16_state_t) (fat : Z → Z) : Z → list Z → Prop :=
| chain_end c : in_chain c = false → chain g fat c []
| chain_link c l : is_cluster g c → fat c ≠ 0 → c ∉ l → chain g fat (fat c) l → chain g fat c (c :: l).

Lemma in_chain_cluster g n c : geometry g n → is_cluster g c → in_chain c = true.
Proof. intros [] Hc. unfold in_chain, is_cluster in *. lia. Qed.

Lemma chain_clusters g fat c l : chain g fat c l → Forall (is_cluster g) l ∧ NoDup l.
Proof.
  induction 1 as [|c l Hc H0 Hl _ [IH1 IH2]]; [split; constructor|]. split; by constructor.
Qed.

Lemma chain_ext g fat fat' c l : (∀ x, x ∈ l → fat' x = fat x) → chain g fat c l → chain g fat' c l.
Proof.
  intros He Hch. induction Hch as [c|c l Hc H0 Hl Hch IH]; [by constructor|].
  assert (Ec : fat' c = fat c) by (apply He; constructor). constructor; [done|by rewrite Ec|done|]. rewrite Ec.
  apply IH. intros x Hx. apply He. by constructor.
Qed.

(** A chain has no more clusters than the volume. *)
Lemma chain_length g fat c l : chain g fat c l → 0 ≤ cluster_count g → Z.of_nat (length l) ≤ cluster_count g.
Proof.
  intros [Hc Hd]%chain_clusters H0.
  assert (Hin : ∀ x, x ∈ l → x ∈ seqZ 2 (cluster_count g)).
  { intros x Hx. apply elem_of_seqZ. rewrite Forall_forall in Hc. specialize (Hc x Hx). unfold is_cluster in Hc. lia. }
  pose proof (submseteq_length _ _ (NoDup_submseteq _ _ Hd Hin)) as Hlen. rewrite length_seqZ in Hlen. lia.
Qed.

Lemma free_loop_ok n c l s : vol_ok s → chain (g_fat s) (fat_entry s 0) c l → (length l < n)%nat →
  ∃ s', free_loop n c s = Some (0, s') ∧ fat_step (λ _, False) s s' ∧
    ∀ j c', 0 ≤ j < fat_count (g_fat s) → is_entry (g_fat s) c' →
      fat_entry s' j c' = if decide (c' ∈ l) then 0 else fat_entry s j c'.
Proof.
  revert c n s. induction l as [|x l IH]; intros c n s Hs Hch Hn.
  - inversion Hch as [c0 Hc|]; subst. exists s. destruct n as [|n]; [simpl in Hn; lia|]. simpl. rewrite Hc.
    split; [done|]. split; [by apply fat_quiet_step, fat_quiet_refl|]. done.
  - inversion Hch as [|c0 l0 Hc H0 Hl Hch']; subst. destruct n as [|n]; [simpl in Hn; lia|].
    assert (Hg := ok_geometry _ Hs). assert (Hne : fat_entry s 0 x ≠ x).
    { intros E. rewrite E in Hch'. inversion Hch' as [c1 Hin|]; subst; [|by apply Hl; constructor].
      by rewrite (in_chain_cluster _ _ _ Hg Hc) in Hin. }
    cbn [free_loop]. rewrite (in_chain_cluster _ _ _ Hg Hc). cbn [negb]. unfold mbind, M_bind.
    destruct (fat16_get_entry_ok s x) as (s1 & E1 & Q1); [done|by apply is_cluster_entry|].
    assert (F1 : g_fat s1 = g_fat s) by apply Q1. rewrite E1.
    destruct (fat16_set_entry_ok s1 x 0) as (s2 & E2 & St2 & K2);
      [apply Q1|rewrite F1; by apply is_cluster_entry|done|].
    assert (F2 : g_fat s2 = g_fat s) by (rewrite <- F1; apply St2). rewrite F1 in K2.
    rewrite E2. change (0 <? 0) with false. cbv beta iota. rewrite (proj2 (Z.eqb_neq _ _) Hne).
    assert (K : ∀ j c', 0 ≤ j < fat_count (g_fat s) → is_entry (g_fat s) c' →
                  fat_entry s2 j c' = if decide (c' = x) then 0 else fat_entry s j c').
    { intros j c' Hj Hc'. rewrite K2 by done. by rewrite (fat_quiet_entry s s1). }
    destruct (chain_clusters _ _ _ _ Hch') as [Hcl _]. rewrite Forall_forall in Hcl.
    destruct (IH (fat_entry s 0 x) n s2) as (s3 & E3 & St3 & K3); [apply St2| |simpl in Hn; lia|].
    { rewrite F2. eapply chain_ext; [|exact Hch']. intros y Hy.
      rewrite K, decide_False; [done|by intros ->|destruct Hg; lia|by apply is_cluster_entry, Hcl]. }
    exists s3. split; [done|]. split.
    { eapply fat_step_weaken, (fat_step_trans _ _ _ _ _ (fat_quiet_step _ _ Q1)), (fat_step_trans _ _ _ _ _ St2 St3).
      naive_solver. }
    intros j c' Hj Hc'. rewrite K3, K by by rewrite ?F2. repeat case_decide; set_solver.
Qed.

Lemma fat16_free_chain_ok s c l : vol_ok s → chain (g_fat s) (fat_entry s 0) c l →
  ∃ s', fat16_free_chain c s = Some (0, s') ∧ fat_step (λ _, False) s s' ∧
    ∀ j c', 0 ≤ j < fat_count (g_fat s) → is_entry (g_fat s) c' →
      fat_entry s' j c' = if decide (c' ∈ l) then 0 else fat_entry s j c'.
Proof.
  intros Hs Hch. apply free_loop_ok; [done..|].
  pose proof (chain_length _ _ _ _ Hch). destruct (ok_geometry _ Hs). lia.
Qed.
End fat_table.
