(* ===== verification/FatFile.v ===== *)
(** * Files on a FAT16 volume

    [fat16_vfs_read] and [fat16_vfs_write] of [src/src/fs/fat16.c] against their
    contract: a file is an array of bytes, the clusters of its chain one after
    the other.  A read returns a slice of it, whichever of the three ways of
    reading a cluster is taken; a write stores into it and extends the chain with
    free clusters, and the clusters of other chains keep their contents. *)

From S2P Require Import Prelude CLib KHeap Pipe Vfs Disk Fat16 FatTable.

(** ** Slices *)

(** The bytes taken in two parts. *)
Lemma take_split {A} (l : list A) (m n k : nat) : (k ≤ n)%nat →
  take n (drop m l) = take k (drop m l) ++ take (n - k) (drop (m + k) l).
Proof.
  intros Hk. rewrite <- (drop_drop l k m). rewrite take_take_drop. f_equal. lia.
Qed.

Lemma take_drop_app_l {A} (a b : list A) m n : (m ≤ length a)%nat →
  take n (drop m (a ++ b)) = take n (drop m a) ++ take (n - (length a - m)) b.
Proof.
  intros Hm. rewrite drop_app_le, take_app by done. by rewrite length_drop.
Qed.

Lemma Some_pair_eq {A B C} (a a' : A) (b : B) (c : C) : a = a' → Some ((a, b), c) = Some ((a', b), c).
Proof. by intros ->. Qed.

Section fat_file.
Context {D H : Type} `{!BlockDev D} `{!KHeap H}.
Notation FS := (fs_t D H).
Implicit Types (s : FS) (g : fat16_state_t).

(** The bytes of a cluster, and those of a chain. *)
Definition cluster_size (g : fat16_state_t) : Z := sectors_per_cluster g * 512.
Definition file_data (s : FS) (l : list Z) : list Z := concat (cluster_data s <$> l).

Lemma cluster_data_length s c : length (cluster_data s c) = Z.to_nat (512 * sectors_per_cluster (g_fat s)).
Proof. unfold cluster_data. rewrite sectors_at_length by apply sector_length. lia. Qed.

Lemma file_data_length s l : 0 ≤ sectors_per_cluster (g_fat s) →
  Z.of_nat (length (file_data s l)) = cluster_size (g_fat s) * Z.of_nat (length l).
Proof.
  intros Hs. unfold file_data, cluster_size. induction l as [|c l IH]; [simpl; lia|].
  rewrite fmap_cons. cbn [concat]. rewrite length_app, Nat2Z.inj_add, IH, cluster_data_length. simpl length. lia.
Qed.

Lemma file_data_quiet s s' l : fat_quiet s s' → file_data s' l = file_data s l.
Proof.
  intros Q. unfold file_data. f_equal. apply list_fmap_ext. intros i c _. by apply fat_quiet_cluster.
Qed.

(** ** Reading *)

Lemma chain_quiet s s' c l : fat_quiet s s' → chain (g_fat s) (fat_entry s 0) c l → chain (g_fat s') (fat_entry s' 0) c l.
Proof.
  intros Q Hch. assert (F : g_fat s' = g_fat s) by apply Q. rewrite F. eapply chain_ext; [|done].
  intros x _. by apply fat_quiet_entry.
Qed.

Lemma chain_head g fat c x l : chain g fat c (x :: l) →
  c = x ∧ is_cluster g c ∧ fat c ≠ 0 ∧ c ∉ l ∧ chain g fat (fat c) l.
Proof. inversion 1; subst. auto. Qed.

Lemma chain_in s c x l : vol_ok s → chain (g_fat s) (fat_entry s 0) c (x :: l) → in_chain c = true.
Proof. intros Hs (_ & Hc & _)%chain_head. eapply in_chain_cluster; [apply Hs|done]. Qed.

Lemma in_chain_bounds c : in_chain c = true → (65528 <=? c) = false ∧ (c =? FAT16_EOC) = false ∧ (c <? 2) = false.
Proof. unfold in_chain, FAT16_EOC. lia. Qed.

Lemma skip_clusters_ok n c l s : vol_ok s → chain (g_fat s) (fat_entry s 0) c l → (n < length l)%nat →
  ∃ cl s', skip_clusters n c s = Some (Some cl, s') ∧ fat_quiet s s' ∧ l !! n = Some cl ∧
    chain (g_fat s) (fat_entry s 0) cl (drop n l).
Proof.
  revert c l s. induction n as [|n IH]; intros c l s Hs Hch Hn.
  { destruct l as [|x l]; [simpl in Hn; lia|]. destruct (chain_head _ _ _ _ _ Hch) as (-> & _).
    exists x, s. split; [done|]. split; [by apply fat_quiet_refl|done]. }
  destruct l as [|x l]; [simpl in Hn; lia|]. destruct (chain_head _ _ _ _ _ Hch) as (-> & Hc & _ & _ & Hch').
  destruct (fat16_get_entry_ok s x) as (s1 & E1 & Q1); [done|by apply is_cluster_entry|].
  cbn [skip_clusters]. unfold mbind, M_bind. rewrite E1.
  destruct (IH (fat_entry s 0 x) l s1) as (cl & s' & E & Q & Hl & Hd);
    [apply Q1|by eapply chain_quiet|simpl in Hn; lia|].
  destruct l as [|y l]; [simpl in Hn; lia|].
  destruct (in_chain_bounds _ (chain_in _ _ _ _ Hs Hch')) as (-> & -> & ->).
  exists cl, s'. split; [done|]. split; [by eapply fat_quiet_trans|]. split; [done|].
  assert (F1 : g_fat s1 = g_fat s) by apply Q1. rewrite <- F1. eapply chain_ext; [|exact Hd].
  intros z _. symmetry. by apply fat_quiet_entry.
Qed.

(** What a read of [len] bytes has after the bytes [out], from [data]. *)
Definition read_more (len : Z) (out : list Z) (in_cluster : Z) (data : list Z) : list Z :=
  out ++ take (Z.to_nat (len - Z.of_nat (length out))) (drop (Z.to_nat in_cluster) data).

Lemma read_singly_ok n k lba inc len out s : vol_ok s → 0 ≤ k → 0 ≤ lba → 0 ≤ inc →
  lba + k + Z.of_nat n ≤ disk_size (fs_disk s) →
  ∃ s', read_singly n k lba inc len out s =
          Some ((read_more len out (Z.max inc (k * 512)) (sectors_at (sector (fs_disk s)) lba (Z.to_nat k + n)), false), s') ∧
        fat_quiet s s'.
Proof.
  revert k out s. induction n as [|n IH]; intros k out s Hs Hk Hl Hi Hn.
  { exists s. split; [|by apply fat_quiet_refl]. simpl. apply Some_pair_eq. unfold read_more.
    rewrite drop_ge, take_nil, app_nil_r; [done|]. rewrite sectors_at_length by apply sector_length. lia. }
  set (data := sectors_at _ _ _). assert (Hdata : length data = (512 * (Z.to_nat k + S n))%nat).
  { apply sectors_at_length, sector_length. }
  cbn [read_singly]. destruct (Z.of_nat (length out) <? len) eqn:E1; cbn [negb].
  2: { exists s. split; [|by apply fat_quiet_refl]. apply Some_pair_eq. unfold read_more.
       replace (Z.to_nat (len - _)) with 0%nat by lia. by rewrite take_0, app_nil_r. }
  unfold FAT16_SECTOR_SIZE. destruct (k * 512 + 512 <=? inc) eqn:E2.
  { destruct (IH (k + 1) out s) as (s' & E & Q); [done|lia..|]. exists s'. split; [|done]. rewrite E.
    replace (Z.to_nat (k + 1) + n)%nat with (Z.to_nat k + S n)%nat by lia. fold data.
    by replace (Z.max inc ((k + 1) * 512)) with (Z.max inc (k * 512)) by lia. }
  rewrite u32_small by (destruct (ok_geometry _ Hs); unfold is_u32; lia). unfold mbind, M_bind.
  destruct (ata_read_sector_ok s (lba + k)) as (d & E3 & Q3); [done|lia|]. rewrite E3.
  remember (Z.max inc (k * 512)) as m eqn:Hm. remember (len - Z.of_nat (length out)) as need eqn:Hneed.
  assert (Hsec : sector (fs_disk s) (lba + k) = take 512 (drop (512 * Z.to_nat k) data)).
  { unfold data. rewrite sectors_at_drop by (try apply sector_length; lia). f_equal. lia. }
  remember (Z.min (512 * (k + 1) - m) need) as a eqn:Hamin.
  replace (take (Z.to_nat (if _ <? _ then _ else _)) _) with (take (Z.to_nat a) (drop (Z.to_nat m) data)).
  2: { rewrite Hsec. destruct (k * 512 <? inc) eqn:E4; destruct (512 - _ <? need) eqn:E5.
       all: rewrite skipn_firstn_comm, take_take, drop_drop; f_equal; [lia|f_equal; lia]. }
  destruct (IH (k + 1) (out ++ take (Z.to_nat a) (drop (Z.to_nat m) data)) (with_disk d s)) as (s' & E & Q);
    [apply Q3|lia..|rewrite (st_size _ _ _ (q_step _ _ Q3)); lia|].
  exists s'. split; [|by eapply fat_quiet_trans]. rewrite E. replace (Z.to_nat (k + 1) + n)%nat with (Z.to_nat k + S n)%nat by lia.
  rewrite (sectors_at_ext _ (sector (fs_disk s))) by (intros x _; apply (q_sector _ _ Q3)). fold data.
  apply Some_pair_eq. unfold read_more. rewrite <- app_assoc. f_equal. rewrite <- Hneed.
  assert (Ha : length (take (Z.to_nat a) (drop (Z.to_nat m) data)) = Z.to_nat a).
  { rewrite length_take, length_drop, Hdata. lia. }
  rewrite length_app, Ha, (take_split data (Z.to_nat m) (Z.to_nat need) (Z.to_nat a)) by lia. f_equal.
  destruct (decide (a = need)) as [Ean|].
  - replace (Z.to_nat need - Z.to_nat a)%nat with 0%nat by lia. rewrite take_0.
    replace (Z.to_nat _) with 0%nat by lia. by rewrite take_0.
  - f_equal; [lia|]. f_equal. lia.
Qed.

Lemma read_cluster_ok b spc lba inc len out s : vol_ok s → 0 ≤ lba → 1 ≤ spc < 256 → lba + spc ≤ disk_size (fs_disk s) →
  0 ≤ inc < spc * 512 → Z.of_nat (length out) < len →
  ∃ s', read_cluster b spc lba inc len out s =
          Some ((read_more len out inc (sectors_at (sector (fs_disk s)) lba (Z.to_nat spc)), false), s') ∧ fat_quiet s s'.
Proof.
  intros Hs Hl Hspc Hz Hi Hlen. set (data := sectors_at _ _ _).
  assert (Hdata : length data = (512 * Z.to_nat spc)%nat) by apply sectors_at_length, sector_length.
  unfold read_cluster, FAT16_SECTOR_SIZE. destruct b; cbn [andb].
  - destruct (ata_read_ok s lba spc) as (d & E & Q); [done..|]. unfold mbind, M_bind.
    destruct ((inc =? 0) && _) eqn:E1; rewrite E; fold data; exists (with_disk d s); (split; [|done]); apply Some_pair_eq;
      unfold read_more; f_equal.
    + apply andb_true_iff in E1 as [E1 E2]. replace inc with 0 by lia. rewrite drop_0, take_ge; [done|lia].
    + destruct (_ <? len - _) eqn:E3; [|done]. rewrite !take_ge; [done|rewrite length_drop; lia..].
  - destruct (read_singly_ok (Z.to_nat spc) 0 lba inc len out s) as (s' & E & Q); [done|lia..|].
    exists s'. split; [|done]. rewrite E. by replace (Z.max inc (0 * 512)) with inc by lia.
Qed.

Lemma cluster_lba_range s c : vol_ok s → is_cluster (g_fat s) c →
  0 ≤ cluster_lba (g_fat s) c ∧ cluster_lba (g_fat s) c + sectors_per_cluster (g_fat s) ≤ disk_size (fs_disk s) ∧
  ∀ x, in_cluster (g_fat s) c x → ¬ in_fat (g_fat s) x.
Proof.
  intros Hs Hc. destruct (ok_geometry _ Hs). unfold in_cluster, in_fat, cluster_lba, is_cluster in *.
  repeat split; [nia..|]. intros x Hx. nia.
Qed.

Lemma read_more_app len out inc a b : 0 ≤ inc ≤ Z.of_nat (length a) → Z.of_nat (length out) ≤ len →
  read_more len (read_more len out inc a) 0 b = read_more len out inc (a ++ b).
Proof.
  intros Hi Hl. unfold read_more. rewrite <- app_assoc. f_equal. rewrite take_drop_app_l by lia. f_equal.
  rewrite drop_0, length_app, length_take, length_drop. f_equal. lia.
Qed.

Lemma read_more_full len out inc data : 0 ≤ inc → Z.of_nat (length out) ≤ len →
  Z.of_nat (length (read_more len out inc data)) =
  Z.of_nat (length out) + Z.min (len - Z.of_nat (length out)) (Z.max 0 (Z.of_nat (length data) - inc)).
Proof. intros Hi Hl. unfold read_more. rewrite length_app, length_take, length_drop. lia. Qed.

(** Enough fuel: after the first cluster each one adds 512 bytes or is the last. *)
Lemma fat_read_loop_ok fuel b c l inc len out s : vol_ok s → chain (g_fat s) (fat_entry s 0) c l →
  0 ≤ inc < cluster_size (g_fat s) → Z.of_nat (length out) ≤ len → (1 ≤ fuel)%nat →
  len - Z.of_nat (length out) ≤ 512 * (Z.of_nat fuel - 1) - (if decide (inc = 0) then 0 else 512) →
  ∃ s', read_loop fuel b c inc len out s = Some (read_more len out inc (file_data s l), s') ∧ fat_quiet s s'.
Proof.
  revert c l inc out s. induction fuel as [|fuel IH]; intros c l inc out s Hs Hch Hi Hlen Hf Hfuel; [lia|].
  cbn [read_loop]. destruct (Z.of_nat (length out) <? len) eqn:E1; cbn [negb orb].
  2: { exists s. split; [|by apply fat_quiet_refl]. unfold read_more. replace (Z.to_nat (len - _)) with 0%nat by lia.
       by rewrite take_0, app_nil_r. }
  destruct l as [|x l].
  { inversion Hch as [c' Hin|]; subst. rewrite Hin. exists s. split; [|by apply fat_quiet_refl].
    unfold read_more, file_data. simpl. by rewrite drop_nil, take_nil, app_nil_r. }
  rewrite (chain_in _ _ _ _ Hs Hch). cbn [negb]. destruct (chain_head _ _ _ _ _ Hch) as (-> & Hc & _ & _ & Hch').
  assert (Hg := ok_geometry _ Hs). destruct (cluster_lba_range _ _ Hs Hc) as (L1 & L2 & _).
  unfold mbind, M_bind, get. rewrite (cluster_to_lba_eq _ _ _ Hg Hc). unfold cluster_size in *.
  destruct (read_cluster_ok b (sectors_per_cluster (g_fat s)) (cluster_lba (g_fat s) x) inc len out s)
    as (s1 & E2 & Q1); [done..|apply Hg|done|done|lia|]. rewrite E2. fold (cluster_data s x).
  assert (F1 : g_fat s1 = g_fat s) by apply Q1.
  destruct (fat16_get_entry_ok s1 x) as (s2 & E3 & Q2); [apply Q1|rewrite F1; by apply is_cluster_entry|].
  rewrite E3, (fat_quiet_entry s s1) by done. assert (Q : fat_quiet s s2) by by eapply fat_quiet_trans.
  assert (Hcd := cluster_data_length s x).
  assert (Hrm := read_more_full len out inc (cluster_data s x)). destruct Hg.
  destruct (IH (fat_entry s 0 x) l 0 (read_more len out inc (cluster_data s x)) s2) as (s3 & E4 & Q3).
  { apply Q. }
  { by apply (chain_quiet s). }
  { assert (F : g_fat s2 = g_fat s) by apply Q. rewrite F. lia. }
  { lia. }
  { case_decide; lia. }
  { rewrite Hrm by lia. rewrite decide_True by done. case_decide; lia. }
  exists s3. split; [|by eapply fat_quiet_trans]. rewrite E4, (file_data_quiet s s2), read_more_app by (done || lia).
  done.
Qed.

(** ** The operations on an open file *)

(** Nothing but the caches, the buffers of the heap and the open file [h], which
    becomes [f], is changed, and the sectors of [P]. *)
Record file_step (P : Z → Prop) (h : nat) (f : fat16_open_t) (s s' : FS) : Prop := {
  fs_ok : vol_ok s';
  fs_fat : g_fat s' = g_fat s;
  fs_open : g_open s' = <[h := f]> (g_open s);
  fs_rdcache : rdcache s' = rdcache s;
  fs_live : live (fs_heap s') = live (fs_heap s);
  fs_size : disk_size (fs_disk s') = disk_size (fs_disk s);
  fs_sector x : ¬ in_fat (g_fat s) x → ¬ P x → sector (fs_disk s') x = sector (fs_disk s) x
}.

Lemma fat_step_file P h f s s' : g_open s !! h = Some f → fat_step P s s' → file_step P h f s s'.
Proof.
  intros Hf []. split; try done; [|congruence]. by rewrite list_insert_id.
Qed.

Lemma vol_ok_heap s h : vol_ok s → vol_ok (with_heap h s).
Proof. intros [Hg Hh [C1 C2 C3]]. split; [done..|]. by split. Qed.

Lemma vol_ok_open s l : vol_ok s → vol_ok (with_open l s).
Proof. intros [Hg Hh [C1 C2 C3]]. split; [done..|]. by split. Qed.

(** A file read leaves everything but the caches as it was, the heap up to a
    block that is allocated and released. *)
Record read_effect (s s' : FS) : Prop := {
  re_ok : vol_ok s';
  re_fat : g_fat s' = g_fat s;
  re_open : g_open s' = g_open s;
  re_rdcache : rdcache s' = rdcache s;
  re_live : live (fs_heap s') = live (fs_heap s);
  re_size : disk_size (fs_disk s') = disk_size (fs_disk s);
  re_sector x : sector (fs_disk s') x = sector (fs_disk s) x
}.

Lemma fat_quiet_read s s' : fat_quiet s s' → read_effect s s'.
Proof. intros [[] Hx]. split; try done. congruence. Qed.

Lemma read_effect_trans s1 s2 s3 : read_effect s1 s2 → read_effect s2 s3 → read_effect s1 s3.
Proof. intros [] []. split; congruence. Qed.

Lemma file_data_drop s k l : (k ≤ length l)%nat → 0 ≤ sectors_per_cluster (g_fat s) →
  file_data s (drop k l) = drop (Z.to_nat (cluster_size (g_fat s) * Z.of_nat k)) (file_data s l).
Proof.
  intros Hk Hg. rewrite <- (take_drop k l) at 2. unfold file_data. rewrite fmap_app, concat_app.
  fold (file_data s (take k l)) (file_data s (drop k l)).
  pose proof (file_data_length s (take k l) Hg) as Hlen. rewrite length_take, Nat.min_l in Hlen by done.
  rewrite drop_app_ge by lia. replace (_ - _)%nat with 0%nat by lia. by rewrite drop_0.
Qed.

(** The buffer, where one is wanted and there is room. *)
Lemma bulk_buffer_ok (want : bool) s : vol_ok s → ∃ b hp,
  (if want then bulk_alloc else mret None) s = Some (b, with_heap hp s) ∧ vol_ok (with_heap hp s) ∧
  ∀ s', fs_heap s' = hp → ∃ s'', (match b with Some p => bulk_free p | None => mret tt end) s' = Some (tt, s'') ∧
    s'' = with_heap (fs_heap s'') s' ∧ live (fs_heap s'') = live (fs_heap s).
Proof.
  intros Hs. destruct want.
  - unfold bulk_alloc. destruct (kmalloc 4096 (fs_heap s)) as [[p|] hp] eqn:Ek.
    + exists (Some p), hp. split; [done|]. split; [by apply vol_ok_heap|]. intros s' Hs'.
      exists (with_heap (kfree p (fs_heap s')) s'). split; [done|]. split; [done|]. simpl. subst.
      by eapply kmalloc_kfree_live.
    + exists None, hp. split; [done|]. split; [by apply vol_ok_heap|]. intros s' Hs'. exists s'.
      split; [done|]. split; [by destruct s'|]. rewrite Hs'. by eapply kmalloc_None.
  - exists None, (fs_heap s). split; [by destruct s|]. split; [by apply vol_ok_heap|]. intros s' Hs'. exists s'.
    split; [done|]. split; [by destruct s'|]. by rewrite Hs'.
Qed.

Lemma fat16_read_file_ok s c l pos len : vol_ok s → chain (g_fat s) (fat_entry s 0) c l → 0 ≤ pos → 0 ≤ len →
  pos < cluster_size (g_fat s) * Z.of_nat (length l) →
  ∃ s', fat16_read_file c pos len s = Some (take (Z.to_nat len) (drop (Z.to_nat pos) (file_data s l)), s') ∧ read_effect s s'.
Proof.
  intros Hs Hch Hp Hl Hcap. assert (Hg := ok_geometry _ Hs). unfold fat16_read_file.
  destruct (Z.eqb_spec len 0) as [->|Hlen]; cbn [orb].
  { exists s. split; [done|]. by apply fat_quiet_read, fat_quiet_refl. }
  destruct l as [|x l]; [simpl in Hcap; lia|]. destruct (in_chain_bounds c) as (_ & _ & ->); [by eapply chain_in|].
  set (cs := cluster_size (g_fat s)) in *. assert (Hcs : 0 < cs) by (unfold cs, cluster_size; destruct Hg; lia).
  unfold mbind, M_bind, get, FAT16_SECTOR_SIZE. fold (cluster_size (g_fat s)). fold cs.
  assert (Hq : 0 ≤ pos / cs < Z.of_nat (length (x :: l))).
  { split; [by apply Z.div_pos|]. by apply Z.div_lt_upper_bound. }
  destruct (skip_clusters_ok (Z.to_nat (pos / cs)) c (x :: l) s) as (cl & s1 & E1 & Q1 & Hcl & Hch1); [done..|lia|].
  rewrite E1.
  destruct (bulk_buffer_ok (sectors_per_cluster (g_fat s) <=? 8) s1) as (b & hp & E2 & Hs2 & Hfree); [apply Q1|].
  rewrite E2. set (s2 := with_heap hp s1) in *. assert (F2 : g_fat s2 = g_fat s) by apply Q1.
  assert (Hch2 : chain (g_fat s2) (fat_entry s2 0) cl (drop (Z.to_nat (pos / cs)) (x :: l))) by by apply (chain_quiet s s1).
  edestruct (fat_read_loop_ok (Z.to_nat (len / 512 + 3)) (match b with Some _ => true | None => false end)
               cl _ (pos mod cs) len [] s2 Hs2 Hch2) as (s3 & E3 & Q3);
    [rewrite F2; by apply Z.mod_pos_bound|simpl; lia|mlia|simpl; case_decide; mlia|].
  rewrite E3. destruct (Hfree s3) as (s4 & E4 & Hs4 & Hlive); [by apply Q3|]. rewrite E4. exists s4.
  split.
  - unfold mret, M_ret, read_more. cbn [app length Z.of_nat]. rewrite Z.sub_0_r. do 3 f_equal.
    change (file_data s2 _) with (file_data s1 (drop (Z.to_nat (pos / cs)) (x :: l))).
    rewrite (file_data_quiet s s1), file_data_drop, drop_drop by (done || lia || (destruct Hg; lia)). f_equal.
    fold cs. rewrite <- Z2Nat.inj_add, Z2Nat.id, <- Z.div_mod by (try apply Z.mod_pos_bound; lia). done.
  - eapply read_effect_trans; [apply fat_quiet_read, Q1|]. destruct Q3 as [[] Hx].
    assert (Hs4v : vol_ok s4) by (rewrite Hs4; by apply vol_ok_heap).
    split; try done; rewrite Hs4; try done.
Qed.

(** An open file with the clusters [l]. *)
Record open_file (s : FS) (h : nat) (f : fat16_open_t) (l : list Z) : Prop := {
  of_handle : (h < FAT16_MAX_OPEN)%nat;
  of_slot : g_open s !! h = Some f;
  of_in_use : o_in_use f = true;
  of_chain : chain (g_fat s) (fat_entry s 0) (o_first_cluster f) l;
  of_first : l = [] → o_first_cluster f < 2;
  of_size : 0 ≤ o_size f ≤ cluster_size (g_fat s) * Z.of_nat (length l);
  of_pos : 0 ≤ o_pos f ≤ o_size f;
  of_small : o_size f ≤ 2147483647
}.

(** The contents of the file. *)
Definition file_bytes (s : FS) (f : fat16_open_t) (l : list Z) : list Z := take (Z.to_nat (o_size f)) (file_data s l).

Lemma file_bytes_length s h f l : vol_ok s → open_file s h f l → Z.of_nat (length (file_bytes s f l)) = o_size f.
Proof.
  intros Hs Ho. unfold file_bytes. rewrite length_take.
  pose proof (file_data_length s l). destruct (ok_geometry _ Hs), Ho. lia.
Qed.

Lemma open_handle_ok s h f l : open_file s h f l → open_handle (Z.of_nat h) s = Some h.
Proof.
  intros Ho. destruct Ho as [Hh Hf Hu _ _ _ _ _]. unfold open_handle. destruct (_ || _) eqn:E; [lia|].
  rewrite Nat2Z.id, Hf. simpl. by rewrite Hu.
Qed.

Lemma fat16_vfs_read_ok s h f l len : vol_ok s → mounted (g_fat s) = true → open_file s h f l →
  Z.land (o_flags f) 3 ≠ O_WRONLY → 0 ≤ len →
  let bytes := take (Z.to_nat len) (drop (Z.to_nat (o_pos f)) (file_bytes s f l)) in
  ∃ s', fat16_vfs_read (Z.of_nat h) len s = Some ((Z.of_nat (length bytes), bytes), s') ∧
    file_step (λ _, False) h (set_o_pos (o_pos f + Z.of_nat (length bytes)) f) s s' ∧
    (∀ x, sector (fs_disk s') x = sector (fs_disk s) x).
Proof.
  intros Hs Hm Ho Hfl Hlen bytes. assert (Hlb := file_bytes_length _ _ _ _ Hs Ho).
  assert (Hb : length bytes = Z.to_nat (Z.min len (o_size f - o_pos f))).
  { unfold bytes. rewrite length_take, length_drop. destruct Ho. lia. }
  unfold fat16_vfs_read, mbind, M_bind, get, get_open. rewrite Hm, (open_handle_ok _ _ _ _ Ho). cbn [negb].
  destruct Ho as [Hh Hf Hu Hch _ Hsz Hps Hsm]. rewrite Hf. cbn [mbind option_bind].
  rewrite (proj2 (Z.eqb_neq _ _) Hfl).
  destruct (Z.leb_spec (o_size f) (o_pos f)).
  { assert (E : bytes = []) by (apply nil_length_inv; lia). exists s. rewrite E. split; [done|]. split; [|done].
    simpl. rewrite Z.add_0_r. replace (set_o_pos (o_pos f) f) with f by by destruct f.
    by apply fat_step_file, fat_quiet_step, fat_quiet_refl. }
  replace (if _ <? len then _ else len) with (Z.min len (o_size f - o_pos f)) by (case_match; lia).
  destruct (fat16_read_file_ok s (o_first_cluster f) l (o_pos f) (Z.min len (o_size f - o_pos f)))
    as (s' & E & R); [done|done|lia..|]. rewrite E.
  replace (take _ (drop _ (file_data s l))) with bytes.
  2: { unfold bytes, file_bytes. rewrite skipn_firstn_comm, take_take. f_equal. lia. }
  destruct R. destruct (0 <? Z.of_nat (length bytes)) eqn:E0.
  - unfold upd_open. rewrite re_open0, Hf. cbn [mbind option_bind]. eexists. split.
    + rewrite (s32_small (Z.of_nat _)) by (unfold is_s32; lia). rewrite u32_small by (unfold is_u32; lia). done.
    + split; [|done]. split; try done. by apply vol_ok_open.
  - assert (En : bytes = []) by (apply nil_length_inv; lia). rewrite En in *. simpl in *. eexists. split; [done|]. split; [|done].
    rewrite Z.add_0_r. replace (set_o_pos (o_pos f) f) with f by by destruct f.
    split; try done. by rewrite list_insert_id.
Qed.

(** ** Extending a chain *)

(** The chain [l] has become the chain from [c] of the clusters [l ++ new] with the
    bytes [data]; the clusters [new] were free; the entries and the contents of
    the other clusters are as they were. *)
Record extended (h : nat) (f : fat16_open_t) (s s' : FS) (c : Z) (l new data : list Z) : Prop := {
  ex_step : file_step (λ x, ∃ m, m ∈ l ++ new ∧ in_cluster (g_fat s) m x) h f s s';
  ex_new m : m ∈ new → is_cluster (g_fat s) m ∧ fat_entry s 0 m = 0;
  ex_chain : chain (g_fat s) (fat_entry s' 0) c (l ++ new);
  ex_other j x : 0 ≤ j < fat_count (g_fat s) → is_entry (g_fat s) x → x ∉ l → x ∉ new → fat_entry s' j x = fat_entry s j x;
  ex_data : file_data s' (l ++ new) = data
}.

Lemma chain_used g fat c l x : chain g fat c l → x ∈ l → fat x ≠ 0.
Proof. induction 1; set_solver. Qed.

Lemma in_cluster_inj g n c c' x : geometry g n → in_cluster g c x → in_cluster g c' x → c = c'.
Proof. intros [] H1 H2. unfold in_cluster, cluster_lba in *. nia. Qed.

Lemma file_step_trans P Q R h f1 f2 s1 s2 s3 : (∀ x, P x ∨ Q x → R x) →
  file_step P h f1 s1 s2 → file_step Q h f2 s2 s3 → file_step R h f2 s1 s3.
Proof.
  intros HR [] []. split; try congruence.
  - rewrite fs_open1, fs_open0. apply list_insert_insert_eq.
  - intros x Hx Hr. rewrite fs_sector1; [apply fs_sector0; naive_solver|congruence|naive_solver].
Qed.

Lemma file_step_weaken (P Q : Z → Prop) h f s s' : (∀ x, P x → Q x) → file_step P h f s s' → file_step Q h f s s'.
Proof. intros HPQ []. split; try done. naive_solver. Qed.

Lemma extended_trans h f1 f2 s s1 s2 c1 c2 l new1 new2 d1 d2 : vol_ok s →
  extended h f1 s s1 c1 l new1 d1 → extended h f2 s1 s2 c2 (l ++ new1) new2 d2 →
  extended h f2 s s2 c2 l (new1 ++ new2) d2.
Proof.
  intros Hs [S1 N1 C1 O1 D1] [S2 N2 C2 O2 D2]. assert (F : g_fat s1 = g_fat s) by apply S1. rewrite F in *.
  rewrite <- app_assoc in *. split; try done.
  - eapply file_step_trans; [|exact S1|exact S2]. set_solver.
  - intros m [Hm|Hm]%elem_of_app; [by apply N1|]. destruct (N2 m Hm) as [Hc H0]. split; [done|].
    assert (Hnot : m ∉ l ++ new1) by (intros Hin; by apply (chain_used _ _ _ _ _ C1 Hin)).
    rewrite <- O1; [done|destruct (ok_geometry _ Hs); lia|by apply is_cluster_entry|set_solver..].
  - intros j x Hj Hx Hl Hn. rewrite O2, O1; try done; set_solver.
Qed.

Lemma file_data_cons s c l : file_data s (c :: l) = cluster_data s c ++ file_data s l.
Proof. done. Qed.

Lemma file_step_cluster P h f s s' c : vol_ok s → is_cluster (g_fat s) c → file_step P h f s s' →
  (∀ x, in_cluster (g_fat s) c x → ¬ P x) → cluster_data s' c = cluster_data s c.
Proof.
  intros Hs Hc [] HP. unfold cluster_data. rewrite fs_fat0. apply sectors_at_ext. intros x Hx.
  assert (Hx' : in_cluster (g_fat s) c x) by (destruct (ok_geometry _ Hs); unfold in_cluster; lia).
  apply fs_sector0; [by eapply cluster_lba_range|by apply HP].
Qed.

Lemma extended_prefix h f s s' c l new d : vol_ok s → chain (g_fat s) (fat_entry s 0) c (c :: l) →
  extended h f s s' (fat_entry s 0 c) l new d → extended h f s s' c (c :: l) new (cluster_data s c ++ d).
Proof.
  intros Hs Hch [S1 N1 C1 O1 D1]. assert (Hg := ok_geometry _ Hs).
  destruct (chain_head _ _ _ _ _ Hch) as (_ & Hc & H0 & Hl & Hch').
  assert (Hn : c ∉ new) by (intros Hin; by apply H0, N1).
  assert (Hnot : c ∉ l ++ new) by set_solver.
  split.
  - eapply file_step_weaken; [|exact S1]. set_solver.
  - done.
  - simpl. constructor; [done| |done|]; rewrite O1; try done; try (by apply is_cluster_entry); destruct Hg; lia.
  - intros j x Hj Hx Hxl Hxn. apply O1; set_solver.
  - simpl. rewrite file_data_cons, D1. f_equal. eapply file_step_cluster; [done|done|exact S1|].
    intros x Hx (m & Hm & Hmx). apply Hnot. by rewrite (in_cluster_inj _ _ _ _ _ Hg Hx Hmx).
Qed.

(** The bytes of [n] new clusters. *)
Definition zeros (g : fat16_state_t) (n : nat) : list Z := replicate (n * (512 * Z.to_nat (sectors_per_cluster g))) 0.

Lemma extended_quiet h f s s' c l : g_open s !! h = Some f → chain (g_fat s) (fat_entry s 0) c l → fat_quiet s s' →
  extended h f s s' c l [] (file_data s l).
Proof.
  intros Hf Hch Q. split; rewrite ?app_nil_r.
  - eapply file_step_weaken, fat_step_file, fat_quiet_step; [|done..]. done.
  - set_solver.
  - assert (F : g_fat s' = g_fat s) by apply Q. rewrite <- F. by eapply chain_quiet.
  - intros. by apply fat_quiet_entry.
  - by apply file_data_quiet.
Qed.

(** A first cluster. *)
Lemma extended_first h f s s' m : vol_ok s → g_open s !! h = Some f → allocated s s' m →
  extended h f s s' m [] [m] (zeros (g_fat s) 1).
Proof.
  intros Hs Hf [Hc H0 St K Dz]. assert (Hg := ok_geometry _ Hs). split; simpl.
  - eapply file_step_weaken, fat_step_file; [|done..]. intros x Hx. exists m. set_solver.
  - intros x ->%list_elem_of_singleton. done.
  - constructor; [done| |set_solver|]; rewrite K, decide_True; try done; try by apply is_cluster_entry.
    all: try (destruct Hg; lia). by constructor.
  - intros j x Hj Hx _ Hne. rewrite K, decide_False; [done|set_solver|done..].
  - rewrite file_data_cons, Dz. unfold file_data, zeros. simpl concat. rewrite app_nil_r. f_equal. lia.
Qed.

Lemma extended_link h f s s1 c m : vol_ok s → g_open s !! h = Some f → chain (g_fat s) (fat_entry s 0) c [c] →
  allocated s s1 m → ∃ s2 s3, fat16_set_entry c m s1 = Some (0, s2) ∧ fat16_set_entry m FAT16_EOC s2 = Some (0, s3) ∧
    extended h f s s3 c [c] [m] (file_data s [c] ++ zeros (g_fat s) 1).
Proof.
  intros Hs Hf Hch Hal. assert (Hg := ok_geometry _ Hs). destruct (chain_head _ _ _ _ _ Hch) as (_ & Hc & Hc0 & _ & _).
  destruct Hal as [Hm H0 St K Dz]. assert (F1 : g_fat s1 = g_fat s) by apply St.
  assert (Hne : c ≠ m) by (intros ->; done).
  destruct (fat16_set_entry_ok s1 c m) as (s2 & E2 & St2 & K2);
    [apply St|rewrite F1; by apply is_cluster_entry|destruct Hg; unfold is_cluster, is_u16 in *; lia|].
  assert (F2 : g_fat s2 = g_fat s) by (rewrite <- F1; apply St2). rewrite F1 in K2.
  destruct (fat16_set_entry_ok s2 m FAT16_EOC) as (s3 & E3 & St3 & K3); [apply St2|rewrite F2; by apply is_cluster_entry|done|].
  assert (F3 : g_fat s3 = g_fat s) by (rewrite <- F2; apply St3). rewrite F2 in K3.
  assert (KK : ∀ j x, 0 ≤ j < fat_count (g_fat s) → is_entry (g_fat s) x →
             fat_entry s3 j x = if decide (x = m) then FAT16_EOC else if decide (x = c) then m else fat_entry s j x).
  { intros j x Hj Hx. rewrite K3, K2, K by done. repeat case_decide; done. }
  assert (Stp : fat_step (in_cluster (g_fat s) m) s s3).
  { eapply fat_step_weaken, (fat_step_trans _ _ _ _ _ St), (fat_step_trans _ _ _ _ _ St2 St3). naive_solver. }
  exists s2, s3. split; [done|]. split; [done|].
  assert (H0c : 0 ≤ 0 < fat_count (g_fat s)) by (destruct Hg; lia).
  assert (Em : fat_entry s3 0 m = FAT16_EOC) by (rewrite KK, decide_True by (done || by apply is_cluster_entry); done).
  assert (Ec : fat_entry s3 0 c = m) by (rewrite KK, decide_False, decide_True by (done || by apply is_cluster_entry); done).
  split.
  - eapply file_step_weaken, fat_step_file; [|done|exact Stp]. intros x Hx. exists m. set_solver.
  - by intros x ->%list_elem_of_singleton.
  - simpl. constructor; [done|unfold is_cluster in Hm; lia|set_solver|]. rewrite Ec. constructor; [done|by rewrite Em|set_solver|].
    rewrite Em. by constructor.
  - intros j x Hj Hx Hx1 Hx2. rewrite KK, !decide_False by set_solver. done.
  - simpl. rewrite !file_data_cons. change (file_data ?s []) with (@nil Z). rewrite !app_nil_r. f_equal.
    + eapply fat_step_cluster; [done|done|exact Stp|]. intros x Hx Hx'. by apply Hne, (in_cluster_inj _ _ _ _ _ Hg Hx Hx').
    + rewrite (fat_step_cluster (λ x, False ∨ False) s1 s3 m);
        [|apply St|by rewrite F1|exact (fat_step_trans _ _ _ _ _ St2 St3)|naive_solver].
      rewrite Dz. unfold zeros. f_equal. lia.
Qed.

Lemma zeros_add g m n : zeros g (m + n) = zeros g m ++ zeros g n.
Proof. unfold zeros. rewrite <- replicate_add. f_equal. lia. Qed.

Lemma file_data_app s l l' : file_data s (l ++ l') = file_data s l ++ file_data s l'.
Proof. unfold file_data. by rewrite fmap_app, concat_app. Qed.

(** No cluster is free. *)
Definition disk_full (s : FS) : Prop := ∀ c, is_cluster (g_fat s) c → fat_entry s 0 c ≠ 0.

Lemma extended_after_quiet h f s s1 s2 c l new d : vol_ok s → g_open s !! h = Some f →
  chain (g_fat s) (fat_entry s 0) c l → fat_quiet s s1 → extended h f s1 s2 c l new d → extended h f s s2 c l new d.
Proof.
  intros Hs Hf Hch Q Ex. assert (Ex1 := extended_quiet h f s s1 c l Hf Hch Q).
  eapply (extended_trans h f f s s1 s2 c c l [] new _ d Hs Ex1). by rewrite app_nil_r.
Qed.

Lemma extended_slot h f0 f s s' c l new d : g_open s !! h = Some f0 → extended h f s s' c l new d → g_open s' !! h = Some f.
Proof.
  intros Hf Ex. rewrite (fs_open _ _ _ _ _ (ex_step _ _ _ _ _ _ _ _ Ex)). apply list_lookup_insert_eq.
  by eapply lookup_lt_Some.
Qed.

Lemma extended_ok h f s s' c l new d : extended h f s s' c l new d → vol_ok s' ∧ g_fat s' = g_fat s.
Proof. intros Ex. split; apply Ex. Qed.

(** One more cluster at the end of a chain, and then those of [new]. *)
Lemma extended_more h f s s1 s2 c m new : vol_ok s → g_open s !! h = Some f → chain (g_fat s) (fat_entry s 0) c [c] →
  extended h f s s1 c [c] [m] (file_data s [c] ++ zeros (g_fat s) 1) →
  extended h f s1 s2 m [m] new (file_data s1 [m] ++ zeros (g_fat s1) (length new)) →
  extended h f s s2 c [c] (m :: new) (file_data s [c] ++ zeros (g_fat s) (length (m :: new))).
Proof.
  intros Hs Hf Hch Ex1 Ex2. destruct (extended_ok _ _ _ _ _ _ _ _ Ex1) as [Hs1 F1].
  assert (Hch1 := ex_chain _ _ _ _ _ _ _ _ Ex1). rewrite <- F1 in Hch1.
  destruct (chain_head _ _ _ _ _ Hch1) as (_ & _ & _ & _ & Hch2). destruct (chain_head _ _ _ _ _ Hch2) as (E & _).
  rewrite <- E in Ex2 at 1. apply (extended_prefix _ _ _ _ _ _ _ _ Hs1 Hch1) in Ex2.
  assert (Ex := extended_trans _ _ _ _ _ _ _ _ _ _ _ _ _ Hs Ex1 Ex2). simpl in Ex.
  replace (file_data s [c] ++ _) with (cluster_data s1 c ++ file_data s1 [m] ++ zeros (g_fat s1) (length new)); [exact Ex|].
  rewrite app_assoc, <- file_data_cons. change [c; m] with ([c] ++ [m]). rewrite (ex_data _ _ _ _ _ _ _ _ Ex1), F1.
  rewrite <- app_assoc, <- zeros_add. done.
Qed.

Lemma disk_full_quiet s s' : fat_quiet s s' → disk_full s → disk_full s'.
Proof.
  intros Q Hf c Hc. assert (F : g_fat s' = g_fat s) by apply Q. rewrite (fat_quiet_entry s s') by done.
  apply Hf. by rewrite <- F.
Qed.

Lemma ensure_loop_ok n c l h f s : vol_ok s → g_open s !! h = Some f → chain (g_fat s) (fat_entry s 0) c (c :: l) →
  ∃ o s' new, ensure_loop n c s = Some (o, s') ∧
    extended h f s s' c (c :: l) new (file_data s (c :: l) ++ zeros (g_fat s) (length new)) ∧
    match o with
    | Some m => ((c :: l) ++ new) !! n = Some m ∧ length new = (n - length l)%nat
    | None => disk_full s' ∧ (length l + length new < n)%nat
    end.
Proof.
  revert c l s. induction n as [|n IH]; intros c l s Hs Hf Hch.
  { exists (Some c), s, []. split; [done|]. split; [|done]. unfold zeros. simpl. rewrite app_nil_r.
    apply extended_quiet; [done..|]. by apply fat_quiet_refl. }
  destruct (chain_head _ _ _ _ _ Hch) as (_ & Hc & _ & _ & Hch'). cbn [ensure_loop]. unfold mbind, M_bind.
  destruct (fat16_get_entry_ok s c) as (s1 & E1 & Q1); [done|by apply is_cluster_entry|]. rewrite E1.
  assert (F1 : g_fat s1 = g_fat s) by apply Q1. assert (Hs1 : vol_ok s1) by apply Q1.
  assert (Hf1 : g_open s1 !! h = Some f) by (rewrite (st_open _ _ _ (q_step _ _ Q1)); done).
  assert (Hch1 := chain_quiet _ _ _ _ Q1 Hch).
  assert (Hq := λ s2 new d, extended_after_quiet h f s s1 s2 c (c :: l) new d Hs Hf Hch Q1).
  assert (Hd1 : file_data s1 (c :: l) = file_data s (c :: l)) by by apply file_data_quiet.
  rewrite <- Hd1, <- F1. destruct l as [|x l].
  - inversion Hch' as [c' Hin|]; subst. replace ((_ <=? _) || _) with true by (unfold in_chain in Hin; lia).
    destruct (fat16_alloc_cluster_ok s1 Hs1) as (o & s2 & E2 & K2). rewrite E2. destruct o as [m|].
    + destruct K2 as [_ Hal]. destruct (extended_link h f s1 s2 c m Hs1 Hf1 Hch1 Hal) as (s3 & s4 & E3 & E4 & Ex4).
      rewrite E3. change (0 <? 0) with false. cbv beta iota. rewrite E4. change (0 <? 0) with false. cbv beta iota.
      destruct (extended_ok _ _ _ _ _ _ _ _ Ex4) as [Hs4 F4].
      assert (Hch4 := ex_chain _ _ _ _ _ _ _ _ Ex4). rewrite <- F4 in Hch4.
      destruct (chain_head _ _ _ _ _ Hch4) as (_ & _ & _ & _ & Hch5).
      destruct (chain_head _ _ _ _ _ Hch5) as (E5 & _). rewrite E5 in Hch5.
      destruct (IH m [] s4 Hs4 (extended_slot _ _ _ _ _ _ _ _ _ Hf1 Ex4) Hch5) as (o & s5 & new & E6 & Ex6 & K6).
      exists o, s5, (m :: new). split; [done|]. split; [apply Hq; by eapply extended_more|].
      destruct o as [m'|]; simpl in *; [|naive_solver lia]. destruct K6. split; [done|lia].
    + destruct K2 as [Q2 Hfull]. exists None, s2, []. split; [done|]. split; [|split; [|simpl; lia]].
      * unfold zeros. simpl length. simpl replicate. rewrite app_nil_r. by apply Hq, extended_quiet.
      * by eapply disk_full_quiet.
  - destruct (in_chain_bounds _ (chain_in _ _ _ _ Hs Hch')) as (-> & _ & ->). cbn [orb].
    destruct (chain_head _ _ _ _ _ Hch') as (E3 & _). destruct (chain_head _ _ _ _ _ Hch1) as (_ & _ & _ & _ & Hch1').
    rewrite (fat_quiet_entry s s1), E3 in Hch1' by done. rewrite E3.
    destruct (IH x l s1 Hs1 Hf1 Hch1') as (o & s2 & new & E2 & Ex2 & K2).
    exists o, s2, new. split; [done|]. split.
    + apply Hq. rewrite file_data_cons, <- app_assoc. apply extended_prefix; [done..|].
      by rewrite (fat_quiet_entry s s1), E3 by done.
    + destruct o as [m'|]; simpl in *; [|naive_solver lia]. destruct K2. split; [done|lia].
Qed.

Lemma extended_open h f c s s1 s2 l new d : extended h f s s1 c l new d →
  s2 = with_open (<[h := set_o_cluster c f]> (g_open s1)) s1 → extended h (set_o_cluster c f) s s2 c l new d.
Proof.
  intros [[] N C O Dd] ->. split; try done. split; try done; [by apply vol_ok_open|].
  simpl. rewrite fs_open0. apply list_insert_insert_eq.
Qed.

Lemma fat16_ensure_cluster_for_index_ok h f l idx s : vol_ok s → g_open s !! h = Some f →
  chain (g_fat s) (fat_entry s 0) (o_first_cluster f) l → (l = [] → o_first_cluster f < 2) → 0 ≤ idx →
  ∃ o s' c new, fat16_ensure_cluster_for_index h idx s = Some (o, s') ∧
    extended h (set_o_cluster c f) s s' c l new (file_data s l ++ zeros (g_fat s) (length new)) ∧
    (l ++ new = [] → c = o_first_cluster f) ∧
    match o with
    | Some m => (l ++ new) !! Z.to_nat idx = Some m ∧ length new = (S (Z.to_nat idx) - length l)%nat
    | None => disk_full s' ∧ (length l + length new ≤ Z.to_nat idx)%nat
    end.
Proof.
  intros Hs Hf Hch H1 Hi. unfold fat16_ensure_cluster_for_index, get_open, mbind, M_bind. rewrite Hf. cbn [mbind option_bind].
  destruct l as [|x l].
  - inversion Hch as [c' Hin|]; subst.
    rewrite (proj2 (Z.ltb_lt _ _) (H1 eq_refl)).
    destruct (fat16_alloc_cluster_ok s Hs) as (o & s1 & E1 & K1). rewrite E1. destruct o as [m|].
    + destruct K1 as [_ Hal]. assert (Ex1 := extended_first h f s s1 m Hs Hf Hal).
      unfold upd_open. rewrite (extended_slot _ _ _ _ _ _ _ _ _ Hf Ex1). cbn [mbind option_bind].
      set (s2 := with_open _ _). assert (Ex2 := extended_open _ _ _ _ _ s2 _ _ _ Ex1 eq_refl).
      destruct (extended_ok _ _ _ _ _ _ _ _ Ex2) as [Hs2 F2].
      assert (Hch2 := ex_chain _ _ _ _ _ _ _ _ Ex2). rewrite <- F2 in Hch2.
      destruct (ensure_loop_ok (Z.to_nat idx) m [] h (set_o_cluster m f) s2 Hs2 (extended_slot _ _ _ _ _ _ _ _ _ Hf Ex2) Hch2)
        as (o & s3 & new & E3 & Ex3 & K3).
      exists o, s3, m, (m :: new). split; [done|]. split.
      * assert (Ex := extended_trans _ _ _ _ _ _ _ _ _ _ _ _ _ Hs Ex2 Ex3). cbn [app] in Ex.
        rewrite (ex_data _ _ _ _ _ _ _ _ Ex2 : file_data s2 [m] = _), F2, <- zeros_add in Ex. exact Ex.
      * split; [done|]. destruct o as [m'|]; simpl in *; [|naive_solver lia]. destruct K3. split; [done|lia].
    + destruct K1 as [Q1 Hfull]. exists None, s1, (o_first_cluster f), []. split; [done|].
      replace (set_o_cluster _ f) with f by by destruct f. split; [|split; [done|split; [by eapply disk_full_quiet|simpl; lia]]].
      by apply (extended_quiet h f s s1 _ []). 
  - destruct (in_chain_bounds _ (chain_in _ _ _ _ Hs Hch)) as (_ & _ & ->).
    destruct (chain_head _ _ _ _ _ Hch) as (E & _). rewrite E in *.
    destruct (ensure_loop_ok (Z.to_nat idx) x l h f s Hs Hf Hch) as (o & s1 & new & E1 & Ex1 & K1).
    exists o, s1, x, new. split; [done|]. replace (set_o_cluster x f) with f by (rewrite <- E; by destruct f).
    split; [done|]. split; [done|]. destruct o; simpl in *; [|naive_solver lia]. destruct K1. split; [done|lia].
Qed.
End fat_file.
