(* ===== verification/FatWrite.v ===== *)
(** * Writing files on a FAT16 volume

    [fat16_vfs_write] of [src/src/fs/fat16.c] against the contract of [FatFile]: the
    bytes written are spliced into the array of the file, the chain is extended
    by free clusters, and the write stops short only when no cluster is free.
    The properties of the file system are at the end. *)

From S2P Require Import Prelude CLib KHeap Pipe Vfs Disk Fat16 FatTable FatFile.

Section fat_write.
Context {D H : Type} `{!BlockDev D} `{!KHeap H}.
Notation FS := (fs_t D H).
Implicit Types (s : FS) (g : fat16_state_t).

(** ** Positions *)

(** A position is a cluster, a sector in it and an offset in that, in one way. *)
Lemma pos_split_unique spc i k o i' k' o' : 0 ≤ k < spc → 0 ≤ o < 512 → 0 ≤ k' < spc → 0 ≤ o' < 512 →
  spc * 512 * i + 512 * k + o = spc * 512 * i' + 512 * k' + o' → i = i' ∧ k = k' ∧ o = o'.
Proof.
  intros Hk Ho Hk' Ho' E. assert (E2 : spc * i + k = spc * i' + k') by lia.
  assert (i = i') by nia. subst. lia.
Qed.

Lemma pos_split spc q : 1 ≤ spc → 0 ≤ q →
  q = spc * 512 * (q / (spc * 512)) + 512 * (q mod (spc * 512) / 512) + q mod (spc * 512) mod 512 ∧
  0 ≤ q / (spc * 512) ∧ 0 ≤ q mod (spc * 512) / 512 < spc ∧ 0 ≤ q mod (spc * 512) mod 512 < 512.
Proof.
  intros Hs Hq. assert (Hm := Z.mod_pos_bound q (spc * 512)). assert (Hd := Z.div_mod q (spc * 512)).
  assert (0 ≤ q / (spc * 512)) by (apply Z.div_pos; lia).
  set (r := q mod _) in *. set (a := q / _) in *. split; [|split; [done|]]; Z.div_mod_to_equations; lia.
Qed.

Lemma file_data_lookup s l q : 1 ≤ sectors_per_cluster (g_fat s) →
  file_data s l !! q =
  cl ← l !! Z.to_nat (Z.of_nat q / cluster_size (g_fat s));
  sector (fs_disk s) (cluster_lba (g_fat s) cl + Z.of_nat q mod cluster_size (g_fat s) / 512)
    !! Z.to_nat (Z.of_nat q mod cluster_size (g_fat s) mod 512).
Proof.
  intros Hg. unfold cluster_size. remember (sectors_per_cluster (g_fat s) * 512) as cs eqn:Hcs.
  revert q. induction l as [|c l IH]; intros q; [done|]. rewrite file_data_cons.
  assert (Hl := cluster_data_length s c). destruct (decide (q < length (cluster_data s c))%nat) as [Hlt|Hge].
  - rewrite lookup_app_l by done. rewrite (Z.div_small (Z.of_nat q) cs), (Z.mod_small (Z.of_nat q) cs) by lia. simpl. unfold cluster_data.
    rewrite sectors_at_lookup by (try apply sector_length; lia). f_equal. rewrite <- (Nat2Z.id (q mod 512)).
    by rewrite Nat2Z.inj_mod.
  - rewrite lookup_app_r, IH by lia. replace (Z.of_nat q) with (Z.of_nat (q - length (cluster_data s c)) + 1 * cs) by lia.
    rewrite Z.div_add, Z.mod_add by lia. rewrite Z2Nat.inj_add by (try apply Z.div_pos; lia).
    by rewrite Nat.add_comm.
Qed.

(** A sector of the file is changed. *)
Lemma file_data_write s s' l P chunk cl : vol_ok s → g_fat s' = g_fat s → NoDup l → 0 ≤ P →
  l !! Z.to_nat (P / cluster_size (g_fat s)) = Some cl →
  P mod cluster_size (g_fat s) mod 512 + Z.of_nat (length chunk) ≤ 512 →
  (∀ x, sector (fs_disk s') x = if decide (x = cluster_lba (g_fat s) cl + P mod cluster_size (g_fat s) / 512)
     then splice (sector (fs_disk s) x) (Z.to_nat (P mod cluster_size (g_fat s) mod 512)) chunk else sector (fs_disk s) x) →
  file_data s' l = splice (file_data s l) (Z.to_nat P) chunk.
Proof.
  intros Hs F Hnd HP Hcl Hn K. assert (Hg := ok_geometry _ Hs). assert (Hspc : 1 ≤ sectors_per_cluster (g_fat s)) by apply Hg.
  assert (Hlen : (Z.to_nat P + length chunk ≤ length (file_data s l))%nat).
  { apply lookup_lt_Some in Hcl as Hlt. pose proof (file_data_length s l). unfold cluster_size in *.
    destruct (pos_split (sectors_per_cluster (g_fat s)) P) as (E & ? & ? & ?); [done..|]. nia. }
  apply list_eq. intros q. rewrite lookup_splice by done. rewrite !file_data_lookup by (rewrite ?F; done). rewrite F.
  unfold cluster_size in *. set (spc := sectors_per_cluster (g_fat s)) in *.
  destruct (pos_split spc P) as (EP & HP1 & HP2 & HP3); [done..|].
  destruct (pos_split spc (Z.of_nat q)) as (EQ & HQ1 & HQ2 & HQ3); [lia..|].
  generalize dependent (P mod (spc * 512) mod 512). generalize dependent (P mod (spc * 512) / 512).
  generalize dependent (P / (spc * 512)). generalize dependent (Z.of_nat q mod (spc * 512) mod 512).
  generalize dependent (Z.of_nat q mod (spc * 512) / 512). generalize dependent (Z.of_nat q / (spc * 512)).
  intros i Hi k Hk o EQ Ho i0 Hcl Hi0 k0 Hk0 o0 Hn K EP Ho0.
  destruct (decide (_ ≤ q < _)%nat) as [Hin|Hout].
  - destruct (pos_split_unique spc i k o i0 k0 (o0 + (Z.of_nat q - P))) as (-> & -> & ->); [lia..|].
    rewrite Hcl. simpl. rewrite K, decide_True by done. rewrite lookup_splice by (rewrite sector_length; lia).
    rewrite decide_True by lia. f_equal. lia.
  - destruct (l !! Z.to_nat i) as [cl'|] eqn:Hcl'; [|done]. simpl. rewrite K. case_decide as Ex; [|done].
    assert (cl' = cl) as ->.
    { unfold cluster_lba in Ex. fold spc in Ex. nia. }
    assert (i = i0) as -> by (pose proof (NoDup_lookup _ _ _ _ Hnd Hcl Hcl'); lia).
    rewrite lookup_splice by (rewrite sector_length; lia). rewrite decide_False by lia. done.
Qed.

(** ** The loop *)

Lemma splice_bytes l i v : Forall is_u8 l → Forall is_u8 v → Forall is_u8 (splice l i v).
Proof. intros Hl Hv. unfold splice. repeat apply Forall_app_2; [by apply Forall_take|done|by apply Forall_drop]. Qed.

(** One sector of the chain [l] is read and written. *)
Lemma write_sector_ok h f s c l P chunk cl : vol_ok s → g_open s !! h = Some f → chain (g_fat s) (fat_entry s 0) c l → 0 ≤ P →
  l !! Z.to_nat (P / cluster_size (g_fat s)) = Some cl → Forall is_u8 chunk →
  P mod cluster_size (g_fat s) mod 512 + Z.of_nat (length chunk) ≤ 512 →
  let lba := u32 (cluster_to_lba (g_fat s) cl + P mod cluster_size (g_fat s) / 512) in
  ∃ s1 s2, ata_read_sector lba s = Some (Some (sector (fs_disk s) lba), s1) ∧
    ata_write_sector lba (splice (sector (fs_disk s) lba) (Z.to_nat (P mod cluster_size (g_fat s) mod 512)) chunk) s1 = Some (0, s2) ∧
    extended h f s s2 c l [] (splice (file_data s l) (Z.to_nat P) chunk).
Proof.
  intros Hs Hf Hch HP Hcl Hb Hn. assert (Hg := ok_geometry _ Hs).
  destruct (chain_clusters _ _ _ _ Hch) as [Hall Hnd].
  assert (Hc : is_cluster (g_fat s) cl) by by eapply Forall_lookup_1.
  destruct (cluster_lba_range _ _ Hs Hc) as (L1 & L2 & L3). rewrite (cluster_to_lba_eq _ _ _ Hg Hc).
  destruct (pos_split (sectors_per_cluster (g_fat s)) P) as (_ & _ & Hk & Ho); [apply Hg|done|]. fold (cluster_size (g_fat s)) in *.
  set (k := P mod cluster_size _ / 512) in *. set (o := P mod cluster_size _ mod 512) in *.
  assert (Hlba : u32 (cluster_lba (g_fat s) cl + k) = cluster_lba (g_fat s) cl + k).
  { apply u32_small. destruct Hg. unfold is_u32. lia. }
  rewrite Hlba. set (lba := cluster_lba (g_fat s) cl + k) in *. cbv zeta.
  assert (Hin : in_cluster (g_fat s) cl lba) by (unfold in_cluster, lba; lia).
  destruct (ata_read_sector_ok s lba) as (d & E1 & Q1); [done|unfold lba; lia|].
  destruct (ata_write_sector_ok (with_disk d s) lba (splice (sector (fs_disk s) lba) (Z.to_nat o) chunk)) as (d2 & E2 & St2 & K2).
  { apply Q1. }
  { rewrite (st_size _ _ _ (q_step _ _ Q1)). unfold lba. lia. }
  { by apply L3. }
  { rewrite length_splice; rewrite sector_length; lia. }
  { apply splice_bytes; [apply sector_bytes|done]. }
  exists (with_disk d s), (with_disk d2 (with_disk d s)). split; [done|]. split; [done|].
  assert (Hsec : ∀ x, sector d2 x = if decide (x = lba) then splice (sector (fs_disk s) x) (Z.to_nat o) chunk
                                     else sector (fs_disk s) x).
  { intros x. rewrite K2. case_decide as Ex; [by rewrite Ex|apply (q_sector _ _ Q1)]. }
  assert (St := fat_step_trans _ _ _ _ _ (fat_quiet_step _ _ Q1) St2).
  assert (Hent : ∀ j x, 0 ≤ j < fat_count (g_fat s) → is_entry (g_fat s) x →
             fat_entry (with_disk d2 (with_disk d s)) j x = fat_entry s j x).
  { intros j x Hj Hx. unfold fat_entry. simpl. rewrite Hsec, decide_False; [done|]. intros E.
    apply (L3 lba Hin). rewrite <- E. by eapply fat_lba_small. }
  split; rewrite ?app_nil_r.
  - eapply file_step_weaken, fat_step_file; [|done|exact St]. intros x [[]| ->]. exists cl.
    split; [by eapply list_elem_of_lookup_2|done].
  - set_solver.
  - eapply chain_ext; [|exact Hch]. intros x Hx. apply Hent; [destruct Hg; lia|].
    rewrite Forall_forall in Hall. by apply is_cluster_entry, Hall.
  - intros j x Hj Hx _ _. by apply Hent.
  - by apply (file_data_write s _ l P chunk cl).
Qed.

Lemma zeros_length g n : 0 ≤ sectors_per_cluster g → Z.of_nat (length (zeros g n)) = cluster_size g * Z.of_nat n.
Proof. intros Hg. unfold zeros, cluster_size. rewrite length_replicate. lia. Qed.

Lemma set_o_cluster_twice c c' f : set_o_cluster c' (set_o_cluster c f) = set_o_cluster c' f.
Proof. done. Qed.

(** The bytes that go into the sector of the position. *)
Definition chunk_size (g : fat16_state_t) (P : Z) (buf : list Z) : Z :=
  Z.min (512 - P mod cluster_size g mod 512) (Z.of_nat (length buf)).

(** One iteration. *)
Lemma write_chunk_ok h f l P buf s : vol_ok s → g_open s !! h = Some f →
  chain (g_fat s) (fat_entry s 0) (o_first_cluster f) l → (l = [] → o_first_cluster f < 2) → Forall is_u8 buf → 0 ≤ P →
  let n := chunk_size (g_fat s) P buf in
  ∃ o s1 c new, fat16_ensure_cluster_for_index h (P / cluster_size (g_fat s)) s = Some (o, s1) ∧
  (l ++ new = [] → c = o_first_cluster f) ∧
  match o with
  | None => disk_full s1 ∧ extended h (set_o_cluster c f) s s1 c l new (file_data s l ++ zeros (g_fat s) (length new))
  | Some cl =>
    ∃ sec s2 s3,
      let lba := u32 (cluster_to_lba (g_fat s) cl + P mod cluster_size (g_fat s) / 512) in
      ata_read_sector lba s1 = Some (Some sec, s2) ∧
      ata_write_sector lba (splice sec (Z.to_nat (P mod cluster_size (g_fat s) mod 512)) (take (Z.to_nat n) buf)) s2 = Some (0, s3) ∧
      extended h (set_o_cluster c f) s s3 c l new
        (splice (file_data s l ++ zeros (g_fat s) (length new)) (Z.to_nat P) (take (Z.to_nat n) buf)) ∧
      l ++ new ≠ [] ∧ P + n ≤ cluster_size (g_fat s) * Z.of_nat (length (l ++ new))
  end.
Proof.
  intros Hs Hf Hch H1 Hb HP n. assert (Hg := ok_geometry _ Hs). assert (Hspc : 1 ≤ sectors_per_cluster (g_fat s)) by apply Hg.
  destruct (pos_split (sectors_per_cluster (g_fat s)) P) as (Esp & Hi & Hk & Ho); [done..|].
  fold (cluster_size (g_fat s)) in *.
  destruct (fat16_ensure_cluster_for_index_ok h f l (P / cluster_size (g_fat s)) s) as (o & s1 & c & new & E1 & Ex1 & Hc1 & K1); [done..|].
  exists o, s1, c, new. split; [done|]. split; [done|]. destruct (extended_ok _ _ _ _ _ _ _ _ Ex1) as [Hs1 F1].
  destruct o as [cl|]; [|by split; [apply K1|]]. destruct K1 as [Hcl Hnew].
  assert (Hlen : Z.of_nat (length (take (Z.to_nat n) buf)) ≤ n) by (rewrite length_take; unfold n, chunk_size; lia).
  assert (Hch1 := ex_chain _ _ _ _ _ _ _ _ Ex1). rewrite <- F1 in Hch1.
  destruct (write_sector_ok h (set_o_cluster c f) s1 c (l ++ new) P (take (Z.to_nat n) buf) cl) as (s2 & s3 & E2 & E3 & Ex3);
    [done|by eapply extended_slot|done|lia|by rewrite F1|by apply Forall_take|rewrite F1; unfold n, chunk_size in *; lia|].
  rewrite F1 in E2, E3. rewrite (ex_data _ _ _ _ _ _ _ _ Ex1) in Ex3. eexists _, s2, s3. split; [done|]. split; [done|].
  assert (Ex13 := extended_trans _ _ _ _ _ _ _ _ _ _ _ _ _ Hs Ex1 Ex3). rewrite app_nil_r in Ex13. split; [done|].
  apply lookup_lt_Some in Hcl. split; [by intros Hnil; rewrite Hnil in Hcl; simpl in Hcl; lia|].
  unfold n, chunk_size, cluster_size in *. nia.
Qed.

(** The bytes of two parts of a write. *)
Lemma write_splices s l new new' P n k buf : 1 ≤ sectors_per_cluster (g_fat s) → 0 ≤ P → (n + k ≤ length buf)%nat →
  P + Z.of_nat n ≤ cluster_size (g_fat s) * Z.of_nat (length l + new) →
  P + Z.of_nat (n + k) ≤ cluster_size (g_fat s) * Z.of_nat (length l + new + new') →
  splice (splice (file_data s l ++ zeros (g_fat s) new) (Z.to_nat P) (take n buf) ++ zeros (g_fat s) new')
         (Z.to_nat (P + Z.of_nat n)) (take k (drop n buf)) =
  splice (file_data s l ++ zeros (g_fat s) (new + new')) (Z.to_nat P) (take (n + k) buf).
Proof.
  intros Hspc HP Hnk H1 H2. pose proof (file_data_length s l). pose proof (zeros_length (g_fat s) new).
  pose proof (zeros_length (g_fat s) new'). assert (Hn : length (take n buf) = n) by (rewrite length_take; lia).
  assert (Hk : length (take k (drop n buf)) = k) by (rewrite length_take, length_drop; lia).
  rewrite <- splice_app_l by (rewrite Hn, length_app; lia). rewrite <- app_assoc, <- zeros_add.
  replace (Z.to_nat (P + Z.of_nat n)) with (Z.to_nat P + length (take n buf))%nat by lia.
  rewrite splice_splice; [by rewrite take_take_drop|]. rewrite Hn, Hk, length_app, zeros_add, length_app. lia.
Qed.

Lemma fat_write_loop_ok fuel h f l pos done buf s : vol_ok s → g_open s !! h = Some f →
  chain (g_fat s) (fat_entry s 0) (o_first_cluster f) l → (l = [] → o_first_cluster f < 2) → Forall is_u8 buf →
  0 ≤ pos + done ≤ cluster_size (g_fat s) * Z.of_nat (length l) → pos + done + Z.of_nat (length buf) < 4294967296 →
  (length buf < fuel)%nat →
  ∃ (k : nat) s' c new, write_loop fuel h pos done buf s = Some (done + Z.of_nat k, s') ∧ (k ≤ length buf)%nat ∧
    extended h (set_o_cluster c f) s s' c l new
      (splice (file_data s l ++ zeros (g_fat s) (length new)) (Z.to_nat (pos + done)) (take k buf)) ∧
    pos + done + Z.of_nat k ≤ cluster_size (g_fat s) * Z.of_nat (length (l ++ new)) ∧
    (l ++ new = [] → c = o_first_cluster f) ∧ (k = length buf ∨ disk_full s').
Proof.
  revert f l done buf s. induction fuel as [|fuel IH]; intros f l done buf s Hs Hf Hch H1 Hb HP Hmax Hfuel; [lia|].
  assert (Hg := ok_geometry _ Hs). assert (Hspc : 1 ≤ sectors_per_cluster (g_fat s)) by apply Hg.
  cbn [write_loop]. destruct buf as [|b0 buf0].
  { exists 0%nat, s, (o_first_cluster f), []. rewrite Z.add_0_r, app_nil_r. split; [done|]. split; [done|].
    replace (set_o_cluster _ f) with f by by destruct f. unfold zeros. simpl. rewrite app_nil_r, splice_nil.
    split; [apply extended_quiet; [done..|by apply fat_quiet_refl]|]. split; [lia|]. split; [done|by left]. }
  remember (b0 :: buf0) as buf eqn:Ebuf. assert (Hne : (1 ≤ length buf)%nat) by (rewrite Ebuf; simpl; lia). clear Ebuf.
  remember (pos + done) as P eqn:EP.
  unfold mbind, M_bind, get, FAT16_SECTOR_SIZE. rewrite u32_small by (unfold is_u32; lia).
  fold (cluster_size (g_fat s)).
  destruct (write_chunk_ok h f l P buf s) as (o & s1 & c & new & E1 & Hc1 & K1); [done..|lia|]. rewrite E1.
  destruct o as [cl|].
  2: { destruct K1 as [Hfull Ex1]. exists 0%nat, s1, c, new. rewrite take_0, splice_nil, !Z.add_0_r, length_app.
       split; [done|]. split; [lia|]. split; [done|]. split; [unfold cluster_size in *; nia|].
       split; [done|by right]. }
  destruct K1 as (sec & s2 & s3 & E2 & E3 & Ex3 & Hnil & Hcap). fold (chunk_size (g_fat s) P buf).
  replace (if _ <? _ then _ else _) with (chunk_size (g_fat s) P buf) by (unfold chunk_size; case_match; lia).
  rewrite E2, E3. change (0 <? 0) with false. cbv iota. set (n := chunk_size _ _ _) in *.
  assert (Hn : 1 ≤ n ≤ Z.of_nat (length buf)) by (unfold n, chunk_size; pose proof (Z.mod_pos_bound (P mod cluster_size (g_fat s)) 512); lia).
  destruct (extended_ok _ _ _ _ _ _ _ _ Ex3) as [Hs3 F3].
  assert (Hch3 := ex_chain _ _ _ _ _ _ _ _ Ex3). rewrite <- F3 in Hch3.
  destruct (IH (set_o_cluster c f) (l ++ new) (done + n) (drop (Z.to_nat n) buf) s3)
    as (k & s4 & c' & new' & E4 & Hk4 & Ex4 & Hcap4 & _ & Hend);
    [done|by eapply extended_slot|done|done|by apply Forall_drop|rewrite F3; lia|rewrite length_drop; lia|rewrite length_drop; lia|].
  rewrite (ex_data _ _ _ _ _ _ _ _ Ex3), F3 in Ex4. rewrite length_drop in Hk4, Hend. rewrite F3, !length_app in Hcap4.
  rewrite length_app in Hcap. replace (Z.of_nat (Z.to_nat n)) with n by lia.
  exists (Z.to_nat n + k)%nat, s4, c', (new ++ new'). split; [rewrite E4; do 2 f_equal; lia|]. split; [lia|]. split.
  - assert (Ex := extended_trans _ _ _ _ _ _ _ _ _ _ _ _ _ Hs Ex3 Ex4). rewrite length_app, <- write_splices by lia.
    replace (P + Z.of_nat (Z.to_nat n)) with (pos + (done + n)) by lia. exact Ex.
  - rewrite !length_app. split; [lia|]. split; [|destruct Hend; [left; lia|by right]].
    intros Hnil'. exfalso. apply Hnil. by destruct l, new.
Qed.

(** ** The directory entry *)

Lemma read_u16_splice l i v j : (i + length v ≤ length l)%nat → (j + 2 ≤ i ∨ i + length v ≤ j)%nat →
  read_u16 (splice l i v) j = read_u16 l j.
Proof. intros Hl Hj. unfold read_u16. by rewrite !byte_at_splice, !decide_False by lia. Qed.

Lemma length_write_u32 l i v : (i + 4 ≤ length l)%nat → length (write_u32 l i v) = length l.
Proof. intros Hl. unfold write_u32. by rewrite !length_write_u16 by (rewrite ?length_write_u16; lia). Qed.

Lemma read_write_u32 l i v : is_u32 v → (i + 4 ≤ length l)%nat → read_u32 (write_u32 l i v) i = v.
Proof.
  intros Hv Hl. unfold read_u32, write_u32.
  rewrite !read_write_u16 by (rewrite ?length_write_u16; first [lia | mlia]).
  rewrite decide_False, !decide_True by lia. mlia.
Qed.

Lemma write_u32_bytes l i v : is_u32 v → Forall is_u8 l → Forall is_u8 (write_u32 l i v).
Proof. intros Hv Hl. unfold write_u32. repeat apply write_u16_bytes; [mlia..|done]. Qed.

(** What [fat16_update_dirent] makes of an entry. *)
Definition new_dirent (f : fat16_open_t) (de : list Z) : list Z :=
  set_de_attr (o_attr f) (set_de_size (o_size f) (set_de_cluster (o_first_cluster f) de)).

Lemma new_dirent_ok f de : length de = 32%nat → Forall is_u8 de → is_u8 (o_attr f) → is_u16 (o_first_cluster f) →
  is_u32 (o_size f) → length (new_dirent f de) = 32%nat ∧ Forall is_u8 (new_dirent f de) ∧
  de_size (new_dirent f de) = o_size f ∧ de_cluster (new_dirent f de) = o_first_cluster f.
Proof.
  intros Hl Hb Ha Hc Hz. unfold new_dirent, set_de_attr, set_de_size, set_de_cluster.
  assert (L1 : length (write_u16 de 26 (o_first_cluster f)) = 32%nat) by (rewrite length_write_u16; lia).
  assert (L2 : length (write_u32 (write_u16 de 26 (o_first_cluster f)) 28 (o_size f)) = 32%nat) by (rewrite length_write_u32; lia).
  split; [by rewrite length_splice by (simpl; lia)|]. split; [|split].
  - apply splice_bytes; [|by apply Forall_singleton]. by apply write_u32_bytes, write_u16_bytes.
  - unfold de_size. assert (E := read_write_u32 (write_u16 de 26 (o_first_cluster f)) 28 (o_size f) Hz). unfold read_u32 in *.
    rewrite !read_u16_splice by (simpl; lia). apply E. lia.
  - unfold de_cluster. rewrite read_u16_splice by (simpl; lia). unfold write_u32.
    rewrite !read_write_u16 by (rewrite ?length_write_u16; first [lia | mlia]).
    rewrite !decide_False by lia. by rewrite decide_True.
Qed.

Lemma de_at_length sec off : length sec = 512%nat → 0 ≤ off → off + 32 ≤ 512 → length (de_at sec off) = 32%nat.
Proof. intros Hl H0 H1. unfold de_at. rewrite length_take, length_drop. lia. Qed.

Lemma de_at_upd sec off (g : list Z → list Z) : length sec = 512%nat → 0 ≤ off → off + 32 ≤ 512 → length (g (de_at sec off)) = 32%nat →
  de_at (upd_de sec off g) off = g (de_at sec off).
Proof.
  intros Hl H0 H1 Hg. unfold upd_de, de_at at 1. rewrite <- Hg at 1. apply take_splice_end. rewrite Hg. lia.
Qed.

(** The entry of an open file lies outside the FAT and outside the free clusters
    and those of the file. *)
Record dirent_ok (s : FS) (f : fat16_open_t) (l : list Z) : Prop := {
  de_lba : 0 < o_dirent_lba f < disk_size (fs_disk s);
  de_off : 0 ≤ o_dirent_off f ∧ o_dirent_off f + 32 ≤ 512;
  de_a : is_u8 (o_attr f);
  de_fat : ¬ in_fat (g_fat s) (o_dirent_lba f);
  de_clusters c : is_cluster (g_fat s) c → in_cluster (g_fat s) c (o_dirent_lba f) → fat_entry s 0 c ≠ 0 ∧ c ∉ l
}.

(** The entry of the file on the device. *)
Definition dirent_of (s : FS) (f : fat16_open_t) : list Z := de_at (sector (fs_disk s) (o_dirent_lba f)) (o_dirent_off f).

Lemma fat16_update_dirent_ok h f l s : vol_ok s → g_open s !! h = Some f → dirent_ok s f l →
  is_u16 (o_first_cluster f) → is_u32 (o_size f) →
  ∃ s', fat16_update_dirent h s = Some (0, s') ∧ fat_step (λ x, x = o_dirent_lba f) s s' ∧
    (∀ x, x ≠ o_dirent_lba f → sector (fs_disk s') x = sector (fs_disk s) x) ∧
    de_size (dirent_of s' f) = o_size f ∧ de_cluster (dirent_of s' f) = o_first_cluster f.
Proof.
  intros Hs Hf [D1 D2 D3 D4 _] Hc Hz. unfold fat16_update_dirent, rmw_sector, get_open, mbind, M_bind. rewrite Hf.
  cbn [mbind option_bind]. rewrite (proj2 (Z.eqb_neq (o_dirent_lba f) 0)) by lia.
  destruct (ata_read_sector_ok s (o_dirent_lba f)) as (d & E1 & Q1); [done|lia|]. rewrite E1.
  set (sec := sector (fs_disk s) (o_dirent_lba f)).
  assert (Hl : length sec = 512%nat) by apply sector_length.
  assert (Hbs : Forall is_u8 sec) by apply sector_bytes.
  destruct (new_dirent_ok f (de_at sec (o_dirent_off f))) as (N1 & N2 & N3 & N4);
    [apply de_at_length; lia|by apply Forall_take, Forall_drop|done..|].
  destruct (ata_write_sector_ok (with_disk d s) (o_dirent_lba f) (upd_de sec (o_dirent_off f) (new_dirent f))) as (d2 & E2 & St2 & K2).
  { apply Q1. } { rewrite (st_size _ _ _ (q_step _ _ Q1)). lia. } { done. }
  { unfold upd_de. rewrite length_splice; lia. } { by apply splice_bytes. }
  change (λ de, set_de_attr _ _) with (new_dirent f). rewrite E2. eexists. split; [done|].
  split; [eapply fat_step_weaken, (fat_step_trans _ _ _ _ _ (fat_quiet_step _ _ Q1) St2); naive_solver|]. split.
  { intros x Hx. simpl. rewrite K2, decide_False by done. apply (q_sector _ _ Q1). }
  unfold dirent_of. simpl. rewrite K2, decide_True by done. rewrite de_at_upd by (done || lia). done.
Qed.

(** ** The operation *)

(** The chains that share no cluster with [l], and whose clusters do not hold the
    sector [lba], are kept with their bytes. *)
Definition others_kept (s s' : FS) (l : list Z) (lba : Z) : Prop :=
  ∀ c0 l0, chain (g_fat s) (fat_entry s 0) c0 l0 → (∀ x, x ∈ l0 → x ∉ l ∧ ¬ in_cluster (g_fat s) x lba) →
    chain (g_fat s) (fat_entry s' 0) c0 l0 ∧ file_data s' l0 = file_data s l0.

(** The outcome of writing [bytes] at [start] to the open file [f] with the
    clusters [l]. *)
Record written (h : nat) (s s' : FS) (f f' : fat16_open_t) (l l' : list Z) (start : Z) (bytes : list Z) : Prop := {
  wr_ok : vol_ok s';
  wr_fat : g_fat s' = g_fat s;
  wr_handles : g_open s' = <[h := f']> (g_open s);
  wr_open : open_file s' h f' l';
  wr_dirent : dirent_ok s' f' l';
  wr_pos : o_pos f' = start + Z.of_nat (length bytes);
  wr_size : o_size f' = Z.max (o_size f) (start + Z.of_nat (length bytes));
  wr_flags : o_flags f' = o_flags f;
  wr_bytes : file_bytes s' f' l' = take (Z.to_nat start) (file_bytes s f l) ++ bytes ++
                                   drop (Z.to_nat start + length bytes) (file_bytes s f l);
  wr_entry : bytes ≠ [] → de_size (dirent_of s' f') = o_size f' ∧ de_cluster (dirent_of s' f') = o_first_cluster f';
  wr_others : others_kept s s' l (o_dirent_lba f)
}.

Lemma extended_others h f s s' c l new d lba : vol_ok s → extended h f s s' c l new d → others_kept s s' l lba.
Proof.
  intros Hs Ex c0 l0 Hch Hd. assert (Hg := ok_geometry _ Hs). destruct (chain_clusters _ _ _ _ Hch) as [Hall _].
  rewrite Forall_forall in Hall.
  assert (Hnew : ∀ x, x ∈ l0 → x ∉ l ++ new).
  { intros x Hx [Hl|Hn]%elem_of_app; [by destruct (Hd x Hx)|]. apply (chain_used _ _ _ _ _ Hch Hx). by eapply ex_new. }
  split.
  - eapply chain_ext; [|exact Hch]. intros x Hx. specialize (Hnew x Hx). eapply ex_other; [done|destruct Hg; lia| |set_solver..].
    by apply is_cluster_entry, Hall.
  - unfold file_data. f_equal. apply list_fmap_ext. intros i x Hi%list_elem_of_lookup_2.
    eapply file_step_cluster; [done|by apply Hall|apply Ex|]. intros y Hy (m & Hm & Hmy).
    apply (Hnew x Hi). by rewrite (in_cluster_inj _ _ _ _ _ Hg Hy Hmy).
Qed.

(** A step that changes one sector outside the FAT keeps the table and the
    clusters that do not hold it. *)
Lemma one_sector_kept s s' lba : vol_ok s → g_fat s' = g_fat s → ¬ in_fat (g_fat s) lba →
  (∀ x, x ≠ lba → sector (fs_disk s') x = sector (fs_disk s) x) →
  (∀ j x, 0 ≤ j < fat_count (g_fat s) → is_entry (g_fat s) x → fat_entry s' j x = fat_entry s j x) ∧
  (∀ x, ¬ in_cluster (g_fat s) x lba → cluster_data s' x = cluster_data s x).
Proof.
  intros Hs F Hf K. assert (Hg := ok_geometry _ Hs). split.
  - intros j x Hj Hx. unfold fat_entry. rewrite F, K; [done|]. intros E. apply Hf. rewrite <- E. by eapply fat_lba_small.
  - intros x Hx. unfold cluster_data. rewrite F. apply sectors_at_ext. intros y Hy. apply K. intros ->.
    apply Hx. destruct Hg. unfold in_cluster. lia.
Qed.

Lemma file_data_kept s s' l : (∀ x, x ∈ l → cluster_data s' x = cluster_data s x) → file_data s' l = file_data s l.
Proof.
  intros K. unfold file_data. f_equal. apply list_fmap_ext. intros i x Hi%list_elem_of_lookup_2. by apply K.
Qed.

Lemma others_kept_trans s s1 s2 l lba : vol_ok s → vol_ok s1 → g_fat s1 = g_fat s → g_fat s2 = g_fat s →
  ¬ in_fat (g_fat s) lba → (∀ x, x ≠ lba → sector (fs_disk s2) x = sector (fs_disk s1) x) →
  others_kept s s1 l lba → others_kept s s2 l lba.
Proof.
  intros Hs Hs1 F1 F2 Hf K Ho c0 l0 Hch Hd. destruct (Ho c0 l0 Hch Hd) as [C1 D1].
  destruct (one_sector_kept s1 s2 lba) as [Ke Kd]; [done|congruence|congruence|done|]. rewrite F1 in *.
  destruct (chain_clusters _ _ _ _ Hch) as [Hall _]. rewrite Forall_forall in Hall. split.
  - eapply chain_ext; [|exact C1]. intros x Hx. apply Ke; [destruct (ok_geometry _ Hs); lia|by apply is_cluster_entry, Hall].
  - rewrite <- D1. apply file_data_kept. intros x Hx. apply Kd. by apply Hd.
Qed.

(** The bytes of the file after the write, from those of its chain. *)
Lemma written_bytes (data z bytes : list Z) start size : 0 ≤ start ≤ size → size ≤ Z.of_nat (length data) →
  take (Z.to_nat (Z.max size (start + Z.of_nat (length bytes)))) (splice (data ++ z) (Z.to_nat start) bytes) =
  take (Z.to_nat start) (take (Z.to_nat size) data) ++ bytes ++
  drop (Z.to_nat start + length bytes) (take (Z.to_nat size) data).
Proof.
  intros Hs Hd. unfold splice. rewrite (take_app_le data) by lia. rewrite take_take, Nat.min_l by lia.
  assert (Hl : length (take (Z.to_nat start) data) = Z.to_nat start) by (rewrite length_take; lia).
  rewrite take_app_ge by (rewrite Hl; lia). f_equal. rewrite Hl, take_app_ge by lia. f_equal.
  rewrite skipn_firstn_comm. destruct (decide (size ≤ start + Z.of_nat (length bytes))).
  - replace (_ - _ - _)%nat with 0%nat by lia. replace (Z.to_nat size - _)%nat with 0%nat by lia. done.
  - rewrite drop_app_le, take_app_le by (rewrite ?length_drop; lia). f_equal. lia.
Qed.

Definition write_start (f : fat16_open_t) : Z := if Z.land (o_flags f) O_APPEND =? 0 then o_pos f else o_size f.

(** The open file after [n] bytes were written at [start]; its chain starts at [c]. *)
Definition file_after (f : fat16_open_t) (c start n : Z) : fat16_open_t :=
  set_o_size (Z.max (o_size f) (start + n)) (set_o_pos (start + n) (set_o_cluster c f)).

Lemma extended_from_open h f0 f1 s s1 c l new d :
  extended h f1 (with_open (<[h := f0]> (g_open s)) s) s1 c l new d → extended h f1 s s1 c l new d.
Proof.
  intros [[S1 S2 S3 S4 S5 S6 S7] N C O Dd]. split; try done. split; try done. rewrite S3. simpl. apply list_insert_insert_eq.
Qed.

Lemma dirent_ok_extended h f f1 f2 s s1 c l new d : vol_ok s → dirent_ok s f l → extended h f1 s s1 c l new d →
  o_dirent_lba f2 = o_dirent_lba f → o_dirent_off f2 = o_dirent_off f → o_attr f2 = o_attr f → dirent_ok s1 f2 (l ++ new).
Proof.
  intros Hs [D1 D2 D3 D4 D5] Ex E1 E2 E3. assert (Hg := ok_geometry _ Hs). destruct (extended_ok _ _ _ _ _ _ _ _ Ex) as [_ F].
  split; rewrite ?E1, ?E2, ?E3, ?F; try done.
  - rewrite (fs_size _ _ _ _ _ (ex_step _ _ _ _ _ _ _ _ Ex)). done.
  - intros x Hx Hin. destruct (D5 x Hx Hin) as [H0 Hl].
    assert (Hn : x ∉ new) by (intros Hn; by apply H0; eapply ex_new). split; [|set_solver].
    rewrite (ex_other _ _ _ _ _ _ _ _ Ex); [done|destruct Hg; lia|by apply is_cluster_entry|done..].
Qed.

(** The write and the update of the entry, put together. *)
Lemma written_intro h f s s1 s3 c l new start bytes : vol_ok s → open_file s h f l → dirent_ok s f l → 0 ≤ start ≤ o_size f →
  start + Z.of_nat (length bytes) ≤ 2147483647 →
  start + Z.of_nat (length bytes) ≤ cluster_size (g_fat s) * Z.of_nat (length (l ++ new)) →
  (l ++ new = [] → c = o_first_cluster f) →
  let f' := file_after f c start (Z.of_nat (length bytes)) in
  extended h (set_o_cluster c (set_o_pos start f)) s s1 c l new
    (splice (file_data s l ++ zeros (g_fat s) (length new)) (Z.to_nat start) bytes) →
  vol_ok s3 → g_fat s3 = g_fat s → disk_size (fs_disk s3) = disk_size (fs_disk s1) → g_open s3 = <[h := f']> (g_open s1) →
  (∀ x, x ≠ o_dirent_lba f → sector (fs_disk s3) x = sector (fs_disk s1) x) →
  (bytes ≠ [] → de_size (dirent_of s3 f') = o_size f' ∧ de_cluster (dirent_of s3 f') = o_first_cluster f') →
  written h s s3 f f' l (l ++ new) start bytes.
Proof.
  intros Hs Ho Hd Hst Hmax Hcap Hc1 f' Ex Hs3 F3 Z3 O3 K3 Hent.
  assert (Hg := ok_geometry _ Hs). destruct (extended_ok _ _ _ _ _ _ _ _ Ex) as [Hs1 F1].
  assert (Hfat : ¬ in_fat (g_fat s) (o_dirent_lba f)) by apply Hd.
  assert (Hd1 := dirent_ok_extended _ _ _ f' _ _ _ _ _ _ Hs Hd Ex eq_refl eq_refl eq_refl).
  destruct (one_sector_kept s1 s3 (o_dirent_lba f)) as [Ke Kd]; [done|congruence|congruence|done|]. rewrite F1 in *.
  assert (Hch1 := ex_chain _ _ _ _ _ _ _ _ Ex). destruct (chain_clusters _ _ _ _ Hch1) as [Hall _]. rewrite Forall_forall in Hall.
  assert (H0 : 0 ≤ 0 < fat_count (g_fat s)) by (destruct Hg; lia).
  assert (Hdata : file_data s3 (l ++ new) = file_data s1 (l ++ new)).
  { apply file_data_kept. intros x Hx. apply Kd. intros Hin. eapply (de_clusters _ _ _ Hd1 x); [|by rewrite F1|done].
    rewrite F1. by apply Hall. }
  destruct Ho as [Hh Hf Hu Hch Hfirst Hsz Hps Hsm].
  split; try done.
  - rewrite O3, (fs_open _ _ _ _ _ (ex_step _ _ _ _ _ _ _ _ Ex)). apply list_insert_insert_eq.
  - split; rewrite ?F3; try done.
    + rewrite O3. apply list_lookup_insert_eq. rewrite (fs_open _ _ _ _ _ (ex_step _ _ _ _ _ _ _ _ Ex)), length_insert.
      by eapply lookup_lt_Some.
    + simpl. eapply chain_ext; [|exact Hch1]. intros x Hx. by apply Ke; [|apply is_cluster_entry, Hall].
    + simpl. intros Hnil. rewrite Hc1 by done. apply Hfirst. by destruct l.
    + simpl. unfold cluster_size in *. rewrite length_app in *. destruct Hg. nia.
    + simpl. lia.
    + simpl. lia.
  - destruct Hd1 as [E1 E2 E3 E4 E5]. split; rewrite ?F3, ?Z3; try done; rewrite F1 in *; try done.
    intros x Hx Hin. destruct (E5 x Hx Hin) as [? ?]. split; [|done]. by rewrite Ke by (done || by apply is_cluster_entry).
  - unfold file_bytes. rewrite Hdata, (ex_data _ _ _ _ _ _ _ _ Ex). simpl o_size. apply written_bytes; [done|].
    rewrite file_data_length by (destruct Hg; lia). lia.
  - eapply (others_kept_trans s s1 s3); try done. by eapply extended_others.
Qed.

(** The position is moved to the end of a file opened for appending. *)
Lemma append_seek_ok h f s : g_open s !! h = Some f →
  (if Z.land (o_flags f) O_APPEND =? 0 then mret tt else upd_open h (set_o_pos (o_size f))) s =
  Some (tt, with_open (<[h := set_o_pos (write_start f) f]> (g_open s)) s).
Proof.
  intros Hf. unfold write_start. destruct (_ =? 0).
  - replace (set_o_pos (o_pos f) f) with f by by destruct f. rewrite list_insert_id by done. by destruct s.
  - unfold upd_open. by rewrite Hf.
Qed.

Lemma chain_first_u16 s c x l : vol_ok s → chain (g_fat s) (fat_entry s 0) c (x :: l) → is_u16 c.
Proof.
  intros Hs (_ & Hc & _)%chain_head. destruct (ok_geometry _ Hs). unfold is_cluster, is_u16 in *. lia.
Qed.

Lemma dirent_ok_open s o f l : dirent_ok s f l → dirent_ok (with_open o s) f l.
Proof. intros [D1 D2 D3 D4 D5]. by split. Qed.

Lemma disk_full_kept s s' lba : vol_ok s → g_fat s' = g_fat s → ¬ in_fat (g_fat s) lba →
  (∀ x, x ≠ lba → sector (fs_disk s') x = sector (fs_disk s) x) → disk_full s → disk_full s'.
Proof.
  intros Hs F Hf K Hfull c Hc. rewrite F in Hc. destruct (one_sector_kept s s' lba) as [Ke _]; [done..|].
  rewrite Ke; [by apply Hfull|destruct (ok_geometry _ Hs); lia|by apply is_cluster_entry].
Qed.

Lemma fat16_vfs_write_ok s h f l buf : vol_ok s → mounted (g_fat s) = true → open_file s h f l → dirent_ok s f l →
  Z.land (o_flags f) 3 ≠ O_RDONLY → Forall is_u8 buf → buf ≠ [] → write_start f + Z.of_nat (length buf) ≤ 2147483647 →
  ∃ (k : nat) s' f' l', fat16_vfs_write (Z.of_nat h) buf s = Some (Z.of_nat k, s') ∧ (k ≤ length buf)%nat ∧
    written h s s' f f' l l' (write_start f) (take k buf) ∧ (k = length buf ∨ disk_full s').
Proof.
  intros Hs Hm Ho Hd Hfl Hb Hne Hmax. assert (Hf := of_slot _ _ _ _ Ho). assert (Hhl := lookup_lt_Some _ _ _ Hf).
  assert (Hst : 0 ≤ write_start f ≤ o_size f) by (destruct Ho; unfold write_start; case_match; lia).
  unfold fat16_vfs_write, mbind, M_bind, get, get_open. rewrite Hm, (open_handle_ok _ _ _ _ Ho). cbn [negb].
  rewrite Hf. cbn [mbind option_bind].
  rewrite (proj2 (Z.eqb_neq _ _) Hfl). destruct (Nat.eqb_spec (length buf) 0) as [E0|_]; [by apply nil_length_inv in E0|].
  rewrite (append_seek_ok _ _ _ Hf). set (f0 := set_o_pos (write_start f) f). set (s0 := with_open _ _).
  assert (Hf0 : g_open s0 !! h = Some f0) by by apply list_lookup_insert_eq.
  rewrite Hf0. cbn [mbind option_bind]. change (o_pos f0) with (write_start f).
  destruct (fat_write_loop_ok (length buf + 1) h f0 l (write_start f) 0 buf s0) as (k & s1 & c & new & E1 & Hk & Ex & Hcap & Hc1 & Hend);
    [by apply vol_ok_open|done|apply Ho|apply Ho|done|rewrite Z.add_0_r; destruct Ho; simpl; lia|lia|lia|].
  rewrite E1. rewrite (extended_slot _ _ _ _ _ _ _ _ _ Hf0 Ex). cbn [mbind option_bind]. rewrite Z.add_0_r, Z.add_0_l in *.
  simpl o_pos. rewrite u32_small by (unfold is_u32; lia). unfold upd_open.
  rewrite (extended_slot _ _ _ _ _ _ _ _ _ Hf0 Ex). cbn [mbind option_bind].
  apply extended_from_open in Ex. destruct (extended_ok _ _ _ _ _ _ _ _ Ex) as [Hs1 F1].
  set (f' := file_after f c (write_start f) (Z.of_nat k)). replace (set_o_size _ _) with f'.
  2: { unfold f', file_after, f0. cbn. destruct (_ <? _) eqn:?; f_equal; lia. }
  set (s2 := with_open (<[h := f']> (g_open s1)) s1).
  assert (Hlen : length (take k buf) = k) by (rewrite length_take; lia).
  assert (Hf2 : g_open s2 !! h = Some f').
  { apply list_lookup_insert_eq. rewrite (fs_open _ _ _ _ _ (ex_step _ _ _ _ _ _ _ _ Ex)). by rewrite length_insert. }
  assert (W := λ s3, written_intro h f s s1 s3 c l new (write_start f) (take k buf) Hs Ho Hd Hst). cbv zeta in W.
  rewrite Hlen in W. fold f' in W. rewrite s32_small by (unfold is_s32; lia).
  destruct (0 <? Z.of_nat k) eqn:Ek.
  - destruct (fat16_update_dirent_ok h f' (l ++ new) s2) as (s3 & E3 & St3 & K3 & Hent); [by apply vol_ok_open|done| | | |].
    { apply dirent_ok_open. by apply (dirent_ok_extended h f _ f' s s1 c l new _ Hs Hd Ex). }
    { simpl. assert (Hch1 := ex_chain _ _ _ _ _ _ _ _ Ex). rewrite <- F1 in Hch1. destruct (l ++ new) as [|x l2]; [simpl in Hcap; lia|].
      by eapply chain_first_u16. }
    { simpl. destruct Ho. unfold is_u32. lia. }
    rewrite E3. exists k, s3, f', (l ++ new). split; [done|]. split; [done|]. split; [|].
    + apply W; try done; [lia|apply St3|rewrite (st_fat _ _ _ St3); done|rewrite (st_size _ _ _ St3); done|by rewrite (st_open _ _ _ St3)].
    + destruct Hend as [?|Hfull]; [by left|right]. apply (disk_full_kept s2 s3 (o_dirent_lba f)); try done; [by apply vol_ok_open| |].
      * apply (st_fat _ _ _ St3).
      * change (¬ in_fat (g_fat s1) (o_dirent_lba f)). rewrite F1. apply Hd.
  - assert (k = 0%nat) as -> by lia. exists 0%nat, s2, f', (l ++ new). split; [done|]. split; [done|]. split.
    + apply W; try done; [lia|by apply vol_ok_open].
    + destruct Hend as [?|Hfull]; [lia|by right].
Qed.
End fat_write.
