(* ===== verification/FatSpec.v ===== *)
(** * The properties of the FAT16 file system

    The claims about [src/src/fs/fat16.c], from the lemmas of [FatTable], [FatFile]
    and [FatWrite], with a small volume in memory on which they are applied:
    two copies of a FAT, a root directory and four clusters of one sector, and a
    file of 600 bytes in the clusters 2 and 4. *)

From S2P Require Import Prelude CLib KHeap Pipe Vfs Disk Fat16 FatTable FatFile FatWrite.

(** ** A volume in memory *)

Definition demo_geo : fat16_state_t := mk_fat true 0 1 3 4 1 8 1 2 512 1 16 4.
Definition demo_fat : list Z := write_u16 (write_u16 ZERO_SECTOR 4 4) 8 FAT16_EOC.
Definition demo_file : fat16_open_t := mk_open true O_RDWR 2 600 500 FAT16_ATTR_ARCHIVE 3 0.
Definition demo_disk : mem_disk 8 := <[1 := demo_fat]> (<[2 := demo_fat]> (<[4 := replicate 512 65]> (<[6 := replicate 512 66]> ∅))).
Definition demo_fs : fs_t (mem_disk 8) (set_heap 4) :=
  mk_fs demo_geo (demo_file :: replicate 15 open_zero) (replicate FAT_CACHE_SIZE (0, ZERO_SECTOR)) 0
        (mk_rdcache [] [] false) demo_disk (heap0 4).

Lemma demo_ok : vol_ok demo_fs.
Proof.
  split; [by split|done|]. split; [done|vm_compute; lia|]. intros i lba data Hi Hl. exfalso. apply Hl.
  apply (lookup_replicate_1 FAT_CACHE_SIZE) in Hi as [[= -> _] _]. done.
Qed.

Lemma demo_chain : chain demo_geo (fat_entry demo_fs 0) 2 [2; 4].
Proof.
  assert (E2 : fat_entry demo_fs 0 2 = 4) by by vm_compute. assert (E4 : fat_entry demo_fs 0 4 = 65535) by by vm_compute.
  constructor; [done|by rewrite E2|set_solver|]. rewrite E2. constructor; [done|by rewrite E4|set_solver|]. rewrite E4. by constructor.
Qed.

Lemma demo_open : open_file demo_fs 0 demo_file [2; 4].
Proof.
  split; [apply Nat.ltb_lt; by vm_compute|done|done|exact demo_chain|done|split; by vm_compute|split; by vm_compute|by vm_compute].
Qed.

Lemma demo_dirent : dirent_ok demo_fs demo_file [2; 4].
Proof.
  split; try done; [unfold in_fat; simpl; lia|]. intros c Hc Hin. exfalso.
  unfold is_cluster, in_cluster, cluster_lba in *. simpl in *. lia.
Qed.

Section fat_spec.
Context {D H : Type} `{!BlockDev D} `{!KHeap H}.
Notation FS := (fs_t D H).
Implicit Types (s : FS).

(** On a volume in order, [fat16_alloc_cluster] takes the first
    free cluster: it is marked as the end of a chain in every copy of the FAT, its
    sectors are zeroed, and no other entry, no other sector outside the FAT and no
    open file changes; the cache of FAT sectors keeps agreeing with the device
    ([vol_ok]).  It fails exactly when no cluster is free, and then writes
    nothing. *)
Theorem fat16_alloc_cluster_correct s : vol_ok s →
  ∃ o s', fat16_alloc_cluster s = Some (o, s') ∧
  match o with
  | None => (∀ c, is_cluster (g_fat s) c → fat_entry s 0 c ≠ 0) ∧ fat_quiet s s'
  | Some m => (∀ c, 2 ≤ c < m → fat_entry s 0 c ≠ 0) ∧ allocated s s' m
  end.
Proof.
  intros Hs. destruct (fat16_alloc_cluster_ok s Hs) as (o & s' & E & K). exists o, s'. split; [done|].
  destruct o; naive_solver.
Qed.

(** [fat16_free_chain] of a chain returns 0 within the bound of
    its loop and marks exactly the clusters of the chain free, in every copy of the
    FAT; nothing outside the FAT is written. *)
Theorem fat16_free_chain_correct s c l : vol_ok s → chain (g_fat s) (fat_entry s 0) c l →
  ∃ s', fat16_free_chain c s = Some (0, s') ∧ fat_step (λ _, False) s s' ∧
    ∀ j c', 0 ≤ j < fat_count (g_fat s) → is_entry (g_fat s) c' →
      fat_entry s' j c' = if decide (c' ∈ l) then 0 else fat_entry s j c'.
Proof. apply fat16_free_chain_ok. Qed.

(** [fat16_vfs_read] of an open file returns the slice of the
    contents of the file at its position: at most [len] bytes, up to the end of the
    file, whether the clusters are read whole, through the buffer, or sector by
    sector when the heap is exhausted.  The position moves by the number of bytes,
    no sector changes, and the buffer is released. *)
Theorem fat16_vfs_read_correct s h f l len : vol_ok s → mounted (g_fat s) = true → open_file s h f l →
  Z.land (o_flags f) 3 ≠ O_WRONLY → 0 ≤ len →
  let bytes := take (Z.to_nat len) (drop (Z.to_nat (o_pos f)) (file_bytes s f l)) in
  ∃ s', fat16_vfs_read (Z.of_nat h) len s = Some ((Z.of_nat (length bytes), bytes), s') ∧
    file_step (λ _, False) h (set_o_pos (o_pos f + Z.of_nat (length bytes)) f) s s' ∧
    (∀ x, sector (fs_disk s') x = sector (fs_disk s) x).
Proof. apply fat16_vfs_read_ok. Qed.

(** C17 (refinement): [fat16_vfs_write] stores the first [k] bytes of the buffer, and
    returns [k], at the position of the open file, or at its end for a file opened
    for appending: the contents of the file become the old ones with these bytes
    spliced in ([written]).  The chain grows by free clusters, the directory entry
    receives the new size and first cluster, other files keep their chains and
    bytes.  A write is short only when no cluster is free. *)
Theorem fat16_vfs_write_correct s h f l buf : vol_ok s → mounted (g_fat s) = true → open_file s h f l → dirent_ok s f l →
  Z.land (o_flags f) 3 ≠ O_RDONLY → Forall is_u8 buf → buf ≠ [] → write_start f + Z.of_nat (length buf) ≤ 2147483647 →
  ∃ (k : nat) s' f' l', fat16_vfs_write (Z.of_nat h) buf s = Some (Z.of_nat k, s') ∧ (k ≤ length buf)%nat ∧
    written h s s' f f' l l' (write_start f) (take k buf) ∧ (k = length buf ∨ disk_full s').
Proof. apply fat16_vfs_write_ok. Qed.

(** ** Write, seek, read *)

Lemma open_file_seek s h f l pos : open_file s h f l → 0 ≤ pos ≤ o_size f →
  open_file (with_open (<[h := set_o_pos pos f]> (g_open s)) s) h (set_o_pos pos f) l.
Proof.
  intros [] Hp. split; try done. apply list_lookup_insert_eq. by eapply lookup_lt_Some.
Qed.

Lemma fat16_vfs_seek_ok s h f l pos : open_file s h f l → 0 ≤ pos ≤ o_size f →
  fat16_vfs_seek (Z.of_nat h) pos SEEK_SET s = Some (pos, with_open (<[h := set_o_pos pos f]> (g_open s)) s).
Proof.
  intros Ho Hp. unfold fat16_vfs_seek, mbind, M_bind, get, get_open, upd_open. rewrite (open_handle_ok _ _ _ _ Ho).
  assert (Hf := of_slot _ _ _ _ Ho). assert (Hsm := of_small _ _ _ _ Ho). cbv beta iota. rewrite Hf. cbn [mbind option_bind].
  change (SEEK_SET =? SEEK_SET) with true. cbv iota. rewrite bool_decide_true by (unfold is_s32; lia). cbn [negb].
  replace (Z.max (0 + pos) 0) with pos by lia. destruct (Z.ltb_spec (o_size f) pos); [lia|].
  rewrite Hf. cbn [mbind option_bind]. by rewrite u32_small by (unfold is_u32; lia).
Qed.

(** What [fat16_vfs_write] has stored in full, [fat16_vfs_read] returns
    after [fat16_vfs_seek] back to where it was written. *)
Theorem fat16_write_seek_read s h f l buf s' : vol_ok s → mounted (g_fat s) = true → open_file s h f l → dirent_ok s f l →
  Z.land (o_flags f) 3 = O_RDWR → Forall is_u8 buf → buf ≠ [] → write_start f + Z.of_nat (length buf) ≤ 2147483647 →
  fat16_vfs_write (Z.of_nat h) buf s = Some (Z.of_nat (length buf), s') →
  ∃ s1 s2, fat16_vfs_seek (Z.of_nat h) (write_start f) SEEK_SET s' = Some (write_start f, s1) ∧
    fat16_vfs_read (Z.of_nat h) (Z.of_nat (length buf)) s1 = Some ((Z.of_nat (length buf), buf), s2).
Proof.
  intros Hs Hm Ho Hd Hfl Hb Hne Hmax E.
  destruct (fat16_vfs_write_ok s h f l buf) as (k & s0 & f' & l' & E0 & Hk & W & _); try done; [by rewrite Hfl|].
  rewrite E in E0. injection E0 as Hk' <-. assert (k = length buf) as -> by lia. rewrite take_ge in W by lia.
  destruct W as [W1 W2 W3 W4 W5 W6 W7 W8 W9 W10 W11].
  assert (Hst : 0 ≤ write_start f ≤ o_size f) by (destruct Ho; unfold write_start; case_match; lia).
  set (s1 := with_open (<[h := set_o_pos (write_start f) f']> (g_open s')) s'). exists s1.
  rewrite (fat16_vfs_seek_ok s' h f' l' (write_start f)) by (done || lia).
  assert (Ho1 := open_file_seek s' h f' l' (write_start f) W4 ltac:(lia)).
  destruct (fat16_vfs_read_ok s1 h (set_o_pos (write_start f) f') l' (Z.of_nat (length buf))) as (s2 & E2 & _);
    [by apply vol_ok_open|simpl; by rewrite W2|done|simpl; rewrite W8, Hfl; done|lia|].
  exists s2. split; [done|]. rewrite E2. change (file_bytes s1 (set_o_pos (write_start f) f') l') with (file_bytes s' f' l').
  simpl o_pos. rewrite W9. assert (Hl : length (file_bytes s f l) = Z.to_nat (o_size f)).
  { pose proof (file_bytes_length _ _ _ _ Hs Ho). lia. }
  rewrite drop_app_length' by (rewrite length_take; lia). by rewrite Nat2Z.id, take_app_length.
Qed.
End fat_spec.

(** ** On the volume in memory *)

Example demo_alloc : fst <$> fat16_alloc_cluster demo_fs = Some (Some 3).
Proof. by vm_compute. Qed.

Example demo_read : fst <$> fat16_vfs_read 0 20 demo_fs = Some (20, replicate 12 65 ++ replicate 8 66).
Proof. by vm_compute. Qed.

(** 600 more bytes take the cluster 3; then the volume is full but for cluster 5. *)
Example demo_write : fst <$> fat16_vfs_write 0 (replicate 700 7) demo_fs = Some 700.
Proof. by vm_compute. Qed.

Lemma fat16_alloc_cluster_correct_witness : ∃ o s', fat16_alloc_cluster demo_fs = Some (o, s') ∧
  match o with
  | None => (∀ c, is_cluster demo_geo c → fat_entry demo_fs 0 c ≠ 0) ∧ fat_quiet demo_fs s'
  | Some m => (∀ c, 2 ≤ c < m → fat_entry demo_fs 0 c ≠ 0) ∧ allocated demo_fs s' m
  end.
Proof. exact (fat16_alloc_cluster_correct demo_fs demo_ok). Defined.

Lemma fat16_free_chain_correct_witness : ∃ s', fat16_free_chain 2 demo_fs = Some (0, s') ∧
  fat_entry s' 0 2 = 0 ∧ fat_entry s' 1 4 = 0.
Proof.
  destruct (fat16_free_chain_correct demo_fs 2 [2; 4] demo_ok demo_chain) as (s' & E & _ & K).
  exists s'. split; [exact E|].
  assert (Hf : fat_count (g_fat demo_fs) = 2) by reflexivity. assert (Hc : cluster_count (g_fat demo_fs) = 4) by reflexivity.
  unfold is_entry in K. rewrite Hf, Hc in K.
  rewrite (K 0 2), (K 1 4) by lia. rewrite !decide_True by repeat constructor. split; reflexivity.
Defined.

Lemma fat16_vfs_read_correct_witness : ∃ s', fat16_vfs_read 0 20 demo_fs = Some ((20, replicate 12 65 ++ replicate 8 66), s') ∧
  o_pos <$> g_open s' !! 0%nat = Some 520.
Proof.
  destruct (fat16_vfs_read_correct demo_fs 0 demo_file [2; 4] 20 demo_ok eq_refl demo_open) as (s' & E & St & _);
    [vm_compute; discriminate|lia|].
  exists s'. split.
  - assert (Eb : take (Z.to_nat 20) (drop (Z.to_nat (o_pos demo_file)) (file_bytes demo_fs demo_file [2; 4])) =
             replicate 12 65 ++ replicate 8 66) by (vm_compute; reflexivity).
    rewrite Eb in E. exact E.
  - rewrite (fs_open _ _ _ _ _ St). vm_compute. reflexivity.
Defined.

Definition demo_buf : list Z := [1; 2; 3].

Lemma fat16_vfs_write_correct_witness : ∃ (k : nat) s' f' l',
  fat16_vfs_write 0 demo_buf demo_fs = Some (Z.of_nat k, s') ∧
  written 0 demo_fs s' demo_file f' [2; 4] l' 500 (take k demo_buf) ∧ (k = 3%nat ∨ disk_full s').
Proof.
  destruct (fat16_vfs_write_correct demo_fs 0 demo_file [2; 4] demo_buf demo_ok eq_refl demo_open demo_dirent)
    as (k & s' & f' & l' & E & _ & W & Hend); [vm_compute; discriminate|decided|done|vm_compute; discriminate|].
  exists k, s', f', l'. split; [exact E|]. split; [exact W|exact Hend].
Defined.

Lemma fat16_write_seek_read_witness : ∃ s1 s2 s3, fat16_vfs_write 0 demo_buf demo_fs = Some (3, s1) ∧
  fat16_vfs_seek 0 500 SEEK_SET s1 = Some (500, s2) ∧ fat16_vfs_read 0 3 s2 = Some ((3, demo_buf), s3).
Proof.
  assert (E : fst <$> fat16_vfs_write 0 demo_buf demo_fs = Some 3) by by vm_compute.
  destruct (fat16_vfs_write 0 demo_buf demo_fs) as [[n s1]|] eqn:Ew; [|discriminate E]. injection E as ->.
  destruct (fat16_write_seek_read demo_fs 0 demo_file [2; 4] demo_buf s1 demo_ok eq_refl demo_open demo_dirent)
    as (s2 & s3 & E2 & E3); [done|decided|done|vm_compute; discriminate|exact Ew|].
  exists s1, s2, s3. split; [done|]. split; [exact E2|exact E3].
Defined.
