(* ===== verification/FatNames.v ===== *)
(** * File names on a FAT16 volume

    The 8.3 names of [src/src/fs/fat16.c]: the name that a listing shows for a short
    entry is the name with which the entry is found again.  The examples at the end
    record what the code does where it departs from its comments: long names that
    are created and cannot be found, a live entry that is overwritten, a file
    renamed onto itself, and growth that clears bytes of another cluster. *)

From S2P Require Import Prelude CLib KHeap Pipe Vfs Disk Fat16 FatTable FatFile FatWrite FatSpec.

(** ** 8.3 names *)

(** The characters of a stored name are not changed by the conversion. *)
Lemma is_83_upper c : is_83_char c = true → upper_ascii c = c ∧ c ≠ 32 ∧ c ≠ 46.
Proof. unfold is_83_char, upper_ascii. intros Hc. repeat case_match; lia. Qed.

Lemma to_83_chars_true s l r : to_83_chars s true = Some (l, r) →
  Forall (λ c, is_83_char c = true) l ∧ (r = [] ∨ ∃ r', r = 46 :: r').
Proof.
  revert l r. induction s as [|c s IH]; intros l r; simpl; [intros [= <- <-]; auto|].
  destruct (c =? 46) eqn:E; [intros [= <- <-]; assert (c = 46) as -> by lia; eauto|].
  destruct (is_83_char _) eqn:E2; [|done]. cbn [negb]. destruct (to_83_chars s true) as [[l' r']|]; [|done].
  simpl. intros [= <- <-]. destruct (IH l' r' eq_refl). auto.
Qed.

Lemma to_83_chars_false s l r : to_83_chars s false = Some (l, r) → Forall (λ c, is_83_char c = true) l.
Proof.
  revert l r. induction s as [|c s IH]; intros l r; simpl; [intros [= <- <-]; auto|].
  destruct (is_83_char _) eqn:E2; [|done]. cbn [negb]. destruct (to_83_chars s false) as [[l' r']|]; [|done].
  simpl. intros [= <- <-]. by constructor; [|eapply IH].
Qed.

(** What is converted is a base of one to eight characters and an extension of at
    most three. *)
Lemma name_to_83_inv s n : fat16_name_to_83 s = Some n → ∃ base ext,
  Forall (λ c, is_83_char c = true) base ∧ Forall (λ c, is_83_char c = true) ext ∧
  (1 ≤ length base ≤ 8)%nat ∧ (length ext ≤ 3)%nat ∧ n = pad_right 8 base ++ pad_right 3 ext.
Proof.
  unfold fat16_name_to_83. destruct (to_83_chars s true) as [[base rest]|] eqn:E1; [|done]. simpl.
  apply to_83_chars_true in E1 as [Hb _]. destruct (_ || _) eqn:E2; [done|].
  apply orb_false_iff in E2 as [E2 E3]. apply Nat.ltb_ge in E2. apply Nat.eqb_neq in E3.
  destruct rest as [|c rest].
  - intros [= <-]. exists base, []. repeat split; try done; simpl; lia.
  - destruct (to_83_chars rest false) as [[ext r]|] eqn:E4; [|done]. simpl. destruct (3 <? _)%nat eqn:E5; [done|].
    intros [= <-]. apply Nat.ltb_ge in E5. exists base, ext. repeat split; try done; [by eapply to_83_chars_false|lia].
Qed.

Lemma to_83_chars_id (l : list Z) (stop : bool) r : Forall (λ c, is_83_char c = true) l →
  (if stop then r = [] ∨ (∃ r', r = 46 :: r') else r = []) → to_83_chars (l ++ r) stop = Some (l, r).
Proof.
  intros Hl Hr. induction Hl as [|c l Hc _ IH]; simpl.
  - destruct stop; [destruct Hr as [->|[r' ->]]; done|by subst].
  - destruct (is_83_upper c Hc) as (-> & _ & H46). rewrite Hc. cbn [negb].
    replace (stop && (c =? 46)) with false by (destruct stop; simpl; lia). by rewrite IH.
Qed.

Lemma length_pad_right n s : length (pad_right n s) = n.
Proof. unfold pad_right. rewrite length_take, length_app, length_replicate. lia. Qed.

Lemma find_space s r : Forall (λ c, is_83_char c = true) s →
  find_index (Z.eqb 32) (s ++ r) = (λ i, length s + i)%nat <$> find_index (Z.eqb 32) r.
Proof.
  induction 1 as [|c s Hc _ IH]; cbn [app find_index length]; [by destruct (find_index _ r)|].
  destruct (is_83_upper c Hc) as (_ & H32 & _). rewrite (proj2 (Z.eqb_neq 32 c)) by congruence. rewrite IH.
  by destruct (find_index _ r).
Qed.

Lemma until_space_pad n s : (length s ≤ n)%nat → Forall (λ c, is_83_char c = true) s → until_space (pad_right n s) = s.
Proof.
  intros Hn Hs. unfold pad_right. rewrite take_app_ge by done. rewrite take_replicate, Nat.min_l by lia.
  unfold until_space. rewrite find_space by done. destruct (n - length s)%nat; simpl.
  - rewrite app_nil_r. by apply take_ge.
  - rewrite Nat.add_0_r. by apply take_app_length.
Qed.

Lemma pad_right_spaces s : (length s ≤ 3)%nat → Forall (λ c, is_83_char c = true) s →
  forallb (Z.eqb 32) (pad_right 3 s) = match s with [] => true | _ => false end.
Proof.
  intros Hl Hs. destruct Hs as [|c s Hc _]; [done|]. destruct (is_83_upper c Hc) as (_ & H32 & _).
  unfold pad_right. cbn [app take forallb]. by rewrite (proj2 (Z.eqb_neq 32 c)) by congruence.
Qed.

Lemma dirent_name_of_83 base ext : Forall (λ c, is_83_char c = true) base → Forall (λ c, is_83_char c = true) ext →
  (length base ≤ 8)%nat → (length ext ≤ 3)%nat →
  fat16_dirent_name_to_string (pad_right 8 base ++ pad_right 3 ext) = base ++ match ext with [] => [] | _ => 46 :: ext end.
Proof.
  intros Hb He Hlb Hle. unfold fat16_dirent_name_to_string.
  rewrite take_app_length' by by rewrite length_pad_right. rewrite drop_app_length' by by rewrite length_pad_right.
  rewrite take_ge by (rewrite length_pad_right; lia). rewrite until_space_pad by done. f_equal.
  rewrite pad_right_spaces by done. rewrite until_space_pad by done. by destruct ext.
Qed.

(** The name under which a short entry is listed
    ([fat16_dirent_name_to_string]) is converted back ([fat16_name_to_83]) to the
    eleven bytes of that entry, for every name that the conversion accepts; so a
    listed file is found under its listed name. *)
Theorem fat16_short_name_roundtrip s n : fat16_name_to_83 s = Some n →
  length n = 11%nat ∧ fat16_name_to_83 (fat16_dirent_name_to_string n) = Some n.
Proof.
  intros (base & ext & Hb & He & Hlb & Hle & ->)%name_to_83_inv.
  split; [by rewrite length_app, !length_pad_right|].
  rewrite dirent_name_of_83 by (done || lia). unfold fat16_name_to_83.
  rewrite to_83_chars_id by (done || destruct ext; eauto). simpl.
  rewrite (proj2 (Nat.ltb_ge 8 (length base))), (proj2 (Nat.eqb_neq (length base) 0)) by lia. cbn [orb].
  destruct ext as [|e ext]; [done|]. rewrite <- (app_nil_r (e :: ext)) at 1. rewrite to_83_chars_id by done.
  simpl. simpl in Hle. by rewrite (proj2 (Nat.ltb_ge 3 (S (length ext)))) by lia.
Qed.

Lemma fat16_short_name_roundtrip_witness : fat16_name_to_83 (str "shell.wlf") = Some (str "SHELL   WLF") ∧
  fat16_name_to_83 (fat16_dirent_name_to_string (str "SHELL   WLF")) = Some (str "SHELL   WLF").
Proof.
  assert (E : fat16_name_to_83 (str "shell.wlf") = Some (str "SHELL   WLF")) by by vm_compute.
  split; [exact E|]. exact (proj2 (fat16_short_name_roundtrip _ _ E)).
Defined.

(** ** Where the code departs from what it says

    Sequences of calls on the volume of [FatSpec], evaluated. *)

Notation DemoFS := (fs_t (mem_disk 8) (set_heap 4)).

(** [f] of the outcome of a sequence of calls. *)
Definition after {A B} (m : M DemoFS A) (f : A → DemoFS → B) (s : DemoFS) : option B := (λ '(a, s'), f a s') <$> m s.
Definition create (name : string) : M DemoFS Z := fat16_vfs_open (str name) (O_RDWR + O_CREAT).
Definition exists_rc (name : string) (s : DemoFS) : option Z := (λ '((rc, _), _), rc) <$> fat16_vfs_stat (str name) s.
Definition listed (s : DemoFS) (i : Z) : option (list Z) := (λ '((_, name), _), name) <$> fat16_vfs_readdir (str "/") i 64 s.

(** A file with a name of more than thirteen characters is created; looked up, the
    name is not there: its entries are stored in ascending order, the scan needs
    them in descending order. *)
Example long_name_not_found :
  after (create "/long_file_name.txt") (λ h s, (h, exists_rc "/long_file_name.txt" s)) demo_fs = Some (1, Some (-1)).
Proof. by vm_compute. Qed.

(** A long name that does not fill its last entry is compared beyond the
    characters that were stored: uninitialised bytes are read. *)
Example long_name_read_uninitialised :
  after (create "/notes.conf") (λ h s, (h, exists_rc "/notes.conf" s)) demo_fs = Some (1, None).
Proof. by vm_compute. Qed.

(** The entries of a long name that is created in the slot of a deleted file
    overwrite the entry that follows: [/b] is gone. *)
Example long_name_overwrites_entry :
  after (create "/a";; create "/b";; fat16_vfs_unlink (str "/a");; create "/long_name_a.x")
        (λ _ s, (exists_rc "/b" s, listed s <$> [0; 1])) demo_fs =
  Some (Some (-1), [Some (str "long_name_a.x"); Some []]).
Proof. by vm_compute. Qed.

(** [fat16_vfs_unlink] leaves the entries of the long name: a file created later in
    the slot is listed under the name of the file that was removed. *)
Example unlink_leaves_long_name :
  after (create "/thirteen.chrs";; fat16_vfs_unlink (str "/thirteen.chrs");; create "/b") (λ _ s, listed s 0) demo_fs =
  Some (Some (str "thirteen.chrs")).
Proof. by vm_compute. Qed.

(** A file renamed to its own name: the call succeeds and the cluster of the file
    (number 3) has become free. *)
Example rename_to_itself_frees :
  after (h ← create "/a"; fat16_vfs_write h [1; 2; 3];; fat16_vfs_rename (str "/a") (str "/a"))
        (λ rc s, (rc, exists_rc "/a" s, fat_entry s 0 3)) demo_fs = Some (0, Some 0, 0).
Proof. by vm_compute. Qed.

(** A rename into a directory that does not exist goes on with a parent that was
    never set. *)
Example rename_missing_parent :
  after (create "/a";; fat16_vfs_rename (str "/a") (str "/nodir/b")) (λ rc _, rc) demo_fs = None.
Proof. by vm_compute. Qed.

(** [fat16_vfs_mkdir] of a name that is not an 8.3 name succeeds and makes an entry
    without a name. *)
Example mkdir_long_name_blank :
  after (fat16_vfs_mkdir (str "/averylongname")) (λ rc s, (rc, listed s 0)) demo_fs = Some (0, Some []).
Proof. by vm_compute. Qed.

(** Growing the file of 600 bytes, whose last cluster is number 4 (sector 6), to
    1000 bytes: the sector that is cleared is the one after it, of the cluster 5,
    and the bytes after the old end are not zero. *)
Definition demo_fs2 : DemoFS := with_disk (mem_write 7 (replicate 512 67) demo_disk) demo_fs.

Example grow_clears_other_cluster :
  after (fat16_vfs_ftruncate 0 1000)
        (λ rc s, (rc, sector (fs_disk s) 7 !! 100%nat, file_data s [2; 4] !! 700%nat)) demo_fs2 = Some (0, Some 0, Some 66).
Proof. by vm_compute. Qed.
