(* ===== verification/FatMount.v ===== *)
(** * Mounting a FAT16 volume

    [fat16_init] of [src/src/fs/fat16.c] establishes the invariant of [FatTable]: what
    the boot sector is checked for gives the order of the areas of the volume; that
    the volume lies on the device and that its FAT has an entry for every cluster
    is not checked by the code and is a hypothesis on the volume. *)

From S2P Require Import Prelude CLib KHeap Pipe Vfs Disk Fat16 FatTable.

Section fat_mount.
Context {D H : Type} `{!BlockDev D} `{!KHeap H}.
Notation FS := (fs_t D H).
Implicit Types (s : FS) (g : fat16_state_t).

(** What a formatted volume has and [parse_bpb] does not check. *)
Record formatted (g : fat16_state_t) (n : Z) : Prop := {
  fm_start : part_lba g < fat_start_lba g;
  fm_end : part_lba g + total_sectors g ≤ n;
  fm_size : n ≤ 4294967296;
  fm_room : (cluster_count g + 2) * 2 ≤ sectors_per_fat g * 512
}.

Lemma byte_at_range l i : Forall is_u8 l → is_u8 (byte_at l i).
Proof.
  intros Hl. unfold byte_at. destruct (l !! i) as [b|] eqn:E; [by eapply Forall_lookup_1|done].
Qed.

(** The areas follow one another; the subtraction that gives the size of the data
    area does not wrap when the number of clusters is accepted. *)
Lemma bpb_areas p reserved fats spf root spc total n :
  is_u32 p → is_u16 reserved → is_u8 fats → is_u16 spf → 0 ≤ root ≤ 4096 → 1 ≤ spc < 256 → is_u32 total →
  p + total ≤ n → n ≤ 4294967296 →
  let clusters := u32 (total - (reserved + fats * spf + root)) / spc in
  4085 ≤ clusters < 65525 →
  let fat_start := u32 (p + reserved) in
  let root_start := u32 (fat_start + fats * spf) in
  fat_start = p + reserved ∧ fat_start + fats * spf ≤ u32 (root_start + root) ∧ u32 (root_start + root) + clusters * spc ≤ n.
Proof.
  intros Hp Hr Hf Hs Hro Hc Ht Hn Hmax clusters Hcl fat_start root_start. unfold is_u32, is_u16, is_u8 in Hp, Hr, Hf, Hs, Ht.
  set (meta := reserved + fats * spf + root) in *. assert (Hm : 0 ≤ meta ≤ 17000000) by (unfold meta; nia).
  assert (Hge : meta ≤ total).
  { destruct (Z.le_gt_cases meta total) as [|Hlt]; [done|]. exfalso. unfold clusters, u32 in Hcl.
    assert (E : (total - meta) mod 4294967296 = total - meta + 4294967296).
    { symmetry. apply (Zmod_unique _ _ (-1)); lia. }
    rewrite E in Hcl. assert (65525 * spc ≤ total - meta + 4294967296) by nia.
    assert (65525 ≤ (total - meta + 4294967296) / spc) by (apply Z.div_le_lower_bound; lia). lia. }
  assert (Ed : u32 (total - meta) = total - meta) by (apply u32_small; unfold is_u32; lia).
  unfold clusters in *. rewrite Ed in *. assert (Hdm := Z.mul_div_le (total - meta) spc ltac:(lia)).
  assert (Hpos : 4085 ≤ total - meta) by nia.
  assert (E1 : fat_start = p + reserved) by (apply u32_small; unfold is_u32, meta in *; nia).
  assert (E2 : root_start = p + reserved + fats * spf).
  { unfold root_start. rewrite E1. apply u32_small. unfold is_u32, meta in *. nia. }
  assert (E3 : u32 (root_start + root) = p + meta).
  { rewrite E2. unfold meta. rewrite u32_small; [lia|]. unfold is_u32, meta in *. nia. }
  rewrite E3, E1. unfold meta in *. lia.
Qed.

Lemma parse_bpb_geometry sec p g n : Forall is_u8 sec → is_u32 p → parse_bpb sec p = Some g → formatted g n → geometry g n.
Proof.
  intros Hb Hp. unfold parse_bpb, read_u32. simpl Nat.add.
  assert (Hspc := byte_at_range sec 13 Hb). assert (Hfats := byte_at_range sec 16 Hb).
  assert (Hr := λ i, read_u16_range sec i Hb). pose proof (Hr 14%nat). pose proof (Hr 17%nat). pose proof (Hr 22%nat).
  pose proof (Hr 19%nat). pose proof (Hr 32%nat). pose proof (Hr 34%nat). clear Hr.
  generalize dependent (read_u16 sec 14). generalize dependent (read_u16 sec 17). generalize dependent (read_u16 sec 22).
  generalize dependent (read_u16 sec 19). generalize dependent (read_u16 sec 32). generalize dependent (read_u16 sec 34).
  generalize dependent (byte_at sec 13). generalize dependent (byte_at sec 16). generalize (read_u16 sec 11).
  intros bps fats Hfats spc Hspc t2 Ht2 t1 Ht1 t16 Ht16 spf Hspf roots Hroots res Hres.
  destruct (_ || _) eqn:E1; [done|]. apply orb_false_iff in E1 as [E1 ?]. repeat (apply orb_false_iff in E1 as [E1 ?]).
  assert (Ht : is_u32 (if t16 =? 0 then t1 + 65536 * t2 else t16)) by (case_match; mlia).
  generalize dependent (if t16 =? 0 then t1 + 65536 * t2 else t16). intros total Ht.
  destruct (total =? 0); [done|]. destruct (_ || _) eqn:E3; [done|]. apply orb_false_iff in E3 as [E3 E4].
  intros [= <-] [F1 F2 F3 F4]. simpl in *. unfold FAT16_SECTOR_SIZE in *.
  assert (Hroot : 0 ≤ (roots * 32 + (512 - 1)) / 512 ≤ 4096) by mlia.
  unfold is_u8, is_u16, is_u32 in *.
  destruct (bpb_areas p res fats spf ((roots * 32 + (512 - 1)) / 512) spc total n) as (A1 & A2 & A3);
    unfold is_u8, is_u16, is_u32; try lia.
  split; simpl; try lia.
Qed.

(** The volume is mounted, or nothing is. *)
Definition fresh (s : FS) : Prop := healthy (fs_disk s) ∧ length (fat_cache s) = FAT_CACHE_SIZE ∧
  (fat_cache_next s < FAT_CACHE_SIZE)%nat ∧ Forall (λ e, e.1 = 0) (fat_cache s).

Lemma fresh_coherent s : fresh s → coherent s.
Proof.
  intros (_ & Hl & Hn & Hz). split; [done..|]. intros i lba data Hi Hne. by apply (Forall_lookup_1 _ _ _ _ Hz) in Hi.
Qed.

(** Outcome of an attempt: the cache is still empty, and a volume that was found is
    in order if it was formatted. *)
Definition attempted (rc : Z) (s s' : FS) : Prop :=
  fresh s' ∧ (∀ x, sector (fs_disk s') x = sector (fs_disk s) x) ∧ disk_size (fs_disk s') = disk_size (fs_disk s) ∧
  (rc = 0 → mounted (g_fat s') = true ∧ g_open s' = replicate FAT16_MAX_OPEN open_zero ∧
            (formatted (g_fat s') (disk_size (fs_disk s')) → vol_ok s')) ∧
  (rc ≠ 0 → g_fat s' = g_fat s).

Lemma read_fresh s lba : fresh s → ∃ o d, ata_read_sector lba s = Some (o, with_disk d s) ∧ fresh (with_disk d s) ∧
  (∀ x, sector d x = sector (fs_disk s) x) ∧ disk_size d = disk_size (fs_disk s) ∧
  (∀ sec, o = Some sec → sec = sector (fs_disk s) lba).
Proof.
  intros (Hh & Hf). unfold ata_read_sector, ata_read. destruct (ata_pio_read lba 1 (fs_disk s)) as [o d] eqn:E.
  exists o, d. split; [done|]. split; [split; [by eapply healthy_after_read|done]|].
  split; [intros x; by eapply disk_read_keeps|]. split; [by eapply disk_read_size|].
  intros sec ->. apply disk_read_Some in E. rewrite E. simpl. by rewrite app_nil_r.
Qed.

Lemma fat16_try_mount_at_ok p s : fresh s → is_u32 p →
  ∃ rc s', fat16_try_mount_at p s = Some (rc, s') ∧ (rc = 0 ∨ rc = -1) ∧ attempted rc s s'.
Proof.
  intros Hs Hp. unfold fat16_try_mount_at, mbind, M_bind. destruct (read_fresh s p Hs) as (o & d & E & Hf & Hx & Hz & Ho).
  rewrite E. destruct o as [sec|]; [|exists (-1), (with_disk d s); by repeat split; try apply Hf; auto].
  destruct (parse_bpb sec p) as [g|] eqn:Eg; [|exists (-1), (with_disk d s); by repeat split; try apply Hf; auto].
  eexists 0, _. split; [done|]. split; [by left|]. split; [exact Hf|]. split; [done|]. split; [done|]. split; [|done]. intros _. simpl.
  split; [|split; [done|]].
  - unfold parse_bpb in Eg. repeat (case_match; [done|]). by injection Eg as <-.
  - intros Hfm. split; [|apply Hf|].
    + eapply parse_bpb_geometry; [|exact Hp|exact Eg|exact Hfm]. rewrite (Ho sec eq_refl). apply sector_bytes.
    + apply fresh_coherent. exact Hf.
Qed.

Lemma attempted_trans rc rc' s s1 s2 : rc ≠ 0 → attempted rc s s1 → attempted rc' s1 s2 → attempted rc' s s2.
Proof.
  intros Hrc (A1 & A2 & A3 & _ & A5) (B1 & B2 & B3 & B4 & B5). split; [done|]. split; [congruence|]. split; [congruence|].
  split; [done|]. intros Hrc'. rewrite B5 by done. by apply A5.
Qed.

Lemma attempted_refl rc s : rc ≠ 0 → fresh s → attempted rc s s.
Proof. intros Hrc Hs. by split. Qed.

Lemma read_u32_range l i : Forall is_u8 l → is_u32 (read_u32 l i).
Proof.
  intros Hl. pose proof (read_u16_range l i Hl). pose proof (read_u16_range l (i + 2) Hl). unfold read_u32. mlia.
Qed.

Lemma try_partitions_ok n i mbr s : fresh s → Forall is_u8 mbr →
  ∃ (ok : bool) s', try_partitions n i mbr s = Some (ok, s') ∧ attempted (if ok then 0 else -1) s s'.
Proof.
  intros Hs Hm. revert i s Hs. induction n as [|n IH]; intros i s Hs.
  { exists false, s. split; [done|]. by apply attempted_refl. }
  cbn [try_partitions]. destruct (_ && _); [|by apply IH]. unfold mbind, M_bind.
  destruct (fat16_try_mount_at_ok (read_u32 (drop (446 + 16 * i) mbr) 8) s) as (rc & s1 & E & Hrc & Hat);
    [done|by apply read_u32_range, Forall_drop|]. rewrite E. destruct Hrc as [-> | ->].
  - by exists true, s1.
  - destruct (IH (S i) s1) as (ok & s2 & E2 & Hat2); [apply Hat|]. exists ok, s2. split; [done|].
    by apply (attempted_trans (-1) _ s s1 s2).
Qed.

Lemma fat16_init_ok s : attached (fs_disk s) → length (fat_cache s) = FAT_CACHE_SIZE →
  ∃ rc s', fat16_init s = Some (rc, s') ∧ (rc = 0 ∨ rc = -1) ∧ (∀ x, sector (fs_disk s') x = sector (fs_disk s) x) ∧
    (rc = 0 → mounted (g_fat s') = true ∧ g_open s' = replicate FAT16_MAX_OPEN open_zero ∧
              (formatted (g_fat s') (disk_size (fs_disk s')) → vol_ok s')) ∧
    (rc = -1 → mounted (g_fat s') = false).
Proof.
  intros Hh Hl. unfold fat16_init, fat_cache_invalidate, modify, mbind, M_bind, get.
  destruct (attached_init _ Hh) as (d & Ei & Hd). set (sa := with_cache _ 0 _).
  change (fs_disk sa) with (fs_disk s). rewrite Ei. cbv beta iota. set (s0 := with_disk d sa).
  assert (K0 : ∀ x, sector (fs_disk s0) x = sector (fs_disk s) x) by (intros x; by eapply disk_init_keeps).
  assert (Hs0 : fresh s0).
  { split; [done|]. simpl. rewrite length_fmap. split; [done|]. split; [vm_compute; lia|].
    apply Forall_fmap, Forall_true. by intros []. }
  change (0 <? 0) with false. cbv iota.
  destruct (read_fresh s0 0 Hs0) as (o & d1 & E1 & Hs1 & Hx1 & Hz1 & Ho). rewrite E1.
  assert (Hpart : ∃ (ok : bool) s2, (match o with
            | Some mbr => if (byte_at mbr 510 =? 0x55) && (byte_at mbr 511 =? 0xAA) then try_partitions 4 0 mbr else mret false
            | None => mret false
            end) (with_disk d1 s0) = Some (ok, s2) ∧ attempted (if ok then 0 else -1) (with_disk d1 s0) s2).
  { destruct o as [mbr|]; [|eexists false, _; split; [done|by apply attempted_refl]].
    destruct (_ && _); [|eexists false, _; split; [done|by apply attempted_refl]].
    apply try_partitions_ok; [done|]. rewrite (Ho mbr eq_refl). apply sector_bytes. }
  destruct Hpart as (ok & s2 & E2 & A2). rewrite E2. destruct ok.
  - destruct A2 as (_ & X2 & Z2 & M2 & _). exists 0, s2. split; [done|]. split; [by left|]. split; [|by split].
    intros x. rewrite X2. simpl. by rewrite Hx1.
  - destruct (fat16_try_mount_at_ok 0 s2) as (rc & s3 & E3 & Hrc & A3); [apply A2|done|]. rewrite E3.
    assert (Hne : (-1) ≠ 0) by done. apply (attempted_trans _ _ _ _ _ Hne A2) in A3. destruct A3 as (_ & X3 & Z3 & M3 & N3).
    exists rc, s3. split; [by destruct Hrc as [-> | ->]|]. split; [done|]. split; [intros x; rewrite X3; simpl; by rewrite Hx1|].
    split; [done|]. intros ->. by rewrite N3.
Qed.

End fat_mount.

(** ** A boot sector *)

(** A volume of 5000 sectors at sector 0: one reserved sector, two FATs of 20
    sectors, 16 root entries, clusters of one sector. *)
Definition demo_boot : list Z :=
  splice ZERO_SECTOR 11 [0; 2; 1; 1; 0; 2; 16; 0; 136; 19; 0; 20; 0].

Definition demo_raw : fs_t (mem_disk 5000) (set_heap 4) :=
  mk_fs fat_zero [] (replicate FAT_CACHE_SIZE (0, ZERO_SECTOR)) 0 (mk_rdcache [] [] false) (mem_write 0 demo_boot ∅) (heap0 4).

Example demo_mount : (λ '(rc, s), (rc, g_fat s)) <$> fat16_init demo_raw =
  Some (0, mk_fat true 0 1 41 42 1 5000 20 2 512 1 16 4958).
Proof. by vm_compute. Qed.

