(* ===== verification/FatDir.v ===== *)
(** * Directories and paths on a FAT16 volume

    [fat16_lookup_in_dir] and [fat16_resolve_path] of [src/src/fs/fat16.c] against a
    reference: a directory is the list of its entries, in the order of its sectors,
    and the lookup of a short name is the first live entry with that name before the
    end mark.  The code reads the root in batches of eight sectors and other
    directories by clusters or by sectors; the result is the same.  The directories
    have no long-name entries. *)

From S2P Require Import Prelude CLib KHeap Pipe Vfs Disk Fat16 FatTable FatFile.

(** ** The reference *)

(** An entry with the sector and the offset where it is. *)
Definition located : Type := Z * Z * list Z.

Definition sector_entries (lba : Z) (sec : list Z) (off : Z) (n : nat) : list located :=
  (λ k, (lba, off + 32 * Z.of_nat k, de_at sec (off + 32 * Z.of_nat k))) <$> seq 0 n.

Fixpoint scan_ref (name : list Z) (es : list located) : scan_res :=
  match es with
  | [] => KeepScanning
  | (lba, off, de) :: es =>
    if byte_at de 0 =? 0 then EndOfDir else
    if byte_at de 0 =? 0xE5 then scan_ref name es else
    if negb (Z.land (de_attr de) FAT16_ATTR_VOLUMEID =? 0) then scan_ref name es else
    if bool_decide (de_name de = name) then Found de lba off else scan_ref name es
  end.

Definition find_entry (name : list Z) (es : list located) : option (list Z * Z * Z) :=
  match scan_ref name es with Found de lba off => Some (de, lba, off) | _ => None end.

Definition short_names (es : list located) : Prop := Forall (λ e, de_attr e.2 ≠ FAT16_ATTR_LFN) es.

Lemma scan_ref_app name es es' :
  scan_ref name (es ++ es') = match scan_ref name es with KeepScanning => scan_ref name es' | r => r end.
Proof. induction es as [|[[lba off] de] es IH]; simpl; [done|]. repeat case_match; try done. Qed.

Lemma sector_entries_S lba sec off n :
  sector_entries lba sec off (S n) = (lba, off, de_at sec off) :: sector_entries lba sec (off + 32) n.
Proof.
  unfold sector_entries. cbn [seq]. rewrite fmap_cons. f_equal.
  - replace (off + 32 * Z.of_nat 0) with off by lia. done.
  - rewrite <- fmap_S_seq, <- list_fmap_compose. apply list_fmap_ext. intros i x _. simpl.
    replace (off + 32 * Z.of_nat (S x)) with (off + 32 + 32 * Z.of_nat x) by lia. done.
Qed.

(** ** Scanning *)

(** No part of a long name is pending. *)
Definition no_pending (st : scan_t) : Prop := sc_lfn st !! 0%nat = Some (Some 0).

Lemma no_pending_reset st : no_pending st → no_pending (lfn_reset st).
Proof.
  intros Hst. unfold no_pending, lfn_reset in *. simpl. apply list_lookup_insert_eq. by eapply lookup_lt_Some.
Qed.

Lemma no_pending_note lba off st : no_pending st → no_pending (note_free lba off st).
Proof. unfold no_pending, note_free. by case_match. Qed.

#[local] Hint Resolve no_pending_reset no_pending_note : core.

Lemma scan_entries_ok n sec lba off name long st : no_pending st → short_names (sector_entries lba sec off n) →
  ∃ st', scan_entries n sec lba off name long st = Some (scan_ref name (sector_entries lba sec off n), st') ∧ no_pending st'.
Proof.
  revert off st. induction n as [|n IH]; intros off st Hst Hs; [by exists st|].
  rewrite sector_entries_S in *. apply Forall_cons in Hs as [Ha Hs]. cbn [snd] in Ha. cbn [scan_entries scan_ref].
  destruct (byte_at _ 0 =? 0); [eauto|]. destruct (byte_at _ 0 =? 0xE5); [apply IH; auto|].
  rewrite (proj2 (Z.eqb_neq _ _) Ha). destruct (negb (Z.land _ FAT16_ATTR_VOLUMEID =? 0)); [apply IH; auto|].
  destruct (bool_decide (de_name _ = name)); [simpl; eauto|].
  assert (Hm : match long with
               | None => Some false
               | Some s => ne ← lfn_nonempty (sc_lfn st); if (ne : bool) then lfn_equal (sc_lfn st) s else Some false
               end = Some false).
  { destruct long; [|done]. unfold lfn_nonempty, no_pending in *. by rewrite Hst. }
  rewrite Hm. cbn [mbind option_bind]. apply IH; auto.
Qed.

Section fat_dir.
Context {D H : Type} `{!BlockDev D} `{!KHeap H}.
Notation FS := (fs_t D H).
Implicit Types (s : FS) (g : fat16_state_t).

(** The entries of the sectors [lbas]. *)
Definition entries_at (f : Z → list Z) (lbas : list Z) : list located :=
  concat ((λ x, sector_entries x (f x) 0 16) <$> lbas).

Lemma entries_at_app f l l' : entries_at f (l ++ l') = entries_at f l ++ entries_at f l'.
Proof. unfold entries_at. by rewrite fmap_app, concat_app. Qed.

Lemma entries_at_ext f f' l : (∀ x, f' x = f x) → entries_at f' l = entries_at f l.
Proof. intros Hf. unfold entries_at. f_equal. apply list_fmap_ext. intros i x _. by rewrite Hf. Qed.

Lemma scan_sectors_ok f n lba name long st : (∀ x, length (f x) = 512%nat) → 0 ≤ lba → lba + Z.of_nat n ≤ 4294967296 →
  no_pending st → short_names (entries_at f (seqZ lba (Z.of_nat n))) →
  ∃ st', scan_sectors n (sectors_at f lba n) lba name long st =
           Some (scan_ref name (entries_at f (seqZ lba (Z.of_nat n))), st') ∧ no_pending st'.
Proof.
  intros Hf. revert lba st. induction n as [|n IH]; intros lba st H0 Hn Hst Hs; [by exists st|].
  rewrite seqZ_cons in * by lia. replace (Z.pred (Z.of_nat (S n))) with (Z.of_nat n) in * by lia.
  unfold entries_at in Hs |- *. rewrite fmap_cons in *. cbn [concat] in *. apply Forall_app in Hs as [Hs1 Hs2].
  cbn [scan_sectors sectors_at]. rewrite take_app_length' by by rewrite Hf. rewrite drop_app_length' by by rewrite Hf.
  destruct (scan_entries_ok 16 (f lba) lba 0 name long st Hst Hs1) as (st1 & E & Hst1).
  unfold fat16_scan_dir_sector. rewrite E. cbn [mbind option_bind]. rewrite scan_ref_app.
  destruct (scan_ref name (sector_entries lba (f lba) 0 16)); [eauto|eauto|].
  destruct n as [|n]; [by exists st1|]. rewrite u32_small by (unfold is_u32; lia).
  apply IH; [lia|lia|done|exact Hs2].
Qed.

Lemma scan_singly_ok n lba name long st s : vol_ok s → 0 ≤ lba → lba + Z.of_nat n ≤ disk_size (fs_disk s) →
  no_pending st → short_names (entries_at (sector (fs_disk s)) (seqZ lba (Z.of_nat n))) →
  ∃ st' s', scan_singly n lba name long st s =
              Some ((scan_ref name (entries_at (sector (fs_disk s)) (seqZ lba (Z.of_nat n))), st'), s') ∧
            no_pending st' ∧ fat_quiet s s'.
Proof.
  revert lba st s. induction n as [|n IH]; intros lba st s Hs H0 Hn Hst Hsn.
  { exists st, s. split; [done|]. split; [done|by apply fat_quiet_refl]. }
  rewrite seqZ_cons in * by lia. replace (Z.pred (Z.of_nat (S n))) with (Z.of_nat n) in * by lia.
  unfold entries_at in Hsn |- *. rewrite fmap_cons in *. cbn [concat] in *. apply Forall_app in Hsn as [Hs1 Hs2].
  cbn [scan_singly]. unfold mbind, M_bind. destruct (ata_read_sector_ok s lba) as (d & E1 & Q1); [done|lia|]. rewrite E1.
  destruct (scan_entries_ok 16 (sector (fs_disk s) lba) lba 0 name long st Hst Hs1) as (st1 & E & Hst1).
  unfold fat16_scan_dir_sector, lift. rewrite E. rewrite scan_ref_app.
  destruct (scan_ref name (sector_entries lba (sector (fs_disk s) lba) 0 16)); [by eexists _, _|by eexists _, _|].
  destruct n as [|n]; [by exists st1, (with_disk d s)|].
  rewrite u32_small by (destruct (ok_geometry _ Hs); unfold is_u32; lia).
  assert (Ee := entries_at_ext (sector (fs_disk s)) (sector (fs_disk (with_disk d s))) (seqZ (Z.succ lba) (Z.of_nat (S n)))
                  (q_sector _ _ Q1)).
  destruct (IH (lba + 1) st1 (with_disk d s)) as (st2 & s2 & E2 & Hst2 & Q2);
    [apply Q1|lia|rewrite (st_size _ _ _ (q_step _ _ Q1)); lia|done|unfold Z.succ in Ee; by rewrite Ee|].
  exists st2, s2. unfold Z.succ in Ee. rewrite Ee in E2. split; [done|]. split; [done|by eapply fat_quiet_trans].
Qed.

Lemma lookup_root_ok fuel k name long st s : vol_ok s → no_pending st → 0 ≤ root_start_lba (g_fat s) → 0 ≤ k ≤ root_dir_sectors (g_fat s) →
  root_start_lba (g_fat s) + root_dir_sectors (g_fat s) ≤ disk_size (fs_disk s) →
  root_dir_sectors (g_fat s) - k < Z.of_nat fuel →
  let es := entries_at (sector (fs_disk s)) (seqZ (root_start_lba (g_fat s) + k) (root_dir_sectors (g_fat s) - k)) in
  short_names es →
  ∃ st' s', lookup_root fuel k name long st s = Some ((scan_ref name es, st'), s') ∧ no_pending st' ∧ fat_quiet s s'.
Proof.
  revert k st s. induction fuel as [|fuel IH]; intros k st s Hs Hst H0 Hk Hend Hfuel es Hsn; [lia|].
  assert (Hg := ok_geometry _ Hs). cbn [lookup_root]. unfold mbind, M_bind, get.
  destruct (Z.leb_spec (root_dir_sectors (g_fat s)) k) as [Hle|Hlt].
  { exists st, s. split; [|split; [done|by apply fat_quiet_refl]]. unfold es.
    replace (root_dir_sectors (g_fat s) - k) with 0 by lia. done. }
  set (b := Z.min (root_dir_sectors (g_fat s) - k) 8) in *. assert (Hb : 1 ≤ b ≤ 8) by (unfold b; lia).
  assert (Hbk : b ≤ root_dir_sectors (g_fat s) - k) by (unfold b; lia). clearbody b.
  rewrite u32_small by (destruct Hg; unfold is_u32; lia).
  destruct (ata_read_ok s (root_start_lba (g_fat s) + k) b) as (d & E1 & Q1); [done|lia..|]. rewrite E1.
  assert (Ees : es = entries_at (sector (fs_disk s)) (seqZ (root_start_lba (g_fat s) + k) b) ++
                     entries_at (sector (fs_disk s)) (seqZ (root_start_lba (g_fat s) + (k + b)) (root_dir_sectors (g_fat s) - (k + b)))).
  { unfold es. rewrite <- entries_at_app. f_equal. replace (root_dir_sectors (g_fat s) - k) with (b + (root_dir_sectors (g_fat s) - (k + b))) by lia.
    rewrite seqZ_app by lia. do 2 f_equal; lia. }
  rewrite Ees in *. apply Forall_app in Hsn as [Hs1 Hs2].
  destruct (scan_sectors_ok (sector (fs_disk s)) (Z.to_nat b) (root_start_lba (g_fat s) + k) name long st)
    as (st1 & E2 & Hst1); [apply sector_length|lia|destruct Hg; lia|done|by rewrite Z2Nat.id by lia|].
  unfold lift. rewrite E2, Z2Nat.id by lia. rewrite scan_ref_app.
  destruct (scan_ref name (entries_at _ (seqZ _ b))); [by eexists _, _|by eexists _, _|].
  assert (Ee := entries_at_ext (sector (fs_disk s)) (sector (fs_disk (with_disk d s)))
                  (seqZ (root_start_lba (g_fat s) + (k + b)) (root_dir_sectors (g_fat s) - (k + b))) (q_sector _ _ Q1)).
  destruct (IH (k + b) st1 (with_disk d s)) as (st2 & s2 & E3 & Hst2 & Q3);
    [apply Q1|done|done|simpl; lia|rewrite (st_size _ _ _ (q_step _ _ Q1)); done|simpl; lia|by rewrite <- Ee in Hs2|].
  exists st2, s2. simpl g_fat in E3. rewrite Ee in E3. split; [done|]. split; [done|by eapply fat_quiet_trans].
Qed.

(** The sectors of the clusters of a chain. *)
Definition chain_sectors (g : fat16_state_t) (l : list Z) : list Z :=
  concat ((λ c, seqZ (cluster_lba g c) (sectors_per_cluster g)) <$> l).

Lemma scan_cluster_ok c name long st s : vol_ok s → is_cluster (g_fat s) c → no_pending st →
  let es := entries_at (sector (fs_disk s)) (seqZ (cluster_lba (g_fat s) c) (sectors_per_cluster (g_fat s))) in
  short_names es →
  ∃ st' s', scan_cluster (sectors_per_cluster (g_fat s)) (cluster_to_lba (g_fat s) c) name long st s =
              Some ((scan_ref name es, st'), s') ∧ no_pending st' ∧ fat_quiet s s'.
Proof.
  intros Hs Hc Hst es Hsn. assert (Hg := ok_geometry _ Hs). destruct (cluster_lba_range _ _ Hs Hc) as (L1 & L2 & _).
  rewrite (cluster_to_lba_eq _ _ _ Hg Hc). unfold es in *. clear es.
  set (spc := sectors_per_cluster (g_fat s)) in *. assert (Hspc : 1 ≤ spc < 256) by apply Hg.
  replace spc with (Z.of_nat (Z.to_nat spc)) in Hsn by lia. unfold scan_cluster. destruct (spc <=? 8).
  - destruct (ata_read_ok s (cluster_lba (g_fat s) c) spc) as (d & E1 & Q1); [done..|].
    unfold mbind, M_bind. rewrite E1.
    destruct (scan_sectors_ok (sector (fs_disk s)) (Z.to_nat spc) (cluster_lba (g_fat s) c) name long st)
      as (st1 & E2 & Hst1); [apply sector_length|lia|destruct Hg; lia|done|done|].
    unfold lift. rewrite E2, Z2Nat.id by lia. by exists st1, (with_disk d s).
  - destruct (scan_singly_ok (Z.to_nat spc) (cluster_lba (g_fat s) c) name long st s)
      as (st1 & s1 & E1 & Hst1 & Q1); [done|lia|lia|done|done|].
    rewrite Z2Nat.id in E1 by lia. by exists st1, s1.
Qed.

Lemma lookup_chain_ok fuel c l name long st s : vol_ok s → no_pending st → chain (g_fat s) (fat_entry s 0) c l →
  (length l < fuel)%nat →
  let es := entries_at (sector (fs_disk s)) (chain_sectors (g_fat s) l) in
  short_names es →
  ∃ st' s', lookup_chain fuel c name long st s = Some ((scan_ref name es, st'), s') ∧ no_pending st' ∧ fat_quiet s s'.
Proof.
  revert c l st s. induction fuel as [|fuel IH]; intros c l st s Hs Hst Hch Hfuel es Hsn; [lia|].
  cbn [lookup_chain]. destruct l as [|x l].
  { inversion Hch as [c' Hin|]; subst. rewrite Hin. exists st, s. split; [done|]. split; [done|by apply fat_quiet_refl]. }
  rewrite (chain_in _ _ _ _ Hs Hch). cbn [negb]. destruct (chain_head _ _ _ _ _ Hch) as (-> & Hc & _ & _ & Hch').
  assert (Ees : es = entries_at (sector (fs_disk s)) (seqZ (cluster_lba (g_fat s) x) (sectors_per_cluster (g_fat s))) ++
                     entries_at (sector (fs_disk s)) (chain_sectors (g_fat s) l)) by by rewrite <- entries_at_app.
  rewrite Ees in *. apply Forall_app in Hsn as [Hs1 Hs2]. unfold mbind, M_bind, get.
  destruct (scan_cluster_ok x name long st s Hs Hc Hst Hs1) as (st1 & s1 & E1 & Hst1 & Q1). rewrite E1, scan_ref_app.
  destruct (scan_ref name (entries_at _ (seqZ _ _))); [by eexists _, _|by eexists _, _|].
  assert (F1 : g_fat s1 = g_fat s) by apply Q1.
  destruct (fat16_get_entry_ok s1 x) as (s2 & E2 & Q2); [apply Q1|rewrite F1; by apply is_cluster_entry|].
  rewrite E2, (fat_quiet_entry s s1) by done. assert (Q : fat_quiet s s2) by by eapply fat_quiet_trans.
  assert (F2 : g_fat s2 = g_fat s) by apply Q.
  assert (Ee := entries_at_ext (sector (fs_disk s)) (sector (fs_disk s2)) (chain_sectors (g_fat s) l) (q_sector _ _ Q)).
  destruct (IH (fat_entry s 0 x) l st1 s2) as (st3 & s3 & E3 & Hst3 & Q3);
    [apply Q|done|by apply (chain_quiet s)|simpl in Hfuel; lia|rewrite F2; by rewrite <- Ee in Hs2|].
  exists st3, s3. rewrite F2, Ee in E3. split; [done|]. split; [done|by eapply fat_quiet_trans].
Qed.

(** ** Lookup *)

(** The entries of a directory: 0 is the root, other directories are chains. *)
Definition dir_entries (s : FS) (dir : Z) (es : list located) : Prop :=
  if dir =? 0 then
    0 ≤ root_start_lba (g_fat s) ∧ 0 ≤ root_dir_sectors (g_fat s) ∧
    root_start_lba (g_fat s) + root_dir_sectors (g_fat s) ≤ disk_size (fs_disk s) ∧
    es = entries_at (sector (fs_disk s)) (seqZ (root_start_lba (g_fat s)) (root_dir_sectors (g_fat s)))
  else
    ∃ l, chain (g_fat s) (fat_entry s 0) dir l ∧ es = entries_at (sector (fs_disk s)) (chain_sectors (g_fat s) l).

Lemma lookup_loop_ok dir es name long st s : vol_ok s → no_pending st → dir_entries s dir es → short_names es →
  ∃ st' s', (if dir =? 0 then lookup_root (S (Z.to_nat (root_dir_sectors (g_fat s)))) 0 name long st
             else lookup_chain CHAIN_FUEL dir name long st) s = Some ((scan_ref name es, st'), s') ∧ fat_quiet s s'.
Proof.
  intros Hs Hst Hes Hsn. unfold dir_entries in Hes. destruct (dir =? 0).
  - destruct Hes as (R1 & R2 & R3 & Ees).
    destruct (lookup_root_ok (S (Z.to_nat (root_dir_sectors (g_fat s)))) 0 name long st s) as (st' & s' & E & _ & Q);
      [done..|lia|done|lia|by rewrite Z.add_0_r, Z.sub_0_r, <- Ees|].
    rewrite Z.add_0_r, Z.sub_0_r, <- Ees in E. by exists st', s'.
  - destruct Hes as (l & Hch & Ees).
    assert (Hl : Z.of_nat (length l) < Z.of_nat CHAIN_FUEL).
    { pose proof (chain_length _ _ _ _ Hch). destruct (ok_geometry _ Hs). unfold CHAIN_FUEL. lia. }
    destruct (lookup_chain_ok CHAIN_FUEL dir l name long st s) as (st' & s' & E & _ & Q);
      [done..|apply Nat2Z.inj_lt; done|by rewrite <- Ees|].
    rewrite <- Ees in E. by exists st', s'.
Qed.

(** The lookup, when the heap has room for its buffer. *)
Lemma fat16_lookup_in_dir_ok dir es name long s p hp : vol_ok s → mounted (g_fat s) = true → dir_entries s dir es → short_names es →
  kmalloc 4096 (fs_heap s) = (Some p, hp) →
  ∃ free s', fat16_lookup_in_dir dir name long s = Some ((find_entry name es, free), s') ∧ fs_heap s' = kfree p hp ∧
    read_effect s s'.
Proof.
  intros Hs Hm Hes Hsn Hk. unfold fat16_lookup_in_dir, mbind, M_bind, get. rewrite Hm. cbn [negb].
  unfold bulk_alloc. rewrite Hk. set (s1 := with_heap hp s). change (g_fat s) with (g_fat s1).
  destruct (lookup_loop_ok dir es name long (mk_scan 0 0 lfn_buf0 0) s1) as (st' & s2 & E & Q);
    [by apply vol_ok_heap|done|done|done|].
  rewrite E. unfold bulk_free, modify. eexists (sc_free_lba st', sc_free_off st'), _. split; [done|].
  assert (Hh : fs_heap s2 = hp) by (rewrite (st_heap _ _ _ (q_step _ _ Q)); done). split; [simpl; by rewrite Hh|].
  destruct Q as [[] Hx]. split; simpl; try done.
  - by apply vol_ok_heap.
  - rewrite Hh. by eapply kmalloc_kfree_live.
Qed.
End fat_dir.
