(* ===== verification/FatVfs.v ===== *)
(** * Files of a FAT16 volume through the virtual file system

    A path of directories and a file with short names is resolved by
    [fat16_resolve_path] to the entry that a walk through the directories finds, and
    the operations of [src/src/fs/fat16.c] serve that file to [src/src/fs/vfs.c]:
    the contract [Vfs.serves] of [vfs_read_file] is discharged, so that reading the
    file by its path returns the bytes of its clusters. *)

From S2P Require Import Prelude CLib KHeap Pipe Vfs Disk Fat16 FatTable FatFile FatDir.

(** ** Components of a path *)

Definition path_of (comps : list (list Z)) : list Z := concat ((λ c, 47 :: c) <$> comps).

Lemma is_83_no_slash c : is_83_char (upper_ascii c) = true → c ≠ 47.
Proof. by intros Hc ->. Qed.

Lemma to_83_chars_split s stop l r : to_83_chars s stop = Some (l, r) →
  ∃ pre, s = pre ++ r ∧ length pre = length l ∧ Forall (λ c, c ≠ 47) pre.
Proof.
  revert l r. induction s as [|c s IH]; intros l r; simpl; [intros [= <- <-]; exists []; auto|].
  destruct (stop && (c =? 46)); [intros [= <- <-]; exists []; auto|].
  destruct (is_83_char (upper_ascii c)) eqn:E; [|done]. cbn [negb].
  destruct (to_83_chars s stop) as [[l' r']|]; [|done]. simpl. intros [= <- <-].
  destruct (IH l' r' eq_refl) as (pre & -> & Hl & Hf). exists (c :: pre). simpl. split; [done|]. split; [lia|].
  constructor; [by apply is_83_no_slash|done].
Qed.

Lemma to_83_chars_all s l r : to_83_chars s false = Some (l, r) → r = [].
Proof.
  revert l r. induction s as [|c s IH]; intros l r; simpl; [by intros [= <- <-]|].
  destruct (is_83_char _); [|done]. cbn [negb]. destruct (to_83_chars s false) as [[l' r']|]; [|done].
  simpl. intros [= <- <-]. by eapply IH.
Qed.

Lemma to_83_chars_dot s l c r : to_83_chars s true = Some (l, c :: r) → c = 46.
Proof.
  revert l. induction s as [|d s IH]; intros l; simpl; [done|].
  destruct (d =? 46) eqn:E; [intros [= _ <- _]; lia|].
  destruct (is_83_char _); [|done]. cbn [negb]. destruct (to_83_chars s true) as [[l' r']|]; [|done].
  simpl. intros [= _ ->]. by eapply IH.
Qed.

(** A short name is a component: not empty, without a slash, not too long. *)
Lemma short_name_component c n : fat16_name_to_83 c = Some n →
  (1 ≤ length c ≤ 12)%nat ∧ Forall (λ x, x ≠ 47) c.
Proof.
  unfold fat16_name_to_83. destruct (to_83_chars c true) as [[base rest]|] eqn:E1; [|done]. simpl.
  destruct (to_83_chars_split _ _ _ _ E1) as (pre & -> & Hl & Hf). destruct (_ || _) eqn:E2; [done|].
  apply orb_false_iff in E2 as [E2 E3]. apply Nat.ltb_ge in E2. apply Nat.eqb_neq in E3.
  destruct rest as [|d rest].
  - intros _. rewrite app_nil_r. split; [lia|done].
  - apply to_83_chars_dot in E1 as ->. destruct (to_83_chars rest false) as [[ext r]|] eqn:E4; [|done]. simpl.
    destruct (3 <? length ext)%nat eqn:E5; [done|]. intros _. apply Nat.ltb_ge in E5.
    destruct (to_83_chars_split _ _ _ _ E4) as (pre2 & -> & Hl2 & Hf2). apply to_83_chars_all in E4 as ->.
    rewrite app_nil_r. split; [rewrite length_app; simpl; lia|]. apply Forall_app. split; [done|]. by constructor.
Qed.

Lemma first_component_app c rest : Forall (λ x, x ≠ 47) c → (rest = [] ∨ ∃ r, rest = 47 :: r) →
  first_component (c ++ rest) = (c, rest).
Proof.
  intros Hc Hr. induction Hc as [|x c Hx _ IH]; simpl; [destruct Hr as [->|[r ->]]; done|].
  rewrite (proj2 (Z.eqb_neq x 47) Hx). by rewrite IH.
Qed.

Lemma skip_slashes_path c n cs : fat16_name_to_83 c = Some n → skip_slashes (path_of (c :: cs)) = c ++ path_of cs.
Proof.
  intros [Hl Hc]%short_name_component. unfold path_of. rewrite fmap_cons. cbn [concat app skip_slashes].
  change (47 =? 47) with true. cbv iota. destruct c as [|x c]; [simpl in Hl; lia|].
  apply Forall_cons in Hc as [Hx _]. simpl. by rewrite (proj2 (Z.eqb_neq x 47) Hx).
Qed.

Lemma path_of_rest cs : path_of cs = [] ∨ ∃ r, path_of cs = 47 :: r.
Proof. destruct cs as [|c cs]; [by left|right]. unfold path_of. rewrite fmap_cons. simpl. eauto. Qed.

Section fat_vfs.
Context {D H : Type} `{!BlockDev D} `{!KHeap H}.
Notation FS := (fs_t D H).
Implicit Types (s : FS) (g : fat16_state_t).

(** Looking up a short name in a directory without long names, the
    root read in batches of eight sectors and any other directory by clusters or by
    sectors along its chain, gives the first live entry of that name before the
    end mark in the list of all its entries ([find_entry]), and ends on every
    directory whose chain has no cycle.  Nothing is written and the buffer is
    released; without room for the buffer nothing is found. *)
Theorem fat16_lookup_correct dir es name long s : vol_ok s → mounted (g_fat s) = true → dir_entries s dir es → short_names es →
  ∃ o free s', fat16_lookup_in_dir dir name long s = Some ((o, free), s') ∧
    o = (match (kmalloc 4096 (fs_heap s)).1 with Some _ => find_entry name es | None => None end) ∧ read_effect s s'.
Proof.
  intros Hs Hm Hes Hsn. destruct (kmalloc 4096 (fs_heap s)) as [[p|] hp] eqn:Ek.
  - destruct (fat16_lookup_in_dir_ok dir es name long s p hp) as (free & s' & E & _ & R); [done..|].
    by exists (find_entry name es), free, s'.
  - exists None, (0, 0), (with_heap hp s). split; [|split; [done|]].
    + unfold fat16_lookup_in_dir, mbind, M_bind, get, bulk_alloc. rewrite Hm. cbn [negb]. by rewrite Ek.
    + split; try done; [by apply vol_ok_heap|]. by eapply kmalloc_None.
Qed.

(** The heaps with room for the buffer of a lookup, which releases it. *)
Context (roomy : H → Prop).
Context (Hroomy : ∀ h, roomy h → ∃ p h', kmalloc 4096 h = (Some p, h') ∧ roomy (kfree p h')).

(** ** Paths *)

(** The entry that the components lead to from a directory. *)
Inductive resolves (s : FS) : Z → list (list Z) → list Z * Z * Z → Prop :=
| resolves_last dir es c n e :
    dir_entries s dir es → short_names es → fat16_name_to_83 c = Some n → find_entry n es = Some e → resolves s dir [c] e
| resolves_step dir es c n de lba off cs e :
    dir_entries s dir es → short_names es → fat16_name_to_83 c = Some n → find_entry n es = Some (de, lba, off) →
    Z.land (de_attr de) FAT16_ATTR_DIR ≠ 0 → resolves s (de_cluster de) cs e → resolves s dir (c :: cs) e.

Lemma read_effect_entry s s' i c : read_effect s s' → fat_entry s' i c = fat_entry s i c.
Proof. intros []. unfold fat_entry. congruence. Qed.

Lemma read_effect_chain s s' c l : read_effect s s' →
  chain (g_fat s) (fat_entry s 0) c l → chain (g_fat s') (fat_entry s' 0) c l.
Proof.
  intros R Hch. assert (F : g_fat s' = g_fat s) by apply R. rewrite F. eapply chain_ext; [|done].
  intros x _. by apply read_effect_entry.
Qed.

Lemma read_effect_data s s' l : read_effect s s' → file_data s' l = file_data s l.
Proof.
  intros []. unfold file_data. f_equal. apply list_fmap_ext. intros i c _. unfold cluster_data. rewrite re_fat.
  apply sectors_at_ext. intros x _. apply re_sector.
Qed.

Lemma dir_entries_effect s s' dir es : read_effect s s' → dir_entries s dir es → dir_entries s' dir es.
Proof.
  intros R. assert (F : g_fat s' = g_fat s) by apply R. assert (Hx : ∀ x, sector (fs_disk s') x = sector (fs_disk s) x) by apply R.
  assert (Z : disk_size (fs_disk s') = disk_size (fs_disk s)) by apply R.
  unfold dir_entries. destruct (dir =? 0).
  - intros (R1 & R2 & R3 & ->). rewrite F, Z. repeat split; try done. symmetry. by apply entries_at_ext.
  - intros (l & Hch & ->). exists l. split; [by eapply read_effect_chain|]. rewrite F. symmetry. by apply entries_at_ext.
Qed.

Lemma resolves_effect s s' dir cs e : read_effect s s' → resolves s dir cs e → resolves s' dir cs e.
Proof.
  intros R Hr. induction Hr; [eapply resolves_last|eapply resolves_step]; try done; by eapply dir_entries_effect.
Qed.

Lemma lookup_roomy dir es name long s : vol_ok s → mounted (g_fat s) = true → dir_entries s dir es → short_names es →
  roomy (fs_heap s) → ∃ fl fo s', fat16_lookup_in_dir dir name long s = Some ((find_entry name es, (fl, fo)), s') ∧
    read_effect s s' ∧ roomy (fs_heap s').
Proof using Hroomy.
  intros Hs Hm Hes Hsn Hh. destruct (Hroomy _ Hh) as (p & hp & Ek & Hr).
  destruct (fat16_lookup_in_dir_ok dir es name long s p hp) as ([fl fo] & s' & E & Eh & R); [done..|].
  exists fl, fo, s'. split; [done|]. split; [done|]. by rewrite Eh.
Qed.

Lemma resolve_loop_ok fuel dir c cs e s : vol_ok s → mounted (g_fat s) = true → roomy (fs_heap s) →
  resolves s dir (c :: cs) e → (length cs < fuel)%nat →
  ∃ pd n fl fo s', resolve_loop fuel (c ++ path_of cs) dir s = Some (mk_res 0 pd n (Some e) fl fo, s') ∧
    read_effect s s' ∧ roomy (fs_heap s').
Proof using Hroomy.
  revert fuel dir c s. induction cs as [|c2 cs IH]; intros [|fuel] dir c s Hs Hm Hh Hr Hf; simpl in Hf; try lia.
  - inversion Hr as [? es ? n ? Hes Hsn Hn Hfind|? ? ? ? ? ? ? ? ? ? ? ? ? ? Hbad]; subst; [|by inversion Hbad].
    destruct (short_name_component _ _ Hn) as [Hl Hc]. cbn [resolve_loop].
    rewrite first_component_app by (done || apply path_of_rest).
    rewrite (proj2 (Nat.leb_gt RDCACHE_NAME (length c))) by (unfold RDCACHE_NAME; lia). rewrite Hn. cbn [default skip_slashes path_of].
    destruct (lookup_roomy dir es n (Some c) s) as (fl & fo & s' & E & R & Hh'); [done..|].
    unfold mbind, M_bind. simpl. rewrite E, Hfind. eexists _, _, _, _, _. by split.
  - inversion Hr as [|? es ? n de lba off ? ? Hes Hsn Hn Hfind Hdir Hr']; subst.
    destruct (short_name_component _ _ Hn) as [Hl Hc]. cbn [resolve_loop].
    rewrite first_component_app by (done || apply path_of_rest).
    rewrite (proj2 (Nat.leb_gt RDCACHE_NAME (length c))) by (unfold RDCACHE_NAME; lia). rewrite Hn. cbn [default].
    assert (Hn2 : ∃ n2, fat16_name_to_83 c2 = Some n2) by (inversion Hr'; subst; eauto). destruct Hn2 as [n2 Hn2].
    rewrite (skip_slashes_path _ _ _ Hn2). destruct (lookup_roomy dir es n (Some c) s) as (fl & fo & s1 & E & R & Hh'); [done..|].
    destruct (short_name_component _ _ Hn2) as [Hl2 _]. destruct c2 as [|x c2']; [simpl in Hl2; lia|].
    unfold mbind, M_bind. cbn [app]. cbv beta iota zeta. change (id n) with n. rewrite E, Hfind. rewrite (proj2 (Z.eqb_neq _ 0) Hdir).
    destruct (IH fuel (de_cluster de) (x :: c2') s1) as (pd & n' & fl' & fo' & s2 & E2 & R2 & Hh2);
      [apply R|by rewrite (re_fat _ _ R)|done|by eapply resolves_effect|lia|].
    exists pd, n', fl', fo', s2. split; [exact E2|]. split; [by eapply read_effect_trans|done].
Qed.

Lemma path_of_length cs : (length cs ≤ length (path_of cs))%nat.
Proof. unfold path_of. induction cs as [|c cs IH]; [done|]. rewrite fmap_cons. simpl. rewrite length_app. lia. Qed.

Lemma fat16_resolve_path_ok cs e s : vol_ok s → mounted (g_fat s) = true → roomy (fs_heap s) → resolves s 0 cs e →
  ∃ pd n fl fo s', fat16_resolve_path (path_of cs) s = Some (mk_res 0 pd n (Some e) fl fo, s') ∧
    read_effect s s' ∧ roomy (fs_heap s').
Proof using Hroomy.
  intros Hs Hm Hh Hr. unfold fat16_resolve_path, mbind, M_bind, get. rewrite Hm. cbn [negb].
  assert (Hcs : ∃ c n cs', cs = c :: cs' ∧ fat16_name_to_83 c = Some n) by (inversion Hr; subst; eauto).
  destruct Hcs as (c & n & cs' & -> & Hn). rewrite (skip_slashes_path _ _ _ Hn).
  destruct (short_name_component _ _ Hn) as [Hl _].
  destruct (resolve_loop_ok (S (length (c ++ path_of cs'))) 0 c cs' e s) as (pd & n' & fl & fo & s' & E & R & Hh');
    [done..|rewrite length_app; pose proof (path_of_length cs'); lia|].
  destruct (c ++ path_of cs') as [|x p] eqn:Ep; [apply app_eq_nil in Ep as [-> _]; simpl in Hl; lia|].
  exists pd, n', fl, fo, s'. by split.
Qed.

(** ** The file *)

(** A file of the volume: its entry, its clusters and its bytes. *)
Record file_on (s : FS) (cs : list (list Z)) (de : list Z) (l content : list Z) : Prop := {
  fo_entry : ∃ lba off, resolves s 0 cs (de, lba, off);
  fo_plain : Z.land (de_attr de) FAT16_ATTR_DIR = 0;
  fo_chain : chain (g_fat s) (fat_entry s 0) (de_cluster de) l;
  fo_first : l = [] → de_cluster de < 2;
  fo_size : de_size de = Z.of_nat (length content) ∧ de_size de ≤ cluster_size (g_fat s) * Z.of_nat (length l);
  fo_small : de_size de ≤ 2147483647;
  fo_bytes : content = take (length content) (file_data s l)
}.

(** The file can be opened. *)
Record available (cs : list (list Z)) (de l content : list Z) (s : FS) : Prop := {
  av_ok : vol_ok s;
  av_mounted : mounted (g_fat s) = true;
  av_heap : roomy (fs_heap s);
  av_file : file_on s cs de l content;
  av_handles : length (g_open s) = FAT16_MAX_OPEN;
  av_free : ∃ i, find_index (λ f, negb (o_in_use f)) (g_open s) = Some i
}.

(** It is open on [h] at position [p]. *)
Definition opened_at (l content : list Z) (h p : Z) (s : FS) : Prop :=
  ∃ i f, h = Z.of_nat i ∧ vol_ok s ∧ mounted (g_fat s) = true ∧ open_file s i f l ∧ o_pos f = p ∧
    Z.land (o_flags f) 3 ≠ O_WRONLY ∧ file_bytes s f l = content.

Lemma file_on_effect s s' cs de l content : read_effect s s' → file_on s cs de l content → file_on s' cs de l content.
Proof.
  intros R [(lba & off & E) P C F Sz Sm B]. split; try done.
  - exists lba, off. by eapply resolves_effect.
  - by eapply read_effect_chain.
  - by rewrite (re_fat _ _ R).
  - by rewrite (read_effect_data s s').
Qed.

Lemma available_effect cs de l content s s' : read_effect s s' → roomy (fs_heap s') →
  available cs de l content s → available cs de l content s'.
Proof.
  intros R Hh [A1 A2 A3 A4 A5 A6]. split; try done.
  - apply R.
  - by rewrite (re_fat _ _ R).
  - by eapply file_on_effect.
  - by rewrite (re_open _ _ R).
  - by rewrite (re_open _ _ R).
Qed.

Lemma path_not_root cs e s : resolves s 0 cs e → skip_slashes (path_of cs) ≠ [].
Proof.
  intros Hr. assert (Hcs : ∃ c n cs', cs = c :: cs' ∧ fat16_name_to_83 c = Some n) by (inversion Hr; subst; eauto).
  destruct Hcs as (c & n & cs' & -> & Hn). rewrite (skip_slashes_path _ _ _ Hn).
  destruct (short_name_component _ _ Hn) as [Hl _]. intros [-> _]%app_eq_nil. simpl in Hl. lia.
Qed.

Lemma fat16_stat_served cs de l content s : available cs de l content s →
  ∃ s', fat16_vfs_stat (path_of cs) s = Some ((0, mk_stat (Z.of_nat (length content)) VFS_FILE), s') ∧ available cs de l content s'.
Proof using Hroomy.
  intros A. destruct (fo_entry _ _ _ _ _ (av_file _ _ _ _ _ A)) as (lba & off & Hr).
  destruct (fat16_resolve_path_ok cs _ s (av_ok _ _ _ _ _ A) (av_mounted _ _ _ _ _ A) (av_heap _ _ _ _ _ A) Hr)
    as (pd & n & fl & fo & s' & E & R & Hh).
  unfold fat16_vfs_stat, mbind, M_bind, get. rewrite (av_mounted _ _ _ _ _ A). cbn [negb].
  destruct (skip_slashes (path_of cs)) eqn:Ep; [by apply path_not_root in Hr|]. rewrite E. cbn [r_rc r_entry].
  change (0 =? -2) with false. cbv iota. rewrite (fo_plain _ _ _ _ _ (av_file _ _ _ _ _ A)).
  rewrite (proj1 (fo_size _ _ _ _ _ (av_file _ _ _ _ _ A))). exists s'. split; [done|]. by eapply available_effect.
Qed.

Lemma fat16_open_served cs de l content s : available cs de l content s →
  ∃ h s', fat16_vfs_open (path_of cs) O_RDONLY s = Some (h, s') ∧ 0 ≤ h ∧ opened_at l content h 0 s'.
Proof using Hroomy.
  intros A. destruct (fo_entry _ _ _ _ _ (av_file _ _ _ _ _ A)) as (lba & off & Hr).
  destruct (fat16_resolve_path_ok cs _ s (av_ok _ _ _ _ _ A) (av_mounted _ _ _ _ _ A) (av_heap _ _ _ _ _ A) Hr)
    as (pd & n & fl & fo & s' & E & R & Hh). apply (available_effect cs de l content s s' R Hh) in A as A'.
  unfold fat16_vfs_open, mbind, M_bind, get. rewrite (av_mounted _ _ _ _ _ A). cbn [negb]. cbv zeta.
  change (negb ((Z.land O_RDONLY 3 =? O_RDONLY) || (Z.land O_RDONLY 3 =? O_WRONLY) || (Z.land O_RDONLY 3 =? O_RDWR))) with false.
  cbv beta iota. rewrite E. destruct A' as [A1 A2 A3 [_ P C F [Sz1 Sz2] Sm B] A5 [i A6]].
  cbn [r_rc r_entry]. change (0 =? -2) with false. cbv iota.
  unfold mret at 1, M_ret at 1. cbv beta iota. rewrite P. change (negb (0 =? 0)) with false.
  change (negb (Z.land O_RDONLY O_TRUNC =? 0)) with false. cbn [andb]. unfold mret at 1, M_ret at 1. cbv beta iota. rewrite A6. unfold modify. eexists _, _. split; [done|]. split; [lia|].
  assert (Hi : (i < length (g_open s'))%nat) by by eapply find_index_lt.
  exists i, (mk_open true O_RDONLY (de_cluster de) (de_size de) 0 (de_attr de) lba off). split; [done|]. split; [by apply vol_ok_open|]. split; [done|]. split; [|split; [done|split; [done|]]].
  - split; simpl; try done; [by rewrite A5 in Hi|by apply list_lookup_insert_eq|lia|lia].
  - unfold file_bytes. simpl. rewrite Sz1, Nat2Z.id. symmetry. exact B.
Qed.

Lemma fat16_read_served l content h p n s : opened_at l content h p s → 0 < n →
  ∃ m s', fat16_vfs_read h n s = Some ((m, take (Z.to_nat m) (drop (Z.to_nat p) content)), s') ∧
    0 ≤ m ≤ n ∧ p + m ≤ Z.of_nat (length content) ∧ (p < Z.of_nat (length content) → 0 < m) ∧ opened_at l content h (p + m) s'.
Proof.
  intros (i & f & -> & Hs & Hm & Ho & <- & Hfl & <-) Hn.
  destruct (fat16_vfs_read_ok s i f l n Hs Hm Ho Hfl) as (s' & E & St & Hx); [lia|].
  pose proof (file_bytes_length _ _ _ _ Hs Ho) as Hlen. set (bytes := take _ _) in *.
  assert (Hb : Z.of_nat (length bytes) = Z.min n (o_size f - o_pos f)).
  { unfold bytes. rewrite length_take, length_drop. destruct Ho. lia. }
  assert (Hp := of_pos _ _ _ _ Ho).
  exists (Z.of_nat (length bytes)), s'. split; [|split; [lia|split; [lia|split; [lia|]]]].
  - rewrite E. do 3 f_equal. unfold bytes. rewrite Nat2Z.id. rewrite length_take. symmetry.
    rewrite <- take_take. by rewrite (take_ge (drop _ _) (length (drop _ _))).
  - assert (Hf' : g_fat s' = g_fat s) by apply St. assert (Hdata : file_data s' l = file_data s l).
    { unfold file_data. f_equal. apply list_fmap_ext. intros j c _. unfold cluster_data. rewrite Hf'.
      by apply sectors_at_ext. }
    exists i, (set_o_pos (o_pos f + Z.of_nat (length bytes)) f). split; [done|]. split; [apply St|]. split; [by rewrite Hf'|]. split; [|split; [done|split; [done|]]].
    + destruct Ho. split; try done; rewrite ?Hf'; try done; simpl; try lia.
      * rewrite (fs_open _ _ _ _ _ St). apply list_lookup_insert_eq. by eapply lookup_lt_Some.
      * eapply chain_ext; [|done]. intros x _. unfold fat_entry. by rewrite Hf', Hx.
    + unfold file_bytes. simpl. by rewrite Hdata.
Qed.

(** The operations of the file system serve the file. *)
Lemma fat16_serves cs de l content :
  serves fat16_ops (path_of cs) content (available cs de l content) (opened_at l content).
Proof using Hroomy.
  split.
  - eexists. split; [done|]. intros s Hs. by apply fat16_stat_served.
  - eexists. split; [done|]. intros s Hs. by eapply fat16_open_served.
  - eexists. split; [done|]. intros h p n s Hp Hn. by apply fat16_read_served.
  - intros cl h p s [= <-] (i & f & -> & _ & _ & Ho & _). unfold fat16_vfs_close, mbind, M_bind, get.
    rewrite (open_handle_ok _ _ _ _ Ho). unfold upd_open. rewrite (of_slot _ _ _ _ Ho). eauto.
Qed.

End fat_vfs.

(** ** A volume with a directory

    [/BIN] is the cluster 3, in it [SH.WLF] of 600 bytes in the clusters 2 and 4. *)

Definition mk_dirent (name : string) (attr cluster size : Z) : list Z :=
  set_de_size size (set_de_cluster cluster (set_de_attr attr (set_de_name (str name) DE_ZERO))).

Definition vol_geo : fat16_state_t := mk_fat true 0 1 3 4 1 8 1 2 512 1 16 4.
Definition vol_fat : list Z := write_u16 (write_u16 (write_u16 ZERO_SECTOR 4 4) 6 FAT16_EOC) 8 FAT16_EOC.
Definition vol_disk : mem_disk 8 :=
  <[1 := vol_fat]> (<[2 := vol_fat]> (<[3 := splice ZERO_SECTOR 0 (mk_dirent "BIN        " FAT16_ATTR_DIR 3 0)]>
  (<[5 := splice ZERO_SECTOR 64 (mk_dirent "SH      WLF" FAT16_ATTR_ARCHIVE 2 600)]>
  (<[4 := replicate 512 65]> (<[6 := replicate 512 66]> ∅))))).
Definition vol_dots : mem_disk 8 :=
  mem_write 5 (splice (mem_sector vol_disk 5) 0 (mk_dirent ".          " FAT16_ATTR_DIR 3 0 ++ mk_dirent "..         " FAT16_ATTR_DIR 0 0)) vol_disk.
Definition vol_fs : fs_t (mem_disk 8) slot_heap :=
  mk_fs vol_geo (replicate 16 open_zero) (replicate FAT_CACHE_SIZE (0, ZERO_SECTOR)) 0 (mk_rdcache [] [] false) vol_dots ∅.
Definition vol_path : list (list Z) := [str "bin"; str "sh.wlf"].
Definition vol_content : list Z := replicate 512 65 ++ replicate 88 66.

Example vol_resolves : (λ '(r, _), (r_rc r, (λ e, e.1.2) <$> r_entry r)) <$> fat16_resolve_path (path_of vol_path) vol_fs =
  Some (0, Some 5).
Proof. by vm_compute. Qed.

Definition slot_roomy (h : slot_heap) : Prop := KERNEL_HEAP_START ∉ (h : gset Z).

Lemma slot_heap_roomy h : slot_roomy h → ∃ p h', kmalloc 4096 h = (Some p, h') ∧ slot_roomy (kfree p h').
Proof.
  unfold slot_roomy. intros Hh. eexists _, _. simpl. rewrite bool_decide_true by done. split; [done|]. set_solver.
Qed.

Definition vol_root : list located := entries_at (sector (fs_disk vol_fs)) (seqZ 3 1).
Definition vol_bin : list located := entries_at (sector (fs_disk vol_fs)) (chain_sectors vol_geo [3]).
Definition vol_sh : list Z := mk_dirent "SH      WLF" FAT16_ATTR_ARCHIVE 2 600.

Lemma vol_ok_fs : vol_ok vol_fs.
Proof.
  split; [by split|done|]. split; [done|vm_compute; lia|]. intros i lba data Hi Hl. exfalso. apply Hl.
  apply (lookup_replicate_1 FAT_CACHE_SIZE) in Hi as [[= -> _] _]. done.
Qed.

Lemma vol_file_resolves : resolves vol_fs 0 vol_path (vol_sh, 5, 64).
Proof.
  eapply (resolves_step vol_fs 0 vol_root (str "bin") (str "BIN        ") (mk_dirent "BIN        " FAT16_ATTR_DIR 3 0) 3 0);
    [split; [by vm_compute|split; by vm_compute]|decided|by vm_compute|by vm_compute|by vm_compute|].
  eapply (resolves_last vol_fs _ vol_bin (str "sh.wlf") (str "SH      WLF")); [|decided|by vm_compute|by vm_compute].
  assert (E3 : fat_entry vol_fs 0 3 = 65535) by by vm_compute. exists [3]. split; [|done].
  change (de_cluster _) with 3. constructor; [done|by rewrite E3|set_solver|]. rewrite E3. by constructor.
Qed.

Lemma vol_file : file_on vol_fs vol_path vol_sh [2; 4] vol_content.
Proof.
  assert (E2 : fat_entry vol_fs 0 2 = 4) by by vm_compute. assert (E4 : fat_entry vol_fs 0 4 = 65535) by by vm_compute.
  split; [exists 5, 64; exact vol_file_resolves|by vm_compute| |done|split; [by vm_compute|vm_compute; congruence]|vm_compute; congruence|by vm_compute].
  change (de_cluster vol_sh) with 2. constructor; [done|by rewrite E2|set_solver|]. rewrite E2.
  constructor; [done|by rewrite E4|set_solver|]. rewrite E4. by constructor.
Qed.

Lemma vol_available : available slot_roomy vol_path vol_sh [2; 4] vol_content vol_fs.
Proof. split; [exact vol_ok_fs|done|unfold slot_roomy; set_solver|exact vol_file|done|by exists 0%nat]. Qed.

Definition vol_vfs : vfs_t (fs_t (mem_disk 8) slot_heap) :=
  mk_vfs [fat16_ops] [] (default pipes_boot (snd <$> pipe_init pipes_boot)) vol_fs.


Example vol_read : (λ '(r, _), match r with ROk _ c n => Some (bool_decide (c = vol_content), n) | _ => None end) <$>
  vfs_read_file (path_of vol_path) (vol_vfs, heap0 4) = Some (Some (true, 600)).
Proof. by vm_compute. Qed.

Lemma fat16_lookup_correct_witness : ∃ free s', fat16_lookup_in_dir 0 (str "BIN        ") None vol_fs =
  Some ((Some (mk_dirent "BIN        " FAT16_ATTR_DIR 3 0, 3, 0), free), s').
Proof.
  destruct (fat16_lookup_correct 0 vol_root (str "BIN        ") None vol_fs vol_ok_fs eq_refl) as (o & free & s' & E & Ho & _).
  - split; [vm_compute; congruence|]. split; [vm_compute; congruence|]. split; [vm_compute; congruence|reflexivity].
  - decided.
  - exists free, s'. rewrite E, Ho. vm_compute. reflexivity.
Defined.
