(* ===== verification/AtaPio.v ===== *)
(** * The ATA driver ([src/src/drivers/ata_pio.c])

    The driver works on the ports of the primary ATA channel.  The drive behind
    the ports is modelled as the ATA standard describes its PIO protocol: registers,
    a phase, the sectors, and a number of polls of the status register for which it
    stays busy.  That number is arbitrary for each command and each sector: [lat]
    is a parameter.  The driver over any such drive keeps the contract
    [Disk.BlockDev] on which the file system is built. *)

From S2P Require Import Prelude KHeap Disk Fat16 FatTable FatMount.

Definition ATA_IO_BASE : Z := 0x1F0.
Definition ATA_CTRL_BASE : Z := 0x3F6.
Definition ATA_REG_DATA : Z := ATA_IO_BASE + 0.
Definition ATA_REG_SECCOUNT0 : Z := ATA_IO_BASE + 2.
Definition ATA_REG_LBA0 : Z := ATA_IO_BASE + 3.
Definition ATA_REG_LBA1 : Z := ATA_IO_BASE + 4.
Definition ATA_REG_LBA2 : Z := ATA_IO_BASE + 5.
Definition ATA_REG_HDDEVSEL : Z := ATA_IO_BASE + 6.
Definition ATA_REG_COMMAND : Z := ATA_IO_BASE + 7.
Definition ATA_REG_STATUS : Z := ATA_IO_BASE + 7.
Definition ATA_REG_ALTSTATUS : Z := ATA_CTRL_BASE + 0.
Definition ATA_CMD_READ_SECTORS : Z := 0x20.
Definition ATA_CMD_WRITE_SECTORS : Z := 0x30.
Definition ATA_CMD_IDENTIFY : Z := 0xEC.
Definition ATA_SR_ERR : Z := 0x01.
Definition ATA_SR_DRQ : Z := 0x08.
Definition ATA_SR_DF : Z := 0x20.
Definition ATA_SR_DRDY : Z := 0x40.
Definition ATA_SR_BSY : Z := 0x80.

(** ** Words *)

Fixpoint words_of (l : list Z) : list Z :=
  match l with a :: b :: l => (a + 256 * b) :: words_of l | _ => [] end.
Fixpoint bytes_of (ws : list Z) : list Z :=
  match ws with w :: ws => w mod 256 :: w / 256 :: bytes_of ws | [] => [] end.

Lemma bytes_words n l : length l = (2 * n)%nat → Forall is_u8 l → bytes_of (words_of l) = l.
Proof.
  revert l. induction n as [|n IH]; intros l Hl Hb; [by destruct l|].
  destruct l as [|a [|b l]]; [done|simpl in Hl; lia|]. apply Forall_cons in Hb as [Ha Hb]. apply Forall_cons in Hb as [Hb' Hb].
  cbn [words_of bytes_of]. rewrite IH by (simpl in Hl; done || lia). repeat f_equal; mlia.
Qed.

Lemma words_length n l : length l = (2 * n)%nat → length (words_of l) = n.
Proof.
  revert l. induction n as [|n IH]; intros l Hl; [by destruct l|].
  destruct l as [|a [|b l]]; [done|simpl in Hl; lia|]. cbn [words_of length]. by rewrite IH by (simpl in Hl; lia).
Qed.

(** ** The drive *)

(** [DataIn ws next more]: the words still to be read of this sector, and the
    sectors after it.  [DataOut acc lba more]: the words received so far for the
    sector [lba]. *)
Inductive phase := Idle | Failed | DataIn (ws : list Z) (next more : Z) | DataOut (acc : list Z) (lba more : Z).

Record drive := mk_drive {
  dr_data : gmap Z (list Z);
  dr_sel : Z;
  dr_count : Z;
  dr_lba0 : Z;
  dr_lba1 : Z;
  dr_lba2 : Z;
  dr_phase : phase;
  dr_wait : nat;
  dr_clock : nat
}.

Section ata.
(** The polls for which the drive is busy the [k]-th time, and its sectors. *)
Context (lat : nat → nat) (n : Z).

Definition set_phase (p : phase) (d : drive) : drive :=
  mk_drive (dr_data d) (dr_sel d) (dr_count d) (dr_lba0 d) (dr_lba1 d) (dr_lba2 d) p (dr_wait d) (dr_clock d).
(** The drive turns busy and goes into a phase. *)
Definition busy_phase (p : phase) (d : drive) : drive :=
  mk_drive (dr_data d) (dr_sel d) (dr_count d) (dr_lba0 d) (dr_lba1 d) (dr_lba2 d) p (lat (dr_clock d)) (S (dr_clock d)).
Definition store (lba : Z) (l : list Z) (d : drive) : drive :=
  mk_drive (mem_write lba l (dr_data d)) (dr_sel d) (dr_count d) (dr_lba0 d) (dr_lba1 d) (dr_lba2 d) (dr_phase d) (dr_wait d) (dr_clock d).
Definition tick (d : drive) : drive :=
  mk_drive (dr_data d) (dr_sel d) (dr_count d) (dr_lba0 d) (dr_lba1 d) (dr_lba2 d) (dr_phase d) (pred (dr_wait d)) (dr_clock d).

Definition status_of (d : drive) : Z :=
  if (0 <? dr_wait d)%nat then ATA_SR_BSY else
  match dr_phase d with
  | Idle => ATA_SR_DRDY
  | Failed => Z.lor ATA_SR_DRDY ATA_SR_ERR
  | DataIn _ _ _ | DataOut _ _ _ => Z.lor ATA_SR_DRDY ATA_SR_DRQ
  end.

(** A read of the status register is a poll. *)
Definition inb (port : Z) (d : drive) : Z * drive :=
  if port =? ATA_REG_STATUS then (status_of d, tick d) else
  if port =? ATA_REG_ALTSTATUS then (status_of d, d) else
  if port =? ATA_REG_LBA1 then (dr_lba1 d, d) else
  if port =? ATA_REG_LBA2 then (dr_lba2 d, d) else (0xFF, d).

(** The address that the registers hold. *)
Definition reg_lba (d : drive) : Z :=
  dr_lba0 d + 256 * dr_lba1 d + 65536 * dr_lba2 d + 16777216 * Z.land (dr_sel d) 0x0F.

Definition in_range (lba count : Z) : bool := (1 <=? count) && (lba + count <=? n).

Definition command (c : Z) (d : drive) : drive :=
  if c =? ATA_CMD_IDENTIFY then busy_phase (DataIn (replicate 256 0) 0 0) d else
  let lba := reg_lba d in
  if c =? ATA_CMD_READ_SECTORS then
    busy_phase (if in_range lba (dr_count d) then DataIn (words_of (mem_sector (dr_data d) lba)) (lba + 1) (dr_count d - 1) else Failed) d
  else if c =? ATA_CMD_WRITE_SECTORS then
    busy_phase (if in_range lba (dr_count d) then DataOut [] lba (dr_count d - 1) else Failed) d
  else busy_phase Failed d.

Definition outb (port v : Z) (d : drive) : drive :=
  let '(mk_drive data sel cnt l0 l1 l2 p w k) := d in
  if port =? ATA_REG_HDDEVSEL then mk_drive data v cnt l0 l1 l2 p w k else
  if port =? ATA_REG_SECCOUNT0 then mk_drive data sel v l0 l1 l2 p w k else
  if port =? ATA_REG_LBA0 then mk_drive data sel cnt v l1 l2 p w k else
  if port =? ATA_REG_LBA1 then mk_drive data sel cnt l0 v l2 p w k else
  if port =? ATA_REG_LBA2 then mk_drive data sel cnt l0 l1 v p w k else
  if port =? ATA_REG_COMMAND then command v d else d.

(** The data register; only [ATA_REG_DATA] is accessed by words. *)
Definition inw (d : drive) : Z * drive :=
  match dr_phase d with
  | DataIn [w] next more =>
    (w, if more =? 0 then set_phase Idle d
        else busy_phase (DataIn (words_of (mem_sector (dr_data d) next)) (next + 1) (more - 1)) d)
  | DataIn (w :: ws) next more => (w, set_phase (DataIn ws next more) d)
  | _ => (0xFFFF, d)
  end.

Definition outw (v : Z) (d : drive) : drive :=
  match dr_phase d with
  | DataOut acc lba more =>
    let acc := acc ++ [v] in
    if (length acc =? 256)%nat then
      busy_phase (if more =? 0 then Idle else DataOut [] (lba + 1) (more - 1)) (store lba (bytes_of acc) d)
    else set_phase (DataOut acc lba more) d
  | _ => d
  end.

(** ** The driver *)

(** [ata_ready] and the drive. *)
Definition ata_t : Type := bool * drive.

Definition delay (d : drive) : drive := (inb ATA_REG_ALTSTATUS d).2.
Definition ata_delay_400ns (d : drive) : drive := delay (delay (delay (delay d))).

(** A loop [while (spins--) ...]: [step] returns or goes on.  The number of
    iterations is binary. *)
Fixpoint spin (p : positive) (step : drive → option Z * drive) (d : drive) : option Z * drive :=
  match p with
  | xH => step d
  | xO q => match spin q step d with (None, d) => spin q step d | r => r end
  | xI q =>
    match step d with
    | (None, d) => match spin q step d with (None, d) => spin q step d | r => r end
    | r => r
    end
  end.

Definition SPINS : positive := 1000000.

Definition ata_wait_not_busy (spins : positive) (d : drive) : Z * drive :=
  let '(r, d) := spin spins (λ d, let '(s, d) := inb ATA_REG_STATUS d in
                                  (if Z.land s ATA_SR_BSY =? 0 then Some 0 else None, d)) d in
  (default (-1) r, d).

Definition ata_wait_drq (spins : positive) (d : drive) : Z * drive :=
  let '(r, d) := spin spins (λ d, let '(s, d) := inb ATA_REG_STATUS d in
                                  (if negb (Z.land s (Z.lor ATA_SR_ERR ATA_SR_DF) =? 0) then Some (-1) else
                                   if (Z.land s ATA_SR_BSY =? 0) && negb (Z.land s ATA_SR_DRQ =? 0) then Some 0 else None, d)) d in
  (default (-1) r, d).

Fixpoint read_words (k : nat) (d : drive) : list Z * drive :=
  match k with
  | O => ([], d)
  | S k => let '(w, d) := inw d in let '(ws, d) := read_words k d in (w :: ws, d)
  end.

Fixpoint write_words (ws : list Z) (d : drive) : drive :=
  match ws with [] => d | w :: ws => write_words ws (outw w d) end.

Definition drv_init (st : ata_t) : Z * ata_t :=
  let '(_, d) := st in
  let d := outb ATA_REG_HDDEVSEL 0xA0 d in
  let d := ata_delay_400ns d in
  let d := outb ATA_REG_SECCOUNT0 0 d in
  let d := outb ATA_REG_LBA0 0 d in
  let d := outb ATA_REG_LBA1 0 d in
  let d := outb ATA_REG_LBA2 0 d in
  let d := outb ATA_REG_COMMAND ATA_CMD_IDENTIFY d in
  let d := ata_delay_400ns d in
  let '(status, d) := inb ATA_REG_STATUS d in
  if status =? 0 then (-1, (false, d)) else
  let '(cl, d) := inb ATA_REG_LBA1 d in
  let '(ch, d) := inb ATA_REG_LBA2 d in
  if negb (cl =? 0) || negb (ch =? 0) then (-1, (false, d)) else
  let '(rc, d) := ata_wait_drq SPINS d in
  if rc <? 0 then (-1, (false, d)) else
  (0, (true, (read_words 256 d).2)).

(** The address, the count and the command are stored to the registers. *)
Definition issue (lba count cmd : Z) (d : drive) : drive :=
  let d := outb ATA_REG_HDDEVSEL (u8 (Z.lor 0xE0 (Z.land (Z.shiftr lba 24) 0x0F))) d in
  let d := outb ATA_REG_SECCOUNT0 count d in
  let d := outb ATA_REG_LBA0 (u8 (Z.land lba 0xFF)) d in
  let d := outb ATA_REG_LBA1 (u8 (Z.land (Z.shiftr lba 8) 0xFF)) d in
  let d := outb ATA_REG_LBA2 (u8 (Z.land (Z.shiftr lba 16) 0xFF)) d in
  let d := outb ATA_REG_COMMAND cmd d in
  ata_delay_400ns d.

(** The sectors of a read: the bytes, or [None] for the return of -1. *)
Fixpoint read_sectors (count : nat) (d : drive) : option (list Z) * drive :=
  match count with
  | O => (Some [], d)
  | S count =>
    let '(rc, d) := ata_wait_drq SPINS d in
    if rc <? 0 then (None, d) else
    let '(ws, d) := read_words 256 d in
    let '(o, d) := read_sectors count d in
    ((λ l, bytes_of ws ++ l) <$> o, d)
  end.

Definition drv_read (lba count : Z) (st : ata_t) : option (list Z) * ata_t :=
  let '(ready, d) := st in
  if negb ready || (count =? 0) then (None, st) else
  if negb (Z.land lba 0xF0000000 =? 0) then (None, st) else
  let '(rc, d) := ata_wait_not_busy SPINS d in
  if rc <? 0 then (None, (ready, d)) else
  let '(o, d) := read_sectors (Z.to_nat count) (issue lba count ATA_CMD_READ_SECTORS d) in
  (o, (ready, d)).

Fixpoint write_sectors (count : nat) (buf : list Z) (d : drive) : Z * drive :=
  match count with
  | O => (0, d)
  | S count =>
    let '(rc, d) := ata_wait_drq SPINS d in
    if rc <? 0 then (-1, d) else write_sectors count (drop 512 buf) (write_words (words_of (take 512 buf)) d)
  end.

Definition drv_write (lba count : Z) (buf : list Z) (st : ata_t) : Z * ata_t :=
  let '(ready, d) := st in
  if negb ready || (count =? 0) then (-1, st) else
  if negb (Z.land lba 0xF0000000 =? 0) then (-1, st) else
  let '(rc, d) := ata_wait_not_busy SPINS d in
  if rc <? 0 then (-1, (ready, d)) else
  let '(rc, d) := write_sectors (Z.to_nat count) buf (issue lba count ATA_CMD_WRITE_SECTORS d) in
  if rc <? 0 then (-1, (ready, d)) else
  let '(rc, d) := ata_wait_not_busy SPINS d in
  (if rc <? 0 then -1 else 0, (ready, d)).

Definition ata_pio_is_ready (st : ata_t) : Z := if st.1 then 1 else 0.

(** ** Waiting *)

Fixpoint spin_nat (k : nat) (step : drive → option Z * drive) (d : drive) : option Z * drive :=
  match k with
  | O => (None, d)
  | S k => match step d with (None, d) => spin_nat k step d | r => r end
  end.

Lemma spin_nat_add a b step d :
  spin_nat (a + b) step d = match spin_nat a step d with (None, d) => spin_nat b step d | r => r end.
Proof.
  revert d. induction a as [|a IH]; intros d; simpl; [done|]. destruct (step d) as [[r|] d']; [done|]. apply IH.
Qed.

Lemma spin_eq p step d : spin p step d = spin_nat (Pos.to_nat p) step d.
Proof.
  revert d. induction p as [q IH|q IH|]; intros d.
  - rewrite Pos2Nat.inj_xI. cbn [spin spin_nat]. destruct (step d) as [[r|] d']; [done|].
    replace (2 * Pos.to_nat q)%nat with (Pos.to_nat q + Pos.to_nat q)%nat by lia. rewrite spin_nat_add, IH.
    by destruct (spin_nat _ _ d') as [[r|] d''].
  - rewrite Pos2Nat.inj_xO. cbn [spin]. replace (2 * Pos.to_nat q)%nat with (Pos.to_nat q + Pos.to_nat q)%nat by lia.
    rewrite spin_nat_add, IH. by destruct (spin_nat _ _ d) as [[r|] d''].
  - simpl. by destruct (step d) as [[r|] d'].
Qed.

Definition with_wait (w : nat) (d : drive) : drive :=
  mk_drive (dr_data d) (dr_sel d) (dr_count d) (dr_lba0 d) (dr_lba1 d) (dr_lba2 d) (dr_phase d) w (dr_clock d).

(** The loops poll the status until the drive is no longer busy. *)
Lemma poll_ok k (g : Z → option Z) r d : g ATA_SR_BSY = None → g (status_of (with_wait 0 d)) = Some r →
  spin_nat k (λ d, let '(s, d) := inb ATA_REG_STATUS d in (g s, d)) d =
  if decide (dr_wait d < k)%nat then (Some r, with_wait 0 d) else (None, with_wait (dr_wait d - k) d).
Proof.
  intros Hb Hr. revert d Hr. induction k as [|k IH]; intros d Hr.
  { simpl. rewrite Nat.sub_0_r. by destruct d. }
  cbn [spin_nat]. change (inb ATA_REG_STATUS d) with (status_of d, tick d). cbv iota beta.
  destruct (dr_wait d) as [|w] eqn:Ew.
  - replace (status_of d) with (status_of (with_wait 0 d)) by (unfold status_of; by rewrite Ew).
    rewrite Hr. rewrite decide_True by lia. unfold tick, with_wait. by rewrite Ew.
  - assert (Es : status_of d = ATA_SR_BSY) by (unfold status_of; by rewrite Ew). rewrite Es, Hb.
    rewrite IH by done. unfold tick at 1 3. simpl dr_wait. rewrite Ew. simpl pred.
    unfold with_wait, tick. simpl. repeat case_decide; try done; lia.
Qed.

Lemma wait_not_busy_ok d :
  ata_wait_not_busy SPINS d = if decide (dr_wait d < Pos.to_nat SPINS)%nat then (0, with_wait 0 d)
                              else (-1, with_wait (dr_wait d - Pos.to_nat SPINS) d).
Proof.
  unfold ata_wait_not_busy. rewrite spin_eq.
  rewrite (poll_ok _ (λ s, if Z.land s ATA_SR_BSY =? 0 then Some 0 else None) 0); [|done|by unfold status_of; simpl; destruct (dr_phase d)].
  by case_decide.
Qed.

(** A drive that is or will be ready for data. *)
Definition has_data (d : drive) : Prop := match dr_phase d with DataIn _ _ _ | DataOut _ _ _ => True | _ => False end.

Lemma wait_drq_ok d : has_data d ∨ dr_phase d = Failed →
  ata_wait_drq SPINS d = if decide (dr_wait d < Pos.to_nat SPINS)%nat
                         then (match dr_phase d with Failed => -1 | _ => 0 end, with_wait 0 d)
                         else (-1, with_wait (dr_wait d - Pos.to_nat SPINS) d).
Proof.
  intros Hd. unfold ata_wait_drq. rewrite spin_eq.
  rewrite (poll_ok _ (λ s, if negb (Z.land s (Z.lor ATA_SR_ERR ATA_SR_DF) =? 0) then Some (-1) else
                           if (Z.land s ATA_SR_BSY =? 0) && negb (Z.land s ATA_SR_DRQ =? 0) then Some 0 else None)
             (match dr_phase d with Failed => -1 | _ => 0 end)); [by case_decide|done|].
  unfold has_data, status_of in *. simpl. destruct (dr_phase d); naive_solver.
Qed.

(** ** Transfers *)

Lemma read_words_ok ws next more d : dr_phase d = DataIn ws next more → ws ≠ [] →
  read_words (length ws) d =
    (ws, if more =? 0 then set_phase Idle d
         else busy_phase (DataIn (words_of (mem_sector (dr_data d) next)) (next + 1) (more - 1)) d).
Proof.
  revert d. induction ws as [|w ws IH]; intros d Hp Hne; [done|]. cbn [length read_words]. unfold inw. rewrite Hp.
  destruct ws as [|w2 ws]; [done|]. rewrite IH by done. simpl. by destruct (more =? 0).
Qed.

Lemma write_words_ok ws acc lba more d : dr_phase d = DataOut acc lba more → ws ≠ [] → (length acc + length ws = 256)%nat →
  write_words ws d = busy_phase (if more =? 0 then Idle else DataOut [] (lba + 1) (more - 1)) (store lba (bytes_of (acc ++ ws)) d).
Proof.
  revert acc d. induction ws as [|w ws IH]; intros acc d Hp Hne Hl; [done|]. cbn [write_words]. unfold outw. rewrite Hp.
  rewrite length_app. simpl length in *. destruct ws as [|w2 ws].
  - rewrite (proj2 (Nat.eqb_eq _ _)) by (simpl in *; lia). done.
  - rewrite (proj2 (Nat.eqb_neq _ _)) by (simpl in *; lia). rewrite (IH (acc ++ [w])); [|done|done|rewrite length_app; simpl in *; lia].
    rewrite <- app_assoc. done.
Qed.

(** ** Addresses *)

Lemma land_ff x : 0 ≤ x → Z.land x 0xFF = x mod 256.
Proof. intros _. change 0xFF with (Z.ones 8). by rewrite Z.land_ones by lia. Qed.

Lemma lba_select lba : 0 ≤ lba < 268435456 → Z.land (u8 (Z.lor 0xE0 (Z.land (Z.shiftr lba 24) 0x0F))) 0x0F = lba / 16777216.
Proof.
  intros Hl. unfold u8. change 256 with (2 ^ 8). rewrite <- Z.land_ones by lia. change 0x0F with (Z.ones 4).
  rewrite <- Z.land_assoc. change (Z.land (Z.ones 8) (Z.ones 4)) with (Z.ones 4). rewrite Z.land_lor_distr_l.
  change (Z.land 0xE0 (Z.ones 4)) with 0. rewrite Z.lor_0_l, <- Z.land_assoc, Z.land_diag, Z.land_ones, Z.shiftr_div_pow2 by lia.
  change (2 ^ 24) with 16777216. change (2 ^ 4) with 16. mlia.
Qed.

(** The check for addresses of 28 bits. *)
Lemma lba28 lba : is_u32 lba → (Z.land lba 0xF0000000 =? 0) = (lba <? 268435456).
Proof.
  intros Hl. assert (E : Z.land lba 0xF0000000 = lba / 268435456 * 268435456).
  { change 268435456 with (2 ^ 28). rewrite <- Z.shiftr_div_pow2, <- Z.shiftl_mul_pow2 by lia. apply Z.bits_inj'.
    intros i Hi. rewrite Z.land_spec. change 0xF0000000 with (Z.shiftl (Z.ones 4) 28). rewrite !Z.shiftl_spec by lia.
    destruct (decide (i < 28)).
    - rewrite (Z.testbit_neg_r _ (i - 28)), (Z.testbit_neg_r _ (i - 28)) by lia. apply andb_false_r.
    - rewrite Z.shiftr_spec by lia. replace (i - 28 + 28) with i by lia. destruct (decide (i < 32)).
      + rewrite Z.ones_spec_low by lia. apply andb_true_r.
      + rewrite (Z.bits_above_log2 lba i); [done|unfold is_u32 in Hl; lia|].
        destruct (decide (lba = 0)) as [->|]; [simpl; lia|]. apply Z.log2_lt_pow2; [unfold is_u32 in Hl; lia|].
        apply Z.lt_le_trans with (2 ^ 32); [unfold is_u32 in Hl; lia|]. apply Z.pow_le_mono_r; lia. }
  rewrite E. unfold is_u32 in Hl. destruct (Z.ltb_spec lba 268435456).
  - apply Z.eqb_eq. mlia.
  - apply Z.eqb_neq. mlia.
Qed.

(** The registers are loaded and the command is given. *)
Lemma issue_ok lba count cmd d : 0 ≤ lba < 268435456 →
  ∃ d0, issue lba count cmd d = command cmd d0 ∧ dr_data d0 = dr_data d ∧ dr_clock d0 = dr_clock d ∧
        reg_lba d0 = lba ∧ dr_count d0 = count.
Proof.
  intros Hl. destruct d as [data sel cnt l0 l1 l2 ph w k].
  exists (mk_drive data (u8 (Z.lor 0xE0 (Z.land (Z.shiftr lba 24) 0x0F))) count (u8 (Z.land lba 0xFF))
            (u8 (Z.land (Z.shiftr lba 8) 0xFF)) (u8 (Z.land (Z.shiftr lba 16) 0xFF)) ph w k).
  split; [done|]. split; [done|]. split; [done|]. split; [|done]. unfold reg_lba. cbn [dr_lba0 dr_lba1 dr_lba2 dr_sel].
  rewrite lba_select by done. rewrite !land_ff by (rewrite ?Z.shiftr_div_pow2 by lia; try apply Z.div_pos; lia).
  rewrite !Z.shiftr_div_pow2 by lia. change (2 ^ 8) with 256. change (2 ^ 16) with 65536. mlia.
Qed.

(** ** Reading *)

Definition quick : Prop := ∀ k, (lat k < Pos.to_nat SPINS)%nat.

Lemma mem_words_length m x : length (words_of (mem_sector m x)) = 256%nat.
Proof. apply words_length. apply (sector_length (BlockDev := mem_disk_dev 0) (m : mem_disk 0) x). Qed.

Lemma mem_words_bytes m x : bytes_of (words_of (mem_sector m x)) = mem_sector m x.
Proof.
  apply (bytes_words 256).
  - apply (sector_length (BlockDev := mem_disk_dev 0) (m : mem_disk 0) x).
  - apply (sector_bytes (BlockDev := mem_disk_dev 0) (m : mem_disk 0) x).
Qed.

Lemma read_sectors_S c d :
  read_sectors (S c) d =
    let '(rc, d) := ata_wait_drq SPINS d in
    if rc <? 0 then (None, d) else
    let '(ws, d) := read_words 256 d in
    let '(o, d) := read_sectors c d in
    ((λ l, bytes_of ws ++ l) <$> o, d).
Proof. done. Qed.

Lemma read_sectors_ok c lba d o d' : dr_phase d = DataIn (words_of (mem_sector (dr_data d) lba)) (lba + 1) (Z.of_nat c) →
  read_sectors (S c) d = (o, d') → dr_data d' = dr_data d ∧
  (∀ l, o = Some l → l = sectors_at (mem_sector (dr_data d)) lba (S c)) ∧
  (quick → (dr_wait d < Pos.to_nat SPINS)%nat → is_Some o ∧ (dr_wait d' < Pos.to_nat SPINS)%nat).
Proof.
  revert lba d o d'. induction c as [|c IH]; intros lba d o d' Hp E.
  all: rewrite read_sectors_S, wait_drq_ok in E by (left; unfold has_data; by rewrite Hp); rewrite Hp in E;
    destruct (decide (dr_wait d < Pos.to_nat SPINS)%nat) as [Hw|Hw];
    [|change (-1 <? 0) with true in E; injection E as <- <-; split; [done|]; split; [done|]; intros; lia];
    change (0 <? 0) with false in E; cbv iota beta in E;
    assert (Hne : words_of (mem_sector (dr_data d) lba) ≠ []) by (intros H0; pose proof (mem_words_length (dr_data d) lba) as H1; by rewrite H0 in H1);
    rewrite <- (mem_words_length (dr_data d) lba) in E at 1;
    rewrite (read_words_ok _ (lba + 1) _ (with_wait 0 d)) in E by done.
  - change (Z.of_nat 0 =? 0) with true in E. change (read_sectors 0 ?d) with (@Some (list Z) [], d) in E. injection E as <- <-. split; [done|]. split.
    + intros l [= <-]. rewrite mem_words_bytes, app_nil_r. cbn [sectors_at]. by rewrite app_nil_r.
    + intros _ _. split; [eauto|]. simpl. lia.
  - change (Z.of_nat (S c) =? 0) with false in E.
    set (d1 := busy_phase _ _) in E. cbv iota beta in E. destruct (read_sectors (S c) d1) as [o1 d1'] eqn:E1. injection E as <- <-.
    destruct (IH (lba + 1) d1 o1 d1') as (K1 & K2 & K3); [|exact E1|].
    { unfold d1. simpl. f_equal. lia. }
    split; [exact K1|]. split.
    + intros l Hl. destruct o1 as [l1|]; [|done]. injection Hl as <-. rewrite mem_words_bytes, (K2 l1 eq_refl). done.
    + intros Hq _. destruct (K3 Hq) as [[l1 ->] Hw']; [apply Hq|]. split; [eauto|exact Hw'].
Qed.

Lemma drv_read_ok lba c st o st' : is_u32 lba → 1 ≤ c < 256 → drv_read lba c st = (o, st') →
  dr_data st'.2 = dr_data st.2 ∧ st'.1 = st.1 ∧
  (∀ l, o = Some l → l = sectors_at (mem_sector (dr_data st.2)) lba (Z.to_nat c)) ∧
  (quick → (dr_wait st.2 < Pos.to_nat SPINS)%nat → (dr_wait st'.2 < Pos.to_nat SPINS)%nat ∧
     (st.1 = true → lba + c ≤ n → lba + c ≤ 268435456 → is_Some o)).
Proof.
  intros Hl Hc. destruct st as [ready d]. unfold drv_read. rewrite lba28 by done.
  destruct (negb ready || (c =? 0)) eqn:E0.
  { intros [= <- <-]. split; [done|]. split; [done|]. split; [done|]. intros _ Hw. split; [done|]. intros Hr. simpl in *. subst. simpl in E0. lia. }
  destruct (Z.ltb_spec lba 268435456) as [Hlt|Hge]; cbn [negb].
  2: { intros [= <- <-]. split; [done|]. split; [done|]. split; [done|]. intros _ Hw. split; [done|]. lia. }
  rewrite wait_not_busy_ok. destruct (decide (dr_wait d < _)%nat) as [Hw|Hw].
  2: { change (-1 <? 0) with true. intros [= <- <-]. split; [done|]. split; [done|]. split; [done|]. simpl. intros; lia. }
  change (0 <? 0) with false. cbv iota.
  destruct (issue_ok lba c ATA_CMD_READ_SECTORS (with_wait 0 d)) as (d0 & -> & D0 & C0 & A0 & N0); [unfold is_u32 in Hl; lia|].
  unfold command. change (ATA_CMD_READ_SECTORS =? ATA_CMD_IDENTIFY) with false. change (ATA_CMD_READ_SECTORS =? ATA_CMD_READ_SECTORS) with true.
  cbv iota zeta. rewrite A0, N0. destruct (in_range lba c) eqn:Er.
  - destruct (read_sectors _ _) as [o1 d1] eqn:E1. intros [= <- <-].
    replace (Z.to_nat c) with (S (Z.to_nat (c - 1))) in E1 by lia.
    apply (read_sectors_ok _ lba) in E1 as (K1 & K2 & K3); [|cbn [dr_phase busy_phase dr_data]; by rewrite Z2Nat.id by lia].
    cbn [dr_data dr_wait busy_phase] in K1, K2, K3. rewrite D0 in *. split; [exact K1|]. split; [done|]. split.
    + intros l Hl'. rewrite (K2 l Hl'). cbn [with_wait dr_data snd]. f_equal. lia.
    + intros Hq _. destruct (K3 Hq) as [Ho Hw']; [apply Hq|]. done.
  - replace (Z.to_nat c) with (S (Z.to_nat (c - 1))) by lia. cbn [read_sectors]. rewrite wait_drq_ok by (by right).
    unfold in_range in Er. destruct (decide _) as [Hw'|Hw']; cbn [dr_phase busy_phase]; change (-1 <? 0) with true; cbv iota;
      intros [= <- <-]; (split; [simpl; by rewrite D0|]); (split; [done|]); (split; [done|]); simpl; intros Hq _; (split; [|lia]).
    + lia.
    + pose proof (Hq (dr_clock d0)). simpl in Hw'. lia.
Qed.

(** ** Writing *)

(** The first [k] sectors of the buffer are stored from [lba] on. *)
Fixpoint stored (k : nat) (lba : Z) (buf : list Z) (m : gmap Z (list Z)) : gmap Z (list Z) :=
  match k with
  | O => m
  | S k => stored k (lba + 1) (drop 512 buf) (mem_write lba (bytes_of (words_of (take 512 buf))) m)
  end.

Lemma write_sectors_S c buf d :
  write_sectors (S c) buf d =
    let '(rc, d) := ata_wait_drq SPINS d in
    if rc <? 0 then (-1, d) else write_sectors c (drop 512 buf) (write_words (words_of (take 512 buf)) d).
Proof. done. Qed.

Lemma write_sectors_ok c lba buf d rc d' : dr_phase d = DataOut [] lba (Z.of_nat c) → length buf = (512 * S c)%nat →
  write_sectors (S c) buf d = (rc, d') →
  ∃ k, (k ≤ S c)%nat ∧ dr_data d' = stored k lba buf (dr_data d) ∧ (rc = 0 ∧ k = S c ∨ rc = -1) ∧
       (quick → (dr_wait d < Pos.to_nat SPINS)%nat → rc = 0 ∧ (dr_wait d' < Pos.to_nat SPINS)%nat).
Proof.
  revert lba buf d rc d'. induction c as [|c IH]; intros lba buf d rc d' Hp Hl E.
  all: rewrite write_sectors_S, wait_drq_ok in E by (left; unfold has_data; by rewrite Hp); rewrite Hp in E;
    destruct (decide (dr_wait d < Pos.to_nat SPINS)%nat) as [Hw|Hw];
    [|change (-1 <? 0) with true in E; injection E as <- <-; exists 0%nat; split; [lia|]; split; [done|]; split; [auto|]; intros; lia];
    change (0 <? 0) with false in E; cbv iota beta in E;
    assert (Hlw : length (words_of (take 512 buf)) = 256%nat) by (apply words_length; rewrite length_take; lia);
    rewrite (write_words_ok _ [] lba _ (with_wait 0 d) Hp) in E; [|by intros H0; rewrite H0 in Hlw|simpl; lia].
  - change (Z.of_nat 0 =? 0) with true in E. injection E as <- <-. exists 1%nat. split; [lia|]. split; [done|]. split; [auto|].
    intros Hq _. split; [done|]. apply Hq.
  - change (Z.of_nat (S c) =? 0) with false in E. cbv iota in E.
    apply (IH (lba + 1)) in E as (k & K1 & K2 & K3 & K4); [|simpl; f_equal; lia|rewrite length_drop; lia].
    exists (S k). split; [lia|]. split; [exact K2|]. split; [naive_solver|]. intros Hq _. apply K4; [done|apply Hq].
Qed.

Lemma drv_write_ok lba c buf st rc st' : is_u32 lba → 1 ≤ c < 256 → Z.of_nat (length buf) = 512 * c →
  drv_write lba c buf st = (rc, st') →
  st'.1 = st.1 ∧ (rc = 0 ∨ rc = -1) ∧
  (∃ k, (k ≤ Z.to_nat c)%nat ∧ dr_data st'.2 = stored k lba buf (dr_data st.2) ∧ (rc = 0 → k = Z.to_nat c)) ∧
  (quick → (dr_wait st.2 < Pos.to_nat SPINS)%nat → (dr_wait st'.2 < Pos.to_nat SPINS)%nat ∧
     (st.1 = true → lba + c ≤ n → lba + c ≤ 268435456 → rc = 0)).
Proof.
  intros Hl Hc Hb. destruct st as [ready d]. unfold drv_write. rewrite lba28 by done.
  destruct (negb ready || (c =? 0)) eqn:E0.
  { intros [= <- <-]. split; [done|]. split; [auto|]. split; [by exists 0%nat; split; [lia|]|].
    intros _ Hw. split; [done|]. intros Hr. simpl in *. subst. simpl in E0. lia. }
  destruct (Z.ltb_spec lba 268435456) as [Hlt|Hge]; cbn [negb].
  2: { intros [= <- <-]. split; [done|]. split; [auto|]. split; [by exists 0%nat; split; [lia|]|]. intros _ Hw. split; [done|]. lia. }
  rewrite wait_not_busy_ok. destruct (decide (dr_wait d < _)%nat) as [Hw|Hw].
  2: { change (-1 <? 0) with true. intros [= <- <-]. split; [done|]. split; [auto|]. split; [by exists 0%nat; split; [lia|]|].
       simpl. intros; lia. }
  change (0 <? 0) with false. cbv iota.
  destruct (issue_ok lba c ATA_CMD_WRITE_SECTORS (with_wait 0 d)) as (d0 & -> & D0 & C0 & A0 & N0); [unfold is_u32 in Hl; lia|].
  unfold command. change (ATA_CMD_WRITE_SECTORS =? ATA_CMD_IDENTIFY) with false.
  change (ATA_CMD_WRITE_SECTORS =? ATA_CMD_READ_SECTORS) with false. change (ATA_CMD_WRITE_SECTORS =? ATA_CMD_WRITE_SECTORS) with true.
  cbv iota zeta. rewrite A0, N0. destruct (write_sectors _ _ _) as [rc1 d1] eqn:E1.
  replace (Z.to_nat c) with (S (Z.to_nat (c - 1))) in * by lia. destruct (in_range lba c) eqn:Er.
  - apply (write_sectors_ok _ lba) in E1 as (k & K1 & K2 & K3 & K4); [|cbn [dr_phase busy_phase]; by rewrite Z2Nat.id by lia|lia].
    cbn [dr_data dr_wait busy_phase] in K2, K4. rewrite D0 in K2. cbn [with_wait dr_data] in K2.
    destruct K3 as [[-> ->]| ->].
    + change (0 <? 0) with false. cbv iota. rewrite wait_not_busy_ok. destruct (decide _) as [Hw'|Hw'];
        [change (0 <? 0) with false|change (-1 <? 0) with true]; cbv iota; intros [= <- <-]; (split; [done|]); (split; [auto|]);
        (split; [by eexists|]); intros Hq _.
      * split; [simpl; lia|done].
      * destruct (K4 Hq ltac:(apply Hq)). lia.
    + change (-1 <? 0) with true. cbv iota. intros [= <- <-]. split; [done|]. split; [auto|].
      split; [exists k; split; [done|]; by split|]. intros Hq _. destruct (K4 Hq ltac:(apply Hq)). lia.
  - rewrite write_sectors_S, wait_drq_ok in E1 by (by right). unfold in_range in Er.
    assert (rc1 = -1 ∧ dr_data d1 = dr_data d ∧ (quick → (dr_wait d1 < Pos.to_nat SPINS)%nat)) as (-> & Hd & Hw1).
    { destruct (decide _) as [Hw'|Hw'] in E1; cbn [dr_phase busy_phase] in E1; change (-1 <? 0) with true in E1; cbv iota in E1;
        injection E1 as <- <-; (split; [done|]); (split; [simpl; by rewrite D0|]); simpl; intros Hq; [lia|].
      pose proof (Hq (dr_clock d0)). simpl in Hw'. lia. }
    change (-1 <? 0) with true. cbv iota. intros [= <- <-]. split; [done|]. split; [auto|].
    split; [exists 0%nat; split; [lia|]; by split|]. intros Hq _. split; [by apply Hw1|lia].
Qed.

(** ** Initialisation *)

(** IDENTIFY is given, the status is polled once and LBA1 and LBA2 read as 0. *)
Lemma drv_init_eq ready d :
  drv_init (ready, d) =
    let d1 := mk_drive (dr_data d) 0xA0 0 0 0 0 (DataIn (replicate 256 0) 0 0) (lat (dr_clock d)) (S (dr_clock d)) in
    if status_of d1 =? 0 then (-1, (false, tick d1)) else
    let '(rc, d2) := ata_wait_drq SPINS (tick d1) in
    if rc <? 0 then (-1, (false, d2)) else (0, (true, (read_words 256 d2).2)).
Proof. by destruct d. Qed.

Lemma drv_init_ok st rc st' : drv_init st = (rc, st') → dr_data st'.2 = dr_data st.2 ∧
  (quick → rc = 0 ∧ st'.1 = true ∧ (dr_wait st'.2 < Pos.to_nat SPINS)%nat).
Proof.
  destruct st as [ready d]. rewrite drv_init_eq. destruct d as [data sel cnt l0 l1 l2 ph w k]. cbn [dr_data dr_clock].
  set (d1 := mk_drive data _ _ _ _ _ _ _ _). assert (Es : status_of d1 =? 0 = false) by (unfold status_of; by destruct (_ <? _)%nat).
  rewrite Es, wait_drq_ok by (by left). destruct (decide _) as [Hw|Hw].
  - change (dr_phase (tick d1)) with (DataIn (replicate 256 0) 0 0). cbv iota. change (0 <? 0) with false. cbv iota.
    change 256%nat with (length (replicate 256 0)). rewrite (read_words_ok _ 0 0) by done. intros [= <- <-].
    split; [done|]. intros _. split; [done|]. split; [done|]. simpl. lia.
  - change (-1 <? 0) with true. cbv iota. intros [= <- <-]. split; [done|]. intros Hq.
    pose proof (Hq k). unfold d1, tick in Hw. cbn [dr_wait] in Hw. lia.
Qed.
End ata.

(** ** The contract of the block device *)

(** The state of the driver and of a drive of [n] sectors with latency [lat]. *)
Definition ata_dev (lat : nat → nat) (n : Z) : Type := ata_t.

Definition ata_healthy (lat : nat → nat) (st : ata_t) : Prop :=
  quick lat ∧ st.1 = true ∧ (dr_wait st.2 < Pos.to_nat SPINS)%nat.

(** The arguments have the types of the source; a sector is 512 bytes. *)
Definition dev_read (lat : nat → nat) (n lba c : Z) (st : ata_t) : option (list Z) * ata_t :=
  if decide (is_u32 lba ∧ 0 ≤ c < 256) then drv_read lat n lba c st else (None, st).
Definition dev_write (lat : nat → nat) (n lba : Z) (l : list Z) (st : ata_t) : Z * ata_t :=
  if decide (is_u32 lba ∧ length l = 512%nat) then drv_write lat n lba 1 l st else (-1, st).

Lemma dev_read_ok lat n lba c st o st' : dev_read lat n lba c st = (o, st') →
  dr_data st'.2 = dr_data st.2 ∧ (∀ l, o = Some l → l = sectors_at (mem_sector (dr_data st.2)) lba (Z.to_nat c)) ∧
  (ata_healthy lat st → ata_healthy lat st' ∧ (0 ≤ lba → 1 ≤ c < 256 → lba + c ≤ Z.min n 268435456 → is_Some o)).
Proof.
  unfold dev_read, ata_healthy. destruct (decide _) as [[Hl Hc]|Hg].
  - destruct (decide (c = 0)) as [->|Hc0].
    + unfold drv_read. destruct st as [ready d]. rewrite orb_true_r. intros [= <- <-]. split; [done|]. split; [done|]. intros H. split; [done|lia].
    + intros E. apply drv_read_ok in E as (K1 & K2 & K3 & K4); [|done|lia]. split; [done|]. split; [done|]. intros (Hq & Hr & Hw).
      destruct (K4 Hq Hw) as [K5 K6]. split; [by rewrite K2|]. intros. apply K6; [done|lia..].
  - intros [= <- <-]. split; [done|]. split; [done|]. intros H. split; [done|]. intros. exfalso. apply Hg. unfold is_u32. lia.
Qed.

Lemma dev_write_ok lat n lba l st rc st' : dev_write lat n lba l st = (rc, st') →
  (rc = 0 ∨ rc = -1) ∧
  (dr_data st'.2 = dr_data st.2 ∧ rc = -1 ∨ dr_data st'.2 = mem_write lba (bytes_of (words_of l)) (dr_data st.2)) ∧
  (ata_healthy lat st → ata_healthy lat st' ∧ (0 ≤ lba < Z.min n 268435456 → length l = 512%nat → rc = 0)).
Proof.
  unfold dev_write, ata_healthy. destruct (decide _) as [[Hl Hc]|Hg].
  - intros E. apply drv_write_ok in E as (K1 & K2 & (k & Hk & Hd & Hrc) & K4); [|done|lia|lia]. split; [done|]. split.
    + change (Z.to_nat 1) with 1%nat in *. destruct k as [|[|k]]; [| |lia].
      * left. split; [done|]. destruct K2 as [H|]; [|done]. by specialize (Hrc H).
      * right. rewrite Hd. cbn [stored]. by rewrite take_ge by lia.
    + intros (Hq & Hr & Hw). destruct (K4 Hq Hw) as [K5 K6]. split; [by rewrite K1|]. intros. apply K6; [done|lia..].
  - intros [= <- <-]. split; [auto|]. split; [by left|]. intros H. split; [done|]. intros. exfalso. apply Hg. unfold is_u32. split; [lia|done].
Qed.

#[global] Program Instance ata_blockdev (lat : nat → nat) (n : Z) : BlockDev (ata_dev lat n) := {|
  ata_pio_init := drv_init lat n;
  ata_pio_read := dev_read lat n;
  ata_pio_write := dev_write lat n;
  sector st := mem_sector (dr_data st.2);
  disk_size _ := Z.min n 268435456;
  healthy := ata_healthy lat;
  attached _ := quick lat
|}.
Next Obligation. cbv beta. intros lat n d lba. apply (sector_length (BlockDev := mem_disk_dev 0) (dr_data d.2 : mem_disk 0)). Qed.
Next Obligation. cbv beta. intros lat n d lba. apply (sector_bytes (BlockDev := mem_disk_dev 0) (dr_data d.2 : mem_disk 0)). Qed.
Next Obligation. cbv beta. intros lat n lba c d l d' E. apply dev_read_ok in E as (_ & H & _). by apply H. Qed.
Next Obligation. cbv beta. intros lat n lba c d o d' x E. apply dev_read_ok in E as (H & _). by rewrite H. Qed.
Next Obligation.
  cbv beta. intros lat n lba l d d' x E Hl Hb. apply dev_write_ok in E as (_ & [[_ ?]|H] & _); [done|].
  rewrite H, (bytes_words 256) by done. by apply mem_sector_write.
Qed.
Next Obligation.
  cbv beta. intros lat n lba l d rc d' x E Hx. apply dev_write_ok in E as (_ & [[-> _]| ->] & _); [done|].
  unfold mem_sector, mem_write. by rewrite lookup_insert_ne.
Qed.
Next Obligation. cbv beta. intros lat n lba l d rc d' E. by apply dev_write_ok in E as (H & _). Qed.
Next Obligation. done. Qed.
Next Obligation. done. Qed.
Next Obligation. cbv beta. intros lat n d rc d' x E. apply drv_init_ok in E as (H & _). by rewrite H. Qed.
Next Obligation. done. Qed.
Next Obligation.
  cbv beta. intros lat n d Hq. destruct (drv_init lat n d) as [rc d'] eqn:E. exists d'.
  apply drv_init_ok in E as (_ & H). destruct (H Hq) as (-> & H1 & H2). done.
Qed.
Next Obligation. cbv beta. intros lat n lba c d o d' E H. apply dev_read_ok in E as (_ & _ & K). by apply K. Qed.
Next Obligation.
  cbv beta. intros lat n lba c d Hd H1 H2 H3. destruct (dev_read lat n lba c d) as [o d'] eqn:E.
  apply dev_read_ok in E as (_ & _ & K). destruct (K Hd) as [K1 K2]. destruct K2 as [l ->]; [done..|]. by eexists _, _.
Qed.
Next Obligation.
  cbv beta. intros lat n lba l d Hd H1 H2. destruct (dev_write lat n lba l d) as [rc d'] eqn:E.
  apply dev_write_ok in E as (_ & _ & K). destruct (K Hd) as [K1 K2]. rewrite K2 by done. by eexists.
Qed.

(** ** The properties of the driver *)

Lemma stored_below k lba buf m x : x < lba → mem_sector (stored k lba buf m) x = mem_sector m x.
Proof.
  revert lba buf m. induction k as [|k IH]; intros lba buf m Hx; simpl; [done|]. rewrite IH by lia.
  unfold mem_sector, mem_write. by rewrite lookup_insert_ne by lia.
Qed.

Lemma stored_above k lba buf m x : lba + Z.of_nat k ≤ x → mem_sector (stored k lba buf m) x = mem_sector m x.
Proof.
  revert lba buf m. induction k as [|k IH]; intros lba buf m Hx; cbn [stored]; [done|]. rewrite IH by lia.
  unfold mem_sector, mem_write. by rewrite lookup_insert_ne by lia.
Qed.

Lemma stored_sectors k lba buf m : (512 * k ≤ length buf)%nat → Forall is_u8 buf →
  sectors_at (mem_sector (stored k lba buf m)) lba k = take (512 * k) buf.
Proof.
  revert lba buf m. induction k as [|k IH]; intros lba buf m Hl Hb; [done|]. cbn [sectors_at stored].
  assert (Ht : length (take 512 buf) = 512%nat) by (rewrite length_take; lia).
  rewrite IH by (rewrite ?length_drop; (lia || by apply Forall_drop)). rewrite stored_below by lia.
  rewrite mem_sector_write, decide_True, (bytes_words 256) by (rewrite ?(bytes_words 256); (done || by apply Forall_take)).
  rewrite take_take_drop. f_equal. lia.
Qed.

(** C39 (error): whatever the latency of the drive, [ata_pio_write] returns 0 or -1
    and has stored a number of whole sectors of the buffer, in order from the first
    one: after 0 all of them, after -1 possibly fewer.  Every sector outside the
    range is as it was.  A ready drive that is never busy for 1000000 polls makes
    it return 0 when the range lies on the drive and in 28 bits. *)
Theorem ata_pio_write_prefix lat n lba c buf st rc st' : is_u32 lba → 1 ≤ c < 256 →
  Z.of_nat (length buf) = 512 * c → Forall is_u8 buf → drv_write lat n lba c buf st = (rc, st') →
  (rc = 0 ∨ rc = -1) ∧
  (∃ k, (k ≤ Z.to_nat c)%nat ∧ (rc = 0 → k = Z.to_nat c) ∧
        sectors_at (mem_sector (dr_data st'.2)) lba k = take (512 * k) buf ∧
        ∀ x, x < lba ∨ lba + Z.of_nat k ≤ x → mem_sector (dr_data st'.2) x = mem_sector (dr_data st.2) x) ∧
  (ata_healthy lat st → ata_healthy lat st' ∧ (lba + c ≤ Z.min n 268435456 → rc = 0)).
Proof.
  intros Hl Hc Hb Hu E. apply drv_write_ok in E as (K1 & K2 & (k & Hk & Hd & Hrc) & K4); [|done..]. split; [done|]. split.
  - exists k. rewrite Hd. split; [done|]. split; [done|]. split; [apply stored_sectors; [lia|done]|].
    intros x [Hx|Hx]; [by apply stored_below|by apply stored_above].
  - intros (Hq & Hr & Hw). destruct (K4 Hq Hw) as [K5 K6]. split; [unfold ata_healthy; by rewrite K1|]. intros. apply K6; [done|lia..].
Qed.

(** C38 (roundtrip): after [ata_pio_init] on a drive that answers in time, writing
    sectors and reading them back returns the bytes written, through the registers,
    the commands and the 16-bit data port. *)
Theorem ata_pio_write_read lat n lba c buf st : quick lat → 0 ≤ lba → 1 ≤ c < 256 → lba + c ≤ Z.min n 268435456 →
  Z.of_nat (length buf) = 512 * c → Forall is_u8 buf →
  ∃ st1 st2 st3, drv_init lat n st = (0, st1) ∧ drv_write lat n lba c buf st1 = (0, st2) ∧
                 drv_read lat n lba c st2 = (Some buf, st3).
Proof.
  intros Hq Hl Hc Hn Hb Hu. assert (Hlu : is_u32 lba) by (unfold is_u32; lia).
  destruct (drv_init lat n st) as [rc st1] eqn:E1. apply drv_init_ok in E1 as [_ H1]. destruct (H1 Hq) as (-> & R1 & W1).
  destruct (drv_write lat n lba c buf st1) as [rc st2] eqn:E2. destruct (drv_write_ok _ _ _ _ _ _ _ _ Hlu Hc Hb E2)
    as (R2 & _ & (k & _ & D2 & Hk) & H2). destruct (H2 Hq W1) as [W2 Hrc]. rewrite Hrc in * by (done || lia).
  destruct (drv_read lat n lba c st2) as [o st3] eqn:E3.
  destruct (drv_read_ok _ _ _ _ _ _ _ Hlu Hc E3) as (_ & _ & H3 & H4). destruct (H4 Hq W2) as [_ Ho].
  destruct Ho as [l ->]; [by rewrite R2, R1|lia|lia|]. exists st1, st2, st3. split; [done|]. split; [exact E2|]. rewrite E3.
  rewrite (H3 l eq_refl), D2, Hk, stored_sectors, take_ge by (done || lia). done.
Qed.

(** A drive of 16 sectors that is busy for up to four polls. *)
Definition demo_lat (k : nat) : nat := (k mod 5)%nat.
Definition demo_drive : ata_t := (false, mk_drive ∅ 0 0 0 0 0 Idle 0 0).

Lemma demo_quick : quick demo_lat.
Proof.
  intros k. apply Nat.lt_le_trans with 5%nat; [apply Nat.mod_upper_bound; lia|]. apply Nat.leb_le. by vm_compute.
Qed.

Definition demo_ready : ata_t := (drv_init demo_lat 16 demo_drive).2.

Lemma ata_pio_write_prefix_witness :
  (drv_write demo_lat 16 3 2 (replicate 1024 7) demo_ready).1 = 0 ∧
  sectors_at (mem_sector (dr_data (drv_write demo_lat 16 3 2 (replicate 1024 7) demo_ready).2.2)) 3 2 = replicate 1024 7.
Proof.
  assert (H7 : Z.of_nat (length (replicate 1024 7)) = 512 * 2) by (by rewrite length_replicate).
  assert (H8 : Forall is_u8 (replicate 1024 7)) by (by apply Forall_replicate).
  destruct (ata_pio_write_prefix demo_lat 16 3 2 (replicate 1024 7) demo_ready _ _ ltac:(done) ltac:(done) H7 H8 (surjective_pairing _))
    as (_ & (k & _ & Hk & K & _) & H).
  assert (Hr : ata_healthy demo_lat demo_ready) by (split; [exact demo_quick|split; [by vm_compute|apply Nat.ltb_lt; by vm_compute]]).
  destruct (H Hr) as [_ H0]. specialize (H0 ltac:(vm_compute; discriminate)). rewrite (Hk H0) in K. split; [exact H0|exact K].
Defined.

Lemma ata_pio_write_read_witness : ∃ st1 st2 st3, drv_init demo_lat 16 demo_drive = (0, st1) ∧
  drv_write demo_lat 16 3 2 (replicate 1024 7) st1 = (0, st2) ∧ drv_read demo_lat 16 3 2 st2 = (Some (replicate 1024 7), st3).
Proof.
  apply ata_pio_write_read; [exact demo_quick|done|done|done|by rewrite length_replicate|apply Forall_replicate; done].
Defined.

(** ** The file system over the driver *)

(** What [fat16_init] needs of the device is that the drive answers in time. *)
Lemma fat16_init_on_ata lat n `{KHeap H} (s : fs_t (ata_dev lat n) H) : quick lat → length (fat_cache s) = FAT_CACHE_SIZE →
  ∃ rc s', fat16_init s = Some (rc, s') ∧
    (∀ x, mem_sector (dr_data (fs_disk s').2) x = mem_sector (dr_data (fs_disk s).2) x) ∧
    (rc = 0 → formatted (g_fat s') (Z.min n 268435456) → vol_ok s').
Proof.
  intros Hq Hc. destruct (fat16_init_ok s) as (rc & s' & E & _ & Hx & K & _); [exact Hq|exact Hc|]. exists rc, s'. split; [exact E|].
  split; [exact Hx|]. intros Hrc. by apply K.
Qed.

(** The volume of [FatMount] on a drive, mounted through the ports. *)
Definition demo_ata : fs_t (ata_dev demo_lat 5000) (set_heap 4) :=
  mk_fs fat_zero [] (replicate FAT_CACHE_SIZE (0, ZERO_SECTOR)) 0 (mk_rdcache [] [] false)
        (false, mk_drive (mem_write 0 demo_boot ∅) 0 0 0 0 0 Idle 0 0) (heap0 4).

Example demo_ata_mount : (λ '(rc, s), (rc, g_fat s)) <$> fat16_init demo_ata =
  Some (0, mk_fat true 0 1 41 42 1 5000 20 2 512 1 16 4958).
Proof. by vm_compute. Qed.
