(* ===== verification/Bytes.v ===== *)
(** * Words and their bytes

    Lemmas on masks, shifts and disjunctions of bytes that the user programs use
    to take 32-bit words apart and to put them together. *)

From S2P Require Import Prelude.

Lemma land_byte x k : 0 ≤ k → Z.land (Z.shiftr x k) 0xFF = x / 2 ^ k mod 256.
Proof. intros Hk. change 0xFF with (Z.ones 8). rewrite Z.land_ones, Z.shiftr_div_pow2 by lia. done. Qed.

Lemma lor_low a b k : 0 ≤ k → 0 ≤ b < 2 ^ k → Z.lor (a * 2 ^ k) b = a * 2 ^ k + b.
Proof.
  intros Hk Hb. assert (E : Z.land (a * 2 ^ k) b = 0).
  { apply Z.bits_inj'. intros i Hi. rewrite Z.land_spec, Z.bits_0. destruct (decide (i < k)) as [Hik|Hik].
    - by rewrite Z.mul_pow2_bits_low.
    - destruct (decide (b = 0)) as [->|Hb0]; [by rewrite Z.bits_0, andb_false_r|].
      rewrite (Z.bits_above_log2 b i), andb_false_r; [done|lia|]. apply Z.log2_lt_pow2; [lia|].
      apply Z.lt_le_trans with (2 ^ k); [lia|]. apply Z.pow_le_mono_r; lia. }
  pose proof (Z.add_lor_land (a * 2 ^ k) b) as H. rewrite E in H. lia.
Qed.

(** Four bytes, most significant first, as the source puts them together. *)
Lemma join_bytes a b c d : is_u8 a → is_u8 b → is_u8 c → is_u8 d →
  Z.lor (Z.lor (Z.lor (Z.shiftl a 24) (Z.shiftl b 16)) (Z.shiftl c 8)) d = a * 16777216 + b * 65536 + c * 256 + d.
Proof.
  intros Ha Hb Hc Hd. unfold is_u8 in *. rewrite !Z.shiftl_mul_pow2 by lia.
  replace (a * 2 ^ 24) with (a * 2 ^ 24) by done. rewrite (lor_low a (b * 2 ^ 16) 24) by lia.
  replace (a * 2 ^ 24 + b * 2 ^ 16) with ((a * 256 + b) * 2 ^ 16) by lia. rewrite (lor_low _ (c * 2 ^ 8) 16) by lia.
  replace ((a * 256 + b) * 2 ^ 16 + c * 2 ^ 8) with (((a * 256 + b) * 256 + c) * 2 ^ 8) by lia. rewrite (lor_low _ d 8) by lia.
  lia.
Qed.

Lemma split_bytes x : is_u32 x →
  x = x / 2 ^ 24 mod 256 * 16777216 + x / 2 ^ 16 mod 256 * 65536 + x / 2 ^ 8 mod 256 * 256 + x / 2 ^ 0 mod 256.
Proof.
  intros Hx. change (2 ^ 24) with 16777216. change (2 ^ 16) with 65536. change (2 ^ 8) with 256. change (2 ^ 0) with 1. mlia.
Qed.

Lemma byte_u8 x : is_u8 (x mod 256).
Proof. apply Z.mod_pos_bound. lia. Qed.
#[export] Hint Resolve byte_u8 : cint.

(** Little-endian: the least significant byte comes first. *)
Definition le32 (x : Z) : list Z := [x mod 256; x / 256 mod 256; x / 65536 mod 256; x / 16777216 mod 256].
Definition le16 (x : Z) : list Z := [x mod 256; x / 256 mod 256].

Lemma u32_byte x k : 0 ≤ k ≤ 24 → u32 x / 2 ^ k mod 2 ^ 8 = x / 2 ^ k mod 2 ^ 8.
Proof.
  intros Hk. unfold u32. change 4294967296 with (2 ^ 32). apply Z.bits_inj'. intros i Hi. destruct (decide (i < 8)) as [H8|H8].
  - rewrite !Z.mod_pow2_bits_low, !Z.div_pow2_bits, Z.mod_pow2_bits_low by lia. done.
  - by rewrite !Z.mod_pow2_bits_high by lia.
Qed.

Lemma le32_u32 x : le32 (u32 x) = le32 x.
Proof.
  unfold le32. change 256 with (2 ^ 8). change 65536 with (2 ^ 16). change 16777216 with (2 ^ 24).
  rewrite !u32_byte by lia. f_equal. pose proof (u32_byte x 0 ltac:(lia)) as H. change (2 ^ 0) with 1 in H. by rewrite !Z.div_1_r in H.
Qed.

Lemma le32_inj x y : is_u32 x → is_u32 y → le32 x = le32 y → x = y.
Proof. intros Hx Hy. unfold le32. intros [= H1 H2 H3 H4]. mlia. Qed.

(** Rounding up to a power of two with a mask: [(v + a - 1) & ~(a - 1)]. *)
Lemma mask_down x k : 0 ≤ k ≤ 32 → is_u32 x → Z.land x (u32 (Z.lnot (2 ^ k - 1))) = x / 2 ^ k * 2 ^ k.
Proof.
  intros Hk Hx. assert (Hn : Z.land x (u32 (Z.lnot (2 ^ k - 1))) = Z.ldiff x (Z.ones k)).
  { apply Z.bits_inj'. intros i Hi. unfold u32. change 4294967296 with (2 ^ 32). rewrite Z.land_spec, Z.ldiff_spec.
    destruct (decide (i < 32)) as [H32|H32].
    - rewrite Z.mod_pow2_bits_low by lia. rewrite Z.lnot_spec by done. by rewrite Z.ones_equiv.
    - rewrite Z.mod_pow2_bits_high by lia. rewrite andb_false_r. destruct (decide (x = 0)) as [->|H0]; [by rewrite Z.bits_0|].
      rewrite (Z.bits_above_log2 x i); [done|unfold is_u32 in Hx; lia|]. apply Z.log2_lt_pow2; [unfold is_u32 in Hx; lia|].
      apply Z.lt_le_trans with (2 ^ 32); [unfold is_u32 in Hx; lia|]. apply Z.pow_le_mono_r; lia. }
  rewrite Hn, Z.ldiff_ones_r, Z.shiftl_mul_pow2, Z.shiftr_div_pow2 by lia. done.
Qed.
