(* ===== verification/LibcString.v ===== *)
(** * The C library of the user programs: strings ([src/userland/libc.c])

    The string and memory routines that user programs are linked with.  A pointer
    to characters is the list of the bytes of the object from there on; running
    past its end is [None].  A [char] is the byte that represents it. *)

From S2P Require Import Prelude.

Definition c_isspace (c : Z) : bool :=
  (c =? 32) || (c =? 9) || (c =? 10) || (c =? 13) || (c =? 12) || (c =? 11).
Definition c_isdigit (c : Z) : bool := (48 <=? c) && (c <=? 57).
Definition c_isalpha (c : Z) : bool := (97 <=? c) && (c <=? 122) || (65 <=? c) && (c <=? 90).

(** ** Lengths and copies *)

Fixpoint strlen (s : list Z) : option Z :=
  match s with
  | [] => None
  | c :: s => if c =? 0 then Some 0 else n ← strlen s; Some (n + 1)
  end.

(** The loop of [strcpy], which copies up to and with the NUL, from position [i] of
    the destination on. *)
Fixpoint copy_string (dst : list Z) (i : Z) (src : list Z) : option (list Z) :=
  match src with
  | [] => None
  | c :: src => dst ← zupdate dst i c; if c =? 0 then Some dst else copy_string dst (i + 1) src
  end.

Definition strcpy (dst src : list Z) : option (list Z) := copy_string dst 0 src.

Fixpoint pad_zero (dst : list Z) (i : Z) (n : nat) : option (list Z) :=
  match n with O => Some dst | S n => dst ← zupdate dst i 0; pad_zero dst (i + 1) n end.

Fixpoint strncpy_loop (dst : list Z) (i : Z) (src : list Z) (n : nat) : option (list Z) :=
  match n with
  | O => Some dst
  | S n' =>
    match src with
    | [] => None
    | c :: src => if c =? 0 then pad_zero dst i n else dst ← zupdate dst i c; strncpy_loop dst (i + 1) src n'
    end
  end.

Definition strncpy (dst src : list Z) (n : nat) : option (list Z) := strncpy_loop dst 0 src n.

Definition strcat (dst src : list Z) : option (list Z) := n ← strlen dst; copy_string dst n src.

Fixpoint strncat_loop (dst : list Z) (i : Z) (src : list Z) (n : nat) : option (list Z) :=
  match n with
  | O => zupdate dst i 0
  | S n =>
    match src with
    | [] => None
    | c :: src => if c =? 0 then zupdate dst i 0 else dst ← zupdate dst i c; strncat_loop dst (i + 1) src n
    end
  end.

Definition strncat (dst src : list Z) (n : nat) : option (list Z) := k ← strlen dst; strncat_loop dst k src n.

(** ** Searching: [Some None] is NULL, [Some (Some i)] the pointer to byte [i] *)

Fixpoint strchr_from (s : list Z) (c : Z) (i : nat) : option (option nat) :=
  match s with
  | [] => None
  | x :: s =>
    if x =? 0 then Some (if c =? 0 then Some i else None) else
    if x =? u8 c then Some (Some i) else strchr_from s c (S i)
  end.
Definition strchr (s : list Z) (c : Z) : option (option nat) := strchr_from s c 0.

Fixpoint strrchr_from (s : list Z) (c : Z) (i : nat) (last : option nat) : option (option nat) :=
  match s with
  | [] => None
  | x :: s =>
    if x =? 0 then Some (if c =? 0 then Some i else last) else
    strrchr_from s c (S i) (if x =? u8 c then Some i else last)
  end.
Definition strrchr (s : list Z) (c : Z) : option (option nat) := strrchr_from s c 0 None.

(** The inner loop of [strstr]: [true] when the needle ends first. *)
Fixpoint needle_here (h n : list Z) : option bool :=
  match h with
  | [] => None
  | x :: h =>
    match n with
    | [] => None
    | y :: n => if negb (x =? 0) && negb (y =? 0) && (x =? y) then needle_here h n else Some (y =? 0)
    end
  end.

Fixpoint strstr_from (h n : list Z) (i : nat) : option (option nat) :=
  match h with
  | [] => None
  | x :: h' =>
    if x =? 0 then Some None else
    b ← needle_here h n; if b : bool then Some (Some i) else strstr_from h' n (S i)
  end.

Definition strstr (haystack needle : list Z) : option (option nat) :=
  match needle with
  | [] => None
  | c :: _ => if c =? 0 then Some (Some O) else strstr_from haystack needle 0
  end.

Fixpoint in_accept (c : Z) (a : list Z) : option bool :=
  match a with
  | [] => None
  | x :: a => if x =? 0 then Some false else if x =? c then Some true else in_accept c a
  end.

Fixpoint strpbrk_from (s accept : list Z) (i : nat) : option (option nat) :=
  match s with
  | [] => None
  | x :: s =>
    if x =? 0 then Some None else
    b ← in_accept x accept; if b : bool then Some (Some i) else strpbrk_from s accept (S i)
  end.
Definition strpbrk (s accept : list Z) : option (option nat) := strpbrk_from s accept 0.

(** ** Comparisons *)

Fixpoint strcmp (a b : list Z) : option Z :=
  match a, b with
  | x :: a, y :: b => if negb (x =? 0) && (x =? y) then strcmp a b else Some (x - y)
  | _, _ => None
  end.

Fixpoint strncmp (a b : list Z) (n : nat) : option Z :=
  match n with
  | O => Some 0
  | S n =>
    match a, b with
    | x :: a, y :: b => if negb (x =? y) then Some (x - y) else if x =? 0 then Some 0 else strncmp a b n
    | _, _ => None
    end
  end.

Fixpoint memcmp (a b : list Z) (n : nat) : option Z :=
  match n with
  | O => Some 0
  | S n =>
    match a, b with
    | x :: a, y :: b => if negb (x =? y) then Some (x - y) else memcmp a b n
    | _, _ => None
    end
  end.

(** ** Memory: [m] is the memory, [d] and [s] are positions in it *)

Fixpoint memset (m : list Z) (d : Z) (c : Z) (n : nat) : option (list Z) :=
  match n with O => Some m | S n => m ← zupdate m d (u8 c); memset m (d + 1) c n end.

Fixpoint memcpy (m : list Z) (d s : Z) (n : nat) : option (list Z) :=
  match n with
  | O => Some m
  | S n => x ← zlookup m s; m ← zupdate m d x; memcpy m (d + 1) (s + 1) n
  end.

Fixpoint copy_down (m : list Z) (d s : Z) (n : nat) : option (list Z) :=
  match n with
  | O => Some m
  | S n => x ← zlookup m (s + Z.of_nat n); m ← zupdate m (d + Z.of_nat n) x; copy_down m d s n
  end.

Definition memmove (m : list Z) (d s : Z) (n : nat) : option (list Z) :=
  if (d =? s) || (n =? 0)%nat then Some m else if d <? s then memcpy m d s n else copy_down m d s n.

(** ** Properties *)

Lemma nonzero c : 1 ≤ c < 256 → (c =? 0) = false.
Proof. intros H. apply Z.eqb_neq. lia. Qed.

Lemma strlen_text s r : cstring s → strlen (s ++ 0 :: r) = Some (Z.of_nat (length s)).
Proof. induction 1 as [|c s Hc _ IH]; [done|]. cbn. rewrite nonzero by done. rewrite IH. cbn. f_equal. lia. Qed.

Lemma copy_string_ok s r dst i : cstring s → 0 ≤ i → i + Z.of_nat (length s) < Z.of_nat (length dst) →
  copy_string dst i (s ++ 0 :: r) = Some (splice dst (Z.to_nat i) (s ++ [0])).
Proof.
  intros Hs. revert dst i. induction Hs as [|c s Hc _ IH]; intros dst i Hi Hl; cbn [app copy_string length] in *.
  - rewrite zupdate_Some by lia. cbn. f_equal. rewrite <- splice_cons by (simpl; lia). by rewrite splice_nil.
  - rewrite zupdate_Some by lia. cbn [mbind option_bind]. rewrite nonzero by done. rewrite IH by (rewrite ?length_insert; lia).
    f_equal. rewrite <- splice_cons by (rewrite length_app; simpl; lia). f_equal. lia.
Qed.

Lemma strcpy_ok s r dst : cstring s → (length s < length dst)%nat →
  strcpy dst (s ++ 0 :: r) = Some (splice dst 0 (s ++ [0])).
Proof. intros. unfold strcpy. by rewrite copy_string_ok by (done || lia). Qed.

Lemma strcat_ok s t r r' : cstring s → cstring t → (length t ≤ length r)%nat →
  strcat (s ++ 0 :: r) (t ++ 0 :: r') = Some (s ++ t ++ 0 :: drop (length t) r).
Proof.
  intros Hs Ht Hl. unfold strcat. rewrite strlen_text by done. cbn [mbind option_bind].
  rewrite copy_string_ok by (rewrite ?length_app; simpl; (done || lia)). f_equal. unfold splice.
  rewrite Nat2Z.id, take_app_length, length_app. f_equal. rewrite <- app_assoc. f_equal. cbn [length app]. f_equal.
  rewrite drop_app_ge by lia. replace (length s + (length t + 1) - length s)%nat with (S (length t)) by lia. done.
Qed.

Lemma pad_zero_ok dst i n : 0 ≤ i → i + Z.of_nat n ≤ Z.of_nat (length dst) →
  pad_zero dst i n = Some (splice dst (Z.to_nat i) (replicate n 0)).
Proof.
  revert dst i. induction n as [|n IH]; intros dst i Hi Hl; [cbn; by rewrite splice_nil|]. cbn [pad_zero replicate].
  rewrite zupdate_Some by lia. cbn [mbind option_bind]. rewrite IH by (rewrite ?length_insert; lia). f_equal.
  rewrite <- splice_cons by (rewrite length_replicate; lia). f_equal. lia.
Qed.

Lemma strncpy_loop_ok s r dst i n : cstring s → 0 ≤ i → i + Z.of_nat n ≤ Z.of_nat (length dst) →
  strncpy_loop dst i (s ++ 0 :: r) n = Some (splice dst (Z.to_nat i) (take n s ++ replicate (n - length s) 0)).
Proof.
  intros Hs. revert dst n i. induction Hs as [|c s Hc _ IH]; intros dst n i Hi Hl; (destruct n as [|n]; [cbn; by rewrite splice_nil|]).
  - cbn [app strncpy_loop]. rewrite Z.eqb_refl. by rewrite pad_zero_ok by lia.
  - cbn [app strncpy_loop take length Nat.sub]. rewrite nonzero by done. rewrite zupdate_Some by lia. cbn [mbind option_bind].
    rewrite IH by (rewrite ?length_insert; lia). f_equal. rewrite <- splice_cons.
    + f_equal. lia.
    + rewrite length_app, length_take, length_replicate. lia.
Qed.

(** [strncpy] pads with zeros and does not terminate a string that fills the array. *)
Lemma strncpy_ok s r dst n : cstring s → (n ≤ length dst)%nat →
  strncpy dst (s ++ 0 :: r) n = Some (splice dst 0 (take n s ++ replicate (n - length s) 0)).
Proof. intros. unfold strncpy. by rewrite strncpy_loop_ok by (done || lia). Qed.

Lemma needle_here_ok h n r r' : cstring h → cstring n →
  needle_here (h ++ 0 :: r) (n ++ 0 :: r') = Some (bool_decide (n `prefix_of` h)).
Proof.
  intros Hh. revert n. induction Hh as [|x h Hx _ IH]; intros n Hn; (destruct Hn as [|y n Hy Hn]; cbn [app needle_here]).
  - done.
  - rewrite (nonzero y) by done. cbn. rewrite bool_decide_eq_false_2; [done|]. intros H. by apply prefix_nil_not in H.
  - rewrite (nonzero x) by done. cbn. rewrite bool_decide_eq_true_2; [done|]. apply prefix_nil.
  - rewrite (nonzero x), (nonzero y) by done. cbn [negb andb]. destruct (Z.eqb_spec x y) as [->|Hne].
    + rewrite IH by done. f_equal. apply bool_decide_ext. split; [apply prefix_cons|apply prefix_cons_inv_2].
    + rewrite bool_decide_eq_false_2; [done|]. intros H. by apply prefix_cons_inv_1 in H.
Qed.

(** The first place where the needle occurs. *)
Fixpoint first_sub (h n : list Z) : option nat :=
  if bool_decide (n `prefix_of` h) then Some O else match h with [] => None | _ :: h => S <$> first_sub h n end.

Lemma strstr_from_ok h n r r' i : cstring h → cstring n → n ≠ [] →
  strstr_from (h ++ 0 :: r) (n ++ 0 :: r') i = Some ((λ k, i + k)%nat <$> first_sub h n).
Proof.
  intros Hh Hn Hne. revert i. induction Hh as [|x h Hx Hh IH]; intros i.
  - cbn [app strstr_from first_sub]. rewrite bool_decide_eq_false_2; [done|]. destruct n; [done|apply prefix_nil_not].
  - cbn [app strstr_from first_sub]. rewrite nonzero by done. change (x :: h ++ 0 :: r) with ((x :: h) ++ 0 :: r).
    rewrite needle_here_ok by (done || by constructor). cbn [mbind option_bind].
    destruct (bool_decide _); cbn; [by rewrite Nat.add_0_r|]. rewrite IH. f_equal. destruct (first_sub h n); cbn; [|done]. f_equal. lia.
Qed.

Lemma strstr_ok h n r r' : cstring h → cstring n → strstr (h ++ 0 :: r) (n ++ 0 :: r') = Some (first_sub h n).
Proof.
  intros Hh Hn. unfold strstr. destruct Hn as [|y n Hy Hn]; cbn [app].
  - destruct h; cbn [first_sub]; by rewrite bool_decide_eq_true_2 by apply prefix_nil.
  - rewrite nonzero by done. change (y :: n ++ 0 :: r') with ((y :: n) ++ 0 :: r'). rewrite strstr_from_ok by (done || by constructor).
    f_equal. by destruct (first_sub h (y :: n)).
Qed.

(** [strcmp] is the order on strings of unsigned bytes. *)
Fixpoint lex (a b : list Z) : comparison :=
  match a, b with
  | [], [] => Eq
  | [], _ => Lt
  | _, [] => Gt
  | x :: a, y :: b => match x ?= y with Eq => lex a b | c => c end
  end.

Lemma strcmp_ok a b r r' : cstring a → cstring b →
  ∃ v, strcmp (a ++ 0 :: r) (b ++ 0 :: r') = Some v ∧ (v ?= 0) = lex a b.
Proof.
  intros Ha. revert b. induction Ha as [|x a Hx _ IH]; intros b Hb; (destruct Hb as [|y b Hy Hb]; cbn [app strcmp lex]).
  - by exists 0.
  - exists (0 - y). split; [done|]. apply Z.compare_lt_iff. lia.
  - rewrite nonzero by done. cbn [negb andb]. exists (x - 0). split; [done|]. apply Z.compare_gt_iff. lia.
  - rewrite nonzero by done. cbn [negb andb]. destruct (Z.eqb_spec x y) as [->|Hne].
    + rewrite Z.compare_refl. by apply IH.
    + exists (x - y). split; [done|]. destruct (Z.compare_spec x y); [done|by apply Z.compare_lt_iff; lia|by apply Z.compare_gt_iff; lia].
Qed.

Lemma lex_eq a b : lex a b = Eq ↔ a = b.
Proof.
  revert b. induction a as [|x a IH]; intros [|y b]; cbn; try done.
  destruct (Z.compare_spec x y) as [->|Hlt|Hgt]; [rewrite IH; naive_solver|split; [done|intros [= ->]; lia]..].
Qed.
