(* ===== verification/LibcSort.v ===== *)
(** * Sorting ([qsort] of [src/userland/libc.c])

    [qsort] is an insertion sort that moves elements by exchanging them with their
    predecessor, byte by byte.  The array is the list of its bytes; the comparison
    function gets the bytes of the two elements. *)

From S2P Require Import Prelude.
From Stdlib Require Import Sorted Permutation.

(** ** The code *)

Section qsort.
Context (compar : list Z → list Z → Z).

(** [for (k = 0; k < size; k++)] exchange [a[k]] and [c[k]]. *)
Fixpoint swap_bytes (n : nat) (a c : Z) (b : list Z) : option (list Z) :=
  match n with
  | O => Some b
  | S n =>
    t ← zlookup b a; u ← zlookup b c;
    b ← zupdate b a u; b ← zupdate b c t; swap_bytes n (a + 1) (c + 1) b
  end.

(** The element at position [p]: what the comparison function reads. *)
Definition elem_at (size p : nat) (b : list Z) : list Z := take size (drop p b).

(** [for (j = i; j > 0; j--)]. *)
Fixpoint sift (j size : nat) (b : list Z) : option (list Z) :=
  match j with
  | O => Some b
  | S j' =>
    let a := (j' * size)%nat in let c := (j * size)%nat in
    if compar (elem_at size a b) (elem_at size c b) <=? 0 then Some b else
    b ← swap_bytes size (Z.of_nat a) (Z.of_nat c) b; sift j' size b
  end.

(** [for (i = 1; i < nmemb; i++)], with [n] rounds left. *)
Fixpoint sort_from (i n size : nat) (b : list Z) : option (list Z) :=
  match n with
  | O => Some b
  | S n => b ← sift i size b; sort_from (S i) n size b
  end.

Definition qsort (b : list Z) (nmemb size : nat) : option (list Z) :=
  if (size =? 0)%nat then Some b else sort_from 1 (nmemb - 1) size b.

(** ** Bytes and elements *)

Lemma insert_mid (l1 l2 : list Z) (x y : Z) i : i = length l1 → <[i := y]> (l1 ++ x :: l2) = l1 ++ y :: l2.
Proof. intros ->. replace (length l1) with (length l1 + 0)%nat by lia. by rewrite insert_app_r. Qed.

Lemma swap_bytes_ok p x y q : length x = length y →
  swap_bytes (length x) (Z.of_nat (length p)) (Z.of_nat (length p + length x)) (p ++ x ++ y ++ q) = Some (p ++ y ++ x ++ q).
Proof.
  assert (G : ∀ x1 x2 y1 y2, length x1 = length y1 → length x2 = length y2 →
    swap_bytes (length x2) (Z.of_nat (length p + length x1)) (Z.of_nat (length p + length x1 + length x2 + length x1))
      (p ++ (y1 ++ x2) ++ (x1 ++ y2) ++ q) = Some (p ++ (y1 ++ y2) ++ (x1 ++ x2) ++ q)).
  2: { intros Hl. specialize (G [] x [] y eq_refl Hl). simpl in G. rewrite !Nat.add_0_r in G. exact G. }
  intros x1 x2. revert x1. induction x2 as [|t x2 IH]; intros x1 y1 y2 H1 H2; (destruct y2 as [|u y2]; try done).
  cbn [swap_bytes length]. rewrite !zlookup_nat.
  assert (Ea : (p ++ (y1 ++ t :: x2) ++ (x1 ++ u :: y2) ++ q) !! (length p + length x1)%nat = Some t).
  { rewrite lookup_app_r by lia. rewrite <- app_assoc, lookup_app_r by lia.
    replace (length p + length x1 - length p - length y1)%nat with 0%nat by lia. done. }
  assert (Ec : (p ++ (y1 ++ t :: x2) ++ (x1 ++ u :: y2) ++ q) !! (length p + length x1 + S (length x2) + length x1)%nat = Some u).
  { rewrite lookup_app_r by lia. rewrite lookup_app_r by (rewrite length_app; simpl; lia). rewrite <- app_assoc, lookup_app_r.
    - rewrite length_app. cbn [length].
      replace (length p + length x1 + S (length x2) + length x1 - length p - (length y1 + S (length x2)) - length x1)%nat with 0%nat by lia. done.
    - rewrite length_app. simpl. lia. }
  rewrite Ea, Ec. cbn [mbind option_bind]. rewrite zupdate_Some by (rewrite !length_app; simpl; lia). cbn [mbind option_bind].
  rewrite zupdate_Some by (rewrite length_insert, !length_app; simpl; lia). cbn [mbind option_bind]. rewrite !Nat2Z.id.
  assert (E : <[(length p + length x1 + S (length x2) + length x1)%nat := t]>
      (<[(length p + length x1)%nat := u]> (p ++ (y1 ++ t :: x2) ++ (x1 ++ u :: y2) ++ q)) =
      p ++ ((y1 ++ [u]) ++ x2) ++ ((x1 ++ [t]) ++ y2) ++ q).
  { rewrite <- (app_assoc y1), <- (app_assoc x1), (app_assoc p). cbn [app]. rewrite insert_mid by (rewrite length_app; lia).
    replace ((p ++ y1) ++ u :: x2 ++ x1 ++ u :: y2 ++ q) with (((p ++ y1) ++ u :: x2 ++ x1) ++ u :: y2 ++ q)
      by (rewrite <- !app_assoc; cbn [app]; by rewrite <- !app_assoc).
    rewrite insert_mid by (rewrite !length_app; cbn [length]; rewrite length_app; lia).
    rewrite <- !app_assoc. cbn [app]. by rewrite <- !app_assoc. }
  rewrite E. specialize (IH (x1 ++ [t]) (y1 ++ [u]) y2). rewrite !length_app in IH. cbn [length] in IH.
  replace (Z.of_nat (length p + length x1) + 1) with (Z.of_nat (length p + (length x1 + 1))) by lia.
  replace (Z.of_nat (length p + length x1 + S (length x2) + length x1) + 1)
    with (Z.of_nat (length p + (length x1 + 1) + length x2 + (length x1 + 1))) by lia.
  rewrite IH by (simpl in *; lia). by rewrite <- !app_assoc.
Qed.

Lemma elem_at_ok p x q : elem_at (length x) (length p) (p ++ x ++ q) = x.
Proof. unfold elem_at. rewrite drop_app_length. apply take_app_length. Qed.

Section elements.
Context (size : nat) (Hsize : size ≠ 0%nat).

Definition elems (xs : list (list Z)) : Prop := Forall (λ x, length x = size) xs.

Lemma concat_length xs : elems xs → length (concat xs) = (length xs * size)%nat.
Proof. induction 1 as [|x xs Hx _ IH]; [done|]. cbn [concat length]. rewrite length_app. lia. Qed.

(** ** The sort on elements *)

(** An element is inserted into the reverse of the sorted part. *)
Fixpoint ins (y : list Z) (rp : list (list Z)) : list (list Z) :=
  match rp with
  | [] => [y]
  | x :: rp' => if compar x y <=? 0 then y :: rp else x :: ins y rp'
  end.

Lemma sift_ok rp y q r : elems (y :: rp) →
  sift (length rp) size (concat (rev rp ++ [y]) ++ concat q ++ r) = Some (concat (rev (ins y rp)) ++ concat q ++ r).
Proof.
  revert q. induction rp as [|x rp IH]; intros q He; [done|].
  apply Forall_cons in He as [Hy He]. apply Forall_cons in He as [Hx He].
  set (p := concat (rev rp)). assert (Hp : length p = (length rp * size)%nat).
  { unfold p. rewrite concat_length, length_rev; [done|]. by apply Forall_rev. }
  assert (Eb : concat (rev (x :: rp) ++ [y]) ++ concat q ++ r = p ++ x ++ y ++ concat q ++ r).
  { cbn [rev]. rewrite !concat_app. cbn [concat]. fold p. by rewrite !app_nil_r, <- !app_assoc. }
  rewrite Eb. cbn [sift length ins]. rewrite <- Hp.
  rewrite <- Hx at 1. rewrite elem_at_ok. replace (S (length rp) * size)%nat with (length (p ++ x)) by (rewrite length_app; lia).
  rewrite (app_assoc p x). rewrite <- Hy at 1. rewrite elem_at_ok. destruct (compar x y <=? 0).
  - f_equal. cbn [rev]. rewrite !concat_app. cbn [concat]. fold p. by rewrite !app_nil_r, <- !app_assoc.
  - rewrite <- (app_assoc p x), length_app. rewrite <- Hx at 1. rewrite swap_bytes_ok by congruence. cbn [mbind option_bind].
    specialize (IH (x :: q)). cbn [concat] in IH. rewrite concat_app in IH. cbn [concat] in IH. fold p in IH.
    rewrite app_nil_r, <- !app_assoc in IH. rewrite IH by (by constructor). f_equal. cbn [rev]. rewrite concat_app. cbn [concat].
    by rewrite app_nil_r, <- !app_assoc.
Qed.

Definition insertion (xs : list (list Z)) (rp : list (list Z)) : list (list Z) := rev (fold_left (λ rp y, ins y rp) xs rp).

Lemma ins_length y rp : length (ins y rp) = S (length rp).
Proof. induction rp as [|x rp IH]; [done|]. cbn [ins]. case_match; simpl; lia. Qed.

Lemma ins_elems y rp : elems (y :: rp) → elems (ins y rp).
Proof.
  intros H. apply Forall_cons in H as [Hy H]. induction H as [|x rp Hx H IH]; cbn [ins]; [by constructor|].
  case_match; repeat constructor; done.
Qed.

Lemma sort_from_ok xs rp r : elems (rp ++ xs) →
  sort_from (length rp) (length xs) size (concat (rev rp ++ xs) ++ r) = Some (concat (insertion xs rp) ++ r).
Proof.
  revert rp. induction xs as [|y xs IH]; intros rp He; [by rewrite app_nil_r|]. cbn [sort_from length].
  apply Forall_app in He as [Hr He]. apply Forall_cons in He as [Hy He].
  replace (concat (rev rp ++ y :: xs) ++ r) with (concat (rev rp ++ [y]) ++ concat xs ++ r).
  2: { rewrite !concat_app. cbn [concat]. by rewrite app_nil_r, <- !app_assoc. }
  rewrite sift_ok by (by constructor). cbn [mbind option_bind]. rewrite <- (ins_length y rp), app_assoc, <- concat_app.
  rewrite IH; [done|]. apply Forall_app. split; [|done]. apply ins_elems. by constructor.
Qed.

Lemma qsort_ok xs r : elems xs → qsort (concat xs ++ r) (length xs) size = Some (concat (insertion xs []) ++ r).
Proof using Hsize.
  intros He. unfold qsort. rewrite (proj2 (Nat.eqb_neq _ _)) by done. destruct xs as [|x xs]; [done|].
  cbn [length]. rewrite Nat.sub_succ, Nat.sub_0_r. change (x :: xs) with (rev [x] ++ xs) at 1. rewrite (sort_from_ok xs [x]); done.
Qed.

End elements.

(** ** Permutation, order and stability *)

Lemma ins_perm y rp : Permutation (ins y rp) (y :: rp).
Proof. induction rp as [|x rp IH]; [done|]. cbn [ins]. case_match; [done|]. rewrite IH. apply Permutation_swap. Qed.

Lemma insertion_perm xs rp : Permutation (insertion xs rp) (rp ++ xs).
Proof.
  unfold insertion. rewrite <- Permutation_rev. revert rp. induction xs as [|y xs IH]; intros rp; cbn [fold_left]; [by rewrite app_nil_r|].
  rewrite IH, ins_perm. apply Permutation_middle.
Qed.

Section order.
(** A comparison function as the C standard asks for: a total preorder. *)
Definition le (x y : list Z) : Prop := compar x y ≤ 0.
Context (Htotal : ∀ x y, 0 < compar x y → le y x) (Htrans : ∀ x y z, le x y → le y z → le x z).

Lemma ins_sorted y rp : StronglySorted (flip le) rp → StronglySorted (flip le) (ins y rp).
Proof using Htotal Htrans.
  induction 1 as [|x rp Hs IH Hx]; cbn [ins]; [by repeat constructor|]. destruct (Z.leb_spec (compar x y) 0) as [Hle|Hgt].
  - constructor; [by constructor|]. constructor; [exact Hle|]. eapply Forall_impl; [exact Hx|]. intros z Hz. by apply (Htrans z x y).
  - constructor; [exact IH|]. apply (Permutation_Forall (Permutation_sym (ins_perm y rp))). constructor; [|exact Hx]. apply Htotal. exact Hgt.
Qed.

Lemma StronglySorted_snoc (R : list Z → list Z → Prop) l x : StronglySorted R l → Forall (λ y, R y x) l → StronglySorted R (l ++ [x]).
Proof.
  induction 1 as [|y l Hl IH Hy]; intros Hx; cbn [app]; [by repeat constructor|]. apply Forall_cons in Hx as [Hyx Hx].
  constructor; [by apply IH|]. apply Forall_app. split; [done|by constructor].
Qed.

Lemma rev_sorted rp : StronglySorted (flip le) rp → StronglySorted le (rev rp).
Proof. induction 1 as [|x rp Hs IH Hx]; cbn [rev]; [constructor|]. apply StronglySorted_snoc; [exact IH|]. by apply Forall_rev. Qed.

Lemma insertion_sorted xs rp : StronglySorted (flip le) rp → StronglySorted le (insertion xs rp).
Proof using Htotal Htrans.
  intros H. apply rev_sorted. revert rp H. induction xs as [|y xs IH]; intros rp H; cbn [fold_left]; [done|]. by apply IH, ins_sorted.
Qed.

(** The elements that compare equal to [z]. *)
Definition class (z : list Z) (xs : list (list Z)) : list (list Z) := filter (λ x, compar x z ≤ 0 ∧ compar z x ≤ 0) xs.

Lemma ins_class z y rp : class z (ins y rp) = class z (y :: rp).
Proof using Htrans.
  unfold class. induction rp as [|x rp IH]; cbn [ins]; [done|]. destruct (Z.leb_spec (compar x y) 0) as [Hle|Hgt]; [done|].
  rewrite !filter_cons, IH, !filter_cons. destruct (decide (compar x z ≤ 0 ∧ _)) as [[Hx1 Hx2]|]; [|done].
  destruct (decide (compar y z ≤ 0 ∧ _)) as [[Hy1 Hy2]|]; [|done]. pose proof (Htrans x z y Hx1 Hy2) as H. unfold le in H. lia.
Qed.

Lemma filter_rev (P : list Z → Prop) `{∀ x, Decision (P x)} l : filter P (rev l) = rev (filter P l).
Proof.
  induction l as [|x l IH]; [done|]. cbn [rev]. rewrite filter_app, IH, (filter_cons P x l). destruct (decide (P x)) as [Hx|Hx].
  - by rewrite filter_cons_True by done.
  - rewrite filter_cons_False by done. by rewrite filter_nil, app_nil_r.
Qed.

Lemma insertion_class z xs rp : class z (insertion xs rp) = class z (rev rp ++ xs).
Proof using Htrans.
  unfold insertion. revert rp. induction xs as [|y xs IH]; intros rp; cbn [fold_left]; [by rewrite app_nil_r|]. rewrite IH.
  pose proof (ins_class z y rp) as E. unfold class in *. rewrite !filter_app, !filter_rev, E, <- filter_rev. cbn [rev].
  rewrite filter_app, filter_rev, <- app_assoc. f_equal. rewrite <- filter_app. done.
Qed.
End order.
End qsort.

(** [qsort] on an array of elements of any size, with a comparison
    function that is a total preorder, ends without leaving the array and stores a
    permutation of the elements in increasing order, in which elements that compare
    equal keep their order; the bytes after the array are untouched. *)
Theorem qsort_correct compar size xs r :
  size ≠ 0%nat → Forall (λ x, length x = size) xs →
  (∀ x y, 0 < compar x y → compar y x ≤ 0) → (∀ x y z, compar x y ≤ 0 → compar y z ≤ 0 → compar x z ≤ 0) →
  ∃ ys, qsort compar (concat xs ++ r) (length xs) size = Some (concat ys ++ r) ∧
        Permutation ys xs ∧ StronglySorted (λ x y, compar x y ≤ 0) ys ∧
        ∀ z, filter (λ x, compar x z ≤ 0 ∧ compar z x ≤ 0) ys = filter (λ x, compar x z ≤ 0 ∧ compar z x ≤ 0) xs.
Proof.
  intros Hs He Htot Htr. exists (insertion compar xs []). split; [by apply qsort_ok|]. split; [apply (insertion_perm compar xs [])|].
  split; [apply insertion_sorted; [exact Htot|exact Htr|constructor]|]. intros z. by apply (insertion_class compar Htr z xs []).
Qed.

(** Two-byte elements compared by their first byte. *)
Definition first_byte (x y : list Z) : Z := match x, y with a :: _, b :: _ => a - b | [], [] => 0 | [], _ => -1 | _, [] => 1 end.

Lemma qsort_correct_witness : ∃ ys,
  qsort first_byte [3; 0; 1; 1; 3; 2; 2; 3; 9] 4 2 = Some (concat ys ++ [9]) ∧
  Permutation ys [[3; 0]; [1; 1]; [3; 2]; [2; 3]] ∧ StronglySorted (λ x y, first_byte x y ≤ 0) ys.
Proof.
  destruct (qsort_correct first_byte 2 [[3; 0]; [1; 1]; [3; 2]; [2; 3]] [9]) as (ys & E & P & S & _).
  - done.
  - by repeat constructor.
  - intros [|a x] [|b y]; simpl; lia.
  - intros [|a x] [|b y] [|c z]; simpl; lia.
  - exists ys. split; [exact E|]. split; [exact P|exact S].
Defined.

Example qsort_stable : qsort first_byte [3; 0; 1; 1; 3; 2; 2; 3; 9] 4 2 = Some [1; 1; 2; 3; 3; 0; 3; 2; 9].
Proof. reflexivity. Qed.
