(* ===== verification/LibcNum.v ===== *)
(** * Numbers as text ([src/userland/libc.c])

    Reading and printing of integers and of IPv4 addresses.  Signed overflow is
    undefined and gives [None]; [unsigned] and [unsigned long] are 32 bits wide. *)

From S2P Require Import Prelude Bytes LibcString.

(** The value of a signed operation. *)
Definition sint (x : Z) : option Z := if (-2147483648 <=? x) && (x <=? 2147483647) then Some x else None.

(** ** Reading *)

Fixpoint skip_space (s : list Z) : option (list Z) :=
  match s with
  | [] => None
  | c :: s' => if negb (c =? 0) && c_isspace c then skip_space s' else Some s
  end.

Fixpoint atoi_digits (s : list Z) (v : Z) : option Z :=
  match s with
  | [] => None
  | c :: s => if c_isdigit c then v ← sint (v * 10 + (c - 48)); atoi_digits s v else Some v
  end.

Definition atoi (s : list Z) : option Z :=
  s ← skip_space s;
  c ← head s;
  let '(sign, s) := if c =? 45 then (-1, tail s) else if c =? 43 then (1, tail s) else (1, s) in
  v ← atoi_digits s 0; sint (sign * v).

Definition parse_base_digit (ch : Z) : Z :=
  if (48 <=? ch) && (ch <=? 57) then ch - 48 else
  if (97 <=? ch) && (ch <=? 102) then 10 + (ch - 97) else
  if (65 <=? ch) && (ch <=? 70) then 10 + (ch - 65) else -1.

(** [while ((d = parse_base_digit(s[0])) >= 0 && d < base)], with the arithmetic modulo [m]. *)
Fixpoint strtol_digits (m base : Z) (s : list Z) (acc : Z) : option (Z * list Z) :=
  match s with
  | [] => None
  | c :: s' =>
    let d := parse_base_digit c in
    if (0 <=? d) && (d <? base) then strtol_digits m base s' ((acc * base + d) mod m) else Some (acc, s)
  end.

(** Whether the text begins with 0x; the second character is read only after a zero. *)
Definition hex_prefix (s : list Z) : option bool :=
  c ← s !! 0%nat; if c =? 48 then d ← s !! 1%nat; Some ((d =? 120) || (d =? 88)) else Some false.

Definition strtol_base (base : Z) (s : list Z) : option (Z * list Z) :=
  x ← (if (base =? 0) || (base =? 16) then hex_prefix s else Some false);
  if x : bool then Some (16, drop 2 s) else
  if base =? 0 then c ← s !! 0%nat; Some (if c =? 48 then (8, drop 1 s) else (10, s)) else Some (base, s).

(** The value and the rest of the text, which is stored to [endptr]. *)
Definition strtol (nptr : list Z) (base : Z) : option (Z * list Z) :=
  s ← skip_space nptr;
  c ← head s;
  let '(sign, s) := if (c =? 45) || (c =? 43) then (if c =? 45 then -1 else 1, tail s) else (1, s) in
  '(base, s) ← strtol_base base s;
  '(acc, s) ← strtol_digits 4294967296 base s 0;
  v ← (if sign <? 0 then sint (- s32 acc) else Some (s32 acc)); Some (v, s).

Definition strtoul (nptr : list Z) (base : Z) : option (Z * list Z) :=
  '(v, s) ← strtol nptr base; Some (u32 v, s).

Definition strtoull (nptr : list Z) (base : Z) : option (Z * list Z) :=
  s ← skip_space nptr;
  x ← (if (base =? 0) || (base =? 16) then hex_prefix s else Some false);
  let '(base, s) := if x : bool then (16, drop 2 s) else if base =? 0 then (10, s) else (base, s) in
  strtol_digits 18446744073709551616 base s 0.

(** ** Printing *)

(** Writing characters one after the other: the buffer and the position. *)
Definition put_char (c : Z) : M (list Z * Z) unit := λ '(out, p), out ← zupdate out p c; Some (tt, (out, p + 1)).
Fixpoint put_chars (cs : list Z) : M (list Z * Z) unit :=
  match cs with [] => mret tt | c :: cs => put_char c;; put_chars cs end.

Definition digs_l : list Z := str "0123456789abcdef".
Definition digs_u : list Z := str "0123456789ABCDEF".

(** [tmp], which has room for [room] more digits. *)
Fixpoint utoa_tmp (room : nat) (base : Z) (digs : list Z) (v : Z) : option (list Z) :=
  match room with
  | O => Some []
  | S room => if v =? 0 then Some [] else c ← zlookup digs (v mod base); l ← utoa_tmp room base digs (v / base); Some (c :: l)
  end.

(** The number of characters, without the NUL. *)
Definition utoa_base (v base : Z) (upper : bool) (out : list Z) (p : Z) : option (Z * list Z) :=
  if v =? 0 then '(_, (out, _)) ← put_chars [48; 0] (out, p); Some (1, out) else
  tmp ← utoa_tmp 16 base (if upper then digs_u else digs_l) v;
  '(_, (out, _)) ← put_chars (rev tmp ++ [0]) (out, p); Some (Z.of_nat (length tmp), out).

(** The digits of a positive [n] into an array of [room] characters. *)
Fixpoint dec_digits (room : nat) (n : Z) : option (list Z) :=
  if n <=? 0 then Some [] else
  match room with
  | O => None
  | S room => l ← dec_digits room (n / 10); Some (48 + n mod 10 :: l)
  end.

(** [print_char] and [print] write to descriptor 1: the characters are the result. *)
Definition print_num (n : Z) : option (list Z) :=
  '(sign, n) ← (if n <? 0 then m ← sint (- n); Some ([45], m) else Some ([], n));
  if n =? 0 then Some (sign ++ [48]) else buf ← dec_digits 12 n; Some (sign ++ rev buf).

Fixpoint hex_buf (k : nat) (val : Z) (buf : list Z) : option (list Z) :=
  match k with
  | O => Some buf
  | S k => c ← zlookup digs_l (Z.land val 0xF); buf ← zupdate buf (Z.of_nat k) c; hex_buf k (Z.shiftr val 4) buf
  end.

Definition print_hex (val : Z) : option (list Z) :=
  buf ← hex_buf 8 val (replicate 9 0); Some (str "0x" ++ take 8 buf).

(** [tmp] of [itoa]: at most 15 digits are kept. *)
Fixpoint itoa_tmp (room : nat) (n : Z) : list Z :=
  match room with O => [] | S room => if 0 <? n then 48 + n mod 10 :: itoa_tmp room (n / 10) else [] end.

Definition itoa (n : Z) (out : list Z) : option (list Z) :=
  if n =? 0 then '(_, (out, _)) ← put_chars [48; 0] (out, 0); Some out else
  '(sign, n) ← (if n <? 0 then m ← sint (- n); Some ([45], m) else Some ([], n));
  '(_, (out, _)) ← put_chars (sign ++ rev (itoa_tmp 15 n) ++ [0]) (out, 0); Some out.

(** ** IPv4 addresses *)

(** [vals]: the parts read so far.  The result is the return value -1 or the address. *)
Fixpoint parse_ip4_loop (s : list Z) (vals : list Z) (val : Z) : option (option (list Z)) :=
  match s with
  | [] => None
  | ch :: s =>
    if (48 <=? ch) && (ch <=? 57) then
      let val := u32 (val * 10 + (ch - 48)) in
      if 255 <? val then Some None else parse_ip4_loop s vals val
    else if (ch =? 46) || (ch =? 0) || (ch =? 32) then
      if (4 <=? length vals)%nat then Some None else
      if (ch =? 0) || (ch =? 32) then Some (Some (vals ++ [val])) else parse_ip4_loop s (vals ++ [val]) 0
    else Some None
  end.

Definition parse_ip4 (s : list Z) : option (option Z) :=
  r ← parse_ip4_loop s [] 0;
  Some (match r with
        | Some [a; b; c; d] => Some (u32 (Z.lor (Z.lor (Z.lor (Z.shiftl a 24) (Z.shiftl b 16)) (Z.shiftl c 8)) d))
        | _ => None
        end).

Definition put_octet (octet : Z) : M (list Z * Z) unit :=
  if 100 <=? octet then
    put_char (48 + octet / 100);;
    let octet := octet mod 100 in put_char (48 + octet / 10);; put_char (48 + octet mod 10)
  else if 10 <=? octet then put_char (48 + octet / 10);; put_char (48 + octet mod 10)
  else put_char (48 + octet).

Fixpoint put_octets (shifts : list Z) (ip_be : Z) : M (list Z * Z) unit :=
  match shifts with
  | [] => mret tt
  | shift :: shifts =>
    put_octet (Z.land (Z.shiftr ip_be shift) 0xFF);;
    (if 0 <? shift then put_char 46 else mret tt);; put_octets shifts ip_be
  end.

Definition format_ip4 (ip_be : Z) (out : list Z) : option (list Z) :=
  '(_, (out, _)) ← (put_octets [24; 16; 8; 0] ip_be;; put_char 0) (out, 0); Some out.

(** ** Properties: printing *)

Lemma put_chars_ok cs out p : 0 ≤ p → p + Z.of_nat (length cs) ≤ Z.of_nat (length out) →
  put_chars cs (out, p) = Some (tt, (splice out (Z.to_nat p) cs, p + Z.of_nat (length cs))).
Proof.
  revert out p. induction cs as [|c cs IH]; intros out p Hp Hl; cbn [put_chars length] in *.
  { rewrite splice_nil. unfold mret, M_ret. repeat f_equal. lia. }
  unfold mbind, M_bind, put_char. rewrite zupdate_Some by lia. cbn [mbind option_bind].
  rewrite IH by (rewrite ?length_insert; lia). replace (Z.to_nat (p + 1)) with (S (Z.to_nat p)) by lia.
  rewrite splice_cons by lia. by replace (p + 1 + Z.of_nat (length cs)) with (p + Z.of_nat (S (length cs))) by lia.
Qed.

Lemma put_chars_app a b st : put_chars (a ++ b) st = (put_chars a;; put_chars b) st.
Proof.
  revert st. induction a as [|c a IH]; intros st; [done|]. cbn [app put_chars]. unfold mbind, M_bind in *.
  destruct (put_char c st) as [[u st']|]; [apply IH|done].
Qed.

Definition digs (upper : bool) : list Z := if upper then digs_u else digs_l.

(** A digit is printed as the character that is read as this digit. *)
Lemma dig_ok upper d : 0 ≤ d < 16 →
  ∃ c, zlookup (digs upper) d = Some c ∧ parse_base_digit c = d ∧ 48 ≤ c < 103.
Proof.
  intros Hd. exists (default 0 (zlookup (digs upper) d)).
  assert (F : Forall (λ d, zlookup (digs upper) d = Some (default 0 (zlookup (digs upper) d)) ∧
                parse_base_digit (default 0 (zlookup (digs upper) d)) = d ∧
                48 ≤ default 0 (zlookup (digs upper) d) < 103) (seqZ 0 16)) by (destruct upper; decided).
  rewrite Forall_forall in F. apply F, elem_of_seqZ. lia.
Qed.

(** The digits of a number, least significant first, in a base. *)
Definition digits_of (base v : Z) (ds : list Z) : Prop :=
  Forall (λ c, 0 ≤ parse_base_digit c < base ∧ 48 ≤ c < 103) ds ∧
  fold_right (λ c acc, acc * base + parse_base_digit c) 0 ds = v.

Lemma digits_of_cons base v c ds : 2 ≤ base → parse_base_digit c = v mod base → 48 ≤ c < 103 →
  digits_of base (v / base) ds → digits_of base v (c :: ds).
Proof.
  intros Hb Hc Hr (Hf & Hs). pose proof (Z.mod_pos_bound v base). split.
  - constructor; [lia|done].
  - cbn [fold_right]. rewrite Hs, Hc. rewrite (Z.div_mod v base) at 3 by lia. lia.
Qed.

Lemma div_bound base v k : 2 ≤ base → 0 ≤ v < base ^ Z.of_nat (S k) → 0 ≤ v / base < base ^ Z.of_nat k.
Proof.
  intros Hb Hv. rewrite Nat2Z.inj_succ, Z.pow_succ_r in Hv by lia.
  split; [apply Z.div_pos; lia|apply Z.div_lt_upper_bound; lia].
Qed.

Lemma utoa_tmp_ok room base upper v : 2 ≤ base ≤ 16 → 0 ≤ v < base ^ Z.of_nat room →
  ∃ ds, utoa_tmp room base (digs upper) v = Some ds ∧ digits_of base v ds ∧ (v ≠ 0 → ds ≠ []) ∧ (length ds ≤ room)%nat.
Proof.
  intros Hb. revert v. induction room as [|room IH]; intros v Hv; cbn [utoa_tmp].
  { exists []. simpl in Hv. assert (v = 0) as -> by lia. done. }
  destruct (Z.eqb_spec v 0) as [->|Hne]; [exists []; split; [done|]; split; [done|]; split; [done|simpl; lia]|].
  pose proof (Z.mod_pos_bound v base). destruct (dig_ok upper (v mod base)) as (c & -> & Hc & Hr); [lia|]. cbn [mbind option_bind].
  destruct (IH (v / base)) as (ds & -> & Hd & _ & Hl); [apply div_bound; lia|]. exists (c :: ds). split; [done|].
  split; [apply digits_of_cons; (done || lia)|]. split; [done|simpl; lia].
Qed.

Lemma u32_pow base v : 10 ≤ base → is_u32 v → 0 ≤ v < base ^ Z.of_nat 16.
Proof.
  intros Hb Hv. assert (10 ^ 16 ≤ base ^ Z.of_nat 16) by (apply Z.pow_le_mono_l; lia).
  assert (10 ^ 16 = 10000000000000000) as E by done. rewrite E in H. unfold is_u32 in Hv. lia.
Qed.

(** The text of an unsigned number. *)
Definition utext (base : Z) (upper : bool) (v : Z) : list Z :=
  if v =? 0 then [48] else rev (default [] (utoa_tmp 16 base (digs upper) v)).

Lemma utoa_base_ok v base upper out p : 10 ≤ base ≤ 16 → is_u32 v → 0 ≤ p →
  p + Z.of_nat (length (utext base upper v)) < Z.of_nat (length out) →
  utoa_base v base upper out p =
    Some (Z.of_nat (length (utext base upper v)), splice out (Z.to_nat p) (utext base upper v ++ [0])).
Proof.
  intros Hb Hv Hp Hl. unfold utoa_base, utext in *. destruct (v =? 0).
  { rewrite put_chars_ok by (simpl in *; lia). done. }
  fold (digs upper). destruct (utoa_tmp_ok 16 base upper v) as (ds & E & _); [lia| |rewrite E in *].
  { apply u32_pow; (done || lia). }
  cbn [mbind option_bind]. change (default [] (Some ds)) with ds in *.
  rewrite put_chars_ok by (rewrite ?length_app; simpl; lia). cbn [mbind option_bind]. by rewrite length_rev.
Qed.

Lemma utext_ok v base upper : 10 ≤ base ≤ 16 → is_u32 v →
  digits_of base v (rev (utext base upper v)) ∧ utext base upper v ≠ [] ∧ (length (utext base upper v) ≤ 16)%nat.
Proof.
  intros Hb Hv. unfold utext. destruct (Z.eqb_spec v 0) as [->|Hne].
  { split; [|split; [done|simpl; lia]]. split; [|done]. constructor; [|done]. cbn. lia. }
  destruct (utoa_tmp_ok 16 base upper v) as (ds & -> & Hd & Hne' & Hl); [lia| |].
  { apply u32_pow; (done || lia). }
  change (default [] (Some ds)) with ds. rewrite rev_involutive, length_rev. split; [done|]. split; [|done]. specialize (Hne' Hne). intros E.
  apply Hne'. rewrite <- (rev_involutive ds), E. done.
Qed.

(** ** Properties: reading *)

Lemma strtol_digits_ok m base ds c r acc : Forall (λ c, 0 ≤ parse_base_digit c < base ∧ 48 ≤ c < 103) ds →
  parse_base_digit c = -1 → 0 < m → 0 ≤ acc < m →
  strtol_digits m base (ds ++ c :: r) acc = Some (fold_left (λ a c, a * base + parse_base_digit c) ds acc mod m, c :: r).
Proof.
  intros Hd Hc Hm. revert acc. induction Hd as [|d ds Hd _ IH]; intros acc Ha; cbn [app strtol_digits fold_left].
  - rewrite Hc. cbn. by rewrite Z.mod_small.
  - rewrite (proj2 (Z.leb_le _ _)), (proj2 (Z.ltb_lt _ _)) by lia. cbn [andb].
    rewrite IH by (apply Z.mod_pos_bound; lia). f_equal. f_equal.
    clear IH. revert acc Ha. generalize (parse_base_digit d) as x. intros x acc _. set (y := acc * base + x). clearbody y. clear -Hm.
    assert (G : ∀ ds y z, y mod m = z mod m → fold_left (λ a c, a * base + parse_base_digit c) ds y mod m =
                                       fold_left (λ a c, a * base + parse_base_digit c) ds z mod m).
    { clear -Hm. intros ds. induction ds as [|c ds IH]; intros y z E; cbn [fold_left]; [done|]. apply IH.
      rewrite <- (Z.add_mod_idemp_l (y * base)), <- (Z.mul_mod_idemp_l y), E, Z.mul_mod_idemp_l, Z.add_mod_idemp_l by lia. done. }
    apply G, Z.mod_mod. lia.
Qed.

Lemma digits_value base ds : fold_left (λ a c, a * base + parse_base_digit c) ds 0 =
  fold_right (λ c acc, acc * base + parse_base_digit c) 0 (rev ds).
Proof. by rewrite fold_left_rev_right. Qed.

Lemma skip_space_ok c s : c_isspace c = false → skip_space (c :: s) = Some (c :: s).
Proof. intros H. cbn. by rewrite H, andb_false_r. Qed.

Lemma digit_plain c : 48 ≤ c < 103 → c_isspace c = false ∧ (c =? 45) = false ∧ (c =? 43) = false ∧ (c =? 120) = false ∧ (c =? 88) = false ∨ c = 88.
Proof. intros H. destruct (decide (c = 88)); [by right|left]. unfold c_isspace. lia. Qed.

Lemma digit_not_x base c : base ≤ 16 → 0 ≤ parse_base_digit c < base → 48 ≤ c < 103 → c ≠ 88.
Proof. intros Hb Hd Hc ->. cbn in Hd. lia. Qed.

(** [strtoul] reads a numeral up to the character after it. *)
Lemma strtoul_ok base v t c r : 10 ≤ base ≤ 16 → is_u32 v → digits_of base v (rev t) → t ≠ [] →
  parse_base_digit c = -1 → c ≠ 120 → c ≠ 88 →
  strtoul (t ++ c :: r) base = Some (v, c :: r).
Proof.
  intros Hb Hv (Hf & Hs) Hne Hc Hx HX. apply Forall_rev in Hf. rewrite rev_involutive in Hf.
  destruct t as [|d t]; [done|]. pose proof Hf as Hf'. apply Forall_cons in Hf' as [[Hd1 Hd2] Hf'].
  unfold strtoul, strtol. change ((d :: t) ++ c :: r) with (d :: (t ++ c :: r)).
  destruct (digit_plain d Hd2) as [(Hsp & Hm & Hp & _ & _)|E]; [|exfalso; apply (digit_not_x base d); (done || lia)].
  rewrite skip_space_ok by done. cbn [mbind option_bind head]. rewrite Hm, Hp. cbn [orb].
  assert (Ep : strtol_base base (d :: t ++ c :: r) = Some (base, d :: t ++ c :: r)).
  { unfold strtol_base. rewrite (proj2 (Z.eqb_neq base 0)) by lia. cbn [orb]. destruct (base =? 16); [|done].
    unfold hex_prefix. change ((d :: t ++ c :: r) !! 0%nat) with (Some d). cbn [mbind option_bind]. destruct (d =? 48); [|done].
    assert (Hn : ∃ e, (d :: t ++ c :: r) !! 1%nat = Some e ∧ e ≠ 120 ∧ e ≠ 88).
    { destruct t as [|e t]; [by exists c|]. exists e. split; [done|]. apply Forall_cons in Hf' as [[H1 H2] _].
      split; [lia|apply (digit_not_x base); lia]. }
    destruct Hn as (e & He & He1 & He2). rewrite He. cbn [mbind option_bind].
    by rewrite (proj2 (Z.eqb_neq e 120)), (proj2 (Z.eqb_neq e 88)). }
  rewrite Ep. cbn [mbind option_bind]. change (d :: t ++ c :: r) with ((d :: t) ++ c :: r).
  rewrite strtol_digits_ok by (done || lia). cbn [mbind option_bind]. rewrite digits_value, Hs. fold (u32 v). rewrite u32_small by done.
  change (1 <? 0) with false. cbn [mbind option_bind]. f_equal. f_equal. mlia.
Qed.

(** A number printed by [utoa_base] in decimal or hexadecimal, with
    small or capital letters, is read back by [strtoul], which stops at the character
    after the numeral. *)
Theorem utoa_strtoul_roundtrip v base upper out : base = 10 ∨ base = 16 → is_u32 v → (17 ≤ length out)%nat →
  ∃ n out', utoa_base v base upper out 0 = Some (n, out') ∧
            strtoul out' base = Some (v, drop (Z.to_nat n) out') ∧ zlookup out' n = Some 0.
Proof.
  intros Hb Hv Hl. assert (Hb' : 10 ≤ base ≤ 16) by lia. destruct (utext_ok v base upper Hb' Hv) as (Hd & Hne & Hlen).
  set (t := utext base upper v) in *. exists (Z.of_nat (length t)), (splice out 0 (t ++ [0])).
  split; [rewrite utoa_base_ok by (fold t; (done || lia)); done|].
  assert (E : splice out 0 (t ++ [0]) = t ++ 0 :: drop (length (t ++ [0])) out).
  { unfold splice. rewrite take_0, app_nil_l, <- app_assoc. done. }
  rewrite E, Nat2Z.id, drop_app_length. split; [by apply strtoul_ok|]. rewrite zlookup_nat, lookup_app_r by lia. by rewrite Nat.sub_diag.
Qed.

Lemma utoa_strtoul_roundtrip_witness : ∃ n out', utoa_base 48879 16 true (replicate 17 0) 0 = Some (n, out') ∧
  strtoul out' 16 = Some (48879, drop (Z.to_nat n) out') ∧ zlookup out' n = Some 0.
Proof. apply utoa_strtoul_roundtrip; [by right|done|done]. Defined.

Lemma dec_char d : 0 ≤ d < 10 → parse_base_digit (48 + d) = d ∧ 48 ≤ 48 + d < 103 ∧ c_isdigit (48 + d) = true.
Proof. intros H. unfold parse_base_digit, c_isdigit. rewrite (proj2 (Z.leb_le _ _)), (proj2 (Z.leb_le _ 57)) by lia. cbn [andb]. split; [lia|]. lia. Qed.

Lemma itoa_tmp_ok room n : 0 ≤ n < 10 ^ Z.of_nat room →
  digits_of 10 n (itoa_tmp room n) ∧ Forall (λ c, c_isdigit c = true) (itoa_tmp room n).
Proof.
  revert n. induction room as [|room IH]; intros n Hn; cbn [itoa_tmp].
  { simpl in Hn. assert (n = 0) as -> by lia. done. }
  destruct (Z.ltb_spec 0 n) as [Hp|Hp]; [|assert (n = 0) as -> by lia; done].
  pose proof (Z.mod_pos_bound n 10). destruct (dec_char (n mod 10)) as (H1 & H2 & H3); [lia|].
  destruct (IH (n / 10)) as [K1 K2]; [apply div_bound; lia|]. split; [apply digits_of_cons; (done || lia)|by constructor].
Qed.

Lemma fold_digits_ge base ds v : 2 ≤ base → 0 ≤ v → Forall (λ c, 0 ≤ parse_base_digit c < base ∧ 48 ≤ c < 103) ds →
  v ≤ fold_left (λ a c, a * base + parse_base_digit c) ds v.
Proof.
  intros Hb Hv Hd. revert v Hv. induction Hd as [|c ds [Hc _] _ IH]; intros v Hv; cbn [fold_left]; [lia|].
  etransitivity; [|apply IH; nia]. nia.
Qed.

Lemma atoi_digits_ok ds c r v : Forall (λ c, 0 ≤ parse_base_digit c < 10 ∧ 48 ≤ c < 103) ds → Forall (λ c, c_isdigit c = true) ds →
  c_isdigit c = false → 0 ≤ v → fold_left (λ a c, a * 10 + parse_base_digit c) ds v ≤ 2147483647 →
  atoi_digits (ds ++ c :: r) v = Some (fold_left (λ a c, a * 10 + parse_base_digit c) ds v).
Proof.
  intros Hd Hi Hc. revert v. induction Hd as [|d ds [Hd1 Hd2] Hd IH]; intros v Hv Hle; cbn [app atoi_digits fold_left] in *.
  - by rewrite Hc.
  - apply Forall_cons in Hi as [Hi1 Hi]. rewrite Hi1. assert (E : parse_base_digit d = d - 48).
    { unfold parse_base_digit. unfold c_isdigit in Hi1. by rewrite Hi1. }
    pose proof (fold_digits_ge 10 ds (v * 10 + parse_base_digit d) ltac:(lia) ltac:(lia) Hd). rewrite E in *.
    unfold sint. rewrite (proj2 (Z.leb_le _ _)), (proj2 (Z.leb_le _ 2147483647)) by lia. cbn [andb mbind option_bind].
    apply IH; (done || lia).
Qed.

(** What [itoa] writes for a number that is not the least one. *)
Definition itext (n : Z) : list Z :=
  if n =? 0 then [48] else (if n <? 0 then [45] else []) ++ rev (itoa_tmp 15 (Z.abs n)).

Lemma itoa_ok n out : -2147483648 < n ≤ 2147483647 → (length (itext n) < length out)%nat →
  itoa n out = Some (splice out 0 (itext n ++ [0])).
Proof.
  intros Hn Hl. unfold itoa, itext in *. destruct (Z.eqb_spec n 0) as [->|Hne]; [by rewrite put_chars_ok by (simpl in *; lia)|].
  destruct (Z.ltb_spec n 0) as [Hneg|Hpos].
  - unfold sint. rewrite (proj2 (Z.leb_le _ _)), (proj2 (Z.leb_le _ 2147483647)) by lia. cbn [andb mbind option_bind].
    rewrite Z.abs_neq in * by lia. rewrite put_chars_ok by (rewrite ?length_app in *; simpl in *; lia).
    cbn [mbind option_bind]. by rewrite <- app_assoc.
  - cbn [mbind option_bind]. rewrite Z.abs_eq in * by lia. rewrite put_chars_ok by (rewrite ?length_app in *; simpl in *; lia).
    cbn [mbind option_bind]. by rewrite <- app_assoc.
Qed.

(** The decimal text of a signed number is read back by [atoi]. *)
Lemma atoi_itext n r : -2147483648 < n ≤ 2147483647 → atoi (itext n ++ 0 :: r) = Some n.
Proof.
  intros Hn. destruct (Z.eqb_spec n 0) as [->|Hne]; [done|]. unfold itext. rewrite (proj2 (Z.eqb_neq n 0)) by done.
  destruct (itoa_tmp_ok 15 (Z.abs n)) as [[Hf Hs] Hi]; [change (10 ^ Z.of_nat 15) with 1000000000000000; lia|].
  set (ds := itoa_tmp 15 (Z.abs n)) in *.
  assert (A : atoi_digits (rev ds ++ 0 :: r) 0 = Some (Z.abs n)).
  { rewrite atoi_digits_ok; [by rewrite digits_value, rev_involutive, Hs|by apply Forall_rev|by apply Forall_rev|done|done|].
    rewrite digits_value, rev_involutive, Hs. lia. }
  unfold atoi. destruct (Z.ltb_spec n 0) as [Hneg|Hpos].
  - change (([45] ++ rev ds) ++ 0 :: r) with (45 :: rev ds ++ 0 :: r). rewrite skip_space_ok by done. cbn [mbind option_bind head Z.eqb Pos.eqb tail].
    rewrite A. cbn [mbind option_bind]. unfold sint. rewrite (proj2 (Z.leb_le _ _)), (proj2 (Z.leb_le _ 2147483647)) by lia. f_equal. lia.
  - cbn [app]. destruct (rev ds) as [|d ds'] eqn:E.
    { exfalso. apply (f_equal (@rev Z)) in E. rewrite rev_involutive in E. rewrite E in Hs. simpl in Hs. lia. }
    assert (Hd : 0 ≤ parse_base_digit d < 10 ∧ 48 ≤ d < 103). { apply Forall_rev in Hf. rewrite E in Hf. by apply Forall_cons in Hf as [? _]. }
    destruct (digit_plain d) as [(Hsp & Hm & Hp & _)|Ed]; [lia| |exfalso; apply (digit_not_x 10 d); (done || lia)].
    change ((d :: ds') ++ 0 :: r) with (d :: ds' ++ 0 :: r) in *. rewrite skip_space_ok by done. cbn [mbind option_bind head].
    rewrite Hm, Hp, A. cbn [mbind option_bind]. unfold sint. rewrite (proj2 (Z.leb_le _ _)), (proj2 (Z.leb_le _ 2147483647)) by lia. f_equal. lia.
Qed.

(** ** Properties: IPv4 addresses *)

Definition octet_text (o : Z) : list Z :=
  if 100 <=? o then [48 + o / 100; 48 + o mod 100 / 10; 48 + o mod 100 mod 10] else
  if 10 <=? o then [48 + o / 10; 48 + o mod 10] else [48 + o].

Lemma put_octet_chars o st : put_octet o st = put_chars (octet_text o) st.
Proof.
  unfold put_octet, octet_text. destruct (100 <=? o); [|destruct (10 <=? o)]; cbn [put_chars]; unfold mbind, M_bind, mret, M_ret.
  all: repeat (match goal with |- context [put_char ?c ?s] => destruct (put_char c s) as [[[] ?]|] end); done.
Qed.

Fixpoint octets_text (shifts : list Z) (ip : Z) : list Z :=
  match shifts with
  | [] => []
  | shift :: shifts => octet_text (Z.land (Z.shiftr ip shift) 0xFF) ++ (if 0 <? shift then [46] else []) ++ octets_text shifts ip
  end.

Lemma put_octets_chars shifts ip st : put_octets shifts ip st = put_chars (octets_text shifts ip) st.
Proof.
  revert st. induction shifts as [|shift shifts IH]; intros st; [done|]. cbn [put_octets octets_text]. rewrite put_chars_app.
  unfold mbind, M_bind. rewrite put_octet_chars. destruct (put_chars (octet_text _) st) as [[u st1]|]; [|done].
  rewrite put_chars_app. unfold mbind, M_bind. destruct (0 <? shift); cbn [put_chars]; unfold mbind, M_bind, mret, M_ret.
  - destruct (put_char 46 st1) as [[u' st2]|]; [apply IH|done].
  - apply IH.
Qed.

Lemma format_ip4_ok ip out (t := octets_text [24; 16; 8; 0] ip) : (length t < length out)%nat →
  format_ip4 ip out = Some (splice out 0 (t ++ [0])).
Proof.
  intros Hl. unfold format_ip4.
  assert (E : (put_octets [24; 16; 8; 0] ip;; put_char 0) (out, 0) = put_chars (t ++ [0]) (out, 0)).
  { rewrite put_chars_app. unfold mbind, M_bind. rewrite put_octets_chars. fold t. destruct (put_chars t (out, 0)) as [[u st]|]; [|done].
    cbn [put_chars]. unfold mbind, M_bind. by destruct (put_char 0 st) as [[[] st']|]. }
  clearbody t. rewrite E, put_chars_ok by (rewrite ?length_app; simpl; lia). done.
Qed.

(** One part of an address is read up to the character after it. *)
Lemma parse_octet o c r vals : 0 ≤ o ≤ 255 → (length vals < 4)%nat → c = 46 ∨ c = 0 →
  parse_ip4_loop (octet_text o ++ c :: r) vals 0 =
    if c =? 0 then Some (Some (vals ++ [o])) else parse_ip4_loop r (vals ++ [o]) 0.
Proof.
  intros Ho Hv Hc.
  assert (D : ∀ d s v, 0 ≤ d < 10 → 0 ≤ v → v * 10 + d ≤ 255 → parse_ip4_loop (48 + d :: s) vals v = parse_ip4_loop s vals (v * 10 + d)).
  { intros d s v Hd Hv' Hle. cbn [parse_ip4_loop]. rewrite (proj2 (Z.leb_le _ _)), (proj2 (Z.leb_le _ 57)) by lia. cbn [andb].
    replace (v * 10 + (48 + d - 48)) with (v * 10 + d) by lia. rewrite u32_small by (unfold is_u32; lia).
    by rewrite (proj2 (Z.ltb_ge _ _)) by lia. }
  assert (E : parse_ip4_loop (c :: r) vals o = if c =? 0 then Some (Some (vals ++ [o])) else parse_ip4_loop r (vals ++ [o]) 0).
  { cbn [parse_ip4_loop]. rewrite (proj2 (Nat.leb_gt _ _)) by lia. by destruct Hc as [-> | ->]. }
  rewrite <- E. unfold octet_text. destruct (Z.leb_spec 100 o) as [H1|H1]; [|destruct (Z.leb_spec 10 o) as [H2|H2]]; cbn [app].
  - rewrite !D by (Z.div_mod_to_equations; lia). f_equal. Z.div_mod_to_equations. lia.
  - rewrite !D by (Z.div_mod_to_equations; lia). f_equal. Z.div_mod_to_equations. lia.
  - rewrite !D by lia. f_equal.
Qed.

Lemma octet_text_length o : (length (octet_text o) ≤ 3)%nat.
Proof. unfold octet_text. repeat case_match; simpl; lia. Qed.

Lemma parse_octets a b c d r : is_u8 a → is_u8 b → is_u8 c → is_u8 d →
  parse_ip4 (octet_text a ++ 46 :: octet_text b ++ 46 :: octet_text c ++ 46 :: octet_text d ++ 0 :: r) =
    Some (Some (a * 16777216 + b * 65536 + c * 256 + d)).
Proof.
  intros Ha Hb Hc Hd. unfold parse_ip4. unfold is_u8 in *. rewrite !parse_octet by (simpl; lia). cbn [Z.eqb Pos.eqb app mbind option_bind].
  rewrite join_bytes by (unfold is_u8; lia). rewrite u32_small by (unfold is_u32; lia). done.
Qed.

(** An IPv4 address written by [format_ip4] into 16 bytes is read
    back by [parse_ip4]. *)
Theorem ip4_roundtrip ip out : is_u32 ip → (16 ≤ length out)%nat →
  ∃ out', format_ip4 ip out = Some out' ∧ length out' = length out ∧ parse_ip4 out' = Some (Some ip).
Proof.
  intros Hip Hl.
  assert (E : octets_text [24; 16; 8; 0] ip = octet_text (ip / 2 ^ 24 mod 256) ++ 46 :: octet_text (ip / 2 ^ 16 mod 256) ++
                46 :: octet_text (ip / 2 ^ 8 mod 256) ++ 46 :: octet_text (ip / 2 ^ 0 mod 256)).
  { cbn [octets_text Z.ltb Z.compare app]. rewrite app_nil_r, !land_byte by lia. done. }
  pose proof (format_ip4_ok ip out) as F. cbv zeta in F. rewrite E in F. pose proof (split_bytes ip Hip) as S.
  pose proof (byte_u8 (ip / 2 ^ 24)) as Ha. pose proof (byte_u8 (ip / 2 ^ 16)) as Hb. pose proof (byte_u8 (ip / 2 ^ 8)) as Hc.
  pose proof (byte_u8 (ip / 2 ^ 0)) as Hd. clear E.
  revert F S Ha Hb Hc Hd. generalize (ip / 2 ^ 24 mod 256) (ip / 2 ^ 16 mod 256) (ip / 2 ^ 8 mod 256) (ip / 2 ^ 0 mod 256).
  intros a b c d F S Ha Hb Hc Hd. pose proof (octet_text_length a). pose proof (octet_text_length b). pose proof (octet_text_length c).
  pose proof (octet_text_length d).
  set (t := octet_text a ++ 46 :: octet_text b ++ 46 :: octet_text c ++ 46 :: octet_text d) in *.
  assert (Ht : (length t ≤ 15)%nat) by (unfold t; repeat (rewrite length_app; cbn [length]); lia).
  eexists. split; [apply F; lia|]. assert (Hs : (length (t ++ [0%Z]) ≤ 16)%nat) by (rewrite length_app; cbn [length]; lia).
  split; [apply length_splice; lia|]. unfold splice. rewrite take_0, app_nil_l. unfold t. repeat (rewrite <- app_assoc; cbn [app]).
  rewrite S. by apply parse_octets.
Qed.

Lemma ip4_roundtrip_witness : ∃ out', format_ip4 0x0A00020F (replicate 16 0) = Some out' ∧ length out' = 16%nat ∧
  parse_ip4 out' = Some (Some 0x0A00020F).
Proof. apply (ip4_roundtrip 0x0A00020F (replicate 16 0)); done. Defined.

(** Parts may be empty: a dot alone counts as a zero. *)
Example parse_ip4_empty_parts : parse_ip4 (str "1..3." ++ [0]) = Some (Some 0x01000300).
Proof. reflexivity. Qed.

(** The least number cannot be negated. *)
Example itoa_least : itoa (-2147483648) (replicate 16 0) = None.
Proof. reflexivity. Qed.
