(* ===== verification/LibcPrintf.v ===== *)
(** * Formatted output ([mini_vsnprintf] of [src/userland/libc.c])

    The formatter behind [printf], [sprintf] and [snprintf].  The arguments are a
    list: 32-bit words and pointers to strings.  A conversion that finds no argument
    of its kind, a string without an end, a signed overflow and a store outside the
    buffer are [None]. *)

From S2P Require Import Prelude LibcString LibcNum.

Inductive arg := AWord (w : Z) | AStr (s : option (list Z)).

(** ** The code *)

(** [if (p + 1 < cap) out[p] = c; p++;] *)
Definition emit (cap c : Z) : M (list Z * Z) unit := λ '(out, p),
  q ← sint (p + 1);
  out ← (if q <? cap then zupdate out p c else Some out); Some (tt, (out, q)).

Fixpoint emits (cap : Z) (cs : list Z) : M (list Z * Z) unit :=
  match cs with [] => mret tt | c :: cs => emit cap c;; emits cap cs end.

Fixpoint scan_width (s : list Z) (width : Z) : option (Z * list Z) :=
  match s with
  | [] => None
  | c :: s' => if c_isdigit c then width ← sint (width * 10 + (c - 48)); scan_width s' width else Some (width, s)
  end.

(** The flags, the width and the rest of the format. *)
Definition scan_flags (s : list Z) : option (bool * bool * Z * list Z) :=
  c ← head s;
  let '(ljust, s) := if c =? 45 then (true, tail s) else (false, s) in
  c ← head s;
  let '(zero_pad, s) := if c =? 48 then (true, tail s) else (false, s) in
  '(width, s) ← scan_width s 0;
  Some (ljust, zero_pad, width, s).

Definition numbuf : list Z := replicate 32 0.

(** The first [len] characters of [arg], which is a string or [numbuf]. *)
Definition arg_text (len : Z) (a : list Z) : list Z := take (Z.to_nat len) a.

(** One conversion: [Some None] when the character is not one; otherwise the text
    and the arguments that remain. *)
Definition convert (c : Z) (args : list arg) : option (option (list Z * list arg)) :=
  if c =? 115 then
    match args with
    | AStr a :: args =>
      let a := match a with None => str "(null)" ++ [0] | Some a => a end in
      len ← strlen a; Some (Some (arg_text len a, args))
    | _ => None
    end
  else if c =? 99 then
    match args with AWord w :: args => Some (Some ([u8 w], args)) | _ => None end
  else if (c =? 100) || (c =? 105) then
    match args with
    | AWord w :: args =>
      let v := s32 w in
      if v <? 0 then
        nb ← zupdate numbuf 0 45; m ← sint (- v);
        '(n, nb) ← utoa_base (u32 m) 10 false nb 1; Some (Some (arg_text (1 + n) nb, args))
      else '(n, nb) ← utoa_base (u32 v) 10 false numbuf 0; Some (Some (arg_text n nb, args))
    | _ => None
    end
  else if c =? 117 then
    match args with
    | AWord w :: args => '(n, nb) ← utoa_base w 10 false numbuf 0; Some (Some (arg_text n nb, args))
    | _ => None
    end
  else if (c =? 120) || (c =? 88) then
    match args with
    | AWord w :: args => '(n, nb) ← utoa_base w 16 (c =? 88) numbuf 0; Some (Some (arg_text n nb, args))
    | _ => None
    end
  else if c =? 112 then
    match args with
    | AWord w :: args =>
      nb ← zupdate numbuf 0 48; nb ← zupdate nb 1 120;
      '(n, nb) ← utoa_base w 16 false nb 2; Some (Some (arg_text (2 + n) nb, args))
    | _ => None
    end
  else Some None.

(** The padded text of a conversion. *)
Definition padded (ljust zero_pad : bool) (width : Z) (text : list Z) : list Z :=
  let len := Z.of_nat (length text) in
  let pad := Z.to_nat (if len <? width then width - len else 0) in
  if ljust then text ++ replicate pad 32 else replicate pad (if zero_pad then 48 else 32) ++ text.

(** [while (s[0] != 0)]; every round takes at least one character of the format. *)
Fixpoint format_loop (fuel : nat) (cap : Z) (s : list Z) (args : list arg) : M (list Z * Z) unit :=
  match fuel with
  | O => ub
  | S fuel =>
    match s with
    | [] => ub
    | c :: s' =>
      if c =? 0 then mret tt else
      if negb (c =? 37) then emit cap c;; format_loop fuel cap s' args else
      c ← lift (head s');
      if c =? 37 then emit cap 37;; format_loop fuel cap (tail s') args else
      '(ljust, zero_pad, width, s) ← lift (scan_flags s');
      c ← lift (head s);
      r ← lift (convert c args);
      match r with
      | Some (text, args) => emits cap (padded ljust zero_pad width text);; format_loop fuel cap (tail s) args
      | None =>
        emit cap 37;;
        if c =? 0 then format_loop fuel cap s args else emit cap c;; format_loop fuel cap (tail s) args
      end
    end
  end.

Definition mini_vsnprintf (out : list Z) (cap : Z) (fmt : list Z) (args : list arg) : option (Z * list Z) :=
  if cap <=? 0 then Some (0, out) else
  '(_, (out, p)) ← format_loop (length fmt) cap fmt args (out, 0);
  out ← (if p <? cap then zupdate out p 0 else zupdate out (cap - 1) 0);
  Some (p, out).

Definition vsprintf (dst fmt : list Z) (args : list arg) : option (Z * list Z) := mini_vsnprintf dst 0x7fffffff fmt args.

(** For a capacity of 0 the text goes to an empty string. *)
Definition vsnprintf (dst : list Z) (cap : Z) (fmt : list Z) (args : list arg) : option (Z * list Z) :=
  if cap =? 0 then '(n, _) ← mini_vsnprintf [0] 1 fmt args; Some (n, dst) else mini_vsnprintf dst (s32 cap) fmt args.

(** ** The text that a format stands for *)

Fixpoint render (fuel : nat) (s : list Z) (args : list arg) : option (list Z) :=
  match fuel with
  | O => None
  | S fuel =>
    c ← head s;
    if c =? 0 then Some [] else
    if negb (c =? 37) then t ← render fuel (tail s) args; Some (c :: t) else
    c ← head (tail s);
    if c =? 37 then t ← render fuel (tail (tail s)) args; Some (37 :: t) else
    '(ljust, zero_pad, width, s) ← scan_flags (tail s);
    c ← head s;
    r ← convert c args;
    match r with
    | Some (text, args) => t ← render fuel (tail s) args; Some (padded ljust zero_pad width text ++ t)
    | None => if c =? 0 then Some [37] else t ← render fuel (tail s) args; Some (37 :: c :: t)
    end
  end.

Definition text_of (fmt : list Z) (args : list arg) : option (list Z) := render (length fmt) fmt args.

(** ** The rounds of the loop *)

(** Whatever a round does, the rest of the format is shorter. *)
Lemma scan_width_rest s w w' s' : scan_width s w = Some (w', s') → (length s' ≤ length s)%nat.
Proof.
  revert w. induction s as [|c s IH]; intros w; cbn [scan_width]; [done|]. destruct (c_isdigit c).
  - destruct (sint _) as [v|]; [|done]. cbn [mbind option_bind]. intros H%IH. simpl. lia.
  - intros [= _ <-]. lia.
Qed.

Lemma scan_flags_rest s l z w s' : scan_flags s = Some (l, z, w, s') → (length s' ≤ length s)%nat.
Proof.
  unfold scan_flags. destruct s as [|c s]; [done|]. cbn [head mbind option_bind tail].
  destruct (c =? 45).
  - destruct s as [|d s]; [done|]. cbn [head mbind option_bind tail]. destruct (d =? 48); cbn [mbind option_bind].
    + destruct (scan_width s 0) as [[w0 s0]|] eqn:E; [|done]. intros [= _ _ _ <-]. apply scan_width_rest in E. simpl. lia.
    + destruct (scan_width _ 0) as [[w0 s0]|] eqn:E; [|done]. intros [= _ _ _ <-]. apply scan_width_rest in E. simpl in *. lia.
  - cbn [head mbind option_bind tail]. destruct (c =? 48); cbn [mbind option_bind].
    + destruct (scan_width s 0) as [[w0 s0]|] eqn:E; [|done]. intros [= _ _ _ <-]. apply scan_width_rest in E. simpl. lia.
    + destruct (scan_width _ 0) as [[w0 s0]|] eqn:E; [|done]. intros [= _ _ _ <-]. apply scan_width_rest in E. simpl in *. lia.
Qed.

(** The length of the format is enough fuel. *)
Lemma render_fuel fuel fuel' s args : (length s ≤ fuel)%nat → (length s ≤ fuel')%nat → render fuel s args = render fuel' s args.
Proof.
  revert fuel' s args. induction fuel as [|fuel IH]; intros fuel' s args Hf Hf'.
  { destruct s; [|simpl in Hf; lia]. by destruct fuel'. }
  destruct s as [|c s]; [by destruct fuel'|]. destruct fuel' as [|fuel']; [simpl in Hf'; lia|]. cbn [render head mbind option_bind tail].
  simpl in Hf, Hf'. destruct (c =? 0); [done|]. destruct (negb (c =? 37)); [by rewrite (IH fuel') by lia|].
  destruct s as [|d s]; [done|]. cbn [head mbind option_bind tail]. simpl in Hf, Hf'. destruct (d =? 37); [by rewrite (IH fuel') by lia|].
  destruct (scan_flags (d :: s)) as [[[[l z] w] s1]|] eqn:E; [|done]. apply scan_flags_rest in E. cbn [mbind option_bind]. simpl in E.
  destruct s1 as [|e s1]; [done|]. cbn [head mbind option_bind tail]. simpl in E. destruct (convert e args) as [[[t args']|]|]; [| |done]; cbn [mbind option_bind].
  - by rewrite (IH fuel') by lia.
  - destruct (e =? 0); [done|]. by rewrite (IH fuel') by lia.
Qed.

Section buffer.
Context (out : list Z) (cap : Z) (Hcap : 0 < cap).

(** The buffer after the text [t] went through it. *)
Definition after (t : list Z) : list Z * Z := (splice out 0 (take (Z.to_nat (cap - 1)) t), Z.of_nat (length t)).

Definition fits (t : list Z) : Prop :=
  Z.of_nat (length t) < 2147483647 ∧ Z.min cap (Z.of_nat (length t) + 1) ≤ Z.of_nat (length out).

Lemma fits_app t u : fits (t ++ u) → fits t.
Proof. unfold fits. rewrite length_app. lia. Qed.

Lemma emit_ok t c : fits (t ++ [c]) → emit cap c (after t) = Some (tt, after (t ++ [c])).
Proof using Hcap.
  unfold fits. rewrite length_app. intros [H1 H2]. cbn [length] in *. unfold emit, after, sint.
  rewrite (proj2 (Z.leb_le _ _)), (proj2 (Z.leb_le _ 2147483647)) by lia. cbn [andb mbind option_bind].
  rewrite length_app. cbn [length]. rewrite Nat2Z.inj_add. destruct (Z.ltb_spec (Z.of_nat (length t) + 1) cap) as [Hlt|Hge].
  - rewrite zupdate_Some by (rewrite length_splice; rewrite ?length_take; lia). cbn [mbind option_bind].
    rewrite !take_ge by (rewrite ?length_app; simpl; lia). rewrite Nat2Z.id.
    pose proof (splice_snoc out t 0 c) as E. cbn [Nat.add] in E. by rewrite E by lia.
  - cbn [mbind option_bind]. by rewrite take_app_le by lia.
Qed.

Lemma emits_ok t u : fits (t ++ u) → emits cap u (after t) = Some (tt, after (t ++ u)).
Proof using Hcap.
  revert t. induction u as [|c u IH]; intros t H; cbn [emits]; [by rewrite app_nil_r|]. unfold mbind, M_bind.
  replace (t ++ c :: u) with ((t ++ [c]) ++ u) in * by (by rewrite <- app_assoc). rewrite emit_ok by (by apply fits_app in H). by apply IH.
Qed.

Ltac bind_eq E := unfold mbind at 1, M_bind at 1; rewrite E; cbv beta iota zeta.

Lemma format_loop_ok fuel s args t u : (length s ≤ fuel)%nat → render fuel s args = Some u → fits (t ++ u) →
  format_loop fuel cap s args (after t) = Some (tt, after (t ++ u)).
Proof using Hcap.
  revert s args t u. induction fuel as [|fuel IH]; intros s args t u Hf E Hfit; [done|]. cbn [render format_loop] in *.
  destruct s as [|c s]; [done|]. cbn [head mbind option_bind tail] in E. simpl in Hf.
  destruct (c =? 0); [injection E as <-; by rewrite app_nil_r|].
  destruct (negb (c =? 37)).
  { destruct (render fuel s args) as [u'|] eqn:E'; [|done]. injection E as <-.
    replace (t ++ c :: u') with ((t ++ [c]) ++ u') in * by (by rewrite <- app_assoc). unfold mbind, M_bind.
    rewrite emit_ok by (by apply fits_app in Hfit). apply IH; [lia|exact E'|exact Hfit]. }
  destruct s as [|d s]; [done|]. cbn [head mbind option_bind tail lift] in *. simpl in Hf. unfold mbind at 1, M_bind at 1, lift at 1.
  destruct (d =? 37).
  { destruct (render fuel s args) as [u'|] eqn:E'; [|done]. injection E as <-.
    replace (t ++ 37 :: u') with ((t ++ [37]) ++ u') in * by (by rewrite <- app_assoc). unfold mbind, M_bind.
    rewrite emit_ok by (by apply fits_app in Hfit). apply IH; [lia|exact E'|exact Hfit]. }
  destruct (scan_flags (d :: s)) as [[[[l z] w] s1]|] eqn:Es; [|done]. apply scan_flags_rest in Es. simpl in Es.
  cbn [mbind option_bind] in E. unfold mbind at 1, M_bind at 1, lift at 1. destruct s1 as [|e s1]; [done|]. cbn [head mbind option_bind tail] in *. simpl in Es.
  unfold mbind at 1, M_bind at 1, lift at 1. destruct (convert e args) as [[[tx args']|]|]; [| |done]; cbn [mbind option_bind] in E;
    unfold mbind at 1, M_bind at 1, lift at 1.
  - destruct (render fuel s1 args') as [u'|] eqn:E'; [|done]. injection E as <-. rewrite app_assoc in *. unfold mbind, M_bind.
    rewrite emits_ok by (by apply fits_app in Hfit). apply IH; [lia|exact E'|exact Hfit].
  - destruct (Z.eqb_spec e 0) as [->|He].
    + injection E as <-. unfold mbind, M_bind. rewrite emit_ok by done. destruct fuel as [|fuel]; [simpl in *; lia|]. done.
    + destruct (render fuel s1 args) as [u'|] eqn:E'; [|done]. injection E as <-.
      replace (t ++ 37 :: e :: u') with ((t ++ [37; e]) ++ u') in * by (by rewrite <- app_assoc).
      pose proof (emits_ok t [37; e]) as Em. cbn [emits] in Em. apply fits_app in Hfit as Hfit'. specialize (Em Hfit').
      unfold mbind, M_bind in *. destruct (emit cap 37 (after t)) as [[[] st]|]; [|done].
      destruct (emit cap e st) as [[[] st']|]; [|done]. injection Em as ->. apply IH; [lia|exact E'|exact Hfit].
Qed.

Lemma mini_vsnprintf_ok fmt args u : text_of fmt args = Some u → fits u →
  mini_vsnprintf out cap fmt args = Some (Z.of_nat (length u), splice out 0 (take (Z.to_nat (cap - 1)) u ++ [0])).
Proof using Hcap.
  intros E Hf. unfold mini_vsnprintf. rewrite (proj2 (Z.leb_gt _ _)) by done.
  assert (E0 : (out, 0) = after []) by (unfold after; by rewrite take_nil, splice_nil).
  rewrite E0, (format_loop_ok _ _ _ [] u) by done. cbn [mbind option_bind app]. unfold after. destruct Hf as [_ Hf].
  set (v := take (Z.to_nat (cap - 1)) u). assert (Hv : length v = (Z.to_nat (cap - 1) `min` length u)%nat) by (unfold v; apply length_take).
  assert (Hs : length (splice out 0 v) = length out) by (apply length_splice; lia).
  pose proof (splice_snoc out v 0 0) as Sn. cbn [Nat.add] in Sn.
  destruct (Z.ltb_spec (Z.of_nat (length u)) cap).
  - rewrite zupdate_Some by lia. cbn [mbind option_bind]. rewrite Nat2Z.id. replace (length u) with (length v) at 2 by lia. by rewrite Sn by lia.
  - rewrite zupdate_Some by lia. cbn [mbind option_bind]. replace (Z.to_nat (cap - 1)) with (length v) by lia. by rewrite Sn by lia.
Qed.
End buffer.

(** When the format and its arguments stand for the text [u],
    [vsnprintf] with a capacity of at least 1 returns the length of [u] and stores
    the longest prefix of [u] that fits, with a NUL after it; the rest of the buffer
    is unchanged, and nothing outside the capacity is written.  With a capacity of 0
    nothing is stored and the length is returned as well. *)
Theorem vsnprintf_correct dst cap fmt args u :
  text_of fmt args = Some u → Z.of_nat (length u) < 2147483647 → 0 ≤ cap < 2147483648 → cap ≤ Z.of_nat (length dst) →
  vsnprintf dst cap fmt args =
    Some (Z.of_nat (length u), if cap =? 0 then dst else splice dst 0 (take (Z.to_nat (cap - 1)) u ++ [0])).
Proof.
  intros E Hu Hc Hd. unfold vsnprintf. destruct (Z.eqb_spec cap 0) as [->|Hne].
  - rewrite (mini_vsnprintf_ok [0] 1 ltac:(done) fmt args u E); [done|]. split; [done|simpl; lia].
  - rewrite s32_small by (unfold is_s32; lia). apply mini_vsnprintf_ok; [lia|done|]. split; [done|lia].
Qed.

Definition demo_fmt : list Z := str "%s: %-4d|%04x|%5u" ++ [0].
Definition demo_args : list arg := [AStr (Some (str "pid" ++ [0])); AWord (u32 (-7)); AWord 0xBEE; AWord 42].

Example demo_text : text_of demo_fmt demo_args = Some (str "pid: -7  |0bee|   42").
Proof. by vm_compute. Qed.

Lemma vsnprintf_correct_witness :
  vsnprintf (replicate 9 1) 8 demo_fmt demo_args = Some (20, str "pid: -7" ++ [0; 1]).
Proof.
  rewrite (vsnprintf_correct (replicate 9 1) 8 demo_fmt demo_args _ demo_text); [reflexivity|done|done|done].
Defined.

(** A negative number is padded with zeros before its sign. *)
Example zero_pad_negative : text_of (str "%05d" ++ [0]) [AWord (u32 (-5))] = Some (str "000-5").
Proof. by vm_compute. Qed.

(** The least number overflows. *)
Example print_least : text_of (str "%d" ++ [0]) [AWord 0x80000000] = None.
Proof. by vm_compute. Qed.
