(* ===== verification/LibcScanf.v ===== *)
(** * Formatted input ([mini_vsscanf] of [src/userland/libc.c])

    The arguments are the destinations: a null pointer, or an object with room for
    a number of bytes.  The result is the return value with what was stored, in the
    order of the stores. *)

From S2P Require Import Prelude Bytes LibcString LibcNum LibcPrintf.

Inductive dest := Null | Room (n : nat).
(** A number of [n] bytes, or characters. *)
Inductive sval := SInt (n : nat) (v : Z) | SChars (l : list Z) | SNone.

(** ** The code *)

Fixpoint skip_ws (s : list Z) : option (list Z) :=
  match s with [] => None | c :: s' => if c_isspace c then skip_ws s' else Some s end.

(** [tmp[tlen++] = c] on the array of 64 characters. *)
Definition push (tmp : list Z) (c : Z) : option (list Z) := if (length tmp <? 64)%nat then Some (tmp ++ [c]) else None.

Definition more (width : Z) (n : nat) : bool := (width =? 0) || (Z.of_nat n <? width).

(** [while (s[0] && (width == 0 || tlen < width))]. *)
Fixpoint num_digits (width base : Z) (s : list Z) (tmp : list Z) : option (list Z * list Z) :=
  match s with
  | [] => None
  | c :: s' =>
    if negb (c =? 0) && more width (length tmp) then
      let d := parse_base_digit c in
      if (d <? 0) || ((if base =? 0 then 10 else base) <=? d) then Some (tmp, s) else
      tmp ← push tmp c; num_digits width base s' tmp
    else Some (tmp, s)
  end.

Definition conv_base (conv : Z) : Z :=
  if (conv =? 120) || (conv =? 88) then 16 else if conv =? 111 then 8 else if conv =? 105 then 0 else 10.
Definition is_signed (conv : Z) : bool := (conv =? 100) || (conv =? 105).

(** The characters of a number and the rest of the input. *)
Definition num_text (conv width : Z) (s : list Z) : option (list Z * list Z) :=
  let base := conv_base conv in
  c ← head s;
  '(tmp, s) ← (if is_signed conv && ((c =? 45) || (c =? 43)) && more width 0 then tmp ← push [] c; Some (tmp, tail s) else Some ([], s));
  x ← (if (base =? 16) || (base =? 0) then hex_prefix s else Some false);
  '(tmp, s) ← (if (x : bool) && ((width =? 0) || (Z.of_nat (length tmp) + 2 <=? width)) then
                 a ← s !! 0%nat; tmp ← push tmp a; b ← s !! 1%nat; tmp ← push tmp b; Some (tmp, drop 2 s)
               else Some (tmp, s));
  '(tmp, s) ← num_digits width base s tmp;
  if (length tmp <? 64)%nat then Some (tmp, s) else None.

(** The stored value. *)
Definition num_value (conv : Z) (is_long is_short : bool) (tmp : list Z) : option sval :=
  let base := conv_base conv in
  '(v, _) ← (if is_signed conv then strtol (tmp ++ [0]) base else strtoul (tmp ++ [0]) (if base =? 0 then 10 else base));
  Some (if is_long then SInt 4 v else if is_short then SInt 2 (u16 v) else SInt 4 v).

Definition next_dest (ds : list dest) : option (dest * list dest) := match ds with [] => None | d :: ds => Some (d, ds) end.

Definition store_num (d : dest) (v : sval) : option sval :=
  match d, v with
  | Null, _ => Some SNone
  | Room r, SInt n _ => if (n <=? r)%nat then Some v else None
  | _, _ => None
  end.

Definition store_chars (d : dest) (l : list Z) : option sval :=
  match d with Null => None | Room r => if (length l <=? r)%nat then Some (SChars l) else None end.

(** Up to [n] characters before the NUL. *)
Fixpoint take_chars (n : nat) (s : list Z) : option (list Z * list Z) :=
  match n with
  | O => Some ([], s)
  | S n => match s with
           | [] => None
           | c :: s' => if c =? 0 then Some ([], s) else '(l, r) ← take_chars n s'; Some (c :: l, r)
           end
  end.

(** The longest run of characters that satisfy [p], within the width. *)
Fixpoint take_run (p : Z → bool) (width : Z) (n : nat) (s : list Z) : option (list Z * list Z) :=
  match s with
  | [] => None
  | c :: s' =>
    if negb (c =? 0) && p c && more width n then '(l, r) ← take_run p width (S n) s'; Some (c :: l, r) else Some ([], s)
  end.

(** The characters of a scanset up to its closing bracket; at most 127 are kept. *)
Fixpoint charset_chars (n : nat) (f : list Z) : option (list Z * list Z) :=
  match n with
  | O => Some ([], f)
  | S n => match f with
           | [] => None
           | c :: f' => if (c =? 0) || (c =? 93) then Some ([], f) else '(l, r) ← charset_chars n f'; Some (c :: l, r)
           end
  end.

Definition charset (f : list Z) : option (bool * list Z * list Z) :=
  c ← head f;
  let '(negate, f) := if c =? 94 then (true, tail f) else (false, f) in
  c ← head f;
  let '(cs, f) := if c =? 93 then ([93], tail f) else ([], f) in
  '(l, f) ← charset_chars (127 - length cs) f;
  c ← head f;
  Some (negate, cs ++ l, if c =? 93 then tail f else f).

(** The return value after a mismatch. *)
Definition failed (assigned : Z) : Z := if assigned =? 0 then -1 else assigned.

(** Flags, width and length modifier of a conversion, its character and the rest. *)
Definition scan_spec (f : list Z) : option (bool * Z * bool * bool * Z * list Z) :=
  c ← head f;
  let '(suppress, f) := if c =? 42 then (true, tail f) else (false, f) in
  '(width, f) ← scan_width f 0;
  c ← head f;
  let '(is_long, is_short, f) := if c =? 108 then (true, false, tail f) else if c =? 104 then (false, true, tail f) else (false, false, f) in
  conv ← head f;
  Some (suppress, width, is_long, is_short, conv, tail f).

(** What one conversion does: it ends the call, or goes on with the rest of the
    format and of the input, the destinations, the count and the stores. *)
Inductive outcome := Done (rc : Z) (st : list sval) | Next (f s : list Z) (ds : list dest) (assigned : Z) (st : list sval).

Definition is_number (conv : Z) : bool :=
  (conv =? 100) || (conv =? 105) || (conv =? 117) || (conv =? 120) || (conv =? 88) || (conv =? 111).

Definition conversion (suppress : bool) (width : Z) (is_long is_short : bool) (conv : Z)
    (f s : list Z) (ds : list dest) (assigned : Z) : option outcome :=
  if is_number conv then
    '(tmp, s') ← num_text conv width s;
    if (length s' =? length s)%nat then Some (Done (failed assigned) []) else
    if suppress then Some (Next f s' ds assigned []) else
    v ← num_value conv is_long is_short tmp; '(d, ds) ← next_dest ds; w ← store_num d v;
    Some (Next f s' ds (assigned + 1) [w])
  else if conv =? 99 then
    let n := Z.to_nat (if width =? 0 then 1 else width) in
    '(l, s') ← take_chars n s;
    if suppress then Some (Next f s' ds assigned []) else
    '(d, ds) ← next_dest ds; w ← store_chars d l;
    if (length l <? n)%nat then Some (Done (failed assigned) [w]) else Some (Next f s' ds (assigned + 1) [w])
  else if conv =? 115 then
    '(d, ds) ← (if suppress then Some (Null, ds) else next_dest ds);
    '(l, s') ← take_run (λ c, negb (c_isspace c)) width 0 s;
    if (length s' =? length s)%nat then Some (Done (failed assigned) []) else
    match d with
    | Null => Some (Next f s' ds assigned [])
    | Room _ => w ← store_chars d (l ++ [0]); Some (Next f s' ds (assigned + 1) [w])
    end
  else if conv =? 91 then
    '(negate, cs, f) ← charset f;
    '(d, ds) ← (if suppress then Some (Null, ds) else next_dest ds);
    '(l, s') ← take_run (λ c, xorb negate (bool_decide (c ∈ cs))) width 0 s;
    if (length s' =? length s)%nat then Some (Done (failed assigned) []) else
    match d with
    | Null => Some (Next f s' ds assigned [])
    | Room _ => w ← store_chars d (l ++ [0]); Some (Next f s' ds (assigned + 1) [w])
    end
  else Some (Next f s ds assigned []).

(** [while (f[0])]; [n0] is the length of the input, for %n. *)
Fixpoint scan_loop (fuel n0 : nat) (f s : list Z) (ds : list dest) (assigned : Z) (consumed : bool) : option (Z * list sval) :=
  match fuel with
  | O => None
  | S fuel =>
    c ← head f;
    if c =? 0 then Some (assigned, []) else
    if c_isspace c then s ← skip_ws s; scan_loop fuel n0 (tail f) s ds assigned consumed else
    if negb (c =? 37) then
      x ← head s; if negb (x =? c) then Some (failed assigned, []) else scan_loop fuel n0 (tail f) (tail s) ds assigned true
    else
    let f := tail f in
    c ← head f;
    if c =? 37 then
      x ← head s; if negb (x =? 37) then Some (failed assigned, []) else scan_loop fuel n0 (tail f) (tail s) ds assigned true
    else
    '(suppress, width, is_long, is_short, conv, f) ← scan_spec f;
    if conv =? 110 then
      if suppress : bool then scan_loop fuel n0 f s ds assigned consumed else
      '(d, ds) ← next_dest ds; w ← store_num d (SInt 4 (Z.of_nat (n0 - length s)));
      '(rc, st) ← scan_loop fuel n0 f s ds assigned consumed; Some (rc, w :: st)
    else
    s ← (if negb (conv =? 99) && negb (conv =? 91) then skip_ws s else Some s);
    x ← head s;
    if x =? 0 then Some (if negb (assigned =? 0) || consumed then assigned else -1, []) else
    o ← conversion suppress width is_long is_short conv f s ds assigned;
    match o with
    | Done rc st => Some (rc, st)
    | Next f s ds assigned st => '(rc, st') ← scan_loop fuel n0 f s ds assigned true; Some (rc, st ++ st')
    end
  end.

Definition mini_vsscanf (s fmt : list Z) (ds : list dest) : option (Z * list sval) :=
  scan_loop (length fmt) (length s) fmt s ds 0 false.

(** ** Examples *)

Example scan_mixed : mini_vsscanf (str "ip 10.0.2.15 up" ++ [0]) (str "ip %d.%d.%d.%d %s" ++ [0]) [Room 4; Room 4; Room 4; Room 4; Room 3] =
  Some (5, [SInt 4 10; SInt 4 0; SInt 4 2; SInt 4 15; SChars (str "up" ++ [0])]).
Proof. by vm_compute. Qed.

Example scan_set : mini_vsscanf (str "key=va lue;x" ++ [0]) (str "%[a-z]=%[^;];%c%n" ++ [0]) [Room 8; Room 8; Room 1; Room 4] =
  Some (-1, []).
Proof. by vm_compute. Qed.

(** A number of 64 digits overruns the temporary array. *)
Example scan_overrun : mini_vsscanf (replicate 64 49 ++ [0]) (str "%d" ++ [0]) [Room 4] = None.
Proof. by vm_compute. Qed.

(** With %i the digits of a hexadecimal number are read as decimal digits. *)
Example scan_hex_i : mini_vsscanf (str "0x1F" ++ [0]) (str "%i%n" ++ [0]) [Room 4; Room 4] = Some (1, [SInt 4 1; SInt 4 3]).
Proof. by vm_compute. Qed.

(** A format that ends in a percent sign is read past its end. *)
Example scan_percent : mini_vsscanf (str "a" ++ [0]) (str "%" ++ [0]) [] = None.
Proof. by vm_compute. Qed.

(** ** Printed numbers are read back *)

(** The text of %d. *)
Definition dtext (v : Z) : list Z := if v <? 0 then 45 :: utext 10 false (- v) else utext 10 false v.

Lemma utext_len base upper v : (length (utext base upper v) ≤ 16)%nat.
Proof.
  unfold utext. destruct (v =? 0); [simpl; lia|]. rewrite length_rev. generalize 16%nat as k. intros k. revert v. 
  induction k as [|k IH]; intros v; [simpl; lia|]. cbn [utoa_tmp]. destruct (v =? 0); [simpl; lia|].
  destruct (zlookup (digs upper) (v mod base)); cbn [mbind option_bind]; [|simpl; lia]. specialize (IH (v / base)).
  destruct (utoa_tmp k base (digs upper) (v / base)) as [l|]; cbn [mbind option_bind] in *; [|simpl; lia].
  change (default [] (Some l)) with l in IH. change (default [] (Some (z :: l))) with (z :: l). simpl. lia.
Qed.

Lemma convert_d v args : -2147483648 < v < 2147483648 → convert 100 (AWord (u32 v) :: args) = Some (Some (dtext v, args)).
Proof.
  intros Hv. unfold convert. cbn [Z.eqb Pos.eqb orb]. rewrite s32_u32, s32_small by (unfold is_s32; lia). unfold dtext.
  destruct (Z.ltb_spec v 0).
  - rewrite zupdate_Some by (simpl; lia). cbn [mbind option_bind]. unfold sint.
    rewrite (proj2 (Z.leb_le _ _)), (proj2 (Z.leb_le _ 2147483647)) by lia. cbn [andb mbind option_bind].
    rewrite (u32_small (- v)) by (unfold is_u32; lia). pose proof (utext_len 10 false (- v)) as Hl. set (u := utext 10 false (- v)) in *.
    assert (Hn : length (<[Z.to_nat 0:=45]> numbuf) = 32%nat) by done.
    rewrite utoa_base_ok by (fold u; rewrite ?Hn; unfold is_u32; lia). fold u. cbn [mbind option_bind]. unfold arg_text, splice.
    replace (Z.to_nat (1 + Z.of_nat (length u))) with (S (length u)) by lia. change (take (Z.to_nat 1) (<[Z.to_nat 0:=45]> numbuf)) with [45].
    cbn [app take]. rewrite <- app_assoc, take_app_length. done.
  - rewrite (u32_small v) by (unfold is_u32; lia). pose proof (utext_len 10 false v) as Hl. set (u := utext 10 false v) in *.
    rewrite utoa_base_ok by (fold u; rewrite ?length_replicate; unfold is_u32; (done || (unfold numbuf; rewrite length_replicate; lia) || lia)).
    fold u. cbn [mbind option_bind]. unfold arg_text, splice. change (take (Z.to_nat 0) numbuf) with (@nil Z). cbn [app].
    rewrite Nat2Z.id, <- app_assoc, take_app_length. done.
Qed.

Definition is_dec (c : Z) : Prop := 0 ≤ parse_base_digit c < 10 ∧ 48 ≤ c < 103.

Lemma utext_dec v : 0 ≤ v < 4294967296 → Forall is_dec (utext 10 false v) ∧ utext 10 false v ≠ [] ∧
  fold_left (λ a c, a * 10 + parse_base_digit c) (utext 10 false v) 0 = v.
Proof.
  intros Hv. destruct (utext_ok v 10 false) as ((Hf & Hs) & Hne & _); [lia|done|]. split; [|split; [done|]].
  - apply Forall_rev in Hf. by rewrite rev_involutive in Hf.
  - by rewrite digits_value.
Qed.

Lemma num_digits_ok ds c r tmp : Forall is_dec ds → parse_base_digit c = -1 → (length tmp + length ds ≤ 63)%nat →
  num_digits 0 10 (ds ++ c :: r) tmp = Some (tmp ++ ds, c :: r).
Proof.
  intros Hd Hc. revert tmp. induction Hd as [|d ds [H1 H2] _ IH]; intros tmp Hl; cbn [app num_digits length] in *.
  - rewrite Hc. rewrite app_nil_r. by destruct (negb (c =? 0) && more 0 (length tmp)).
  - rewrite (proj2 (Z.eqb_neq d 0)) by lia. cbn [negb andb more Z.eqb orb]. rewrite (proj2 (Z.ltb_ge _ _)), (proj2 (Z.leb_gt _ _)) by lia.
    cbn [orb]. unfold push. rewrite (proj2 (Nat.ltb_lt _ _)) by lia. cbn [mbind option_bind]. rewrite IH by (rewrite length_app; simpl; lia).
    by rewrite <- app_assoc.
Qed.

(** The first character of a number is neither white space nor NUL. *)
Lemma dtext_head v : -2147483648 < v < 2147483648 → ∃ c t, dtext v = c :: t ∧ c_isspace c = false ∧ c ≠ 0 ∧ c ≠ 43.
Proof.
  intros Hv. unfold dtext. destruct (Z.ltb_spec v 0); [by exists 45, (utext 10 false (- v))|].
  destruct (utext_dec v) as (Hd & Hne & _); [lia|]. destruct (utext 10 false v) as [|c t]; [done|]. exists c, t.
  apply Forall_cons in Hd as [[H1 H2] _]. split; [done|]. split; [unfold c_isspace; lia|lia].
Qed.

Lemma dtext_len v : (length (dtext v) ≤ 17)%nat.
Proof. unfold dtext. pose proof (utext_len 10 false v). pose proof (utext_len 10 false (- v)). destruct (v <? 0); simpl; lia. Qed.

Lemma num_text_ok v c r : -2147483648 < v < 2147483648 → parse_base_digit c = -1 →
  num_text 100 0 (dtext v ++ c :: r) = Some (dtext v, c :: r).
Proof.
  intros Hv Hc. unfold num_text. change (conv_base 100) with 10. change (is_signed 100) with true. change (more 0 0) with true.
  pose proof (dtext_len v) as Hl. unfold dtext in *. destruct (Z.ltb_spec v 0) as [Hneg|Hpos].
  - destruct (utext_dec (- v)) as (Hd & _ & _); [lia|]. cbn [app head mbind option_bind Z.eqb Pos.eqb orb andb tail].
    change (push [] 45) with (Some [45]). cbn [mbind option_bind].
    rewrite num_digits_ok by (done || (simpl in *; lia)). cbn [mbind option_bind app length].
    rewrite (proj2 (Nat.ltb_lt _ _)) by (simpl in *; lia). done.
  - destruct (utext_dec v) as (Hd & Hne & _); [lia|]. destruct (utext 10 false v) as [|d t]; [done|].
    pose proof Hd as Hd'. apply Forall_cons in Hd' as [[H1 H2] _]. cbn [app head mbind option_bind].
    rewrite (proj2 (Z.eqb_neq d 45)), (proj2 (Z.eqb_neq d 43)) by lia. cbn [orb andb mbind option_bind Z.eqb Pos.eqb].
    change (d :: t ++ c :: r) with ((d :: t) ++ c :: r).
    rewrite num_digits_ok by (done || (simpl in *; lia)). cbn [mbind option_bind app].
    rewrite (proj2 (Nat.ltb_lt _ _)) by (simpl in *; lia). done.
Qed.

Lemma strtol_dec v ds : Forall is_dec ds → fold_left (λ a c, a * 10 + parse_base_digit c) ds 0 = v → 0 ≤ v < 2147483648 →
  strtol_digits 4294967296 10 (ds ++ [0]) 0 = Some (v, [0]) ∧ s32 v = v.
Proof.
  intros Hd Hs Hv. split; [|apply s32_small; unfold is_s32; lia].
  rewrite strtol_digits_ok by (done || lia). rewrite Hs, Z.mod_small by lia. done.
Qed.

Lemma num_value_ok v : -2147483648 < v < 2147483648 → num_value 100 false false (dtext v) = Some (SInt 4 v).
Proof.
  intros Hv. unfold num_value. change (is_signed 100) with true. change (conv_base 100) with 10. cbv iota.
  unfold strtol, dtext. destruct (Z.ltb_spec v 0) as [Hneg|Hpos].
  - destruct (utext_dec (- v)) as (Hd & _ & Hs); [lia|]. change ((45 :: utext 10 false (- v)) ++ [0]) with (45 :: utext 10 false (- v) ++ [0]).
    rewrite skip_space_ok by done. cbn [mbind option_bind head Z.eqb Pos.eqb orb tail strtol_base].
    destruct (strtol_dec (- v) _ Hd Hs) as [E1 E2]; [lia|]. rewrite E1. cbn [mbind option_bind]. rewrite E2. change (-1 <? 0) with true. cbv iota.
    unfold sint. rewrite (proj2 (Z.leb_le _ _)), (proj2 (Z.leb_le _ 2147483647)) by lia. cbn [andb mbind option_bind]. by rewrite Z.opp_involutive.
  - destruct (utext_dec v) as (Hd & Hne & Hs); [lia|]. destruct (utext 10 false v) as [|d t]; [done|].
    pose proof Hd as Hd'. apply Forall_cons in Hd' as [[H1 H2] _]. change ((d :: t) ++ [0]) with (d :: t ++ [0]).
    rewrite skip_space_ok by (unfold c_isspace; lia). cbn [mbind option_bind head].
    rewrite (proj2 (Z.eqb_neq d 45)), (proj2 (Z.eqb_neq d 43)) by lia. cbn [orb mbind option_bind strtol_base Z.eqb Pos.eqb].
    destruct (strtol_dec v _ Hd Hs) as [E1 E2]; [lia|]. cbn [app] in E1. rewrite E1. cbn [mbind option_bind]. rewrite E2. done.
Qed.

(** The format " %d %d ... %d" and the text that it stands for. *)
Definition ints_fmt (n : nat) : list Z := concat (replicate n (str " %d")) ++ [0].
Definition ints_text (vs : list Z) : list Z := concat ((λ v, 32 :: dtext v) <$> vs).

Lemma padded_plain t : padded false false 0 t = t.
Proof. unfold padded. by rewrite (proj2 (Z.ltb_ge _ _)) by lia. Qed.

Definition printable (v : Z) : Prop := -2147483648 < v < 2147483648.

Lemma render_ints vs fuel : Forall printable vs → (length (ints_fmt (length vs)) ≤ fuel)%nat →
  render fuel (ints_fmt (length vs)) ((λ v, AWord (u32 v)) <$> vs) = Some (ints_text vs).
Proof.
  intros Hv. revert fuel. induction Hv as [|v vs Hv _ IH]; intros fuel Hf.
  { destruct fuel; [simpl in Hf; lia|done]. }
  change (ints_fmt (length (v :: vs))) with (32 :: 37 :: 100 :: ints_fmt (length vs)) in *. destruct fuel as [|[|fuel]]; [simpl in Hf; lia..|].
  cbn [render head mbind option_bind tail Z.eqb Pos.eqb negb fmap list_fmap].
  change (scan_flags (100 :: ints_fmt (length vs))) with (Some (false, false, 0, 100 :: ints_fmt (length vs))). cbn [mbind option_bind head tail].
  rewrite convert_d by done. cbn [mbind option_bind]. rewrite (IH fuel) by (simpl in Hf; lia). cbn [mbind option_bind].
  by rewrite padded_plain.
Qed.

Lemma ints_text_head vs r : ∃ c t, ints_text vs ++ 0 :: r = c :: t ∧ parse_base_digit c = -1.
Proof. destruct vs as [|v vs]; [by exists 0, r|]. exists 32, (dtext v ++ ints_text vs ++ 0 :: r). split; [|done]. cbn. by rewrite <- app_assoc. Qed.

Lemma scan_ints vs fuel n0 r a consumed : Forall printable vs → 0 ≤ a → (length (ints_fmt (length vs)) ≤ fuel)%nat →
  scan_loop fuel n0 (ints_fmt (length vs)) (ints_text vs ++ 0 :: r) (replicate (length vs) (Room 4)) a consumed =
    Some (a + Z.of_nat (length vs), SInt 4 <$> vs).
Proof.
  intros Hv. revert fuel a consumed. induction Hv as [|v vs Hv Hvs IH]; intros fuel a consumed Ha Hf.
  { destruct fuel; [simpl in Hf; lia|]. cbn. by rewrite Z.add_0_r. }
  change (ints_fmt (length (v :: vs))) with (32 :: 37 :: 100 :: ints_fmt (length vs)) in *. destruct fuel as [|[|fuel]]; [simpl in Hf; lia..|].
  assert (Et : ints_text (v :: vs) ++ 0 :: r = 32 :: dtext v ++ (ints_text vs ++ 0 :: r)) by (cbn; by rewrite <- app_assoc).
  destruct (dtext_head v Hv) as (c & t & Ed & Hsp & Hc0 & Hc3). destruct (ints_text_head vs r) as (e & u & Ee & He).
  rewrite Et. cbn [scan_loop head mbind option_bind tail length replicate]. change (32 =? 0) with false. change (c_isspace 32) with true. cbv iota.
  assert (Es : skip_ws (dtext v ++ (ints_text vs ++ 0 :: r)) = Some (dtext v ++ (ints_text vs ++ 0 :: r))) by (rewrite Ed; cbn [app skip_ws]; by rewrite Hsp).
  cbn [skip_ws]. change (c_isspace 32) with true. cbv iota. rewrite Es. cbn [mbind option_bind].
  change (37 =? 0) with false. change (c_isspace 37) with false. change (37 =? 37) with true. change (100 =? 37) with false. cbn [negb].
  change (scan_spec (100 :: ints_fmt (length vs))) with (Some (false, 0, false, false, 100, ints_fmt (length vs))). cbn [mbind option_bind].
  change (100 =? 110) with false. change (100 =? 99) with false. change (100 =? 91) with false. cbn [negb andb]. rewrite Es. cbn [mbind option_bind].
  assert (Eh : head (dtext v ++ (ints_text vs ++ 0 :: r)) = Some c) by (by rewrite Ed). rewrite Eh. cbn [mbind option_bind].
  rewrite (proj2 (Z.eqb_neq c 0)) by done. unfold conversion. change (is_number 100) with true. cbv iota. rewrite Ee.
  rewrite num_text_ok by done. cbn [mbind option_bind]. rewrite (proj2 (Nat.eqb_neq _ _)) by (rewrite Ed; simpl; rewrite length_app; simpl; lia).
  rewrite num_value_ok by done. cbn [mbind option_bind next_dest store_num Nat.leb]. rewrite <- Ee.
  rewrite IH by ((simpl in Hf; lia) || lia). cbn [mbind option_bind app fmap list_fmap]. f_equal. f_equal. lia.
Qed.

(** C36 (roundtrip): any number of integers printed by [sprintf] with %d and white
    space between them are read back by [sscanf] with the same format, except the
    least integer, which overflows in both. *)
Theorem printf_scanf_roundtrip vs dst r :
  Forall (λ v, -2147483648 < v < 2147483648) vs → (length (ints_text vs) < length dst)%nat → Z.of_nat (length dst) < 2147483648 →
  ∃ dst', vsprintf dst (ints_fmt (length vs)) ((λ v, AWord (u32 v)) <$> vs) = Some (Z.of_nat (length (ints_text vs)), dst') ∧
          mini_vsscanf (dst' ++ r) (ints_fmt (length vs)) (replicate (length vs) (Room 4)) =
            Some (Z.of_nat (length vs), SInt 4 <$> vs).
Proof.
  intros Hv Hl Hd. set (u := ints_text vs) in *. exists (splice dst 0 (u ++ [0])). split.
  - unfold vsprintf. rewrite (mini_vsnprintf_ok dst 0x7fffffff ltac:(done) _ _ u).
    + rewrite take_ge by lia. done.
    + unfold text_of. by apply render_ints.
    + split; lia.
  - unfold mini_vsscanf. assert (E : splice dst 0 (u ++ [0]) ++ r = u ++ 0 :: (drop (length (u ++ [0])) dst ++ r)).
    { unfold splice. rewrite take_0, app_nil_l, <- !app_assoc. done. }
    rewrite E. unfold u. rewrite scan_ints by (done || lia). by rewrite Z.add_0_l.
Qed.

Lemma printf_scanf_roundtrip_witness :
  ∃ dst', vsprintf (replicate 20 1) (str " %d %d" ++ [0]) [AWord 42; AWord (u32 (-17))] = Some (7, dst') ∧
          mini_vsscanf (dst' ++ []) (str " %d %d" ++ [0]) [Room 4; Room 4] = Some (2, [SInt 4 42; SInt 4 (-17)]).
Proof.
  apply (printf_scanf_roundtrip [42; -17] (replicate 20 1) []); [repeat constructor; lia|apply Nat.ltb_lt; by vm_compute|by vm_compute].
Defined.
