(* ===== verification/LibcMalloc.v ===== *)
(** * The allocator of the user programs ([malloc] and friends of [src/userland/libc.c])

    Blocks carry a header of 12 bytes before the user data; freed blocks form a
    singly linked list that is searched first fit, and the heap grows through
    [sbrk].  Headers are kept apart from the bytes of the user: the invariant shows
    that no block reaches into another one or into its header. *)

From S2P Require Import Prelude Bytes.

(** ** The interface of [sbrk] *)

Definition SBRK_FAIL : Z := 0xFFFFFFFF.
Definition HEAP_LIMIT : Z := 0xC0000000.

(** The break moves up by the increment and the old one is returned, or the call
    fails and the break stays.  A negative increment fails. *)
Class Brk (B : Type) := {
  sbrk : Z → B → Z * B;
  top : B → Z;
  brk_ok : B → Prop;
  (** The program may store at this address. *)
  usable : B → Z → Prop;
  brk_range b : brk_ok b → 0 < top b ≤ HEAP_LIMIT;
  sbrk_spec n b v b' : brk_ok b → -2147483648 ≤ n < 2147483648 → sbrk n b = (v, b') → brk_ok b' ∧ (∀ a, usable b a → usable b' a) ∧
    (v = SBRK_FAIL ∧ top b' = top b ∨ 0 ≤ n ∧ v = top b ∧ top b' = top b + n ∧ ∀ a, top b ≤ a < top b + n → usable b' a)
}.

(** ** The code *)

Record alloc_hdr_t := mk_hdr { h_size : Z; h_cap : Z; h_next : Z }.

(** [sizeof(alloc_hdr_t)]. *)
Definition HDR : Z := 12.

Section malloc.
Context {B : Type} `{!Brk B}.

(** The headers by their address, the list of free blocks, the bytes of the user,
    and the break. *)
Record heap_t := mk_heap { hdrs : gmap Z alloc_hdr_t; g_free_list : Z; bytes : gmap Z Z; brk : B }.

Definition with_hdrs (m : gmap Z alloc_hdr_t) (s : heap_t) : heap_t := mk_heap m (g_free_list s) (bytes s) (brk s).
Definition with_list (h : Z) (s : heap_t) : heap_t := mk_heap (hdrs s) h (bytes s) (brk s).
Definition with_bytes (m : gmap Z Z) (s : heap_t) : heap_t := mk_heap (hdrs s) (g_free_list s) m (brk s).

Definition get_hdr (h : Z) : M heap_t alloc_hdr_t := λ s, x ← hdrs s !! h; Some (x, s).
Definition set_hdr (h : Z) (x : alloc_hdr_t) : M heap_t unit := modify (λ s, with_hdrs (<[h := x]> (hdrs s)) s).
Definition call_sbrk (n : Z) : M heap_t Z :=
  λ s, let '(v, b) := sbrk n (brk s) in Some (v, mk_heap (hdrs s) (g_free_list s) (bytes s) b).

Definition align8 (n : Z) : Z := Z.land (u32 (n + 7)) (u32 (Z.lnot 7)).

Definition need_of (n : Z) : Z := align8 (u32 (n + HDR)).

(** [pp]: the list head, or the [next] field of a block. *)
Definition read_pp (pp : option Z) : M heap_t Z :=
  match pp with None => s ← get; mret (g_free_list s) | Some h => x ← get_hdr h; mret (h_next x) end.
Definition write_pp (pp : option Z) (v : Z) : M heap_t unit :=
  match pp with
  | None => modify (with_list v)
  | Some h => x ← get_hdr h; set_hdr h (mk_hdr (h_size x) (h_cap x) v)
  end.

(** [while (pp[0])]: the first block that is large enough is taken off the list.  The
    fuel counts the blocks on the list; a list with a cycle is searched for ever. *)
Fixpoint first_fit (fuel : nat) (pp : option Z) (need n : Z) : M heap_t (option Z) :=
  match fuel with
  | O => ub
  | S fuel =>
    h ← read_pp pp;
    if h =? 0 then mret None else
    x ← get_hdr h;
    if need <=? h_cap x then
      write_pp pp (h_next x);;
      set_hdr h (mk_hdr n (h_cap x) 0);;
      mret (Some h)
    else first_fit fuel (Some h) need n
  end.

(** The returned pointer, 0 for NULL. *)
Definition malloc (n : Z) : M heap_t Z :=
  if n =? 0 then mret 0 else
  let need := need_of n in
  s ← get;
  o ← first_fit (S (size (hdrs s))) None need n;
  match o with
  | Some h => mret (u32 (h + HDR))
  | None =>
    h ← call_sbrk (s32 need);
    if h =? SBRK_FAIL then mret 0 else
    set_hdr h (mk_hdr n need 0);;
    mret (u32 (h + HDR))
  end.

Definition byte (s : heap_t) (a : Z) : Z := default 0 (bytes s !! a).

Fixpoint set_bytes (l : list Z) (a : Z) (m : gmap Z Z) : gmap Z Z :=
  match l with [] => m | x :: l => set_bytes l (a + 1) (<[a := x]> m) end.
Fixpoint get_bytes (n : nat) (a : Z) (s : heap_t) : list Z :=
  match n with O => [] | S n => byte s a :: get_bytes n (a + 1) s end.

Definition h_memset (p c n : Z) : M heap_t unit := modify (λ s, with_bytes (set_bytes (replicate (Z.to_nat n) (u8 c)) p (bytes s)) s).
(** The two blocks do not overlap. *)
Definition h_memcpy (d p n : Z) : M heap_t unit := modify (λ s, with_bytes (set_bytes (get_bytes (Z.to_nat n) p s) d (bytes s)) s).

Definition calloc (n sz : Z) : M heap_t Z :=
  if negb (n =? 0) && (4294967295 / n <? sz) then mret 0 else
  let total := u32 (n * sz) in
  p ← malloc total;
  if p =? 0 then mret p else h_memset p 0 total;; mret p.

Definition free (p : Z) : M heap_t unit :=
  if p =? 0 then mret tt else
  let h := u32 (p - HDR) in
  x ← get_hdr h;
  s ← get;
  set_hdr h (mk_hdr (h_size x) (h_cap x) (g_free_list s));;
  modify (with_list h).

Definition realloc (p n : Z) : M heap_t Z :=
  if p =? 0 then malloc n else
  if n =? 0 then free p;; mret 0 else
  let h := u32 (p - HDR) in
  let need := need_of n in
  x ← get_hdr h;
  if need <=? h_cap x then set_hdr h (mk_hdr n (h_cap x) (h_next x));; mret p else
  np ← malloc n;
  if np =? 0 then mret 0 else
  x ← get_hdr h;
  let copy := if h_size x <? n then h_size x else n in
  h_memcpy np p copy;; free p;; mret np.

(** ** The invariant *)

(** The links from [h] run through [l] and then point to [k]. *)
Fixpoint links (m : gmap Z alloc_hdr_t) (h : Z) (l : list Z) (k : Z) : Prop :=
  match l with
  | [] => h = k
  | x :: l => h = x ∧ x ≠ 0 ∧ ∃ y, m !! x = Some y ∧ links m (h_next y) l k
  end.

(** The blocks that are in use, with the size that was asked for: all headers that are not on the list. *)
Record heap_ok (s : heap_t) (fl : list Z) : Prop := {
  ho_brk : brk_ok (brk s);
  ho_chain : links (hdrs s) (g_free_list s) fl 0;
  ho_nodup : NoDup fl;
  ho_block h x : hdrs s !! h = Some x → 0 < h ∧ 16 ≤ h_cap x ∧ h + h_cap x ≤ top (brk s);
  ho_disj h x k y : hdrs s !! h = Some x → hdrs s !! k = Some y → h ≠ k → h + h_cap x ≤ k ∨ k + h_cap y ≤ h;
  ho_room h x : hdrs s !! h = Some x → h ∉ fl → 0 ≤ h_size x ∧ h_size x + HDR ≤ h_cap x;
  ho_usable h x a : hdrs s !! h = Some x → h ≤ a < h + h_cap x → usable (brk s) a
}.

(** A block of the user: the pointer [p] was returned for a request of [n] bytes. *)
Definition block (s : heap_t) (fl : list Z) (p n : Z) : Prop :=
  ∃ x, hdrs s !! (p - HDR) = Some x ∧ p - HDR ∉ fl ∧ h_size x = n.

(** Two blocks do not overlap, and neither overlaps the header of the other. *)
Lemma blocks_disjoint s fl p n q k : heap_ok s fl → block s fl p n → block s fl q k → p ≠ q →
  p + n ≤ q - HDR ∨ q + k ≤ p - HDR.
Proof.
  intros [_ _ _ _ Hd Hr _] (x & Hx & Hpx & <-) (y & Hy & Hqy & <-) Hne.
  pose proof (Hr _ _ Hx Hpx). pose proof (Hr _ _ Hy Hqy). destruct (Hd _ _ _ _ Hx Hy); [lia|left; lia|right; lia].
Qed.

(** A block lies below the break and after its header. *)
Lemma block_range s fl p n : heap_ok s fl → block s fl p n → HDR < p ∧ 0 ≤ n ∧ p + n ≤ top (brk s).
Proof.
  intros [_ _ _ Hb _ Hr _] (x & Hx & Hpx & <-). pose proof (Hr _ _ Hx Hpx). pose proof (Hb _ _ Hx). unfold HDR in *. lia.
Qed.

(** ** Links *)

Lemma links_app m h a b k : links m h (a ++ b) k ↔ ∃ j, links m h a j ∧ links m j b k.
Proof.
  revert h. induction a as [|x a IH]; intros h; cbn [app links]; [naive_solver|]. split.
  - intros (-> & Hx & y & Hy & H). apply IH in H as (j & H1 & H2). exists j. split; [|done]. eauto.
  - intros (j & (-> & Hx & y & Hy & H1) & H2). split; [done|]. split; [done|]. exists y. split; [done|]. apply IH. eauto.
Qed.

Lemma links_insert m h l k x y : x ∉ l → links (<[x := y]> m) h l k ↔ links m h l k.
Proof.
  revert h. induction l as [|z l IH]; intros h Hx; cbn [links]; [done|]. apply not_elem_of_cons in Hx as [Hxz Hx].
  rewrite lookup_insert_ne by done. by setoid_rewrite IH.
Qed.

Lemma links_dom m h l k x : links m h l k → x ∈ l → is_Some (m !! x) ∧ x ≠ 0.
Proof.
  revert h. induction l as [|z l IH]; intros h; cbn [links]; [by intros _ ?%elem_of_nil|]. intros (-> & Hz & y & Hy & H) [->|Hx]%elem_of_cons; eauto.
Qed.

(** The links end at a block, which is not on the list itself, or at its end. *)
Lemma links_snoc m h l q k : links m h (l ++ [q]) k ↔ links m h l q ∧ q ≠ 0 ∧ ∃ y, m !! q = Some y ∧ h_next y = k.
Proof. rewrite links_app. cbn [links]. naive_solver. Qed.

(** The block [h] with header [x] is taken off the list, after the blocks [a]. *)
Definition unlinked (a : list Z) (h : Z) (x : alloc_hdr_t) (n : Z) (s : heap_t) : heap_t :=
  let s := match last a with
           | None => with_list (h_next x) s
           | Some q => match hdrs s !! q with
                       | Some y => with_hdrs (<[q := mk_hdr (h_size y) (h_cap y) (h_next x)]> (hdrs s)) s
                       | None => s
                       end
           end in
  with_hdrs (<[h := mk_hdr n (h_cap x) 0]> (hdrs s)) s.

Lemma first_fit_S fuel pp need n s h x : read_pp pp s = Some (h, s) → h ≠ 0 → hdrs s !! h = Some x →
  first_fit (S fuel) pp need n s =
    if need <=? h_cap x then (write_pp pp (h_next x);; set_hdr h (mk_hdr n (h_cap x) 0);; mret (Some h)) s
    else first_fit fuel (Some h) need n s.
Proof.
  intros Er Hh Hx. cbn [first_fit]. unfold mbind at 1, M_bind at 1. rewrite Er. rewrite (proj2 (Z.eqb_neq h 0)) by done.
  unfold mbind at 1, M_bind at 1, get_hdr at 1. rewrite Hx. cbn [mbind option_bind]. by destruct (need <=? h_cap x).
Qed.

Lemma first_fit_ok fuel need n s pre suf : links (hdrs s) (g_free_list s) (pre ++ suf) 0 → NoDup (pre ++ suf) → (length suf < fuel)%nat →
  first_fit fuel (last pre) need n s = Some (None, s) ∨
  ∃ a h b x, pre ++ suf = a ++ h :: b ∧ hdrs s !! h = Some x ∧ need ≤ h_cap x ∧
             first_fit fuel (last pre) need n s = Some (Some h, unlinked a h x n s).
Proof.
  revert pre suf. induction fuel as [|fuel IH]; intros pre suf Hl Hn Hf; [lia|].
  apply links_app in Hl as Hj. destruct Hj as (j & Hpre & Hsuf).
  assert (Er : read_pp (last pre) s = Some (j, s)).
  { destruct pre as [|q pre _] using rev_ind; [cbn in Hpre; by subst|]. rewrite last_snoc. apply links_snoc in Hpre as (_ & _ & y & Hy & <-).
    unfold read_pp, mbind, M_bind, get_hdr. by rewrite Hy. }
  destruct suf as [|h suf]; cbn [links] in Hsuf.
  { subst j. left. cbn [first_fit]. unfold mbind, M_bind. by rewrite Er. }
  destruct Hsuf as (-> & Hh0 & x & Hx & Hsuf). rewrite (first_fit_S _ _ _ _ _ h x) by done.
  destruct (Z.leb_spec need (h_cap x)) as [Hge|Hlt].
  - right. exists pre, h, suf, x. split; [done|]. split; [done|]. split; [done|]. unfold unlinked.
    destruct pre as [|q pre _] using rev_ind; [done|]. rewrite last_snoc. apply links_snoc in Hpre as (_ & _ & y & Hy & _).
    unfold write_pp, mbind, M_bind, get_hdr. rewrite Hy. done.
  - specialize (IH (pre ++ [h]) suf). rewrite last_snoc, <- app_assoc in IH. apply IH; [done|done|]. simpl in Hf. lia.
Qed.

Lemma unlinked_hdrs a h x n s k : k ≠ h →
  hdrs (unlinked a h x n s) !! k = hdrs s !! k ∨
  ∃ y, last a = Some k ∧ hdrs s !! k = Some y ∧ hdrs (unlinked a h x n s) !! k = Some (mk_hdr (h_size y) (h_cap y) (h_next x)).
Proof.
  intros Hk. unfold unlinked. cbn [with_hdrs hdrs]. rewrite lookup_insert_ne by done. destruct (last a) as [q|]; [|by left].
  destruct (hdrs s !! q) as [y|] eqn:Hy; [|by left]. cbn [with_hdrs hdrs]. destruct (decide (q = k)) as [->|Hq].
  - right. exists y. rewrite lookup_insert_eq. done.
  - left. by rewrite lookup_insert_ne.
Qed.

Lemma unlinked_h a h x n s : hdrs (unlinked a h x n s) !! h = Some (mk_hdr n (h_cap x) 0).
Proof. unfold unlinked. cbn [with_hdrs hdrs]. by rewrite lookup_insert_eq. Qed.

Lemma unlinked_rest a h x n s : bytes (unlinked a h x n s) = bytes s ∧ brk (unlinked a h x n s) = brk s.
Proof. unfold unlinked. repeat case_match; done. Qed.

Lemma unlinked_caps a h x n s k y : hdrs s !! h = Some x → hdrs (unlinked a h x n s) !! k = Some y →
  ∃ z, hdrs s !! k = Some z ∧ h_cap y = h_cap z ∧ (k ≠ h → h_size y = h_size z).
Proof.
  intros Hx Hy. destruct (decide (k = h)) as [->|Hk].
  - rewrite unlinked_h in Hy. injection Hy as <-. exists x. done.
  - destruct (unlinked_hdrs a h x n s k Hk) as [E|(z & _ & Hz & E)]; rewrite E in Hy; [by exists y|]. injection Hy as <-. by exists z.
Qed.

Lemma in_here (x : Z) l : x ∈ x :: l.
Proof. apply elem_of_cons. by left. Qed.
Lemma in_later (x y : Z) l : x ∈ l → x ∈ y :: l.
Proof. intros H. apply elem_of_cons. by right. Qed.

Lemma unlinked_links a h x n s b : links (hdrs s) (g_free_list s) (a ++ h :: b) 0 → NoDup (a ++ h :: b) → hdrs s !! h = Some x →
  links (hdrs (unlinked a h x n s)) (g_free_list (unlinked a h x n s)) (a ++ b) 0.
Proof.
  intros Hl Hn Hx. apply links_app in Hl as (j & Ha & -> & Hh0 & y & Hy & Hb). assert (y = x) as -> by congruence. 
  apply NoDup_app in Hn as (Hna & Hab & Hnb). apply NoDup_cons in Hnb as [Hhb Hnb].
  assert (Hha : h ∉ a) by (intros H; apply (Hab h H), in_here).
  unfold unlinked. destruct a as [|q a _] using rev_ind.
  - cbn in Ha. cbn [app last with_hdrs with_list hdrs g_free_list]. by apply links_insert.
  - rewrite last_snoc. apply links_snoc in Ha as (Ha & Hq0 & z & Hz & Hnx). rewrite Hz. cbn [with_hdrs hdrs g_free_list].
    apply not_elem_of_app in Hha as [Hha Hhq]. apply NoDup_app in Hna as (Hna & Haq & _).
    assert (Hqa : q ∉ a) by (intros H; apply (Haq q H), in_here). assert (Hqb : q ∉ b) by (intros H; apply (Hab q); [apply elem_of_app; right; apply in_here|by apply in_later]).
    apply links_app. exists (h_next x). split.
    + apply links_snoc. split; [by rewrite !links_insert|]. split; [done|]. exists (mk_hdr (h_size z) (h_cap z) (h_next x)). split; [|done].
      rewrite lookup_insert_ne by (intros ->; apply Hhq, in_here). by rewrite lookup_insert_eq.
    + by rewrite !links_insert.
Qed.

Lemma unlinked_ok a h x n s b : heap_ok s (a ++ h :: b) → hdrs s !! h = Some x → 0 ≤ n → n + HDR ≤ h_cap x →
  heap_ok (unlinked a h x n s) (a ++ b).
Proof.
  intros [Hb Hl Hn Hblk Hd Hr Hu] Hx Hn0 Hcap. destruct (unlinked_rest a h x n s) as [Eb Ek]. split.
  - by rewrite Ek.
  - by apply unlinked_links.
  - apply NoDup_app in Hn as (Hna & Hab & Hnb). apply NoDup_cons in Hnb as [_ Hnb]. apply NoDup_app. split; [done|]. split; [|done].
    intros k Hk Hkb. apply (Hab k Hk). by apply in_later.
  - intros k y Hy. destruct (unlinked_caps _ _ _ _ _ _ _ Hx Hy) as (z & Hz & -> & _). rewrite Ek. by apply Hblk.
  - intros k y k' y' Hy Hy' Hne. destruct (unlinked_caps _ _ _ _ _ _ _ Hx Hy) as (z & Hz & -> & _).
    destruct (unlinked_caps _ _ _ _ _ _ _ Hx Hy') as (z' & Hz' & -> & _). by apply (Hd k z k' z').
  - intros k y Hy Hk. destruct (unlinked_caps _ _ _ _ _ _ _ Hx Hy) as (z & Hz & Ec & Es). destruct (decide (k = h)) as [->|Hkh].
    + rewrite unlinked_h in Hy. injection Hy as <-. done.
    + rewrite Ec, Es by done. apply (Hr k z Hz). intros [H|[H|H]%elem_of_cons]%elem_of_app; [|done|]; apply Hk, elem_of_app; auto.
  - intros k y c Hy Hc. destruct (unlinked_caps _ _ _ _ _ _ _ Hx Hy) as (z & Hz & E & _). rewrite Ek. apply (Hu k z); [done|by rewrite <- E].
Qed.

(** The blocks of the user after a block was taken off the list. *)
Lemma unlinked_blocks a h x n s b q k : heap_ok s (a ++ h :: b) → hdrs s !! h = Some x →
  block (unlinked a h x n s) (a ++ b) q k ↔ q = h + HDR ∧ k = n ∨ block s (a ++ h :: b) q k.
Proof.
  intros [_ _ Hn _ _ _ _] Hx. apply NoDup_app in Hn as (_ & Hab & Hnb). apply NoDup_cons in Hnb as [Hhb _].
  assert (Hha : h ∉ a ++ b) by (intros [H|H]%elem_of_app; [apply (Hab h H), in_here|done]). unfold block. split.
  - intros (y & Hy & Hq & <-). destruct (decide (q - HDR = h)) as [E|Hne].
    + left. rewrite E, unlinked_h in Hy. injection Hy as <-. split; [lia|done].
    + right. destruct (unlinked_caps _ _ _ _ _ _ _ Hx Hy) as (z & Hz & _ & Es). exists z. split; [done|]. rewrite Es by done. split; [|done].
      intros [H|[H|H]%elem_of_cons]%elem_of_app; [apply Hq, elem_of_app; auto|done|apply Hq, elem_of_app; auto].
  - intros [[-> ->]|(y & Hy & Hq & <-)].
    + replace (h + HDR - HDR) with h by lia. exists (mk_hdr n (h_cap x) 0). split; [apply unlinked_h|]. done.
    + assert (Hne : q - HDR ≠ h) by (intros E; apply Hq; rewrite E; apply elem_of_app; right; apply in_here).
      assert (Hqab : q - HDR ∉ a ++ b) by (intros [H|H]%elem_of_app; apply Hq, elem_of_app; [by left|right; by apply in_later]).
      destruct (unlinked_hdrs a h x n s _ Hne) as [E|(z & Hlast & _ & _)].
      * exists y. rewrite E. done.
      * exfalso. apply Hqab, elem_of_app. left. by apply last_Some_elem_of.
Qed.

Lemma block_mono s s' fl q k : hdrs s' = hdrs s → block s' fl q k ↔ block s fl q k.
Proof. unfold block. by intros ->. Qed.

Lemma free_list_size s fl : heap_ok s fl → (length fl ≤ size (hdrs s))%nat.
Proof.
  intros [_ Hl Hn _ _ _ _]. rewrite <- size_dom. rewrite <- (size_list_to_set (C := gset Z) fl) by done.
  apply subseteq_size. intros x Hx%elem_of_list_to_set. apply elem_of_dom. by apply (links_dom _ _ _ _ _ Hl).
Qed.

(** ** The operations *)

Lemma need_ok n : 0 ≤ n → n + 19 < 4294967296 → need_of n = (n + 19) / 8 * 8 ∧ n + HDR ≤ need_of n ≤ n + 19 ∧ (1 ≤ n → 16 ≤ need_of n).
Proof.
  intros Hn Hb. assert (E : need_of n = (n + 19) / 8 * 8).
  { unfold need_of, align8, HDR. rewrite (u32_small (n + 12)) by (unfold is_u32; lia). rewrite u32_small by (unfold is_u32; lia).
    change 7 with (2 ^ 3 - 1). rewrite mask_down by (unfold is_u32; lia). change (2 ^ 3) with 8. f_equal. f_equal. lia. }
  split; [done|]. rewrite E. unfold HDR. Z.div_mod_to_equations. lia.
Qed.

Lemma block_hdr s fl p n : heap_ok s fl → block s fl p n → u32 (p - HDR) = p - HDR ∧ p ≠ 0 ∧
  ∃ x, hdrs s !! (p - HDR) = Some x ∧ p - HDR ∉ fl ∧ h_size x = n ∧ 0 ≤ n ∧ n + HDR ≤ h_cap x.
Proof.
  intros Hok (x & Hx & Hp & Hs). destruct (ho_room _ _ Hok _ _ Hx Hp) as [H1 H2]. destruct (ho_block _ _ Hok _ _ Hx) as (H3 & H4 & H5).
  pose proof (brk_range _ (ho_brk _ _ Hok)) as H6. unfold HEAP_LIMIT, HDR in *. split; [apply u32_small; unfold is_u32; lia|].
  split; [lia|]. exists x. split; [done|]. split; [done|]. split; [done|]. lia.
Qed.

(** The heap grew by a block at the old break. *)
Lemma grown_ok s fl n need b' : heap_ok s fl → 0 ≤ n → n + HDR ≤ need → 16 ≤ need → brk_ok b' → top b' = top (brk s) + need →
  (∀ a, usable (brk s) a → usable b' a) → (∀ a, top (brk s) ≤ a < top (brk s) + need → usable b' a) →
  let s' := mk_heap (<[top (brk s) := mk_hdr n need 0]> (hdrs s)) (g_free_list s) (bytes s) b' in
  heap_ok s' fl ∧ ∀ q k, block s' fl q k ↔ q = top (brk s) + HDR ∧ k = n ∨ block s fl q k.
Proof.
  intros Hok Hn Hcap Hneed Hb' Ht Hk Hnew. destruct Hok as [Hb Hl Hnd Hblk Hd Hr Hu]. pose proof (brk_range _ Hb) as Hrange. set (h := top (brk s)) in *.
  assert (Hh : hdrs s !! h = None).
  { destruct (hdrs s !! h) as [x|] eqn:E; [|done]. destruct (Hblk _ _ E) as (_ & H1 & H2). lia. }
  assert (Hhl : h ∉ fl) by (intros H; destruct (links_dom _ _ _ _ _ Hl H) as [[x Hx] _]; congruence).
  intros s'. split.
  - split; cbn [s' hdrs g_free_list bytes brk].
    + done.
    + by apply links_insert.
    + done.
    + intros k x [[<- <-]|[_ Hx]]%lookup_insert_Some; [cbn [h_cap]; lia|]. destruct (Hblk _ _ Hx) as (H1 & H2 & H3). lia.
    + intros k x k' x' [[<- <-]|[_ Hx]]%lookup_insert_Some [[<- <-]|[_ Hx']]%lookup_insert_Some Hne; cbn [h_cap]; [done| | |by apply (Hd k x k' x')].
      * destruct (Hblk _ _ Hx') as (H1 & H2 & H3). right. lia.
      * destruct (Hblk _ _ Hx) as (H1 & H2 & H3). left. lia.
    + intros k x [[<- <-]|[_ Hx]]%lookup_insert_Some Hkl; [done|]. by apply (Hr k x).
    + intros k x a [[<- <-]|[_ Hx]]%lookup_insert_Some Ha; [by apply Hnew|by apply Hk, (Hu k x)].
  - intros q k. unfold block. cbn [s' hdrs]. split.
    + intros (x & [[Hq <-]|[Hq Hx]]%lookup_insert_Some & Hql & <-); [left; split; [lia|done]|right; by exists x].
    + intros [[-> ->]|(x & Hx & Hq & <-)].
      * replace (h + HDR - HDR) with h by lia. exists (mk_hdr n need 0). by rewrite lookup_insert_eq.
      * exists x. rewrite lookup_insert_ne by congruence. done.
Qed.

Definition fresh (s : heap_t) (fl : list Z) (p : Z) : Prop := ∀ k, ¬ block s fl p k.

Lemma malloc_ok s fl n : heap_ok s fl → 0 ≤ n → n + 19 < 2147483648 → ∃ p s' fl', malloc n s = Some (p, s') ∧ heap_ok s' fl' ∧
  bytes s' = bytes s ∧
  (p = 0 ∧ (∀ q k, block s' fl' q k ↔ block s fl q k) ∨
   p ≠ 0 ∧ 1 ≤ n ∧ fresh s fl p ∧ ∀ q k, block s' fl' q k ↔ q = p ∧ k = n ∨ block s fl q k).
Proof.
  intros Hok Hn Hb. unfold malloc. destruct (Z.eqb_spec n 0) as [->|Hn0]; [exists 0, s, fl; split; [done|]; split; [done|]; split; [done|]; by left|].
  unfold mbind at 1, M_bind at 1, get at 1. destruct (need_ok n Hn ltac:(lia)) as (En & Hcap & Hmin).
  pose proof (free_list_size s fl Hok) as Hsz. pose proof (ho_brk _ _ Hok) as Hbk.
  destruct (first_fit_ok (S (size (hdrs s))) (need_of n) n s [] fl (ho_chain _ _ Hok) (ho_nodup _ _ Hok) ltac:(lia)) as [E|(a & h & b & x & Efl & Hx & Hc & E)];
    unfold mbind at 1, M_bind at 1; cbn [last] in E; change (last []) with (@None Z) in E; rewrite E.
  - unfold mbind, M_bind, call_sbrk. destruct (sbrk (s32 (need_of n)) (brk s)) as [v b'] eqn:Es. rewrite s32_small in Es by (unfold is_s32; lia).
    assert (Hneed : -2147483648 ≤ need_of n < 2147483648) by (unfold HDR in Hcap; lia).
    destruct (sbrk_spec (need_of n) (brk s) v b' Hbk Hneed Es) as (Hb' & Huk & [[-> Ht]|(_ & -> & Ht & Hun)]).
    + rewrite Z.eqb_refl. exists 0. eexists _, fl. split; [reflexivity|]. split; [|split; [done|left; split; [done|]; intros; by apply block_mono]].
      destruct Hok as [_ Hl Hnd Hblk Hd Hr Hu]. split; cbn [hdrs brk g_free_list]; [done..| |done|done|]; [intros k y Hy; rewrite Ht; by apply Hblk in Hy|].
      intros k y c Hy Hc. by apply Huk, (Hu k y).
    + pose proof (brk_range _ Hbk) as Hrg. pose proof (brk_range _ Hb') as Hrg'. unfold SBRK_FAIL, HEAP_LIMIT in *.
      rewrite (proj2 (Z.eqb_neq _ _)) by lia. destruct (grown_ok s fl n (need_of n) b' Hok ltac:(lia) ltac:(lia) (Hmin ltac:(lia)) Hb' Ht Huk Hun) as [K1 K2].
      unfold HDR in *. rewrite u32_small by (unfold is_u32; lia).
      exists (top (brk s) + 12). eexists _, fl. split; [reflexivity|]. split; [exact K1|]. split; [done|]. right. split; [lia|]. split; [lia|].
      split; [|exact K2]. intros k Hk. apply (block_range _ _ _ _ Hok) in Hk. lia.
  - cbn [app] in Efl. subst fl. destruct (ho_block _ _ Hok _ _ Hx) as (H1 & H2 & H3). pose proof (brk_range _ Hbk) as Hrg. unfold HEAP_LIMIT, HDR in *.
    rewrite u32_small by (unfold is_u32; lia). exists (h + 12), (unlinked a h x n s), (a ++ b). split; [done|].
    split; [apply unlinked_ok; (done || unfold HDR; lia)|]. split; [apply unlinked_rest|]. right. split; [lia|]. split; [lia|].
    split; [|intros q k; by apply unlinked_blocks]. intros k (y & Hy & Hh & _). apply Hh. unfold HDR. replace (h + 12 - 12) with h by lia.
    apply elem_of_app. right. apply in_here.
Qed.

Lemma free_ok s fl p n : heap_ok s fl → block s fl p n → ∃ s' fl', free p s = Some (tt, s') ∧ heap_ok s' fl' ∧ bytes s' = bytes s ∧
  ∀ q k, block s' fl' q k ↔ q ≠ p ∧ block s fl q k.
Proof.
  intros Hok Hbl. destruct (block_hdr _ _ _ _ Hok Hbl) as (Eu & Hp0 & x & Hx & Hpl & Hs & Hn & Hcap). set (h := p - HDR) in *.
  unfold free. rewrite (proj2 (Z.eqb_neq p 0)) by done. fold h. rewrite Eu. unfold mbind, M_bind, get_hdr. rewrite Hx. cbn [mbind option_bind get set_hdr modify].
  set (s' := with_list h (with_hdrs (<[h := mk_hdr (h_size x) (h_cap x) (g_free_list s)]> (hdrs s)) s)). exists s', (h :: fl). split; [reflexivity|].
  assert (Hcaps : ∀ k y, hdrs s' !! k = Some y → ∃ z, hdrs s !! k = Some z ∧ h_cap y = h_cap z ∧ h_size y = h_size z).
  { intros k y Hky. cbn [hdrs s' with_list with_hdrs] in Hky. apply lookup_insert_Some in Hky as [[<- <-]|[Hk Hy]]; [by exists x|by exists y]. }
  destruct Hok as [Hb Hl Hnd Hblk Hd Hr Hu]. split; [split; cbn [hdrs g_free_list bytes brk s' with_list with_hdrs]|].
  - done.
  - cbn [links]. split; [done|]. split; [destruct (Hblk _ _ Hx); lia|]. eexists. split; [by rewrite lookup_insert_eq|]. cbn [h_next]. by apply links_insert.
  - by constructor.
  - intros k y Hy. destruct (Hcaps k y Hy) as (z & Hz & -> & _). by apply Hblk.
  - intros k y k' y' Hy Hy' Hne. destruct (Hcaps k y Hy) as (z & Hz & -> & _). destruct (Hcaps k' y' Hy') as (z' & Hz' & -> & _). by apply (Hd k z k' z').
  - intros k y Hy Hk. destruct (Hcaps k y Hy) as (z & Hz & -> & ->). apply (Hr k z Hz). intros H. by apply Hk, in_later.
  - intros k y c Hy Hc. destruct (Hcaps k y Hy) as (z & Hz & E & _). apply (Hu k z); [done|by rewrite <- E].
  - split; [done|]. intros q k. unfold block. cbn [hdrs s' with_list with_hdrs]. split.
    + intros (y & Hy & Hq & <-). destruct (Hcaps _ y Hy) as (z & Hz & _ & ->). split.
      * intros ->. apply Hq, in_here.
      * exists z. split; [done|]. split; [|done]. intros H. by apply Hq, in_later.
    + intros (Hqp & y & Hy & Hq & <-). exists y. rewrite lookup_insert_ne by (unfold h; lia). split; [done|]. split; [|done].
      intros [H|H]%elem_of_cons; [unfold h in H; lia|done].
Qed.

(** ** Contents *)

Lemma set_bytes_lookup l a m x : default 0 (set_bytes l a m !! x) =
  if decide (a ≤ x < a + Z.of_nat (length l)) then default 0 (l !! Z.to_nat (x - a)) else default 0 (m !! x).
Proof.
  revert a m. induction l as [|v l IH]; intros a m; cbn [set_bytes length]; [rewrite decide_False by lia; done|]. rewrite IH.
  destruct (decide (x = a)) as [->|Hx].
  - rewrite decide_False, decide_True by lia. rewrite lookup_insert_eq, Z.sub_diag. done.
  - rewrite lookup_insert_ne by done. destruct (decide (a + 1 ≤ x < _)); [rewrite decide_True by lia|by rewrite decide_False by lia].
    by replace (Z.to_nat (x - a)) with (S (Z.to_nat (x - (a + 1)))) by lia.
Qed.

Lemma get_bytes_lookup n a s i : (i < n)%nat → get_bytes n a s !! i = Some (byte s (a + Z.of_nat i)).
Proof.
  revert a i. induction n as [|n IH]; intros a i Hi; [lia|]. cbn [get_bytes]. destruct i as [|i]; [by rewrite Z.add_0_r|].
  cbn. rewrite IH by lia. f_equal. f_equal. lia.
Qed.
Lemma get_bytes_length n a s : length (get_bytes n a s) = n.
Proof. revert a. induction n as [|n IH]; intros a; [done|]. cbn. by rewrite IH. Qed.

Lemma heap_ok_bytes s fl m : heap_ok s fl → heap_ok (with_bytes m s) fl.
Proof. by intros [? ? ? ? ? ? ?]; split. Qed.

(** A block is given another size within its capacity. *)
Lemma resized_ok s fl p k n x : heap_ok s fl → block s fl p k → hdrs s !! (p - HDR) = Some x → 0 ≤ n → n + HDR ≤ h_cap x →
  let s' := with_hdrs (<[p - HDR := mk_hdr n (h_cap x) (h_next x)]> (hdrs s)) s in
  heap_ok s' fl ∧ ∀ q j, block s' fl q j ↔ q = p ∧ j = n ∨ q ≠ p ∧ block s fl q j.
Proof.
  intros Hok (y & Hy & Hp & _) Hx Hn Hcap s'. set (h := p - HDR) in *. destruct Hok as [Hb Hl Hnd Hblk Hd Hr Hu].
  assert (Hcaps : ∀ k y, hdrs s' !! k = Some y → ∃ z, hdrs s !! k = Some z ∧ h_cap y = h_cap z).
  { intros i z Hz. cbn [hdrs s' with_hdrs] in Hz. apply lookup_insert_Some in Hz as [[<- <-]|[_ Hz]]; [by exists x|by exists z]. }
  split; [split; cbn [hdrs g_free_list bytes brk s' with_hdrs]|].
  - done.
  - by apply links_insert.
  - done.
  - intros i z Hz. destruct (Hcaps i z Hz) as (w & Hw & ->). by apply Hblk.
  - intros i z i' z' Hz Hz' Hne. destruct (Hcaps i z Hz) as (w & Hw & ->). destruct (Hcaps i' z' Hz') as (w' & Hw' & ->). by apply (Hd i w i' w').
  - intros i z [[<- <-]|[_ Hz]]%lookup_insert_Some Hi; [done|by apply (Hr i z)].
  - intros i z c Hz Hc. destruct (Hcaps i z Hz) as (w & Hw & E). apply (Hu i w); [done|by rewrite <- E].
  - intros q j. unfold block. cbn [hdrs s' with_hdrs]. split.
    + intros (z & [[Hq <-]|[Hq Hz]]%lookup_insert_Some & Hql & <-); [left; split; [unfold h in Hq; lia|done]|].
      right. split; [intros ->; done|by exists z].
    + intros [[-> ->]|(Hq & z & Hz & Hql & <-)].
      * exists (mk_hdr n (h_cap x) (h_next x)). fold h. by rewrite lookup_insert_eq.
      * exists z. rewrite lookup_insert_ne by (unfold h; lia). done.
Qed.

(** The bytes of the other blocks. *)
Definition others_same (s s' : heap_t) (fl : list Z) (p : Z) : Prop :=
  ∀ r m i, block s fl r m → r ≠ p → 0 ≤ i < m → byte s' (r + i) = byte s (r + i).

Lemma realloc_ok s fl p k n : heap_ok s fl → block s fl p k → 1 ≤ n → n + 19 < 2147483648 → ∃ q s' fl', realloc p n s = Some (q, s') ∧
  heap_ok s' fl' ∧ others_same s s' fl p ∧
  (q = 0 ∧ (∀ r m, block s' fl' r m ↔ block s fl r m) ∧ (∀ a, byte s' a = byte s a) ∨
   q ≠ 0 ∧ (∀ r m, block s' fl' r m ↔ r = q ∧ m = n ∨ r ≠ q ∧ r ≠ p ∧ block s fl r m) ∧
   ∀ i, 0 ≤ i < Z.min k n → byte s' (q + i) = byte s (p + i)).
Proof.
  intros Hok Hbl Hn Hb. destruct (block_hdr _ _ _ _ Hok Hbl) as (Eu & Hp0 & x & Hx & Hpl & Hs & Hk & Hcap).
  unfold realloc. rewrite (proj2 (Z.eqb_neq p 0)), (proj2 (Z.eqb_neq n 0)) by lia. rewrite Eu. unfold mbind at 1, M_bind at 1, get_hdr at 1. rewrite Hx.
  cbn [mbind option_bind]. destruct (need_ok n ltac:(lia) ltac:(lia)) as (En & Hneed & _). destruct (Z.leb_spec (need_of n) (h_cap x)) as [Hle|Hgt].
  - destruct (resized_ok s fl p k n x Hok Hbl Hx ltac:(lia) ltac:(lia)) as [K1 K2]. exists p. eexists _, fl. split; [reflexivity|].
    split; [exact K1|]. split; [by intros ? ? ? ?|]. right. split; [done|]. split; [|done]. intros r m. rewrite K2. naive_solver.
  - destruct (malloc_ok s fl n Hok ltac:(lia) Hb) as (q & s1 & fl1 & E & Hok1 & Eb & Hcase). unfold mbind at 1, M_bind at 1. rewrite E.
    destruct Hcase as [[-> Hbs]|(Hq0 & _ & Hf & Hbs)].
    { exists 0, s1, fl1. split; [done|]. split; [done|]. unfold others_same, byte. rewrite Eb. split; [done|]. by left. }
    rewrite (proj2 (Z.eqb_neq q 0)) by done. assert (Hb1 : block s1 fl1 p k) by (apply Hbs; by right). assert (Hq1 : block s1 fl1 q n) by (apply Hbs; by left).
    assert (Hqp : q ≠ p) by (intros ->; by apply (Hf k)).
    destruct (block_hdr _ _ _ _ Hok1 Hb1) as (_ & _ & y & Hy & _ & Hsy & _). unfold mbind at 1, M_bind at 1, get_hdr at 1. rewrite Hy. cbn [mbind option_bind].
    rewrite Hsy. set (copy := if k <? n then k else n). assert (Hcopy : copy = Z.min k n) by (unfold copy; destruct (Z.ltb_spec k n); lia).
    unfold mbind at 1, M_bind at 1, h_memcpy, modify. set (m2 := set_bytes _ _ _). 
    destruct (free_ok (with_bytes m2 s1) fl1 p k (heap_ok_bytes _ _ _ Hok1) Hb1) as (s3 & fl3 & E3 & Hok3 & Eb3 & Hbs3).
    unfold mbind, M_bind. rewrite E3. exists q, s3, fl3. split; [done|]. split; [done|].
    assert (Eby : ∀ a, byte s3 a = if decide (q ≤ a < q + Z.of_nat (Z.to_nat copy)) then default 0 (get_bytes (Z.to_nat copy) p s1 !! Z.to_nat (a - q)) else byte s a).
    { intros a. unfold byte. rewrite Eb3. cbn [with_bytes bytes]. unfold m2. rewrite set_bytes_lookup, get_bytes_length, Eb. done. }
    split.
    + intros r m i Hr Hrp Hi. rewrite Eby, decide_False; [done|]. assert (Hr1 : block s1 fl1 r m) by (apply Hbs; by right).
      assert (Hrq : r ≠ q) by (intros ->; by apply (Hf m)).
      destruct (blocks_disjoint _ _ _ _ _ _ Hok1 Hr1 Hq1 Hrq); unfold HDR in *; lia.
    + right. split; [done|]. split.
      * intros r m. rewrite Hbs3. change (block (with_bytes m2 s1) fl1 r m) with (block s1 fl1 r m). rewrite Hbs. split.
        -- intros [Hrp [[-> ->]|Hr]]; [by left|]. right. split; [intros ->; by apply (Hf m)|done].
        -- intros [[-> ->]|(_ & Hrp & Hr)]; [by split; [|left]|by split; [|right]].
      * intros i Hi. rewrite Eby, decide_True by lia. rewrite get_bytes_lookup by lia. unfold byte. cbn [default]. rewrite Eb. unfold id.
        replace (p + Z.of_nat (Z.to_nat (q + i - q))) with (p + i) by lia. done.
Qed.

Lemma calloc_ok s fl n sz : heap_ok s fl → 0 ≤ n → 0 ≤ sz → n * sz + 19 < 2147483648 → ∃ p s' fl', calloc n sz s = Some (p, s') ∧ heap_ok s' fl' ∧
  others_same s s' fl 0 ∧
  (p = 0 ∧ (∀ q k, block s' fl' q k ↔ block s fl q k) ∨
   p ≠ 0 ∧ fresh s fl p ∧ (∀ q k, block s' fl' q k ↔ q = p ∧ k = n * sz ∨ block s fl q k) ∧
   ∀ i, 0 ≤ i < n * sz → byte s' (p + i) = 0).
Proof.
  intros Hok Hn Hsz Hb. unfold calloc. assert (Hg : negb (n =? 0) && (4294967295 / n <? sz) = false).
  { destruct (Z.eqb_spec n 0) as [->|Hne]; [done|]. cbn [negb andb]. apply Z.ltb_ge. apply Z.div_le_lower_bound; lia. }
  rewrite Hg. rewrite u32_small by (unfold is_u32; nia).
  destruct (malloc_ok s fl (n * sz) Hok ltac:(nia) Hb) as (p & s1 & fl1 & E & Hok1 & Eb & Hcase). unfold mbind at 1, M_bind at 1. rewrite E.
  destruct Hcase as [[-> Hbs]|(Hp0 & H1 & Hf & Hbs)].
  { exists 0, s1, fl1. split; [done|]. split; [done|]. unfold others_same, byte. rewrite Eb. split; [done|]. by left. }
  rewrite (proj2 (Z.eqb_neq p 0)) by done. unfold mbind, M_bind, h_memset, modify. set (m2 := set_bytes _ _ _).
  exists p, (with_bytes m2 s1), fl1. split; [done|]. split; [by apply heap_ok_bytes|].
  assert (Hp1 : block s1 fl1 p (n * sz)) by (apply Hbs; by left).
  assert (Eby : ∀ a, byte (with_bytes m2 s1) a = if decide (p ≤ a < p + n * sz) then 0 else byte s a).
  { intros a. unfold byte. cbn [with_bytes bytes]. unfold m2. rewrite set_bytes_lookup, length_replicate, Eb, Z2Nat.id by lia. case_decide; [|done].
    change (u8 0) with 0. destruct (replicate _ 0 !! _) eqn:El; [|done]. apply lookup_replicate in El as [-> _]. done. }
  split.
  - intros r m i Hr _ Hi. rewrite Eby, decide_False; [done|]. assert (Hr1 : block s1 fl1 r m) by (apply Hbs; by right).
    assert (Hrp : r ≠ p) by (intros ->; by apply (Hf m)). destruct (blocks_disjoint _ _ _ _ _ _ Hok1 Hr1 Hp1 Hrp); unfold HDR in *; lia.
  - right. split; [done|]. split; [done|]. split; [done|]. intros i Hi. rewrite Eby, decide_True by lia. done.
Qed.

(** ** A client *)

(** What a program that uses the allocator correctly can do, with the contents it
    expects in the blocks that it holds: it frees and reallocates blocks it holds,
    stores inside of them, and asks for less than 2 GB. *)
Inductive client (s : heap_t) (L : gmap Z (list Z)) : heap_t → gmap Z (list Z) → Prop :=
  | cl_malloc n p s' : 0 ≤ n → n + 19 < 2147483648 → malloc n s = Some (p, s') →
      client s L s' (if decide (p = 0) then L else <[p := get_bytes (Z.to_nat n) p s']> L)
  | cl_calloc n sz p s' : 0 ≤ n → 0 ≤ sz → n * sz + 19 < 2147483648 → calloc n sz s = Some (p, s') →
      client s L s' (if decide (p = 0) then L else <[p := replicate (Z.to_nat (n * sz)) 0]> L)
  | cl_free p l s' : L !! p = Some l → free p s = Some (tt, s') → client s L s' (delete p L)
  | cl_realloc p l n q s' : L !! p = Some l → 1 ≤ n → n + 19 < 2147483648 → realloc p n s = Some (q, s') →
      client s L s' (if decide (q = 0) then L else
        <[q := take (Z.to_nat n) l ++ get_bytes (Z.to_nat n - length l) (q + Z.of_nat (length l)) s']> (delete p L))
  | cl_store p l i v : L !! p = Some l → (i < length l)%nat →
      client s L (with_bytes (<[p + Z.of_nat i := v]> (bytes s)) s) (<[p := <[i := v]> l]> L).

Inductive reach : heap_t → gmap Z (list Z) → Prop :=
  | reach_init s : hdrs s = ∅ → g_free_list s = 0 → brk_ok (brk s) → reach s ∅
  | reach_step s L s' L' : reach s L → client s L s' L' → reach s' L'.

Record inv (s : heap_t) (L : gmap Z (list Z)) (fl : list Z) : Prop := {
  inv_ok : heap_ok s fl;
  inv_blocks p n : block s fl p n ↔ ∃ l, L !! p = Some l ∧ Z.of_nat (length l) = n;
  inv_bytes p l i v : L !! p = Some l → l !! i = Some v → byte s (p + Z.of_nat i) = v
}.

Lemma inv_block s L fl p l : inv s L fl → L !! p = Some l → block s fl p (Z.of_nat (length l)).
Proof. intros Hi Hp. apply (inv_blocks _ _ _ Hi). eauto. Qed.

(** A new block with its contents. *)
Lemma inv_new s L fl s' fl' p l (D : gmap Z (list Z)) :
  inv s L fl → heap_ok s' fl' → (∀ q m, D !! q = Some m → L !! q = Some m) →
  (∀ q k, block s' fl' q k ↔ q = p ∧ k = Z.of_nat (length l) ∨ ∃ m, q ≠ p ∧ D !! q = Some m ∧ Z.of_nat (length m) = k) →
  (∀ q m i, D !! q = Some m → q ≠ p → 0 ≤ i < Z.of_nat (length m) → byte s' (q + i) = byte s (q + i)) →
  (∀ i v, l !! i = Some v → byte s' (p + Z.of_nat i) = v) → inv s' (<[p := l]> D) fl'.
Proof.
  intros Hi Hok HD Hbs Hby Hl. split; [done| |].
  - intros q k. rewrite Hbs. split.
    + intros [[-> ->]|(m & Hq & Hm & <-)]; [exists l; by rewrite lookup_insert_eq|exists m; by rewrite lookup_insert_ne].
    + intros (m & [[<- <-]|[Hq Hm]]%lookup_insert_Some & <-); [by left|right; exists m; naive_solver].
  - intros q m i v [[<- <-]|[Hq Hm]]%lookup_insert_Some Hv; [by apply Hl|]. apply lookup_lt_Some in Hv as Hlt.
    rewrite (Hby q m) by (done || lia). by apply (inv_bytes _ _ _ Hi q m i v); [apply HD|].
Qed.

Lemma same_blocks s L fl s' fl' : inv s L fl → heap_ok s' fl' → (∀ q k, block s' fl' q k ↔ block s fl q k) →
  (∀ q m i, L !! q = Some m → 0 ≤ i < Z.of_nat (length m) → byte s' (q + i) = byte s (q + i)) → inv s' L fl'.
Proof.
  intros Hi Hok Hbs Hby. split; [done| |].
  - intros q k. rewrite Hbs. apply (inv_blocks _ _ _ Hi).
  - intros q m i v Hm Hv. apply lookup_lt_Some in Hv as Hlt. rewrite (Hby q m) by (done || lia). by apply (inv_bytes _ _ _ Hi q m i v).
Qed.

Lemma not_fresh s L fl p l : inv s L fl → L !! p = Some l → fresh s fl p → False.
Proof. intros Hi Hp Hf. by apply (Hf (Z.of_nat (length l))), (inv_block _ L). Qed.

Lemma client_inv s L s' L' : (∃ fl, inv s L fl) → client s L s' L' → ∃ fl, inv s' L' fl.
Proof.
  intros (fl & Hi) Hc. pose proof (inv_ok _ _ _ Hi) as Hok.
  destruct Hc as [n p s' Hn Hb E|n sz p s' Hn Hsz Hb E|p l s' Hp E|p l n q s' Hp Hn Hb E|p l i v Hp Hlt].
  - destruct (malloc_ok s fl n Hok Hn Hb) as (p' & s1 & fl1 & E1 & Hok1 & Eb & Hcase). assert (p' = p ∧ s1 = s') as [-> ->] by naive_solver. exists fl1.
    assert (Eby : ∀ a, byte s' a = byte s a) by (intros a; unfold byte; by rewrite Eb).
    destruct Hcase as [[-> Hbs]|(Hp0 & _ & Hf & Hbs)]; [rewrite decide_True by done; by apply (same_blocks s L fl)|].
    rewrite decide_False by done. apply (inv_new s L fl); [done|done|done| |done|].
    + intros q k. rewrite get_bytes_length, Z2Nat.id, Hbs by done. apply or_iff_compat_l. rewrite (inv_blocks _ _ _ Hi). split; [|naive_solver].
      intros (l & Hl & <-). exists l. split; [intros ->; by apply (not_fresh s L fl p l)|done].
    + intros i v Hv. apply lookup_lt_Some in Hv as Hlt. rewrite get_bytes_length in Hlt. rewrite get_bytes_lookup in Hv by done. naive_solver.
  - destruct (calloc_ok s fl n sz Hok Hn Hsz Hb) as (p' & s1 & fl1 & E1 & Hok1 & Ho & Hcase). assert (p' = p ∧ s1 = s') as [-> ->] by naive_solver. exists fl1.
    assert (Hoth : ∀ q m i, L !! q = Some m → 0 ≤ i < Z.of_nat (length m) → byte s' (q + i) = byte s (q + i)).
    { intros q m i Hm Hi'. pose proof (inv_block _ _ _ _ _ Hi Hm) as Hbq. apply (Ho q _ i Hbq); [|done]. apply (block_hdr _ _ _ _ Hok Hbq). }
    destruct Hcase as [[-> Hbs]|(Hp0 & Hf & Hbs & Hz)]; [rewrite decide_True by done; by apply (same_blocks s L fl)|].
    rewrite decide_False by done. apply (inv_new s L fl); [done|done|done| |by eauto|].
    + intros q k. rewrite length_replicate, Z2Nat.id, Hbs by nia. apply or_iff_compat_l. rewrite (inv_blocks _ _ _ Hi). split; [|naive_solver].
      intros (l & Hl & <-). exists l. split; [intros ->; by apply (not_fresh s L fl p l)|done].
    + intros i v [-> Hlt]%lookup_replicate. apply Hz. lia.
  - pose proof (inv_block _ _ _ _ _ Hi Hp) as Hbl. destruct (free_ok s fl p _ Hok Hbl) as (s1 & fl1 & E1 & Hok1 & Eb & Hbs).
    assert (s1 = s') as -> by naive_solver. exists fl1. split; [done| |].
    + intros q k. rewrite Hbs, (inv_blocks _ _ _ Hi). split.
      * intros (Hq & m & Hm & <-). exists m. by rewrite lookup_delete_ne.
      * intros (m & [Hq Hm]%lookup_delete_Some & <-). naive_solver.
    + intros q m i v [_ Hm]%lookup_delete_Some Hv. unfold byte. rewrite Eb. by apply (inv_bytes _ _ _ Hi q m i v).
  - pose proof (inv_block _ _ _ _ _ Hi Hp) as Hbl. destruct (realloc_ok s fl p _ n Hok Hbl Hn Hb) as (q' & s1 & fl1 & E1 & Hok1 & Ho & Hcase).
    assert (q' = q ∧ s1 = s') as [-> ->] by naive_solver. exists fl1.
    destruct Hcase as [(-> & Hbs & Hby)|(Hq0 & Hbs & Hcp)]; [rewrite decide_True by done; by apply (same_blocks s L fl)|].
    rewrite decide_False by done. set (l' := take _ _ ++ _).
    assert (Hl' : length l' = Z.to_nat n) by (unfold l'; rewrite length_app, length_take, get_bytes_length; lia).
    apply (inv_new s L fl); [done|done|by intros r m [_ ?]%lookup_delete_Some| | |].
    + intros r k. rewrite Hl', Z2Nat.id, Hbs by lia. apply or_iff_compat_l. rewrite (inv_blocks _ _ _ Hi). split.
      * intros (Hrq & Hrp & m & Hm & <-). exists m. by rewrite lookup_delete_ne.
      * intros (m & Hrq & [Hrp Hm]%lookup_delete_Some & <-). naive_solver.
    + intros r m i [Hrp Hm]%lookup_delete_Some Hrq Hi'. by apply (Ho r _ i (inv_block _ _ _ _ _ Hi Hm)).
    + intros i v Hv. apply lookup_lt_Some in Hv as Hlt. rewrite Hl' in Hlt. unfold l' in Hv.
      destruct (decide (i < length l)%nat) as [Hil|Hil].
      * rewrite lookup_app_l, lookup_take_lt in Hv by (rewrite ?length_take; lia). rewrite Hcp by lia. by apply (inv_bytes _ _ _ Hi p l i v).
      * rewrite lookup_app_r in Hv by (rewrite ?length_take; lia). rewrite length_take, Nat.min_r in Hv by lia.
        rewrite get_bytes_lookup in Hv by lia. injection Hv as <-. f_equal. lia.
  - exists fl. pose proof (inv_block _ _ _ _ _ Hi Hp) as Hbl. split; [by apply heap_ok_bytes| |].
    + intros q k. change (block (with_bytes _ s) fl q k) with (block s fl q k). rewrite (inv_blocks _ _ _ Hi). split.
      * intros (m & Hm & <-). destruct (decide (q = p)) as [->|Hq]; [|exists m; by rewrite lookup_insert_ne].
        exists (<[i := v]> l). rewrite lookup_insert_eq, length_insert. split; [done|]. congruence.
      * intros (m & [[<- <-]|[Hq Hm]]%lookup_insert_Some & <-); [exists l; by rewrite length_insert|by exists m].
    + intros q m j w Hm Hw. unfold byte. cbn [with_bytes bytes]. apply lookup_insert_Some in Hm as [[<- <-]|[Hq Hm]].
      * destruct (decide (i = j)) as [<-|Hij].
        -- rewrite list_lookup_insert_eq in Hw by done. injection Hw as <-. by rewrite lookup_insert_eq.
        -- rewrite list_lookup_insert_ne in Hw by done. rewrite lookup_insert_ne by lia. by apply (inv_bytes _ _ _ Hi p l j w).
      * apply lookup_lt_Some in Hw as Hlt'. pose proof (blocks_disjoint _ _ _ _ _ _ Hok Hbl (inv_block _ _ _ _ _ Hi Hm) Hq) as Hd. unfold HDR in Hd.
        rewrite lookup_insert_ne by lia. by apply (inv_bytes _ _ _ Hi q m j w).
Qed.

Lemma reach_inv s L : reach s L → ∃ fl, inv s L fl.
Proof.
  induction 1 as [s Hh Hl Hb|s L s' L' _ IH Hc]; [|by apply (client_inv s L)]. exists []. split.
  - split; rewrite ?Hh, ?Hl; try done. constructor.
  - intros p n. unfold block. rewrite Hh. naive_solver.
  - intros p l i v. by rewrite lookup_empty.
Qed.

Lemma inv_contents s L fl p l : inv s L fl → L !! p = Some l → get_bytes (length l) p s = l.
Proof.
  intros Hi Hp. apply list_eq. intros i. destruct (decide (i < length l)%nat) as [Hlt|Hge].
  - rewrite get_bytes_lookup by done. destruct (lookup_lt_is_Some_2 l i Hlt) as [v Hv]. rewrite Hv. f_equal. by apply (inv_bytes _ _ _ Hi p l i v).
  - rewrite !lookup_ge_None_2; rewrite ?get_bytes_length; (done || lia).
Qed.
End malloc.
Arguments heap_t : clear implicits.

(** C14 (refinement): in every state that a correct client reaches with [malloc],
    [calloc], [realloc], [free] and stores into its blocks, the blocks it holds
    contain the bytes that the abstract view of separate arrays predicts, lie below
    the break in memory that the program may use, and overlap neither one another
    nor a header; and a further call
    returns: [malloc] gives NULL or a pointer to a block not held, [free] of a held
    block succeeds. *)
Theorem malloc_client_correct `{Brk B} (s : heap_t B) (L : gmap Z (list Z)) : reach s L →
  (∀ p l, L !! p = Some l → get_bytes (length l) p s = l ∧ HDR < p ∧ p + Z.of_nat (length l) ≤ top (brk s) ∧
     ∀ a, p - HDR ≤ a < p + Z.of_nat (length l) → usable (brk s) a) ∧
  (∀ p l q k, L !! p = Some l → L !! q = Some k → p ≠ q →
     p + Z.of_nat (length l) ≤ q - HDR ∨ q + Z.of_nat (length k) ≤ p - HDR) ∧
  (∀ n, 0 ≤ n → n + 19 < 2147483648 → ∃ p s', malloc n s = Some (p, s') ∧ (p ≠ 0 → L !! p = None)) ∧
  (∀ p l, L !! p = Some l → ∃ s', free p s = Some (tt, s')).
Proof.
  intros (fl & Hi)%reach_inv. pose proof (inv_ok _ _ _ Hi) as Hok. split; [|split; [|split]].
  - intros p l Hp. pose proof (inv_block _ _ _ _ _ Hi Hp) as Hbl. destruct (block_range _ _ _ _ Hok Hbl) as (H1 & _ & H3).
    assert (Hu : ∀ a, p - HDR ≤ a < p + Z.of_nat (length l) → usable (brk s) a).
    { destruct (block_hdr _ _ _ _ Hok Hbl) as (_ & _ & x & Hx & _ & _ & _ & Hcap). intros a Ha. apply (ho_usable _ _ Hok (p - HDR) x); [done|lia]. }
    split; [by apply (inv_contents _ _ _ _ _ Hi)|done].
  - intros p l q k Hp Hq Hne. apply (blocks_disjoint s fl); [done|by apply (inv_block _ L)|by apply (inv_block _ L)|done].
  - intros n Hn Hb. destruct (malloc_ok s fl n Hok Hn Hb) as (p & s' & fl' & E & _ & _ & Hcase). exists p, s'. split; [done|]. intros Hp.
    destruct Hcase as [[-> _]|(_ & _ & Hf & _)]; [done|]. destruct (L !! p) as [l|] eqn:El; [|done]. exfalso. by apply (not_fresh s L fl p l).
  - intros p l Hp. destruct (free_ok s fl p _ Hok (inv_block _ _ _ _ _ Hi Hp)) as (s' & fl' & E & _). eauto.
Qed.

(** A heap of 64 KB. *)
Definition lin_brk : Type := Z.
#[global] Program Instance lin_brk_brk : Brk lin_brk := {|
  sbrk n b := if (0 <=? n) && (b + n <=? 0x510000) then (b, b + n) else (SBRK_FAIL, b);
  top b := b;
  brk_ok b := 0 < b ≤ 0x510000;
  usable b a := a < b
|}.
Next Obligation. unfold HEAP_LIMIT. cbv beta. intros b H. lia. Qed.
Next Obligation.
  cbv beta. intros n b v b' Hb Hn. destruct (Z.leb_spec 0 n), (Z.leb_spec (b + n) 0x510000); cbn [andb]; intros [= <- <-]; (split; [lia|]); (split; [intros; lia|]);
    [right; split; [done|]; split; [done|]; split; [done|]; intros; lia|by left..].
Qed.

Definition heap0 : heap_t lin_brk := mk_heap ∅ 0 ∅ 0x500000.

Lemma malloc_client_correct_witness : ∃ s L, reach s L ∧ L !! 0x50000C = Some [7; 0; 0] ∧ get_bytes 3 0x50000C s = [7; 0; 0].
Proof.
  set (s1 := (default (0, heap0) (calloc 3 1 heap0)).2). exists (with_bytes (<[0x50000C + Z.of_nat 0 := 7]> (bytes s1)) s1).
  exists (<[0x50000C := [7; 0; 0]]> (<[0x50000C := [0; 0; 0]]> ∅)).
  assert (R1 : reach s1 (<[0x50000C := [0; 0; 0]]> ∅)).
  { eapply reach_step; [apply (reach_init heap0); [done|done|split; [done|]; by vm_compute]|].
    apply (cl_calloc heap0 ∅ 3 1 0x50000C s1); [done|done|done|]. by vm_compute. }
  assert (R2 : reach (with_bytes (<[0x50000C + Z.of_nat 0 := 7]> (bytes s1)) s1) (<[0x50000C := [7; 0; 0]]> (<[0x50000C := [0; 0; 0]]> ∅))).
  { eapply reach_step; [exact R1|]. apply (cl_store s1 _ 0x50000C [0; 0; 0] 0 7); [done|simpl; lia]. }
  split; [exact R2|]. split; [done|]. destruct (malloc_client_correct _ _ R2) as [K _]. by destruct (K 0x50000C [7; 0; 0] eq_refl) as [K1 _].
Defined.

(** The size of a request wraps: for almost 4 GB a block of 8 bytes is returned,
    which is smaller than its header. *)
Lemma malloc_size_wraps n : 4294967285 ≤ n < 4294967296 → need_of n ≤ 16 ∧ need_of n < n.
Proof.
  intros Hn. unfold need_of, align8, HDR. assert (E : u32 (n + 12) = n + 12 - 4294967296) by mlia. rewrite E.
  rewrite u32_small by (unfold is_u32; lia). change 7 with (2 ^ 3 - 1). rewrite mask_down by (unfold is_u32; lia).
  change (2 ^ 3) with 8. Z.div_mod_to_equations. lia.
Qed.

Example malloc_huge : (λ '(p, s), (p, hdrs s !! 0x500000, brk s)) <$> malloc 0xFFFFFFF8 heap0 =
  Some (0x50000C, Some (mk_hdr 0xFFFFFFF8 8 0), 0x500008).
Proof. by vm_compute. Qed.
