(* ===== verification/MallocKernel.v ===== *)
(** * The allocator over the system call

    [sbrk] of [src/userland/syscalls.c] is the system call SYS_SBRK.  The state of
    the kernel in which a user task runs has the contract of [LibcMalloc.Brk], so
    that the properties of [malloc] hold for programs that run on this kernel. *)

From S2P Require Import Prelude KHeap Pmm Paging PhysMem Vfs Loader Task Syscall SyscallSpec LibcMalloc.

Section kernel_brk.
Context {K H N V : Type} `{!KHeap H} `{!NetSockets N} `{!NetOps N} `{!VgaOps V}.
Notation SS := (sys K H N V).

(** [sbrk(increment)]: the word that the call returns. *)
Definition sys_sbrk (increment : Z) (s : SS) : Z * SS :=
  match syscall_handler SYS_SBRK (u32 increment) 0 0 s with
  | Some (SRet v, s') => (v, s')
  | _ => (SBRK_FAIL, s)
  end.

Definition task_top (s : SS) : Z :=
  match k_current (s_kern s) ≫= λ c, k_tasks (s_kern s) !! c with Some t => current_brk t | None => 0 end.

(** A user address below the end of the heap that the processor translates, for the
    user and for writing. *)
Definition heap_byte (s : SS) (a : Z) : Prop :=
  user_va a ∧ a < page_up (task_top s) ∧ ∃ pa, translate (pg_mem (s_paging s)) (pg_cr3 (s_paging s)) a = Some (pa, 7).

(** A user task runs whose program lies in the user region and whose heap is mapped. *)
Definition runs_user (s : SS) : Prop :=
  ∃ c t d, user_task s c t d ∧ user_va (t_user_brk_min t) ∧ user_va (t_user_brk t) ∧
           ∀ a, t_user_brk_min t ≤ a < page_up (current_brk t) → heap_byte s a.

Lemma task_top_eq s c t d : user_task s c t d → task_top s = current_brk t.
Proof. intros [Hc Ht _ _ _ _ _]. unfold task_top. rewrite Hc. cbn [mbind option_bind]. by rewrite Ht. Qed.

Lemma handler_sbrk (s : SS) n : syscall_handler SYS_SBRK n 0 0 s = (v ← sys_do_sbrk (s32 n); ret v) s.
Proof. done. Qed.

Lemma sbrk_negative (s : SS) c t d n : user_task s c t d → n < 0 → sys_do_sbrk n s = Some (ERR, s).
Proof.
  intros [Hc Ht Hk Hd _ _ _] Hn. unfold sys_do_sbrk, mbind, M_bind, get, s_current, task_current. rewrite Hc. cbn [mbind option_bind].
  rewrite Ht, Hk, Hd. by rewrite (proj2 (Z.ltb_lt _ _)).
Qed.

(** The task keeps running after the call, with another break. *)
Lemma user_task_after (s : SS) c t d p' t' : user_task s c t d → confined d (s_paging s) p' →
  t_is_kernel t' = t_is_kernel t → t_page_dir t' = t_page_dir t →
  user_task (with_kern (with_tasks (<[c := t']> (k_tasks (s_kern s))) (with_paging p' (s_kern s))) s) c t' d.
Proof.
  intros [Hc Ht Hk Hd Hw Hs Hr] HC Ek Ed. split.
  - done.
  - apply list_lookup_insert_eq. by eapply lookup_lt_Some.
  - congruence.
  - congruence.
  - apply HC.
  - apply HC.
  - destruct (cf_globals _ _ _ HC) as (_ & _ & _ & _ & E). change (s_paging _) with p'. congruence.
Qed.

Lemma user_task_paging (s : SS) c t d p' : user_task s c t d → confined d (s_paging s) p' →
  user_task (with_kern (with_paging p' (s_kern s)) s) c t d.
Proof.
  intros [Hc Ht Hk Hd Hw Hs Hr] HC. split; try done; try apply HC.
  destruct (cf_globals _ _ _ HC) as (_ & _ & _ & _ & E). change (s_paging _) with p'. congruence.
Qed.

Lemma page_up_le x y : x ≤ y → page_up x ≤ page_up y.
Proof. intros Hx. unfold page_up. Z.div_mod_to_equations. lia. Qed.
Lemma page_up_ge x : x ≤ page_up x.
Proof. unfold page_up. Z.div_mod_to_equations. lia. Qed.

(** A byte of the heap stays one when its translation is kept and the break does not go down. *)
Lemma heap_byte_kept (s s' : SS) c t d a new : user_task s c t d → pg_cr3 (s_paging s') = d → task_top s ≤ task_top s' →
  (∀ va, is_u32 va → ¬ page_up (task_top s) ≤ va < page_up new →
     translate (pg_mem (s_paging s')) d va = translate (pg_mem (s_paging s)) d va) →
  heap_byte s a → heap_byte s' a.
Proof.
  intros [_ _ _ _ _ _ Hr] Hr' Htop Hout (Hva & Hlt & pa & Hpa). split; [done|]. pose proof (page_up_le _ _ Htop). split; [lia|].
  exists pa. rewrite Hr', Hout by (unfold user_va, USER_REGION_START, USER_REGION_END, is_u32 in *; lia). by rewrite <- Hr.
Qed.

Lemma sys_sbrk_ok (s : SS) n v s' : runs_user s → -2147483648 ≤ n < 2147483648 → sys_sbrk n s = (v, s') →
  runs_user s' ∧ (∀ a, heap_byte s a → heap_byte s' a) ∧
  (v = SBRK_FAIL ∧ task_top s' = task_top s ∨
   0 ≤ n ∧ v = task_top s ∧ task_top s' = task_top s + n ∧ ∀ a, task_top s ≤ a < task_top s + n → heap_byte s' a).
Proof.
  intros (c & t & d & Hu & Hmin & Hbrk & Hmap) Hn. unfold sys_sbrk. rewrite handler_sbrk, s32_u32, s32_small by done. unfold mbind, M_bind.
  destruct (decide (n < 0)) as [Hneg|Hpos].
  { rewrite (sbrk_negative s c t d n Hu Hneg). intros [= <- <-]. split; [by exists c, t, d|]. split; [done|]. by left. }
  destruct (sbrk_ok s c t d n Hu Hmin Hbrk ltac:(lia)) as (w & s1 & -> & HC & _ & _ & Hout & Hcase). unfold ret, mret, M_ret. intros [= <- <-].
  pose proof (task_top_eq s c t d Hu) as Htop. rewrite <- Htop in *.
  assert (Hr' : pg_cr3 (s_paging s1) = d).
  { destruct (cf_globals _ _ _ HC) as (_ & _ & _ & _ & ->). apply Hu. }
  unfold user_va, USER_REGION_START, USER_REGION_END in Hmin, Hbrk.
  destruct Hcase as [[-> Es]|(-> & Hlt & Es & Hfresh)].
  - assert (Hu1 : user_task s1 c t d) by (rewrite Es; by apply user_task_paging). pose proof (task_top_eq s1 c t d Hu1) as Htop1.
    assert (Hkept : ∀ a, heap_byte s a → heap_byte s1 a) by (intros a; apply (heap_byte_kept s s1 c t d a (task_top s + n)); (done || lia)).
    split; [|split; [done|left; split; [done|congruence]]]. exists c, t, d. split; [done|]. split; [done|]. split; [done|].
    intros a Ha. apply Hkept, Hmap. by rewrite <- Htop1, Htop1, <- Htop in Ha.
  - set (new := task_top s + n) in *. assert (Hle : t_user_brk_min t ≤ task_top s) by (rewrite Htop; unfold current_brk; lia).
    set (t1 := set_brk (t_user_brk_min t) new t). assert (Hu1 : user_task s1 c t1 d) by (rewrite Es; by apply (user_task_after s c t d)).
    assert (Htop1 : task_top s1 = new).
    { rewrite (task_top_eq s1 c t1 d Hu1). unfold current_brk. change (t_user_brk t1) with new. change (t_user_brk_min t1) with (t_user_brk_min t). unfold new. lia. }
    change USER_STACK_BASE_VADDR with 0xBFFF0000 in Hlt.
    assert (Hkept : ∀ a, heap_byte s a → heap_byte s1 a) by (intros a; apply (heap_byte_kept s s1 c t d a new); (done || (unfold new in *; lia))).
    assert (Hnew : ∀ a, task_top s ≤ a < page_up new → heap_byte s1 a).
    { intros a Ha. destruct (decide (a < page_up (task_top s))) as [Hlo|Hhi]; [apply Hkept, Hmap; lia|].
      destruct (Hfresh a ltac:(lia)) as (g & Hg & _). unfold heap_byte. rewrite Htop1, Hr'. split; [|split; [lia|by eexists]].
      unfold user_va, USER_REGION_START, USER_REGION_END. unfold page_up in Ha. split; [lia|]. Z.div_mod_to_equations. lia. }
    split; [|split; [done|right; split; [lia|split; [apply u32_small; unfold is_u32, new in *; lia|split; [done|]]]]].
    + exists c, t1, d. split; [done|]. split; [done|]. change (t_user_brk t1) with new. change (t_user_brk_min t1) with (t_user_brk_min t).
      split; [unfold user_va, USER_REGION_START, USER_REGION_END, new in *; lia|]. rewrite <- (task_top_eq s1 c t1 d Hu1), Htop1. intros a Ha.
      destruct (decide (a < task_top s)) as [Hlo|Hhi]; [|apply Hnew; lia]. apply Hkept, Hmap.
      pose proof (page_up_ge (task_top s)). lia.
    + intros a Ha. apply Hnew. pose proof (page_up_ge new). unfold new in *. lia.
Qed.

#[global] Program Instance kernel_brk : Brk SS := {|
  sbrk := sys_sbrk;
  top := task_top;
  brk_ok := runs_user;
  usable := heap_byte
|}.
Next Obligation.
  cbv beta. intros s (c & t & d & Hu & Hmin & Hbrk & _). rewrite (task_top_eq s c t d Hu). unfold current_brk, HEAP_LIMIT.
  unfold user_va, USER_REGION_START, USER_REGION_END in *. lia.
Qed.
Next Obligation. cbv beta. intros n s v s'. apply sys_sbrk_ok. Qed.
End kernel_brk.

(** C13 (safety): a program that runs on the kernel and uses [malloc], [calloc],
    [realloc] and [free] over the system call SYS_SBRK holds blocks with the contents
    that it stored; every byte of a block and of its header is translated by the page
    tables of the task for writing by the user, and blocks do not overlap. *)
Theorem malloc_on_kernel {K H N V} `{!KHeap H} `{!NetSockets N} `{!NetOps N} `{!VgaOps V} (s : heap_t (sys K H N V)) L p l :
  reach s L → L !! p = Some l →
  get_bytes (length l) p s = l ∧
  (∀ a, p - HDR ≤ a < p + Z.of_nat (length l) → user_va a ∧
     ∃ pa, translate (pg_mem (s_paging (brk s))) (pg_cr3 (s_paging (brk s))) a = Some (pa, 7)) ∧
  (∀ q k, L !! q = Some k → p ≠ q → p + Z.of_nat (length l) ≤ q - HDR ∨ q + Z.of_nat (length k) ≤ p - HDR).
Proof.
  intros (fl & Hi)%reach_inv Hp. pose proof (inv_ok _ _ _ Hi) as Hok. pose proof (inv_block _ _ _ _ _ Hi Hp) as Hbl.
  split; [by apply (inv_contents _ _ _ _ _ Hi)|]. split.
  - destruct (block_hdr _ _ _ _ Hok Hbl) as (_ & _ & x & Hx & _ & _ & _ & Hcap). intros a Ha.
    destruct (ho_usable _ _ Hok (p - HDR) x a Hx) as (H1 & _ & H2); [lia|]. done.
  - intros q k Hq Hne. apply (blocks_disjoint s fl); [done|done|by apply (inv_block _ L)|done].
Qed.

(** The task of [SyscallSpec] asks for 100 bytes. *)
Lemma malloc_on_kernel_witness : ∃ (s : heap_t (sys Z (set_heap 8) unit unit)) p l, reach s {[ p := l ]} ∧ length l = 100%nat ∧ user_va p ∧
  ∃ pa, translate (pg_mem (s_paging (brk s))) (pg_cr3 (s_paging (brk s))) p = Some (pa, 7).
Proof.
  set (s0 := mk_heap ∅ 0 ∅ demo_sys).
  assert (R0 : reach s0 ∅).
  { apply reach_init; [done|done|]. exists 1%nat, demo_task, 0x310000. split; [exact demo_user_task|].
    split; [vm_compute; split; [discriminate|reflexivity]|]. split; [vm_compute; split; [discriminate|reflexivity]|].
    intros a Ha. change (t_user_brk_min demo_task) with 0x402000 in Ha. change (page_up (current_brk demo_task)) with 0x402000 in Ha. lia. }
  assert (E : fst <$> malloc 100 s0 = Some 0x40200C) by (vm_compute; reflexivity).
  destruct (malloc 100 s0) as [[p s1]|] eqn:Em; [|discriminate E]. injection E as ->.
  assert (R1 : reach s1 {[0x40200C := get_bytes 100 0x40200C s1]}) by (eapply reach_step; [exact R0|by apply (cl_malloc s0 ∅ 100 0x40200C s1)]).
  exists s1, 0x40200C, (get_bytes 100 0x40200C s1). split; [exact R1|]. split; [apply get_bytes_length|].
  destruct (malloc_on_kernel s1 _ 0x40200C (get_bytes 100 0x40200C s1) R1) as (_ & K & _); [by rewrite lookup_singleton_eq|].
  apply K. rewrite get_bytes_length. unfold HDR. lia.
Defined.
