(* ===== verification/Ld86.v ===== *)
(** * The linker ([src/userland/ld86.c])

    [ld86] joins objects, raw binaries and archives into an ELF program for this
    kernel.  Files are lists of bytes; a read outside of one is [Ub].  Errors that
    end the program with status 1 are [Die]; memory allocation succeeds and messages
    are left out. *)

From S2P Require Import Prelude Bytes LibcString LibcNum.

(** ** Results *)

Inductive R (A : Type) := Ret (a : A) | Die | Ub.
Arguments Ret {A} a.
Arguments Die {A}.
Arguments Ub {A}.

#[global] Instance R_ret : MRet R := @Ret.
#[global] Instance R_bind : MBind R := λ A B f m, match m with Ret a => f a | Die => Die | Ub => Ub end.

Definition of_opt {A} (o : option A) : R A := match o with Some a => Ret a | None => Ub end.
Definition ensure (b : bool) : R unit := if b then Ret tt else Die.

Lemma R_bind_Ret {A B} (m : R A) (f : A → R B) b : (m ≫= f) = Ret b ↔ ∃ a, m = Ret a ∧ f a = Ret b.
Proof. destruct m; cbn; naive_solver. Qed.

(** ** Constants *)

Definition MAX_INPUTS : nat := 128.
Definition MOBJ_SYM_GLOBAL : Z := 1.
Definition MOBJ_RELOC_ABS32 : Z := 1.
Definition MOBJ_RELOC_REL32 : Z := 2.
Definition ELF_ET_REL : Z := 1.
Definition ELF_EM_386 : Z := 3.
Definition ELF_SHT_PROGBITS : Z := 1.
Definition ELF_SHT_SYMTAB : Z := 2.
Definition ELF_SHT_STRTAB : Z := 3.
Definition ELF_SHT_NOBITS : Z := 8.
Definition ELF_SHT_REL : Z := 9.
Definition ELF_SHF_WRITE : Z := 1.
Definition ELF_SHF_ALLOC : Z := 2.
Definition ELF_SHF_EXECINSTR : Z := 4.
Definition ELF_SHN_UNDEF : Z := 0.
Definition ELF_SHN_ABS : Z := 0xFFF1.
Definition ELF_STB_GLOBAL : Z := 1.
Definition ELF_STB_WEAK : Z := 2.
Definition ELF_R_386_32 : Z := 1.
Definition ELF_R_386_PC32 : Z := 2.
Definition SEC_TEXT : Z := 0.
Definition SEC_RODATA : Z := 1.
Definition SEC_DATA : Z := 2.
Definition SEC_BSS : Z := 3.
Definition SEC_UNDEF : Z := 0xFFFFFFFF.

(** ** Bytes of a file *)

Definition rd8 (b : list Z) (i : Z) : R Z := of_opt (zlookup b i).
Definition rd16 (b : list Z) (i : Z) : R Z := x ← rd8 b i; y ← rd8 b (i + 1); Ret (x + 256 * y).

Definition rd32 (b : list Z) (i : Z) : R Z :=
  p0 ← rd8 b i; p1 ← rd8 b (i + 1); p2 ← rd8 b (i + 2); p3 ← rd8 b (i + 3);
  Ret (Z.lor (Z.lor (Z.lor p0 (Z.shiftl p1 8)) (Z.shiftl p2 16)) (Z.shiftl p3 24)).

Definition wr32 (b : list Z) (i v : Z) : R (list Z) :=
  b ← of_opt (zupdate b i (u8 (Z.land v 0xFF)));
  b ← of_opt (zupdate b (i + 1) (u8 (Z.land (Z.shiftr v 8) 0xFF)));
  b ← of_opt (zupdate b (i + 2) (u8 (Z.land (Z.shiftr v 16) 0xFF)));
  of_opt (zupdate b (i + 3) (u8 (Z.land (Z.shiftr v 24) 0xFF))).

(** [n] bytes from [off] on. *)
Definition slice (b : list Z) (off n : Z) : R (list Z) :=
  if (0 <=? off) && (0 <=? n) && (off + n <=? Z.of_nat (length b)) then Ret (take (Z.to_nat n) (drop (Z.to_nat off) b)) else Ub.

Definition copy_to (b : list Z) (off : Z) (l : list Z) : R (list Z) :=
  if (0 <=? off) && (off + Z.of_nat (length l) <=? Z.of_nat (length b)) then Ret (splice b (Z.to_nat off) l) else Ub.

Definition align_up (v a : Z) : Z := Z.land (u32 (v + a - 1)) (u32 (Z.lnot (a - 1))).

(** ** Objects *)

Record mobj_sym_t := mk_sym { s_name : list Z; s_value_off : Z; s_section : Z; s_flags : Z }.
Record mobj_reloc_t := mk_reloc { r_section : Z; r_offset : Z; r_type : Z; r_sym_index : Z; r_addend : Z }.

Record input_t := mk_input {
  in_is_obj : bool;
  in_obj_version : Z;
  in_entry_off : Z;
  in_payload : list Z;
  in_bss_size : Z;
  in_sec_base : list Z;
  in_syms : list mobj_sym_t;
  in_rels : list mobj_reloc_t;
  in_image_off : Z
}.

Definition payload_size (i : input_t) : Z := Z.of_nat (length (in_payload i)).
Definition sec_base (i : input_t) (sec : Z) : R Z := of_opt (zlookup (in_sec_base i) sec).

Definition with_image_off (off : Z) (i : input_t) : input_t :=
  mk_input (in_is_obj i) (in_obj_version i) (in_entry_off i) (in_payload i) (in_bss_size i) (in_sec_base i) (in_syms i) (in_rels i) off.

Definition SYM_SIZE : Z := 76.
Definition RELOC_SIZE : Z := 20.

Definition read_sym (b : list Z) (off : Z) : R mobj_sym_t :=
  name ← slice b off 64; v ← rd32 b (off + 64); sec ← rd32 b (off + 68); fl ← rd32 b (off + 72); Ret (mk_sym name v sec fl).

Definition read_reloc (b : list Z) (off : Z) : R mobj_reloc_t :=
  sec ← rd32 b off; o ← rd32 b (off + 4); ty ← rd32 b (off + 8); ix ← rd32 b (off + 12); add ← rd32 b (off + 16);
  Ret (mk_reloc sec o ty ix (s32 add)).

(** The [n] records of [size] bytes at [off]. *)
Fixpoint read_table {A} (rd : list Z → Z → R A) (size : Z) (n : nat) (b : list Z) (off : Z) : R (list A) :=
  match n with
  | O => Ret []
  | S n => x ← rd b off; l ← read_table rd size n b (off + size); Ret (x :: l)
  end.

Definition is_mobj_magic (b : list Z) : bool :=
  (8 <=? length b)%nat && bool_decide (take 4 b = [77; 79; 66; 74]).

Definition V1_SIZE : Z := 32.
Definition V2_SIZE : Z := 40.

Definition bases (text rodata data : Z) : list Z := [0; text; u32 (text + rodata); u32 (text + rodata + data)].

Definition parse_v1 (buf : list Z) : R input_t :=
  ensure (V1_SIZE <=? Z.of_nat (length buf));;
  entry ← rd32 buf 12; text ← rd32 buf 16; rodata ← rd32 buf 20; data ← rd32 buf 24; bss ← rd32 buf 28;
  let filesz := u32 (text + rodata + data) in
  ensure (u32 (V1_SIZE + filesz) <=? Z.of_nat (length buf));;
  payload ← slice buf V1_SIZE filesz;
  Ret (mk_input true 1 entry payload bss (bases text rodata data) [] [] 0).

Definition parse_v2 (buf : list Z) : R input_t :=
  ensure (V2_SIZE <=? Z.of_nat (length buf));;
  entry ← rd32 buf 12; text ← rd32 buf 16; rodata ← rd32 buf 20; data ← rd32 buf 24; bss ← rd32 buf 28;
  sym_count ← rd32 buf 32; reloc_count ← rd32 buf 36;
  let filesz := u32 (text + rodata + data) in
  let sym_bytes := u32 (sym_count * SYM_SIZE) in
  let rel_bytes := u32 (reloc_count * RELOC_SIZE) in
  ensure ((sym_count =? 0) || (sym_bytes / SYM_SIZE =? sym_count));;
  ensure ((reloc_count =? 0) || (rel_bytes / RELOC_SIZE =? reloc_count));;
  ensure (u32 (V2_SIZE + filesz + sym_bytes + rel_bytes) <=? Z.of_nat (length buf));;
  payload ← slice buf V2_SIZE filesz;
  syms ← read_table read_sym SYM_SIZE (Z.to_nat sym_count) buf (V2_SIZE + filesz);
  rels ← read_table read_reloc RELOC_SIZE (Z.to_nat reloc_count) buf (V2_SIZE + filesz + sym_bytes);
  Ret (mk_input true 2 entry payload bss (bases text rodata data) syms rels 0).

(** ** ELF objects *)

Record shdr_t := mk_shdr { sh_type : Z; sh_flags : Z; sh_offset : Z; sh_size : Z; sh_link : Z; sh_info : Z; sh_addralign : Z; sh_entsize : Z }.
Record elf_sym_t := mk_esym { st_name : Z; st_value : Z; st_info : Z; st_shndx : Z }.

Definition EHDR_SIZE : Z := 52.
Definition PHDR_SIZE : Z := 32.
Definition SHDR_SIZE : Z := 40.
Definition ESYM_SIZE : Z := 16.
Definition EREL_SIZE : Z := 8.

Definition read_shdr (b : list Z) (off : Z) : R shdr_t :=
  ty ← rd32 b (off + 4); fl ← rd32 b (off + 8); o ← rd32 b (off + 16); sz ← rd32 b (off + 20); ln ← rd32 b (off + 24);
  inf ← rd32 b (off + 28); al ← rd32 b (off + 32); es ← rd32 b (off + 36); Ret (mk_shdr ty fl o sz ln inf al es).
Definition read_esym (b : list Z) (off : Z) : R elf_sym_t :=
  nm ← rd32 b off; v ← rd32 b (off + 4); inf ← rd8 b (off + 12); ix ← rd16 b (off + 14); Ret (mk_esym nm v inf ix).
Definition read_erel (b : list Z) (off : Z) : R (Z * Z) := o ← rd32 b off; inf ← rd32 b (off + 4); Ret (o, inf).

Definition is_elf_rel_object (b : list Z) : R bool :=
  if Z.of_nat (length b) <? EHDR_SIZE then Ret false else
  if negb (bool_decide (take 6 b = [0x7F; 69; 76; 70; 1; 1])) then Ret false else
  ty ← rd16 b 16; mach ← rd16 b 18; Ret ((ty =? ELF_ET_REL) && (mach =? ELF_EM_386)).

Definition has_flag (x f : Z) : bool := negb (Z.land x f =? 0).

Definition sec_kind_from_elf (sh : shdr_t) : Z :=
  if negb (has_flag (sh_flags sh) ELF_SHF_ALLOC) then -1 else
  if sh_type sh =? ELF_SHT_NOBITS then SEC_BSS else
  if has_flag (sh_flags sh) ELF_SHF_EXECINSTR then SEC_TEXT else
  if has_flag (sh_flags sh) ELF_SHF_WRITE then SEC_DATA else SEC_RODATA.

(** [sh_kind] and [sh_off_in_kind] of the sections, and the sizes of the kinds. *)
Fixpoint layout_sections (shs : list shdr_t) (ks : list Z) : R (list (Z * Z) * list Z) :=
  match shs with
  | [] => Ret ([], ks)
  | sh :: shs =>
    let kind := sec_kind_from_elf sh in
    if kind <? 0 then '(l, ks) ← layout_sections shs ks; Ret ((-1, 0) :: l, ks) else
    sz ← of_opt (zlookup ks kind);
    let off := align_up sz (if sh_addralign sh =? 0 then 1 else sh_addralign sh) in
    ks ← of_opt (zupdate ks kind (u32 (off + sh_size sh)));
    '(l, ks) ← layout_sections shs ks; Ret ((kind, off) :: l, ks)
  end.

(** [off + n > lim || off + n < off] in 32 bits. *)
Definition beyond (off n lim : Z) : bool := (lim <? u32 (off + n)) || (u32 (off + n) <? off).

Fixpoint copy_sections (shs : list shdr_t) (lay : list (Z * Z)) (bs : list Z) (buf payload : list Z) : R (list Z) :=
  match shs, lay with
  | sh :: shs, (kind, off) :: lay =>
    if (kind <? 0) || (SEC_DATA <? kind) || negb (sh_type sh =? ELF_SHT_PROGBITS) then copy_sections shs lay bs buf payload else
    ensure (negb (beyond (sh_offset sh) (sh_size sh) (Z.of_nat (length buf))));;
    b ← of_opt (zlookup bs kind);
    let dst := u32 (b + off) in
    ensure (negb (beyond dst (sh_size sh) (Z.of_nat (length payload))));;
    data ← slice buf (sh_offset sh) (sh_size sh);
    payload ← copy_to payload dst data;
    copy_sections shs lay bs buf payload
  | _, _ => Ret payload
  end.

(** The characters of a name in the string table, at most 63, with the NUL. *)
Fixpoint sym_name (k : nat) (strtab : list Z) : list Z :=
  match k with
  | O => [0]
  | S k => match strtab with [] => [0] | c :: strtab => if c =? 0 then [0] else c :: sym_name k strtab end
  end.

Definition convert_sym (lay : list (Z * Z)) (strtab : list Z) (es : elf_sym_t) : mobj_sym_t :=
  let name := if st_name es <? Z.of_nat (length strtab) then sym_name 63 (drop (Z.to_nat (st_name es)) strtab) else [0] in
  let bind := Z.shiftr (st_info es) 4 in
  let flags := if (bind =? ELF_STB_GLOBAL) || (bind =? ELF_STB_WEAK) then MOBJ_SYM_GLOBAL else 0 in
  if (st_shndx es =? ELF_SHN_UNDEF) || (st_shndx es =? ELF_SHN_ABS) then mk_sym name 0 SEC_UNDEF flags else
  match lay !! Z.to_nat (st_shndx es) with
  | Some (kind, off) => if kind <? 0 then mk_sym name 0 SEC_UNDEF flags else mk_sym name (u32 (off + st_value es)) kind flags
  | None => mk_sym name 0 SEC_UNDEF flags
  end.

(** The symbols of the first symbol table; there are none without a table. *)
Definition read_symbols (shs : list shdr_t) (lay : list (Z * Z)) (buf : list Z) : R (list mobj_sym_t) :=
  match find_index (λ sh, sh_type sh =? ELF_SHT_SYMTAB) shs with
  | None => Ret []
  | Some k =>
    symsh ← of_opt (shs !! k);
    ensure ((sh_entsize symsh =? ESYM_SIZE) && (sh_size symsh mod ESYM_SIZE =? 0));;
    ensure (negb (beyond (sh_offset symsh) (sh_size symsh) (Z.of_nat (length buf))));;
    match shs !! Z.to_nat (sh_link symsh) with
    | None => Die
    | Some strsh =>
      ensure (sh_type strsh =? ELF_SHT_STRTAB);;
      ensure (negb (beyond (sh_offset strsh) (sh_size strsh) (Z.of_nat (length buf))));;
      strtab ← slice buf (sh_offset strsh) (sh_size strsh);
      es ← read_table read_esym ESYM_SIZE (Z.to_nat (sh_size symsh / ESYM_SIZE)) buf (sh_offset symsh);
      Ret (convert_sym lay strtab <$> es)
    end
  end.

(** Whether a section is a relocation table that is used: the kind and the offset of
    the section that it applies to. *)
Definition reloc_target (lay : list (Z * Z)) (sh : shdr_t) : option (Z * Z) :=
  if negb (sh_type sh =? ELF_SHT_REL) then None else
  match lay !! Z.to_nat (sh_info sh) with
  | Some (kind, off) => if (kind <? 0) || (SEC_DATA <? kind) then None else Some (kind, off)
  | None => None
  end.

Fixpoint check_reloc_tables (shs : list shdr_t) (lay : list (Z * Z)) : R Z :=
  match shs with
  | [] => Ret 0
  | sh :: shs =>
    match reloc_target lay sh with
    | None => check_reloc_tables shs lay
    | Some _ =>
      ensure ((sh_entsize sh =? EREL_SIZE) && (sh_size sh mod EREL_SIZE =? 0));;
      n ← check_reloc_tables shs lay; Ret (u32 (sh_size sh / EREL_SIZE + n))
    end
  end.

Definition convert_reloc (nsyms : nat) (ks bs payload : list Z) (kind off0 : Z) (r : Z * Z) : R mobj_reloc_t :=
  let '(r_off, r_info) := r in
  let rtype := Z.land r_info 0xFF in
  let rsym := Z.shiftr r_info 8 in
  ensure (rsym <? Z.of_nat nsyms);;
  ensure ((rtype =? ELF_R_386_32) || (rtype =? ELF_R_386_PC32));;
  let off := u32 (off0 + r_off) in
  lim ← of_opt (zlookup ks kind);
  ensure (negb (beyond off 4 lim));;
  b ← of_opt (zlookup bs kind);
  w ← rd32 payload (u32 (b + off));
  add ← (if rtype =? ELF_R_386_PC32 then of_opt (sint (s32 w + 4)) else Ret (s32 w));
  Ret (mk_reloc kind off (if rtype =? ELF_R_386_32 then MOBJ_RELOC_ABS32 else MOBJ_RELOC_REL32) rsym add).

Fixpoint map_R {A B} (f : A → R B) (l : list A) : R (list B) :=
  match l with [] => Ret [] | x :: l => y ← f x; ys ← map_R f l; Ret (y :: ys) end.

Fixpoint read_relocs (shs : list shdr_t) (lay : list (Z * Z)) (nsyms : nat) (ks bs buf payload : list Z) : R (list mobj_reloc_t) :=
  match shs with
  | [] => Ret []
  | sh :: shs =>
    match reloc_target lay sh with
    | None => read_relocs shs lay nsyms ks bs buf payload
    | Some (kind, off0) =>
      ensure (negb (beyond (sh_offset sh) (sh_size sh) (Z.of_nat (length buf))));;
      rs ← read_table read_erel EREL_SIZE (Z.to_nat (sh_size sh / EREL_SIZE)) buf (sh_offset sh);
      l ← map_R (convert_reloc nsyms ks bs payload kind off0) rs;
      l' ← read_relocs shs lay nsyms ks bs buf payload; Ret (l ++ l')
    end
  end.

(** The array of relocations has the [n] entries counted in 32 bits; a count that
    wrapped makes the loop that fills it leave it. *)
Definition parse_elf_rel_input (buf : list Z) : R input_t :=
  shoff ← rd32 buf 32; shentsize ← rd16 buf 46; shnum ← rd16 buf 48;
  ensure ((shentsize =? SHDR_SIZE) && negb (shnum =? 0));;
  let sht_end := u32 (shoff + shnum * SHDR_SIZE) in
  ensure (negb ((Z.of_nat (length buf) <=? shoff) || (Z.of_nat (length buf) <? sht_end) || (sht_end <? shoff)));;
  shs ← read_table read_shdr SHDR_SIZE (Z.to_nat shnum) buf shoff;
  '(lay, ks) ← layout_sections shs [0; 0; 0; 0];
  text ← of_opt (zlookup ks SEC_TEXT); rodata ← of_opt (zlookup ks SEC_RODATA);
  data ← of_opt (zlookup ks SEC_DATA); bss ← of_opt (zlookup ks SEC_BSS);
  let bs := bases text rodata data in
  payload ← copy_sections shs lay bs buf (replicate (Z.to_nat (u32 (text + rodata + data))) 0);
  syms ← read_symbols shs lay buf;
  n ← check_reloc_tables shs lay;
  rels ← (if n =? 0 then Ret [] else
          ensure (negb (length syms =? 0)%nat);; read_relocs shs lay (length syms) ks bs buf payload);
  (if n <? Z.of_nat (length rels) then Ub else Ret tt);;
  ensure (Z.of_nat (length rels) =? n);;
  Ret (mk_input true 2 0 payload bss bs syms rels 0).

Definition parse_input (buf : list Z) : R input_t :=
  if is_mobj_magic buf then
    ver ← rd32 buf 4;
    if ver =? 1 then parse_v1 buf else if ver =? 2 then parse_v2 buf else Die
  else
    e ← is_elf_rel_object buf;
    if e : bool then parse_elf_rel_input buf else Ret (mk_input false 0 0 buf 0 [0; 0; 0; 0] [] [] 0).
