(* ===== verification/Ld86Link.v ===== *)
(** * The linker: symbols, relocation and output ([src/userland/ld86.c])

    The second half of [ld86]: symbol resolution, the command line, archives, the
    load image, its relocation and the ELF file.  [file] gives the contents of the
    input files; the result is the name of the output file with what is written
    to it. *)

From S2P Require Import Prelude Bytes LibcString LibcNum Ld86.

(** ** Names *)

Definition streq (a b : list Z) : R bool := r ← of_opt (strcmp a b); Ret (r =? 0).

Definition first (s : list Z) : R Z := of_opt (head s).

(** [sym_name_eq_loose], with the conditions in order. *)
Definition sym_name_eq_loose (a b : list Z) : R bool :=
  e ← streq a b; if e : bool then Ret true else
  a0 ← first a; b0 ← first b;
  e ← (if a0 =? 36 then streq (tail a) b else Ret false); if e : bool then Ret true else
  e ← (if b0 =? 36 then streq a (tail b) else Ret false); if e : bool then Ret true else
  if (a0 =? 36) && (b0 =? 36) then streq (tail a) (tail b) else Ret false.

Definition sym_strip_dollar (s : list Z) : R (list Z) := c ← first s; Ret (if c =? 36 then tail s else s).

(** ** Symbol resolution *)

Definition sym_addr (base : Z) (i : input_t) (s : mobj_sym_t) : R Z :=
  b ← sec_base i (s_section s); Ret (u32 (base + in_image_off i + b + s_value_off s)).

Definition has_syms (i : input_t) : bool := in_is_obj i && negb (in_obj_version i <? 2).

(** The symbols of input [k] in the first search: [found] is the address with the
    number of the input that provides it. *)
Fixpoint search_globals (base : Z) (k : nat) (cand : input_t) (name : list Z) (syms : list mobj_sym_t) (found : option (Z * nat)) : R (option (Z * nat)) :=
  match syms with
  | [] => Ret found
  | cs :: syms =>
    if s_section cs =? SEC_UNDEF then search_globals base k cand name syms found else
    if negb (has_flag (s_flags cs) MOBJ_SYM_GLOBAL) then search_globals base k cand name syms found else
    e ← sym_name_eq_loose (s_name cs) name;
    if negb e then search_globals base k cand name syms found else
    addr ← sym_addr base cand cs;
    match found with
    | Some (_, k') => if (k' =? k)%nat then search_globals base k cand name syms found else Die
    | None => search_globals base k cand name syms (Some (addr, k))
    end
  end.

Fixpoint find_global (base : Z) (k : nat) (inputs : list input_t) (name : list Z) (found : option (Z * nat)) : R (option (Z * nat)) :=
  match inputs with
  | [] => Ret found
  | cand :: inputs =>
    found ← (if has_syms cand then search_globals base k cand name (in_syms cand) found else Ret found);
    find_global base (S k) inputs name found
  end.

Fixpoint search_any (base : Z) (cand : input_t) (want : list Z) (syms : list mobj_sym_t) : R (option Z) :=
  match syms with
  | [] => Ret None
  | cs :: syms =>
    if s_section cs =? SEC_UNDEF then search_any base cand want syms else
    n ← sym_strip_dollar (s_name cs); e ← streq n want;
    if negb e then search_any base cand want syms else addr ← sym_addr base cand cs; Ret (Some addr)
  end.

Fixpoint find_any (base : Z) (inputs : list input_t) (want : list Z) : R (option Z) :=
  match inputs with
  | [] => Ret None
  | cand :: inputs =>
    o ← (if has_syms cand then search_any base cand want (in_syms cand) else Ret None);
    match o with Some a => Ret (Some a) | None => find_any base inputs want end
  end.

Definition resolve_symbol_addr (inputs : list input_t) (owner : input_t) (sym_idx base : Z) : R Z :=
  match zlookup (in_syms owner) sym_idx with
  | None => Die
  | Some s =>
    if negb (s_section s =? SEC_UNDEF) then
      if SEC_BSS <? s_section s then Die else sym_addr base owner s
    else
      o ← find_global base 0 inputs (s_name s) None;
      match o with
      | Some (a, _) => Ret a
      | None =>
        want ← sym_strip_dollar (s_name s);
        o ← find_any base inputs want;
        match o with Some a => Ret a | None => Die end
      end
  end.

(** ** Numbers *)

Definition hex_digit (c : Z) : option Z :=
  if (48 <=? c) && (c <=? 57) then Some (c - 48) else
  if (97 <=? c) && (c <=? 102) then Some (10 + (c - 97)) else
  if (65 <=? c) && (c <=? 70) then Some (10 + (c - 65)) else None.

(** The value, or [None] for the return value 0. *)
Fixpoint parse_digits (s : list Z) (base v : Z) : R (option Z) :=
  match s with
  | [] => Ub
  | c :: s =>
    if c =? 0 then Ret (Some v) else
    match hex_digit c with
    | None => Ret None
    | Some d => if base <=? d then Ret None else m ← of_opt (sint (v * base)); v ← of_opt (sint (m + d)); parse_digits s base v
    end
  end.

Definition parse_int_local (s : list Z) : R (option Z) :=
  c ← first s;
  let '(sign, s) := if c =? 45 then (-1, tail s) else if c =? 43 then (1, tail s) else (1, s) in
  c ← first s;
  x ← (if c =? 48 then first (tail s) else Ret 0);
  let '(base, s) := if (c =? 48) && ((x =? 120) || (x =? 88)) then (16, tail (tail s)) else (10, s) in
  c ← first s;
  if c =? 0 then Ret None else
  o ← parse_digits s base 0;
  match o with None => Ret None | Some v => v ← of_opt (sint (v * sign)); Ret (Some v) end.

Fixpoint dec_field (s : list Z) (v : Z) (seen : bool) : option Z :=
  match s with
  | [] => if seen then Some v else None
  | c :: s =>
    if (c =? 32) || (c =? 9) then dec_field s v seen else
    if (c <? 48) || (57 <? c) then None else dec_field s (u32 (u32 (v * 10) + (c - 48))) true
  end.

Definition parse_u32_dec_field (s : list Z) : option Z := dec_field s 0 false.

(** ** The command line *)

Record opts_t := mk_opts { o_out : option (list Z); o_pos : list (list Z); o_base : Z; o_entry : Z; o_entry_set : bool }.
Definition opts0 : opts_t := mk_opts None [] 0x700000 0x700000 false.

Definition opt (s : string) : list Z := str s ++ [0].

Fixpoint parse_args (args : list (list Z)) (o : opts_t) : R opts_t :=
  match args with
  | [] => Ret o
  | a :: args =>
    e ← streq a (opt "-o");
    if e : bool then
      match args with
      | [] => Die
      | v :: args => parse_args args (mk_opts (Some v) (o_pos o) (o_base o) (o_entry o) (o_entry_set o))
      end
    else
    e ← streq a (opt "-base"); e ← (if e : bool then Ret true else streq a (opt "--base"));
    if e : bool then
      match args with
      | [] => Die
      | v :: args =>
        n ← parse_int_local v;
        match n with
        | None => Die
        | Some n => if n <? 0 then Die else parse_args args (mk_opts (o_out o) (o_pos o) n (if o_entry_set o then o_entry o else n) (o_entry_set o))
        end
      end
    else
    e ← streq a (opt "-entry"); e ← (if e : bool then Ret true else streq a (opt "--entry"));
    if e : bool then
      match args with
      | [] => Die
      | v :: args =>
        n ← parse_int_local v;
        match n with
        | None => Die
        | Some n => if n <? 0 then Die else parse_args args (mk_opts (o_out o) (o_pos o) (o_base o) n true)
        end
      end
    else
    c ← first a;
    if c =? 45 then Die else
    if (MAX_INPUTS <=? length (o_pos o))%nat then Die else
    parse_args args (mk_opts (o_out o) (o_pos o ++ [a]) (o_base o) (o_entry o) (o_entry_set o))
  end.

(** The output file and the input files. *)
Definition choose_output (o : opts_t) : R (list Z * list (list Z)) :=
  '(out, pos) ← match o_out o with
                | Some out => Ret (out, o_pos o)
                | None => match o_pos o with [p; out] => Ret (out, [p]) | _ => Die end
                end;
  ensure (negb (length pos =? 0)%nat);; Ret (out, pos).

(** ** Loading the inputs *)

Record ld_t := mk_ld { ld_inputs : list input_t; ld_file : Z; ld_mem : Z; ld_entry : Z; ld_chosen : bool }.

Definition add_input (base : Z) (entry_set : bool) (buf : list Z) (st : ld_t) : R ld_t :=
  ensure (length (ld_inputs st) <? MAX_INPUTS)%nat;;
  i ← parse_input buf;
  let i := with_image_off (ld_file st) i in
  let choose := negb entry_set && negb (ld_chosen st) && in_is_obj i in
  Ret (mk_ld (ld_inputs st ++ [i]) (u32 (ld_file st + payload_size i)) (u32 (ld_mem st + payload_size i + in_bss_size i))
         (if choose then u32 (base + in_image_off i + in_entry_off i) else ld_entry st) (choose || ld_chosen st)).

Definition is_ar_archive (b : list Z) : bool :=
  (8 <=? length b)%nat && bool_decide (take 8 b = [33; 60; 97; 114; 99; 104; 62; 10]).

Definition AR_HDR_SIZE : Z := 60.
Definition AR_SIZE_OFF : Z := 48.

(** The loop over the members.  Each pass moves [off] on by at least the size of
    a member's header, so that the length of the file is enough fuel. *)
Fixpoint add_members (fuel : nat) (base : Z) (entry_set : bool) (buf : list Z) (off : Z) (st : ld_t) : R ld_t :=
  match fuel with
  | O => Ub
  | S fuel =>
    let sz := Z.of_nat (length buf) in
    if sz <? u32 (off + AR_HDR_SIZE) then Ret st else
    fld ← slice buf (off + AR_SIZE_OFF) 10;
    match parse_u32_dec_field fld with
    | None => Die
    | Some msz =>
      let data_off := u32 (off + AR_HDR_SIZE) in
      ensure (negb (beyond data_off msz sz));;
      c0 ← rd8 buf off; c1 ← rd8 buf (off + 1);
      let is_special := (c0 =? 47) || ((c0 =? 35) && (c1 =? 49)) in
      st ← (if negb is_special && (0 <? msz) then mb ← slice buf data_off msz; add_input base entry_set mb st else Ret st);
      let off := u32 (data_off + msz) in
      add_members fuel base entry_set buf (if Z.land off 1 =? 0 then off else u32 (off + 1)) st
    end
  end.

Definition MAX_IN_BYTES : Z := 2 * 1024 * 1024.

Section files.
Context (file : list Z → option (list Z)).

Definition read_whole_file (path : list Z) : option (list Z) :=
  b ← file path;
  if (length b =? 0)%nat || (MAX_IN_BYTES <? Z.of_nat (length b)) then None else Some b.

Definition add_file (base : Z) (entry_set : bool) (path : list Z) (st : ld_t) : R ld_t :=
  match read_whole_file path with
  | None => Die
  | Some buf => if is_ar_archive buf then add_members (length buf) base entry_set buf 8 st else add_input base entry_set buf st
  end.

Fixpoint add_files (base : Z) (entry_set : bool) (paths : list (list Z)) (st : ld_t) : R ld_t :=
  match paths with
  | [] => Ret st
  | p :: paths => st ← add_file base entry_set p st; add_files base entry_set paths st
  end.

(** ** The image *)

Fixpoint copy_payloads (inputs : list input_t) (image : list Z) : R (list Z) :=
  match inputs with
  | [] => Ret image
  | i :: inputs => image ← (if 0 <? payload_size i then copy_to image (in_image_off i) (in_payload i) else Ret image); copy_payloads inputs image
  end.

Definition reloc_value (base place_off saddr : Z) (r : mobj_reloc_t) : R Z :=
  if r_type r =? MOBJ_RELOC_ABS32 then of_opt (sint (s32 saddr + r_addend r)) else
  if r_type r =? MOBJ_RELOC_REL32 then
    let place_addr := u32 (base + place_off) in
    v ← of_opt (sint (s32 saddr + r_addend r)); of_opt (sint (v - s32 (u32 (place_addr + 4))))
  else Die.

Definition apply_reloc (base : Z) (inputs : list input_t) (i : input_t) (r : mobj_reloc_t) (image : list Z) : R (list Z) :=
  ensure (negb (SEC_DATA <? r_section r));;
  b ← sec_base i (r_section r);
  let place_local := u32 (b + r_offset r) in
  ensure (negb (payload_size i <? u32 (place_local + 4)));;
  let place_off := u32 (in_image_off i + place_local) in
  saddr ← resolve_symbol_addr inputs i (r_sym_index r) base;
  v ← reloc_value base place_off saddr r;
  wr32 image place_off (u32 v).

Fixpoint apply_rels (base : Z) (inputs : list input_t) (i : input_t) (rs : list mobj_reloc_t) (image : list Z) : R (list Z) :=
  match rs with
  | [] => Ret image
  | r :: rs => image ← apply_reloc base inputs i r image; apply_rels base inputs i rs image
  end.

Fixpoint relocate (base : Z) (inputs : list input_t) (todo : list input_t) (image : list Z) : R (list Z) :=
  match todo with
  | [] => Ret image
  | i :: todo =>
    image ← (if has_syms i then apply_rels base inputs i (in_rels i) image else Ret image);
    relocate base inputs todo image
  end.

(** ** The ELF file *)

Definition ehdr_bytes (entry : Z) : list Z :=
  [0x7F; 69; 76; 70; 1; 1; 1] ++ replicate 9 0 ++ le16 2 ++ le16 3 ++ le32 1 ++ le32 entry ++ le32 EHDR_SIZE ++ le32 0 ++ le32 0 ++
  le16 EHDR_SIZE ++ le16 PHDR_SIZE ++ le16 1 ++ le16 0 ++ le16 0 ++ le16 0.

Definition phdr_bytes (code_off base filesz memsz : Z) : list Z :=
  le32 1 ++ le32 code_off ++ le32 base ++ le32 base ++ le32 filesz ++ le32 memsz ++ le32 7 ++ le32 0x1000.

Definition write_elf (base entry filesz memsz : Z) (image : list Z) : R (list Z) :=
  let code_off := align_up (EHDR_SIZE + PHDR_SIZE) 0x1000 in
  let obuf := replicate (Z.to_nat (u32 (code_off + filesz))) 0 in
  obuf ← copy_to obuf 0 (ehdr_bytes entry);
  obuf ← copy_to obuf EHDR_SIZE (phdr_bytes code_off base filesz memsz);
  if filesz =? 0 then Ret obuf else copy_to obuf code_off image.

Definition link (o : opts_t) (pos : list (list Z)) : R (list Z) :=
  st ← add_files (o_base o) (o_entry_set o) pos (mk_ld [] 0 0 (o_entry o) false);
  ensure (negb (length (ld_inputs st) =? 0)%nat);;
  image ← copy_payloads (ld_inputs st) (replicate (Z.to_nat (ld_file st)) 0);
  image ← relocate (o_base o) (ld_inputs st) (ld_inputs st) image;
  write_elf (o_base o) (ld_entry st) (ld_file st) (ld_mem st) image.

(** [_start], with the arguments after the name of the program. *)
Definition ld86 (args : list (list Z)) : R (list Z * list Z) :=
  o ← parse_args args opts0;
  '(out, pos) ← choose_output o;
  obuf ← link o pos;
  Ret (out, obuf).

End files.
