(* ===== verification/Ld86Spec.v ===== *)
(** * What the linker computes ([src/userland/ld86.c])

    A reference definition of symbol resolution, the meaning of the relocations and
    the layout of the program that [Ld86Link.link] writes. *)

From S2P Require Import Prelude Bytes LibcString LibcNum Ld86 Ld86Link.

(** ** Results *)

Lemma of_opt_Ret {A} (o : option A) a : of_opt o = Ret a ↔ o = Some a.
Proof. destruct o; cbn; naive_solver. Qed.
Lemma ensure_Ret b u : ensure b = Ret u ↔ b = true.
Proof. destruct b, u; cbn; naive_solver. Qed.

(** Takes apart [H : (x ← m; ..) = Ret b]. *)
Ltac rbind H a Ha := apply R_bind_Ret in H as (a & Ha & H).
Ltac rensure H Ha := let u := fresh "u" in apply R_bind_Ret in H as (u & Ha & H); apply ensure_Ret in Ha; clear u.

(** ** Words of the image *)

Lemma byte_write v k : 0 ≤ k → u8 (Z.land (Z.shiftr v k) 0xFF) = v / 2 ^ k mod 256.
Proof. intros Hk. rewrite land_byte by done. unfold u8. by rewrite Zmod_mod. Qed.

Lemma wr32_ok b i v b' : wr32 b i v = Ret b' →
  0 ≤ i ∧ i + 4 ≤ Z.of_nat (length b) ∧ b' = splice b (Z.to_nat i) (le32 v).
Proof.
  unfold wr32. intros H. rbind H b1 H1. rbind H b2 H2. rbind H b3 H3.
  apply of_opt_Ret, zupdate_inv in H1 as [R1 ->]. apply of_opt_Ret, zupdate_inv in H2 as [R2 ->].
  apply of_opt_Ret, zupdate_inv in H3 as [R3 ->]. apply of_opt_Ret, zupdate_inv in H as [R4 ->].
  rewrite !length_insert in *. split; [lia|]. split; [lia|].
  replace (Z.land v 0xFF) with (Z.land (Z.shiftr v 0) 0xFF) by (by rewrite Z.shiftr_0_r). rewrite !byte_write by lia.
  replace (Z.to_nat (i + 1)) with (S (Z.to_nat i)) by lia. replace (Z.to_nat (i + 2)) with (S (S (Z.to_nat i))) by lia.
  replace (Z.to_nat (i + 3)) with (S (S (S (Z.to_nat i)))) by lia.
  unfold le32. change (2 ^ 0) with 1. rewrite Z.div_1_r. change (2 ^ 8) with 256. change (2 ^ 16) with 65536. change (2 ^ 24) with 16777216.
  rewrite <- !splice_cons by (cbn [length]; rewrite ?length_insert; lia). by rewrite splice_nil.
Qed.

Lemma copy_to_ok b off l b' : copy_to b off l = Ret b' →
  0 ≤ off ∧ off + Z.of_nat (length l) ≤ Z.of_nat (length b) ∧ b' = splice b (Z.to_nat off) l.
Proof.
  unfold copy_to. destruct (Z.leb_spec 0 off), (Z.leb_spec (off + Z.of_nat (length l)) (Z.of_nat (length b))); cbn; intros [= <-]; done.
Qed.

(** ** The layout of the image *)

Fixpoint laid_out (off : Z) (l : list input_t) (fin : Z) : Prop :=
  match l with
  | [] => fin = off
  | i :: l => in_image_off i = off ∧ laid_out (u32 (off + payload_size i)) l fin
  end.

Definition payloads (l : list input_t) : list Z := concat (in_payload <$> l).

Lemma payloads_cons i l : payloads (i :: l) = in_payload i ++ payloads l.
Proof. done. Qed.

Lemma laid_out_snoc l i off fin : laid_out off l fin → in_image_off i = fin → laid_out off (l ++ [i]) (u32 (fin + payload_size i)).
Proof.
  revert off. induction l as [|j l IH]; intros off; cbn; [by intros -> ->|]. intros [-> H] Hi. split; [done|]. by apply IH.
Qed.

Lemma copy_payloads_ok l off fin image image' : laid_out off l fin → is_u32 off → Z.of_nat (length image) = fin → is_u32 fin →
  copy_payloads l image = Ret image' →
  off + Z.of_nat (length (payloads l)) = fin ∧ image' = splice image (Z.to_nat off) (payloads l).
Proof.
  intros H Hoff Hlen Hfin. revert off image H Hoff Hlen.
  induction l as [|i l IH]; intros off image; cbn [laid_out copy_payloads].
  - intros -> _ Hlen [= <-]. cbn. rewrite splice_nil. split; [lia|done].
  - intros [Eo Hl] Hoff Hlen Hc. rbind Hc im Him. unfold payload_size in *.
    assert (Hstep : u32 (off + Z.of_nat (length (in_payload i))) = off + Z.of_nat (length (in_payload i)) ∧ im = splice image (Z.to_nat off) (in_payload i) ∧ length im = length image).
    { destruct (Z.ltb_spec 0 (Z.of_nat (length (in_payload i)))) as [Hp|Hp].
      - apply copy_to_ok in Him as (_ & Hle & ->). rewrite Eo in *. split; [apply u32_small; mlia|]. split; [done|]. apply length_splice. mlia.
      - injection Him as <-. destruct (in_payload i) as [|x p]; [|cbn in Hp; lia]. rewrite splice_nil. cbn. rewrite Z.add_0_r, u32_small by done. done. }
    destruct Hstep as (Hu & -> & Hlim). rewrite Hu in Hl.
    apply (IH (off + Z.of_nat (length (in_payload i)))) in Hc as [Hsum ->]; [|done|rewrite <- Hu; apply u32_range|by rewrite Hlim].
    rewrite payloads_cons, length_app. split; [lia|].
    rewrite Z2Nat.inj_add, Nat2Z.id by mlia. apply splice_splice. mlia.
Qed.

(** ** Relocation *)

(** The relocations in the order in which they are applied, with their inputs. *)
Definition all_rels (inputs : list input_t) : list (input_t * mobj_reloc_t) :=
  concat ((λ i, if has_syms i then (λ r, (i, r)) <$> in_rels i else []) <$> inputs).

(** Relocation [r] of input [i] stores the word [v] at offset [p] of the image: the
    address of its symbol plus the addend, for [MOBJ_RELOC_REL32] relative to the
    end of the word. *)
Definition reloc_means (base : Z) (inputs : list input_t) (ir : input_t * mobj_reloc_t) (pv : Z * Z) : Prop :=
  let '(i, r) := ir in
  let '(p, v) := pv in
  r_section r ≤ SEC_DATA ∧
  (∃ b, zlookup (in_sec_base i) (r_section r) = Some b ∧ p = u32 (in_image_off i + b + r_offset r)) ∧
  ∃ saddr, resolve_symbol_addr inputs i (r_sym_index r) base = Ret saddr ∧
    (r_type r = MOBJ_RELOC_ABS32 ∧ v = u32 (saddr + r_addend r) ∨
     r_type r = MOBJ_RELOC_REL32 ∧ v = u32 (saddr + r_addend r - (base + p + 4))).

Definition patch (image : list Z) (pv : Z * Z) : list Z := splice image (Z.to_nat (pv.1)) (le32 (pv.2)).

Definition in_image (n : nat) (pv : Z * Z) : Prop := 0 ≤ pv.1 ∧ pv.1 + 4 ≤ Z.of_nat n.

Lemma sint_Some x y : sint x = Some y → y = x.
Proof. unfold sint. case_match; [by intros [= ->]|done]. Qed.

Lemma u32_s32 x y : u32 (s32 x + y) = u32 (x + y).
Proof. mlia. Qed.

Lemma reloc_value_ok base p saddr r v : reloc_value base p saddr r = Ret v →
  r_type r = MOBJ_RELOC_ABS32 ∧ u32 v = u32 (saddr + r_addend r) ∨
  r_type r = MOBJ_RELOC_REL32 ∧ u32 v = u32 (saddr + r_addend r - (base + p + 4)).
Proof.
  unfold reloc_value. destruct (Z.eqb_spec (r_type r) MOBJ_RELOC_ABS32) as [->|_].
  { intros H%of_opt_Ret%sint_Some. left. subst v. by rewrite u32_s32. }
  destruct (Z.eqb_spec (r_type r) MOBJ_RELOC_REL32) as [->|_]; [|done]. cbv zeta. intros H. rbind H w Hw.
  apply of_opt_Ret, sint_Some in Hw as ->. apply of_opt_Ret, sint_Some in H as ->. right. split; [done|]. mlia.
Qed.

Lemma length_le32 v : length (le32 v) = 4%nat.
Proof. done. Qed.

Lemma length_patch image pv : in_image (length image) pv → length (patch image pv) = length image.
Proof. intros [H1 H2]. unfold patch. apply length_splice. rewrite length_le32. lia. Qed.

Lemma apply_reloc_ok base inputs i r image image' : apply_reloc base inputs i r image = Ret image' →
  ∃ pv, reloc_means base inputs (i, r) pv ∧ in_image (length image) pv ∧ image' = patch image pv.
Proof.
  unfold apply_reloc. cbv zeta. intros H. rensure H Hs. rbind H b Hb. rensure H Hr. rbind H saddr Ha. rbind H v Hv.
  apply wr32_ok in H as (Hp1 & Hp2 & ->). apply of_opt_Ret in Hb. rewrite negb_true_iff, Z.ltb_ge in Hs. apply reloc_value_ok in Hv.
  exists (u32 (in_image_off i + u32 (b + r_offset r)), u32 v). split; [|done]. split; [done|]. split.
  - exists b. split; [done|]. mlia.
  - exists saddr. split; [done|]. done.
Qed.

Lemma apply_rels_ok base inputs i rs image image' : apply_rels base inputs i rs image = Ret image' →
  ∃ ws, Forall2 (reloc_means base inputs) ((λ r, (i, r)) <$> rs) ws ∧ Forall (in_image (length image)) ws ∧
    image' = foldl patch image ws ∧ length image' = length image.
Proof.
  revert image. induction rs as [|r rs IH]; intros image; cbn [apply_rels].
  - intros [= <-]. exists []. repeat constructor.
  - intros H. rbind H im Hm. apply apply_reloc_ok in Hm as (pv & Hpv & Hin & ->). apply IH in H as (ws & Hws & Hins & -> & Hl).
    rewrite length_patch in * by done. exists (pv :: ws). repeat split; [by constructor|by constructor|done].
Qed.

Lemma relocate_ok base inputs todo image image' : relocate base inputs todo image = Ret image' →
  ∃ ws, Forall2 (reloc_means base inputs) (all_rels todo) ws ∧ Forall (in_image (length image)) ws ∧
    image' = foldl patch image ws ∧ length image' = length image.
Proof.
  revert image. induction todo as [|i todo IH]; intros image; cbn [relocate].
  - intros [= <-]. exists []. repeat constructor.
  - intros H. rbind H im Hm.
    assert (∃ ws, Forall2 (reloc_means base inputs) (if has_syms i then (λ r, (i, r)) <$> in_rels i else []) ws ∧
      Forall (in_image (length image)) ws ∧ im = foldl patch image ws ∧ length im = length image) as (ws1 & F1 & I1 & E1 & L1).
    { destruct (has_syms i); [by apply apply_rels_ok|]. injection Hm as <-. exists []. repeat constructor. }
    apply IH in H as (ws2 & F2 & I2 & E2 & L2). rewrite L1 in I2. exists (ws1 ++ ws2).
    split; [by apply Forall2_app|]. split; [by apply Forall_app|]. rewrite foldl_app. rewrite <- E1. split; [done|lia].
Qed.

(** A byte that no patch covers keeps its value; the last patch of a place stays. *)
Definition covers (n : nat) (pv : Z * Z) : Prop := pv.1 ≤ Z.of_nat n < pv.1 + 4.

Lemma patches_length image ws : Forall (in_image (length image)) ws → length (foldl patch image ws) = length image.
Proof.
  revert image. induction ws as [|w ws IH]; intros image; [done|]. intros [Hw Hws]%Forall_cons. cbn. rewrite IH; rewrite length_patch; done.
Qed.

Lemma patches_frame image ws n : Forall (in_image (length image)) ws → Forall (λ w, ¬ covers n w) ws →
  foldl patch image ws !! n = image !! n.
Proof.
  revert image. induction ws as [|w ws IH]; intros image; [done|]. intros [Hw Hws]%Forall_cons [Hn Hns]%Forall_cons. cbn.
  rewrite IH by (rewrite ?length_patch; done). unfold patch, in_image, covers in *. rewrite lookup_splice by (rewrite length_le32; lia).
  rewrite length_le32. case_decide; [lia|done].
Qed.

Lemma patches_last image l1 p v l2 : Forall (in_image (length image)) (l1 ++ (p, v) :: l2) →
  Forall (λ w, w.1 + 4 ≤ p ∨ p + 4 ≤ w.1) l2 →
  take 4 (drop (Z.to_nat p) (foldl patch image (l1 ++ (p, v) :: l2))) = le32 v.
Proof.
  intros (I1 & [[Hp1 Hp2] I2]%Forall_cons)%Forall_app Hd. rewrite foldl_app. cbn [foldl].
  pose proof (patches_length _ _ I1) as L1. set (im := foldl patch image l1) in *. cbn in Hp1, Hp2. rewrite <- L1 in Hp2, I2.
  transitivity (take 4 (drop (Z.to_nat p) (patch im (p, v)))).
  - apply list_eq. intros k. destruct (decide (k < 4)%nat); [|by rewrite !lookup_take_ge by lia].
    rewrite !lookup_take_lt, !lookup_drop by lia. apply patches_frame; [by rewrite length_patch|].
    eapply Forall_impl; [exact Hd|]. intros w. unfold covers. cbn. lia.
  - unfold patch. cbn [fst snd]. apply (take_splice_end im (le32 v) (Z.to_nat p)). rewrite length_le32. lia.
Qed.

(** ** Inputs *)

(** The objects in a file: the members of an archive, or the file. *)
Fixpoint members (fuel : nat) (buf : list Z) (off : Z) : R (list (list Z)) :=
  match fuel with
  | O => Ub
  | S fuel =>
    if Z.of_nat (length buf) <? u32 (off + AR_HDR_SIZE) then Ret [] else
    fld ← slice buf (off + AR_SIZE_OFF) 10;
    match parse_u32_dec_field fld with
    | None => Die
    | Some msz =>
      let data_off := u32 (off + AR_HDR_SIZE) in
      ensure (negb (beyond data_off msz (Z.of_nat (length buf))));;
      c0 ← rd8 buf off; c1 ← rd8 buf (off + 1);
      l ← (if negb ((c0 =? 47) || ((c0 =? 35) && (c1 =? 49))) && (0 <? msz) then mb ← slice buf data_off msz; Ret [mb] else Ret []);
      let off := u32 (data_off + msz) in
      l' ← members fuel buf (if Z.land off 1 =? 0 then off else u32 (off + 1)); Ret (l ++ l')
    end
  end.

Fixpoint objects (file : list Z → option (list Z)) (paths : list (list Z)) : R (list (list Z)) :=
  match paths with
  | [] => Ret []
  | p :: paths =>
    match read_whole_file file p with
    | None => Die
    | Some buf =>
      l ← (if is_ar_archive buf then members (length buf) buf 8 else Ret [buf]);
      l' ← objects file paths; Ret (l ++ l')
    end
  end.

Definition parsed (buf : list Z) (i : input_t) : Prop := ∃ i0, parse_input buf = Ret i0 ∧ i = with_image_off (in_image_off i) i0.

Definition mem_size (l : list input_t) : Z := foldr (λ i n, payload_size i + in_bss_size i + n) 0 l.

(** The entry point: the one asked for, or that of the first object. *)
Definition entry_of (base e0 : Z) (entry_set : bool) (l : list input_t) : Z :=
  if entry_set then e0 else
  match List.find in_is_obj l with Some i => u32 (base + in_image_off i + in_entry_off i) | None => e0 end.

Record loaded (base e0 : Z) (entry_set : bool) (bufs : list (list Z)) (st : ld_t) : Prop := mk_loaded {
  lo_parsed : Forall2 parsed bufs (ld_inputs st);
  lo_placed : laid_out 0 (ld_inputs st) (ld_file st);
  lo_file : is_u32 (ld_file st);
  lo_mem : ld_mem st = u32 (mem_size (ld_inputs st));
  lo_entry : ld_entry st = entry_of base e0 entry_set (ld_inputs st);
  lo_chosen : ld_chosen st = negb entry_set && existsb in_is_obj (ld_inputs st);
  lo_count : (length (ld_inputs st) ≤ MAX_INPUTS)%nat
}.

Lemma loaded0 base e0 es : loaded base e0 es [] (mk_ld [] 0 0 e0 false).
Proof.
  split; cbn; [constructor|done|done|done|by destruct es|by rewrite andb_false_r|unfold MAX_INPUTS; lia].
Qed.

Lemma mem_size_snoc l i : mem_size (l ++ [i]) = mem_size l + payload_size i + in_bss_size i.
Proof. induction l as [|j l IH]; cbn [mem_size foldr app]; [lia|]. unfold mem_size in IH. rewrite IH. lia. Qed.

Lemma find_snoc {A} (f : A → bool) l x :
  List.find f (l ++ [x]) = match List.find f l with Some y => Some y | None => if f x then Some x else None end.
Proof. induction l as [|y l IH]; cbn; [done|]. by destruct (f y). Qed.

Lemma find_existsb {A} (f : A → bool) l : existsb f l = bool_decide (is_Some (List.find f l)).
Proof. induction l as [|y l IH]; cbn; [done|]. by destruct (f y). Qed.

Lemma add_input_ok base e0 es bufs buf st st' : loaded base e0 es bufs st → add_input base es buf st = Ret st' →
  loaded base e0 es (bufs ++ [buf]) st'.
Proof.
  intros [Hp Hl Hf Hm He Hc Hn] H. unfold add_input in H. rensure H Hcount. rbind H i0 Hi. cbv zeta in H. injection H as <-.
  apply Nat.ltb_lt in Hcount. split; cbn [ld_inputs ld_file ld_mem ld_entry ld_chosen].
  - apply Forall2_app; [done|]. constructor; [|constructor]. by exists i0.
  - by apply (laid_out_snoc _ (with_image_off (ld_file st) i0)).
  - apply u32_range.
  - rewrite mem_size_snoc, Hm. unfold payload_size. cbn. clear. mlia.
  - unfold entry_of in *. rewrite find_snoc, Hc, He. destruct es; [done|]. rewrite find_existsb.
    destruct (List.find in_is_obj (ld_inputs st)) as [j|]; [done|]. cbn. by destruct (in_is_obj i0).
  - rewrite existsb_app, Hc. destruct es, (existsb in_is_obj (ld_inputs st)); cbn; rewrite ?orb_true_r, ?orb_false_r; done.
  - rewrite length_app. cbn. lia.
Qed.

Lemma add_members_ok base e0 es buf fuel bufs off st st' : loaded base e0 es bufs st → add_members fuel base es buf off st = Ret st' →
  ∃ l, members fuel buf off = Ret l ∧ loaded base e0 es (bufs ++ l) st'.
Proof.
  revert bufs off st. induction fuel as [|fuel IH]; intros bufs off st Hst; cbn [add_members members]; [done|].
  case_match; [intros [= <-]; exists []; by rewrite app_nil_r|]. intros H'. rbind H' fld Hf. rewrite Hf. cbn [mbind R_bind].
  destruct (parse_u32_dec_field fld) as [msz|]; [|done]. rensure H' Hb. rewrite Hb. cbn [ensure mbind R_bind].
  rbind H' c0 Hc0. rbind H' c1 Hc1. rewrite Hc0, Hc1. cbn [mbind R_bind]. rbind H' st1 Hs.
  destruct (negb _ && _).
  - rbind Hs mb Hmb. rewrite Hmb. cbn [mbind R_bind]. apply (add_input_ok _ _ _ _ _ _ _ Hst) in Hs.
    apply (IH _ _ _ Hs) in H' as (l & -> & Hl). cbn. exists (mb :: l). split; [done|]. by rewrite <- app_assoc in Hl.
  - injection Hs as <-. apply (IH _ _ _ Hst) in H' as (l & -> & Hl). cbn. by exists l.
Qed.

Lemma add_files_ok file base e0 es paths bufs st st' : loaded base e0 es bufs st → add_files file base es paths st = Ret st' →
  ∃ l, objects file paths = Ret l ∧ loaded base e0 es (bufs ++ l) st'.
Proof.
  revert bufs st. induction paths as [|p paths IH]; intros bufs st Hst; cbn [add_files objects].
  - intros [= <-]. exists []. by rewrite app_nil_r.
  - intros H. rbind H st1 H1. unfold add_file in H1. destruct (read_whole_file file p) as [buf|]; [|done].
    assert (∃ l, (if is_ar_archive buf then members (length buf) buf 8 else Ret [buf]) = Ret l ∧ loaded base e0 es (bufs ++ l) st1) as (l & -> & Hl).
    { destruct (is_ar_archive buf); [by apply (add_members_ok _ _ _ _ _ _ _ st)|]. exists [buf]. split; [done|]. by apply (add_input_ok _ _ _ _ _ st). }
    destruct (IH _ _ Hl H) as (l' & -> & Hl'). cbn. exists (l ++ l'). by rewrite app_assoc.
Qed.

(** ** The program *)

(** Each payload starts where the one before ends. *)
Fixpoint placed (off : Z) (l : list input_t) : Prop :=
  match l with [] => True | i :: l => in_image_off i = off ∧ placed (off + payload_size i) l end.

Lemma laid_out_placed l off fin : laid_out off l fin → 0 ≤ off → off + Z.of_nat (length (payloads l)) = fin → is_u32 fin → placed off l.
Proof.
  revert off. induction l as [|i l IH]; intros off; cbn [laid_out placed]; [done|]. rewrite payloads_cons, length_app. unfold payload_size.
  intros [-> H] Ho Hs Hf. split; [done|]. rewrite u32_small in H by mlia. apply IH; [done|lia|lia|done].
Qed.

Definition header (base entry filesz memsz : Z) : list Z := ehdr_bytes entry ++ phdr_bytes 4096 base filesz memsz ++ replicate 4012 0.

Lemma length_header base entry filesz memsz : length (header base entry filesz memsz) = 4096%nat.
Proof. unfold header. rewrite !length_app, length_replicate. done. Qed.

Lemma splice_front {A} (a b l : list A) i : length a = i → (length l ≤ length b)%nat → splice (a ++ b) i l = a ++ l ++ drop (length l) b.
Proof. intros <- H. unfold splice. by rewrite take_app_length, drop_app_add. Qed.

Lemma write_elf_ok base entry filesz memsz image obuf : is_u32 filesz → Z.of_nat (length image) = filesz →
  write_elf base entry filesz memsz image = Ret obuf → obuf = header base entry filesz memsz ++ image.
Proof.
  intros Hf Hl H. unfold write_elf in H. change (align_up (EHDR_SIZE + PHDR_SIZE) 0x1000) with 4096 in H. cbv zeta in H.
  set (z := replicate (Z.to_nat (u32 (4096 + filesz))) 0) in H. assert (Hz : Z.of_nat (length z) = u32 (4096 + filesz)).
  { unfold z. rewrite length_replicate. pose proof (u32_range (4096 + filesz)). mlia. }
  rbind H b1 H1. rbind H b2 H2. apply copy_to_ok in H1 as (_ & L1 & ->). apply copy_to_ok in H2 as (_ & L2 & ->).
  change (Z.of_nat (length (ehdr_bytes entry))) with 52 in L1. change (Z.to_nat 0) with O in *. change (Z.to_nat EHDR_SIZE) with 52%nat in *.
  change (Z.of_nat (length (phdr_bytes 4096 base filesz memsz))) with 32 in L2. unfold EHDR_SIZE in L2.
  rewrite length_splice in L2 by (change (length (ehdr_bytes entry)) with 52%nat; lia).
  assert (Lh : length (splice (splice z 0 (ehdr_bytes entry)) 52 (phdr_bytes 4096 base filesz memsz)) = length z).
  { assert (Le : length (splice z 0 (ehdr_bytes entry)) = length z) by (apply length_splice; change (length (ehdr_bytes entry)) with 52%nat; lia).
    rewrite length_splice, Le; [done|]. rewrite Le. change (length (phdr_bytes 4096 base filesz memsz)) with 32%nat. lia. }
  assert (Hh : ∀ k, (84 + k)%nat = length z → splice (splice z 0 (ehdr_bytes entry)) 52 (phdr_bytes 4096 base filesz memsz) =
    ehdr_bytes entry ++ phdr_bytes 4096 base filesz memsz ++ replicate k 0).
  { intros k Hk. change (splice z 0 (ehdr_bytes entry)) with (splice ([] ++ z) 0 (ehdr_bytes entry)).
    rewrite (splice_front [] z (ehdr_bytes entry) 0) by (cbn; lia). cbn [app].
    rewrite (splice_front (ehdr_bytes entry)); [|done|].
    - unfold z. rewrite !drop_replicate. do 2 f_equal. f_equal. unfold z in Hk. rewrite length_replicate in Hk.
      change (length (ehdr_bytes entry)) with 52%nat. change (length (phdr_bytes 4096 base filesz memsz)) with 32%nat. lia.
    - rewrite length_drop. change (length (ehdr_bytes entry)) with 52%nat. change (length (phdr_bytes 4096 base filesz memsz)) with 32%nat. lia. }
  unfold header. rewrite <- !app_assoc. destruct (Z.eqb_spec filesz 0) as [E|E].
  - injection H as <-. destruct image; [|cbn in Hl; lia]. rewrite app_nil_r. apply Hh. rewrite E in Hz. change (u32 (4096 + 0)) with 4096 in Hz. lia.
  - apply copy_to_ok in H as (_ & L3 & ->). rewrite Lh in L3.
    assert (Hs : u32 (4096 + filesz) = 4096 + filesz) by mlia. rewrite (Hh (4012 + length image)%nat) by lia.
    rewrite replicate_add, !app_assoc. rewrite (splice_front (_ ++ replicate 4012 0)).
    + rewrite drop_replicate, Nat.sub_diag, app_nil_r. by rewrite <- !app_assoc.
    + rewrite !length_app, length_replicate. done.
    + rewrite length_replicate. done.
Qed.

(** The inputs of a link, its patches and its output. *)
Lemma link_shape file o pos obuf : link file o pos = Ret obuf →
  ∃ bufs inputs ws,
    objects file pos = Ret bufs ∧ Forall2 parsed bufs inputs ∧ placed 0 inputs ∧
    Forall2 (reloc_means (o_base o) inputs) (all_rels inputs) ws ∧ Forall (in_image (length (payloads inputs))) ws ∧
    let image := foldl patch (payloads inputs) ws in
    length image = length (payloads inputs) ∧ is_u32 (Z.of_nat (length image)) ∧
    obuf = header (o_base o) (entry_of (o_base o) (o_entry o) (o_entry_set o) inputs) (Z.of_nat (length image)) (u32 (mem_size inputs)) ++ image.
Proof.
  unfold link. intros H. rbind H st Hst. rensure H Hn. rbind H im Him. rbind H image Himg.
  destruct (add_files_ok _ _ _ _ _ _ _ _ (loaded0 _ _ _) Hst) as (bufs & Hobj & [Hpar Hlay Hfile Hmem Hent _ _]).
  apply (copy_payloads_ok _ 0 (ld_file st)) in Him as [Hsum ->]; [|done|done|rewrite length_replicate; mlia|done].
  assert (Hpay : splice (replicate (Z.to_nat (ld_file st)) 0) (Z.to_nat 0) (payloads (ld_inputs st)) = payloads (ld_inputs st)).
  { unfold splice. rewrite drop_ge by (rewrite length_replicate; lia). by rewrite app_nil_r. }
  rewrite Hpay in Himg. apply relocate_ok in Himg as (ws & Hws & Hin & -> & Hlen).
  apply write_elf_ok in H as ->; [|done|lia]. exists bufs, (ld_inputs st), ws. cbv zeta.
  split; [done|]. split; [done|]. split; [by apply (laid_out_placed _ _ (ld_file st))|]. split; [done|]. split; [done|]. split; [done|].
  rewrite Hlen. split; [by rewrite <- Hsum in Hfile|]. by rewrite <- Hmem, <- Hent, <- Hsum.
Qed.

(** C9 (functional): the program that the linker writes.  The objects named on the
    command line, archives expanded, are parsed in order; the file is an ELF header
    with one loadable segment, then the image.  The image has the payloads one after
    the other, and every byte that no relocation covers is the payload's; every
    relocation is in the image, and where no later one overlaps it, the word is the
    address of its symbol plus the addend, relative to the end of the word for
    [MOBJ_RELOC_REL32].  The segment takes the payloads and the [bss] of all the
    objects, and the entry point is the one asked for or that of the first object. *)
Theorem link_correct file o pos obuf : link file o pos = Ret obuf →
  ∃ bufs inputs image ws,
    objects file pos = Ret bufs ∧ Forall2 parsed bufs inputs ∧ placed 0 inputs ∧
    obuf = header (o_base o) (entry_of (o_base o) (o_entry o) (o_entry_set o) inputs) (Z.of_nat (length image)) (u32 (mem_size inputs)) ++ image ∧
    length image = length (payloads inputs) ∧
    Forall2 (reloc_means (o_base o) inputs) (all_rels inputs) ws ∧
    Forall (in_image (length image)) ws ∧
    (∀ n, Forall (λ w, ¬ covers n w) ws → image !! n = payloads inputs !! n) ∧
    (∀ l1 p v l2, ws = l1 ++ (p, v) :: l2 → Forall (λ w, w.1 + 4 ≤ p ∨ p + 4 ≤ w.1) l2 →
       take 4 (drop (Z.to_nat p) image) = le32 v).
Proof.
  intros H. destruct (link_shape file o pos obuf H) as (bufs & inputs & ws & Hobj & Hpar & Hpl & Hws & Hin & Hlen & _ & ->).
  exists bufs, inputs, (foldl patch (payloads inputs) ws), ws. do 5 (split; [done|]). split; [done|]. rewrite Hlen. split; [done|]. split.
  - intros n Hn'. by apply patches_frame.
  - intros l1 p v l2 -> Hd. by apply patches_last.
Qed.

(** ** Symbol resolution *)

Fixpoint text (s : list Z) : list Z := match s with [] => [] | c :: s => if c =? 0 then [] else c :: text s end.

Definition terminated (s : list Z) : Prop := Forall is_u8 s ∧ 0 ∈ s.

Definition wf_sym (s : mobj_sym_t) : Prop := terminated (s_name s) ∧ (s_section s = SEC_UNDEF ∨ 0 ≤ s_section s ≤ SEC_BSS).
Definition wf_input (i : input_t) : Prop := length (in_sec_base i) = 4%nat ∧ Forall wf_sym (in_syms i).

#[global] Instance terminated_dec s : Decision (terminated s).
Proof. unfold terminated, is_u8. apply _. Defined.
#[global] Instance wf_input_dec i : Decision (wf_input i).
Proof. unfold wf_input, wf_sym. apply _. Defined.

Lemma terminated_split s : terminated s → ∃ r, s = text s ++ 0 :: r ∧ cstring (text s).
Proof.
  intros [Hb H0]. induction s as [|c s IH]; [by apply not_elem_of_nil in H0|]. apply Forall_cons in Hb as [Hc Hb]. cbn [text].
  destruct (Z.eqb_spec c 0) as [->|Hn]; [exists s; split; [done|constructor]|]. apply elem_of_cons in H0 as [|H0]; [lia|].
  destruct (IH Hb H0) as (r & E & Ht). exists r. rewrite E at 1. split; [done|]. constructor; [unfold is_u8 in Hc; lia|done].
Qed.

Lemma streq_ok a b r r' : cstring a → cstring b → streq (a ++ 0 :: r) (b ++ 0 :: r') = Ret (bool_decide (a = b)).
Proof.
  intros Ha Hb. destruct (strcmp_ok a b r r' Ha Hb) as (v & Hv & Hl). unfold streq. rewrite Hv. cbn. f_equal.
  apply eq_bool_prop_intro. rewrite bool_decide_spec. rewrite <- lex_eq, <- Hl. rewrite Is_true_true, Z.eqb_eq. symmetry. apply Z.compare_eq_iff.
Qed.

(** Names that differ by a dollar sign in front. *)
Definition loose (a b : list Z) : bool := bool_decide (a = b) || bool_decide (a = 36 :: b) || bool_decide (b = 36 :: a).
Definition strip (s : list Z) : list Z := match s with c :: s' => if c =? 36 then s' else s | [] => [] end.

Lemma sym_strip_dollar_ok n r : cstring n → sym_strip_dollar (n ++ 0 :: r) = Ret (strip n ++ 0 :: r).
Proof. intros H. unfold sym_strip_dollar. destruct H as [|c n Hc H]; cbn; [done|]. by case_match. Qed.

Lemma strip_cstring n : cstring n → cstring (strip n).
Proof. intros H. destruct H as [|c n Hc H]; cbn; [constructor|]. case_match; [done|by constructor]. Qed.

Lemma sym_name_eq_loose_ok a b r r' : cstring a → cstring b → sym_name_eq_loose (a ++ 0 :: r) (b ++ 0 :: r') = Ret (loose a b).
Proof.
  intros Ha Hb. unfold sym_name_eq_loose, loose. rewrite streq_ok by done. cbn [mbind R_bind].
  case_bool_decide as E; [done|]. cbn [orb].
  assert (Ea : (if bool_decide (head a = Some 36) then streq (tail (a ++ 0 :: r)) (b ++ 0 :: r') else Ret false) = Ret (bool_decide (a = 36 :: b))).
  { destruct Ha as [|c a Hc Ha]; cbn; [done|]. destruct (decide (c = 36)) as [->|Hn].
    - rewrite bool_decide_true by done. rewrite streq_ok by done. f_equal. apply bool_decide_ext. naive_solver.
    - rewrite !bool_decide_false by naive_solver. done. }
  assert (Eb : (if bool_decide (head b = Some 36) then streq (a ++ 0 :: r) (tail (b ++ 0 :: r')) else Ret false) = Ret (bool_decide (b = 36 :: a))).
  { destruct Hb as [|c b Hc Hb]; cbn; [done|]. destruct (decide (c = 36)) as [->|Hn].
    - rewrite bool_decide_true by done. rewrite streq_ok by done. f_equal. apply bool_decide_ext. naive_solver.
    - rewrite !bool_decide_false by naive_solver. done. }
  assert (Ef : ∀ s t, cstring s → first (s ++ 0 :: t) = Ret (default 0 (head s)) ∧ (default 0 (head s) =? 36) = bool_decide (head s = Some 36)).
  { intros s t Hs. destruct Hs as [|c s Hc Hs]; cbn; [done|]. split; [done|]. apply eq_bool_prop_intro. rewrite bool_decide_spec, Is_true_true, Z.eqb_eq. naive_solver. }
  destruct (Ef a r Ha) as [-> Fa]. destruct (Ef b r' Hb) as [-> Fb]. cbn [mbind R_bind]. rewrite Fa, Fb, Ea. cbn [mbind R_bind].
  destruct (bool_decide_reflect (a = 36 :: b)) as [E2|E2]; [done|]. rewrite Eb. cbn [mbind R_bind orb].
  destruct (bool_decide_reflect (b = 36 :: a)) as [E3|E3]; [done|].
  case_bool_decide as H1; case_bool_decide as H2; cbn [andb]; try done.
  destruct Ha as [|c a Hc Ha], Hb as [|c' b Hc' Hb]; cbn in H1, H2; try done. injection H1 as ->. injection H2 as ->.
  cbn [app tail]. rewrite streq_ok by done. rewrite bool_decide_false by congruence. done.
Qed.

(** A definition of a symbol: the number of the input, the input and the symbol. *)
Definition def_t : Type := nat * input_t * mobj_sym_t.

Definition defined (s : mobj_sym_t) : bool := negb (s_section s =? SEC_UNDEF).
Definition defs_in (k : nat) (i : input_t) (l : list mobj_sym_t) : list def_t := (λ s, (k, i, s)) <$> List.filter defined l.

(** All the definitions of the inputs, in order. *)
Fixpoint defs (k : nat) (inputs : list input_t) : list def_t :=
  match inputs with [] => [] | i :: l => (if has_syms i then defs_in k i (in_syms i) else []) ++ defs (S k) l end.

Definition address (base : Z) (d : def_t) : Z :=
  let '(_, i, s) := d in u32 (base + in_image_off i + default 0 (zlookup (in_sec_base i) (s_section s)) + s_value_off s).

Definition provides (name : list Z) (d : def_t) : bool := has_flag (s_flags d.2) MOBJ_SYM_GLOBAL && loose (text (s_name d.2)) name.
Definition named (name : list Z) (d : def_t) : bool := bool_decide (strip (text (s_name d.2)) = strip name).

(** The global definitions have to be in one input, and the first of them is taken;
    if there is none, then the first definition of that name. *)
Definition resolve_name (base : Z) (inputs : list input_t) (name : list Z) : option Z :=
  match List.filter (provides name) (defs 0 inputs) with
  | d :: ds => if forallb (λ d', d'.1.1 =? d.1.1)%nat ds then Some (address base d) else None
  | [] => address base <$> List.find (named name) (defs 0 inputs)
  end.

Lemma sym_addr_ok base k i s : wf_sym s → defined s = true → length (in_sec_base i) = 4%nat → sym_addr base i s = Ret (address base (k, i, s)).
Proof.
  intros [_ Hs] Hd Hl. unfold sym_addr, sec_base, address. unfold defined in Hd. rewrite negb_true_iff, Z.eqb_neq in Hd.
  destruct Hs as [|Hs]; [done|]. destruct (zlookup_in_range (in_sec_base i) (s_section s)) as [b ->]; [unfold SEC_BSS in Hs; lia|]. done.
Qed.

Lemma defs_in_cons k i s l : defs_in k i (s :: l) = (if defined s then [(k, i, s)] else []) ++ defs_in k i l.
Proof. unfold defs_in. cbn. by case_match. Qed.

(** What the first search makes of the hits [l] that it meets. *)
Fixpoint pick (base : Z) (l : list def_t) (found : option (Z * nat)) : R (option (Z * nat)) :=
  match l with
  | [] => Ret found
  | d :: l =>
    match found with
    | None => pick base l (Some (address base d, d.1.1))
    | Some (_, k) => if (k =? d.1.1)%nat then pick base l found else Die
    end
  end.

Lemma pick_app base l l' found : pick base (l ++ l') found = (o ← pick base l found; pick base l' o).
Proof. revert found. induction l as [|d l IH]; intros found; cbn; [done|]. destruct found as [[a k]|]; [case_match; [apply IH|done]|apply IH]. Qed.

Lemma pick_Some base l a k : pick base l (Some (a, k)) = if forallb (λ d', d'.1.1 =? k)%nat l then Ret (Some (a, k)) else Die.
Proof. induction l as [|d l IH]; cbn; [done|]. rewrite Nat.eqb_sym. destruct (_ =? _)%nat; [by rewrite IH|done]. Qed.

Section resolution.
Context (name : list Z) (Hname : terminated name).

Lemma eq_loose_ok s : wf_sym s → sym_name_eq_loose (s_name s) name = Ret (loose (text (s_name s)) (text name)).
Proof.
  intros [Hn _]. destruct (terminated_split _ Hn) as (r & E & Hc). destruct (terminated_split _ Hname) as (r' & E' & Hc').
  rewrite E at 1. rewrite E' at 1. by apply sym_name_eq_loose_ok.
Qed.

Lemma search_globals_ok base k i l found : length (in_sec_base i) = 4%nat → Forall wf_sym l →
  search_globals base k i name l found = pick base (List.filter (provides (text name)) (defs_in k i l)) found.
Proof.
  intros Hi Hl. revert found. induction Hl as [|s l Hs Hl IH]; intros found; cbn [search_globals]; [done|].
  rewrite defs_in_cons, List.filter_app. pose proof (sym_addr_ok base k i s Hs) as Ha. unfold defined in *.
  destruct (s_section s =? SEC_UNDEF) eqn:Ed; cbn [negb]; [apply IH|]. specialize (Ha eq_refl Hi). cbn [List.filter]. unfold provides at 1. cbn [snd].
  destruct (has_flag (s_flags s) MOBJ_SYM_GLOBAL); cbn [negb andb]; [|apply IH].
  rewrite eq_loose_ok by done. cbn [mbind R_bind]. destruct (loose _ _); cbn [negb app]; [|apply IH].
  rewrite Ha. cbn [mbind R_bind pick]. destruct found as [[a k']|]; [|apply IH]. cbn [fst]. case_match; [apply IH|done].
Qed.

Lemma find_global_ok base k inputs found : Forall wf_input inputs →
  find_global base k inputs name found = pick base (List.filter (provides (text name)) (defs k inputs)) found.
Proof.
  intros H. revert k found. induction H as [|i l [Hb Hs] Hl IH]; intros k found; cbn [find_global defs]; [done|].
  rewrite List.filter_app, pick_app. destruct (has_syms i).
  - rewrite search_globals_ok by done. destruct (pick _ _ _); cbn; [apply IH|done..].
  - cbn. apply IH.
Qed.

Lemma search_any_ok base k i l r : length (in_sec_base i) = 4%nat → Forall wf_sym l →
  search_any base i (strip (text name) ++ 0 :: r) l = Ret (address base <$> List.find (named (text name)) (defs_in k i l)).
Proof.
  intros Hi Hl. induction Hl as [|s l Hs Hl IH]; cbn [search_any]; [done|]. rewrite defs_in_cons.
  pose proof (sym_addr_ok base k i s Hs) as Ha. unfold defined in *. destruct (s_section s =? SEC_UNDEF) eqn:Ed; cbn [negb]; [apply IH|].
  specialize (Ha eq_refl Hi). cbn [List.find app]. unfold named at 1. cbn [snd]. destruct Hs as [Hn _].
  destruct (terminated_split _ Hn) as (r1 & E & Hc). destruct (terminated_split _ Hname) as (r2 & E' & Hc').
  rewrite E at 1. rewrite sym_strip_dollar_ok by done. cbn [mbind R_bind]. rewrite streq_ok by (by apply strip_cstring).
  cbn [mbind R_bind]. case_bool_decide; cbn [negb]; [by rewrite Ha|apply IH].
Qed.

Lemma find_app {A} (f : A → bool) l l' : List.find f (l ++ l') = match List.find f l with Some x => Some x | None => List.find f l' end.
Proof. induction l as [|x l IH]; cbn; [done|]. by destruct (f x). Qed.

Lemma find_any_ok base k inputs r : Forall wf_input inputs →
  find_any base inputs (strip (text name) ++ 0 :: r) = Ret (address base <$> List.find (named (text name)) (defs k inputs)).
Proof.
  intros H. revert k. induction H as [|i l [Hb Hs] Hl IH]; intros k; cbn [find_any defs]; [done|]. rewrite find_app.
  destruct (has_syms i); [|apply IH]. rewrite (search_any_ok base k) by done. cbn [mbind R_bind].
  destruct (List.find _ (defs_in k i (in_syms i))); cbn; [done|apply IH].
Qed.

End resolution.

(** For inputs whose names end and whose symbols are in one of the
    sections, an undefined symbol gets the address that the reference definition
    gives; the link fails exactly when that gives none: the symbol is defined nowhere,
    or globally in two inputs. *)
Theorem resolve_symbol_addr_correct base inputs owner k s :
  Forall wf_input inputs → wf_input owner → zlookup (in_syms owner) k = Some s →
  resolve_symbol_addr inputs owner k base =
    (if defined s then Ret (address base (0%nat, owner, s)) else
     match resolve_name base inputs (text (s_name s)) with Some a => Ret a | None => Die end).
Proof.
  intros Hw [Hob Hos] Hk. unfold resolve_symbol_addr. rewrite Hk. change (negb (s_section s =? SEC_UNDEF)) with (defined s).
  assert (Hs : wf_sym s).
  { rewrite zlookup_nonneg in Hk by (apply zlookup_Some_range in Hk; lia). by eapply Forall_lookup_1. }
  destruct (defined s) eqn:Hd.
  - rewrite <- (sym_addr_ok base 0 owner s Hs Hd Hob). destruct Hs as [_ [Hu|Hr]]; [unfold defined in Hd; by rewrite Hu in Hd|].
    by rewrite (proj2 (Z.ltb_ge _ _)) by lia.
  - destruct Hs as [Ht _]. rewrite (find_global_ok (s_name s)) by done. unfold resolve_name.
    destruct (List.filter _ _) as [|d ds].
    + cbn [pick mbind R_bind]. destruct (terminated_split _ Ht) as (r & E & Hc). rewrite E at 1. rewrite sym_strip_dollar_ok by done.
      cbn [mbind R_bind]. rewrite (find_any_ok (s_name s) Ht base 0) by done. cbn [mbind R_bind]. by destruct (List.find _ _).
    + cbn [pick]. rewrite pick_Some. destruct (forallb (λ d', d'.1.1 =? d.1.1)%nat ds); done.
Qed.

(** ** Objects of other compilers *)

Definition wf_reloc (i : input_t) (r : mobj_reloc_t) : Prop :=
  0 ≤ r_section r ≤ SEC_DATA ∧ 0 ≤ r_sym_index r < Z.of_nat (length (in_syms i)) ∧
  (r_type r = MOBJ_RELOC_ABS32 ∨ r_type r = MOBJ_RELOC_REL32) ∧ is_s32 (r_addend r) ∧
  ∃ b, zlookup (in_sec_base i) (r_section r) = Some b ∧ u32 (b + r_offset r) + 4 ≤ payload_size i.

Section bytes.
Context (buf : list Z) (Hbuf : Forall is_u8 buf).

Lemma slice_bytes off n l : slice buf off n = Ret l → Forall is_u8 l.
Proof. unfold slice. case_match; [|done]. intros [= <-]. by apply Forall_take, Forall_drop. Qed.

Lemma rd8_byte off x : rd8 buf off = Ret x → is_u8 x.
Proof.
  unfold rd8. intros H%of_opt_Ret. rewrite zlookup_nonneg in H by (apply zlookup_Some_range in H; lia).
  eapply (Forall_lookup_1 is_u8); [exact Hbuf|exact H].
Qed.

Lemma rd32_nonneg off x : rd32 buf off = Ret x → 0 ≤ x.
Proof.
  unfold rd32. intros H. rbind H p0 H0. rbind H p1 H1. rbind H p2 H2. rbind H p3 H3. apply rd8_byte in H0, H1, H2, H3. injection H as <-.
  rewrite !Z.lor_nonneg, !Z.shiftl_nonneg. unfold is_u8 in *. lia.
Qed.

Lemma read_table_Forall {A} (P : A → Prop) rd size n off l :
  (∀ o x, rd buf o = Ret x → P x) → read_table rd size n buf off = Ret l → Forall P l.
Proof.
  intros Hrd. revert off l. induction n as [|n IH]; intros off l; cbn [read_table]; [by intros [= <-]|].
  intros H. rbind H x Hx. rbind H l' Hl. injection H as <-. constructor; [by eapply Hrd|by eapply IH].
Qed.

End bytes.

Lemma map_R_Forall {A B} (P : A → Prop) (Q : B → Prop) (f : A → R B) l l' :
  (∀ x y, P x → f x = Ret y → Q y) → Forall P l → map_R f l = Ret l' → Forall Q l'.
Proof.
  intros Hf Hl. revert l'. induction Hl as [|x l Hx Hl IH]; intros l'; cbn [map_R]; [by intros [= <-]|].
  intros H. rbind H y Hy. rbind H ys Hys. injection H as <-. constructor; [by eapply Hf|by apply IH].
Qed.

Definition kind_ok (p : Z * Z) : Prop := p.1 = -1 ∨ 0 ≤ p.1 ≤ SEC_BSS.

Lemma sec_kind_range sh : sec_kind_from_elf sh = -1 ∨ 0 ≤ sec_kind_from_elf sh ≤ SEC_BSS.
Proof. unfold sec_kind_from_elf, SEC_BSS, SEC_TEXT, SEC_DATA, SEC_RODATA. repeat case_match; lia. Qed.

Lemma layout_sections_ok shs ks lay ks' : layout_sections shs ks = Ret (lay, ks') → Forall kind_ok lay.
Proof.
  revert ks lay ks'. induction shs as [|sh shs IH]; intros ks lay ks'; cbn [layout_sections]; [by intros [= <- <-]|].
  destruct (Z.ltb_spec (sec_kind_from_elf sh) 0).
  - intros H'. rbind H' p Hp. destruct p as [l k]. injection H' as <- <-. constructor; [by left|by eapply IH].
  - intros H'. rbind H' sz Hs. rbind H' k2 Hk. rbind H' p Hp. destruct p as [l k]. injection H' as <- <-. constructor; [|by eapply IH].
    right. pose proof (sec_kind_range sh). cbn. lia.
Qed.

Lemma sym_name_terminated k s : Forall is_u8 s → terminated (sym_name k s).
Proof.
  intros H. assert (H0 : terminated [0]) by (split; [repeat constructor; lia|set_solver]). revert k.
  induction H as [|c s Hc Hs IH]; intros [|k]; cbn [sym_name]; try done. case_match; [done|]. destruct (IH k) as [H1 H2].
  split; [by constructor|by right].
Qed.

Lemma convert_sym_ok lay strtab es : Forall kind_ok lay → Forall is_u8 strtab → wf_sym (convert_sym lay strtab es).
Proof.
  intros Hl Hs. unfold convert_sym. match goal with |- context [mk_sym ?n _ _ _] => set (name := n) end. assert (Hn : terminated name).
  { unfold name. case_match; [by apply sym_name_terminated, Forall_drop|]. split; [repeat constructor; lia|set_solver]. }
  clearbody name.
  case_match; [by split; [|left]|]. destruct (lay !! _) as [[kind off]|] eqn:E; [|by split; [|left]].
  destruct (Z.ltb_spec kind 0); (split; [done|]); cbn; [by left|]. right.
  pose proof (Forall_lookup_1 _ _ _ _ Hl E) as [Hk|Hk]; cbn in Hk; lia.
Qed.

Lemma read_symbols_ok shs lay buf syms : Forall is_u8 buf → Forall kind_ok lay → read_symbols shs lay buf = Ret syms → Forall wf_sym syms.
Proof.
  intros Hb Hl. unfold read_symbols. case_match; [|by intros [= <-]]. intros H'. rbind H' symsh Hsy. rensure H' H1. rensure H' H2.
  case_match; [|done]. rensure H' H3. rensure H' H4. rbind H' strtab Hst. rbind H' es Hes. injection H' as <-.
  apply Forall_fmap, Forall_true. intros x. apply convert_sym_ok; [done|]. by eapply slice_bytes.
Qed.

Lemma reloc_target_ok lay sh kind off : Forall kind_ok lay → reloc_target lay sh = Some (kind, off) → 0 ≤ kind ≤ SEC_DATA.
Proof.
  intros Hl. unfold reloc_target. case_match; [done|]. destruct (lay !! _) as [[k o]|] eqn:E; [|done]. case_match; [done|].
  intros [= <- <-]. apply orb_false_iff in H0 as [H0 H1]. rewrite Z.ltb_ge in H0, H1. lia.
Qed.

Lemma convert_reloc_ok (syms : list mobj_sym_t) e ver ks bs payload bss rels off kind off0 r r' :
  0 ≤ kind ≤ SEC_DATA → 0 ≤ r.2 → convert_reloc (length syms) ks bs payload kind off0 r = Ret r' →
  wf_reloc (mk_input true ver e payload bss bs syms rels off) r'.
Proof.
  destruct r as [ro ri]. unfold convert_reloc. intros Hk Hi H. cbn [snd] in Hi. rensure H H1. rensure H H2. rbind H lim Hlim. rensure H H3.
  rbind H b Hb. rbind H w Hw. rbind H add Hadd. injection H as <-. apply of_opt_Ret in Hb. apply Z.ltb_lt in H1.
  split; [done|]. split; [cbn; rewrite Z.shiftr_div_pow2 in * by lia; split; [apply Z.div_pos; lia|done]|]. split; [cbn [r_type]; destruct (_ =? ELF_R_386_32); tauto|]. split.
  - cbn. case_match; [|injection Hadd as <-; mlia]. apply of_opt_Ret in Hadd. unfold sint in Hadd.
    destruct (Z.leb_spec (-2147483648) (s32 w + 4)), (Z.leb_spec (s32 w + 4) 2147483647); cbn in Hadd; try done. injection Hadd as <-. mlia.
  - exists b. split; [done|]. unfold rd32 in Hw. rbind Hw p0 Hp0. rbind Hw p1 Hp1. rbind Hw p2 Hp2. rbind Hw p3 Hp3.
    apply of_opt_Ret, zlookup_Some_range in Hp3. unfold payload_size. cbn. lia.
Qed.

Lemma read_relocs_ok buf e ver ks bs payload bss syms rels off shs lay l : Forall is_u8 buf → Forall kind_ok lay →
  read_relocs shs lay (length syms) ks bs buf payload = Ret l → Forall (wf_reloc (mk_input true ver e payload bss bs syms rels off)) l.
Proof.
  intros Hb Hl. revert l. induction shs as [|sh shs IH]; intros l; cbn [read_relocs]; [by intros [= <-]|].
  destruct (reloc_target lay sh) as [[kind off0]|] eqn:Et; [|apply IH]. intros H. rensure H H1. rbind H rs Hrs. rbind H l1 Hl1. rbind H l2 Hl2.
  injection H as <-. apply Forall_app. split; [|by apply IH]. apply (reloc_target_ok _ _ _ _ Hl) in Et.
  eapply (map_R_Forall (λ r : Z * Z, 0 ≤ r.2)); [|eapply read_table_Forall; [|exact Hrs]|exact Hl1].
  - intros r r' Hr. by apply convert_reloc_ok.
  - intros o [ro ri] H. unfold read_erel in H. rbind H ro' Hro. rbind H ri' Hri. injection H as <- <-. by eapply rd32_nonneg.
Qed.


(** ** Examples *)

Definition mobj (text rodata data bss : Z) (payload : list Z) (syms rels : list (list Z)) : list Z :=
  [77; 79; 66; 74] ++ le32 2 ++ le32 0 ++ le32 0 ++ le32 text ++ le32 rodata ++ le32 data ++ le32 bss ++
  le32 (Z.of_nat (length syms)) ++ le32 (Z.of_nat (length rels)) ++ payload ++ concat syms ++ concat rels.
Definition sym (name : string) (v sec flags : Z) : list Z :=
  str name ++ replicate (64 - length (str name)) 0 ++ le32 v ++ le32 sec ++ le32 flags.
Definition rel (sec off ty ix add : Z) : list Z := le32 sec ++ le32 off ++ le32 ty ++ le32 ix ++ le32 add.

(** [a.o] refers to [f] of [b.o], by its address and relative to the place, and has
    a variable [v] of four bytes in its [bss]. *)
Definition a_o : list Z := mobj 12 0 0 4 (replicate 12 144)
  [sym "f" 0 SEC_UNDEF 0; sym "v" 0 SEC_BSS 0] [rel 0 0 1 0 0; rel 0 4 2 0 0; rel 0 8 1 1 0].
Definition b_o : list Z := mobj 4 0 0 0 [0x90; 0x90; 0xC3; 0xCC] [sym "$f" 2 SEC_TEXT MOBJ_SYM_GLOBAL] [].

Definition demo_files (path : list Z) : option (list Z) :=
  if bool_decide (path = opt "a.o") then Some a_o else if bool_decide (path = opt "b.o") then Some b_o else None.
Definition demo_opts : opts_t := mk_opts (Some (opt "p")) [opt "a.o"; opt "b.o"] 0x700000 0x700000 false.

(** The variable [v] gets the address 0x70000C, where the code of [b.o] is: the words
    are [f], the distance to [f], and [v]. *)
Definition demo_image : list Z := [14; 0; 112; 0; 6; 0; 0; 0; 12; 0; 112; 0; 0x90; 0x90; 0xC3; 0xCC].
Definition demo_out : list Z := header 0x700000 0x700000 16 20 ++ demo_image.

Lemma demo_links : link demo_files demo_opts [opt "a.o"; opt "b.o"] = Ret demo_out.
Proof. vm_compute. reflexivity. Qed.

Example demo_command : ld86 demo_files [opt "-o"; opt "p"; opt "a.o"; opt "b.o"] = Ret (opt "p", demo_out).
Proof. vm_compute. reflexivity. Qed.

Lemma link_correct_witness : ∃ bufs inputs image ws,
  objects demo_files [opt "a.o"; opt "b.o"] = Ret bufs ∧ Forall2 parsed bufs inputs ∧
  demo_out = header 0x700000 (entry_of 0x700000 0x700000 false inputs) (Z.of_nat (length image)) (u32 (mem_size inputs)) ++ image ∧
  Forall2 (reloc_means 0x700000 inputs) (all_rels inputs) ws.
Proof.
  destruct (link_correct demo_files demo_opts [opt "a.o"; opt "b.o"] demo_out demo_links) as (bufs & inputs & image & ws & H1 & H2 & _ & H3 & _ & H4 & _).
  exists bufs, inputs, image, ws. split; [exact H1|]. split; [exact H2|]. split; [exact H3|exact H4].
Defined.

(** A symbol of the [bss] has an address past the payload of its own input: if that
    is not the last one, the address is in the payload of the next. *)
Lemma bss_overlaps base i j l off s : placed off (i :: j :: l) → s_section s = SEC_BSS →
  zlookup (in_sec_base i) SEC_BSS = Some (payload_size i) → ∀ k, address base (k, i, s) = u32 (base + in_image_off j + s_value_off s).
Proof. intros (H1 & H2 & _) Hs Hb k. unfold address. rewrite Hs, Hb, H2, H1. cbn. f_equal. lia. Qed.

(** A relocation at offset 0xFFFFFFFC passes the check of its place, and is applied to
    the end of the input before. *)
Definition c_o : list Z := mobj 4 0 0 0 [1; 2; 3; 4] [sym "f" 2 SEC_TEXT MOBJ_SYM_GLOBAL] [rel 0 0xFFFFFFFC 1 0 0].
Example reloc_wraps :
  (link (λ p, if bool_decide (p = opt "b.o") then Some b_o else Some c_o) demo_opts [opt "b.o"; opt "c.o"]) =
    Ret (header 0x700000 0x700000 8 8 ++ [6; 0; 112; 0; 1; 2; 3; 4]).
Proof. vm_compute. reflexivity. Qed.

Definition demo_inputs : list input_t :=
  match add_files demo_files 0x700000 false [opt "a.o"; opt "b.o"] (mk_ld [] 0 0 0x700000 false) with Ret st => ld_inputs st | _ => [] end.

Lemma resolve_symbol_addr_correct_witness : ∃ owner, demo_inputs !! 0%nat = Some owner ∧ resolve_symbol_addr demo_inputs owner 0 0x700000 = Ret 0x70000E.
Proof.
  destruct (demo_inputs !! 0%nat) as [owner|] eqn:E; [|discriminate E]. exists owner. split; [done|].
  destruct (zlookup (in_syms owner) 0) as [s|] eqn:Es; [|vm_compute in E; injection E as <-; discriminate Es].
  rewrite (resolve_symbol_addr_correct 0x700000 demo_inputs owner 0 s).
  - vm_compute in E. injection E as <-. vm_compute in Es. injection Es as <-. vm_compute. reflexivity.
  - decided.
  - vm_compute in E. injection E as <-. decided.
  - exact Es.
Defined.

(** A relocatable ELF object with one section of code and one relocation. *)
Definition shdr (ty fl off sz ln inf es : Z) : list Z :=
  le32 0 ++ le32 ty ++ le32 fl ++ le32 0 ++ le32 off ++ le32 sz ++ le32 ln ++ le32 inf ++ le32 1 ++ le32 es.
Definition elf_o : list Z :=
  [0x7F; 69; 76; 70; 1; 1; 1] ++ replicate 9 0 ++ le16 1 ++ le16 3 ++ le32 1 ++ le32 0 ++ le32 0 ++ le32 104 ++ le32 0 ++
  le16 52 ++ le16 0 ++ le16 0 ++ le16 40 ++ le16 5 ++ le16 3 ++
  [0xE8; 0xFC; 0xFF; 0xFF; 0xFF; 0x90; 0x90; 0x90] ++ replicate 16 0 ++ le32 1 ++ le32 0 ++ le32 0 ++ [0x10; 0] ++ le16 0 ++ [0; 102; 0; 0] ++
  le32 1 ++ le32 0x102 ++
  shdr 0 0 0 0 0 0 0 ++ shdr 1 6 52 8 0 0 0 ++ shdr 2 0 60 32 3 0 16 ++ shdr 3 0 92 3 0 0 0 ++ shdr 9 0 96 8 2 1 8.

