(* ===== verification/Ld86Load.v ===== *)
(** * A linked program in memory ([src/userland/ld86.c], [src/src/proc/elf.c])

    The linker and the kernel's loader together: what [ld86] writes, the kernel
    accepts, and user code finds the relocated image where it was linked for. *)

From S2P Require Import Prelude Bytes LibcString LibcNum Pmm Paging PhysMem Loader LoadContents Ld86 Ld86Link Ld86Spec.

(** ** The headers *)

Lemma join_le32 x : is_u32 x → x mod 256 + 256 * (x / 256 mod 256) + 65536 * (x / 65536 mod 256 + 256 * (x / 16777216 mod 256)) = x.
Proof. intros Hx. mlia. Qed.

Lemma fbyte_app_l l l' k : 0 ≤ k < Z.of_nat (length l) → fbyte (l ++ l') k = fbyte l k.
Proof. intros Hk. unfold fbyte. rewrite !zlookup_nonneg by lia. by rewrite lookup_app_l by lia. Qed.

Section header.
Context (base entry filesz memsz : Z) (image : list Z).
Context (Hb : is_u32 base) (He : is_u32 entry) (Hf : is_u32 filesz) (Hm : is_u32 memsz).
Context (Hl : Z.of_nat (length image) = filesz).

Let obuf : list Z := header base entry filesz memsz ++ image.

Lemma length_obuf : Z.of_nat (length obuf) = 4096 + filesz.
Proof. unfold obuf. rewrite length_app, length_header. lia. Qed.

Lemma fbyte_header k : 0 ≤ k < 84 → fbyte obuf k = fbyte (ehdr_bytes entry ++ phdr_bytes 4096 base filesz memsz) k.
Proof.
  intros Hk. unfold obuf. rewrite fbyte_app_l by (rewrite length_header; lia). unfold header. rewrite app_assoc. apply fbyte_app_l.
  change (length (ehdr_bytes entry ++ phdr_bytes 4096 base filesz memsz)) with 84%nat. lia.
Qed.

Lemma file_ehdr_obuf : file_ehdr obuf = mk_ehdr [0x7F; 69; 76; 70; 1; 1; 1] 2 3 entry 52 1.
Proof.
  unfold file_ehdr, fword32, fword16. rewrite !fbyte_header by lia. cbn -[Z.modulo Z.div Z.mul]. f_equal. by apply join_le32.
Qed.

Lemma segment_obuf : segment obuf = mk_phdr 1 4096 base filesz memsz.
Proof.
  unfold segment. rewrite file_ehdr_obuf. cbn [e_phoff]. unfold file_phdr, fword32, fword16. rewrite !fbyte_header by lia.
  cbn -[Z.modulo Z.div Z.mul]. f_equal; by apply join_le32.
Qed.

Lemma obuf_program : 4096 + filesz < 4294967296 → USER_REGION_START ≤ base → filesz ≤ memsz → base + memsz ≤ USER_STACK_BASE_VADDR → program obuf.
Proof.
  intros Hs H1 H2 H3. pose proof length_obuf as HL. unfold is_u32 in *.
  split; rewrite ?file_ehdr_obuf, ?segment_obuf; cbn [e_phoff e_phnum p_type p_offset p_vaddr p_filesz p_memsz]; unfold Loader.PHDR_SIZE; lia || done.
Qed.

Lemma obuf_byte k : 0 ≤ k < filesz → fbyte obuf (4096 + k) = default 0 (zlookup image k).
Proof.
  intros Hk. unfold fbyte, obuf. rewrite !zlookup_nonneg by lia. rewrite lookup_app_r by (rewrite length_header; lia).
  rewrite length_header. do 2 f_equal. lia.
Qed.

End header.

(** C8 (refinement): the linker and the kernel together.  When the linker's output is
    loaded into an address space with no user pages below the stack, and the segment
    lies between the start of the user region and the stack, the loader either runs
    out of physical frames or starts the program at the linker's entry point with the
    relocated image at the address that it was linked for, and zeroes after it. *)
Theorem linked_program_loads file o pos obuf s d elf P :
  link file o pos = Ret obuf → is_u32 (o_base o) → is_u32 (o_entry o) →
  paging_wf s → space_ok s d → file_at s d elf P obuf →
  (∀ va, user_va va → va < USER_STACK_BASE_VADDR → translate (pg_mem s) d va = None) →
  USER_REGION_START ≤ o_base o → o_base o + p_memsz (segment obuf) ≤ USER_STACK_BASE_VADDR →
  p_filesz (segment obuf) ≤ p_memsz (segment obuf) →
  ∃ bufs inputs ws r s',
    objects file pos = Ret bufs ∧ Forall2 parsed bufs inputs ∧
    Forall2 (reloc_means (o_base o) inputs) (all_rels inputs) ws ∧
    load_image (PHYS_TO_KVIRT d) elf (Z.of_nat (length obuf)) s = Some (r, s') ∧ confined d s s' ∧
    match r with
    | None => exhausted s'
    | Some (entry, _, _) =>
      entry = entry_of (o_base o) (o_entry o) (o_entry_set o) inputs ∧
      ∀ k, 0 ≤ k < u32 (mem_size inputs) →
        user_byte s' d (o_base o + k) = Some (default 0 (zlookup (foldl patch (payloads inputs) ws) k))
    end.
Proof.
  intros Hlink Hb He Hwf Hsp Hat Hnone H1 H2 H3.
  destruct (link_shape file o pos obuf Hlink) as (bufs & inputs & ws & Hobj & Hpar & _ & Hws & _ & Hlen & Hu & ->).
  set (image := foldl patch (payloads inputs) ws) in *. set (entry := entry_of _ _ _ _) in *.
  assert (Hent : is_u32 entry) by (unfold entry, entry_of; repeat case_match; (done || apply u32_range)).
  pose proof (u32_range (mem_size inputs)) as Hm. set (memsz := u32 (mem_size inputs)) in *. set (filesz := Z.of_nat (length image)) in *.
  assert (Hseg : segment (header (o_base o) entry filesz memsz ++ image) = mk_phdr 1 4096 (o_base o) filesz memsz) by (by apply segment_obuf).
  rewrite Hseg in H2, H3. cbn [p_memsz p_filesz] in H2, H3.
  assert (Hbig : 4096 + filesz < 4294967296) by (unfold USER_REGION_START, USER_STACK_BASE_VADDR, USER_STACK_TOP_PAGE_VADDR, USER_STACK_PAGES in *; lia).
  destruct (load_image_program s d elf P _ Hwf Hsp Hat (obuf_program _ _ _ _ image Hb Hent Hu Hm eq_refl Hbig H1 H3 H2) Hnone) as (r & s' & Hload & HC & Hr).
  exists bufs, inputs, ws, r, s'. do 5 (split; [done|]). destruct r as [[[en sp] ue]|]; [|done]. destruct Hr as [-> Hr].
  rewrite Hseg in Hr. rewrite file_ehdr_obuf by done. split; [done|]. intros k Hk. cbn [p_memsz p_vaddr] in Hr. rewrite Hr by done. f_equal.
  unfold program_byte. rewrite Hseg. cbn [p_filesz p_offset]. case_decide; [apply obuf_byte; done || lia|].
  unfold zlookup. destruct (0 <=? k); [|done]. rewrite lookup_ge_None_2; [done|]. fold image. lia.
Qed.

(** ** Example: the two objects of [Ld86Spec] *)

Lemma demo_out_bytes : Forall is_u8 demo_out.
Proof. decided. Qed.

Lemma linked_program_loads_witness : ∃ inputs ws r s',
  load_image (PHYS_TO_KVIRT 0x300000) (PHYS_TO_KVIRT 0x500000) (Z.of_nat (length demo_out)) (staged demo_out) = Some (r, s') ∧
  match r with
  | None => exhausted s'
  | Some (entry, _, _) =>
    entry = entry_of 0x700000 0x700000 false inputs ∧
    ∀ k, 0 ≤ k < u32 (mem_size inputs) →
      user_byte s' 0x300000 (0x700000 + k) = Some (default 0 (zlookup (foldl patch (payloads inputs) ws) k))
  end.
Proof.
  destruct (linked_program_loads demo_files demo_opts [opt "a.o"; opt "b.o"] demo_out (staged demo_out) 0x300000
    (PHYS_TO_KVIRT 0x500000) 0x500000) as (bufs & inputs & ws & r & s' & _ & _ & _ & E & _ & H).
  - exact demo_links.
  - vm_compute. intuition discriminate.
  - vm_compute. intuition discriminate.
  - apply staged_wf, demo_out_bytes.
  - apply staged_space.
  - apply staged_file; [exact demo_out_bytes|vm_compute; discriminate].
  - intros va Hva _. by apply staged_unmapped, user_va_u32.
  - vm_compute. discriminate.
  - vm_compute. discriminate.
  - vm_compute. discriminate.
  - exists inputs, ws, r, s'. split; [exact E|exact H].
Defined.
