(* ===== verification/As86.v ===== *)
(** * The assembler ([src/userland/as86.c])

    [as86] assembles a source text in two passes, to a flat binary or to an object
    for the linker.  A C string is the list of its bytes before the NUL; a buffer of
    [n] bytes keeps at most [n - 1] of them.  [None] (and [Ub]) is undefined behaviour,
    which here is the overflow of an [int]; [Die] is the return value 0 of a parser.
    Messages, with the line kept for them, are left out, and the output file can be
    written. *)

From S2P Require Import Prelude Bytes LibcNum Ld86.

(** ** Constants *)

Definition MAX_SRC : Z := 512 * 1024.
Definition MAX_LINE : nat := 1024.
Definition MAX_TOK : nat := 256.
Definition MAX_LABELS : Z := 2048.
Definition MAX_NAME : nat := 64.
Definition MAX_RELOCS : Z := 8192.
Definition MOBJ_SYM_EXTERN : Z := 2.
Definition SEC_COUNT : nat := 4.

(** ** Characters and strings *)

Definition to_lower (c : Z) : Z := if (65 <=? c) && (c <=? 90) then c - 65 + 97 else c.

Fixpoint streqi (a b : list Z) : bool :=
  match a, b with
  | [], [] => true
  | x :: a, y :: b => if to_lower x =? to_lower y then streqi a b else false
  | _, _ => false
  end.

(** What [copy_lim] stores in a buffer of [cap] bytes. *)
Definition copy_lim (src : list Z) (cap : nat) : list Z := take (cap - 1) src.

Definition is_blank (c : Z) : bool := (c =? 32) || (c =? 9).
Definition is_space (c : Z) : bool := (c =? 32) || (c =? 9) || (c =? 13) || (c =? 10).

Fixpoint ltrim (s : list Z) : list Z :=
  match s with [] => [] | c :: s' => if is_space c then ltrim s' else s end.

Definition rtrim (s : list Z) : list Z := reverse (ltrim (reverse s)).

(** The characters before the first one with [p], and the rest. *)
Fixpoint span (p : Z → bool) (s : list Z) : list Z * list Z :=
  match s with
  | [] => ([], [])
  | c :: s' => if p c then ([], s) else let '(a, b) := span p s' in (c :: a, b)
  end.

Definition push_token (max_out : nat) (out : list (list Z)) (tok : list Z) : list (list Z) :=
  if (length out <? max_out)%nat then out ++ [rtrim (ltrim (take (MAX_TOK - 1) tok))] else out.

(** A quotation mark that does not follow a backslash. *)
Definition is_quote (prev c : Z) : bool := (c =? 34) && negb (prev =? 92).

Fixpoint split_loop (max_out : nat) (s : list Z) (prev : Z) (in_str : bool) (level : Z) (cur : list Z) (out : list (list Z)) : list (list Z) :=
  match s with
  | [] => push_token max_out out cur
  | c :: s =>
    let in_str := xorb in_str (is_quote prev c) in
    let level := if in_str then level else if c =? 91 then level + 1 else if (c =? 93) && (0 <? level) then level - 1 else level in
    if (c =? 44) && (level =? 0) && negb in_str then split_loop max_out s c in_str level [] (push_token max_out out cur)
    else split_loop max_out s c in_str level (cur ++ [c]) out
  end.

Definition split_operands (s : list Z) (max_out : nat) : list (list Z) := split_loop max_out s 0 false 0 [] [].

(** ** Numbers and registers *)

Definition digit_of (c : Z) : option Z :=
  if (48 <=? c) && (c <=? 57) then Some (c - 48) else
  if (97 <=? c) && (c <=? 102) then Some (10 + (c - 97)) else
  if (65 <=? c) && (c <=? 70) then Some (10 + (c - 65)) else None.

Fixpoint int_digits (s : list Z) (base v : Z) : R Z :=
  match s with
  | [] => Ret v
  | c :: s =>
    match digit_of c with
    | None => Die
    | Some d => if base <=? d then Die else m ← of_opt (sint (v * base)); v ← of_opt (sint (m + d)); int_digits s base v
    end
  end.

Definition parse_int (s : list Z) : R Z :=
  let '(sign, s) := match s with c :: s' => if c =? 45 then (-1, s') else if c =? 43 then (1, s') else (1, s) | [] => (1, s) end in
  let '(base, s) := match s with c :: x :: s' => if (c =? 48) && ((x =? 120) || (x =? 88)) then (16, s') else (10, s) | _ => (10, s) end in
  match s with
  | [] => Die
  | _ => v ← int_digits s base 0; of_opt (sint (v * sign))
  end.

Definition r8 : list (list Z) := str <$> ["al"; "cl"; "dl"; "bl"; "ah"; "ch"; "dh"; "bh"]%string.
Definition r16 : list (list Z) := str <$> ["ax"; "cx"; "dx"; "bx"; "sp"; "bp"; "si"; "di"]%string.
Definition r32 : list (list Z) := str <$> ["eax"; "ecx"; "edx"; "ebx"; "esp"; "ebp"; "esi"; "edi"]%string.

Definition reg_code_bits (s : list Z) : option (Z * Z) :=
  match find_index (streqi s) r8, find_index (streqi s) r16, find_index (streqi s) r32 with
  | Some i, _, _ => Some (Z.of_nat i, 8)
  | None, Some i, _ => Some (Z.of_nat i, 16)
  | None, None, Some i => Some (Z.of_nat i, 32)
  | None, None, None => None
  end.

(** ** Operands *)

Inductive op_kind_t := OP_NONE | OP_REG | OP_IMM | OP_LABEL | OP_MEM.

#[global] Instance op_kind_dec : EqDecision op_kind_t.
Proof. solve_decision. Defined.

Record operand_t := mk_op {
  o_kind : op_kind_t;
  o_reg : Z;
  o_reg_bits : Z;
  o_imm : Z;
  o_label : list Z;
  o_base_reg : Z;
  o_disp : Z;
  o_disp_label : list Z;
  o_size_hint : Z
}.

Definition op_zero : operand_t := mk_op OP_NONE 0 0 0 [] 0 0 [] 0.
Definition is_kind (k : op_kind_t) (o : operand_t) : bool := bool_decide (o_kind o = k).

Definition mem_op (base disp : Z) (lab : list Z) (hint : Z) : operand_t := mk_op OP_MEM 0 0 0 [] base disp lab hint.

Definition is_sign (c : Z) : bool := (c =? 43) || (c =? 45).

(** The terms of a memory expression from [buf] on; each round drops a character. *)
Fixpoint mem_terms (fuel : nat) (buf : list Z) (sign base disp : Z) (lab : list Z) (hint : Z) : R operand_t :=
  match fuel with
  | O => Ub
  | S fuel =>
    match buf with
    | [] => Ret (mem_op base disp lab hint)
    | _ =>
      let '(term, rest) := span is_sign buf in
      if (length term =? 0)%nat || (MAX_TOK <=? length term)%nat then Die else
      '(base, disp, lab) ←
        match reg_code_bits term with
        | Some (rc, 32) => if base =? -1 then Ret (rc, disp, lab) else Die
        | _ =>
          match parse_int term with
          | Ret v => m ← of_opt (sint (sign * v)); d ← of_opt (sint (disp + m)); Ret (base, d, lab)
          | Ub => Ub
          | Die => if sign <? 0 then Die else if bool_decide (lab = []) then Ret (base, disp, copy_lim term MAX_NAME) else Die
          end
        end;
      match rest with
      | [] => Ret (mem_op base disp lab hint)
      | c :: rest => mem_terms fuel rest (if c =? 45 then -1 else 1) base disp lab hint
      end
    end
  end.

Definition parse_mem_expr (expr : list Z) (hint : Z) : R operand_t :=
  let buf := take (MAX_TOK - 1) (filter (λ c, is_blank c = false) expr) in
  match buf with [] => Die | _ => mem_terms (S (length buf)) buf 1 (-1) 0 [] hint end.

Definition size_prefix (s : list Z) : Z * list Z :=
  if bool_decide (take 5 s = str "byte ") then (8, ltrim (drop 5 s)) else
  if bool_decide (take 5 s = str "word ") then (16, ltrim (drop 5 s)) else
  if bool_decide (take 6 s = str "dword ") then (32, ltrim (drop 6 s)) else (0, s).

Definition parse_operand (s : list Z) : R operand_t :=
  let s := rtrim (ltrim s) in
  if bool_decide (s = []) then Ret (mk_op OP_NONE 0 0 0 [] (-1) 0 [] 0) else
  let '(hint, s) := size_prefix s in
  let n := length s in
  if (2 <=? n)%nat && (chr s 0 =? 91) && (chr s (n - 1) =? 93) then
    if (MAX_TOK <=? n - 2)%nat then Die else parse_mem_expr (take (n - 2) (drop 1 s)) hint
  else
    match reg_code_bits s with
    | Some (reg, bits) => Ret (mk_op OP_REG reg bits 0 [] (-1) 0 [] hint)
    | None =>
      match parse_int s with
      | Ret v => Ret (mk_op OP_IMM 0 0 v [] (-1) 0 [] hint)
      | Ub => Ub
      | Die => Ret (mk_op OP_LABEL 0 0 0 (copy_lim s MAX_NAME) (-1) 0 [] hint)
      end
    end.

(** ** The state of the assembler *)

Record label_t := mk_label { l_name : list Z; l_offset : Z; l_section : Z; l_defined : bool; l_is_global : bool; l_is_extern : bool }.

(** [c_out] holds the bytes of a section up to its length; [c_allocs] counts the
    requests for memory. *)
Record asm_ctx_t := mk_ctx {
  c_pass : Z;
  c_org : Z;
  c_cur_sec : Z;
  c_pc : list Z;
  c_size : list Z;
  c_base : list Z;
  c_out : list (list Z);
  c_cap : list Z;
  c_labels : list label_t;
  c_err : bool;
  c_lines : Z;
  c_fmt_obj : bool;
  c_relocs : list mobj_reloc_t;
  c_allocs : nat
}.

Definition ctx_zero (org : Z) (fmt_obj : bool) : asm_ctx_t :=
  mk_ctx 0 org 0 [0; 0; 0; 0] [0; 0; 0; 0] [0; 0; 0; 0] [[]; []; []; []] [0; 0; 0; 0] [] false 0 fmt_obj [] 0.

Definition with_org (v : Z) (c : asm_ctx_t) : asm_ctx_t := mk_ctx (c_pass c) v (c_cur_sec c) (c_pc c) (c_size c) (c_base c) (c_out c) (c_cap c) (c_labels c) (c_err c) (c_lines c) (c_fmt_obj c) (c_relocs c) (c_allocs c).
Definition with_cur_sec (v : Z) (c : asm_ctx_t) : asm_ctx_t := mk_ctx (c_pass c) (c_org c) v (c_pc c) (c_size c) (c_base c) (c_out c) (c_cap c) (c_labels c) (c_err c) (c_lines c) (c_fmt_obj c) (c_relocs c) (c_allocs c).
Definition with_pc (v : list Z) (c : asm_ctx_t) : asm_ctx_t := mk_ctx (c_pass c) (c_org c) (c_cur_sec c) v (c_size c) (c_base c) (c_out c) (c_cap c) (c_labels c) (c_err c) (c_lines c) (c_fmt_obj c) (c_relocs c) (c_allocs c).
Definition with_layout (size base cap : list Z) (c : asm_ctx_t) : asm_ctx_t := mk_ctx (c_pass c) (c_org c) (c_cur_sec c) (c_pc c) size base (c_out c) cap (c_labels c) (c_err c) (c_lines c) (c_fmt_obj c) (c_relocs c) (c_allocs c).
Definition with_out (v : list (list Z)) (c : asm_ctx_t) : asm_ctx_t := mk_ctx (c_pass c) (c_org c) (c_cur_sec c) (c_pc c) (c_size c) (c_base c) v (c_cap c) (c_labels c) (c_err c) (c_lines c) (c_fmt_obj c) (c_relocs c) (c_allocs c).
Definition with_cap (v : list Z) (c : asm_ctx_t) : asm_ctx_t := mk_ctx (c_pass c) (c_org c) (c_cur_sec c) (c_pc c) (c_size c) (c_base c) (c_out c) v (c_labels c) (c_err c) (c_lines c) (c_fmt_obj c) (c_relocs c) (c_allocs c).
Definition with_labels (v : list label_t) (c : asm_ctx_t) : asm_ctx_t := mk_ctx (c_pass c) (c_org c) (c_cur_sec c) (c_pc c) (c_size c) (c_base c) (c_out c) (c_cap c) v (c_err c) (c_lines c) (c_fmt_obj c) (c_relocs c) (c_allocs c).
Definition with_err (c : asm_ctx_t) : asm_ctx_t := mk_ctx (c_pass c) (c_org c) (c_cur_sec c) (c_pc c) (c_size c) (c_base c) (c_out c) (c_cap c) (c_labels c) true (c_lines c) (c_fmt_obj c) (c_relocs c) (c_allocs c).
Definition with_lines (v : Z) (c : asm_ctx_t) : asm_ctx_t := mk_ctx (c_pass c) (c_org c) (c_cur_sec c) (c_pc c) (c_size c) (c_base c) (c_out c) (c_cap c) (c_labels c) (c_err c) v (c_fmt_obj c) (c_relocs c) (c_allocs c).
Definition with_relocs (v : list mobj_reloc_t) (c : asm_ctx_t) : asm_ctx_t := mk_ctx (c_pass c) (c_org c) (c_cur_sec c) (c_pc c) (c_size c) (c_base c) (c_out c) (c_cap c) (c_labels c) (c_err c) (c_lines c) (c_fmt_obj c) v (c_allocs c).
Definition with_allocs (v : nat) (c : asm_ctx_t) : asm_ctx_t := mk_ctx (c_pass c) (c_org c) (c_cur_sec c) (c_pc c) (c_size c) (c_base c) (c_out c) (c_cap c) (c_labels c) (c_err c) (c_lines c) (c_fmt_obj c) (c_relocs c) v.

Notation A := (M asm_ctx_t).

(** [m1 && m2] of C on return values. *)
Definition andm (m1 m2 : A bool) : A bool := b ← m1; if b : bool then m2 else mret false.
Infix "&-&" := andm (at level 42, right associativity).

Definition fails : A bool := modify with_err;; mret false.

(** A parser in the state: undefined behaviour is one, the return value 0 is [None]. *)
Definition parsed {T} (r : R T) : A (option T) :=
  match r with Ret a => mret (Some a) | Die => mret None | Ub => ub end.

Section assembler.
(** Whether the [k]-th request for memory, for [n] bytes, is satisfied. *)
Context (room : nat → Z → bool).

Definition alloc (n : Z) : A bool :=
  c ← get; put (with_allocs (S (c_allocs c)) c);; mret (room (c_allocs c) n).

Definition cur_pc : A Z :=
  c ← get; b ← lift (zlookup (c_base c) (c_cur_sec c)); p ← lift (zlookup (c_pc c) (c_cur_sec c)); mret (u32 (c_org c + b + p)).

Definition sec_pc : A Z := c ← get; lift (zlookup (c_pc c) (c_cur_sec c)).

(** *** Labels *)

Definition find_label (labels : list label_t) (name : list Z) : option nat := find_index (λ l, str_eqb (l_name l) name) labels.

Definition get_label_index (name : list Z) (create : bool) : A Z :=
  c ← get;
  match find_label (c_labels c) name with
  | Some i => mret (Z.of_nat i)
  | None =>
    if negb create then mret (-1) else
    if MAX_LABELS <=? Z.of_nat (length (c_labels c)) then mret (-1) else
    put (with_labels (c_labels c ++ [mk_label (copy_lim name MAX_NAME) 0 0 false false false]) c);;
    mret (Z.of_nat (length (c_labels c)))
  end.

Definition upd_label (idx : Z) (f : label_t → label_t) : A unit :=
  c ← get; l ← lift (zlookup (c_labels c) idx); ls ← lift (zupdate (c_labels c) idx (f l)); put (with_labels ls c).

Definition mark_label_global (name : list Z) : A unit :=
  idx ← get_label_index name true;
  if 0 <=? idx then upd_label idx (λ l, mk_label (l_name l) (l_offset l) (l_section l) (l_defined l) true (l_is_extern l)) else mret tt.

Definition mark_label_extern (name : list Z) : A unit :=
  idx ← get_label_index name true;
  if 0 <=? idx then upd_label idx (λ l, mk_label (l_name l) (l_offset l) (l_section l) (l_defined l) (l_is_global l) true) else mret tt.

Definition add_reloc (section offset type : Z) (sym_name : list Z) (addend : Z) : A bool :=
  c ← get;
  if negb (c_fmt_obj c) || negb (c_pass c =? 2) then mret true else
  if MAX_RELOCS <=? Z.of_nat (length (c_relocs c)) then fails else
  sym_idx ← get_label_index sym_name true;
  if sym_idx <? 0 then fails else
  modify (λ c, with_relocs (c_relocs c ++ [mk_reloc section offset type (u32 sym_idx) addend]) c);;
  mret true.

Definition define_label (name : list Z) (offset section : Z) : A bool :=
  idx ← get_label_index name true;
  if idx <? 0 then mret false else
  c ← get; l ← lift (zlookup (c_labels c) idx);
  if l_defined l && (c_pass c =? 1) then fails else
  upd_label idx (λ l, mk_label (l_name l) offset section true (l_is_global l) (l_is_extern l));;
  mret true.

(** The address of a label, [None] when it is not defined. *)
Definition label_addr (name : list Z) : A (option Z) :=
  idx ← get_label_index name false;
  if idx <? 0 then mret None else
  c ← get; l ← lift (zlookup (c_labels c) idx);
  if negb (l_defined l) then mret None else
  b ← lift (zlookup (c_base c) (l_section l)); mret (Some (u32 (c_org c + b + l_offset l))).

Definition find_label_addr (name : list Z) : A (option Z) := label_addr name.

Definition resolve_label (name : list Z) : A (option Z) :=
  o ← label_addr name;
  match o with
  | Some a => mret (Some (s32 a))
  | None =>
    idx ← get_label_index name false; c ← get;
    ext ← (if 0 <=? idx then l ← lift (zlookup (c_labels c) idx); mret (l_is_extern l) else mret false);
    if c_fmt_obj c && (c_pass c =? 2) && ext then mret (Some 0) else
    (if c_pass c =? 2 then modify with_err else mret tt);; mret None
  end.

(** *** Output *)

(** Memory for one more byte of section [s]. *)
Definition grow (s : Z) : A bool :=
  c ← get; out ← lift (zlookup (c_out c) s); cap ← lift (zlookup (c_cap c) s);
  let len := Z.of_nat (length out) in
  if len <? cap then mret true else
  d ← (if 0 <? cap then lift (sint (cap * 2)) else mret 1024);
  let new_cap := if d <? len + 1 then len + 1 else d in
  ok ← alloc new_cap;
  if ok : bool then c ← get; caps ← lift (zupdate (c_cap c) s new_cap); put (with_cap caps c);; mret true else fails.

Definition store8 (v : Z) : A bool :=
  c ← get;
  if negb (c_pass c =? 2) then mret true else
  grow (c_cur_sec c) &-&
  (c ← get; out ← lift (zlookup (c_out c) (c_cur_sec c));
   outs ← lift (zupdate (c_out c) (c_cur_sec c) (out ++ [u8 (Z.land v 0xFF)])); put (with_out outs c);; mret true).

Definition advance : A bool :=
  c ← get; p ← lift (zlookup (c_pc c) (c_cur_sec c)); pcs ← lift (zupdate (c_pc c) (c_cur_sec c) (u32 (p + 1)));
  put (with_pc pcs c);; mret true.

Definition emit8 (v : Z) : A bool := store8 v &-& advance.

Definition emit16 (v : Z) : A bool := emit8 (Z.land v 0xFF) &-& emit8 (Z.land (Z.shiftr v 8) 0xFF).

Definition emit32 (v : Z) : A bool :=
  emit8 (Z.land v 0xFF) &-& emit8 (Z.land (Z.shiftr v 8) 0xFF) &-& emit8 (Z.land (Z.shiftr v 16) 0xFF) &-& emit8 (Z.land (Z.shiftr v 24) 0xFF).

Definition modrm (md reg rm : Z) : Z := Z.lor (Z.lor (Z.shiftl (Z.land md 3) 6) (Z.shiftl (Z.land reg 7) 3)) (Z.land rm 7).

Definition emit_modrm (md reg rm : Z) : A bool := emit8 (modrm md reg rm).

(** The relocation for the four bytes that are emitted next. *)
Definition reloc_here (type : Z) (sym : list Z) (addend : Z) : A bool :=
  off ← sec_pc; c ← get; add_reloc (u32 (c_cur_sec c)) off type sym addend.

(** [Some] of the value of an immediate operand. *)
Definition resolve_imm (op : operand_t) : A (option Z) :=
  match o_kind op with
  | OP_IMM => mret (Some (o_imm op))
  | OP_LABEL => c ← get; if c_pass c =? 1 then mret (Some 0x1000) else resolve_label (o_label op)
  | _ => mret None
  end.

(** [if (!resolve_imm(ctx, op, &imm)) return 0; ...] *)
Definition with_imm (op : operand_t) (k : Z → A bool) : A bool :=
  o ← resolve_imm op; match o with None => mret false | Some imm => k imm end.

Definition emit_abs_operand (op : operand_t) : A bool :=
  match o_disp_label op with
  | [] => emit32 (u32 (o_disp op))
  | _ =>
    o ← resolve_label (o_disp_label op);
    match o with
    | None => mret false
    | Some l =>
      addr ← lift (sint (o_disp op + l));
      reloc_here MOBJ_RELOC_ABS32 (o_disp_label op) (o_disp op) &-&
      (c ← get; emit32 (u32 (if c_fmt_obj c then 0 else addr)))
    end
  end.

Definition mem_mod (base disp : Z) : Z :=
  if (disp =? 0) && negb (base =? 5) then 0 else if (-128 <=? disp) && (disp <=? 127) then 1 else 2.

Definition emit_base_operand (reg_field base disp : Z) : A bool :=
  let md := mem_mod base disp in
  let need_sib := base =? 4 in
  emit_modrm md reg_field (if need_sib then 4 else base) &-&
  (if need_sib then emit8 0x24 else mret true) &-&
  (if md =? 1 then emit8 (Z.land disp 0xFF) else
   if (md =? 2) || ((md =? 0) && (base =? 5)) then emit32 (u32 disp) else mret true).

Definition emit_rm_operand (reg_field : Z) (op : operand_t) : A bool :=
  match o_kind op with
  | OP_REG => emit_modrm 3 reg_field (o_reg op)
  | OP_MEM =>
    if o_base_reg op =? -1 then emit_modrm 0 reg_field 5 &-& emit_abs_operand op else
    match o_disp_label op with
    | [] => emit_base_operand reg_field (o_base_reg op) (o_disp op)
    | _ => fails
    end
  | _ => mret false
  end.

(** *** Instructions *)

Definition maybe_prefix_16 (bits : Z) : A bool := if bits =? 16 then emit8 0x66 else mret true.

Definition lookup_cc (table : list (string * Z)) (m : list Z) : option Z :=
  snd <$> (i ← find_index (λ r, streqi m (str (fst r))) table; table !! i).

Definition cc_table (p : string) : list (string * Z) :=
  (λ r, (String.append p (fst r), snd r)) <$>
  [("o", 0); ("no", 1); ("b", 2); ("c", 2); ("nae", 2); ("nb", 3); ("nc", 3); ("ae", 3); ("e", 4); ("z", 4); ("ne", 5); ("nz", 5);
   ("be", 6); ("na", 6); ("a", 7); ("nbe", 7); ("s", 8); ("ns", 9); ("p", 10); ("pe", 10); ("np", 11); ("po", 11); ("l", 12);
   ("nge", 12); ("ge", 13); ("nl", 13); ("le", 14); ("ng", 14); ("g", 15); ("nle", 15)]%string.

Definition is_jcc (m : list Z) : option Z := lookup_cc (cc_table "j") m.
Definition is_setcc (m : list Z) : option Z := lookup_cc (cc_table "set") m.

Definition encode_binop_rm_reg (opc : Z) (a b : operand_t) : A bool := emit8 opc &-& emit_rm_operand (o_reg b) a.
Definition encode_binop_reg_rm (opc : Z) (a b : operand_t) : A bool := emit8 opc &-& emit_rm_operand (o_reg a) b.

Definition is_imm8 (imm : Z) : bool := (-128 <=? imm) && (imm <=? 127).

Definition encode_grp1_imm (ext : Z) (dst : operand_t) (imm bits : Z) : A bool :=
  if bits =? 8 then emit8 0x80 &-& emit_rm_operand ext dst &-& emit8 (Z.land imm 0xFF) else
  if is_imm8 imm then maybe_prefix_16 bits &-& emit8 0x83 &-& emit_rm_operand ext dst &-& emit8 (Z.land imm 0xFF) else
  maybe_prefix_16 bits &-& emit8 0x81 &-& emit_rm_operand ext dst &-& (if bits =? 16 then emit16 (u32 imm) else emit32 (u32 imm)).

Definition infer_bits_from_operand (op : operand_t) (fallback : Z) : Z :=
  match o_kind op with
  | OP_REG => o_reg_bits op
  | OP_MEM => if o_size_hint op =? 0 then fallback else o_size_hint op
  | _ => fallback
  end.

Definition imm_or_label (op : operand_t) : bool := is_kind OP_IMM op || is_kind OP_LABEL op.
Definition reg_or_mem (op : operand_t) : bool := is_kind OP_REG op || is_kind OP_MEM op.

(** The form with a relocated label, in an object, or the form with a value. *)
Definition obj_label (op : operand_t) (m1 m2 : A bool) : A bool :=
  c ← get; if c_fmt_obj c && is_kind OP_LABEL op then m1 else m2.

(** [rel = imm - (cur_pc + n)] *)
Definition with_rel (op : operand_t) (n : Z) (k : Z → A bool) : A bool :=
  with_imm op (λ imm, pc ← cur_pc; e ← lift (sint (s32 pc + n)); rel ← lift (sint (imm - e)); k (u32 rel)).

Definition enc_none (mn : list Z) : option (A bool) :=
  let mnem n := streqi mn (str n) in
  if mnem "nop" then Some (emit8 0x90) else if mnem "ret" then Some (emit8 0xC3) else if mnem "leave" then Some (emit8 0xC9) else
  if mnem "cdq" then Some (emit8 0x99) else if mnem "cbw" then Some (emit8 0x98) else if mnem "pushad" then Some (emit8 0x60) else
  if mnem "popad" then Some (emit8 0x61) else if mnem "iret" then Some (emit8 0xCF) else None.

Definition enc_push (o : operand_t) : option (A bool) :=
  match o_kind o with
  | OP_REG => Some (emit8 (0x50 + o_reg o))
  | OP_IMM | OP_LABEL =>
    Some (obj_label o (emit8 0x68 &-& reloc_here MOBJ_RELOC_ABS32 (o_label o) 0 &-& emit32 0)
      (with_imm o (λ imm, if is_imm8 imm then emit8 0x6A &-& emit8 (Z.land imm 0xFF) else emit8 0x68 &-& emit32 (u32 imm))))
  | OP_MEM => Some (emit8 0xFF &-& emit_rm_operand 6 o)
  | OP_NONE => None
  end.

Definition enc_pop (o : operand_t) : option (A bool) :=
  match o_kind o with
  | OP_REG => Some (emit8 (0x58 + o_reg o))
  | OP_MEM => Some (emit8 0x8F &-& emit_rm_operand 0 o)
  | _ => None
  end.

(** [call] and [jmp]: opcode and extension. *)
Definition enc_branch (opc ext : Z) (o : operand_t) : A bool :=
  if imm_or_label o then
    obj_label o (emit8 opc &-& reloc_here MOBJ_RELOC_REL32 (o_label o) 0 &-& emit32 0)
      (with_rel o 5 (λ rel, emit8 opc &-& emit32 rel))
  else emit8 0xFF &-& emit_rm_operand ext o.

Definition enc_jcc (cc : Z) (o : operand_t) : A bool :=
  obj_label o (emit8 0x0F &-& emit8 (0x80 + cc) &-& reloc_here MOBJ_RELOC_REL32 (o_label o) 0 &-& emit32 0)
    (with_rel o 6 (λ rel, emit8 0x0F &-& emit8 (0x80 + cc) &-& emit32 rel)).

Definition enc_setcc (cc : Z) (o : operand_t) : A bool :=
  if infer_bits_from_operand o 8 =? 8 then emit8 0x0F &-& emit8 (0x90 + cc) &-& emit_rm_operand 0 o else fails.

Definition enc_unary (mn : list Z) (o : operand_t) : option (A bool) :=
  let mnem n := streqi mn (str n) in
  let form opc ext := Some (emit8 opc &-& emit_rm_operand ext o) in
  if mnem "inc" then form 0xFF 0 else if mnem "dec" then form 0xFF 1 else if mnem "not" then form 0xF7 2 else
  if mnem "neg" then form 0xF7 3 else if mnem "mul" then form 0xF7 4 else if mnem "imul" then form 0xF7 5 else
  if mnem "idiv" then form 0xF7 7 else None.

Definition enc_one (mn : list Z) (o : operand_t) : option (A bool) :=
  let mnem n := streqi mn (str n) in
  if mnem "int" then Some (with_imm o (λ imm, emit8 0xCD &-& emit8 (Z.land imm 0xFF))) else
  if mnem "push" then enc_push o else
  if mnem "pop" then enc_pop o else
  if mnem "call" then Some (enc_branch 0xE8 2 o) else
  if mnem "jmp" then Some (enc_branch 0xE9 4 o) else
  match is_jcc mn with
  | Some cc => Some (enc_jcc cc o)
  | None => match is_setcc mn with Some cc => Some (enc_setcc cc o) | None => enc_unary mn o end
  end.

Definition emit_imm (bits imm : Z) : A bool := if bits =? 16 then emit16 (u32 imm) else emit32 (u32 imm).

Definition enc_mov (o0 o1 : operand_t) : option (A bool) :=
  let bits := infer_bits_from_operand o0 (infer_bits_from_operand o1 32) in
  if is_kind OP_REG o0 && imm_or_label o1 then
    Some (let value := with_imm o1 (λ imm, maybe_prefix_16 bits &-& emit8 (0xB8 + o_reg o0) &-& emit_imm bits imm) in
          if bits =? 32 then
            obj_label o1 (maybe_prefix_16 bits &-& emit8 (0xB8 + o_reg o0) &-& reloc_here MOBJ_RELOC_ABS32 (o_label o1) 0 &-& emit32 0) value
          else value)
  else if is_kind OP_REG o0 && reg_or_mem o1 then
    Some (maybe_prefix_16 bits &-& emit8 (if bits =? 8 then 0x8A else 0x8B) &-& emit_rm_operand (o_reg o0) o1)
  else if reg_or_mem o0 && is_kind OP_REG o1 then
    Some (maybe_prefix_16 bits &-& emit8 (if bits =? 8 then 0x88 else 0x89) &-& emit_rm_operand (o_reg o1) o0)
  else if is_kind OP_MEM o0 && imm_or_label o1 then
    let bits := infer_bits_from_operand o0 32 in
    Some (obj_label o1
      (if bits =? 32 then
         maybe_prefix_16 bits &-& emit8 0xC7 &-& emit_rm_operand 0 o0 &-& reloc_here MOBJ_RELOC_ABS32 (o_label o1) 0 &-& emit32 0
       else fails)
      (with_imm o1 (λ imm, maybe_prefix_16 bits &-&
         (if bits =? 8 then emit8 0xC6 &-& emit_rm_operand 0 o0 &-& emit8 (Z.land imm 0xFF)
          else emit8 0xC7 &-& emit_rm_operand 0 o0 &-& emit_imm bits imm))))
  else None.

Definition enc_movx (sx : bool) (o0 o1 : operand_t) : A bool :=
  let src_bits := infer_bits_from_operand o1 (if is_kind OP_REG o1 then o_reg_bits o1 else 8) in
  let op2 := if sx then 0xBE else 0xB6 in
  emit8 0x0F &-& emit8 (if src_bits =? 16 then op2 + 1 else op2) &-& emit_rm_operand (o_reg o0) o1.

Definition enc_imul3 (o0 o1 o2 : operand_t) : A bool :=
  with_imm o2 (λ imm,
    if is_imm8 imm then emit8 0x6B &-& emit_rm_operand (o_reg o0) o1 &-& emit8 (Z.land imm 0xFF)
    else emit8 0x69 &-& emit_rm_operand (o_reg o0) o1 &-& emit32 (u32 imm)).

Definition alu_ops : list (string * (Z * Z * Z)) :=
  [("add", (0x01, 0x03, 0)); ("or", (0x09, 0x0B, 1)); ("adc", (0x11, 0x13, 2)); ("sbb", (0x19, 0x1B, 3));
   ("and", (0x21, 0x23, 4)); ("sub", (0x29, 0x2B, 5)); ("xor", (0x31, 0x33, 6)); ("cmp", (0x39, 0x3B, 7))]%string.

Definition enc_alu (rm_reg reg_rm grp_ext : Z) (o0 o1 : operand_t) : option (A bool) :=
  let bits := infer_bits_from_operand o0 (infer_bits_from_operand o1 32) in
  if reg_or_mem o0 && is_kind OP_REG o1 then
    Some (maybe_prefix_16 bits &-& encode_binop_rm_reg (u8 (if bits =? 8 then rm_reg - 1 else rm_reg)) o0 o1)
  else if is_kind OP_REG o0 && reg_or_mem o1 then
    Some (maybe_prefix_16 bits &-& encode_binop_reg_rm (u8 (if bits =? 8 then reg_rm - 1 else reg_rm)) o0 o1)
  else if reg_or_mem o0 && imm_or_label o1 then Some (with_imm o1 (λ imm, encode_grp1_imm grp_ext o0 imm bits))
  else None.

Definition enc_test (o0 o1 : operand_t) : option (A bool) :=
  let bits := infer_bits_from_operand o0 (infer_bits_from_operand o1 32) in
  if reg_or_mem o0 && is_kind OP_REG o1 then
    Some (maybe_prefix_16 bits &-& emit8 (if bits =? 8 then 0x84 else 0x85) &-& emit_rm_operand (o_reg o1) o0)
  else if reg_or_mem o0 && imm_or_label o1 then
    Some (with_imm o1 (λ imm,
      if bits =? 8 then emit8 0xF6 &-& emit_rm_operand 0 o0 &-& emit8 (Z.land imm 0xFF)
      else maybe_prefix_16 bits &-& emit8 0xF7 &-& emit_rm_operand 0 o0 &-& emit_imm bits imm))
  else None.

Definition shift_ext (mn : list Z) : option Z :=
  let mnem n := streqi mn (str n) in
  if mnem "rol" then Some 0 else if mnem "ror" then Some 1 else if mnem "shl" || mnem "sal" then Some 4 else
  if mnem "shr" then Some 5 else if mnem "sar" then Some 7 else None.

Definition enc_shift (ext : Z) (o0 o1 : operand_t) : option (A bool) :=
  let bits := infer_bits_from_operand o0 32 in
  if is_kind OP_REG o1 && (o_reg_bits o1 =? 8) && (o_reg o1 =? 1) then
    Some (maybe_prefix_16 bits &-& emit8 (if bits =? 8 then 0xD2 else 0xD3) &-& emit_rm_operand ext o0)
  else if imm_or_label o1 then
    Some (with_imm o1 (λ imm, maybe_prefix_16 bits &-& emit8 (if bits =? 8 then 0xC0 else 0xC1) &-& emit_rm_operand ext o0 &-& emit8 (Z.land imm 0xFF)))
  else None.

Definition enc_two (mn : list Z) (o0 o1 : operand_t) : option (A bool) :=
  let mnem n := streqi mn (str n) in
  if mnem "mov" then enc_mov o0 o1 else
  if mnem "lea" then if is_kind OP_REG o0 && is_kind OP_MEM o1 then Some (emit8 0x8D &-& emit_rm_operand (o_reg o0) o1) else None else
  if mnem "movsx" || mnem "movzx" then if is_kind OP_REG o0 && reg_or_mem o1 then Some (enc_movx (mnem "movsx") o0 o1) else None else
  if mnem "imul" then if is_kind OP_REG o0 && reg_or_mem o1 then Some (emit8 0x0F &-& emit8 0xAF &-& emit_rm_operand (o_reg o0) o1) else None else
  match i ← find_index (λ r, streqi mn (str (fst r))) alu_ops; alu_ops !! i with
  | Some (_, (rm_reg, reg_rm, ext)) => enc_alu rm_reg reg_rm ext o0 o1
  | None =>
    if mnem "test" then enc_test o0 o1 else
    match shift_ext mn with Some ext => enc_shift ext o0 o1 | None => None end
  end.

(** The tests of the source by the number of operands, which each of them includes. *)
Definition encode_instruction (mn : list Z) (ops : list operand_t) : A bool :=
  default fails
    match ops with
    | [] => enc_none mn
    | [o] => enc_one mn o
    | [o0; o1] => enc_two mn o0 o1
    | [o0; o1; o2] => if streqi mn (str "imul") && is_kind OP_REG o0 && reg_or_mem o1 && imm_or_label o2 then Some (enc_imul3 o0 o1 o2) else None
    | _ => None
    end.

(** *** Data *)

Definition unescape (e : Z) : Z :=
  if e =? 110 then 10 else if e =? 114 then 13 else if e =? 116 then 9 else if e =? 48 then 0 else e.

Fixpoint emit_string (fuel : nat) (s : list Z) (bytes : Z) : A bool :=
  match fuel with
  | O => ub
  | S fuel =>
    match s with
    | [] => mret true
    | c :: s =>
      let '(c, s) := match s with e :: s' => if c =? 92 then (unescape e, s') else (c, s) | [] => (c, s) end in
      if bytes =? 1 then emit8 c &-& emit_string fuel s bytes else fails
    end
  end.

Definition emit_value (bytes val : Z) : A bool :=
  if bytes =? 1 then emit8 (Z.land val 0xFF) else if bytes =? 2 then emit16 (Z.land val 0xFFFF) else emit32 (u32 val).

Definition emit_data_item (tok : list Z) (bytes : Z) : A bool :=
  let s := rtrim (ltrim (copy_lim tok MAX_TOK)) in
  let n := length s in
  if (2 <=? n)%nat && (chr s 0 =? 34) && (chr s (n - 1) =? 34) then emit_string n (take (n - 2) (drop 1 s)) bytes else
  o ← parsed (parse_int s);
  match o with
  | Some v => emit_value bytes v
  | None =>
    c ← get;
    if c_fmt_obj c && (bytes =? 4) && (c_pass c =? 2) then reloc_here MOBJ_RELOC_ABS32 s 0 &-& emit_value bytes 0 else
    o ← resolve_label s; emit_value bytes (default 0 o)
  end.

Fixpoint emit_items (toks : list (list Z)) (bytes : Z) : A bool :=
  match toks with [] => mret true | t :: toks => emit_data_item t bytes &-& emit_items toks bytes end.

Fixpoint repeat_item (n : nat) (tok : list Z) (bytes : Z) : A bool :=
  match n with O => mret true | S n => emit_data_item tok bytes &-& repeat_item n tok bytes end.

Fixpoint emit_zeros (n : nat) : A bool :=
  match n with O => mret true | S n => emit8 0 &-& emit_zeros n end.

(** At most [v] bytes are needed. *)
Fixpoint align_loop (fuel : nat) (v : Z) : A bool :=
  match fuel with
  | O => ub
  | S fuel => pc ← sec_pc; if pc mod v =? 0 then mret true else emit8 0 &-& align_loop fuel v
  end.

(** *** Lines *)

(** The text before a [;] or [#] outside of quotation marks. *)
Fixpoint strip_comment (s : list Z) (prev : Z) (in_str : bool) : list Z :=
  match s with
  | [] => []
  | c :: s =>
    let in_str := xorb in_str (is_quote prev c) in
    if negb in_str && ((c =? 59) || (c =? 35)) then [] else c :: strip_comment s c in_str
  end.

(** The labels at the start of a line, and what follows them; [None] is a line that is
    done with its labels. *)
Fixpoint split_labels (fuel : nat) (s : list Z) : list (list Z) * option (list Z) :=
  match fuel with
  | O => ([], Some s)
  | S fuel =>
    let '(name, rest) := span (λ c, c =? 58) s in
    match rest with
    | [] => ([], Some s)
    | _ :: rest =>
      if existsb is_blank name then ([], Some s) else
      if (length name =? 0)%nat || (MAX_NAME <=? length name)%nat then ([], None) else
      match ltrim rest with
      | [] => ([name], None)
      | s => let '(names, r) := split_labels fuel s in (name :: names, r)
      end
    end
  end.

Fixpoint define_labels (names : list (list Z)) : A unit :=
  match names with
  | [] => mret tt
  | n :: names => pc ← sec_pc; c ← get; _ ← define_label n pc (c_cur_sec c); define_labels names
  end.

Fixpoint mark_labels (mark : list Z → A unit) (toks : list (list Z)) : A unit :=
  match toks with
  | [] => mret tt
  | t :: toks => (if bool_decide (t = []) then mret tt else mark t);; mark_labels mark toks
  end.

Definition section_of (p : list Z) : option Z :=
  if streqi p (str "text") then Some SEC_TEXT else if streqi p (str "rodata") then Some SEC_RODATA else
  if streqi p (str "data") then Some SEC_DATA else if streqi p (str "bss") then Some SEC_BSS else None.

Definition do_section (rest : list Z) : A bool :=
  match rtrim (ltrim (copy_lim rest MAX_TOK)) with
  | [] => fails
  | c :: p => match section_of (if c =? 46 then p else c :: p) with Some s => modify (with_cur_sec s);; mret true | None => fails end
  end.

Definition do_org (rest : list Z) : A bool :=
  o ← parsed (parse_int rest);
  match o with
  | None => fails
  | Some v => c ← get; if bool_decide (c_pc c = [0; 0; 0; 0]) then put (with_org (u32 v) c);; mret true else fails
  end.

Definition do_align (rest : list Z) : A bool :=
  o ← parsed (parse_int rest);
  match o with
  | None => fails
  | Some v => if v <=? 0 then fails else align_loop (S (Z.to_nat v)) v
  end.

Definition do_res (sz : Z) (rest : list Z) : A bool :=
  o ← parsed (parse_int rest);
  match o with
  | None => fails
  | Some count => if count <? 0 then fails else n ← lift (sint (count * sz)); emit_zeros (Z.to_nat n)
  end.

(** The first two words of [times] and where the second one starts; a line has no
    blanks at its end. *)
Definition times_parts (rest : list Z) : A (option (list Z * list Z)) :=
  let '(w0, r) := span is_blank rest in
  if bool_decide (w0 = []) then mret None else
  if bool_decide (r = []) then mret None else
  let '(_, r) := span (λ c, negb (is_blank c)) r in
  let '(w1, _) := span is_blank r in
  if bool_decide (w1 = []) then ub else mret (Some (take (MAX_TOK - 1) w0, take (MAX_TOK - 1) w1)).

Definition item_bytes (m : list Z) : option Z :=
  if streqi m (str "db") then Some 1 else if streqi m (str "dw") then Some 2 else if streqi m (str "dd") then Some 4 else None.

Definition do_times (rest : list Z) : A bool :=
  o ← times_parts rest;
  match o with
  | None => fails
  | Some (p0, p1) =>
    o ← parsed (parse_int p0);
    match o with
    | None => fails
    | Some count =>
      if count <? 0 then fails else
      let tail := ltrim (drop (length p1) (ltrim (drop (length p0) rest))) in
      match item_bytes p1 with Some bytes => repeat_item (Z.to_nat count) tail bytes | None => fails end
    end
  end.

Fixpoint parse_operands (toks : list (list Z)) : A (option (list operand_t)) :=
  match toks with
  | [] => mret (Some [])
  | t :: toks =>
    o ← parsed (parse_operand t);
    match o with
    | None => mret None
    | Some op => os ← parse_operands toks; mret (cons op <$> os)
    end
  end.

Definition do_instruction (mnem rest : list Z) : A bool :=
  os ← parse_operands (if bool_decide (rest = []) then [] else split_operands rest 3);
  match os with None => fails | Some ops => encode_instruction mnem ops end.

Definition do_statement (mnem rest : list Z) : A bool :=
  let d n := streqi mnem (str n) in
  if d "bits" then mret true else
  if d "global" then mark_labels mark_label_global (split_operands rest 64);; mret true else
  if d "extern" then mark_labels mark_label_extern (split_operands rest 64);; mret true else
  if d "section" then do_section rest else
  if d "org" then do_org rest else
  if d "align" then do_align rest else
  if d "resb" then do_res 1 rest else if d "resw" then do_res 2 rest else if d "resd" then do_res 4 rest else
  if d "times" then do_times rest else
  match item_bytes mnem with
  | Some bytes => emit_items (split_operands rest 64) bytes
  | None => do_instruction mnem rest
  end.

Definition split_mnem (s : list Z) : list Z * list Z :=
  let mi := Nat.min (length (fst (span is_blank s))) (MAX_TOK - 1) in
  (take mi s, ltrim (drop mi s)).

(** A line as its labels and its statement. *)
Definition parse_line (line : list Z) : option (list (list Z) * option (list Z * list Z)) :=
  match rtrim (ltrim (strip_comment line 0 false)) with
  | [] => None
  | s => let '(names, r) := split_labels (S (length s)) s in Some (names, split_mnem <$> r)
  end.

Definition process_line (line : list Z) : A bool :=
  match parse_line line with
  | None => mret true
  | Some (names, stmt) =>
    modify (λ c, if c_pass c =? 1 then with_lines (c_lines c + 1) c else c);;
    define_labels names;;
    match stmt with
    | None => mret true
    | Some (mnem, rest) => if bool_decide (mnem = []) then mret true else do_statement mnem rest
    end
  end.

(** *** Passes *)

(** At most [n] characters up to a newline. *)
Fixpoint read_line (n : nat) (s : list Z) {struct s} : list Z * list Z :=
  match s with
  | [] => ([], [])
  | c :: s' => if c =? 10 then ([], s) else match n with O => ([], s) | S n => let '(l, r) := read_line n s' in (c :: l, r) end
  end.

(** The lines, as C strings; each takes a character of the text. *)
Fixpoint source_lines (fuel : nat) (s : list Z) : list (list Z) :=
  match fuel, s with
  | S fuel, _ :: _ =>
    let '(l, r) := read_line (MAX_LINE - 1) s in
    fst (span (λ c, c =? 0) l) :: source_lines fuel match r with c :: r' => if c =? 10 then r' else r | [] => [] end
  | _, _ => []
  end.

Definition lines_of (src : list Z) : list (list Z) := source_lines (length src) src.

Fixpoint process_lines (ls : list (list Z)) : A bool :=
  match ls with
  | [] => c ← get; mret (negb (c_err c))
  | l :: ls => process_line l &-& (c ← get; if c_err c then mret false else process_lines ls)
  end.

Definition start_pass (pass : Z) (c : asm_ctx_t) : asm_ctx_t :=
  mk_ctx pass (c_org c) SEC_TEXT [0; 0; 0; 0] (c_size c) (c_base c) (if pass =? 2 then [[]; []; []; []] else c_out c) (c_cap c)
    (c_labels c) (c_err c) (c_lines c) (c_fmt_obj c) (if pass =? 2 then [] else c_relocs c) (c_allocs c).

Definition run_pass (src : list Z) (pass : Z) : A bool := modify (start_pass pass);; process_lines (lines_of src).

Definition bases_of (size : list Z) : list Z :=
  [0; u32 (chr size 0); u32 (chr size 0 + chr size 1); u32 (chr size 0 + chr size 1 + chr size 2)].

Definition total (size : list Z) : Z := u32 (foldr Z.add 0 size).

Definition cap_of (size : Z) : Z := if s32 size <=? 0 then 1 else s32 size.

Fixpoint alloc_all (caps : list Z) : A bool :=
  match caps with [] => mret true | n :: caps => alloc n &-& alloc_all caps end.

(** The flat image, [None] for an error. *)
Definition assemble (src : list Z) : A (option (list Z)) :=
  modify (λ c, with_lines 0 (with_labels [] c));;
  ok ← run_pass src 1;
  if negb ok then mret None else
  c ← get;
  let need := s32 (total (c_pc c)) in
  let caps := cap_of <$> c_pc c in
  put (with_layout (c_pc c) (bases_of (c_pc c)) (c_cap c) c);;
  if (need =? 0) && (0 <? c_lines c) then modify with_err;; mret None else
  ok ← alloc_all caps;
  if negb ok then modify with_err;; mret None else
  modify (λ c, with_cap caps c);;
  ok ← run_pass src 2;
  if negb ok then mret None else
  ok ← alloc (if 0 <? need then need else 1);
  if negb ok then modify with_err;; mret None else
  c ← get;
  let out := concat (c_out c) in
  if (if 0 <? need then need else 1) <? Z.of_nat (length out) then ub else mret (Some out).

(** ** Objects *)

Definition le32s (l : list Z) : list Z := concat (le32 <$> l).

Definition entry_off : A Z :=
  o ← find_label_addr (str "$_start");
  o ← match o with Some a => mret (Some a) | None => find_label_addr (str "_start") end;
  c ← get; mret match o with Some ent => u32 (ent - c_org c) | None => 0 end.

Definition header_bytes (c : asm_ctx_t) (entry : Z) : list Z :=
  let len i := Z.of_nat (length (default [] (c_out c !! i))) in
  str "MOBJ" ++ le32s [2; c_org c; entry; len 0%nat; len 1%nat; len 2%nat; len 3%nat; Z.of_nat (length (c_labels c)); Z.of_nat (length (c_relocs c))].

Definition sym_of (l : label_t) : mobj_sym_t :=
  let name := copy_lim (l_name l) MAX_NAME in
  mk_sym (name ++ replicate (MAX_NAME - length name) 0) (if l_defined l then l_offset l else 0) (if l_defined l then u32 (l_section l) else SEC_UNDEF)
    (Z.lor (if l_is_global l then MOBJ_SYM_GLOBAL else 0) (if l_is_extern l || negb (l_defined l) then MOBJ_SYM_EXTERN else 0)).

Definition sym_bytes (s : mobj_sym_t) : list Z := s_name s ++ le32s [s_value_off s; s_section s; s_flags s].
Definition reloc_bytes (r : mobj_reloc_t) : list Z := le32s [r_section r; r_offset r; r_type r; r_sym_index r; r_addend r].

Definition object_bytes (c : asm_ctx_t) (entry : Z) : list Z :=
  header_bytes c entry ++ concat (take 3 (c_out c)) ++ concat (sym_bytes ∘ sym_of <$> c_labels c) ++ concat (reloc_bytes <$> c_relocs c).

(** ** The program *)

Record as_opts_t := mk_as_opts { a_in : option (list Z); a_out : option (list Z); a_obj : bool; a_org : Z }.

Fixpoint parse_args (args : list (list Z)) (o : as_opts_t) : R as_opts_t :=
  match args with
  | [] => Ret o
  | a :: args =>
    if str_eqb a (str "-o") then
      match args with v :: args => parse_args args (mk_as_opts (a_in o) (Some v) (a_obj o) (a_org o)) | [] => Die end
    else if str_eqb a (str "-f") then
      match args with
      | f :: args =>
        if streqi f (str "bin") then parse_args args (mk_as_opts (a_in o) (a_out o) false (a_org o)) else
        if streqi f (str "obj") then parse_args args (mk_as_opts (a_in o) (a_out o) true (a_org o)) else Die
      | [] => Die
      end
    else if str_eqb a (str "--org") || str_eqb a (str "-org") then
      match args with
      | n :: args => v ← parse_int n; if v <? 0 then Die else parse_args args (mk_as_opts (a_in o) (a_out o) (a_obj o) v)
      | [] => Die
      end
    else if chr a 0 =? 45 then Die else
    match a_in o, a_out o with
    | None, _ => parse_args args (mk_as_opts (Some a) (a_out o) (a_obj o) (a_org o))
    | Some _, None => parse_args args (mk_as_opts (a_in o) (Some a) (a_obj o) (a_org o))
    | Some _, Some _ => Die
    end
  end.

Definition CTX_SIZE : Z := 337044.

(** The name of the output and the bytes written to it, for the arguments after the
    name of the program; [file] is what is read of a file. *)
Definition as86 (file : list Z → option (list Z)) (args : list (list Z)) : R (list Z * list Z) :=
  o ← parse_args args (mk_as_opts None None false 0);
  match a_in o, a_out o with
  | Some i, Some out =>
    match file i with
    | None => Die
    | Some contents =>
      let src := take (Z.to_nat (MAX_SRC - 1)) contents in
      if negb (room 0 MAX_SRC) || negb (room 1 CTX_SIZE) then Die else
      match assemble src (with_allocs 2 (ctx_zero (a_org o) (a_obj o))) with
      | None => Ub
      | Some (None, _) => Die
      | Some (Some image, c) =>
        if a_obj o then match entry_off c with Some (e, _) => Ret (out, object_bytes c e) | None => Ub end
        else Ret (out, image)
      end
    end
  | _, _ => Die
  end.
End assembler.
