(* ===== verification/As86Spec.v ===== *)
(** * The objects of the assembler

    What [as86] writes with [-f obj] is what the linker reads back: the invariant of the
    state of the assembler, and the round trip through the format of the object. *)

From S2P Require Import Prelude Bytes LibcNum Ld86 Ld86Spec As86.
From Stdlib Require Import Btauto.

(** ** Characters of the source *)

(** The parts that the parsers cut out of a text have only characters of the text. *)
Section chars.
Context (P : Z → Prop).

Lemma ltrim_Forall s : Forall P s → Forall P (ltrim s).
Proof. induction 1 as [|c s Hc Hs IH]; cbn; [constructor|]. destruct (is_space c); [done|by constructor]. Qed.
Lemma rtrim_Forall s : Forall P s → Forall P (rtrim s).
Proof. intros H. unfold rtrim. apply Forall_reverse, ltrim_Forall. by apply Forall_reverse. Qed.
Lemma span_Forall p s : Forall P s → Forall P (fst (span p s)) ∧ Forall P (snd (span p s)).
Proof.
  induction 1 as [|c s Hc Hs [IH1 IH2]]; cbn; [done|]. destruct (p c); [split; [constructor|by constructor]|].
  destruct (span p s). cbn in *. split; [by constructor|done].
Qed.
Lemma copy_lim_Forall s n : Forall P s → Forall P (copy_lim s n).
Proof. apply Forall_take. Qed.
Lemma strip_comment_Forall s prev b : Forall P s → Forall P (strip_comment s prev b).
Proof. intros H. revert prev b. induction H as [|c s Hc Hs IH]; intros prev b; cbn; [constructor|]. case_match; [constructor|]. by constructor. Qed.
Lemma split_mnem_Forall s : Forall P s → Forall P (fst (split_mnem s)) ∧ Forall P (snd (split_mnem s)).
Proof. intros H. split; [by apply Forall_take|]. apply ltrim_Forall. by apply Forall_drop. Qed.

Lemma push_token_Forall n out t : Forall (Forall P) out → Forall P t → Forall (Forall P) (push_token n out t).
Proof.
  intros Ho Ht. unfold push_token. case_match; [|done]. apply Forall_app_2; [done|]. repeat constructor. apply rtrim_Forall, ltrim_Forall. by apply Forall_take.
Qed.
Lemma split_loop_Forall n s prev b lv cur out : Forall P s → Forall P cur → Forall (Forall P) out → Forall (Forall P) (split_loop n s prev b lv cur out).
Proof.
  intros H. revert prev b lv cur out. induction H as [|c s Hc Hs IH]; intros prev b lv cur out Hcur Ho; cbn [split_loop]; [by apply push_token_Forall|].
  cbv zeta. destruct (_ && _ && _); apply IH; try done; [by apply push_token_Forall|]. apply Forall_app_2; [done|]. by constructor.
Qed.
Lemma split_operands_Forall s n : Forall P s → Forall (Forall P) (split_operands s n).
Proof. intros H. by apply split_loop_Forall. Qed.

Lemma split_labels_Forall fuel s : Forall P s → Forall (Forall P) (fst (split_labels fuel s)) ∧ ∀ r, snd (split_labels fuel s) = Some r → Forall P r.
Proof.
  revert s. induction fuel as [|fuel IH]; intros s H; cbn [split_labels]; [split; [constructor|]; by intros r [= <-]|].
  pose proof (span_Forall (λ c, c =? 58) s H) as [H1 H2]. destruct (span _ s) as [name rest]. cbn in H1, H2.
  destruct rest as [|c rest]; [split; [constructor|]; by intros r [= <-]|]. case_match; [split; [constructor|]; by intros r [= <-]|].
  case_match; [by split; [constructor|]|]. apply Forall_cons in H2 as [_ H2]. pose proof (ltrim_Forall rest H2) as Hl.
  destruct (ltrim rest) as [|d s']; [by split; [repeat constructor|]|]. specialize (IH (d :: s') Hl). destruct (split_labels fuel (d :: s')) as [names r].
  cbn in *. split; [constructor; [done|apply IH]|apply IH].
Qed.

Lemma parse_line_Forall line names stmt : Forall P line → parse_line line = Some (names, stmt) →
  Forall (Forall P) names ∧ ∀ m r, stmt = Some (m, r) → Forall P m ∧ Forall P r.
Proof.
  intros H. unfold parse_line. pose proof (rtrim_Forall _ (ltrim_Forall _ (strip_comment_Forall line 0 false H))) as Hs.
  destruct (rtrim _) as [|c s]; [done|]. pose proof (split_labels_Forall (S (length (c :: s))) _ Hs) as [H1 H2]. destruct (split_labels _ _) as [ns r]. cbn in H1, H2.
  intros [= <- <-]. split; [done|]. intros m r' Er. destruct r as [r|]; [|done]. specialize (H2 r eq_refl).
  pose proof (split_mnem_Forall r H2) as [Hm Hr]. cbn [fmap option_fmap option_map] in Er. destruct (split_mnem r) as [m0 r0]. by injection Er as -> ->.
Qed.

Lemma read_line_Forall n s : Forall P s → Forall P (fst (read_line n s)) ∧ Forall P (snd (read_line n s)).
Proof.
  intros H. revert n. induction H as [|c s Hc Hs IH]; intros n; cbn; [split; constructor|]. case_match; [split; [constructor|by constructor]|].
  destruct n as [|n]; [split; [constructor|by constructor]|]. specialize (IH n). destruct (read_line n s). cbn in *. split; [constructor; [done|apply IH]|apply IH].
Qed.

Lemma lines_of_Forall src : Forall P src → Forall (Forall P) (lines_of src).
Proof.
  unfold lines_of. generalize (length src). intros fuel. revert src. induction fuel as [|fuel IH]; intros src H; cbn [source_lines]; [constructor|].
  destruct src as [|c src]; [constructor|]. pose proof (read_line_Forall (MAX_LINE - 1) _ H) as [H1 H2]. destruct (read_line _ _) as [l r]. cbn in H1, H2.
  constructor; [by apply span_Forall|]. apply IH. destruct r as [|d r]; [constructor|]. case_match; [|done]. by apply Forall_cons in H2 as [_ H2].
Qed.
End chars.

(** Operands have a displacement in the range of [int], and names from the source. *)
Definition op_wf (o : operand_t) : Prop := is_s32 (o_disp o) ∧ Forall is_u8 (o_label o) ∧ Forall is_u8 (o_disp_label o).

Lemma sint_range x y : sint x = Some y → is_s32 y.
Proof. unfold sint, is_s32. case_match eqn:E; [|done]. apply andb_true_iff in E. intros [= <-]. lia. Qed.

Lemma op_wf_mem base disp lab hint : is_s32 disp → Forall is_u8 lab → op_wf (mem_op base disp lab hint).
Proof. intros H1 H2. split; [done|]. split; [constructor|done]. Qed.

Ltac rb H := apply R_bind_Ret in H as (? & ? & H).

Lemma mem_terms_wf fuel buf sign base disp lab hint o : mem_terms fuel buf sign base disp lab hint = Ret o →
  Forall is_u8 buf → is_s32 disp → Forall is_u8 lab → op_wf o.
Proof.
  revert buf sign base disp lab. induction fuel as [|fuel IH]; intros buf sign base disp lab H Hb Hd Hl; cbn [mem_terms] in H; [done|].
  destruct buf as [|c0 buf0]; [injection H as <-; by apply op_wf_mem|]. set (buf := c0 :: buf0) in *. pose proof (span_Forall is_u8 is_sign buf Hb) as [H1 H2].
  destruct (span is_sign buf) as [term rest]. cbn in H1, H2. destruct (_ || _); [done|]. apply R_bind_Ret in H as ([[base' disp'] lab'] & E & H).
  assert (Hd' : is_s32 disp' ∧ Forall is_u8 lab').
  { assert (Hi : match parse_int term with
          | Ret v => m ← of_opt (sint (sign * v)); d ← of_opt (sint (disp + m)); Ret (base, d, lab)
          | Ub => Ub
          | Die => if sign <? 0 then Die else if bool_decide (lab = []) then Ret (base, disp, copy_lim term MAX_NAME) else Die
          end = Ret (base', disp', lab') → is_s32 disp' ∧ Forall is_u8 lab').
    { destruct (parse_int term) as [v| |]; [| |done].
      - intros H3. rb H3. rb H3. injection H3 as <- <- <-. split; [|done]. eapply sint_range, of_opt_Ret. done.
      - destruct (sign <? 0); [done|]. destruct (bool_decide (lab = [])); [|done]. intros [= <- <- <-]. split; [done|by apply copy_lim_Forall]. }
    destruct (reg_code_bits term) as [[rc rb]|]; [|by apply Hi]. destruct (decide (rb = 32)) as [->|Hn]; [destruct (base =? -1); [injection E as <- <- <-|]; done|].
    apply Hi. rewrite <- E. destruct rb as [|p|p]; try done. repeat (destruct p as [p|p|]; try done). }
  destruct rest as [|c rest]; [injection H as <-; apply op_wf_mem; apply Hd'|].
  apply Forall_cons in H2 as [_ H2]. eapply IH; [done|done|apply Hd'|apply Hd'].
Qed.

Lemma parse_operand_wf s o : Forall is_u8 s → parse_operand s = Ret o → op_wf o.
Proof.
  intros Hs H. unfold parse_operand in H. assert (H0 : is_s32 0) by (unfold is_s32; lia).
  pose proof (rtrim_Forall _ _ (ltrim_Forall is_u8 s Hs)) as Ht. destruct (bool_decide _); [injection H as <-; repeat split; (done || constructor)|].
  assert (Hp : Forall is_u8 (snd (size_prefix (rtrim (ltrim s))))).
  { unfold size_prefix. repeat case_match; cbn; try done; apply ltrim_Forall; by apply Forall_drop. }
  destruct (size_prefix _) as [hint t]. cbn in Hp. destruct (_ && _ && _).
  - destruct (_ <=? _)%nat; [done|]. unfold parse_mem_expr in H. destruct (take _ _) as [|c b] eqn:E; [done|]. eapply mem_terms_wf; [done|rewrite <- E|done|constructor].
    apply Forall_take. apply Forall_forall. intros x Hx. apply list_elem_of_filter in Hx as [_ Hx].
    assert (Hall : Forall is_u8 (take (length t - 2) (drop 1 t))) by (by apply Forall_take, Forall_drop). rewrite Forall_forall in Hall. by apply Hall.
  - destruct (reg_code_bits t) as [[reg bits]|]; [injection H as <-; repeat split; (done || constructor)|].
    destruct (parse_int t) as [v| |]; [injection H as <-; repeat split; (done || constructor)| |done].
    injection H as <-. split; [done|]. split; [by apply copy_lim_Forall|constructor].
Qed.

(** ** The invariant of the state *)

Definition label_wf (l : label_t) : Prop := is_u32 (l_offset l) ∧ 0 ≤ l_section l < 4 ∧ Forall is_u8 (l_name l).

Definition reloc_wf (nlabels : nat) (r : mobj_reloc_t) : Prop :=
  is_u32 (r_section r) ∧ is_u32 (r_offset r) ∧ (r_type r = MOBJ_RELOC_ABS32 ∨ r_type r = MOBJ_RELOC_REL32) ∧
  0 ≤ r_sym_index r < Z.of_nat nlabels ∧ is_s32 (r_addend r).

Record ctx_wf (c : asm_ctx_t) : Prop := {
  wf_org : is_u32 (c_org c);
  wf_sec : 0 ≤ c_cur_sec c < 4;
  wf_pc_len : length (c_pc c) = 4%nat;
  wf_pc : Forall is_u32 (c_pc c);
  wf_out : length (c_out c) = 4%nat;
  wf_labels : Forall label_wf (c_labels c);
  wf_nlabels : Z.of_nat (length (c_labels c)) ≤ MAX_LABELS;
  wf_relocs : Forall (reloc_wf (length (c_labels c))) (c_relocs c);
  wf_nrelocs : Z.of_nat (length (c_relocs c)) ≤ MAX_RELOCS
}.

(** A step of the assembler that keeps a property of the state. *)
Definition keeps {T} (I : asm_ctx_t → Prop) (m : A T) : Prop := ∀ c a c', I c → m c = Some (a, c') → I c'.

Section keeps.
Context {I : asm_ctx_t → Prop}.

Lemma keep_ret {T} (a : T) : keeps I (mret a).
Proof. by intros c b c' Hc [= _ <-]. Qed.
Lemma keep_ub {T} : keeps I (ub : A T).
Proof. done. Qed.
Lemma keep_get : keeps I get.
Proof. by intros c b c' Hc [= _ <-]. Qed.
Lemma keep_lift {T} (o : option T) : keeps I (lift o).
Proof. intros c b c' Hc. unfold lift. destruct o; [|done]. by intros [= _ <-]. Qed.
Lemma keeps_modify f : (∀ c, I c → I (f c)) → keeps I (modify f).
Proof. intros H c b c' Hc [= _ <-]. by apply H. Qed.
Lemma keep_bind {T U} (m : A T) (k : T → A U) : keeps I m → (∀ a, keeps I (k a)) → keeps I (m ≫= k).
Proof. intros Hm Hk c b c' Hc H. inv_bind H. eapply Hk; [|done]. by eapply Hm. Qed.
Lemma keeps_get_bind {U} (k : asm_ctx_t → A U) : (∀ c, I c → ∀ b c', k c c = Some (b, c') → I c') → keeps I (get ≫= k).
Proof. intros Hk c b c' Hc H. by eapply Hk. Qed.
Lemma keeps_and (m1 m2 : A bool) : keeps I m1 → keeps I m2 → keeps I (m1 &-& m2).
Proof. intros H1 H2. apply keep_bind; [done|]. intros b. destruct b; [done|apply keep_ret]. Qed.
Lemma keeps_parsed {T} (r : R T) : keeps I (parsed r).
Proof. destruct r; [apply keep_ret|apply keep_ret|done]. Qed.
Lemma keeps_if {T} (b : bool) (m1 m2 : A T) : keeps I m1 → keeps I m2 → keeps I (if b then m1 else m2).
Proof. by destruct b. Qed.
End keeps.

Create HintDb keeps discriminated.
#[export] Hint Resolve keep_ret keep_ub keep_get keep_lift keeps_and keeps_parsed : keeps.
#[export] Hint Extern 1 (keeps _ (_ ≫= _)) => apply keep_bind; [|intros ?] : keeps.
#[export] Hint Extern 1 (keeps _ (if ?b then _ else _)) => destruct b eqn:? : keeps.
#[export] Hint Extern 1 (keeps _ (match ?x with _ => _ end)) => destruct x eqn:? : keeps.

Ltac mstep H := unfold mbind, M_bind, get, put, lift, modify, mret, M_ret in H; cbv beta in H.

(** The call returned 1, as the result is not an error. *)
Ltac succeeds H := match type of H with (if negb ?b then _ else _) _ = _ => destruct b; cbn [negb] in H; [|try (inv_bind H); done] end.

Section wf.
Context (room : nat → Z → bool).

Lemma with_err_wf c : ctx_wf c → ctx_wf (with_err c).
Proof. by intros []. Qed.
Lemma fails_wf : keeps ctx_wf fails.
Proof. unfold fails. apply keep_bind; [|intros; apply keep_ret]. apply keeps_modify, with_err_wf. Qed.
Lemma alloc_wf n : keeps ctx_wf (alloc room n).
Proof. intros c b c' [] [= _ <-]. by constructor. Qed.
Lemma cur_pc_wf : keeps ctx_wf cur_pc.
Proof. unfold cur_pc. auto 10 with keeps. Qed.
Lemma sec_pc_wf : keeps ctx_wf sec_pc.
Proof. unfold sec_pc. auto with keeps. Qed.

Lemma reloc_wf_mono n n' r : (n ≤ n')%nat → reloc_wf n r → reloc_wf n' r.
Proof. intros Hn (H1 & H2 & H3 & H4 & H5). split_and!; try done; lia. Qed.

(** The table after [get_label_index]: the index is in it. *)
Lemma get_label_index_ok name create c i c' : ctx_wf c → Forall is_u8 name → get_label_index name create c = Some (i, c') →
  ctx_wf c' ∧ (i = -1 ∨ 0 ≤ i < Z.of_nat (length (c_labels c'))) ∧ c_relocs c' = c_relocs c.
Proof.
  intros Hw Hn H. unfold get_label_index in H. mstep H. destruct (find_label (c_labels c) name) as [k|] eqn:E.
  { injection H as <- <-. split; [done|]. split; [|done]. right. apply find_index_lt in E. lia. }
  destruct (negb create); [injection H as <- <-; split; [done|split; [by left|done]]|].
  destruct (Z.leb_spec MAX_LABELS (Z.of_nat (length (c_labels c)))); [injection H as <- <-; split; [done|split; [by left|done]]|].
  injection H as <- <-. destruct Hw. cbn. split; [|split; [right; rewrite length_app; cbn; lia|done]]. constructor; try done; cbn.
  - apply Forall_app_2; [done|]. repeat constructor; cbn; try (unfold is_u32; lia). by apply Forall_take.
  - rewrite length_app. cbn. lia.
  - eapply Forall_impl; [done|]. intros r. apply reloc_wf_mono. rewrite length_app. lia.
Qed.

Lemma get_label_index_wf name create : Forall is_u8 name → keeps ctx_wf (get_label_index name create).
Proof. intros Hn c i c' Hw H. by eapply get_label_index_ok in H as [? _]. Qed.

Lemma upd_label_wf idx f : (∀ l, label_wf l → label_wf (f l)) → keeps ctx_wf (upd_label idx f).
Proof.
  intros Hf c a c' [] H. unfold upd_label in H. mstep H. destruct (zlookup (c_labels c) idx) as [l|] eqn:El; [|done].
  destruct (zupdate (c_labels c) idx (f l)) as [ls|] eqn:Eu; [|done]. injection H as _ <-. pose proof (zupdate_length _ _ _ _ Eu) as Hlen.
  apply zupdate_inv in Eu as [Hi ->]. constructor; try done; cbn; [|by rewrite length_insert|by rewrite length_insert].
  apply Forall_insert; [done|]. apply Hf. rewrite zlookup_nonneg in El by lia. by eapply Forall_lookup_1.
Qed.

Lemma mark_label_global_wf name : Forall is_u8 name → keeps ctx_wf (mark_label_global name).
Proof. intros Hn. apply keep_bind; [by apply get_label_index_wf|]. intros i. apply keeps_if; [apply upd_label_wf; by intros l []|apply keep_ret]. Qed.
Lemma mark_label_extern_wf name : Forall is_u8 name → keeps ctx_wf (mark_label_extern name).
Proof. intros Hn. apply keep_bind; [by apply get_label_index_wf|]. intros i. apply keeps_if; [apply upd_label_wf; by intros l []|apply keep_ret]. Qed.

Lemma define_label_wf name off sec : Forall is_u8 name → is_u32 off → 0 ≤ sec < 4 → keeps ctx_wf (define_label name off sec).
Proof.
  intros Hn Ho Hs. unfold define_label. apply keep_bind; [by apply get_label_index_wf|]. intros i. apply keeps_if; [apply keep_ret|].
  apply keep_bind; [apply keep_get|]. intros c. apply keep_bind; [apply keep_lift|]. intros l. apply keeps_if; [apply fails_wf|].
  apply keep_bind; [|intros; apply keep_ret]. apply upd_label_wf. intros l' (H1 & H2 & H3). done.
Qed.

Lemma add_reloc_wf sec off ty name add : is_u32 sec → is_u32 off → (ty = MOBJ_RELOC_ABS32 ∨ ty = MOBJ_RELOC_REL32) → Forall is_u8 name → is_s32 add →
  keeps ctx_wf (add_reloc sec off ty name add).
Proof.
  intros Hs Ho Ht Hn Ha. unfold add_reloc. apply keeps_get_bind. intros c Hw b c' H. destruct (_ || _); [by injection H as _ <-|].
  destruct (Z.leb_spec MAX_RELOCS (Z.of_nat (length (c_relocs c)))) as [Hr|Hr]; [by eapply fails_wf in H|].
  inv_bind H. eapply get_label_index_ok in E as (Hw1 & Hi & Er); [|done|done]. destruct (Z.ltb_spec a 0); [by eapply fails_wf in H|].
  unfold modify in H. mstep H. injection H as _ <-. destruct Hi as [->|Hi]; [lia|]. destruct Hw1. constructor; try done; cbn.
  - apply Forall_app_2; [done|]. apply Forall_singleton. split_and!; try done; cbn; rewrite u32_small; unfold is_u32; unfold MAX_LABELS in *; lia.
  - rewrite length_app, Er. cbn. lia.
Qed.

Lemma label_addr_wf name : Forall is_u8 name → keeps ctx_wf (label_addr name).
Proof. intros Hn. apply keep_bind; [by apply get_label_index_wf|]. auto 10 with keeps. Qed.
Hint Resolve fails_wf alloc_wf cur_pc_wf sec_pc_wf get_label_index_wf label_addr_wf add_reloc_wf with_err_wf : keeps.

Lemma resolve_label_wf name : Forall is_u8 name → keeps ctx_wf (resolve_label name).
Proof.
  intros Hn. unfold resolve_label. apply keep_bind; [by apply label_addr_wf|]. intros [a|]; [apply keep_ret|].
  apply keep_bind; [by apply get_label_index_wf|]. intros i. apply keep_bind; [apply keep_get|]. intros c.
  apply keep_bind; [auto with keeps|]. intros e. apply keeps_if; [apply keep_ret|]. apply keep_bind; [|intros; apply keep_ret].
  apply keeps_if; [|apply keep_ret]. apply keeps_modify, with_err_wf.
Qed.

Lemma with_cap_wf c v : ctx_wf c → ctx_wf (with_cap v c).
Proof. by intros []. Qed.

Lemma grow_wf s : keeps ctx_wf (grow room s).
Proof.
  unfold grow. apply keep_bind; [apply keep_get|]. intros c. do 2 (apply keep_bind; [apply keep_lift|]; intros ?). apply keeps_if; [apply keep_ret|].
  apply keep_bind; [auto with keeps|]. intros d. apply keep_bind; [apply alloc_wf|]. intros ok. apply keeps_if; [|apply fails_wf].
  apply keeps_get_bind. intros c1 Hw b c' H. inv_bind H. mstep H. injection H as _ <-. unfold lift in E. destruct (zupdate _ _ _); [|done].
  injection E as _ <-. by apply with_cap_wf.
Qed.

Lemma store8_wf v : keeps ctx_wf (store8 room v).
Proof.
  unfold store8. apply keep_bind; [apply keep_get|]. intros c. apply keeps_if; [apply keep_ret|]. apply keeps_and; [apply grow_wf|].
  apply keeps_get_bind. intros c1 [] b c' H. mstep H. destruct (zlookup _ _); [|done]. destruct (zupdate _ _ _) eqn:E; [|done]. injection H as _ <-.
  apply zupdate_length in E. constructor; try done. cbn. congruence.
Qed.

Lemma advance_wf : keeps ctx_wf advance.
Proof.
  unfold advance. apply keeps_get_bind. intros c1 [] b c' H. mstep H. destruct (zlookup _ _); [|done]. destruct (zupdate _ _ _) eqn:E; [|done]. injection H as _ <-.
  apply zupdate_inv in E as [Hi ->]. constructor; try done; cbn; [by rewrite length_insert|]. apply Forall_insert; [done|apply u32_range].
Qed.

Lemma emit8_wf v : keeps ctx_wf (emit8 room v).
Proof. apply keeps_and; [apply store8_wf|apply advance_wf]. Qed.
Hint Resolve emit8_wf resolve_label_wf : keeps.
Lemma emit16_wf v : keeps ctx_wf (emit16 room v).
Proof. unfold emit16. auto with keeps. Qed.
Lemma emit32_wf v : keeps ctx_wf (emit32 room v).
Proof. unfold emit32. auto with keeps. Qed.
Lemma emit_modrm_wf a b c : keeps ctx_wf (emit_modrm room a b c).
Proof. apply emit8_wf. Qed.

Lemma reloc_here_wf ty name add : (ty = MOBJ_RELOC_ABS32 ∨ ty = MOBJ_RELOC_REL32) → Forall is_u8 name → is_s32 add → keeps ctx_wf (reloc_here ty name add).
Proof.
  intros Ht Hn Ha c b c' Hw H. unfold reloc_here, sec_pc in H. mstep H. destruct (zlookup (c_pc c) (c_cur_sec c)) as [p|] eqn:E; [|done].
  eapply add_reloc_wf; [..|done|done]; try done; [apply u32_range|]. destruct Hw. rewrite zlookup_nonneg in E by lia. by eapply (Forall_lookup_1 is_u32).
Qed.
Lemma reloc_abs_wf name add : Forall is_u8 name → is_s32 add → keeps ctx_wf (reloc_here MOBJ_RELOC_ABS32 name add).
Proof. intros. apply reloc_here_wf; [by left|done|done]. Qed.
Lemma reloc_rel_wf name : Forall is_u8 name → keeps ctx_wf (reloc_here MOBJ_RELOC_REL32 name 0).
Proof. intros. apply reloc_here_wf; [by right|done|unfold is_s32; lia]. Qed.
Lemma is_s32_0 : is_s32 0.
Proof. unfold is_s32. lia. Qed.
Hint Resolve emit16_wf emit32_wf emit_modrm_wf reloc_abs_wf reloc_rel_wf is_s32_0 : keeps.

Lemma resolve_imm_wf o : op_wf o → keeps ctx_wf (resolve_imm o).
Proof. intros (_ & H & _). unfold resolve_imm. auto 10 with keeps. Qed.
Lemma with_imm_wf o k : op_wf o → (∀ i, keeps ctx_wf (k i)) → keeps ctx_wf (with_imm o k).
Proof. intros Ho Hk. apply keep_bind; [by apply resolve_imm_wf|]. intros [i|]; [done|apply keep_ret]. Qed.
Lemma with_rel_wf o n k : op_wf o → (∀ i, keeps ctx_wf (k i)) → keeps ctx_wf (with_rel o n k).
Proof. intros Ho Hk. apply with_imm_wf; [done|]. auto 10 with keeps. Qed.
Lemma obj_label_wf o m1 m2 : keeps ctx_wf m1 → keeps ctx_wf m2 → keeps ctx_wf (obj_label o m1 m2).
Proof. intros. unfold obj_label. auto with keeps. Qed.

Lemma emit_rm_operand_wf r o : op_wf o → keeps ctx_wf (emit_rm_operand room r o).
Proof.
  intros (H1 & H2 & H3). unfold emit_rm_operand, emit_abs_operand, emit_base_operand. destruct (o_kind o); auto with keeps.
  apply keeps_if.
  - apply keeps_and; [auto with keeps|]. destruct (o_disp_label o) as [|x y] eqn:E; [auto with keeps|]. apply keep_bind; [auto with keeps|]. intros [l|]; auto 10 with keeps.
  - destruct (o_disp_label o); [|auto with keeps]. cbv zeta. auto 10 with keeps.
Qed.
Hint Resolve emit_rm_operand_wf with_imm_wf with_rel_wf obj_label_wf : keeps.
Hint Extern 1 (∀ i, keeps _ _) => intros ? : keeps.

Lemma maybe_prefix_16_wf b : keeps ctx_wf (maybe_prefix_16 room b).
Proof. unfold maybe_prefix_16. auto with keeps. Qed.
Lemma emit_imm_wf b i : keeps ctx_wf (emit_imm room b i).
Proof. unfold emit_imm. auto with keeps. Qed.
Hint Resolve maybe_prefix_16_wf emit_imm_wf : keeps.

Lemma op_wf_label o : op_wf o → Forall is_u8 (o_label o).
Proof. by intros (_ & H & _). Qed.
Hint Resolve op_wf_label : keeps.

(** Every alternative of [encode_instruction] keeps the invariant. *)
Definition okeeps (x : option (A bool)) : Prop := keeps ctx_wf (default fails x).

Lemma enc_none_wf mn : okeeps (enc_none room mn).
Proof. unfold okeeps, enc_none. repeat case_match; cbn; auto with keeps. Qed.

Lemma enc_one_wf mn o : op_wf o → okeeps (enc_one room mn o).
Proof.
  intros Ho. unfold okeeps, enc_one, enc_push, enc_pop, enc_branch, enc_jcc, enc_setcc, enc_unary.
  repeat (case_match; cbn [default from_option id]); auto 12 with keeps.
Qed.

Lemma enc_two_wf mn o0 o1 : op_wf o0 → op_wf o1 → okeeps (enc_two room mn o0 o1).
Proof.
  intros H0 H1. unfold okeeps, enc_two, enc_mov, enc_movx, enc_alu, enc_test, enc_shift, encode_binop_rm_reg, encode_binop_reg_rm, encode_grp1_imm. cbv zeta.
  repeat (case_match; cbn [default from_option id]); auto 12 with keeps.
Qed.

Lemma encode_instruction_wf mn ops : Forall op_wf ops → keeps ctx_wf (encode_instruction room mn ops).
Proof.
  intros H. unfold encode_instruction. destruct ops as [|o0 [|o1 [|o2 [|]]]]; decompose_Forall_hyps.
  - apply enc_none_wf.
  - by apply enc_one_wf.
  - by apply enc_two_wf.
  - unfold enc_imul3. case_match; cbn; auto 12 with keeps.
  - auto with keeps.
Qed.
Hint Resolve encode_instruction_wf : keeps.

Lemma emit_value_wf b v : keeps ctx_wf (emit_value room b v).
Proof. unfold emit_value. auto with keeps. Qed.
Lemma emit_string_wf fuel s b : keeps ctx_wf (emit_string room fuel s b).
Proof.
  revert s. induction fuel as [|fuel IH]; intros s; cbn [emit_string]; [apply keep_ub|]. destruct s as [|c s]; [apply keep_ret|].
  destruct (match s with [] => _ | _ :: _ => _ end) as [c' s']. auto with keeps.
Qed.
Hint Resolve emit_value_wf emit_string_wf : keeps.

Lemma emit_data_item_wf t b : Forall is_u8 t → keeps ctx_wf (emit_data_item room t b).
Proof.
  intros Ht. unfold emit_data_item. assert (Hs : Forall is_u8 (rtrim (ltrim (copy_lim t MAX_TOK)))) by (by apply rtrim_Forall, ltrim_Forall, copy_lim_Forall).
  cbv zeta. auto 12 with keeps.
Qed.
Lemma emit_items_wf ts b : Forall (Forall is_u8) ts → keeps ctx_wf (emit_items room ts b).
Proof. induction 1; cbn; [apply keep_ret|]. apply keeps_and; [by apply emit_data_item_wf|done]. Qed.
Lemma repeat_item_wf n t b : Forall is_u8 t → keeps ctx_wf (repeat_item room n t b).
Proof. intros Ht. induction n; cbn; [apply keep_ret|]. apply keeps_and; [by apply emit_data_item_wf|done]. Qed.
Lemma emit_zeros_wf n : keeps ctx_wf (emit_zeros room n).
Proof. induction n; cbn; auto with keeps. Qed.
Lemma align_loop_wf fuel v : keeps ctx_wf (align_loop room fuel v).
Proof. induction fuel; cbn; auto with keeps. Qed.
Hint Resolve emit_items_wf repeat_item_wf emit_zeros_wf align_loop_wf : keeps.

Lemma define_labels_wf ns : Forall (Forall is_u8) ns → keeps ctx_wf (define_labels ns).
Proof.
  induction 1 as [|n ns Hn Hns IH]; cbn [define_labels]; [apply keep_ret|]. intros c b c' Hw H. unfold sec_pc in H. mstep H.
  destruct (zlookup (c_pc c) (c_cur_sec c)) as [p|] eqn:E; [|done]. destruct (define_label n p (c_cur_sec c) c) as [[d c1]|] eqn:Ed; [|done].
  eapply IH; [|done]. eapply define_label_wf; [done| |apply Hw|done|done]. destruct Hw. rewrite zlookup_nonneg in E by lia. by eapply (Forall_lookup_1 is_u32).
Qed.

Lemma mark_labels_wf mark ts : (∀ t, Forall is_u8 t → keeps ctx_wf (mark t)) → Forall (Forall is_u8) ts → keeps ctx_wf (mark_labels mark ts).
Proof.
  intros Hm. induction 1 as [|t ts Ht Hts IH]; cbn [mark_labels]; [apply keep_ret|]. apply keep_bind; [|by intros _].
  apply keeps_if; [apply keep_ret|by apply Hm].
Qed.

Lemma do_section_wf r : keeps ctx_wf (do_section r).
Proof.
  unfold do_section. destruct (rtrim _) as [|c p]; [auto with keeps|]. destruct (section_of _) as [s|] eqn:E; [|auto with keeps].
  assert (0 ≤ s < 4). { unfold section_of in E. repeat case_match; simplify_eq; unfold SEC_TEXT, SEC_RODATA, SEC_DATA, SEC_BSS; lia. }
  apply keep_bind; [|intros; apply keep_ret]. apply keeps_modify. by intros c0 [].
Qed.

Lemma do_org_wf r : keeps ctx_wf (do_org r).
Proof.
  unfold do_org. apply keep_bind; [apply keeps_parsed|]. intros [v|]; [|auto with keeps]. apply keeps_get_bind. intros c [] b c' H.
  destruct (bool_decide _); [injection H as _ <-; constructor; try done; apply u32_range|]. by eapply fails_wf in H.
Qed.

Lemma parse_operands_ok ts c os c' : Forall (Forall is_u8) ts → parse_operands ts c = Some (os, c') → c' = c ∧ ∀ l, os = Some l → Forall op_wf l.
Proof.
  intros Ht. revert os c'. induction Ht as [|t ts Ht Hts IH]; intros os c'; cbn [parse_operands]; [intros [= <- <-]; split; [done|]; intros l [= <-]; constructor|].
  intros H. destruct (parse_operand t) as [op| |] eqn:E; cbn [parsed] in H; [|injection H as <- <-; done|done]. mstep H.
  destruct (parse_operands ts c) as [[os1 c1]|] eqn:E1; [|done]. injection H as <- <-. destruct (IH os1 c1 eq_refl) as [-> IH']. split; [done|].
  intros l Hl. destruct os1 as [l1|]; [|done]. injection Hl as <-. constructor; [by eapply parse_operand_wf|by apply IH'].
Qed.

Lemma do_instruction_wf m r : Forall is_u8 r → keeps ctx_wf (do_instruction room m r).
Proof.
  intros Hr c b c' Hw H. unfold do_instruction in H. inv_bind H. apply parse_operands_ok in E as [-> Ho].
  - destruct a as [l|]; [|by eapply fails_wf in H]. eapply encode_instruction_wf; [by apply Ho|done|done].
  - destruct (bool_decide (r = [])); [constructor|]. by apply split_operands_Forall.
Qed.

Lemma do_statement_wf m r : Forall is_u8 r → keeps ctx_wf (do_statement room m r).
Proof.
  intros Hr. assert (Ht : Forall (Forall is_u8) (split_operands r 64)) by (by apply split_operands_Forall). unfold do_statement. cbv zeta.
  apply keeps_if; [apply keep_ret|]. apply keeps_if; [apply keep_bind; [apply mark_labels_wf; [apply mark_label_global_wf|done]|intros; apply keep_ret]|].
  apply keeps_if; [apply keep_bind; [apply mark_labels_wf; [apply mark_label_extern_wf|done]|intros; apply keep_ret]|].
  apply keeps_if; [apply do_section_wf|]. apply keeps_if; [apply do_org_wf|]. apply keeps_if; [unfold do_align; auto 12 with keeps|].
  do 3 (apply keeps_if; [unfold do_res; auto 12 with keeps|]). apply keeps_if.
  - unfold do_times, times_parts. apply keep_bind; [repeat case_match; auto with keeps|]. intros [[p0 p1]|]; [|auto with keeps].
    assert (Hl : Forall is_u8 (ltrim (drop (length p1) (ltrim (drop (length p0) r))))) by (by apply ltrim_Forall, Forall_drop, ltrim_Forall, Forall_drop).
    cbv zeta. auto 12 with keeps.
  - destruct (item_bytes m); [auto with keeps|by apply do_instruction_wf].
Qed.

Lemma process_line_wf l : Forall is_u8 l → keeps ctx_wf (process_line room l).
Proof.
  intros Hl. unfold process_line. destruct (parse_line l) as [[ns st]|] eqn:E; [|apply keep_ret]. eapply parse_line_Forall in E as [Hn Hs]; [|done].
  apply keep_bind; [apply keeps_modify; intros c []; by case_match|]. intros _. apply keep_bind; [by apply define_labels_wf|]. intros _.
  destruct st as [[m r]|]; [|apply keep_ret]. apply keeps_if; [apply keep_ret|]. apply do_statement_wf. by eapply Hs.
Qed.

Lemma process_lines_wf ls : Forall (Forall is_u8) ls → keeps ctx_wf (process_lines room ls).
Proof. induction 1; cbn [process_lines]; [auto with keeps|]. apply keeps_and; [by apply process_line_wf|]. auto with keeps. Qed.

Lemma run_pass_wf src p : Forall is_u8 src → keeps ctx_wf (run_pass room src p).
Proof.
  intros Hs. apply keep_bind; [|intros _; by apply process_lines_wf, lines_of_Forall]. apply keeps_modify. intros c []. unfold start_pass.
  constructor; cbn; try done.
  - repeat apply Forall_cons_2; try (unfold is_u32; lia). constructor.
  - by case_match.
  - case_match; [constructor|done].
  - case_match; [unfold MAX_RELOCS; cbn; lia|done].
Qed.

Lemma alloc_all_wf l : keeps ctx_wf (alloc_all room l).
Proof. induction l; cbn; auto with keeps. Qed.

(** The state after a successful run, with the bound on the image. *)
Lemma assemble_wf src c0 img c : Forall is_u8 src → ctx_wf c0 → c_relocs c0 = [] → assemble room src c0 = Some (Some img, c) →
  ctx_wf c ∧ img = concat (c_out c) ∧ Z.of_nat (length img) < 2147483648.
Proof.
  intros Hs Hw Hr H. unfold assemble in H. inv_bind H. assert (H1 : ctx_wf s).
  { injection E as _ <-. destruct Hw. constructor; cbn; try done. rewrite Hr. constructor. }
  inv_bind H. eapply run_pass_wf in E0; [|done|done]. succeeds H. inv_bind H. injection E1 as <- <-. cbv zeta in H. inv_bind H.
  assert (H2 : ctx_wf s1) by (injection E1 as _ <-; by destruct E0). clear E1. destruct (_ && _); [by inv_bind H|]. inv_bind H. eapply alloc_all_wf in E1; [|done].
  succeeds H. inv_bind H. assert (H3 : ctx_wf s3) by (injection E2 as _ <-; by destruct E1). clear E2.
  inv_bind H. eapply run_pass_wf in E2; [|done|done]. succeeds H. inv_bind H. eapply alloc_wf in E3; [|done]. succeeds H. inv_bind H. injection E4 as <- <-.
  destruct (Z.ltb_spec (if 0 <? s32 (total (c_pc s0)) then s32 (total (c_pc s0)) else 1) (Z.of_nat (length (concat (c_out s5))))); [done|].
  injection H as <- <-. split; [done|]. split; [done|]. pose proof (s32_range (total (c_pc s0))). unfold is_s32 in *. case_match; lia.
Qed.
End wf.

(** ** Reading back what was written *)

Lemma zlookup_app_mid {T} (p l q : list T) (i : nat) off x : l !! i = Some x → off = Z.of_nat (length p) + Z.of_nat i → zlookup (p ++ l ++ q) off = Some x.
Proof.
  intros H ->. pose proof (lookup_lt_Some _ _ _ H). rewrite zlookup_nonneg by lia. replace (Z.to_nat _) with (length p + i)%nat by lia.
  rewrite lookup_app_r by lia. replace (length p + i - length p)%nat with i by lia. by rewrite lookup_app_l by lia.
Qed.

Lemma rd32_le32 p x q : rd32 (p ++ le32 x ++ q) (Z.of_nat (length p)) = Ret (u32 x).
Proof.
  unfold rd32, rd8. rewrite <- (le32_u32 x). pose proof (u32_range x) as Hx. generalize dependent (u32 x). clear x. intros x Hx.
  rewrite (zlookup_app_mid p (le32 x) q 0 (Z.of_nat (length p)) _ eq_refl), (zlookup_app_mid p (le32 x) q 1 (Z.of_nat (length p) + 1) _ eq_refl),
    (zlookup_app_mid p (le32 x) q 2 (Z.of_nat (length p) + 2) _ eq_refl), (zlookup_app_mid p (le32 x) q 3 (Z.of_nat (length p) + 3) _ eq_refl) by lia.
  cbn [of_opt mbind R_bind]. f_equal. rewrite (split_bytes x Hx) at 5. change (2 ^ 24) with 16777216. change (2 ^ 16) with 65536. change (2 ^ 8) with 256. change (2 ^ 0) with 1.
  rewrite <- join_bytes by apply byte_u8. rewrite Z.div_1_r. apply Z.bits_inj'. intros i Hi. rewrite !Z.lor_spec. btauto.
Qed.

Lemma length_le32s ws : length (le32s ws) = (4 * length ws)%nat.
Proof. unfold le32s. induction ws; cbn [fmap list_fmap concat length app]; [done|]. rewrite length_app, IHws. cbn. lia. Qed.

Lemma rd32_le32s p ws q k w off : ws !! k = Some w → off = Z.of_nat (length p) + 4 * Z.of_nat k → rd32 (p ++ le32s ws ++ q) off = Ret (u32 w).
Proof.
  intros H ->. pose proof (take_drop_middle ws k w H) as E. pose proof (lookup_lt_Some _ _ _ H) as Hlt.
  assert (Hs : le32s ws = le32s (take k ws) ++ le32 w ++ le32s (drop (S k) ws)).
  { rewrite <- E at 1. unfold le32s. by rewrite fmap_app, concat_app. }
  rewrite Hs, <- !app_assoc, (app_assoc p). rewrite <- (rd32_le32 (p ++ le32s (take k ws)) w (le32s (drop (S k) ws) ++ q)). f_equal.
  rewrite length_app, length_le32s, length_take. lia.
Qed.

Lemma slice_app p l q n : n = Z.of_nat (length l) → slice (p ++ l ++ q) (Z.of_nat (length p)) n = Ret l.
Proof.
  intros ->. unfold slice. assert (E : ((0 <=? Z.of_nat (length p)) && (0 <=? Z.of_nat (length l)) && (Z.of_nat (length p) + Z.of_nat (length l) <=? Z.of_nat (length (p ++ l ++ q)))) = true).
  { rewrite !length_app, !andb_true_iff, !Z.leb_le. lia. }
  rewrite E, !Nat2Z.id, drop_app_length, take_app_length. done.
Qed.

Lemma read_table_ok {T} (rd : list Z → Z → R T) (enc : T → list Z) size (l : list T) p q : 0 ≤ size →
  Forall (λ x, Z.of_nat (length (enc x)) = size ∧ ∀ p q, rd (p ++ enc x ++ q) (Z.of_nat (length p)) = Ret x) l →
  read_table rd size (length l) (p ++ concat (enc <$> l) ++ q) (Z.of_nat (length p)) = Ret l.
Proof.
  intros Hs H. revert p. induction H as [|x l [Hx Hrd] Hl IH]; intros p; cbn [length read_table]; [done|]. cbn [fmap list_fmap concat]. rewrite <- app_assoc, Hrd.
  cbn [mbind R_bind]. specialize (IH (p ++ enc x)). rewrite length_app, <- app_assoc in IH.
  replace (Z.of_nat (length p) + size) with (Z.of_nat (length p + length (enc x))) by lia. rewrite IH. done.
Qed.

Lemma read_sym_ok s p q : length (s_name s) = MAX_NAME → is_u32 (s_value_off s) → is_u32 (s_section s) → is_u32 (s_flags s) →
  read_sym (p ++ sym_bytes s ++ q) (Z.of_nat (length p)) = Ret s.
Proof.
  intros Hn Hv Hse Hf. unfold read_sym, sym_bytes. rewrite <- app_assoc. rewrite slice_app by (by rewrite Hn). cbn [mbind R_bind].
  assert (Hrd : ∀ k w off, [s_value_off s; s_section s; s_flags s] !! k = Some w → off = Z.of_nat (length p) + 64 + 4 * Z.of_nat k →
    rd32 (p ++ s_name s ++ le32s [s_value_off s; s_section s; s_flags s] ++ q) off = Ret (u32 w)).
  { intros k w off Hk ->. rewrite (app_assoc p). apply (rd32_le32s _ _ _ k); [done|]. rewrite length_app, Hn. unfold MAX_NAME. lia. }
  rewrite (Hrd 0%nat _ (Z.of_nat (length p) + 64) eq_refl), (Hrd 1%nat _ (Z.of_nat (length p) + 68) eq_refl), (Hrd 2%nat _ (Z.of_nat (length p) + 72) eq_refl) by lia.
  cbn [mbind R_bind].
  rewrite !u32_small by done. by destruct s.
Qed.

Lemma read_reloc_ok n r p q : reloc_wf n r → Z.of_nat n ≤ MAX_LABELS → read_reloc (p ++ reloc_bytes r ++ q) (Z.of_nat (length p)) = Ret r.
Proof.
  intros (H1 & H2 & H3 & H4 & H5) Hn. unfold read_reloc, reloc_bytes.
  set (ws := [r_section r; r_offset r; r_type r; r_sym_index r; r_addend r]). set (o := Z.of_nat (length p)).
  rewrite (rd32_le32s p ws q 0 (r_section r) o), (rd32_le32s p ws q 1 (r_offset r) (o + 4)), (rd32_le32s p ws q 2 (r_type r) (o + 8)),
    (rd32_le32s p ws q 3 (r_sym_index r) (o + 12)), (rd32_le32s p ws q 4 (r_addend r) (o + 16)) by (done || lia). cbn [mbind R_bind]. rewrite s32_u32, (s32_small (r_addend r)) by done.
  rewrite !u32_small; [by destruct r|unfold is_u32, MAX_LABELS in *; lia|destruct H3 as [->| ->]; unfold is_u32, MOBJ_RELOC_ABS32, MOBJ_RELOC_REL32; lia|done|done].
Qed.

(** ** The object of a run *)

Definition sec_len (c : asm_ctx_t) (s : nat) : Z := Z.of_nat (length (default [] (c_out c !! s))).

(** The input of the linker that stands for the state of the assembler. *)
Definition input_of (c : asm_ctx_t) (e : Z) : input_t :=
  mk_input true 2 e (concat (take 3 (c_out c))) (sec_len c 3) (bases (sec_len c 0) (sec_len c 1) (sec_len c 2)) (sym_of <$> c_labels c) (c_relocs c) 0.

Lemma sym_of_name l : length (s_name (sym_of l)) = MAX_NAME.
Proof. cbn. rewrite length_app, length_replicate, length_take. unfold MAX_NAME. lia. Qed.

Lemma sym_of_wf l : label_wf l → wf_sym (sym_of l) ∧ is_u32 (s_value_off (sym_of l)) ∧ is_u32 (s_section (sym_of l)) ∧ is_u32 (s_flags (sym_of l)).
Proof.
  intros (Ho & Hs & Hn). assert (Hse : u32 (l_section l) = l_section l) by (apply u32_small; unfold is_u32; lia). unfold sym_of. rewrite Hse.
  split; [split|split; [|split]]; cbn [s_name s_section s_value_off s_flags].
  - split; [apply Forall_app_2; [by apply Forall_take|apply Forall_replicate; unfold is_u8; lia]|]. apply elem_of_app. right. apply elem_of_replicate.
    split; [done|]. unfold copy_lim, MAX_NAME. rewrite length_take. lia.
  - destruct (l_defined l); [right; unfold SEC_BSS; lia|by left].
  - destruct (l_defined l); [done|]. unfold is_u32. lia.
  - destruct (l_defined l); unfold is_u32, SEC_UNDEF; lia.
  - destruct (l_is_global l), (l_is_extern l || negb (l_defined l)); vm_compute; (split; [discriminate|reflexivity]).
Qed.

Lemma length_concat_map {T} (f : T → list Z) n l : Forall (λ x, length (f x) = n) l → length (concat (f <$> l)) = (n * length l)%nat.
Proof. induction 1 as [|x l Hx Hl IH]; cbn; [lia|]. rewrite length_app, Hx, IH. lia. Qed.

Lemma out_parts c : ctx_wf c → ∃ t r d b, c_out c = [t; r; d; b] ∧ sec_len c 0 = Z.of_nat (length t) ∧ sec_len c 1 = Z.of_nat (length r) ∧
  sec_len c 2 = Z.of_nat (length d) ∧ sec_len c 3 = Z.of_nat (length b).
Proof.
  intros []. unfold sec_len. destruct (c_out c) as [|t [|r [|d [|b [|]]]]]; try done. by exists t, r, d, b.
Qed.

(** The parser of the linker on a header followed by the parts that it describes. *)
Lemma parse_object org e t r d bss syms rels : is_u32 e → is_u32 bss →
  let payload := t ++ r ++ d in
  let lt := Z.of_nat (length t) in let lr := Z.of_nat (length r) in let ld := Z.of_nat (length d) in
  Z.of_nat (length payload) < 2147483648 → Z.of_nat (length syms) ≤ MAX_LABELS → Z.of_nat (length rels) ≤ MAX_RELOCS →
  Forall (λ s, length (s_name s) = MAX_NAME ∧ is_u32 (s_value_off s) ∧ is_u32 (s_section s) ∧ is_u32 (s_flags s)) syms →
  Forall (reloc_wf (length syms)) rels →
  parse_input ((str "MOBJ" ++ le32s [2; org; e; lt; lr; ld; bss; Z.of_nat (length syms); Z.of_nat (length rels)]) ++ payload ++
    concat (sym_bytes <$> syms) ++ concat (reloc_bytes <$> rels)) = Ret (mk_input true 2 e payload bss (bases lt lr ld) syms rels 0).
Proof.
  intros He Hb payload lt lr ld Hp Hns Hnr Hsy Hre. unfold MAX_LABELS, MAX_RELOCS in *.
  assert (Hpl : Z.of_nat (length payload) = lt + lr + ld) by (unfold payload, lt, lr, ld; rewrite !length_app; lia).
  assert (Hls : length (concat (sym_bytes <$> syms)) = (76 * length syms)%nat).
  { apply length_concat_map. eapply Forall_impl; [done|]. intros s (Hs & _). unfold sym_bytes. rewrite length_app, Hs, length_le32s. done. }
  assert (Hlr : length (concat (reloc_bytes <$> rels)) = (20 * length rels)%nat) by (apply length_concat_map, Forall_true; intros x; apply length_le32s).
  set (ws := [2; org; e; lt; lr; ld; bss; Z.of_nat (length syms); Z.of_nat (length rels)]).
  set (hdr := str "MOBJ" ++ le32s ws). assert (Hh : length hdr = 40%nat) by (unfold hdr; by rewrite length_app, length_le32s).
  set (buf := hdr ++ payload ++ concat (sym_bytes <$> syms) ++ concat (reloc_bytes <$> rels)).
  assert (Hlen : Z.of_nat (length buf) = 40 + (lt + lr + ld) + 76 * Z.of_nat (length syms) + 20 * Z.of_nat (length rels)).
  { unfold buf. rewrite !length_app, Hls, Hlr, Hh. lia. }
  assert (Hrd : ∀ k w off, ws !! k = Some w → off = 4 + 4 * Z.of_nat k → rd32 buf off = Ret (u32 w)).
  { intros k w off Hk ->. unfold buf, hdr. rewrite <- app_assoc. apply (rd32_le32s _ _ _ k); [done|]. done. }
  unfold parse_input. assert (Hm : is_mobj_magic buf = true).
  { unfold is_mobj_magic. rewrite (proj2 (Nat.leb_le 8 _)) by lia. done. }
  rewrite Hm, (Hrd 0%nat 2 4) by done. cbn [mbind R_bind]. change (u32 2 =? 1) with false. change (u32 2 =? 2) with true. cbv iota. unfold parse_v2, V2_SIZE, SYM_SIZE, RELOC_SIZE.
  rewrite (Hrd 2%nat e 12), (Hrd 3%nat lt 16), (Hrd 4%nat lr 20), (Hrd 5%nat ld 24), (Hrd 6%nat bss 28), (Hrd 7%nat (Z.of_nat (length syms)) 32), (Hrd 8%nat (Z.of_nat (length rels)) 36) by done.
  cbn [mbind R_bind]. rewrite !(u32_small e), !(u32_small lt), !(u32_small lr), !(u32_small ld), !(u32_small bss), !(u32_small (Z.of_nat (length syms))), !(u32_small (Z.of_nat (length rels)))
    by (done || unfold is_u32; lia).
  rewrite !(u32_small (lt + lr + ld)), !(u32_small (Z.of_nat (length syms) * 76)), !(u32_small (Z.of_nat (length rels) * 20)) by (unfold is_u32; lia).
  rewrite !Z.div_mul, !Z.eqb_refl, !orb_true_r by lia. rewrite u32_small by (unfold is_u32; lia). unfold ensure.
  rewrite (proj2 (Z.leb_le 40 _)) by lia. cbn [mbind R_bind]. rewrite (proj2 (Z.leb_le (40 + _ + _ + _) _)) by lia. cbn [mbind R_bind]. rewrite !Nat2Z.id.
  assert (Hslice : slice buf 40 (lt + lr + ld) = Ret payload).
  { unfold buf. replace 40 with (Z.of_nat (length hdr)) by lia. by apply slice_app. }
  rewrite Hslice. cbn [mbind R_bind].
  assert (Hsyms : read_table read_sym 76 (length syms) buf (40 + (lt + lr + ld)) = Ret syms).
  { unfold buf. rewrite (app_assoc hdr). replace (40 + (lt + lr + ld)) with (Z.of_nat (length (hdr ++ payload))) by (rewrite length_app; lia). apply read_table_ok; [lia|].
    eapply Forall_impl; [done|]. intros s (Hs1 & Hs2 & Hs3 & Hs4). split; [unfold sym_bytes; rewrite length_app, Hs1, length_le32s; done|]. intros p q. by apply read_sym_ok. }
  rewrite Hsyms. cbn [mbind R_bind].
  assert (Hrels : read_table read_reloc 20 (length rels) buf (40 + (lt + lr + ld) + Z.of_nat (length syms) * 76) = Ret rels).
  { unfold buf. rewrite <- (app_nil_r (concat (reloc_bytes <$> rels))), (app_assoc hdr), (app_assoc (hdr ++ payload)).
    replace (40 + (lt + lr + ld) + _) with (Z.of_nat (length ((hdr ++ payload) ++ concat (sym_bytes <$> syms)))) by (rewrite !length_app; lia). apply read_table_ok; [lia|].
    eapply Forall_impl; [done|]. intros x Hx. split; [unfold reloc_bytes; by rewrite length_le32s|]. intros p q. eapply read_reloc_ok; [done|]. unfold MAX_LABELS. lia. }
  rewrite Hrels. done.
Qed.

Lemma ctx_zero_wf org obj k : is_u32 org → ctx_wf (with_allocs k (ctx_zero org obj)).
Proof.
  intros Ho. constructor; cbn; try done. repeat apply Forall_cons_2; try (unfold is_u32; lia). constructor.
Qed.

Lemma entry_off_u32 c e c' : entry_off c = Some (e, c') → is_u32 e.
Proof.
  unfold entry_off. intros H. inv_bind H. inv_bind H. inv_bind H. injection H as <- _. destruct a0; [apply u32_range|]. unfold is_u32. lia.
Qed.

(** C10 (roundtrip): What the assembler writes with [-f obj], the linker reads back:
    for every source that assembles, the object is accepted, and the input that the
    linker makes of it is well formed and has the bytes of the sections, every label as
    a symbol with its section and offset, every relocation, and the entry point. *)
Theorem object_read_back room src org k img c e c' : Forall is_u8 src → is_u32 org →
  assemble room src (with_allocs k (ctx_zero org true)) = Some (Some img, c) → entry_off c = Some (e, c') →
  parse_input (object_bytes c e) = Ret (input_of c e) ∧ wf_input (input_of c e) ∧ Forall (reloc_wf (length (c_labels c))) (c_relocs c).
Proof.
  intros Hs Ho Ha He. destruct (assemble_wf room src _ img c Hs (ctx_zero_wf org true k Ho) eq_refl Ha) as (Hw & Hi & Hlen).
  destruct (out_parts c Hw) as (t & r & d & b & Eo & L0 & L1 & L2 & L3). apply entry_off_u32 in He. split; [|split; [|apply Hw]].
  - unfold object_bytes, header_bytes, input_of. fold (sec_len c 0) (sec_len c 1) (sec_len c 2) (sec_len c 3). rewrite L0, L1, L2, L3, Eo. cbn [take concat]. rewrite app_nil_r.
    rewrite list_fmap_compose. rewrite <- (length_fmap sym_of (c_labels c)). rewrite Hi, Eo in Hlen. cbn [concat] in Hlen. rewrite !length_app in Hlen.
    apply parse_object; rewrite ?length_fmap; try done; [unfold is_u32; lia|rewrite !length_app; lia|apply Hw|apply Hw| |apply Hw].
    apply Forall_fmap. eapply Forall_impl; [apply Hw|]. intros l Hl. split; [apply sym_of_name|]. by apply sym_of_wf.
  - split; [done|]. apply Forall_fmap. eapply Forall_impl; [apply Hw|]. intros l Hl. by apply sym_of_wf.
Qed.

(** ** Examples *)

Definition source (l : list string) : list Z := concat ((λ s, str s ++ [10]) <$> l).

Definition memory : nat → Z → bool := λ _ _, true.

Definition demo_src : list Z :=
  source ["section .data"; "v: dd _start"; "section .text"; "extern f"; "global _start"; "_start: mov eax, [v+4]"; "  call f ; not here"; "  jne _start"]%string.

Definition demo_run : option (option (list Z) * asm_ctx_t) := Eval vm_compute in assemble memory demo_src (with_allocs 2 (ctx_zero 0 true)).
Definition demo_ctx : asm_ctx_t := from_option snd (ctx_zero 0 true) demo_run.

Lemma demo_assembles : ∃ img, assemble memory demo_src (with_allocs 2 (ctx_zero 0 true)) = Some (Some img, demo_ctx).
Proof. eexists. vm_compute. reflexivity. Qed.

Lemma object_read_back_witness : ∃ e, parse_input (object_bytes demo_ctx e) = Ret (input_of demo_ctx e) ∧ wf_input (input_of demo_ctx e) ∧
  (λ r, (r_section r, r_offset r, r_type r, r_sym_index r, r_addend r)) <$> c_relocs demo_ctx = [(2, 0, 1, 2, 0); (0, 2, 1, 0, 4); (0, 7, 2, 1, 0); (0, 13, 2, 2, 0)].
Proof.
  destruct demo_assembles as [img Ha]. exists 0.
  destruct (object_read_back memory demo_src 0 2 img demo_ctx 0 demo_ctx) as (H1 & H2 & _); [decided|unfold is_u32; lia|exact Ha|vm_compute; reflexivity|].
  split; [exact H1|]. split; [exact H2|]. vm_compute. reflexivity.
Defined.
