(* ===== verification/As86Passes.v ===== *)
(** * The two passes of the assembler

    The first pass counts bytes and collects the labels; the second one emits the bytes
    and uses the labels.  An assembler is right about its labels only if both passes
    count the same: here a relation between the two runs is carried through every
    statement, under the condition that no value of a label decides the size of an
    instruction (where one does, the passes disagree, see the examples). *)

From S2P Require Import Prelude Bytes LibcNum Ld86 Ld86Spec As86 As86Spec.

(** ** Properties that every step keeps *)

Definition set_label (offset section : Z) (l : label_t) : label_t := mk_label (l_name l) offset section true (l_is_global l) (l_is_extern l).
Definition set_flags (g e : bool) (l : label_t) : label_t := mk_label (l_name l) (l_offset l) (l_section l) (l_defined l) g e.

(** A property that the elementary steps keep is kept by every line. *)
Record elementary (room : nat → Z → bool) (I : asm_ctx_t → Prop) : Prop := {
  Herr c : I c → I (with_err c);
  Hsec c s : I c → 0 ≤ s < 4 → I (with_cur_sec s c);
  Horg c v : I c → I (with_org v c);
  Hlines c v : I c → I (with_lines v c);
  Hadd c name : I c → find_label (c_labels c) name = None → Z.of_nat (length (c_labels c)) < MAX_LABELS →
    I (with_labels (c_labels c ++ [mk_label (copy_lim name MAX_NAME) 0 0 false false false]) c);
  Hflags c i l g e : I c → c_labels c !! i = Some l → I (with_labels (<[i := set_flags g e l]> (c_labels c)) c);
  Hdef c i l off sec : I c → c_labels c !! i = Some l → (l_defined l && (c_pass c =? 1)) = false → I (with_labels (<[i := set_label off sec l]> (c_labels c)) c);
  Hreloc c r : I c → I (with_relocs r c);
  Hemit v : keeps I (emit8 room v)
}.

Section lift.
Context (room : nat → Z → bool) (I : asm_ctx_t → Prop) (HI : elementary room I).

Lemma lift_emit8 v : keeps I (emit8 room v).
Proof using HI. apply HI. Qed.
Hint Resolve lift_emit8 : keeps.

Lemma lift_fails : keeps I fails.
Proof using HI. apply keep_bind; [apply keeps_modify, HI|]. intros; apply keep_ret. Qed.
Hint Resolve lift_fails : keeps.
Lemma lift_cur_pc : keeps I cur_pc.
Proof using HI. unfold cur_pc. auto 10 with keeps. Qed.
Lemma lift_sec_pc : keeps I sec_pc.
Proof using HI. unfold sec_pc. auto with keeps. Qed.
Hint Resolve lift_cur_pc lift_sec_pc : keeps.

Lemma lift_get_label_index name b : keeps I (get_label_index name b).
Proof using HI.
  intros c i c' Hc H. unfold get_label_index in H. mstep H. destruct (find_label (c_labels c) name) eqn:E; [by injection H as _ <-|].
  destruct (negb b); [by injection H as _ <-|]. destruct (Z.leb_spec MAX_LABELS (Z.of_nat (length (c_labels c)))); [by injection H as _ <-|].
  injection H as _ <-. by apply HI.
Qed.
Hint Resolve lift_get_label_index : keeps.

Lemma upd_label_inv idx f c u c' : upd_label idx f c = Some (u, c') → ∃ i l, idx = Z.of_nat i ∧ c_labels c !! i = Some l ∧ c' = with_labels (<[i := f l]> (c_labels c)) c.
Proof using Type.
  unfold upd_label. intros H. mstep H. destruct (zlookup (c_labels c) idx) as [l|] eqn:E; [|done]. destruct (zupdate _ _ _) as [ls|] eqn:E1; [|done].
  injection H as _ <-. apply zupdate_inv in E1 as [Hi ->]. rewrite zlookup_nonneg in E by lia. exists (Z.to_nat idx), l. split; [lia|done].
Qed.

Lemma lift_mark_global name : keeps I (mark_label_global name).
Proof using HI.
  apply keep_bind; [auto with keeps|]. intros i. apply keeps_if; [|apply keep_ret]. intros c u c' Hc H. apply upd_label_inv in H as (k & l & -> & Hl & ->).
  by apply (Hflags room I HI c k l true (l_is_extern l)).
Qed.
Lemma lift_mark_extern name : keeps I (mark_label_extern name).
Proof using HI.
  apply keep_bind; [auto with keeps|]. intros i. apply keeps_if; [|apply keep_ret]. intros c u c' Hc H. apply upd_label_inv in H as (k & l & -> & Hl & ->).
  by apply (Hflags room I HI c k l (l_is_global l) true).
Qed.

Lemma lift_define_label name off sec : keeps I (define_label name off sec).
Proof using HI.
  apply keep_bind; [auto with keeps|]. intros i. apply keeps_if; [apply keep_ret|]. apply keeps_get_bind. intros c Hc b c' H. inv_bind H.
  unfold lift in E. destruct (zlookup (c_labels c) i) as [l|] eqn:El; [|done]. injection E as <- <-.
  destruct (l_defined l && (c_pass c =? 1)) eqn:Ed; [by eapply lift_fails in H|]. inv_bind H. injection H as <- <-.
  apply upd_label_inv in E as (k & l' & -> & Hl & ->). rewrite zlookup_nat, Hl in El. injection El as <-. by apply (Hdef room I HI c k l' off sec).
Qed.

Lemma lift_add_reloc a b c d e : keeps I (add_reloc a b c d e).
Proof using HI.
  unfold add_reloc. apply keep_bind; [apply keep_get|]. intros c0. apply keeps_if; [apply keep_ret|]. apply keeps_if; [auto with keeps|].
  apply keep_bind; [auto with keeps|]. intros i. apply keeps_if; [auto with keeps|]. apply keep_bind; [|intros; apply keep_ret].
  apply keeps_modify. intros c1 Hc. by apply HI.
Qed.
Hint Resolve lift_define_label lift_add_reloc lift_mark_global lift_mark_extern : keeps.

Lemma lift_reloc_here t n a : keeps I (reloc_here t n a).
Proof using HI. unfold reloc_here. auto 10 with keeps. Qed.
Lemma lift_label_addr n : keeps I (label_addr n).
Proof using HI. unfold label_addr. auto 10 with keeps. Qed.
Hint Resolve lift_reloc_here lift_label_addr : keeps.
Lemma lift_with_err : keeps I (modify with_err).
Proof using HI. apply keeps_modify, HI. Qed.
Hint Resolve lift_with_err : keeps.
Lemma lift_resolve_label n : keeps I (resolve_label n).
Proof using HI. unfold resolve_label. auto 12 with keeps. Qed.
Lemma lift_emit16 v : keeps I (emit16 room v).
Proof using HI. unfold emit16. auto with keeps. Qed.
Lemma lift_emit32 v : keeps I (emit32 room v).
Proof using HI. unfold emit32. auto with keeps. Qed.
Hint Resolve lift_resolve_label lift_emit16 lift_emit32 : keeps.

Lemma lift_with_imm o k : (∀ i, keeps I (k i)) → keeps I (with_imm o k).
Proof using HI. intros Hk. unfold with_imm, resolve_imm. apply keep_bind; [auto 10 with keeps|]. intros [i|]; [done|apply keep_ret]. Qed.
Lemma lift_with_rel o n k : (∀ i, keeps I (k i)) → keeps I (with_rel o n k).
Proof using HI. intros Hk. apply lift_with_imm. auto 10 with keeps. Qed.
Lemma lift_obj_label o m1 m2 : keeps I m1 → keeps I m2 → keeps I (obj_label o m1 m2).
Proof using HI. intros. unfold obj_label. auto with keeps. Qed.
Lemma lift_rm r o : keeps I (emit_rm_operand room r o).
Proof using HI.
  unfold emit_rm_operand, emit_abs_operand, emit_base_operand, emit_modrm. destruct (o_kind o); auto with keeps. apply keeps_if; [|destruct (o_disp_label o); cbv zeta; auto 10 with keeps].
  apply keeps_and; [auto with keeps|]. destruct (o_disp_label o); auto 12 with keeps.
Qed.
Lemma lift_prefix b : keeps I (maybe_prefix_16 room b).
Proof using HI. unfold maybe_prefix_16. auto with keeps. Qed.
Lemma lift_emit_imm b i : keeps I (emit_imm room b i).
Proof using HI. unfold emit_imm. auto with keeps. Qed.
Lemma lift_emit_value b i : keeps I (emit_value room b i).
Proof using HI. unfold emit_value. auto with keeps. Qed.
Hint Resolve lift_with_imm lift_with_rel lift_obj_label lift_rm lift_prefix lift_emit_imm lift_emit_value : keeps.
Hint Extern 1 (∀ i, keeps _ _) => intros ? : keeps.

Lemma lift_encode mn ops : keeps I (encode_instruction room mn ops).
Proof using HI.
  unfold encode_instruction, enc_none, enc_one, enc_push, enc_pop, enc_branch, enc_jcc, enc_setcc, enc_unary, enc_two, enc_mov, enc_movx, enc_imul3, enc_alu, enc_test, enc_shift,
    encode_binop_rm_reg, encode_binop_reg_rm, encode_grp1_imm. cbv zeta.
  destruct ops as [|o0 [|o1 [|o2 [|]]]]; repeat (case_match; cbn [default from_option id]); cbn [default from_option id]; auto 12 with keeps.
Qed.
Hint Resolve lift_encode : keeps.

Lemma lift_string fuel s b : keeps I (emit_string room fuel s b).
Proof using HI.
  revert s. induction fuel as [|fuel IH]; intros s; cbn [emit_string]; [apply keep_ub|]. destruct s as [|c s]; [apply keep_ret|].
  destruct (match s with [] => _ | _ :: _ => _ end) as [c' s']. auto with keeps.
Qed.
Hint Resolve lift_string : keeps.
Lemma lift_data_item t b : keeps I (emit_data_item room t b).
Proof using HI. unfold emit_data_item. cbv zeta. auto 12 with keeps. Qed.
Hint Resolve lift_data_item : keeps.
Lemma lift_items ts b : keeps I (emit_items room ts b).
Proof using HI. induction ts; cbn; auto with keeps. Qed.
Lemma lift_repeat n t b : keeps I (repeat_item room n t b).
Proof using HI. induction n; cbn; auto with keeps. Qed.
Lemma lift_zeros n : keeps I (emit_zeros room n).
Proof using HI. induction n; cbn; auto with keeps. Qed.
Lemma lift_align fuel v : keeps I (align_loop room fuel v).
Proof using HI. induction fuel; cbn; auto with keeps. Qed.
Hint Resolve lift_items lift_repeat lift_zeros lift_align : keeps.

Lemma lift_define_labels ns : keeps I (define_labels ns).
Proof using HI. induction ns; cbn [define_labels]; auto 10 with keeps. Qed.
Lemma lift_mark_labels mark ts : (∀ t, keeps I (mark t)) → keeps I (mark_labels mark ts).
Proof using HI. intros Hm. induction ts; cbn [mark_labels]; auto with keeps. Qed.
Hint Resolve lift_mark_labels lift_define_labels : keeps.

Lemma lift_section r : keeps I (do_section r).
Proof using HI.
  unfold do_section. destruct (rtrim _) as [|c p]; [auto with keeps|]. destruct (section_of _) as [s|] eqn:E; [|auto with keeps].
  assert (0 ≤ s < 4). { unfold section_of in E. repeat case_match; simplify_eq; unfold SEC_TEXT, SEC_RODATA, SEC_DATA, SEC_BSS; lia. }
  apply keep_bind; [|intros; apply keep_ret]. apply keeps_modify. intros c0 Hc. by apply HI.
Qed.
Lemma lift_org r : keeps I (do_org r).
Proof using HI.
  unfold do_org. apply keep_bind; [apply keeps_parsed|]. intros [v|]; [|auto with keeps]. apply keeps_get_bind. intros c Hc b c' H.
  destruct (bool_decide _); [injection H as _ <-; by apply HI|]. by eapply lift_fails in H.
Qed.
Lemma lift_operands ts : keeps I (parse_operands ts).
Proof using HI. induction ts as [|t ts IH]; cbn [parse_operands]; auto 10 with keeps. Qed.
Hint Resolve lift_section lift_org lift_operands : keeps.

Lemma lift_statement m r : keeps I (do_statement room m r).
Proof using HI.
  unfold do_statement, do_align, do_res, do_times, times_parts, do_instruction. cbv zeta. repeat (apply keeps_if; [auto 15 with keeps|]).
  destruct (item_bytes m); auto 12 with keeps.
Qed.

Lemma lift_line l : keeps I (process_line room l).
Proof using HI.
  unfold process_line. destruct (parse_line l) as [[ns st]|]; [|apply keep_ret].
  apply keep_bind; [apply keeps_modify; intros c Hc; case_match; [by apply HI|done]|]. intros _. apply keep_bind; [auto with keeps|]. intros _.
  destruct st as [[m r]|]; [|apply keep_ret]. apply keeps_if; [apply keep_ret|]. apply lift_statement.
Qed.

Lemma lift_process_lines ls : keeps I (process_lines room ls).
Proof using HI.
  induction ls; cbn [process_lines]; [auto with keeps|]. apply keeps_and; [apply lift_line|]. auto with keeps.
Qed.
End lift.

(** ** The table of labels *)

(** The offset and the section of a label that is defined. *)
Definition tab (ls : list label_t) (name : list Z) : option (Z * Z) :=
  i ← find_label ls name; l ← ls !! i; if l_defined l then Some (l_offset l, l_section l) else None.

Lemma find_label_insert ls i l l' name : ls !! i = Some l → l_name l' = l_name l → find_label (<[i := l']> ls) name = find_label ls name.
Proof.
  intros Hi Hn. revert i Hi. induction ls as [|x ls IH]; intros i Hi; [done|]. destruct i as [|i]; cbn in Hi.
  - injection Hi as ->. unfold find_label. cbn. by rewrite Hn.
  - unfold find_label in *. cbn. rewrite IH by done. done.
Qed.

Lemma find_label_name ls name i : find_label ls name = Some i → ∃ l, ls !! i = Some l ∧ l_name l = name.
Proof. intros H. apply find_index_Some in H as [(l & Hl & E) _]. exists l. split; [done|]. by apply str_eqb_eq. Qed.

Lemma find_label_app ls l name : find_label (ls ++ [l]) name = match find_label ls name with Some i => Some i | None => if str_eqb (l_name l) name then Some (length ls) else None end.
Proof.
  unfold find_label. induction ls as [|x ls IH]; cbn; [by case_match|]. destruct (str_eqb (l_name x) name); [done|]. rewrite IH.
  destruct (find_index _ ls); cbn; [done|]. by destruct (str_eqb (l_name l) name).
Qed.

(** A new entry is not defined. *)
Lemma tab_app ls nm g e name : tab (ls ++ [mk_label nm 0 0 false g e]) name = tab ls name.
Proof.
  unfold tab. rewrite find_label_app. destruct (find_label ls name) as [i|] eqn:E; cbn.
  - apply find_index_lt in E. by rewrite lookup_app_l.
  - case_match; cbn; [|done]. by rewrite list_lookup_middle.
Qed.

(** An update that keeps the name, the definition and its value. *)
Lemma tab_insert ls i l l' name : ls !! i = Some l → l_name l' = l_name l →
  (l_defined l' = l_defined l ∧ l_offset l' = l_offset l ∧ l_section l' = l_section l) → tab (<[i := l']> ls) name = tab ls name.
Proof.
  intros Hi Hn (H1 & H2 & H3). unfold tab. rewrite (find_label_insert ls i l) by done. destruct (find_label ls name) as [j|]; cbn; [|done].
  destruct (decide (j = i)) as [->|Hne].
  - rewrite list_lookup_insert_eq by (by eapply lookup_lt_Some). rewrite Hi. cbn. by rewrite H1, H2, H3.
  - by rewrite list_lookup_insert_ne.
Qed.

(** A definition of an entry that was not defined. *)
Lemma tab_define ls i l off sec name v : ls !! i = Some l → l_defined l = false → tab ls name = Some v → tab (<[i := set_label off sec l]> ls) name = Some v.
Proof.
  intros Hi Hd. unfold tab. rewrite (find_label_insert ls i l) by done. destruct (find_label ls name) as [j|]; cbn; [|done].
  destruct (decide (j = i)) as [->|Hne]; [rewrite Hi; cbn; by rewrite Hd|]. by rewrite list_lookup_insert_ne.
Qed.

(** The fields of an updated state. *)
Ltac fields := cbn [c_pass c_org c_cur_sec c_pc c_size c_base c_out c_cap c_labels c_err c_lines c_fmt_obj c_relocs c_allocs
  with_org with_cur_sec with_pc with_layout with_out with_cap with_labels with_err with_lines with_relocs with_allocs].

(** ** Emitting a byte *)

(** What emitting leaves alone. *)
Definition core (c : asm_ctx_t) := (c_pass c, c_org c, c_cur_sec c, c_base c, c_labels c, c_fmt_obj c).

Create HintDb stab discriminated.

Section emit.
Context (room : nat → Z → bool).

Lemma lift_inv {T} (o : option T) (c : asm_ctx_t) a c' : lift o c = Some (a, c') → o = Some a ∧ c' = c.
Proof. unfold lift. destruct o; [|done]. by intros [= -> ->]. Qed.

Lemma grow_inv s c b c' : grow room s c = Some (b, c') → core c' = core c ∧ c_pc c' = c_pc c ∧ c_out c' = c_out c ∧ (c_err c = true → c_err c' = true) ∧ (b = true → c_err c' = c_err c).
Proof.
  unfold grow. intros H. inv_bind H. injection E as <- <-. inv_bind H. apply lift_inv in E as [_ ->]. inv_bind H. apply lift_inv in E as [_ ->].
  destruct (_ <? a0); [by injection H as <- <-|]. inv_bind H. assert (s0 = c) as ->.
  { destruct (0 <? a0); [by apply lift_inv in E as [_ ->]|by injection E]. }
  clear E. inv_bind H. injection E as <- <-. destruct (room _ _); [|injection H as <- <-; done].
  inv_bind H. injection E as <- <-. inv_bind H. apply lift_inv in E as [_ ->]. by injection H as <- <-.
Qed.

Lemma store8_inv v c b c' : store8 room v c = Some (b, c') → core c' = core c ∧ c_pc c' = c_pc c ∧ (c_err c = true → c_err c' = true) ∧ (b = true → c_err c' = c_err c) ∧
  (b = true → if c_pass c =? 2 then ∃ out, zlookup (c_out c) (c_cur_sec c) = Some out ∧ c_out c' = <[Z.to_nat (c_cur_sec c) := out ++ [u8 (Z.land v 0xFF)]]> (c_out c)
              else c_out c' = c_out c) ∧ (b = false → c_out c' = c_out c).
Proof.
  unfold store8. intros H. mstep H. destruct (c_pass c =? 2) eqn:Ep; cbn [negb] in H; [|injection H as <- <-; done]. unfold andm in H. inv_bind H.
  apply grow_inv in E as (Hc & Hp & Ho & He & He'). destruct a; [|by injection H as <- <-]. mstep H.
  destruct (zlookup (c_out s) (c_cur_sec s)) as [out|] eqn:E1; [|done]. destruct (zupdate _ _ _) as [outs|] eqn:E2; [|done]. injection H as <- <-.
  apply zupdate_inv in E2 as [_ ->]. assert (Hs : c_cur_sec s = c_cur_sec c) by (by injection Hc). split; [done|]. split; [done|]. split; [done|]. split; [done|].
  split; [|done]. intros _. exists out. cbn. rewrite Ho, Hs in *. done.
Qed.

Lemma emit8_inv v c b c' : emit8 room v c = Some (b, c') → core c' = core c ∧ (c_err c = true → c_err c' = true) ∧
  (b = true → c_err c' = c_err c ∧ ∃ p, zlookup (c_pc c) (c_cur_sec c) = Some p ∧ c_pc c' = <[Z.to_nat (c_cur_sec c) := u32 (p + 1)]> (c_pc c)).
Proof.
  unfold emit8, andm. intros H. inv_bind H. apply store8_inv in E as (Hc & Hp & He & He' & _). destruct a; [|by injection H as <- <-].
  unfold advance in H. mstep H. assert (Hs : c_cur_sec s = c_cur_sec c) by (by injection Hc). rewrite Hs, Hp in H.
  destruct (zlookup (c_pc c) (c_cur_sec c)) as [p|] eqn:E1; [|done]. destruct (zupdate _ _ _) as [pcs|] eqn:E2; [|done]. injection H as <- <-.
  apply zupdate_inv in E2 as [_ ->]. split; [done|]. split; [done|]. intros _. split; [by apply He'|]. by exists p.
Qed.
End emit.

(** ** The first pass only adds to the table *)

Record later (c0 c : asm_ctx_t) : Prop := {
  lt_pass : c_pass c = 1;
  lt_obj : c_fmt_obj c = c_fmt_obj c0;
  lt_err : c_err c0 = true → c_err c = true;
  lt_len : (length (c_labels c0) ≤ length (c_labels c))%nat;
  lt_tab : ∀ n v, tab (c_labels c0) n = Some v → tab (c_labels c) n = Some v
}.

Lemma later_refl c : c_pass c = 1 → later c c.
Proof. by constructor. Qed.

Section later.
Context (room : nat → Z → bool) (c0 : asm_ctx_t).

Lemma later_emit v : keeps (later c0) (emit8 room v).
Proof.
  intros c b c' [] H. apply emit8_inv in H as (Hc & He & _). injection Hc as E1 E2 E3 E4 E5 E6. constructor; rewrite ?E1, ?E5, ?E6; auto.
Qed.

Ltac later_ok := intros; match goal with H : later _ _ |- _ => destruct H end; constructor; fields; auto.

Lemma later_elementary : elementary room (later c0).
Proof.
  split; [later_ok|later_ok|later_ok|later_ok| | | |later_ok|apply later_emit].
  - intros c name [] _ _. constructor; fields; auto; [rewrite length_app; lia|]. intros n v Hn. rewrite tab_app. auto.
  - intros c i l g e [] Hl. constructor; fields; auto; [by rewrite length_insert|]. intros n v Hn. rewrite (tab_insert _ _ l) by done. auto.
  - intros c i l off sec [] Hl Hd. constructor; fields; auto; [by rewrite length_insert|]. intros n v Hn. rewrite lt_pass0, andb_true_r in Hd.
    apply tab_define; auto.
Qed.
End later.

(** ** Both passes *)

Section passes.
(** The format, the origin, the bases of the sections and the table of labels of the second pass. *)
Context (room : nat → Z → bool) (obj : bool) (O : Z) (B : list Z) (F : list label_t).

(** A state of the first pass without error, on the way to the table [F]. *)
Definition good (c : asm_ctx_t) : Prop :=
  c_err c = false ∧ Z.of_nat (length (c_labels c)) < MAX_LABELS ∧ ∀ n v, tab (c_labels c) n = Some v → tab F n = Some v.

Record rel (c1 c2 : asm_ctx_t) : Prop := {
  rel_pass1 : c_pass c1 = 1;
  rel_pass2 : c_pass c2 = 2;
  rel_obj1 : c_fmt_obj c1 = obj;
  rel_obj : c_fmt_obj c2 = obj;
  rel_sec : c_cur_sec c2 = c_cur_sec c1;
  rel_pc : c_pc c2 = c_pc c1;
  rel_org : c_org c2 = O;
  rel_base : c_base c2 = B;
  rel_tab : ∀ n, tab (c_labels c2) n = tab F n
}.

Definition mono {T} (m : A T) : Prop := ∀ c0, keeps (later c0) m.

Definition sim (m1 m2 : A bool) : Prop := ∀ c1 c1' c2 c2', rel c1 c2 → m1 c1 = Some (true, c1') → m2 c2 = Some (true, c2') → good c1' → rel c1' c2'.

(** The step [m1] of the first pass and [m2] of the second one keep the relation if
    they succeed. *)
Definition stable (m1 m2 : A bool) : Prop := mono m1 ∧ sim m1 m2.

(** The same for steps that always keep it, with related results. *)
Definition steps {T} (Q : T → T → Prop) (m1 m2 : A T) : Prop :=
  mono m1 ∧ ∀ c1 a1 c1' c2 a2 c2', rel c1 c2 → m1 c1 = Some (a1, c1') → m2 c2 = Some (a2, c2') → good c1' → rel c1' c2' ∧ Q a1 a2.

Lemma good_before {T} (m : A T) c a c' : mono m → c_pass c = 1 → m c = Some (a, c') → good c' → good c ∧ c_pass c' = 1.
Proof.
  intros Hm Hp H (He & Hl & Ht). destruct (Hm c c a c' (later_refl c Hp) H). split; [|done]. split; [|split; [lia|auto]].
  destruct (c_err c); [|done]. rewrite lt_err0 in He; done.
Qed.

Lemma stable_bind {T} (Q : T → T → Prop) m1 m2 (k1 k2 : T → A bool) : steps Q m1 m2 → (∀ a1, mono (k1 a1)) → (∀ a1 a2, Q a1 a2 → sim (k1 a1) (k2 a2)) →
  stable (m1 ≫= k1) (m2 ≫= k2).
Proof.
  intros [Hm Hs] Hk Hks. split; [intros c0; apply keep_bind; [apply Hm|intros a; apply Hk]|]. intros c1 c1' c2 c2' Hr H1 H2 Hg. inv_bind H1. inv_bind H2.
  assert (Hp : c_pass s = 1). { eapply Hm; [by apply later_refl, Hr|done]. }
  destruct (good_before (k1 a) s true c1' (Hk a) Hp H1 Hg) as [Hgs _]. destruct (Hs _ _ _ _ _ _ Hr E E0 Hgs) as [Hr' HQ]. by eapply Hks.
Qed.

Lemma stable_and m1 m2 n1 n2 : stable m1 m2 → stable n1 n2 → stable (m1 &-& n1) (m2 &-& n2).
Proof.
  intros [Hm Hs] [Hn Hns]. split; [intros c0; by apply keeps_and|]. intros c1 c1' c2 c2' Hr H1 H2 Hg. unfold andm in *. inv_bind H1. inv_bind H2.
  destruct a; [|done]. destruct a0; [|done]. assert (Hp : c_pass s = 1) by (eapply Hm; [by apply later_refl, Hr|done]).
  destruct (good_before n1 s true c1' Hn Hp H1 Hg) as [Hgs _]. eapply Hns; [|done|done|done]. by eapply Hs.
Qed.

Lemma stable_true : stable (mret true) (mret true).
Proof. split; [intros c0; apply keep_ret|]. by intros c1 c1' c2 c2' Hr [= <-] [= <-] _. Qed.
Lemma stable_false m : stable (mret false) m.
Proof. split; [intros c0; apply keep_ret|]. by intros c1 c1' c2 c2' Hr [=]. Qed.
Lemma stable_false_r m : mono m → stable m (mret false).
Proof. split; [done|]. by intros c1 c1' c2 c2' Hr _ [=]. Qed.
Lemma stable_fails m : stable fails m.
Proof. split; [intros c0; apply (lift_fails room), later_elementary|]. by intros c1 c1' c2 c2' Hr [=]. Qed.
Lemma stable_if (b : bool) m1 m2 n1 n2 : stable m1 n1 → stable m2 n2 → stable (if b then m1 else m2) (if b then n1 else n2).
Proof. by destruct b. Qed.

Lemma steps_lift {T} (o : option T) : steps eq (lift o) (lift o).
Proof. split; [intros c0; apply keep_lift|]. intros c1 a1 c1' c2 a2 c2' Hr [-> ->]%lift_inv [[= ->] ->]%lift_inv _. done. Qed.
Lemma steps_parsed {T} (r : R T) : steps eq (parsed r) (parsed r).
Proof.
  split; [intros c0; apply keeps_parsed|]. intros c1 a1 c1' c2 a2 c2' Hr H1 H2 _. destruct r; try done; injection H1 as <- <-; injection H2 as <- <-; done.
Qed.
Lemma steps_sec_pc : steps eq sec_pc sec_pc.
Proof.
  split; [intros c0; apply (lift_sec_pc room), later_elementary|]. unfold sec_pc. intros c1 a1 c1' c2 a2 c2' Hr H1 H2 _. mstep H1. mstep H2.
  rewrite (rel_sec _ _ Hr), (rel_pc _ _ Hr) in H2. destruct (zlookup _ _); [|done]. injection H1 as <- <-. by injection H2 as <- <-.
Qed.

Lemma emit8_stable v w : stable (emit8 room v) (emit8 room w).
Proof.
  split; [intros c0; apply (lift_emit8 room), later_elementary|]. intros c1 c1' c2 c2' Hr H1 H2 Hg.
  apply emit8_inv in H1 as (E1 & _ & H1). destruct (H1 eq_refl) as (_ & p1 & Hp1 & Hpc1). apply emit8_inv in H2 as (E2 & _ & H2). destruct (H2 eq_refl) as (_ & p2 & Hp2 & Hpc2).
  injection E1 as A1 A2 A3 A4 A5 A6. injection E2 as B1 B2 B3 B4 B5 B6. destruct Hr as [r1 r2 r30 r3 r4 r5 r6 r7 r8]. rewrite r4, r5, Hp1 in Hp2. injection Hp2 as <-.
  constructor; congruence.
Qed.
Hint Resolve stable_and stable_true stable_false stable_fails stable_if emit8_stable : stab.

Lemma emit16_stable v w : stable (emit16 room v) (emit16 room w).
Proof. unfold emit16. auto with stab. Qed.
Lemma emit32_stable v w : stable (emit32 room v) (emit32 room w).
Proof. unfold emit32. auto with stab. Qed.
Lemma prefix_stable b : stable (maybe_prefix_16 room b) (maybe_prefix_16 room b).
Proof. unfold maybe_prefix_16. auto with stab. Qed.
Hint Resolve emit16_stable emit32_stable prefix_stable : stab.
Lemma emit_imm_stable b i j : stable (emit_imm room b i) (emit_imm room b j).
Proof. unfold emit_imm. auto with stab. Qed.
Lemma emit_value_stable b i j : stable (emit_value room b i) (emit_value room b j).
Proof. unfold emit_value. auto with stab. Qed.
Hint Resolve emit_imm_stable emit_value_stable : stab.

(** *** Labels *)

Lemma find_only name c i c' : get_label_index name false c = Some (i, c') → c' = c ∧ i = from_option Z.of_nat (-1) (find_label (c_labels c) name).
Proof. unfold get_label_index. intros H. mstep H. by destruct (find_label _ _); cbn [negb] in H; injection H as <- <-. Qed.

Lemma label_addr_inv name c o c' : label_addr name c = Some (o, c') → c' = c ∧
  match tab (c_labels c) name with
  | Some (off, sec) => ∃ b, zlookup (c_base c) sec = Some b ∧ o = Some (u32 (c_org c + b + off))
  | None => o = None
  end.
Proof.
  unfold label_addr. intros H. inv_bind H. apply find_only in E as [-> ->]. unfold tab. destruct (find_label (c_labels c) name) as [i|]; cbn [from_option] in H; [|by injection H as <- <-].
  rewrite (proj2 (Z.ltb_ge _ _)) in H by lia. inv_bind H. injection E as <- <-. inv_bind H. apply lift_inv in E as [E ->]. rewrite zlookup_nat in E. cbn. rewrite E. cbn.
  destruct (l_defined a); cbn [negb] in H; [|by injection H as <- <-]. inv_bind H. apply lift_inv in E0 as [E0 ->]. injection H as <- <-. split; [done|]. by exists a0.
Qed.

Lemma resolve_label_inv name c o c' : resolve_label name c = Some (o, c') → (c' = c ∨ c_pass c = 2 ∧ c' = with_err c) ∧
  ∀ off sec, tab (c_labels c) name = Some (off, sec) → ∃ b, zlookup (c_base c) sec = Some b ∧ o = Some (s32 (u32 (c_org c + b + off))).
Proof.
  unfold resolve_label. intros H. inv_bind H. apply label_addr_inv in E as [-> Ha]. destruct (tab (c_labels c) name) as [[off sec]|].
  { destruct Ha as (b & Hb & ->). injection H as <- <-. split; [by left|]. intros off' sec' [= <- <-]. by exists b. }
  subst a. split; [|done]. inv_bind H. apply find_only in E as [-> ->]. inv_bind H. injection E as <- <-. inv_bind H.
  assert (s = c) as -> by (destruct (0 <=? _); [inv_bind E; apply lift_inv in E0 as [_ ->]; by injection E|by injection E]). clear E.
  destruct (_ && _ && _); [injection H as <- <-; by left|]. destruct (Z.eqb_spec (c_pass c) 2) as [Hp|Hp]; injection H as <- <-; [by right|by left].
Qed.

Lemma rel_with_err c1 c2 : rel c1 c2 → rel c1 (with_err c2).
Proof. by intros []. Qed.

(** A label that is defined, with a value that does not fit in a byte. *)
Definition wide (name : list Z) : Prop := ∃ off sec b, tab F name = Some (off, sec) ∧ zlookup B sec = Some b ∧ is_imm8 (s32 (u32 (O + b + off))) = false.

Lemma resolve_label_steps name : steps (λ _ o, wide name → ∀ v, o = Some v → is_imm8 v = false) (resolve_label name) (resolve_label name).
Proof.
  split; [intros c0; apply (lift_resolve_label room), later_elementary|]. intros c1 a1 c1' c2 a2 c2' Hr H1 H2 _.
  apply resolve_label_inv in H1 as [[->|[Hp _]] _]; [|by rewrite (rel_pass1 _ _ Hr) in Hp]. apply resolve_label_inv in H2 as [Hc Hv]. split.
  - destruct Hc as [->|[_ ->]]; [done|by apply rel_with_err].
  - intros (off & sec & b & Ht & Hb & Hi) v ->. rewrite <- (rel_tab _ _ Hr) in Ht. destruct (Hv off sec Ht) as (b' & Hb' & [= ->]).
    rewrite (rel_base _ _ Hr), Hb in Hb'. injection Hb' as <-. by rewrite (rel_org _ _ Hr).
Qed.

Lemma resolve_imm_steps op : steps (λ o1 o2, ∀ i1 i2, o1 = Some i1 → o2 = Some i2 → (o_kind op = OP_LABEL → wide (o_label op)) → is_imm8 i1 = is_imm8 i2) (resolve_imm op) (resolve_imm op).
Proof.
  split; [intros c0; pose proof (later_elementary room c0); unfold resolve_imm; destruct (o_kind op); auto using keep_ret; apply keep_bind;
    [apply keep_get|intros c; apply keeps_if; [apply keep_ret|by apply (lift_resolve_label room)]]|].
  intros c1 a1 c1' c2 a2 c2' Hr H1 H2 Hg. unfold resolve_imm in *. destruct (o_kind op) eqn:Ek.
  1, 2, 5: injection H1 as <- <-; injection H2 as <- <-; done.
  - injection H1 as <- <-. injection H2 as <- <-. split; [done|]. congruence.
  - inv_bind H1. injection E as <- <-. rewrite (rel_pass1 _ _ Hr) in H1. injection H1 as <- <-. inv_bind H2. injection E as <- <-. rewrite (rel_pass2 _ _ Hr) in H2.
    change (2 =? 1) with false in H2. cbv iota in H2. apply resolve_label_inv in H2 as [Hc Hv]. split; [destruct Hc as [->|[_ ->]]; [done|by apply rel_with_err]|].
    intros i1 i2 [= <-] -> Hw. destruct (Hw eq_refl) as (off & sec & b & Ht & Hb & Hi). rewrite <- (rel_tab _ _ Hr) in Ht. destruct (Hv off sec Ht) as (b' & Hb' & [= ->]).
    rewrite (rel_base _ _ Hr), Hb in Hb'. injection Hb' as <-. by rewrite (rel_org _ _ Hr).
Qed.

(** An immediate whose value decides the size of the instruction, and one that does not. *)
Lemma with_imm_fixed op k1 k2 : (o_kind op = OP_LABEL → wide (o_label op)) → (∀ i j, is_imm8 i = is_imm8 j → stable (k1 i) (k2 j)) → stable (with_imm op k1) (with_imm op k2).
Proof.
  intros Hw Hk. unfold with_imm. eapply stable_bind; [apply resolve_imm_steps| |].
  - intros [i|] c0; [by apply (Hk i i)|apply keep_ret].
  - intros [i|] [j|] HQ; cbv beta iota in *; [by apply Hk, HQ|by apply stable_false_r, (Hk i i)|apply stable_false|apply stable_false].
Qed.
Lemma with_imm_any op k1 k2 : (∀ i j, stable (k1 i) (k2 j)) → stable (with_imm op k1) (with_imm op k2).
Proof.
  intros Hk. unfold with_imm. eapply stable_bind; [apply resolve_imm_steps| |].
  - intros [i|] c0; [by apply (Hk i i)|apply keep_ret].
  - intros [i|] [j|] HQ; [by apply Hk|by apply stable_false_r, (Hk i i)|apply stable_false|apply stable_false].
Qed.

Lemma steps_cur_pc : steps (λ _ _, True) cur_pc cur_pc.
Proof.
  split; [intros c0; apply (lift_cur_pc room), later_elementary|]. unfold cur_pc. intros c1 a1 c1' c2 a2 c2' Hr H1 H2 _. mstep H1. mstep H2.
  repeat (destruct (zlookup _ _) in H1; [|done]). repeat (destruct (zlookup _ _) in H2; [|done]). injection H1 as <- <-. by injection H2 as <- <-.
Qed.
Lemma steps_lift_any {T} (o1 o2 : option T) : steps (λ _ _, True) (lift o1) (lift o2).
Proof. split; [intros c0; apply keep_lift|]. by intros c1 a1 c1' c2 a2 c2' Hr [_ ->]%lift_inv [_ ->]%lift_inv _. Qed.
Lemma with_rel_any op n k1 k2 : (∀ i j, stable (k1 i) (k2 j)) → stable (with_rel op n k1) (with_rel op n k2).
Proof.
  intros Hk. apply with_imm_any. intros i j. assert (Hm : ∀ x, mono (e ← lift (sint (s32 x + n)); rel ← lift (sint (i - e)); k1 (u32 rel))).
  { intros x c0. apply keep_bind; [apply keep_lift|]. intros y. apply keep_bind; [apply keep_lift|]. intros z. by apply (Hk (u32 z) 0). }
  eapply stable_bind; [apply steps_cur_pc|done|]. intros x y _. eapply stable_bind; [apply steps_lift_any| |].
  - intros e c0. apply keep_bind; [apply keep_lift|]. intros z. by apply (Hk (u32 z) 0).
  - intros e f _. eapply stable_bind; [apply steps_lift_any|intros z; by apply (Hk (u32 z) 0)|]. intros z w _. apply Hk.
Qed.

(** A new entry for a name leaves the definitions alone. *)
Lemma get_label_index_rel name b c1 c2 i c' : rel c1 c2 → get_label_index name b c2 = Some (i, c') → rel c1 c'.
Proof.
  intros Hr H. unfold get_label_index in H. mstep H. destruct (find_label _ _); [by injection H as _ <-|]. destruct (negb b); [by injection H as _ <-|].
  destruct (_ <=? _); [by injection H as _ <-|]. injection H as _ <-. destruct Hr. constructor; try done. intros n. fields. by rewrite tab_app.
Qed.

Lemma sec_pc_inv c p c' : sec_pc c = Some (p, c') → c' = c.
Proof. unfold sec_pc. intros H. inv_bind H. injection E as <- <-. by apply lift_inv in H as [_ ->]. Qed.

Lemma reloc_here_rel t n a c1 c2 c2' : rel c1 c2 → reloc_here t n a c2 = Some (true, c2') → rel c1 c2'.
Proof.
  intros Hr H. unfold reloc_here in H. inv_bind H. apply sec_pc_inv in E as ->. inv_bind H. injection E as <- <-. unfold add_reloc in H. inv_bind H. injection E as <- <-.
  destruct (_ || _); [by injection H as <-|]. destruct (_ <=? _); [done|]. inv_bind H. apply (get_label_index_rel _ _ c1) in E; [|done].
  destruct (_ <? 0); [done|]. inv_bind H. injection E0 as <- <-. injection H as <-. by destruct E.
Qed.

Lemma reloc_here_stable t n a : stable (reloc_here t n a) (reloc_here t n a).
Proof.
  split; [intros c0; apply (lift_reloc_here room), later_elementary|]. intros c1 c1' c2 c2' Hr H1 H2 _. apply (reloc_here_rel t n a c1') in H2; [done|].
  unfold reloc_here in H1. inv_bind H1. apply sec_pc_inv in E as ->. inv_bind H1. injection E as <- <-. unfold add_reloc in H1. inv_bind H1. injection E as <- <-.
  rewrite (rel_pass1 _ _ Hr), orb_true_r in H1. by injection H1 as <-.
Qed.

Lemma steps_get : steps rel get get.
Proof. split; [intros c0; apply keep_get|]. by intros c1 a1 c1' c2 a2 c2' Hr [= <- <-] [= <- <-] _. Qed.

(** In an object only the first form is used for a label. *)
Lemma obj_label_cases o m1 m2 n1 n2 : mono m1 → mono m2 → (obj && is_kind OP_LABEL o = true → sim m1 n1) → (obj && is_kind OP_LABEL o = false → sim m2 n2) →
  stable (obj_label o m1 m2) (obj_label o n1 n2).
Proof.
  intros Hm1 Hm2 Hs1 Hs2. eapply stable_bind; [apply steps_get|intros c c0; by apply keeps_if|]. intros c1 c2 Hr. rewrite (rel_obj _ _ Hr), (rel_obj1 _ _ Hr).
  destruct (obj && is_kind OP_LABEL o); auto.
Qed.
Lemma obj_label_stable o m1 m2 n1 n2 : stable m1 n1 → stable m2 n2 → stable (obj_label o m1 m2) (obj_label o n1 n2).
Proof. intros [Hm1 Hs1] [Hm2 Hs2]. by apply obj_label_cases. Qed.

Lemma emit_fmt_stable v w : stable (c ← get; emit32 room (u32 (if c_fmt_obj c then 0 else v))) (c ← get; emit32 room (u32 (if c_fmt_obj c then 0 else w))).
Proof. eapply stable_bind; [apply steps_get|intros c; by apply (emit32_stable _ 0)|]. intros c1 c2 Hr. apply emit32_stable. Qed.

Lemma emit_abs_stable o : stable (emit_abs_operand room o) (emit_abs_operand room o).
Proof.
  unfold emit_abs_operand. destruct (o_disp_label o) as [|x y]; [apply emit32_stable|]. set (name := x :: y).
  assert (Hk : ∀ v w, stable (reloc_here MOBJ_RELOC_ABS32 name (o_disp o) &-& (c ← get; emit32 room (u32 (if c_fmt_obj c then 0 else v))))
    (reloc_here MOBJ_RELOC_ABS32 name (o_disp o) &-& (c ← get; emit32 room (u32 (if c_fmt_obj c then 0 else w))))).
  { intros v w. apply stable_and; [apply reloc_here_stable|apply emit_fmt_stable]. }
  eapply stable_bind; [apply resolve_label_steps| |].
  - intros [l|] c0; [|apply keep_ret]. apply keep_bind; [apply keep_lift|]. intros v. by apply (Hk v v).
  - intros [l|] [l'|] _; [|apply stable_false_r; intros c0; apply keep_bind; [apply keep_lift|intros v; by apply (Hk v v)]|apply stable_false|apply stable_false].
    eapply stable_bind; [apply steps_lift_any|intros v; by apply (Hk v v)|]. intros v w _. apply Hk.
Qed.
Hint Resolve reloc_here_stable obj_label_stable emit_abs_stable : stab.

Lemma rm_stable r o : stable (emit_rm_operand room r o) (emit_rm_operand room r o).
Proof.
  unfold emit_rm_operand, emit_base_operand, emit_modrm. destruct (o_kind o); auto with stab. apply stable_if; [auto with stab|]. destruct (o_disp_label o); cbv zeta; auto 10 with stab.
Qed.
Hint Resolve rm_stable with_imm_any with_rel_any : stab.
Hint Extern 1 (∀ i j, stable _ _) => intros ? ? : stab.

(** *** Instructions *)

(** The label whose value decides the size of an instruction. *)
Definition size_label (mn : list Z) (ops : list operand_t) : option (list Z) :=
  match ops with
  | [o] => if negb obj && streqi mn (str "push") && is_kind OP_LABEL o then Some (o_label o) else None
  | [_; o] => if is_kind OP_LABEL o && bool_decide (is_Some (find_index (λ r, streqi mn (str (fst r))) alu_ops)) then Some (o_label o) else None
  | [_; _; o] => if is_kind OP_LABEL o && streqi mn (str "imul") then Some (o_label o) else None
  | _ => None
  end.

Definition ostable (x : option (A bool)) : Prop := stable (default fails x) (default fails x).

Lemma enc_none_stable mn : ostable (enc_none room mn).
Proof. unfold ostable, enc_none. repeat case_match; cbn; auto with stab. Qed.

Lemma grp1_stable ext dst i j bits : is_imm8 i = is_imm8 j → stable (encode_grp1_imm room ext dst i bits) (encode_grp1_imm room ext dst j bits).
Proof. intros E. unfold encode_grp1_imm. rewrite E. auto 10 with stab. Qed.

Lemma push_stable o : (negb obj && is_kind OP_LABEL o = true → wide (o_label o)) → ostable (enc_push room o).
Proof.
  intros Hw. unfold ostable, enc_push.
  set (k := λ imm : Z, if is_imm8 imm then emit8 room 106 &-& emit8 room (Z.land imm 255) else emit8 room 104 &-& emit32 room (u32 imm)).
  assert (Hk : ∀ i j, is_imm8 i = is_imm8 j → stable (k i) (k j)) by (intros i j E; unfold k; rewrite E; auto 10 with stab).
  assert (Hv : obj && is_kind OP_LABEL o = false → stable (with_imm o k) (with_imm o k)).
  { intros Ho. apply with_imm_fixed; [|done]. intros Ek. apply Hw. unfold is_kind in *. rewrite Ek in *. by destruct obj. }
  assert (Hs : stable (obj_label o (emit8 room 104 &-& reloc_here MOBJ_RELOC_ABS32 (o_label o) 0 &-& emit32 room 0) (with_imm o k))
    (obj_label o (emit8 room 104 &-& reloc_here MOBJ_RELOC_ABS32 (o_label o) 0 &-& emit32 room 0) (with_imm o k))).
  { assert (Hr : stable (emit8 room 104 &-& reloc_here MOBJ_RELOC_ABS32 (o_label o) 0 &-& emit32 room 0) (emit8 room 104 &-& reloc_here MOBJ_RELOC_ABS32 (o_label o) 0 &-& emit32 room 0))
      by auto 10 with stab.
    apply obj_label_cases; [apply Hr| |by intros _; apply Hr|by intros Ho; apply Hv].
    intros c0. apply (lift_with_imm room); [apply later_elementary|]. intros i. by apply (Hk i i). }
  destruct (o_kind o); cbn; auto 10 with stab.
Qed.

Lemma enc_one_stable mn o : (∀ n, size_label mn [o] = Some n → wide n) → ostable (enc_one room mn o).
Proof.
  intros Hw. unfold enc_one. cbv zeta. destruct (streqi mn (str "int")); [unfold ostable; cbn; auto 10 with stab|].
  destruct (streqi mn (str "push")) eqn:Ep.
  { apply push_stable. intros Ho. apply andb_true_iff in Ho as [Ho Hk]. apply Hw. unfold size_label. by rewrite Ho, Ep, Hk. }
  clear Hw. unfold ostable, enc_pop, enc_branch, enc_jcc, enc_setcc, enc_unary. repeat (case_match; cbn [default from_option id]); auto 12 with stab.
Qed.

Lemma enc_two_stable mn o0 o1 : (∀ n, size_label mn [o0; o1] = Some n → wide n) → ostable (enc_two room mn o0 o1).
Proof.
  intros Hw. unfold enc_two. cbv zeta.
  destruct (streqi mn (str "mov")); [clear Hw; unfold ostable, enc_mov; cbv zeta; repeat (case_match; cbn [default from_option id]); auto 12 with stab|].
  destruct (streqi mn (str "lea")); [clear Hw; unfold ostable; repeat (case_match; cbn [default from_option id]); auto 12 with stab|].
  destruct (streqi mn (str "movsx") || _); [clear Hw; unfold ostable, enc_movx; cbv zeta; repeat (case_match; cbn [default from_option id]); auto 12 with stab|].
  destruct (streqi mn (str "imul")); [clear Hw; unfold ostable; repeat (case_match; cbn [default from_option id]); auto 12 with stab|].
  destruct (find_index (λ r, streqi mn (str (fst r))) alu_ops) as [i|] eqn:Ei; cbn [mbind option_bind].
  - destruct (alu_ops !! i) as [[? [[rm_reg reg_rm] ext]]|]; cbn.
    2: { clear Hw. unfold ostable, enc_test, enc_shift. cbv zeta. repeat (case_match; cbn [default from_option id]); auto 12 with stab. }
    assert (Hl : o_kind o1 = OP_LABEL → wide (o_label o1)).
    { intros Ek. apply Hw. unfold size_label. unfold is_kind. rewrite Ek, Ei. done. }
    unfold ostable, enc_alu, encode_binop_rm_reg, encode_binop_reg_rm. cbv zeta. case_match; cbn [default from_option id]; [auto 12 with stab|].
    case_match; cbn [default from_option id]; [auto 12 with stab|]. case_match; cbn [default from_option id]; [|auto with stab].
    apply with_imm_fixed; [done|]. intros x y E. by apply grp1_stable.
  - clear Hw. unfold ostable, enc_test, enc_shift. cbv zeta. repeat (case_match; cbn [default from_option id]); auto 12 with stab.
Qed.

Lemma encode_stable mn ops : (∀ n, size_label mn ops = Some n → wide n) → stable (encode_instruction room mn ops) (encode_instruction room mn ops).
Proof.
  intros Hw. unfold encode_instruction. destruct ops as [|o0 [|o1 [|o2 [|]]]].
  - apply enc_none_stable.
  - by apply enc_one_stable.
  - by apply enc_two_stable.
  - destruct (streqi mn (str "imul")) eqn:Em; cbn [andb]; [|cbn; auto with stab]. destruct (_ && _ && _); cbn; [|auto with stab].
    apply with_imm_fixed; [|intros i j E; rewrite E; auto 10 with stab]. intros Ek. apply Hw. unfold size_label. unfold is_kind. by rewrite Ek, Em.
  - cbn. auto with stab.
Qed.

(** *** Statements *)

Lemma steps_bind {T U} (Q : T → T → Prop) (Q' : U → U → Prop) m1 m2 k1 k2 : steps Q m1 m2 → (∀ a, mono (k1 a)) → (∀ a1 a2, Q a1 a2 → steps Q' (k1 a1) (k2 a2)) →
  steps Q' (m1 ≫= k1) (m2 ≫= k2).
Proof.
  intros [Hm Hs] Hk Hks. split; [intros c0; apply keep_bind; [apply Hm|intros a; apply Hk]|]. intros c1 a1 c1' c2 a2 c2' Hr H1 H2 Hg. inv_bind H1. inv_bind H2.
  assert (Hp : c_pass s = 1). { eapply Hm; [by apply later_refl, Hr|done]. }
  destruct (good_before (k1 a) s a1 c1' (Hk a) Hp H1 Hg) as [Hgs _]. destruct (Hs _ _ _ _ _ _ Hr E E0 Hgs) as [Hr' HQ]. by eapply Hks.
Qed.

Lemma steps_ret {T} (a : T) : steps (λ _ _, True) (mret a) (mret a).
Proof. split; [intros c0; apply keep_ret|]. by intros c1 a1 c1' c2 a2 c2' Hr [= <- <-] [= <- <-] _. Qed.

Lemma string_stable fuel s b : stable (emit_string room fuel s b) (emit_string room fuel s b).
Proof.
  revert s. induction fuel as [|fuel IH]; intros s; cbn [emit_string]; [split; [by intros c0|by intros ????]|]. destruct s as [|c s]; [auto with stab|].
  destruct (match s with [] => _ | _ :: _ => _ end) as [c' s']. auto with stab.
Qed.

Lemma data_item_stable t b : stable (emit_data_item room t b) (emit_data_item room t b).
Proof.
  unfold emit_data_item. cbv zeta. set (s := rtrim _). apply stable_if; [apply string_stable|].
  assert (Hm : ∀ c0, keeps (later c0) (c ← get;
    if c_fmt_obj c && (b =? 4) && (c_pass c =? 2) then reloc_here MOBJ_RELOC_ABS32 s 0 &-& emit_value room b 0 else o ← resolve_label s; emit_value room b (default 0 o))).
  { intros c0. pose proof (later_elementary room c0) as He. apply keep_bind; [apply keep_get|]. intros c. apply keeps_if; [apply keeps_and; [by apply (lift_reloc_here room)|by apply lift_emit_value]|].
    apply keep_bind; [by apply (lift_resolve_label room)|]. intros o. by apply lift_emit_value. }
  eapply stable_bind; [apply steps_parsed| |]; [intros [v|]; [apply (emit_value_stable b v v)|exact Hm]|].
  intros [v|] ? <-; [apply emit_value_stable|]. eapply stable_bind; [apply steps_get|intros c c0|].
  - pose proof (later_elementary room c0) as He. apply keeps_if; [apply keeps_and; [by apply (lift_reloc_here room)|by apply lift_emit_value]|].
    apply keep_bind; [by apply (lift_resolve_label room)|]. intros o. by apply lift_emit_value.
  - intros d1 d2 Hr. rewrite (rel_pass1 _ _ Hr), andb_false_r. cbv iota.
    assert (Hres : stable (o ← resolve_label s; emit_value room b (default 0 o)) (o ← resolve_label s; emit_value room b (default 0 o))).
    { eapply stable_bind; [apply resolve_label_steps|intros o; apply (emit_value_stable b _ 0)|]. intros o1 o2 _. apply emit_value_stable. }
    destruct (_ && _ && _); [|apply Hres]. intros c1 c1' c2 c2' Hr1 H1 H2 Hg. inv_bind H1. apply resolve_label_inv in E as [[->|[Hp _]] _]; [|by rewrite (rel_pass1 _ _ Hr1) in Hp].
    eapply (stable_and (mret true) (reloc_here MOBJ_RELOC_ABS32 s 0)); [|apply (emit_value_stable b (default 0 a) 0)|exact Hr1|exact H1|exact H2|exact Hg].
    split; [intros c0; apply keep_ret|]. intros e1 e1' e2 e2' Hr2 [= <-] H2' _. by eapply reloc_here_rel.
Qed.
Hint Resolve data_item_stable : stab.

Lemma items_stable ts b : stable (emit_items room ts b) (emit_items room ts b).
Proof. induction ts; cbn; auto with stab. Qed.
Lemma repeat_stable n t b : stable (repeat_item room n t b) (repeat_item room n t b).
Proof. induction n; cbn; auto with stab. Qed.
Lemma zeros_stable n : stable (emit_zeros room n) (emit_zeros room n).
Proof. induction n; cbn; auto with stab. Qed.
Lemma align_stable fuel v : stable (align_loop room fuel v) (align_loop room fuel v).
Proof.
  induction fuel as [|fuel IH]; cbn [align_loop]; [split; [by intros c0|by intros ????]|].
  assert (Hs : ∀ pc, stable (if pc mod v =? 0 then mret true else emit8 room 0 &-& align_loop room fuel v) (if pc mod v =? 0 then mret true else emit8 room 0 &-& align_loop room fuel v))
    by (intros pc; auto with stab).
  eapply stable_bind; [apply steps_sec_pc|intros pc; apply Hs|]. intros pc ? <-. apply Hs.
Qed.
Hint Resolve items_stable repeat_stable zeros_stable align_stable : stab.

(** *** Labels of a line *)

Lemma get_or_create name c i c' : get_label_index name true c = Some (i, c') → Z.of_nat (length (c_labels c')) < MAX_LABELS → (length name < MAX_NAME)%nat →
  ∃ k, i = Z.of_nat k ∧ find_label (c_labels c') name = Some k ∧ c_pass c' = c_pass c ∧ c_err c' = c_err c ∧ c_fmt_obj c' = c_fmt_obj c ∧ c_cur_sec c' = c_cur_sec c ∧ c_pc c' = c_pc c.
Proof.
  intros H Hl Hn. unfold get_label_index in H. mstep H. destruct (find_label (c_labels c) name) as [k|] eqn:E; [injection H as <- <-; by exists k|]. cbn [negb] in H.
  destruct (Z.leb_spec MAX_LABELS (Z.of_nat (length (c_labels c)))); [injection H as <- <-; lia|]. injection H as <- <-. exists (length (c_labels c)). fields. split; [done|].
  split; [|done]. rewrite find_label_app, E. cbn [l_name]. unfold copy_lim. rewrite take_ge by (unfold MAX_NAME in *; lia). by rewrite (proj2 (str_eqb_eq _ _) eq_refl).
Qed.

Lemma define_label_inv name off sec c b c' : define_label name off sec c = Some (b, c') → Z.of_nat (length (c_labels c')) < MAX_LABELS → (length name < MAX_NAME)%nat → c_err c' = false →
  ∃ s k l, find_label (c_labels s) name = Some k ∧ c_labels s !! k = Some l ∧ (l_defined l && (c_pass c =? 1)) = false ∧ c' = with_labels (<[k := set_label off sec l]> (c_labels s)) s ∧
    c_pass s = c_pass c ∧ c_fmt_obj s = c_fmt_obj c ∧ c_cur_sec s = c_cur_sec c ∧ c_pc s = c_pc c ∧ get_label_index name true c = Some (Z.of_nat k, s).
Proof.
  intros H Hl Hn He. unfold define_label in H. inv_bind H. assert (Hls : Z.of_nat (length (c_labels s)) < MAX_LABELS).
  { destruct (a <? 0); [by injection H as <- <-|]. inv_bind H. injection E0 as <- <-. inv_bind H. apply lift_inv in E0 as [_ ->]. destruct (_ && _).
    - injection H as <- <-. done.
    - inv_bind H. apply upd_label_inv in E0 as (? & ? & _ & _ & ->). injection H as <- <-. revert Hl. fields. by rewrite length_insert. }
  pose proof E as E0. apply get_or_create in E as (k & -> & Hk & Hp & He' & Ho & Hs & Hpc); [|done|done]. rewrite (proj2 (Z.ltb_ge _ _)) in H by lia.
  inv_bind H. injection E as <- <-. inv_bind H. apply lift_inv in E as [E ->]. rewrite zlookup_nat in E. destruct (l_defined a && _) eqn:Ed; [injection H as <- <-; done|].
  inv_bind H. apply upd_label_inv in E1 as (k' & l & Hk' & Hl' & ->). apply Nat2Z.inj in Hk' as <-. rewrite E in Hl'. injection Hl' as <-. injection H as <- <-.
  exists s, k, a. rewrite <- Hp. done.
Qed.

Lemma define_label_steps name off sec : (length name < MAX_NAME)%nat → steps (λ _ _, True) (define_label name off sec) (define_label name off sec).
Proof.
  intros Hn. split; [intros c0; apply (lift_define_label room), later_elementary|]. intros c1 a1 c1' c2 a2 c2' Hr H1 H2 (He & Hl & Ht). split; [|done].
  apply define_label_inv in H1 as (s & k & l & Hf & Hk & Hd & -> & Hp & Ho & Hs & Hpc & _); [|done|done|done]. rewrite (rel_pass1 _ _ Hr), andb_true_r in Hd.
  assert (Htab : tab F name = Some (off, sec)).
  { apply Ht. unfold tab. fields. rewrite (find_label_insert _ _ l), Hf by done. cbn. by rewrite list_lookup_insert_eq by (by eapply lookup_lt_Some). }
  rewrite <- (rel_tab _ _ Hr) in Htab. unfold tab in Htab. destruct (find_label (c_labels c2) name) as [j|] eqn:Ej; cbn in Htab; [|done].
  destruct (c_labels c2 !! j) as [l2|] eqn:El2; cbn in Htab; [|done]. destruct (l_defined l2) eqn:Ed2; [|done]. injection Htab as Eo Es.
  assert (Hc2 : c2' = with_labels (<[j := set_label off sec l2]> (c_labels c2)) c2).
  { unfold define_label in H2. inv_bind H2. unfold get_label_index in E. mstep E. rewrite Ej in E. injection E as <- <-. rewrite (proj2 (Z.ltb_ge _ _)) in H2 by lia.
    inv_bind H2. injection E as <- <-. inv_bind H2. apply lift_inv in E as [_ ->]. rewrite (rel_pass2 _ _ Hr), andb_false_r in H2. inv_bind H2. injection H2 as <- <-.
    apply upd_label_inv in E as (j' & l' & Ej' & El' & ->). apply Nat2Z.inj in Ej' as <-. rewrite El2 in El'. by injection El' as <-. }
  subst c2'. destruct Hr. constructor; fields; try congruence. intros n. rewrite (tab_insert _ _ l2); [done|done|done|]. by cbn.
Qed.

Lemma define_labels_steps ns : Forall (λ n, length n < MAX_NAME)%nat ns → steps (λ _ _, True) (define_labels ns) (define_labels ns).
Proof.
  induction 1 as [|n ns Hn Hns IH]; cbn [define_labels]; [apply steps_ret|].
  assert (Hm : ∀ (pc : Z) (c : asm_ctx_t), mono (_ ← define_label n pc (c_cur_sec c); define_labels ns)).
  { intros pc c c0. apply keep_bind; [apply (lift_define_label room), later_elementary|]. intros _. apply IH. }
  eapply steps_bind; [apply steps_sec_pc|intros pc c0; apply keep_bind; [apply keep_get|intros c; apply Hm]|]. intros pc ? <-.
  eapply steps_bind; [apply steps_get|intros c; apply Hm|]. intros d1 d2 Hr. rewrite (rel_sec _ _ Hr).
  eapply steps_bind; [by apply define_label_steps|intros _; apply IH|]. intros _ _ _. apply IH.
Qed.

(** Marks change only flags. *)
Lemma rel_flags c1 c2 i l g e : rel c1 c2 → c_labels c2 !! i = Some l → rel c1 (with_labels (<[i := set_flags g e l]> (c_labels c2)) c2).
Proof. intros [] Hl. constructor; try done. intros n. fields. by rewrite (tab_insert _ _ l). Qed.
Lemma rel_labels1 c1 c2 ls : rel c1 c2 → rel (with_labels ls c1) c2.
Proof. by intros []. Qed.
Lemma get_label_index_rel1 name b c1 c2 i c' : rel c1 c2 → get_label_index name b c1 = Some (i, c') → rel c' c2.
Proof.
  intros Hr H. unfold get_label_index in H. mstep H. destruct (find_label _ _); [by injection H as _ <-|]. destruct (negb b); [by injection H as _ <-|].
  destruct (_ <=? _); injection H as _ <-; [done|by apply rel_labels1].
Qed.

Lemma mark_steps mark (g e : label_t → bool) :
  (∀ n, mark n = (idx ← get_label_index n true; if 0 <=? idx then upd_label idx (λ l, set_flags (g l) (e l) l) else mret tt)) → (∀ n, mono (mark n)) →
  ∀ n, steps (λ _ _, True) (mark n) (mark n).
Proof.
  intros E Hm n. split; [apply Hm|]. intros c1 [] c1' c2 [] c2' Hr H1 H2 _. split; [|done]. rewrite E in H1, H2. inv_bind H1. inv_bind H2.
  eapply get_label_index_rel1 in E0; [|done]. eapply get_label_index_rel in E1; [|done].
  assert (Hs2 : rel s c2'). { destruct (0 <=? a0); [|by injection H2 as <-]. apply upd_label_inv in H2 as (i & l & _ & Hl & ->). by apply rel_flags. }
  destruct (0 <=? a); [|by injection H1 as <-]. apply upd_label_inv in H1 as (i & l & _ & Hl & ->). by apply rel_labels1.
Qed.

Lemma mark_labels_steps mark ts : (∀ n, steps (λ _ _, True) (mark n) (mark n)) → steps (λ _ _, True) (mark_labels mark ts) (mark_labels mark ts).
Proof.
  intros Hm. induction ts as [|t ts IH]; cbn [mark_labels]; [apply steps_ret|]. eapply steps_bind; [|intros _; apply IH|intros _ _ _; apply IH].
  destruct (bool_decide _); [apply steps_ret|apply Hm].
Qed.

(** *** Lines *)

Lemma section_stable r : stable (do_section r) (do_section r).
Proof.
  unfold do_section. destruct (rtrim _) as [|c p]; [auto with stab|]. destruct (section_of _) as [s|] eqn:E; [|auto with stab].
  assert (Hs : 0 ≤ s < 4). { unfold section_of in E. repeat case_match; simplify_eq; unfold SEC_TEXT, SEC_RODATA, SEC_DATA, SEC_BSS; lia. }
  split.
  - intros c0. apply keep_bind; [|intros; apply keep_ret]. apply keeps_modify. intros c1 Hc. by apply (later_elementary room c0).
  - intros c1 c1' c2 c2' Hr H1 H2 _. injection H1 as <-. injection H2 as <-. by destruct Hr.
Qed.

Definition operand_tokens (rest : list Z) : list (list Z) := if bool_decide (rest = []) then [] else split_operands rest 3.

Lemma parse_operands_R ts c : parse_operands ts c = match map_R parse_operand ts with Ret l => Some (Some l, c) | Die => Some (None, c) | Ub => None end.
Proof.
  induction ts as [|t ts IH]; [done|]. cbn [parse_operands map_R]. unfold mbind, M_bind, R_bind. destruct (parse_operand t); [|done|done]. cbn [parsed]. cbv [mret M_ret]. rewrite IH.
  by destruct (map_R parse_operand ts).
Qed.

(** The statement is not [org], and no label of it decides its size. *)
Definition fixed_statement (mn rest : list Z) : Prop :=
  streqi mn (str "org") = false ∧ ∀ ops n, map_R parse_operand (operand_tokens rest) = Ret ops → size_label mn ops = Some n → wide n.

Lemma instruction_stable mn rest : fixed_statement mn rest → stable (do_instruction room mn rest) (do_instruction room mn rest).
Proof.
  intros [_ Hf]. unfold do_instruction. fold (operand_tokens rest). split.
  - intros c0. pose proof (later_elementary room c0) as He. apply keep_bind; [apply (lift_operands room); done|]. intros [ops|]; [by apply lift_encode|by apply (lift_fails room)].
  - intros c1 c1' c2 c2' Hr H1 H2 Hg. inv_bind H1. inv_bind H2. rewrite parse_operands_R in E, E0. destruct (map_R parse_operand (operand_tokens rest)) as [ops| |] eqn:Ep; [| |done].
    + injection E as <- <-. injection E0 as <- <-. eapply (encode_stable mn ops); [by intros n; apply Hf|exact Hr|exact H1|exact H2|done].
    + injection E as <- <-. done.
Qed.

Lemma parsed_stable {T} (r : R T) (k : option T → A bool) : (∀ o, stable (k o) (k o)) → stable (o ← parsed r; k o) (o ← parsed r; k o).
Proof. intros Hk. eapply stable_bind; [apply steps_parsed|intros o; apply Hk|]. intros o ? <-. apply Hk. Qed.

Lemma lift_stable {T} (r : option T) (k : T → A bool) : (∀ o, stable (k o) (k o)) → stable (o ← lift r; k o) (o ← lift r; k o).
Proof. intros Hk. eapply stable_bind; [apply steps_lift|intros o; apply Hk|]. intros o ? <-. apply Hk. Qed.

Lemma align_statement_stable r : stable (do_align room r) (do_align room r).
Proof. apply parsed_stable. intros [v|]; auto with stab. Qed.
Lemma res_stable sz r : stable (do_res room sz r) (do_res room sz r).
Proof. apply parsed_stable. intros [v|]; [|auto with stab]. apply stable_if; [auto with stab|]. apply lift_stable. auto with stab. Qed.

Lemma times_parts_lift r : ∃ o, ∀ c, times_parts r c = lift o c.
Proof.
  unfold times_parts. destruct (span is_blank r) as [w0 r0]. destruct (bool_decide (w0 = [])); [by exists (Some None)|].
  destruct (bool_decide (r0 = [])); [by exists (Some None)|]. destruct (span _ r0) as [? r1]. destruct (span is_blank r1) as [w1 ?].
  destruct (bool_decide (w1 = [])); [by exists None|by eexists (Some (Some _))].
Qed.

Lemma times_stable r : stable (do_times room r) (do_times room r).
Proof.
  unfold do_times. destruct (times_parts_lift r) as [o Ho]. set (k := λ o, _).
  assert (Hk : ∀ x, stable (k x) (k x)).
  { intros [[p0 p1]|]; unfold k; [|auto with stab]. apply parsed_stable. intros [v|]; [|auto with stab]. apply stable_if; [auto with stab|]. destruct (item_bytes p1); auto with stab. }
  destruct (lift_stable o k Hk) as [H1 H2]. split.
  - intros c0 c b c' Hc H. apply (H1 c0 c b c' Hc). unfold mbind, M_bind in *. by rewrite <- Ho.
  - intros c1 c1' c2 c2' Hr G1 G2. apply (H2 c1 c1' c2 c2' Hr); unfold mbind, M_bind in *; by rewrite <- Ho.
Qed.

Lemma steps_then {T} (m : A T) : steps (λ _ _, True) m m → stable (m;; mret true) (m;; mret true).
Proof. intros H. eapply stable_bind; [done|intros _ c0; apply keep_ret|]. intros _ _ _. apply stable_true. Qed.

Lemma statement_stable mn rest : fixed_statement mn rest → stable (do_statement room mn rest) (do_statement room mn rest).
Proof.
  intros Hf. unfold do_statement. cbv zeta. apply stable_if; [apply stable_true|]. apply stable_if.
  { apply steps_then, mark_labels_steps. apply (mark_steps _ (λ _, true) l_is_extern); [done|]. intros n c0. apply (lift_mark_global room), later_elementary. }
  apply stable_if.
  { apply steps_then, mark_labels_steps. apply (mark_steps _ l_is_global (λ _, true)); [done|]. intros n c0. apply (lift_mark_extern room), later_elementary. }
  apply stable_if; [apply section_stable|]. rewrite (proj1 Hf). apply stable_if; [apply align_statement_stable|]. do 3 (apply stable_if; [apply res_stable|]).
  apply stable_if; [apply times_stable|]. destruct (item_bytes mn); [apply items_stable|by apply instruction_stable].
Qed.

Definition fixed_line (line : list Z) : Prop :=
  match parse_line line with Some (_, Some (mn, rest)) => fixed_statement mn rest | _ => True end.

Lemma split_labels_length fuel s : Forall (λ n, length n < MAX_NAME)%nat (fst (split_labels fuel s)).
Proof.
  revert s. induction fuel as [|fuel IH]; intros s; cbn [split_labels]; [constructor|]. destruct (span _ s) as [name rest]. destruct rest as [|c rest]; [constructor|].
  destruct (existsb _ _); [constructor|]. destruct (_ || _) eqn:E; [constructor|]. apply orb_false_iff in E as [_ E]. apply Nat.leb_gt in E.
  destruct (ltrim rest) as [|d t]; [by apply Forall_singleton|]. specialize (IH (d :: t)). destruct (split_labels fuel (d :: t)). by constructor.
Qed.

Lemma line_stable line : fixed_line line → stable (process_line room line) (process_line room line).
Proof.
  intros Hf. unfold fixed_line, process_line in *. destruct (parse_line line) as [[names st]|] eqn:E; [|apply stable_true].
  assert (Hn : Forall (λ n, length n < MAX_NAME)%nat names).
  { unfold parse_line in E. destruct (rtrim _) as [|c s]; [done|]. pose proof (split_labels_length (S (length (c :: s))) (c :: s)). destruct (split_labels _ _). by injection E as <- _. }
  set (k := match st with None => _ | Some _ => _ end). assert (Hk : stable k k).
  { unfold k. destruct st as [[mn rest]|]; [|apply stable_true]. apply stable_if; [apply stable_true|]. by apply statement_stable. }
  eapply stable_bind.
  - split; [intros c0; apply keeps_modify; intros c Hc; destruct (c_pass c =? 1); [by apply (later_elementary room c0)|done]|]. intros c1 a1 c1' c2 a2 c2' Hr [= <- <-] [= <- <-] _.
    rewrite (rel_pass1 _ _ Hr), (rel_pass2 _ _ Hr). cbn. split; [by destruct Hr|exact eq_refl].
  - intros _ c0. apply keep_bind; [apply (lift_define_labels room), later_elementary|]. intros _. apply Hk.
  - intros _ _ _. eapply stable_bind; [by apply define_labels_steps|intros _; apply Hk|]. intros _ _ _. apply Hk.
Qed.

Lemma lines_stable ls : Forall fixed_line ls → stable (process_lines room ls) (process_lines room ls).
Proof.
  induction 1 as [|l ls Hl Hls IH]; cbn [process_lines].
  - eapply stable_bind; [apply steps_get|intros c c0; apply keep_ret|]. intros d1 d2 Hr c1 c1' c2 c2' Hr' [= H1 <-] [= H2 <-] _. done.
  - apply stable_and; [by apply line_stable|]. eapply stable_bind; [apply steps_get|intros c c0; apply keeps_if; [apply keep_ret|apply IH]|]. intros d1 d2 Hr.
    destruct (c_err d1); [apply stable_false|]. destruct (c_err d2); [apply stable_false_r, IH|apply IH].
Qed.
End passes.

(** ** The counters and the bytes *)

(** In the second pass the counter of a section is the number of its bytes. *)
Definition counted (c : asm_ctx_t) : Prop :=
  c_pass c = 2 ∧ 0 ≤ c_cur_sec c ∧ Forall2 (λ p out, p = u32 (Z.of_nat (length out))) (c_pc c) (c_out c).

Lemma counted_emit room v : keeps counted (emit8 room v).
Proof.
  intros c b c' (Hp & Hs & Hc) H. unfold emit8, andm in H. inv_bind H. apply store8_inv in E as (Hcore & Hpc & _ & _ & Ho & Ho'). injection Hcore as E1 E2 E3 E4 E5 E6. destruct a.
  - specialize (Ho eq_refl). rewrite Hp in Ho. destruct Ho as (out & Hout & Ho). unfold advance in H. mstep H. rewrite E3, Hpc in H.
    destruct (zlookup (c_pc c) (c_cur_sec c)) as [p|] eqn:Ep; [|done]. destruct (zupdate _ _ _) as [pcs|] eqn:Eu; [|done]. injection H as <- <-. apply zupdate_inv in Eu as [_ ->].
    unfold counted. fields. split; [congruence|]. split; [lia|]. rewrite Ho. apply Forall2_insert; [done|]. rewrite zlookup_nonneg in Ep by lia. rewrite zlookup_nonneg in Hout by lia.
    pose proof (Forall2_lookup_lr _ _ _ _ _ _ Hc Ep Hout) as ->. rewrite length_app. cbn [length]. mlia.
  - injection H as <- <-. unfold counted. rewrite E1, E3, Hpc, (Ho' eq_refl). done.
Qed.

Lemma counted_elementary room : elementary room counted.
Proof. split; try done; [intros c s (H1 & H2 & H3) [Hs _]; done|apply counted_emit]. Qed.

(** ** Sources in which the passes agree *)

Definition wideb (O : Z) (B : list Z) (F : list label_t) (name : list Z) : bool :=
  match tab F name with
  | Some (off, sec) => match zlookup B sec with Some b => negb (is_imm8 (s32 (u32 (O + b + off)))) | None => false end
  | None => false
  end.

Definition fixed_lineb (obj : bool) (O : Z) (B : list Z) (F : list label_t) (line : list Z) : bool :=
  match parse_line line with
  | Some (_, Some (mn, rest)) =>
    negb (streqi mn (str "org")) &&
    match map_R parse_operand (operand_tokens rest) with
    | Ret ops => match size_label obj mn ops with Some n => wideb O B F n | None => true end
    | _ => true
    end
  | _ => true
  end.

Lemma fixed_lineb_ok obj O B F line : fixed_lineb obj O B F line = true → fixed_line obj O B F line.
Proof.
  unfold fixed_lineb, fixed_line. destruct (parse_line line) as [[names [[mn rest]|]]|]; [|done|done]. intros [H1 H2]%andb_true_iff. split; [by apply negb_true_iff|].
  intros ops n Ho Hn. rewrite Ho, Hn in H2. unfold wideb in H2. destruct (tab F n) as [[off sec]|] eqn:Et; [|done]. destruct (zlookup B sec) as [b|] eqn:Eb; [|done].
  exists off, sec, b. split; [done|]. split; [done|]. by apply negb_true_iff.
Qed.

(** No line has an [org], and no label decides the size of an instruction, for the
    labels that the first pass leaves in [c1]. *)
Definition fixed_sizes (src : list Z) (c1 : asm_ctx_t) : bool :=
  forallb (fixed_lineb (c_fmt_obj c1) (c_org c1) (bases_of (c_pc c1)) (c_labels c1)) (lines_of src).

Lemma process_lines_err room ls c c' : process_lines room ls c = Some (true, c') → c_err c' = false.
Proof.
  revert c. induction ls as [|l ls IH]; intros c H; cbn [process_lines] in H.
  - inv_bind H. injection E as <- <-. injection H as H <-. by destruct (c_err c).
  - unfold andm in H. inv_bind H. destruct a; [|done]. inv_bind H. injection E0 as <- <-. destruct (c_err s); [done|]. by eapply IH.
Qed.

(** The state in which the second pass starts. *)
Lemma assemble_passes room src c0 c1 img c : run_pass room src 1 (with_lines 0 (with_labels [] c0)) = Some (true, c1) → assemble room src c0 = Some (Some img, c) →
  ∃ s c2, run_pass room src 2 s = Some (true, c2) ∧ c_org s = c_org c1 ∧ c_base s = bases_of (c_pc c1) ∧ c_labels s = c_labels c1 ∧ c_fmt_obj s = c_fmt_obj c1 ∧
    c_pc c = c_pc c2 ∧ c_out c = c_out c2 ∧ c_labels c = c_labels c2 ∧ img = concat (c_out c) ∧ Z.of_nat (length img) < 2147483648.
Proof.
  intros H1 H. unfold assemble in H. inv_bind H. injection E as _ <-. inv_bind H. rewrite H1 in E. injection E as <- <-. cbn [negb] in H. inv_bind H. injection E as <- <-. cbv zeta in H.
  inv_bind H. injection E as _ <-. destruct (_ && _); [by inv_bind H|]. inv_bind H.
  assert (Hall : ∀ l d b d', alloc_all room l d = Some (b, d') → c_org d' = c_org d ∧ c_base d' = c_base d ∧ c_labels d' = c_labels d ∧ c_fmt_obj d' = c_fmt_obj d).
  { induction l as [|n l IH]; intros d b d' Hd; cbn [alloc_all] in Hd; [by injection Hd as _ <-|]. unfold andm in Hd. inv_bind Hd. injection E0 as <- <-.
    destruct (room _ _); [|by injection Hd as _ <-]. apply IH in Hd. by destruct Hd as (-> & -> & -> & ->). }
  apply Hall in E as (A1 & A2 & A3 & A4). succeeds H. inv_bind H. injection E as _ <-. inv_bind H. succeeds H. inv_bind H. injection E0 as <- <-. succeeds H.
  inv_bind H. injection E0 as <- <-. destruct (Z.ltb_spec (if 0 <? s32 (total (c_pc c1)) then s32 (total (c_pc c1)) else 1) (Z.of_nat (length (concat (c_out (with_allocs (S (c_allocs s0)) s0)))))) as [|Hlen]; [done|].
  revert Hlen. fields. intros Hlen. injection H as <- <-. eexists _, s0. split; [exact E|]. fields. do 4 (split; [done|]). do 4 (split; [done|]).
  pose proof (s32_range (total (c_pc c1))). unfold is_s32 in *. case_match; lia.
Qed.

(** C11 (invariant): When no label decides the size of an instruction, the two passes
    of the assembler agree: the second pass emits in every section exactly the bytes
    that the first one counted, and gives every label the section and the offset that
    the first one gave it, which are the ones that were used for the code. *)
Theorem two_passes_agree room src c0 c1 img c :
  run_pass room src 1 (with_lines 0 (with_labels [] c0)) = Some (true, c1) → Z.of_nat (length (c_labels c1)) < MAX_LABELS → fixed_sizes src c1 = true →
  assemble room src c0 = Some (Some img, c) →
  c_pc c1 = (λ out, Z.of_nat (length out)) <$> c_out c ∧ ∀ name, tab (c_labels c) name = tab (c_labels c1) name.
Proof.
  intros H1 Hl Hf Ha. destruct (assemble_passes room src c0 c1 img c H1 Ha) as (s & c2 & H2 & Eo & Eb & El & Ef & Epc & Eout & Elab & Ei & Hi).
  assert (Hst : stable (c_fmt_obj c1) (c_org c1) (bases_of (c_pc c1)) (c_labels c1) (process_lines room (lines_of src)) (process_lines room (lines_of src))).
  { apply lines_stable, Forall_forall. intros l Hin. apply fixed_lineb_ok. unfold fixed_sizes in Hf. rewrite forallb_forall in Hf. apply Hf. by apply list_elem_of_In. }
  unfold run_pass in H1, H2. inv_bind H1. injection E as _ <-. inv_bind H2. injection E as _ <-. destruct Hst as [Hm Hs].
  assert (Hp : c_pass (start_pass 1 (with_lines 0 (with_labels [] c0))) = 1) by done. pose proof (Hm _ _ _ _ (later_refl _ Hp) H1) as Hlat.
  assert (Hrel : rel (c_fmt_obj c1) (c_org c1) (bases_of (c_pc c1)) (c_labels c1) c1 c2).
  { eapply (Hs _ c1 _ c2); [|exact H1|exact H2|split; [by eapply process_lines_err|done]]. destruct Hlat. constructor; cbn; try done. intros n. by rewrite El. }
  assert (Hc : counted c2).
  { eapply (lift_process_lines room counted (counted_elementary room)); [|exact H2]. split; [done|]. split; [done|]. cbn. repeat constructor. }
  split; [|intros n; rewrite Elab; apply Hrel]. rewrite <- (rel_pc _ _ _ _ _ _ Hrel), Eout. destruct Hc as (_ & _ & Hc).
  assert (Hb : Forall (λ out, Z.of_nat (length out) < 2147483648) (c_out c2)).
  { apply Forall_forall. intros out Hin. rewrite Ei, Eout in Hi. apply list_elem_of_split in Hin as (l1 & l2 & E). rewrite E, concat_app in Hi. cbn in Hi. rewrite !length_app in Hi. lia. }
  clear -Hc Hb. induction Hc as [|p out ps outs -> Hc IH]; [done|]. apply Forall_cons in Hb as [Hb1 Hb2]. cbn. rewrite IH by done. f_equal. apply u32_small. unfold is_u32. lia.
Qed.

(** ** Examples *)

Definition flat_src : list Z :=
  source ["start: mov eax, 5"; "push msg"; "call f"; "cmp eax, msg"; "align 4"; "f: ret"; "section .data"; "msg: dd f, 7"]%string.
Definition flat_run (pass : Z) : option (bool * asm_ctx_t) := run_pass memory flat_src pass (with_lines 0 (with_labels [] (ctx_zero 4096 false))).
Definition flat_c1 : asm_ctx_t := Eval vm_compute in from_option snd (ctx_zero 0 false) (flat_run 1).
Definition flat_c : asm_ctx_t := Eval vm_compute in from_option snd (ctx_zero 0 false) (assemble memory flat_src (ctx_zero 4096 false)).

Lemma two_passes_agree_witness : c_pc flat_c1 = [25; 0; 8; 0] ∧ length <$> c_out flat_c = [25; 0; 8; 0]%nat ∧
  c_pc flat_c1 = (λ out, Z.of_nat (length out)) <$> c_out flat_c ∧ tab (c_labels flat_c) (str "f") = Some (24, 0).
Proof.
  split; [reflexivity|]. split; [reflexivity|].
  destruct (two_passes_agree memory flat_src (ctx_zero 4096 false) flat_c1 (concat (c_out flat_c)) flat_c) as [H1 H2];
    [vm_compute; reflexivity|vm_compute; reflexivity|vm_compute; reflexivity|vm_compute; reflexivity|].
  split; [exact H1|]. rewrite H2. vm_compute. reflexivity.
Defined.

(** The image for a source, at an origin. *)
Definition image_of (obj : bool) (org : Z) (l : list string) : option (list Z) :=
  '(o, _) ← assemble memory (source l) (ctx_zero org obj); o.

(** The first pass counts five bytes for the push and the second one emits two, as the
    address of the label is below 128: the label is 3 bytes from the start of the image,
    and the value pushed is 6. *)
Example short_push_moves_label : image_of false 0 ["push msg"; "ret"; "msg: nop"]%string = Some [0x6A; 6; 0xC3; 0x90].
Proof. vm_compute. reflexivity. Qed.

(** A memory operand with a label that follows, or with an external one, is refused in
    the first pass, where only the definitions before it are known. *)
Example forward_memory_refused : image_of true 0 ["mov eax, [v]"; "section .data"; "v: dd 1"]%string = None ∧ image_of true 0 ["extern v"; "mov eax, [v]"]%string = None.
Proof. split; vm_compute; reflexivity. Qed.

(** Immediate moves and the one-operand instructions ignore the size of a byte register:
    these are [mov eax, 5], [mov esp, 5] and [inc eax]. *)
Example byte_forms_lost : image_of false 0 ["mov al, 5"]%string = Some [0xB8; 5; 0; 0; 0] ∧ image_of false 0 ["mov ah, 5"]%string = Some [0xBC; 5; 0; 0; 0] ∧
  image_of false 0 ["inc al"]%string = Some [0xFF; 0xC0].
Proof. split_and!; vm_compute; reflexivity. Qed.

(** A label as an operand of an arithmetic instruction gets no relocation in an object. *)
Example alu_label_not_relocated : (c_relocs <$> (snd <$> assemble memory (source ["extern v"; "add eax, v"]%string) (ctx_zero 0 true))) = Some [].
Proof. vm_compute. reflexivity. Qed.
