(* ===== verification/As86Decode.v ===== *)
(** * The encodings of the assembler

    A reference decoder for the addressing forms of the processor and for the moves,
    the arithmetic and the test instructions: what the assembler emits for them decodes
    to the instruction that was written. *)

From S2P Require Import Prelude Bytes LibcNum Ld86 Ld86Spec As86 As86Spec As86Passes.

(** ** A decoder, after the manual of the processor *)

(** A register, or memory at the sum of a base, a scaled index and a displacement. *)
Inductive ea := EReg (r : Z) | EMem (base : option Z) (index : option (Z * Z)) (disp : Z).

Definition dec8 (l : list Z) : option (Z * list Z) := match l with a :: l => Some (if a <? 128 then a else a - 256, l) | _ => None end.
Definition dec16 (l : list Z) : option (Z * list Z) := match l with a :: b :: l => Some (a + 256 * b, l) | _ => None end.
Definition dec32 (l : list Z) : option (Z * list Z) :=
  match l with a :: b :: c :: d :: l => Some (s32 (a + 256 * b + 65536 * c + 16777216 * d), l) | _ => None end.

Definition dec_disp (md : Z) (l : list Z) : option (Z * list Z) := if md =? 0 then Some (0, l) else if md =? 1 then dec8 l else dec32 l.

(** The byte ModR/M with what follows it: the register field, the operand, the rest. *)
Definition decode_rm (l : list Z) : option (Z * ea * list Z) :=
  match l with
  | [] => None
  | m :: l =>
    let md := m / 64 in let reg := m / 8 mod 8 in let rm := m mod 8 in
    if md =? 3 then Some (reg, EReg rm, l) else
    if rm =? 4 then
      match l with
      | [] => None
      | s :: l =>
        let index := if s / 8 mod 8 =? 4 then None else Some (s / 8 mod 8, s / 64) in
        if (md =? 0) && (s mod 8 =? 5) then '(d, l) ← dec32 l; Some (reg, EMem None index d, l)
        else '(d, l) ← dec_disp md l; Some (reg, EMem (Some (s mod 8)) index d, l)
      end
    else if (md =? 0) && (rm =? 5) then '(d, l) ← dec32 l; Some (reg, EMem None None d, l)
    else '(d, l) ← dec_disp md l; Some (reg, EMem (Some rm) None d, l)
  end.

Inductive operation := OAlu (ext : Z) | OMov | OTest.
Inductive arg := AEa (e : ea) | AImm (v : Z).
Record insn := mk_insn { n_op : operation; n_bits : Z; n_dst : ea; n_src : arg }.

(** An immediate of the size of the operation, as a number below [2 ^ bits]. *)
Definition dec_imm (bits : Z) (l : list Z) : option (Z * list Z) :=
  '(v, l) ← (if bits =? 8 then dec8 l else if bits =? 16 then dec16 l else dec32 l); Some (v mod 2 ^ bits, l).

(** [op r/m, reg] or, with [dir], [op reg, r/m]. *)
Definition dec_rm_reg (op : operation) (bits : Z) (dir : bool) (l : list Z) : option (insn * list Z) :=
  '(reg, e, l) ← decode_rm l; Some (if dir then mk_insn op bits (EReg reg) (AEa e) else mk_insn op bits e (AEa (EReg reg)), l).

Definition dec_rm_imm (op : Z → option operation) (bits : Z) (short : bool) (l : list Z) : option (insn * list Z) :=
  '(reg, e, l) ← decode_rm l; o ← op reg;
  '(v, l) ← (if short then '(v, l) ← dec8 l; Some (v mod 2 ^ bits, l) else dec_imm bits l);
  Some (mk_insn o bits e (AImm v), l).

Definition ext0 (o : operation) (ext : Z) : option operation := if ext =? 0 then Some o else None.

Definition decode_op (size : Z) (o : Z) (l : list Z) : option (insn * list Z) :=
  let bits := if o mod 2 =? 0 then 8 else size in
  if (o <? 0x40) && (o mod 8 <? 4) then dec_rm_reg (OAlu (o / 8)) bits (2 <=? o mod 8) l else
  if (o =? 0x80) || (o =? 0x81) then dec_rm_imm (λ e, Some (OAlu e)) bits false l else
  if o =? 0x83 then dec_rm_imm (λ e, Some (OAlu e)) bits true l else
  if (o =? 0x84) || (o =? 0x85) then dec_rm_reg OTest bits false l else
  if (0x88 <=? o) && (o <=? 0x8B) then dec_rm_reg OMov bits (0x8A <=? o) l else
  if (0xB8 <=? o) && (o <=? 0xBF) then '(v, l) ← dec_imm size l; Some (mk_insn OMov size (EReg (o - 0xB8)) (AImm v), l) else
  if (o =? 0xC6) || (o =? 0xC7) then dec_rm_imm (ext0 OMov) bits false l else
  if (o =? 0xF6) || (o =? 0xF7) then dec_rm_imm (ext0 OTest) bits false l else None.

Definition decode (l : list Z) : option (insn * list Z) :=
  match l with
  | [] => None
  | o :: l => if o =? 0x66 then match l with [] => None | o :: l => decode_op 16 o l end else decode_op 32 o l
  end.

(** ** The bytes that the assembler emits *)

(** The current section can take [n] more bytes in the memory that it has: its bytes and its place. *)
Record fits (n : Z) (c : asm_ctx_t) (out : list Z) (pc : Z) : Prop := mk_fits {
  fits_pass : c_pass c = 2;
  fits_sec : 0 ≤ c_cur_sec c;
  fits_out : zlookup (c_out c) (c_cur_sec c) = Some out;
  fits_pc : zlookup (c_pc c) (c_cur_sec c) = Some pc;
  fits_pc_range : is_u32 pc;
  fits_cap : ∃ cap, zlookup (c_cap c) (c_cur_sec c) = Some cap ∧ Z.of_nat (length out) + n ≤ cap
}.

Definition appended (bs : list Z) (c : asm_ctx_t) (out : list Z) (pc : Z) : asm_ctx_t :=
  with_pc (<[Z.to_nat (c_cur_sec c) := u32 (pc + Z.of_nat (length bs))]> (c_pc c)) (with_out (<[Z.to_nat (c_cur_sec c) := out ++ bs]> (c_out c)) c).

(** In the second pass [m] succeeds and does no more than append [bs] to the current section. *)
Definition emits (m : A bool) (bs : list Z) : Prop := ∀ c out pc, fits (Z.of_nat (length bs)) c out pc → m c = Some (true, appended bs c out pc).

Lemma fits_less n n' c out pc : n' ≤ n → fits n c out pc → fits n' c out pc.
Proof. intros Hn []. constructor; try done. destruct fits_cap0 as (cap & ? & ?). exists cap. split; [done|lia]. Qed.

Lemma insert_here {X} (l : list X) i x y : 0 ≤ i → zlookup l i = Some x → zlookup (<[Z.to_nat i := y]> l) i = Some y.
Proof. intros Hi H. rewrite zlookup_nonneg in * by done. apply list_lookup_insert_eq. by eapply lookup_lt_Some. Qed.

Lemma zupdate_here {X} (l : list X) i x y : zlookup l i = Some x → zupdate l i y = Some (<[Z.to_nat i := y]> l).
Proof.
  intros H. pose proof (zlookup_Some_range _ _ _ H). unfold zupdate. by rewrite (proj2 (Z.leb_le _ _)), (proj2 (Z.ltb_lt _ _)) by lia.
Qed.
Lemma u8_land v : u8 (Z.land v 0xFF) = v mod 256.
Proof. change 0xFF with (Z.ones 8). rewrite Z.land_ones by lia. unfold u8. by rewrite Zmod_mod. Qed.

Lemma fits_appended n bs c out pc : fits (Z.of_nat (length bs) + n) c out pc → fits n (appended bs c out pc) (out ++ bs) (u32 (pc + Z.of_nat (length bs))).
Proof.
  intros []. unfold appended. constructor; fields; try done; [by eapply insert_here|by eapply insert_here|apply u32_range|].
  destruct fits_cap0 as (cap & ? & ?). exists cap. split; [done|]. rewrite length_app. lia.
Qed.

Lemma appended_app bs cs c out pc : appended cs (appended bs c out pc) (out ++ bs) (u32 (pc + Z.of_nat (length bs))) = appended (bs ++ cs) c out pc.
Proof.
  assert (Hu : u32 (u32 (pc + Z.of_nat (length bs)) + Z.of_nat (length cs)) = u32 (pc + Z.of_nat (length (bs ++ cs)))) by (rewrite length_app; mlia).
  unfold appended. destruct c; cbn. by rewrite !list_insert_insert_eq, app_assoc, Hu.
Qed.

Lemma emits_and m n bs cs : emits m bs → emits n cs → emits (m &-& n) (bs ++ cs).
Proof.
  intros Hm Hn c out pc Hf. unfold andm, mbind, M_bind. rewrite length_app, Nat2Z.inj_add in Hf. rewrite (Hm c out pc) by (eapply fits_less; [|done]; lia).
  rewrite (Hn _ _ _ (fits_appended _ _ _ _ _ Hf)). by rewrite appended_app.
Qed.

Lemma emits_true : emits (mret true) [].
Proof.
  intros c out pc []. unfold mret, M_ret, appended. cbn [length]. rewrite app_nil_r, Z.add_0_r, u32_small by done. rewrite zlookup_nonneg in fits_out0 by done.
  rewrite zlookup_nonneg in fits_pc0 by done.
  rewrite (list_insert_id (c_pc c)), (list_insert_id (c_out c)) by done. by destruct c.
Qed.

Section emits.
Context (room : nat → Z → bool).

Lemma emit8_emits v : emits (emit8 room v) [v mod 256].
Proof.
  intros c out pc []. destruct fits_cap0 as (cap & Hc & Hl). cbn [length] in Hl. unfold emit8, store8, andm, grow, advance, mbind, M_bind, get, put, lift, mret, M_ret.
  rewrite fits_pass0. cbn [Z.eqb Pos.eqb negb]. rewrite fits_out0, Hc, (proj2 (Z.ltb_lt _ _)) by lia. rewrite fits_out0, (zupdate_here _ _ _ _ fits_out0). fields.
  rewrite fits_pc0, (zupdate_here _ _ _ _ fits_pc0). unfold appended. cbn [length]. by rewrite u8_land.
Qed.

Lemma byte_at v k : 0 ≤ k → Z.land (Z.shiftr v k) 0xFF mod 256 = v / 2 ^ k mod 256.
Proof. intros Hk. rewrite land_byte by done. by rewrite Zmod_mod. Qed.
Lemma byte_0 v : Z.land v 0xFF mod 256 = v mod 256.
Proof. change 0xFF with (Z.ones 8). rewrite Z.land_ones by lia. by rewrite Zmod_mod. Qed.

Lemma emit16_emits v : emits (emit16 room v) (le16 v).
Proof.
  unfold emit16, le16. replace (v / 256) with (v / 2 ^ 8) by done. rewrite <- (byte_0 v). rewrite <- (byte_at v 8) by lia. apply (emits_and _ _ [_] [_]); apply emit8_emits.
Qed.
Lemma emit32_emits v : emits (emit32 room v) (le32 v).
Proof.
  unfold emit32, le32. change 65536 with (2 ^ 16). change 16777216 with (2 ^ 24). replace (v / 256) with (v / 2 ^ 8) by done. rewrite <- (byte_0 v).
  rewrite <- (byte_at v 8), <- (byte_at v 16), <- (byte_at v 24) by lia. apply (emits_and _ _ [_] [_; _; _]); [apply emit8_emits|].
  apply (emits_and _ _ [_] [_; _]); [apply emit8_emits|]. apply (emits_and _ _ [_] [_]); apply emit8_emits.
Qed.

Lemma modrm_value md reg rm : 0 ≤ md < 4 → 0 ≤ reg < 8 → 0 ≤ rm < 8 → modrm md reg rm = md * 64 + reg * 8 + rm.
Proof.
  intros Hm Hr Hx. unfold modrm. change 3 with (Z.ones 2) at 1. change 7 with (Z.ones 3). rewrite !Z.land_ones, !Z.mod_small, !Z.shiftl_mul_pow2 by lia.
  rewrite (lor_low md (reg * 2 ^ 3) 6) by lia. replace (md * 2 ^ 6 + reg * 2 ^ 3) with ((md * 8 + reg) * 2 ^ 3) by lia. rewrite lor_low by lia. lia.
Qed.

(** ** Operands *)

Definition is_size (b : Z) : Prop := b = 8 ∨ b = 16 ∨ b = 32.

(** Operands as the parser makes them, without labels. *)
Definition plain (o : operand_t) : Prop :=
  match o_kind o with
  | OP_REG => 0 ≤ o_reg o < 8 ∧ is_size (o_reg_bits o)
  | OP_MEM => (o_base_reg o = -1 ∨ 0 ≤ o_base_reg o < 8) ∧ is_s32 (o_disp o) ∧ o_disp_label o = [] ∧ (o_size_hint o = 0 ∨ is_size (o_size_hint o))
  | OP_IMM => is_s32 (o_imm o)
  | _ => False
  end.

Definition ea_of (o : operand_t) : ea :=
  match o_kind o with OP_REG => EReg (o_reg o) | _ => EMem (if o_base_reg o =? -1 then None else Some (o_base_reg o)) None (o_disp o) end.

Definition bytes_base (r base disp : Z) : list Z :=
  [modrm (mem_mod base disp) r base] ++ (if base =? 4 then [0x24] else []) ++
  (if mem_mod base disp =? 1 then [disp mod 256] else if mem_mod base disp =? 2 then le32 disp else []).

Definition bytes_rm (r : Z) (o : operand_t) : list Z :=
  match o_kind o with
  | OP_REG => [modrm 3 r (o_reg o)]
  | _ => if o_base_reg o =? -1 then [modrm 0 r 5] ++ le32 (o_disp o) else bytes_base r (o_base_reg o) (o_disp o)
  end.

Lemma emit_modrm_emits md r rm : 0 ≤ md < 4 → 0 ≤ r < 8 → 0 ≤ rm < 8 → emits (emit_modrm room md r rm) [modrm md r rm].
Proof.
  intros H1 H2 H3. unfold emit_modrm. replace (modrm md r rm) with (modrm md r rm mod 256) at 2; [apply emit8_emits|]. rewrite modrm_value by done. apply Z.mod_small. lia.
Qed.

Lemma mem_mod_range base disp : 0 ≤ mem_mod base disp < 3.
Proof. unfold mem_mod. repeat case_match; lia. Qed.

(** The base [ebp] always has a displacement. *)
Lemma mem_mod_5 base disp : ((mem_mod base disp =? 0) && (base =? 5)) = false.
Proof.
  unfold mem_mod. destruct (base =? 5); [|by rewrite andb_false_r]. cbn [negb]. rewrite (andb_false_r (disp =? 0)). by destruct ((-128 <=? disp) && (disp <=? 127)).
Qed.

Lemma emit32_u32_emits v : emits (emit32 room (u32 v)) (le32 v).
Proof. rewrite <- le32_u32. apply emit32_emits. Qed.

Lemma emit_rm_emits r o : plain o → reg_or_mem o = true → 0 ≤ r < 8 → emits (emit_rm_operand room r o) (bytes_rm r o).
Proof.
  intros Hp Hk Hr. unfold plain, reg_or_mem, is_kind, emit_rm_operand, bytes_rm in *. destruct (o_kind o); try done.
  - apply emit_modrm_emits; [lia|done|apply Hp].
  - destruct Hp as (Hb & Hd & Hl & _). destruct (Z.eqb_spec (o_base_reg o) (-1)) as [E|E].
    + apply emits_and; [by apply emit_modrm_emits|]. unfold emit_abs_operand. rewrite Hl. apply emit32_u32_emits.
    + destruct Hb as [?|Hb]; [done|]. rewrite Hl. unfold emit_base_operand, bytes_base. cbv zeta. pose proof (mem_mod_range (o_base_reg o) (o_disp o)) as Hm.
      apply emits_and; [|apply emits_and].
      * replace (if o_base_reg o =? 4 then 4 else o_base_reg o) with (o_base_reg o) by (destruct (Z.eqb_spec (o_base_reg o) 4); lia). apply emit_modrm_emits; [lia|done|done].
      * destruct (o_base_reg o =? 4); [apply (emit8_emits 0x24)|apply emits_true].
      * destruct (mem_mod (o_base_reg o) (o_disp o) =? 1); [rewrite <- byte_0; apply emit8_emits|].
        destruct (mem_mod (o_base_reg o) (o_disp o) =? 2) eqn:E2; cbn [orb]; [apply emit32_u32_emits|].
        rewrite mem_mod_5. apply emits_true.
Qed.
End emits.

Lemma dec32_le32 v l : is_s32 v → dec32 (le32 v ++ l) = Some (v, l).
Proof. intros Hv. unfold dec32, le32. cbn [app]. f_equal. f_equal. mlia. Qed.

Lemma dec8_byte v l : -128 ≤ v ≤ 127 → dec8 ([v mod 256] ++ l) = Some (v, l).
Proof. intros Hv. cbn [dec8 app]. f_equal. f_equal. destruct (Z.ltb_spec (v mod 256) 128); mlia. Qed.

Lemma modrm_fields md reg rm : 0 ≤ md < 4 → 0 ≤ reg < 8 → 0 ≤ rm < 8 →
  modrm md reg rm / 64 = md ∧ modrm md reg rm / 8 mod 8 = reg ∧ modrm md reg rm mod 8 = rm.
Proof. intros H1 H2 H3. rewrite modrm_value by done. split_and!; Z.div_mod_to_equations; lia. Qed.

(** The operand that was written is the one that is decoded. *)
Lemma decode_rm_bytes r o l : plain o → reg_or_mem o = true → 0 ≤ r < 8 → decode_rm (bytes_rm r o ++ l) = Some (r, ea_of o, l).
Proof.
  intros Hp Hk Hr. unfold plain, reg_or_mem, is_kind, bytes_rm, ea_of in *. destruct (o_kind o); try done.
  - cbn [app decode_rm]. destruct (modrm_fields 3 r (o_reg o)) as (-> & -> & ->); [lia|done|apply Hp|]. done.
  - destruct Hp as (Hb & Hd & _ & _). destruct (Z.eqb_spec (o_base_reg o) (-1)) as [E|E].
    + rewrite <- app_assoc. cbn [app decode_rm]. destruct (modrm_fields 0 r 5) as (-> & -> & ->); [lia|done|lia|]. change ((0 =? 3)) with false. change (5 =? 4) with false.
      change ((0 =? 0) && (5 =? 5)) with true. cbv iota. by rewrite dec32_le32.
    + destruct Hb as [?|Hb]; [done|]. unfold bytes_base. rewrite <- !app_assoc. cbn [app decode_rm]. pose proof (mem_mod_range (o_base_reg o) (o_disp o)) as Hm.
      destruct (modrm_fields (mem_mod (o_base_reg o) (o_disp o)) r (o_base_reg o)) as (-> & -> & ->); [lia|done|done|].
      rewrite (proj2 (Z.eqb_neq (mem_mod _ _) 3)) by lia.
      assert (Hdisp : dec_disp (mem_mod (o_base_reg o) (o_disp o)) ((if mem_mod (o_base_reg o) (o_disp o) =? 1 then [o_disp o mod 256] else
          if mem_mod (o_base_reg o) (o_disp o) =? 2 then le32 (o_disp o) else []) ++ l) = Some (o_disp o, l)).
      { unfold mem_mod, dec_disp. destruct (Z.eqb_spec (o_disp o) 0) as [E0|E0], (Z.eqb_spec (o_base_reg o) 5) as [E5|E5]; cbn [negb andb].
        all: try (destruct (Z.leb_spec (-128) (o_disp o)), (Z.leb_spec (o_disp o) 127); cbn [andb]).
        all: change (2 =? 0) with false; change (1 =? 0) with false; change (1 =? 1) with true; change (2 =? 1) with false; change (2 =? 2) with true; change (0 =? 0) with true;
          change (0 =? 1) with false; change (0 =? 2) with false; cbv iota.
        all: first [by apply dec8_byte | by apply dec32_le32 | lia | (by rewrite E0)]. }
      destruct (Z.eqb_spec (o_base_reg o) 4) as [E4|E4].
      * cbn [app]. change (36 / 8 mod 8 =? 4) with true. change (36 mod 8 =? 5) with false. change (36 mod 8) with 4. rewrite andb_false_r. cbv iota. rewrite E4 in *. by rewrite Hdisp.
      * rewrite mem_mod_5. cbn [app]. by rewrite Hdisp.
Qed.

(** ** Instructions *)

(** The sizes of the operands agree, where both have one. *)
Definition agree (o0 o1 : operand_t) : Prop :=
  match o_kind o0, o_kind o1 with
  | OP_REG, OP_REG => o_reg_bits o1 = o_reg_bits o0
  | OP_REG, OP_MEM => o_size_hint o1 = 0 ∨ o_size_hint o1 = o_reg_bits o0
  | OP_MEM, OP_REG => o_size_hint o0 = 0 ∨ o_size_hint o0 = o_reg_bits o1
  | OP_REG, OP_IMM | OP_MEM, OP_IMM => True
  | _, _ => False
  end.

Definition size_of (o0 o1 : operand_t) : Z := infer_bits_from_operand o0 (infer_bits_from_operand o1 32).

(** The instruction that was written. *)
Definition meaning (op : operation) (o0 o1 : operand_t) : insn :=
  mk_insn op (size_of o0 o1) (ea_of o0) (match o_kind o1 with OP_IMM => AImm (o_imm o1 mod 2 ^ size_of o0 o1) | _ => AEa (ea_of o1) end).

Lemma infer_size o fallback : plain o → is_size fallback → is_size (infer_bits_from_operand o fallback).
Proof.
  unfold plain, infer_bits_from_operand. destruct (o_kind o); try done; [by intros [_ H] _|]. intros (_ & _ & _ & H) Hf. destruct (Z.eqb_spec (o_size_hint o) 0); [done|].
  by destruct H.
Qed.
Lemma size_of_range o0 o1 : plain o0 → plain o1 → is_size (size_of o0 o1).
Proof. intros H0 H1. apply infer_size; [done|]. apply infer_size; [done|]. unfold is_size. lia. Qed.

Lemma dec_imm_8 v l : dec_imm 8 ([v mod 256] ++ l) = Some (v mod 2 ^ 8, l).
Proof. unfold dec_imm. cbn [app Z.eqb Pos.eqb dec8]. cbn [mbind option_bind]. f_equal. f_equal. change (2 ^ 8) with 256. destruct (Z.ltb_spec (v mod 256) 128); mlia. Qed.
Lemma dec_imm_16 v l : dec_imm 16 (le16 v ++ l) = Some (v mod 2 ^ 16, l).
Proof. unfold dec_imm, le16. cbn [app Z.eqb Pos.eqb dec16]. cbn [mbind option_bind]. f_equal. f_equal. change (2 ^ 16) with 65536. mlia. Qed.
Lemma dec_imm_32 v l : is_s32 v → dec_imm 32 (le32 v ++ l) = Some (v mod 2 ^ 32, l).
Proof. intros Hv. unfold dec_imm. change (32 =? 8) with false. change (32 =? 16) with false. cbv iota. by rewrite dec32_le32. Qed.

(** The immediate of the size of the operation. *)
Definition imm_bytes (bits v : Z) : list Z := if bits =? 8 then [v mod 256] else if bits =? 16 then le16 v else le32 v.
Lemma dec_imm_bytes bits v l : is_size bits → is_s32 v → dec_imm bits (imm_bytes bits v ++ l) = Some (v mod 2 ^ bits, l).
Proof. intros [->|[->| ->]] Hv; [apply dec_imm_8|apply dec_imm_16|by apply dec_imm_32]. Qed.

Definition prefix (bits : Z) : list Z := if bits =? 16 then [0x66] else [].
Definition opsize (bits : Z) : Z := if bits =? 16 then 16 else 32.

Lemma decode_prefix bits o l : o ≠ 0x66 → decode (prefix bits ++ o :: l) = decode_op (opsize bits) o l.
Proof. intros Ho. unfold prefix, opsize. destruct (bits =? 16); cbn [app decode]; [done|]. by rewrite (proj2 (Z.eqb_neq _ _)). Qed.

(** [m] emits at most twelve bytes, which decode to [i]. *)
Definition encodes (m : A bool) (i : insn) : Prop := ∃ bs, (length bs ≤ 12)%nat ∧ emits m bs ∧ ∀ l, decode (bs ++ l) = Some (i, l).

Lemma length_prefix bits : (length (prefix bits) ≤ 1)%nat.
Proof. unfold prefix. case_match; cbn; lia. Qed.
Lemma length_rm r o : (length (bytes_rm r o) ≤ 6)%nat.
Proof. unfold bytes_rm, bytes_base. repeat case_match; rewrite ?length_app; cbn; lia. Qed.
Lemma length_imm bits v : (length (imm_bytes bits v) ≤ 4)%nat.
Proof. unfold imm_bytes. repeat case_match; cbn; lia. Qed.
Ltac short := rewrite !length_app; cbn [length];
  repeat match goal with
  | |- context [length (prefix ?b)] => generalize (length (prefix b)), (length_prefix b); intros
  | |- context [length (bytes_rm ?r ?o)] => generalize (length (bytes_rm r o)), (length_rm r o); intros
  | |- context [length (imm_bytes ?b ?v)] => generalize (length (imm_bytes b v)), (length_imm b v); intros
  end; lia.

Section encodes.
Context (room : nat → Z → bool).

Lemma byte_emits v : 0 ≤ v < 256 → emits (emit8 room v) [v].
Proof. intros Hv. rewrite <- (Z.mod_small v 256) at 2 by done. apply emit8_emits. Qed.
Lemma prefix_emits bits : emits (maybe_prefix_16 room bits) (prefix bits).
Proof. unfold maybe_prefix_16, prefix. destruct (bits =? 16); [by apply byte_emits|apply emits_true]. Qed.
Lemma imm8_emits v : emits (emit8 room (Z.land v 0xFF)) [v mod 256].
Proof. rewrite <- byte_0. apply emit8_emits. Qed.
Lemma emit16_u32_emits v : emits (emit16 room (u32 v)) (le16 v).
Proof. replace (le16 v) with (le16 (u32 v)); [apply emit16_emits|]. unfold le16. f_equal; [mlia|]. f_equal. pose proof (u32_byte v 8). change (2 ^ 8) with 256 in *. auto with lia. Qed.
Lemma with_imm_emits o k bs : o_kind o = OP_IMM → emits (k (o_imm o)) bs → emits (with_imm o k) bs.
Proof. intros Hk H c out pc Hf. unfold with_imm, resolve_imm. rewrite Hk. cbn. by apply H. Qed.

(** An opcode with a register and an operand, in both directions. *)
Lemma rm_reg_encodes op bits opc (dir : bool) o r : plain o → reg_or_mem o = true → 0 ≤ r < 8 → 0 ≤ opc < 256 → opc ≠ 0x66 →
  (∀ l, decode_op (opsize bits) opc l = dec_rm_reg op bits dir l) →
  encodes (maybe_prefix_16 room bits &-& emit8 room opc &-& emit_rm_operand room r o)
    (if dir then mk_insn op bits (EReg r) (AEa (ea_of o)) else mk_insn op bits (ea_of o) (AEa (EReg r))).
Proof.
  intros Hp Hk Hr Ho Hn Hd. exists (prefix bits ++ [opc] ++ bytes_rm r o). split; [short|]. split.
  - apply emits_and; [apply prefix_emits|]. apply emits_and; [by apply byte_emits|by apply emit_rm_emits].
  - intros l. rewrite <- !app_assoc. cbn [app]. rewrite decode_prefix by done. rewrite Hd. unfold dec_rm_reg. rewrite decode_rm_bytes by done. done.
Qed.

(** An opcode with an operand and an immediate of the size of the operation. *)
Lemma rm_imm_encodes op f bits opc ext o v mi : plain o → reg_or_mem o = true → 0 ≤ ext < 8 → is_s32 v → 0 ≤ opc < 256 → opc ≠ 0x66 → is_size bits →
  f ext = Some op → (∀ l, decode_op (opsize bits) opc l = dec_rm_imm f bits false l) → emits mi (imm_bytes bits v) →
  encodes (maybe_prefix_16 room bits &-& emit8 room opc &-& emit_rm_operand room ext o &-& mi) (mk_insn op bits (ea_of o) (AImm (v mod 2 ^ bits))).
Proof.
  intros Hp Hk Hr Hv Ho Hn Hb Hf Hd Hi. exists (prefix bits ++ [opc] ++ bytes_rm ext o ++ imm_bytes bits v). split; [short|]. split.
  - apply emits_and; [apply prefix_emits|]. apply emits_and; [by apply byte_emits|]. apply emits_and; [by apply emit_rm_emits|done].
  - intros l. rewrite <- !app_assoc. cbn [app]. rewrite decode_prefix by done. rewrite Hd. unfold dec_rm_imm. rewrite decode_rm_bytes by done. cbn [mbind option_bind].
    rewrite Hf. cbn [mbind option_bind]. by rewrite dec_imm_bytes.
Qed.

Lemma obj_label_emits o m1 m2 bs : is_kind OP_LABEL o = false → emits m2 bs → emits (obj_label o m1 m2) bs.
Proof. intros Hk H c out pc Hf. unfold obj_label, mbind, M_bind, get. rewrite Hk, andb_false_r. by apply H. Qed.

Lemma emit_imm_emits bits v : bits ≠ 8 → emits (emit_imm room bits v) (imm_bytes bits v).
Proof.
  intros H. unfold emit_imm, imm_bytes. rewrite (proj2 (Z.eqb_neq _ _) H). destruct (bits =? 16); [apply emit16_u32_emits|apply emit32_u32_emits].
Qed.

Lemma encodes_imm o k i : o_kind o = OP_IMM → encodes (k (o_imm o)) i → encodes (with_imm o k) i.
Proof. intros Hk (bs & Hs & He & Hd). exists bs. split; [done|]. split; [by apply with_imm_emits|done]. Qed.

(** The opcodes of the arithmetic group. *)
Lemma alu_opcode ext k size l : 0 ≤ ext < 8 → 0 ≤ k < 4 → decode_op size (8 * ext + k) l = dec_rm_reg (OAlu ext) (if k mod 2 =? 0 then 8 else size) (2 <=? k) l.
Proof.
  intros He Hk. assert (ext = 0 ∨ ext = 1 ∨ ext = 2 ∨ ext = 3 ∨ ext = 4 ∨ ext = 5 ∨ ext = 6 ∨ ext = 7) by lia. assert (k = 0 ∨ k = 1 ∨ k = 2 ∨ k = 3) by lia.
  destruct_or!; subst; reflexivity.
Qed.

Lemma opsize_eq bits : is_size bits → bits ≠ 8 → opsize bits = bits.
Proof. intros [->|[->| ->]] H; done. Qed.

Lemma grp1_encodes ext o v bits : plain o → reg_or_mem o = true → 0 ≤ ext < 8 → is_s32 v → is_size bits →
  encodes (encode_grp1_imm room ext o v bits) (mk_insn (OAlu ext) bits (ea_of o) (AImm (v mod 2 ^ bits))).
Proof.
  intros Hp Hk He Hv Hb. unfold encode_grp1_imm. destruct (Z.eqb_spec bits 8) as [->|H8].
  { change (encodes (maybe_prefix_16 room 8 &-& emit8 room 0x80 &-& emit_rm_operand room ext o &-& emit8 room (Z.land v 0xFF)) (mk_insn (OAlu ext) 8 (ea_of o) (AImm (v mod 2 ^ 8)))).
    apply (rm_imm_encodes _ (λ e, Some (OAlu e))); try done. apply imm8_emits. }
  destruct (is_imm8 v) eqn:Hi.
  - exists (prefix bits ++ [0x83] ++ bytes_rm ext o ++ [v mod 256]). split; [short|]. split.
    + apply emits_and; [apply prefix_emits|]. apply emits_and; [by apply byte_emits|]. apply emits_and; [by apply emit_rm_emits|apply imm8_emits].
    + intros l. rewrite <- !app_assoc. cbn [app]. rewrite decode_prefix by done. unfold decode_op. cbn -[dec_rm_imm opsize]. unfold dec_rm_imm. rewrite decode_rm_bytes by done.
      cbn [mbind option_bind]. apply andb_true_iff in Hi as [H1%Z.leb_le H2%Z.leb_le]. change (v mod 256 :: l) with ([v mod 256] ++ l). rewrite (dec8_byte v l) by lia. cbn [mbind option_bind]. by rewrite opsize_eq.
  - apply (rm_imm_encodes _ (λ e, Some (OAlu e))); try done.
    + intros l. unfold decode_op. cbn -[dec_rm_imm opsize]. by rewrite opsize_eq.
    + unfold imm_bytes. rewrite (proj2 (Z.eqb_neq _ _) H8). destruct (bits =? 16); [apply emit16_u32_emits|apply emit32_u32_emits].
Qed.

Lemma plain_reg o : plain o → o_kind o = OP_REG → 0 ≤ o_reg o < 8.
Proof. unfold plain. intros H E. rewrite E in H. apply H. Qed.
Lemma plain_imm o : plain o → o_kind o = OP_IMM → is_s32 (o_imm o).
Proof. unfold plain. intros H E. by rewrite E in H. Qed.

(** The alternatives by the kinds of the operands. *)
Ltac kinds := unfold is_kind, imm_or_label, reg_or_mem, is_kind in *.

Lemma alu_encodes ext o0 o1 : 0 ≤ ext < 8 → plain o0 → plain o1 → agree o0 o1 →
  ∃ m, enc_alu room (8 * ext + 1) (8 * ext + 3) ext o0 o1 = Some m ∧ encodes m (meaning (OAlu ext) o0 o1).
Proof.
  intros He H0 H1 Ha. pose proof (size_of_range o0 o1 H0 H1) as Hb. unfold enc_alu, meaning, agree in *. fold (size_of o0 o1). set (bits := size_of o0 o1) in *. cbv zeta.
  assert (Hopc : ∀ k, k = 1 ∨ k = 3 → ∃ opc, u8 (if bits =? 8 then 8 * ext + k - 1 else 8 * ext + k) = opc ∧ 0 ≤ opc < 256 ∧ opc ≠ 0x66 ∧
    ∀ l, decode_op (opsize bits) opc l = dec_rm_reg (OAlu ext) bits (2 <=? k) l).
  { intros k Hk. eexists. split; [done|]. destruct (Z.eqb_spec bits 8) as [E8|E8]; rewrite u8_small by (unfold is_u8; lia); (split; [lia|]; split; [lia|]; intros l).
    - replace (8 * ext + k - 1) with (8 * ext + (k - 1)) by lia. rewrite alu_opcode by lia. rewrite E8. by destruct Hk as [->| ->].
    - rewrite alu_opcode by lia. rewrite opsize_eq by done. by destruct Hk as [->| ->]. }
  destruct (o_kind o0) eqn:K0, (o_kind o1) eqn:K1; try done; kinds; rewrite K0, K1; cbn -[maybe_prefix_16 encode_grp1_imm]; eexists; (split; [done|]).
  all: try (apply encodes_imm; [done|]; apply grp1_encodes; try done; [unfold reg_or_mem, is_kind; by rewrite K0|by apply plain_imm]).
  - destruct (Hopc 1) as (opc & -> & Ho1 & Ho2 & Hd); [by left|]. unfold encode_binop_rm_reg. replace (ea_of o1) with (EReg (o_reg o1)) by (unfold ea_of; by rewrite K1).
    apply (rm_reg_encodes (OAlu ext) bits opc false o0 (o_reg o1)); try done; [kinds; by rewrite K0|by apply plain_reg].
  - destruct (Hopc 3) as (opc & -> & Ho1 & Ho2 & Hd); [by right|]. unfold encode_binop_reg_rm. replace (ea_of o0) with (EReg (o_reg o0)) by (unfold ea_of; by rewrite K0).
    apply (rm_reg_encodes (OAlu ext) bits opc true o1 (o_reg o0)); try done; [kinds; by rewrite K1|by apply plain_reg].
  - destruct (Hopc 1) as (opc & -> & Ho1 & Ho2 & Hd); [by left|]. unfold encode_binop_rm_reg. replace (ea_of o1) with (EReg (o_reg o1)) by (unfold ea_of; by rewrite K1).
    apply (rm_reg_encodes (OAlu ext) bits opc false o0 (o_reg o1)); try done; [kinds; by rewrite K0|by apply plain_reg].
Qed.

Lemma obj_label_encodes o m1 m2 i : is_kind OP_LABEL o = false → encodes m2 i → encodes (obj_label o m1 m2) i.
Proof. intros Hk (bs & Hs & He & Hd). exists bs. split; [done|]. split; [by apply obj_label_emits|done]. Qed.

(** [mov r, imm] in the short form, for the sizes that it has. *)
Lemma mov_short_encodes r v bits : 0 ≤ r < 8 → is_s32 v → is_size bits → bits ≠ 8 →
  encodes (maybe_prefix_16 room bits &-& emit8 room (0xB8 + r) &-& emit_imm room bits v) (mk_insn OMov bits (EReg r) (AImm (v mod 2 ^ bits))).
Proof.
  intros Hr Hv Hb H8. exists (prefix bits ++ [0xB8 + r] ++ imm_bytes bits v). split; [short|]. split.
  - apply emits_and; [apply prefix_emits|]. apply emits_and; [apply byte_emits; lia|by apply emit_imm_emits].
  - intros l. rewrite <- !app_assoc. cbn [app]. rewrite decode_prefix by lia. rewrite opsize_eq by done.
    assert (Hd : decode_op bits (184 + r) (imm_bytes bits v ++ l) = ('(v, l) ← dec_imm bits (imm_bytes bits v ++ l); Some (mk_insn OMov bits (EReg r) (AImm v), l))).
    { assert (r = 0 ∨ r = 1 ∨ r = 2 ∨ r = 3 ∨ r = 4 ∨ r = 5 ∨ r = 6 ∨ r = 7) by lia. destruct_or!; subst; reflexivity. }
    rewrite Hd, dec_imm_bytes by done. done.
Qed.

Lemma size_cases bits : is_size bits → bits = 8 ∨ (bits =? 8) = false ∧ opsize bits = bits.
Proof. intros [->|[->| ->]]; auto. Qed.

(** An operand with a register or an immediate, where the lowest bit of the opcode is the size. *)
Lemma sized_encodes op opc (dir : bool) o r bits : plain o → reg_or_mem o = true → 0 ≤ r < 8 → is_size bits →
  (op = OMov ∧ opc = (if dir then 0x8A else 0x88)) ∨ (op = OTest ∧ opc = 0x84 ∧ dir = false) →
  encodes (maybe_prefix_16 room bits &-& emit8 room (if bits =? 8 then opc else opc + 1) &-& emit_rm_operand room r o)
    (if dir then mk_insn op bits (EReg r) (AEa (ea_of o)) else mk_insn op bits (ea_of o) (AEa (EReg r))).
Proof.
  intros Hp Hk Hr Hb Ho. apply rm_reg_encodes; try done.
  1, 2: destruct Ho as [[-> ->]|(-> & -> & ->)]; [destruct dir|]; by destruct (bits =? 8).
  destruct (size_cases bits Hb) as [-> | [-> E]], Ho as [[-> ->]|(-> & -> & ->)]; try destruct dir; try done; intros l; cbn -[dec_rm_reg opsize]; by rewrite E.
Qed.

Lemma sized_imm_encodes op opc o v bits : plain o → reg_or_mem o = true → is_s32 v → is_size bits → (op = OMov ∧ opc = 0xC6) ∨ (op = OTest ∧ opc = 0xF6) →
  encodes (maybe_prefix_16 room bits &-& (if bits =? 8 then emit8 room opc &-& emit_rm_operand room 0 o &-& emit8 room (Z.land v 0xFF)
    else emit8 room (opc + 1) &-& emit_rm_operand room 0 o &-& emit_imm room bits v)) (mk_insn op bits (ea_of o) (AImm (v mod 2 ^ bits))).
Proof.
  intros Hp Hk Hv Hb Ho. destruct (size_cases bits Hb) as [-> | [E8 E]]; [cbn [Z.eqb Pos.eqb]|rewrite E8; apply Z.eqb_neq in E8].
  all: apply (rm_imm_encodes _ (ext0 op)); try done; try (by destruct Ho as [[-> ->]|[-> ->]]).
  - apply imm8_emits.
  - intros l. destruct Ho as [[-> ->]|[-> ->]]; cbn -[dec_rm_imm opsize]; by rewrite E.
  - by apply emit_imm_emits.
Qed.

(** A register from a register or from memory. *)
Lemma mov_load_encodes o0 o1 : plain o0 → plain o1 → o_kind o0 = OP_REG → reg_or_mem o1 = true →
  encodes (maybe_prefix_16 room (size_of o0 o1) &-& emit8 room (if size_of o0 o1 =? 8 then 0x8A else 0x8B) &-& emit_rm_operand room (o_reg o0) o1)
    (mk_insn OMov (size_of o0 o1) (ea_of o0) (AEa (ea_of o1))).
Proof.
  intros H0 H1 K0 K1. replace (ea_of o0) with (EReg (o_reg o0)) by (unfold ea_of; by rewrite K0).
  apply (sized_encodes OMov 0x8A true o1); [done|done|by apply plain_reg|by apply size_of_range|by left].
Qed.

Lemma mov_encodes o0 o1 : plain o0 → plain o1 → agree o0 o1 → ¬ (o_kind o0 = OP_REG ∧ o_kind o1 = OP_IMM ∧ o_reg_bits o0 = 8) →
  ∃ m, enc_mov room o0 o1 = Some m ∧ encodes m (meaning OMov o0 o1).
Proof.
  intros H0 H1 Ha Hx. pose proof (size_of_range o0 o1 H0 H1) as Hb. unfold enc_mov, meaning, agree in *. fold (size_of o0 o1). cbv zeta.
  destruct (o_kind o0) eqn:K0, (o_kind o1) eqn:K1; try done; kinds; rewrite K0, K1; cbn -[maybe_prefix_16 emit_imm size_of]; eexists; (split; [done|]).
  - apply mov_load_encodes; try done. kinds. by rewrite K1.
  - assert (H8 : size_of o0 o1 ≠ 8). { intros E. apply Hx. split_and!; try done. unfold size_of, infer_bits_from_operand in E. by rewrite K0 in E. }
    replace (ea_of o0) with (EReg (o_reg o0)) by (unfold ea_of; by rewrite K0).
    assert (He : encodes (with_imm o1 (λ imm, maybe_prefix_16 room (size_of o0 o1) &-& emit8 room (0xB8 + o_reg o0) &-& emit_imm room (size_of o0 o1) imm))
      (mk_insn OMov (size_of o0 o1) (EReg (o_reg o0)) (AImm (o_imm o1 mod 2 ^ size_of o0 o1)))).
    { apply encodes_imm; [done|]. apply mov_short_encodes; try done; [by apply plain_reg|by apply plain_imm]. }
    destruct (size_of o0 o1 =? 32); [|done]. apply obj_label_encodes; [kinds; by rewrite K1|done].
  - apply mov_load_encodes; try done. kinds. by rewrite K1.
  - replace (ea_of o1) with (EReg (o_reg o1)) by (unfold ea_of; by rewrite K1). apply (sized_encodes OMov 0x88 false o0); try done; [kinds; by rewrite K0|by apply plain_reg|by left].
  - replace (infer_bits_from_operand o0 32) with (size_of o0 o1) by (unfold size_of, infer_bits_from_operand at 2; by rewrite K1).
    apply obj_label_encodes; [kinds; by rewrite K1|]. apply encodes_imm; [done|]. apply (sized_imm_encodes OMov 0xC6); try done; [kinds; by rewrite K0|by apply plain_imm|by left].
Qed.

Lemma test_encodes o0 o1 : plain o0 → plain o1 → agree o0 o1 → o_kind o1 ≠ OP_MEM → ∃ m, enc_test room o0 o1 = Some m ∧ encodes m (meaning OTest o0 o1).
Proof.
  intros H0 H1 Ha Hx. pose proof (size_of_range o0 o1 H0 H1) as Hb. unfold enc_test, meaning, agree in *. fold (size_of o0 o1). cbv zeta.
  assert (Hk0 : reg_or_mem o0 = true) by (kinds; by destruct (o_kind o0)). rewrite Hk0.
  destruct (o_kind o1) eqn:K1; try (by destruct (o_kind o0)); kinds; rewrite K1; cbn -[maybe_prefix_16 emit_imm size_of]; eexists; (split; [done|]).
  - replace (ea_of o1) with (EReg (o_reg o1)) by (unfold ea_of; by rewrite K1). apply (sized_encodes OTest 0x84 false o0); try done; [by apply plain_reg|by right].
  - apply encodes_imm; [done|]. pose proof (plain_imm _ H1 K1) as Hi. pose proof (sized_imm_encodes OTest 0xF6 o0 (o_imm o1) (size_of o0 o1) H0 Hk0 Hi Hb (or_intror (conj eq_refl eq_refl))) as He.
    destruct (size_cases _ Hb) as [E | [E _]]; [|by rewrite E in *]. rewrite E in *. exact He.
Qed.
End encodes.

(** ** The mnemonics *)

Definition mnemonics : list (string * operation) :=
  [("mov", OMov); ("test", OTest); ("add", OAlu 0); ("or", OAlu 1); ("adc", OAlu 2); ("sbb", OAlu 3); ("and", OAlu 4); ("sub", OAlu 5); ("xor", OAlu 6); ("cmp", OAlu 7)]%string.

(** Names that are equal but for the case are equal to the same names. *)
Lemma streqi_same a b x : streqi a b = true → streqi a x = streqi b x.
Proof.
  revert b x. induction a as [|y a IH]; intros [|z b] [|w x] H; try done. cbn [streqi] in *. destruct (Z.eqb_spec (to_lower y) (to_lower z)) as [->|]; [|done].
  destruct (_ =? _); [by apply IH|done].
Qed.

Lemma enc_two_same room a b o0 o1 : streqi a b = true → enc_two room a o0 o1 = enc_two room b o0 o1.
Proof.
  intros H. unfold enc_two, shift_ext. rewrite !(streqi_same a b) by done. do 4 (destruct (streqi b _); [done|]). cbn [find_index alu_ops fst].
  by rewrite !(streqi_same a b) by done.
Qed.

(** The pairs of operands that the operation takes: [mov] of a constant to a byte register has
    no encoding of its own, and [test] has its memory operand first. *)
Definition encodable (op : operation) (o0 o1 : operand_t) : Prop :=
  match op with
  | OMov => ¬ (o_kind o0 = OP_REG ∧ o_kind o1 = OP_IMM ∧ o_reg_bits o0 = 8)
  | OTest => o_kind o1 ≠ OP_MEM
  | OAlu _ => True
  end.

Lemma two_encodes room n op o0 o1 : (n, op) ∈ mnemonics → plain o0 → plain o1 → agree o0 o1 → encodable op o0 o1 →
  ∃ m, enc_two room (str n) o0 o1 = Some m ∧ encodes m (meaning op o0 o1).
Proof.
  intros Hn H0 H1 Ha Hx. unfold mnemonics in Hn. repeat (apply elem_of_cons in Hn as [[= -> ->]|Hn]); [..|by apply elem_of_nil in Hn].
  - by apply mov_encodes.
  - by apply test_encodes.
  - by apply (alu_encodes room 0).
  - by apply (alu_encodes room 1).
  - by apply (alu_encodes room 2).
  - by apply (alu_encodes room 3).
  - by apply (alu_encodes room 4).
  - by apply (alu_encodes room 5).
  - by apply (alu_encodes room 6).
  - by apply (alu_encodes room 7).
Qed.

(** ** The operands of the parser *)

Lemma reg_code_range s r bits : reg_code_bits s = Some (r, bits) → 0 ≤ r < 8 ∧ is_size bits.
Proof.
  unfold reg_code_bits. pose proof (find_index_lt (streqi s) r8) as H8. pose proof (find_index_lt (streqi s) r16) as H16. pose proof (find_index_lt (streqi s) r32) as H32.
  unfold is_size. destruct (find_index _ r8) as [i|]; [specialize (H8 i eq_refl); intros [= <- <-]; cbn in H8; lia|].
  destruct (find_index _ r16) as [i|]; [specialize (H16 i eq_refl); intros [= <- <-]; cbn in H16; lia|].
  destruct (find_index _ r32) as [i|]; [specialize (H32 i eq_refl); intros [= <- <-]; cbn in H32; lia|done].
Qed.

Lemma parse_int_range s v : parse_int s = Ret v → is_s32 v.
Proof.
  unfold parse_int. destruct (match s with [] => _ | _ => _ end) as [sign s1]. destruct (match s1 with [] => _ | _ => _ end) as [base s2]. destruct s2 as [|x s2]; [done|].
  intros H. rb H. apply of_opt_Ret in H. by eapply sint_range.
Qed.

Definition base_ok (base : Z) : Prop := base = -1 ∨ 0 ≤ base < 8.

Lemma term_base term sign base disp lab base' disp' lab' :
  match parse_int term with
  | Ret v => m ← of_opt (sint (sign * v)); d ← of_opt (sint (disp + m)); Ret (base, d, lab)
  | Ub => Ub
  | Die => if sign <? 0 then Die else if bool_decide (lab = []) then Ret (base, disp, copy_lim term MAX_NAME) else Die
  end = Ret (base', disp', lab') → base_ok base → base_ok base'.
Proof.
  intros H Hb. destruct (parse_int term) as [v| |]; [| |done].
  - rb H. rb H. by injection H as <- <- <-.
  - destruct (sign <? 0); [done|]. destruct (bool_decide (lab = [])); [|done]. by injection H as <- <- <-.
Qed.

Lemma mem_terms_base fuel buf sign base disp lab hint o : mem_terms fuel buf sign base disp lab hint = Ret o → base_ok base →
  base_ok (o_base_reg o) ∧ o_kind o = OP_MEM ∧ o_size_hint o = hint.
Proof.
  revert buf sign base disp lab. induction fuel as [|fuel IH]; intros buf sign base disp lab H Hb; cbn [mem_terms] in H; [done|].
  destruct buf as [|c0 buf0]; [injection H as <-; done|]. set (buf := c0 :: buf0) in *.
  destruct (span is_sign buf) as [term rest]. destruct (_ || _); [done|]. apply R_bind_Ret in H as ([[base' disp'] lab'] & E & H).
  assert (Hb' : base_ok base').
  { destruct (reg_code_bits term) as [[rc bits]|] eqn:Er; [apply reg_code_range in Er as [Hr _]; destruct (decide (bits = 32)) as [->|Hn]|].
    - destruct (base =? -1); [injection E as <- <- <-; by right|done].
    - apply (term_base term sign base disp lab base' disp' lab'); [|done]. rewrite <- E. destruct bits as [|p|p]; try done. repeat (destruct p as [p|p|]; try done).
    - by apply (term_base term sign base disp lab base' disp' lab'). }
  destruct rest as [|c rest]; [injection H as <-; done|]. by eapply IH.
Qed.

(** What the parser returns is an operand, unless it names a label. *)
Lemma parse_operand_plain s o : Forall is_u8 s → parse_operand s = Ret o → o_kind o = OP_REG ∨ o_kind o = OP_IMM ∨ o_kind o = OP_MEM → o_disp_label o = [] → plain o.
Proof.
  intros Hs H Hk Hl. pose proof (parse_operand_wf s o Hs H) as (Hd & _ & _). unfold parse_operand in H. destruct (bool_decide _); [injection H as <-; cbn in Hk; naive_solver|].
  assert (Hh : fst (size_prefix (rtrim (ltrim s))) = 0 ∨ is_size (fst (size_prefix (rtrim (ltrim s))))) by (unfold size_prefix, is_size; repeat case_match; cbn; lia).
  destruct (size_prefix _) as [hint t]. cbn in Hh. destruct (_ && _ && _).
  - destruct (_ <=? _)%nat; [done|]. unfold parse_mem_expr in H. destruct (take _ _) as [|c b]; [done|]. apply mem_terms_base in H as (Hb & Hm & Hi); [|by left].
    unfold plain. rewrite Hm, Hi. done.
  - destruct (reg_code_bits t) as [[reg bits]|] eqn:Er; [injection H as <-; by apply reg_code_range in Er|].
    destruct (parse_int t) as [v| |] eqn:Ei; [injection H as <-; by apply parse_int_range in Ei| |done].
    injection H as <-. cbn in Hk. naive_solver.
Qed.

(** The operands that the claims are about: registers, constants, and memory without a label. *)
Lemma agree_plain t0 t1 o0 o1 : Forall is_u8 t0 → Forall is_u8 t1 → parse_operand t0 = Ret o0 → parse_operand t1 = Ret o1 → agree o0 o1 →
  o_disp_label o0 = [] → o_disp_label o1 = [] → plain o0 ∧ plain o1.
Proof.
  intros Hb0 Hb1 H0 H1 Ha L0 L1. unfold agree in Ha. split; [eapply (parse_operand_plain t0)|eapply (parse_operand_plain t1)]; try done; destruct (o_kind o0), (o_kind o1); naive_solver.
Qed.


Definition parsed_op (s : string) : operand_t := match parse_operand (str s) with Ret o => o | _ => op_zero end.

(** The second pass, with memory for 64 bytes of text. *)
Definition second_pass : asm_ctx_t := with_cap [64; 0; 0; 0] (start_pass 2 (ctx_zero 0 true)).


(** The sign before a register of a memory operand is lost: [4 - eax] is read as [eax + 4]. *)
Example minus_register_ignored : parse_operand (str "[4-eax]") = parse_operand (str "[eax+4]").
Proof. reflexivity. Qed.
