(* ===== verification/Tty.v ===== *)
(** * The text terminal ([src/src/arch/i686/legacytty.c], [src/src/io/console.c])

    The screen of 80 by 25 cells, a ring of 200 lines behind it, and the view that the
    page keys move.  The terminal refines a document: the list of all the lines since the start,
    of which the screen shows 25. *)

From S2P Require Import Prelude.

Definition TTY_WIDTH : Z := 80.
Definition TTY_HEIGHT : Z := 25.
Definition SCROLLBACK_LINES : Z := 200.
Definition VGA_COLOR_BLACK : Z := 0.
Definition VGA_COLOR_LIGHT_GREY : Z := 7.

Definition vga_entry_color (fg bg : Z) : Z := u8 (Z.lor fg (Z.shiftl bg 4)).
Definition vga_entry (uc color : Z) : Z := u16 (Z.lor (u16 uc) (Z.shiftl (u16 color) 8)).

(** The cells are 16 bits: a character and a colour.  [t_graphics] is what [vga_is_graphics]
    returns, and [t_serial] is what was sent to the serial port. *)
Record tty_t := mk_tty {
  t_buffer : list Z;
  t_scrollback : list (list Z);
  t_cursor_line : Z;
  t_total_lines : Z;
  t_scroll_offset : Z;
  t_row : Z;
  t_column : Z;
  t_color : Z;
  t_graphics : bool;
  t_serial : list Z
}.

Definition with_buffer (v : list Z) (t : tty_t) : tty_t :=
  mk_tty v (t_scrollback t) (t_cursor_line t) (t_total_lines t) (t_scroll_offset t) (t_row t) (t_column t) (t_color t) (t_graphics t) (t_serial t).
Definition with_scrollback (v : list (list Z)) (t : tty_t) : tty_t :=
  mk_tty (t_buffer t) v (t_cursor_line t) (t_total_lines t) (t_scroll_offset t) (t_row t) (t_column t) (t_color t) (t_graphics t) (t_serial t).
Definition with_lines (cursor total : Z) (t : tty_t) : tty_t :=
  mk_tty (t_buffer t) (t_scrollback t) cursor total (t_scroll_offset t) (t_row t) (t_column t) (t_color t) (t_graphics t) (t_serial t).
Definition with_offset (v : Z) (t : tty_t) : tty_t :=
  mk_tty (t_buffer t) (t_scrollback t) (t_cursor_line t) (t_total_lines t) v (t_row t) (t_column t) (t_color t) (t_graphics t) (t_serial t).
Definition with_place (row col : Z) (t : tty_t) : tty_t :=
  mk_tty (t_buffer t) (t_scrollback t) (t_cursor_line t) (t_total_lines t) (t_scroll_offset t) row col (t_color t) (t_graphics t) (t_serial t).
Definition with_color (v : Z) (t : tty_t) : tty_t :=
  mk_tty (t_buffer t) (t_scrollback t) (t_cursor_line t) (t_total_lines t) (t_scroll_offset t) (t_row t) (t_column t) v (t_graphics t) (t_serial t).
Definition with_graphics (v : bool) (t : tty_t) : tty_t :=
  mk_tty (t_buffer t) (t_scrollback t) (t_cursor_line t) (t_total_lines t) (t_scroll_offset t) (t_row t) (t_column t) (t_color t) v (t_serial t).
Definition with_serial (v : list Z) (t : tty_t) : tty_t :=
  mk_tty (t_buffer t) (t_scrollback t) (t_cursor_line t) (t_total_lines t) (t_scroll_offset t) (t_row t) (t_column t) (t_color t) (t_graphics t) v.

#[local] Notation T := (M tty_t).

(** ** The operations *)

(** [while (idx < 0) idx += SCROLLBACK_LINES;], then the remainder. *)
Fixpoint wrap_up (fuel : nat) (idx : Z) : option Z :=
  if idx <? 0 then match fuel with O => None | S fuel => wrap_up fuel (idx + SCROLLBACK_LINES) end else Some (Z.rem idx SCROLLBACK_LINES).
Definition wrap_index (idx : Z) : option Z := wrap_up (Z.to_nat (- idx)) idx.

(** The row of a screen row, by the distance from the row of the cursor. *)
Definition rows_back (row y : Z) : Z := s32 (u32 (row - y)).

Definition scrollback_index_for_row (row : Z) : T Z :=
  t ← get; lift (wrap_index (s32 (t_cursor_line t) - rows_back (t_row t) row)).

Definition blank : Z := vga_entry 32 (vga_entry_color VGA_COLOR_LIGHT_GREY VGA_COLOR_BLACK).

(** The cells [base], [base + 1], ... of the screen. *)
Fixpoint put_cells (base : Z) (cells : list Z) : T unit :=
  match cells with
  | [] => mret tt
  | v :: cells => t ← get; b ← lift (zupdate (t_buffer t) base v); put (with_buffer b t);; put_cells (base + 1) cells
  end.

Definition scrollback_clear_line (idx : Z) : T unit :=
  t ← get; line ← lift (zlookup (t_scrollback t) idx);
  sb ← lift (zupdate (t_scrollback t) idx (replicate 80 blank ++ drop 80 line)); put (with_scrollback sb t).

(** Row [y] of the screen and those below it. *)
Fixpoint redraw_rows (n : nat) (y : Z) : T unit :=
  match n with
  | O => mret tt
  | S n =>
    t ← get;
    let lines_back := rows_back (t_row t) y + t_scroll_offset t in
    (if (lines_back <? 0) || (s32 (t_total_lines t) <=? lines_back) then put_cells (y * TTY_WIDTH) (replicate 80 blank) else
     idx ← lift (wrap_index (s32 (t_cursor_line t) - lines_back));
     line ← lift (zlookup (t_scrollback t) idx); put_cells (y * TTY_WIDTH) (take 80 line));;
    redraw_rows n (y + 1)
  end.

Definition terminal_redraw : T unit := t ← get; if t_graphics t then mret tt else redraw_rows 25 0.

Fixpoint clear_lines (n : nat) (i : Z) : T unit := match n with O => mret tt | S n => scrollback_clear_line i;; clear_lines n (i + 1) end.

Definition init_term : T unit :=
  modify (λ t, with_offset 0 (with_lines 0 1 (with_color (vga_entry_color VGA_COLOR_LIGHT_GREY VGA_COLOR_BLACK) (with_place 0 0 t))));;
  clear_lines 200 0;;
  t ← get; put_cells 0 (replicate (25 * 80) (vga_entry 32 (t_color t))).

Definition terminal_setcolor (color : Z) : T unit := modify (with_color color).

Definition terminal_putentryat (c color x y : Z) : T unit :=
  idx ← scrollback_index_for_row y;
  t ← get; line ← lift (zlookup (t_scrollback t) idx); line ← lift (zupdate line x (vga_entry c color));
  sb ← lift (zupdate (t_scrollback t) idx line); put (with_scrollback sb t);;
  if (t_scroll_offset t =? 0) && negb (t_graphics t) then put_cells (u32 (y * TTY_WIDTH + x)) [vga_entry c color] else mret tt.

(** [terminal_buffer[i] = terminal_buffer[i + TTY_WIDTH]], where [i = y * TTY_WIDTH + x] runs through the rows. *)
Fixpoint scroll_cells (n : nat) (i : Z) : T unit :=
  match n with
  | O => mret tt
  | S n => t ← get; v ← lift (zlookup (t_buffer t) (i + TTY_WIDTH)); put_cells i [v];; scroll_cells n (i + 1)
  end.

(** The next line of the ring. *)
Definition next_line : T unit :=
  t ← get;
  let cursor := (t_cursor_line t + 1) mod SCROLLBACK_LINES in
  put (with_lines cursor (t_total_lines t) t);; scrollback_clear_line cursor;;
  modify (λ t, if t_total_lines t <? SCROLLBACK_LINES then with_lines (t_cursor_line t) (t_total_lines t + 1) t else t).

Definition terminal_newline : T unit :=
  modify (λ t, with_place (u32 (t_row t + 1)) 0 t);;
  t ← get;
  if t_row t <? TTY_HEIGHT then next_line else
  put (with_place (TTY_HEIGHT - 1) (t_column t) t);;
  next_line;;
  t ← get;
  if (t_scroll_offset t =? 0) && negb (t_graphics t) then
    scroll_cells (24 * 80) 0;; t ← get; put_cells ((TTY_HEIGHT - 1) * TTY_WIDTH) (replicate 80 (vga_entry 32 (t_color t)))
  else mret tt.

(** A character at the place of the cursor. *)
Definition put_here (c : Z) : T unit :=
  t ← get; terminal_putentryat c (t_color t) (t_column t) (t_row t);;
  modify (λ t, with_place (t_row t) (u32 (t_column t + 1)) t);;
  t ← get; if TTY_WIDTH <=? t_column t then terminal_newline else mret tt.

Fixpoint put_spaces (n : nat) : T unit := match n with O => mret tt | S n => put_here 32;; put_spaces n end.

Definition serial_putchar (c : Z) : T unit := modify (λ t, with_serial (t_serial t ++ [c]) t).

(** New output moves the view back to the last line. *)
Definition snap_to_bottom : T unit :=
  t ← get; if negb (t_scroll_offset t =? 0) then put (with_offset 0 t);; terminal_redraw else mret tt.

Definition put_text (c : Z) : T unit :=
  if c =? 10 then terminal_newline
  else if c =? 8 then t ← get; if 0 <? t_column t then put (with_place (t_row t) (t_column t - 1) t) else mret tt
  else if c =? 9 then t ← get; put_spaces (Z.to_nat (4 - t_column t mod 4))
  else put_here c.

Definition term_putchar (c : Z) : T unit :=
  serial_putchar c;;
  t ← get;
  if t_graphics t then mret tt else
  snap_to_bottom;;
  put_text c.

Definition terminal_scroll_up : T unit :=
  t ← get;
  if t_graphics t then mret tt else
  let max_offset := s32 (t_total_lines t) - TTY_HEIGHT in
  let max_offset := if max_offset <? 0 then 0 else max_offset in
  let off := t_scroll_offset t + 5 in
  put (with_offset (if max_offset <? off then max_offset else off) t);; terminal_redraw.

Definition terminal_scroll_down : T unit :=
  t ← get;
  if t_graphics t then mret tt else
  let off := t_scroll_offset t - 5 in
  put (with_offset (if off <? 0 then 0 else off) t);; terminal_redraw.

Fixpoint terminal_write (data : list Z) : T unit := match data with [] => mret tt | c :: data => term_putchar c;; terminal_write data end.
Definition term_writestr (data : list Z) : T unit := terminal_write data.
Fixpoint serial_writestr (data : list Z) : T unit := match data with [] => mret tt | c :: data => serial_putchar c;; serial_writestr data end.

(** The echo of the console; what it prints goes to the terminal character by character. *)
Definition console_putchar (c : Z) : T unit :=
  if c =? 10 then terminal_write [10] else if c =? 8 then terminal_write [8; 32; 8] else terminal_write [c].
Definition console_handle_key (c : Z) : T unit := console_putchar c.
