(* ===== verification/TtySpec.v ===== *)
(** * What the terminal shows

    The terminal as a document: all the lines since the start, the column of the
    cursor on the last one, and how far the view has been moved up. *)

From S2P Require Import Prelude Tty.

Record document := mk_doc { d_lines : list (list Z); d_col : Z; d_off : Z; d_graphics : bool; d_serial : list Z }.

Definition blank_line : list Z := replicate 80 blank.
Definition cell (c : Z) : Z := vga_entry c (vga_entry_color VGA_COLOR_LIGHT_GREY VGA_COLOR_BLACK).

(** The last line with a cell replaced. *)
Definition set_last (x v : Z) (lines : list (list Z)) : list (list Z) := alter (λ l, <[Z.to_nat x := v]> l) (length lines - 1)%nat lines.

Definition d_newline (d : document) : document := mk_doc (d_lines d ++ [blank_line]) 0 (d_off d) (d_graphics d) (d_serial d).
Definition d_put (c : Z) (d : document) : document :=
  let d := mk_doc (set_last (d_col d) (cell c) (d_lines d)) (d_col d + 1) (d_off d) (d_graphics d) (d_serial d) in
  if 80 <=? d_col d then d_newline d else d.

Definition d_putchar (c : Z) (d : document) : document :=
  let d := mk_doc (d_lines d) (d_col d) (d_off d) (d_graphics d) (d_serial d ++ [c]) in
  if d_graphics d then d else
  let d := mk_doc (d_lines d) (d_col d) 0 false (d_serial d) in
  if c =? 10 then d_newline d else
  if c =? 8 then mk_doc (d_lines d) (Z.max 0 (d_col d - 1)) 0 false (d_serial d) else
  if c =? 9 then Nat.iter (Z.to_nat (4 - d_col d mod 4)) (d_put 32) d else d_put c d.

(** The lines that are kept, and how far the view can be moved. *)
Definition kept (d : document) : Z := Z.min (Z.of_nat (length (d_lines d))) 200.
Definition d_move (delta : Z) (d : document) : document :=
  if d_graphics d then d else mk_doc (d_lines d) (d_col d) (Z.max 0 (Z.min (d_off d + delta) (Z.max 0 (kept d - 25)))) (d_graphics d) (d_serial d).

(** Row [y] of the screen: the line that is so many lines before the last one, if it is kept. *)
Definition row_at (lines : list (list Z)) (off : Z) (y : nat) : list Z :=
  let n := Z.of_nat (length lines) in
  let back := Z.min (n - 1) 24 - Z.of_nat y + off in
  if (back <? 0) || (Z.min n 200 <=? back) then blank_line else default blank_line (lines !! Z.to_nat (n - 1 - back)).

Definition rows (lines : list (list Z)) (off : Z) : list (list Z) := row_at lines off <$> seq 0 25.
Definition screen (d : document) : list Z := concat (rows (d_lines d) (d_off d)).

(** ** Lists of rows *)

Definition of_width (w : nat) (l : list Z) : Prop := length l = w.

Lemma concat_insert (w : nat) (rs : list (list Z)) (y x : nat) (v : Z) (r : list Z) : Forall (of_width w) rs → rs !! y = Some r → (x < w)%nat →
  concat (<[y := <[x := v]> r]> rs) = <[(y * w + x)%nat := v]> (concat rs).
Proof.
  revert y. induction rs as [|r0 rs IH]; intros [|y] Hw Hy Hx; try done; apply Forall_cons in Hw as [H0 Hw]; unfold of_width in *; cbn.
  - injection Hy as ->. rewrite insert_app_l by lia. done.
  - rewrite IH by done. rewrite insert_app_r_alt by lia. do 2 f_equal. lia.
Qed.

Lemma length_concat_width (w : nat) (rs : list (list Z)) : Forall (of_width w) rs → length (concat rs) = (length rs * w)%nat.
Proof. induction 1 as [|r rs Hr _ IH]; [done|]. cbn. rewrite length_app, IH. unfold of_width in Hr. lia. Qed.

Lemma drop_concat (w k : nat) (rs : list (list Z)) : Forall (of_width w) rs → drop (k * w) (concat rs) = concat (drop k rs).
Proof.
  revert rs. induction k as [|k IH]; intros rs H; [done|]. destruct H as [|r rs Hr H]; [cbn [concat]; by rewrite !drop_nil|]. cbn [concat drop]. unfold of_width in Hr.
  rewrite drop_app_ge by lia. rewrite <- IH by done. f_equal. lia.
Qed.

Lemma take_concat (w k : nat) (rs : list (list Z)) : Forall (of_width w) rs → take (k * w) (concat rs) = concat (take k rs).
Proof.
  revert rs. induction k as [|k IH]; intros rs H; [done|]. destruct H as [|r rs Hr H]; [cbn [concat]; by rewrite !take_nil|]. cbn [concat take]. unfold of_width in Hr.
  rewrite take_app_ge by lia. rewrite <- IH by done. do 2 f_equal. lia.
Qed.

(** ** Cells of the screen *)

Lemma splice_one (b : list Z) i v : (i < length b)%nat → splice b i [v] = <[i := v]> b.
Proof. intros Hi. rewrite <- (splice_cons b [] i v) by (cbn; lia). apply splice_nil. Qed.

Lemma put_cells_splice base cells t : 0 ≤ base → base + Z.of_nat (length cells) ≤ Z.of_nat (length (t_buffer t)) →
  put_cells base cells t = Some (tt, with_buffer (splice (t_buffer t) (Z.to_nat base) cells) t).
Proof.
  revert base t. induction cells as [|v cells IH]; intros base t Hb Hl.
  - rewrite splice_nil. by destruct t.
  - cbn [put_cells length] in *. unfold mbind, M_bind, get, lift, put. rewrite (zupdate_Some _ _ v) by lia. rewrite IH; [|lia|].
    + destruct t; cbn in *. do 2 f_equal. replace (Z.to_nat (base + 1)) with (S (Z.to_nat base)) by lia. by rewrite splice_cons by lia.
    + cbn. rewrite length_insert. lia.
Qed.

Lemma wrap_index_mod idx : wrap_index idx = Some (idx mod 200).
Proof.
  unfold wrap_index. assert (H : ∀ fuel i, - i ≤ Z.of_nat fuel → wrap_up fuel i = Some (i mod 200)).
  { induction fuel as [|fuel IH]; intros i Hi; cbn [wrap_up]; destruct (Z.ltb_spec i 0); try lia; try (by rewrite Z.rem_mod_nonneg by (unfold SCROLLBACK_LINES; lia)).
    rewrite IH by (unfold SCROLLBACK_LINES; lia). f_equal. unfold SCROLLBACK_LINES. rewrite <- (Z.mul_1_l 200) at 1. apply Z_mod_plus_full. }
  apply H. lia.
Qed.

Lemma rows_back_small row y : 0 ≤ row < 2 ^ 16 → 0 ≤ y < 2 ^ 16 → rows_back row y = row - y.
Proof. intros H1 H2. unfold rows_back. mlia. Qed.

(** ** The refinement *)

#[local] Notation nlines d := (Z.of_nat (length (d_lines d))).

(** The state behind the screen: the ring has the lines that are kept. *)
Record holds (d : document) (t : tty_t) : Prop := mk_holds {
  h_width : Forall (of_width 80) (d_lines d);
  h_some : 1 ≤ nlines d;
  h_col : t_column t = d_col d;
  h_row : t_row t = Z.min (nlines d - 1) 24;
  h_cursor : t_cursor_line t = (nlines d - 1) mod 200;
  h_total : t_total_lines t = kept d;
  h_off : t_scroll_offset t = d_off d;
  h_off_range : 0 ≤ d_off d ≤ Z.max 0 (kept d - 25);
  h_color : t_color t = vga_entry_color VGA_COLOR_LIGHT_GREY VGA_COLOR_BLACK;
  h_graphics : t_graphics t = d_graphics d;
  h_serial : t_serial t = d_serial d;
  h_ring_len : length (t_scrollback t) = 200%nat;
  h_ring_width : Forall (of_width 80) (t_scrollback t);
  h_ring : ∀ i l, d_lines d !! i = Some l → (length (d_lines d) ≤ i + 200)%nat → t_scrollback t !! (i mod 200)%nat = Some l
}.

Definition shows (d : document) (t : tty_t) : Prop := holds d t ∧ t_buffer t = screen d.

Lemma holds_buffer d t b : holds d t → holds d (with_buffer b t).
Proof. by intros []. Qed.

Lemma length_blank_line : of_width 80 blank_line.
Proof. apply length_replicate. Qed.

Lemma row_at_width lines off y : Forall (of_width 80) lines → of_width 80 (row_at lines off y).
Proof.
  intros H. unfold row_at. case_match; [apply length_blank_line|]. destruct (lines !! _) as [l|] eqn:E; [|apply length_blank_line]. cbn. by eapply (Forall_lookup_1 _ _ _ _ H).
Qed.
Lemma rows_width lines off : Forall (of_width 80) lines → Forall (of_width 80) (rows lines off).
Proof. intros H. unfold rows. apply Forall_fmap, Forall_true. intros y. by apply row_at_width. Qed.

Lemma length_screen d : Forall (of_width 80) (d_lines d) → length (screen d) = 2000%nat.
Proof. intros H. unfold screen. rewrite (length_concat_width 80) by (by apply rows_width). unfold rows. by rewrite length_fmap, length_seq. Qed.

(** The line of the ring that is [back] lines before the last one. *)
Lemma ring_line d t back : holds d t → 0 ≤ back < kept d → ∃ l, d_lines d !! Z.to_nat (nlines d - 1 - back) = Some l ∧ zlookup (t_scrollback t) ((s32 (t_cursor_line t) - back) mod 200) = Some l ∧ of_width 80 l.
Proof.
  intros [] Hb. unfold kept in Hb. destruct (lookup_lt_is_Some_2 (d_lines d) (Z.to_nat (nlines d - 1 - back))) as [l Hl]; [lia|]. exists l. split; [done|].
  split; [|by eapply (Forall_lookup_1 _ _ _ _ h_width0)]. rewrite zlookup_nonneg by (apply Z.mod_pos_bound; lia). rewrite h_cursor0.
  replace (Z.to_nat _) with (Z.to_nat (nlines d - 1 - back) mod 200)%nat; [apply h_ring0; [done|lia]|].
  apply Nat2Z.inj. rewrite Nat2Z.inj_mod. rewrite !Z2Nat.id by (try apply Z.mod_pos_bound; lia). mlia.
Qed.

Lemma redraw_rows_shows d n y t : holds d t → length (t_buffer t) = 2000%nat → (y + n = 25)%nat →
  redraw_rows n (Z.of_nat y) t = Some (tt, with_buffer (take (y * 80) (t_buffer t) ++ concat (row_at (d_lines d) (d_off d) <$> seq y n)) t).
Proof.
  revert y t. induction n as [|n IH]; intros y t Hh Hl Hy.
  { cbn [redraw_rows seq fmap list_fmap concat]. rewrite app_nil_r, take_ge by lia. by destruct t. }
  assert (Hput : ∀ cells, of_width 80 cells → put_cells (Z.of_nat y * TTY_WIDTH) cells t = Some (tt, with_buffer (splice (t_buffer t) (y * 80) cells) t)).
  { intros cells Hc. unfold TTY_WIDTH, of_width in *. rewrite put_cells_splice by lia. do 4 f_equal. lia. }
  assert (Hrow : ∀ (k : M tty_t unit), k t = Some (tt, with_buffer (splice (t_buffer t) (y * 80) (row_at (d_lines d) (d_off d) y)) t) →
    (k;; redraw_rows n (Z.of_nat y + 1)) t = Some (tt, with_buffer (take (y * 80) (t_buffer t) ++ concat (row_at (d_lines d) (d_off d) <$> seq y (S n))) t)).
  { intros k Hk. unfold mbind, M_bind. rewrite Hk. replace (Z.of_nat y + 1) with (Z.of_nat (S y)) by lia.
    pose proof (row_at_width (d_lines d) (d_off d) y (h_width _ _ Hh)) as Hw. unfold of_width in Hw.
    rewrite IH; [|by apply holds_buffer|cbn; by rewrite length_splice by lia|lia].
    assert (Hs : take (S y * 80) (splice (t_buffer t) (y * 80) (row_at (d_lines d) (d_off d) y)) = take (y * 80) (t_buffer t) ++ row_at (d_lines d) (d_off d) y).
    { unfold splice. rewrite app_assoc, take_app_le by (rewrite length_app, length_take; lia). apply take_ge. rewrite length_app, length_take. lia. }
    cbn [t_buffer with_buffer]. rewrite Hs. cbn [seq fmap list_fmap concat]. by rewrite app_assoc. }
  cbn [redraw_rows]. unfold mbind at 1, M_bind at 1, get. apply Hrow. destruct Hh as [].
  assert (Hback : rows_back (t_row t) (Z.of_nat y) + t_scroll_offset t = Z.min (nlines d - 1) 24 - Z.of_nat y + d_off d) by (rewrite rows_back_small; lia).
  rewrite Hback. unfold row_at. rewrite h_total0. replace (s32 (kept d)) with (kept d) by (unfold kept; mlia). unfold kept at 1.
  destruct (_ || _) eqn:E; [apply Hput, length_blank_line|]. apply orb_false_iff in E as [E1%Z.ltb_ge E2%Z.leb_gt].
  destruct (ring_line d t (Z.min (nlines d - 1) 24 - Z.of_nat y + d_off d)) as (l & Hl1 & Hl2 & Hl3); [done|unfold kept; lia|].
  unfold mbind, M_bind, lift. rewrite wrap_index_mod, Hl2, Hl1. cbn [default from_option id]. rewrite take_ge by (unfold of_width in Hl3; lia). by apply Hput.
Qed.

Lemma terminal_redraw_shows d t : holds d t → length (t_buffer t) = 2000%nat → d_graphics d = false → ∃ t', terminal_redraw t = Some (tt, t') ∧ shows d t'.
Proof.
  intros Hh Hl Hg. exists (with_buffer (screen d) t). split; [|split; [by apply holds_buffer|done]]. unfold terminal_redraw, mbind, M_bind, get. rewrite (h_graphics _ _ Hh), Hg.
  by rewrite (redraw_rows_shows d 25 0).
Qed.

(** ** New lines *)

(** The fields of updated states. *)
Ltac tfields := cbn [t_buffer t_scrollback t_cursor_line t_total_lines t_scroll_offset t_row t_column t_color t_graphics t_serial
  with_buffer with_scrollback with_lines with_offset with_place with_color with_graphics with_serial d_lines d_col d_off d_graphics d_serial].

Lemma clear_line_ring idx t : 0 ≤ idx < 200 → length (t_scrollback t) = 200%nat → Forall (of_width 80) (t_scrollback t) →
  scrollback_clear_line idx t = Some (tt, with_scrollback (<[Z.to_nat idx := blank_line]> (t_scrollback t)) t).
Proof.
  intros Hi Hl Hw. unfold scrollback_clear_line, mbind, M_bind, get, lift, put. destruct (lookup_lt_is_Some_2 (t_scrollback t) (Z.to_nat idx)) as [l El]; [lia|].
  rewrite zlookup_nonneg, El by lia. rewrite zupdate_Some by lia. pose proof (Forall_lookup_1 _ _ _ _ Hw El) as Hl80. unfold of_width in Hl80.
  rewrite drop_ge by lia. by rewrite app_nil_r.
Qed.

Definition after_line (d : document) (t : tty_t) : tty_t :=
  with_lines (nlines d mod 200) (Z.min (nlines d + 1) 200) (with_scrollback (<[Z.to_nat (nlines d mod 200) := blank_line]> (t_scrollback t)) t).

Lemma next_line_eq d t : length (t_scrollback t) = 200%nat → Forall (of_width 80) (t_scrollback t) → 1 ≤ nlines d → t_cursor_line t = (nlines d - 1) mod 200 → t_total_lines t = kept d →
  next_line t = Some (tt, after_line d t).
Proof.
  intros Hl Hw H1 Hc Ht. unfold next_line, mbind, M_bind, get, put, modify, SCROLLBACK_LINES. rewrite Hc. replace (((nlines d - 1) mod 200 + 1) mod 200) with (nlines d mod 200) by mlia.
  pose proof (Z.mod_pos_bound (nlines d) 200 eq_refl). rewrite clear_line_ring by done. unfold after_line, kept in *. destruct t; cbn in *. rewrite Ht.
  destruct (Z.ltb_spec (Z.min (nlines d) 200) 200); cbn.
  - by replace (Z.min (nlines d) 200 + 1) with (Z.min (nlines d + 1) 200) by lia.
  - by replace (Z.min (nlines d) 200) with (Z.min (nlines d + 1) 200) by lia.
Qed.

Lemma ring_newline d t : holds d t → ∀ i l, (d_lines d ++ [blank_line]) !! i = Some l → (length (d_lines d ++ [blank_line]) ≤ i + 200)%nat →
  <[Z.to_nat (nlines d mod 200) := blank_line]> (t_scrollback t) !! (i mod 200)%nat = Some l.
Proof.
  intros [] i l Hi Hn. rewrite length_app in Hn. cbn [length] in Hn. replace (Z.to_nat (nlines d mod 200)) with (length (d_lines d) mod 200)%nat.
  2: { apply Nat2Z.inj. rewrite Nat2Z.inj_mod, Z2Nat.id by (apply Z.mod_pos_bound; lia). done. }
  apply lookup_app_Some in Hi as [Hi|[Hi1 Hi2]].
  - pose proof (lookup_lt_Some _ _ _ Hi). rewrite list_lookup_insert_ne; [apply h_ring0; [done|lia]|]. intros E. apply (f_equal Z.of_nat) in E. rewrite !Nat2Z.inj_mod in E. mlia.
  - destruct (i - length (d_lines d))%nat as [|k] eqn:Ek; [|done]. injection Hi2 as <-. replace i with (length (d_lines d)) by lia. apply list_lookup_insert_eq.
    rewrite h_ring_len0. apply Nat.mod_upper_bound. lia.
Qed.

Lemma holds_newline d t r c : holds d t → r = Z.min (nlines d) 24 → c = 0 → holds (d_newline d) (after_line d (with_place r c t)).
Proof.
  intros Hh -> ->. pose proof (ring_newline d t Hh) as Hr. destruct Hh. unfold kept, d_newline, after_line in *. constructor; unfold kept; tfields; rewrite ?length_app; cbn [length]; try done.
  - apply Forall_app. split; [done|]. by constructor; [apply length_blank_line|].
  - lia.
  - lia.
  - f_equal. lia.
  - lia.
  - lia.
  - by rewrite length_insert.
  - apply Forall_insert; [done|apply length_blank_line].
  - intros i l Hi Hn. apply Hr; [done|]. rewrite length_app. cbn [length]. lia.
Qed.

Lemma scroll_cells_drop n b t : t_buffer t = take (1920 - n) (drop 80 b) ++ drop (1920 - n) b → length b = 2000%nat → (n ≤ 1920)%nat →
  scroll_cells n (Z.of_nat (1920 - n)) t = Some (tt, with_buffer (take 1920 (drop 80 b) ++ drop 1920 b) t).
Proof.
  revert t. induction n as [|n IH]; intros t Hb Hl Hn.
  { cbn [scroll_cells]. rewrite Nat.sub_0_r in Hb. rewrite <- Hb. by destruct t. }
  cbn [scroll_cells]. unfold mbind, M_bind, get, lift. set (i := (1920 - S n)%nat) in *. assert (Hlt : length (take i (drop 80 b)) = i) by (rewrite length_take, length_drop; lia).
  assert (Hlen : length (t_buffer t) = 2000%nat) by (rewrite Hb, length_app, Hlt, length_drop; lia).
  destruct (lookup_lt_is_Some_2 b (i + 80)) as [v Hv]; [lia|].
  assert (Hz : zlookup (t_buffer t) (Z.of_nat i + TTY_WIDTH) = Some v).
  { rewrite zlookup_nonneg by (unfold TTY_WIDTH; lia). rewrite Hb, lookup_app_r by (unfold TTY_WIDTH; lia). rewrite lookup_drop, Hlt. rewrite <- Hv. f_equal. unfold TTY_WIDTH. lia. }
  rewrite Hz, put_cells_splice by (cbn; lia). replace (Z.of_nat i + 1) with (Z.of_nat (1920 - n)) by lia. rewrite IH; [by destruct t| |done|lia].
  cbn [t_buffer with_buffer]. rewrite Nat2Z.id. replace (1920 - n)%nat with (S i) by lia. rewrite Hb.
  assert (Hdrop : drop (S i) b = drop 1 (drop i b)) by (rewrite drop_drop; f_equal; lia).
  rewrite (take_S_r _ _ v) by (rewrite lookup_drop; rewrite <- Hv; f_equal; lia). unfold splice. rewrite take_app_le by lia. rewrite take_ge by lia.
  rewrite <- app_assoc. f_equal. cbn [length app]. f_equal. rewrite drop_app_ge by lia. rewrite Hlt, Hdrop, !drop_drop. f_equal. lia.
Qed.

Lemma scroll_screen t : length (t_buffer t) = 2000%nat → scroll_cells (24 * 80) 0 t = Some (tt, with_buffer (drop 80 (t_buffer t) ++ drop 1920 (t_buffer t)) t).
Proof.
  intros Hl. change 0 with (Z.of_nat (1920 - 1920)). change (24 * 80)%nat with 1920%nat. rewrite (scroll_cells_drop 1920 (t_buffer t)); [|by rewrite Nat.sub_diag|done|done].
  by rewrite take_ge by (rewrite length_drop; lia).
Qed.

(** ** The rows of the live view *)

Lemma row_at_0 lines y : (1 ≤ length lines)%nat → (y < 25)%nat → row_at lines 0 y = default blank_line (lines !! (length lines - 25 + y)%nat).
Proof.
  intros Hn Hy. unfold row_at. destruct (_ || _) eqn:E.
  - apply orb_true_iff in E as [E%Z.ltb_lt|E%Z.leb_le]; [|lia]. by rewrite lookup_ge_None_2 by lia.
  - apply orb_false_iff in E as [E%Z.ltb_ge _]. do 2 f_equal. lia.
Qed.

Lemma rows_lookup lines off y : (y < 25)%nat → rows lines off !! y = Some (row_at lines off y).
Proof. intros Hy. unfold rows. rewrite list_lookup_fmap, lookup_seq_lt by done. done. Qed.
Lemma rows_length lines off : length (rows lines off) = 25%nat.
Proof. unfold rows. by rewrite length_fmap, length_seq. Qed.

(** Equal rows, one by one. *)
Lemma rows_eq lines off (rs : list (list Z)) : length rs = 25%nat → (∀ y, (y < 25)%nat → rs !! y = Some (row_at lines off y)) → rows lines off = rs.
Proof.
  intros Hl H. apply list_eq. intros y. destruct (decide (y < 25)%nat); [by rewrite rows_lookup, H|]. rewrite !lookup_ge_None_2; [done|lia|rewrite rows_length; lia].
Qed.

Lemma rows_newline_below lines : (1 ≤ length lines < 25)%nat → rows (lines ++ [blank_line]) 0 = rows lines 0.
Proof.
  intros Hn. apply rows_eq; [apply rows_length|]. intros y Hy. rewrite rows_lookup, !row_at_0 by (rewrite ?length_app; cbn; lia). f_equal.
  rewrite length_app. cbn [length]. replace (length lines + 1 - 25 + y)%nat with y by lia. replace (length lines - 25 + y)%nat with y by lia.
  destruct (decide (y < length lines)%nat); [by rewrite lookup_app_l|]. rewrite lookup_app_r by lia. rewrite (lookup_ge_None_2 lines) by lia. by destruct (y - length lines)%nat.
Qed.

Lemma rows_newline_scroll lines : (25 ≤ length lines)%nat → rows (lines ++ [blank_line]) 0 = drop 1 (rows lines 0) ++ [blank_line].
Proof.
  intros Hn. apply rows_eq; [rewrite length_app, length_drop, rows_length; done|]. intros y Hy. rewrite (row_at_0 (lines ++ _)) by (rewrite ?length_app; cbn; lia).
  rewrite length_app. cbn [length]. destruct (decide (y < 24)%nat).
  - rewrite lookup_app_l by (rewrite length_drop, rows_length; lia). rewrite lookup_drop, rows_lookup, row_at_0 by lia. rewrite lookup_app_l by lia. do 3 f_equal. lia.
  - rewrite lookup_app_r by (rewrite length_drop, rows_length; lia). rewrite length_drop, rows_length. replace y with 24%nat by lia. cbn [Nat.sub lookup list_lookup].
    rewrite lookup_app_r by lia. by replace (length lines + 1 - 25 + 24 - length lines)%nat with 0%nat by lia.
Qed.

Lemma set_last_lookup x v lines i : set_last x v lines !! i = (if (i =? length lines - 1)%nat then <[Z.to_nat x := v]> <$> lines !! i else lines !! i).
Proof. unfold set_last. destruct (Nat.eqb_spec i (length lines - 1)) as [->|E]; [apply list_lookup_alter_eq|by apply list_lookup_alter_ne]. Qed.
Lemma set_last_length x v lines : length (set_last x v lines) = length lines.
Proof. apply length_alter. Qed.

Lemma rows_put x v lines l : last lines = Some l → rows (set_last x v lines) 0 = <[(Nat.min (length lines - 1) 24)%nat := <[Z.to_nat x := v]> l]> (rows lines 0).
Proof.
  intros Hl. assert (Hn : (1 ≤ length lines)%nat) by (destruct lines; [done|cbn; lia]). rewrite last_lookup in Hl. replace (Init.Nat.pred (length lines)) with (length lines - 1)%nat in Hl by lia.
  apply rows_eq; [by rewrite length_insert, rows_length|]. intros y Hy. rewrite row_at_0 by (rewrite ?set_last_length; lia). rewrite set_last_length, set_last_lookup.
  destruct (Nat.eqb_spec (length lines - 25 + y) (length lines - 1)) as [E|E].
  - rewrite E, Hl. replace y with (Nat.min (length lines - 1) 24) by lia. rewrite list_lookup_insert_eq by (rewrite rows_length; lia). done.
  - rewrite list_lookup_insert_ne by lia. by rewrite rows_lookup, row_at_0.
Qed.

(** ** The operations refine those of the document *)

Lemma screen_eq d b : b = concat (rows (d_lines d) (d_off d)) → b = screen d.
Proof. done. Qed.

Lemma terminal_newline_shows d t : shows d t → d_off d = 0 → d_graphics d = false → ∃ t', terminal_newline t = Some (tt, t') ∧ shows (d_newline d) t'.
Proof.
  intros [Hh Hs] Ho Hg. pose proof Hh as []. unfold terminal_newline, mbind, M_bind, modify, get. tfields. rewrite h_row0.
  replace (u32 (Z.min (nlines d - 1) 24 + 1)) with (Z.min (nlines d) 25) by mlia.
  assert (Hnext : ∀ r c, next_line (with_place r c t) = Some (tt, after_line d (with_place r c t))) by (intros r c; by apply next_line_eq).
  destruct (Z.ltb_spec (Z.min (nlines d) 25) TTY_HEIGHT) as [Hr|Hr]; unfold TTY_HEIGHT in *.
  - rewrite Hnext. eexists. split; [done|]. split; [apply holds_newline; [done|lia|done]|]. unfold after_line. tfields. rewrite Hs. unfold screen, d_newline. tfields. rewrite Ho.
    by rewrite rows_newline_below by lia.
  - unfold put. change (with_place (25 - 1) 0 (with_place (Z.min (nlines d) 25) 0 t)) with (with_place 24 0 t). rewrite Hnext. unfold after_line at 1 2. tfields. rewrite h_off0, Ho, h_graphics0, Hg. cbn [Z.eqb negb andb].
    assert (Hlen : length (t_buffer t) = 2000%nat) by (by rewrite Hs, length_screen).
    rewrite scroll_screen by done. unfold after_line at 1 2. tfields.
    rewrite put_cells_splice; [|done|unfold after_line, TTY_WIDTH; tfields; rewrite length_app, !length_drop, length_replicate; lia].
    eexists. split; [done|]. split; [apply holds_buffer, holds_buffer, holds_newline; [done|lia|done]|]. unfold after_line. tfields. rewrite h_color0. fold blank. fold blank_line.
    unfold screen, d_newline. tfields. rewrite Ho, rows_newline_scroll by lia. rewrite concat_app. cbn [concat]. rewrite app_nil_r.
    rewrite <- (drop_concat 80 1) by (by apply rows_width). replace (concat (rows (d_lines d) 0)) with (t_buffer t) by (rewrite Hs; unfold screen; by rewrite Ho).
    unfold splice, TTY_WIDTH. rewrite take_app_le by (rewrite length_drop; lia). rewrite take_ge by (rewrite length_drop; lia). f_equal.
    rewrite drop_ge; [by rewrite app_nil_r|]. rewrite length_app, length_drop, length_drop, (length_blank_line : length blank_line = 80%nat). lia.
Qed.

(** The line of the cursor. *)
Lemma last_line d t : holds d t → ∃ l, last (d_lines d) = Some l ∧ of_width 80 l ∧ d_lines d !! (length (d_lines d) - 1)%nat = Some l.
Proof.
  intros []. destruct (lookup_lt_is_Some_2 (d_lines d) (length (d_lines d) - 1)) as [l Hl]; [lia|]. exists l. split_and!; [|by eapply (Forall_lookup_1 _ _ _ _ h_width0)|done].
  rewrite last_lookup. rewrite <- Hl. f_equal. lia.
Qed.

Definition d_set (v : Z) (d : document) : document := mk_doc (set_last (d_col d) v (d_lines d)) (d_col d + 1) (d_off d) (d_graphics d) (d_serial d).

Lemma holds_put d t v l : holds d t → 0 ≤ d_col d < 80 → d_lines d !! (length (d_lines d) - 1)%nat = Some l → of_width 80 l →
  holds (d_set v d) (with_place (t_row t) (u32 (t_column t + 1))
    (with_scrollback (<[Z.to_nat ((nlines d - 1) mod 200) := <[Z.to_nat (d_col d) := v]> l]> (t_scrollback t)) t)).
Proof.
  intros [] Hc Hl Hw. unfold d_set, kept in *. constructor; unfold kept; tfields; rewrite ?set_last_length; try done.
  - apply Forall_lookup. intros i x. rewrite set_last_lookup. case_match; [|by apply Forall_lookup].
    destruct (d_lines d !! i) as [y|] eqn:Ey; [|done]. intros [= <-]. unfold of_width. rewrite length_insert. by eapply (Forall_lookup_1 _ _ _ _ h_width0).
  - rewrite h_col0. mlia.
  - by rewrite length_insert.
  - apply Forall_insert; [done|]. unfold of_width. by rewrite length_insert.
  - intros i x Hi Hn. replace (Z.to_nat ((nlines d - 1) mod 200)) with ((length (d_lines d) - 1) mod 200)%nat.
    2: { apply Nat2Z.inj. rewrite Nat2Z.inj_mod, Z2Nat.id by (apply Z.mod_pos_bound; lia). f_equal. lia. }
    rewrite set_last_lookup in Hi. destruct (Nat.eqb_spec i (length (d_lines d) - 1)) as [->|Hne].
    + rewrite Hl in Hi. injection Hi as <-. apply list_lookup_insert_eq. rewrite h_ring_len0. apply Nat.mod_upper_bound. lia.
    + pose proof (lookup_lt_Some _ _ _ Hi). rewrite list_lookup_insert_ne; [apply h_ring0; [done|lia]|]. intros E. apply (f_equal Z.of_nat) in E. rewrite !Nat2Z.inj_mod in E. mlia.
Qed.

Lemma putentry_shows c d t : shows d t → d_off d = 0 → d_graphics d = false → 0 ≤ d_col d < 80 →
  ∃ t', terminal_putentryat c (t_color t) (t_column t) (t_row t) t = Some (tt, t') ∧ shows (d_set (cell c) d) (with_place (t_row t') (u32 (t_column t' + 1)) t').
Proof.
  intros [Hh Hs] Ho Hg Hc. destruct (last_line d t Hh) as (l & Hlast & Hw & Hl). pose proof Hh as []. unfold terminal_putentryat, scrollback_index_for_row, mbind, M_bind, get, lift, put.
  rewrite rows_back_small by lia. rewrite Z.sub_diag, Z.sub_0_r, wrap_index_mod. pose proof (Z.mod_pos_bound (nlines d - 1) 200 eq_refl) as Hm.
  replace (s32 (t_cursor_line t) mod 200) with ((nlines d - 1) mod 200) by (rewrite h_cursor0; mlia).
  assert (Hring : t_scrollback t !! Z.to_nat ((nlines d - 1) mod 200) = Some l).
  { replace (Z.to_nat _) with ((length (d_lines d) - 1) mod 200)%nat; [apply h_ring0; [done|lia]|]. apply Nat2Z.inj. rewrite Nat2Z.inj_mod, Z2Nat.id by lia. f_equal. lia. }
  rewrite zlookup_nonneg, Hring, h_col0 by lia. unfold of_width in Hw. rewrite zupdate_Some by lia. rewrite zupdate_Some by lia. rewrite h_color0. fold (cell c).
  tfields. rewrite h_off0, Ho, h_graphics0, Hg. cbn [Z.eqb negb andb].
  assert (Hlen : length (t_buffer t) = 2000%nat) by (by rewrite Hs, length_screen).
  assert (Hat : u32 (t_row t * TTY_WIDTH + d_col d) = t_row t * 80 + d_col d) by (unfold TTY_WIDTH; rewrite h_row0; mlia).
  rewrite Hat, put_cells_splice by (tfields; cbn [length]; lia). eexists. split; [done|]. split.
  - exact (holds_buffer _ _ _ (holds_put d t (cell c) l Hh Hc Hl Hw)).
  - tfields. unfold screen, d_set. tfields. rewrite Ho, (rows_put _ _ _ l) by done.
    rewrite (concat_insert 80 _ _ _ _ l); [|by apply rows_width| |lia].
    + rewrite splice_one by lia. rewrite Hs. unfold screen. rewrite Ho. f_equal. rewrite h_row0. lia.
    + rewrite rows_lookup, row_at_0 by lia. replace (length (d_lines d) - 25 + Nat.min (length (d_lines d) - 1) 24)%nat with (length (d_lines d) - 1)%nat by lia. by rewrite Hl.
Qed.

Lemma put_here_shows c d t : shows d t → d_off d = 0 → d_graphics d = false → 0 ≤ d_col d < 80 →
  ∃ t', put_here c t = Some (tt, t') ∧ shows (d_put c d) t' ∧ 0 ≤ d_col (d_put c d) < 80 ∧ d_off (d_put c d) = 0 ∧ d_graphics (d_put c d) = false.
Proof.
  intros Hs Ho Hg Hc. destruct (putentry_shows c d t Hs Ho Hg Hc) as (t1 & H1 & Hs1). unfold put_here, mbind, M_bind, get, modify. rewrite H1. tfields.
  pose proof Hs1 as [[] _]. cbn [t_column with_place] in h_col0. rewrite h_col0 in Hs1 |- *. unfold d_put. change (mk_doc (set_last _ _ _) _ _ _ _) with (d_set (cell c) d).
  unfold TTY_WIDTH. destruct (Z.leb_spec 80 (d_col (d_set (cell c) d))) as [H80|H80].
  - destruct (terminal_newline_shows _ _ Hs1) as (t2 & -> & Hs2); [done|done|]. exists t2. split; [done|]. split; [done|]. cbn. split_and!; done || lia.
  - eexists. split; [done|]. split; [done|]. cbn in *. split_and!; done || lia.
Qed.

Lemma put_spaces_shows n d t : shows d t → d_off d = 0 → d_graphics d = false → 0 ≤ d_col d < 80 →
  ∃ t', put_spaces n t = Some (tt, t') ∧ shows (Nat.iter n (d_put 32) d) t' ∧ 0 ≤ d_col (Nat.iter n (d_put 32) d) < 80.
Proof.
  revert d t. induction n as [|n IH]; intros d t Hs Ho Hg Hc; [by exists t|]. destruct (put_here_shows 32 d t Hs Ho Hg Hc) as (t1 & H1 & Hs1 & Hc1 & Ho1 & Hg1).
  destruct (IH _ _ Hs1 Ho1 Hg1 Hc1) as (t2 & H2 & Hs2 & Hc2). exists t2. cbn [put_spaces]. unfold mbind, M_bind. rewrite H1, H2. rewrite Nat.iter_succ_r. done.
Qed.

Lemma holds_offset d t off : holds d t → 0 ≤ off ≤ Z.max 0 (kept d - 25) → holds (mk_doc (d_lines d) (d_col d) off (d_graphics d) (d_serial d)) (with_offset off t).
Proof. intros [] Ho. by constructor. Qed.

(** A document whose cursor is on a line. *)
Definition shown (d : document) (t : tty_t) : Prop := shows d t ∧ 0 ≤ d_col d < 80.

Lemma snap_shows d t : holds d t → length (t_buffer t) = 2000%nat → (d_off d = 0 → t_buffer t = screen d) → d_graphics d = false →
  ∃ t', snap_to_bottom t = Some (tt, t') ∧ shows (mk_doc (d_lines d) (d_col d) 0 false (d_serial d)) t'.
Proof.
  intros Hh Hl Hs Hg. unfold snap_to_bottom, mbind, M_bind, get, put. rewrite (h_off _ _ Hh). destruct d as [lines col off g ser]. cbn in Hg. subst g. tfields.
  destruct (Z.eqb_spec off 0) as [->|E]; cbn [negb]; [exists t; split; [done|]; split; [done|by apply Hs]|].
  apply terminal_redraw_shows; [|done|done]. apply (holds_offset _ t 0 Hh). lia.
Qed.

Lemma put_text_shown c d t : shows d t → d_off d = 0 → d_graphics d = false → 0 ≤ d_col d < 80 →
  ∃ t', put_text c t = Some (tt, t') ∧
    shown (if c =? 10 then d_newline d else if c =? 8 then mk_doc (d_lines d) (Z.max 0 (d_col d - 1)) 0 false (d_serial d) else
      if c =? 9 then Nat.iter (Z.to_nat (4 - d_col d mod 4)) (d_put 32) d else d_put c d) t'.
Proof.
  intros Hs Ho Hg Hc. unfold put_text. destruct (c =? 10).
  { destruct (terminal_newline_shows d t Hs Ho Hg) as (t' & H1 & H2). exists t'. split; [done|]. split; [done|]. cbn. lia. }
  pose proof Hs as [Hh Hb]. destruct (c =? 8).
  { unfold mbind, M_bind, get, put. rewrite (h_col _ _ Hh). destruct d as [lines col off g ser]. cbn in *. subst off g. destruct (Z.ltb_spec 0 col) as [H|H].
    - eexists. split; [done|]. rewrite Z.max_r by lia. split; [|cbn; lia]. split; [|done]. by destruct Hh.
    - eexists. split; [done|]. rewrite Z.max_l by lia. replace 0 with col at 1 by lia. done. }
  destruct (c =? 9).
  - unfold mbind, M_bind, get. rewrite (h_col _ _ Hh). destruct (put_spaces_shows (Z.to_nat (4 - d_col d mod 4)) d t Hs Ho Hg Hc) as (t' & H1 & H2 & H3). by exists t'.
  - destruct (put_here_shows c d t Hs Ho Hg Hc) as (t' & H1 & H2 & H3 & _). by exists t'.
Qed.

Lemma term_putchar_shown c d t : shown d t → ∃ t', term_putchar c t = Some (tt, t') ∧ shown (d_putchar c d) t'.
Proof.
  intros [[Hh Hs] Hc]. set (d1 := mk_doc (d_lines d) (d_col d) (d_off d) (d_graphics d) (d_serial d ++ [c])). set (t1 := with_serial (t_serial t ++ [c]) t).
  assert (Hh1 : holds d1 t1) by (destruct Hh; constructor; cbn; try done; by rewrite h_serial0).
  unfold term_putchar, serial_putchar, d_putchar, mbind, M_bind, modify, get. fold d1 t1. cbv zeta. rewrite (h_graphics _ _ Hh1).
  destruct (d_graphics d1) eqn:Hg; [by exists t1|]. destruct (snap_shows d1 t1 Hh1) as (t2 & -> & Hs2); [|done|done|].
  - unfold t1. tfields. rewrite Hs. apply length_screen, Hh.
  - by apply put_text_shown.
Qed.

Lemma scroll_shown d t : shown d t → (∃ t', terminal_scroll_up t = Some (tt, t') ∧ shown (d_move 5 d) t') ∧ (∃ t', terminal_scroll_down t = Some (tt, t') ∧ shown (d_move (-5) d) t').
Proof.
  intros [[Hh Hs] Hc]. assert (Hlen : length (t_buffer t) = 2000%nat) by (rewrite Hs; apply length_screen, Hh).
  assert (Hoff : ∀ off, 0 ≤ off ≤ Z.max 0 (kept d - 25) → d_graphics d = false → ∃ t', terminal_redraw (with_offset off t) = Some (tt, t') ∧
    shown (mk_doc (d_lines d) (d_col d) off (d_graphics d) (d_serial d)) t').
  { intros off Ho Hg. destruct (terminal_redraw_shows _ (with_offset off t) (holds_offset d t off Hh Ho)) as (t' & H1 & H2); [done|done|]. by exists t'. }
  pose proof Hh as []. unfold terminal_scroll_up, terminal_scroll_down, d_move, mbind, M_bind, get, put, TTY_HEIGHT. rewrite h_graphics0, h_total0, h_off0.
  destruct (d_graphics d) eqn:Hg; [split; by exists t|]. assert (Hk : s32 (kept d) = kept d) by (unfold kept; mlia). rewrite Hk.
  split.
  - replace (if (if kept d - 25 <? 0 then 0 else kept d - 25) <? d_off d + 5 then _ else _) with (Z.max 0 (Z.min (d_off d + 5) (Z.max 0 (kept d - 25)))); [apply Hoff; [lia|done]|].
    destruct (Z.ltb_spec (kept d - 25) 0); split_ifs; lia.
  - replace (if d_off d - 5 <? 0 then 0 else d_off d - 5) with (Z.max 0 (Z.min (d_off d + -5) (Z.max 0 (kept d - 25)))); [apply Hoff; [lia|done]|]. split_ifs; lia.
Qed.

(** ** The start *)

Lemma clear_lines_ring n i t : (i + n = 200)%nat → length (t_scrollback t) = 200%nat → Forall (of_width 80) (t_scrollback t) →
  clear_lines n (Z.of_nat i) t = Some (tt, with_scrollback (take i (t_scrollback t) ++ replicate n blank_line) t).
Proof.
  revert i t. induction n as [|n IH]; intros i t Hi Hl Hw; cbn [clear_lines]; [cbn [replicate]; rewrite app_nil_r, take_ge by lia; by destruct t|].
  unfold mbind, M_bind. rewrite clear_line_ring by (done || lia). replace (Z.of_nat i + 1) with (Z.of_nat (S i)) by lia. rewrite Nat2Z.id.
  rewrite IH; [|lia|tfields; by rewrite length_insert|tfields; apply Forall_insert; [done|apply length_blank_line]]. tfields.
  assert (Ht : take (S i) (<[i := blank_line]> (t_scrollback t)) = take i (t_scrollback t) ++ [blank_line]).
  { rewrite (take_S_r _ _ blank_line) by (apply list_lookup_insert_eq; lia). by rewrite take_insert_ge by lia. }
  rewrite Ht, <- app_assoc. by destruct t.
Qed.

Definition d_start (t : tty_t) : document := mk_doc [blank_line] 0 0 (t_graphics t) (t_serial t).

Definition powered (t : tty_t) : Prop := length (t_buffer t) = 2000%nat ∧ length (t_scrollback t) = 200%nat ∧ Forall (of_width 80) (t_scrollback t).

Lemma screen_start t : screen (d_start t) = replicate (25 * 80) blank.
Proof. reflexivity. Qed.

Lemma init_term_shown t : powered t → ∃ t', init_term t = Some (tt, t') ∧ shown (d_start t) t'.
Proof.
  intros (Hb & Hl & Hw). unfold init_term, mbind, M_bind, modify, get. change 0 with (Z.of_nat 0) at 5. rewrite (clear_lines_ring 200 0); [|done|done|done].
  tfields. fold blank. rewrite put_cells_splice; [|done|tfields; rewrite length_replicate; lia]. eexists. split; [done|]. split; [|cbn; lia]. split.
  - constructor; unfold kept; tfields; try done.
    + by constructor; [apply length_blank_line|].
    + apply Forall_app. split; [constructor|]. apply Forall_replicate, length_blank_line.
    + intros i l Hi Hn. destruct i as [|i]; [injection Hi as <-|done]. reflexivity.
  - tfields. rewrite screen_start. unfold splice. rewrite drop_ge, app_nil_r; [done|]. rewrite length_replicate. lia.
Qed.

(** ** Sequences of operations *)

(** Output, the page keys, and the changes of the display mode, which restore the text screen. *)
Inductive tty_op := TPut (c : Z) | TUp | TDown | TMode (graphics : bool).

Definition run_op (o : tty_op) : M tty_t unit :=
  match o with TPut c => term_putchar c | TUp => terminal_scroll_up | TDown => terminal_scroll_down | TMode g => modify (with_graphics g) end.
Fixpoint run_ops (os : list tty_op) : M tty_t unit := match os with [] => mret tt | o :: os => run_op o;; run_ops os end.

Definition d_op (o : tty_op) (d : document) : document :=
  match o with TPut c => d_putchar c d | TUp => d_move 5 d | TDown => d_move (-5) d | TMode g => mk_doc (d_lines d) (d_col d) (d_off d) g (d_serial d) end.
Definition d_ops (os : list tty_op) (d : document) : document := foldl (λ d o, d_op o d) d os.

Lemma run_op_shown o d t : shown d t → ∃ t', run_op o t = Some (tt, t') ∧ shown (d_op o d) t'.
Proof.
  intros H. destruct o as [c| | |g]; [by apply term_putchar_shown|by apply scroll_shown|by apply scroll_shown|].
  eexists. split; [done|]. destruct H as [[[] Hs] Hc]. done.
Qed.

Lemma run_ops_shown os d t : shown d t → ∃ t', run_ops os t = Some (tt, t') ∧ shown (d_ops os d) t'.
Proof.
  revert d t. induction os as [|o os IH]; intros d t H; [by exists t|]. destruct (run_op_shown o d t H) as (t1 & H1 & Hs1). destruct (IH _ _ Hs1) as (t2 & H2 & Hs2).
  exists t2. cbn [run_ops]. unfold mbind, M_bind. by rewrite H1, H2.
Qed.

(** C33 (refinement): the terminal refines a document.  From the start, under any sequence of output, page keys and changes of the display mode, every
    operation returns, and the screen shows 25 consecutive lines of the document of all that was written: with wrapped lines,
    tabs and backspaces, up to 199 lines back, blank beyond.  The serial port has received every character. *)
Theorem tty_shows_document t0 os : powered t0 →
  ∃ t, (init_term;; run_ops os) t0 = Some (tt, t) ∧ t_buffer t = screen (d_ops os (d_start t0)) ∧ t_serial t = d_serial (d_ops os (d_start t0)).
Proof.
  intros H0. destruct (init_term_shown t0 H0) as (t1 & H1 & Hs1). destruct (run_ops_shown os _ _ Hs1) as (t2 & H2 & [[Hh Hs] _]). exists t2.
  unfold mbind, M_bind. rewrite H1, H2. split; [done|]. split; [done|apply Hh].
Qed.

Definition powered_on : tty_t := mk_tty (replicate 2000 0) (replicate 200 (replicate 80 0)) 0 0 0 0 0 0 false [].

(** Thirty lines, of which the first five are out of view until the page key. *)
Definition thirty : list tty_op := TPut <$> concat (replicate 30 (str "ab" ++ [10])).
Lemma tty_shows_document_witness : ∃ t, (init_term;; run_ops (thirty ++ [TUp])) powered_on = Some (tt, t) ∧
  t_buffer t = screen (d_ops (thirty ++ [TUp]) (d_start powered_on)) ∧ take 2 (drop 80 (t_buffer t)) = [cell 97; cell 98].
Proof.
  destruct (tty_shows_document powered_on (thirty ++ [TUp])) as (t & H1 & H2 & _).
  - split; [reflexivity|]. split; [reflexivity|]. apply Forall_replicate. reflexivity.
  - exists t. split; [exact H1|]. split; [exact H2|]. rewrite H2. vm_compute. reflexivity.
Defined.
