(* ===== verification/Vga.v ===== *)
(** * The display driver ([src/src/arch/i686/vga.c])

    The driver works on the ports and the memory window of a VGA.  The adapter behind them is modelled
    as its manual describes it: banks of registers behind an index and a data port, a palette with
    an address that advances, four planes of memory, and the extension registers of the Bochs adapter,
    which keep of a value what it supports ([bga_keeps]). *)

From S2P Require Import Prelude LibcNum Ld86.

(** ** Ports *)

Definition VGA_WIDTH : Z := 320.
Definition VGA_HEIGHT : Z := 200.
Definition VGA_MISC_WRITE : Z := 0x3C2.
Definition VGA_MISC_READ : Z := 0x3CC.
Definition VGA_SEQ_INDEX : Z := 0x3C4.
Definition VGA_SEQ_DATA : Z := 0x3C5.
Definition VGA_CRTC_INDEX : Z := 0x3D4.
Definition VGA_CRTC_DATA : Z := 0x3D5.
Definition VGA_GC_INDEX : Z := 0x3CE.
Definition VGA_GC_DATA : Z := 0x3CF.
Definition VGA_AC_INDEX : Z := 0x3C0.
Definition VGA_AC_WRITE : Z := 0x3C0.
Definition VGA_AC_READ : Z := 0x3C1.
Definition VGA_DAC_READ_INDEX : Z := 0x3C7.
Definition VGA_DAC_WRITE_INDEX : Z := 0x3C8.
Definition VGA_DAC_DATA : Z := 0x3C9.
Definition VGA_INSTAT_READ : Z := 0x3DA.
Definition VBE_DISPI_INDEX_ID : Z := 0.
Definition VBE_DISPI_INDEX_XRES : Z := 1.
Definition VBE_DISPI_INDEX_YRES : Z := 2.
Definition VBE_DISPI_INDEX_BPP : Z := 3.
Definition VBE_DISPI_INDEX_ENABLE : Z := 4.
Definition VBE_DISPI_DISABLED : Z := 0x00.
Definition VBE_DISPI_ENABLED : Z := 0x01.
Definition VBE_DISPI_LFB_ENABLED : Z := 0x40.
Definition VGA_PLANE_SIZE : Z := 0x10000.

(** ** The adapter *)

(** The memory is indexed by plane and offset.  [a_dac] has three entries for each colour and [a_dac_at] is
    the next one; [a_ac_data] says that the next byte for port 0x3C0 is data. *)
Record adapter := mk_adapter {
  a_misc : Z;
  a_seq : list Z;
  a_seq_index : Z;
  a_crtc : list Z;
  a_crtc_index : Z;
  a_gc : list Z;
  a_gc_index : Z;
  a_ac : list Z;
  a_ac_index : Z;
  a_ac_data : bool;
  a_dac : list Z;
  a_dac_at : Z;
  a_bga : gmap Z Z;
  a_mem : gmap (Z * Z) Z
}.

Definition set_misc (v : Z) (a : adapter) : adapter := mk_adapter v (a_seq a) (a_seq_index a) (a_crtc a) (a_crtc_index a) (a_gc a) (a_gc_index a) (a_ac a) (a_ac_index a) (a_ac_data a) (a_dac a) (a_dac_at a) (a_bga a) (a_mem a).
Definition set_seq (l : list Z) (i : Z) (a : adapter) : adapter := mk_adapter (a_misc a) l i (a_crtc a) (a_crtc_index a) (a_gc a) (a_gc_index a) (a_ac a) (a_ac_index a) (a_ac_data a) (a_dac a) (a_dac_at a) (a_bga a) (a_mem a).
Definition set_crtc (l : list Z) (i : Z) (a : adapter) : adapter := mk_adapter (a_misc a) (a_seq a) (a_seq_index a) l i (a_gc a) (a_gc_index a) (a_ac a) (a_ac_index a) (a_ac_data a) (a_dac a) (a_dac_at a) (a_bga a) (a_mem a).
Definition set_gc (l : list Z) (i : Z) (a : adapter) : adapter := mk_adapter (a_misc a) (a_seq a) (a_seq_index a) (a_crtc a) (a_crtc_index a) l i (a_ac a) (a_ac_index a) (a_ac_data a) (a_dac a) (a_dac_at a) (a_bga a) (a_mem a).
Definition set_ac (l : list Z) (i : Z) (d : bool) (a : adapter) : adapter := mk_adapter (a_misc a) (a_seq a) (a_seq_index a) (a_crtc a) (a_crtc_index a) (a_gc a) (a_gc_index a) l i d (a_dac a) (a_dac_at a) (a_bga a) (a_mem a).
Definition set_dac (l : list Z) (i : Z) (a : adapter) : adapter := mk_adapter (a_misc a) (a_seq a) (a_seq_index a) (a_crtc a) (a_crtc_index a) (a_gc a) (a_gc_index a) (a_ac a) (a_ac_index a) (a_ac_data a) l i (a_bga a) (a_mem a).
Definition set_bga (m : gmap Z Z) (a : adapter) : adapter := mk_adapter (a_misc a) (a_seq a) (a_seq_index a) (a_crtc a) (a_crtc_index a) (a_gc a) (a_gc_index a) (a_ac a) (a_ac_index a) (a_ac_data a) (a_dac a) (a_dac_at a) m (a_mem a).
Definition set_mem (m : gmap (Z * Z) Z) (a : adapter) : adapter := mk_adapter (a_misc a) (a_seq a) (a_seq_index a) (a_crtc a) (a_crtc_index a) (a_gc a) (a_gc_index a) (a_ac a) (a_ac_index a) (a_ac_data a) (a_dac a) (a_dac_at a) (a_bga a) m.

Definition reg (l : list Z) (i : Z) : Z := default 0 (zlookup l i).
Definition set_reg (l : list Z) (i v : Z) : list Z := default l (zupdate l i v).

(** Bit 7 of register 0x11 of the CRTC protects registers 0 to 7. *)
Definition crtc_write (v : Z) (a : adapter) : list Z :=
  if Z.testbit (reg (a_crtc a) 0x11) 7 && (a_crtc_index a <? 8) then a_crtc a else set_reg (a_crtc a) (a_crtc_index a) v.

Definition a_outb (port v : Z) (a : adapter) : adapter :=
  if port =? VGA_MISC_WRITE then set_misc v a else
  if port =? VGA_SEQ_INDEX then set_seq (a_seq a) v a else
  if port =? VGA_SEQ_DATA then set_seq (set_reg (a_seq a) (a_seq_index a) v) (a_seq_index a) a else
  if port =? VGA_CRTC_INDEX then set_crtc (a_crtc a) v a else
  if port =? VGA_CRTC_DATA then set_crtc (crtc_write v a) (a_crtc_index a) a else
  if port =? VGA_GC_INDEX then set_gc (a_gc a) v a else
  if port =? VGA_GC_DATA then set_gc (set_reg (a_gc a) (a_gc_index a) v) (a_gc_index a) a else
  if port =? VGA_AC_INDEX then
    if a_ac_data a then set_ac (set_reg (a_ac a) (Z.land (a_ac_index a) 0x1F) v) (a_ac_index a) false a else set_ac (a_ac a) v true a
  else
  if port =? VGA_DAC_READ_INDEX then set_dac (a_dac a) (3 * v) a else
  if port =? VGA_DAC_WRITE_INDEX then set_dac (a_dac a) (3 * v) a else
  if port =? VGA_DAC_DATA then set_dac (set_reg (a_dac a) (a_dac_at a) v) (a_dac_at a + 1) a else a.

Definition a_inb (port : Z) (a : adapter) : Z * adapter :=
  if port =? VGA_MISC_READ then (a_misc a, a) else
  if port =? VGA_SEQ_DATA then (reg (a_seq a) (a_seq_index a), a) else
  if port =? VGA_CRTC_DATA then (reg (a_crtc a) (a_crtc_index a), a) else
  if port =? VGA_GC_DATA then (reg (a_gc a) (a_gc_index a), a) else
  if port =? VGA_AC_READ then (reg (a_ac a) (Z.land (a_ac_index a) 0x1F), a) else
  if port =? VGA_INSTAT_READ then (0, set_ac (a_ac a) (a_ac_index a) false a) else
  if port =? VGA_DAC_DATA then (reg (a_dac a) (a_dac_at a), set_dac (a_dac a) (a_dac_at a + 1) a) else (0xFF, a).

(** The window: a byte of the plane that is selected for reading, and a byte to the planes that are selected
    for writing; with chain-4 (bit 3 of the memory mode), the low bits of the address select the plane. *)
Definition chain4 (a : adapter) : bool := Z.testbit (reg (a_seq a) 4) 3.
Definition a_load (off : Z) (a : adapter) : Z :=
  default 0 (a_mem a !! (if chain4 a then (off mod 4, off - off mod 4) else (reg (a_gc a) 4, off))).
Definition a_store (off v : Z) (a : adapter) : adapter :=
  set_mem (if chain4 a then <[(off mod 4, off - off mod 4) := v]> (a_mem a)
           else foldr (λ p m, if Z.testbit (reg (a_seq a) 2) p then <[(p, off) := v]> m else m) (a_mem a) [0; 1; 2; 3]) a.

(** ** The state of the driver *)

Record saved_t := mk_saved { sv_misc : Z; sv_seq : list Z; sv_crtc : list Z; sv_gc : list Z; sv_ac : list Z; sv_dac : list Z; sv_planes : list (list Z) }.

Record vga_t := mk_vga { v_adapter : adapter; v_saved : saved_t; v_state_saved : bool; v_mode13h : bool; v_bga : bool }.

Definition with_adapter (a : adapter) (s : vga_t) : vga_t := mk_vga a (v_saved s) (v_state_saved s) (v_mode13h s) (v_bga s).
Definition with_saved (v : saved_t) (s : vga_t) : vga_t := mk_vga (v_adapter s) v true (v_mode13h s) (v_bga s).
Definition with_modes (m b : bool) (s : vga_t) : vga_t := mk_vga (v_adapter s) (v_saved s) (v_state_saved s) m b.

#[local] Notation V := (M vga_t).

Definition outb (port v : Z) : V unit := modify (λ s, with_adapter (a_outb port (u8 v) (v_adapter s)) s).
Definition inb (port : Z) : V Z := s ← get; let '(v, a) := a_inb port (v_adapter s) in put (with_adapter a s);; mret v.
Definition vload (off : Z) : V Z := s ← get; mret (a_load off (v_adapter s)).
Definition vstore (off v : Z) : V unit := modify (λ s, with_adapter (a_store off v (v_adapter s)) s).

(** ** Saving and restoring *)

(** A register of a bank: its index, then its value. *)
Definition out_reg (index data i v : Z) : V unit := outb index i;; outb data v.
Definition in_reg (index data i : Z) : V Z := outb index i;; inb data.

Fixpoint read_regs (index data : Z) (n : nat) (i : Z) : V (list Z) :=
  match n with O => mret [] | S n => v ← in_reg index data i; vs ← read_regs index data n (i + 1); mret (v :: vs) end.
Fixpoint write_regs (index data i : Z) (vs : list Z) : V unit :=
  match vs with [] => mret tt | v :: vs => out_reg index data i v;; write_regs index data (i + 1) vs end.

(** The attribute controller has one port for both, which reading the status resets. *)
Fixpoint read_ac (n : nat) (i : Z) : V (list Z) :=
  match n with O => mret [] | S n => inb VGA_INSTAT_READ;; v ← in_reg VGA_AC_INDEX VGA_AC_READ i; vs ← read_ac n (i + 1); mret (v :: vs) end.
Fixpoint write_ac (i : Z) (vs : list Z) : V unit :=
  match vs with [] => mret tt | v :: vs => inb VGA_INSTAT_READ;; out_reg VGA_AC_INDEX VGA_AC_WRITE i v;; write_ac (i + 1) vs end.

Fixpoint read_dac (n : nat) : V (list Z) := match n with O => mret [] | S n => v ← inb VGA_DAC_DATA; vs ← read_dac n; mret (v :: vs) end.
Fixpoint write_dac (vs : list Z) : V unit := match vs with [] => mret tt | v :: vs => outb VGA_DAC_DATA v;; write_dac vs end.

Definition read_palette : V (list Z) := outb VGA_DAC_READ_INDEX 0;; read_dac (256 * 3).
Definition write_palette (vs : list Z) : V unit := outb VGA_DAC_WRITE_INDEX 0;; write_dac vs.

Fixpoint read_mem (n : nat) (i : Z) : V (list Z) := match n with O => mret [] | S n => v ← vload i; vs ← read_mem n (i + 1); mret (v :: vs) end.
Fixpoint write_mem (i : Z) (vs : list Z) : V unit := match vs with [] => mret tt | v :: vs => vstore i v;; write_mem (i + 1) vs end.

Fixpoint save_planes (n : nat) (plane : Z) : V (list (list Z)) :=
  match n with
  | O => mret []
  | S n => out_reg VGA_GC_INDEX VGA_GC_DATA 0x04 plane;; p ← read_mem (Z.to_nat VGA_PLANE_SIZE) 0; ps ← save_planes n (plane + 1); mret (p :: ps)
  end.
Fixpoint restore_planes (plane : Z) (ps : list (list Z)) : V unit :=
  match ps with
  | [] => mret tt
  | p :: ps => out_reg VGA_SEQ_INDEX VGA_SEQ_DATA 0x02 (Z.shiftl 1 plane);; write_mem 0 p;; restore_planes (plane + 1) ps
  end.

Definition video_on : V unit := inb VGA_INSTAT_READ;; outb VGA_AC_INDEX 0x20.

Definition vga_save_state : V unit :=
  misc ← inb VGA_MISC_READ;
  seq ← read_regs VGA_SEQ_INDEX VGA_SEQ_DATA 5 0;
  crtc ← read_regs VGA_CRTC_INDEX VGA_CRTC_DATA 25 0;
  gc ← read_regs VGA_GC_INDEX VGA_GC_DATA 9 0;
  ac ← read_ac 21 0;
  video_on;;
  dac ← read_palette;
  out_reg VGA_SEQ_INDEX VGA_SEQ_DATA 0x04 0x06;;
  out_reg VGA_GC_INDEX VGA_GC_DATA 0x05 0x00;;
  out_reg VGA_GC_INDEX VGA_GC_DATA 0x06 0x05;;
  planes ← save_planes 4 0;
  out_reg VGA_SEQ_INDEX VGA_SEQ_DATA 0x04 (reg seq 4);;
  out_reg VGA_GC_INDEX VGA_GC_DATA 0x05 (reg gc 5);;
  out_reg VGA_GC_INDEX VGA_GC_DATA 0x06 (reg gc 6);;
  out_reg VGA_GC_INDEX VGA_GC_DATA 0x04 (reg gc 4);;
  modify (with_saved (mk_saved misc seq crtc gc ac dac planes)).

(** The registers of the sequencer but the first, between the start and the end of a reset. *)
Definition write_seq (vs : list Z) : V unit :=
  out_reg VGA_SEQ_INDEX VGA_SEQ_DATA 0x00 0x01;; write_regs VGA_SEQ_INDEX VGA_SEQ_DATA 1 (drop 1 vs);; out_reg VGA_SEQ_INDEX VGA_SEQ_DATA 0x00 0x03.

Definition vga_restore_state : V unit :=
  s ← get;
  if negb (v_state_saved s) then mret tt else
  let sv := v_saved s in
  outb VGA_MISC_WRITE (sv_misc sv);;
  write_seq (sv_seq sv);;
  out_reg VGA_CRTC_INDEX VGA_CRTC_DATA 0x11 (Z.land (reg (sv_crtc sv) 0x11) (Z.lnot 0x80));;
  write_regs VGA_CRTC_INDEX VGA_CRTC_DATA 0 (sv_crtc sv);;
  write_regs VGA_GC_INDEX VGA_GC_DATA 0 (sv_gc sv);;
  write_ac 0 (sv_ac sv);;
  video_on;;
  write_palette (sv_dac sv);;
  out_reg VGA_SEQ_INDEX VGA_SEQ_DATA 0x04 0x06;;
  out_reg VGA_GC_INDEX VGA_GC_DATA 0x05 0x00;;
  out_reg VGA_GC_INDEX VGA_GC_DATA 0x06 0x05;;
  restore_planes 0 (sv_planes sv);;
  out_reg VGA_SEQ_INDEX VGA_SEQ_DATA 0x02 (reg (sv_seq sv) 2);;
  out_reg VGA_SEQ_INDEX VGA_SEQ_DATA 0x04 (reg (sv_seq sv) 4);;
  out_reg VGA_GC_INDEX VGA_GC_DATA 0x04 (reg (sv_gc sv) 4);;
  out_reg VGA_GC_INDEX VGA_GC_DATA 0x05 (reg (sv_gc sv) 5);;
  out_reg VGA_GC_INDEX VGA_GC_DATA 0x06 (reg (sv_gc sv) 6).

(** ** Mode 13h *)

Definition mode13h_misc : Z := 0x63.
Definition mode13h_seq : list Z := [0x03; 0x01; 0x0F; 0x00; 0x0E].
Definition mode13h_crtc : list Z :=
  [0x5F; 0x4F; 0x50; 0x82; 0x54; 0x80; 0xBF; 0x1F; 0x00; 0x41; 0x00; 0x00; 0x00; 0x00; 0x00; 0x00; 0x9C; 0x0E; 0x8F; 0x28; 0x40; 0x96; 0xB9; 0xA3; 0xFF].
Definition mode13h_gc : list Z := [0x00; 0x00; 0x00; 0x00; 0x00; 0x40; 0x05; 0x0F; 0xFF].
Definition mode13h_ac : list Z :=
  [0x00; 0x01; 0x02; 0x03; 0x04; 0x05; 0x06; 0x07; 0x08; 0x09; 0x0A; 0x0B; 0x0C; 0x0D; 0x0E; 0x0F; 0x41; 0x00; 0x0F; 0x00; 0x00].

Definition unlock_crtc : V unit := v ← in_reg VGA_CRTC_INDEX VGA_CRTC_DATA 0x11; outb VGA_CRTC_DATA (Z.land v (Z.lnot 0x80)).

Definition vga_write_regs (misc : Z) (seq crtc gc ac : list Z) : V unit :=
  outb VGA_MISC_WRITE misc;;
  write_seq seq;;
  unlock_crtc;;
  write_regs VGA_CRTC_INDEX VGA_CRTC_DATA 0 crtc;;
  write_regs VGA_GC_INDEX VGA_GC_DATA 0 gc;;
  write_ac 0 ac;;
  video_on.

(** ** The palette *)

Definition vga_set_palette_entry (index r g b : Z) : V unit :=
  outb VGA_DAC_WRITE_INDEX index;; outb VGA_DAC_DATA (Z.land r 0x3F);; outb VGA_DAC_DATA (Z.land g 0x3F);; outb VGA_DAC_DATA (Z.land b 0x3F).

Definition cga_palette : list (Z * Z * Z) :=
  [(0, 0, 0); (0, 0, 42); (0, 42, 0); (0, 42, 42); (42, 0, 0); (42, 0, 42); (42, 21, 0); (42, 42, 42);
   (21, 21, 21); (21, 21, 63); (21, 63, 21); (21, 63, 63); (63, 21, 21); (63, 21, 63); (63, 63, 21); (63, 63, 63)].

(** The colour cube, red first, and the ramp of greys. *)
Definition cube : list (Z * Z * Z) :=
  r ← seqZ 0 6; g ← seqZ 0 6; b ← seqZ 0 6; [(u8 (r * 63 / 5), u8 (g * 63 / 5), u8 (b * 63 / 5))].
Definition greys : list (Z * Z * Z) := (λ i, (u8 (i * 63 / 23), u8 (i * 63 / 23), u8 (i * 63 / 23))) <$> seqZ 0 24.

Fixpoint set_palette (index : Z) (cs : list (Z * Z * Z)) : V unit :=
  match cs with [] => mret tt | (r, g, b) :: cs => vga_set_palette_entry (u8 index) r g b;; set_palette (index + 1) cs end.

Definition vga_init_palette : V unit := set_palette 0 cga_palette;; set_palette 16 cube;; set_palette 232 greys.

(** ** Drawing *)

Definition vga_clear (color : Z) : V unit := write_mem 0 (replicate (Z.to_nat (VGA_WIDTH * VGA_HEIGHT)) color).

Definition vga_put_pixel (x y color : Z) : V unit :=
  if (x <? 0) || (VGA_WIDTH <=? x) || (y <? 0) || (VGA_HEIGHT <=? y) then mret tt else vstore (y * VGA_WIDTH + x) color.

(** The columns [col], ..., [col + n - 1] of a row, and [n] rows from [row] on. *)
Fixpoint fill_cols (n : nat) (row col color : Z) : V unit :=
  match n with
  | O => mret tt
  | S n => (if (col <? 0) || (VGA_WIDTH <=? col) then mret tt else vstore (row * VGA_WIDTH + col) color);; fill_cols n row (col + 1) color
  end.
Fixpoint fill_rows (n : nat) (row x w color : Z) : V unit :=
  match n with
  | O => mret tt
  | S n =>
    (if (row <? 0) || (VGA_HEIGHT <=? row) then mret tt else x1 ← lift (sint (x + w)); fill_cols (Z.to_nat (x1 - x)) row x color);;
    fill_rows n (row + 1) x w color
  end.
Definition vga_fill_rect (x y w h color : Z) : V unit := y1 ← lift (sint (y + h)); fill_rows (Z.to_nat (y1 - y)) y x w color.

(** A step of the line: the next point and error, [None] when the arithmetic overflows. *)
Definition line_step (dx dy sx sy x y err : Z) : option (Z * Z * Z) :=
  e2 ← sint (2 * err);
  ndy ← sint (- dy);
  '(err, x) ← (if ndy <? e2 then e ← sint (err - dy); x ← sint (x + sx); Some (e, x) else Some (err, x));
  '(err, y) ← (if e2 <? dx then e ← sint (err + dx); y ← sint (y + sy); Some (e, y) else Some (err, y));
  Some (x, y, err).

Fixpoint line_loop (fuel : nat) (dx dy sx sy x1 y1 x y err color : Z) : V unit :=
  match fuel with
  | O => ub
  | S fuel =>
    vga_put_pixel x y color;;
    if (x =? x1) && (y =? y1) then mret tt else
    '(x, y, err) ← lift (line_step dx dy sx sy x y err);
    line_loop fuel dx dy sx sy x1 y1 x y err color
  end.

(** [if (d < 0) d = -d;] *)
Definition magnitude (d : Z) : V Z := if d <? 0 then lift (sint (- d)) else mret d.

Definition vga_draw_line (fuel : nat) (x0 y0 x1 y1 color : Z) : V unit :=
  dx ← lift (sint (x1 - x0)); dy ← lift (sint (y1 - y0));
  let sx := if 0 <? dx then 1 else -1 in
  let sy := if 0 <? dy then 1 else -1 in
  dx ← magnitude dx; dy ← magnitude dy;
  err ← lift (sint (dx - dy));
  line_loop fuel dx dy sx sy x1 y1 x0 y0 err color.

(** ** Text *)

(** Eight rows for each of the characters 32 to 126; bit 0 is the leftmost column. *)
Definition font8x8 : list (list Z) :=
  [[0x00; 0x00; 0x00; 0x00; 0x00; 0x00; 0x00; 0x00]; [0x18; 0x3C; 0x3C; 0x18; 0x18; 0x00; 0x18; 0x00]; [0x36; 0x36; 0x14; 0x00; 0x00; 0x00; 0x00; 0x00];
   [0x36; 0x36; 0x7F; 0x36; 0x7F; 0x36; 0x36; 0x00]; [0x0C; 0x3E; 0x03; 0x1E; 0x30; 0x1F; 0x0C; 0x00]; [0x00; 0x63; 0x33; 0x18; 0x0C; 0x66; 0x63; 0x00];
   [0x1C; 0x36; 0x1C; 0x6E; 0x3B; 0x33; 0x6E; 0x00]; [0x06; 0x06; 0x03; 0x00; 0x00; 0x00; 0x00; 0x00]; [0x18; 0x0C; 0x06; 0x06; 0x06; 0x0C; 0x18; 0x00];
   [0x06; 0x0C; 0x18; 0x18; 0x18; 0x0C; 0x06; 0x00]; [0x00; 0x66; 0x3C; 0xFF; 0x3C; 0x66; 0x00; 0x00]; [0x00; 0x0C; 0x0C; 0x3F; 0x0C; 0x0C; 0x00; 0x00];
   [0x00; 0x00; 0x00; 0x00; 0x00; 0x0C; 0x0C; 0x06]; [0x00; 0x00; 0x00; 0x3F; 0x00; 0x00; 0x00; 0x00]; [0x00; 0x00; 0x00; 0x00; 0x00; 0x0C; 0x0C; 0x00];
   [0x60; 0x30; 0x18; 0x0C; 0x06; 0x03; 0x01; 0x00]; [0x3E; 0x63; 0x73; 0x7B; 0x6F; 0x67; 0x3E; 0x00]; [0x0C; 0x0E; 0x0C; 0x0C; 0x0C; 0x0C; 0x3F; 0x00];
   [0x1E; 0x33; 0x30; 0x1C; 0x06; 0x33; 0x3F; 0x00]; [0x1E; 0x33; 0x30; 0x1C; 0x30; 0x33; 0x1E; 0x00]; [0x38; 0x3C; 0x36; 0x33; 0x7F; 0x30; 0x78; 0x00];
   [0x3F; 0x03; 0x1F; 0x30; 0x30; 0x33; 0x1E; 0x00]; [0x1C; 0x06; 0x03; 0x1F; 0x33; 0x33; 0x1E; 0x00]; [0x3F; 0x33; 0x30; 0x18; 0x0C; 0x0C; 0x0C; 0x00];
   [0x1E; 0x33; 0x33; 0x1E; 0x33; 0x33; 0x1E; 0x00]; [0x1E; 0x33; 0x33; 0x3E; 0x30; 0x18; 0x0E; 0x00]; [0x00; 0x0C; 0x0C; 0x00; 0x00; 0x0C; 0x0C; 0x00];
   [0x00; 0x0C; 0x0C; 0x00; 0x00; 0x0C; 0x0C; 0x06]; [0x18; 0x0C; 0x06; 0x03; 0x06; 0x0C; 0x18; 0x00]; [0x00; 0x00; 0x3F; 0x00; 0x00; 0x3F; 0x00; 0x00];
   [0x06; 0x0C; 0x18; 0x30; 0x18; 0x0C; 0x06; 0x00]; [0x1E; 0x33; 0x30; 0x18; 0x0C; 0x00; 0x0C; 0x00]; [0x3E; 0x63; 0x7B; 0x7B; 0x7B; 0x03; 0x1E; 0x00];
   [0x0C; 0x1E; 0x33; 0x33; 0x3F; 0x33; 0x33; 0x00]; [0x3F; 0x66; 0x66; 0x3E; 0x66; 0x66; 0x3F; 0x00]; [0x3C; 0x66; 0x03; 0x03; 0x03; 0x66; 0x3C; 0x00];
   [0x1F; 0x36; 0x66; 0x66; 0x66; 0x36; 0x1F; 0x00]; [0x7F; 0x46; 0x16; 0x1E; 0x16; 0x46; 0x7F; 0x00]; [0x7F; 0x46; 0x16; 0x1E; 0x16; 0x06; 0x0F; 0x00];
   [0x3C; 0x66; 0x03; 0x03; 0x73; 0x66; 0x7C; 0x00]; [0x33; 0x33; 0x33; 0x3F; 0x33; 0x33; 0x33; 0x00]; [0x1E; 0x0C; 0x0C; 0x0C; 0x0C; 0x0C; 0x1E; 0x00];
   [0x78; 0x30; 0x30; 0x30; 0x33; 0x33; 0x1E; 0x00]; [0x67; 0x66; 0x36; 0x1E; 0x36; 0x66; 0x67; 0x00]; [0x0F; 0x06; 0x06; 0x06; 0x46; 0x66; 0x7F; 0x00];
   [0x63; 0x77; 0x7F; 0x7F; 0x6B; 0x63; 0x63; 0x00]; [0x63; 0x67; 0x6F; 0x7B; 0x73; 0x63; 0x63; 0x00]; [0x1C; 0x36; 0x63; 0x63; 0x63; 0x36; 0x1C; 0x00];
   [0x3F; 0x66; 0x66; 0x3E; 0x06; 0x06; 0x0F; 0x00]; [0x1E; 0x33; 0x33; 0x33; 0x3B; 0x1E; 0x38; 0x00]; [0x3F; 0x66; 0x66; 0x3E; 0x36; 0x66; 0x67; 0x00];
   [0x1E; 0x33; 0x07; 0x0E; 0x38; 0x33; 0x1E; 0x00]; [0x3F; 0x2D; 0x0C; 0x0C; 0x0C; 0x0C; 0x1E; 0x00]; [0x33; 0x33; 0x33; 0x33; 0x33; 0x33; 0x3F; 0x00];
   [0x33; 0x33; 0x33; 0x33; 0x33; 0x1E; 0x0C; 0x00]; [0x63; 0x63; 0x63; 0x6B; 0x7F; 0x77; 0x63; 0x00]; [0x63; 0x63; 0x36; 0x1C; 0x1C; 0x36; 0x63; 0x00];
   [0x33; 0x33; 0x33; 0x1E; 0x0C; 0x0C; 0x1E; 0x00]; [0x7F; 0x63; 0x31; 0x18; 0x4C; 0x66; 0x7F; 0x00]; [0x1E; 0x06; 0x06; 0x06; 0x06; 0x06; 0x1E; 0x00];
   [0x03; 0x06; 0x0C; 0x18; 0x30; 0x60; 0x40; 0x00]; [0x1E; 0x18; 0x18; 0x18; 0x18; 0x18; 0x1E; 0x00]; [0x08; 0x1C; 0x36; 0x63; 0x00; 0x00; 0x00; 0x00];
   [0x00; 0x00; 0x00; 0x00; 0x00; 0x00; 0x00; 0xFF]; [0x0C; 0x0C; 0x18; 0x00; 0x00; 0x00; 0x00; 0x00]; [0x00; 0x00; 0x1E; 0x30; 0x3E; 0x33; 0x6E; 0x00];
   [0x07; 0x06; 0x06; 0x3E; 0x66; 0x66; 0x3B; 0x00]; [0x00; 0x00; 0x1E; 0x33; 0x03; 0x33; 0x1E; 0x00]; [0x38; 0x30; 0x30; 0x3E; 0x33; 0x33; 0x6E; 0x00];
   [0x00; 0x00; 0x1E; 0x33; 0x3F; 0x03; 0x1E; 0x00]; [0x1C; 0x36; 0x06; 0x0F; 0x06; 0x06; 0x0F; 0x00]; [0x00; 0x00; 0x6E; 0x33; 0x33; 0x3E; 0x30; 0x1F];
   [0x07; 0x06; 0x36; 0x6E; 0x66; 0x66; 0x67; 0x00]; [0x0C; 0x00; 0x0E; 0x0C; 0x0C; 0x0C; 0x1E; 0x00]; [0x30; 0x00; 0x30; 0x30; 0x30; 0x33; 0x33; 0x1E];
   [0x07; 0x06; 0x66; 0x36; 0x1E; 0x36; 0x67; 0x00]; [0x0E; 0x0C; 0x0C; 0x0C; 0x0C; 0x0C; 0x1E; 0x00]; [0x00; 0x00; 0x33; 0x7F; 0x7F; 0x6B; 0x63; 0x00];
   [0x00; 0x00; 0x1F; 0x33; 0x33; 0x33; 0x33; 0x00]; [0x00; 0x00; 0x1E; 0x33; 0x33; 0x33; 0x1E; 0x00]; [0x00; 0x00; 0x3B; 0x66; 0x66; 0x3E; 0x06; 0x0F];
   [0x00; 0x00; 0x6E; 0x33; 0x33; 0x3E; 0x30; 0x78]; [0x00; 0x00; 0x3B; 0x6E; 0x66; 0x06; 0x0F; 0x00]; [0x00; 0x00; 0x3E; 0x03; 0x1E; 0x30; 0x1F; 0x00];
   [0x08; 0x0C; 0x3E; 0x0C; 0x0C; 0x2C; 0x18; 0x00]; [0x00; 0x00; 0x33; 0x33; 0x33; 0x33; 0x6E; 0x00]; [0x00; 0x00; 0x33; 0x33; 0x33; 0x1E; 0x0C; 0x00];
   [0x00; 0x00; 0x63; 0x6B; 0x7F; 0x7F; 0x36; 0x00]; [0x00; 0x00; 0x63; 0x36; 0x1C; 0x36; 0x63; 0x00]; [0x00; 0x00; 0x33; 0x33; 0x33; 0x3E; 0x30; 0x1F];
   [0x00; 0x00; 0x3F; 0x19; 0x0C; 0x26; 0x3F; 0x00]; [0x38; 0x0C; 0x0C; 0x07; 0x0C; 0x0C; 0x38; 0x00]; [0x18; 0x18; 0x18; 0x00; 0x18; 0x18; 0x18; 0x00];
   [0x07; 0x0C; 0x0C; 0x38; 0x0C; 0x0C; 0x07; 0x00]; [0x6E; 0x3B; 0x00; 0x00; 0x00; 0x00; 0x00; 0x00]].

Fixpoint draw_bits (n : nat) (col bits row x y color : Z) : V unit :=
  match n with
  | O => mret tt
  | S n =>
    (if negb (Z.land bits (Z.shiftl 1 col) =? 0) then xc ← lift (sint (x + col)); yr ← lift (sint (y + row)); vga_put_pixel xc yr color else mret tt);;
    draw_bits n (col + 1) bits row x y color
  end.
Fixpoint draw_glyph (glyph : list Z) (row x y color : Z) : V unit :=
  match glyph with [] => mret tt | bits :: glyph => draw_bits 8 0 bits row x y color;; draw_glyph glyph (row + 1) x y color end.

Definition vga_draw_char (x y c color : Z) : V unit :=
  if (c <? 32) || (126 <? c) then mret tt else glyph ← lift (zlookup font8x8 (c - 32)); draw_glyph glyph 0 x y color.

Fixpoint draw_chars (str : list Z) (x cx y color : Z) : V unit :=
  match str with
  | [] => mret tt
  | c :: str =>
    if c =? 10 then y ← lift (sint (y + 10)); draw_chars str x x y color
    else vga_draw_char cx y c color;; cx ← lift (sint (cx + 8)); draw_chars str x cx y color
  end.
Definition vga_draw_string (x y : Z) (str : list Z) (color : Z) : V unit := draw_chars str x x y color.

(** ** Modes *)

Definition vga_enter_mode13h : V unit :=
  vga_save_state;;
  vga_write_regs mode13h_misc mode13h_seq mode13h_crtc mode13h_gc mode13h_ac;;
  vga_init_palette;;
  vga_clear 0;;
  modify (λ s, with_modes true (v_bga s) s).

Definition vga_enter_text_mode : V unit := vga_restore_state;; modify (λ s, with_modes false (v_bga s) s).

Definition vga_is_mode13h : V bool := s ← get; mret (v_mode13h s).
Definition vga_is_graphics : V bool := s ← get; mret (v_mode13h s || v_bga s).

Section bga.
(** What the adapter keeps of a value that is written to a register, and the address of its framebuffer as the PCI bus reports it. *)
Context (bga_keeps : Z → Z → Z) (bar0 : Z).

Definition bga_write (index value : Z) : V unit :=
  modify (λ s, let a := v_adapter s in with_adapter (set_bga (<[index := bga_keeps index (u16 value)]> (a_bga a)) a) s).
Definition bga_read (index : Z) : V Z := s ← get; mret (default 0 (a_bga (v_adapter s) !! index)).

Definition vga_bga_available : V bool := id ← bga_read VBE_DISPI_INDEX_ID; mret ((0xB0C0 <=? id) && (id <=? 0xB0CF)).

Definition vga_enter_bga_mode (width height bpp : Z) : V Z :=
  ok ← vga_bga_available;
  if negb ok then mret 0 else
  s ← get;
  (if negb (v_state_saved s) then vga_save_state else mret tt);;
  bga_write VBE_DISPI_INDEX_ENABLE VBE_DISPI_DISABLED;;
  bga_write VBE_DISPI_INDEX_XRES width;;
  bga_write VBE_DISPI_INDEX_YRES height;;
  bga_write VBE_DISPI_INDEX_BPP bpp;;
  bga_write VBE_DISPI_INDEX_ENABLE (Z.lor VBE_DISPI_ENABLED VBE_DISPI_LFB_ENABLED);;
  actual_w ← bga_read VBE_DISPI_INDEX_XRES; actual_h ← bga_read VBE_DISPI_INDEX_YRES;
  if negb (actual_w =? u16 width) || negb (actual_h =? u16 height) then bga_write VBE_DISPI_INDEX_ENABLE VBE_DISPI_DISABLED;; mret 0 else
  modify (λ s, with_modes (v_mode13h s) true s);;
  mret (Z.land bar0 (Z.lnot 0xF)).

Definition vga_exit_bga_mode : V unit :=
  s ← get;
  if negb (v_bga s) then mret tt else
  bga_write VBE_DISPI_INDEX_ENABLE VBE_DISPI_DISABLED;;
  modify (λ s, with_modes (v_mode13h s) false s);;
  vga_restore_state.
End bga.
