(* ===== verification/VgaSpec.v ===== *)
(** * The display modes

    What the driver saves before it leaves the text mode it brings back, whatever was drawn in between: registers,
    palette and memory.  The drawing operations change the pixels that they should, within the screen. *)

From S2P Require Import Prelude LibcNum Ld86 Vga.

(** ** Registers and memory, without the indices *)

Record regs := mk_regs { r_misc : Z; r_seq : list Z; r_crtc : list Z; r_gc : list Z; r_ac : list Z; r_dac : list Z; r_mem : gmap (Z * Z) Z }.

Definition regs_of (s : vga_t) : regs :=
  let a := v_adapter s in mk_regs (a_misc a) (a_seq a) (a_crtc a) (a_gc a) (a_ac a) (a_dac a) (a_mem a).
Definition rest_of (s : vga_t) := (v_saved s, v_state_saved s, v_mode13h s, v_bga s, a_bga (v_adapter s)).

(** [m] always returns; its result and its effect on the registers are functions of the registers, and it
    changes nothing else but indices. *)
Definition does {X} (m : M vga_t X) (r : regs → X) (f : regs → regs) : Prop :=
  ∀ s, ∃ s', m s = Some (r (regs_of s), s') ∧ regs_of s' = f (regs_of s) ∧ rest_of s' = rest_of s.

Lemma does_ret {X} (x : X) : does (mret x) (λ _, x) id.
Proof. intros s. by exists s. Qed.

Lemma does_bind {X Y} (m : M vga_t X) (k : X → M vga_t Y) r f r' f' : does m r f → (∀ x, does (k x) (r' x) (f' x)) →
  does (m ≫= k) (λ g, r' (r g) (f g)) (λ g, f' (r g) (f g)).
Proof.
  intros Hm Hk s. destruct (Hm s) as (s1 & H1 & Hr1 & Ho1). destruct (Hk (r (regs_of s)) s1) as (s2 & H2 & Hr2 & Ho2). exists s2.
  unfold mbind, M_bind. rewrite H1, H2, Hr1. split; [done|]. split; [by rewrite Hr2, Hr1|congruence].
Qed.

Lemma does_eq {X} (m : M vga_t X) r f r' f' : does m r f → (∀ g, r g = r' g) → (∀ g, f g = f' g) → does m r' f'.
Proof. intros H Hr Hf s. destruct (H s) as (s' & H1 & H2 & H3). exists s'. by rewrite <- Hr, <- Hf. Qed.

Lemma does_then {X} (m : M vga_t unit) (k : M vga_t X) f r' f' : does m (λ _, tt) f → does k r' f' → does (m;; k) (λ g, r' (f g)) (λ g, f' (f g)).
Proof. intros Hm Hk. apply (does_bind m (λ _, k) _ _ (λ _, r') (λ _, f') Hm). done. Qed.

Definition on_seq (h : list Z → list Z) (g : regs) : regs := mk_regs (r_misc g) (h (r_seq g)) (r_crtc g) (r_gc g) (r_ac g) (r_dac g) (r_mem g).
Definition on_crtc (h : list Z → list Z) (g : regs) : regs := mk_regs (r_misc g) (r_seq g) (h (r_crtc g)) (r_gc g) (r_ac g) (r_dac g) (r_mem g).
Definition on_gc (h : list Z → list Z) (g : regs) : regs := mk_regs (r_misc g) (r_seq g) (r_crtc g) (h (r_gc g)) (r_ac g) (r_dac g) (r_mem g).
Definition on_ac (h : list Z → list Z) (g : regs) : regs := mk_regs (r_misc g) (r_seq g) (r_crtc g) (r_gc g) (h (r_ac g)) (r_dac g) (r_mem g).
Definition on_dac (h : list Z → list Z) (g : regs) : regs := mk_regs (r_misc g) (r_seq g) (r_crtc g) (r_gc g) (r_ac g) (h (r_dac g)) (r_mem g).
Definition on_mem (h : gmap (Z * Z) Z → gmap (Z * Z) Z) (g : regs) : regs := mk_regs (r_misc g) (r_seq g) (r_crtc g) (r_gc g) (r_ac g) (r_dac g) (h (r_mem g)).

(** The fields, one by one. *)
Ltac fields_of := cbn [on_seq on_crtc on_gc on_ac on_dac on_mem r_misc r_seq r_crtc r_gc r_ac r_dac r_mem].

Lemma regs_ext g g' : r_misc g = r_misc g' → r_seq g = r_seq g' → r_crtc g = r_crtc g' → r_gc g = r_gc g' → r_ac g = r_ac g' → r_dac g = r_dac g' → r_mem g = r_mem g' → g = g'.
Proof. destruct g, g'. cbn. congruence. Qed.

(** ** Single accesses *)

Ltac access := intros s; eexists; split; [reflexivity|]; split; reflexivity.

Lemma misc_out v : does (outb VGA_MISC_WRITE v) (λ _, tt) (λ g, mk_regs (u8 v) (r_seq g) (r_crtc g) (r_gc g) (r_ac g) (r_dac g) (r_mem g)).
Proof. access. Qed.
Lemma misc_in : does (inb VGA_MISC_READ) r_misc id.
Proof. access. Qed.
Lemma seq_out i v : does (out_reg VGA_SEQ_INDEX VGA_SEQ_DATA i v) (λ _, tt) (on_seq (λ l, set_reg l (u8 i) (u8 v))).
Proof. access. Qed.
Lemma seq_in i : does (in_reg VGA_SEQ_INDEX VGA_SEQ_DATA i) (λ g, reg (r_seq g) (u8 i)) id.
Proof. access. Qed.
Lemma gc_out i v : does (out_reg VGA_GC_INDEX VGA_GC_DATA i v) (λ _, tt) (on_gc (λ l, set_reg l (u8 i) (u8 v))).
Proof. access. Qed.
Lemma gc_in i : does (in_reg VGA_GC_INDEX VGA_GC_DATA i) (λ g, reg (r_gc g) (u8 i)) id.
Proof. access. Qed.
Definition crtc_set (l : list Z) (i v : Z) : list Z := if Z.testbit (reg l 0x11) 7 && (i <? 8) then l else set_reg l i v.
Lemma crtc_out i v : does (out_reg VGA_CRTC_INDEX VGA_CRTC_DATA i v) (λ _, tt) (on_crtc (λ l, crtc_set l (u8 i) (u8 v))).
Proof. access. Qed.
Lemma crtc_in i : does (in_reg VGA_CRTC_INDEX VGA_CRTC_DATA i) (λ g, reg (r_crtc g) (u8 i)) id.
Proof. access. Qed.
Lemma ac_in i : does (inb VGA_INSTAT_READ;; in_reg VGA_AC_INDEX VGA_AC_READ i) (λ g, reg (r_ac g) (Z.land (u8 i) 0x1F)) id.
Proof. access. Qed.
Lemma ac_out i v : does (inb VGA_INSTAT_READ;; out_reg VGA_AC_INDEX VGA_AC_WRITE i v) (λ _, tt) (on_ac (λ l, set_reg l (Z.land (u8 i) 0x1F) (u8 v))).
Proof. access. Qed.
Lemma video_on_does : does video_on (λ _, tt) id.
Proof. access. Qed.

(** ** Loops *)

Fixpoint writes (F : Z → Z → regs → regs) (i : Z) (vs : list Z) (g : regs) : regs := match vs with [] => g | v :: vs => writes F (i + 1) vs (F i v g) end.

Fixpoint count (i : Z) (n : nat) : list Z := match n with O => [] | S n => i :: count (i + 1) n end.

Lemma read_regs_does index data (h : regs → Z → Z) n i : (∀ i, does (in_reg index data i) (λ g, h g i) id) → does (read_regs index data n i) (λ g, h g <$> count i n) id.
Proof.
  intros H. revert i. induction n as [|n IH]; intros i; cbn [read_regs]; [apply does_ret|].
  eapply does_eq; [apply (does_bind _ _ _ _ (λ v g, v :: (h g <$> count (i + 1) n)) (λ _, id) (H i))|done|done].
  intros v. eapply does_eq; [apply (does_bind _ _ _ _ (λ vs _, v :: vs) (λ _, id) (IH (i + 1)))|done|done]. intros vs. apply does_ret.
Qed.

Lemma write_regs_does index data F i vs : (∀ i v, does (out_reg index data i v) (λ _, tt) (F i v)) → does (write_regs index data i vs) (λ _, tt) (writes F i vs).
Proof.
  intros H. revert i. induction vs as [|v vs IH]; intros i; cbn [write_regs writes]; [apply does_ret|]. apply (does_then _ _ (F i v) (λ _, tt) (writes F (i + 1) vs)); [apply H|apply IH].
Qed.

Lemma read_ac_does n i : does (read_ac n i) (λ g, (λ j, reg (r_ac g) (Z.land (u8 j) 0x1F)) <$> count i n) id.
Proof.
  revert i. induction n as [|n IH]; intros i; cbn [read_ac]; [apply does_ret|].
  intros s. destruct (ac_in i s) as (s1 & H1 & Hg1 & Hr1). destruct (IH (i + 1) s1) as (s2 & H2 & Hg2 & Hr2). exists s2.
  revert H1. unfold mbind, M_bind. destruct (inb VGA_INSTAT_READ s) as [[? s0]|]; [|done]. intros ->. rewrite H2. unfold mret, M_ret. rewrite Hg1. split; [done|]. split; [by rewrite Hg2|congruence].
Qed.
Lemma write_ac_does i vs : does (write_ac i vs) (λ _, tt) (writes (λ i v, on_ac (λ l, set_reg l (Z.land (u8 i) 0x1F) (u8 v))) i vs).
Proof.
  revert i. induction vs as [|v vs IH]; intros i; cbn [write_ac writes]; [apply does_ret|].
  intros s. destruct (ac_out i v s) as (s1 & H1 & Hg1 & Hr1). destruct (IH (i + 1) s1) as (s2 & H2 & Hg2 & Hr2). exists s2.
  revert H1. unfold mbind, M_bind. destruct (inb VGA_INSTAT_READ s) as [[? s0]|]; [|done]. intros ->. rewrite H2. split; [done|]. split; [by rewrite Hg2, Hg1|congruence].
Qed.

(** The palette goes on from where it is. *)
Lemma read_dac_at n s k : a_dac_at (v_adapter s) = k →
  ∃ s', read_dac n s = Some (reg (r_dac (regs_of s)) <$> count k n, s') ∧ regs_of s' = regs_of s ∧ rest_of s' = rest_of s.
Proof.
  revert s k. induction n as [|n IH]; intros s k Hk; [by exists s|]. destruct (inb VGA_DAC_DATA s) as [[v s1]|] eqn:E; [|done].
  unfold inb, mbind, M_bind, get, put, mret, M_ret in E. injection E as <- <-. destruct (IH (with_adapter (set_dac (a_dac (v_adapter s)) (a_dac_at (v_adapter s) + 1) (v_adapter s)) s) (k + 1)) as (s2 & H2 & Hg2 & Hr2); [cbn; lia|].
  exists s2. cbn [read_dac]. unfold mbind, M_bind, inb, get, put, mret, M_ret, a_inb. cbn. unfold mbind, M_bind, get, put. rewrite H2. rewrite Hk. split; [done|]. split; [by rewrite Hg2|by rewrite Hr2].
Qed.

Fixpoint put_list (l : list Z) (i : Z) (vs : list Z) : list Z := match vs with [] => l | v :: vs => put_list (set_reg l i (u8 v)) (i + 1) vs end.

Lemma write_dac_at vs s k : a_dac_at (v_adapter s) = k →
  ∃ s', write_dac vs s = Some (tt, s') ∧ regs_of s' = on_dac (λ l, put_list l k vs) (regs_of s) ∧ rest_of s' = rest_of s.
Proof.
  revert s k. induction vs as [|v vs IH]; intros s k Hk; [by exists s|].
  destruct (IH (with_adapter (set_dac (set_reg (a_dac (v_adapter s)) (a_dac_at (v_adapter s)) (u8 v)) (a_dac_at (v_adapter s) + 1) (v_adapter s)) s) (k + 1)) as (s2 & H2 & Hg2 & Hr2); [cbn; lia|].
  exists s2. cbn [write_dac]. unfold mbind, M_bind, outb, modify, a_outb. cbn. rewrite H2. split; [done|]. split; [rewrite Hg2; by rewrite Hk|by rewrite Hr2].
Qed.

Lemma dac_in n : does (outb VGA_DAC_READ_INDEX 0;; read_dac n) (λ g, reg (r_dac g) <$> count 0 n) id.
Proof.
  intros s. destruct (read_dac_at n (with_adapter (set_dac (a_dac (v_adapter s)) 0 (v_adapter s)) s) 0 eq_refl) as (s' & H & Hg & Hr). exists s'. split; [exact H|]. split; [done|done].
Qed.
Lemma dac_out vs : does (outb VGA_DAC_WRITE_INDEX 0;; write_dac vs) (λ _, tt) (on_dac (λ l, put_list l 0 vs)).
Proof.
  intros s. destruct (write_dac_at vs (with_adapter (set_dac (a_dac (v_adapter s)) 0 (v_adapter s)) s) 0 eq_refl) as (s' & H & Hg & Hr). exists s'. split; [exact H|]. split; [done|done].
Qed.

(** ** Memory *)

Definition planar (g : regs) : Prop := Z.testbit (reg (r_seq g) 4) 3 = false.
Definition loads (g : regs) (off : Z) : Z := default 0 (r_mem g !! (if Z.testbit (reg (r_seq g) 4) 3 then (off mod 4, off - off mod 4) else (reg (r_gc g) 4, off))).
Definition stores (off v : Z) (g : regs) : regs :=
  on_mem (λ m, if Z.testbit (reg (r_seq g) 4) 3 then <[(off mod 4, off - off mod 4) := v]> m
    else foldr (λ p m, if Z.testbit (reg (r_seq g) 2) p then <[(p, off) := v]> m else m) m [0; 1; 2; 3]) g.

Lemma vload_does off : does (vload off) (λ g, loads g off) id.
Proof. access. Qed.
Lemma vstore_does off v : does (vstore off v) (λ _, tt) (stores off v).
Proof. access. Qed.

Lemma read_mem_does n i : does (read_mem n i) (λ g, loads g <$> count i n) id.
Proof.
  revert i. induction n as [|n IH]; intros i; cbn [read_mem]; [apply does_ret|].
  eapply does_eq; [apply (does_bind _ _ _ _ (λ v g, v :: (loads g <$> count (i + 1) n)) (λ _, id) (vload_does i))|done|done].
  intros v. eapply does_eq; [apply (does_bind _ _ _ _ (λ vs _, v :: vs) (λ _, id) (IH (i + 1)))|done|done]. intros vs. apply does_ret.
Qed.
Lemma write_mem_does i vs : does (write_mem i vs) (λ _, tt) (writes (λ i v, stores i v) i vs).
Proof.
  revert i. induction vs as [|v vs IH]; intros i; cbn [write_mem writes]; [apply does_ret|]. apply (does_then _ _ (stores i v) (λ _, tt) (writes _ (i + 1) vs)); [apply vstore_does|apply IH].
Qed.

(** ** Values of registers *)

Lemma reg_lookup l i v : l !! i = Some v → reg l (Z.of_nat i) = v.
Proof. intros H. unfold reg. by rewrite zlookup_nat, H. Qed.

Lemma reg_count l : reg l <$> count 0 (length l) = l.
Proof.
  assert (H : ∀ k, reg (take k l ++ drop k l) <$> count (Z.of_nat k) (length (drop k l)) = drop k l).
  { intros k. rewrite take_drop. remember (drop k l) as d eqn:Hd. revert k Hd. induction d as [|x d IH]; intros k Hd; [done|]. cbn [length count fmap list_fmap].
    assert (Hk : l !! k = Some x). { rewrite <- (Nat.add_0_r k), <- lookup_drop, <- Hd. done. }
    rewrite (reg_lookup _ _ _ Hk). f_equal. replace (Z.of_nat k + 1) with (Z.of_nat (S k)) by lia. apply IH. rewrite <- Nat.add_1_r, <- drop_drop, <- Hd. done. }
  specialize (H 0%nat). rewrite drop_0 in H. exact H.
Qed.

Lemma set_reg_insert l i v : 0 ≤ i < Z.of_nat (length l) → set_reg l i v = <[Z.to_nat i := v]> l.
Proof. intros H. unfold set_reg. by rewrite zupdate_Some. Qed.

Lemma put_list_splice l i vs : 0 ≤ i → i + Z.of_nat (length vs) ≤ Z.of_nat (length l) → Forall is_u8 vs → put_list l i vs = splice l (Z.to_nat i) vs.
Proof.
  intros Hi Hl Hv. revert l i Hi Hl. induction Hv as [|v vs Hv _ IH]; intros l i Hi Hl; cbn [put_list]; [by rewrite splice_nil|]. cbn [length] in Hl.
  rewrite set_reg_insert by lia. rewrite IH by (rewrite ?length_insert; lia). rewrite u8_small by done. replace (Z.to_nat (i + 1)) with (S (Z.to_nat i)) by lia. apply splice_cons. lia.
Qed.

Lemma u8_reg l i : Forall is_u8 l → u8 (reg l i) = reg l i.
Proof.
  intros H. apply u8_small. unfold reg, zlookup. destruct (0 <=? i); [|cbn; unfold is_u8; lia]. destruct (l !! Z.to_nat i) as [v|] eqn:E; [|cbn; unfold is_u8; lia]. cbn. by eapply (Forall_lookup_1 _ _ _ _ H).
Qed.

(** A whole bank of registers. *)
Lemma put_list_all l vs : length vs = length l → Forall is_u8 vs → put_list l 0 vs = vs.
Proof. intros Hl Hv. rewrite put_list_splice by (done || lia). unfold splice. cbn. rewrite drop_ge by lia. by rewrite app_nil_r. Qed.

Lemma u8_idx i : 0 ≤ i < 256 → u8 i = i.
Proof. intros H. apply u8_small. unfold is_u8. lia. Qed.

Lemma writes_seq i vs g : 0 ≤ i → i + Z.of_nat (length vs) ≤ 256 → writes (λ i v, on_seq (λ l, set_reg l (u8 i) (u8 v))) i vs g = on_seq (λ l, put_list l i vs) g.
Proof.
  revert i g. induction vs as [|v vs IH]; intros i g Hi Hl; cbn [writes put_list length] in *; [by destruct g|]. rewrite IH by lia. unfold on_seq. cbn. by rewrite (u8_idx i) by lia.
Qed.
Lemma writes_gc i vs g : 0 ≤ i → i + Z.of_nat (length vs) ≤ 256 → writes (λ i v, on_gc (λ l, set_reg l (u8 i) (u8 v))) i vs g = on_gc (λ l, put_list l i vs) g.
Proof.
  revert i g. induction vs as [|v vs IH]; intros i g Hi Hl; cbn [writes put_list length] in *; [by destruct g|]. rewrite IH by lia. unfold on_gc. cbn. by rewrite (u8_idx i) by lia.
Qed.
Lemma ac_idx i : 0 ≤ i < 32 → Z.land (u8 i) 0x1F = i.
Proof. intros H. rewrite u8_idx by lia. change 0x1F with (Z.ones 5). rewrite Z.land_ones by lia. apply Z.mod_small. lia. Qed.
Lemma writes_ac i vs g : 0 ≤ i → i + Z.of_nat (length vs) ≤ 32 → writes (λ i v, on_ac (λ l, set_reg l (Z.land (u8 i) 0x1F) (u8 v))) i vs g = on_ac (λ l, put_list l i vs) g.
Proof.
  revert i g. induction vs as [|v vs IH]; intros i g Hi Hl; cbn [writes put_list length] in *; [by destruct g|]. rewrite IH by lia. unfold on_ac. cbn. by rewrite ac_idx by lia.
Qed.

Lemma reg_set_ne l i j v : i ≠ j → 0 ≤ i → 0 ≤ j → reg (set_reg l i v) j = reg l j.
Proof.
  intros Hn Hi Hj. unfold reg, set_reg, zupdate. case_match; cbn; [|done]. rewrite !zlookup_nonneg by lia. by rewrite list_lookup_insert_ne by lia.
Qed.

(** Once the protection is off, all the registers of the CRTC are written: those that it covers come first. *)
Lemma writes_crtc i vs g : 0 ≤ i → i + Z.of_nat (length vs) ≤ 256 → (i < 8 → Z.testbit (reg (r_crtc g) 0x11) 7 = false) →
  writes (λ i v, on_crtc (λ l, crtc_set l (u8 i) (u8 v))) i vs g = on_crtc (λ l, put_list l i vs) g.
Proof.
  revert i g. induction vs as [|v vs IH]; intros i g Hi Hl Hp; cbn [writes put_list length] in *; [by destruct g|].
  assert (Hs : crtc_set (r_crtc g) (u8 i) (u8 v) = set_reg (r_crtc g) i (u8 v)).
  { unfold crtc_set. rewrite (u8_idx i) by lia. destruct (Z.ltb_spec i 8) as [H8|H8]; [by rewrite Hp|by rewrite andb_false_r]. }
  rewrite IH; [unfold on_crtc; cbn; by rewrite Hs|lia|lia|]. intros H8. unfold on_crtc. cbn [r_crtc]. rewrite Hs, reg_set_ne by lia. apply Hp. lia.
Qed.

(** ** Planes *)

Definition plane_of (m : gmap (Z * Z) Z) (q : Z) : list Z := (λ i, default 0 (m !! (q, i))) <$> count 0 (Z.to_nat VGA_PLANE_SIZE).

Lemma count_lookup i n k : count i n !! k = (if (k <? n)%nat then Some (i + Z.of_nat k) else None).
Proof.
  revert i k. induction n as [|n IH]; intros i [|k]; cbn [count lookup list_lookup]; try done; [f_equal; lia|]. rewrite IH. change (S k <? S n)%nat with (k <? n)%nat. case_match; [|done]. f_equal. lia.
Qed.
Lemma count_length i n : length (count i n) = n.
Proof. revert i. induction n as [|n IH]; intros i; cbn; [done|by rewrite IH]. Qed.

Lemma save_planes_do n p s : planar (regs_of s) → length (r_gc (regs_of s)) = 9%nat → 0 ≤ p → p + Z.of_nat n ≤ 4 →
  ∃ s' v, save_planes n p s = Some (plane_of (r_mem (regs_of s)) <$> count p n, s') ∧ regs_of s' = on_gc (λ l, <[4%nat := v]> l) (regs_of s) ∧ rest_of s' = rest_of s.
Proof.
  revert p s. induction n as [|n IH]; intros p s Hpl Hl Hp Hn; cbn [save_planes].
  { destruct (lookup_lt_is_Some_2 (r_gc (regs_of s)) 4) as [v Hv]; [lia|]. exists s, v. split; [done|]. split; [|done]. unfold on_gc. rewrite list_insert_id by done. done. }
  destruct (gc_out 0x04 p s) as (s1 & H1 & Hg1 & Hr1). rewrite (u8_idx p), (u8_idx 4) in Hg1 by lia.
  destruct (read_mem_does (Z.to_nat VGA_PLANE_SIZE) 0 s1) as (s2 & H2 & Hg2 & Hr2).
  assert (Hgc : r_gc (regs_of s1) = <[4%nat := p]> (r_gc (regs_of s))) by (rewrite Hg1; unfold on_gc; cbn [r_gc]; rewrite set_reg_insert by lia; done).
  assert (Hpl1 : planar (regs_of s1)) by (unfold planar in *; by rewrite Hg1).
  assert (Hload : loads (regs_of s1) <$> count 0 (Z.to_nat VGA_PLANE_SIZE) = plane_of (r_mem (regs_of s)) p).
  { unfold plane_of. apply list_fmap_ext. intros j i _. unfold loads. rewrite Hpl1, Hgc, Hg1. cbn [on_gc r_mem]. rewrite (reg_lookup _ 4 p); [done|]. apply list_lookup_insert_eq. lia. }
  destruct (IH (p + 1) s2) as (s3 & v & H3 & Hg3 & Hr3); [by rewrite Hg2|rewrite Hg2; cbn [id]; rewrite Hgc, length_insert; done|lia|lia|].
  exists s3, v. unfold mbind, M_bind. rewrite H1, H2, H3. rewrite Hg2. cbn [id]. split; [|split; [|congruence]].
  - unfold mret, M_ret. cbn [count fmap list_fmap]. rewrite Hload, Hg1. reflexivity.
  - rewrite Hg3, Hg2. cbn [id]. rewrite Hg1. unfold on_gc. cbn [r_gc r_misc r_seq r_crtc r_ac r_dac r_mem]. f_equal. rewrite set_reg_insert by lia. apply list_insert_insert_eq.
Qed.

(** A run of bytes to one plane. *)
Lemma writes_plane p i vs g : planar g → reg (r_seq g) 2 = Z.shiftl 1 p → 0 ≤ p < 4 →
  ∃ m, writes (λ i v, stores i v) i vs g = on_mem (λ _, m) g ∧
    ∀ q j, m !! (q, j) = (if (q =? p) && (i <=? j) && (j <? i + Z.of_nat (length vs)) then vs !! Z.to_nat (j - i) else r_mem g !! (q, j)).
Proof.
  revert i g. induction vs as [|v vs IH]; intros i g Hpl Hm Hp; cbn [writes length].
  { exists (r_mem g). split; [by destruct g|]. intros q j. destruct (q =? p), (Z.leb_spec i j), (Z.ltb_spec j (i + Z.of_nat 0)); cbn [andb]; done || lia. }
  assert (Hst : stores i v g = on_mem (λ _, <[(p, i) := v]> (r_mem g)) g).
  { unfold stores, on_mem. rewrite Hpl, Hm. f_equal. cbn [foldr]. assert (p = 0 ∨ p = 1 ∨ p = 2 ∨ p = 3) as Hp4 by lia. by destruct Hp4 as [->|[->|[->| ->]]]. }
  rewrite Hst. destruct (IH (i + 1) (on_mem (λ _, <[(p, i) := v]> (r_mem g)) g)) as (m & Hw & Hl); [done|done|done|]. exists m. split; [rewrite Hw; by destruct g|].
  intros q j. rewrite Hl. unfold on_mem. cbn [r_mem]. destruct (Z.eqb_spec q p) as [->|Hq]; cbn [andb]; [|by rewrite lookup_insert_ne by congruence].
  destruct (Z.leb_spec (i + 1) j) as [H1|H1], (Z.ltb_spec j (i + 1 + Z.of_nat (length vs))) as [H2|H2], (Z.leb_spec i j) as [H3|H3], (Z.ltb_spec j (i + Z.of_nat (S (length vs)))) as [H4|H4]; cbn [andb]; try lia.
  - replace (Z.to_nat (j - i)) with (S (Z.to_nat (j - (i + 1)))) by lia. done.
  - by rewrite lookup_insert_ne by (intros [= ?]; lia).
  - replace j with i by lia. rewrite lookup_insert_eq, Z.sub_diag. done.
  - by rewrite lookup_insert_ne by (intros [= ?]; lia).
Qed.

Lemma plane_written p vs g m : length vs = Z.to_nat VGA_PLANE_SIZE →
  (∀ q j, m !! (q, j) = (if (q =? p) && (0 <=? j) && (j <? 0 + Z.of_nat (length vs)) then vs !! Z.to_nat (j - 0) else r_mem g !! (q, j))) →
  plane_of m p = vs ∧ ∀ q, q ≠ p → plane_of m q = plane_of (r_mem g) q.
Proof.
  intros Hl Hm. split.
  - apply list_eq. intros k. unfold plane_of. rewrite list_lookup_fmap, count_lookup. destruct (Nat.ltb_spec k (Z.to_nat VGA_PLANE_SIZE)) as [Hk|Hk].
    + cbn [fmap option_fmap option_map]. rewrite Hm, Z.eqb_refl, (proj2 (Z.leb_le _ _)), (proj2 (Z.ltb_lt _ _)) by lia. cbn [andb]. replace (Z.to_nat (0 + Z.of_nat k - 0)) with k by lia.
      destruct (lookup_lt_is_Some_2 vs k) as [x Hx]; [lia|]. by rewrite Hx.
    + symmetry. apply lookup_ge_None_2. lia.
  - intros q Hq. unfold plane_of. apply list_fmap_ext. intros j i _. by rewrite Hm, (proj2 (Z.eqb_neq _ _)).
Qed.

Lemma restore_planes_do ps p s : planar (regs_of s) → length (r_seq (regs_of s)) = 5%nat → 0 ≤ p → p + Z.of_nat (length ps) ≤ 4 →
  Forall (λ l, length l = Z.to_nat VGA_PLANE_SIZE) ps →
  ∃ s' v m, restore_planes p ps s = Some (tt, s') ∧ regs_of s' = on_mem (λ _, m) (on_seq (λ l, <[2%nat := v]> l) (regs_of s)) ∧ rest_of s' = rest_of s ∧
    (∀ q, q < p → plane_of m q = plane_of (r_mem (regs_of s)) q) ∧ plane_of m <$> count p (length ps) = ps.
Proof.
  intros Hpl Hl Hp Hn Hps. revert p s Hpl Hl Hp Hn. induction Hps as [|l ps Hlen Hps IH]; intros p s Hpl Hl Hp Hn; cbn [restore_planes].
  { destruct (lookup_lt_is_Some_2 (r_seq (regs_of s)) 2) as [v Hv]; [lia|]. exists s, v, (r_mem (regs_of s)). split; [done|]. split; [|done]. unfold on_seq, on_mem.
    cbn [r_seq r_misc r_crtc r_gc r_ac r_dac]. by rewrite list_insert_id by done. }
  cbn [length] in Hn. destruct (seq_out 0x02 (Z.shiftl 1 p) s) as (s1 & H1 & Hg1 & Hr1).
  assert (Hmask : 0 ≤ Z.shiftl 1 p < 256). { assert (p = 0 ∨ p = 1 ∨ p = 2 ∨ p = 3) as Hp4 by lia. destruct Hp4 as [->|[->|[->| ->]]]; vm_compute; split; congruence. }
  rewrite (u8_idx 2), (u8_idx (Z.shiftl 1 p)) in Hg1 by lia.
  assert (Hseq : r_seq (regs_of s1) = <[2%nat := Z.shiftl 1 p]> (r_seq (regs_of s))) by (rewrite Hg1; unfold on_seq; cbn [r_seq]; rewrite set_reg_insert by lia; done).
  assert (Hpl1 : planar (regs_of s1)). { unfold planar in *. rewrite Hg1. unfold on_seq. cbn [r_seq]. by rewrite reg_set_ne by lia. }
  destruct (write_mem_does 0 l s1) as (s2 & H2 & Hg2 & Hr2). destruct (writes_plane p 0 l (regs_of s1) Hpl1) as (m1 & Hw & Hm1); [|lia|].
  { rewrite Hseq. apply (reg_lookup _ 2). apply list_lookup_insert_eq. lia. }
  rewrite Hw in Hg2. destruct (plane_written p l (regs_of s1) m1 Hlen Hm1) as [Hpp Hqq].
  destruct (IH (p + 1) s2) as (s3 & v & m & H3 & Hg3 & Hr3 & Hlow & Hall); [by rewrite Hg2|rewrite Hg2; unfold on_mem; cbn [r_seq]; rewrite Hseq, length_insert; done|lia|lia|].
  exists s3, v, m. unfold mbind, M_bind. rewrite H1, H2, H3. split; [done|]. rewrite Hg3, Hg2, Hg1. split; [|split; [congruence|split]].
  - unfold on_mem, on_seq. cbn [r_seq r_misc r_crtc r_gc r_ac r_dac r_mem]. rewrite set_reg_insert by lia. by rewrite list_insert_insert_eq.
  - intros q Hq. rewrite Hlow by lia. rewrite Hg2. unfold on_mem. cbn [r_mem]. rewrite Hqq by lia. by rewrite Hg1.
  - cbn [length count fmap list_fmap]. f_equal; [|done]. rewrite Hlow by lia. by rewrite Hg2.
Qed.

(** ** Saving *)

(** The banks have their registers, of a byte each, and the sequencer is not in a reset. *)
Record ready (g : regs) : Prop := mk_ready {
  rd_seq : length (r_seq g) = 5%nat;
  rd_crtc : length (r_crtc g) = 25%nat;
  rd_gc : length (r_gc g) = 9%nat;
  rd_ac : length (r_ac g) = 21%nat;
  rd_dac : length (r_dac g) = (256 * 3)%nat;
  rd_bytes : is_u8 (r_misc g) ∧ Forall is_u8 (r_seq g) ∧ Forall is_u8 (r_crtc g) ∧ Forall is_u8 (r_gc g) ∧ Forall is_u8 (r_ac g) ∧ Forall is_u8 (r_dac g);
  rd_running : reg (r_seq g) 0 = 3
}.

Definition image (g : regs) : saved_t := mk_saved (r_misc g) (r_seq g) (r_crtc g) (r_gc g) (r_ac g) (r_dac g) (plane_of (r_mem g) <$> count 0 4).

(** All the registers of a bank, one after the other. *)
Lemma bank_in index data (bank : regs → list Z) n : (∀ i, does (in_reg index data i) (λ g, reg (bank g) (u8 i)) id) → (n ≤ 256)%nat →
  ∀ s, length (bank (regs_of s)) = n → ∃ s', read_regs index data n 0 s = Some (bank (regs_of s), s') ∧ regs_of s' = regs_of s ∧ rest_of s' = rest_of s.
Proof.
  intros H Hn s Hl. destruct (read_regs_does index data (λ g i, reg (bank g) (u8 i)) n 0 H s) as (s' & H1 & H2 & H3). exists s'. split; [|done]. rewrite H1. do 2 f_equal.
  etransitivity; [|apply reg_count]. rewrite Hl. apply list_fmap_ext. intros j i Hj. rewrite count_lookup in Hj. case_match eqn:E; [|done]. apply Nat.ltb_lt in E. injection Hj as <-. by rewrite u8_idx by lia.
Qed.

Lemma ac_bank_in s : length (r_ac (regs_of s)) = 21%nat → ∃ s', read_ac 21 0 s = Some (r_ac (regs_of s), s') ∧ regs_of s' = regs_of s ∧ rest_of s' = rest_of s.
Proof.
  intros Hl. destruct (read_ac_does 21 0 s) as (s' & H1 & H2 & H3). exists s'. split; [|by split]. rewrite H1. f_equal. f_equal.
  etransitivity; [|apply reg_count]. rewrite Hl. reflexivity.
Qed.

Lemma palette_in s : length (r_dac (regs_of s)) = (256 * 3)%nat → ∃ s', read_palette s = Some (r_dac (regs_of s), s') ∧ regs_of s' = regs_of s ∧ rest_of s' = rest_of s.
Proof.
  intros Hl. destruct (dac_in (256 * 3) s) as (s' & H1 & H2 & H3). exists s'. split; [|by split]. unfold read_palette. rewrite H1. f_equal. f_equal. rewrite <- Hl. apply reg_count.
Qed.

(** Five values, and nine. *)
Lemma list5 (l : list Z) : length l = 5%nat → ∃ a b c d e, l = [a; b; c; d; e].
Proof. destruct l as [|a [|b [|c [|d [|e [|? ?]]]]]]; try done. intros _. by exists a, b, c, d, e. Qed.
Lemma list9 (l : list Z) : length l = 9%nat → ∃ a b c d e f g h i, l = [a; b; c; d; e; f; g; h; i].
Proof. destruct l as [|a [|b [|c [|d [|e [|f [|g [|h [|i [|? ?]]]]]]]]]]; try done. intros _. by exists a, b, c, d, e, f, g, h, i. Qed.

Lemma vga_save_state_keeps s : ready (regs_of s) →
  ∃ s', vga_save_state s = Some (tt, s') ∧ regs_of s' = regs_of s ∧ rest_of s' = (image (regs_of s), true, v_mode13h s, v_bga s, a_bga (v_adapter s)).
Proof.
  intros Hr. pose proof Hr as [Hseq Hcrtc Hgc Hac Hdac (B1 & B2 & B3 & B4 & B5 & B6) _].
  destruct (misc_in s) as (s1 & E1 & G1 & R1). destruct (bank_in _ _ r_seq 5 seq_in ltac:(lia) s1) as (s2 & E2 & G2 & R2); [by rewrite G1|].
  destruct (bank_in _ _ r_crtc 25 crtc_in ltac:(lia) s2) as (s3 & E3 & G3 & R3); [by rewrite G2, G1|].
  destruct (bank_in _ _ r_gc 9 gc_in ltac:(lia) s3) as (s4 & E4 & G4 & R4); [by rewrite G3, G2, G1|].
  destruct (ac_bank_in s4) as (s5 & E5 & G5 & R5); [by rewrite G4, G3, G2, G1|]. destruct (video_on_does s5) as (s6 & E6 & G6 & R6).
  destruct (palette_in s6) as (s7 & E7 & G7 & R7); [by rewrite G6; unfold id; rewrite G5, G4, G3, G2, G1|].
  assert (G : regs_of s7 = regs_of s) by (rewrite G7, G6; unfold id; by rewrite G5, G4, G3, G2, G1).
  destruct (seq_out 0x04 0x06 s7) as (s8 & E8 & G8 & R8). destruct (gc_out 0x05 0x00 s8) as (s9 & E9 & G9 & R9). destruct (gc_out 0x06 0x05 s9) as (s10 & E10 & G10 & R10).
  destruct (list5 _ Hseq) as (q0 & q1 & q2 & q3 & q4 & Hq). destruct (list9 _ Hgc) as (c0 & c1 & c2 & c3 & c4 & c5 & c6 & c7 & c8 & Hc).
  destruct (save_planes_do 4 0 s10) as (s11 & v & E11 & G11 & R11); [rewrite G10, G9, G8, G; unfold planar; fields_of; by rewrite Hq
    |rewrite G10, G9, G8, G; fields_of; by rewrite Hc|lia|lia|].
  destruct (seq_out 0x04 (reg (r_seq (regs_of s)) 4) s11) as (s12 & E12 & G12 & R12). destruct (gc_out 0x05 (reg (r_gc (regs_of s)) 5) s12) as (s13 & E13 & G13 & R13).
  destruct (gc_out 0x06 (reg (r_gc (regs_of s)) 6) s13) as (s14 & E14 & G14 & R14). destruct (gc_out 0x04 (reg (r_gc (regs_of s)) 4) s14) as (s15 & E15 & G15 & R15).
  exists (with_saved (image (regs_of s)) s15). split; [|split].
  - unfold vga_save_state. unfold mbind, M_bind. rewrite E1, E2, E3, E4, E5, E6, E7, E8, E9, E10, E11. rewrite G6. unfold id. rewrite G5, G4, G3, G2, G1. unfold id.
    rewrite E12, E13, E14, E15. unfold modify, image. rewrite G10, G9, G8, G. fields_of. reflexivity.
  - change (regs_of (with_saved _ s15)) with (regs_of s15). rewrite G15, G14, G13, G12, G11, G10, G9, G8, G. apply regs_ext; fields_of; try reflexivity; rewrite ?u8_reg by done; by rewrite ?Hq, ?Hc.
  - unfold rest_of in *. cbn. congruence.
Qed.

(** ** Restoring *)

Definition shaped (g : regs) : Prop :=
  length (r_seq g) = 5%nat ∧ length (r_crtc g) = 25%nat ∧ length (r_gc g) = 9%nat ∧ length (r_ac g) = 21%nat ∧ length (r_dac g) = (256 * 3)%nat.

Lemma write_seq_do vs s : length vs = 5%nat → Forall is_u8 vs → length (r_seq (regs_of s)) = 5%nat →
  ∃ s', write_seq vs s = Some (tt, s') ∧ regs_of s' = on_seq (λ _, 3 :: drop 1 vs) (regs_of s) ∧ rest_of s' = rest_of s.
Proof.
  intros Hv Hb Hl. destruct (seq_out 0x00 0x01 s) as (s1 & E1 & G1 & R1).
  destruct (write_regs_does _ _ _ 1 (drop 1 vs) seq_out s1) as (s2 & E2 & G2 & R2). destruct (seq_out 0x00 0x03 s2) as (s3 & E3 & G3 & R3).
  exists s3. unfold write_seq, mbind, M_bind. rewrite E1, E2, E3. split; [done|]. split; [|congruence]. rewrite G3, G2, writes_seq by (rewrite ?length_drop; lia). rewrite G1. unfold on_seq.
  cbn [r_misc r_seq r_crtc r_gc r_ac r_dac r_mem]. f_equal. destruct (list5 _ Hl) as (a & b & c & d & e & ->). destruct (list5 _ Hv) as (a' & b' & c' & d' & e' & ->).
  repeat (apply Forall_cons in Hb as [? Hb]). cbn. by rewrite !u8_small by done.
Qed.

Lemma bank_out index data F on (bank : regs → list Z) vs : (∀ i v, does (out_reg index data i v) (λ _, tt) (F i v)) → (∀ g, writes F 0 vs g = on (λ l, put_list l 0 vs) g) →
  (∀ h h' g, h (bank g) = h' (bank g) → on h g = on h' g) → Forall is_u8 vs →
  ∀ s, length (bank (regs_of s)) = length vs → ∃ s', write_regs index data 0 vs s = Some (tt, s') ∧ regs_of s' = on (λ _, vs) (regs_of s) ∧ rest_of s' = rest_of s.
Proof.
  intros HF Hw Hon Hb s Hl. destruct (write_regs_does _ _ F 0 vs HF s) as (s' & E & G & R). exists s'. split; [done|]. split; [|done]. rewrite G, Hw. apply Hon. by apply put_list_all.
Qed.

Lemma gc_bank_out vs s : Forall is_u8 vs → length vs = 9%nat → length (r_gc (regs_of s)) = 9%nat →
  ∃ s', write_regs VGA_GC_INDEX VGA_GC_DATA 0 vs s = Some (tt, s') ∧ regs_of s' = on_gc (λ _, vs) (regs_of s) ∧ rest_of s' = rest_of s.
Proof.
  intros Hb Hv Hl. apply (bank_out _ _ _ on_gc r_gc vs gc_out); [intros g; apply writes_gc; lia|intros h h' g E; unfold on_gc; by rewrite E|done|congruence].
Qed.

Lemma crtc_bank_out vs s : Forall is_u8 vs → length vs = 25%nat → length (r_crtc (regs_of s)) = 25%nat → Z.testbit (reg (r_crtc (regs_of s)) 0x11) 7 = false →
  ∃ s', write_regs VGA_CRTC_INDEX VGA_CRTC_DATA 0 vs s = Some (tt, s') ∧ regs_of s' = on_crtc (λ _, vs) (regs_of s) ∧ rest_of s' = rest_of s.
Proof.
  intros Hb Hv Hl Hp. destruct (write_regs_does _ _ _ 0 vs crtc_out s) as (s' & E & G & R). exists s'. split; [done|]. split; [|done]. rewrite G, writes_crtc by (done || lia).
  unfold on_crtc. rewrite put_list_all; [done|congruence|done].
Qed.

Lemma ac_bank_out vs s : Forall is_u8 vs → length vs = 21%nat → length (r_ac (regs_of s)) = 21%nat →
  ∃ s', write_ac 0 vs s = Some (tt, s') ∧ regs_of s' = on_ac (λ _, vs) (regs_of s) ∧ rest_of s' = rest_of s.
Proof.
  intros Hb Hv Hl. destruct (write_ac_does 0 vs s) as (s' & E & G & R). exists s'. split; [exact E|]. split; [|exact R]. rewrite G, writes_ac by lia. unfold on_ac. rewrite put_list_all; [done|congruence|done].
Qed.

Lemma palette_out vs s : Forall is_u8 vs → length (r_dac (regs_of s)) = length vs →
  ∃ s', write_palette vs s = Some (tt, s') ∧ regs_of s' = on_dac (λ _, vs) (regs_of s) ∧ rest_of s' = rest_of s.
Proof.
  intros Hb Hl. destruct (dac_out vs s) as (s' & E & G & R). exists s'. split; [exact E|]. split; [|exact R]. rewrite G. unfold on_dac. rewrite put_list_all; done.
Qed.

(** Clearing bit 7 of register 0x11 takes the protection off. *)
Lemma crtc_unlock v s : length (r_crtc (regs_of s)) = 25%nat →
  ∃ s', out_reg VGA_CRTC_INDEX VGA_CRTC_DATA 0x11 (Z.land v (Z.lnot 0x80)) s = Some (tt, s') ∧ rest_of s' = rest_of s ∧
    ∃ l, regs_of s' = on_crtc (λ _, l) (regs_of s) ∧ length l = 25%nat ∧ Z.testbit (reg l 0x11) 7 = false.
Proof.
  intros Hl. destruct (crtc_out 0x11 (Z.land v (Z.lnot 0x80)) s) as (s' & E & G & R). exists s'. split; [done|]. split; [done|]. rewrite (u8_idx 0x11) in G by lia.
  exists (set_reg (r_crtc (regs_of s)) 0x11 (u8 (Z.land v (Z.lnot 0x80)))). split; [rewrite G; unfold on_crtc, crtc_set; by rewrite andb_false_r|]. rewrite set_reg_insert by lia.
  split; [by rewrite length_insert|]. rewrite (reg_lookup _ 17 (u8 (Z.land v (Z.lnot 0x80)))) by (apply list_lookup_insert_eq; lia).
  unfold u8. change 256 with (2 ^ 8). rewrite Z.mod_pow2_bits_low, Z.land_spec, Z.lnot_spec by lia. by rewrite andb_false_r.
Qed.

(** The registers of [g0], and the memory of its planes. *)
Definition back (g g0 : regs) : Prop :=
  r_misc g = r_misc g0 ∧ r_seq g = r_seq g0 ∧ r_crtc g = r_crtc g0 ∧ r_gc g = r_gc g0 ∧ r_ac g = r_ac g0 ∧ r_dac g = r_dac g0 ∧
  ∀ q, 0 ≤ q < 4 → plane_of (r_mem g) q = plane_of (r_mem g0) q.


(** Up to the memory: the registers of the saved state. *)
Lemma restore_registers s g0 : ready g0 → shaped (regs_of s) →
  ∃ s', (outb VGA_MISC_WRITE (r_misc g0);; write_seq (r_seq g0);; out_reg VGA_CRTC_INDEX VGA_CRTC_DATA 0x11 (Z.land (reg (r_crtc g0) 0x11) (Z.lnot 0x80));;
      write_regs VGA_CRTC_INDEX VGA_CRTC_DATA 0 (r_crtc g0);; write_regs VGA_GC_INDEX VGA_GC_DATA 0 (r_gc g0);; write_ac 0 (r_ac g0);; video_on;; write_palette (r_dac g0)) s = Some (tt, s') ∧
    regs_of s' = on_mem (λ _, r_mem (regs_of s)) g0 ∧ rest_of s' = rest_of s.
Proof.
  intros [Hseq Hcrtc Hgc Hac Hdac (B1 & B2 & B3 & B4 & B5 & B6) Hrun] (S1 & S2 & S3 & S4 & S5).
  destruct (misc_out (r_misc g0) s) as (s1 & E1 & G1 & R1). destruct (write_seq_do (r_seq g0) s1) as (s2 & E2 & G2 & R2); [done|done|by rewrite G1|].
  destruct (crtc_unlock (reg (r_crtc g0) 0x11) s2) as (s3 & E3 & R3 & l & G3 & L3 & P3); [by rewrite G2, G1|].
  destruct (crtc_bank_out (r_crtc g0) s3) as (s4 & E4 & G4 & R4); [done|done|by rewrite G3|by rewrite G3|].
  destruct (gc_bank_out (r_gc g0) s4) as (s5 & E5 & G5 & R5); [done|done|rewrite G4, G3, G2, G1; by fields_of|].
  destruct (ac_bank_out (r_ac g0) s5) as (s6 & E6 & G6 & R6); [done|done|rewrite G5, G4, G3, G2, G1; by fields_of|]. destruct (video_on_does s6) as (s7 & E7 & G7 & R7).
  destruct (palette_out (r_dac g0) s7) as (s8 & E8 & G8 & R8); [done|rewrite G7; unfold id; rewrite G6, G5, G4, G3, G2, G1; fields_of; congruence|].
  exists s8. unfold mbind, M_bind. rewrite E1, E2, E3, E4, E5, E6, E7, E8. split; [done|]. split; [|congruence].
  rewrite G8, G7. unfold id. rewrite G6, G5, G4, G3, G2, G1. apply regs_ext; fields_of; try reflexivity; [by rewrite u8_small|].
  destruct (list5 _ Hseq) as (q0 & q1 & q2 & q3 & q4 & E). rewrite E in Hrun |- *. change (q0 = 3) in Hrun. by subst q0.
Qed.

Lemma vga_restore_state_back s g0 : v_state_saved s = true → v_saved s = image g0 → ready g0 → shaped (regs_of s) →
  ∃ s', vga_restore_state s = Some (tt, s') ∧ back (regs_of s') g0 ∧ rest_of s' = rest_of s.
Proof.
  intros Hss Hsv Hr Hsh. destruct (restore_registers s g0 Hr Hsh) as (s1 & E1 & G1 & R1). pose proof Hr as [Hseq Hcrtc Hgc Hac Hdac (B1 & B2 & B3 & B4 & B5 & B6) _].
  destruct (seq_out 0x04 0x06 s1) as (s2 & E2 & G2 & R2). destruct (gc_out 0x05 0x00 s2) as (s3 & E3 & G3 & R3). destruct (gc_out 0x06 0x05 s3) as (s4 & E4 & G4 & R4).
  destruct (list5 _ Hseq) as (q0 & q1 & q2 & q3 & q4 & Hq). destruct (list9 _ Hgc) as (c0 & c1 & c2 & c3 & c4 & c5 & c6 & c7 & c8 & Hc).
  destruct (restore_planes_do (plane_of (r_mem g0) <$> count 0 4) 0 s4) as (s5 & v & m & E5 & G5 & R5 & _ & Hm);
    [rewrite G4, G3, G2, G1; unfold planar; fields_of; by rewrite Hq|rewrite G4, G3, G2, G1; fields_of; by rewrite Hq|lia|done
    |apply Forall_fmap, Forall_true; intros q; unfold plane_of; cbn beta; unfold compose; by rewrite length_fmap, count_length|].
  destruct (seq_out 0x02 (reg (r_seq g0) 2) s5) as (s6 & E6 & G6 & R6). destruct (seq_out 0x04 (reg (r_seq g0) 4) s6) as (s7 & E7 & G7 & R7).
  destruct (gc_out 0x04 (reg (r_gc g0) 4) s7) as (s8 & E8 & G8 & R8). destruct (gc_out 0x05 (reg (r_gc g0) 5) s8) as (s9 & E9 & G9 & R9). destruct (gc_out 0x06 (reg (r_gc g0) 6) s9) as (s10 & E10 & G10 & R10).
  exists s10. split; [|split; [|congruence]].
  - unfold vga_restore_state. unfold mbind at 1, M_bind at 1, get. rewrite Hss, Hsv. cbn [negb image sv_misc sv_seq sv_crtc sv_gc sv_ac sv_dac sv_planes].
    revert E1. unfold mbind, M_bind. intros E1. repeat (match type of E1 with context [match ?m with Some _ => _ | None => None end] => destruct m as [[? ?]|]; [|done] end).
    rewrite E1, E2, E3, E4, E5, E6, E7, E8, E9. exact E10.
  - rewrite G10, G9, G8, G7, G6, G5, G4, G3, G2, G1. unfold back. split_and!; fields_of; rewrite ?u8_reg by done; rewrite ?Hq, ?Hc; try reflexivity.
    intros q Hq4. assert (Hq' : ∃ k, (k < 4)%nat ∧ q = Z.of_nat k) by (exists (Z.to_nat q); lia). destruct Hq' as (k & Hk & ->).
    apply (f_equal (λ l, l !! k)) in Hm. rewrite !list_lookup_fmap in Hm. rewrite !count_lookup in Hm. rewrite length_fmap, count_length in Hm.
    rewrite (proj2 (Nat.ltb_lt k 4)) in Hm by done. cbn [fmap option_fmap option_map] in Hm. apply (inj Some) in Hm. exact Hm.
Qed.

(** ** Mode 13h *)

Lemma set_reg_length l i v : length (set_reg l i v) = length l.
Proof. unfold set_reg, zupdate. case_match; cbn; [apply length_insert|done]. Qed.

Lemma palette_entry_does i r g b : does (vga_set_palette_entry i r g b) (λ _, tt)
  (on_dac (λ l, set_reg (set_reg (set_reg l (3 * u8 i) (u8 (Z.land r 0x3F))) (3 * u8 i + 1) (u8 (Z.land g 0x3F))) (3 * u8 i + 1 + 1) (u8 (Z.land b 0x3F)))).
Proof. access. Qed.

(** An operation that changes the palette only. *)
Definition paints (m : M vga_t unit) : Prop := ∀ s, ∃ s' l, m s = Some (tt, s') ∧ regs_of s' = on_dac (λ _, l) (regs_of s) ∧ length l = length (r_dac (regs_of s)) ∧ rest_of s' = rest_of s.

Lemma paints_then m k : paints m → paints k → paints (m;; k).
Proof.
  intros Hm Hk s. destruct (Hm s) as (s1 & l1 & E1 & G1 & L1 & R1). destruct (Hk s1) as (s2 & l2 & E2 & G2 & L2 & R2). exists s2, l2. unfold mbind, M_bind. rewrite E1, E2.
  split; [done|]. split; [by rewrite G2, G1|]. split; [rewrite L2, G1; done|congruence].
Qed.
Lemma set_palette_paints i cs : paints (set_palette i cs).
Proof.
  revert i. induction cs as [|[[r g] b] cs IH]; intros i; cbn [set_palette]; [intros s; exists s, (r_dac (regs_of s)); by destruct (regs_of s)|]. apply paints_then; [|apply IH].
  intros s. destruct (palette_entry_does (u8 i) r g b s) as (s' & E & G & R). eexists s', _. split; [exact E|]. split; [exact G|]. split; [by rewrite !set_reg_length|done].
Qed.
Lemma vga_init_palette_paints : paints vga_init_palette.
Proof. apply paints_then; [|apply paints_then]; apply set_palette_paints. Qed.

Lemma writes_mem_only i vs g : ∃ m, writes (λ i v, stores i v) i vs g = on_mem (λ _, m) g.
Proof.
  revert i g. induction vs as [|v vs IH]; intros i g; cbn [writes]; [exists (r_mem g); by destruct g|]. destruct (IH (i + 1) (stores i v g)) as [m Hm]. exists m. rewrite Hm. by destruct g.
Qed.

Definition mode13h (g : regs) : Prop :=
  r_misc g = mode13h_misc ∧ r_seq g = mode13h_seq ∧ r_crtc g = mode13h_crtc ∧ r_gc g = mode13h_gc ∧ r_ac g = mode13h_ac ∧ length (r_dac g) = (256 * 3)%nat.

Lemma unlock_crtc_eq s : unlock_crtc s = out_reg VGA_CRTC_INDEX VGA_CRTC_DATA 0x11 (Z.land (reg (r_crtc (regs_of s)) 0x11) (Z.lnot 0x80)) s.
Proof. reflexivity. Qed.

Lemma vga_write_regs_mode s : shaped (regs_of s) →
  ∃ s', vga_write_regs mode13h_misc mode13h_seq mode13h_crtc mode13h_gc mode13h_ac s = Some (tt, s') ∧ mode13h (regs_of s') ∧ rest_of s' = rest_of s.
Proof.
  intros (S1 & S2 & S3 & S4 & S5). destruct (misc_out mode13h_misc s) as (s1 & E1 & G1 & R1). destruct (write_seq_do mode13h_seq s1) as (s2 & E2 & G2 & R2); [done|decided|by rewrite G1|].
  destruct (crtc_unlock (reg (r_crtc (regs_of s2)) 0x11) s2) as (s3 & E3 & R3 & l & G3 & L3 & P3); [by rewrite G2, G1|].
  destruct (crtc_bank_out mode13h_crtc s3) as (s4 & E4 & G4 & R4); [decided|done|by rewrite G3|by rewrite G3|].
  destruct (gc_bank_out mode13h_gc s4) as (s5 & E5 & G5 & R5); [decided|done|rewrite G4, G3, G2, G1; by fields_of|].
  destruct (ac_bank_out mode13h_ac s5) as (s6 & E6 & G6 & R6); [decided|done|rewrite G5, G4, G3, G2, G1; by fields_of|]. destruct (video_on_does s6) as (s7 & E7 & G7 & R7).
  exists s7. split; [|split; [|congruence]].
  - unfold vga_write_regs, mbind, M_bind. rewrite E1, E2, unlock_crtc_eq, E3, E4, E5, E6. exact E7.
  - rewrite G7. unfold id. rewrite G6, G5, G4, G3, G2, G1. unfold mode13h. split_and!; fields_of; [reflexivity..|exact S5].
Qed.

Lemma vga_enter_mode13h_do s : ready (regs_of s) →
  ∃ s', vga_enter_mode13h s = Some (tt, s') ∧ mode13h (regs_of s') ∧ rest_of s' = (image (regs_of s), true, true, v_bga s, a_bga (v_adapter s)).
Proof.
  intros Hr. destruct (vga_save_state_keeps s Hr) as (s1 & E1 & G1 & R1). pose proof Hr as [Hseq Hcrtc Hgc Hac Hdac _ _].
  destruct (vga_write_regs_mode s1) as (s2 & E2 & (M1 & M2 & M3 & M4 & M5 & M6) & R2); [rewrite G1; by split_and!|].
  destruct (vga_init_palette_paints s2) as (s3 & l & E3 & G3 & L3 & R3). destruct (write_mem_does 0 (replicate (Z.to_nat (VGA_WIDTH * VGA_HEIGHT)) 0) s3) as (s4 & E4 & G4 & R4).
  destruct (writes_mem_only 0 (replicate (Z.to_nat (VGA_WIDTH * VGA_HEIGHT)) 0) (regs_of s3)) as [m Hm]. rewrite Hm, G3 in G4.
  exists (with_modes true (v_bga s4) s4). split; [|split].
  - unfold vga_enter_mode13h, mbind, M_bind. rewrite E1, E2, E3. unfold vga_clear. rewrite E4. reflexivity.
  - change (regs_of (with_modes _ _ s4)) with (regs_of s4). rewrite G4. unfold mode13h. split_and!; fields_of; [exact M1|exact M2|exact M3|exact M4|exact M5|]. rewrite L3. exact M6.
  - rewrite R3, R2, R1 in R4. unfold rest_of in *. injection R4 as Q1 Q2 Q3 Q4 Q5. cbn [with_modes v_saved v_state_saved v_mode13h v_bga v_adapter]. congruence.
Qed.

Lemma mode13h_shaped g : mode13h g → shaped g.
Proof. intros (_ & M2 & M3 & M4 & M5 & M6). unfold shaped. rewrite M2, M3, M4, M5. by split_and!. Qed.


(** The text mode as the firmware leaves it, with an A in the upper left corner. *)
Definition text_adapter : adapter :=
  mk_adapter 0x67 [0x03; 0x00; 0x03; 0x00; 0x02] 0
    [0x5F; 0x4F; 0x50; 0x82; 0x55; 0x81; 0xBF; 0x1F; 0x00; 0x4F; 0x0D; 0x0E; 0x00; 0x00; 0x00; 0x00; 0x9C; 0x8E; 0x8F; 0x28; 0x1F; 0x96; 0xB9; 0xA3; 0xFF] 0
    [0x00; 0x00; 0x00; 0x00; 0x00; 0x10; 0x0E; 0x00; 0xFF] 0
    [0x00; 0x01; 0x02; 0x03; 0x04; 0x05; 0x14; 0x07; 0x38; 0x39; 0x3A; 0x3B; 0x3C; 0x3D; 0x3E; 0x3F; 0x0C; 0x00; 0x0F; 0x08; 0x00] 0x20 false
    (replicate (256 * 3) 42) 0 {[0 := 0xB0C5]} {[(0, 0) := 65; (1, 0) := 7]}.
Definition text_state : vga_t := mk_vga text_adapter (mk_saved 0 [] [] [] [] [] []) false false false.


(** ** The high-resolution mode *)

Definition bga_present (s : vga_t) : Prop := ∃ n, a_bga (v_adapter s) !! VBE_DISPI_INDEX_ID = Some n ∧ 0xB0C0 ≤ n ≤ 0xB0CF.
Definition bga_session (width height bpp : Z) : M vga_t unit :=
  vga_enter_bga_mode (λ _ v, v) 0xFD000000 width height bpp;; vga_exit_bga_mode (λ _ v, v).

Lemma available_ok s : bga_present s → vga_bga_available s = Some (true, s).
Proof.
  intros (n & E & H1 & H2). unfold vga_bga_available, bga_read, mbind, M_bind, get, mret, M_ret. rewrite E. cbn [default]. unfold id.
  by rewrite (proj2 (Z.leb_le _ _) H1), (proj2 (Z.leb_le _ _) H2).
Qed.

(** The registers of the extension while the mode is on. *)
Definition bga_on (width height bpp : Z) (m : gmap Z Z) : gmap Z Z :=
  <[VBE_DISPI_INDEX_ENABLE := 0x41]> (<[VBE_DISPI_INDEX_BPP := u16 bpp]> (<[VBE_DISPI_INDEX_YRES := u16 height]>
    (<[VBE_DISPI_INDEX_XRES := u16 width]> (<[VBE_DISPI_INDEX_ENABLE := 0]> m)))).
Definition entered (width height bpp : Z) (s : vga_t) : vga_t :=
  with_modes (v_mode13h s) true (with_adapter (set_bga (bga_on width height bpp (a_bga (v_adapter s))) (v_adapter s)) s).

Lemma enter_saved width height bpp s : v_state_saved s = true → bga_present s →
  vga_enter_bga_mode (λ _ v, v) 0xFD000000 width height bpp s = Some (0xFD000000, entered width height bpp s).
Proof.
  intros Hs Hp. unfold vga_enter_bga_mode. unfold mbind at 1, M_bind at 1. rewrite available_ok by done. cbn [negb].
  unfold mbind at 1, M_bind at 1, get at 1. rewrite Hs. cbn [negb]. unfold bga_write, bga_read, mbind, M_bind, get, modify, mret, M_ret.
  cbn [v_adapter with_adapter a_bga set_bga]. change (<[VBE_DISPI_INDEX_ENABLE := u16 (Z.lor VBE_DISPI_ENABLED VBE_DISPI_LFB_ENABLED)]> ?m) with (<[VBE_DISPI_INDEX_ENABLE := 0x41]> m).
  change (u16 VBE_DISPI_DISABLED) with 0. fold (bga_on width height bpp (a_bga (v_adapter s))).
  assert (Ew : bga_on width height bpp (a_bga (v_adapter s)) !! VBE_DISPI_INDEX_XRES = Some (u16 width)) by (unfold bga_on; by rewrite !lookup_insert_ne, lookup_insert_eq by done).
  assert (Eh : bga_on width height bpp (a_bga (v_adapter s)) !! VBE_DISPI_INDEX_YRES = Some (u16 height)) by (unfold bga_on; by rewrite !lookup_insert_ne, lookup_insert_eq by done).
  rewrite Ew, Eh. cbn [default]. unfold id. rewrite !Z.eqb_refl. reflexivity.
Qed.

Lemma enter_unsaved width height bpp s s1 : v_state_saved s = false → bga_present s → vga_save_state s = Some (tt, s1) → v_state_saved s1 = true → bga_present s1 →
  vga_enter_bga_mode (λ _ v, v) 0xFD000000 width height bpp s = vga_enter_bga_mode (λ _ v, v) 0xFD000000 width height bpp s1.
Proof.
  intros Hs Hp E Hs1 Hp1. unfold vga_enter_bga_mode, mbind, M_bind, get. rewrite (available_ok s), (available_ok s1) by done. cbn [negb].
  rewrite Hs, Hs1. cbn [negb]. rewrite E. reflexivity.
Qed.

(** A session with a saved text mode ends in that text mode. *)
Lemma session_restores_saved width height bpp s g0 : v_state_saved s = true → v_saved s = image g0 → ready g0 → shaped (regs_of s) → bga_present s →
  ∃ s', bga_session width height bpp s = Some (tt, s') ∧ back (regs_of s') g0 ∧ v_saved s' = image g0 ∧ v_state_saved s' = true ∧ bga_present s'.
Proof.
  intros Hs Hv Hr Hsh Hp. unfold bga_session. unfold mbind at 1, M_bind at 1. rewrite enter_saved by done.
  unfold vga_exit_bga_mode. unfold mbind at 1, M_bind at 1, get at 1. change (v_bga (entered width height bpp s)) with true. cbn [negb].
  unfold bga_write, modify. unfold mbind, M_bind. set (s1 := with_modes _ false _).
  destruct (vga_restore_state_back s1 g0) as (s' & E & B & R); [done..|]. rewrite E. exists s'. split; [done|]. split; [done|].
  unfold rest_of in R. injection R as Q1 Q2 Q3 Q4 Q5. split; [by rewrite Q1|]. split; [by rewrite Q2|].
  destruct Hp as (n & Ei & Hi). exists n. split; [|done]. rewrite Q5. unfold s1, entered, bga_on. cbn [v_adapter with_modes with_adapter a_bga set_bga]. by rewrite !lookup_insert_ne by done.
Qed.

(** The high-resolution mode saves the text mode only once: whatever text [s2] shows when a second session starts, its
    end brings back the screen from before the first one. *)
Lemma second_session_restores_first_screen width height bpp s : ready (regs_of s) → v_state_saved s = false → bga_present s →
  ∃ s1, bga_session width height bpp s = Some (tt, s1) ∧ back (regs_of s1) (regs_of s) ∧
  ∀ s2, v_saved s2 = v_saved s1 → v_state_saved s2 = v_state_saved s1 → shaped (regs_of s2) → bga_present s2 →
    ∃ s3, bga_session width height bpp s2 = Some (tt, s3) ∧ back (regs_of s3) (regs_of s).
Proof.
  intros Hr Hs Hp. destruct (vga_save_state_keeps s Hr) as (s0 & E0 & G0 & R0). unfold rest_of in R0. injection R0 as Q1 Q2 Q3 Q4 Q5.
  assert (Hp0 : bga_present s0) by (destruct Hp as (n & Ei & Hi); exists n; rewrite Q5; exact (conj Ei Hi)).
  assert (Hsh : shaped (regs_of s0)) by (rewrite G0; destruct Hr as [H1 H2 H3 H4 H5 _ _]; exact (conj H1 (conj H2 (conj H3 (conj H4 H5))))).
  destruct (session_restores_saved width height bpp s0 (regs_of s)) as (s1 & E1 & B1 & V1 & S1 & P1); [exact Q2|exact Q1|exact Hr|exact Hsh|exact Hp0|].
  exists s1. split; [|split; [exact B1|]].
  - rewrite <- E1. unfold bga_session, mbind, M_bind. by rewrite (enter_unsaved width height bpp s s0).
  - intros s2 H1 H2 H3 H4. destruct (session_restores_saved width height bpp s2 (regs_of s)) as (s3 & E3 & B3 & _); [congruence|congruence|exact Hr|exact H3|exact H4|]. exists s3. exact (conj E3 B3).
Qed.
