(* ===== verification/VgaDraw.v ===== *)
(** * Drawing

    In mode 13h the drawing operations colour the pixels that they should, within the screen, and change nothing else.
    The line is the one of Bresenham: a point for each step along the longer side, within half a pixel of the ideal line. *)

From S2P Require Import Prelude LibcNum Ld86 Vga VgaSpec.

(** ** Pixels *)

Definition on_screen (x y : Z) : Prop := 0 ≤ x < 320 ∧ 0 ≤ y < 200.
Definition cell_at (x y : Z) : Z * Z := let off := y * 320 + x in (off mod 4, off - off mod 4).
Definition pixel (g : regs) (x y : Z) : option Z := r_mem g !! cell_at x y.

Lemma cell_at_inj x y x' y' : on_screen x y → on_screen x' y' → cell_at x y = cell_at x' y' → x = x' ∧ y = y'.
Proof. intros [Hx Hy] [Hx' Hy'] [= H1 H2]. lia. Qed.

(** [g'] is [g] with the pixels of [P] in [color]. *)
Definition drawn (P : Z → Z → bool) (color : Z) (g g' : regs) : Prop :=
  ∃ m, g' = on_mem (λ _, m) g ∧ (∀ x y, on_screen x y → m !! cell_at x y = if P x y then Some color else pixel g x y) ∧
    ∀ k, (∀ x y, on_screen x y → k ≠ cell_at x y) → m !! k = r_mem g !! k.

Definition chained (g : regs) : Prop := Z.testbit (reg (r_seq g) 4) 3 = true.

(** [m] returns and draws the pixels of [P], in mode 13h. *)
Definition draws (m : M vga_t unit) (P : Z → Z → bool) (color : Z) : Prop :=
  ∀ s, chained (regs_of s) → ∃ s', m s = Some (tt, s') ∧ drawn P color (regs_of s) (regs_of s') ∧ rest_of s' = rest_of s.

Lemma draws_ret color : draws (mret tt) (λ _ _, false) color.
Proof. intros s _. exists s. split; [done|]. split; [|done]. exists (r_mem (regs_of s)). split; [by destruct (regs_of s)|done]. Qed.

Lemma drawn_chained P c g g' : drawn P c g g' → chained g → chained g'.
Proof. by intros (m & -> & _). Qed.

Lemma draws_then m k P Q c : draws m P c → draws k Q c → draws (m;; k) (λ x y, P x y || Q x y) c.
Proof.
  intros Hm Hk s Hs. destruct (Hm s Hs) as (s1 & E1 & D1 & R1). destruct (Hk s1 (drawn_chained _ _ _ _ D1 Hs)) as (s2 & E2 & (m2 & G2 & I2 & O2) & R2).
  exists s2. unfold mbind, M_bind. rewrite E1, E2. split; [done|]. split; [|congruence]. destruct D1 as (m1 & G1 & I1 & O1). exists m2. unfold pixel in *. rewrite G1 in *. split; [by rewrite G2|]. split.
  - intros x y H. rewrite I2 by done. fields_of. destruct (Q x y); [by rewrite orb_true_r|]. rewrite orb_false_r. by apply I1.
  - intros k' H. rewrite O2 by done. fields_of. by apply O1.
Qed.

Lemma draws_eq m P Q c : draws m P c → (∀ x y, on_screen x y → P x y = Q x y) → draws m Q c.
Proof.
  intros H He s Hs. destruct (H s Hs) as (s' & E & (m' & G & I & O) & R). exists s'. split; [done|]. split; [|done]. exists m'. split; [done|]. split; [|done]. intros x y Hxy. rewrite <- He by done. by apply I.
Qed.

Lemma vstore_draws x y color : on_screen x y → draws (vstore (y * VGA_WIDTH + x) color) (λ x' y', (x' =? x) && (y' =? y)) color.
Proof.
  intros Hxy s Hs. destruct (vstore_does (y * VGA_WIDTH + x) color s) as (s' & E & G & R). exists s'. split; [done|]. split; [|done]. unfold stores, chained, VGA_WIDTH in *. rewrite Hs in G.
  exists (<[cell_at x y := color]> (r_mem (regs_of s))). split; [by rewrite G|]. split.
  - intros x' y' H'. destruct (Z.eqb_spec x' x) as [->|Hx]; cbn [andb]; [destruct (Z.eqb_spec y' y) as [->|Hy]|]; [by rewrite lookup_insert_eq|..];
      rewrite lookup_insert_ne; try done; intros Hc; apply cell_at_inj in Hc as [? ?]; done.
  - intros k Hk. rewrite lookup_insert_ne; [done|]. intros <-. by apply (Hk x y).
Qed.

Lemma put_pixel_draws x y color : draws (vga_put_pixel x y color) (λ x' y', (x' =? x) && (y' =? y)) color.
Proof.
  unfold vga_put_pixel, VGA_HEIGHT, VGA_WIDTH. destruct (_ || _) eqn:E.
  - eapply draws_eq; [apply draws_ret|]. intros x' y' [Hx Hy]. symmetry. apply andb_false_iff. repeat (apply orb_true_iff in E as [E|E]); [left|left|right|right]; apply Z.eqb_neq; lia.
  - repeat (apply orb_false_iff in E as [E ?]). apply vstore_draws. split; lia.
Qed.

Lemma sint_ok x : is_s32 x → sint x = Some x.
Proof. unfold is_s32, sint. intros H. by rewrite (proj2 (andb_true_iff _ _)) by lia. Qed.

(** ** Rectangles *)

Lemma fill_cols_draws n row col color : 0 ≤ row < 200 → draws (fill_cols n row col color) (λ x y, (y =? row) && (col <=? x) && (x <? col + Z.of_nat n)) color.
Proof.
  intros Hr. revert col. induction n as [|n IH]; intros col; cbn [fill_cols].
  { eapply draws_eq; [apply draws_ret|]. intros x y _. symmetry. destruct (Z.leb_spec col x), (Z.ltb_spec x (col + Z.of_nat 0)); rewrite ?andb_false_r; done || lia. }
  eapply draws_eq; [eapply (draws_then _ _ (λ x y, (x =? col) && (y =? row)) _ color); [|apply IH]|].
  - unfold VGA_WIDTH. destruct (_ || _) eqn:E; [|apply orb_false_iff in E as [E1 E2]; apply vstore_draws; split; lia]. eapply draws_eq; [apply draws_ret|].
    intros x y [Hx Hy]. symmetry. apply andb_false_iff. left. apply Z.eqb_neq. apply orb_true_iff in E as [E|E]; lia.
  - intros x y _. cbn beta. destruct (Z.eqb_spec y row), (Z.eqb_spec x col), (Z.leb_spec col x), (Z.leb_spec (col + 1) x), (Z.ltb_spec x (col + Z.of_nat (S n))), (Z.ltb_spec x (col + 1 + Z.of_nat n)); cbn [andb orb]; done || lia.
Qed.

Lemma fill_rows_draws n row x w color : is_s32 x → is_s32 (x + w) → draws (fill_rows n row x w color) (λ px py, (row <=? py) && (py <? row + Z.of_nat n) && (x <=? px) && (px <? x + w)) color.
Proof.
  intros Hx Hw. revert row. induction n as [|n IH]; intros row; cbn [fill_rows].
  { eapply draws_eq; [apply draws_ret|]. intros px py _. symmetry. destruct (Z.leb_spec row py), (Z.ltb_spec py (row + Z.of_nat 0)); cbn [andb]; done || lia. }
  eapply draws_eq; [eapply (draws_then _ _ (λ px py, (py =? row) && (x <=? px) && (px <? x + w)) _ color); [|apply IH]|].
  - unfold VGA_HEIGHT. destruct (_ || _) eqn:E.
    + eapply draws_eq; [apply draws_ret|]. intros px py [Hpx Hpy]. symmetry. apply andb_false_iff. left. apply andb_false_iff. left. apply Z.eqb_neq. apply orb_true_iff in E as [E|E]; lia.
    + apply orb_false_iff in E as [E1 E2]. intros s Hs. unfold mbind, M_bind, lift. rewrite sint_ok by done. revert s Hs. fold (draws (fill_cols (Z.to_nat (x + w - x)) row x color) (λ px py, (py =? row) && (x <=? px) && (px <? x + w)) color).
      eapply draws_eq; [apply fill_cols_draws; lia|]. intros px py _. cbn beta. destruct (py =? row), (Z.leb_spec x px), (Z.ltb_spec px (x + Z.of_nat (Z.to_nat (x + w - x)))), (Z.ltb_spec px (x + w)); cbn [andb]; done || lia.
  - intros px py _. cbn beta. destruct (Z.eqb_spec py row), (Z.leb_spec row py), (Z.leb_spec (row + 1) py), (Z.ltb_spec py (row + Z.of_nat (S n))), (Z.ltb_spec py (row + 1 + Z.of_nat n)), (x <=? px), (px <? x + w); cbn [andb orb]; done || lia.
Qed.

Definition in_rect (x y w h : Z) (px py : Z) : bool := (y <=? py) && (py <? y + h) && (x <=? px) && (px <? x + w).

Lemma fill_rect_draws x y w h color : is_s32 x → is_s32 (x + w) → is_s32 y → is_s32 (y + h) → draws (vga_fill_rect x y w h color) (in_rect x y w h) color.
Proof.
  intros Hx Hw Hy Hh s Hs. unfold vga_fill_rect, mbind, M_bind, lift. rewrite sint_ok by done. revert s Hs. fold (draws (fill_rows (Z.to_nat (y + h - y)) y x w color) (in_rect x y w h) color).
  eapply draws_eq; [by apply fill_rows_draws|]. intros px py _. unfold in_rect. destruct (Z.leb_spec y py), (Z.ltb_spec py (y + Z.of_nat (Z.to_nat (y + h - y)))), (Z.ltb_spec py (y + h)); cbn [andb]; done || lia.
Qed.

(** ** Lines *)

Fixpoint line_points (fuel : nat) (dx dy sx sy x1 y1 x y err : Z) : option (list (Z * Z)) :=
  match fuel with
  | O => None
  | S fuel =>
    if (x =? x1) && (y =? y1) then Some [(x, y)] else
    '(x', y', err) ← line_step dx dy sx sy x y err; ps ← line_points fuel dx dy sx sy x1 y1 x' y' err; Some ((x, y) :: ps)
  end.

Definition is_point (ps : list (Z * Z)) (x y : Z) : bool := bool_decide ((x, y) ∈ ps).

Lemma line_loop_draws fuel dx dy sx sy x1 y1 x y err color ps : line_points fuel dx dy sx sy x1 y1 x y err = Some ps →
  draws (line_loop fuel dx dy sx sy x1 y1 x y err color) (is_point ps) color.
Proof.
  revert x y err ps. induction fuel as [|fuel IH]; intros x y err ps H; [done|]. cbn [line_points line_loop] in *. destruct (_ && _).
  - injection H as <-. eapply draws_eq; [eapply draws_then; [apply put_pixel_draws|apply draws_ret]|]. intros px py _. cbn beta. rewrite orb_false_r. unfold is_point.
    destruct (Z.eqb_spec px x), (Z.eqb_spec py y); cbn [andb]; symmetry; [apply bool_decide_true|apply bool_decide_false..]; [subst; by left|intros ?%list_elem_of_singleton; congruence..].
  - destruct (line_step dx dy sx sy x y err) as [[[x' y'] err']|] eqn:Es; [|done]. cbn [mbind option_bind] in H. destruct (line_points fuel _ _ _ _ _ _ _ _ _) as [ps'|] eqn:Ep; [|done]. injection H as <-.
    eapply draws_eq; [eapply draws_then; [apply put_pixel_draws|]|].
    + intros s Hs. unfold mbind, M_bind, lift. revert s Hs. apply (IH x' y' err' ps' Ep).
    + intros px py _. cbn beta. unfold is_point. destruct (Z.eqb_spec px x), (Z.eqb_spec py y); cbn [andb orb]; symmetry.
      1: apply bool_decide_true; subst; by left.
      all: apply bool_decide_ext; rewrite elem_of_cons; naive_solver.
Qed.

(** After [k] steps along the longer side: [i] along x and [j] along y, and the distance from the ideal line. *)
Record along (dx dy k i j : Z) : Prop := mk_along {
  al_i : 0 ≤ i ≤ dx;
  al_j : 0 ≤ j ≤ dy;
  al_k : k = if dy <=? dx then i else j;
  al_flat : dy ≤ dx → - dx < 2 * (i * dy - j * dx) ≤ dx ∨ dx = 0;
  al_diag : dx = dy → i = j;
  al_steep : dx < dy → - dy ≤ 2 * (i * dy - j * dx) < dy
}.

Lemma along_start dx dy : 0 ≤ dx → 0 ≤ dy → along dx dy 0 0 0.
Proof. intros Hx Hy. constructor; try lia. by destruct (dy <=? dx). Qed.

Lemma along_end dx dy i j : along dx dy (Z.max dx dy) i j → i = dx ∧ j = dy.
Proof.
  intros []. destruct (Z.leb_spec dy dx) as [H|H].
  - assert (i = dx) as -> by lia. split; [done|]. destruct (decide (dx = 0)); [lia|]. specialize (al_flat0 H). nia.
  - assert (j = dy) as -> by lia. split; [|done]. specialize (al_steep0 H). nia.
Qed.

Lemma along_not_end dx dy k i j : along dx dy k i j → k < Z.max dx dy → i ≠ dx ∨ j ≠ dy.
Proof. intros [] Hk. destruct (Z.leb_spec dy dx); lia. Qed.

(** The decisions of a step, by the distance [d = i * dy - j * dx]. *)
Lemma along_step dx dy k i j : along dx dy k i j → k < Z.max dx dy →
  let d := i * dy - j * dx in
  let i' := if 2 * d <? 2 * dx - dy then i + 1 else i in let j' := if dx - 2 * dy <? 2 * d then j + 1 else j in
  along dx dy (k + 1) i' j'.
Proof.
  intros [] Hk. cbv zeta. set (d := i * dy - j * dx) in *. destruct (Z.leb_spec dy dx) as [H|H].
  - assert (Hd : - dx < 2 * d ≤ dx) by (destruct (al_flat0 H); lia). assert (Hlt : 2 * d < 2 * dx - dy).
    { destruct (decide (dx = dy)) as [E|E]; [|lia]. assert (i = j) by auto. assert (d = 0) by (unfold d; nia). lia. }
    rewrite (proj2 (Z.ltb_lt _ _) Hlt). destruct (Z.ltb_spec (dx - 2 * dy) (2 * d)) as [Hj|Hj].
    + assert (Hd' : (i + 1) * dy - (j + 1) * dx = d + dy - dx) by (unfold d; ring).
      constructor; [lia| |rewrite (proj2 (Z.leb_le _ _) H); lia|intros _; left; rewrite Hd'; lia|intros E; specialize (al_diag0 E); lia|lia].
      split; [lia|]. assert (- dx < 2 * ((i + 1) * dy - (j + 1) * dx)) by lia. nia.
    + assert (Hd' : (i + 1) * dy - j * dx = d + dy) by (unfold d; ring).
      constructor; [lia|lia|rewrite (proj2 (Z.leb_le _ _) H); lia|intros _; left; rewrite Hd'; lia| |lia].
      intros E. assert (i = j) by auto. assert (d = 0) by (unfold d; nia). lia.
  - specialize (al_steep0 H). assert (Hlt : dx - 2 * dy < 2 * d) by lia. rewrite (proj2 (Z.ltb_lt _ _) Hlt). destruct (Z.ltb_spec (2 * d) (2 * dx - dy)) as [Hi|Hi].
    + assert (Hd' : (i + 1) * dy - (j + 1) * dx = d + dy - dx) by (unfold d; ring).
      constructor; [|lia|rewrite (proj2 (Z.leb_gt _ _) H); lia|lia|lia|intros _; rewrite Hd'; lia].
      split; [lia|]. assert (2 * ((i + 1) * dy - (j + 1) * dx) < dy) by lia. nia.
    + assert (Hd' : i * dy - (j + 1) * dx = d - dx) by (unfold d; ring).
      constructor; [lia|lia|rewrite (proj2 (Z.leb_gt _ _) H); lia|lia|lia|intros _; rewrite Hd'; lia].
Qed.

(** Coordinates that leave room for the arithmetic. *)
Definition drawable (x : Z) : Prop := - 2 ^ 28 ≤ x ≤ 2 ^ 28.

Section line.
Context (x0 y0 x1 y1 : Z) (Hx0 : drawable x0) (Hy0 : drawable y0) (Hx1 : drawable x1) (Hy1 : drawable y1).

Definition adx : Z := Z.abs (x1 - x0).
Definition ady : Z := Z.abs (y1 - y0).
Definition dir (a b : Z) : Z := if 0 <? b - a then 1 else -1.
Definition at_x (i : Z) : Z := x0 + dir x0 x1 * i.
Definition at_y (j : Z) : Z := y0 + dir y0 y1 * j.
Definition dist (i j : Z) : Z := i * ady - j * adx.

Lemma dir_cases a b : dir a b = 1 ∧ Z.abs (b - a) = b - a ∨ dir a b = -1 ∧ Z.abs (b - a) = a - b.
Proof. unfold dir. destruct (Z.ltb_spec 0 (b - a)); [left|right]; lia. Qed.

Lemma at_range k i j : along adx ady k i j → drawable (at_x i) ∧ drawable (at_y j) ∧ (at_x i = x1 ↔ i = adx) ∧ (at_y j = y1 ↔ j = ady).
Proof.
  intros []. unfold at_x, at_y, adx, ady, drawable in *.
  destruct (dir_cases x0 x1) as [[-> ?]|[-> ?]], (dir_cases y0 y1) as [[-> ?]|[-> ?]]; split_and!; lia.
Qed.

Lemma dist_range k i j : along adx ady k i j → - Z.max adx ady ≤ 2 * dist i j ≤ Z.max adx ady.
Proof. intros []. unfold dist. destruct (Z.le_gt_cases ady adx) as [H|H]; [destruct (al_flat0 H); nia|specialize (al_steep0 H); lia]. Qed.

Lemma line_step_along k i j : along adx ady k i j → k < Z.max adx ady →
  ∃ i' j', along adx ady (k + 1) i' j' ∧ line_step adx ady (dir x0 x1) (dir y0 y1) (at_x i) (at_y j) (adx - ady - dist i j) = Some (at_x i', at_y j', adx - ady - dist i' j').
Proof.
  intros Ha Hk. pose proof (along_step _ _ _ _ _ Ha Hk) as Ha'. cbv zeta in Ha'. fold (dist i j) in Ha'. pose proof (at_range _ _ _ Ha) as (Rx & Ry & _). pose proof (at_range _ _ _ Ha') as (Rx' & Ry' & _).
  pose proof (dist_range _ _ _ Ha) as Hd. assert (Hdx : 0 ≤ adx ≤ 2 ^ 29 ∧ 0 ≤ ady ≤ 2 ^ 29) by (unfold adx, ady, drawable in *; lia).
  eexists _, _. split; [exact Ha'|]. unfold line_step, drawable, is_s32 in *. rewrite (sint_ok (2 * _)) by (unfold is_s32; lia). cbn [mbind option_bind]. rewrite (sint_ok (- ady)) by (unfold is_s32; lia). cbn [mbind option_bind].
  assert (Ex : at_x (i + 1) = at_x i + dir x0 x1) by (unfold at_x; ring). assert (Ey : at_y (j + 1) = at_y j + dir y0 y1) by (unfold at_y; ring).
  assert (Di : dist (i + 1) j = dist i j + ady) by (unfold dist; ring). assert (Dj : ∀ i, dist i (j + 1) = dist i j - adx) by (intros; unfold dist; ring).
  replace (- ady <? 2 * (adx - ady - dist i j)) with (2 * dist i j <? 2 * adx - ady) by (destruct (Z.ltb_spec (2 * dist i j) (2 * adx - ady)), (Z.ltb_spec (- ady) (2 * (adx - ady - dist i j))); done || lia).
  replace (2 * (adx - ady - dist i j) <? adx) with (adx - 2 * ady <? 2 * dist i j) by (destruct (Z.ltb_spec (adx - 2 * ady) (2 * dist i j)), (Z.ltb_spec (2 * (adx - ady - dist i j)) adx); done || lia).
  destruct (2 * dist i j <? 2 * adx - ady), (adx - 2 * ady <? 2 * dist i j); rewrite ?Ex, ?Ey in *; rewrite ?Dj, ?Di; repeat (rewrite sint_ok by (unfold is_s32; lia); cbn [mbind option_bind]); do 2 f_equal; lia.
Qed.

(** The line: from one end to the other, a point for each step along the longer side, and each of them within half a pixel
    of the ideal line. *)
Record line_of (ps : list (Z * Z)) : Prop := mk_line_of {
  ln_length : Z.of_nat (length ps) = Z.max adx ady + 1;
  ln_first : head ps = Some (x0, y0);
  ln_last : last ps = Some (x1, y1);
  ln_points : ∀ k p, ps !! k = Some p → ∃ i j, p = (at_x i, at_y j) ∧ 0 ≤ i ≤ adx ∧ 0 ≤ j ≤ ady ∧ (if ady <=? adx then i else j) = Z.of_nat k ∧
    2 * Z.abs (i * ady - j * adx) ≤ Z.max adx ady
}.

Lemma line_points_along n k i j : along adx ady k i j → k + Z.of_nat n = Z.max adx ady →
  ∃ ps, line_points (S n) adx ady (dir x0 x1) (dir y0 y1) x1 y1 (at_x i) (at_y j) (adx - ady - dist i j) = Some ps ∧ length ps = S n ∧
    ∀ m p, ps !! m = Some p → ∃ i j, along adx ady (k + Z.of_nat m) i j ∧ p = (at_x i, at_y j).
Proof.
  revert k i j. induction n as [|n IH]; intros k i j Ha Hk; pose proof (at_range _ _ _ Ha) as (_ & _ & Ex & Ey).
  - assert (Hend : i = adx ∧ j = ady) by (apply along_end; by replace (Z.max adx ady) with k by lia). exists [(at_x i, at_y j)].
    cbn [line_points]. rewrite (proj2 (Z.eqb_eq _ _) (proj2 Ex (proj1 Hend))), (proj2 (Z.eqb_eq _ _) (proj2 Ey (proj2 Hend))). split; [done|]. split; [done|].
    intros m p Hm. destruct m; [injection Hm as <-|done]. exists i, j. by rewrite Z.add_0_r.
  - destruct (line_step_along k i j Ha ltac:(lia)) as (i' & j' & Ha' & Hst). destruct (IH (k + 1) i' j' Ha' ltac:(lia)) as (ps & Hps & Hl & Hin). exists ((at_x i, at_y j) :: ps).
    cbn [line_points]. replace ((at_x i =? x1) && (at_y j =? y1)) with false.
    + rewrite Hst. cbn [mbind option_bind]. cbn [line_points] in Hps. rewrite Hps. split; [done|]. split; [cbn; lia|]. intros [|m] p Hm; [injection Hm as <-; exists i, j; by rewrite Z.add_0_r|].
      destruct (Hin m p Hm) as (i2 & j2 & H2 & ->). exists i2, j2. by replace (k + Z.of_nat (S m)) with (k + 1 + Z.of_nat m) by lia.
    + symmetry. apply andb_false_iff. destruct (along_not_end _ _ _ _ _ Ha ltac:(lia)) as [H|H]; [left|right]; apply Z.eqb_neq; tauto.
Qed.

Lemma line_points_line : ∃ ps, line_points (S (Z.to_nat (Z.max adx ady))) adx ady (dir x0 x1) (dir y0 y1) x1 y1 x0 y0 (adx - ady) = Some ps ∧ line_of ps.
Proof.
  assert (Hdx : 0 ≤ adx ∧ 0 ≤ ady) by (unfold adx, ady; lia). destruct (line_points_along (Z.to_nat (Z.max adx ady)) 0 0 0) as (ps & Hps & Hl & Hin); [apply along_start; apply Hdx|lia|].
  replace (at_x 0) with x0 in Hps by (unfold at_x; ring). replace (at_y 0) with y0 in Hps by (unfold at_y; ring). replace (adx - ady - dist 0 0) with (adx - ady) in Hps by (unfold dist; ring).
  exists ps. split; [exact Hps|]. constructor.
  - lia.
  - destruct ps as [|p ps]; [done|]. destruct (Hin 0%nat p eq_refl) as (i & j & Ha & ->). destruct Ha. cbn [head]. f_equal. destruct (Z.leb_spec ady adx) as [H|H].
    + assert (i = 0) as -> by lia. unfold at_x, at_y. destruct (decide (adx = 0)); [replace j with 0 by lia; f_equal; ring|]. destruct (al_flat0 H) as [Hf|]; [|lia]. replace j with 0 by nia. f_equal; ring.
    + assert (j = 0) as -> by lia. specialize (al_steep0 H). unfold at_x, at_y. replace i with 0 by nia. f_equal; ring.
  - rewrite last_lookup, Hl. cbn [Init.Nat.pred]. destruct (lookup_lt_is_Some_2 ps (Z.to_nat (Z.max adx ady))) as [p Hp]; [lia|]. rewrite Hp. destruct (Hin _ _ Hp) as (i & j & Ha & ->).
    replace (0 + Z.of_nat (Z.to_nat (Z.max adx ady))) with (Z.max adx ady) in Ha by lia. pose proof (at_range _ _ _ Ha) as (_ & _ & Ex & Ey). apply along_end in Ha as [Hi Hj]. by rewrite (proj2 Ex Hi), (proj2 Ey Hj).
  - intros k p Hk. destruct (Hin k p Hk) as (i & j & Ha & ->). exists i, j. pose proof (dist_range _ _ _ Ha) as Hd. unfold dist in Hd. destruct Ha. split; [done|]. split; [done|]. split; [done|]. split; [lia|lia].
Qed.
End line.

Lemma line_points_more n m dx dy sx sy x1 y1 x y err ps : line_points n dx dy sx sy x1 y1 x y err = Some ps → (n ≤ m)%nat → line_points m dx dy sx sy x1 y1 x y err = Some ps.
Proof.
  revert m x y err ps. induction n as [|n IH]; intros m x y err ps H Hm; [done|]. destruct m as [|m]; [lia|]. cbn [line_points] in *. destruct (_ && _); [done|].
  destruct (line_step dx dy sx sy x y err) as [[[x' y'] err']|]; [|done]. cbn [mbind option_bind] in *. destruct (line_points n _ _ _ _ _ _ _ _ _) as [ps'|] eqn:E; [|done]. by rewrite (IH m _ _ _ _ E) by lia.
Qed.

Lemma magnitude_ok d (s : vga_t) : - 2 ^ 29 ≤ d ≤ 2 ^ 29 → magnitude d s = Some (Z.abs d, s).
Proof. intros Hd. unfold magnitude. destruct (Z.ltb_spec d 0); unfold lift, mret, M_ret; [rewrite sint_ok by (unfold is_s32; lia)|]; do 2 f_equal; lia. Qed.

(** The line of the display driver.  For any two points, also outside of the screen, whose coordinates leave room for the arithmetic, the loop ends after
    as many steps as the longer side has; it has then coloured, of a line of points from one end to the other, one for each step along the longer side and each within half a pixel
    of the ideal line, those that are on the screen, and nothing else. *)
Theorem vga_draw_line_correct n x0 y0 x1 y1 color s : drawable x0 → drawable y0 → drawable x1 → drawable y1 → Z.max (Z.abs (x1 - x0)) (Z.abs (y1 - y0)) < Z.of_nat n → chained (regs_of s) →
  ∃ ps s', line_of x0 y0 x1 y1 ps ∧ vga_draw_line n x0 y0 x1 y1 color s = Some (tt, s') ∧ drawn (is_point ps) color (regs_of s) (regs_of s') ∧ rest_of s' = rest_of s.
Proof.
  intros H1 H2 H3 H4 Hn Hs. destruct (line_points_line x0 y0 x1 y1 H1 H2 H3 H4) as (ps & Hps & Hl). apply (line_points_more _ n) in Hps; [|unfold adx, ady; lia].
  destruct (line_loop_draws n _ _ _ _ x1 y1 x0 y0 _ color ps Hps s Hs) as (s' & E & D & R). exists ps, s'. split; [done|]. split; [|done].
  unfold vga_draw_line, drawable, mbind, M_bind, lift in *. rewrite !sint_ok by (unfold is_s32; lia). fold (dir x0 x1) (dir y0 y1).
  rewrite !magnitude_ok by lia. rewrite sint_ok by (unfold is_s32; lia). exact E.
Qed.

(** A line from the middle to beyond the right edge. *)
Definition graphics_state : vga_t := mk_vga (set_seq mode13h_seq 0 text_adapter) (mk_saved 0 [] [] [] [] [] []) true true false.
Lemma vga_draw_line_correct_witness : ∃ ps s', line_of 160 100 400 130 ps ∧ vga_draw_line 400 160 100 400 130 15 graphics_state = Some (tt, s') ∧
  drawn (is_point ps) 15 (regs_of graphics_state) (regs_of s') ∧ rest_of s' = rest_of graphics_state.
Proof. apply (vga_draw_line_correct 400 160 100 400 130 15 graphics_state); first [reflexivity | unfold drawable; lia]. Defined.
