(* ===== verification/Cpu.v ===== *)
(** * Descriptor tables, interrupts and the timer
    ([src/src/arch/i686/gdt.c], [tss.c], [interrupts.c], [timer.c], [686init.c])

    The tables that the processor reads, the interrupt controllers behind their ports, and the dispatch of
    the hardware interrupts.  The controllers are modelled after the manual of the 8259: the initialization words, the mask,
    the requests, and the interrupts in service, of which an end-of-interrupt command ends the one of highest
    priority. *)

From S2P Require Import Prelude Bytes KHeap Task VfsProc.

(** ** Segments *)

Record gdt_entry_t := mk_gdt_entry { g_limit_low : Z; g_base_low : Z; g_base_middle : Z; g_access : Z; g_granularity : Z; g_base_high : Z }.
(** The fields that [tss_init] leaves zero and nothing sets later are left out. *)
Record tss_entry_t := mk_tss { ts_esp0 : Z; ts_ss0 : Z; ts_cs : Z; ts_ss : Z; ts_ds : Z; ts_es : Z; ts_fs : Z; ts_gs : Z; ts_iomap_base : Z }.
Record idt_entry_t := mk_idt_entry { i_base_low : Z; i_selector : Z; i_zero : Z; i_flags : Z; i_base_high : Z }.

Definition GDT_ENTRY_COUNT : Z := 6.
Definition KERNEL_DATA_SEG : Z := 0x10.
Definition TSS_SEG : Z := 0x28.
Definition TSS_SIZE : Z := 104.
Definition SEGMENT_OFFSET : Z := 0x08.
Definition PRIVILEGE : Z := 0x8E.
Definition PRIVILEGE_USER : Z := 0xEE.
Definition MASTER_PIC_COMMAND : Z := 0x20.
Definition MASTER_PIC_DATA : Z := 0x21.
Definition SLAVE_PIC_COMMAND : Z := 0xA0.
Definition SLAVE_PIC_DATA : Z := 0xA1.

Definition zero_gdt : gdt_entry_t := mk_gdt_entry 0 0 0 0 0 0.
Definition zero_tss : tss_entry_t := mk_tss 0 0 0 0 0 0 0 0 0.
Definition zero_idt : idt_entry_t := mk_idt_entry 0 0 0 0 0.

(** ** The interrupt controllers *)

(** [p_step] counts the initialization words that are still expected. *)
Record pic_t := mk_pic { p_step : nat; p_offset : Z; p_imr : Z; p_irr : Z; p_isr : Z; p_read_isr : bool }.

Definition clear_lowest (v : Z) : Z := Z.land v (v - 1).

Definition pic_command (v : Z) (p : pic_t) : pic_t :=
  if Z.testbit v 4 then mk_pic 3 (p_offset p) 0 0 0 false else
  if Z.testbit v 3 then mk_pic (p_step p) (p_offset p) (p_imr p) (p_irr p) (p_isr p) (if Z.testbit v 1 then Z.testbit v 0 else p_read_isr p) else
  if Z.land v 0xE0 =? 0x20 then mk_pic (p_step p) (p_offset p) (p_imr p) (p_irr p) (clear_lowest (p_isr p)) (p_read_isr p) else p.

Definition pic_data (v : Z) (p : pic_t) : pic_t :=
  match p_step p with
  | 3%nat => mk_pic 2 (Z.land v 0xF8) (p_imr p) (p_irr p) (p_isr p) (p_read_isr p)
  | S n => mk_pic n (p_offset p) (p_imr p) (p_irr p) (p_isr p) (p_read_isr p)
  | O => mk_pic 0 (p_offset p) v (p_irr p) (p_isr p) (p_read_isr p)
  end.

(** ** The state *)

Record cpu_t := mk_cpu {
  c_gdt : list gdt_entry_t;
  c_gdt_entries : bool;
  c_gdtr : Z * Z;
  c_tss : tss_entry_t;
  c_tr : Z;
  c_idt : list idt_entry_t;
  c_idtr : Z * Z;
  c_pointers : list Z;
  c_names : list (option (list Z));
  c_reported : list bool;
  c_master : pic_t;
  c_slave : pic_t;
  c_calls : list (Z * Z * Z);
  c_pit : list Z;
  c_ticks : Z;
  c_frequency : Z
}.

Definition set_gdt (g : list gdt_entry_t) (c : cpu_t) : cpu_t := mk_cpu g (c_gdt_entries c) (c_gdtr c) (c_tss c) (c_tr c) (c_idt c) (c_idtr c) (c_pointers c) (c_names c) (c_reported c) (c_master c) (c_slave c) (c_calls c) (c_pit c) (c_ticks c) (c_frequency c).
Definition set_gdtr (e : bool) (r : Z * Z) (c : cpu_t) : cpu_t := mk_cpu (c_gdt c) e r (c_tss c) (c_tr c) (c_idt c) (c_idtr c) (c_pointers c) (c_names c) (c_reported c) (c_master c) (c_slave c) (c_calls c) (c_pit c) (c_ticks c) (c_frequency c).
Definition set_tss (t : tss_entry_t) (tr : Z) (c : cpu_t) : cpu_t := mk_cpu (c_gdt c) (c_gdt_entries c) (c_gdtr c) t tr (c_idt c) (c_idtr c) (c_pointers c) (c_names c) (c_reported c) (c_master c) (c_slave c) (c_calls c) (c_pit c) (c_ticks c) (c_frequency c).
Definition set_idt (i : list idt_entry_t) (r : Z * Z) (c : cpu_t) : cpu_t := mk_cpu (c_gdt c) (c_gdt_entries c) (c_gdtr c) (c_tss c) (c_tr c) i r (c_pointers c) (c_names c) (c_reported c) (c_master c) (c_slave c) (c_calls c) (c_pit c) (c_ticks c) (c_frequency c).
Definition set_handlers (p : list Z) (n : list (option (list Z))) (r : list bool) (c : cpu_t) : cpu_t := mk_cpu (c_gdt c) (c_gdt_entries c) (c_gdtr c) (c_tss c) (c_tr c) (c_idt c) (c_idtr c) p n r (c_master c) (c_slave c) (c_calls c) (c_pit c) (c_ticks c) (c_frequency c).
Definition set_pics (m s : pic_t) (c : cpu_t) : cpu_t := mk_cpu (c_gdt c) (c_gdt_entries c) (c_gdtr c) (c_tss c) (c_tr c) (c_idt c) (c_idtr c) (c_pointers c) (c_names c) (c_reported c) m s (c_calls c) (c_pit c) (c_ticks c) (c_frequency c).
Definition set_calls (l : list (Z * Z * Z)) (c : cpu_t) : cpu_t := mk_cpu (c_gdt c) (c_gdt_entries c) (c_gdtr c) (c_tss c) (c_tr c) (c_idt c) (c_idtr c) (c_pointers c) (c_names c) (c_reported c) (c_master c) (c_slave c) l (c_pit c) (c_ticks c) (c_frequency c).
Definition set_timer (p : list Z) (t f : Z) (c : cpu_t) : cpu_t := mk_cpu (c_gdt c) (c_gdt_entries c) (c_gdtr c) (c_tss c) (c_tr c) (c_idt c) (c_idtr c) (c_pointers c) (c_names c) (c_reported c) (c_master c) (c_slave c) (c_calls c) p t f.

#[local] Notation C := (M cpu_t).

(** The ports of the controllers and of the interval timer, whose bytes are kept in order. *)
Definition outb (port v : Z) : C unit :=
  modify (λ c, let v := u8 v in
    if port =? MASTER_PIC_COMMAND then set_pics (pic_command v (c_master c)) (c_slave c) c else
    if port =? MASTER_PIC_DATA then set_pics (pic_data v (c_master c)) (c_slave c) c else
    if port =? SLAVE_PIC_COMMAND then set_pics (c_master c) (pic_command v (c_slave c)) c else
    if port =? SLAVE_PIC_DATA then set_pics (c_master c) (pic_data v (c_slave c)) c else
    set_timer (c_pit c ++ [v]) (c_ticks c) (c_frequency c) c).
Definition inb (port : Z) : C Z :=
  c ← get; let read p := if p_read_isr p then p_isr p else p_irr p in
  mret (if port =? MASTER_PIC_COMMAND then read (c_master c) else if port =? MASTER_PIC_DATA then p_imr (c_master c) else
        if port =? SLAVE_PIC_COMMAND then read (c_slave c) else if port =? SLAVE_PIC_DATA then p_imr (c_slave c) else 0xFF).

(** ** [gdt.c] *)

Definition gdt_entry (base limit access granularity : Z) : gdt_entry_t :=
  mk_gdt_entry (Z.land limit 0xFFFF) (Z.land base 0xFFFF) (Z.land (Z.shiftr base 16) 0xFF) access
    (Z.lor (Z.land (Z.shiftr limit 16) 0x0F) (Z.land granularity 0xF0)) (Z.land (Z.shiftr base 24) 0xFF).

Definition gdt_set_entry (num base limit access granularity : Z) : C unit :=
  c ← get; g ← lift (zupdate (c_gdt c) num (gdt_entry base limit access granularity)); put (set_gdt g c).

Definition init_gdt_table : C unit :=
  gdt_set_entry 0 0 0 0 0;;
  gdt_set_entry 1 0 0xFFFFFFFF 0x9A 0xCF;;
  gdt_set_entry 2 0 0xFFFFFFFF 0x92 0xCF;;
  gdt_set_entry 3 0 0xFFFFFFFF 0xFA 0xCF;;
  gdt_set_entry 4 0 0xFFFFFFFF 0xF2 0xCF;;
  gdt_set_entry 5 0 0 0 0.

Definition gdt_set_tss (base limit : Z) : C unit :=
  c ← get;
  if negb (c_gdt_entries c) then mret tt else
  g ← lift (zupdate (c_gdt c) 5 (gdt_entry base limit 0x89 0x40)); put (set_gdt g c).

Section tables.
(** Where the linker puts the tables, and the entry points of the assembly. *)
Context (gdt_addr tss_addr idt_addr : Z) (isr irq : Z → Z) (irq0_task isr128 yield_task : Z).

(** [flush_gdt] loads the register of the processor. *)
Definition init_gdt : C unit :=
  modify (set_gdtr true (0, 0));;
  init_gdt_table;;
  modify (set_gdtr true (gdt_addr, 8 * GDT_ENTRY_COUNT - 1)).

(** ** [tss.c] *)

Definition tss_init (kernel_stack : Z) : C unit :=
  modify (set_tss (mk_tss kernel_stack KERNEL_DATA_SEG KERNEL_CODE_SEG KERNEL_DATA_SEG KERNEL_DATA_SEG KERNEL_DATA_SEG KERNEL_DATA_SEG KERNEL_DATA_SEG TSS_SIZE) 0);;
  gdt_set_tss tss_addr (TSS_SIZE - 1);;
  modify (λ c, set_tss (c_tss c) TSS_SEG c).

Definition tss_set_kernel_stack (esp0 : Z) : C unit :=
  modify (λ c, let t := c_tss c in set_tss (mk_tss esp0 (ts_ss0 t) (ts_cs t) (ts_ss t) (ts_ds t) (ts_es t) (ts_fs t) (ts_gs t) (ts_iomap_base t)) (c_tr c) c).
Definition tss_get_kernel_stack : C Z := c ← get; mret (ts_esp0 (c_tss c)).

(** ** [interrupts.c] *)

Definition pic_remap : C unit :=
  outb MASTER_PIC_COMMAND 0x11;; outb SLAVE_PIC_COMMAND 0x11;;
  outb MASTER_PIC_DATA 0x20;; outb SLAVE_PIC_DATA 0x28;;
  outb MASTER_PIC_DATA 0x04;; outb SLAVE_PIC_DATA 0x02;;
  outb MASTER_PIC_DATA 0x01;; outb SLAVE_PIC_DATA 0x01;;
  outb MASTER_PIC_DATA 0x00;; outb SLAVE_PIC_DATA 0x00.

Definition pic_acknowledge (n : Z) : C unit :=
  (if 8 <=? n then outb SLAVE_PIC_COMMAND 0x20 else mret tt);; outb MASTER_PIC_COMMAND 0x20.

Definition clear_bit (mask n : Z) : Z := Z.land mask (u8 (Z.lnot (Z.shiftl 1 n))).
Definition pic_unmask_irq (n : Z) : C unit :=
  if n <? 8 then mask ← inb MASTER_PIC_DATA; outb MASTER_PIC_DATA (clear_bit mask n)
  else
    mask ← inb SLAVE_PIC_DATA; outb SLAVE_PIC_DATA (clear_bit mask (n - 8));;
    master_mask ← inb MASTER_PIC_DATA; outb MASTER_PIC_DATA (clear_bit master_mask 2).

Definition write_idt_entry (num base selector flags : Z) : C unit :=
  c ← get; i ← lift (zupdate (c_idt c) num (mk_idt_entry (Z.land base 0xFFFF) selector 0 flags (Z.land (Z.shiftr base 16) 0xFFFF))); put (set_idt i (c_idtr c) c).

(** The exceptions, the hardware interrupts, and the two gates for user mode. *)
Definition idt_gates : list (Z * Z * Z) :=
  ((λ n, (n, isr n, PRIVILEGE)) <$> seqZ 0 32) ++ [(32, irq0_task, PRIVILEGE)] ++ ((λ n, (n, irq (n - 32), PRIVILEGE)) <$> seqZ 33 15) ++
  [(128, isr128, PRIVILEGE_USER); (129, yield_task, PRIVILEGE_USER)].

Fixpoint write_gates (gs : list (Z * Z * Z)) : C unit :=
  match gs with [] => mret tt | (n, base, flags) :: gs => write_idt_entry n base SEGMENT_OFFSET flags;; write_gates gs end.
Definition init_idt_table : C unit := write_gates idt_gates.

Definition init_idt : C unit :=
  pic_remap;;
  outb MASTER_PIC_DATA 0xFF;; outb SLAVE_PIC_DATA 0xFF;;
  init_idt_table;;
  modify (λ c, set_idt (c_idt c) (idt_addr, 8 * 256 - 1) c).

Definition register_interrupt_handler (n h : Z) (name : list Z) : C unit :=
  c ← get; p ← lift (zupdate (c_pointers c) n h); ns ← lift (zupdate (c_names c) n (Some name)); put (set_handlers p ns (c_reported c) c).

(** The handler for the interrupt is called with its number. *)
Definition call_handler (h number number2 : Z) : C unit := modify (λ c, set_calls (c_calls c ++ [(h, number, number2)]) c).

(** Interrupts 7 and 15 that the controller does not report are not served. *)
Definition spurious_irq (number : Z) : C bool :=
  if number =? 0x27 then v ← inb MASTER_PIC_COMMAND; mret (Z.land v 0x80 =? 0) else
  if number =? 0x2F then v ← inb SLAVE_PIC_COMMAND; if Z.land v 0x80 =? 0 then outb MASTER_PIC_COMMAND 0x20;; mret true else mret false
  else mret false.

Definition serve_irq (number number2 : Z) : C unit :=
  c ← get;
  h ← (if number <? 256 then lift (zlookup (c_pointers c) number) else mret 0);
  (if (h =? 0) && (number <? 256) then r ← lift (zupdate (c_reported c) number true); put (set_handlers (c_pointers c) (c_names c) r c) else mret tt);;
  pic_acknowledge (u8 (number - 0x20));;
  if negb (h =? 0) then call_handler h number number2 else mret tt.

Definition idt_irq_handler (number number2 : Z) : C unit :=
  spurious ← spurious_irq number; if spurious : bool then mret tt else serve_irq number number2.

(** The first [max] lines of the table, at most 16. *)
Fixpoint irq_infos (n : nat) (irq master_mask slave_mask : Z) (c : cpu_t) : option (list irq_info_t) :=
  match n with
  | O => Some []
  | S n =>
    h ← zlookup (c_pointers c) (0x20 + irq); name ← zlookup (c_names c) (0x20 + irq);
    let masked := if irq <? 8 then Z.land (Z.shiftr master_mask irq) 1 else Z.land (Z.shiftr slave_mask (irq - 8)) 1 in
    cons (mk_irq irq (0x20 + irq) (negb (masked =? 0)) (negb (h =? 0)) h name) <$> irq_infos n (irq + 1) master_mask slave_mask c
  end.
Definition irq_get_snapshot (max : Z) : C (list irq_info_t) :=
  if max <=? 0 then mret [] else
  master_mask ← inb MASTER_PIC_DATA; slave_mask ← inb SLAVE_PIC_DATA;
  c ← get; lift (irq_infos (Z.to_nat (Z.min max 16)) 0 master_mask slave_mask c).

(** ** [timer.c] *)

Definition timer_handler : C unit := modify (λ c, set_timer (c_pit c) (u32 (c_ticks c + 1)) (c_frequency c) c).

Definition init_timer (timer_handler_addr frequency : Z) : C unit :=
  modify (λ c, set_timer (c_pit c) (c_ticks c) frequency c);;
  register_interrupt_handler 0x20 timer_handler_addr (str "timer_handler");;
  (if frequency =? 0 then ub else mret tt);;
  let divisor := 1193180 / frequency in
  outb 0x43 0x36;; outb 0x40 (Z.land divisor 0xFF);; outb 0x40 (Z.land (Z.shiftr divisor 8) 0xFF);;
  outb MASTER_PIC_DATA 0xFC.

Definition get_tick_count : C Z := c ← get; mret (c_ticks c).
Definition get_uptime_seconds : C Z := c ← get; mret (if c_frequency c =? 0 then 0 else c_ticks c / c_frequency c).

(** After the check for protected mode; [init_term] and [init_paging] are those of the terminal and of the address spaces. *)
Definition init_686 (kernel_stack timer_handler_addr : Z) : C unit := init_gdt;; init_idt;; tss_init kernel_stack;; init_timer timer_handler_addr 100.
End tables.

(** ** The timer interrupt and the scheduler *)

Section timer_switch.
Context {K H N : Type} `{!KHeap H} `{!NetSockets N}.
Notation KS := (kern K H N).
(** The timeouts of the network stack. *)
Context (net_poll : M KS unit).

Definition on_cpu {A} (m : C A) : M (cpu_t * KS) A := λ '(c, k), '(a, c') ← m c; Some (a, (c', k)).
Definition on_kern {A} (m : M KS A) : M (cpu_t * KS) A := λ '(c, k), '(a, k') ← m k; Some (a, (c, k')).

(** [schedule], whose calls of [tss_set_kernel_stack] write the stack of the task state segment: [k_esp0] is the name of that field there. *)
Definition schedule_tss (esp : Z) (is_hw : bool) : M (cpu_t * KS) (option Z) :=
  r ← on_kern (schedule esp is_hw);
  '(_, k) ← get; on_cpu (tss_set_kernel_stack (k_esp0 k));; mret r.

Definition timer_handler_switch (esp : Z) (is_hw : bool) : M (cpu_t * KS) (option Z) :=
  (if is_hw then on_cpu timer_handler;; on_cpu (outb MASTER_PIC_COMMAND 0x20);; on_kern net_poll else mret tt);;
  '(_, k) ← get;
  if task_is_enabled k then schedule_tss esp is_hw else mret (Some esp).

(** A program is ended by an exception other than a breakpoint; the messages are left out. *)
Definition idt_exception_handler (number : Z) : M KS unit :=
  k ← get;
  match task_current k with
  | Some cur => if negb (t_id cur =? 0) && negb (number =? 0x03) then task_exit_with_code (- s32 number) else mret tt
  | None => mret tt
  end.
End timer_switch.
