(* ===== verification/CpuSpec.v ===== *)
(** * What the processor does with the tables of [Cpu]

    A reference for the delivery of interrupts after the manuals of the processor and of the 8259: the
    checks on the gate, the descriptors and the task state segment, the choice of the line with the highest
    priority, and its acknowledgement.  Proved of it: the kernel is entered from user mode only through its two gates,
    on the kernel stack of the task; a hardware interrupt is acknowledged and its handler is called once;
    a system call after a switch of tasks arrives on the stack of the chosen task. *)

From S2P Require Import Prelude Bytes KHeap Task VfsProc Cpu.

#[local] Notation C := (M cpu_t).

(** ** Reference: entry through a gate *)

Definition privilege (access : Z) : Z := Z.land (Z.shiftr access 5) 3.
Definition present (access : Z) : bool := Z.testbit access 7.
Definition is_code (access : Z) : bool := Z.testbit access 4 && Z.testbit access 3 && negb (Z.testbit access 2).
Definition is_writable (access : Z) : bool := Z.testbit access 4 && negb (Z.testbit access 3) && Z.testbit access 1.
Definition is_tss (access : Z) : bool := Z.land access 0x1D =? 0x09.
Definition segment_base (g : gdt_entry_t) : Z := g_base_low g + g_base_middle g * 2 ^ 16 + g_base_high g * 2 ^ 24.
Definition segment_limit (g : gdt_entry_t) : Z :=
  let l := g_limit_low g + Z.land (g_granularity g) 0xF * 2 ^ 16 in if Z.testbit (g_granularity g) 7 then l * 4096 + 4095 else l.
Definition gate_offset (i : idt_entry_t) : Z := i_base_low i + i_base_high i * 2 ^ 16.

Record entry_t := mk_entry { e_eip : Z; e_cs : Z; e_cpl : Z; e_stack : option (Z * Z) }.

Section processor.
Context (gdt_addr tss_addr idt_addr : Z).

(** A descriptor of the global table that is present. *)
Definition descriptor (c : cpu_t) (selector : Z) : option gdt_entry_t :=
  if (fst (c_gdtr c) =? gdt_addr) && negb (Z.shiftr selector 3 =? 0) && negb (Z.testbit selector 2) && (Z.land selector 0xFFF8 + 7 <=? snd (c_gdtr c))
  then g ← zlookup (c_gdt c) (Z.shiftr selector 3); if present (g_access g) then Some g else None else None.

(** The stack of ring 0 in the segment that the task register selects. *)
Definition ring0_stack (c : cpu_t) : option (Z * Z) :=
  d ← descriptor c (c_tr c);
  if is_tss (g_access d) && (segment_base d =? tss_addr) && (11 <=? segment_limit d) then
    s ← descriptor c (ts_ss0 (c_tss c));
    if is_writable (g_access s) && (privilege (g_access s) =? 0) && (Z.land (ts_ss0 (c_tss c)) 3 =? 0) then Some (ts_ss0 (c_tss c), ts_esp0 (c_tss c)) else None
  else None.

(** An interrupt of vector [n] in ring [cpl]; [soft] for the instruction [int]. *)
Definition enter (c : cpu_t) (cpl : Z) (soft : bool) (n : Z) : option entry_t :=
  if negb ((fst (c_idtr c) =? idt_addr) && (n * 8 + 7 <=? snd (c_idtr c))) then None else
  i ← zlookup (c_idt c) n;
  if negb (present (i_flags i) && (Z.land (i_flags i) 0x1F =? 0x0E)) || (soft && (privilege (i_flags i) <? cpl)) then None else
  d ← descriptor c (i_selector i);
  let ring := privilege (g_access d) in
  if negb (is_code (g_access d) && (ring <=? cpl) && (gate_offset i <=? segment_limit d)) then None else
  st ← (if ring <? cpl then Some <$> ring0_stack c else Some None);
  Some (mk_entry (u32 (segment_base d + gate_offset i)) (i_selector i) ring st).

(** Whether ring 3 may use a port, with the I/O privilege level at 0. *)
Definition port_allowed (c : cpu_t) (port : Z) : bool :=
  match descriptor c (c_tr c) with Some d => ts_iomap_base (c_tss c) + port / 8 <=? segment_limit d | None => false end.
End processor.

(** ** Reference: the controllers *)

Definition lines (v : Z) : list Z := filter (λ n, Z.testbit v n = true) (seqZ 0 8).

(** The request of the highest priority is taken into service if it is above every line in service. *)
Definition pic_accept (p : pic_t) : option (Z * pic_t) :=
  match lines (Z.ldiff (p_irr p) (p_imr p)) with
  | [] => None
  | n :: _ =>
    if Z.land (p_isr p) (2 ^ (n + 1) - 1) =? 0
    then Some (n, mk_pic (p_step p) (p_offset p) (p_imr p) (Z.clearbit (p_irr p) n) (Z.setbit (p_isr p) n) (p_read_isr p)) else None
  end.

(** The vector on the bus; line 2 of the master is the slave. *)
Definition intr (c : cpu_t) : option (Z * cpu_t) :=
  '(n, m) ← pic_accept (c_master c);
  if n =? 2 then '(n', s) ← pic_accept (c_slave c); Some (p_offset s + n', set_pics m s c)
  else Some (p_offset m + n, set_pics m (c_slave c) c).

Definition request (n : Z) (p : pic_t) : pic_t := mk_pic (p_step p) (p_offset p) (p_imr p) (Z.setbit (p_irr p) n) (p_isr p) (p_read_isr p).
Definition raise (n : Z) (c : cpu_t) : cpu_t :=
  if n <? 8 then set_pics (request n (c_master c)) (c_slave c) c else set_pics (request 2 (c_master c)) (request (n - 8) (c_slave c)) c.

(** ** The tables after [init_686] *)

Section init.
Context (gdt_addr tss_addr idt_addr : Z) (isr irq : Z → Z) (irq0_task isr128 yield_task : Z).

Definition gate (base flags : Z) : idt_entry_t := mk_idt_entry (Z.land base 0xFFFF) SEGMENT_OFFSET 0 flags (Z.land (Z.shiftr base 16) 0xFFFF).
Definition vector_gate (n : Z) : idt_entry_t :=
  if n <? 32 then gate (isr n) PRIVILEGE else if n =? 32 then gate irq0_task PRIVILEGE else
  if n <? 48 then gate (irq (n - 32)) PRIVILEGE else
  if n =? 128 then gate isr128 PRIVILEGE_USER else if n =? 129 then gate yield_task PRIVILEGE_USER else zero_idt.

Record tables_set (stack : Z) (c : cpu_t) : Prop := {
  ts_gdt : c_gdt c = [zero_gdt; gdt_entry 0 0xFFFFFFFF 0x9A 0xCF; gdt_entry 0 0xFFFFFFFF 0x92 0xCF;
                      gdt_entry 0 0xFFFFFFFF 0xFA 0xCF; gdt_entry 0 0xFFFFFFFF 0xF2 0xCF; gdt_entry tss_addr 103 0x89 0x40];
  ts_gdtr : c_gdtr c = (gdt_addr, 47);
  ts_tss : ts_esp0 (c_tss c) = stack ∧ ts_ss0 (c_tss c) = KERNEL_DATA_SEG ∧ ts_iomap_base (c_tss c) = 104;
  ts_tr : c_tr c = TSS_SEG;
  ts_idt : c_idt c = vector_gate <$> seqZ 0 256;
  ts_idtr : c_idtr c = (idt_addr, 2047)
}.

(** The controllers are initialized, and the tables of handlers have their size. *)
Definition pic_ready (offset : Z) (p : pic_t) : Prop :=
  p_step p = 0%nat ∧ p_offset p = offset ∧ 0 ≤ p_imr p < 256 ∧ 0 ≤ p_irr p < 256 ∧ 0 ≤ p_isr p < 256 ∧ p_read_isr p = false.
Record ready (c : cpu_t) : Prop := {
  rd_master : pic_ready 0x20 (c_master c);
  rd_slave : pic_ready 0x28 (c_slave c);
  rd_pointers : length (c_pointers c) = 256%nat;
  rd_names : length (c_names c) = 256%nat;
  rd_reported : length (c_reported c) = 256%nat
}.

(** The memory of the kernel when it starts. *)
Record cleared (c : cpu_t) : Prop := {
  cl_gdt : c_gdt c = replicate 6 zero_gdt;
  cl_idt : c_idt c = replicate 256 zero_idt;
  cl_pointers : c_pointers c = replicate 256 0;
  cl_names : c_names c = replicate 256 None;
  cl_reported : c_reported c = replicate 256 false
}.

Lemma write_gates_eq (gs : list (Z * Z * Z)) (c : cpu_t) :
  Forall (λ g, 0 ≤ g.1.1 < Z.of_nat (length (c_idt c))) gs →
  write_gates gs c = Some (tt, set_idt (foldl (λ l g, <[Z.to_nat g.1.1 := gate g.1.2 g.2]> l) (c_idt c) gs) (c_idtr c) c).
Proof.
  revert c. induction gs as [|[[n b] f] gs IH]; intros c H; cbn [write_gates foldl fst snd]; [by destruct c|].
  apply Forall_cons in H as [Hn H]. cbn [fst snd] in Hn. unfold write_idt_entry, mbind, M_bind, get, lift, put.
  rewrite zupdate_Some by done. rewrite IH; [done|]. cbn [c_idt set_idt]. by rewrite length_insert.
Qed.

Lemma gates_in_range : Forall (λ g, 0 ≤ g.1.1 < Z.of_nat (length (replicate 256 zero_idt))) (idt_gates isr irq irq0_task isr128 yield_task).
Proof.
  rewrite length_replicate. unfold idt_gates. rewrite !Forall_app, !Forall_fmap. split_and!; try (repeat constructor; cbn; lia).
  all: apply Forall_forall; intros n Hn%elem_of_seqZ; cbn; lia.
Qed.

Lemma gates_table : foldl (λ l g, <[Z.to_nat g.1.1 := gate g.1.2 g.2]> l) (replicate 256 zero_idt) (idt_gates isr irq irq0_task isr128 yield_task) = vector_gate <$> seqZ 0 256.
Proof. reflexivity. Qed.

Definition kernel_gdt (last : gdt_entry_t) : list gdt_entry_t :=
  [zero_gdt; gdt_entry 0 0xFFFFFFFF 0x9A 0xCF; gdt_entry 0 0xFFFFFFFF 0x92 0xCF; gdt_entry 0 0xFFFFFFFF 0xFA 0xCF; gdt_entry 0 0xFFFFFFFF 0xF2 0xCF; last].

Lemma init_gdt_eq (c : cpu_t) : c_gdt c = replicate 6 zero_gdt →
  init_gdt gdt_addr c = Some (tt, set_gdtr true (gdt_addr, 47) (set_gdt (kernel_gdt zero_gdt) c)).
Proof. intros E. destruct c. cbn in E. subst. reflexivity. Qed.

Lemma init_idt_eq (c : cpu_t) : c_idt c = replicate 256 zero_idt →
  init_idt idt_addr isr irq irq0_task isr128 yield_task c =
    Some (tt, set_idt (vector_gate <$> seqZ 0 256) (idt_addr, 2047) (set_pics (mk_pic 0 0x20 0xFF 0 0 false) (mk_pic 0 0x28 0xFF 0 0 false) c)).
Proof.
  intros E. set (c1 := set_pics (mk_pic 0 0x20 0xFF 0 0 false) (mk_pic 0 0x28 0xFF 0 0 false) c).
  change (init_idt idt_addr isr irq irq0_task isr128 yield_task c) with
    ((write_gates (idt_gates isr irq irq0_task isr128 yield_task);; modify (λ c, set_idt (c_idt c) (idt_addr, 2047) c)) c1).
  assert (E1 : c_idt c1 = replicate 256 zero_idt) by done.
  unfold mbind, M_bind. rewrite write_gates_eq; rewrite E1; [by rewrite gates_table|]. apply gates_in_range.
Qed.

Lemma tss_init_eq (c : cpu_t) stack : c_gdt_entries c = true → c_gdt c = kernel_gdt zero_gdt →
  tss_init tss_addr stack c = Some (tt, set_tss (mk_tss stack 0x10 8 0x10 0x10 0x10 0x10 0x10 104) TSS_SEG (set_gdt (kernel_gdt (gdt_entry tss_addr 103 0x89 0x40)) c)).
Proof. intros E E'. destruct c. cbn in E, E'. subst. reflexivity. Qed.

Lemma init_timer_eq (c : cpu_t) h : length (c_pointers c) = 256%nat → length (c_names c) = 256%nat → p_step (c_master c) = 0%nat →
  init_timer h 100 c = Some (tt, set_handlers (<[32%nat := h]> (c_pointers c)) (<[32%nat := Some (str "timer_handler")]> (c_names c)) (c_reported c)
    (set_pics (mk_pic 0 (p_offset (c_master c)) 0xFC (p_irr (c_master c)) (p_isr (c_master c)) (p_read_isr (c_master c))) (c_slave c)
      (set_timer (c_pit c ++ [0x36; 0x9B; 0x2E]) (c_ticks c) 100 c))).
Proof.
  intros E1 E2 E3. unfold init_timer, register_interrupt_handler, mbind, M_bind, modify, get, lift, put.
  cbn [c_pointers c_names set_timer]. rewrite !zupdate_Some by (rewrite ?E1, ?E2; lia).
  destruct c as [g ge gr t tr i ir po na re m sl ca pi ti fr]. destruct m as [st o mr rr sr b]. cbn in E3. subst.
  cbn -[app insert]. by rewrite <- !(assoc_L (++)).
Qed.

Lemma init_686_tables (c : cpu_t) stack h : cleared c →
  ∃ c', init_686 gdt_addr tss_addr idt_addr isr irq irq0_task isr128 yield_task stack h c = Some (tt, c') ∧
    tables_set stack c' ∧ ready c' ∧ p_imr (c_master c') = 0xFC ∧ p_imr (c_slave c') = 0xFF ∧ c_frequency c' = 100.
Proof.
  intros [H1 H2 H3 H4 H5]. unfold init_686. unfold mbind, M_bind. rewrite init_gdt_eq by done.
  rewrite init_idt_eq by done. rewrite tss_init_eq by done. rewrite init_timer_eq; try done; cbn; try (by rewrite ?H3, ?H4).
  eexists. split; [done|]. split; [by split|]. split; [|done].
  split; cbn; rewrite ?length_insert, ?H3, ?H4, ?H5; try done; by split_and!.
Qed.

(** ** Entries through the tables *)

(** The address that a vector leads to, and whether the program may call it. *)
Definition entry_point (n : Z) : option (Z * bool) :=
  if n <? 32 then Some (isr n, false) else if n =? 32 then Some (irq0_task, false) else
  if n <? 48 then Some (irq (n - 32), false) else
  if n =? 0x80 then Some (isr128, true) else if n =? 0x81 then Some (yield_task, true) else None.

Lemma gate_offset_eq b f : is_u32 b → gate_offset (gate b f) = b.
Proof.
  intros H. unfold gate_offset, gate. cbn [i_base_low i_base_high].
  rewrite Z.shiftr_div_pow2 by lia. change 0xFFFF with (Z.ones 16). rewrite !Z.land_ones by lia.
  rewrite (Z.mod_small (b / 2 ^ 16)); [|unfold is_u32 in H; split; [apply Z.div_pos; lia|apply Z.div_lt_upper_bound; lia]].
  rewrite (Z.div_mod b (2 ^ 16)) at 3 by lia. lia.
Qed.

Lemma segment_base_eq b l a f : is_u32 b → segment_base (gdt_entry b l a f) = b.
Proof.
  intros H. unfold segment_base, gdt_entry. cbn [g_base_low g_base_middle g_base_high].
  rewrite !Z.shiftr_div_pow2 by lia. change 0xFFFF with (Z.ones 16). change 0xFF with (Z.ones 8). rewrite !Z.land_ones by lia.
  unfold is_u32 in H. change (2 ^ 16) with 65536. change (2 ^ 8) with 256. change (2 ^ 24) with 16777216.
  Z.div_mod_to_equations. lia.
Qed.

Section set.
Context (stack : Z) (c : cpu_t) (Hset : tables_set stack c).

Lemma kernel_code : descriptor gdt_addr c SEGMENT_OFFSET = Some (gdt_entry 0 0xFFFFFFFF 0x9A 0xCF).
Proof. unfold descriptor. rewrite (ts_gdt _ _ Hset), (ts_gdtr _ _ Hset). cbn [fst snd]. by rewrite Z.eqb_refl. Qed.
Lemma kernel_data : descriptor gdt_addr c KERNEL_DATA_SEG = Some (gdt_entry 0 0xFFFFFFFF 0x92 0xCF).
Proof. unfold descriptor. rewrite (ts_gdt _ _ Hset), (ts_gdtr _ _ Hset). cbn [fst snd]. by rewrite Z.eqb_refl. Qed.
Lemma task_segment : descriptor gdt_addr c (c_tr c) = Some (gdt_entry tss_addr 103 0x89 0x40).
Proof. unfold descriptor. rewrite (ts_tr _ _ Hset), (ts_gdt _ _ Hset), (ts_gdtr _ _ Hset). cbn [fst snd]. by rewrite Z.eqb_refl. Qed.

Lemma ring0_stack_eq : is_u32 tss_addr → ring0_stack gdt_addr tss_addr c = Some (KERNEL_DATA_SEG, stack).
Proof.
  intros H. destruct (ts_tss _ _ Hset) as (E1 & E2 & _). unfold ring0_stack. rewrite task_segment. unfold mbind, option_bind.
  rewrite segment_base_eq, Z.eqb_refl by done. cbn [g_access gdt_entry]. rewrite E1, E2, kernel_data. reflexivity.
Qed.

Lemma gate_at n : 0 ≤ n < 256 → zlookup (c_idt c) n = Some (vector_gate n).
Proof.
  intros H. rewrite (ts_idt _ _ Hset), zlookup_nonneg, list_lookup_fmap, lookup_seqZ_lt by lia. cbn. do 2 f_equal. lia.
Qed.

Lemma enter_gate n b f cpl (soft : bool) : is_u32 tss_addr → is_u32 b → 0 ≤ n < 256 → vector_gate n = gate b f →
  f = PRIVILEGE ∨ f = PRIVILEGE_USER → cpl = 0 ∨ cpl = 3 →
  enter gdt_addr tss_addr idt_addr c cpl soft n =
    if soft && (cpl =? 3) && (f =? PRIVILEGE) then None
    else Some (mk_entry b KERNEL_CODE_SEG 0 (if cpl =? 3 then Some (KERNEL_DATA_SEG, stack) else None)).
Proof.
  intros Ht Hb Hn E Hf Hc. unfold enter. rewrite (ts_idtr _ _ Hset). cbn [fst snd].
  rewrite Z.eqb_refl, (proj2 (Z.leb_le (n * 8 + 7) 2047)) by lia. cbn [andb negb].
  rewrite gate_at by done. rewrite E. unfold mbind, option_bind. rewrite gate_offset_eq by done. cbn [i_flags i_selector gate].
  rewrite kernel_code, ring0_stack_eq by done.
  assert (E1 : (b <=? segment_limit (gdt_entry 0 0xFFFFFFFF 0x9A 0xCF)) = true).
  { apply Z.leb_le. change (segment_limit _) with 0xFFFFFFFF. unfold is_u32 in Hb. lia. }
  rewrite E1. change (segment_base (gdt_entry 0 0xFFFFFFFF 0x9A 0xCF)) with 0. rewrite Z.add_0_l, u32_small by done.
  destruct Hf, Hc, soft; subst; reflexivity.
Qed.

Lemma enter_zero n cpl soft : 0 ≤ n < 256 → vector_gate n = zero_idt → enter gdt_addr tss_addr idt_addr c cpl soft n = None.
Proof.
  intros Hn E. unfold enter. rewrite (ts_idtr _ _ Hset). cbn [fst snd]. rewrite Z.eqb_refl, (proj2 (Z.leb_le (n * 8 + 7) 2047)) by lia.
  cbn [andb negb]. by rewrite gate_at, E by done.
Qed.

Definition addresses_ok : Prop :=
  is_u32 tss_addr ∧ is_u32 irq0_task ∧ is_u32 isr128 ∧ is_u32 yield_task ∧ (∀ n, 0 ≤ n < 32 → is_u32 (isr n)) ∧ (∀ n, 0 ≤ n < 16 → is_u32 (irq n)).

Lemma enter_eq n cpl (soft : bool) : addresses_ok → 0 ≤ n < 256 → cpl = 0 ∨ cpl = 3 →
  enter gdt_addr tss_addr idt_addr c cpl soft n =
    '(b, user) ← entry_point n;
    if soft && (cpl =? 3) && negb user then None
    else Some (mk_entry b KERNEL_CODE_SEG 0 (if cpl =? 3 then Some (KERNEL_DATA_SEG, stack) else None)).
Proof.
  intros (A1 & A2 & A3 & A4 & A5 & A6) Hn Hc. unfold entry_point.
  destruct (Z.ltb_spec n 32).
  { apply enter_gate with (f := PRIVILEGE); eauto; [apply A5; lia|]. unfold vector_gate. by rewrite (proj2 (Z.ltb_lt _ _)). }
  destruct (Z.eqb_spec n 32) as [->|].
  { by apply enter_gate with (f := PRIVILEGE); eauto. }
  destruct (Z.ltb_spec n 48).
  { apply enter_gate with (f := PRIVILEGE); eauto; [apply A6; lia|]. unfold vector_gate.
    by rewrite (proj2 (Z.ltb_ge n 32)), (proj2 (Z.eqb_neq n 32)), (proj2 (Z.ltb_lt n 48)). }
  destruct (Z.eqb_spec n 0x80) as [->|].
  { by apply enter_gate with (f := PRIVILEGE_USER); eauto. }
  destruct (Z.eqb_spec n 0x81) as [->|].
  { by apply enter_gate with (f := PRIVILEGE_USER); eauto. }
  apply enter_zero; [done|]. unfold vector_gate.
  by rewrite (proj2 (Z.ltb_ge n 32)), (proj2 (Z.eqb_neq n 32)), (proj2 (Z.ltb_ge n 48)), (proj2 (Z.eqb_neq n 128)), (proj2 (Z.eqb_neq n 129)).
Qed.

Lemma ports_denied port : 0 ≤ port < 65536 → port_allowed gdt_addr c port = false.
Proof.
  intros H. unfold port_allowed. rewrite task_segment. destruct (ts_tss _ _ Hset) as (_ & _ & ->).
  change (segment_limit _) with 103. apply Z.leb_gt. assert (0 ≤ port / 8) by (apply Z.div_pos; lia). lia.
Qed.
End set.
End init.

(** ** The controllers *)

Definition below_clear (n isr : Z) : bool := Z.land isr (2 ^ (n + 1) - 1) =? 0.

(** Bytes are few enough to be enumerated. *)
Lemma byte_facts (n v : Z) : 0 ≤ n < 8 → 0 ≤ v < 256 →
  (below_clear n v = true → clear_lowest (Z.setbit v n) = v) ∧ 0 ≤ Z.setbit v n < 256 ∧ 0 ≤ Z.clearbit v n < 256 ∧ 0 ≤ clear_lowest v < 256 ∧ 0 ≤ clear_bit v n < 256.
Proof.
  intros Hn Hv.
  assert (H : Forall (λ n, Forall (λ v,
    (below_clear n v = true → clear_lowest (Z.setbit v n) = v) ∧ 0 ≤ Z.setbit v n < 256 ∧ 0 ≤ Z.clearbit v n < 256 ∧ 0 ≤ clear_lowest v < 256 ∧ 0 ≤ clear_bit v n < 256)
    (seqZ 0 256)) (seqZ 0 8)) by (apply (bool_decide_unpack _); vm_compute; done).
  rewrite Forall_forall in H. specialize (H n). rewrite Forall_forall in H. apply H; apply elem_of_seqZ; lia.
Qed.

Lemma lines_first v n l : lines v = n :: l → 0 ≤ n < 8 ∧ Z.testbit v n = true.
Proof. intros E. assert (H : n ∈ lines v) by (rewrite E; constructor). apply list_elem_of_filter in H as [H1 H2%elem_of_seqZ]. split; [lia|done]. Qed.

Lemma accept_ok off p n p' : pic_ready off p → pic_accept p = Some (n, p') →
  0 ≤ n < 8 ∧ pic_ready off p' ∧ clear_lowest (p_isr p') = p_isr p ∧ p_imr p' = p_imr p ∧ Z.testbit (p_imr p) n = false.
Proof.
  intros (H1 & H2 & H3 & H4 & H5 & H6). unfold pic_accept. destruct (lines _) as [|m l] eqn:E; [done|].
  destruct (Z.eqb_spec (Z.land (p_isr p) (2 ^ (m + 1) - 1)) 0) as [E0|]; [|done]. intros [= <- <-].
  apply lines_first in E as [Hm E]. rewrite Z.ldiff_spec in E. apply andb_true_iff in E as [_ E%negb_true_iff].
  destruct (byte_facts m (p_isr p)) as (B1 & B2 & _); [done..|]. destruct (byte_facts m (p_irr p)) as (_ & _ & B3 & _); [done..|].
  split; [done|]. split; [unfold pic_ready; cbn; tauto|]. split; [|done]. apply B1. unfold below_clear. by rewrite E0.
Qed.

(** ** Hardware interrupts *)

Lemma eoi_ready off p : pic_ready off p → pic_ready off (pic_command 0x20 p).
Proof.
  intros (H1 & H2 & H3 & H4 & H5 & H6). destruct (byte_facts 0 (p_isr p)) as (_ & _ & _ & B & _); [lia|done|].
  unfold pic_ready, pic_command. cbn. tauto.
Qed.
Lemma mask_ready off p v : pic_ready off p → 0 ≤ v < 256 → pic_ready off (pic_data v p).
Proof. intros (H1 & H2 & H3 & H4 & H5 & H6) Hv. unfold pic_ready, pic_data. rewrite H1. cbn. tauto. Qed.
Lemma request_ready off p n : 0 ≤ n < 8 → pic_ready off p → pic_ready off (request n p).
Proof.
  intros Hn (H1 & H2 & H3 & H4 & H5 & H6). destruct (byte_facts n (p_irr p)) as (_ & B & _); [done..|]. unfold pic_ready, request. cbn. tauto.
Qed.

Lemma eoi_isr p : p_isr (pic_command 0x20 p) = clear_lowest (p_isr p).
Proof. done. Qed.

Definition acknowledged (n : Z) (c : cpu_t) : cpu_t :=
  set_pics (pic_command 0x20 (c_master c)) (if 8 <=? n then pic_command 0x20 (c_slave c) else c_slave c) c.
Lemma pic_acknowledge_eq n c : pic_acknowledge n c = Some (tt, acknowledged n c).
Proof. unfold pic_acknowledge, acknowledged. destruct (8 <=? n); [done|by destruct c]. Qed.

(** The vector, and the two controllers while the interrupt is served. *)
Lemma intr_ok c v c1 : ready c → intr c = Some (v, c1) →
  0x20 ≤ v < 0x30 ∧ ready c1 ∧ (∃ m s, c1 = set_pics m s c) ∧
  p_isr (c_master (acknowledged (v - 0x20) c1)) = p_isr (c_master c) ∧ p_isr (c_slave (acknowledged (v - 0x20) c1)) = p_isr (c_slave c).
Proof.
  intros [Hm Hs H1 H2 H3]. unfold intr. destruct (pic_accept (c_master c)) as [[n m]|] eqn:Em; cbn [mbind option_bind]; [|done].
  destruct (accept_ok _ _ _ _ Hm Em) as (Hn & Rm & Im & _). destruct (Z.eqb_spec n 2) as [->|Hn2].
  - destruct (pic_accept (c_slave c)) as [[n s]|] eqn:Es; cbn [mbind option_bind]; [|done].
    destruct (accept_ok _ _ _ _ Hs Es) as (Hn' & Rs & Is & _). intros [= <- <-]. rewrite (proj1 (proj2 Rs)).
    split; [lia|]. split; [by split|]. split; [by eexists _, _|]. unfold acknowledged. rewrite (proj2 (Z.leb_le 8 _)) by lia. done.
  - intros [= <- <-]. rewrite (proj1 (proj2 Rm)). split; [lia|]. split; [by split|]. split; [by eexists _, _|].
    unfold acknowledged. rewrite (proj2 (Z.leb_gt 8 _)) by lia. done.
Qed.

Definition handler_of (c : cpu_t) (v : Z) : Z := default 0 (zlookup (c_pointers c) v).
Lemma pointer_at c v : ready c → 0 ≤ v < 256 → zlookup (c_pointers c) v = Some (handler_of c v).
Proof. intros H Hv. unfold handler_of. destruct (zlookup_in_range (c_pointers c) v) as [x ->]; [|done]. rewrite (rd_pointers _ H). lia. Qed.

(** [c'] has the tables of [c]. *)
Definition same_tables (c c' : cpu_t) : Prop :=
  c_gdt c' = c_gdt c ∧ c_gdtr c' = c_gdtr c ∧ c_tss c' = c_tss c ∧ c_tr c' = c_tr c ∧ c_idt c' = c_idt c ∧ c_idtr c' = c_idtr c.
#[export] Instance same_tables_preorder : PreOrder same_tables.
Proof. split; [by intros c|]. intros a b c. unfold same_tables. intuition congruence. Qed.

(** What [idt_irq_handler] does from the report of an unknown interrupt on. *)
Definition served (v e : Z) (r : list bool) (c : cpu_t) : cpu_t :=
  let c' := acknowledged (v - 0x20) (set_handlers (c_pointers c) (c_names c) r c) in
  if handler_of c v =? 0 then c' else set_calls (c_calls c' ++ [(handler_of c v, v, e)]) c'.

Lemma served_ready v e r c : ready c → length r = 256%nat → ready (served v e r c) ∧ same_tables c (served v e r c).
Proof.
  intros [Hm Hs H1 H2 H3] Hr. unfold served. split; [|by destruct (_ =? 0)].
  destruct (_ =? 0); split; try done; try (by apply eoi_ready); cbn; destruct (8 <=? _); try done; by apply eoi_ready.
Qed.

Lemma serve_irq_ok c v e : ready c → 0x20 ≤ v < 0x30 → ∃ r, length r = 256%nat ∧ serve_irq v e c = Some (tt, served v e r c).
Proof.
  intros H Hv. unfold serve_irq, served, mbind, M_bind, get, lift, put. rewrite (proj2 (Z.ltb_lt v 256)), pointer_at by (try done; lia).
  assert (Eu : u8 (v - 0x20) = v - 0x20) by (unfold u8; rewrite Z.mod_small; lia). rewrite Eu.
  destruct (Z.eqb_spec (handler_of c v) 0) as [E|E]; cbn [andb negb].
  - rewrite zupdate_Some by (rewrite (rd_reported _ H); lia). rewrite pic_acknowledge_eq. eexists. split; [|done]. by rewrite length_insert, (rd_reported _ H).
  - exists (c_reported c). split; [by apply rd_reported|]. cbn [mret M_ret]. rewrite pic_acknowledge_eq. by destruct c.
Qed.

Lemma idt_irq_ok c v e : ready c → 0x20 ≤ v < 0x30 →
  ∃ c', idt_irq_handler v e c = Some (tt, c') ∧ ready c' ∧ same_tables c c' ∧
    (v ≠ 0x27 → v ≠ 0x2F → ∃ r, length r = 256%nat ∧ c' = served v e r c).
Proof.
  intros H Hv. destruct (serve_irq_ok c v e H Hv) as (r & Hr & E). destruct (served_ready v e r c H Hr) as [R1 R2].
  unfold idt_irq_handler, spurious_irq. unfold mbind, M_bind.
  destruct (Z.eqb_spec v 0x27) as [->|]; [|destruct (Z.eqb_spec v 0x2F) as [->|]].
  - unfold inb, mbind, M_bind, get, mret, M_ret. cbn [Z.eqb Pos.eqb MASTER_PIC_COMMAND]. destruct (Z.land (if p_read_isr (c_master c) then _ else _) _ =? 0).
    + exists c. by split_and!.
    + exists (served 0x27 e r c). by split_and!.
  - unfold inb, mbind, M_bind, get, mret, M_ret. cbn -[Z.land serve_irq outb same_tables]. destruct (Z.land (if p_read_isr (c_slave c) then _ else _) _ =? 0).
    + eexists. split; [done|]. split; [|by split_and!]. destruct H as [Hm Hs H1 H2 H3]. split; try done. by apply eoi_ready.
    + exists (served 0x2F e r c). by split_and!.
  - exists (served v e r c). split_and!; try done. eauto.
Qed.

(** ** The kernel at work *)

(** A device raises a line, the processor takes an interrupt, and the kernel installs a handler, unmasks a
    line or sets the stack of the task that will run. *)
Inductive cpu_op := ORegister (n h : Z) (name : list Z) | OUnmask (n : Z) | OStack (esp0 : Z) | ORaise (n : Z) | OInterrupt (e : Z).

Definition op_ok (o : cpu_op) : Prop :=
  match o with ORegister n _ _ => 0 ≤ n < 256 | OUnmask n | ORaise n => 0 ≤ n < 16 | OStack _ | OInterrupt _ => True end.

(** Vector 0x20 is that of [timer_handler_switch], whose first lines these are; the others are those of [idt_irq_handler]. *)
Definition timer_ack : C unit := timer_handler;; outb MASTER_PIC_COMMAND 0x20.
Definition exec (o : cpu_op) : C unit :=
  match o with
  | ORegister n h name => register_interrupt_handler n h name
  | OUnmask n => pic_unmask_irq n
  | OStack esp0 => tss_set_kernel_stack esp0
  | ORaise n => modify (raise n)
  | OInterrupt e => λ c, match intr c with None => Some (tt, c) | Some (v, c1) => (if v =? 0x20 then timer_ack else idt_irq_handler v e) c1 end
  end.
Fixpoint run (ops : list cpu_op) : C unit := match ops with [] => mret tt | o :: ops => exec o;; run ops end.

Definition last_stack (stack : Z) (ops : list cpu_op) : Z := foldl (λ s o, match o with OStack esp0 => esp0 | _ => s end) stack ops.

Lemma timer_ack_eq c : timer_ack c = Some (tt, set_timer (c_pit c) (u32 (c_ticks c + 1)) (c_frequency c) (acknowledged 0 c)).
Proof. by destruct c. Qed.

Lemma acknowledged_ready n c : ready c → ready (acknowledged n c).
Proof.
  intros [Hm Hs H1 H2 H3]. split; try done; [by apply eoi_ready|]. unfold acknowledged. cbn. destruct (8 <=? n); [by apply eoi_ready|done].
Qed.

Lemma unmask_ready c n : ready c → 0 ≤ n < 16 → ∃ m s, pic_unmask_irq n c = Some (tt, set_pics m s c) ∧ ready (set_pics m s c).
Proof.
  intros [Hm Hs H1 H2 H3] Hn. unfold pic_unmask_irq. destruct (Z.ltb_spec n 8).
  - destruct (byte_facts n (p_imr (c_master c))) as (_ & _ & _ & _ & B); [lia|apply Hm|].
    eexists (pic_data (u8 (clear_bit (p_imr (c_master c)) n)) (c_master c)), (c_slave c). split; [done|].
    split; try done. apply mask_ready; [done|]. unfold u8. by rewrite Z.mod_small.
  - destruct (byte_facts (n - 8) (p_imr (c_slave c))) as (_ & _ & _ & _ & B); [lia|apply Hs|].
    destruct (byte_facts 2 (p_imr (c_master c))) as (_ & _ & _ & _ & B'); [lia|apply Hm|].
    eexists (pic_data (u8 (clear_bit (p_imr (c_master c)) 2)) (c_master c)), (pic_data (u8 (clear_bit (p_imr (c_slave c)) (n - 8))) (c_slave c)).
    split; [by destruct c|]. split; try done; (apply mask_ready; [done|]); unfold u8; by rewrite Z.mod_small.
Qed.

Lemma raise_ready c n : ready c → 0 ≤ n < 16 → ready (raise n c) ∧ same_tables c (raise n c).
Proof.
  intros [Hm Hs H1 H2 H3] Hn. unfold raise. destruct (Z.ltb_spec n 8); (split; [split|]); try done; apply request_ready; try done; lia.
Qed.

Section work.
Context (gdt_addr tss_addr idt_addr : Z) (isr irq : Z → Z) (irq0_task isr128 yield_task : Z).
Notation tables := (tables_set gdt_addr tss_addr idt_addr isr irq irq0_task isr128 yield_task).

#[export] Instance tables_proper stack : Proper (same_tables ==> impl) (tables stack).
Proof. intros c c' (E1 & E2 & E3 & E4 & E5 & E6) [H1 H2 H3 H4 H5 H6]. split; congruence. Qed.

Lemma exec_ok c o stack : ready c → tables stack c → op_ok o →
  ∃ c', exec o c = Some (tt, c') ∧ ready c' ∧ tables (last_stack stack [o]) c'.
Proof.
  intros R T Ho. destruct o as [n h name|n|esp0|n|e]; cbn [exec op_ok last_stack foldl] in *.
  - unfold register_interrupt_handler, mbind, M_bind, get, lift, put. destruct R as [H0 H1 H2 H3 H4].
    rewrite !zupdate_Some by (rewrite ?H2, ?H3; lia). eexists. split; [done|]. split; [by split; cbn; rewrite ?length_insert|by destruct T].
  - destruct (unmask_ready c n R Ho) as (m & s & -> & R'). eexists. split; [done|]. split; [done|by destruct T].
  - eexists. split; [done|]. split; [by destruct R|]. destruct T as [H1 H2 (H3 & H4 & H5) H6 H7 H8]. by split.
  - destruct (raise_ready c n R Ho) as [R' S]. eexists. split; [done|]. split; [done|by rewrite <- S].
  - destruct (intr c) as [[v c1]|] eqn:E; [|by eexists]. destruct (intr_ok c v c1 R E) as (Hv & R1 & (m & s & ->) & _).
    assert (T1 : tables stack (set_pics m s c)) by (by destruct T). destruct (v =? 0x20).
    + rewrite timer_ack_eq. eexists. split; [done|]. split; [|by destruct T1]. by destruct (acknowledged_ready 0 _ R1).
    + destruct (idt_irq_ok _ v e R1 Hv) as (c' & -> & R' & S & _). eexists. split; [done|]. split; [done|by rewrite <- S].
Qed.

Lemma run_ok ops c stack : ready c → tables stack c → Forall op_ok ops →
  ∃ c', run ops c = Some (tt, c') ∧ ready c' ∧ tables (last_stack stack ops) c'.
Proof.
  revert c stack. induction ops as [|o ops IH]; intros c stack R T H; [by eexists|]. apply Forall_cons in H as [Ho H].
  destruct (exec_ok c o stack R T Ho) as (c1 & E & R1 & T1). destruct (IH c1 _ R1 T1 H) as (c2 & E2 & R2 & T2).
  exists c2. split; [|done]. cbn [run]. unfold mbind, M_bind. by rewrite E.
Qed.

(** C6 (safety): When [init_686] has set the tables up and the kernel has installed handlers, unmasked lines, served interrupts and
    switched stacks in any order, the processor lets a program enter the kernel by the instruction [int] only with
    the vectors 0x80 and 0x81, which lead to [isr128] and [yield_task] in ring 0 on the kernel stack that was set last; every other vector is refused, and
    so is every I/O port.  An exception or a hardware interrupt leads to its own routine on that stack, and has no entry beyond vector 47. *)
Theorem kernel_entries (c : cpu_t) stack h ops :
  cleared c → addresses_ok tss_addr isr irq irq0_task isr128 yield_task → Forall op_ok ops →
  ∃ c' c2, init_686 gdt_addr tss_addr idt_addr isr irq irq0_task isr128 yield_task stack h c = Some (tt, c') ∧ run ops c' = Some (tt, c2) ∧
    let kernel a := Some (mk_entry a KERNEL_CODE_SEG 0 (Some (KERNEL_DATA_SEG, last_stack stack ops))) in
    (∀ n, 0 ≤ n < 256 → enter gdt_addr tss_addr idt_addr c2 3 true n = if n =? 0x80 then kernel isr128 else if n =? 0x81 then kernel yield_task else None) ∧
    (∀ port, 0 ≤ port < 65536 → port_allowed gdt_addr c2 port = false) ∧
    (∀ n, 0 ≤ n < 48 → enter gdt_addr tss_addr idt_addr c2 3 false n = kernel (if n <? 32 then isr n else if n =? 32 then irq0_task else irq (n - 32))) ∧
    (∀ n cpl soft, 48 ≤ n < 256 → n ≠ 0x80 → n ≠ 0x81 → cpl = 0 ∨ cpl = 3 → enter gdt_addr tss_addr idt_addr c2 cpl soft n = None).
Proof.
  intros Hc A Ho.
  destruct (init_686_tables gdt_addr tss_addr idt_addr isr irq irq0_task isr128 yield_task c stack h Hc) as (c' & E & T & R & _).
  destruct (run_ok ops c' stack R T Ho) as (c2 & E2 & R2 & T2). exists c', c2. split; [done|]. split; [done|]. cbn zeta.
  pose proof (enter_eq _ _ _ _ _ _ _ _ _ c2 T2) as X. unfold entry_point in X. split_and!.
  - intros n Hn. rewrite X by eauto. destruct (Z.ltb_spec n 32), (Z.eqb_spec n 32), (Z.ltb_spec n 48), (Z.eqb_spec n 0x80), (Z.eqb_spec n 0x81); done || lia.
  - intros port Hp. eapply ports_denied; eauto.
  - intros n Hn. rewrite X by (eauto; lia). destruct (Z.ltb_spec n 32), (Z.eqb_spec n 32), (Z.ltb_spec n 48); done || lia.
  - intros n cpl soft Hn ?? Hcpl. rewrite X by (eauto; lia).
    destruct (Z.ltb_spec n 32), (Z.eqb_spec n 32), (Z.ltb_spec n 48), (Z.eqb_spec n 0x80), (Z.eqb_spec n 0x81); done || lia.
Qed.

Section switch.
Context {K H N : Type} `{!KHeap H} `{!NetSockets N} (net_poll : M (kern K H N) unit).

Definition ticked (c : cpu_t) : cpu_t := set_timer (c_pit c) (u32 (c_ticks c + 1)) (c_frequency c) (acknowledged 0 c).
Definition stacked (esp0 : Z) (c : cpu_t) : cpu_t :=
  let t := c_tss c in set_tss (mk_tss esp0 (ts_ss0 t) (ts_cs t) (ts_ss t) (ts_ds t) (ts_es t) (ts_fs t) (ts_gs t) (ts_iomap_base t)) (c_tr c) c.

Lemma timer_handler_switch_eq (c : cpu_t) (k k1 k2 : kern K H N) esp r :
  net_poll k = Some (tt, k1) → k_enabled k1 = true → schedule esp true k1 = Some (r, k2) →
  timer_handler_switch net_poll esp true (c, k) = Some (r, (stacked (k_esp0 k2) (ticked c), k2)).
Proof.
  intros En Hen Es. unfold timer_handler_switch, schedule_tss, task_is_enabled. unfold on_cpu, on_kern, mbind, M_bind, get.
  cbn [timer_handler modify outb option_bind]. rewrite En. cbn [option_bind]. rewrite Hen, Es. reflexivity.
Qed.

Lemma stacked_tables c stack esp0 : tables stack c → tables esp0 (stacked esp0 (ticked c)).
Proof. intros [H1 H2 (H3 & H4 & H5) H6 H7 H8]. by split. Qed.
Lemma stacked_ready c esp0 : ready c → ready (stacked esp0 (ticked c)).
Proof. intros R. by destruct (acknowledged_ready 0 c R). Qed.

(** C7 (refinement): A timer interrupt while tasks are enabled counts one tick, is ended on the controller, and switches to the task that the round robin
    chooses.  If that task is a program with a kernel stack of its own, its next system call or yield enters the kernel on
    that stack, and so does the next interrupt of a device: the scheduler and the tables agree on where the kernel works for a program. *)
Theorem timer_switch_stack (c c1 : cpu_t) (k k1 : kern K H N) stack cur rest ct esp :
  ready c → tables stack c → addresses_ok tss_addr isr irq irq0_task isr128 yield_task → intr c = Some (0x20, c1) →
  net_poll k = Some (tt, k1) → sched_wf k1 cur rest → k_enabled k1 = true → k_tasks k1 !! cur = Some ct →
  let l1 := <[cur := preempted esp true ct]> (k_tasks k1) in
  ∃ nt c2 k2, l1 !! chosen l1 cur rest = Some nt ∧
    timer_handler_switch net_poll esp true (c1, k) = Some (t_stack_top nt, (c2, k2)) ∧
    k_current k2 = Some (chosen l1 cur rest) ∧ c_ticks c2 = u32 (c_ticks c + 1) ∧ ready c2 ∧
    p_isr (c_master c2) = p_isr (c_master c) ∧ p_isr (c_slave c2) = p_isr (c_slave c) ∧
    (t_is_kernel nt = false → t_kernel_stack_top nt ≠ 0 →
      let kernel a := Some (mk_entry a KERNEL_CODE_SEG 0 (Some (KERNEL_DATA_SEG, t_kernel_stack_top nt))) in
      enter gdt_addr tss_addr idt_addr c2 3 true 0x80 = kernel isr128 ∧ enter gdt_addr tss_addr idt_addr c2 3 true 0x81 = kernel yield_task ∧
      ∀ n, 33 ≤ n < 48 → enter gdt_addr tss_addr idt_addr c2 3 false n = kernel (irq (n - 32))).
Proof.
  intros R T A E En W Hen Hct l1. destruct (intr_ok c 0x20 c1 R E) as (_ & R1 & (m & s & ->) & I1 & I2).
  destruct (schedule_ok k1 cur rest esp true ct W Hen Hct) as (nt & d & k2 & Hnt & Hd & Es & Ek). fold l1 in Hnt, Ek.
  exists nt, (stacked (k_esp0 k2) (ticked (set_pics m s c))), k2. split; [done|]. split; [by apply (timer_handler_switch_eq _ k k1)|].
  split; [by subst k2|]. split; [done|]. split; [by apply stacked_ready|]. split; [done|]. split; [done|]. intros Hk Hs.
  assert (T2 : tables (t_kernel_stack_top nt) (stacked (k_esp0 k2) (ticked (set_pics m s c)))).
  { assert (E0 : k_esp0 k2 = t_kernel_stack_top nt) by (subst k2; cbn [k_esp0 with_paging with_esp0]; by rewrite Hk, (proj2 (Z.eqb_neq _ _) Hs)).
    rewrite E0. apply (stacked_tables _ stack). by destruct T. }
  pose proof (enter_eq _ _ _ _ _ _ _ _ _ _ T2) as X. cbn zeta. split; [|split].
  1,2: by rewrite X by (eauto; lia).
  intros n Hn. rewrite X by (eauto; lia). unfold entry_point.
  by rewrite (proj2 (Z.ltb_ge n 32)), (proj2 (Z.eqb_neq n 32)), (proj2 (Z.ltb_lt n 48)) by lia.
Qed.
End switch.
End work.

(** When the controllers put an interrupt on the bus, other than the timer and the lines 7 and 15, [idt_irq_handler] calls the handler that
    is installed for it exactly once and ends the interrupt on the right controllers: the lines that are in service are
    again those from before it.  Nothing else of the tables changes. *)
Theorem irq_served (c : cpu_t) v c1 e :
  ready c → intr c = Some (v, c1) → v ≠ 0x27 → v ≠ 0x2F →
  ∃ c2, idt_irq_handler v e c1 = Some (tt, c2) ∧ ready c2 ∧ same_tables c c2 ∧
    p_isr (c_master c2) = p_isr (c_master c) ∧ p_isr (c_slave c2) = p_isr (c_slave c) ∧
    c_calls c2 = c_calls c ++ (if handler_of c v =? 0 then [] else [(handler_of c v, v, e)]).
Proof.
  intros R E H1 H2. destruct (intr_ok c v c1 R E) as (Hv & R1 & (m & s & ->) & I1 & I2).
  destruct (idt_irq_ok _ v e R1 Hv) as (c2 & -> & R2 & S & H). destruct (H H1 H2) as (r & Hr & ->).
  exists (served v e r (set_pics m s c)). split; [done|]. split; [done|]. split; [by rewrite <- S|]. unfold served.
  change (handler_of (set_pics m s c) v) with (handler_of c v). destruct (handler_of c v =? 0); [by rewrite app_nil_r|done].
Qed.

(** ** A machine *)

Definition pic_off : pic_t := mk_pic 0 0 0 0 0 false.
Definition machine : cpu_t :=
  mk_cpu (replicate 6 zero_gdt) false (0, 0) zero_tss 0 (replicate 256 zero_idt) (0, 0) (replicate 256 0) (replicate 256 None) (replicate 256 false) pic_off pic_off [] [] 0 0.
Definition isr_addr (n : Z) : Z := 0xC0101000 + 16 * n.
Definition irq_addr (n : Z) : Z := 0xC0102000 + 16 * n.
Definition machine_init : M cpu_t unit := init_686 0xC0200000 0xC0201000 0xC0202000 isr_addr irq_addr 0xC0103000 0xC0103100 0xC0103200 0xC0300000 0xC0103300.

Lemma machine_addresses : addresses_ok 0xC0201000 isr_addr irq_addr 0xC0103000 0xC0103100 0xC0103200.
Proof. unfold addresses_ok, is_u32, isr_addr, irq_addr. split_and!; try (intros n Hn); lia. Qed.

(** The keyboard is served, and the stack of a task is set. *)
Lemma kernel_entries_witness :
  ∃ c' c2, machine_init machine = Some (tt, c') ∧ run [ORegister 0x21 0xC0104000 []; ORaise 1; OInterrupt 0; OStack 0xC0400000] c' = Some (tt, c2) ∧
    enter 0xC0200000 0xC0201000 0xC0202000 c2 3 true 0x80 = Some (mk_entry 0xC0103100 KERNEL_CODE_SEG 0 (Some (KERNEL_DATA_SEG, 0xC0400000))).
Proof.
  destruct (kernel_entries 0xC0200000 0xC0201000 0xC0202000 isr_addr irq_addr 0xC0103000 0xC0103100 0xC0103200 machine 0xC0300000 0xC0103300
    [ORegister 0x21 0xC0104000 []; ORaise 1; OInterrupt 0; OStack 0xC0400000]) as (c' & c2 & E1 & E2 & H & _).
  - by split.
  - apply machine_addresses.
  - repeat constructor; cbn; lia.
  - exists c', c2. split; [exact E1|]. split; [exact E2|]. apply (H 0x80). lia.
Defined.

(** A line of the slave with a handler. *)
Definition mouse_interrupt : cpu_t :=
  set_handlers (<[0x2C%nat := 0xC0104000]> (replicate 256 0)) (replicate 256 None) (replicate 256 false)
    (raise 12 (set_pics (mk_pic 0 0x20 0xF8 0 0 false) (mk_pic 0 0x28 0xEF 0 0 false) machine)).
Lemma mouse_interrupt_ready : ready mouse_interrupt.
Proof. split; try done; unfold pic_ready; cbn; lia. Qed.

Lemma irq_served_witness : ∃ c1 c2, intr mouse_interrupt = Some (0x2C, c1) ∧ idt_irq_handler 0x2C 0 c1 = Some (tt, c2) ∧ c_calls c2 = [(0xC0104000, 0x2C, 0)] ∧ p_isr (c_slave c2) = 0.
Proof.
  eexists. destruct (irq_served mouse_interrupt 0x2C _ 0 mouse_interrupt_ready eq_refl) as (c2 & E & _ & _ & _ & I & Hc); [lia..|].
  exists c2. split; [reflexivity|]. split; [exact E|]. split; [exact Hc|exact I].
Defined.

(** A request on line 7 is taken into service; the status that [idt_irq_handler] reads is that of the requests, where it is
    no longer seen, and the interrupt is neither served nor ended: the controller accepts no other on that line. *)
Definition line7_interrupt : cpu_t :=
  set_handlers (<[0x27%nat := 0xC0104000]> (replicate 256 0)) (replicate 256 None) (replicate 256 false)
    (raise 7 (set_pics (mk_pic 0 0x20 0 0 0 false) (mk_pic 0 0x28 0xFF 0 0 false) machine)).
Example line7_not_served :
  ('(v, c1) ← intr line7_interrupt; '(_, c2) ← idt_irq_handler v 0 c1; Some (v, p_isr (c_master c2), c_calls c2, fst <$> intr (raise 7 c2))) =
  Some (0x27, 0x80, [], None).
Proof. vm_compute. reflexivity. Qed.

(** The timer interrupts the kernel, and the program of [two_tasks] is chosen. *)
Definition timer_pending : cpu_t := match machine_init machine with Some (_, c) => raise 0 c | None => machine end.
Definition timer_taken : cpu_t := match intr timer_pending with Some (_, c) => c | None => machine end.

Lemma timer_pending_ok : ready timer_pending ∧ tables_set 0xC0200000 0xC0201000 0xC0202000 isr_addr irq_addr 0xC0103000 0xC0103100 0xC0103200 0xC0300000 timer_pending.
Proof.
  destruct (init_686_tables 0xC0200000 0xC0201000 0xC0202000 isr_addr irq_addr 0xC0103000 0xC0103100 0xC0103200 machine 0xC0300000 0xC0103300) as (c & E & T & R & _).
  { by split. }
  unfold timer_pending, machine_init. rewrite E. destruct (raise_ready c 0 R) as [R' S]; [lia|]. split; [done|]. by rewrite <- S.
Qed.

Lemma timer_switch_stack_witness : ∃ r c2 k2, timer_handler_switch (mret tt) 0xC0600000 true (timer_taken, two_tasks) = Some (r, (c2, k2)) ∧
  enter 0xC0200000 0xC0201000 0xC0202000 c2 3 true 0x80 = Some (mk_entry 0xC0103100 KERNEL_CODE_SEG 0 (Some (KERNEL_DATA_SEG, 0xC0502000))).
Proof.
  destruct (timer_switch_stack 0xC0200000 0xC0201000 0xC0202000 isr_addr irq_addr 0xC0103000 0xC0103100 0xC0103200 (mret tt)
    timer_pending timer_taken two_tasks two_tasks 0xC0300000 0 [1%nat] (set_next (Some 1%nat) idle_task) 0xC0600000
    (proj1 timer_pending_ok) (proj2 timer_pending_ok) machine_addresses) as (nt & c2 & k2 & Hnt & E & _ & _ & _ & _ & _ & H).
  - vm_compute. reflexivity.
  - reflexivity.
  - apply two_tasks_wf.
  - reflexivity.
  - reflexivity.
  - cbv in Hnt. injection Hnt as <-. exists (Some 0xC0500100), c2, k2. split; [exact E|]. apply H; [reflexivity|discriminate].
Defined.
