(* ===== verification/Pci.v ===== *)
(** * The PCI bus ([src/src/arch/i686/pci.c])

    Access to the configuration space through its two ports, and the scan of bus 0.  The devices on the bus are a map from the addresses of
    their configuration words; a word of an absent function reads as ones, and the error bits of the status register are
    cleared by writing ones to them, as the specification of the bus has it. *)

From S2P Require Import Prelude Bytes.

Definition PCI_CONFIG_ADDR : Z := 0xCF8.
Definition PCI_CONFIG_DATA : Z := 0xCFC.
Definition PCI_VENDOR_ID : Z := 0x00.
Definition PCI_DEVICE_ID : Z := 0x02.
Definition PCI_COMMAND : Z := 0x04.
Definition PCI_CLASS_REV : Z := 0x08.
Definition PCI_HEADER_TYPE : Z := 0x0E.
Definition PCI_BAR0 : Z := 0x10.
Definition PCI_INTERRUPT_LINE : Z := 0x3C.
Definition PCI_CMD_IO_SPACE : Z := 0x0001.
Definition PCI_CMD_MEM_SPACE : Z := 0x0002.
Definition PCI_CMD_BUS_MASTER : Z := 0x0004.
Definition PCI_MAX_DEVICES : Z := 32.

Record pci_device_t := mk_pci_device {
  d_bus : Z; d_device : Z; d_function : Z; d_vendor_id : Z; d_device_id : Z; d_class_code : Z; d_subclass : Z; d_irq_line : Z; d_bar : list Z
}.

(** The address that was written to the first port, the configuration words of the functions that are present, and the
    first [pci_device_count] elements of [pci_devices]. *)
Record pci_t := mk_pci_state { pci_addr : Z; pci_space : gmap Z Z; pci_devices : list pci_device_t }.

#[local] Notation P := (M pci_t).

(** ** The bus *)

Definition config_word (s : gmap Z Z) (a : Z) : Z := default 0xFFFFFFFF (s !! a).

(** Word 1 is the command and, above it, the status. *)
Definition config_store (a v old : Z) : Z :=
  if Z.land a 0xFC =? PCI_COMMAND then Z.lor (Z.land v 0xFFFF) (Z.ldiff (Z.land old 0xFFFF0000) (Z.land v 0xF9000000)) else v.

Definition outl (port v : Z) : P unit :=
  modify (λ s, if port =? PCI_CONFIG_ADDR then mk_pci_state (u32 v) (pci_space s) (pci_devices s)
               else mk_pci_state (pci_addr s) (alter (config_store (pci_addr s) (u32 v)) (pci_addr s) (pci_space s)) (pci_devices s)).
Definition inl (port : Z) : P Z := s ← get; mret (if port =? PCI_CONFIG_DATA then config_word (pci_space s) (pci_addr s) else pci_addr s).

(** ** The configuration space *)

Definition config_address (bus dev fn offset : Z) : Z :=
  Z.lor (Z.lor (Z.lor (Z.lor 0x80000000 (Z.shiftl bus 16)) (Z.shiftl dev 11)) (Z.shiftl fn 8)) (Z.land offset 0xFC).

Definition pci_config_read32 (bus dev fn offset : Z) : P Z := outl PCI_CONFIG_ADDR (config_address bus dev fn offset);; inl PCI_CONFIG_DATA.
Definition pci_config_read16 (bus dev fn offset : Z) : P Z :=
  v ← pci_config_read32 bus dev fn offset; mret (u16 (Z.shiftr v (Z.land offset 2 * 8))).
Definition pci_config_read8 (bus dev fn offset : Z) : P Z :=
  v ← pci_config_read32 bus dev fn offset; mret (u8 (Z.shiftr v (Z.land offset 3 * 8))).

Definition pci_config_write16 (bus dev fn offset value : Z) : P unit :=
  let address := config_address bus dev fn offset in
  outl PCI_CONFIG_ADDR address;;
  old ← inl PCI_CONFIG_DATA;
  let shift := Z.land offset 2 * 8 in
  let mask := u32 (Z.shiftl 0xFFFF shift) in
  outl PCI_CONFIG_ADDR address;;
  outl PCI_CONFIG_DATA (Z.lor (Z.land old (u32 (Z.lnot mask))) (u32 (Z.shiftl value shift))).

(** ** The scan *)

Fixpoint read_bars (n : nat) (i bus dev fn : Z) : P (list Z) :=
  match n with
  | O => mret []
  | S n => b ← pci_config_read32 bus dev fn (PCI_BAR0 + i * 4); bs ← read_bars n (i + 1) bus dev fn; mret (b :: bs)
  end.

Definition pci_scan_device (bus dev fn : Z) : P unit :=
  vendor ← pci_config_read16 bus dev fn PCI_VENDOR_ID;
  if vendor =? 0xFFFF then mret tt else
  s ← get;
  if PCI_MAX_DEVICES <=? Z.of_nat (length (pci_devices s)) then mret tt else
  device ← pci_config_read16 bus dev fn PCI_DEVICE_ID;
  class_rev ← pci_config_read32 bus dev fn PCI_CLASS_REV;
  irq ← pci_config_read8 bus dev fn PCI_INTERRUPT_LINE;
  bars ← read_bars 6 0 bus dev fn;
  modify (λ s, mk_pci_state (pci_addr s) (pci_space s)
    (pci_devices s ++ [mk_pci_device bus dev fn vendor device (Z.land (Z.shiftr class_rev 24) 0xFF) (Z.land (Z.shiftr class_rev 16) 0xFF) irq bars])).

Fixpoint scan_functions (n : nat) (fn dev : Z) : P unit :=
  match n with O => mret tt | S n => pci_scan_device 0 dev fn;; scan_functions n (fn + 1) dev end.

Definition scan_slot (dev : Z) : P unit :=
  vendor ← pci_config_read16 0 dev 0 PCI_VENDOR_ID;
  if vendor =? 0xFFFF then mret tt else
  pci_scan_device 0 dev 0;;
  header_type ← pci_config_read8 0 dev 0 PCI_HEADER_TYPE;
  if negb (Z.land header_type 0x80 =? 0) then scan_functions 7 1 dev else mret tt.

Fixpoint scan_slots (n : nat) (dev : Z) : P unit := match n with O => mret tt | S n => scan_slot dev;; scan_slots n (dev + 1) end.

Definition pci_init : P unit := modify (λ s, mk_pci_state (pci_addr s) (pci_space s) []);; scan_slots 32 0.

Definition pci_find_device (vendor_id device_id : Z) (s : pci_t) : option pci_device_t :=
  snd <$> list_find (λ d, d_vendor_id d = vendor_id ∧ d_device_id d = device_id) (pci_devices s).

Definition pci_enable_bus_mastering (d : pci_device_t) : P unit :=
  cmd ← pci_config_read16 (d_bus d) (d_device d) (d_function d) PCI_COMMAND;
  pci_config_write16 (d_bus d) (d_device d) (d_function d) PCI_COMMAND (Z.lor cmd (Z.lor (Z.lor PCI_CMD_BUS_MASTER PCI_CMD_IO_SPACE) PCI_CMD_MEM_SPACE)).

Definition pci_get_devices (max : Z) (s : pci_t) : list pci_device_t := if max <=? 0 then [] else take (Z.to_nat max) (pci_devices s).

(** ** What the scan finds *)

(** A word of the configuration space, and a part of it. *)
Definition word_at (s : gmap Z Z) (bus dev fn off : Z) : Z := config_word s (u32 (config_address bus dev fn off)).
Definition half_at (s : gmap Z Z) (bus dev fn off : Z) : Z := u16 (Z.shiftr (word_at s bus dev fn off) (Z.land off 2 * 8)).
Definition byte_at (s : gmap Z Z) (bus dev fn off : Z) : Z := u8 (Z.shiftr (word_at s bus dev fn off) (Z.land off 3 * 8)).

Definition present (s : gmap Z Z) (dev fn : Z) : Prop := half_at s 0 dev fn PCI_VENDOR_ID ≠ 0xFFFF.
#[export] Instance present_dec s dev fn : Decision (present s dev fn) := decide (_ ≠ _).

Definition describe (s : gmap Z Z) (f : Z * Z) : pci_device_t :=
  let '(dev, fn) := f in
  mk_pci_device 0 dev fn (half_at s 0 dev fn PCI_VENDOR_ID) (half_at s 0 dev fn PCI_DEVICE_ID)
    (Z.land (Z.shiftr (word_at s 0 dev fn PCI_CLASS_REV) 24) 0xFF) (Z.land (Z.shiftr (word_at s 0 dev fn PCI_CLASS_REV) 16) 0xFF)
    (byte_at s 0 dev fn PCI_INTERRUPT_LINE) ((λ i, word_at s 0 dev fn (PCI_BAR0 + i * 4)) <$> seqZ 0 6).

(** The functions of a slot: function 0, and the others of a device with several functions. *)
Definition slot_functions (s : gmap Z Z) (dev : Z) : list (Z * Z) :=
  if decide (present s dev 0)
  then (dev, 0) :: (if Z.land (byte_at s 0 dev 0 PCI_HEADER_TYPE) 0x80 =? 0 then [] else filter (λ f, present s f.1 f.2) (pair dev <$> seqZ 1 7))
  else [].
Definition bus_functions (s : gmap Z Z) : list (Z * Z) := concat (slot_functions s <$> seqZ 0 32).

(** Up to the address that was written last. *)
Definition has (sp : gmap Z Z) (ds : list pci_device_t) (s : pci_t) : Prop := pci_space s = sp ∧ pci_devices s = ds.
Definition gives {A} (m : P A) (v : A) (sp : gmap Z Z) (ds ds' : list pci_device_t) : Prop :=
  ∀ s, has sp ds s → ∃ s', m s = Some (v, s') ∧ has sp ds' s'.

Section scan.
Context (sp : gmap Z Z).

Lemma gives_ret {A} (v : A) ds : gives (mret v) v sp ds ds.
Proof. intros s H. by exists s. Qed.
Lemma gives_bind {A B} (m : P A) (f : A → P B) v w ds ds1 ds2 : gives m v sp ds ds1 → gives (f v) w sp ds1 ds2 → gives (m ≫= f) w sp ds ds2.
Proof. intros H1 H2 s Hs. destruct (H1 s Hs) as (s1 & E1 & Hs1). destruct (H2 s1 Hs1) as (s2 & E2 & Hs2). exists s2. unfold mbind, M_bind. by rewrite E1. Qed.
Lemma gives_get {B} (f : pci_t → P B) w ds ds' : (∀ s, has sp ds s → gives (f s) w sp ds ds') → gives (get ≫= f) w sp ds ds'.
Proof. intros H s Hs. destruct (H s Hs s Hs) as (s1 & E & Hs1); exists s1; exact (conj E Hs1). Qed.

Lemma gives_read32 bus dev fn off ds : gives (pci_config_read32 bus dev fn off) (word_at sp bus dev fn off) sp ds ds.
Proof. intros s [<- <-]. exists (mk_pci_state (u32 (config_address bus dev fn off)) (pci_space s) (pci_devices s)). by repeat split. Qed.
Lemma gives_read16 bus dev fn off ds : gives (pci_config_read16 bus dev fn off) (half_at sp bus dev fn off) sp ds ds.
Proof. eapply gives_bind; [apply gives_read32|apply gives_ret]. Qed.
Lemma gives_read8 bus dev fn off ds : gives (pci_config_read8 bus dev fn off) (byte_at sp bus dev fn off) sp ds ds.
Proof. eapply gives_bind; [apply gives_read32|apply gives_ret]. Qed.

Lemma gives_bars n i bus dev fn ds : gives (read_bars n i bus dev fn) ((λ i, word_at sp bus dev fn (PCI_BAR0 + i * 4)) <$> seqZ i (Z.of_nat n)) sp ds ds.
Proof.
  revert i. induction n as [|n IH]; intros i; [apply gives_ret|]. rewrite seqZ_cons by lia. replace (Z.pred (Z.of_nat (S n))) with (Z.of_nat n) by lia.
  eapply gives_bind; [apply gives_read32|]. eapply gives_bind; [apply IH|]. rewrite <- Z.add_1_r. apply gives_ret.
Qed.

(** The table takes the functions as long as there is room. *)
Definition adds (m : P unit) (fs : list (Z * Z)) : Prop := ∀ ds, gives m tt sp (take 32 ds) (take 32 (ds ++ (describe sp <$> fs))).

Lemma adds_ret : adds (mret tt) [].
Proof. intros ds. rewrite app_nil_r. apply gives_ret. Qed.
Lemma adds_bind m1 m2 fs1 fs2 : adds m1 fs1 → adds m2 fs2 → adds (m1;; m2) (fs1 ++ fs2).
Proof. intros H1 H2 ds. eapply gives_bind; [apply H1|]. rewrite fmap_app, (assoc_L (++)). apply H2. Qed.

Lemma adds_device dev fn : adds (pci_scan_device 0 dev fn) (if decide (present sp dev fn) then [(dev, fn)] else []).
Proof.
  intros ds. unfold pci_scan_device. eapply gives_bind; [apply gives_read16|]. unfold present. destruct (Z.eqb_spec (half_at sp 0 dev fn PCI_VENDOR_ID) 0xFFFF) as [E|E].
  { rewrite decide_False by (by intros []). rewrite app_nil_r. apply gives_ret. }
  rewrite decide_True by done. apply gives_get. intros s [_ ->]. rewrite length_take.
  destruct (Z.leb_spec PCI_MAX_DEVICES (Z.of_nat (32 `min` length ds))) as [L|L]; unfold PCI_MAX_DEVICES in L.
  { rewrite take_app_le by lia. apply gives_ret. }
  eapply gives_bind; [apply gives_read16|]. eapply gives_bind; [apply gives_read32|]. eapply gives_bind; [apply gives_read8|].
  eapply gives_bind; [apply gives_bars|]. rewrite (take_ge ds), take_ge by (rewrite ?length_app; cbn; lia).
  intros s' [E1 E2]. eexists. split; [done|]. split; [done|]. cbn [pci_devices]. by rewrite E2.
Qed.

Lemma adds_functions n fn dev : adds (scan_functions n fn dev) (filter (λ f, present sp f.1 f.2) (pair dev <$> seqZ fn (Z.of_nat n))).
Proof.
  revert fn. induction n as [|n IH]; intros fn; [apply adds_ret|]. rewrite seqZ_cons by lia. replace (Z.pred (Z.of_nat (S n))) with (Z.of_nat n) by lia.
  rewrite fmap_cons, filter_cons, <- Z.add_1_r. pose proof (adds_bind _ _ _ _ (adds_device dev fn) (IH (fn + 1))) as H.
  cbn [fst snd]. by destruct (decide (present sp dev fn)).
Qed.

Lemma adds_slot dev : adds (scan_slot dev) (slot_functions sp dev).
Proof.
  intros ds. unfold scan_slot, slot_functions. eapply gives_bind; [apply gives_read16|]. destruct (Z.eqb_spec (half_at sp 0 dev 0 PCI_VENDOR_ID) 0xFFFF) as [E|E].
  { rewrite decide_False by (by intros []). rewrite app_nil_r. apply gives_ret. }
  pose proof (adds_device dev 0 ds) as H0. rewrite decide_True in H0 |- * by done. eapply gives_bind; [apply H0|]. eapply gives_bind; [apply gives_read8|].
  destruct (_ =? 0); cbn [negb]; [apply gives_ret|].
  pose proof (adds_functions 7 1 dev (ds ++ [describe sp (dev, 0)])) as H7. rewrite <- (assoc_L (++)) in H7. exact H7.
Qed.

Lemma adds_slots n dev : adds (scan_slots n dev) (concat (slot_functions sp <$> seqZ dev (Z.of_nat n))).
Proof.
  revert dev. induction n as [|n IH]; intros dev; [apply adds_ret|]. rewrite seqZ_cons by lia. replace (Z.pred (Z.of_nat (S n))) with (Z.of_nat n) by lia.
  rewrite fmap_cons, <- Z.add_1_r. apply adds_bind; [apply adds_slot|apply IH].
Qed.
End scan.

(** The scan fills the table with the descriptions of the functions that are present on bus 0, slot after slot, those beyond function 0 only for a device that
    declares them, up to 32; it changes nothing on the bus. *)
Theorem pci_init_correct (s : pci_t) :
  ∃ s', pci_init s = Some (tt, s') ∧ pci_space s' = pci_space s ∧ pci_devices s' = take 32 (describe (pci_space s) <$> bus_functions (pci_space s)).
Proof.
  destruct (adds_slots (pci_space s) 32 0 [] (mk_pci_state (pci_addr s) (pci_space s) [])) as (s' & E & H1 & H2); [by split|]. by exists s'.
Qed.

(** A bridge, a network card and a device of two functions; the functions of the card beyond the first are not looked at. *)
Definition demo_bus : gmap Z Z :=
  list_to_map ((λ '(dev, fn, off, v), (config_address 0 dev fn off, v)) <$>
    [(0, 0, 0x00, 0x12378086); (3, 0, 0x00, 0x813910EC); (3, 0, 0x04, 0xF9000100); (3, 0, 0x10, 0xC001); (3, 0, 0x3C, 0x010B); (3, 1, 0x00, 0x00010001);
     (3, 0, 0x0C, 0x00000000); (0, 0, 0x0C, 0x00000000); (7, 0, 0x00, 0x70008086); (7, 0, 0x0C, 0x00800000); (7, 1, 0x00, 0x70108086)]).
Definition demo_scan : option pci_t := snd <$> pci_init (mk_pci_state 0 demo_bus []).
Example demo_scan_found : (λ s, (λ d, (d_device d, d_function d, d_device_id d)) <$> pci_devices s) <$> demo_scan =
  Some [(0, 0, 0x1237); (3, 0, 0x8139); (7, 0, 0x7000); (7, 1, 0x7010)].
Proof. vm_compute. reflexivity. Qed.

(** Turning bus mastering on also writes the status back, which clears its error bits. *)
Example bus_mastering_clears_status :
  (s ← demo_scan; d ← pci_find_device 0x10EC 0x8139 s; '(_, s) ← pci_enable_bus_mastering d s; Some (word_at (pci_space s) 0 3 0 PCI_COMMAND)) = Some 0x107.
Proof. vm_compute. reflexivity. Qed.
