(* ===== verification/Rtl8139.v ===== *)
(** * The network card ([src/src/drivers/rtl8139.c])

    The driver at the level of the registers of the card and of the memory that they share.  The card follows its manual: received frames go to a ring of 8 KB
    with a header each, a frame that crosses its end is written on behind it, and the four transmit descriptors are
    taken in the order in which they are started. *)

From S2P Require Import Prelude Bytes Paging Cpu Pci.

Definition RTL_VENDOR_ID : Z := 0x10EC.
Definition RTL_DEVICE_ID : Z := 0x8139.
Definition RTL_IDR0 : Z := 0x00.
Definition RTL_TSD0 : Z := 0x10.
Definition RTL_TSAD0 : Z := 0x20.
Definition RTL_RBSTART : Z := 0x30.
Definition RTL_CR : Z := 0x37.
Definition RTL_CAPR : Z := 0x38.
Definition RTL_IMR : Z := 0x3C.
Definition RTL_ISR : Z := 0x3E.
Definition RTL_RCR : Z := 0x44.
Definition RTL_CONFIG1 : Z := 0x52.
Definition RTL_CR_RESET : Z := 0x10.
Definition RTL_CR_RX_EN : Z := 0x08.
Definition RTL_CR_TX_EN : Z := 0x04.
Definition RTL_INT_ROK : Z := 0x01.
Definition RTL_INT_RER : Z := 0x02.
Definition RTL_INT_TOK : Z := 0x04.
Definition RTL_INT_RXOVW : Z := 0x10.
Definition RTL_INT_FOVW : Z := 0x40.
Definition RTL_RCR_APM : Z := 0x02.
Definition RTL_RCR_AM : Z := 0x04.
Definition RTL_RCR_AB : Z := 0x08.
Definition RTL_RCR_WRAP : Z := 0x80.
Definition RX_BUF_LEN : Z := 8192.
Definition RX_BUF_PAD : Z := 16 + 1500.
Definition RX_BUF_SIZE : Z := RX_BUF_LEN + RX_BUF_PAD.
Definition TX_BUF_SIZE : Z := 2048.
Definition TX_DESC_COUNT : Z := 4.

(** ** Bytes in memory, by physical address *)

Fixpoint put_bytes (a : Z) (bs : list Z) (m : gmap Z Z) : gmap Z Z :=
  match bs with [] => m | b :: bs => put_bytes (a + 1) bs (<[a := b]> m) end.
Fixpoint get_bytes (a : Z) (n : nat) (m : gmap Z Z) : list Z :=
  match n with O => [] | S n => default 0 (m !! a) :: get_bytes (a + 1) n m end.

(** ** The card *)

(** [cd_resetting] is the number of times that the reset bit will still be read; [cd_started] are the descriptors that were started. *)
Record card_t := mk_card {
  cd_cr : Z; cd_resetting : nat; cd_idr : list Z; cd_rbstart : Z; cd_read : Z; cd_write : Z; cd_imr : Z; cd_isr : Z; cd_rcr : Z;
  cd_tsad : list Z; cd_tsd : list Z; cd_started : list Z; cd_wire : list (list Z)
}.

Definition set_cr (v : Z) (n : nat) (k : card_t) : card_t := mk_card v n (cd_idr k) (cd_rbstart k) (cd_read k) (cd_write k) (cd_imr k) (cd_isr k) (cd_rcr k) (cd_tsad k) (cd_tsd k) (cd_started k) (cd_wire k).
Definition set_ring (b r w : Z) (k : card_t) : card_t := mk_card (cd_cr k) (cd_resetting k) (cd_idr k) b r w (cd_imr k) (cd_isr k) (cd_rcr k) (cd_tsad k) (cd_tsd k) (cd_started k) (cd_wire k).
Definition set_ints (m i : Z) (k : card_t) : card_t := mk_card (cd_cr k) (cd_resetting k) (cd_idr k) (cd_rbstart k) (cd_read k) (cd_write k) m i (cd_rcr k) (cd_tsad k) (cd_tsd k) (cd_started k) (cd_wire k).
Definition set_rcr (v : Z) (k : card_t) : card_t := mk_card (cd_cr k) (cd_resetting k) (cd_idr k) (cd_rbstart k) (cd_read k) (cd_write k) (cd_imr k) (cd_isr k) v (cd_tsad k) (cd_tsd k) (cd_started k) (cd_wire k).
Definition set_tx (a d s : list Z) (w : list (list Z)) (k : card_t) : card_t := mk_card (cd_cr k) (cd_resetting k) (cd_idr k) (cd_rbstart k) (cd_read k) (cd_write k) (cd_imr k) (cd_isr k) (cd_rcr k) a d s w.

Definition align4 (x : Z) : Z := (x + 3) / 4 * 4.

(** What the registers return and do. *)
Definition card_read (r : Z) (k : card_t) : Z * card_t :=
  if r =? RTL_CR then
    (Z.lor (cd_cr k) (Z.lor (if cd_read k =? cd_write k then 1 else 0) (match cd_resetting k with O => 0 | S _ => RTL_CR_RESET end)), set_cr (cd_cr k) (pred (cd_resetting k)) k)
  else if r =? RTL_ISR then (cd_isr k, k)
  else if r <? 6 then (default 0 (zlookup (cd_idr k) r), k) else (0, k).

Definition card_write (reset_time : nat) (r v : Z) (k : card_t) : card_t :=
  if r =? RTL_CR then
    if Z.testbit v 4 then set_cr 0 reset_time (set_ring (cd_rbstart k) 0 0 (set_ints 0 0 (set_tx (replicate 4 0) (replicate 4 0) [] (cd_wire k) k)))
    else set_cr (Z.land v 0x0C) (cd_resetting k) k
  else if r =? RTL_RBSTART then set_ring v (cd_read k) 0 k
  else if r =? RTL_CAPR then set_ring (cd_rbstart k) ((v + 16) mod RX_BUF_LEN) (cd_write k) k
  else if r =? RTL_IMR then set_ints v (cd_isr k) k
  else if r =? RTL_ISR then set_ints (cd_imr k) (Z.ldiff (cd_isr k) v) k
  else if r =? RTL_RCR then set_rcr v k
  else if (RTL_TSD0 <=? r) && (r <? RTL_TSAD0) then
    let i := (r - RTL_TSD0) / 4 in set_tx (cd_tsad k) (default (cd_tsd k) (zupdate (cd_tsd k) i (Z.land v 0x1FFF))) (cd_started k ++ [i]) (cd_wire k) k
  else if (RTL_TSAD0 <=? r) && (r <? RTL_RBSTART) then
    set_tx (default (cd_tsad k) (zupdate (cd_tsad k) ((r - RTL_TSAD0) / 4) v)) (cd_tsd k) (cd_started k) (cd_wire k) k
  else k.

(** ** The state *)

Record nic_t := mk_nic {
  rtl_io : Z; rtl_irq : Z; rtl_mac : list Z; rx_mem : gmap Z Z; rx_offset : Z; tx_mem : gmap Z Z; tx_cur : Z; rx_packets : Z; tx_packets : Z;
  rx_callback : bool; delivered : list (list Z); card : card_t
}.

Definition with_identity (io irq : Z) (mac : list Z) (s : nic_t) : nic_t := mk_nic io irq mac (rx_mem s) (rx_offset s) (tx_mem s) (tx_cur s) (rx_packets s) (tx_packets s) (rx_callback s) (delivered s) (card s).
Definition with_rx (m : gmap Z Z) (off : Z) (s : nic_t) : nic_t := mk_nic (rtl_io s) (rtl_irq s) (rtl_mac s) m off (tx_mem s) (tx_cur s) (rx_packets s) (tx_packets s) (rx_callback s) (delivered s) (card s).
Definition with_tx (m : gmap Z Z) (cur n : Z) (s : nic_t) : nic_t := mk_nic (rtl_io s) (rtl_irq s) (rtl_mac s) (rx_mem s) (rx_offset s) m cur (rx_packets s) n (rx_callback s) (delivered s) (card s).
Definition with_callback (cb : bool) (n : Z) (l : list (list Z)) (s : nic_t) : nic_t := mk_nic (rtl_io s) (rtl_irq s) (rtl_mac s) (rx_mem s) (rx_offset s) (tx_mem s) (tx_cur s) n (tx_packets s) cb l (card s).
Definition with_card (k : card_t) (s : nic_t) : nic_t := mk_nic (rtl_io s) (rtl_irq s) (rtl_mac s) (rx_mem s) (rx_offset s) (tx_mem s) (tx_cur s) (rx_packets s) (tx_packets s) (rx_callback s) (delivered s) k.

#[local] Notation R := (M nic_t).

Section driver.
(** The addresses of the buffers, how long a reset takes, and the checksum of a frame. *)
Context (rx_buf tx_buf : Z) (reset_time : nat) (crc : list Z → Z).

Definition reg_in (r : Z) : R Z := s ← get; let '(v, k) := card_read r (card s) in put (with_card k s);; mret v.
Definition reg_out (r v : Z) : R unit := modify (λ s, with_card (card_write reset_time r v (card s)) s).

(** A frame arrives: it is dropped when the ring has no room for it. *)
Definition card_receive (frame : list Z) : R unit :=
  modify (λ s, let k := card s in let size := Z.of_nat (length frame) in let avail := (cd_read k - cd_write k) mod RX_BUF_LEN in
    if Z.land (cd_cr k) RTL_CR_RX_EN =? 0 then s else
    if negb (avail =? 0) && (avail <=? align4 (size + 8)) then with_card (set_ints (cd_imr k) (Z.lor (cd_isr k) RTL_INT_RXOVW) k) s else
    with_card (set_ring (cd_rbstart k) (cd_read k) (align4 (cd_write k + size + 8) mod RX_BUF_LEN) (set_ints (cd_imr k) (Z.lor (cd_isr k) RTL_INT_ROK) k))
      (with_rx (put_bytes (cd_rbstart k + cd_write k) (le16 1 ++ le16 (size + 4) ++ frame ++ le32 (crc frame)) (rx_mem s)) (rx_offset s) s)).

(** The descriptor that was started first is sent. *)
Definition card_transmit : R unit :=
  modify (λ s, let k := card s in
    match cd_started k with
    | [] => s
    | i :: q =>
      let bytes := get_bytes (default 0 (zlookup (cd_tsad k) i)) (Z.to_nat (default 0 (zlookup (cd_tsd k) i))) (tx_mem s) in
      with_card (set_ints (cd_imr k) (Z.lor (cd_isr k) RTL_INT_TOK) (set_tx (cd_tsad k) (cd_tsd k) q (cd_wire k ++ [bytes]) k)) s
    end).

(** ** The driver *)

Definition rtl8139_send (data : list Z) : R unit :=
  s ← get;
  let len := Z.of_nat (length data) in
  if (rtl_io s =? 0) || (TX_BUF_SIZE <? len) then mret tt else
  let idx := Z.rem (tx_cur s) TX_DESC_COUNT in
  let buf := KVIRT_TO_PHYS (tx_buf + idx * TX_BUF_SIZE) in
  put (with_tx (put_bytes buf data (tx_mem s)) (tx_cur s) (tx_packets s) s);;
  reg_out (RTL_TSAD0 + idx * 4) buf;;
  reg_out (RTL_TSD0 + idx * 4) len;;
  modify (λ s, with_tx (tx_mem s) (Z.rem (tx_cur s + 1) TX_DESC_COUNT) (u32 (tx_packets s + 1)) s).

(** Bytes of [rx_buf], within its bounds. *)
Definition rx_bytes (off : Z) (n : Z) : R (list Z) :=
  s ← get; if (0 <=? off) && (off + n <=? RX_BUF_SIZE) then mret (get_bytes (KVIRT_TO_PHYS rx_buf + off) (Z.to_nat n) (rx_mem s)) else ub.
Definition rx_half (off : Z) : R Z := b ← rx_bytes off 2; mret (chr b 0 + 256 * chr b 1).

Definition copy_packet (data_off pkt_len : Z) : R (list Z) :=
  if data_off + pkt_len <=? RX_BUF_SIZE then rx_bytes data_off pkt_len else
  let first := u16 (RX_BUF_LEN - data_off) in
  a ← rx_bytes data_off first; b ← rx_bytes 0 (u16 (pkt_len - first)); mret (a ++ b).

(** The callback gets the packet. *)
Definition deliver (pkt : list Z) : R unit :=
  modify (λ s, with_callback (rx_callback s) (u32 (rx_packets s + 1)) (if rx_callback s then delivered s ++ [pkt] else delivered s) s).

Definition advance_ring (length : Z) : R unit :=
  s ← get;
  let off := u16 (rx_offset s + length + 4) in
  let off := u16 (Z.land (off + 3) (Z.lnot 3)) in
  let off := Z.rem off RX_BUF_LEN in
  put (with_rx (rx_mem s) off s);;
  reg_out RTL_CAPR (u16 (Z.land (off - 16) 0x1FFF)).

Fixpoint rx_loop (fuel : nat) : R unit :=
  cr ← reg_in RTL_CR;
  if negb (Z.land cr 0x01 =? 0) then mret tt else
  match fuel with
  | O => ub
  | S fuel =>
    s ← get;
    let hdr_off := rx_offset s in
    status ← rx_half hdr_off;
    length ← rx_half (hdr_off + 2);
    if (Z.land status 0x01 =? 0) || (length <? 4) || (RX_BUF_LEN + 4 <? length) then mret tt else
    let pkt_len := u16 (length - 4) in
    let data_off := u16 (hdr_off + 4) in
    let pkt_len := if 1514 <? pkt_len then 1514 else pkt_len in
    pkt ← copy_packet data_off pkt_len;
    deliver pkt;;
    advance_ring length;;
    rx_loop fuel
  end.

(** A packet takes at least eight bytes of the ring. *)
Definition rtl8139_rx_poll : R unit := s ← get; if rtl_io s =? 0 then mret tt else rx_loop 1024.

Definition rtl_irq_handler : R unit :=
  s ← get;
  if rtl_io s =? 0 then mret tt else
  isr ← reg_in RTL_ISR;
  if isr =? 0 then mret tt else
  reg_out RTL_ISR isr;;
  if negb (Z.land isr (Z.lor (Z.lor (Z.lor RTL_INT_ROK RTL_INT_RER) RTL_INT_RXOVW) RTL_INT_FOVW) =? 0) then rtl8139_rx_poll else mret tt.

Fixpoint wait_reset (fuel : nat) : R unit :=
  match fuel with
  | O => ub
  | S fuel => v ← reg_in RTL_CR; if negb (Z.land v RTL_CR_RESET =? 0) then wait_reset fuel else mret tt
  end.

Fixpoint read_mac (n : nat) (i : Z) : R (list Z) :=
  match n with O => mret [] | S n => b ← reg_in (RTL_IDR0 + i); bs ← read_mac n (i + 1); mret (b :: bs) end.

(** From the reset on. *)
Definition start_card (fuel : nat) : R unit :=
  reg_out RTL_CONFIG1 0x00;;
  reg_out RTL_CR RTL_CR_RESET;;
  wait_reset fuel;;
  mac ← read_mac 6 0;
  modify (λ s, with_identity (rtl_io s) (rtl_irq s) mac s);;
  reg_out RTL_RBSTART (KVIRT_TO_PHYS rx_buf);;
  modify (λ s, with_rx (rx_mem s) 0 s);;
  reg_out RTL_CAPR 0xFFF0;;
  reg_out RTL_CR (Z.lor RTL_CR_RX_EN RTL_CR_TX_EN);;
  reg_out RTL_RCR (Z.lor (Z.lor (Z.lor RTL_RCR_AB RTL_RCR_APM) RTL_RCR_AM) RTL_RCR_WRAP);;
  reg_out RTL_IMR (Z.lor (Z.lor (Z.lor (Z.lor RTL_INT_ROK RTL_INT_RER) RTL_INT_TOK) RTL_INT_RXOVW) RTL_INT_FOVW).

(** With the bus and the interrupt tables; [handler] is the address of [rtl_irq_handler]. *)
Definition on_nic {A} (m : R A) : M (nic_t * pci_t * cpu_t) A := λ '(s, p, c), '(a, s') ← m s; Some (a, (s', p, c)).
Definition on_pci {A} (m : M pci_t A) : M (nic_t * pci_t * cpu_t) A := λ '(s, p, c), '(a, p') ← m p; Some (a, (s, p', c)).
Definition on_irqs {A} (m : M cpu_t A) : M (nic_t * pci_t * cpu_t) A := λ '(s, p, c), '(a, c') ← m c; Some (a, (s, p, c')).

Definition rtl8139_init (fuel : nat) (handler : Z) (rx_cb : bool) : M (nic_t * pci_t * cpu_t) unit :=
  on_nic (modify (λ s, with_callback rx_cb (rx_packets s) (delivered s) s));;
  '(_, p, _) ← get;
  match pci_find_device RTL_VENDOR_ID RTL_DEVICE_ID p with
  | None => mret tt
  | Some dev =>
    let bar0 := chr (d_bar dev) 0 in
    if Z.land bar0 0x01 =? 0 then mret tt else
    on_nic (modify (λ s, with_identity (Z.land bar0 0xFFFC) (d_irq_line dev) (rtl_mac s) s));;
    on_pci (pci_enable_bus_mastering dev);;
    on_nic (start_card fuel);;
    if negb (d_irq_line dev =? 0) && negb (d_irq_line dev =? 0xFF)
    then on_irqs (register_interrupt_handler (u8 (0x20 + d_irq_line dev)) handler (str "rtl_irq_handler"));; on_irqs (pic_unmask_irq (d_irq_line dev))
    else mret tt
  end.

Definition rtl8139_available (s : nic_t) : bool := negb (rtl_io s =? 0).
Definition rtl8139_get_mac (s : nic_t) : list Z := rtl_mac s.
Definition rtl8139_get_stats (s : nic_t) : Z * Z := (rx_packets s, tx_packets s).
End driver.
