(* ===== verification/RtlSpec.v ===== *)
(** * The card and its driver as two queues of frames

    Received frames reach the callback in the order in which the card has accepted them, each unchanged, and frames that are sent reach the
    wire in order, as long as no more than four of them are waiting. *)

From S2P Require Import Prelude Bytes Paging Cpu CpuSpec Pci Rtl8139.

(** ** Memory *)

Lemma rx_bytes_length a n m : length (get_bytes a n m) = n.
Proof. revert a. induction n as [|n IH]; intros a; cbn; [done|by rewrite IH]. Qed.

Lemma get_bytes_app a n1 n2 m : get_bytes a (n1 + n2) m = get_bytes a n1 m ++ get_bytes (a + Z.of_nat n1) n2 m.
Proof.
  revert a. induction n1 as [|n1 IH]; intros a; cbn [get_bytes Nat.add app]; [by rewrite Z.add_0_r|].
  rewrite IH. do 3 f_equal. lia.
Qed.

Lemma put_bytes_lookup a bs m x : put_bytes a bs m !! x = (if decide (a ≤ x < a + Z.of_nat (length bs)) then bs !! Z.to_nat (x - a) else m !! x).
Proof.
  revert a m. induction bs as [|b bs IH]; intros a m; cbn [put_bytes length]; [rewrite decide_False by lia; done|].
  rewrite IH. destruct (decide (x = a)) as [->|].
  - rewrite decide_False, decide_True by lia. rewrite lookup_insert_eq, Z.sub_diag. done.
  - rewrite lookup_insert_ne by done. destruct (decide (a + 1 ≤ x < a + 1 + Z.of_nat (length bs))).
    + rewrite decide_True by lia. replace (Z.to_nat (x - a)) with (S (Z.to_nat (x - (a + 1)))) by lia. done.
    + by rewrite decide_False by lia.
Qed.

Lemma get_bytes_ext a n m m' : (∀ x, a ≤ x < a + Z.of_nat n → m !! x = m' !! x) → get_bytes a n m = get_bytes a n m'.
Proof. revert a. induction n as [|n IH]; intros a H; cbn [get_bytes]; [done|]. rewrite H by lia. f_equal. apply IH. intros x Hx. apply H. lia. Qed.

Lemma get_put_same a bs m : get_bytes a (length bs) (put_bytes a bs m) = bs.
Proof.
  revert a m. induction bs as [|b bs IH]; intros a m; [done|]. cbn [length get_bytes]. f_equal; [|apply IH].
  rewrite put_bytes_lookup, decide_True by (cbn; lia). by rewrite Z.sub_diag.
Qed.

Lemma get_put_other a n b bs m : a + Z.of_nat n ≤ b ∨ b + Z.of_nat (length bs) ≤ a → get_bytes a n (put_bytes b bs m) = get_bytes a n m.
Proof. intros H. apply get_bytes_ext. intros x Hx. rewrite put_bytes_lookup, decide_False by lia. done. Qed.

(** ** The two queues *)

Record queues := mk_queues { q_ring : list (list Z); q_delivered : list (list Z); q_out : list (list Z); q_wire : list (list Z) }.

Inductive nic_op := NArrive (f : list Z) | NIrq | NPoll | NSend (d : list Z) | NTransmit.

Definition size (f : list Z) : Z := Z.of_nat (length f).
Definition slot (f : list Z) : Z := align4 (size f + 8).
Fixpoint used (fs : list (list Z)) : Z := match fs with [] => 0 | f :: fs => slot f + used fs end.

(** A frame is accepted when the ring is empty or does not become full; [None] when a fifth frame would be sent. *)
Definition q_step (o : nic_op) (q : queues) : option queues :=
  match o with
  | NArrive f => if 1514 <? size f then None else Some (if bool_decide (q_ring q = []) || (used (q_ring q) + slot f <? RX_BUF_LEN) then mk_queues (q_ring q ++ [f]) (q_delivered q) (q_out q) (q_wire q) else q)
  | NIrq | NPoll => Some (mk_queues [] (q_delivered q ++ q_ring q) (q_out q) (q_wire q))
  | NSend d => if TX_BUF_SIZE <? size d then Some q else if (4 <=? length (q_out q))%nat then None else Some (mk_queues (q_ring q) (q_delivered q) (q_out q ++ [d]) (q_wire q))
  | NTransmit => Some (match q_out q with [] => q | d :: ds => mk_queues (q_ring q) (q_delivered q) ds (q_wire q ++ [d]) end)
  end.
Fixpoint q_run (os : list nic_op) (q : queues) : option queues := match os with [] => Some q | o :: os => q ← q_step o q; q_run os q end.

Section spec.
Context (rx_buf tx_buf : Z) (reset_time : nat) (crc : list Z → Z).

Definition nic_step (o : nic_op) : M nic_t unit :=
  match o with
  | NArrive f => card_receive crc f
  | NIrq => rtl_irq_handler rx_buf reset_time
  | NPoll => rtl8139_rx_poll rx_buf reset_time
  | NSend d => rtl8139_send tx_buf reset_time d
  | NTransmit => card_transmit
  end.
Fixpoint nic_run (os : list nic_op) : M nic_t unit := match os with [] => mret tt | o :: os => nic_step o;; nic_run os end.

(** ** The invariant *)

Definition packet (f : list Z) : list Z := le16 1 ++ le16 (size f + 4) ++ f ++ le32 (crc f).
Notation rx_base := (KVIRT_TO_PHYS rx_buf).
Notation tx_base := (KVIRT_TO_PHYS tx_buf).

(** The frames in the ring from position [a] on, which counts the bytes from the start. *)
Fixpoint stored (m : gmap Z Z) (a : Z) (fs : list (list Z)) : Prop :=
  match fs with
  | [] => True
  | f :: fs => get_bytes (rx_base + a mod RX_BUF_LEN) (length (packet f)) m = packet f ∧ stored m (a + slot f) fs
  end.

Record rx_inv (q : queues) (s : nic_t) : Prop := {
  ri_io : rtl_io s ≠ 0;
  ri_cr : cd_cr (card s) = 0x0C;
  ri_reset : cd_resetting (card s) = 0%nat;
  ri_base : cd_rbstart (card s) = rx_base;
  ri_callback : rx_callback s = true;
  ri_delivered : delivered s = q_delivered q;
  ri_ring : ∃ a, 0 ≤ a ∧ a mod 4 = 0 ∧ rx_offset s = a mod RX_BUF_LEN ∧ cd_read (card s) = a mod RX_BUF_LEN ∧
    cd_write (card s) = (a + used (q_ring q)) mod RX_BUF_LEN ∧ stored (rx_mem s) a (q_ring q);
  ri_used : used (q_ring q) < RX_BUF_LEN;
  ri_sizes : Forall (λ f, size f ≤ 1514) (q_ring q)
}.

(** The [i]th frame that was sent is in buffer [i mod 4] until it is on the wire. *)
Definition in_buffer (s : nic_t) (i : Z) (d : list Z) : Prop :=
  zlookup (cd_tsad (card s)) (i mod 4) = Some (tx_base + i mod 4 * TX_BUF_SIZE) ∧ zlookup (cd_tsd (card s)) (i mod 4) = Some (size d) ∧
  get_bytes (tx_base + i mod 4 * TX_BUF_SIZE) (length d) (tx_mem s) = d ∧ size d ≤ TX_BUF_SIZE.
Fixpoint waiting (s : nic_t) (i : Z) (ds : list (list Z)) : Prop :=
  match ds with [] => True | d :: ds => in_buffer s i d ∧ waiting s (i + 1) ds end.

Record tx_inv (q : queues) (s : nic_t) : Prop := {
  ti_regs : length (cd_tsad (card s)) = 4%nat ∧ length (cd_tsd (card s)) = 4%nat;
  ti_wire : cd_wire (card s) = q_wire q;
  ti_room : (length (q_out q) ≤ 4)%nat;
  ti_out : ∃ i, 0 ≤ i ∧ tx_cur s = (i + Z.of_nat (length (q_out q))) mod 4 ∧
    cd_started (card s) = (λ j, j mod 4) <$> seqZ i (Z.of_nat (length (q_out q))) ∧ waiting s i (q_out q)
}.

Definition signalled (q : queues) (s : nic_t) : Prop := q_ring q ≠ [] → Z.land (cd_isr (card s)) 0x53 ≠ 0.
Record nic_inv (q : queues) (s : nic_t) : Prop := { ni_rx : rx_inv q s; ni_tx : tx_inv q s; ni_isr : signalled q s }.

(** ** Arithmetic of the ring *)

Lemma align4_spec x : x ≤ align4 x < x + 4 ∧ align4 x mod 4 = 0.
Proof. unfold align4. split; [Z.div_mod_to_equations; lia|]. by rewrite Z.mod_mul. Qed.
Lemma align4_add a x : a mod 4 = 0 → align4 (a + x) = a + align4 x.
Proof. unfold align4. intros H. Z.div_mod_to_equations. lia. Qed.
Lemma slot_bounds f : size f ≤ 1514 → 8 ≤ slot f ≤ 1524 ∧ size f + 8 ≤ slot f ∧ slot f mod 4 = 0.
Proof. intros H. unfold slot. destruct (align4_spec (size f + 8)) as [H1 H2]. unfold size in *. split; [|split; [lia|done]]. unfold align4 in *. Z.div_mod_to_equations. lia. Qed.
Lemma used_nonneg fs : Forall (λ f, size f ≤ 1514) fs → 0 ≤ used fs ∧ used fs mod 4 = 0 ∧ 8 * Z.of_nat (length fs) ≤ used fs.
Proof.
  induction 1 as [|f fs Hf _ (H1 & H2 & H3)]; [done|]. destruct (slot_bounds f Hf) as (S1 & _ & S2). cbn [used length]. split; [lia|]. split; [|lia].
  rewrite Z.add_mod, H2, S2 by lia. done.
Qed.
Lemma used_app fs gs : used (fs ++ gs) = used fs + used gs.
Proof. induction fs as [|f fs IH]; [done|]. cbn [used app]. lia. Qed.
Lemma packet_length f : Z.of_nat (length (packet f)) = size f + 8.
Proof. unfold packet, size. rewrite !length_app. cbn [length le16 le32]. lia. Qed.

(** ** Arrival *)

(** A position beyond the frames, less than a ring away from the first, does not share bytes with them. *)
Lemma apart a w n k : a + n ≤ w → w + k ≤ a + RX_BUF_LEN → 0 ≤ n → 0 ≤ k → 
  rx_base + a mod RX_BUF_LEN + n ≤ rx_base + w mod RX_BUF_LEN ∨ rx_base + w mod RX_BUF_LEN + k ≤ rx_base + a mod RX_BUF_LEN.
Proof.
  unfold RX_BUF_LEN. intros H1 H2 H3 H4. pose proof (Z.div_mod a 8192). pose proof (Z.div_mod w 8192).
  pose proof (Z.mod_pos_bound a 8192). pose proof (Z.mod_pos_bound w 8192).
  assert (w / 8192 = a / 8192 ∨ w / 8192 = a / 8192 + 1) as [E|E] by lia; rewrite E in *; lia.
Qed.

Lemma stored_put m r a fs w bs : Forall (λ f, size f ≤ 1514) fs → r ≤ a → a + used fs ≤ w → w + Z.of_nat (length bs) ≤ r + RX_BUF_LEN →
  stored m a fs → stored (put_bytes (rx_base + w mod RX_BUF_LEN) bs m) a fs.
Proof.
  intros Hf. revert a. induction Hf as [|f fs Hf Hfs IH]; intros a H1 H2 H3; [done|]. intros [E H]. cbn [used] in H2.
  destruct (slot_bounds f Hf) as (S1 & S2 & _). destruct (used_nonneg fs Hfs) as [U _]. split.
  - rewrite get_put_other; [done|]. rewrite packet_length. apply apart; [lia|lia|unfold size; lia|lia].
  - apply IH; [lia|lia|done|done].
Qed.

Lemma stored_snoc m a fs f : stored m a fs → get_bytes (rx_base + (a + used fs) mod RX_BUF_LEN) (length (packet f)) m = packet f → stored m a (fs ++ [f]).
Proof.
  revert a. induction fs as [|g fs IH]; intros a; cbn [used app stored].
  - rewrite Z.add_0_r. done.
  - intros [E H] E'. split; [done|]. apply IH; [done|]. by rewrite <- Z.add_assoc.
Qed.

Lemma ring_free a u : 0 ≤ u < RX_BUF_LEN → (a mod RX_BUF_LEN - (a + u) mod RX_BUF_LEN) mod RX_BUF_LEN = if u =? 0 then 0 else RX_BUF_LEN - u.
Proof.
  unfold RX_BUF_LEN. intros H. rewrite <- Zminus_mod. replace (a - (a + u)) with (- u) by lia.
  destruct (Z.eqb_spec u 0) as [->|]; [done|]. rewrite Z.mod_opp_l_nz by (rewrite ?Z.mod_small; lia). rewrite Z.mod_small; lia.
Qed.

Lemma used_zero fs : Forall (λ f, size f ≤ 1514) fs → used fs = 0 ↔ fs = [].
Proof. intros H. destruct (used_nonneg fs H) as (_ & _ & U). split; [|by intros ->]. destruct fs; [done|cbn [length] in U; lia]. Qed.

Lemma isr_grows v b : Z.land (Z.lor v b) 0x53 = Z.lor (Z.land v 0x53) (Z.land b 0x53).
Proof. apply Z.land_lor_distr_l. Qed.
Lemma isr_set v b : Z.land b 0x53 ≠ 0 → Z.land (Z.lor v b) 0x53 ≠ 0.
Proof. rewrite isr_grows. intros H [_ E]%Z.lor_eq_0_iff. done. Qed.
Lemma isr_kept v b : Z.land v 0x53 ≠ 0 → Z.land (Z.lor v b) 0x53 ≠ 0.
Proof. rewrite isr_grows. intros H [E _]%Z.lor_eq_0_iff. done. Qed.

Lemma waiting_ext s s' i ds : tx_mem s' = tx_mem s → cd_tsad (card s') = cd_tsad (card s) → cd_tsd (card s') = cd_tsd (card s) → waiting s i ds → waiting s' i ds.
Proof.
  intros E1 E2 E3. revert i. induction ds as [|d ds IH]; intros i; [done|]. cbn [waiting]. unfold in_buffer. rewrite E1, E2, E3. intros [H H']. split; [done|by apply IH].
Qed.

(** The transmit side does not depend on the rest. *)
Lemma tx_inv_ext q q' s s' : tx_inv q s → q_out q' = q_out q → q_wire q' = q_wire q → tx_mem s' = tx_mem s → tx_cur s' = tx_cur s →
  cd_tsad (card s') = cd_tsad (card s) → cd_tsd (card s') = cd_tsd (card s) → cd_started (card s') = cd_started (card s) → cd_wire (card s') = cd_wire (card s) → tx_inv q' s'.
Proof.
  intros [H1 H2 H3 (i & H4 & H5 & H6 & H7)] E1 E2 E3 E4 E5 E6 E7 E8. split; rewrite ?E1, ?E2, ?E5, ?E6, ?E8; try done.
  exists i. rewrite E4, E7. split; [done|]. split; [done|]. split; [done|]. by apply (waiting_ext s).
Qed.

Lemma mod_mod_4 x : (x mod RX_BUF_LEN) mod 4 = x mod 4.
Proof. unfold RX_BUF_LEN. Z.div_mod_to_equations. lia. Qed.

Lemma arrive_ok f q s q' : nic_inv q s → q_step (NArrive f) q = Some q' → ∃ s', card_receive crc f s = Some (tt, s') ∧ nic_inv q' s'.
Proof.
  intros [Hr Ht Hi] Hq. cbn [q_step] in Hq. destruct (Z.ltb_spec 1514 (size f)) as [|Hf]; [done|]. injection Hq as <-.
  destruct Hr as [H1 H2 H3 H4 H5 H6 (a & A1 & A2 & A3 & A4 & A5 & A6) H8 H9].
  destruct (slot_bounds f Hf) as (S1 & S2 & S3). destruct (used_nonneg _ H9) as (U1 & U2 & U3). pose proof (used_zero _ H9) as U0.
  unfold card_receive, modify. rewrite H2, A4, A5. cbn [Z.land]. change (Z.land 12 RTL_CR_RX_EN =? 0) with false. cbn iota.
  rewrite ring_free by done. fold (size f) (slot f). eexists. split; [done|].
  assert (Ed : bool_decide (q_ring q = []) = (used (q_ring q) =? 0)).
  { destruct (Z.eqb_spec (used (q_ring q)) 0); [apply bool_decide_eq_true|apply bool_decide_eq_false]; tauto. }
  rewrite Ed. clear Ed.
  set (w := a + used (q_ring q)) in *.
  assert (Ec : (negb ((if used (q_ring q) =? 0 then 0 else RX_BUF_LEN - used (q_ring q)) =? 0) && ((if used (q_ring q) =? 0 then 0 else RX_BUF_LEN - used (q_ring q)) <=? slot f)) =
               negb ((used (q_ring q) =? 0) || (used (q_ring q) + slot f <? RX_BUF_LEN))).
  { destruct (Z.eqb_spec (used (q_ring q)) 0) as [E0|E0]; [done|]. rewrite (proj2 (Z.eqb_neq (RX_BUF_LEN - _) 0)) by lia. cbn [negb andb orb].
    destruct (Z.leb_spec (RX_BUF_LEN - used (q_ring q)) (slot f)), (Z.ltb_spec (used (q_ring q) + slot f) RX_BUF_LEN); done || lia. }
  rewrite Ec. clear Ec.
  destruct ((used (q_ring q) =? 0) || (used (q_ring q) + slot f <? RX_BUF_LEN)) eqn:Ea; cbn [negb].
  - assert (Hu : used (q_ring q) + slot f < RX_BUF_LEN).
    { apply orb_true_iff in Ea as [E%Z.eqb_eq|E%Z.ltb_lt]; [|done]. unfold RX_BUF_LEN. lia. }
    rewrite H4. split; [split; try done|by apply (tx_inv_ext q _ s)|intros _; by apply isr_set].
    + exists a. cbn [q_ring card with_card cd_read cd_write set_ring rx_mem with_rx rx_offset]. split; [done|]. split; [done|]. split; [done|]. split; [done|]. split.
      * rewrite used_app. cbn [used]. rewrite <- Z.add_assoc, align4_add by (unfold w; rewrite mod_mod_4, Z.add_mod, A2, U2; done). fold (slot f).
        rewrite Zplus_mod_idemp_l. f_equal. lia.
      * fold (packet f). apply stored_snoc; [|apply get_put_same]. apply (stored_put _ a); try done. rewrite packet_length. lia.
    + cbn [q_ring]. rewrite used_app. cbn [used]. lia.
    + cbn [q_ring]. by apply Forall_app_2, Forall_singleton.
  - split; [split; try done|by apply (tx_inv_ext q _ s)|intros _; by apply isr_set]. by exists a.
Qed.

(** ** Reading the ring *)

Lemma packet_parts b o f m : get_bytes (b + o) (length (packet f)) m = packet f →
  get_bytes (b + o) 2 m = le16 1 ∧ get_bytes (b + (o + 2)) 2 m = le16 (size f + 4) ∧ get_bytes (b + (o + 4)) (length f) m = f.
Proof.
  unfold packet. rewrite !length_app. change (length (le16 1)) with 2%nat. change (length (le16 (size f + 4))) with 2%nat.
  rewrite !get_bytes_app. change (Z.of_nat 2) with 2. intros E.
  apply app_inj_1 in E as [E1 E]; [|by rewrite rx_bytes_length]. apply app_inj_1 in E as [E2 E]; [|by rewrite rx_bytes_length].
  apply app_inj_1 in E as [E3 _]; [|by rewrite rx_bytes_length].
  replace (b + (o + 2)) with (b + o + 2) by lia. replace (b + (o + 4)) with (b + o + 2 + 2) by lia. done.
Qed.

Lemma le16_value x : 0 ≤ x < 65536 → chr (le16 x) 0 + 256 * chr (le16 x) 1 = x.
Proof. intros H. unfold le16, chr. cbn. rewrite (Z.mod_small (x / 256)) by (split; [apply Z.div_pos; lia|apply Z.div_lt_upper_bound; lia]). pose proof (Z.div_mod x 256). lia. Qed.

Lemma rx_bytes_ok off n s : 0 ≤ off → off + n ≤ RX_BUF_SIZE → rx_bytes rx_buf off n s = Some (get_bytes (rx_base + off) (Z.to_nat n) (rx_mem s), s).
Proof. intros H1 H2. unfold rx_bytes, mbind, M_bind, get. by rewrite (proj2 (Z.leb_le 0 off)), (proj2 (Z.leb_le _ RX_BUF_SIZE)). Qed.

Lemma rx_half_ok off x s : 0 ≤ off → off + 2 ≤ RX_BUF_SIZE → 0 ≤ x < 65536 → get_bytes (rx_base + off) 2 (rx_mem s) = le16 x → rx_half rx_buf off s = Some (x, s).
Proof. intros H1 H2 H3 E. unfold rx_half, mbind, M_bind. rewrite rx_bytes_ok by done. change (Z.to_nat 2) with 2%nat. rewrite E. unfold mret, M_ret. by rewrite le16_value. Qed.

Lemma reg_cr s : cd_cr (card s) = 0x0C → cd_resetting (card s) = 0%nat →
  reg_in RTL_CR s = Some (if cd_read (card s) =? cd_write (card s) then 0x0D else 0x0C, s).
Proof.
  destruct s as [? ? ? ? ? ? ? ? ? ? ? k], k. cbn. intros -> ->. unfold reg_in, mbind, M_bind, get, put, card_read. cbn. destruct (_ =? _); done.
Qed.

Lemma advance_offset o n : 0 ≤ o < RX_BUF_LEN → o mod 4 = 0 → 0 ≤ n ≤ 1514 →
  Z.rem (u16 (Z.land (u16 (o + (n + 4) + 4) + 3) (Z.lnot 3))) RX_BUF_LEN = (o + align4 (n + 8)) mod RX_BUF_LEN.
Proof.
  unfold RX_BUF_LEN. intros Ho Hm Hn. rewrite (u16_small (o + (n + 4) + 4)) by (unfold is_u16; lia).
  change (Z.lnot 3) with (Z.lnot (Z.ones 2)). rewrite <- Z.ldiff_land, Z.ldiff_ones_r by lia. rewrite Z.shiftl_mul_pow2, Z.shiftr_div_pow2 by lia. change (2 ^ 2) with 4.
  replace ((o + (n + 4) + 4 + 3) / 4 * 4) with (o + align4 (n + 8)) by (rewrite <- align4_add by done; unfold align4; do 2 f_equal; lia).
  pose proof (align4_spec (n + 8)). rewrite u16_small by (unfold is_u16; lia). apply Z.rem_mod_nonneg; lia.
Qed.

Lemma capr_value o : 0 ≤ o < RX_BUF_LEN → (u16 (Z.land (o - 16) 0x1FFF) + 16) mod RX_BUF_LEN = o.
Proof.
  unfold RX_BUF_LEN. intros H. change 0x1FFF with (Z.ones 13). rewrite Z.land_ones by lia. change (2 ^ 13) with 8192.
  rewrite u16_small by (pose proof (Z.mod_pos_bound (o - 16) 8192); unfold is_u16; lia). rewrite Zplus_mod_idemp_l. replace (o - 16 + 16) with o by lia. by apply Z.mod_small.
Qed.

(** The parts that reading does not touch. *)
Definition same_tx (s s' : nic_t) : Prop :=
  tx_mem s' = tx_mem s ∧ tx_cur s' = tx_cur s ∧ cd_tsad (card s') = cd_tsad (card s) ∧ cd_tsd (card s') = cd_tsd (card s) ∧ cd_started (card s') = cd_started (card s) ∧
  cd_wire (card s') = cd_wire (card s) ∧ cd_isr (card s') = cd_isr (card s).
#[local] Instance same_tx_preorder : PreOrder same_tx.
Proof. split; [by intros s|]. intros a b c. unfold same_tx. intuition congruence. Qed.

Definition after_packet (off : Z) (f : list Z) (s : nic_t) : nic_t :=
  with_card (set_ring (cd_rbstart (card s)) off (cd_write (card s)) (card s))
    (with_rx (rx_mem s) off (with_callback true (u32 (rx_packets s + 1)) (delivered s ++ [f]) s)).

Lemma rx_loop_packet fuel s a f : rx_callback s = true → cd_cr (card s) = 0x0C → cd_resetting (card s) = 0%nat → cd_read (card s) ≠ cd_write (card s) → rx_offset s = a mod RX_BUF_LEN → a mod 4 = 0 → size f ≤ 1514 →
  get_bytes (rx_base + a mod RX_BUF_LEN) (length (packet f)) (rx_mem s) = packet f →
  rx_loop rx_buf reset_time (S fuel) s = rx_loop rx_buf reset_time fuel (after_packet ((a + slot f) mod RX_BUF_LEN) f s).
Proof.
  intros Hc H2 H3 Hne Ho Ha Hf E. apply packet_parts in E as (E1 & E2 & E3). pose proof (Z.mod_pos_bound a RX_BUF_LEN eq_refl) as Hb. unfold RX_BUF_LEN in Hb.
  assert (a mod 8192 ≤ 8188) by (Z.div_mod_to_equations; lia).
  assert (Hn : 0 ≤ size f) by (unfold size; lia).
  cbn [rx_loop]. unfold mbind at 1, M_bind at 1. rewrite reg_cr by done. rewrite (proj2 (Z.eqb_neq _ _) Hne). change (negb (Z.land 12 1 =? 0)) with false. cbn iota.
  unfold mbind, M_bind. cbn [get]. rewrite Ho. rewrite (rx_half_ok _ 1) by (try done; unfold RX_BUF_SIZE, RX_BUF_LEN, RX_BUF_PAD; lia).
  rewrite (rx_half_ok _ (size f + 4)) by (try done; unfold RX_BUF_SIZE, RX_BUF_LEN, RX_BUF_PAD; lia).
  rewrite (proj2 (Z.ltb_ge (size f + 4) 4)), (proj2 (Z.ltb_ge (RX_BUF_LEN + 4) (size f + 4))) by (unfold RX_BUF_LEN; lia).
  change (Z.land 1 1 =? 0) with false. cbn [orb].
  rewrite (u16_small (size f + 4 - 4)), (u16_small (a mod RX_BUF_LEN + 4)) by (unfold is_u16, RX_BUF_LEN; lia).
  replace (size f + 4 - 4) with (size f) by lia. rewrite (proj2 (Z.ltb_ge 1514 (size f))) by lia.
  unfold copy_packet. rewrite (proj2 (Z.leb_le _ RX_BUF_SIZE)) by (unfold RX_BUF_SIZE, RX_BUF_LEN, RX_BUF_PAD; lia).
  rewrite rx_bytes_ok by (unfold RX_BUF_SIZE, RX_BUF_LEN, RX_BUF_PAD; lia). unfold size at 1. rewrite Nat2Z.id, E3.
  unfold deliver, modify, advance_ring, mbind, M_bind, get, put. cbn [rx_offset with_callback]. rewrite Ho.
  rewrite advance_offset by (rewrite ?mod_mod_4; unfold RX_BUF_LEN; try done; lia). fold (slot f). rewrite Zplus_mod_idemp_l.
  unfold reg_out, modify, card_write. cbn. rewrite capr_value by (apply Z.mod_pos_bound; done). unfold after_packet. rewrite Hc. done.
Qed.

Definition drained (q : queues) : queues := mk_queues [] (q_delivered q ++ q_ring q) (q_out q) (q_wire q).

Lemma ring_differs a u : 0 < u < RX_BUF_LEN → a mod RX_BUF_LEN ≠ (a + u) mod RX_BUF_LEN.
Proof. unfold RX_BUF_LEN. intros H. Z.div_mod_to_equations. lia. Qed.

Lemma rx_loop_ok fuel q s : rx_inv q s → (length (q_ring q) ≤ fuel)%nat →
  ∃ s', rx_loop rx_buf reset_time fuel s = Some (tt, s') ∧ rx_inv (drained q) s' ∧ same_tx s s'.
Proof.
  revert q s. induction fuel as [|fuel IH]; intros q s Hq Hl.
  all: pose proof Hq as [H1 H2 H3 H4 H5 H6 (a & A1 & A2 & A3 & A4 & A5 & A6) H8 H9].
  all: destruct (q_ring q) as [|f fs] eqn:Eq; [|cbn [length] in Hl; try lia].
  1,2: exists s; cbn [used] in A5; rewrite Z.add_0_r in A5; cbn [rx_loop]; unfold mbind at 1, M_bind at 1; rewrite reg_cr by done; rewrite A4, A5, Z.eqb_refl;
    (split; [done|]); (split; [|done]); unfold drained; rewrite Eq, app_nil_r; split; try done; exists a; cbn [q_ring used]; by rewrite Z.add_0_r.
  apply Forall_cons in H9 as [Hf H9]. destruct A6 as [E A6]. destruct (slot_bounds f Hf) as (S1 & S2 & S3). destruct (used_nonneg fs H9) as (U1 & _ & _). cbn [used] in A5, H8.
  rewrite (rx_loop_packet fuel s a f); try done; [|rewrite A4, A5; apply ring_differs; lia].
  destruct (IH (mk_queues fs (q_delivered q ++ [f]) (q_out q) (q_wire q)) (after_packet ((a + slot f) mod RX_BUF_LEN) f s)) as (s' & E' & R & T).
  - split; try done; cbn; [by rewrite H6| |lia]. exists (a + slot f). split; [lia|]. split; [by rewrite Z.add_mod, A2, S3|]. split; [done|]. split; [done|]. split; [by rewrite A5, Z.add_assoc|done].
  - cbn [q_ring]. lia.
  - exists s'. split; [done|]. split; [|by etransitivity; [|exact T]]. unfold drained in *. cbn [q_delivered q_ring q_out q_wire] in R. rewrite Eq.
    by rewrite <- (assoc_L (++)) in R.
Qed.

Lemma rx_poll_ok q s : rx_inv q s → ∃ s', rtl8139_rx_poll rx_buf reset_time s = Some (tt, s') ∧ rx_inv (drained q) s' ∧ same_tx s s'.
Proof.
  intros H. unfold rtl8139_rx_poll, mbind, M_bind, get. rewrite (proj2 (Z.eqb_neq _ _) (ri_io _ _ H)). apply rx_loop_ok; [done|].
  destruct (used_nonneg _ (ri_sizes _ _ H)) as (_ & _ & U). pose proof (ri_used _ _ H). unfold RX_BUF_LEN in *. lia.
Qed.

Lemma same_tx_inv q q' s s' : same_tx s s' → q_out q' = q_out q → q_wire q' = q_wire q → tx_inv q s → tx_inv q' s'.
Proof. intros (E1 & E2 & E3 & E4 & E5 & E6 & _) Q1 Q2 H. by apply (tx_inv_ext q _ s). Qed.

Lemma irq_ok q s : nic_inv q s → ∃ s', rtl_irq_handler rx_buf reset_time s = Some (tt, s') ∧ nic_inv (drained q) s'.
Proof.
  intros [Hr Ht Hi]. unfold rtl_irq_handler, mbind, M_bind, get. rewrite (proj2 (Z.eqb_neq _ _) (ri_io _ _ Hr)).
  assert (Er : reg_in RTL_ISR s = Some (cd_isr (card s), s)) by (by destruct s). rewrite Er. change (Z.lor _ RTL_INT_FOVW) with 0x53.
  assert (Hd : q_ring q = [] → drained q = q).
  { intros E. unfold drained. rewrite E, app_nil_r, <- E. by destruct q. }
  destruct (Z.eqb_spec (cd_isr (card s)) 0) as [E0|E0].
  { exists s. split; [done|]. rewrite Hd; [done|]. destruct (decide (q_ring q = [])) as [|Hne]; [done|]. specialize (Hi Hne). by rewrite E0 in Hi. }
  set (s1 := with_card (set_ints (cd_imr (card s)) (Z.ldiff (cd_isr (card s)) (cd_isr (card s))) (card s)) s).
  change (reg_out reset_time RTL_ISR (cd_isr (card s)) s) with (Some (tt, s1)). cbn iota.
  assert (Hr1 : rx_inv q s1) by (by destruct Hr). assert (Ht1 : tx_inv q s1) by (by apply (tx_inv_ext q _ s)).
  destruct (Z.eqb_spec (Z.land (cd_isr (card s)) 0x53) 0) as [E1|E1]; cbn [negb].
  - assert (Hq : q_ring q = []) by (destruct (decide (q_ring q = [])) as [|Hne]; [done|by specialize (Hi Hne)]).
    exists s1. split; [done|]. rewrite Hd by done. split; try done. intros Hne. done.
  - destruct (rx_poll_ok q s1 Hr1) as (s' & E & R & T). exists s'. split; [done|]. split; [done|by apply (same_tx_inv q _ s1)|by intros []].
Qed.

(** ** Sending *)

Lemma write_tsad idx v k : 0 ≤ idx < 4 → card_write reset_time (RTL_TSAD0 + idx * 4) v k = set_tx (default (cd_tsad k) (zupdate (cd_tsad k) idx v)) (cd_tsd k) (cd_started k) (cd_wire k) k.
Proof. intros H. assert (idx = 0 ∨ idx = 1 ∨ idx = 2 ∨ idx = 3) as [->|[->|[->| ->]]] by lia; done. Qed.
Lemma write_tsd idx v k : 0 ≤ idx < 4 → 0 ≤ v < 0x2000 →
  card_write reset_time (RTL_TSD0 + idx * 4) v k = set_tx (cd_tsad k) (default (cd_tsd k) (zupdate (cd_tsd k) idx v)) (cd_started k ++ [idx]) (cd_wire k) k.
Proof.
  intros H Hv. assert (Ev : Z.land v 0x1FFF = v) by (change 0x1FFF with (Z.ones 13); rewrite Z.land_ones by lia; by apply Z.mod_small).
  rewrite <- Ev at 2. assert (idx = 0 ∨ idx = 1 ∨ idx = 2 ∨ idx = 3) as [->|[->|[->| ->]]] by lia; done.
Qed.

Context (Htx : KERNEL_VIRTUAL_BASE ≤ tx_buf ∧ tx_buf + 4 * TX_BUF_SIZE ≤ 2 ^ 32).

Lemma tx_address idx : 0 ≤ idx < 4 → KVIRT_TO_PHYS (tx_buf + idx * TX_BUF_SIZE) = tx_base + idx * TX_BUF_SIZE.
Proof. intros H. unfold KVIRT_TO_PHYS, KERNEL_VIRTUAL_BASE, TX_BUF_SIZE in *. rewrite !u32_small by (unfold is_u32; lia). lia. Qed.

Definition after_send (idx : Z) (d : list Z) (s : nic_t) : nic_t :=
  with_card (set_tx (<[Z.to_nat idx := tx_base + idx * TX_BUF_SIZE]> (cd_tsad (card s))) (<[Z.to_nat idx := size d]> (cd_tsd (card s))) (cd_started (card s) ++ [idx]) (cd_wire (card s)) (card s))
    (with_tx (put_bytes (tx_base + idx * TX_BUF_SIZE) d (tx_mem s)) ((idx + 1) mod 4) (u32 (tx_packets s + 1)) s).

Lemma send_eq d s : rtl_io s ≠ 0 → size d ≤ TX_BUF_SIZE → 0 ≤ tx_cur s < 4 → length (cd_tsad (card s)) = 4%nat → length (cd_tsd (card s)) = 4%nat →
  rtl8139_send tx_buf reset_time d s = Some (tt, after_send (tx_cur s) d s).
Proof.
  intros H1 H2 H3 L1 L2. unfold rtl8139_send, mbind, M_bind, get. fold (size d). rewrite (proj2 (Z.eqb_neq _ _) H1), (proj2 (Z.ltb_ge _ _) H2). cbn [orb].
  unfold TX_DESC_COUNT. rewrite Z.rem_small by lia. rewrite tx_address by done. unfold put, reg_out, modify. cbn [card with_tx with_card].
  rewrite write_tsad by done. cbn [card with_card]. rewrite write_tsd by (unfold size, TX_BUF_SIZE in *; lia).
  cbn [cd_tsad cd_tsd cd_started cd_wire set_tx tx_cur with_card with_tx tx_mem tx_packets]. rewrite !zupdate_Some by (rewrite ?L1, ?L2; lia). cbn [default].
  rewrite Z.rem_mod_nonneg by lia. done.
Qed.

Lemma other_buffer s idx d i e : 0 ≤ idx < 4 → i mod 4 ≠ idx → size d ≤ TX_BUF_SIZE → in_buffer s i e → in_buffer (after_send idx d s) i e.
Proof.
  intros Hi Hne Hd (H1 & H2 & H3 & H4). pose proof (Z.mod_pos_bound i 4). unfold in_buffer, after_send. cbn [card with_card cd_tsad cd_tsd set_tx tx_mem with_tx].
  rewrite !zlookup_nonneg in * by lia. rewrite !list_lookup_insert_ne by lia. split; [done|]. split; [done|]. split; [|done].
  rewrite get_put_other; [done|]. unfold size, TX_BUF_SIZE in *. lia.
Qed.

Lemma others_wait s idx d i ds : 0 ≤ idx < 4 → size d ≤ TX_BUF_SIZE → (∀ j, i ≤ j < i + Z.of_nat (length ds) → j mod 4 ≠ idx) → waiting s i ds → waiting (after_send idx d s) i ds.
Proof.
  intros Hi Hd. revert i. induction ds as [|e ds IH]; intros i Hj; [done|]. cbn [length] in Hj. intros [H1 H2].
  split; [apply other_buffer; try done; apply Hj; lia|]. apply IH; [|done]. intros j Hjj. apply Hj. lia.
Qed.

Lemma waiting_snoc s i ds d : waiting s i ds → in_buffer s (i + Z.of_nat (length ds)) d → waiting s i (ds ++ [d]).
Proof.
  revert i. induction ds as [|e ds IH]; intros i; cbn [waiting app length]; [by rewrite Z.add_0_r|]. intros [H1 H2] H3. split; [done|].
  apply IH; [done|]. by replace (i + 1 + Z.of_nat (length ds)) with (i + Z.of_nat (S (length ds))) by lia.
Qed.

Lemma send_ok d q s q' : nic_inv q s → q_step (NSend d) q = Some q' → ∃ s', rtl8139_send tx_buf reset_time d s = Some (tt, s') ∧ nic_inv q' s'.
Proof.
  intros [Hr Ht Hi] Hq. cbn [q_step] in Hq. destruct (Z.ltb_spec TX_BUF_SIZE (size d)) as [Hd|Hd].
  { injection Hq as <-. exists s. split; [|done]. unfold rtl8139_send, mbind, M_bind, get. fold (size d). rewrite (proj2 (Z.ltb_lt _ _) Hd), orb_true_r. done. }
  destruct (Nat.leb_spec 4 (length (q_out q))) as [|Hl]; [done|]. injection Hq as <-.
  destruct Ht as [[L1 L2] T2 _ (i & I1 & I2 & I3 & I4)]. set (n := Z.of_nat (length (q_out q))) in *.
  assert (Hc : 0 ≤ tx_cur s < 4) by (rewrite I2; apply Z.mod_pos_bound; lia).
  rewrite send_eq by (try done; apply Hr). eexists. split; [done|]. split; [by destruct Hr| |done].
  split; cbn [q_wire q_out card after_send with_card cd_tsad cd_tsd set_tx cd_wire]; [by rewrite !length_insert|done|rewrite length_app; cbn [length]; lia|].
  exists i. split; [done|]. rewrite length_app. cbn [length]. replace (Z.of_nat (length (q_out q) + 1)) with (n + 1) by lia. split; [|split].
  - cbn [tx_cur with_card after_send with_tx]. rewrite I2, Zplus_mod_idemp_l. f_equal. lia.
  - cbn [cd_started set_tx]. rewrite I3. rewrite seqZ_app by lia. rewrite fmap_app. f_equal. cbn. by rewrite I2.
  - fold (after_send (tx_cur s) d s). apply waiting_snoc.
    + apply others_wait; try done. intros j Hj. rewrite I2. fold n in Hj. Z.div_mod_to_equations. lia.
    + fold n. unfold in_buffer. rewrite <- I2. cbn [card after_send with_card cd_tsad cd_tsd set_tx tx_mem with_tx].
      rewrite !zlookup_nonneg, !list_lookup_insert_eq, get_put_same by lia. done.
Qed.

Lemma transmit_ok q s q' : nic_inv q s → q_step NTransmit q = Some q' → ∃ s', card_transmit s = Some (tt, s') ∧ nic_inv q' s'.
Proof.
  intros [Hr Ht Hi] [= <-]. destruct Ht as [L T2 T3 (i & I1 & I2 & I3 & I4)]. unfold card_transmit, modify.
  destruct (q_out q) as [|d ds] eqn:Eo; cbn [length] in *.
  - rewrite I3. cbn. exists s. split; [done|]. split; try done. split; try done; rewrite Eo; [done|]. exists i. by rewrite I3.
  - rewrite seqZ_cons in I3 by lia. rewrite I3. cbn [fmap list_fmap]. destruct I4 as [(B1 & B2 & B3 & B4) I4]. rewrite B1, B2. cbn [default].
    assert (En : Z.to_nat (size d) = length d) by (unfold size; lia). unfold id. rewrite En, B3. eexists. split; [done|]. split; [by destruct Hr| |intros Hne; by apply isr_kept, Hi].
    split; cbn; [done|by rewrite T2|lia|]. exists (i + 1). split; [lia|]. split; [rewrite I2; f_equal; lia|]. split; [|by apply (waiting_ext s)].
    replace (Z.succ i) with (i + 1) by lia. by replace (Z.pred (Z.of_nat (S (length ds)))) with (Z.of_nat (length ds)) by lia.
Qed.

(** ** Any sequence *)

Lemma step_ok o q s q' : nic_inv q s → q_step o q = Some q' → ∃ s', nic_step o s = Some (tt, s') ∧ nic_inv q' s'.
Proof.
  intros H Hq. destruct o as [f| | |d|]; cbn [nic_step].
  - by apply (arrive_ok f q).
  - injection Hq as <-. by apply irq_ok.
  - injection Hq as <-. destruct H as [Hr Ht Hi]. destruct (rx_poll_ok q s Hr) as (s' & E & R & T). exists s'. split; [done|].
    split; [done|by apply (same_tx_inv q _ s)|by intros []].
  - by apply (send_ok d q).
  - by apply (transmit_ok q).
Qed.

Lemma run_queues os q s q' : nic_inv q s → q_run os q = Some q' → ∃ s', nic_run os s = Some (tt, s') ∧ nic_inv q' s'.
Proof.
  revert q s. induction os as [|o os IH]; intros q s H; cbn [q_run nic_run]; [intros [= <-]; by exists s|].
  destruct (q_step o q) as [q1|] eqn:E; [|done]. cbn [mbind option_bind]. intros Hr.
  destruct (step_ok o q s q1 H E) as (s1 & E1 & H1). destruct (IH q1 s1 H1 Hr) as (s2 & E2 & H2). exists s2. split; [|done]. unfold mbind, M_bind. by rewrite E1.
Qed.

(** ** The start *)

Lemma wait_reset_ok n fuel s : cd_cr (card s) = 0 → cd_resetting (card s) = n → (n < fuel)%nat →
  wait_reset fuel s = Some (tt, with_card (set_cr 0 0 (card s)) s).
Proof.
  revert n s. induction fuel as [|fuel IH]; intros n s Hc Hn Hf; [lia|]. cbn [wait_reset]. unfold reg_in, mbind, M_bind, get, put, card_read.
  change (RTL_CR =? RTL_CR) with true. cbn iota. rewrite Hc, Hn. destruct n as [|n], (cd_read (card s) =? cd_write (card s)); try reflexivity.
  all: cbn -[wait_reset set_cr with_card]; rewrite (IH n); [reflexivity|done|done|lia].
Qed.

(** The card when the kernel starts: it has an address, and the driver no frame in flight. *)
Definition fresh (s : nic_t) : Prop := length (cd_idr (card s)) = 6%nat ∧ 0 ≤ tx_cur s < 4 ∧ rx_callback s = true ∧ rtl_io s ≠ 0.
Definition empty_queues (s : nic_t) : queues := mk_queues [] (delivered s) [] (cd_wire (card s)).

Definition reset_card (k : card_t) : card_t :=
  mk_card 0x0C 0 (cd_idr k) rx_base 0 0 0x57 0 0x8E (replicate 4 0) (replicate 4 0) [] (cd_wire k).

Lemma start_card_eq fuel s : (reset_time < fuel)%nat → length (cd_idr (card s)) = 6%nat →
  start_card rx_buf reset_time fuel s = Some (tt, with_card (reset_card (card s)) (with_rx (rx_mem s) 0 (with_identity (rtl_io s) (rtl_irq s) (cd_idr (card s)) s))).
Proof.
  intros Hf Hl. destruct s as [io irq mac m off tm cur np nt cb dl k], k as [cr rs idr b r w im ii rc ta td st wi]. cbn in Hl.
  destruct idr as [|m0 [|m1 [|m2 [|m3 [|m4 [|m5 [|? ?]]]]]]]; try (cbn in Hl; lia). clear Hl.
  unfold start_card. do 2 (unfold mbind at 1, M_bind at 1; cbn [reg_out modify]). unfold mbind at 1, M_bind at 1.
  rewrite (wait_reset_ok reset_time) by done. reflexivity.
Qed.

Lemma started_inv s : fresh s → nic_inv (empty_queues s) (with_card (reset_card (card s)) (with_rx (rx_mem s) 0 (with_identity (rtl_io s) (rtl_irq s) (cd_idr (card s)) s))).
Proof.
  intros (H1 & H2 & H3 & H4). split; [split; try done|split; try done|by intros []].
  - exists 0. done.
  - cbn. lia.
  - exists (tx_cur s). split; [lia|]. split; [|done]. cbn. rewrite Z.add_0_r, Z.mod_small by lia. done.
Qed.
End spec.

(** ** The interrupt of the card *)

Definition line_open (c : cpu_t) (n : Z) : Prop :=
  if n <? 8 then Z.testbit (p_imr (c_master c)) n = false
  else Z.testbit (p_imr (c_slave c)) (n - 8) = false ∧ Z.testbit (p_imr (c_master c)) 2 = false.

Lemma clear_bit_clears n v : 0 ≤ n < 8 → 0 ≤ v < 256 → Z.testbit (u8 (clear_bit v n)) n = false.
Proof.
  intros Hn Hv. assert (H : Forall (λ n, Forall (λ v, Z.testbit (u8 (clear_bit v n)) n = false) (seqZ 0 256)) (seqZ 0 8)) by (apply (bool_decide_unpack _); vm_compute; done).
  rewrite Forall_forall in H. specialize (H n). rewrite Forall_forall in H. apply H; apply elem_of_seqZ; lia.
Qed.

Lemma unmask_opens c n : ready c → 0 ≤ n < 16 → ∃ c', pic_unmask_irq n c = Some (tt, c') ∧ ready c' ∧ line_open c' n ∧ c_pointers c' = c_pointers c.
Proof.
  intros H Hn. destruct (unmask_ready c n H Hn) as (m & s & E & H'). exists (set_pics m s c). split; [done|]. split; [done|]. split; [|done].
  destruct H as [Hm Hs _ _ _]. pose proof Hm as (M1 & _ & M2 & _). pose proof Hs as (S1 & _ & S2 & _).
  unfold line_open. unfold pic_unmask_irq in E. destruct (Z.ltb_spec n 8).
  - change (Some (tt, set_pics (pic_data (u8 (clear_bit (p_imr (c_master c)) n)) (c_master c)) (c_slave c) c) = Some (tt, set_pics m s c)) in E.
    injection E as E1 E2. cbn [c_master set_pics]. rewrite <- E1. unfold pic_data. rewrite M1. apply clear_bit_clears; [lia|done].
  - change (Some (tt, set_pics (pic_data (u8 (clear_bit (p_imr (c_master c)) 2)) (c_master c)) (pic_data (u8 (clear_bit (p_imr (c_slave c)) (n - 8))) (c_slave c)) c) = Some (tt, set_pics m s c)) in E.
    injection E as E1 E2. cbn [c_master c_slave set_pics]. rewrite <- E1, <- E2. unfold pic_data. rewrite M1, S1. split; apply clear_bit_clears; try done; lia.
Qed.

Section init.
Context (rx_buf tx_buf : Z) (reset_time : nat) (crc : list Z → Z).

Lemma on_nic_bind {A B} (m : M nic_t A) (f : A → M (nic_t * pci_t * cpu_t) B) s p c a s' : m s = Some (a, s') → (on_nic m ≫= f) (s, p, c) = f a (s', p, c).
Proof. intros E. unfold mbind, M_bind, on_nic. by rewrite E. Qed.
Lemma on_pci_bind {A B} (m : M pci_t A) (f : A → M (nic_t * pci_t * cpu_t) B) s p c a p' : m p = Some (a, p') → (on_pci m ≫= f) (s, p, c) = f a (s, p', c).
Proof. intros E. unfold mbind, M_bind, on_pci. by rewrite E. Qed.
Lemma on_irqs_bind {A B} (m : M cpu_t A) (f : A → M (nic_t * pci_t * cpu_t) B) s p c a c' : m c = Some (a, c') → (on_irqs m ≫= f) (s, p, c) = f a (s, p, c').
Proof. intros E. unfold mbind, M_bind, on_irqs. by rewrite E. Qed.

(** C35 (refinement): The network card with its driver is a pair of queues of frames.  When [rtl8139_init] finds the card on the bus, it ends, reads the address of the card, and installs and unmasks its
    interrupt.  From then on, under any interleaving of arriving frames, interrupts, polls, sends and transmissions, every operation returns; the callback has got the frames that the card has accepted
    from its ring, in order and unchanged, also where they cross the end of the ring; and the wire has got the frames that were sent, in order, provided that
    a frame is sent only while fewer than four are waiting. *)
Theorem nic_refines_queues (s : nic_t) (p : pci_t) (c : cpu_t) dev fuel handler :
  pci_find_device RTL_VENDOR_ID RTL_DEVICE_ID p = Some dev → Z.land (chr (d_bar dev) 0) 1 = 1 → Z.land (chr (d_bar dev) 0) 0xFFFC ≠ 0 → 1 ≤ d_irq_line dev < 16 →
  (reset_time < fuel)%nat → length (cd_idr (card s)) = 6%nat → 0 ≤ tx_cur s < 4 → ready c → KERNEL_VIRTUAL_BASE ≤ tx_buf → tx_buf + 4 * TX_BUF_SIZE ≤ 2 ^ 32 →
  ∃ s' p' c', rtl8139_init rx_buf reset_time fuel handler true (s, p, c) = Some (tt, (s', p', c')) ∧
    rtl8139_available s' = true ∧ rtl8139_get_mac s' = cd_idr (card s) ∧ handler_of c' (0x20 + d_irq_line dev) = handler ∧ line_open c' (d_irq_line dev) ∧
    ∀ os q, q_run os (empty_queues s) = Some q →
      ∃ s2, nic_run rx_buf tx_buf reset_time crc os s' = Some (tt, s2) ∧ delivered s2 = q_delivered q ∧ cd_wire (card s2) = q_wire q.
Proof.
  intros Hd Hb Hio Hirq Hf Hl Hc Hr T1 T2. unfold rtl8139_init. erewrite on_nic_bind by reflexivity.
  set (s0 := with_callback true (rx_packets s) (delivered s) s).
  change ((get ≫= ?f) (s0, p, c)) with (f (s0, p, c) (s0, p, c)). cbn beta iota. rewrite Hd, Hb. change (1 =? 0) with false. cbn iota.
  erewrite on_nic_bind by reflexivity. set (s1 := with_identity _ _ _ s0).
  destruct (pci_enable_bus_mastering dev p) as [[[] p']|] eqn:Ep; [|done]. erewrite on_pci_bind by exact Ep.
  erewrite on_nic_bind by (by apply start_card_eq). set (s2 := with_card _ _).
  rewrite (proj2 (Z.eqb_neq _ 0)), (proj2 (Z.eqb_neq _ 0xFF)) by lia. cbn [negb andb].
  assert (Eu : u8 (0x20 + d_irq_line dev) = 0x20 + d_irq_line dev) by (unfold u8; rewrite Z.mod_small; lia). rewrite Eu.
  set (c1 := set_handlers (<[Z.to_nat (0x20 + d_irq_line dev) := handler]> (c_pointers c)) (<[Z.to_nat (0x20 + d_irq_line dev) := Some (str "rtl_irq_handler")]> (c_names c)) (c_reported c) c).
  assert (Eh : register_interrupt_handler (0x20 + d_irq_line dev) handler (str "rtl_irq_handler") c = Some (tt, c1)).
  { unfold register_interrupt_handler, mbind, M_bind, get, lift, put. by rewrite !zupdate_Some by (rewrite ?(rd_pointers _ Hr), ?(rd_names _ Hr); lia). }
  erewrite on_irqs_bind by exact Eh.
  destruct (unmask_opens c1 (d_irq_line dev)) as (c2 & E2 & R2 & O2 & P2); [|lia|].
  { destruct Hr as [H1 H2 H3 H4 H5]. split; try done; cbn; by rewrite length_insert. }
  exists s2, p', c2. unfold on_irqs. rewrite E2. split; [done|]. split; [by apply negb_true_iff, Z.eqb_neq|]. split; [done|]. split; [|split; [done|]].
  - unfold handler_of. rewrite P2, zlookup_nonneg by lia. cbn [c_pointers c1 set_handlers]. rewrite list_lookup_insert_eq; [done|]. rewrite (rd_pointers _ Hr). lia.
  - intros os q Hq. assert (Hi : nic_inv rx_buf tx_buf crc (empty_queues s1) s2) by (by apply started_inv).
    destruct (run_queues rx_buf tx_buf reset_time crc (conj T1 T2) os _ s2 q Hi Hq) as (s3 & E3 & [R3 T3 _]).
    exists s3. split; [done|]. split; [apply R3|apply T3].
Qed.
End init.

(** ** A machine with a card *)

Definition demo_card : card_t := mk_card 0 0 [0x52; 0x54; 0; 0x12; 0x34; 0x56] 0 0 0 0 0 0 (replicate 4 0) (replicate 4 0) [] [].
Definition demo_nic : nic_t := mk_nic 0 0 [] ∅ 0 ∅ 0 0 0 false [] demo_card.
Definition demo_pci : pci_t := default (mk_pci_state 0 ∅ []) demo_scan.
Definition demo_dev : pci_device_t := default (mk_pci_device 0 0 0 0 0 0 0 0 []) (pci_find_device RTL_VENDOR_ID RTL_DEVICE_ID demo_pci).
Definition demo_ops : list nic_op := [NArrive [1; 2; 3]; NArrive [4]; NIrq; NSend [9; 8]; NTransmit; NArrive [5]; NPoll].

Lemma nic_refines_queues_witness : ∃ s' p' c' s2, rtl8139_init 0xC0400000 2 3 0xC0104000 true (demo_nic, demo_pci, mouse_interrupt) = Some (tt, (s', p', c')) ∧
  nic_run 0xC0400000 0xC0410000 2 (λ _, 0) demo_ops s' = Some (tt, s2) ∧ delivered s2 = [[1; 2; 3]; [4]; [5]] ∧ cd_wire (card s2) = [[9; 8]].
Proof.
  destruct (nic_refines_queues 0xC0400000 0xC0410000 2 (λ _, 0) demo_nic demo_pci mouse_interrupt demo_dev 3 0xC0104000)
    as (s' & p' & c' & E & _ & _ & _ & _ & H).
  - vm_compute. reflexivity.
  - vm_compute. reflexivity.
  - vm_compute. discriminate.
  - vm_compute. split; [discriminate|reflexivity].
  - lia.
  - reflexivity.
  - cbn. lia.
  - apply mouse_interrupt_ready.
  - unfold KERNEL_VIRTUAL_BASE. lia.
  - unfold TX_BUF_SIZE. lia.
  - destruct (H demo_ops (mk_queues [] [[1; 2; 3]; [4]; [5]] [] [[9; 8]])) as (s2 & E2 & D & W); [vm_compute; reflexivity|].
    exists s', p', c', s2. split; [exact E|]. split; [exact E2|]. split; [exact D|exact W].
Defined.

(** A frame of full size at the last place of the ring ends two bytes behind the buffer. *)
Definition full_ring : nic_t := with_card (set_ring 0x400000 8188 8188 (set_cr 0x0C 0 demo_card)) demo_nic.
Example full_frame_overruns :
  ('(_, s) ← card_receive (λ _, 0xAABBCCDD) (replicate 1514 1) full_ring; Some (rx_mem s !! (0x400000 + RX_BUF_SIZE), rx_mem s !! (0x400000 + RX_BUF_SIZE + 1))) = Some (Some 0xBB, Some 0xAA).
Proof. vm_compute. reflexivity. Qed.

(** A fifth frame before the first is on the wire takes its place. *)
Example fifth_frame_overwrites :
  ('(_, s) ← nic_run 0xC0400000 0xC0410000 2 (λ _, 0) [NSend [1]; NSend [2]; NSend [3]; NSend [4]; NSend [5]; NTransmit; NTransmit] (with_identity 0xC000 11 [] demo_nic); Some (cd_wire (card s))) =
  Some [[5]; [2]].
Proof. vm_compute. reflexivity. Qed.
