(* ===== verification/Boot.v ===== *)
(** * What the boot loader says
    ([src/src/kernel.c], [src/src/boot/multiboot.c], [src/src/arch/i686/util.c])

    The words of the command line and the program that they select, the size of the memory from the map of the boot loader, and the
    identification of the processor. *)

From S2P Require Import Prelude Bytes Paging.

(** ** The command line *)

Fixpoint skip_blanks (p : list Z) : list Z := match p with c :: p' => if c =? 32 then skip_blanks p' else p | [] => [] end.
(** A word and what follows it. *)
Fixpoint next_word (p : list Z) : list Z * list Z :=
  match p with
  | [] => ([], [])
  | c :: p' => if c =? 32 then ([], p) else let '(w, r) := next_word p' in (c :: w, r)
  end.

(** The loop over the words: [f] says whether it is left, and with which result. *)
Fixpoint word_loop {A} (fuel : nat) (f : list Z → option A) (p : list Z) : option (option A) :=
  match p with
  | [] => Some None
  | _ =>
    match fuel with
    | O => None
    | S fuel =>
      match skip_blanks p with
      | [] => Some None
      | p => let '(w, r) := next_word p in match f w with Some a => Some (Some a) | None => word_loop fuel f r end
      end
    end
  end.

(** [None] stands for a null pointer; the outer option is that of the loop. *)
Definition cmdline_has_token (cmdline : option (list Z)) (token : list Z) : option Z :=
  match cmdline, token with
  | None, _ | _, [] => Some 0
  | Some p, _ => r ← word_loop (length p) (λ w, if bool_decide (w = token) then Some 1 else None) p; Some (default 0 r)
  end.

(** The value, cut to the buffer, if there is one. *)
Definition cmdline_get_value (cmdline : option (list Z)) (key : list Z) (out_cap : Z) : option (option (list Z)) :=
  match cmdline, key with
  | None, _ | _, [] => Some None
  | Some p, _ =>
    if out_cap <? 2 then Some None else
    let klen := length key in
    word_loop (length p) (λ w,
      if (klen + 1 <? length w)%nat && (chr w klen =? 61) && bool_decide (take klen w = key) then
        let vlen := (length w - (klen + 1))%nat in
        let vlen := if out_cap <=? Z.of_nat vlen then Z.to_nat (out_cap - 1) else vlen in
        Some (take vlen (drop (klen + 1) w))
      else None) p
  end.

Definition str_ends_with (s sfx : list Z) : bool := if (length s <? length sfx)%nat then false else bool_decide (drop (length s - length sfx) s = sfx).

(** The path of the first program in [kernel_main]. *)
Definition boot_program (cmdline : option (list Z)) : option (list Z) :=
  v ← cmdline_get_value cmdline (str "autorun") 64;
  match v with
  | None => Some (str "bin/init.elf")
  | Some autorun_name =>
    let n := if (72 - 5 <=? length autorun_name)%nat then (72 - 5)%nat else length autorun_name in
    let prog := str "bin/" ++ take n autorun_name in
    Some (if negb (str_ends_with prog (str ".elf")) && (4 + n + 4 <? 72)%nat then prog ++ str ".elf" else prog)
  end.

(** ** The memory map *)

Record multiboot_memory_map_t := mk_mmap { mm_size : Z; mm_base_low : Z; mm_base_high : Z; mm_len_low : Z; mm_len_high : Z; mm_type : Z }.
Definition MULTIBOOT_FLAG_MMAP : Z := 0x040.

Section mmap.
(** The words of the memory. *)
Context (word : Z → Z).

Definition read_entry (offset : Z) : multiboot_memory_map_t :=
  mk_mmap (word offset) (word (u32 (offset + 4))) (word (u32 (offset + 8))) (word (u32 (offset + 12))) (word (u32 (offset + 16))) (word (u32 (offset + 20))).

Definition usable_end (e : multiboot_memory_map_t) (ram_top : Z) : Z :=
  if (mm_type e =? 1) && (mm_base_high e =? 0) then
    let end_ := u32 (mm_base_low e + mm_len_low e) in
    if (mm_len_high e =? 0) && (mm_base_low e <? end_) then if ram_top <? end_ then end_ else ram_top else ram_top
  else ram_top.

Fixpoint mmap_loop (fuel : nat) (offset mmap_end ram_top : Z) : option Z :=
  if offset <? mmap_end then
    match fuel with
    | O => None
    | S fuel => let e := read_entry offset in mmap_loop fuel (u32 (offset + (mm_size e + 4))) mmap_end (usable_end e ram_top)
    end
  else Some ram_top.

(** The fields of the record of the boot loader, if there is one. *)
Definition multiboot_detect_ram_top (fuel : nat) (info : option (Z * Z * Z)) (cap_bytes : Z) : option Z :=
  match info with
  | None => Some 0
  | Some (flags, map_addr, map_length) =>
    if Z.land flags MULTIBOOT_FLAG_MMAP =? 0 then Some 0 else
    let mmap_addr := PHYS_TO_KVIRT map_addr in
    ram_top ← mmap_loop fuel mmap_addr (u32 (mmap_addr + map_length)) 0;
    Some (if cap_bytes <? ram_top then cap_bytes else ram_top)
  end.
End mmap.

(** ** The processor *)

Record cpuid_t := mk_cpuid { id_vendor : list Z; id_max_leaf : Z; id_family : Z; id_model : Z; id_stepping : Z; id_ecx : Z; id_edx : Z }.

(** [cpuid] gives the registers eax, ebx, ecx and edx for a leaf. *)
Definition cpu_get_info (cpuid : Z → Z * Z * Z * Z) : cpuid_t :=
  let '(eax0, ebx0, ecx0, edx0) := cpuid 0 in
  let '(eax, ebx, ecx, edx) := cpuid 1 in
  let stepping := Z.land eax 0xF in
  let model := Z.land (Z.shiftr eax 4) 0xF in
  let family := Z.land (Z.shiftr eax 8) 0xF in
  let ext_model := Z.land (Z.shiftr eax 16) 0xF in
  let ext_family := Z.land (Z.shiftr eax 20) 0xFF in
  mk_cpuid (le32 ebx0 ++ le32 edx0 ++ le32 ecx0) eax0
    (if family =? 0xF then family + ext_family else family)
    (if (family =? 0x6) || (family =? 0xF) then model + Z.shiftl ext_model 4 else model) stepping ecx edx.

(** ** The words of a line *)

Definition word_ok (w : list Z) : Prop := w ≠ [] ∧ Forall (λ c, c ≠ 32) w.

(** [ws] are the words of the line [p]. *)
Inductive words_of : list Z → list (list Z) → Prop :=
  | words_end : words_of [] []
  | words_blank p ws : words_of p ws → words_of (32 :: p) ws
  | words_word w p ws : word_ok w → (p = [] ∨ head p = Some 32) → words_of p ws → words_of (w ++ p) (w :: ws).

Lemma skip_words p ws : words_of p ws → words_of (skip_blanks p) ws ∧ (length (skip_blanks p) ≤ length p)%nat.
Proof.
  induction 1 as [|p ws H [IH1 IH2]|w p ws [Hne Hw] Hp H _]; cbn [skip_blanks]; [by split; constructor| |].
  - change (32 =? 32) with true. cbn iota. split; [done|]. cbn [length]. lia.
  - destruct w as [|c w]; [done|]. cbn [app skip_blanks]. apply Forall_cons in Hw as [Hc Hw]. rewrite (proj2 (Z.eqb_neq _ _) Hc).
    split; [|done]. change (c :: w ++ p) with ((c :: w) ++ p). constructor; [|done|done]. split; [done|by constructor].
Qed.

Lemma next_word_eq w p : Forall (λ c, c ≠ 32) w → p = [] ∨ head p = Some 32 → next_word (w ++ p) = (w, p).
Proof.
  intros Hw Hp. induction Hw as [|c w Hc _ IH]; cbn [app next_word].
  - destruct Hp as [->|Hp]; [done|]. destruct p as [|c p]; [done|]. injection Hp as ->. done.
  - by rewrite (proj2 (Z.eqb_neq _ _) Hc), IH.
Qed.

Definition first_word {A} (f : list Z → option A) (ws : list (list Z)) : option A := head (omap f ws).

Lemma word_loop_ok {A} (f : list Z → option A) fuel p ws : words_of p ws → (length p ≤ fuel)%nat → word_loop fuel f p = Some (first_word f ws).
Proof.
  revert p ws. induction fuel as [|fuel IH]; intros p ws H Hl.
  { destruct p; [|cbn in Hl; lia]. inversion H as [| |w p ws' [Hw _] _ _ E]; subst; [done|]. by destruct w. }
  destruct p as [|c p0].
  { inversion H as [| |w p ws' [Hw _] _ _ E]; subst; [done|]. by destruct w. }
  cbn [word_loop]. destruct (skip_words _ _ H) as [H' Hl']. remember (c :: p0) as p eqn:Ep.
  destruct (skip_blanks p) as [|d q] eqn:Eq; [by inversion H' as [| |w p' ws' [Hw _] _ _ E]; subst; [|destruct w]|].
  inversion H' as [|p' ws' Hp' E|w p' ws' [Hne Hw] Hp Hp' E]; subst.
  - exfalso. clear -Eq. assert (G : ∀ l d q, skip_blanks l = d :: q → d ≠ 32).
    { intros l. induction l as [|x l IHl]; intros e r; cbn; [done|]. destruct (Z.eqb_spec x 32); [apply IHl|intros [= -> _]; done]. }
    by apply G in Eq.
  - rewrite next_word_eq by done. unfold first_word. cbn [omap list_omap]. destruct (f w) as [a|]; [done|]. apply IH; [done|].
    assert (length (w ++ p') ≤ S fuel)%nat by (rewrite E in *; cbn [length] in *; lia). rewrite length_app in *. destruct w; [done|]. cbn [length] in *. lia.
Qed.

Lemma words_exist p : ∃ ws, words_of p ws.
Proof.
  assert (G : ∀ n p, (length p ≤ n)%nat → ∃ ws, words_of p ws); [|by apply (G (length p))].
  induction n as [|n IH]; intros q Hq; [destruct q; [by eexists; constructor|cbn in Hq; lia]|].
  destruct q as [|c q]; [by eexists; constructor|]. cbn [length] in Hq. destruct (decide (c = 32)) as [->|Hc].
  - destruct (IH q) as [ws H]; [lia|]. eexists. by constructor.
  - assert (S : ∃ w r, c :: q = w ++ r ∧ word_ok w ∧ (r = [] ∨ head r = Some 32)).
    { clear IH Hq n. revert c Hc. induction q as [|d q IH]; intros c Hc.
      - exists [c], []. split; [done|]. split; [split; [done|by repeat constructor]|by left].
      - destruct (decide (d = 32)) as [->|Hd].
        + exists [c], (32 :: q). split; [done|]. split; [split; [done|by repeat constructor]|by right].
        + destruct (IH d Hd) as (w & r & E & [Hw1 Hw2] & Hr). exists (c :: w), r. cbn [app]. rewrite E. split; [done|]. split; [split; [done|by constructor]|done]. }
    destruct S as (w & r & E & Hw & Hr). destruct (IH r) as [ws H].
    + assert (L : length (c :: q) = length (w ++ r)) by (by rewrite E). rewrite length_app in L. cbn [length] in L. destruct Hw as [Hw _]. destruct w; [done|]. cbn [length] in L. lia.
    + exists (w :: ws). rewrite E. by constructor.
Qed.


(** What follows the prefix [k]. *)
Fixpoint strip (k w : list Z) : option (list Z) :=
  match k, w with
  | [], _ => Some w
  | c :: k, d :: w => if c =? d then strip k w else None
  | _, [] => None
  end.
Definition value_of (key w : list Z) : option (list Z) := match strip key w with Some (61 :: c :: v) => Some (c :: v) | _ => None end.

Lemma strip_spec k w r : strip k w = Some r ↔ w = k ++ r.
Proof.
  revert w. induction k as [|c k IH]; intros w; cbn [strip app]; [split; congruence|]. destruct w as [|d w]; [split; congruence|].
  destruct (Z.eqb_spec c d) as [->|]; [rewrite IH|]; split; congruence.
Qed.

Lemma get_value_test key w cap : 2 ≤ cap →
  (if (length key + 1 <? length w)%nat && (chr w (length key) =? 61) && bool_decide (take (length key) w = key) then
     let vlen := (length w - (length key + 1))%nat in let vlen := if cap <=? Z.of_nat vlen then Z.to_nat (cap - 1) else vlen in Some (take vlen (drop (length key + 1) w))
   else None) = take (Z.to_nat (cap - 1)) <$> value_of key w.
Proof.
  intros Hc. unfold value_of. destruct (strip key w) as [r|] eqn:E.
  - apply strip_spec in E as ->. rewrite take_app_length, bool_decide_true, andb_true_r by done. rewrite length_app. unfold chr. rewrite lookup_app_r, Nat.sub_diag by lia.
    destruct r as [|c r]; cbn [length]; [rewrite (proj2 (Nat.ltb_ge _ _)) by lia; done|]. cbn [lookup list_lookup default]. unfold id.
    destruct (Z.eqb_spec c 61) as [->|Hne].
    + destruct r as [|d r]; [rewrite (proj2 (Nat.ltb_ge _ _)) by (cbn; lia); done|]. cbn [length]. rewrite (proj2 (Nat.ltb_lt _ _)) by lia. cbn [andb fmap option_fmap option_map].
      rewrite <- drop_drop, drop_app_length. cbn [drop]. f_equal.
      destruct (Z.leb_spec cap (Z.of_nat (length key + S (S (length r)) - (length key + 1)))); [done|]. rewrite !take_ge by (cbn [length]; lia). done.
    + rewrite andb_false_r. destruct c as [|c|c]; try done. repeat (destruct c as [c|c|]; try done).
  - rewrite bool_decide_false, andb_false_r; [done|]. intros Ht. assert (E' : strip key w = Some (drop (length key) w)); [|congruence].
    apply strip_spec. by rewrite <- Ht at 1; rewrite take_drop.
Qed.

Lemma get_value_ok p ws key cap : words_of p ws → key ≠ [] → 2 ≤ cap → cmdline_get_value (Some p) key cap = Some (take (Z.to_nat (cap - 1)) <$> first_word (value_of key) ws).
Proof.
  intros H Hk Hcap. destruct key as [|c key]; [done|]. unfold cmdline_get_value. rewrite (proj2 (Z.ltb_ge _ _)) by lia.
  rewrite (word_loop_ok _ _ _ ws) by done. f_equal. unfold first_word. clear H. induction ws as [|w ws IH]; [done|]. cbn [omap list_omap].
  rewrite get_value_test by done. destruct (value_of (c :: key) w); [done|]. exact IH.
Qed.

(** The command line is read word by word: [cmdline_has_token] finds a word of the line, and [cmdline_get_value] the value of the first word
    of the form [key=value] with a value, cut to the buffer; both end.  The first program is that of the word [autorun=], below [bin/] and with its extension, or else [bin/init.elf]. *)
Theorem cmdline_correct p ws :
  words_of p ws →
  (∀ token, token ≠ [] → cmdline_has_token (Some p) token = Some (if decide (token ∈ ws) then 1 else 0)) ∧
  (∀ key cap, key ≠ [] → 2 ≤ cap → cmdline_get_value (Some p) key cap = Some (take (Z.to_nat (cap - 1)) <$> first_word (value_of key) ws)) ∧
  boot_program (Some p) = Some (match first_word (value_of (str "autorun")) ws with
    | None => str "bin/init.elf"
    | Some v => let path := str "bin/" ++ take 63 v in if str_ends_with path (str ".elf") then path else path ++ str ".elf"
    end).
Proof.
  intros H. split; [|split].
  - intros token Ht. destruct token as [|c token]; [done|]. unfold cmdline_has_token. rewrite (word_loop_ok _ _ _ ws) by done. cbn [mbind option_bind]. f_equal.
    unfold first_word. clear H. induction ws as [|w ws IH]; [by rewrite decide_False by set_solver|]. cbn [omap list_omap].
    destruct (decide (w = c :: token)) as [->|Hne].
    + rewrite bool_decide_true by done. rewrite decide_True by constructor. done.
    + rewrite bool_decide_false by done. rewrite IH. destruct (decide (c :: token ∈ ws)), (decide (c :: token ∈ w :: ws)); try done; set_solver.
  - intros key cap Hk Hcap. by apply get_value_ok.
  - unfold boot_program. rewrite (get_value_ok p ws) by done. cbn [mbind option_bind]. destruct (first_word (value_of (str "autorun")) ws) as [v|]; [|done].
    cbn [fmap option_fmap option_map]. change (Z.to_nat (64 - 1)) with 63%nat. pose proof (length_take v 63). set (v' := take 63 v) in *.
    rewrite (proj2 (Nat.leb_gt _ _)) by lia. rewrite take_ge by done. rewrite (proj2 (Nat.ltb_lt _ _)) by lia. rewrite andb_true_r. by destruct (str_ends_with _ _).
Qed.

Lemma cmdline_correct_witness : cmdline_get_value (Some (str "quiet  serial=1 autorun=doom x")) (str "autorun") 64 = Some (Some (str "doom")) ∧
  boot_program (Some (str "quiet  serial=1 autorun=doom x")) = Some (str "bin/doom.elf").
Proof.
  destruct (cmdline_correct (str "quiet  serial=1 autorun=doom x") [str "quiet"; str "serial=1"; str "autorun=doom"; str "x"]) as (_ & H2 & H3).
  - apply (words_word (str "quiet")); [by split; [|repeat constructor]|by right|]. do 2 apply words_blank.
    apply (words_word (str "serial=1")); [by split; [|repeat constructor]|by right|]. apply words_blank.
    apply (words_word (str "autorun=doom")); [by split; [|repeat constructor]|by right|]. apply words_blank.
    apply (words_word (str "x") []); [by split; [|repeat constructor]|by left|constructor].
  - split; [rewrite (H2 (str "autorun") 64) by (done || lia); reflexivity|]. rewrite H3. reflexivity.
Defined.

(** ** The top of the memory *)

Definition usable (e : multiboot_memory_map_t) : option Z :=
  if (mm_type e =? 1) && (mm_base_high e =? 0) && (mm_len_high e =? 0) && (0 <? mm_len_low e) && (mm_base_low e + mm_len_low e <? 2 ^ 32)
  then Some (mm_base_low e + mm_len_low e) else None.
Definition ram_end (es : list multiboot_memory_map_t) : Z := foldr Z.max 0 (omap usable es).

Section map.
Context (word : Z → Z).

Definition entry_ok (e : multiboot_memory_map_t) : Prop := is_u32 (mm_base_low e) ∧ is_u32 (mm_len_low e) ∧ 20 ≤ mm_size e.
Fixpoint laid_out (a : Z) (es : list multiboot_memory_map_t) (stop : Z) : Prop :=
  match es with [] => a = stop | e :: es => read_entry word a = e ∧ entry_ok e ∧ laid_out (a + (mm_size e + 4)) es stop end.

Lemma usable_end_ok e top : entry_ok e → 0 ≤ top → usable_end e top = Z.max (default 0 (usable e)) top.
Proof.
  intros (H1 & H2 & H3) Ht. unfold usable_end, usable, is_u32 in *. destruct (mm_type e =? 1), (mm_base_high e =? 0), (mm_len_high e =? 0); cbn [andb default]; try lia.
  destruct (Z.ltb_spec 0 (mm_len_low e)); cbn [andb].
  - destruct (Z.ltb_spec (mm_base_low e + mm_len_low e) (2 ^ 32)); cbn [default]; unfold id.
    + unfold u32. rewrite Z.mod_small by lia. rewrite (proj2 (Z.ltb_lt (mm_base_low e) _)) by lia. destruct (Z.ltb_spec top (mm_base_low e + mm_len_low e)); lia.
    + assert (E : u32 (mm_base_low e + mm_len_low e) = mm_base_low e + mm_len_low e - 2 ^ 32) by (unfold u32; Z.div_mod_to_equations; lia).
      rewrite E, (proj2 (Z.ltb_ge (mm_base_low e) _)) by lia. lia.
  - replace (mm_len_low e) with 0 by lia. rewrite Z.add_0_r, u32_small by done. rewrite Z.ltb_irrefl. cbn [default]. lia.
Qed.

Lemma laid_out_le a es stop : laid_out a es stop → a + 24 * Z.of_nat (length es) ≤ stop.
Proof. revert a. induction es as [|e es IH]; intros a; cbn [laid_out length]; [lia|]. intros (_ & (_ & _ & H) & H'%IH). lia. Qed.

Lemma ram_end_cons e es : ram_end (e :: es) = Z.max (default 0 (usable e)) (ram_end es) ∧ 0 ≤ ram_end es.
Proof.
  assert (P : ∀ es, 0 ≤ ram_end es) by (intros l; unfold ram_end; induction (omap usable l); cbn; lia).
  split; [|done]. unfold ram_end. cbn [omap list_omap]. specialize (P es). unfold ram_end in P. destruct (usable e); cbn [foldr default]; [done|]. lia.
Qed.

Lemma mmap_loop_ok fuel a es stop top : laid_out a es stop → 0 ≤ a → 0 ≤ top → stop < 2 ^ 32 → (length es ≤ fuel)%nat → mmap_loop word fuel a stop top = Some (Z.max (ram_end es) top).
Proof.
  revert a es top. induction fuel as [|fuel IH]; intros a es top H Ha Ht Hs Hf; pose proof (laid_out_le _ _ _ H) as Hle.
  all: destruct es as [|e es]; [cbn [laid_out] in H; subst a; cbn [mmap_loop]; rewrite Z.ltb_irrefl; unfold ram_end; cbn; f_equal; lia|]; cbn [length] in *; try lia.
  destruct H as (E & He & H). pose proof (laid_out_le _ _ _ H) as Hle'. pose proof He as (_ & _ & H20). cbn [mmap_loop]. rewrite (proj2 (Z.ltb_lt a stop)) by lia. rewrite E, u32_small by (unfold is_u32; lia).
  destruct (ram_end_cons e es) as [Er Hr]. rewrite usable_end_ok by done. rewrite (IH _ es) by (try done; lia). f_equal. lia.
Qed.
End map.

(** From a well-formed memory map of the boot loader, [multiboot_detect_ram_top] ends with the highest end of the regions of usable memory below 4 GB,
    or with the limit if that is lower. *)
Theorem detect_ram_top_correct word fuel flags map_addr map_length cap es :
  Z.testbit flags 6 = true → laid_out word (PHYS_TO_KVIRT map_addr) es (PHYS_TO_KVIRT map_addr + map_length) → PHYS_TO_KVIRT map_addr + map_length < 2 ^ 32 → (length es ≤ fuel)%nat →
  multiboot_detect_ram_top word fuel (Some (flags, map_addr, map_length)) cap = Some (Z.min cap (ram_end es)).
Proof.
  intros Hb H Hs Hf. unfold multiboot_detect_ram_top. destruct (Z.eqb_spec (Z.land flags MULTIBOOT_FLAG_MMAP) 0) as [E|_].
  { assert (T : Z.testbit (Z.land flags MULTIBOOT_FLAG_MMAP) 6 = true) by (by rewrite Z.land_spec, Hb). by rewrite E in T. }
  pose proof (u32_range (map_addr + KERNEL_VIRTUAL_BASE)) as Ha. fold (PHYS_TO_KVIRT map_addr) in Ha. unfold is_u32 in Ha. pose proof (laid_out_le _ _ _ _ H) as Hle.
  rewrite u32_small by (unfold is_u32; lia). rewrite (mmap_loop_ok word fuel _ es) by (done || lia). cbn [mbind option_bind].
  destruct (ram_end_cons (mk_mmap 0 0 0 0 0 0) es) as [_ Hr]. rewrite Z.max_l by lia. f_equal. destruct (Z.ltb_spec cap (ram_end es)); lia.
Qed.

(** A map as the firmware of a PC with 128 MB gives it. *)
Definition pc_map : list multiboot_memory_map_t :=
  [mk_mmap 20 0 0 0x9FC00 0 1; mk_mmap 20 0x9FC00 0 0x400 0 2; mk_mmap 20 0x100000 0 0x7EE0000 0 1; mk_mmap 20 0x7FE0000 0 0x20000 0 2].
Definition map_words (a : Z) (es : list multiboot_memory_map_t) (x : Z) : Z :=
  default 0 (zlookup (concat ((λ e, [mm_size e; mm_base_low e; mm_base_high e; mm_len_low e; mm_len_high e; mm_type e]) <$> es)) ((x - a) / 4)).

Lemma detect_ram_top_correct_witness : multiboot_detect_ram_top (map_words 0xC0009000 pc_map) 4 (Some (0x4F, 0x9000, 96)) 0x40000000 = Some 0x7FE0000.
Proof.
  apply (detect_ram_top_correct (map_words 0xC0009000 pc_map) 4 0x4F 0x9000 96 0x40000000 pc_map).
  - reflexivity.
  - change (PHYS_TO_KVIRT 0x9000) with 0xC0009000. cbn [laid_out pc_map]. unfold entry_ok, is_u32. repeat (split; [reflexivity|]; split; [cbn; lia|]). reflexivity.
  - reflexivity.
  - cbn. lia.
Defined.

(** A reserved region below the last usable one counts as memory, and a region up to 4 GB does not count at all. *)
Example hole_counts : ram_end [mk_mmap 20 0x100000 0 0xF00000 0 1; mk_mmap 20 0x1000000 0 0x1000000 0 2; mk_mmap 20 0x2000000 0 0x1000000 0 1] = 0x3000000.
Proof. reflexivity. Qed.
Example end_of_4gb : usable_end (mk_mmap 20 0x100000 0 0xFFF00000 0 1) 0 = 0.
Proof. reflexivity. Qed.
